(* ===== verification/_CoqProject ===== *)
-Q . S2P
Prelude.v
GoStrings.v
Sorting.v
Unstructured.v
Http.v
AuthPolicyChecker.v
SubscriptionTypes.v
Selector.v
SelectionCorrectness.v
SubscriptionHandlerCorrectness.v
Regex.v
GoTime.v
Runtime.v
Sha256.v
KeyGen.v
KeyGenCorrectness.v
ApiKeyTypes.v
KeyStore.v
PostgresStore.v
PostgresFacts.v
KeyService.v
KeyExamples.v
KeyServiceCorrectness.v
PostgresCorrectness.v
KeyHandler.v
KeyHandlerCorrectness.v
DebounceCorrectness.v
AdminCacheCorrectness.v
Trimming.v
Json.v
Headers.v
HeadersCorrectness.v
ModelList.v
ModelsHandler.v
ModelsHandlerCorrectness.v
SpecCompare.v
GoFmt.v
MaasTypes.v
TokenLimits.v
Cluster.v
ControllerHelpers.v
ModelProviders.v
SubscriptionController.v
SubscriptionReconcile.v
ControllerFacts.v
ModelProviderFacts.v
SubscriptionPolicies.v
SubscriptionModelFacts.v
SubscriptionReconcileFacts.v
SubscriptionLoopFacts.v
SubscriptionExamples.v
SubscriptionControllerCorrectness.v
GatewayAuthSpec.v
ConflictDetection.v
AuthPolicyGateway.v
AuthPolicyController.v
ModelRefController.v
TenantCluster.v
AITenantParts.v
AITenantController.v
PlatformParams.v
Platform.v
Manifests.v
Rendering.v
TenantConfigController.v
Admission.v
AITenantFacts.v
AITenantLoopFacts.v
AITenantCorrectness.v
AdmissionCorrectness.v
AuthGatewayFacts.v
TenantConfigFacts.v
TenantConfigCorrectness.v
RenderingCorrectness.v
ModelRefFacts.v
AuthLoopFacts.v
AuthReconcileFacts.v
AuthPolicyExamples.v
AuthPolicyControllerCorrectness.v
ModelRefCorrectness.v
