(* ===== verification/Prelude.v ===== *)
(** * Models-as-a-Service, verified

    A development about the two programs of the repository: [maas-api], the Go
    service that mints and validates API keys for a gateway serving language
    models, decides which subscription pays for a request, and lists the models a
    caller may use; and [maas-controller], the Kubernetes controllers that turn
    the custom resources of the platform into gateway policies. The sources are
    under [src/maas-api] and [src/maas-controller]; every definition that
    translates code carries a tag [[src/path:first-last] symbol] in its comment.

    ** The program and how its parts interact

    The gateway authenticates a caller and forwards a user name and groups in
    headers; a middleware ([internal/token]) turns them into the user of the
    request. Handlers ([internal/api_keys/handler.go],
    [internal/subscription/handler.go], [internal/handlers/models.go]) read that
    user and call: the key service ([api_keys/service.go]), which generates keys
    ([keygen.go]) and keeps their metadata in a store ([store_postgres.go]); the
    subscription selector ([subscription/selector.go]), which reads
    MaaSSubscription objects from an informer cache and asks the policy checker
    ([authpolicy/checker.go]) which models the caller's policies grant; and the
    administrator checker ([internal/auth]), a cache over Kubernetes subject
    access reviews. The key service itself calls the selector when a key is
    minted. During inference the gateway calls the validation endpoint and the
    selection endpoint.

    The objects [maas-api] reads are written by the controllers. The subscription
    controller keeps one TokenRateLimitPolicy per model, which aggregates the
    limits of all its subscriptions, and records in each subscription's status
    the phase that the selector of [maas-api] goes by. The policy controller keeps
    one AuthPolicy per gateway, whose rules make the gateway call the validation
    and selection endpoints, removes the policies earlier versions generated for
    each model once the new one is enforced, and records in each MaaSAuthPolicy
    whether it is in force and which policies of others get in its way. The model
    controller finds, through the backend of each MaaSModelRef, the route, gateway
    and tenant that serve it, and records its endpoint, its name in requests and a
    phase, which is what the listing of [maas-api] reads. The tenant controller
    provides an AITenant with a namespace, configuration, roles and the claim on a
    gateway; the other controllers find tenants by the labels it puts on namespaces
    and the gateway it records. The configuration controller brings up the platform
    of a tenant, its own deployment of [maas-api] and the filters on its gateway,
    and takes it down; admission webhooks keep tenants on different gateways, and
    subscriptions and policies in the namespaces of tenants.

    ** Files

    Support, each as far as the code uses it:
    - [Prelude]: results, boolean tests, tactics, list lemmas, 64-bit wrap-around;
    - [GoStrings], [Trimming], [Regex]: Go's byte strings, trimming and
      fields, runes, regular expressions by derivatives (proved to accept the
      language of the expression);
    - [Sorting]: [sort.SliceStable] as an insertion sort with its uniqueness, and
      [sort.Slice] as a class of sorting functions;
    - [GoTime]: durations and instants in nanoseconds, RFC 3339;
    - [Json]: [json.Unmarshal] into a slice of strings, and into and from a map of
      such slices, with their round trip;
    - [Sha256]: SHA-256 and hexadecimal text, executable;
    - [Unstructured]: decoded Kubernetes objects; the accessors of apimachinery
      are the class [ApiMachinery], with one instance of their documentation;
    - [Runtime]: programs that read a clock, an entropy source and UUIDs (class
      [Env]) and thread a state; every reading is at a tick of its own;
    - [Http]: users, status codes, JSON answers.

    Components, with their facts and their properties:
    - [AuthPolicyChecker] (Module [Checker]): [authpolicy/checker.go];
    - [SubscriptionTypes] (Module [Sub]), [Selector]: [subscription/types.go] and
      [selector.go]; [SelectionCorrectness];
    - [SubscriptionHandlerCorrectness] (Module [SubHandler]):
      [subscription/handler.go] and its properties;
    - [KeyGen], [KeyGenCorrectness]: [api_keys/keygen.go];
    - [ApiKeyTypes] (Module [Keys]): [api_keys/types.go];
    - [KeyStore] (Module [Store]): [api_keys/store_interface.go] as the class
      [MetadataStore], its laws as the class [StoreLaws], stated over an abstract
      content, a map from key IDs to views, and sequences of calls;
    - [PostgresStore] (Module [PG]): [api_keys/store_postgres.go]; a table is a
      map from IDs to rows, a statement reads or writes it at one tick and may
      fail before or after taking effect; [PostgresFacts] proves [StoreLaws];
      [PostgresCorrectness];
    - [KeyService] (Module [Service]): [api_keys/service.go], over any
      [MetadataStore]; [KeyServiceCorrectness]; [KeyExamples]
      is a concrete deployment;
    - [KeyHandler], [KeyHandlerCorrectness]: [api_keys/handler.go];
    - [DebounceCorrectness]: [shouldUpdateLastUsed] and [StartDebounceCleanup] of
      [service.go] as interleaved atomic steps;
    - [AdminCacheCorrectness] (Module [AdminCache]):
      [auth/cached_admin_checker.go] and [sar_admin_checker.go], sequentially and
      interleaved;
    - [Headers], [HeadersCorrectness]: [token/handler.go] and
      [auth/tenant_auth_middleware.go];
    - [ModelList], [ModelsHandler], [ModelsHandlerCorrectness]: [models/maasmodelref.go], the filter of
      [models/discovery.go], and [handlers/models.go].

    The controllers, under [pkg/controller/maas] of [src/maas-controller]:
    - [MaasTypes] (Module [V1]): the custom resources of [api/maas/v1alpha1];
    - [Cluster]: the objects of the API server as finite maps, its calls, which
      may fail before or after taking effect, and errors with their contexts;
    - [ControllerHelpers]: [modelnaming/externalmodel.go], [helpers.go], [annotations.go], the
      route resolvers of [providers*.go], the platform context;
    - [TokenLimits], [SubscriptionController], [SubscriptionReconcile] (Modules
      [SubStatus] and [SubReconcile]): [maassubscription_controller.go]; limits and
      phases, policies, statuses and the duplicate scan, the reconcile loop and
      the event mappings;
    - [ControllerFacts]: programs that only read, relations every step respects;
      [SubscriptionPolicies], [SubscriptionModelFacts], [SubscriptionReconcileFacts],
      [SubscriptionLoopFacts] (with the scan): the facts of each part;
      [SubscriptionExamples]: a concrete server and clusters;
      [SubscriptionControllerCorrectness]: the properties;
    - [SpecCompare]: [specMatchesDesired] of [maasauthpolicy_controller.go], and the
      relation it decides;
    - [GatewayAuthSpec] (Module [GatewaySpec]), [AuthPolicyGateway] (Module
      [AuthGateway]), [ConflictDetection] (Module [Conflicts]),
      [AuthPolicyController] (Module [AuthController]):
      [maasauthpolicy_controller.go] and [conflict_detection.go]; the rules
      generated for a gateway, its AuthPolicy and the readiness of the upgrade,
      the policies of others, the reconcile loop and the event mappings;
    - [AuthGatewayFacts] (the effect of a program on AuthPolicies, and the one of
      a gateway when nothing fails), [AuthLoopFacts] (deleting generated policies,
      what a reconcile may change),
      [AuthReconcileFacts] (the upgrade, phases, conflicts);
      [AuthPolicyExamples]: concrete clusters;
      [AuthPolicyControllerCorrectness]: the properties;
    - [GoFmt] (Module [Fmt]): [strconv.Quote] and the text of lists of strings;
    - [ModelProviders] (Module [Providers], with a Module for each kind):
      [providers.go], [providers_llmisvc.go], [providers_external.go] and the
      resolution of tenants in [maasmodelref_controller.go];
    - [ModelRefController] (Module [ModelController]):
      [maasmodelref_controller.go] and [model_identity_conflict.go], with the
      watches registered when a CRD appears;
    - [ModelProviderFacts]: what each handler of a backend answers, as relations
      between the cluster and the answer; [ModelRefFacts]: the status a reconcile
      means to write, what it may change, deletions, the event mappings;
      [ModelRefCorrectness]: the properties, with concrete clusters;
    - [TenantCluster] (Module [Infra]): the objects of the tenants, one map for
      every kind, and the calls of the API server on them;
    - [AITenantParts] (Module [Tenant]), [AITenantController] (Module
      [TenantController]): [aitenant_controller.go]; names, ownership, the labels of
      gateways, claims, namespace, configuration, roles and the revocation of keys,
      then the reconcile loop, deletion and the event mappings;
    - [AITenantFacts]: weakest preconditions, frames, and what each part does;
      [AITenantLoopFacts]: what a reconcile and a deletion leave;
      [AITenantCorrectness]: the properties, with a concrete server and tenants;
    - [Admission] (Module [Webhooks]), [AdmissionCorrectness]: [pkg/webhook]; the
      validators, the server that asks them before it stores, and their properties;
    - [PlatformParams] (Module [Params]), [Platform], [TenantConfigController]
      (Module [ConfigController]): [params.go], the other files of
      [pkg/platform/tenantreconcile] and [tenant_*.go] of the controllers; the
      parameters of a tenant's platform (with their bounds), what is there of it,
      names, prerequisites, applying, the pipeline, then the controller of
      MaasTenantConfigs with its conditions, phases and deletion;
    - [TenantConfigFacts]: what the pipeline and the parts of a reconcile do;
      [TenantConfigCorrectness]: the properties, with concrete platforms;
    - [Manifests], [Rendering], [RenderingCorrectness]: [kustomize.go], [params.go]
      and [postrender.go]; what is done to the overlay and how documents are changed,
      the changes that make it a tenant's, and their properties, with concrete
      manifests. [Rendering.manifests] is the [Renderer] of [Platform].

    ** State and operations

    The selector, the checker and the headers are functions of what they read. A
    store operation is a program over the store's state; the service adds the
    debounce map and the list of pending [last_used_at] writes, which a later
    step performs or loses. The handlers add the events recorded. Concurrency is
    explicit in three places: the debounce map and the administrator cache are
    step relations whose steps are the atomic operations of the code, and the
    code itself is proved to be one schedule of them; the probes of a model
    listing arrive in an arbitrary order, some of them cancelled. A controller is
    a program over the cluster in which every call of the API server is a tick;
    nobody else writes the cluster during one reconcile, and the informer cache
    is up to date, except that a reconcile may work on a stale copy of its object
    where a theorem says so.

    ** What the theorems show

    - Keys: what is minted validates and only that (round trip, soundness,
      finality of revocation, bounds on the expiration, format
      and injectivity of keys and of the text hashed).
    - The store: exactness of bulk revocation, cleanup and search; the one-way
      lifecycle of a row, unique hashes and tenant isolation under every history of
      calls and faults.
    - Authorization: single and bulk revocation, search and lookup stay within
      what the caller may touch, and a lookup is no oracle; administrator answers
      are current; identities come from the headers whole or not at all.
    - Selection: a subscription is served only to its owners, for models it
      includes, in a phase that allows it; qualified and automatic selection are
      characterised exactly and do not depend on the order of the cache; access is
      allowed only by a policy; listings are exact and confined.
    - The subscription controller: a model's policy holds exactly the limits of
      its live subscriptions; what is written is sound whatever fails; a reconcile
      touches nothing else, and never a policy opted out of management; a deleted
      subscription leaves no limit behind; the phase is Active exactly when all
      policies are in force; the duplicate scan is exact and the two writers of a
      status do not clobber each other. Counterexamples show where limits get
      lost: refused windows, colliding keys, a failed read, models of one name.
    - The policy controller: the comparison of specs is a relation defined by
      rules; one call brings a gateway's policy up to date and a second finds
      nothing to do; a reconcile touches only its own gateway's policy and
      generated ones, and the default gateway's only for a tenant with an empty
      identifier; the upgrade of a live policy waits for the new API and for
      enforcement; Active means enforced; deletions
      leave nothing generated behind; conflicts are found exactly. Counterexamples:
      a provider taken away stays trusted, events that are never emitted, a second
      tenant that writes the default gateway's policy.
    - The model controller: a model is Ready only if it is governed, routed through
      the gateway of its tenant and its backend is ready, and becomes so when it is;
      endpoints are on hosts of the route; the tenant is resolved exactly or not at
      all; conflicts of identity are reported exactly, and a change of name wakes
      exactly the models it concerns; a reconcile writes only its own model, and a
      deletion leaves nothing generated behind; statuses stay within the schema.
      Examples show an endpoint and a gateway that outlive a failure.
    - The tenant controller: a tenant becomes Active only if all it needs is there;
      Active tenants do not share a gateway, along every history of reconciles that
      end without an error; the finalizer goes only when keys are revoked and all is
      clean; a reconcile touches nothing of others; labels of gateways are exact,
      their record survives the annotation; names fit. Examples show a gateway
      shared after a failure, a deletion that disarms another tenant, keys revoked
      by a misplaced tenant, labels that leak, settings lost in migration, and
      names of resources that are too long.
    - Admission: tenants that are admitted one after the other have different
      gateways; subscriptions and policies are admitted exactly in the namespaces of
      tenants. Examples show concurrent creations that share a gateway, and objects
      whose finalizers can no longer be removed.
    - The configuration controller: a configuration is Ready only if the deployment,
      the filter and the gateway of its tenant are; a deletion ends, with the
      resources it asks for gone or being deleted, and spares other tenants;
      applying puts what was rendered on the server, labelled and owned, and spares
      what others manage; the parameters stay within bounds.
      Examples show guards passed over when a status cannot be written, a cleanup
      that is not retried, an autoscaler that outlives its tenant, and resources
      deleted or written over although they are opted out.
    - Rendering: services select the pods of their own tenant and routes lead to its
      service; the filter passes the check of its readiness; an autoscaler has
      consistent limits and the replicas to itself; the teardown takes what was
      rendered, up to the certificate and the autoscaler. An example shows a
      certificate in a Secret that nobody mounts.
    - Debouncing: reservations are spaced, except when the cleanup goroutine races
      with a refresh, for which a schedule is given.
    - Where the code does something else than its comments say, a theorem or an
      evaluated example shows it.

    ** Fuel, bounds, parameters

    Recursion is structural except in three places, with a bound on the number
    of steps that is proved to be enough: the division loop of [encodeBase62]
    (at most as many digits as the number has bits), the trimming loop (at most
    one space per byte) and the loops of [Json] (at least a byte per
    element or member). SHA-256 runs over the blocks of its padded input and is checked
    against the test vectors of FIPS 180. Durations and the limit on regular
    keys wrap at 64 bits; priorities are 32-bit.

    Parameters stand for code outside the repository: apimachinery accessors,
    PostgreSQL (clock, faults, rounding, scan order, collation, session zone),
    UUIDs, Kubernetes reviews, URL parsing with the knative type, Unicode's table
    of printable characters, the API server and the helpers of controller-runtime.
    Strings are lowered over ASCII, as host names are. The namespace of the
    AITenants is taken to be set, as the manager requires: with an empty one a
    list would range over all namespaces. The laws assumed of them are the
    classes [LawfulEnv], [LawfulDatabase], [LawfulApiServer],
    [LawfulTenantServer], [LawfulPlatformServer] (server-side apply), [LawfulAccessors]
    and [LawfulNested], each with an instance. Deleting a MaaSSubscription, a MaaSAuthPolicy,
    a configuration or a resource of a platform that has finalizers marks it as
    being deleted; one without goes at once, as do the AuthPolicies and
    TokenRateLimitPolicies the controllers generate, which are given none. Numbers that are compared as JSON are the [float64]s their
    literals stand for, rounded to nearest. Gateways'
    selectors are their [matchLabels]; [matchExpressions] are ignored by the code.

    ** Not modelled

    Of [src/maas-controller]: kustomize itself (the class [Kustomize]), the
    manager's start and the controllers of its own deployment, other writers racing
    with a reconcile, the registration of watches. Of
    [src/maas-api]: the in-memory mock store, configuration flags, database
    migrations, certificates and TLS profiles, metrics, tracing and logging. *)
From stdpp Require Export base tactics decidable gmap strings list sorting.
From Stdlib Require Export Ascii ZArith Lia.

#[export] Set Default Goal Selector "!".
#[export] Set Warnings "-clear-no-such-hyp,-register-all".

Declare Scope go_scope.
Delimit Scope go_scope with go.

(** ** Fallible Go calls: a value, or the error returned in its place *)

Inductive result (E A : Type) : Type :=
  | Ok (a : A)
  | Err (e : E).
Arguments Ok {_ _} _.
Arguments Err {_ _} _.

#[export] Instance result_eq_dec {E A} `{EqDecision E, EqDecision A} :
  EqDecision (result E A).
Proof. solve_decision. Defined.

Definition is_ok {E A} (r : result E A) : bool :=
  match r with Ok _ => true | Err _ => false end.

(** Go's [==] on comparable values, as a boolean test. *)
Notation "a == b" := (bool_decide (a = b)) (at level 70) : go_scope.
Notation "a != b" := (negb (bool_decide (a = b))) (at level 70) : go_scope.
Open Scope go_scope.

(** ** Automation *)

Create HintDb maas.
Create Rewrite HintDb maas_rw.

(** Splits every [match] and boolean test of the goal and the context,
    cleaning up as it goes: the case analysis of a guarded Go body. *)
Ltac go_cases :=
  repeat (case_match || case_bool_decide || simplify_eq/=).

(** Turns boolean connectives of the hypotheses into propositions. *)
Ltac destruct_bools :=
  repeat match goal with
  | H : negb _ = true |- _ => apply negb_true_iff in H
  | H : negb _ = false |- _ => apply negb_false_iff in H
  | H : _ && _ = true |- _ => apply andb_true_iff in H as [? ?]
  | H : _ || _ = false |- _ => apply orb_false_iff in H as [? ?]
  | H : bool_decide _ = true |- _ => apply bool_decide_eq_true in H
  | H : bool_decide _ = false |- _ => apply bool_decide_eq_false in H
  end.

(** A closed equation, by evaluation of its two sides. *)
Ltac by_compute := vm_compute; reflexivity.

(** ** Lists *)

Section lists.
Context {A B : Type}.
Implicit Types (l : list A).

(** A [for] loop that returns the first element passing a test. *)
Fixpoint find_first (f : A → bool) (l : list A) : option A :=
  match l with
  | [] => None
  | x :: l' => if f x then Some x else find_first f l'
  end.

Lemma find_first_Some f l x :
  find_first f l = Some x →
  x ∈ l ∧ f x = true.
Proof.
  induction l as [|y l IH]; simpl; [done|].
  destruct (f y) eqn:E; intros; simplify_eq; [by split; [left|]|].
  destruct IH; [done|]. by split; [right|].
Qed.

Lemma find_first_None f l :
  find_first f l = None ↔ ∀ x, x ∈ l → f x = false.
Proof.
  induction l as [|y l IH]; simpl.
  - split; [|done]. by intros _ x ?%elem_of_nil.
  - destruct (f y) eqn:E.
    + split; [done|]. intros H. rewrite H in E; [done|by left].
    + rewrite IH. setoid_rewrite elem_of_cons. naive_solver.
Qed.

Lemma find_first_is_Some f l :
  is_Some (find_first f l) ↔ ∃ x, x ∈ l ∧ f x = true.
Proof.
  destruct (find_first f l) as [x|] eqn:E.
  - apply find_first_Some in E. split; [|eauto]. intros _. eauto.
  - rewrite find_first_None in E. split; [by intros []|].
    intros (x & Hx & Hf). by rewrite E in Hf.
Qed.

(** The element found, and what the loop passed over before it. *)
Lemma find_first_split f l x :
  find_first f l = Some x ↔
  ∃ before after, l = before ++ x :: after ∧ f x = true ∧
    ∀ y, y ∈ before → f y = false.
Proof.
  induction l as [|y l IH]; simpl.
  - split; [done|]. by intros ([|? ?] & after & ? & _).
  - destruct (f y) eqn:Hy.
    + split.
      { intros [= <-]. exists [], l. split_and!; [done..|].
        by intros ? ?%elem_of_nil. }
      intros ([|z before] & after & E & Hx & Hb); simplify_eq/=; [done|].
      by rewrite Hb in Hy by left.
    + rewrite IH. split; intros (before & after & E & Hx & Hb).
      * exists (y :: before), after. subst l. split_and!; [done..|].
        by intros z [->|?]%elem_of_cons; auto.
      * destruct before as [|z before]; simplify_eq/=; [congruence|].
        exists before, after. split_and!; [done..|]. intros. apply Hb. by right.
Qed.

(** A match that nothing else in the list passes is the one found. *)
Lemma find_first_unique f l x :
  x ∈ l → f x = true → (∀ y, y ∈ l → f y = true → y = x) →
  find_first f l = Some x.
Proof.
  intros Hx Hf Huniq. destruct (find_first f l) as [y|] eqn:E.
  - apply find_first_Some in E as [??]. f_equal. by apply Huniq.
  - rewrite find_first_None in E. by rewrite E in Hf.
Qed.

(** With at most one match, the order of the list does not matter. *)
Lemma find_first_perm f l l' :
  l ≡ₚ l' →
  (∀ x y, x ∈ l → y ∈ l → f x = true → f y = true → x = y) →
  find_first f l = find_first f l'.
Proof.
  intros Hp Huniq. destruct (find_first f l) as [x|] eqn:E.
  - apply find_first_Some in E as [Hx Hf]. symmetry.
    apply find_first_unique; [by rewrite <-Hp|done|].
    intros y Hy. rewrite <-Hp in Hy. intros. by apply Huniq.
  - symmetry. rewrite find_first_None in *. intros x Hx.
    rewrite <-Hp in Hx. by apply E.
Qed.

Lemma existsb_elem_of (f : A → bool) l :
  existsb f l = true ↔ ∃ x, x ∈ l ∧ f x = true.
Proof.
  rewrite existsb_exists. split; intros (x & H & ?); exists x;
    (split; [by apply list_elem_of_In|done]).
Qed.

Lemma existsb_not_elem_of (f : A → bool) l :
  existsb f l = false ↔ ∀ x, x ∈ l → f x = false.
Proof.
  rewrite <-not_true_iff_false, existsb_elem_of. split.
  - intros H x Hx. apply not_true_iff_false. eauto.
  - intros H (x & Hx & Hf). by rewrite H in Hf.
Qed.

Lemma forallb_elem_of (f : A → bool) l :
  forallb f l = true ↔ ∀ x, x ∈ l → f x = true.
Proof.
  rewrite forallb_forall. split; intros H x Hx; apply H;
    by apply list_elem_of_In.
Qed.

Lemma filter_bool_elem_of (f : A → bool) l x :
  x ∈ List.filter f l ↔ x ∈ l ∧ f x = true.
Proof. by rewrite !list_elem_of_In, filter_In. Qed.

Lemma filter_bool_perm (f : A → bool) l l' :
  l ≡ₚ l' → List.filter f l ≡ₚ List.filter f l'.
Proof.
  induction 1 as [|x l l' ? IH|x y l|]; simpl; [done| | |by etrans].
  - destruct (f x); [by constructor|done].
  - destruct (f x), (f y); (done || by constructor).
Qed.

(** [slices.Contains]. *)
Definition contains `{EqDecision A} (l : list A) (x : A) : bool :=
  existsb (λ y, y == x) l.

Lemma contains_true `{EqDecision A} l x : contains l x = true ↔ x ∈ l.
Proof.
  unfold contains. rewrite existsb_elem_of. split.
  - intros (y & Hy & E). by apply bool_decide_eq_true in E as <-.
  - intros. exists x. by rewrite bool_decide_eq_true_2.
Qed.

Lemma contains_false `{EqDecision A} l x : contains l x = false ↔ x ∉ l.
Proof. by rewrite <-contains_true, not_true_iff_false. Qed.
End lists.

#[export] Hint Rewrite @contains_true @contains_false @existsb_elem_of
  @existsb_not_elem_of @filter_bool_elem_of : maas_rw.

(** A value that is there and passes a test, by evaluation. *)
Lemma some_check {A} (o : option A) (P : A → Prop) `{∀ x, Decision (P x)} :
  match o with Some x => bool_decide (P x) | None => false end = true →
  ∃ x, o = Some x ∧ P x.
Proof. destruct o as [x|]; [|done]. intros ?%bool_decide_eq_true. eauto. Qed.

(** ** Fixed-width integers *)

Definition max_int64 : Z := 9223372036854775807.
Definition min_int64 : Z := -9223372036854775808.
Definition max_int32 : Z := 2147483647.

(** Two's-complement wrap-around of a signed 64-bit result. *)
Definition wrap64 (z : Z) : Z :=
  ((z + 2 ^ 63) `mod` 2 ^ 64 - 2 ^ 63)%Z.

Lemma wrap64_id z : (min_int64 ≤ z ≤ max_int64)%Z → wrap64 z = z.
Proof.
  unfold wrap64, min_int64, max_int64. intros H.
  rewrite Z.mod_small; lia.
Qed.

Lemma wrap64_range z : (min_int64 ≤ wrap64 z ≤ max_int64)%Z.
Proof.
  unfold wrap64, min_int64, max_int64.
  pose proof (Z.mod_pos_bound (z + 2 ^ 63) (2 ^ 64)). lia.
Qed.
