(* ===== verification/GoStrings.v ===== *)
(** Go strings as byte strings: the [strings] and [unicode/utf8] functions
    the services call, with the lemmas their clients use. *)
From S2P Require Import Prelude.


(** Concatenation computes on its first argument. *)
#[global] Arguments String.append !_ _ / : simpl nomatch.

Definition byte (n : nat) : ascii := Ascii.ascii_of_nat n.
Definition bytes (l : list nat) : string :=
  String.string_of_list_ascii (byte <$> l).
Definition code (a : ascii) : nat := Ascii.nat_of_ascii a.

(** ** Concatenation *)

Lemma app_nil_r_str (s : string) : s +:+ "" = s.
Proof. induction s as [|a s IH]; simpl; [done|by rewrite IH]. Qed.

Lemma app_assoc_str (s1 s2 s3 : string) :
  s1 +:+ (s2 +:+ s3) = (s1 +:+ s2) +:+ s3.
Proof. induction s1 as [|a s IH]; simpl; [done|by rewrite IH]. Qed.

Lemma length_app_str (s1 s2 : string) :
  String.length (s1 +:+ s2) = String.length s1 + String.length s2.
Proof. induction s1 as [|a s IH]; simpl; [done|by rewrite IH]. Qed.

(** Every byte of the string passes the test. *)
Fixpoint all_bytes (f : ascii → bool) (s : string) : bool :=
  match s with
  | EmptyString => true
  | String a s' => f a && all_bytes f s'
  end.

(** Some byte of the string passes the test: [MatchString] of a one-byte
    character class. *)
Fixpoint any_byte (f : ascii → bool) (s : string) : bool :=
  match s with
  | EmptyString => false
  | String a s' => f a || any_byte f s'
  end.

Lemma all_bytes_app f s1 s2 :
  all_bytes f (s1 +:+ s2) = all_bytes f s1 && all_bytes f s2.
Proof.
  induction s1 as [|a s IH]; simpl; [done|]. by rewrite IH, andb_assoc.
Qed.

Lemma all_bytes_impl (f g : ascii → bool) s :
  (∀ a, f a = true → g a = true) → all_bytes f s = true → all_bytes g s = true.
Proof.
  intros Hfg. induction s as [|a s IH]; simpl; [done|].
  rewrite !andb_true_iff. naive_solver.
Qed.

(** ** Prefixes, searches and cuts *)

Fixpoint strip_prefix (p s : string) : option string :=
  match p, s with
  | EmptyString, _ => Some s
  | String a p', String b s' =>
      if a == b then strip_prefix p' s' else None
  | _, _ => None
  end.

(** [strings.HasPrefix]. *)
Definition has_prefix (s p : string) : bool :=
  match strip_prefix p s with Some _ => true | None => false end.

Lemma strip_prefix_Some p s r : strip_prefix p s = Some r ↔ s = p +:+ r.
Proof.
  revert s. induction p as [|a p IH]; intros [|b s]; simpl.
  - naive_solver.
  - naive_solver.
  - naive_solver.
  - case_bool_decide; [|naive_solver]. rewrite IH. naive_solver.
Qed.

Lemma strip_prefix_app p r : strip_prefix p (p +:+ r) = Some r.
Proof. by apply strip_prefix_Some. Qed.

Lemma has_prefix_true s p : has_prefix s p = true ↔ ∃ r, s = p +:+ r.
Proof.
  unfold has_prefix. destruct (strip_prefix p s) as [r|] eqn:E.
  - apply strip_prefix_Some in E. naive_solver.
  - split; [done|]. intros [r ->]. by rewrite strip_prefix_app in E.
Qed.

(** [strings.Contains] of a one-byte separator. *)
Definition contains_byte (s : string) (c : ascii) : bool :=
  any_byte (λ a, a == c) s.

(** [strings.SplitN(s, sep, 2)] for a one-byte separator: the two parts, or
    [None] when the separator does not occur and one part comes back. *)
Fixpoint cut (c : ascii) (s : string) : option (string * string) :=
  match s with
  | EmptyString => None
  | String a s' =>
      if a == c then Some ("", s')
      else match cut c s' with
           | Some (l, r) => Some (String a l, r)
           | None => None
           end
  end.

Lemma cut_Some c s l r :
  cut c s = Some (l, r) ↔ s = l +:+ String c r ∧ contains_byte l c = false.
Proof.
  unfold contains_byte. revert l r.
  induction s as [|a s IH]; intros l r; simpl.
  - split; [done|]. by intros [H%(f_equal String.length) _];
      rewrite length_app_str in H; simpl in H; lia.
  - case_bool_decide as Hac.
    + subst. split; [naive_solver|]. intros [H Hl].
      destruct l as [|b l]; simplify_eq/=; [done|]. by case_bool_decide.
    + destruct (cut c s) as [[l' r']|] eqn:E.
      * destruct (IH l' r') as [(->&Hl') _]; [done|]. split.
        { intros. simplify_eq/=. by rewrite bool_decide_eq_false_2. }
        intros [H Hl]. destruct l as [|b l]; simplify_eq/=.
        apply orb_false_iff in Hl as [_ Hl].
        destruct (IH l r) as [_ IH']. rewrite IH' in *; naive_solver.
      * split; [done|]. intros [H Hl].
        destruct l as [|b l]; simplify_eq/=.
        apply orb_false_iff in Hl as [_ Hl].
        destruct (IH l r) as [_ IH']. naive_solver.
Qed.

Lemma cut_app c l r :
  contains_byte l c = false → cut c (l +:+ String c r) = Some (l, r).
Proof. intros. by apply cut_Some. Qed.

Lemma cut_None c s : cut c s = None ↔ contains_byte s c = false.
Proof.
  unfold contains_byte. induction s as [|a s IH]; simpl; [done|].
  case_bool_decide; simpl; [done|].
  rewrite <-IH. destruct (cut c s) as [[??]|]; naive_solver.
Qed.

(** [strings.Join]. *)
Fixpoint join (sep : string) (l : list string) : string :=
  match l with
  | [] => ""
  | [x] => x
  | x :: l' => x +:+ sep +:+ join sep l'
  end.

(** ** White space *)

(** The UTF-8 encodings of the runes of [unicode.IsSpace]. *)
Definition spaces : list string :=
  bytes <$> [ [9]; [10]; [11]; [12]; [13]; [32]; [194; 133]; [194; 160];
    [225; 154; 128];
    [226; 128; 128]; [226; 128; 129]; [226; 128; 130]; [226; 128; 131];
    [226; 128; 132]; [226; 128; 133]; [226; 128; 134]; [226; 128; 135];
    [226; 128; 136]; [226; 128; 137]; [226; 128; 138];
    [226; 128; 168]; [226; 128; 169]; [226; 128; 175]; [226; 129; 159];
    [227; 128; 128] ].

Fixpoint strip_any (ps : list string) (s : string) : option string :=
  match ps with
  | [] => None
  | p :: ps' =>
      match strip_prefix p s with
      | Some r => Some r
      | None => strip_any ps' s
      end
  end.

Fixpoint trim_prefixes (ps : list string) (fuel : nat) (s : string) : string :=
  match fuel with
  | O => s
  | S n => match strip_any ps s with
           | Some r => trim_prefixes ps n r
           | None => s
           end
  end.

Definition trim_left (s : string) : string :=
  trim_prefixes spaces (String.length s) s.

Definition trim_right (s : string) : string :=
  String.rev (trim_prefixes (String.rev <$> spaces) (String.length s)
                (String.rev s)).

(** [strings.TrimSpace]: a white-space rune at either end is removed as long
    as there is one. The loop runs at most once per byte, each space being at
    least one byte long. *)
Definition TrimSpace (s : string) : string := trim_right (trim_left s).

(** ASCII [strings.ToLower]. *)
Definition lower_byte (a : ascii) : ascii :=
  let n := code a in
  if (65 <=? n) && (n <=? 90) then byte (n + 32) else a.

Fixpoint ToLower (s : string) : string :=
  match s with
  | EmptyString => EmptyString
  | String a s' => String (lower_byte a) (ToLower s')
  end.

(** ** Lexicographic byte order: Go's [<] on strings *)

Definition str_lt (a b : string) : bool := String.ltb a b.

Lemma str_lt_leb a b : str_lt a b = negb (String.leb b a).
Proof.
  unfold str_lt, String.ltb, String.leb.
  rewrite (String.compare_antisym a b).
  by destruct (String.compare b a).
Qed.

Lemma str_lt_asym a b : str_lt a b = true → str_lt b a = false.
Proof.
  rewrite !str_lt_leb, negb_true_iff, negb_false_iff.
  intros. destruct (String.leb_total a b); congruence.
Qed.

Lemma str_lt_irrefl a : str_lt a a = false.
Proof.
  destruct (str_lt a a) eqn:E; [|done]. by rewrite (str_lt_asym _ _ E) in E.
Qed.

Lemma str_lt_neg_trans a b c :
  str_lt a b = false → str_lt b c = false → str_lt a c = false.
Proof.
  rewrite !str_lt_leb, !negb_false_iff. intros H1 H2.
  assert (H : (c ≤ a)%string); [|by apply Is_true_true].
  transitivity b; by apply Is_true_true.
Qed.

Lemma str_lt_total a b : str_lt a b = false → str_lt b a = false → a = b.
Proof.
  rewrite !str_lt_leb, !negb_false_iff. intros.
  apply String.leb_antisym; done.
Qed.
