(* ===== verification/Sorting.v ===== *)
(** Go's [sort] package: [sort.SliceStable] as the stable insertion sort it
    must agree with, and the contract of the unstable [sort.Slice]. *)
From S2P Require Import Prelude.

(** ** Strict weak orders, the contract of a comparison function *)

Class StrictWeak {A} (less : A → A → bool) : Prop := {
  sw_asym x y : less x y = true → less y x = false;
  sw_neg_trans x y z :
    less x y = false → less y z = false → less x z = false;
}.

Section strict_weak.
Context {A : Type} (less : A → A → bool) `{!StrictWeak less}.

Lemma sw_irrefl x : less x x = false.
Proof.
  destruct (less x x) eqn:E; [|done]. by rewrite (sw_asym _ _ E) in E.
Qed.

Lemma sw_trans x y z :
  less x y = true → less y z = true → less x z = true.
Proof.
  intros Hxy Hyz. destruct (less x z) eqn:E; [done|].
  pose proof (sw_asym _ _ Hyz) as Hzy.
  by rewrite (sw_neg_trans _ _ _ E Hzy) in Hxy.
Qed.

(** Two elements the comparison does not separate. *)
Definition sw_equiv (x y : A) : bool := negb (less x y) && negb (less y x).

Lemma sw_equiv_less_l x y z :
  sw_equiv x y = true → less x z = less y z.
Proof.
  unfold sw_equiv. intros H. destruct_bools.
  destruct (less x z) eqn:E1, (less y z) eqn:E2; [done| | |done].
  - by rewrite (sw_neg_trans x y z) in E1.
  - by rewrite (sw_neg_trans y x z) in E2.
Qed.
End strict_weak.

(** A comparison of keys is a strict weak order of the values. *)
Lemma strict_weak_by {A K} (f : A → K) (less : K → K → bool) :
  StrictWeak less → StrictWeak (λ x y, less (f x) (f y)).
Proof.
  intros ?. split; intros.
  - by apply sw_asym.
  - by eapply sw_neg_trans.
Qed.

(** ** [sort.SliceStable] *)

Section stable_sort.
Context {A : Type} (less : A → A → bool).

(** The element goes before the first one it is not greater than. *)
Fixpoint insert_stable (x : A) (l : list A) : list A :=
  match l with
  | [] => [x]
  | y :: l' => if less y x then y :: insert_stable x l' else x :: l
  end.

Fixpoint sort_stable (l : list A) : list A :=
  match l with
  | [] => []
  | x :: l' => insert_stable x (sort_stable l')
  end.

(** No element is less than an earlier one. *)
Fixpoint sorted (l : list A) : Prop :=
  match l with
  | [] => True
  | x :: l' => Forall (λ y, less y x = false) l' ∧ sorted l'
  end.

Lemma insert_stable_perm x l : insert_stable x l ≡ₚ x :: l.
Proof.
  induction l as [|y l IH]; simpl; [done|].
  destruct (less y x); [|done]. rewrite IH. by apply Permutation_swap.
Qed.

Lemma sort_stable_perm l : sort_stable l ≡ₚ l.
Proof.
  induction l as [|x l IH]; simpl; [done|].
  by rewrite insert_stable_perm, IH.
Qed.

Lemma elem_of_sort_stable l x : x ∈ sort_stable l ↔ x ∈ l.
Proof. by rewrite sort_stable_perm. Qed.

Context `{!StrictWeak less}.

Lemma insert_stable_sorted x l : sorted l → sorted (insert_stable x l).
Proof.
  induction l as [|y l IH]; simpl.
  - done.
  - intros [Hy Hl]. destruct (less y x) eqn:E; simpl.
    + split; [|by apply IH]. rewrite insert_stable_perm.
      constructor; [by apply sw_asym|done].
    + split; [|done]. constructor; [done|].
      eapply Forall_impl; [exact Hy|]. simpl. intros z Hz.
      by eapply sw_neg_trans.
Qed.

Lemma sort_stable_sorted l : sorted (sort_stable l).
Proof.
  induction l as [|x l IH]; simpl; [done|]. by apply insert_stable_sorted.
Qed.

(** The first match in a sorted list is a minimal one. *)
Lemma sorted_find_first f l x y :
  sorted l → find_first f l = Some x → y ∈ l → f y = true → less y x = false.
Proof.
  induction l as [|z l IH]; simpl; [done|]. intros [Hz Hl] Hx Hy Hf.
  apply elem_of_cons in Hy as [->|Hy].
  - rewrite Hf in Hx. simplify_eq. by apply sw_irrefl.
  - destruct (f z); [|by apply IH]. simplify_eq.
    rewrite Forall_forall in Hz. by apply Hz.
Qed.

Lemma sorted_head x l y : sorted (x :: l) → y ∈ x :: l → less y x = false.
Proof.
  intros [Hx _] [->|Hy]%elem_of_cons; [by apply sw_irrefl|].
  rewrite Forall_forall in Hx. by apply Hx.
Qed.

(** Stability: the elements equivalent to a given one keep their order. *)
Lemma insert_stable_filter z x l :
  sorted l →
  List.filter (sw_equiv less z) (insert_stable x l) =
  List.filter (sw_equiv less z) (x :: l).
Proof.
  induction l as [|y l IH]; simpl; [done|]. intros [Hy Hl].
  destruct (less y x) eqn:E; simpl; [|done].
  rewrite IH by done. simpl.
  destruct (sw_equiv less z x) eqn:Ex; [|done].
  destruct (sw_equiv less z y) eqn:Ey; [|done].
  assert (less z x = less y x) as H by by apply sw_equiv_less_l.
  unfold sw_equiv in Ex. destruct_bools. congruence.
Qed.

Lemma sort_stable_stable z l :
  List.filter (sw_equiv less z) (sort_stable l) =
  List.filter (sw_equiv less z) l.
Proof.
  induction l as [|x l IH]; simpl; [done|].
  rewrite insert_stable_filter by apply sort_stable_sorted. simpl.
  by rewrite IH.
Qed.

Lemma sw_equiv_refl x : sw_equiv less x x = true.
Proof. unfold sw_equiv. by rewrite !(sw_irrefl less). Qed.

(** A sorted list is determined by its classes of equivalent elements, so
    every stable sorting algorithm computes [sort_stable]. *)
Lemma sorted_stable_unique l1 l2 :
  sorted l1 → sorted l2 →
  (∀ z, List.filter (sw_equiv less z) l1 = List.filter (sw_equiv less z) l2) →
  l1 = l2.
Proof.
  revert l2. induction l1 as [|x l1 IH]; intros [|y l2]; simpl.
  - done.
  - intros _ _ H. specialize (H y). rewrite sw_equiv_refl in H. discriminate H.
  - intros _ _ H. specialize (H x). rewrite sw_equiv_refl in H. discriminate H.
  - intros [Hx H1] [Hy H2] H.
    assert (Hin1 : x ∈ y :: l2).
    { assert (Hx' : x ∈ List.filter (sw_equiv less x) (y :: l2)).
      { simpl. rewrite <-H, sw_equiv_refl. by left. }
      by apply filter_bool_elem_of in Hx' as [? _]. }
    assert (Hin2 : y ∈ x :: l1).
    { assert (Hy' : y ∈ List.filter (sw_equiv less y) (x :: l1)).
      { simpl. rewrite H, sw_equiv_refl. by left. }
      by apply filter_bool_elem_of in Hy' as [? _]. }
    assert (Hle1 : less x y = false).
    { apply elem_of_cons in Hin1 as [->|Hin1]; [by apply sw_irrefl|].
      rewrite Forall_forall in Hy. by apply Hy. }
    assert (Hle2 : less y x = false).
    { apply elem_of_cons in Hin2 as [->|Hin2]; [by apply sw_irrefl|].
      rewrite Forall_forall in Hx. by apply Hx. }
    assert (Hxy : x = y).
    { specialize (H x). rewrite sw_equiv_refl in H.
      unfold sw_equiv at 2 in H. rewrite Hle1, Hle2 in H. by simplify_eq/=. }
    subst y. f_equal. apply IH; [done..|]. intros z. specialize (H z).
    destruct (sw_equiv less z x); by simplify_eq/=.
Qed.
End stable_sort.

(** ** [sort.Slice]: sorted output, order of equivalent elements unspecified *)

Class SliceSort : Type := {
  sort_slice {A} : (A → A → bool) → list A → list A;
  sort_slice_perm {A} (less : A → A → bool) l : sort_slice less l ≡ₚ l;
  sort_slice_sorted {A} (less : A → A → bool) l :
    StrictWeak less → sorted less (sort_slice less l);
}.

(** One admissible implementation. *)
#[export, refine] Instance stable_slice_sort : SliceSort := {|
  sort_slice A less l := sort_stable less l;
|}.
Proof.
  - intros. apply sort_stable_perm.
  - intros. by apply sort_stable_sorted.
Defined.

Lemma elem_of_sort_slice {slice : SliceSort} {A} (less : A → A → bool) l x :
  x ∈ sort_slice less l ↔ x ∈ l.
Proof. by rewrite sort_slice_perm. Qed.

#[export] Hint Resolve sort_stable_perm sort_stable_sorted : maas.
#[export] Hint Rewrite @elem_of_sort_stable @elem_of_sort_slice : maas_rw.
