(* ===== verification/Unstructured.v ===== *)
(** Kubernetes objects as the services read them: Go's [any] values, the
    type assertions applied to them, and the interface of the
    [k8s.io/apimachinery] accessors, which are not part of the repository. *)
From S2P Require Import Prelude GoStrings.

(** ** [any] values of a decoded JSON document *)

Inductive value : Type :=
  | VNull
  | VBool (b : bool)
  | VInt (z : Z)
  | VFloat (literal : string)
  | VString (s : string)
  | VSlice (l : list value)
  | VMap (m : list (string * value)).

(** [map[string]any]: the keys of a Go map are unique, so the first binding
    is the binding. *)
Abbreviation gomap := (list (string * value)).

Fixpoint map_get (k : string) (m : gomap) : option value :=
  match m with
  | [] => None
  | (k', v) :: m' => if k' == k then Some v else map_get k m'
  end.

(** Comma-ok type assertions. *)
Definition as_string (v : value) : option string :=
  match v with VString s => Some s | _ => None end.
Definition as_bool (v : value) : option bool :=
  match v with VBool b => Some b | _ => None end.
Definition as_int64 (v : value) : option Z :=
  match v with VInt z => Some z | _ => None end.
Definition as_slice (v : value) : option (list value) :=
  match v with VSlice l => Some l | _ => None end.
Definition as_map (v : value) : option gomap :=
  match v with VMap m => Some m | _ => None end.

(** [m[k].(string)] and its siblings: a missing key yields a nil [any], on
    which every assertion fails. *)
Definition get_string (k : string) (m : gomap) : option string :=
  map_get k m ≫= as_string.
Definition get_bool (k : string) (m : gomap) : option bool :=
  map_get k m ≫= as_bool.
Definition get_int64 (k : string) (m : gomap) : option Z :=
  map_get k m ≫= as_int64.
Definition get_slice (k : string) (m : gomap) : option (list value) :=
  map_get k m ≫= as_slice.
Definition get_map (k : string) (m : gomap) : option gomap :=
  map_get k m ≫= as_map.

(** [s, _ := v.(string)]: the zero value when the assertion fails. *)
Definition or_empty (o : option string) : string := default "" o.

(** ** The accessors of [unstructured] *)

(** The triple [(value, found, err)] they return. *)
Inductive nested (A : Type) : Type :=
  | Found (a : A)
  | NotFound
  | NestedErr (e : string).
Arguments Found {_} _.
Arguments NotFound {_}.
Arguments NestedErr {_} _.

(** [v, found, _ := ...; found]: an error leaves [found] false. *)
Definition found {A} (r : nested A) : option A :=
  match r with Found a => Some a | _ => None end.

(** An [*unstructured.Unstructured] is its [Object] map. *)
Abbreviation obj := gomap.

Class ApiMachinery : Type := {
  GetName : obj → string;
  GetNamespace : obj → string;
  GetAnnotations : obj → option (gmap string string);
  GetCreationUnix : obj → option Z;
  NestedString : gomap → list string → nested string;
  NestedInt64 : gomap → list string → nested Z;
  NestedMap : gomap → list string → nested gomap;
  NestedSlice : gomap → list string → nested (list value);
  NestedStringSlice : gomap → list string → nested (list string);
}.

(** Indexing an annotation map, nil or not. *)
Definition annotation (o : option (gmap string string)) (k : string) : string :=
  default "" (o ≫= λ m, m !! k).

(** ** The documented behaviour, as one instance *)

Module DocApi.
Fixpoint walk (m : gomap) (path : list string) : nested value :=
  match path with
  | [] => Found (VMap m)
  | [k] => match map_get k m with Some v => Found v | None => NotFound end
  | k :: path' =>
      match map_get k m with
      | Some (VMap m') => walk m' path'
      | Some _ => NestedErr "accessor error: not a map"
      | None => NotFound
      end
  end.

Definition typed {A} (f : value → option A) (m : gomap) (path : list string)
    : nested A :=
  match walk m path with
  | Found v => match f v with
               | Some a => Found a
               | None => NestedErr "accessor error: wrong type"
               end
  | NotFound => NotFound
  | NestedErr e => NestedErr e
  end.

Definition as_string_slice (v : value) : option (list string) :=
  as_slice v ≫= mapM as_string.

Definition as_string_map (v : value) : option (gmap string string) :=
  m ← as_map v;
  l ← mapM (λ kv : string * value, s ← as_string kv.2; Some (kv.1, s)) m;
  Some (list_to_map l).

#[export] Instance doc_api : ApiMachinery := {|
  GetName o := default "" (found (typed as_string o ["metadata"; "name"]));
  GetNamespace o :=
    default "" (found (typed as_string o ["metadata"; "namespace"]));
  GetAnnotations o :=
    found (typed as_string_map o ["metadata"; "annotations"]);
  GetCreationUnix o :=
    found (typed as_int64 o ["metadata"; "creationTimestamp"]);
  NestedString := typed as_string;
  NestedInt64 := typed as_int64;
  NestedMap := typed as_map;
  NestedSlice := typed as_slice;
  NestedStringSlice := typed as_string_slice;
|}.
End DocApi.
