(* ===== verification/Http.v ===== *)
(** What the HTTP handlers read from a gin context and write to it: the user
    stored under the key ["user"], and one JSON response. *)
From S2P Require Import Prelude.

Module Http.

(** [src/maas-api/internal/token/types.go:27-31] UserContext. *)
Record UserContext : Type := mkUser {
  Username : string;
  Groups : list string;
  Tenant : string;
}.

(** The answer of [c.Get("user")] followed by the type assertion to
    [*token.UserContext]: absent, of another type, or a user. *)
Inductive context_user : Type :=
  | NoUser
  | OtherType
  | User (u : UserContext).

#[global] Instance UserContext_eq_dec : EqDecision UserContext.
Proof. solve_decision. Defined.
#[global] Instance context_user_eq_dec : EqDecision context_user.
Proof. solve_decision. Defined.

(** The status code and the JSON body of [c.JSON]. *)
Record response (B : Type) : Type := JSON {
  status : Z;
  body : B;
}.
Arguments JSON {_} _ _.
Arguments status {_} _.
Arguments body {_} _.

Definition StatusOK : Z := 200.
Definition StatusCreated : Z := 201.
Definition StatusBadRequest : Z := 400.
Definition StatusUnauthorized : Z := 401.
Definition StatusForbidden : Z := 403.
Definition StatusNotFound : Z := 404.
Definition StatusInternalServerError : Z := 500.

(** The rejection reasons of the metrics.
    [src/maas-api/internal/constant/const.go:44-48] RejectionRateLimited. *)
Inductive Rejection : Type :=
  | RejectionRateLimited
  | RejectionUnauthorized
  | RejectionNoCapacity
  | RejectionQuotaExceeded.

#[global] Instance Rejection_eq_dec : EqDecision Rejection.
Proof. solve_decision. Defined.

End Http.
