(* ===== verification/AuthPolicyChecker.v ===== *)
(** The MaaSAuthPolicy access checker of
    [src/maas-api/internal/authpolicy/checker.go]: which models the cached
    policies open to a caller. *)
From S2P Require Import Prelude GoStrings Unstructured.

Module Checker.

(** [src/maas-api/internal/authpolicy/checker.go:45-49] ModelKey. *)
Record ModelKey : Type := mkModelKey { Namespace : string; Name : string }.

#[global] Instance ModelKey_eq_dec : EqDecision ModelKey.
Proof. solve_decision. Defined.

#[global] Instance ModelKey_countable : Countable ModelKey.
Proof.
  refine (inj_countable' (λ k, (Namespace k, Name k))
            (λ p, mkModelKey p.1 p.2) _).
  by intros [].
Defined.

(** The checker's only state is its informer lister; [None] is the nil lister,
    and a lister is what its [List] call returns.
    [src/maas-api/internal/authpolicy/checker.go:30-33] Checker. *)
Record Checker : Type := mkChecker {
  lister : option (result string (list obj));
}.

(** [src/maas-api/internal/authpolicy/checker.go:35-43] NewChecker. *)
Definition NewChecker (l : option (result string (list obj))) : Checker :=
  mkChecker l.

(** [src/maas-api/internal/authpolicy/checker.go:103-137] policyMatchesSubject. *)
Definition policyMatchesSubject (spec : gomap) (groups : list string)
    (username : string) : bool :=
  match get_map "subjects" spec with
  | None => false
  | Some subjects =>
      let userMatch :=
        if username == "" then false
        else match get_slice "users" subjects with
             | None => false
             | Some users =>
                 existsb (λ u, match as_string u with
                               | Some s => TrimSpace s == TrimSpace username
                               | None => false
                               end) users
             end in
      if userMatch then true
      else match get_slice "groups" subjects with
           | None => false
           | Some groupRefs =>
               let groupSet := TrimSpace <$> groups in
               existsb (λ g, match as_map g with
                             | None => false
                             | Some gMap =>
                                 contains groupSet
                                   (TrimSpace (or_empty (get_string "name" gMap)))
                             end) groupRefs
           end
  end.

(** One iteration of the loop over a policy's [modelRefs].
    [src/maas-api/internal/authpolicy/checker.go:78-88] AuthorizedModels. *)
Definition addModelRef (authorized : gset ModelKey) (ref : value)
    : gset ModelKey :=
  match as_map ref with
  | None => authorized
  | Some refMap =>
      let name := or_empty (get_string "name" refMap) in
      let ns := or_empty (get_string "namespace" refMap) in
      if name != "" then {[ mkModelKey ns name ]} ∪ authorized else authorized
  end.

(** One iteration of the loop over the policies.
    [src/maas-api/internal/authpolicy/checker.go:66-89] AuthorizedModels. *)
Definition addPolicy (groups : list string) (username : string)
    (authorized : gset ModelKey) (policy : obj) : gset ModelKey :=
  match get_map "spec" policy with
  | None => authorized
  | Some spec =>
      if negb (policyMatchesSubject spec groups username) then authorized
      else match get_slice "modelRefs" spec with
           | None => authorized
           | Some modelRefs => foldl addModelRef authorized modelRefs
           end
  end.

(** The returned [map[ModelKey]bool] holds only true entries: a set, or [None]
    for the nil map of a failed check.
    [src/maas-api/internal/authpolicy/checker.go:53-91] AuthorizedModels. *)
Definition AuthorizedModels (c : Checker) (groups : list string)
    (username : string) : option (gset ModelKey) :=
  match lister c with
  | None => None
  | Some (Err _) => None
  | Some (Ok policies) => Some (foldl (addPolicy groups username) ∅ policies)
  end.

(** Indexing the returned map: absent keys, and every key of the nil map, are
    false. *)
Definition authorized (s : option (gset ModelKey)) (k : ModelKey) : bool :=
  match s with
  | None => false
  | Some s => bool_decide (k ∈ s)
  end.

(** [src/maas-api/internal/authpolicy/checker.go:95-101] IsModelAccessible. *)
Definition IsModelAccessible (c : Checker) (groups : list string)
    (username modelName modelNamespace : string) : bool :=
  match AuthorizedModels c groups username with
  | None => false
  | Some s => authorized (Some s) (mkModelKey modelNamespace modelName)
  end.

(** ** Specification: who a policy names, and what it grants *)

Definition names_user (subjects : gomap) (username : string) : Prop :=
  username ≠ "" ∧
  ∃ users s, get_slice "users" subjects = Some users ∧
    VString s ∈ users ∧ TrimSpace s = TrimSpace username.

Definition names_group (subjects : gomap) (groups : list string) : Prop :=
  ∃ refs m g, get_slice "groups" subjects = Some refs ∧ VMap m ∈ refs ∧
    g ∈ groups ∧ TrimSpace g = TrimSpace (or_empty (get_string "name" m)).

Definition matches_subject (spec : gomap) (groups : list string)
    (username : string) : Prop :=
  ∃ subjects, get_map "subjects" spec = Some subjects ∧
    (names_user subjects username ∨ names_group subjects groups).

Definition lists_model (spec : gomap) (k : ModelKey) : Prop :=
  ∃ refs m, get_slice "modelRefs" spec = Some refs ∧ VMap m ∈ refs ∧
    Name k ≠ "" ∧ Name k = or_empty (get_string "name" m) ∧
    Namespace k = or_empty (get_string "namespace" m).

Definition grants (policy : obj) (groups : list string) (username : string)
    (k : ModelKey) : Prop :=
  ∃ spec, get_map "spec" policy = Some spec ∧
    matches_subject spec groups username ∧ lists_model spec k.

Lemma as_string_Some v s : as_string v = Some s ↔ v = VString s.
Proof. destruct v; naive_solver. Qed.

Lemma as_map_Some v m : as_map v = Some m ↔ v = VMap m.
Proof. destruct v; naive_solver. Qed.

Lemma userMatch_spec subjects username :
  (if username == "" then false
   else match get_slice "users" subjects with
        | None => false
        | Some users =>
            existsb (λ u, match as_string u with
                          | Some s => TrimSpace s == TrimSpace username
                          | None => false
                          end) users
        end) = true ↔ names_user subjects username.
Proof.
  unfold names_user. case_bool_decide as Hu; [naive_solver|].
  destruct (get_slice "users" subjects) as [users|]; [|naive_solver].
  rewrite existsb_elem_of. split.
  - intros (v & Hv & H). destruct (as_string v) as [s|] eqn:Es; [|done].
    apply as_string_Some in Es as ->. apply bool_decide_eq_true in H. eauto 8.
  - intros (_ & ? & s & [= <-] & Hs & E). exists (VString s).
    split; [done|]. by apply bool_decide_eq_true.
Qed.

Lemma groupMatch_spec refs groups :
  existsb (λ g, match as_map g with
                | None => false
                | Some gMap => contains (TrimSpace <$> groups)
                    (TrimSpace (or_empty (get_string "name" gMap)))
                end) refs = true ↔
  ∃ m g, VMap m ∈ refs ∧ g ∈ groups ∧
    TrimSpace g = TrimSpace (or_empty (get_string "name" m)).
Proof.
  rewrite existsb_elem_of. split.
  - intros (v & Hv & H). destruct (as_map v) as [m|] eqn:Em; [|done].
    apply as_map_Some in Em as ->.
    apply contains_true, list_elem_of_fmap in H as (g & Hg & ?). eauto 8.
  - intros (m & g & Hm & Hg & E). exists (VMap m). split; [done|].
    apply contains_true, list_elem_of_fmap. eauto.
Qed.

Lemma policyMatchesSubject_spec spec groups username :
  policyMatchesSubject spec groups username = true ↔
  matches_subject spec groups username.
Proof.
  unfold policyMatchesSubject, matches_subject.
  destruct (get_map "subjects" spec) as [subjects|]; [|naive_solver].
  match goal with |- (if ?b then _ else _) = _ ↔ _ => destruct b eqn:Hu end.
  - apply userMatch_spec in Hu. naive_solver.
  - assert (Hn : ¬ names_user subjects username)
      by by rewrite <-userMatch_spec, Hu.
    unfold names_group.
    destruct (get_slice "groups" subjects) as [refs|] eqn:Hg.
    + rewrite groupMatch_spec. split.
      * intros (m & g & ?). exists subjects. split; [done|]. right. naive_solver.
      * intros (? & [= <-] & [?|(? & m & g & Hr & ?)]); [done|].
        rewrite Hg in Hr. naive_solver.
    + split; [done|]. intros (? & [= <-] & [?|(? & ? & ? & Hr & _)]); [done|].
      by rewrite Hg in Hr.
Qed.

Lemma elem_of_addModelRef k s v :
  k ∈ addModelRef s v ↔
  k ∈ s ∨ ∃ m, v = VMap m ∧ Name k ≠ "" ∧
    Name k = or_empty (get_string "name" m) ∧
    Namespace k = or_empty (get_string "namespace" m).
Proof.
  unfold addModelRef. destruct (as_map v) as [m|] eqn:Em.
  - apply as_map_Some in Em as ->. case_bool_decide as Hn; simpl.
    + split; [by left|]. intros [?|(? & [= <-] & ? & ? & _)]; [done|congruence].
    + rewrite elem_of_union, elem_of_singleton. destruct k as [ns n]; simpl.
      split.
      * intros [[= -> ->]|?]; [|by left]. right. eauto.
      * intros [?|(? & [= <-] & ? & -> & ->)]; [by right|by left].
  - split; [by left|]. intros [?|(m & -> & _)]; [done|done].
Qed.

Lemma elem_of_foldl_addModelRef k s refs :
  k ∈ foldl addModelRef s refs ↔
  k ∈ s ∨ ∃ m, VMap m ∈ refs ∧ Name k ≠ "" ∧
    Name k = or_empty (get_string "name" m) ∧
    Namespace k = or_empty (get_string "namespace" m).
Proof.
  revert s. induction refs as [|v refs IH]; intros s; simpl.
  - split; [by left|]. intros [?|(m & []%elem_of_nil & _)]; done.
  - rewrite IH, elem_of_addModelRef. setoid_rewrite elem_of_cons. naive_solver.
Qed.

Lemma elem_of_addPolicy groups username k s p :
  k ∈ addPolicy groups username s p ↔ k ∈ s ∨ grants p groups username k.
Proof.
  unfold addPolicy, grants.
  destruct (get_map "spec" p) as [spec|]; [|naive_solver].
  destruct (policyMatchesSubject spec groups username) eqn:Hm; simpl.
  - apply policyMatchesSubject_spec in Hm. unfold lists_model.
    destruct (get_slice "modelRefs" spec) as [refs|] eqn:Hr.
    + rewrite elem_of_foldl_addModelRef. split.
      * intros [?|(m & ?)]; [by left|]. right. naive_solver.
      * intros [?|(? & [= <-] & _ & refs' & m & Hr' & ?)]; [by left|].
        rewrite Hr in Hr'. right. naive_solver.
    + split; [by left|].
      intros [?|(? & [= <-] & _ & refs' & m & Hr' & ?)]; [done|].
      by rewrite Hr in Hr'.
  - assert (¬ matches_subject spec groups username)
      by by rewrite <-policyMatchesSubject_spec, Hm.
    naive_solver.
Qed.

Lemma elem_of_foldl_addPolicy groups username k s ps :
  k ∈ foldl (addPolicy groups username) s ps ↔
  k ∈ s ∨ ∃ p, p ∈ ps ∧ grants p groups username k.
Proof.
  revert s. induction ps as [|p ps IH]; intros s; simpl.
  - split; [by left|]. intros [?|(m & []%elem_of_nil & _)]; done.
  - rewrite IH, elem_of_addPolicy. setoid_rewrite elem_of_cons. naive_solver.
Qed.

(** What the clients of the checker rely on: a model is authorised exactly when
    some cached policy grants it. *)
Lemma authorized_iff c groups username k :
  authorized (AuthorizedModels c groups username) k = true ↔
  ∃ ps p, lister c = Some (Ok ps) ∧ p ∈ ps ∧ grants p groups username k.
Proof.
  unfold AuthorizedModels.
  destruct (lister c) as [[ps|e]|]; simpl; [|naive_solver..].
  rewrite bool_decide_eq_true, elem_of_foldl_addPolicy. set_solver.
Qed.

Lemma matches_subject_groups_mono spec groups groups' username :
  groups ⊆ groups' →
  matches_subject spec groups username → matches_subject spec groups' username.
Proof.
  intros Hsub (subjects & ? & H). exists subjects. split; [done|].
  destruct H as [?|(refs & m & g & ? & ? & ? & ?)]; [by left|].
  right. exists refs, m, g. set_solver.
Qed.

End Checker.
