(* ===== verification/SubscriptionTypes.v ===== *)
(** The data of [src/maas-api/internal/subscription]: requests, responses,
    the parsed MaaSSubscription and the selection errors. *)
From S2P Require Import Prelude GoStrings Unstructured.

Module Sub.

(** [src/maas-api/internal/subscription/selector.go:20-25] phases. *)
Definition PhasePending : string := "Pending".
(** [src/maas-api/internal/subscription/selector.go:22-22] PhaseActive. *)
Definition PhaseActive : string := "Active".
(** [src/maas-api/internal/subscription/selector.go:23-23] PhaseDegraded. *)
Definition PhaseDegraded : string := "Degraded".
(** [src/maas-api/internal/subscription/selector.go:24-24] PhaseFailed. *)
Definition PhaseFailed : string := "Failed".

(** [src/maas-api/internal/subscription/types.go:4-9] SelectRequest. *)
Record SelectRequest : Type := {
  req_Groups : list string;
  req_Username : string;
  req_RequestedSubscription : string;
  req_RequestedModel : string;
}.

(** [src/maas-api/internal/subscription/types.go:74-77] TokenRateLimit. *)
Record TokenRateLimit : Type := { Limit : Z; Window : string }.

(** [src/maas-api/internal/subscription/types.go:90-92] BillingRate. *)
Record BillingRate : Type := { PerToken : string }.

(** [src/maas-api/internal/subscription/types.go:62-71] ModelRefInfo. *)
Record ModelRefInfo : Type := mkRef {
  ref_Name : string;
  ref_Namespace : string;
  ref_ModelName : string;
  ref_DisplayName : string;
  ref_Description : string;
  ref_Source : string;
  ref_TokenRateLimits : list TokenRateLimit;
  ref_BillingRate : option BillingRate;
}.

(** [src/maas-api/internal/subscription/types.go:80-87] TokenRateLimitStatus. *)
Record TokenRateLimitStatus : Type := {
  trlp_Model : string;
  trlp_Name : string;
  trlp_Namespace : string;
  trlp_Ready : bool;
  trlp_Reason : string;
  trlp_Message : string;
}.

(** Labels are [None] for Go's nil map.
    [src/maas-api/internal/subscription/selector.go:100-117] subscription. *)
Record subscription : Type := mkSub {
  Name : string;
  Namespace : string;
  DisplayName : string;
  Description : string;
  Groups : list string;
  Users : list string;
  Priority : Z;
  MaxLimit : Z;
  OrganizationID : string;
  CostCenter : string;
  Labels : option (gmap string string);
  ModelRefs : list ModelRefInfo;
  Phase : string;
  Ready : bool;
  DeletionTimestamp : option string;
  TokenRateLimitStatuses : list TokenRateLimitStatus;
}.

(** [src/maas-api/internal/subscription/types.go:19-46] SelectResponse. *)
Record SelectResponse : Type := mkResp {
  resp_Name : string;
  resp_Namespace : string;
  resp_DisplayName : string;
  resp_Description : string;
  resp_Priority : Z;
  resp_ModelRefs : list ModelRefInfo;
  resp_OrganizationID : string;
  resp_CostCenter : string;
  resp_Labels : option (gmap string string);
  resp_ResolvedModel : string;
  resp_AccessAllowed : bool;
  resp_Phase : string;
  resp_Ready : bool;
  resp_DeletionTimestamp : string;
  resp_Error : string;
  resp_Message : string;
}.

(** [src/maas-api/internal/subscription/types.go:50-59] SubscriptionInfo. *)
Record SubscriptionInfo : Type := {
  SubscriptionIDHeader : string;
  SubscriptionDescription : string;
  info_DisplayName : string;
  info_Priority : Z;
  info_ModelRefs : list ModelRefInfo;
  info_OrganizationID : string;
  info_CostCenter : string;
  info_Labels : option (gmap string string);
}.

(** The error types of selection, after [errors.As] has looked through the
    wrapping; [SelectorError] is any other error, by its message.
    [src/maas-api/internal/subscription/selector.go:874-929] NoSubscriptionError. *)
Inductive select_error : Type :=
  | NoSubscriptionError
  | SubscriptionNotFoundError (Subscription : string)
  | AccessDeniedError (Subscription : string)
  | MultipleSubscriptionsError (Subscriptions : list string)
  | ModelNotInSubscriptionError (Subscription Model : string)
  | ModelUnhealthyError (Subscription Phase Reason Message : string)
  | SelectorError (message : string).

(** The [Error()] methods of the same types.
    [src/maas-api/internal/subscription/selector.go:874-929] Error. *)
Definition error_message (e : select_error) : string :=
  match e with
  | NoSubscriptionError => "no matching subscription found for user"
  | SubscriptionNotFoundError _ => "requested subscription not found"
  | AccessDeniedError _ => "access denied to requested subscription"
  | MultipleSubscriptionsError _ =>
      "user has access to multiple subscriptions, must specify subscription using X-MaaS-Subscription header"
  | ModelNotInSubscriptionError s m =>
      "subscription " +:+ s +:+ " does not include model " +:+ m
  | ModelUnhealthyError _ _ _ _ =>
      "requested model is unhealthy in subscription"
  | SelectorError m => m
  end.

#[global] Instance TokenRateLimit_eq_dec : EqDecision TokenRateLimit.
Proof. solve_decision. Defined.
#[global] Instance BillingRate_eq_dec : EqDecision BillingRate.
Proof. solve_decision. Defined.
#[global] Instance ModelRefInfo_eq_dec : EqDecision ModelRefInfo.
Proof. solve_decision. Defined.
#[global] Instance TokenRateLimitStatus_eq_dec :
  EqDecision TokenRateLimitStatus.
Proof. solve_decision. Defined.
#[global] Instance SelectResponse_eq_dec : EqDecision SelectResponse.
Proof. solve_decision. Defined.
#[global] Instance select_error_eq_dec : EqDecision select_error.
Proof. solve_decision. Defined.

(** The zero [SelectResponse], before its fields are set. *)
Definition zero_response : SelectResponse :=
  mkResp "" "" "" "" 0 [] "" "" None "" false "" false "" "" "".

(** [src/maas-api/internal/subscription/handler.go:161-167] SelectSubscription. *)
Definition with_error (code msg phase : string) : SelectResponse :=
  mkResp "" "" "" "" 0 [] "" "" None "" false phase false "" code msg.

End Sub.
