(* ===== verification/Selector.v ===== *)
(** Subscription selection,
    [src/maas-api/internal/subscription/selector.go]: parsing MaaSSubscription
    objects, the access and health checks, and the selection entry points. *)
From S2P Require Import Prelude GoStrings Sorting Unstructured.
From S2P Require Import AuthPolicyChecker SubscriptionTypes.
Import Sub.

Module Selector.

(** [src/maas-api/internal/constant/const.go:34-34] AnnotationDescription. *)
Definition AnnotationDescription : string := "openshift.io/description".
(** [src/maas-api/internal/constant/const.go:35-35] AnnotationDisplayName. *)
Definition AnnotationDisplayName : string := "openshift.io/display-name".

(** ** The selector and its collaborators *)

(** A [ModelAccessChecker] is its [AuthorizedModels] method.
    [src/maas-api/internal/subscription/selector.go:33-35] ModelAccessChecker. *)
Definition ModelAccessChecker : Type :=
  list string → string → option (gset Checker.ModelKey).

(** The informer-backed listers are read afresh by every [List()] call, and a
    call of [Select] lists the MaaSModelRefs twice: [modelLister] gives the
    answer of the n-th [List()] of the request. [None] is a nil interface.
    [src/maas-api/internal/subscription/selector.go:38-43] Selector. *)
Record Selector : Type := mkSelector {
  lister : result string (list obj);
  modelLister : option (nat → result string (list obj));
  accessChecker : option ModelAccessChecker;
}.

Section selector.
Context {api : ApiMachinery}.

(** ** Model identities *)

Definition object_key (u : obj) : string :=
  GetNamespace u +:+ "/" +:+ GetName u.

(** [src/maas-api/internal/subscription/selector.go:62-77] buildModelIndex. *)
Definition buildModelIndex (s : Selector) (call : nat)
    : option (gmap string obj) :=
  match modelLister s with
  | None => None
  | Some list_call =>
      match list_call call with
      | Err _ => None
      | Ok items =>
          Some (foldl (λ index u, <[object_key u := u]> index) ∅ items)
      end
  end.

(** [src/maas-api/internal/subscription/selector.go:82-97] resolveModelAlias. *)
Definition resolveModelAlias (s : Selector) (call : nat)
    (requestedModel : string) : string :=
  match modelLister s with
  | None => requestedModel
  | Some list_call =>
      if requestedModel == "" then requestedModel
      else match list_call call with
           | Err _ => requestedModel
           | Ok items =>
               match find_first
                       (λ u, match found (NestedString u
                                     ["status"; "resolvedModelAlias"]) with
                             | Some alias => alias == requestedModel
                             | None => false
                             end) items with
               | Some u => object_key u
               | None => requestedModel
               end
           end
  end.

(** ** Parsing *)

(** [src/maas-api/internal/subscription/selector.go:516-525] parseModelRef. *)
Definition parseTokenRateLimit (limitMap : gomap) : TokenRateLimit := {|
  Limit := default 0%Z (get_int64 "limit" limitMap);
  Window := or_empty (get_string "window" limitMap);
|}.

(** [src/maas-api/internal/subscription/selector.go:506-536] parseModelRef. *)
Definition parseModelRef (modelMap : gomap) : ModelRefInfo := {|
  ref_Name := or_empty (get_string "name" modelMap);
  ref_Namespace := or_empty (get_string "namespace" modelMap);
  ref_ModelName := "";
  ref_DisplayName := "";
  ref_Description := "";
  ref_Source := "";
  ref_TokenRateLimits :=
    match found (NestedSlice modelMap ["tokenRateLimits"]) with
    | Some limits => parseTokenRateLimit <$> omap as_map limits
    | None => []
    end;
  ref_BillingRate :=
    match found (NestedMap modelMap ["billingRate"]) with
    | Some billingRate =>
        Some {| PerToken := or_empty (get_string "perToken" billingRate) |}
    | None => None
    end;
|}.

(** The running maximum kept while the modelRefs are appended.
    [src/maas-api/internal/subscription/selector.go:423-427] parseSubscription. *)
Definition maxLimit (refs : list ModelRefInfo) : Z :=
  foldl (λ m trl, if (m <? Limit trl)%Z then Limit trl else m) 0%Z
    (mjoin (ref_TokenRateLimits <$> refs)).

(** [src/maas-api/internal/subscription/selector.go:539-558] parseTokenMetadata. *)
Definition parseTokenMetadata (spec : gomap)
    : string * string * option (gmap string string) :=
  match found (NestedMap spec ["tokenMetadata"]) with
  | None => ("", "", None)
  | Some metadata =>
      (or_empty (get_string "organizationId" metadata),
       or_empty (get_string "costCenter" metadata),
       match get_map "labels" metadata with
       | Some labelsRaw =>
           Some (list_to_map
             (omap (λ kv : string * value,
                      s ← as_string kv.2; Some (kv.1, s)) labelsRaw))
       | None => None
       end)
  end.

(** [src/maas-api/internal/subscription/selector.go:450-462] parseSubscription. *)
Definition parseReady (status : gomap) : bool :=
  match found (NestedSlice status ["conditions"]) with
  | None => false
  | Some conditions =>
      match find_first (λ m, or_empty (get_string "type" m) == "Ready")
              (omap as_map conditions) with
      | Some m => or_empty (get_string "status" m) == "True"
      | None => false
      end
  end.

(** [src/maas-api/internal/subscription/selector.go:464-490] parseSubscription. *)
Definition parseTokenRateLimitStatuses (status : gomap)
    : list TokenRateLimitStatus :=
  match found (NestedSlice status ["tokenRateLimitStatuses"]) with
  | None => []
  | Some l =>
      (λ m, {| trlp_Model := or_empty (get_string "model" m);
               trlp_Name := or_empty (get_string "name" m);
               trlp_Namespace := or_empty (get_string "namespace" m);
               trlp_Ready := default false (get_bool "ready" m);
               trlp_Reason := or_empty (get_string "reason" m);
               trlp_Message := or_empty (get_string "message" m) |})
        <$> omap as_map l
  end.

(** [src/maas-api/internal/subscription/selector.go:411-416] parseSubscription. *)
Definition parsePriority (spec : gomap) : Z :=
  match found (NestedInt64 spec ["priority"]) with
  | Some p => if (0 <=? p)%Z && (p <=? max_int32)%Z then p else 0%Z
  | None => 0%Z
  end.

(** [src/maas-api/internal/subscription/selector.go:375-503] parseSubscription. *)
Definition parseSubscription (o : obj) : result string subscription :=
  match NestedMap o ["spec"] with
  | NestedErr _ | NotFound => Err "spec not found"
  | Found spec =>
      let owner := found (NestedMap spec ["owner"]) in
      let refs := match found (NestedSlice spec ["modelRefs"]) with
                  | Some l => parseModelRef <$> omap as_map l
                  | None => []
                  end in
      let '(org, cost, labels) := parseTokenMetadata spec in
      let status := found (NestedMap o ["status"]) in
      Ok {|
        Name := GetName o;
        Namespace := GetNamespace o;
        DisplayName := annotation (GetAnnotations o) AnnotationDisplayName;
        Description := annotation (GetAnnotations o) AnnotationDescription;
        Groups :=
          match owner ≫= λ w, found (NestedSlice w ["groups"]) with
          | Some l => omap (λ g, m ← as_map g; get_string "name" m) l
          | None => []
          end;
        Users := default [] (owner ≫= λ w, found (NestedStringSlice w ["users"]));
        Priority := parsePriority spec;
        MaxLimit := maxLimit refs;
        OrganizationID := org;
        CostCenter := cost;
        Labels := labels;
        ModelRefs := refs;
        Phase := match status ≫= get_string "phase" with
                 | Some phase => TrimSpace phase
                 | None => ""
                 end;
        Ready := match status with Some st => parseReady st | None => false end;
        DeletionTimestamp :=
          match get_map "metadata" o ≫= get_string "deletionTimestamp" with
          | Some t => if t != "" then Some t else None
          | None => None
          end;
        TokenRateLimitStatuses :=
          match status with
          | Some st => parseTokenRateLimitStatuses st
          | None => []
          end;
      |}
  end.

(** [src/maas-api/internal/subscription/selector.go:352-368] enrichModelRefs. *)
Definition enrichModelRef (index : gmap string obj) (ref : ModelRefInfo)
    : ModelRefInfo :=
  match index !! (ref_Namespace ref +:+ "/" +:+ ref_Name ref) with
  | None => ref
  | Some u =>
      let '(dn, desc) :=
        match GetAnnotations u with
        | Some a => (default "" (a !! AnnotationDisplayName),
                     default "" (a !! AnnotationDescription))
        | None => (ref_DisplayName ref, ref_Description ref)
        end in
      let kind :=
        or_empty (found (NestedString u ["spec"; "modelRef"; "kind"])) in
      {| ref_Name := ref_Name ref;
         ref_Namespace := ref_Namespace ref;
         ref_ModelName :=
           match found (NestedString u ["status"; "resolvedModelAlias"]) with
           | Some alias => if alias != "" then alias else ref_ModelName ref
           | None => ref_ModelName ref
           end;
         ref_DisplayName := dn;
         ref_Description := desc;
         ref_Source :=
           if kind == "ExternalModel" then "external"
           else if kind == "LLMInferenceService" then "internal"
           else ref_Source ref;
         ref_TokenRateLimits := ref_TokenRateLimits ref;
         ref_BillingRate := ref_BillingRate ref |}
  end.

(** The loop updates the slice in place; the parsed subscription owns it.
    [src/maas-api/internal/subscription/selector.go:347-370] enrichModelRefs. *)
Definition enrichModelRefs (refs : list ModelRefInfo)
    (index : option (gmap string obj)) : list ModelRefInfo :=
  match index with
  | None => refs
  | Some index => enrichModelRef index <$> refs
  end.

Definition set_ModelRefs (sub : subscription) (refs : list ModelRefInfo)
    : subscription := {|
  Name := Name sub; Namespace := Namespace sub;
  DisplayName := DisplayName sub; Description := Description sub;
  Groups := Groups sub; Users := Users sub; Priority := Priority sub;
  MaxLimit := MaxLimit sub; OrganizationID := OrganizationID sub;
  CostCenter := CostCenter sub; Labels := Labels sub; ModelRefs := refs;
  Phase := Phase sub; Ready := Ready sub;
  DeletionTimestamp := DeletionTimestamp sub;
  TokenRateLimitStatuses := TokenRateLimitStatuses sub;
|}.

(** Objects that do not parse are skipped.
    [src/maas-api/internal/subscription/selector.go:319-343] loadSubscriptions. *)
Definition loadSubscriptions (s : Selector) (call : nat)
    : result string (list subscription) :=
  match lister s with
  | Err e => Err e
  | Ok objects =>
      let modelIndex := buildModelIndex s call in
      Ok (omap (λ o, match parseSubscription o with
                     | Ok sub =>
                         Some (set_ModelRefs sub
                                 (enrichModelRefs (ModelRefs sub) modelIndex))
                     | Err _ => None
                     end) objects)
  end.

(** ** Access, inclusion and health *)

(** [src/maas-api/internal/subscription/selector.go:561-578] userHasAccess. *)
Definition userHasAccess (sub : subscription) (username : string)
    (groups : list string) : bool :=
  if contains (Users sub) username then true
  else existsb (λ subGroup,
         existsb (λ userGroup, TrimSpace userGroup == subGroup) groups)
         (Groups sub).

(** [src/maas-api/internal/subscription/selector.go:616-634] findModelRef. *)
Definition findModelRef (sub : subscription) (requestedModel : string)
    : option ModelRefInfo :=
  let byName :=
    find_first (λ ref,
      if (ref_ModelName ref != "") && (ref_ModelName ref == requestedModel)
      then true else ref_Name ref == requestedModel) (ModelRefs sub) in
  match cut "/"%char requestedModel with
  | Some (ns, name) =>
      match find_first (λ ref, (ref_Namespace ref == ns) && (ref_Name ref == name))
              (ModelRefs sub) with
      | Some ref => Some ref
      | None => byName
      end
  | None => byName
  end.

(** [src/maas-api/internal/subscription/selector.go:601-606] subscriptionIncludesModel. *)
Definition subscriptionIncludesModel (sub : subscription)
    (requestedModel : string) : bool :=
  if requestedModel == "" then true
  else match findModelRef sub requestedModel with
       | Some _ => true
       | None => false
       end.

(** [src/maas-api/internal/subscription/selector.go:581-597] isModelAccessAllowed. *)
Definition isModelAccessAllowed (s : Selector) (groups : list string)
    (username : string) (sub : subscription) (requestedModel : string) : bool :=
  if requestedModel == "" then true
  else match accessChecker s with
       | None => false
       | Some check =>
           match findModelRef sub requestedModel with
           | None => false
           | Some ref =>
               match check groups username with
               | None => false
               | Some set => Checker.authorized (Some set)
                   (Checker.mkModelKey (ref_Namespace ref) (ref_Name ref))
               end
           end
       end.

(** [src/maas-api/internal/subscription/selector.go:651-656] checkModelHealth. *)
Definition notReady (sub : subscription) (msg : string) : select_error :=
  ModelUnhealthyError (Name sub) (Phase sub) "SubscriptionNotReady" msg.

(** [src/maas-api/internal/subscription/selector.go:715-720] checkModelHealth. *)
Definition rateLimitNotEnforced (sub : subscription) : select_error :=
  ModelUnhealthyError (Name sub) (Phase sub) "RateLimitNotEnforced"
    "subscription rate limiting policies are not ready".

(** [None] is the nil error.
    [src/maas-api/internal/subscription/selector.go:645-734] checkModelHealth. *)
Definition checkModelHealth (sub : subscription) (requestedModel : string)
    : option select_error :=
  if requestedModel == "" then
    if Phase sub == "" then
      Some (notReady sub "subscription is unreconciled (no status.phase set)")
    else if Phase sub == PhaseFailed then
      Some (notReady sub
              "subscription is in Failed phase (cannot create API keys)")
    else None
  else if (Phase sub != PhaseActive) && (Phase sub != PhaseDegraded) then
    let phaseDisplay := if Phase sub == "" then "unreconciled" else Phase sub in
    Some (notReady sub ("subscription is in " +:+ phaseDisplay +:+
                        " phase (allowed: Active, Degraded)"))
  else if Phase sub != PhaseDegraded then None
  else
    match findModelRef sub requestedModel with
    | None =>
        Some (ModelUnhealthyError (Name sub) (Phase sub) "InvalidModelFormat"
                "requested model does not match any model in the subscription")
    | Some ref =>
        match ref_TokenRateLimits ref with
        | [] => None
        | _ :: _ =>
            match find_first (λ trlp, trlp_Model trlp == ref_Name ref)
                    (TokenRateLimitStatuses sub) with
            | Some trlp =>
                if negb (trlp_Ready trlp)
                then Some (rateLimitNotEnforced sub) else None
            | None => Some (rateLimitNotEnforced sub)
            end
        end
    end.

(** ** Ordering *)

(** [src/maas-api/internal/subscription/selector.go:749-757] sortSubscriptionsByPriority. *)
Definition priority_less (a b : subscription) : bool :=
  if bool_decide (Priority a ≠ Priority b) then (Priority b <? Priority a)%Z
  else if bool_decide (MaxLimit a ≠ MaxLimit b)
       then (MaxLimit b <? MaxLimit a)%Z
  else str_lt (Name a) (Name b).

(** [src/maas-api/internal/subscription/selector.go:748-758] sortSubscriptionsByPriority. *)
Definition sortSubscriptionsByPriority (subs : list subscription)
    : list subscription :=
  sort_stable priority_less subs.

(** ** Responses *)

(** A nil [modelRefs] slice becomes an empty one: the same list here.
    [src/maas-api/internal/subscription/selector.go:842-864] toResponse. *)
Definition toResponse (sub : subscription) : SelectResponse := {|
  resp_Name := Name sub;
  resp_Namespace := Namespace sub;
  resp_DisplayName := DisplayName sub;
  resp_Description := Description sub;
  resp_Priority := Priority sub;
  resp_ModelRefs := ModelRefs sub;
  resp_OrganizationID := OrganizationID sub;
  resp_CostCenter := CostCenter sub;
  resp_Labels := Labels sub;
  resp_ResolvedModel := "";
  resp_AccessAllowed := false;
  resp_Phase := Phase sub;
  resp_Ready := Ready sub;
  resp_DeletionTimestamp := default "" (DeletionTimestamp sub);
  resp_Error := "";
  resp_Message := "";
|}.

(** The assignments to [resp.ResolvedModel] and [resp.AccessAllowed].
    [src/maas-api/internal/subscription/selector.go:868-872] toResponseWithResolvedModel. *)
Definition toResponseWithResolvedModel (sub : subscription)
    (resolvedModel : string) (accessAllowed : bool) : SelectResponse :=
  let r := toResponse sub in
  mkResp (resp_Name r) (resp_Namespace r) (resp_DisplayName r)
    (resp_Description r) (resp_Priority r) (resp_ModelRefs r)
    (resp_OrganizationID r) (resp_CostCenter r) (resp_Labels r) resolvedModel
    accessAllowed (resp_Phase r) (resp_Ready r) (resp_DeletionTimestamp r)
    (resp_Error r) (resp_Message r).

(** [src/maas-api/internal/subscription/selector.go:805-821] toSubscriptionInfo. *)
Definition toSubscriptionInfo (sub : subscription) : SubscriptionInfo := {|
  SubscriptionIDHeader := Name sub;
  SubscriptionDescription := Description sub;
  info_DisplayName := DisplayName sub;
  info_Priority := Priority sub;
  info_ModelRefs := ModelRefs sub;
  info_OrganizationID := OrganizationID sub;
  info_CostCenter := CostCenter sub;
  info_Labels := Labels sub;
|}.

(** [src/maas-api/internal/subscription/selector.go:824-839] ResponseToSubscriptionInfo. *)
Definition ResponseToSubscriptionInfo (sub : SelectResponse)
    : SubscriptionInfo := {|
  SubscriptionIDHeader := resp_Name sub;
  SubscriptionDescription := resp_Description sub;
  info_DisplayName := resp_DisplayName sub;
  info_Priority := resp_Priority sub;
  info_ModelRefs := resp_ModelRefs sub;
  info_OrganizationID := resp_OrganizationID sub;
  info_CostCenter := resp_CostCenter sub;
  info_Labels := resp_Labels sub;
|}.

(** ** Entry points *)

(** [src/maas-api/internal/subscription/selector.go:185-187] Select. *)
Definition no_identity : select_error :=
  SelectorError "either groups or username must be provided".

(** [src/maas-api/internal/subscription/selector.go:191-194] Select. *)
Definition load_failed (e : string) : select_error :=
  SelectorError ("failed to load subscriptions: " +:+ e).

(** The end of every successful path: health, then the response.
    [src/maas-api/internal/subscription/selector.go:269-277] Select. *)
Definition finishSelection (s : Selector) (groups : list string)
    (username : string) (sub : subscription) (requestedModel : string)
    : result select_error SelectResponse :=
  match checkModelHealth sub requestedModel with
  | Some e => Err e
  | None =>
      Ok (toResponseWithResolvedModel sub requestedModel
            (isModelAccessAllowed s groups username sub requestedModel))
  end.

(** What an explicitly requested subscription, once found, goes through.
    [src/maas-api/internal/subscription/selector.go:209-224] Select. *)
Definition validateRequested (s : Selector) (groups : list string)
    (username requestedSubscription requestedModel : string)
    (sub : subscription) : result select_error SelectResponse :=
  if negb (userHasAccess sub username groups) then
    Err (AccessDeniedError requestedSubscription)
  else if (requestedModel != "") &&
          negb (subscriptionIncludesModel sub requestedModel) then
    Err (ModelNotInSubscriptionError requestedSubscription requestedModel)
  else finishSelection s groups username sub requestedModel.

(** [src/maas-api/internal/subscription/selector.go:208-208] Select. *)
Definition qualifiedName (sub : subscription) : string :=
  Namespace sub +:+ "/" +:+ Name sub.

(** [src/maas-api/internal/subscription/selector.go:205-251] Select. *)
Definition selectRequested (s : Selector) (groups : list string)
    (username requestedSubscription requestedModel : string)
    (subs : list subscription) : result select_error SelectResponse :=
  match find_first (λ sub, qualifiedName sub == requestedSubscription) subs with
  | Some sub =>
      validateRequested s groups username requestedSubscription requestedModel sub
  | None =>
      if negb (contains_byte requestedSubscription "/"%char) then
        match find_first (λ sub, Name sub == requestedSubscription) subs with
        | Some sub =>
            validateRequested s groups username requestedSubscription
              requestedModel sub
        | None => Err (SubscriptionNotFoundError requestedSubscription)
        end
      else Err (SubscriptionNotFoundError requestedSubscription)
  end.

(** [src/maas-api/internal/subscription/selector.go:255-263] Select. *)
Definition accessibleFor (username : string) (groups : list string)
    (requestedModel : string) (subs : list subscription) : list subscription :=
  List.filter (λ sub,
    userHasAccess sub username groups &&
    ((requestedModel == "") || subscriptionIncludesModel sub requestedModel))
    subs.

(** [src/maas-api/internal/subscription/selector.go:253-285] Select. *)
Definition autoSelect (s : Selector) (groups : list string)
    (username requestedModel : string) (subs : list subscription)
    : result select_error SelectResponse :=
  match accessibleFor username groups requestedModel subs with
  | [] => Err NoSubscriptionError
  | [sub] => finishSelection s groups username sub requestedModel
  | accessibleSubs => Err (MultipleSubscriptionsError (Name <$> accessibleSubs))
  end.

(** The MaaSModelRefs are listed once to resolve the alias and once more to
    build the index.
    [src/maas-api/internal/subscription/selector.go:184-285] Select. *)
Definition Select (s : Selector) (groups : list string)
    (username requestedSubscription requestedModel : string)
    : result select_error SelectResponse :=
  if (length groups =? 0) && (username == "") then Err no_identity
  else
    let requestedModel := resolveModelAlias s 0 requestedModel in
    match loadSubscriptions s 1 with
    | Err e => Err (load_failed e)
    | Ok [] => Err NoSubscriptionError
    | Ok subscriptions =>
        let subs := sortSubscriptionsByPriority subscriptions in
        if requestedSubscription != "" then
          selectRequested s groups username requestedSubscription
            requestedModel subs
        else autoSelect s groups username requestedModel subs
    end.

(** [src/maas-api/internal/subscription/selector.go:289-316] SelectHighestPriority. *)
Definition SelectHighestPriority (s : Selector) (groups : list string)
    (username : string) : result select_error SelectResponse :=
  if (length groups =? 0) && (username == "") then Err no_identity
  else
    match loadSubscriptions s 0 with
    | Err e => Err (load_failed e)
    | Ok [] => Err NoSubscriptionError
    | Ok subscriptions =>
        let accessible :=
          List.filter (λ sub, userHasAccess sub username groups) subscriptions in
        match sortSubscriptionsByPriority accessible with
        | [] => Err NoSubscriptionError
        | sub :: _ => Ok (toResponse sub)
        end
    end.

(** [src/maas-api/internal/subscription/selector.go:171-179] filterAuthorizedModels. *)
Definition filterAuthorizedModels (refs : list ModelRefInfo)
    (authorizedSet : option (gset Checker.ModelKey)) : list ModelRefInfo :=
  List.filter (λ ref, Checker.authorized authorizedSet
    (Checker.mkModelKey (ref_Namespace ref) (ref_Name ref))) refs.

(** [src/maas-api/internal/subscription/selector.go:131-149] GetAllAccessible. *)
Definition listable (username : string) (groups : list string)
    (sub : subscription) : bool :=
  userHasAccess sub username groups &&
  ((Phase sub == PhaseActive) || (Phase sub == PhaseDegraded)) &&
  bool_decide (DeletionTimestamp sub = None).

Definition set_resp_ModelRefs (r : SelectResponse) (refs : list ModelRefInfo)
    : SelectResponse :=
  mkResp (resp_Name r) (resp_Namespace r) (resp_DisplayName r)
    (resp_Description r) (resp_Priority r) refs (resp_OrganizationID r)
    (resp_CostCenter r) (resp_Labels r) (resp_ResolvedModel r)
    (resp_AccessAllowed r) (resp_Phase r) (resp_Ready r)
    (resp_DeletionTimestamp r) (resp_Error r) (resp_Message r).

Context {slice : SliceSort}.

(** [src/maas-api/internal/subscription/selector.go:120-169] GetAllAccessible. *)
Definition GetAllAccessible (s : Selector) (groups : list string)
    (username : string) : result select_error (list SelectResponse) :=
  if (length groups =? 0) && (username == "") then Err no_identity
  else
    match loadSubscriptions s 0 with
    | Err e => Err (load_failed e)
    | Ok subscriptions =>
        let accessible :=
          toResponse <$> List.filter (listable username groups) subscriptions in
        let accessible :=
          match accessChecker s with
          | None => accessible
          | Some check =>
              let authorizedSet := check groups username in
              List.filter (λ r, negb (length (resp_ModelRefs r) =? 0))
                ((λ r, set_resp_ModelRefs r
                   (filterAuthorizedModels (resp_ModelRefs r) authorizedSet))
                   <$> accessible)
          end in
        Ok (sort_slice (λ a b, str_lt (resp_Name a) (resp_Name b)) accessible)
    end.

(** [src/maas-api/internal/subscription/selector.go:737-745] findModelNamespaces. *)
Definition findModelNamespaces (sub : subscription) (modelID : string)
    : list string :=
  ref_Namespace <$> List.filter (λ ref, ref_Name ref == modelID) (ModelRefs sub).

(** [src/maas-api/internal/subscription/selector.go:762-802] ListAccessibleForModel. *)
Definition ListAccessibleForModel (s : Selector) (username : string)
    (groups : list string) (modelID : string)
    : result select_error (list SubscriptionInfo) :=
  match loadSubscriptions s 0 with
  | Err e => Err (load_failed e)
  | Ok subscriptions =>
      let keep sub :=
        let modelNamespaces := findModelNamespaces sub modelID in
        if negb (userHasAccess sub username groups) ||
           (length modelNamespaces =? 0) then false
        else match accessChecker s with
             | None => true
             | Some check =>
                 existsb (λ ns, Checker.authorized (check groups username)
                                  (Checker.mkModelKey ns modelID))
                   modelNamespaces
             end in
      Ok (sort_slice
            (λ a b, str_lt (SubscriptionIDHeader a) (SubscriptionIDHeader b))
            (toSubscriptionInfo <$> List.filter keep subscriptions))
  end.

End selector.
End Selector.
