(* ===== verification/SelectionCorrectness.v ===== *)
(** Correctness of subscription selection: what [Select],
    [SelectHighestPriority] and [GetAllAccessible] return, to whom, and in
    which order. *)
From S2P Require Import Prelude GoStrings Sorting Unstructured.
From S2P Require Import AuthPolicyChecker SubscriptionTypes Selector.
Import Sub Selector.

(** ** The order of subscriptions *)

#[global] Instance priority_less_strict_weak : StrictWeak priority_less.
Proof.
  split; unfold priority_less.
  - intros x y. repeat case_bool_decide; try lia; try congruence.
    apply str_lt_asym.
  - intros x y z. repeat case_bool_decide; try lia; try congruence.
    apply str_lt_neg_trans.
Qed.

#[global] Instance resp_name_less_strict_weak :
  StrictWeak (λ a b, str_lt (resp_Name a) (resp_Name b)).
Proof.
  apply (strict_weak_by resp_Name str_lt).
  split; [apply str_lt_asym|apply str_lt_neg_trans].
Qed.

#[global] Instance info_name_less_strict_weak :
  StrictWeak (λ a b, str_lt (SubscriptionIDHeader a) (SubscriptionIDHeader b)).
Proof.
  apply (strict_weak_by SubscriptionIDHeader str_lt).
  split; [apply str_lt_asym|apply str_lt_neg_trans].
Qed.

(** ** Abstract specification of eligibility *)

(** The caller owns the subscription, by name or through a group. *)
Definition owner (sub : subscription) (username : string)
    (groups : list string) : Prop :=
  username ∈ Users sub ∨
  ∃ g, g ∈ groups ∧ TrimSpace g ∈ Groups sub.

(** A request for [m] may be served under [sub]: its phase allows inference,
    and the limits its spec defines are in force if it is degraded. *)
Definition may_infer (sub : subscription) (m : string) : Prop :=
  Phase sub = PhaseActive ∨
  (Phase sub = PhaseDegraded ∧
   ∃ ref, findModelRef sub m = Some ref ∧
     (ref_TokenRateLimits ref = [] ∨
      ∃ st, find_first (λ st, trlp_Model st == ref_Name ref)
              (TokenRateLimitStatuses sub) = Some st ∧ trlp_Ready st = true)).

(** The phases under which a key may be minted. *)
Definition may_mint (sub : subscription) : Prop :=
  Phase sub ≠ "" ∧ Phase sub ≠ PhaseFailed.

Lemma userHasAccess_owner sub username groups :
  userHasAccess sub username groups = true ↔ owner sub username groups.
Proof.
  unfold userHasAccess, owner. destruct (contains (Users sub) username) eqn:E.
  - apply contains_true in E. naive_solver.
  - apply contains_false in E. rewrite existsb_elem_of.
    setoid_rewrite existsb_elem_of. setoid_rewrite bool_decide_eq_true.
    naive_solver.
Qed.

Lemma checkModelHealth_mint sub :
  checkModelHealth sub "" = None ↔ may_mint sub.
Proof.
  unfold checkModelHealth, may_mint. rewrite bool_decide_eq_true_2 by done.
  repeat case_bool_decide; naive_solver.
Qed.

Lemma checkModelHealth_infer sub m :
  m ≠ "" → checkModelHealth sub m = None ↔ may_infer sub m.
Proof.
  intros Hm. unfold checkModelHealth, may_infer.
  rewrite bool_decide_eq_false_2 by done.
  destruct (decide (Phase sub = PhaseActive)) as [Ha|Ha].
  { rewrite (bool_decide_eq_true_2 _ Ha), Ha. naive_solver. }
  rewrite (bool_decide_eq_false_2 _ Ha). simpl.
  destruct (decide (Phase sub = PhaseDegraded)) as [Hd|Hd].
  - rewrite (bool_decide_eq_true_2 _ Hd). simpl.
    destruct (findModelRef sub m) as [ref|]; [|naive_solver].
    destruct (ref_TokenRateLimits ref) eqn:Hl; [naive_solver|].
    destruct (find_first _ _) as [st|] eqn:Ef.
    + destruct (trlp_Ready st) eqn:Hst; simpl; [by split; [eauto 8|]|].
      split; [done|]. intros [?|(_ & ? & [= <-] & [?|(st' & Hf & ?)])];
        [done|congruence|]. rewrite Ef in Hf. congruence.
    + split; [done|]. intros [?|(_ & ? & [= <-] & [?|(st' & Hf & ?)])];
        [done|congruence|]. by rewrite Ef in Hf.
  - rewrite (bool_decide_eq_false_2 _ Hd). simpl. split; [done|naive_solver].
Qed.

Lemma checkModelHealth_spec sub m :
  checkModelHealth sub m = None ↔
  (m = "" ∧ may_mint sub) ∨ (m ≠ "" ∧ may_infer sub m).
Proof.
  destruct (decide (m = "")) as [->|Hm].
  - rewrite checkModelHealth_mint. naive_solver.
  - rewrite checkModelHealth_infer by done. naive_solver.
Qed.

Lemma findModelRef_elem_of sub m ref :
  findModelRef sub m = Some ref → ref ∈ ModelRefs sub.
Proof.
  unfold findModelRef. intros H.
  repeat case_match; simplify_eq; by apply find_first_Some in H as [??]
    || (match goal with E : find_first _ _ = Some _ |- _ =>
          by apply find_first_Some in E as [??] end).
Qed.

(** ** Which reference a request means *)

(** A request [namespace/name] for this very reference. *)
Definition qualifies (m : string) (ref : ModelRefInfo) : Prop :=
  m = ref_Namespace ref +:+ "/" +:+ ref_Name ref ∧
  contains_byte (ref_Namespace ref) "/"%char = false.

(** A request by the name or the alias of a reference. *)
Definition called (m : string) (ref : ModelRefInfo) : Prop :=
  ref_Name ref = m ∨ (ref_ModelName ref = m ∧ m ≠ "").

(** [ref] is the first of the references with the property. *)
Definition first_with (P : ModelRefInfo → Prop) (refs : list ModelRefInfo)
    (ref : ModelRefInfo) : Prop :=
  ∃ before after, refs = before ++ ref :: after ∧ P ref ∧
    ∀ x, x ∈ before → ¬ P x.

(** The reference a request means: the first it qualifies, and if it qualifies
    none the first it calls by name or alias. *)
Inductive requested (refs : list ModelRefInfo) (m : string)
    (ref : ModelRefInfo) : Prop :=
  | requested_qualified : first_with (qualifies m) refs ref → requested refs m ref
  | requested_called :
      (∀ x, x ∈ refs → ¬ qualifies m x) → first_with (called m) refs ref →
      requested refs m ref.

Lemma find_first_first_with (f : ModelRefInfo → bool) (P : ModelRefInfo → Prop)
    refs ref :
  (∀ x, f x = true ↔ P x) →
  find_first f refs = Some ref ↔ first_with P refs ref.
Proof.
  intros Hf. rewrite find_first_split. unfold first_with.
  setoid_rewrite <-Hf. setoid_rewrite not_true_iff_false. done.
Qed.

Lemma called_spec m ref :
  (if (ref_ModelName ref != "") && (ref_ModelName ref == m) then true
   else ref_Name ref == m) = true ↔ called m ref.
Proof. unfold called. repeat case_bool_decide; naive_solver. Qed.

Lemma qualifies_cut m ns name ref :
  cut "/"%char m = Some (ns, name) →
  (ref_Namespace ref == ns) && (ref_Name ref == name) = true ↔ qualifies m ref.
Proof.
  intros Hc. rewrite andb_true_iff, !bool_decide_eq_true. unfold qualifies.
  apply cut_Some in Hc as [-> Hn]. split; [by intros [-> ->]|].
  intros [E Hr]. pose proof (cut_app "/"%char ns name Hn) as H1.
  pose proof (cut_app "/"%char _ (ref_Name ref) Hr) as H2.
  change (String "/" name) with ("/" +:+ name) in H1.
  change (String "/" (ref_Name ref)) with ("/" +:+ ref_Name ref) in H2.
  change (String "/" name) with ("/" +:+ name) in E. rewrite E in H1. by simplify_eq.
Qed.

Lemma qualifies_uncut m ref : cut "/"%char m = None → ¬ qualifies m ref.
Proof.
  intros Hc [E Hr]. pose proof (cut_app "/"%char _ (ref_Name ref) Hr) as H.
  change (String "/" (ref_Name ref)) with ("/" +:+ ref_Name ref) in H.
  congruence.
Qed.

Lemma findModelRef_requested sub m ref :
  findModelRef sub m = Some ref ↔ requested (ModelRefs sub) m ref.
Proof.
  unfold findModelRef.
  assert (∀ r, find_first (λ ref, if (ref_ModelName ref != "") &&
      (ref_ModelName ref == m) then true else ref_Name ref == m) (ModelRefs sub)
    = Some r ↔ first_with (called m) (ModelRefs sub) r) as Hcalled
    by (intros r; apply find_first_first_with; intros; apply called_spec).
  destruct (cut "/"%char m) as [[ns name]|] eqn:Hc.
  - assert (∀ r, find_first (λ ref, (ref_Namespace ref == ns) &&
        (ref_Name ref == name)) (ModelRefs sub) = Some r ↔
      first_with (qualifies m) (ModelRefs sub) r) as Hqual
      by (intros r; apply find_first_first_with; intros; by apply qualifies_cut).
    destruct (find_first (λ ref, (ref_Namespace ref == ns) && _) (ModelRefs sub))
      as [r|] eqn:Hq.
    + split; [intros [= <-]; left; by apply Hqual|]. intros [Hq'|Hno _].
      * by apply Hqual.
      * apply find_first_Some in Hq as [Hr Hf]. destruct (Hno r Hr).
        by apply (qualifies_cut _ ns name).
    + rewrite Hcalled. rewrite find_first_None in Hq.
      split; [right; [|done]|].
      * intros x Hx Hqx. apply (qualifies_cut _ _ _ _ Hc) in Hqx.
        by rewrite Hq in Hqx.
      * by intros [?%Hqual|].
  - rewrite Hcalled. split.
    + right; [|done]. intros. by apply qualifies_uncut.
    + intros [(b & a & E & Hr & _)|]; [|done]. by destruct (qualifies_uncut m ref).
Qed.

Lemma subscriptionIncludesModel_spec sub m :
  subscriptionIncludesModel sub m = true ↔
  m = "" ∨ is_Some (findModelRef sub m).
Proof.
  unfold subscriptionIncludesModel. case_bool_decide; [naive_solver|].
  destruct (findModelRef sub m); naive_solver.
Qed.

Lemma listable_spec username groups sub :
  listable username groups sub = true ↔
  owner sub username groups ∧
  (Phase sub = PhaseActive ∨ Phase sub = PhaseDegraded) ∧
  DeletionTimestamp sub = None.
Proof.
  unfold listable. rewrite !andb_true_iff, orb_true_iff, !bool_decide_eq_true,
    userHasAccess_owner. naive_solver.
Qed.

(** ** The largest limit *)

Lemma maxLimit_fold l m :
  let r := foldl (λ m trl, if (m <? Limit trl)%Z then Limit trl else m) m l in
  (m ≤ r)%Z ∧ (∀ t, t ∈ l → (Limit t ≤ r)%Z) ∧
  (r = m ∨ ∃ t, t ∈ l ∧ Limit t = r).
Proof.
  revert m. induction l as [|t l IH]; intros m; simpl.
  - split; [lia|]. split; [by intros ? ?%elem_of_nil|by left].
  - specialize (IH (if (m <? Limit t)%Z then Limit t else m)).
    simpl in IH. destruct IH as (H1 & H2 & H3).
    destruct (m <? Limit t)%Z eqn:E; (split; [lia|]).
    + split.
      * intros t' [->|Ht]%elem_of_cons; [lia|by apply H2].
      * right. destruct H3 as [->|(t' & ? & ?)].
        -- exists t. split; [by left|done].
        -- exists t'. split; [by right|done].
    + split.
      * intros t' [->|Ht]%elem_of_cons; [lia|by apply H2].
      * destruct H3 as [->|(t' & ? & ?)]; [by left|].
        right. exists t'. split; [by right|done].
Qed.

Lemma maxLimit_spec refs :
  (0 ≤ maxLimit refs)%Z ∧
  (∀ ref t, ref ∈ refs → t ∈ ref_TokenRateLimits ref →
     (Limit t ≤ maxLimit refs)%Z) ∧
  (maxLimit refs = 0%Z ∨
   ∃ ref t, ref ∈ refs ∧ t ∈ ref_TokenRateLimits ref ∧
     Limit t = maxLimit refs).
Proof.
  destruct (maxLimit_fold (mjoin (ref_TokenRateLimits <$> refs)) 0%Z)
    as (H1 & H2 & H3). split; [done|]. split.
  - intros ref t Hr Ht. apply H2, list_elem_of_join.
    exists (ref_TokenRateLimits ref). split; [done|].
    by apply list_elem_of_fmap_2.
  - destruct H3 as [H3|(t & Ht & H3)]; [by left|right].
    apply list_elem_of_join in Ht as (l & Ht & Hl).
    apply list_elem_of_fmap in Hl as (ref & -> & Hr). eauto.
Qed.

Lemma parsePriority_range {api : ApiMachinery} spec :
  (0 ≤ parsePriority spec ≤ max_int32)%Z.
Proof.
  unfold parsePriority. assert (0 ≤ max_int32)%Z by done.
  destruct (found _) as [p|]; [|lia].
  destruct ((0 <=? p)%Z && (p <=? max_int32)%Z) eqn:E; lia.
Qed.

(** ** Select *)

Section select.
Context {api : ApiMachinery}.

(** The subscriptions a request sees, and the model it asks for once aliases
    are resolved. *)
Definition sees (s : Selector) (subs : list subscription) : Prop :=
  loadSubscriptions s 1 = Ok subs.

Definition request_model (s : Selector) (m : string) : string :=
  resolveModelAlias s 0 m.

(** What the caller gets back for a subscription. *)
Definition answer (s : Selector) (groups : list string) (username m : string)
    (sub : subscription) : SelectResponse :=
  toResponseWithResolvedModel sub m
    (isModelAccessAllowed s groups username sub m).

Definition eligible (username : string) (groups : list string) (m : string)
    (sub : subscription) : Prop :=
  owner sub username groups ∧
  (m = "" ∨ is_Some (findModelRef sub m)) ∧
  ((m = "" ∧ may_mint sub) ∨ (m ≠ "" ∧ may_infer sub m)).

Lemma finishSelection_Ok s groups username sub m r :
  finishSelection s groups username sub m = Ok r ↔
  checkModelHealth sub m = None ∧ r = answer s groups username m sub.
Proof.
  unfold finishSelection, answer.
  destruct (checkModelHealth sub m); naive_solver.
Qed.

Lemma validateRequested_Ok s groups username req m sub r :
  validateRequested s groups username req m sub = Ok r ↔
  eligible username groups m sub ∧ r = answer s groups username m sub.
Proof.
  unfold validateRequested, eligible.
  rewrite <-userHasAccess_owner, <-subscriptionIncludesModel_spec,
    <-checkModelHealth_spec.
  destruct (userHasAccess sub username groups); simpl; [|naive_solver].
  destruct (subscriptionIncludesModel sub m) eqn:Ei; simpl.
  - rewrite andb_false_r, finishSelection_Ok. naive_solver.
  - rewrite bool_decide_eq_false_2; [naive_solver|]. intros ->.
    by unfold subscriptionIncludesModel in Ei.
Qed.

(** Past its two guards, [Select] is one of the two branches applied to the
    sorted subscriptions. *)
Lemma Select_branches s groups username req m subs :
  sees s subs → (groups ≠ [] ∨ username ≠ "") →
  Select s groups username req m =
  (if req != "" then
     selectRequested s groups username req (request_model s m)
       (sortSubscriptionsByPriority subs)
   else autoSelect s groups username (request_model s m)
          (sortSubscriptionsByPriority subs)) ∨
  (subs = [] ∧ Select s groups username req m = Err NoSubscriptionError).
Proof.
  intros Hs Hid. unfold Select.
  destruct ((length groups =? 0) && (username == "")) eqn:E.
  { destruct_bools. destruct groups; naive_solver. }
  rewrite Hs. destruct subs; [by right|by left].
Qed.

Lemma Select_Ok_sees s groups username req m r :
  Select s groups username req m = Ok r →
  ∃ subs, sees s subs ∧ (groups ≠ [] ∨ username ≠ "").
Proof.
  unfold Select, sees.
  destruct ((length groups =? 0) && (username == "")) eqn:E; [done|].
  destruct (loadSubscriptions s 1) as [subs|]; [|done].
  intros _. exists subs. split; [done|].
  apply andb_false_iff in E as [E|E%bool_decide_eq_false]; [|by right].
  left. by intros ->.
Qed.

Lemma selectRequested_Ok s groups username req m subs r :
  selectRequested s groups username req m subs = Ok r →
  ∃ sub, sub ∈ subs ∧ eligible username groups m sub ∧
    r = answer s groups username m sub ∧
    (qualifiedName sub = req ∨
     (Name sub = req ∧ find_first (λ x, Name x == req) subs = Some sub ∧
      contains_byte req "/"%char = false ∧
      ∀ x, x ∈ subs → qualifiedName x ≠ req)).
Proof.
  unfold selectRequested. destruct (find_first _ subs) as [sub|] eqn:Eq.
  - apply find_first_Some in Eq as [Hin Hq%bool_decide_eq_true].
    rewrite validateRequested_Ok. intros [? ->]. exists sub. naive_solver.
  - destruct (contains_byte req "/"%char) eqn:Ec; simpl; [done|].
    destruct (find_first (λ x, Name x == req) subs) as [sub|] eqn:En; [|done].
    rewrite validateRequested_Ok. intros [? ->].
    pose proof (find_first_Some _ _ _ En) as [Hin Hn%bool_decide_eq_true].
    exists sub. do 3 (split; [done|]). right. do 3 (split; [done|]).
    intros x Hx. rewrite find_first_None in Eq.
    specialize (Eq x Hx). by apply bool_decide_eq_false in Eq.
Qed.

Lemma elem_of_accessibleFor username groups m subs sub :
  sub ∈ accessibleFor username groups m subs ↔
  sub ∈ subs ∧ owner sub username groups ∧ (m = "" ∨ is_Some (findModelRef sub m)).
Proof.
  unfold accessibleFor. rewrite filter_bool_elem_of, andb_true_iff,
    userHasAccess_owner, orb_true_iff, bool_decide_eq_true,
    subscriptionIncludesModel_spec. naive_solver.
Qed.

Lemma autoSelect_Ok s groups username m subs r :
  autoSelect s groups username m subs = Ok r ↔
  ∃ sub, accessibleFor username groups m subs = [sub] ∧
    eligible username groups m sub ∧ r = answer s groups username m sub.
Proof.
  unfold autoSelect, eligible.
  destruct (accessibleFor username groups m subs) as [|sub [|sub' l]] eqn:E;
    [naive_solver| |naive_solver].
  rewrite finishSelection_Ok, checkModelHealth_spec.
  assert (Hin : sub ∈ accessibleFor username groups m subs)
    by (rewrite E; by left).
  apply elem_of_accessibleFor in Hin. naive_solver.
Qed.

Lemma Select_Ok_eligible s groups username req m r :
  Select s groups username req m = Ok r →
  ∃ subs sub, sees s subs ∧ sub ∈ subs ∧
    eligible username groups (request_model s m) sub ∧
    r = answer s groups username (request_model s m) sub ∧
    (req ≠ "" → qualifiedName sub = req ∨ Name sub = req).
Proof.
  intros H. destruct (Select_Ok_sees _ _ _ _ _ _ H) as (subs & Hs & Hid).
  destruct (Select_branches s groups username req m subs Hs Hid)
    as [E|[_ E]]; rewrite E in H; [|done].
  exists subs. case_bool_decide as Hr; simpl in H.
  - apply autoSelect_Ok in H as (sub & Ha & ? & ->). exists sub.
    assert (Hin : sub ∈ accessibleFor username groups (request_model s m)
                          (sortSubscriptionsByPriority subs))
      by (rewrite Ha; by left).
    apply elem_of_accessibleFor in Hin as [Hin _].
    unfold sortSubscriptionsByPriority in Hin.
    rewrite elem_of_sort_stable in Hin. naive_solver.
  - apply selectRequested_Ok in H as (sub & Hin & ? & ? & ?). exists sub.
    unfold sortSubscriptionsByPriority in Hin.
    rewrite elem_of_sort_stable in Hin. naive_solver.
Qed.

Lemma perm_singleton {A} (l l' : list A) x : l ≡ₚ l' → l = [x] → l' = [x].
Proof. intros Hp ->. by apply Permutation_length_1_inv in Hp. Qed.

Lemma accessibleFor_perm username groups m l l' :
  l ≡ₚ l' → accessibleFor username groups m l ≡ₚ accessibleFor username groups m l'.
Proof. apply filter_bool_perm. Qed.

Lemma sortSubscriptionsByPriority_perm subs :
  sortSubscriptionsByPriority subs ≡ₚ subs.
Proof. apply sort_stable_perm. Qed.

(** Auto-selection succeeds exactly on a single accessible subscription, in
    whichever order the lister returned them. *)
Lemma autoSelect_sorted_Ok s groups username m subs r :
  autoSelect s groups username m (sortSubscriptionsByPriority subs) = Ok r ↔
  ∃ sub, accessibleFor username groups m subs = [sub] ∧
    eligible username groups m sub ∧ r = answer s groups username m sub.
Proof.
  rewrite autoSelect_Ok. split; intros (sub & Ha & ?); exists sub;
    (split; [|done]); eapply perm_singleton; [|exact Ha| |exact Ha];
    apply accessibleFor_perm; [|symmetry]; apply sortSubscriptionsByPriority_perm.
Qed.

(** Qualified names identify subscriptions: the API server admits one object
    per namespace and name. *)
Definition unique_names (subs : list subscription) : Prop :=
  ∀ x y, x ∈ subs → y ∈ subs → qualifiedName x = qualifiedName y → x = y.

Lemma selectRequested_sorted_Ok s groups username req m subs r :
  unique_names subs → contains_byte req "/"%char = true →
  selectRequested s groups username req m (sortSubscriptionsByPriority subs)
    = Ok r ↔
  ∃ sub, sub ∈ subs ∧ qualifiedName sub = req ∧
    eligible username groups m sub ∧ r = answer s groups username m sub.
Proof.
  intros Huniq Hc. split.
  - intros H. apply selectRequested_Ok in H as (sub & Hin & ? & ? & Hq).
    rewrite sortSubscriptionsByPriority_perm in Hin.
    exists sub. destruct Hq as [?|(_ & _ & Hc' & _)]; [done|congruence].
  - intros (sub & Hin & Hq & He & ->). unfold selectRequested.
    rewrite (find_first_unique _ _ sub).
    + by apply validateRequested_Ok.
    + by rewrite sortSubscriptionsByPriority_perm.
    + by apply bool_decide_eq_true.
    + intros y Hy Hqy%bool_decide_eq_true.
      rewrite sortSubscriptionsByPriority_perm in Hy.
      apply Huniq; [done..|congruence].
Qed.

Lemma any_byte_app f s1 s2 :
  any_byte f (s1 +:+ s2) = any_byte f s1 || any_byte f s2.
Proof.
  induction s1 as [|a s1 IH]; simpl; [done|]. by rewrite IH, orb_assoc.
Qed.

Lemma qualifiedName_slash sub : contains_byte (qualifiedName sub) "/"%char = true.
Proof.
  unfold qualifiedName, contains_byte. rewrite any_byte_app. simpl.
  by rewrite orb_true_r.
Qed.

Lemma qualifiedName_nonempty sub : qualifiedName sub ≠ "".
Proof. unfold qualifiedName. by destruct (Namespace sub). Qed.

(** The whole of [Select] for an explicit or an omitted subscription. *)
Lemma Select_qualified_Ok s groups username m subs sub r :
  sees s subs → unique_names subs → sub ∈ subs →
  Select s groups username (qualifiedName sub) m = Ok r ↔
  (groups ≠ [] ∨ username ≠ "") ∧
  eligible username groups (request_model s m) sub ∧
  r = answer s groups username (request_model s m) sub.
Proof.
  intros Hs Huniq Hin. split.
  - intros H. destruct (Select_Ok_sees _ _ _ _ _ _ H) as (subs' & Hs' & Hid).
    unfold sees in *. simplify_eq. split; [done|].
    destruct (Select_branches s groups username (qualifiedName sub) m subs Hs Hid)
      as [E|[_ E]]; rewrite E in H; [|done].
    rewrite bool_decide_eq_false_2 in H by apply qualifiedName_nonempty.
    apply selectRequested_sorted_Ok in H as (sub' & ? & Hq & ?);
      [|done|apply qualifiedName_slash].
    by rewrite (Huniq sub sub') by congruence.
  - intros (Hid & He & ->).
    destruct (Select_branches s groups username (qualifiedName sub) m subs Hs Hid)
      as [->|[-> _]]; [|by apply elem_of_nil in Hin].
    rewrite bool_decide_eq_false_2 by apply qualifiedName_nonempty.
    apply selectRequested_sorted_Ok; [done|apply qualifiedName_slash|eauto].
Qed.

Lemma Select_auto_Ok s groups username m subs r :
  sees s subs →
  Select s groups username "" m = Ok r ↔
  (groups ≠ [] ∨ username ≠ "") ∧
  ∃ sub, accessibleFor username groups (request_model s m) subs = [sub] ∧
    eligible username groups (request_model s m) sub ∧
    r = answer s groups username (request_model s m) sub.
Proof.
  intros Hs. split.
  - intros H. destruct (Select_Ok_sees _ _ _ _ _ _ H) as (subs' & Hs' & Hid).
    unfold sees in *. simplify_eq. split; [done|].
    destruct (Select_branches s groups username "" m subs Hs Hid)
      as [E|[_ E]]; rewrite E in H; [|done].
    by apply autoSelect_sorted_Ok in H.
  - intros (Hid & sub & Ha & ?).
    destruct (Select_branches s groups username "" m subs Hs Hid)
      as [->|[-> _]]; [|done].
    apply autoSelect_sorted_Ok. eauto.
Qed.

Lemma Select_requested_Ok s groups username req m subs r :
  sees s subs → unique_names subs → contains_byte req "/"%char = true →
  (groups ≠ [] ∨ username ≠ "") →
  Select s groups username req m = Ok r ↔
  ∃ sub, sub ∈ subs ∧ qualifiedName sub = req ∧
    eligible username groups (request_model s m) sub ∧
    r = answer s groups username (request_model s m) sub.
Proof.
  intros Hs Huniq Hc Hid.
  assert (Hne : req ≠ "") by by intros ->.
  destruct (Select_branches s groups username req m subs Hs Hid)
    as [->|[-> ->]].
  - rewrite bool_decide_eq_false_2 by done. by apply selectRequested_sorted_Ok.
  - split; [done|]. by intros (? & ?%elem_of_nil & _).
Qed.
End select.

(** * Properties *)

#[export] Existing Instance DocApi.doc_api.

Definition meta (ns name : string) : string * value :=
  ("metadata", VMap [("name", VString name); ("namespace", VString ns)]).

Definition model_ref (ns name : string) (limits : list Z) : value :=
  VMap [("name", VString name); ("namespace", VString ns);
        ("tokenRateLimits",
           VSlice ((λ l, VMap [("limit", VInt l); ("window", VString "1m")])
                     <$> limits))].

Definition group_ref (g : string) : value := VMap [("name", VString g)].

Definition trlp_status (ns model : string) (ready : bool) : value :=
  VMap [("model", VString model); ("name", VString ("maas-trlp-" +:+ model));
        ("namespace", VString ns); ("ready", VBool ready)].

(** A MaaSSubscription. *)
Definition sub_object (ns name phase : string) (priority : Z)
    (groups : list string) (refs trlps : list value) : obj :=
  [meta ns name;
   ("spec", VMap [("owner", VMap [("groups", VSlice (group_ref <$> groups))]);
                  ("priority", VInt priority);
                  ("modelRefs", VSlice refs)]);
   ("status", VMap [("phase", VString phase);
                    ("tokenRateLimitStatuses", VSlice trlps)])].

(** A MaaSAuthPolicy. *)
Definition policy_object (groups : list string) (refs : list value) : obj :=
  [("spec", VMap [("subjects",
                     VMap [("groups", VSlice (group_ref <$> groups))]);
                  ("modelRefs", VSlice refs)])].

Definition granite : value := model_ref "llm" "granite" [1000%Z].

Definition basic : obj :=
  sub_object "models-as-a-service" "basic" "Active" 1 ["users"] [granite] [].
Definition premium : obj :=
  sub_object "models-as-a-service" "premium" "Degraded" 10 ["vips"]
    [granite; model_ref "llm" "opt" [500%Z]]
    [trlp_status "llm" "granite" true; trlp_status "llm" "opt" false].
Definition broken : obj :=
  sub_object "models-as-a-service" "broken" "Failed" 99 ["users"] [granite] [].
(** [basic] again, in another tenant's namespace. *)
Definition basic_red : obj :=
  sub_object "red" "basic" "Active" 1 ["users"] [granite] [].

Definition policies : Checker.Checker :=
  Checker.NewChecker (Some (Ok [policy_object ["users"] [granite]])).

Definition cluster (subs : list obj) : Selector :=
  mkSelector (Ok subs) None (Some (Checker.AuthorizedModels policies)).

Definition parsed (o : obj) : subscription :=
  match parseSubscription o with
  | Ok sub => sub
  | Err _ => mkSub "" "" "" "" [] [] 0 0 "" "" None [] "" false None []
  end.

(** * Properties *)

Section properties.
Context {api : ApiMachinery}.

(** C4. Soundness of selection: a successful [Select] answers with a
    subscription the lister returned, that names the caller or one of the
    caller's groups as owner, that includes the requested model, and whose
    phase (and, when degraded, whose rate limiting) allows the request; an
    explicitly requested subscription is the one answered. *)
Theorem Select_serves_only_eligible s groups username req m r :
  Select s groups username req m = Ok r →
  ∃ subs sub,
    loadSubscriptions s 1 = Ok subs ∧ sub ∈ subs ∧
    owner sub username groups ∧
    (request_model s m = "" ∨ is_Some (findModelRef sub (request_model s m))) ∧
    ((request_model s m = "" ∧ may_mint sub) ∨
     (request_model s m ≠ "" ∧ may_infer sub (request_model s m))) ∧
    r = answer s groups username (request_model s m) sub ∧
    (req ≠ "" → qualifiedName sub = req ∨ Name sub = req).
Proof.
  intros (subs & sub & ? & ? & (? & ? & ?) & ? & ?)%Select_Ok_eligible.
  exists subs, sub. eauto 10.
Qed.

(** A qualified request [namespace/name] is decided by that subscription
    alone: it succeeds exactly when the caller is identified, owns the
    subscription, and model and health checks pass, whatever else is listed. *)
Theorem Select_qualified_iff s groups username m subs sub r :
  loadSubscriptions s 1 = Ok subs → unique_names subs → sub ∈ subs →
  Select s groups username (qualifiedName sub) m = Ok r ↔
  (groups ≠ [] ∨ username ≠ "") ∧
  eligible username groups (request_model s m) sub ∧
  r = answer s groups username (request_model s m) sub.
Proof. apply Select_qualified_Ok. Qed.

(** Without a requested subscription, selection succeeds exactly when one
    subscription alone is accessible and includes the model, and that one is
    healthy; it never picks among several. *)
Theorem Select_auto_iff s groups username m subs r :
  loadSubscriptions s 1 = Ok subs →
  Select s groups username "" m = Ok r ↔
  (groups ≠ [] ∨ username ≠ "") ∧
  ∃ sub, List.filter (λ x, userHasAccess x username groups &&
           ((request_model s m == "") ||
            subscriptionIncludesModel x (request_model s m))) subs = [sub] ∧
    eligible username groups (request_model s m) sub ∧
    r = answer s groups username (request_model s m) sub.
Proof. apply Select_auto_Ok. Qed.

(** The informer returns its objects in no particular order; neither
    selection by qualified name nor auto-selection depends on it. *)
Theorem Select_order_independent s s' groups username req m subs subs' r :
  loadSubscriptions s 1 = Ok subs → loadSubscriptions s' 1 = Ok subs' →
  subs ≡ₚ subs' → unique_names subs →
  modelLister s = modelLister s' → accessChecker s = accessChecker s' →
  req = "" ∨ contains_byte req "/"%char = true →
  Select s groups username req m = Ok r ↔
  Select s' groups username req m = Ok r.
Proof.
  intros Hs Hs' Hp Huniq Hm Hc Hreq.
  assert (Hrm : request_model s m = request_model s' m)
    by (unfold request_model, resolveModelAlias; by rewrite Hm).
  assert (Ha : answer s groups username (request_model s m) =
               answer s' groups username (request_model s m))
    by (unfold answer, isModelAccessAllowed; by rewrite Hc).
  destruct Hreq as [->|Hreq].
  - rewrite (Select_auto_Ok s _ _ _ _ _ Hs), (Select_auto_Ok s' _ _ _ _ _ Hs').
    rewrite <-Hrm, Ha.
    split; intros (? & sub & Hf & ?); (split; [done|]); exists sub;
      (split; [|done]); eapply perm_singleton; try exact Hf;
      apply accessibleFor_perm; by rewrite Hp.
  - assert (Huniq' : unique_names subs')
      by (intros x y; rewrite <-!Hp; apply Huniq).
    destruct (decide (groups ≠ [] ∨ username ≠ "")) as [Hid|Hid].
    + rewrite (Select_requested_Ok s _ _ _ _ _ _ Hs),
        (Select_requested_Ok s' _ _ _ _ _ _ Hs') by done.
      rewrite <-Hrm, Ha. setoid_rewrite Hp. done.
    + split; intros (? & _ & ?)%Select_Ok_sees; done.
Qed.

(** The default subscription of a new key: as soon as the caller owns one,
    [SelectHighestPriority] succeeds, with an owned subscription that no other
    owned one beats on priority, then on largest token limit, then on name. *)
Theorem SelectHighestPriority_optimal s groups username subs x0 :
  loadSubscriptions s 0 = Ok subs → x0 ∈ subs → owner x0 username groups →
  (groups ≠ [] ∨ username ≠ "") →
  ∃ sub, SelectHighestPriority s groups username = Ok (toResponse sub) ∧
    sub ∈ subs ∧ owner sub username groups ∧
    ∀ x, x ∈ subs → owner x username groups →
      (Priority x < Priority sub)%Z ∨
      (Priority x = Priority sub ∧
       ((MaxLimit x < MaxLimit sub)%Z ∨
        (MaxLimit x = MaxLimit sub ∧ str_lt (Name x) (Name sub) = false))).
Proof.
  intros Hs Hx0 Ho Hid. unfold SelectHighestPriority.
  destruct ((length groups =? 0) && (username == "")) eqn:E.
  { destruct_bools. destruct groups; naive_solver. }
  rewrite Hs. destruct subs as [|x1 subs]; [by apply elem_of_nil in Hx0|].
  set (l := List.filter _ (x1 :: subs)).
  assert (Hl : ∀ x, x ∈ sortSubscriptionsByPriority l ↔
                    x ∈ x1 :: subs ∧ owner x username groups).
  { intros x. rewrite sortSubscriptionsByPriority_perm. subst l.
    by rewrite filter_bool_elem_of, userHasAccess_owner. }
  pose proof (sort_stable_sorted priority_less l) as Hsorted.
  fold (sortSubscriptionsByPriority l) in Hsorted.
  destruct (sortSubscriptionsByPriority l) as [|sub l'].
  { exfalso. eapply not_elem_of_nil, Hl. eauto. }
  exists sub. split; [done|].
  assert (Hsub : sub ∈ sub :: l') by by left.
  apply Hl in Hsub as [Hin Hown]. do 2 (split; [done|]).
  intros x Hx Hxo.
  assert (Hless : priority_less x sub = false).
  { apply (sorted_head priority_less sub l' x); [done|]. by apply Hl. }
  unfold priority_less in Hless.
  case_bool_decide; [left; lia|right]. split; [lia|].
  case_bool_decide; [left; lia|right]. split; [lia|done].
Qed.

(** C5. The dual-check gate: the answer to an inference request says
    [accessAllowed] exactly when some cached MaaSAuthPolicy names the caller and
    lists the very model reference the request means: of the references of the
    selected subscription the first whose namespace and name the request spells
    out, or else the first it calls by its name or alias. Without a policy
    checker, or when the policies cannot be listed, the answer never says so. *)
Theorem Select_access_allowed_granted s c groups username req m r :
  accessChecker s = Some (Checker.AuthorizedModels c) →
  Select s groups username req m = Ok r →
  request_model s m ≠ "" →
  resp_ResolvedModel r = request_model s m ∧
  (resp_AccessAllowed r = true ↔
   ∃ ref ps p, requested (resp_ModelRefs r) (resp_ResolvedModel r) ref ∧
     Checker.lister c = Some (Ok ps) ∧ p ∈ ps ∧
     Checker.grants p groups username
       (Checker.mkModelKey (ref_Namespace ref) (ref_Name ref))).
Proof.
  intros Hc (subs & sub & _ & _ & _ & -> & _)%Select_Ok_eligible Hm.
  simpl. split; [done|]. setoid_rewrite <-findModelRef_requested.
  unfold isModelAccessAllowed. rewrite bool_decide_eq_false_2, Hc by done.
  destruct (findModelRef sub (request_model s m)) as [ref|]; [|naive_solver].
  setoid_rewrite (inj_iff Some).
  pose proof (Checker.authorized_iff c groups username
    (Checker.mkModelKey (ref_Namespace ref) (ref_Name ref))) as Ha.
  destruct (Checker.AuthorizedModels c groups username) as [set|].
  - rewrite Ha. naive_solver.
  - split; [done|]. intros (? & ps & p & -> & ?). apply Ha. eauto.
Qed.

(** C40. The subscriptions shown to a caller, [GetAllAccessible]: sorted by
    name; exactly the owned, Active or Degraded subscriptions not being
    deleted; their model references cut down to those some MaaSAuthPolicy
    grants the caller, and the subscriptions left without any dropped. *)
Theorem GetAllAccessible_exact {slice : SliceSort} s c groups username subs rs :
  loadSubscriptions s 0 = Ok subs →
  accessChecker s = Some (Checker.AuthorizedModels c) →
  GetAllAccessible s groups username = Ok rs →
  sorted (λ a b, str_lt (resp_Name a) (resp_Name b)) rs ∧
  ∀ r, r ∈ rs ↔ ∃ sub refs,
    sub ∈ subs ∧ owner sub username groups ∧
    (Phase sub = PhaseActive ∨ Phase sub = PhaseDegraded) ∧
    DeletionTimestamp sub = None ∧
    r = set_resp_ModelRefs (toResponse sub) refs ∧ refs ≠ [] ∧
    refs = List.filter (λ ref, Checker.authorized
             (Checker.AuthorizedModels c groups username)
             (Checker.mkModelKey (ref_Namespace ref) (ref_Name ref)))
             (ModelRefs sub).
Proof.
  intros Hs Hc. unfold GetAllAccessible. rewrite Hs, Hc.
  destruct ((length groups =? 0) && (username == "")); [done|].
  intros [= <-]. split; [apply sort_slice_sorted, _|].
  intros r. rewrite elem_of_sort_slice, filter_bool_elem_of.
  rewrite list_elem_of_fmap. setoid_rewrite list_elem_of_fmap.
  setoid_rewrite filter_bool_elem_of. setoid_rewrite listable_spec. split.
  - intros ((r0 & -> & sub & -> & Hsub & Ho & Hp & Hd) & Hne).
    exists sub, (filterAuthorizedModels (ModelRefs sub)
                   (Checker.AuthorizedModels c groups username)).
    do 5 (split; [done|]). split; [|done]. intros Hnil. simpl in Hne.
    by rewrite Hnil in Hne.
  - intros (sub & refs & Hsub & Ho & Hp & Hd & -> & Hne & Hrefs). split.
    + exists (toResponse sub). split; [by rewrite Hrefs|]. eauto 10.
    + simpl. by destruct refs.
Qed.

(** What a parsed MaaSSubscription satisfies whatever the object held: its
    priority fits the [int32] it is converted to, and its ranking limit is the
    largest token limit of its model references (zero when none is positive). *)
Theorem parseSubscription_bounds o sub :
  parseSubscription o = Ok sub →
  (0 ≤ Priority sub ≤ 2147483647)%Z ∧ (0 ≤ MaxLimit sub)%Z ∧
  (∀ ref t, ref ∈ ModelRefs sub → t ∈ ref_TokenRateLimits ref →
     (Limit t ≤ MaxLimit sub)%Z) ∧
  (MaxLimit sub = 0%Z ∨
   ∃ ref t, ref ∈ ModelRefs sub ∧ t ∈ ref_TokenRateLimits ref ∧
     Limit t = MaxLimit sub).
Proof.
  unfold parseSubscription. destruct (NestedMap o ["spec"]) as [spec| |]; [|done..].
  destruct (parseTokenMetadata spec) as [[org cost] labels].
  intros [= <-]. simpl. split; [apply parsePriority_range|apply maxLimit_spec].
Qed.

End properties.

(** ** Where the code and its comments part *)

(** The rate-limit check of a Degraded subscription looks the policy
    status up by model name only: with two references of one name in two
    namespaces, an inference request for the model whose TokenRateLimitPolicy
    is not ready is admitted on the strength of the other one's. *)
Theorem degraded_check_confuses_namespaces :
  ∃ sub ref st,
    parseSubscription
      (sub_object "models-as-a-service" "shared" "Degraded" 1 ["users"]
         [model_ref "team-a" "granite" [100%Z]; model_ref "team-b" "granite" [100%Z]]
         [trlp_status "team-a" "granite" true;
          trlp_status "team-b" "granite" false]) = Ok sub ∧
    findModelRef sub "team-b/granite" = Some ref ∧
    ref_Namespace ref = "team-b" ∧ ref_TokenRateLimits ref ≠ [] ∧
    st ∈ TokenRateLimitStatuses sub ∧ trlp_Namespace st = "team-b" ∧
    trlp_Model st = "granite" ∧ trlp_Ready st = false ∧
    checkModelHealth sub "team-b/granite" = None.
Proof.
  eexists _, _, _. split; [vm_compute; reflexivity|].
  split; [vm_compute; reflexivity|]. split; [done|]. split; [done|].
  split; [right; left|]. done.
Qed.

(** Minting a key without naming a subscription skips the phase check
    that naming one applies: the highest-priority owned subscription is bound
    even in phase Failed, which [Select] refuses for the same caller. *)
Theorem SelectHighestPriority_binds_failed :
  ∃ r e,
    SelectHighestPriority (cluster [basic; broken]) ["users"] "alice" = Ok r ∧
    resp_Name r = "broken" ∧ resp_Phase r = PhaseFailed ∧
    Select (cluster [basic; broken]) ["users"] "alice" (resp_Name r) "" = Err e ∧
    e = ModelUnhealthyError "broken" "Failed" "SubscriptionNotReady"
          "subscription is in Failed phase (cannot create API keys)".
Proof. eexists _, _. split; [vm_compute; reflexivity|]. by vm_compute. Qed.

(** A bare subscription name that exists in two namespaces is resolved by
    the order of the lister when priority and limits tie: the name tie-break
    does not determine the selection. *)
Theorem bare_name_order_dependent :
  ∃ r r',
    Select (cluster [basic; basic_red]) ["users"] "alice" "basic" "" = Ok r ∧
    Select (cluster [basic_red; basic]) ["users"] "alice" "basic" "" = Ok r' ∧
    resp_Namespace r = "models-as-a-service" ∧ resp_Namespace r' = "red".
Proof. eexists _, _. split; [vm_compute; reflexivity|]. by vm_compute. Qed.

(** ** Instances of the properties above *)


Lemma Select_serves_only_eligible_witness :
  ∃ subs sub, loadSubscriptions (cluster [premium; basic]) 1 = Ok subs ∧
    sub ∈ subs ∧ owner sub "alice" ["users"].
Proof.
  assert (∃ r, Select (cluster [premium; basic]) ["users"] "alice" ""
                 "llm/granite" = Ok r) as [r Hr] by (eexists; by_compute).
  destruct (Select_serves_only_eligible _ _ _ _ _ _ Hr)
    as (subs & sub & ? & ? & ? & _).
  eauto.
Defined.

Lemma Select_qualified_iff_witness :
  ∃ r, Select (cluster [premium; basic]) ["vips"] "bob"
         "models-as-a-service/premium" "llm/granite" = Ok r.
Proof.
  exists (answer (cluster [premium; basic]) ["vips"] "bob" "llm/granite"
            (parsed premium)).
  apply (Select_qualified_iff (cluster [premium; basic]) ["vips"] "bob"
    "llm/granite" [parsed premium; parsed basic] (parsed premium)).
  - by_compute.
  - intros x y [->|[->|[]%elem_of_nil]%elem_of_cons]%elem_of_cons
      [->|[->|[]%elem_of_nil]%elem_of_cons]%elem_of_cons; (done || (by vm_compute)).
  - by left.
  - split; [by left|]. split; [|reflexivity]. split; [|split].
    + right. exists "vips". split; [by left|]. vm_compute. by left.
    + right. vm_compute. eauto.
    + right. split; [done|]. apply checkModelHealth_infer; [done|by_compute].
Defined.

Lemma Select_auto_iff_witness :
  ∃ r, Select (cluster [premium; basic]) ["users"] "alice" "" "" = Ok r.
Proof.
  exists (answer (cluster [premium; basic]) ["users"] "alice" "" (parsed basic)).
  apply (Select_auto_iff (cluster [premium; basic]) ["users"] "alice" ""
    [parsed premium; parsed basic]).
  - by_compute.
  - split; [by left|]. exists (parsed basic). split; [by_compute|].
    split; [|reflexivity]. split; [|split].
    + right. exists "users". split; [by left|]. vm_compute. by left.
    + by left.
    + left. split; [done|]. by vm_compute.
Defined.

Lemma Select_order_independent_witness :
  ∃ r, Select (cluster [basic; premium]) ["users"] "alice" "" "" = Ok r.
Proof.
  assert (∃ r, Select (cluster [premium; basic]) ["users"] "alice" "" "" = Ok r)
    as [r Hr] by (eexists; by_compute).
  exists r. apply (Select_order_independent (cluster [basic; premium])
    (cluster [premium; basic]) ["users"] "alice" "" ""
    [parsed basic; parsed premium] [parsed premium; parsed basic]).
  - by_compute.
  - by_compute.
  - apply Permutation_swap.
  - intros x y [->|[->|[]%elem_of_nil]%elem_of_cons]%elem_of_cons
      [->|[->|[]%elem_of_nil]%elem_of_cons]%elem_of_cons; (done || (by vm_compute)).
  - reflexivity.
  - reflexivity.
  - by left.
  - exact Hr.
Defined.

Lemma SelectHighestPriority_optimal_witness :
  ∃ sub, SelectHighestPriority (cluster [basic; premium]) ["users"; "vips"] "eve"
         = Ok (toResponse sub).
Proof.
  destruct (SelectHighestPriority_optimal (cluster [basic; premium])
    ["users"; "vips"] "eve" [parsed basic; parsed premium] (parsed basic))
    as (sub & ? & _).
  - by_compute.
  - by left.
  - right. exists "users". split; [by left|]. vm_compute. by left.
  - by left.
  - by exists sub.
Defined.

Lemma Select_access_allowed_granted_witness :
  ∃ ref ps p, ref_Name ref = "granite" ∧ ref_Namespace ref = "llm" ∧
    Checker.lister policies = Some (Ok ps) ∧ p ∈ ps ∧
    Checker.grants p ["users"] "alice" (Checker.mkModelKey "llm" "granite").
Proof.
  assert (∃ r, Select (cluster [basic]) ["users"] "alice" "" "llm/granite" = Ok r ∧
    resp_AccessAllowed r = true ∧ resp_ModelRefs r = ModelRefs (parsed basic) ∧
    resp_ResolvedModel r = "llm/granite") as (r & Hr & Ha & Hrefs & Hm)
    by (eexists; split_and!; by_compute).
  destruct (Select_access_allowed_granted (cluster [basic]) policies _ _ _ _ _
    eq_refl Hr) as [_ Hiff]; [done|].
  apply Hiff in Ha as (ref & ps & p & Hreq & Hl & Hp & Hg).
  rewrite Hrefs, Hm in Hreq. apply (findModelRef_requested (parsed basic)) in Hreq.
  assert (∃ x, findModelRef (parsed basic) "llm/granite" = Some x ∧
    ref_Name x = "granite" ∧ ref_Namespace x = "llm") as (x & Hx & Hn & Hns)
    by (eexists; split_and!; by_compute).
  assert (ref = x) as -> by congruence. rewrite Hn, Hns in Hg.
  exists x, ps, p. done.
Defined.

Lemma GetAllAccessible_exact_witness :
  ∃ rs, GetAllAccessible (cluster [basic; broken]) ["users"] "alice" = Ok rs ∧
    sorted (λ a b, str_lt (resp_Name a) (resp_Name b)) rs.
Proof.
  assert (∃ rs, GetAllAccessible (cluster [basic; broken]) ["users"] "alice"
                = Ok rs) as [rs Hrs] by (eexists; by_compute).
  assert (loadSubscriptions (cluster [basic; broken]) 0 =
          Ok [parsed basic; parsed broken]) as Hs by by_compute.
  exists rs. split; [exact Hrs|].
  destruct (GetAllAccessible_exact _ policies _ _ _ _ Hs eq_refl Hrs) as [H _].
  exact H.
Defined.

Lemma parseSubscription_bounds_witness :
  parseSubscription premium = Ok (parsed premium) ∧
  (0 ≤ Priority (parsed premium) ≤ 2147483647)%Z.
Proof.
  split; [by_compute|].
  apply (parseSubscription_bounds premium). by_compute.
Defined.
