(* ===== verification/SubscriptionHandlerCorrectness.v ===== *)
(** The HTTP face of subscription selection,
    [src/maas-api/internal/subscription/handler.go]. *)
From S2P Require Import Prelude GoStrings Sorting Unstructured.
From S2P Require Import AuthPolicyChecker SubscriptionTypes Selector Http.
From S2P Require Import SelectionCorrectness.
Import Sub Selector Http.

Module SubHandler.

(** [metrics] tells whether a recorder is configured.
    [src/maas-api/internal/subscription/handler.go:20-24] Handler. *)
Record Handler : Type := mkHandler {
  selector : Selector;
  metrics : bool;
}.

(** The JSON bodies of the three handlers. *)
Inductive payload : Type :=
  | SelectBody (r : SelectResponse)
  | ListBody (l : list SubscriptionInfo)
  | ErrorBody (message type : string).

(** [src/maas-api/internal/subscription/handler.go:282-286] recordRejection. *)
Definition recordRejection (h : Handler) (reason : Rejection)
    : list Rejection :=
  if metrics h then [reason] else [].

(** [src/maas-api/internal/subscription/handler.go:288-297] recordUnhealthyRejection. *)
Definition recordUnhealthyRejection (h : Handler) (phase reason : string)
    : list Rejection :=
  if reason == "RateLimitNotEnforced" then
    recordRejection h RejectionRateLimited
  else if phase == PhaseFailed then recordRejection h RejectionQuotaExceeded
  else recordRejection h RejectionNoCapacity.

(** The chain of [errors.As] tests: the body of the response and the rejection
    recorded for it.
    [src/maas-api/internal/subscription/handler.go:79-179] SelectSubscription. *)
Definition select_failure (h : Handler) (err : select_error)
    : SelectResponse * list Rejection :=
  match err with
  | NoSubscriptionError | SubscriptionNotFoundError _ =>
      (with_error "not_found" (error_message err) "",
       recordRejection h RejectionNoCapacity)
  | AccessDeniedError _ =>
      (with_error "access_denied" (error_message err) "",
       recordRejection h RejectionUnauthorized)
  | MultipleSubscriptionsError _ =>
      (with_error "multiple_subscriptions" (error_message err) "", [])
  | ModelNotInSubscriptionError _ _ =>
      (with_error "model_not_in_subscription" (error_message err) "",
       recordRejection h RejectionNoCapacity)
  | ModelUnhealthyError _ phase reason message =>
      (with_error "model_unhealthy" message phase,
       recordUnhealthyRejection h phase reason)
  | SelectorError message =>
      (with_error "internal_error"
         ("failed to select subscription: " +:+ message) "", [])
  end.

Definition select_result (h : Handler) (r : result select_error SelectResponse)
    : SelectResponse * list Rejection :=
  match r with
  | Err err => select_failure h err
  | Ok response => (response, [])
  end.

Section handlers.
Context {api : ApiMachinery}.

(** [req] is the outcome of [ShouldBindJSON].
    [src/maas-api/internal/subscription/handler.go:53-187] SelectSubscription. *)
Definition SelectSubscription (h : Handler) (req : result string SelectRequest)
    : response SelectResponse * list Rejection :=
  match req with
  | Err e =>
      (JSON StatusOK
         (with_error "bad_request" ("invalid request body: " +:+ e) ""), [])
  | Ok req =>
      let '(response, recorded) :=
        select_result h
          (Select (selector h) (req_Groups req) (req_Username req)
             (req_RequestedSubscription req) (req_RequestedModel req)) in
      (JSON StatusOK response, recorded)
  end.

Context {slice : SliceSort}.

Definition server_error (message : string) : response payload :=
  JSON StatusInternalServerError (ErrorBody message "server_error").

(** [src/maas-api/internal/subscription/handler.go:193-232] ListSubscriptions. *)
Definition ListSubscriptions (h : Handler) (user : context_user)
    : response payload :=
  match user with
  | NoUser => JSON StatusOK (ListBody [])
  | OtherType => server_error "Internal server error"
  | User u =>
      match GetAllAccessible (selector h) (Http.Groups u) (Username u) with
      | Err _ => server_error "Failed to list subscriptions"
      | Ok accessible =>
          JSON StatusOK (ListBody (ResponseToSubscriptionInfo <$> accessible))
      end
  end.

(** [src/maas-api/internal/subscription/handler.go:238-280] ListSubscriptionsForModel. *)
Definition ListSubscriptionsForModel (h : Handler) (user : context_user)
    (modelID : string) : response payload :=
  match user with
  | NoUser => JSON StatusOK (ListBody [])
  | OtherType => server_error "Internal server error"
  | User u =>
      if modelID == "" then
        JSON StatusBadRequest
          (ErrorBody "model-id is required" "invalid_request_error")
      else match ListAccessibleForModel (selector h) (Username u)
                   (Http.Groups u) modelID with
           | Err _ => server_error "Failed to list subscriptions"
           | Ok subs => JSON StatusOK (ListBody subs)
           end
  end.

End handlers.
End SubHandler.

(** * Properties *)

Import Sub Selector Http SubHandler.

Definition select_codes : list string :=
  ["not_found"; "access_denied"; "multiple_subscriptions";
   "model_not_in_subscription"; "model_unhealthy"; "internal_error";
   "bad_request"].

(** What a failed selection leaves for the gateway's rules to see. *)
Definition denied (r : SelectResponse) : Prop :=
  resp_Error r ∈ select_codes ∧ resp_Name r = "" ∧
  resp_AccessAllowed r = false ∧ resp_ResolvedModel r = "" ∧
  resp_ModelRefs r = [].

Lemma with_error_denied code msg phase :
  code ∈ select_codes → denied (with_error code msg phase).
Proof. by split. Qed.

Lemma select_failure_denied h e : denied (select_failure h e).1.
Proof. destruct e; apply with_error_denied; set_solver. Qed.

Lemma denied_has_code r : denied r → resp_Error r ≠ "".
Proof.
  unfold denied, select_codes. intros [H _] E. rewrite E in H.
  repeat (apply elem_of_cons in H as [H|H]; [done|]). by apply elem_of_nil in H.
Qed.

Lemma select_error_code {api : ApiMachinery} s groups username req m r :
  Select s groups username req m = Ok r → resp_Error r = "".
Proof. by intros (subs & sub & _ & _ & _ & -> & _)%Select_Ok_eligible. Qed.

Section properties.
Context {api : ApiMachinery}.

(** The gateway reads every outcome of the selection endpoint from a 200
    answer: either the body is the one [Select] answered, with an empty error
    code and nothing recorded, or selection did not succeed and the body names
    one of the seven error codes, no subscription, no model, and denies access,
    with at most one rejection recorded, and none without a recorder. *)
Theorem SelectSubscription_contract h req :
  let '(r, recorded) := SelectSubscription h req in
  status r = StatusOK ∧
  ((resp_Error (body r) = "" ∧ recorded = [] ∧
    ∃ q, req = Ok q ∧
      Select (selector h) (req_Groups q) (req_Username q)
        (req_RequestedSubscription q) (req_RequestedModel q) = Ok (body r)) ∨
   (resp_Error (body r) ≠ "" ∧ denied (body r) ∧ length recorded ≤ 1 ∧
    (metrics h = false → recorded = []) ∧
    ∀ q r', req = Ok q →
      Select (selector h) (req_Groups q) (req_Username q)
        (req_RequestedSubscription q) (req_RequestedModel q) ≠ Ok r')).
Proof.
  destruct req as [q|e]; simpl.
  - destruct (Select _ _ _ _ _) as [r|err] eqn:E; simpl.
    + split; [done|]. left. split; [by eapply select_error_code|]. eauto.
    + pose proof (select_failure_denied h err) as Hd.
      destruct (select_failure h err) as [b rec] eqn:Hb; simpl in *.
      split; [done|]. right. split; [by apply denied_has_code|].
      split; [done|]. split_and!; [| |congruence].
      * destruct err; simplify_eq/=; unfold recordUnhealthyRejection,
          recordRejection; repeat case_match; simpl; lia.
      * intros Hm. destruct err; simplify_eq/=; unfold recordUnhealthyRejection,
          recordRejection; rewrite ?Hm; by repeat case_match.
  - split; [done|]. right.
    assert (denied (with_error "bad_request" ("invalid request body: " +:+ e) ""))
      as Hd by (apply with_error_denied; set_solver).
    split; [by apply (denied_has_code _ Hd)|]. split; [done|].
    split_and!; [lia|done|done].
Qed.

(** [ListSubscriptionsForModel] for a caller: exactly the owned
    subscriptions that list the model under some namespace the caller's
    policies grant, sorted by name; no phase is left out. *)
Theorem ListAccessibleForModel_exact {slice : SliceSort} h c u modelID subs l :
  loadSubscriptions (selector h) 0 = Ok subs →
  accessChecker (selector h) = Some (Checker.AuthorizedModels c) →
  ListSubscriptionsForModel h (User u) modelID = JSON StatusOK (ListBody l) →
  sorted (λ a b, str_lt (SubscriptionIDHeader a) (SubscriptionIDHeader b)) l ∧
  ∀ i, i ∈ l ↔ ∃ sub ref,
    sub ∈ subs ∧ owner sub (Username u) (Http.Groups u) ∧
    ref ∈ ModelRefs sub ∧ ref_Name ref = modelID ∧
    Checker.authorized
      (Checker.AuthorizedModels c (Http.Groups u) (Username u))
      (Checker.mkModelKey (ref_Namespace ref) modelID) = true ∧
    i = toSubscriptionInfo sub.
Proof.
  intros Hs Hc. simpl. case_bool_decide; [done|].
  unfold ListAccessibleForModel. rewrite Hs, Hc. intros [= <-].
  split; [apply sort_slice_sorted, _|]. intros i.
  rewrite elem_of_sort_slice, list_elem_of_fmap.
  setoid_rewrite filter_bool_elem_of. split.
  - intros (sub & -> & Hsub & Hk).
    destruct (userHasAccess sub _ _) eqn:Ho; [|done].
    destruct (length _ =? 0); [done|]. simpl in Hk.
    apply existsb_elem_of in Hk as (ns & Hns & Ha).
    apply list_elem_of_fmap in Hns as (ref & -> & Href).
    apply filter_bool_elem_of in Href as [Href Hn%bool_decide_eq_true].
    exists sub, ref. rewrite <-userHasAccess_owner. eauto 10.
  - intros (sub & ref & Hsub & Ho & Href & Hn & Ha & ->).
    exists sub. do 2 (split; [done|]). apply userHasAccess_owner in Ho as ->.
    assert (ref_Namespace ref ∈ findModelNamespaces sub modelID) as Hns.
    { apply list_elem_of_fmap. exists ref. split; [done|].
      apply filter_bool_elem_of. by rewrite bool_decide_eq_true_2. }
    destruct (length _ =? 0) eqn:E.
    { apply Nat.eqb_eq, nil_length_inv in E. rewrite E in Hns.
      by apply elem_of_nil in Hns. }
    apply existsb_elem_of. eauto.
Qed.
End properties.

Lemma ListAccessibleForModel_exact_witness :
  ∃ l, ListSubscriptionsForModel (mkHandler (cluster [premium; broken; basic]) true)
         (User (mkUser "alice" ["users"] "")) "granite" =
       JSON StatusOK (ListBody l) ∧
    toSubscriptionInfo (parsed broken) ∈ l.
Proof.
  pose (h := mkHandler (cluster [premium; broken; basic]) true).
  assert (∃ l, ListSubscriptionsForModel h
    (User (mkUser "alice" ["users"] "")) "granite" = JSON StatusOK (ListBody l))
    as [l Hl] by (eexists; by_compute).
  assert (loadSubscriptions (selector h) 0 =
          Ok [parsed premium; parsed broken; parsed basic]) as Hs by by_compute.
  exists l. split; [exact Hl|].
  destruct (ListAccessibleForModel_exact h policies _ _ _ _ Hs eq_refl Hl)
    as [_ H].
  apply H. eexists (parsed broken), _. 
  split; [right; left|]. split.
  { right. exists "users". split; [left|]. vm_compute. left. }
  split; [vm_compute; left|]. split_and!; by_compute.
Defined.
