(* ===== verification/Regex.v ===== *)
(** Regular expressions over bytes, matched by derivatives: the anchored
    patterns of the services' [regexp] checks, whose classes are all ASCII; and
    runes: the UTF-8 sequences of a string. *)
From S2P Require Import Prelude GoStrings.

Module RE.

Inductive re : Type :=
  | Empty
  | Eps
  | Chr (p : ascii → bool)
  | Cat (r1 r2 : re)
  | Alt (r1 r2 : re)
  | Star (r : re).

(** [r?]. *)
Definition Opt (r : re) : re := Alt Eps r.

Fixpoint nullable (r : re) : bool :=
  match r with
  | Empty | Chr _ => false
  | Eps | Star _ => true
  | Cat r1 r2 => nullable r1 && nullable r2
  | Alt r1 r2 => nullable r1 || nullable r2
  end.

Fixpoint deriv (c : ascii) (r : re) : re :=
  match r with
  | Empty | Eps => Empty
  | Chr p => if p c then Eps else Empty
  | Cat r1 r2 =>
      let d := Cat (deriv c r1) r2 in
      if nullable r1 then Alt d (deriv c r2) else d
  | Alt r1 r2 => Alt (deriv c r1) (deriv c r2)
  | Star r => Cat (deriv c r) (Star r)
  end.

(** [MatchString] of [^r$]. *)
Fixpoint matches (r : re) (s : string) : bool :=
  match s with
  | EmptyString => nullable r
  | String c s' => matches (deriv c r) s'
  end.

(** ** The language *)

Inductive lang : re → string → Prop :=
  | l_eps : lang Eps ""
  | l_chr p c : p c = true → lang (Chr p) (String c "")
  | l_cat r1 r2 s1 s2 : lang r1 s1 → lang r2 s2 → lang (Cat r1 r2) (s1 +:+ s2)
  | l_alt_l r1 r2 s : lang r1 s → lang (Alt r1 r2) s
  | l_alt_r r1 r2 s : lang r2 s → lang (Alt r1 r2) s
  | l_star_nil r : lang (Star r) ""
  | l_star_cons r s1 s2 : lang r s1 → lang (Star r) s2 → lang (Star r) (s1 +:+ s2).

Lemma nullable_lang r : nullable r = true ↔ lang r "".
Proof.
  split.
  - induction r as [| |p|r1 IH1 r2 IH2|r1 IH1 r2 IH2|r IH]; simpl; intros Hn;
      try done; try by constructor.
    + apply andb_true_iff in Hn as [H1 H2].
      apply (l_cat _ _ "" ""); auto.
    + apply orb_true_iff in Hn as [Hn|Hn]; [apply l_alt_l|apply l_alt_r]; auto.
  - intros Hl. remember "" as s eqn:E. induction Hl as
      [|p c Hc|r1 r2 s1 s2 H1 IH1 H2 IH2|r1 r2 s H IH|r1 r2 s H IH|r|r s1 s2 H1 IH1 H2 IH2];
      simpl; try done.
    + destruct s1; [|done]. simpl in E. by rewrite IH1, IH2.
    + by rewrite IH.
    + rewrite IH by done. apply orb_true_r.
Qed.

Lemma deriv_lang c r s : lang (deriv c r) s ↔ lang r (String c s).
Proof.
  split.
  - revert s. induction r as [| |p|r1 IH1 r2 IH2|r1 IH1 r2 IH2|r IH]; simpl; intros s Hl.
    + inversion Hl.
    + inversion Hl.
    + destruct (p c) eqn:E; inversion Hl; subst. by constructor.
    + assert (lang (Cat (deriv c r1) r2) s → lang (Cat r1 r2) (String c s)) as Hd.
      { inversion 1; subst. apply (l_cat r1 r2 (String c s1) s2); auto. }
      destruct (nullable r1) eqn:En; [|auto].
      inversion Hl; subst; [auto|]. apply nullable_lang in En.
      apply (l_cat r1 r2 "" (String c s)); auto.
    + inversion Hl; subst; [apply l_alt_l|apply l_alt_r]; auto.
    + inversion Hl; subst. apply (l_star_cons r (String c s1) s2); auto.
  - intros Hl. remember (String c s) as t eqn:E. revert s E.
    induction Hl as
      [|p c' Hc|r1 r2 s1 s2 H1 IH1 H2 IH2|r1 r2 s0 H IH|r1 r2 s0 H IH|r|r s1 s2 H1 IH1 H2 IH2];
      simpl; intros s E; try done.
    + injection E as -> <-. rewrite Hc. constructor.
    + destruct s1 as [|c1 s1]; simpl in E.
      * subst. apply nullable_lang in H1 as ->. apply l_alt_r. auto.
      * injection E as -> <-.
        assert (lang (Cat (deriv c r1) r2) (s1 +:+ s2)) by (constructor; auto).
        destruct (nullable r1); [by apply l_alt_l|done].
    + apply l_alt_l. auto.
    + apply l_alt_r. auto.
    + destruct s1 as [|c1 s1]; simpl in E; [auto|].
      injection E as -> <-. constructor; auto.
Qed.

(** The matcher decides the language. *)
Lemma matches_lang r s : matches r s = true ↔ lang r s.
Proof.
  revert r. induction s as [|c s IH]; intros r; simpl; [apply nullable_lang|].
  by rewrite IH, deriv_lang.
Qed.

(** Every byte of a match is in some class of the expression. *)
Fixpoint over (f : ascii → bool) (r : re) : Prop :=
  match r with
  | Empty | Eps => True
  | Chr p => ∀ c, p c = true → f c = true
  | Cat r1 r2 | Alt r1 r2 => over f r1 ∧ over f r2
  | Star r => over f r
  end.

Lemma lang_over f r s : over f r → lang r s → all_bytes f s = true.
Proof.
  intros Ho Hl. induction Hl; simpl in *;
    rewrite ?all_bytes_app, ?andb_true_iff; naive_solver.
Qed.

End RE.

(** * Runes *)

Definition in_range (lo hi : nat) (c : ascii) : bool :=
  (lo <=? code c) && (code c <=? hi).
Definition cont (c : ascii) : bool := in_range 128 191 c.

(** The bytes the rune at the head of a non-empty string takes after the
    first one: the table of well-formed sequences. *)
Definition rune_tail (c : ascii) (s : string) : nat :=
  let n := code c in
  match s with
  | String c1 s1 =>
      if (194 <=? n) && (n <=? 223) then if cont c1 then 1 else 0
      else match s1 with
           | String c2 s2 =>
               let second :=
                 if n =? 224 then in_range 160 191 c1
                 else if n =? 237 then in_range 128 159 c1
                 else ((225 <=? n) && (n <=? 239)) && cont c1 in
               if second then if cont c2 then 2 else 0
               else match s2 with
                    | String c3 _ =>
                        let second4 :=
                          if n =? 240 then in_range 144 191 c1
                          else if n =? 244 then in_range 128 143 c1
                          else ((241 <=? n) && (n <=? 243)) && cont c1 in
                        if second4 && cont c2 && cont c3 then 3 else 0
                    | EmptyString => 0
                    end
           | EmptyString => 0
           end
  | EmptyString => 0
  end.

(** Runes are counted at their first bytes; [skip] bytes still belong to the
    rune before. *)
Fixpoint count_runes (skip : nat) (s : string) : nat :=
  match s with
  | EmptyString => 0
  | String c s' =>
      match skip with
      | S k => count_runes k s'
      | O => S (count_runes (rune_tail c s') s')
      end
  end.

(** [utf8.RuneCountInString]. *)
Definition RuneCountInString (s : string) : nat := count_runes 0 s.

Lemma count_runes_le skip s : count_runes skip s ≤ String.length s.
Proof.
  revert skip. induction s as [|c s IH]; intros skip; simpl; [lia|].
  destruct skip as [|k]; [specialize (IH (rune_tail c s))|specialize (IH k)]; lia.
Qed.

Lemma RuneCount_le s : RuneCountInString s ≤ String.length s.
Proof. apply count_runes_le. Qed.

Example RuneCount_accent : RuneCountInString (bytes [195; 169; 97]) = 2.
Proof. by_compute. Qed.
Example RuneCount_invalid : RuneCountInString (bytes [226; 130; 97; 255]) = 4.
Proof. by_compute. Qed.
