(* ===== verification/GoTime.v ===== *)
(** Go's [time] package as the services use it: durations as signed 64-bit
    nanosecond counts, instants as nanoseconds since the Unix epoch, and their
    text forms. *)
From S2P Require Import Prelude GoStrings.
From stdpp Require Import pretty.
Local Open Scope Z_scope.

(** ** Durations *)

Definition Nanosecond : Z := 1.
Definition Second : Z := 1000000000.
Definition Minute : Z := 60 * Second.
Definition Hour : Z := 60 * Minute.

(** Multiplication of two [time.Duration]s wraps. *)
Definition dur_mul (a b : Z) : Z := wrap64 (a * b).

Lemma dur_mul_exact a b :
  min_int64 ≤ a * b ≤ max_int64 → dur_mul a b = a * b.
Proof. apply wrap64_id. Qed.

(** The [w] least significant decimal digits of [v], most significant first. *)
Fixpoint digits (w : nat) (v : Z) : string :=
  match w with
  | O => ""
  | S w' => digits w' (v / 10) +:+ String (byte (48 + Z.to_nat (v mod 10))) ""
  end.

Fixpoint trim_zeros (s : string) : string :=
  match s with
  | EmptyString => EmptyString
  | String a s' =>
      match trim_zeros s' with
      | EmptyString => if a == "0"%char then EmptyString else String a EmptyString
      | r => String a r
      end
  end.

(** [fmtFrac]: the fraction [v / 10^prec], without trailing zeros, and without
    its point when it is zero. *)
Definition fmtFrac (v : Z) (prec : nat) : string :=
  match trim_zeros (digits prec (v mod 10 ^ Z.of_nat prec)) with
  | EmptyString => ""
  | f => "." +:+ f
  end.

(** [Duration.String]. *)
Definition dur_String (d : Z) : string :=
  let u := Z.abs d in
  let body :=
    if u =? 0 then "0s"
    else if u <? 1000 then pretty u +:+ "ns"
    else if u <? 1000000 then
      pretty (u / 1000) +:+ fmtFrac u 3 +:+ bytes [194; 181]%nat +:+ "s"
    else if u <? Second then pretty (u / 1000000) +:+ fmtFrac u 6 +:+ "ms"
    else
      let secs := u / Second in
      let mins := secs / 60 in
      (if mins =? 0 then ""
       else (if mins / 60 =? 0 then "" else pretty (mins / 60) +:+ "h")
            +:+ pretty (mins mod 60) +:+ "m")
      +:+ pretty (secs mod 60) +:+ fmtFrac u 9 +:+ "s" in
  if d <? 0 then "-" +:+ body else body.

Example dur_String_hour : dur_String Hour = "1h0m0s".
Proof. by_compute. Qed.
Example dur_String_frac : dur_String (-90500000000) = "-1m30.5s".
Proof. by_compute. Qed.

(** ** Instants *)

(** [time.Time]'s zero value, 1 January of year 1. *)
Definition zero_time : Z := -62135596800 * Second.

Definition IsZero (t : Z) : bool := t =? zero_time.

(** [Time.Sub] saturates at the bounds of a duration. *)
Definition time_sub (t u : Z) : Z := Z.max min_int64 (Z.min max_int64 (t - u)).

(** The civil date of a day count since the epoch (proleptic Gregorian). *)
Definition civil (days : Z) : Z * Z * Z :=
  let z := days + 719468 in
  let era := z / 146097 in
  let doe := z mod 146097 in
  let yoe := (doe - doe / 1460 + doe / 36524 - doe / 146096) / 365 in
  let doy := doe - (365 * yoe + yoe / 4 - yoe / 100) in
  let mp := (5 * doy + 2) / 153 in
  let d := doy - (153 * mp + 2) / 5 + 1 in
  let m := if mp <? 10 then mp + 3 else mp - 9 in
  (yoe + era * 400 + (if m <=? 2 then 1 else 0), m, d).

(** A year of at least four digits. *)
Definition fmt_year (y : Z) : string :=
  (if y <? 0 then "-" else "")
  +:+ (if Z.abs y <? 10000 then digits 4 (Z.abs y) else pretty (Z.abs y)).

(** [t.In(zone).Format(time.RFC3339)], the zone as its offset in seconds. *)
Definition RFC3339 (zone : Z) (t : Z) : string :=
  let local := t / Second + zone in
  let '(y, m, d) := civil (local / 86400) in
  let s := local mod 86400 in
  fmt_year y +:+ "-" +:+ digits 2 m +:+ "-" +:+ digits 2 d +:+ "T"
  +:+ digits 2 (s / 3600) +:+ ":" +:+ digits 2 (s / 60 mod 60) +:+ ":"
  +:+ digits 2 (s mod 60)
  +:+ (if zone =? 0 then "Z"
       else let z := Z.abs zone / 60 in
            (if zone <? 0 then "-" else "+")
            +:+ digits 2 (z / 60) +:+ ":" +:+ digits 2 (z mod 60)).

Definition UTC : Z := 0.

Example RFC3339_epoch : RFC3339 UTC 0 = "1970-01-01T00:00:00Z".
Proof. by_compute. Qed.
Example RFC3339_leap :
  RFC3339 3600 (1709164800 * Second + 999) = "2024-02-29T01:00:00+01:00".
Proof. by_compute. Qed.
Example RFC3339_zero : RFC3339 UTC zero_time = "0001-01-01T00:00:00Z".
Proof. by_compute. Qed.
