(* ===== verification/Runtime.v ===== *)
(** Effects: programs that read the outside world (clocks, the entropy source,
    database faults) and update a state. Every interaction with the outside
    draws the next tick, so that two readings of the clock in one request are
    two readings. *)
From S2P Require Import Prelude GoStrings GoTime.

(** The process's view of its surroundings at the n-th interaction. *)
Class Env : Type := {
  (** [time.Now()], in nanoseconds since the epoch. *)
  wall : nat → Z;
  (** [rand.Read] of so many bytes. *)
  entropy : nat → nat → result string (list N);
  (** [uuid.New().String()] and whether [uuid.Parse] accepts a string
      (github.com/google/uuid). *)
  uuid_new : nat → string;
  uuid_parse : string → bool;
}.

(** What [crypto/rand], [time] and [uuid] document: the bytes asked for, a
    clock that does not go back, non-empty identifiers that parse. *)
Class LawfulEnv `{Env} : Prop := {
  entropy_bytes n k l :
    entropy n k = Ok l → length l = k ∧ Forall (λ b, (b < 256)%N) l;
  wall_mono m n : m ≤ n → (wall m ≤ wall n)%Z;
  uuid_new_nonempty n : uuid_new n ≠ "";
  uuid_parse_new n : uuid_parse (uuid_new n) = true;
}.

(** ** Programs *)

Record io (S : Type) : Type := IO { ticks : nat; state : S }.
Arguments IO {_} _ _.
Arguments ticks {_} _.
Arguments state {_} _.

Definition prog (S A : Type) : Type := io S → A * io S.

#[global] Instance prog_ret S : MRet (prog S) := λ A x w, (x, w).
#[global] Instance prog_bind S : MBind (prog S) := λ A B f m w,
  let '(x, w') := m w in f x w'.

Definition tick {S} : prog S nat := λ w,
  (ticks w, IO (Datatypes.S (ticks w)) (state w)).
Definition get {S} : prog S S := λ w, (state w, w).
Definition put {S} (s : S) : prog S () := λ w, ((), IO (ticks w) s).
Definition modify {S} (f : S → S) : prog S () := λ w,
  ((), IO (ticks w) (f (state w))).

Definition now `{Env} {S} : prog S Z := n ← tick; mret (wall n).
Definition rand_read `{Env} {S} (k : nat) : prog S (result string (list N)) :=
  n ← tick; mret (entropy n k).
Definition new_uuid `{Env} {S} : prog S string := n ← tick; mret (uuid_new n).

(** A program on a part of the state, run on the whole of it. *)
Definition zoom {S T A} (view : T → S) (set : S → T → T) (m : prog S A)
    : prog T A := λ w,
  let '(x, w') := m (IO (ticks w) (view (state w))) in
  (x, IO (ticks w') (set (state w') (state w))).

(** ** Running *)

Section running.
Context {S : Type}.

Lemma run_ret {A} (x : A) (w : io S) : (mret x : prog S A) w = (x, w).
Proof. done. Qed.

Lemma run_bind {A B} (m : prog S A) (f : A → prog S B) w x w' :
  m w = (x, w') → (m ≫= f) w = f x w'.
Proof. unfold mbind, prog_bind. by intros ->. Qed.

Lemma bind_run {A B} (m : prog S A) (f : A → prog S B) w :
  (m ≫= f) w = f (m w).1 (m w).2.
Proof. unfold mbind, prog_bind. by destruct (m w). Qed.

Lemma run_now `{Env} (w : io S) :
  now w = (wall (ticks w), IO (Datatypes.S (ticks w)) (state w)).
Proof. done. Qed.

(** No program turns the clock back. *)
Definition forward {A} (m : prog S A) : Prop :=
  ∀ w, ticks w ≤ ticks (m w).2.

Lemma forward_ret {A} (x : A) : forward (mret x).
Proof. intros w. done. Qed.
Lemma forward_bind {A B} (m : prog S A) (f : A → prog S B) :
  forward m → (∀ x, forward (f x)) → forward (m ≫= f).
Proof.
  intros Hm Hf w. unfold mbind, prog_bind. specialize (Hm w).
  destruct (m w) as [x w']; simpl in *. specialize (Hf x w'). lia.
Qed.
Lemma forward_tick : forward tick.
Proof. intros w. simpl. lia. Qed.
Lemma forward_get : forward get.
Proof. intros w. done. Qed.
Lemma forward_put s : forward (put s).
Proof. intros w. done. Qed.
Lemma forward_modify f : forward (modify f).
Proof. intros w. done. Qed.
End running.

#[export] Hint Resolve @forward_ret @forward_bind @forward_tick @forward_get
  @forward_put @forward_modify : maas.

(** ** A concrete environment, for evaluation *)

Module DocEnv.
(** A fixed wall clock started at [t0] that advances by a second at each
    interaction, entropy that counts, identifiers numbered in the shape of a
    UUID. *)
Definition uuid_text (n : nat) : string :=
  "00000000-0000-4000-8000-" +:+ digits 12 (Z.of_nat n).
Definition env_at (t0 : Z) : Env := {|
  wall n := (t0 + Z.of_nat n * Second)%Z;
  entropy n k := Ok ((λ i, N.of_nat ((7 * n + 31 * i + 1) mod 256)) <$> seq 0 k);
  uuid_new := uuid_text;
  uuid_parse s := (String.length s =? 36)%nat;
|}.

Lemma length_digits w v : String.length (digits w v) = w.
Proof.
  revert v. induction w as [|w IH]; intros v; simpl; [done|].
  rewrite length_app_str, IH. simpl. lia.
Qed.

Lemma env_at_lawful t0 : @LawfulEnv (env_at t0).
Proof.
  split.
  - intros n k l [= <-]. rewrite length_fmap, length_seq. split; [done|].
    apply Forall_fmap, Forall_forall. intros i _. simpl.
    pose proof (Nat.mod_upper_bound (7 * n + 31 * i + 1) 256). lia.
  - intros m n Hmn. simpl. unfold Second. nia.
  - intros n H%(f_equal String.length). simpl in H. lia.
  - intros n. unfold uuid_parse, env_at, uuid_new, uuid_text.
    by rewrite length_app_str, length_digits.
Qed.
End DocEnv.
