(* ===== verification/Sha256.v ===== *)
(** [crypto/sha256] and [encoding/hex]: the hash of FIPS 180-4 on bytes, as an
    executable function, and the hexadecimal text of its digest. *)
From S2P Require Import Prelude GoStrings.

Module SHA.
Local Open Scope N_scope.

Definition mask : N := N.ones 32.
Definition add32 (a b : N) : N := N.land (a + b) mask.
Definition rotr (n x : N) : N :=
  N.lor (N.shiftr x n) (N.land (N.shiftl x (32 - n)) mask).
Definition not32 (x : N) : N := N.lxor x mask.

Definition bsig0 (x : N) : N := N.lxor (rotr 2 x) (N.lxor (rotr 13 x) (rotr 22 x)).
Definition bsig1 (x : N) : N := N.lxor (rotr 6 x) (N.lxor (rotr 11 x) (rotr 25 x)).
Definition ssig0 (x : N) : N := N.lxor (rotr 7 x) (N.lxor (rotr 18 x) (N.shiftr x 3)).
Definition ssig1 (x : N) : N := N.lxor (rotr 17 x) (N.lxor (rotr 19 x) (N.shiftr x 10)).
Definition ch (x y z : N) : N := N.lxor (N.land x y) (N.land (not32 x) z).
Definition maj (x y z : N) : N :=
  N.lxor (N.land x y) (N.lxor (N.land x z) (N.land y z)).

(** The constants of FIPS 180-4 are by definition the first 32 bits of the
    fractional parts of the cube roots of the first 64 primes, and of the square
    roots of the first 8 of them. *)
Definition is_prime (n : nat) : bool :=
  forallb (λ d, negb (Nat.eqb (n mod d) 0)) (seq 2 (n - 2)).
Definition primes : list N :=
  Eval vm_compute in
    N.of_nat <$> List.filter is_prime (seq 2 310).

(** The greatest [r < 2 ^ bits] with [r ^ k <= n], above the bits of [r] found. *)
Fixpoint root_above (k n r : N) (bits : nat) : N :=
  match bits with
  | O => r
  | S b =>
      let r' := r + N.shiftl 1 (N.of_nat b) in
      root_above k n (if r' ^ k <=? n then r' else r) b
  end.

(** [k]-th root of [p], times [2 ^ 32], modulo [2 ^ 32]. *)
Definition root_fraction (k p : N) : N :=
  N.land (root_above k (N.shiftl p (32 * k)) 0 40) mask.

Definition K : list N := Eval vm_compute in (root_fraction 3 <$> primes).
Definition H0 : list N := Eval vm_compute in (root_fraction 2 <$> take 8 primes).

(** The schedule is kept most recent word first. *)
Fixpoint extend (n : nat) (w : list N) : list N :=
  match n with
  | O => w
  | S n' =>
      let at_ i := nth i w 0 in
      extend n'
        (add32 (add32 (ssig1 (at_ 1%nat)) (at_ 6%nat))
               (add32 (ssig0 (at_ 14%nat)) (at_ 15%nat)) :: w)
  end.

Definition round (s : list N) (kw : N * N) : list N :=
  match s with
  | [a; b; c; d; e; f; g; h] =>
      let t1 := add32 (add32 (add32 h (bsig1 e)) (ch e f g)) (add32 kw.1 kw.2) in
      let t2 := add32 (bsig0 a) (maj a b c) in
      [add32 t1 t2; a; b; c; add32 d t1; e; f; g]
  | _ => s
  end.

Definition compress (h block : list N) : list N :=
  zip_with add32 h (foldl round h (zip K (rev (extend 48 (rev block))))).

Fixpoint words (l : list N) : list N :=
  match l with
  | a :: b :: c :: d :: l' =>
      (N.shiftl a 24 + N.shiftl b 16 + N.shiftl c 8 + d) :: words l'
  | _ => []
  end.

Fixpoint blocks (n : nat) (l : list N) : list (list N) :=
  match n with
  | O => []
  | S n' => take 16 l :: blocks n' (drop 16 l)
  end.

Definition be_bytes (n : nat) (x : N) : list N :=
  (λ i, N.land (N.shiftr x (8 * N.of_nat i)) 255) <$> rev (seq 0 n).

Definition pad (msg : list N) : list N :=
  let len := length msg in
  let zeros := ((119 - len mod 64) mod 64)%nat in
  msg ++ 128 :: replicate zeros 0 ++ be_bytes 8 (8 * N.of_nat len).

(** [sha256.Sum256]. *)
Definition Sum256 (msg : string) : list N :=
  let p := pad (N_of_ascii <$> String.list_ascii_of_string msg) in
  mjoin (be_bytes 4 <$>
           foldl compress H0 (blocks (length p / 64) (words p))).

Definition hex_digit (n : N) : ascii :=
  default "0"%char
    (String.list_ascii_of_string "0123456789abcdef" !! N.to_nat n).

(** [hex.EncodeToString]. *)
Fixpoint EncodeToString (l : list N) : string :=
  match l with
  | [] => ""
  | b :: l' =>
      String (hex_digit (N.shiftr b 4))
        (String (hex_digit (N.land b 15)) (EncodeToString l'))
  end.

Example Sum256_empty :
  EncodeToString (Sum256 "") =
  "e3b0c44298fc1c149afbf4c8996fb92427ae41e4649b934ca495991b7852b855".
Proof. by_compute. Qed.
Example Sum256_abc :
  EncodeToString (Sum256 "abc") =
  "ba7816bf8f01cfea414140de5dae2223b00361a396177a9cb410ff61f20015ad".
Proof. by_compute. Qed.
Example Sum256_two_blocks :
  EncodeToString
    (Sum256 "abcdbcdecdefdefgefghfghighijhijkijkljklmklmnlmnomnopnopq") =
  "248d6a61d20638b8e5c026930c3e6039a33ce45964ff2167f6ecedd419db06c1".
Proof. by_compute. Qed.

(** ** The shape of a digest *)

Lemma zip_with_length_8 (a b : list N) :
  length a = 8%nat → length b = 8%nat → length (zip_with add32 a b) = 8%nat.
Proof.
  intros. do 9 (destruct a as [|? a]; try done).
  by do 9 (destruct b as [|? b]; try done).
Qed.

Lemma round_length s kw : length s = 8%nat → length (round s kw) = 8%nat.
Proof. intros. do 9 (destruct s as [|? s]; try done). Qed.

Lemma compress_length h b : length h = 8%nat → length (compress h b) = 8%nat.
Proof.
  intros H. apply zip_with_length_8; [done|].
  generalize (zip K (rev (extend 48 (rev b)))) as l. revert h H.
  intros h H l. revert h H. induction l as [|kw l IH]; intros h H; simpl; [done|].
  by apply IH, round_length.
Qed.

Lemma be_bytes_length n x : length (be_bytes n x) = n.
Proof. unfold be_bytes. by rewrite length_fmap, length_rev, length_seq. Qed.

Lemma Sum256_length msg : length (Sum256 msg) = 32%nat.
Proof.
  unfold Sum256. set (p := pad _). generalize (blocks (length p / 64) (words p)).
  intros l. assert (∀ h, length h = 8%nat → length (foldl compress h l) = 8%nat) as H.
  { induction l as [|b l IH]; intros h Hh; simpl; [done|].
    by apply IH, compress_length. }
  specialize (H H0 eq_refl). revert H.
  generalize (foldl compress H0 l) as ws. intros ws Hws.
  do 9 (destruct ws as [|? ws]; try done).
Qed.

Lemma EncodeToString_length l :
  String.length (EncodeToString l) = (2 * length l)%nat.
Proof. induction l as [|b l IH]; simpl; [done|]. rewrite IH. lia. Qed.

End SHA.
