(* ===== verification/KeyGen.v ===== *)
(** API key generation, parsing and hashing,
    [src/maas-api/internal/api_keys/keygen.go]. *)
From S2P Require Import Prelude GoStrings Sha256 GoTime Runtime.

Module KeyGen.

(** [src/maas-api/internal/api_keys/keygen.go:15-18] KeyPrefix. *)
Definition KeyPrefix : string := "sk-oai-".
(** [src/maas-api/internal/api_keys/keygen.go:20-21] KeyIDSeparator. *)
Definition KeyIDSeparator : ascii := "_"%char.
(** [src/maas-api/internal/api_keys/keygen.go:23-24] keyIDBytes. *)
Definition keyIDBytes : nat := 12.
(** [src/maas-api/internal/api_keys/keygen.go:26-27] entropyBytes. *)
Definition entropyBytes : nat := 32.
(** [src/maas-api/internal/api_keys/keygen.go:29-30] displayPrefixLength. *)
Definition displayPrefixLength : nat := 12.

(** ** Base 62 *)

(** [src/maas-api/internal/api_keys/keygen.go:179-179] alphabet. *)
Definition alphabet : string :=
  "0123456789ABCDEFGHIJKLMNOPQRSTUVWXYZabcdefghijklmnopqrstuvwxyz".

(** [src/maas-api/internal/api_keys/keygen.go:189-189] encodeBase62. *)
Definition letter (n : N) : ascii :=
  default "0"%char (String.get (N.to_nat n) alphabet).

(** [big.Int.SetBytes]: the bytes as a big-endian number. *)
Definition SetBytes (data : list N) : N :=
  foldl (λ n b, (256 * n + b)%N) 0%N data.

(** The loop prepends a digit for each division; it is given as many turns as
    the number has bits, and [None] would mean they were not enough.
    [src/maas-api/internal/api_keys/keygen.go:187-190] encodeBase62. *)
Fixpoint base62_loop (fuel : nat) (n : N) (result : string) : option string :=
  if (0 <? n)%N then
    match fuel with
    | O => None
    | S fuel' => base62_loop fuel' (n / 62)%N (String (letter (n mod 62)) result)
    end
  else Some result.

(** [src/maas-api/internal/api_keys/keygen.go:176-198] encodeBase62. *)
Definition encodeBase62 (data : list N) : string :=
  let n := SetBytes data in
  match default "" (base62_loop (N.size_nat n) n "") with
  | EmptyString => String (letter 0) ""
  | result => result
  end.

Definition base62_byte (c : ascii) : bool :=
  let n := code c in
  ((48 <=? n) && (n <=? 57)) || ((65 <=? n) && (n <=? 90))
  || ((97 <=? n) && (n <=? 122)).

(** A rune outside ASCII fails the range test, and so does each of its bytes.
    [src/maas-api/internal/api_keys/keygen.go:166-174] isBase62. *)
Definition isBase62 (s : string) : bool := all_bytes base62_byte s.

(** ** Keys *)

(** [src/maas-api/internal/api_keys/keygen.go:77-84] hashWithSalt. *)
Definition hashWithSalt (keyID secret : string) : string :=
  SHA.EncodeToString (SHA.Sum256 (keyID +:+ String (byte 0) secret)).

(** [src/maas-api/internal/api_keys/keygen.go:67-72] GenerateAPIKey. *)
Definition displayPrefix (keyID : string) : string :=
  if displayPrefixLength <=? String.length keyID then
    KeyPrefix +:+ String.substring 0 displayPrefixLength keyID +:+ "..."
  else KeyPrefix +:+ keyID +:+ "...".

(** [src/maas-api/internal/api_keys/keygen.go:61-61] GenerateAPIKey. *)
Definition plaintextOf (keyID secret : string) : string :=
  KeyPrefix +:+ keyID +:+ String KeyIDSeparator secret.

(** The plaintext key, its hash and its display prefix.
    [src/maas-api/internal/api_keys/keygen.go:33-75] GenerateAPIKey. *)
Definition GenerateAPIKey `{Env} {S}
    : prog S (result string (string * string * string)) :=
  r ← rand_read keyIDBytes;
  match r with
  | Err e => mret (Err ("failed to generate key_id entropy: " +:+ e))
  | Ok keyIDEntropy =>
      let keyID := encodeBase62 keyIDEntropy in
      r ← rand_read entropyBytes;
      match r with
      | Err e => mret (Err ("failed to generate secret entropy: " +:+ e))
      | Ok secretEntropy =>
          let secret := encodeBase62 secretEntropy in
          mret (Ok (plaintextOf keyID secret, hashWithSalt keyID secret,
                    displayPrefix keyID))
      end
  end.

(** [src/maas-api/internal/api_keys/keygen.go:86-108] ParseAPIKey. *)
Definition ParseAPIKey (key : string) : result string (string * string) :=
  match strip_prefix KeyPrefix key with
  | None => Err "invalid key prefix"
  | Some body =>
      match cut KeyIDSeparator body with
      | None => Err "invalid key format: missing separator"
      | Some (keyID, secret) =>
          if (keyID == "") || (secret == "") then
            Err "invalid key format: empty key_id or secret"
          else Ok (keyID, secret)
      end
  end.

(** [src/maas-api/internal/api_keys/keygen.go:110-120] ValidateAPIKeyHash. *)
Definition ValidateAPIKeyHash (key storedHash : string) : bool :=
  match ParseAPIKey key with
  | Err _ => false
  | Ok (keyID, secret) => hashWithSalt keyID secret == storedHash
  end.

(** [src/maas-api/internal/api_keys/keygen.go:122-131] HashAPIKey. *)
Definition HashAPIKey (key : string) : string :=
  match ParseAPIKey key with
  | Err _ => ""
  | Ok (keyID, secret) => hashWithSalt keyID secret
  end.

(** [src/maas-api/internal/api_keys/keygen.go:133-164] IsValidKeyFormat. *)
Definition IsValidKeyFormat (key : string) : bool :=
  match strip_prefix KeyPrefix key with
  | None => false
  | Some body =>
      match cut KeyIDSeparator body with
      | None => false
      | Some (keyID, secret) =>
          if (keyID == "") || (secret == "") then false
          else if negb (isBase62 keyID) then false
          else if negb (isBase62 secret) then false
          else true
      end
  end.

End KeyGen.

(** * Facts *)

Import KeyGen.

(** ** Base 62 is positional *)

(** The value of a letter, and of a text read most significant letter first. *)
Definition digit62 (c : ascii) : N :=
  let n := N_of_ascii c in
  if (n <=? 57)%N then (n - 48)%N
  else if (n <=? 90)%N then (n - 55)%N else (n - 61)%N.

Fixpoint decode62 (acc : N) (s : string) : N :=
  match s with
  | EmptyString => acc
  | String c s' => decode62 (62 * acc + digit62 c) s'
  end.

Definition upto (k : nat) : list N := N.of_nat <$> seq 0 k.

Lemma elem_of_upto k n : (n < N.of_nat k)%N → n ∈ upto k.
Proof.
  intros. apply list_elem_of_fmap. exists (N.to_nat n).
  split; [lia|]. apply elem_of_seq. lia.
Qed.

Lemma forallb_upto (f : N → bool) k n :
  forallb f (upto k) = true → (n < N.of_nat k)%N → f n = true.
Proof. rewrite forallb_elem_of. eauto using elem_of_upto. Qed.

Lemma digit62_letter n : (n < 62)%N → digit62 (letter n) = n.
Proof.
  intros Hn. apply N.eqb_eq.
  by apply (forallb_upto (λ n, digit62 (letter n) =? n)%N 62).
Qed.

Lemma base62_letter n : (n < 62)%N → base62_byte (letter n) = true.
Proof. by apply (forallb_upto (λ n, base62_byte (letter n)) 62). Qed.

(** ** The loop terminates and writes the number *)

(** Division by 62 in terms of its quotient alone. *)
Lemma div62_lt n P c : (c ≤ 62)%N → (n < c * P)%N → (n / 62 < P)%N.
Proof. intros Hc H. apply N.Div0.div_lt_upper_bound. nia. Qed.

Lemma lt_pow2_size n : (n < 2 ^ N.of_nat (N.size_nat n))%N.
Proof.
  destruct n as [|p]; [done|]. simpl N.size_nat.
  induction p as [p IH|p IH|]; simpl Pos.size_nat;
    rewrite ?Nat2N.inj_succ, ?N.pow_succ_r'; [lia|lia|done].
Qed.

Lemma decode62_app acc s1 s2 :
  decode62 acc (s1 +:+ s2) = decode62 (decode62 acc s1) s2.
Proof. revert acc. induction s1 as [|c s IH]; intros acc; simpl; [done|apply IH]. Qed.

(** The loop finishes within [k] turns on numbers below [2^k], and prepends a
    text that reads back as the number. *)
Lemma base62_loop_spec k n acc :
  (n < 2 ^ N.of_nat k)%N →
  ∃ s, base62_loop k n acc = Some (s +:+ acc) ∧ decode62 0 s = n ∧
    all_bytes base62_byte s = true ∧
    (∀ m, (n < 62 ^ N.of_nat m)%N → String.length s ≤ m).
Proof.
  revert n acc. induction k as [|k IH]; intros n acc Hn; simpl.
  - assert (n = 0)%N as -> by (simpl in Hn; lia). exists "".
    split_and!; [done..|]. simpl. lia.
  - destruct (N.ltb_spec 0 n) as [Hpos|Hzero].
    2:{ exists "". simpl. split_and!; [done|simpl; lia|done|lia]. }
    rewrite Nat2N.inj_succ, N.pow_succ_r' in Hn.
    pose proof (N.mod_lt n 62 ltac:(done)) as Hmod.
    pose proof (N.div_mod n 62 ltac:(done)) as Hdiv.
    destruct (IH (n / 62)%N (String (letter (n mod 62)) acc)) as (s & -> & Hs & Ha & Hl).
    { by apply (div62_lt n _ 2). }
    exists (s +:+ String (letter (n mod 62)) ""). split_and!.
    + by rewrite <-app_assoc_str.
    + rewrite decode62_app, Hs. simpl. rewrite digit62_letter by done. lia.
    + rewrite all_bytes_app, Ha. simpl. by rewrite base62_letter.
    + intros m Hm. rewrite length_app_str. simpl. destruct m as [|m].
      { simpl in Hm. lia. }
      rewrite Nat2N.inj_succ, N.pow_succ_r' in Hm.
      assert (String.length s ≤ m); [|lia]. apply Hl. by apply (div62_lt n _ 62).
Qed.

(** ** [encodeBase62] *)

Lemma encodeBase62_spec data :
  decode62 0 (encodeBase62 data) = SetBytes data ∧
  isBase62 (encodeBase62 data) = true ∧ encodeBase62 data ≠ "" ∧
  (∀ m, 0 < m → (SetBytes data < 62 ^ N.of_nat m)%N →
     String.length (encodeBase62 data) ≤ m).
Proof.
  unfold encodeBase62.
  destruct (base62_loop_spec _ _ "" (lt_pow2_size (SetBytes data)))
    as (s & -> & Hs & Ha & Hl).
  rewrite app_nil_r_str. simpl. destruct s as [|c s].
  - simpl in Hs. rewrite <-Hs. split_and!; [done..|]. simpl. lia.
  - split_and!; [done..|]. eauto.
Qed.

Lemma SetBytes_acc acc l :
  foldl (λ n b, (256 * n + b)%N) acc l =
  (acc * 256 ^ N.of_nat (length l) + SetBytes l)%N.
Proof.
  revert acc. induction l as [|b l IH]; intros acc.
  { unfold SetBytes. simpl. lia. }
  unfold SetBytes. cbn [foldl length]. rewrite IH, (IH (256 * 0 + b)%N).
  rewrite Nat2N.inj_succ, N.pow_succ_r'. lia.
Qed.

Lemma SetBytes_cons b l :
  SetBytes (b :: l) = (b * 256 ^ N.of_nat (length l) + SetBytes l)%N.
Proof. unfold SetBytes at 1. cbn [foldl]. rewrite SetBytes_acc. lia. Qed.

Definition is_bytes (l : list N) : Prop := Forall (λ b, (b < 256)%N) l.

Lemma SetBytes_bound l : is_bytes l → (SetBytes l < 256 ^ N.of_nat (length l))%N.
Proof.
  induction 1 as [|b l Hb _ IH]; [done|].
  rewrite SetBytes_cons. cbn [length].
  rewrite Nat2N.inj_succ, N.pow_succ_r'. nia.
Qed.

Lemma SetBytes_inj l l' :
  is_bytes l → is_bytes l' → length l = length l' →
  SetBytes l = SetBytes l' → l = l'.
Proof.
  intros Hl. revert l'. induction Hl as [|b l Hb Hl IH]; intros l' Hl' Hlen E.
  - by destruct l'.
  - destruct Hl' as [|b' l' Hb' Hl']; [done|]. injection Hlen as Hlen.
    rewrite !SetBytes_cons, <-Hlen in E.
    pose proof (SetBytes_bound l Hl). pose proof (SetBytes_bound l' Hl') as Hb2.
    rewrite <-Hlen in Hb2.
    set (M := (256 ^ N.of_nat (length l))%N) in *.
    assert (b = b') as <- by nia. f_equal. apply IH; [done..|]. lia.
Qed.

(** ** The key format *)

Lemma base62_no_separator s :
  isBase62 s = true → contains_byte s KeyIDSeparator = false.
Proof.
  unfold isBase62, contains_byte. induction s as [|c s IH]; simpl; [done|].
  intros [Hc Hs]%andb_true_iff. rewrite IH by done.
  case_bool_decide; subst; [done|done].
Qed.

Lemma ParseAPIKey_Ok key keyID secret :
  ParseAPIKey key = Ok (keyID, secret) ↔
  key = plaintextOf keyID secret ∧ keyID ≠ "" ∧ secret ≠ "" ∧
  contains_byte keyID KeyIDSeparator = false.
Proof.
  unfold ParseAPIKey, plaintextOf. split.
  - destruct (strip_prefix KeyPrefix key) as [body|] eqn:Hp; [|done].
    apply strip_prefix_Some in Hp as ->.
    destruct (cut KeyIDSeparator body) as [[i s]|] eqn:Hc; [|done].
    apply cut_Some in Hc as [-> Hi].
    destruct ((i == "") || (s == "")) eqn:E; [done|]. destruct_bools.
    by intros [= <- <-].
  - intros (-> & Hk & Hs & Hn). rewrite strip_prefix_app, cut_app by done.
    by rewrite !bool_decide_eq_false_2.
Qed.

Lemma IsValidKeyFormat_iff key :
  IsValidKeyFormat key = true ↔
  ∃ keyID secret, ParseAPIKey key = Ok (keyID, secret) ∧
    isBase62 keyID = true ∧ isBase62 secret = true.
Proof.
  unfold IsValidKeyFormat, ParseAPIKey.
  destruct (strip_prefix KeyPrefix key) as [body|]; [|naive_solver].
  destruct (cut KeyIDSeparator body) as [[i s]|]; [|naive_solver].
  destruct ((i == "") || (s == "")); [naive_solver|].
  destruct (isBase62 i) eqn:Ei; simpl; [|naive_solver congruence].
  destruct (isBase62 s) eqn:Es; simpl; naive_solver congruence.
Qed.

Lemma hashWithSalt_length keyID secret :
  String.length (hashWithSalt keyID secret) = 64.
Proof. unfold hashWithSalt. by rewrite SHA.EncodeToString_length, SHA.Sum256_length. Qed.

Lemma HashAPIKey_valid key :
  IsValidKeyFormat key = true → String.length (HashAPIKey key) = 64.
Proof.
  intros (i & s & H & _)%IsValidKeyFormat_iff. unfold HashAPIKey. rewrite H.
  apply hashWithSalt_length.
Qed.

(** A key made of two encoded entropies has the format and parses to them. *)
Lemma plaintextOf_parse a b :
  ParseAPIKey (plaintextOf (encodeBase62 a) (encodeBase62 b)) =
  Ok (encodeBase62 a, encodeBase62 b).
Proof.
  destruct (encodeBase62_spec a) as (_ & Ha & Hna & _).
  destruct (encodeBase62_spec b) as (_ & Hb & Hnb & _).
  apply ParseAPIKey_Ok. split_and!; try done. by apply base62_no_separator.
Qed.

Lemma plaintextOf_valid a b :
  IsValidKeyFormat (plaintextOf (encodeBase62 a) (encodeBase62 b)) = true.
Proof.
  apply IsValidKeyFormat_iff. do 2 eexists. split; [apply plaintextOf_parse|].
  split; apply encodeBase62_spec.
Qed.

Lemma substring_split n s :
  ∃ rest, s = String.substring 0 n s +:+ rest ∧
    String.length (String.substring 0 n s) ≤ n.
Proof.
  revert s. induction n as [|n IH]; intros s.
  - exists s. by destruct s.
  - destruct s as [|c s]; [exists ""; split; [done|simpl; lia]|].
    destruct (IH s) as (rest & E & Hl). exists rest. simpl. split; [by f_equal|lia].
Qed.

Lemma displayPrefix_split keyID :
  ∃ shown hidden, keyID = shown +:+ hidden ∧ String.length shown ≤ 12 ∧
    displayPrefix keyID = KeyPrefix +:+ shown +:+ "...".
Proof.
  unfold displayPrefix, displayPrefixLength.
  destruct (Nat.leb_spec 12 (String.length keyID)) as [_|Hlt].
  - destruct (substring_split 12 keyID) as (rest & E & Hl).
    exists (String.substring 0 12 keyID), rest. done.
  - exists keyID, "". rewrite app_nil_r_str. split_and!; [done|lia|done].
Qed.

(** ** Running [GenerateAPIKey] *)

Lemma GenerateAPIKey_Ok `{Env} {S} (w w' : io S) p h d :
  GenerateAPIKey w = (Ok (p, h, d), w') →
  ∃ a b, entropy (ticks w) keyIDBytes = Ok a ∧
    entropy (Datatypes.S (ticks w)) entropyBytes = Ok b ∧
    p = plaintextOf (encodeBase62 a) (encodeBase62 b) ∧
    h = hashWithSalt (encodeBase62 a) (encodeBase62 b) ∧
    d = displayPrefix (encodeBase62 a) ∧
    w' = IO (2 + ticks w) (state w).
Proof.
  unfold GenerateAPIKey, mbind, prog_bind, rand_read, tick. simpl.
  destruct (entropy (ticks w) keyIDBytes) as [a|]; simpl; [|done].
  destruct (entropy (Datatypes.S (ticks w)) entropyBytes) as [b|]; simpl; [|done].
  intros [= <- <- <- <-]. naive_solver.
Qed.

(** Its hash is the one that looking the key up computes. *)
Lemma GenerateAPIKey_hash `{Env} {S} (w w' : io S) p h d :
  GenerateAPIKey w = (Ok (p, h, d), w') →
  IsValidKeyFormat p = true ∧ HashAPIKey p = h.
Proof.
  intros (a & b & _ & _ & -> & -> & _)%GenerateAPIKey_Ok.
  split; [apply plaintextOf_valid|]. unfold HashAPIKey.
  by rewrite plaintextOf_parse.
Qed.
