(* ===== verification/KeyGenCorrectness.v ===== *)
(** The properties of key generation and of the key format. *)
From S2P Require Import Prelude GoStrings Sha256 GoTime Runtime.
From S2P Require Import KeyGen.
Import KeyGen.

(** A generated key round-trips: its plaintext has the key format, parses
    back to a key ID and a secret, hashes to the 64 hexadecimal characters
    returned for storage, and validates against them; it is at most 68 bytes
    long, and its display prefix shows at most 12 bytes of the key ID and no
    byte of the secret. *)
Theorem GenerateAPIKey_roundtrip `{LawfulEnv} {S} (w w' : io S) p h d :
  GenerateAPIKey w = (Ok (p, h, d), w') →
  ∃ keyID secret, ParseAPIKey p = Ok (keyID, secret) ∧
    IsValidKeyFormat p = true ∧ HashAPIKey p = h ∧ String.length h = 64 ∧
    ValidateAPIKeyHash p h = true ∧ String.length p ≤ 68 ∧
    ∃ shown hidden, keyID = shown +:+ hidden ∧ String.length shown ≤ 12 ∧
      d = KeyPrefix +:+ shown +:+ "...".
Proof.
  intros Hg. pose proof (GenerateAPIKey_hash _ _ _ _ _ Hg) as [Hf Hh].
  apply GenerateAPIKey_Ok in Hg as (a & b & Ha & Hb & -> & -> & -> & ->).
  apply entropy_bytes in Ha as [Hla Ha], Hb as [Hlb Hb].
  exists (encodeBase62 a), (encodeBase62 b).
  split; [apply plaintextOf_parse|]. split; [done|]. split; [done|].
  split; [apply hashWithSalt_length|]. split.
  { unfold ValidateAPIKeyHash. rewrite plaintextOf_parse.
    by apply bool_decide_eq_true. }
  destruct (encodeBase62_spec a) as (_ & _ & _ & Hba).
  destruct (encodeBase62_spec b) as (_ & _ & _ & Hbb).
  pose proof (SetBytes_bound a Ha) as Hna. rewrite Hla in Hna.
  pose proof (SetBytes_bound b Hb) as Hnb. rewrite Hlb in Hnb.
  assert (String.length (encodeBase62 a) ≤ 17).
  { apply Hba; [lia|]. by etrans; [exact Hna|]. }
  assert (String.length (encodeBase62 b) ≤ 43).
  { apply Hbb; [lia|]. by etrans; [exact Hnb|]. }
  split.
  { unfold plaintextOf. rewrite !length_app_str. simpl. lia. }
  apply displayPrefix_split.
Qed.

(** No entropy is lost in the text: the encodings of two random strings of
    the same length are equal only if the strings are. *)
Theorem encodeBase62_injective a b :
  is_bytes a → is_bytes b → length a = length b →
  encodeBase62 a = encodeBase62 b → a = b.
Proof.
  intros Ha Hb Hl E. apply SetBytes_inj; [done..|].
  destruct (encodeBase62_spec a) as [<- _], (encodeBase62_spec b) as [<- _].
  by rewrite E.
Qed.

(** The null delimiter removes length ambiguity: the hash of a well-formed
    key is SHA-256 of a text from which the whole key can be recovered, so that
    two different well-formed keys never have the same text hashed. *)
Theorem hashed_text_unambiguous :
  ∃ text : string → string,
    (∀ key, IsValidKeyFormat key = true →
       HashAPIKey key = SHA.EncodeToString (SHA.Sum256 (text key))) ∧
    (∀ key key', IsValidKeyFormat key = true → IsValidKeyFormat key' = true →
       text key = text key' → key = key').
Proof.
  exists (λ key, match ParseAPIKey key with
                 | Ok (i, s) => i +:+ String (byte 0) s | Err _ => "" end).
  split.
  - intros key (i & s & H & _)%IsValidKeyFormat_iff. unfold HashAPIKey.
    by rewrite H.
  - intros key key' (i & s & H & Hi & _)%IsValidKeyFormat_iff
      (i' & s' & H' & Hi' & _)%IsValidKeyFormat_iff.
    rewrite H, H'. intros E.
    assert (∀ t, isBase62 t = true → contains_byte t (byte 0) = false) as Hnul.
    { intros t. unfold isBase62, contains_byte.
      induction t as [|c t IH]; simpl; [done|]. intros [Hc Ht]%andb_true_iff.
      rewrite IH by done. by case_bool_decide; subst. }
    assert (Some (i, s) = Some (i', s')) as [= -> ->].
    { rewrite <-(cut_app (byte 0) i s), <-(cut_app (byte 0) i' s') by auto.
      by rewrite E. }
    apply ParseAPIKey_Ok in H as [-> _], H' as [-> _]. done.
Qed.

(** What the parser accepts: exactly the texts made of the prefix, a
    non-empty key ID without underscore, the separator and a non-empty secret;
    the format check accepts those of them that are base 62 throughout. *)
Theorem ParseAPIKey_exact key :
  (∀ keyID secret, ParseAPIKey key = Ok (keyID, secret) ↔
     key = KeyPrefix +:+ keyID +:+ String KeyIDSeparator secret ∧
     keyID ≠ "" ∧ secret ≠ "" ∧ contains_byte keyID KeyIDSeparator = false) ∧
  (IsValidKeyFormat key = true ↔
   ∃ keyID secret, key = KeyPrefix +:+ keyID +:+ String KeyIDSeparator secret ∧
     keyID ≠ "" ∧ secret ≠ "" ∧ isBase62 keyID = true ∧ isBase62 secret = true).
Proof.
  split; [apply ParseAPIKey_Ok|]. rewrite IsValidKeyFormat_iff. split.
  - intros (i & s & (-> & ? & ? & _)%ParseAPIKey_Ok & ? & ?). eauto 10.
  - intros (i & s & -> & ? & ? & ? & ?). exists i, s. split; [|done].
    apply ParseAPIKey_Ok. eauto using base62_no_separator.
Qed.

(** The comment's guarantee of twelve characters does not hold: a key ID of
    zero bytes is one character long. *)
Example key_id_can_be_short :
  String.length (encodeBase62 (replicate keyIDBytes 0%N)) = 1.
Proof. by_compute. Qed.

(** ** Instances *)

Lemma GenerateAPIKey_roundtrip_witness :
  ∃ p h d, (@GenerateAPIKey (DocEnv.env_at 0) unit (IO 0 ())).1 = Ok (p, h, d) ∧
    ValidateAPIKeyHash p h = true.
Proof.
  pose (g := @GenerateAPIKey (DocEnv.env_at 0) unit (IO 0 ())).
  assert (∃ p h d, g = (Ok (p, h, d), g.2)) as (p & h & d & Hg)
    by (do 3 eexists; by_compute).
  exists p, h, d. split; [exact (f_equal fst Hg)|].
  destruct (@GenerateAPIKey_roundtrip (DocEnv.env_at 0) (DocEnv.env_at_lawful 0)
    unit (IO 0 ()) g.2 p h d Hg) as (i & s & _ & _ & _ & _ & Hv & _).
  exact Hv.
Defined.

Lemma encodeBase62_injective_witness :
  encodeBase62 [0; 1]%N ≠ encodeBase62 [1; 0]%N.
Proof.
  intros E. assert ([0; 1]%N = [1; 0]%N) as H; [|discriminate H].
  apply encodeBase62_injective; [repeat constructor; lia..|reflexivity|exact E].
Defined.
