(* ===== verification/ApiKeyTypes.v ===== *)
(** The data of [src/maas-api/internal/api_keys]: key metadata, search and
    revocation requests, their responses, and the sentinel errors. *)
From S2P Require Import Prelude GoStrings.

Module Keys.

(** The column holds no other value (CHECK constraint of the schema).
    [src/maas-api/internal/api_keys/types.go:3-11] Status. *)
Inductive Status : Type := StatusActive | StatusRevoked | StatusExpired.

#[global] Instance Status_eq_dec : EqDecision Status.
Proof. solve_decision. Defined.

(** [src/maas-api/internal/api_keys/types.go:13-16] String. *)
Definition Status_String (s : Status) : string :=
  match s with
  | StatusActive => "active"
  | StatusRevoked => "revoked"
  | StatusExpired => "expired"
  end.

(** Groups and labels are [None] for a nil slice or map.
    [src/maas-api/internal/api_keys/types.go:18-36] ApiKey. *)
Record ApiKey : Type := mkApiKey {
  k_ID : string;
  k_Name : string;
  k_Description : string;
  k_Username : string;
  k_Subscription : string;
  k_Tenant : string;
  k_Groups : option (list string);
  k_CreationDate : string;
  k_ExpirationDate : string;
  k_Status : Status;
  k_LastUsedAt : string;
  k_Ephemeral : bool;
  k_Labels : option (gmap string string);
}.

(** [src/maas-api/internal/api_keys/types.go:38-49] ValidationResult. *)
Record ValidationResult : Type := mkValidation {
  Valid : bool;
  UserID : string;
  val_Username : string;
  KeyID : string;
  KeyName : string;
  val_Groups : list string;
  val_Subscription : string;
  val_Tenant : string;
  Reason : string;
}.

(** [src/maas-api/internal/api_keys/types.go:51-55] PaginationParams. *)
Record PaginationParams : Type := mkPage { Limit : Z; Offset : Z }.

(** [src/maas-api/internal/api_keys/types.go:57-61] PaginatedResult. *)
Record PaginatedResult : Type := mkPaginated {
  page_Keys : list ApiKey;
  page_HasMore : bool;
}.

(** [src/maas-api/internal/api_keys/types.go:74-103] SearchFilters. *)
Record SearchFilters : Type := mkFilters {
  f_Username : string;
  f_Status : list string;
  f_CreatedAfter : option string;
  f_CreatedBefore : option string;
  f_ExpiresAfter : option string;
  f_ExpiresBefore : option string;
  f_LastUsedAfter : option string;
  f_NameContains : option string;
  f_DescriptionContains : option string;
  f_HasExpiration : option bool;
  f_HasBeenUsed : option bool;
  f_Subscription : option string;
  f_IncludeEphemeral : option bool;
  f_LabelsContain : gmap string string;
}.

Definition no_filters : SearchFilters :=
  mkFilters "" [] None None None None None None None None None None None ∅.

(** [src/maas-api/internal/api_keys/types.go:105-109] SortParams. *)
Record SortParams : Type := mkSort { By : string; Order : string }.

(** [src/maas-api/internal/api_keys/types.go:67-72] SearchAPIKeysRequest. *)
Record SearchAPIKeysRequest : Type := mkSearchRequest {
  Filters : option SearchFilters;
  Sort : option SortParams;
  Pagination : option PaginationParams;
}.

(** [src/maas-api/internal/api_keys/types.go:111-119] DefaultSortBy. *)
Definition DefaultSortBy : string := "created_at".
(** [src/maas-api/internal/api_keys/types.go:114-114] DefaultSortOrder. *)
Definition DefaultSortOrder : string := "desc".
(** [src/maas-api/internal/api_keys/types.go:117-117] DefaultLimit. *)
Definition DefaultLimit : Z := 50.
(** [src/maas-api/internal/api_keys/types.go:118-118] MaxLimit. *)
Definition MaxLimit : Z := 100.

(** [src/maas-api/internal/api_keys/types.go:121-127] ValidSortFields. *)
Definition ValidSortFields : list string :=
  ["created_at"; "expires_at"; "last_used_at"; "name"].

(** [src/maas-api/internal/api_keys/types.go:129-133] ValidSortOrders. *)
Definition ValidSortOrders : list string := ["asc"; "desc"].

(** [src/maas-api/internal/api_keys/types.go:135-140] ValidStatuses. *)
Definition ValidStatuses : list string := ["active"; "revoked"; "expired"].

(** [src/maas-api/internal/api_keys/types.go:142-147] SearchAPIKeysResponse. *)
Record SearchAPIKeysResponse : Type := mkSearchResponse {
  Object : string;
  Data : list ApiKey;
  HasMore : bool;
}.

(** [src/maas-api/internal/api_keys/types.go:153-159] BulkRevokeRequest. *)
Record BulkRevokeRequest : Type := mkBulkRevoke {
  br_Username : string;
  br_Subscription : string;
  br_DryRun : bool;
}.

(** [src/maas-api/internal/api_keys/types.go:161-166] BulkRevokeResponse. *)
Record BulkRevokeResponse : Type := mkBulkResponse {
  RevokedCount : Z;
  br_Message : string;
  resp_DryRun : bool;
}.

(** The sentinel errors of the stores, and any other error by a description.
    [ErrTenantMismatch] carries the tenants its text quotes.
    [src/maas-api/internal/api_keys/store_interface.go:9-19] ErrKeyNotFound. *)
Inductive store_error : Type :=
  | ErrKeyNotFound
  | ErrInvalidKey
  | ErrEmptyJTI
  | ErrEmptyName
  | ErrStoreTenantMismatch (attempted scoped : string)
  | ErrStore (description : string).

#[global] Instance ApiKey_eq_dec : EqDecision ApiKey.
Proof. solve_decision. Defined.
#[global] Instance store_error_eq_dec : EqDecision store_error.
Proof. solve_decision. Defined.

End Keys.
