(* ===== verification/KeyStore.v ===== *)
(** The interface between the key service and its store:
    [MetadataStore] of [src/maas-api/internal/api_keys/store_interface.go] as a
    class of operations, an abstract view of what a store holds, the laws a
    store promises to the service, and histories of calls. *)
From S2P Require Import Prelude GoStrings GoTime Runtime ApiKeyTypes.
Import Keys.

Module Store.

(** The parameters of [AddKey], in its order.
    [src/maas-api/internal/api_keys/store_interface.go:42-53] AddKey. *)
Record add_params : Type := mkAdd {
  p_username : string;
  p_keyID : string;
  p_keyHash : string;
  p_name : string;
  p_description : string;
  p_userGroups : option (list string);
  p_subscription : string;
  p_tenant : string;
  p_expiresAt : option Z;
  p_ephemeral : bool;
  p_labels : option (gmap string string);
}.

(** [src/maas-api/internal/api_keys/store_interface.go:29-100] MetadataStore. *)
Class MetadataStore (S : Type) : Type := {
  AddKey : add_params → prog S (result store_error ());
  Search : string → string → SearchFilters → SortParams → PaginationParams →
    prog S (result store_error PaginatedResult);
  Get : string → prog S (result store_error ApiKey);
  GetByHash : string → prog S (result store_error ApiKey);
  BulkRevoke : string → string → string → bool →
    prog S (result store_error Z);
  InvalidateTenant : string → prog S (result store_error Z);
  Revoke : string → prog S (result store_error ());
  UpdateLastUsed : string → prog S (result store_error ());
  DeleteExpiredEphemeral : prog S (result store_error Z);
}.

(** ** What a store holds *)

Record view : Type := mkView {
  v_username : string;
  v_name : string;
  v_hash : string;
  v_groups : list string;
  v_subscription : string;
  v_tenant : string;
  v_expires : option Z;
  v_ephemeral : bool;
  v_status : Status;
}.

Definition set_status (s : Status) (v : view) : view :=
  mkView (v_username v) (v_name v) (v_hash v) (v_groups v) (v_subscription v)
    (v_tenant v) (v_expires v) (v_ephemeral v) s.

(** Expired at instant [t]. *)
Definition expired (v : view) (t : Z) : Prop :=
  ∃ e, v_expires v = Some e ∧ (e < t)%Z.

(** A key as its metadata tells it. *)
Definition describes (k : ApiKey) (v : view) : Prop :=
  k_Username k = v_username v ∧ k_Name k = v_name v ∧
  default [] (k_Groups k) = v_groups v ∧
  k_Subscription k = v_subscription v ∧ k_Tenant k = v_tenant v ∧
  k_Ephemeral k = v_ephemeral v ∧ k_Status k = v_status v.

(** The lifecycle of a key: everything but its status is fixed at creation,
    and the status leaves [active] at most once. *)
Definition lifecycle (v v' : view) : Prop :=
  v' = set_status (v_status v') v ∧
  (v_status v ≠ StatusActive → v_status v' = v_status v).

(** From one content to the next, old keys follow the lifecycle or are
    dropped, and dropped only if ephemeral. *)
Definition evolves (m m' : gmap string view) : Prop :=
  ∀ id v, m !! id = Some v →
    match m' !! id with
    | Some v' => lifecycle v v'
    | None => v_ephemeral v = true
    end.

(** No key appears. *)
Definition no_new (m m' : gmap string view) : Prop :=
  ∀ id, m !! id = None → m' !! id = None.

#[global] Instance lifecycle_preorder : PreOrder lifecycle.
Proof.
  split.
  - intros v. split; [by destruct v|done].
  - intros v1 v2 v3 [E1 H1] [E2 H2]. split.
    + destruct v1, v2, v3; unfold set_status in *; simpl in *. congruence.
    + intros Hn. rewrite <-(H1 Hn). apply H2. by rewrite (H1 Hn).
Qed.

Lemma evolves_refl m : evolves m m.
Proof. intros id v ->. done. Qed.

Lemma evolves_trans m1 m2 m3 :
  evolves m1 m2 → evolves m2 m3 → no_new m2 m3 → evolves m1 m3.
Proof.
  intros H1 H2 Hn id v Hv. specialize (H1 id v Hv).
  destruct (m2 !! id) as [v2|] eqn:E2.
  - specialize (H2 id v2 E2). destruct (m3 !! id) as [v3|]; [by etrans|].
    destruct H1 as [E _]. by rewrite E in H2.
  - by rewrite (Hn _ E2).
Qed.

(** ** The laws *)

(** What [AddKey] stores. *)
Definition added (round : Z → Z) (p : add_params) : view :=
  mkView (p_username p) (p_name p) (p_keyHash p) (default [] (p_userGroups p))
    (p_subscription p) (p_tenant p) (round <$> p_expiresAt p) (p_ephemeral p)
    StatusActive.

(** The only key of the store's tenants with this hash. *)
Definition sole_hash (in_scope : string → bool) (m : gmap string view)
    (id h : string) : Prop :=
  ∀ id' v', m !! id' = Some v' → in_scope (v_tenant v') = true →
    v_hash v' = h → id' = id.

(** One call of the interface, for histories of calls. *)
Inductive op : Type :=
  | OpAddKey (p : add_params)
  | OpSearch (u t : string) (f : SearchFilters) (s : SortParams)
      (p : PaginationParams)
  | OpGet (id : string)
  | OpGetByHash (h : string)
  | OpBulkRevoke (u s t : string) (dryRun : bool)
  | OpInvalidateTenant (t : string)
  | OpRevoke (id : string)
  | OpUpdateLastUsed (id : string)
  | OpDeleteExpiredEphemeral.

Definition void {S A} (m : prog S A) : prog S () := λ w, ((), (m w).2).

Definition run_op {T} `{MetadataStore T} (o : op) : prog T () :=
  match o with
  | OpAddKey p => void (AddKey p)
  | OpSearch u t f s p => void (Search u t f s p)
  | OpGet id => void (Get id)
  | OpGetByHash h => void (GetByHash h)
  | OpBulkRevoke u s t d => void (BulkRevoke u s t d)
  | OpInvalidateTenant t => void (InvalidateTenant t)
  | OpRevoke id => void (Revoke id)
  | OpUpdateLastUsed id => void (UpdateLastUsed id)
  | OpDeleteExpiredEphemeral => void DeleteExpiredEphemeral
  end.

Definition adds (o : op) : bool :=
  match o with OpAddKey _ => true | _ => false end.

(** The calls that leave every key as it was. *)
Definition reads (o : op) : bool :=
  match o with
  | OpSearch _ _ _ _ _ | OpGet _ | OpUpdateLastUsed _
  | OpBulkRevoke _ _ _ true => true
  | _ => false
  end.

(** A store serves the tenants of its scope, and rounds instants by no more
    than a microsecond. Any statement may fail with [ErrStore], and a failed
    write may still have taken effect. *)
Class StoreLaws (S : Type) `{Env, !MetadataStore S} : Type := {
  wf : S → Prop;
  keys : S → gmap string view;
  in_scope : string → bool;
  round : Z → Z;
  round_close t : (t - 1000 ≤ round t ≤ t + 1000)%Z;

  op_wf o (w : io S) : wf (state w) → wf (state (run_op o w).2);
  op_forward o : forward (run_op o);
  op_evolves o (w : io S) :
    wf (state w) → adds o = false →
    evolves (keys (state w)) (keys (state (run_op o w).2)) ∧
    no_new (keys (state w)) (keys (state (run_op o w).2));
  op_reads o (w : io S) :
    wf (state w) → reads o = true →
    keys (state (run_op o w).2) = keys (state w);
  (** Keys of other tenants are not touched. *)
  op_frame o (w : io S) id v :
    wf (state w) → keys (state w) !! id = Some v →
    in_scope (v_tenant v) = false → 
    keys (state (run_op o w).2) !! id = Some v;

  AddKey_Ok p (w w' : io S) :
    wf (state w) → AddKey p w = (Ok (), w') →
    keys (state w') = <[p_keyID p := added round p]> (keys (state w)) ∧
    p_keyID p ≠ "" ∧ p_subscription p ≠ "" ∧ in_scope (p_tenant p) = true;
  AddKey_any p (w : io S) :
    wf (state w) →
    keys (state (AddKey p w).2) = keys (state w) ∨
    keys (state (AddKey p w).2) =
      <[p_keyID p := added round p]> (keys (state w));

  GetByHash_Ok h k (w w' : io S) :
    wf (state w) → GetByHash h w = (Ok k, w') →
    keys (state w') = keys (state w) ∧
    ∃ v, keys (state w) !! k_ID k = Some v ∧ v_hash v = h ∧
      in_scope (v_tenant v) = true ∧ v_status v = StatusActive ∧
      describes k v ∧
      (v_expires v = None ∨
       ∃ n, ticks w ≤ n < ticks w' ∧ ¬ expired v (wall n));
  GetByHash_hit h id v r (w w' : io S) :
    wf (state w) → GetByHash h w = (r, w') →
    keys (state w) !! id = Some v → v_hash v = h →
    in_scope (v_tenant v) = true → v_status v = StatusActive →
    sole_hash in_scope (keys (state w)) id h →
    (∀ n, ticks w ≤ n < ticks w' → ¬ expired v (wall n)) →
    (∃ k, r = Ok k ∧ k_ID k = id) ∨ ∃ e, r = Err (ErrStore e);
  GetByHash_miss h (w w' : io S) :
    wf (state w) → GetByHash h w = (Err ErrKeyNotFound, w') →
    ∀ id v, keys (state w) !! id = Some v →
      in_scope (v_tenant v) = true → v_hash v ≠ h;

  Get_Ok id k (w w' : io S) :
    wf (state w) → Get id w = (Ok k, w') →
    ∃ v, keys (state w) !! id = Some v ∧ in_scope (v_tenant v) = true ∧
      k_ID k = id ∧ k_Username k = v_username v ∧ k_Tenant k = v_tenant v;
  Get_miss id (w w' : io S) :
    wf (state w) → Get id w = (Err ErrKeyNotFound, w') →
    ∀ v, keys (state w) !! id = Some v → in_scope (v_tenant v) = false;

  Revoke_Ok id (w w' : io S) :
    wf (state w) → Revoke id w = (Ok (), w') →
    ∃ v, keys (state w) !! id = Some v ∧ in_scope (v_tenant v) = true ∧
      v_status v = StatusActive ∧
      keys (state w') = <[id := set_status StatusRevoked v]> (keys (state w));
  Revoke_others id id' (w : io S) :
    wf (state w) → id' ≠ id →
    keys (state (Revoke id w).2) !! id' = keys (state w) !! id';
}.

(** ** Dead hashes *)

(** No key with this hash can validate: the invariant revocation leaves. *)
Definition dead_hash (m : gmap string view) (h : string) : Prop :=
  ∀ id v, m !! id = Some v → v_hash v = h → v_status v ≠ StatusActive.

Lemma dead_hash_evolves m m' h :
  evolves m m' → no_new m m' → dead_hash m h → dead_hash m' h.
Proof.
  intros He Hn Hd id v' Hv' Hh. destruct (m !! id) as [v|] eqn:Hv.
  - specialize (He id v Hv). rewrite Hv' in He. destruct He as [E Hs].
    assert (v_hash v = h) as Hvh by (by rewrite E in Hh).
    specialize (Hd id v Hv Hvh). by rewrite (Hs Hd).
  - by rewrite (Hn id Hv) in Hv'.
Qed.

Lemma dead_hash_insert m id v h :
  dead_hash m h → v_hash v ≠ h → dead_hash (<[id := v]> m) h.
Proof.
  intros Hd Hv id' v' [[<- <-]|[_ H]]%lookup_insert_Some Hh; [done|eauto].
Qed.

Lemma lifecycle_set_status v s :
  v_status v = StatusActive → lifecycle v (set_status s v).
Proof. by split; [|intros []]. Qed.

Lemma evolves_insert m id v s :
  m !! id = Some v → v_status v = StatusActive →
  evolves m (<[id := set_status s v]> m) ∧ no_new m (<[id := set_status s v]> m).
Proof.
  intros Hv Ha. split.
  - intros id' v' Hv'. destruct (decide (id' = id)) as [->|].
    + rewrite lookup_insert_eq. simplify_eq. by apply lifecycle_set_status.
    + by rewrite lookup_insert_ne, Hv'.
  - intros id' Hn. rewrite lookup_insert_ne; [done|congruence].
Qed.

End Store.

(** * Histories *)

Import Keys Store.

Definition run_ops {S} `{MetadataStore S} (os : list op) (w : io S) : io S :=
  foldl (λ w o, (run_op o w).2) w os.

(** The history does not create a key under this ID, or with this hash. *)
Definition does_not_add (f : add_params → bool) (os : list op) : Prop :=
  ∀ p, OpAddKey p ∈ os → f p = false.

Lemma does_not_add_none f os :
  forallb (λ o, negb (adds o)) os = true → does_not_add f os.
Proof. rewrite forallb_elem_of. intros Hall p Hp. by specialize (Hall _ Hp). Qed.

Section histories.
Context {S : Type} `{Env, MetadataStore S, !StoreLaws S}.

Lemma run_op_key o (w : io S) id :
  wf (state w) → (∀ p, o = OpAddKey p → p_keyID p ≠ id) →
  match keys (state w) !! id, keys (state (run_op o w).2) !! id with
  | Some v, Some v' => lifecycle v v'
  | Some v, None => v_ephemeral v = true
  | None, Some _ => False
  | None, None => True
  end.
Proof.
  intros Hwf Ho. destruct (adds o) eqn:Ea.
  - destruct o; try done. simpl. unfold void. simpl.
    destruct (AddKey_any p w Hwf) as [-> | ->].
    + by destruct (keys (state w) !! id).
    + rewrite lookup_insert_ne by by apply Ho.
      by destruct (keys (state w) !! id).
  - destruct (op_evolves o w Hwf Ea) as [He Hn].
    destruct (keys (state w) !! id) as [v|] eqn:Hv.
    + specialize (He id v Hv). by destruct (_ !! id).
    + by rewrite (Hn id Hv).
Qed.

Lemma run_ops_wf os (w : io S) : wf (state w) → wf (state (run_ops os w)).
Proof.
  revert w. induction os as [|o os IH]; intros w Hwf; [done|].
  apply IH. by apply op_wf.
Qed.

Lemma does_not_add_cons f o os :
  does_not_add f (o :: os) →
  (∀ p, o = OpAddKey p → f p = false) ∧ does_not_add f os.
Proof.
  intros Hd. split; [intros p ->|intros p Hp]; apply Hd; by constructor.
Qed.

Lemma run_ops_key os (w : io S) id :
  wf (state w) → does_not_add (λ p, p_keyID p == id) os →
  match keys (state w) !! id, keys (state (run_ops os w)) !! id with
  | Some v, Some v' => lifecycle v v'
  | Some v, None => v_ephemeral v = true
  | None, Some _ => False
  | None, None => True
  end.
Proof.
  revert w. induction os as [|o os IH]; intros w Hwf Hd; simpl.
  { by destruct (keys (state w) !! id). }
  apply does_not_add_cons in Hd as [Ho Hd].
  pose proof (run_op_key o w id Hwf) as H1.
  specialize (IH (run_op o w).2 ltac:(by apply op_wf) Hd).
  assert (∀ p, o = OpAddKey p → p_keyID p ≠ id) as Ho'.
  { intros p E. specialize (Ho p E). by apply bool_decide_eq_false in Ho. }
  specialize (H1 Ho').
  destruct (keys (state w) !! id) as [v|], (keys (state (run_op o w).2) !! id)
    as [v1|], (keys (state (run_ops os (run_op o w).2)) !! id) as [v2|];
    try done; [by etrans|].
  destruct H1 as [E _]. by rewrite E in IH.
Qed.

Lemma run_ops_dead os (w : io S) h :
  wf (state w) → does_not_add (λ p, p_keyHash p == h) os →
  dead_hash (keys (state w)) h → dead_hash (keys (state (run_ops os w))) h.
Proof.
  revert w. induction os as [|o os IH]; intros w Hwf Hd Hdead; [done|].
  apply does_not_add_cons in Hd as [Ho Hd]. apply IH; [by apply op_wf|done|].
  destruct (adds o) eqn:Ea.
  - destruct o; try done. simpl. unfold void. simpl.
    destruct (AddKey_any p w Hwf) as [-> | ->]; [done|].
    apply dead_hash_insert; [done|]. simpl.
    specialize (Ho p eq_refl). by apply bool_decide_eq_false in Ho.
  - destruct (op_evolves o w Hwf Ea). by eapply dead_hash_evolves.
Qed.

Lemma run_ops_frame os (w : io S) id v :
  wf (state w) → keys (state w) !! id = Some v →
  in_scope (v_tenant v) = false →
  keys (state (run_ops os w)) !! id = Some v.
Proof.
  revert w. induction os as [|o os IH]; intros w Hwf Hv Hs; [done|].
  apply IH; [by apply op_wf|by apply op_frame|done].
Qed.
End histories.
