(* ===== verification/PostgresStore.v ===== *)
(** The production store, [src/maas-api/internal/api_keys/store_postgres.go],
    on the table of [src/maas-api/db/schema]. Each SQL statement is a function
    on the table; what PostgreSQL and its driver decide (their clock, faults,
    rounding of timestamps, scan order, collation, session time zone, JSONB
    storage) is a parameter. *)
From S2P Require Import Prelude GoStrings Sorting GoTime Runtime ApiKeyTypes.
From S2P Require Import KeyStore.
Import Keys Store.

Module PG.

(** [src/maas-api/db/schema/0001_create_api_keys.up.sql:5-18] api_keys. *)
Record row : Type := mkRow {
  r_id : string;
  r_username : string;
  r_name : string;
  r_description : option string;
  r_key_hash : string;
  r_status : Status;
  r_user_groups : list string;
  r_created_at : Z;
  r_expires_at : option Z;
  r_last_used_at : option Z;
  r_ephemeral : bool;
  r_subscription : string;
  r_tenant : string;
  r_labels : option (gmap string string);
}.

#[global] Instance row_eq_dec : EqDecision row.
Proof. solve_decision. Defined.

(** The table, by its primary key. *)
Notation table := (gmap string row).

(** A statement that fails may have been executed, its answer lost. *)
Inductive fault : Type :=
  | NotExecuted (description : string)
  | Executed (description : string).

Class Database : Type := {
  (** [NOW()] in the n-th interaction, and whether that statement fails. *)
  db_now : nat → Z;
  db_fault : nat → option fault;
  (** A [time.Time] stored in a TIMESTAMPTZ and read back. *)
  pg_time : Z → Z;
  (** A string map marshalled, stored in JSONB, read back, unmarshalled. *)
  jsonb : gmap string string → gmap string string;
  (** The order rows are scanned in, the collation, and the session zone of
      the instants the driver returns. *)
  scan_order : nat → list row → list row;
  collate_lt : string → string → bool;
  session_zone : Z → Z;
}.

(** What PostgreSQL documents: microsecond timestamps, a scan of every row
    once, and a collation that orders. *)
Class LawfulDatabase `{Database} : Prop := {
  pg_time_close t : (t - 1000 ≤ pg_time t ≤ t + 1000)%Z;
  scan_order_perm n l : scan_order n l ≡ₚ l;
  collate_strict_weak :: StrictWeak collate_lt;
}.

(** [src/maas-api/internal/api_keys/store_postgres.go:20-26] PostgresStore. *)
Record PostgresStore : Type := NewPostgresStore { tenantName : string }.

(** ** Statements *)

Section statements.
Context `{Database}.

(** A statement that reads or writes the table at its tick. *)
Definition stmt {A} (f : nat → table → A * table)
    : prog table (result string A) :=
  n ← tick;
  t ← get;
  match db_fault n with
  | Some (NotExecuted e) => mret (Err e)
  | Some (Executed e) => put (f n t).2 ≫= λ _, mret (Err e)
  | None => put (f n t).2 ≫= λ _, mret (Ok (f n t).1)
  end.

Definition rows_where (p : row → bool) (n : nat) (t : table) : list row :=
  List.filter p (scan_order n ((map_to_list t).*2)).

Definition count_where (p : row → bool) (t : table) : Z :=
  Z.of_nat (size (filter (λ kr, p kr.2 = true) t)).

(** [SELECT g WHERE p]: [g] is what the select list, [ORDER BY] and [LIMIT]
    make of the rows. *)
Definition select {B} (p : nat → row → bool) (g : nat → list row → B)
    : prog table (result string B) :=
  stmt (λ n t, (g n (rows_where (p n) n t), t)).

(** [SELECT COUNT( * ) ... WHERE p]. *)
Definition select_count (p : nat → row → bool) : prog table (result string Z) :=
  stmt (λ n t, (count_where (p n) t, t)).

(** [UPDATE ... SET f WHERE p], with the number of rows affected. *)
Definition update (p : nat → row → bool) (f : row → row)
    : prog table (result string Z) :=
  stmt (λ n t, (count_where (p n) t, (λ r, if p n r then f r else r) <$> t)).

(** [DELETE ... WHERE p]. *)
Definition delete_where (p : nat → row → bool) : prog table (result string Z) :=
  stmt (λ n t, (count_where (p n) t, filter (λ kr, p n kr.2 = false) t)).

(** A row may be inserted when neither its primary key nor its
    [(key_hash, tenant)] is taken.
    [src/maas-api/db/schema/0005_add_tenant_key_hash_index.up.sql:11-12] idx_api_keys_key_hash_tenant. *)
Definition insertable (t : table) (r : row) : bool :=
  match t !! r_id r with
  | Some _ => false
  | None => negb (existsb (λ kr, (r_key_hash kr.2 == r_key_hash r) &&
                                 (r_tenant kr.2 == r_tenant r)) (map_to_list t))
  end.

(** [INSERT ...]: [false] reports the violated constraint. *)
Definition insert_row (r : row) : prog table (result string bool) :=
  stmt (λ _ t, if insertable t r then (true, <[r_id r := r]> t)
               else (false, t)).

(** [src/maas-api/internal/api_keys/store_postgres.go:587-587] InvalidateTenant. *)
Definition set_row_status (s : Status) (r : row) : row :=
  mkRow (r_id r) (r_username r) (r_name r) (r_description r) (r_key_hash r) s
    (r_user_groups r) (r_created_at r) (r_expires_at r) (r_last_used_at r)
    (r_ephemeral r) (r_subscription r) (r_tenant r) (r_labels r).

(** [src/maas-api/internal/api_keys/store_postgres.go:626-626] UpdateLastUsed. *)
Definition set_last_used (t : Z) (r : row) : row :=
  mkRow (r_id r) (r_username r) (r_name r) (r_description r) (r_key_hash r)
    (r_status r) (r_user_groups r) (r_created_at r) (r_expires_at r) (Some t)
    (r_ephemeral r) (r_subscription r) (r_tenant r) (r_labels r).

(** [expires_at IS NOT NULL AND expires_at < t]. *)
Definition expired_before (t : Z) (r : row) : bool :=
  match r_expires_at r with Some e => (e <? t)%Z | None => false end.

(** The [CASE] expression for the status a reader sees.
    [src/maas-api/internal/api_keys/store_postgres.go:262-264] Search. *)
Definition effective_status (n : nat) (r : row) : Status :=
  if (r_status r == StatusActive) && expired_before (db_now n) r
  then StatusExpired else r_status r.

End statements.

(** ** Operations *)

Section operations.
Context `{Env, Database}.

(** The row of [AddKey], [created] being the reading of the clock.
    [src/maas-api/internal/api_keys/store_postgres.go:76-103] AddKey. *)
Definition new_row (p : add_params) (created : Z) : row := {|
  r_id := p_keyID p;
  r_username := p_username p;
  r_name := p_name p;
  r_description := Some (p_description p);
  r_key_hash := p_keyHash p;
  r_status := StatusActive;
  r_user_groups := default [] (p_userGroups p);
  r_created_at := pg_time created;
  r_expires_at := pg_time <$> p_expiresAt p;
  r_last_used_at := None;
  r_ephemeral := p_ephemeral p;
  r_subscription := p_subscription p;
  r_tenant := p_tenant p;
  r_labels :=
    match p_labels p with
    | Some labels => if labels == ∅ then None else Some (jsonb labels)
    | None => None
    end;
|}.

(** [src/maas-api/internal/api_keys/store_postgres.go:42-110] AddKey. *)
Definition AddKey (s : PostgresStore) (p : add_params)
    : prog table (result store_error ()) :=
  if p_keyID p == "" then mret (Err ErrEmptyJTI)
  else if p_name p == "" then mret (Err ErrEmptyName)
  else if p_keyHash p == "" then mret (Err (ErrStore "key hash is required"))
  else if p_subscription p == "" then
    mret (Err (ErrStore "subscription is required"))
  else if p_ephemeral p && bool_decide (p_expiresAt p = None) then
    mret (Err (ErrStore "ephemeral keys must have an expiration time"))
  else if p_tenant p != tenantName s then
    mret (Err (ErrStore "tenant mismatch: attempted to create key"))
  else
    created ← now;
    r ← insert_row (new_row p created);
    match r with
    | Ok true => mret (Ok ())
    | Ok false => mret (Err (ErrStore "failed to insert API key: constraint"))
    | Err e => mret (Err (ErrStore ("failed to insert API key: " +:+ e)))
    end.

(** ** Reading rows *)

(** The metadata a row is turned into by [List], [Search] and [Get]: they
    differ in the status shown, in the columns selected, and in the time zone
    of the formatted instants. *)
Definition row_key (st : Status) (username : string) (zone : Z → Z)
    (labels : option (gmap string string)) (r : row) : ApiKey :=
  let fmt t := RFC3339 (zone t) t in {|
  k_ID := r_id r;
  k_Name := r_name r;
  k_Description := default "" (r_description r);
  k_Username := username;
  k_Subscription := r_subscription r;
  k_Tenant := r_tenant r;
  k_Groups := None;
  k_CreationDate := fmt (r_created_at r);
  k_ExpirationDate := default "" (fmt <$> r_expires_at r);
  k_Status := st;
  k_LastUsedAt := default "" (fmt <$> r_last_used_at r);
  k_Ephemeral := r_ephemeral r;
  k_Labels := labels;
|}.

(** [src/maas-api/internal/api_keys/store_postgres.go:187-202] List. *)
Definition list_key (r : row) : ApiKey :=
  row_key (r_status r) "" (λ _, UTC) None r.

(** [src/maas-api/internal/api_keys/store_postgres.go:354-394] Search. *)
Definition search_key (sr : Status * row) : ApiKey :=
  row_key sr.1 (r_username sr.2) session_zone (r_labels sr.2) sr.2.

(** [src/maas-api/internal/api_keys/store_postgres.go:431-457] Get. *)
Definition get_key (sr : Status * row) : ApiKey :=
  row_key sr.1 (r_username sr.2) (λ _, UTC) (r_labels sr.2) sr.2.

(** The rows with the status a reader sees, computed by the query. *)
Definition with_status (n : nat) (rows : list row) : list (Status * row) :=
  (λ r, (effective_status n r, r)) <$> rows.

(** [LIMIT limit+1 OFFSET offset], and the row too many cut off again.
    [src/maas-api/internal/api_keys/store_postgres.go:401-410] Search. *)
Definition paginate (limit : Z) (keys : list ApiKey) : PaginatedResult :=
  let hasMore := (limit <? Z.of_nat (length keys))%Z in
  mkPaginated (if hasMore then take (Z.to_nat limit) keys else keys) hasMore.

(** [src/maas-api/internal/api_keys/store_postgres.go:161-163] List. *)
Definition fetch (limit offset : Z) {A} (l : list A) : list A :=
  take (Z.to_nat (limit + 1)) (drop (Z.to_nat offset) l).

Definition page_error (p : PaginationParams) : option store_error :=
  if (Limit p <? 1)%Z || (MaxLimit <? Limit p)%Z then
    Some (ErrStore "limit must be between 1 and 100")
  else if (Offset p <? 0)%Z then
    Some (ErrStore "offset must be non-negative")
  else None.

(** [src/maas-api/internal/api_keys/store_postgres.go:127-159] List. *)
Definition list_where (s : PostgresStore) (username : string)
    (statuses : list string) (r : row) : bool :=
  (r_tenant r == tenantName s) && negb (r_ephemeral r) &&
  ((username == "") || (r_username r == username)) &&
  ((length statuses =? 0)%nat ||
   contains (TrimSpace <$> statuses) (Status_String (r_status r))).

(** [src/maas-api/internal/api_keys/store_postgres.go:112-220] List. *)
Definition List (s : PostgresStore) (username : string)
    (params : PaginationParams) (statuses : list string)
    : prog table (result store_error PaginatedResult) :=
  match page_error params with
  | Some e => mret (Err e)
  | None =>
      r ← select (λ _, list_where s username statuses)
            (λ _ rows, fetch (Limit params) (Offset params)
               (sort_stable (λ a b, (r_created_at b <? r_created_at a)%Z) rows));
      match r with
      | Err e => mret (Err (ErrStore ("failed to list keys: " +:+ e)))
      | Ok rows => mret (Ok (paginate (Limit params) (list_key <$> rows)))
      end
  end.

(** [src/maas-api/internal/api_keys/store_postgres.go:240-298] Search. *)
Definition search_where (s : PostgresStore) (username : string)
    (filters : SearchFilters) (n : nat) (r : row) : bool :=
  (r_tenant r == tenantName s) &&
  (default false (f_IncludeEphemeral filters) || negb (r_ephemeral r)) &&
  ((username == "") || (r_username r == username)) &&
  ((length (f_Status filters) =? 0)%nat ||
   contains (TrimSpace <$> f_Status filters)
     (Status_String (effective_status n r))) &&
  match f_Subscription filters with
  | Some sub => (sub == "") || (r_subscription r == TrimSpace sub)
  | None => true
  end &&
  ((f_LabelsContain filters == ∅) ||
   match r_labels r with
   | Some labels => bool_decide (jsonb (f_LabelsContain filters) ⊆ labels)
   | None => false
   end).

(** [NULLS LAST] in both directions. *)
Definition nullable_lt (asc : bool) (a b : option Z) : bool :=
  match a, b with
  | Some x, Some y => if asc then (x <? y)%Z else (y <? x)%Z
  | Some _, None => true
  | None, _ => false
  end.

(** [src/maas-api/internal/api_keys/store_postgres.go:300-321] Search. *)
Definition order_by (sort : SortParams) (a b : row) : bool :=
  let sortBy := if contains ValidSortFields (By sort) then By sort
                else DefaultSortBy in
  let sortOrder := if contains ValidSortOrders (ToLower (Order sort))
                   then ToLower (Order sort) else DefaultSortOrder in
  let asc := sortOrder == "asc" in
  if sortBy == "expires_at" then
    nullable_lt asc (r_expires_at a) (r_expires_at b)
  else if sortBy == "last_used_at" then
    nullable_lt asc (r_last_used_at a) (r_last_used_at b)
  else if sortBy == "name" then
    (if asc then collate_lt (r_name a) (r_name b)
     else collate_lt (r_name b) (r_name a))
  else if asc then (r_created_at a <? r_created_at b)%Z
  else (r_created_at b <? r_created_at a)%Z.

(** The tenant asked for is not used: the store's own is.
    [src/maas-api/internal/api_keys/store_postgres.go:222-411] Search. *)
Definition Search (s : PostgresStore) (username tenant : string)
    (filters : SearchFilters) (sort : SortParams)
    (pagination : PaginationParams)
    : prog table (result store_error PaginatedResult) :=
  match page_error pagination with
  | Some e => mret (Err e)
  | None =>
      r ← select (search_where s username filters)
            (λ n rows, with_status n
               (fetch (Limit pagination) (Offset pagination)
                  (sort_stable (order_by sort) rows)));
      match r with
      | Err e => mret (Err (ErrStore ("failed to search API keys: " +:+ e)))
      | Ok rows =>
          mret (Ok (paginate (Limit pagination) (search_key <$> rows)))
      end
  end.

(** ** Single keys *)

(** [src/maas-api/internal/api_keys/store_postgres.go:413-458] Get. *)
Definition Get (s : PostgresStore) (keyID : string)
    : prog table (result store_error ApiKey) :=
  r ← select (λ _ r, (r_id r == keyID) && (r_tenant r == tenantName s))
        with_status;
  match r with
  | Err e => mret (Err (ErrStore ("failed to get key: " +:+ e)))
  | Ok [] => mret (Err ErrKeyNotFound)
  | Ok (sr :: _) => mret (Ok (get_key sr))
  end.

(** The metadata of [GetByHash], with the groups and without the dates of
    creation and expiration.
    [src/maas-api/internal/api_keys/store_postgres.go:475-490] GetByHash. *)
Definition hash_key (r : row) : ApiKey := {|
  k_ID := r_id r;
  k_Name := r_name r;
  k_Description := default "" (r_description r);
  k_Username := r_username r;
  k_Subscription := r_subscription r;
  k_Tenant := r_tenant r;
  k_Groups := Some (r_user_groups r);
  k_CreationDate := "";
  k_ExpirationDate := "";
  k_Status := r_status r;
  k_LastUsedAt := default "" (RFC3339 UTC <$> r_last_used_at r);
  k_Ephemeral := r_ephemeral r;
  k_Labels := None;
|}.

(** [src/maas-api/internal/api_keys/store_postgres.go:606-606] Revoke. *)
Definition active_row (s : PostgresStore) (keyID : string) (r : row) : bool :=
  (r_id r == keyID) && (r_tenant r == tenantName s) &&
  (r_status r == StatusActive).

(** The key is looked up, the clock read, and an active key past its
    expiration marked so, before the status decides; a failing update is only
    logged.
    [src/maas-api/internal/api_keys/store_postgres.go:460-510] GetByHash. *)
Definition GetByHash (s : PostgresStore) (keyHash : string)
    : prog table (result store_error ApiKey) :=
  r ← select (λ _ r, (r_key_hash r == keyHash) && (r_tenant r == tenantName s))
        (λ _ rows, rows);
  match r with
  | Err e => mret (Err (ErrStore ("database lookup failed: " +:+ e)))
  | Ok [] => mret (Err ErrKeyNotFound)
  | Ok (r :: _) =>
      t ← match r_expires_at r with Some _ => now | None => mret 0%Z end;
      status ← (if expired_before t r && (r_status r == StatusActive) then
                  _ ← update (λ _, active_row s (r_id r))
                        (set_row_status StatusExpired);
                  mret StatusExpired
                else mret (r_status r));
      if (status == StatusRevoked) || (status == StatusExpired) then
        mret (Err ErrInvalidKey)
      else mret (Ok (hash_key r))
  end.

(** [src/maas-api/internal/api_keys/store_postgres.go:604-622] Revoke. *)
Definition Revoke (s : PostgresStore) (keyID : string)
    : prog table (result store_error ()) :=
  r ← update (λ _, active_row s keyID) (set_row_status StatusRevoked);
  match r with
  | Err e => mret (Err (ErrStore ("failed to revoke key: " +:+ e)))
  | Ok rows => if (rows =? 0)%Z then mret (Err ErrKeyNotFound) else mret (Ok ())
  end.

(** [src/maas-api/internal/api_keys/store_postgres.go:624-632] UpdateLastUsed. *)
Definition UpdateLastUsed (s : PostgresStore) (keyID : string)
    : prog table (result store_error ()) :=
  t ← now;
  r ← update (λ _ r, (r_id r == keyID) && (r_tenant r == tenantName s))
        (set_last_used (pg_time t));
  match r with
  | Err e => mret (Err (ErrStore ("failed to update last_used_at: " +:+ e)))
  | Ok _ => mret (Ok ())
  end.

(** ** Many keys *)

(** [src/maas-api/internal/api_keys/store_postgres.go:512-531] bulkRevokeWhereClause. *)
Definition bulk_where (s : PostgresStore) (username subscription : string)
    (n : nat) (r : row) : bool :=
  (r_tenant r == tenantName s) && (r_status r == StatusActive) &&
  match r_expires_at r with Some e => (db_now n <? e)%Z | None => true end &&
  ((username == "") || (r_username r == username)) &&
  ((subscription == "") || (r_subscription r == subscription)).

(** [src/maas-api/internal/api_keys/store_postgres.go:533-578] BulkRevoke. *)
Definition BulkRevoke (s : PostgresStore)
    (username subscription tenant : string) (dryRun : bool)
    : prog table (result store_error Z) :=
  if (username == "") && (subscription == "") then
    mret (Err (ErrStore "at least one of username or subscription is required"))
  else if tenant != tenantName s then
    mret (Err (ErrStoreTenantMismatch tenant (tenantName s)))
  else if dryRun then
    r ← select_count (bulk_where s username subscription);
    match r with
    | Err e => mret (Err (ErrStore ("dry-run count query failed: " +:+ e)))
    | Ok count => mret (Ok count)
    end
  else
    r ← update (bulk_where s username subscription)
          (set_row_status StatusRevoked);
    match r with
    | Err e => mret (Err (ErrStore ("failed to bulk revoke keys: " +:+ e)))
    | Ok count => mret (Ok count)
    end.

(** [src/maas-api/internal/api_keys/store_postgres.go:580-602] InvalidateTenant. *)
Definition InvalidateTenant (s : PostgresStore) (tenant : string)
    : prog table (result store_error Z) :=
  if tenant != tenantName s then
    mret (Err (ErrStoreTenantMismatch tenant (tenantName s)))
  else
    r ← update (λ _ r, (r_tenant r == tenantName s) &&
                       (r_status r == StatusActive))
          (set_row_status StatusRevoked);
    match r with
    | Err e => mret (Err (ErrStore ("failed to revoke tenant keys: " +:+ e)))
    | Ok count => mret (Ok count)
    end.

(** [src/maas-api/internal/api_keys/store_postgres.go:634-639] DeleteExpiredEphemeral. *)
Definition deletable (s : PostgresStore) (n : nat) (r : row) : bool :=
  (r_tenant r == tenantName s) && r_ephemeral r &&
  expired_before (db_now n - 30 * Minute) r.

(** [src/maas-api/internal/api_keys/store_postgres.go:634-656] DeleteExpiredEphemeral. *)
Definition DeleteExpiredEphemeral (s : PostgresStore)
    : prog table (result store_error Z) :=
  r ← delete_where (deletable s);
  match r with
  | Err e =>
      mret (Err (ErrStore ("failed to delete expired ephemeral keys: " +:+ e)))
  | Ok rows => mret (Ok rows)
  end.

(** [src/maas-api/internal/api_keys/store_postgres.go:28-29] PostgresStore. *)
Definition store (s : PostgresStore) : MetadataStore table := {|
  Store.AddKey := AddKey s;
  Store.Search := Search s;
  Store.Get := Get s;
  Store.GetByHash := GetByHash s;
  Store.BulkRevoke := BulkRevoke s;
  Store.InvalidateTenant := InvalidateTenant s;
  Store.Revoke := Revoke s;
  Store.UpdateLastUsed := UpdateLastUsed s;
  Store.DeleteExpiredEphemeral := DeleteExpiredEphemeral s;
|}.

End operations.
End PG.
