(* ===== verification/PostgresFacts.v ===== *)
(** The PostgreSQL store implements the store interface: every operation is one
    of four effects on the table, each of which keeps the schema's constraints
    and the lifecycle of keys. *)
From S2P Require Import Prelude GoStrings Sorting GoTime Runtime ApiKeyTypes.
From S2P Require Import KeyStore PostgresStore.
Import Keys Store PG.

Definition row_view (r : row) : view :=
  mkView (r_username r) (r_name r) (r_key_hash r) (r_user_groups r)
    (r_subscription r) (r_tenant r) (r_expires_at r) (r_ephemeral r)
    (r_status r).

Definition table_keys (t : table) : gmap string view := row_view <$> t.

(** The primary key and the unique index. *)
Definition well_keyed (t : table) : Prop :=
  ∀ id r, t !! id = Some r → r_id r = id.
Definition unique_hashes (t : table) : Prop :=
  ∀ id id' r r', t !! id = Some r → t !! id' = Some r' →
    r_key_hash r = r_key_hash r' → r_tenant r = r_tenant r' → id = id'.
Definition table_wf (t : table) : Prop := well_keyed t ∧ unique_hashes t.

Section facts.
Context `{Env, Database} (s : PostgresStore).

(** ** Effects *)

(** A row is due for cleanup at a statement of the interactions from [lo] on
    and before [hi]: an ephemeral row of the tenant that had expired more than
    thirty minutes before. *)
Definition due (lo hi : nat) (r : row) : Prop :=
  r_ephemeral r = true ∧ r_tenant r = tenantName s ∧
  ∃ n e, lo ≤ n < hi ∧ r_expires_at r = Some e ∧
    (e < db_now n - 30 * Minute)%Z.

(** A status an active row of the tenant may be given: revoked, or expired if
    the clock of the API says so. *)
Definition may_become (lo hi : nat) (st : Status) (r : row) : Prop :=
  r_status r = StatusActive ∧ r_tenant r = tenantName s ∧
  (st = StatusRevoked ∨
   st = StatusExpired ∧ ∃ n, lo ≤ n < hi ∧ expired_before (wall n) r = true).

Inductive effect (lo hi : nat) : table → table → Prop :=
  | eff_same t : effect lo hi t t
  | eff_mark (p : row → bool) st t :
      (∀ id r, t !! id = Some r → p r = true → may_become lo hi st r) →
      effect lo hi t ((λ r, if p r then set_row_status st r else r) <$> t)
  | eff_touch (p : row → bool) i t :
      (∀ r, p r = true → r_tenant r = tenantName s) →
      effect lo hi t ((λ r, if p r then set_last_used i r else r) <$> t)
  | eff_drop (p : row → bool) t :
      (∀ r, p r = true → due lo hi r) →
      effect lo hi t (filter (λ kr : string * row, p kr.2 = false) t).

Lemma lookup_keys t id v :
  table_keys t !! id = Some v ↔ ∃ r, t !! id = Some r ∧ v = row_view r.
Proof. unfold table_keys. rewrite lookup_fmap, fmap_Some. naive_solver. Qed.

Lemma lookup_keys_None t id : table_keys t !! id = None ↔ t !! id = None.
Proof. unfold table_keys. by rewrite lookup_fmap, fmap_None. Qed.

Lemma map_rows_wf (f : row → row) t :
  (∀ r, r_id (f r) = r_id r ∧ r_key_hash (f r) = r_key_hash r ∧
        r_tenant (f r) = r_tenant r) →
  table_wf t → table_wf (f <$> t).
Proof.
  intros Hf [Hk Hu]. split.
  - intros id r (r0 & <- & Hr)%lookup_fmap_Some. destruct (Hf r0) as [-> _]. eauto.
  - intros id id' r r' (r0 & <- & Hr)%lookup_fmap_Some (r1 & <- & Hr1)%lookup_fmap_Some.
    destruct (Hf r0) as (_ & -> & ->), (Hf r1) as (_ & -> & ->). eauto.
Qed.

Lemma effect_wf lo hi t t' : effect lo hi t t' → table_wf t → table_wf t'.
Proof.
  destruct 1; intros Hwf; [done| | |].
  - apply map_rows_wf; [|done]. intros r. by destruct (p r).
  - apply map_rows_wf; [|done]. intros r. by destruct (p r).
  - destruct Hwf as [Hk Hu]. split.
    + intros id r [Hr _]%map_lookup_filter_Some. eauto.
    + intros id id' r r' [Hr _]%map_lookup_filter_Some
        [Hr' _]%map_lookup_filter_Some. eauto.
Qed.

Lemma row_view_status st r :
  row_view (set_row_status st r) = set_status st (row_view r).
Proof. done. Qed.

Lemma touch_keys p i t :
  table_keys ((λ r, if p r : bool then set_last_used i r else r) <$> t) =
  table_keys t.
Proof.
  unfold table_keys. rewrite <-map_fmap_compose. apply map_fmap_ext.
  intros id r _. simpl. by destruct (p r).
Qed.

Lemma effect_evolves lo hi t t' :
  effect lo hi t t' →
  evolves (table_keys t) (table_keys t') ∧ no_new (table_keys t) (table_keys t').
Proof.
  destruct 1 as [t|p st t Hp|p i t Hp|p t Hp].
  - split; [apply evolves_refl|by intros id].
  - split.
    + intros id v (r & Hr & ->)%lookup_keys. unfold table_keys.
      rewrite !lookup_fmap, Hr. simpl. destruct (p r) eqn:E; [|by destruct r].
      by apply (lifecycle_set_status (row_view r)), (Hp id r).
    + intros id Hn%lookup_keys_None. apply lookup_keys_None.
      by rewrite lookup_fmap, Hn.
  - rewrite touch_keys. split; [apply evolves_refl|by intros id].
  - split.
    + intros id v (r & Hr & ->)%lookup_keys. unfold table_keys.
      rewrite lookup_fmap. destruct (p r) eqn:E.
      * rewrite map_lookup_filter_None_2; [by apply Hp|].
        right. intros r' Hr' E'. simplify_eq/=. congruence.
      * by rewrite (map_lookup_filter_Some_2 _ _ _ r).
    + intros id Hn%lookup_keys_None. apply lookup_keys_None.
      by apply map_lookup_filter_None_2; left.
Qed.

(** What a history may make of a row: it stays under its ID with everything
    but its last use and its status, and an active one may be given a final
    status; or it is gone, and was due. *)
Definition kept (lo hi : nat) (r r' : row) : Prop :=
  ∃ st, (st = r_status r ∨ may_become lo hi st r) ∧
    (r' = set_row_status st r ∨
     ∃ i, r_tenant r = tenantName s ∧
       r' = set_last_used i (set_row_status st r)).

Lemma kept_refl lo hi r : kept lo hi r r.
Proof. exists (r_status r). split; [by left|left]. by destruct r. Qed.

Lemma effect_row lo hi t t' id r :
  effect lo hi t t' → t !! id = Some r →
  match t' !! id with Some r' => kept lo hi r r' | None => due lo hi r end.
Proof.
  destruct 1 as [t|p st t Hp|p i t Hp|p t Hp]; intros Hr.
  - rewrite Hr. apply kept_refl.
  - rewrite lookup_fmap, Hr. simpl. destruct (p r) eqn:E; [|apply kept_refl].
    exists st. split; [right; by eapply Hp|by left].
  - rewrite lookup_fmap, Hr. simpl. destruct (p r) eqn:E; [|apply kept_refl].
    exists (r_status r). split; [by left|right]. exists i.
    split; [by apply Hp|by destruct r].
  - destruct (p r) eqn:E.
    + rewrite map_lookup_filter_None_2; [by apply Hp|].
      right. intros r' Hr' E'. simplify_eq/=. congruence.
    + rewrite (map_lookup_filter_Some_2 _ _ _ r) by done. apply kept_refl.
Qed.

(** ** Statements *)

Lemma stmt_run {A} (f : nat → table → A * table) w :
  ticks (stmt f w).2 = Datatypes.S (ticks w) ∧
  (((∃ e, (stmt f w).1 = Err e) ∧ state (stmt f w).2 = state w) ∨
   ((∃ e, (stmt f w).1 = Err e) ∧
    state (stmt f w).2 = (f (ticks w) (state w)).2) ∨
   ((stmt f w).1 = Ok (f (ticks w) (state w)).1 ∧
    state (stmt f w).2 = (f (ticks w) (state w)).2)).
Proof.
  unfold stmt, mbind, prog_bind, tick, get, put, mret, prog_ret. simpl.
  destruct (db_fault (ticks w)) as [[e|e]|]; simpl; eauto 10.
Qed.

Lemma select_run {B} p (g : nat → list row → B) w :
  ticks (select p g w).2 = Datatypes.S (ticks w) ∧
  state (select p g w).2 = state w ∧
  ((∃ e, (select p g w).1 = Err e) ∨
   (select p g w).1 =
   Ok (g (ticks w) (rows_where (p (ticks w)) (ticks w) (state w)))).
Proof.
  unfold select.
  destruct (stmt_run (λ n t, (g n (rows_where (p n) n t), t)) w)
    as (? & [[[e ?] ?]|[[[e ?] ?]|[? ?]]]); eauto 10.
Qed.

Lemma update_run p f w :
  ticks (update p f w).2 = Datatypes.S (ticks w) ∧
  (((∃ e, (update p f w).1 = Err e) ∧ state (update p f w).2 = state w) ∨
   ((∃ e, (update p f w).1 = Err e) ∨
    (update p f w).1 = Ok (count_where (p (ticks w)) (state w))) ∧
   state (update p f w).2 =
   (λ r, if p (ticks w) r then f r else r) <$> state w).
Proof.
  unfold update.
  destruct (stmt_run (λ n t, (count_where (p n) t,
     (λ r, if p n r then f r else r) <$> t)) w)
    as (? & [[[e ?] ?]|[[[e ?] ?]|[? ?]]]); eauto 10.
Qed.
(** ** Operations *)

Lemma update_mark lo hi p st w :
  (∀ id r, state w !! id = Some r → p (ticks w) r = true →
     may_become lo hi st r) →
  effect lo hi (state w) (state (update p (set_row_status st) w).2).
Proof.
  intros Hp. destruct (update_run p (set_row_status st) w) as (_ & [[_ ->]|[_ ->]]);
    [constructor|by apply eff_mark].
Qed.

Lemma update_touch lo hi p i w :
  (∀ r, p (ticks w) r = true → r_tenant r = tenantName s) →
  effect lo hi (state w) (state (update p (set_last_used i) w).2).
Proof.
  intros Hp. destruct (update_run p (set_last_used i) w) as (_ & [[_ ->]|[_ ->]]);
    [constructor|by apply eff_touch].
Qed.

Lemma revocable lo hi r :
  r_status r = StatusActive → r_tenant r = tenantName s →
  may_become lo hi StatusRevoked r.
Proof. intros. split_and!; [done..|by left]. Qed.

Lemma active_row_spec id r :
  active_row s id r = true ↔
  r_id r = id ∧ r_tenant r = tenantName s ∧ r_status r = StatusActive.
Proof.
  unfold active_row. rewrite !andb_true_iff, !bool_decide_eq_true. naive_solver.
Qed.

Lemma Search_run u t f so p w :
  state (PG.Search s u t f so p w).2 = state w.
Proof.
  unfold PG.Search. destruct (page_error p); [done|]. rewrite bind_run.
  match goal with |- context [select ?a ?b w] =>
    destruct (select_run a b w) as (_ & <- & _) end.
  by destruct (select _ _ w).1.
Qed.

Lemma Get_run id w : state (PG.Get s id w).2 = state w.
Proof.
  unfold PG.Get. rewrite bind_run.
  match goal with |- context [select ?a ?b w] =>
    destruct (select_run a b w) as (_ & <- & _) end.
  by destruct (select _ _ w).1 as [[|]|].
Qed.

Lemma Revoke_run id w :
  PG.Revoke s id w =
  (match (update (λ _, active_row s id) (set_row_status StatusRevoked) w).1 with
   | Err e => Err (ErrStore ("failed to revoke key: " +:+ e))
   | Ok rows => if (rows =? 0)%Z then Err ErrKeyNotFound else Ok ()
   end, (update (λ _, active_row s id) (set_row_status StatusRevoked) w).2).
Proof.
  unfold PG.Revoke. rewrite bind_run.
  destruct (update _ _ w) as [[n|e] w']; simpl; [by case_match|done].
Qed.

Lemma Revoke_effect lo hi id w :
  effect lo hi (state w) (state (PG.Revoke s id w).2).
Proof.
  rewrite Revoke_run. apply update_mark.
  intros _ r _ (? & ? & ?)%active_row_spec. by apply revocable.
Qed.

Lemma UpdateLastUsed_effect lo hi id w :
  effect lo hi (state w) (state (PG.UpdateLastUsed s id w).2).
Proof.
  unfold PG.UpdateLastUsed. rewrite bind_run, run_now, bind_run.
  match goal with |- context [update ?p (set_last_used ?i) ?x] =>
    pose proof (update_touch lo hi p i x) as He;
    destruct (update p (set_last_used i) x) as [[?|?] w'] end; apply He;
    intros r ?; by destruct_bools.
Qed.

Lemma bulk_where_spec u sub n r :
  bulk_where s u sub n r = true →
  r_status r = StatusActive ∧ r_tenant r = tenantName s.
Proof. unfold bulk_where. intros. by destruct_bools. Qed.

Lemma BulkRevoke_effect lo hi u sub t d w :
  effect lo hi (state w) (state (PG.BulkRevoke s u sub t d w).2).
Proof.
  unfold PG.BulkRevoke. repeat (case_match; [constructor|]).
  destruct d; rewrite bind_run.
  - unfold select_count.
    match goal with |- context [stmt ?f w] =>
      destruct (stmt_run f w) as (_ & Hs); destruct (stmt f w) as [[?|?] w'] end;
      simpl in *; destruct Hs as [[_ ->]|[[_ ->]|[_ ->]]]; constructor.
  - match goal with |- context [update ?p (set_row_status ?st) ?x] =>
      pose proof (update_mark lo hi p st x) as He;
      destruct (update p (set_row_status st) x) as [[?|?] w'] end; apply He;
      intros _ r _ [? ?]%bulk_where_spec; by apply revocable.
Qed.

Lemma InvalidateTenant_effect lo hi t w :
  effect lo hi (state w) (state (PG.InvalidateTenant s t w).2).
Proof.
  unfold PG.InvalidateTenant. case_match; [constructor|]. rewrite bind_run.
  match goal with |- context [update ?p (set_row_status ?st) ?x] =>
    pose proof (update_mark lo hi p st x) as He;
    destruct (update p (set_row_status st) x) as [[?|?] w'] end; apply He;
    intros _ r _ ?; apply revocable; by destruct_bools.
Qed.

Lemma deletable_spec n r :
  deletable s n r = true →
  r_ephemeral r = true ∧ r_tenant r = tenantName s ∧
  ∃ e, r_expires_at r = Some e ∧ (e < db_now n - 30 * Minute)%Z.
Proof.
  unfold deletable, expired_before. intros. destruct_bools.
  split_and!; [done..|]. destruct (r_expires_at r); [|done].
  eexists. split; [done|]. by apply Z.ltb_lt.
Qed.

Lemma DeleteExpiredEphemeral_effect w :
  effect (ticks w) (ticks (PG.DeleteExpiredEphemeral s w).2)
    (state w) (state (PG.DeleteExpiredEphemeral s w).2).
Proof.
  unfold PG.DeleteExpiredEphemeral, delete_where. rewrite bind_run.
  match goal with |- context [stmt ?f w] =>
    destruct (stmt_run f w) as (Ht & Hs); destruct (stmt f w) as [[?|?] w'] end;
    simpl in *; destruct Hs as [[_ ->]|[[_ ->]|[_ ->]]];
    (apply eff_same || apply eff_drop);
    intros r (? & ? & x & ? & ?)%deletable_spec; (split_and!; [done..|]);
    exists (ticks w), x; split_and!; done || lia.
Qed.

(** ** [AddKey] *)

Lemma insertable_spec t r :
  insertable t r = true ↔
  t !! r_id r = None ∧
  ∀ id r', t !! id = Some r' → r_tenant r' = r_tenant r →
    r_key_hash r' ≠ r_key_hash r.
Proof.
  unfold insertable. destruct (t !! r_id r) as [r0|].
  - split; [done|by intros [? _]].
  - rewrite negb_true_iff, existsb_not_elem_of. split.
    + intros Hall. split; [done|]. intros id r' Hr' Ht Hh.
      apply elem_of_map_to_list, Hall in Hr'. simpl in Hr'.
      by rewrite Ht, Hh, !bool_decide_eq_true_2 in Hr'.
    + intros [_ Hall] [id r'] Hin%elem_of_map_to_list. simpl.
      apply andb_false_iff. destruct (decide (r_tenant r' = r_tenant r)).
      * left. apply bool_decide_eq_false_2. eauto.
      * right. by apply bool_decide_eq_false_2.
Qed.

Lemma insert_wf t r :
  table_wf t → insertable t r = true → table_wf (<[r_id r := r]> t).
Proof.
  intros [Hk Hu] [Hn Hh]%insertable_spec. split.
  - intros id r' [[<- <-]|[_ ?]]%lookup_insert_Some; eauto.
  - intros id id' r1 r2 [[<- <-]|[_ H1]]%lookup_insert_Some
      [[<- <-]|[_ H2]]%lookup_insert_Some E Et; [done| | |by eauto].
    + by destruct (Hh id' r2).
    + by destruct (Hh id r1).
Qed.

(** What a storable key satisfies. *)
Definition storable (p : add_params) : Prop :=
  p_keyID p ≠ "" ∧ p_name p ≠ "" ∧ p_keyHash p ≠ "" ∧ p_subscription p ≠ "" ∧
  (p_ephemeral p = true → is_Some (p_expiresAt p)) ∧ p_tenant p = tenantName s.

(** Either the key is refused or reported failed and the table is as it was,
    or it is inserted; [Ok] is only answered in the latter case, at which the
    insertion violated nothing. *)
Lemma AddKey_cases p w :
  let row := new_row p (wall (ticks w)) in
  (state (PG.AddKey s p w).2 = state w ∧ (PG.AddKey s p w).1 ≠ Ok ()) ∨
  (storable p ∧ insertable (state w) row = true ∧
   state (PG.AddKey s p w).2 = <[p_keyID p := row]> (state w)).
Proof.
  unfold PG.AddKey, storable. simpl.
  repeat (case_bool_decide; simpl; [by left|]).
  destruct (p_ephemeral p && _) eqn:Heph; [by left|].
  destruct (decide (p_tenant p = tenantName s)) as [Ht|Ht];
    [rewrite bool_decide_eq_true_2 by done
    |rewrite bool_decide_eq_false_2 by done; by left].
  simpl. rewrite bind_run, run_now, bind_run. simpl.
  set (r := new_row p (wall (ticks w))). unfold insert_row.
  destruct (stmt_run (λ _ t, if insertable t r then (true, <[r_id r := r]> t)
    else (false, t)) (IO (Datatypes.S (ticks w)) (state w))) as (_ & Hs).
  destruct (stmt _ _) as [x w']; simpl in *.
  assert (p_ephemeral p = true → is_Some (p_expiresAt p)).
  { intros E. rewrite E in Heph. destruct (p_expiresAt p); [done|].
    by rewrite bool_decide_eq_true_2 in Heph. }
  destruct (insertable (state w) r); simpl in *.
  - destruct Hs as [[[e ->] Hs]|[[[e ->] Hs]|[-> Hs]]]; simpl;
      [by left|right; tauto..].
  - left. by destruct Hs as [[[e ->] Hs]|[[[e ->] Hs]|[-> Hs]]]; simpl.
Qed.

Lemma new_row_view p c : row_view (new_row p c) = added pg_time p.
Proof. done. Qed.

(** ** [GetByHash] *)

Definition matches_hash (h : string) (r : row) : bool :=
  (r_key_hash r == h) && (r_tenant r == tenantName s).

Lemma matches_hash_spec h r :
  matches_hash h r = true ↔ r_key_hash r = h ∧ r_tenant r = tenantName s.
Proof.
  unfold matches_hash. by rewrite andb_true_iff, !bool_decide_eq_true.
Qed.

(** ** The interface *)

Context `{!LawfulDatabase}.

Lemma elem_of_rows_where p n t r :
  r ∈ rows_where p n t ↔ (∃ id, t !! id = Some r) ∧ p r = true.
Proof.
  unfold rows_where. rewrite filter_bool_elem_of, scan_order_perm.
  rewrite list_elem_of_fmap. split.
  - intros [([id r'] & -> & Hin%elem_of_map_to_list) ?]. eauto.
  - intros [[id ?] ?]. split; [|done]. exists (id, r).
    by rewrite elem_of_map_to_list.
Qed.

(** ** [GetByHash], by what the query and the clock say *)

Lemma GetByHash_cases h w :
  let rows := rows_where (matches_hash h) (ticks w) (state w) in
  let '(x, w') := PG.GetByHash s h w in
  (well_keyed (state w) → effect (ticks w) (ticks w') (state w) (state w')) ∧ ticks w < ticks w' ∧
  ((∃ e, x = Err (ErrStore e)) ∨
   (rows = [] ∧ x = Err ErrKeyNotFound) ∨
   ∃ r rest, rows = r :: rest ∧
     ((x = Ok (hash_key r) ∧ r_status r = StatusActive ∧
       state w' = state w ∧
       (r_expires_at r = None ∨
        ∃ n, ticks w ≤ n < ticks w' ∧ expired_before (wall n) r = false)) ∨
      (x = Err ErrInvalidKey ∧
       (r_status r ≠ StatusActive ∨
        ∃ n, ticks w ≤ n < ticks w' ∧ expired_before (wall n) r = true)))).
Proof.
  unfold PG.GetByHash. rewrite bind_run.
  match goal with |- context [select ?a ?b w] =>
    destruct (select_run a b w) as (Ht & Hs & Hr) end.
  fold (matches_hash h) in *. destruct (select _ _ w) as [x w1]; simpl in *.
  destruct x as [rows|e].
  2:{ simpl. rewrite Hs. split; [by constructor|]. split; [lia|]. eauto. }
  destruct Hr as [[e ?]|[= Hr]]; [done|].
  assert (∀ st, (st == StatusRevoked) || (st == StatusExpired) =
                negb (st == StatusActive)) as Hst by by intros [].
  destruct rows as [|r rest].
  { simpl. rewrite Hs. split; [by constructor|]. split; [lia|]. eauto. }
  rewrite bind_run.
  destruct (r_expires_at r) as [e|] eqn:He.
  - rewrite run_now. simpl. unfold expired_before at 1. rewrite He.
    destruct (e <? wall (ticks w1))%Z eqn:Ee; simpl; rewrite bind_run.
    + assert (expired_before (wall (ticks w1)) r = true)
        by (unfold expired_before; by rewrite He).
      destruct (r_status r == StatusActive) eqn:Est; simpl.
      * rewrite bind_run. simpl.
        match goal with |- context [update ?p ?f ?x] =>
          pose proof (update_mark (ticks w) (ticks (update p f x).2) p
            StatusExpired x) as Hu;
          destruct (update_run p f x) as (Hut & _) end.
        simpl in Hut, Hu. rewrite Hs in *. split.
        { intros Hk. apply Hu. intros id r' Hr' (Hid & ? & ?)%active_row_spec.
          assert (r ∈ rows_where (matches_hash h) (ticks w) (state w)) as Hin
            by (rewrite <-Hr; by left).
          apply elem_of_rows_where in Hin as [[id0 Hr0] _].
          assert (id = id0) as -> by (rewrite <-(Hk _ _ Hr'), <-(Hk _ _ Hr0); done).
          simplify_eq. split_and!; [done..|]. right. split; [done|].
          exists (ticks w1). split; [lia|done]. }
        split; [lia|]. do 2 right. exists r, rest. split; [done|]. right.
        split; [done|]. right. exists (ticks w1). split; [lia|done].
      * rewrite Hst, Est. simpl. rewrite Hs. split; [by constructor|].
        split; [lia|]. do 2 right. exists r, rest. split; [done|]. right.
        split; [done|]. left. by apply bool_decide_eq_false in Est.
    + assert (expired_before (wall (ticks w1)) r = false)
        by (unfold expired_before; by rewrite He).
      destruct (r_status r == StatusActive) eqn:Est; simpl; rewrite Hst, Est; simpl; rewrite Hs;
        (split; [by constructor|]; split; [lia|]; do 2 right; exists r, rest; split; [done|]).
      * left. apply bool_decide_eq_true in Est. split_and!; [done..|].
        right. exists (ticks w1). split; [lia|done].
      * right. split; [done|]. left. by apply bool_decide_eq_false in Est.
  - unfold expired_before at 1. rewrite He. simpl. rewrite bind_run, Hst.
    destruct (r_status r == StatusActive) eqn:Est; simpl; rewrite ?Est; simpl; rewrite Hs;
      (split; [by constructor|]; split; [lia|]; do 2 right; exists r, rest; split; [done|]).
    + left. apply bool_decide_eq_true in Est. split_and!; by try left.
    + right. split; [done|]. left. by apply bool_decide_eq_false in Est.
Qed.
#[local] Instance pg : MetadataStore table := PG.store s.

Lemma run_op_effect o w :
  adds o = false → table_wf (state w) →
  effect (ticks w) (ticks (run_op o w).2) (state w) (state (run_op o w).2).
Proof.
  destruct o; intros [=] Hwf; simpl; unfold void; simpl.
  - rewrite Search_run. constructor.
  - rewrite Get_run. constructor.
  - pose proof (GetByHash_cases h w) as Hc.
    destruct (PG.GetByHash s h w). by apply Hc, Hwf.
  - apply BulkRevoke_effect.
  - apply InvalidateTenant_effect.
  - apply Revoke_effect.
  - apply UpdateLastUsed_effect.
  - apply DeleteExpiredEphemeral_effect.
Qed.

Lemma AddKey_wf p w :
  table_wf (state w) → table_wf (state (PG.AddKey s p w).2).
Proof.
  intros Hwf. destruct (AddKey_cases p w) as [[-> _]|(_ & Hi & ->)]; [done|].
  by apply (insert_wf _ (new_row p (wall (ticks w)))).
Qed.

Lemma forward_stmt {A} (f : nat → table → A * table) : forward (stmt f).
Proof. intros w. destruct (stmt_run f w) as [-> _]. lia. Qed.

Lemma forward_cases {A} (b : bool) (m1 m2 : prog table A) :
  forward m1 → forward m2 → forward (if b then m1 else m2).
Proof. by destruct b. Qed.

Lemma run_op_forward o : forward (run_op o).
Proof.
  assert (∀ A (m : prog table A), forward m → forward (void m)) as Hvoid
    by (intros A m Hm w; apply Hm).
  destruct o; simpl; apply Hvoid;
    try (intros w; pose proof (GetByHash_cases h w) as Hc; simpl;
         destruct (PG.GetByHash s h w); simpl in *; lia);
    unfold PG.AddKey, PG.Search, PG.Get, PG.BulkRevoke, PG.InvalidateTenant,
      PG.Revoke, PG.UpdateLastUsed, PG.DeleteExpiredEphemeral, now,
      insert_row, select, select_count, update, delete_where;
    repeat first
      [ apply forward_cases | apply forward_ret | apply forward_stmt
      | apply forward_tick | apply forward_bind; [|intros ?] | case_match ].
Qed.
Lemma run_op_reads o w :
  reads o = true →
  table_keys (state (run_op o w).2) = table_keys (state w).
Proof.
  destruct o as [| | | |u sub t d| | | |]; intros Hr; try done; simpl;
    unfold void; simpl.
  - by rewrite Search_run.
  - by rewrite Get_run.
  - destruct d; [|done]. unfold PG.BulkRevoke.
    repeat (case_match; [done|]). rewrite bind_run. unfold select_count.
    match goal with |- context [stmt ?f w] =>
      destruct (stmt_run f w) as (_ & Hs); destruct (stmt f w) as [[?|?] w'] end;
      simpl in *; by destruct Hs as [[_ ->]|[[_ ->]|[_ ->]]].
  - unfold PG.UpdateLastUsed. rewrite bind_run, run_now, bind_run.
    match goal with |- context [update ?p ?f ?x] =>
      destruct (update_run p f x) as (_ & Hs);
      destruct (update p f x) as [[?|?] w'] end;
      simpl in *; destruct Hs as [[_ ->]|[_ ->]]; try done; apply touch_keys.
Qed.

Lemma table_insert_keys (t : table) id r :
  table_keys (<[id := r]> t) = <[id := row_view r]> (table_keys t).
Proof. unfold table_keys. by rewrite fmap_insert. Qed.

Lemma AddKey_keys p w :
  table_keys (state (PG.AddKey s p w).2) = table_keys (state w) ∨
  table_keys (state (PG.AddKey s p w).2) =
    <[p_keyID p := added pg_time p]> (table_keys (state w)).
Proof.
  destruct (AddKey_cases p w) as [[-> _]|(_ & _ & ->)]; [by left|right].
  by rewrite table_insert_keys.
Qed.

(** A storable key that violates no constraint is what [Ok] means. *)
Lemma AddKey_Ok_cases p w w' :
  PG.AddKey s p w = (Ok (), w') →
  storable p ∧ insertable (state w) (new_row p (wall (ticks w))) = true ∧
  state w' = <[p_keyID p := new_row p (wall (ticks w))]> (state w).
Proof.
  intros E. pose proof (AddKey_cases p w) as Hc. rewrite E in Hc.
  destruct Hc as [[_ ?]|Hc]; [done|exact Hc].
Qed.

Lemma expired_row r t : ¬ expired (row_view r) t ↔ expired_before t r = false.
Proof.
  unfold expired, expired_before. simpl. destruct (r_expires_at r) as [e|].
  - rewrite Z.ltb_ge. split; [intros H'|intros ? (? & [= <-] & ?); lia].
    destruct (Z.le_gt_cases t e); [done|]. exfalso. eauto with lia.
  - naive_solver.
Qed.

(** One call of the interface, on the row under an ID. *)
Lemma run_op_row o w id r :
  table_wf (state w) → state w !! id = Some r →
  match state (run_op o w).2 !! id with
  | Some r' => kept (ticks w) (ticks (run_op o w).2) r r'
  | None => due (ticks w) (ticks (run_op o w).2) r
  end.
Proof.
  intros Hwf Hr. destruct (adds o) eqn:Ea.
  - destruct o; try done. simpl. unfold void. simpl.
    destruct (AddKey_cases p w) as [[-> _]|(_ & Hi & ->)];
      [rewrite Hr; apply kept_refl|].
    apply insertable_spec in Hi as [Hi _]. simpl in Hi.
    rewrite lookup_insert_ne by (intros <-; congruence).
    rewrite Hr. apply kept_refl.
  - eapply effect_row; [by apply run_op_effect|done].
Qed.

Lemma kept_other lo hi r r' :
  r_tenant r ≠ tenantName s → kept lo hi r r' → r' = r.
Proof.
  intros Ht (st & [->|(_ & ? & _)] & [->|(i & ? & _)]); try done. by destruct r.
Qed.

(** Rows of other tenants are not touched. *)
Lemma op_frame_table o w id r :
  table_wf (state w) → state w !! id = Some r → r_tenant r ≠ tenantName s →
  state (run_op o w).2 !! id = Some r.
Proof.
  intros Hwf Hr Ht. pose proof (run_op_row o w id r Hwf Hr) as Hrow.
  destruct (state (run_op o w).2 !! id) as [r'|]; [|by destruct Hrow as (_ & ? & _)].
  by rewrite (kept_other _ _ _ _ Ht Hrow).
Qed.

Lemma op_frame_row o w id v :
  table_wf (state w) → table_keys (state w) !! id = Some v →
  v_tenant v ≠ tenantName s →
  table_keys (state (run_op o w).2) !! id = Some v.
Proof.
  intros Hwf (r & Hr & ->)%lookup_keys Ht. apply lookup_keys. exists r.
  split; [by apply op_frame_table|done].
Qed.

(** Kept and due rows, along a history. *)
Lemma kept_mono lo hi lo' hi' r r' :
  lo' ≤ lo → hi ≤ hi' → kept lo hi r r' → kept lo' hi' r r'.
Proof.
  intros ? ? (st & Hst & H'). exists st. split; [|done].
  destruct Hst as [->|(? & ? & Hst)]; [by left|right]. split_and!; [done..|].
  destruct Hst as [->|(-> & n & ? & ?)]; [by left|right]. split; [done|].
  exists n. split; [lia|done].
Qed.

Lemma due_mono lo hi lo' hi' r :
  lo' ≤ lo → hi ≤ hi' → due lo hi r → due lo' hi' r.
Proof.
  intros ? ? (? & ? & n & e & ? & ?). split_and!; [done..|]. exists n, e.
  split; [lia|done].
Qed.

Lemma kept_trans lo hi r1 r2 r3 :
  kept lo hi r1 r2 → kept lo hi r2 r3 → kept lo hi r1 r3.
Proof.
  intros (st & Hst & Hk1) (st' & Hst' & Hk2).
  assert (r_status r2 = st ∧ r_tenant r2 = r_tenant r1 ∧
    r_expires_at r2 = r_expires_at r1) as (E1 & E2 & E3)
    by by destruct Hk1 as [->|(i & _ & ->)].
  exists st'. split.
  - destruct Hst' as [->|(Ha & Ht & Hs)]; [by rewrite E1|right].
    rewrite E1 in Ha. destruct Hst as [Hst|(_ & _ & [?|[? _]])]; [|congruence..].
    split_and!; [congruence|congruence|]. unfold expired_before in *.
    by rewrite E3 in Hs.
  - rewrite E2 in Hk2.
    destruct Hk1 as [->|(i & ? & ->)], Hk2 as [->|(i' & ? & ->)]; eauto.
Qed.

Lemma due_kept lo hi r r' : kept lo hi r r' → due lo hi r' → due lo hi r.
Proof.
  intros (st & _ & Hk1) (He & Ht & n & e & ? & Hx & ?).
  assert (r_ephemeral r' = r_ephemeral r ∧ r_tenant r' = r_tenant r ∧
    r_expires_at r' = r_expires_at r) as (E1 & E2 & E3)
    by by destruct Hk1 as [->|(i & _ & ->)].
  rewrite E1 in He. rewrite E2 in Ht. rewrite E3 in Hx.
  split_and!; [done..|]. exists n, e. done.
Qed.

Lemma hash_key_describes r :
  r_status r = StatusActive → describes (hash_key r) (row_view r).
Proof. done. Qed.

Lemma Revoke_keys id w w' :
  table_wf (state w) → PG.Revoke s id w = (Ok (), w') →
  ∃ v, table_keys (state w) !! id = Some v ∧ v_tenant v = tenantName s ∧
    v_status v = StatusActive ∧
    table_keys (state w') =
      <[id := set_status StatusRevoked v]> (table_keys (state w)).
Proof.
  intros [Hk _]. rewrite Revoke_run.
  destruct (update_run (λ _, active_row s id) (set_row_status StatusRevoked) w)
    as (_ & Hu). destruct (update _ _ w) as [x w1]. simpl in *.
  intros [= Hx <-]. destruct Hu as [[[e ->] _]|[[[e ->]| ->] Hs]]; [done..|].
  destruct (count_where _ _ =? 0)%Z eqn:E0; [done|].
  unfold count_where in E0. apply Z.eqb_neq in E0.
  destruct (map_choose (filter (λ kr : string * row, active_row s id kr.2 = true)
    (state w))) as (id' & r & [Hr Ha]%map_lookup_filter_Some).
  { intros E. rewrite E, map_size_empty in E0. done. }
  simpl in Ha. apply active_row_spec in Ha as (Hid & Ht & Hst).
  assert (id' = id) as -> by (rewrite <-Hid; symmetry; by apply Hk).
  exists (row_view r). split; [apply lookup_keys; eauto|].
  do 2 (split; [done|]). apply map_eq. intros id'. rewrite Hs.
  unfold table_keys. rewrite !lookup_fmap.
  destruct (decide (id' = id)) as [->|Hne].
  - rewrite Hr, lookup_insert_eq. simpl.
    assert (active_row s id r = true) as -> by by apply active_row_spec. done.
  - rewrite lookup_insert_ne, lookup_fmap by done.
    destruct (state w !! id') as [r'|] eqn:Hr'; [|done]. simpl.
    destruct (active_row s id r') eqn:E; [|done].
    apply active_row_spec in E as [E _]. apply Hk in Hr'. congruence.
Qed.

Lemma Revoke_frame id id' w :
  table_wf (state w) → id' ≠ id →
  table_keys (state (PG.Revoke s id w).2) !! id' = table_keys (state w) !! id'.
Proof.
  intros [Hk _] Hne. rewrite Revoke_run.
  destruct (update_run (λ _, active_row s id) (set_row_status StatusRevoked) w)
    as (_ & Hu). destruct (update _ _ w) as [x w1]. simpl in *.
  destruct Hu as [[_ ->]|[_ ->]]; [done|]. unfold table_keys.
  rewrite !lookup_fmap. destruct (state w !! id') as [r|] eqn:Hr; [|done].
  simpl. destruct (active_row s id r) eqn:E; [|done].
  apply active_row_spec in E as [E _]. apply Hk in Hr. congruence.
Qed.

Lemma Get_cases id w :
  let rows := rows_where (λ r, (r_id r == id) && (r_tenant r == tenantName s))
                (ticks w) (state w) in
  (∃ e, (PG.Get s id w).1 = Err (ErrStore e)) ∨
  (rows = [] ∧ (PG.Get s id w).1 = Err ErrKeyNotFound) ∨
  ∃ r rest, rows = r :: rest ∧
    (PG.Get s id w).1 = Ok (get_key (effective_status (ticks w) r, r)).
Proof.
  unfold PG.Get. rewrite bind_run.
  match goal with |- context [select ?a ?b w] =>
    destruct (select_run a b w) as (_ & _ & Hr);
    destruct (select a b w) as [x w1] end. simpl in *.
  destruct Hr as [[e ->]|[= ->]]; [simpl; eauto|].
  destruct (rows_where _ _ _) as [|r rest]; simpl; eauto 10.
Qed.

(** The PostgreSQL store keeps the promises of the interface, for its tenant. *)
#[local] Program Instance pg_laws : StoreLaws table := {|
  wf := table_wf;
  keys := table_keys;
  in_scope t := t == tenantName s;
  round := pg_time;
|}.
Next Obligation. apply pg_time_close. Qed.
Next Obligation.
  intros o w Hwf. destruct (adds o) eqn:E.
  - destruct o; try done. by apply AddKey_wf.
  - by eapply effect_wf; [apply run_op_effect|].
Qed.
Next Obligation. apply run_op_forward. Qed.
Next Obligation. intros. by eapply effect_evolves, run_op_effect. Qed.
Next Obligation. intros. by apply run_op_reads. Qed.
Next Obligation.
  intros o w id v Hwf Hv Ht%bool_decide_eq_false. by apply op_frame_row.
Qed.
Next Obligation.
  intros p w w' _ ((Hid & _ & _ & Hsub & _ & Ht) & _ & ->)%AddKey_Ok_cases.
  rewrite table_insert_keys. split_and!; [done..|]. by apply bool_decide_eq_true.
Qed.
Next Obligation. intros. apply AddKey_keys. Qed.
Next Obligation.
  intros h k w w' [Hk _] E. simpl in E. pose proof (GetByHash_cases h w) as Hc.
  rewrite E in Hc. destruct Hc as (_ & _ & [[? ?]|[[_ ?]|(r & rest & Hrows & Hc)]]);
    [done..|]. destruct Hc as [([= ->] & Hst & -> & Hexp)|[? _]]; [|done].
  split; [done|].
  assert (r ∈ rows_where (matches_hash h) (ticks w) (state w)) as Hr
    by (rewrite Hrows; left).
  apply elem_of_rows_where in Hr as [[id Hid] [Hh Ht]%matches_hash_spec].
  exists (row_view r). pose proof (Hk _ _ Hid) as <-.
  split; [apply lookup_keys; eauto|]. do 2 (split; [done || by apply bool_decide_eq_true|]).
  split; [done|]. split; [by apply hash_key_describes|].
  destruct Hexp as [?|(n & ? & ?)]; [by left|right].
  exists n. by rewrite expired_row.
Qed.
Next Obligation.
  intros h id v r w w' [Hk Hu] E (x & Hx & ->)%lookup_keys Hh
    Ht%bool_decide_eq_true Ha Hsole Hexp.
  simpl in E, Hh, Ht, Ha. pose proof (GetByHash_cases h w) as Hc. rewrite E in Hc.
  assert (x ∈ rows_where (matches_hash h) (ticks w) (state w)) as Hin.
  { apply elem_of_rows_where. rewrite matches_hash_spec. eauto. }
  destruct Hc as (_ & _ & [?|[[Hn _]|(y & rest & Hrows & Hc)]]);
    [by right|rewrite Hn in Hin; by apply elem_of_nil in Hin|left].
  assert (y = x) as ->.
  { assert (y ∈ rows_where (matches_hash h) (ticks w) (state w)) as Hy
      by (rewrite Hrows; left).
    apply elem_of_rows_where in Hy as [[id' Hid] [Hh' Ht']%matches_hash_spec].
    assert (id' = id) as -> by (eapply Hu; eauto; congruence). congruence. }
  destruct Hc as [(-> & _)|(_ & [?|(n & Hn & Hb)])]; [|done|].
  - eexists. split; [done|]. by apply Hk.
  - specialize (Hexp n Hn). apply expired_row in Hexp. congruence.
Qed.
Next Obligation.
  intros h w w' Hwf E id v (r & Hr & ->)%lookup_keys Ht%bool_decide_eq_true Hh.
  simpl in E, Hh, Ht. pose proof (GetByHash_cases h w) as Hc. rewrite E in Hc.
  assert (r ∈ rows_where (matches_hash h) (ticks w) (state w)) as Hin.
  { apply elem_of_rows_where. rewrite matches_hash_spec. eauto. }
  destruct Hc as (_ & _ & [[? ?]|[[Hn _]|(y & rest & _ & Hc)]]);
    [done|rewrite Hn in Hin; by apply elem_of_nil in Hin|].
  by destruct Hc as [(? & _)|(? & _)].
Qed.
Next Obligation.
  intros id k w w' [Hk _] E. simpl in E. destruct (Get_cases id w)
    as [[e He]|[[_ He]|(r & rest & Hrows & He)]]; rewrite E in He; simplify_eq/=.
  match type of Hrows with ?rows = _ => assert (r ∈ rows) as Hr
    by (rewrite Hrows; left) end.
  apply elem_of_rows_where in Hr as [[id' Hr] Hp]. destruct_bools.
  assert (id' = r_id r) as -> by (symmetry; by apply Hk).
  exists (row_view r). subst id. split; [apply lookup_keys; eauto|].
  split_and!; [by apply bool_decide_eq_true|done..].
Qed.
Next Obligation.
  intros id w w' [Hk _] E v (r & Hr & ->)%lookup_keys. simpl in E.
  destruct (Get_cases id w) as [[e He]|[[Hn _]|(r' & rest & _ & He)]];
    [by rewrite E in He| |by rewrite E in He].
  apply bool_decide_eq_false. intros Ht.
  match type of Hn with ?rows = _ => assert (r ∈ rows) as Hin end.
  { apply elem_of_rows_where. split; [eauto|].
    rewrite !bool_decide_eq_true_2; [done|done|]. by apply Hk. }
  rewrite Hn in Hin. by apply elem_of_nil in Hin.
Qed.
Next Obligation.
  intros id w w' Hwf E. destruct (Revoke_keys id w w' Hwf E) as (v & ? & ? & ? & ?).
  exists v. split_and!; [done|by apply bool_decide_eq_true|done..].
Qed.
Next Obligation. intros. by apply Revoke_frame. Qed.
End facts.

(** * Queries *)

Section queries.
Context `{Env, Database} (s : PostgresStore).

(** ** Counting and marking *)

Lemma update_Ok p f w n w' :
  update p f w = (Ok n, w') →
  n = count_where (p (ticks w)) (state w) ∧
  state w' = (λ r, if p (ticks w) r then f r else r) <$> state w.
Proof.
  intros E. destruct (update_run p f w) as (_ & Hu). rewrite E in Hu.
  destruct Hu as [[[e ?] _]|[[[e ?]|[= ?]] ?]]; naive_solver.
Qed.

Lemma select_count_Ok p w n w' :
  select_count p w = (Ok n, w') →
  n = count_where (p (ticks w)) (state w) ∧ state w' = state w.
Proof.
  unfold select_count. intros E.
  destruct (stmt_run (λ n t, (count_where (p n) t, t)) w) as (_ & Hu).
  rewrite E in Hu. destruct Hu as [[[e ?] _]|[[[e ?] ?]|[[= ?] ?]]]; naive_solver.
Qed.

Lemma BulkRevoke_Ok u sub t d w n w' :
  PG.BulkRevoke s u sub t d w = (Ok n, w') →
  (u ≠ "" ∨ sub ≠ "") ∧ t = tenantName s ∧
  n = count_where (bulk_where s u sub (ticks w)) (state w) ∧
  state w' = if d then state w else
    (λ r, if bulk_where s u sub (ticks w) r
          then set_row_status StatusRevoked r else r) <$> state w.
Proof.
  unfold PG.BulkRevoke. destruct ((u == "") && (sub == "")) eqn:Es; [done|].
  apply andb_false_iff in Es. rewrite !bool_decide_eq_false in Es.
  destruct (decide (t = tenantName s)) as [->|];
    [rewrite bool_decide_eq_true_2 by done|by rewrite bool_decide_eq_false_2].
  simpl. destruct d; rewrite bind_run.
  - destruct (select_count _ w) as [[k|e] w1] eqn:Eu; simpl; [|done].
    apply select_count_Ok in Eu as [-> <-]. intros [= <- <-]. tauto.
  - destruct (update _ _ w) as [[k|e] w1] eqn:Eu; simpl; [|done].
    apply update_Ok in Eu as [-> Eu]. intros [= <- <-]. tauto.
Qed.

(** The keys a bulk revocation is about: the store's tenant, active, not past
    their expiration by the database's clock, of that user and subscription
    where these are given. *)
Lemma bulk_where_iff u sub n r :
  bulk_where s u sub n r = true ↔
  r_tenant r = tenantName s ∧ r_status r = StatusActive ∧
  (∀ e, r_expires_at r = Some e → (db_now n < e)%Z) ∧
  (u ≠ "" → r_username r = u) ∧ (sub ≠ "" → r_subscription r = sub).
Proof.
  unfold bulk_where.
  rewrite !andb_true_iff, !orb_true_iff, !bool_decide_eq_true.
  destruct (r_expires_at r) as [e|].
  - rewrite Z.ltb_lt. split.
    + intros ((((? & ?) & ?) & Hu) & Hs). split_and!; try done.
      * by intros ? [= <-].
      * by destruct Hu.
      * by destruct Hs.
    + intros (? & ? & He & Hu & Hs). split_and!; try done; [by apply He| |].
      * destruct (decide (u = "")); auto.
      * destruct (decide (sub = "")); auto.
  - split.
    + intros ((((? & ?) & ?) & Hu) & Hs). split_and!; try done.
      * by destruct Hu.
      * by destruct Hs.
    + intros (? & ? & He & Hu & Hs). split_and!; try done.
      * destruct (decide (u = "")); auto.
      * destruct (decide (sub = "")); auto.
Qed.

(** The table after a bulk revocation, whatever its answer. *)
Lemma BulkRevoke_state u sub t d w :
  state (PG.BulkRevoke s u sub t d w).2 = state w ∨
  (d = false ∧ t = tenantName s ∧
   state (PG.BulkRevoke s u sub t d w).2 =
   (λ r, if bulk_where s u sub (ticks w) r
         then set_row_status StatusRevoked r else r) <$> state w).
Proof.
  unfold PG.BulkRevoke. destruct ((u == "") && (sub == "")); [by left|].
  destruct (decide (t = tenantName s)) as [->|];
    [rewrite bool_decide_eq_true_2 by done
    |rewrite bool_decide_eq_false_2 by done; by left].
  simpl. destruct d; rewrite bind_run.
  - left. unfold select_count.
    match goal with |- context [stmt ?f w] =>
      destruct (stmt_run f w) as (_ & Hs); destruct (stmt f w) as [[?|?] w'] end;
      simpl in *; by destruct Hs as [[_ ->]|[[_ ->]|[_ ->]]].
  - match goal with |- context [update ?p ?f ?x] =>
      destruct (update_run p f x) as (_ & Hs);
      destruct (update p f x) as [[?|?] w'] end;
      simpl in *; destruct Hs as [[_ ->]|[_ ->]]; auto.
Qed.

(** A revocation of a whole tenant that succeeds leaves none of its keys
    active. *)
Lemma InvalidateTenant_Ok t w n w' :
  PG.InvalidateTenant s t w = (Ok n, w') →
  let p r := (r_tenant r == tenantName s) && (r_status r == StatusActive) in
  t = tenantName s ∧ n = count_where p (state w) ∧
  state w' = (λ r, if p r then set_row_status StatusRevoked r else r) <$> state w.
Proof.
  unfold PG.InvalidateTenant.
  destruct (decide (t = tenantName s)) as [->|];
    [rewrite bool_decide_eq_true_2 by done|by rewrite bool_decide_eq_false_2].
  simpl. rewrite bind_run.
  destruct (update _ _ w) as [[k|e] w1] eqn:Eu; simpl; [|done].
  apply update_Ok in Eu as [-> Eu]. by intros [= <- <-].
Qed.

(** ** Searching *)

Context `{!LawfulDatabase}.

#[global] Instance Z_ltb_strict_weak : StrictWeak Z.ltb.
Proof. split; intros; rewrite ?Z.ltb_lt, ?Z.ltb_ge in *; lia. Qed.

#[global] Instance flip_strict_weak {A} (less : A → A → bool) :
  StrictWeak less → StrictWeak (λ x y, less y x).
Proof.
  intros ?. split; intros; [by apply sw_asym|by eapply sw_neg_trans].
Qed.

#[global] Instance nullable_lt_strict_weak asc : StrictWeak (nullable_lt asc).
Proof.
  split; destruct asc; intros [x|] [y|]; simpl; try done;
    try (intros [z|]; simpl; try done);
    rewrite ?Z.ltb_lt, ?Z.ltb_ge; lia.
Qed.

#[global] Instance order_by_strict_weak so : StrictWeak (order_by so).
Proof.
  assert (∀ (K : Type) (f : row → K) lt, StrictWeak lt →
    StrictWeak (λ a b, lt (f a) (f b))) as Hby by (intros; by apply strict_weak_by).
  unfold order_by.
  set (sortBy := if contains ValidSortFields _ then _ else _).
  set (asc := _ == "asc").
  destruct (sortBy == "expires_at"); [apply (Hby _ r_expires_at), _|].
  destruct (sortBy == "last_used_at"); [apply (Hby _ r_last_used_at), _|].
  destruct (sortBy == "name"), asc.
  - apply (Hby _ r_name), _.
  - apply (Hby _ r_name (λ x y, collate_lt y x)), _.
  - apply (Hby _ r_created_at), _.
  - apply (Hby _ r_created_at (λ x y, (y <? x)%Z)), _.
Qed.

Lemma search_where_iff u f n r :
  search_where s u f n r = true →
  r_tenant r = tenantName s ∧ (u ≠ "" → r_username r = u) ∧
  (f_IncludeEphemeral f ≠ Some true → r_ephemeral r = false) ∧
  (f_Status f ≠ [] → Status_String (effective_status n r) ∈ TrimSpace <$> f_Status f) ∧
  (∀ sub, f_Subscription f = Some sub → sub ≠ "" →
     r_subscription r = TrimSpace sub) ∧
  (f_LabelsContain f ≠ ∅ →
     ∃ m, r_labels r = Some m ∧ jsonb (f_LabelsContain f) ⊆ m).
Proof.
  unfold search_where. rewrite !andb_true_iff, !orb_true_iff, !bool_decide_eq_true.
  intros (((((Ht & He) & Hu) & Hst) & Hsub) & Hl). split_and!; try done.
  - by destruct Hu.
  - intros Hne. destruct He as [He|He%negb_true_iff]; [|done].
    by destruct (f_IncludeEphemeral f) as [[]|].
  - intros Hne. destruct Hst as [Hst|Hst].
    + apply Nat.eqb_eq, nil_length_inv in Hst. done.
    + by apply contains_true.
  - intros sub Es Hne. rewrite Es in Hsub.
    by apply orb_true_iff in Hsub as [?%bool_decide_eq_true|?%bool_decide_eq_true].
  - intros Hne. destruct Hl as [Hl|Hl]; [done|].
    destruct (r_labels r) as [m|]; [|done]. apply bool_decide_eq_true in Hl. eauto.
Qed.

Lemma Search_Ok u t f so p w res w' :
  PG.Search s u t f so p w = (Ok res, w') →
  page_error p = None ∧
  res = paginate (Limit p) (search_key <$> with_status (ticks w)
    (fetch (Limit p) (Offset p) (sort_stable (order_by so)
      (rows_where (search_where s u f (ticks w)) (ticks w) (state w))))).
Proof.
  unfold PG.Search. destruct (page_error p); [done|]. rewrite bind_run.
  match goal with |- context [select ?a ?b w] =>
    destruct (select_run a b w) as (_ & _ & Hr);
    destruct (select a b w) as [[?|?] w1] end; simpl; [|done].
  destruct Hr as [[e ?]|[= ->]]; [done|]. by intros [= <- <-].
Qed.

Lemma page_error_None p :
  page_error p = None → (1 ≤ Limit p ≤ 100)%Z ∧ (0 ≤ Offset p)%Z.
Proof.
  unfold page_error, MaxLimit. destruct (_ || _) eqn:E; [done|].
  apply orb_false_iff in E as [E1%Z.ltb_ge E2%Z.ltb_ge].
  destruct (Z.ltb_spec (Offset p) 0); [done|]. lia.
Qed.

Lemma paginate_fetch (g : row → ApiKey) limit offset (l : list row) :
  (1 ≤ limit)%Z →
  paginate limit (g <$> fetch limit offset l) =
  mkPaginated (g <$> take (Z.to_nat limit) (drop (Z.to_nat offset) l))
    (Z.to_nat offset + Z.to_nat limit <? length l)%nat.
Proof.
  intros Hl. unfold paginate, fetch. set (d := drop (Z.to_nat offset) l).
  assert (length d = length l - Z.to_nat offset) as Hd by apply length_drop.
  rewrite length_fmap, length_take.
  destruct (Z.ltb_spec limit (Z.of_nat (Z.to_nat (limit + 1) `min` length d)));
    f_equal.
  - rewrite <-fmap_take, take_take. f_equal. f_equal. lia.
  - symmetry. apply Nat.ltb_lt. lia.
  - f_equal. rewrite !take_ge by lia. done.
  - symmetry. apply Nat.ltb_ge. lia.
Qed.

(** The keys a successful search answers. *)
Lemma Search_Ok_keys u t f so p w res w' k :
  PG.Search s u t f so p w = (Ok res, w') → k ∈ page_Keys res →
  k_Tenant k = tenantName s ∧ (u ≠ "" → k_Username k = u).
Proof.
  intros [[Hlim Hoff]%page_error_None ->]%Search_Ok.
  unfold with_status. rewrite <-list_fmap_compose, paginate_fetch by lia. simpl.
  intros (r & -> & Hr)%list_elem_of_fmap. simpl.
  apply subseteq_take, subseteq_drop, elem_of_sort_stable, elem_of_rows_where in Hr
    as [_ (? & ? & _)%search_where_iff]. done.
Qed.

Lemma Search_Ok_length u t f so p w res w' :
  PG.Search s u t f so p w = (Ok res, w') →
  (Z.of_nat (length (page_Keys res)) ≤ Limit p)%Z.
Proof.
  intros [[Hlim Hoff]%page_error_None ->]%Search_Ok.
  unfold with_status. rewrite <-list_fmap_compose, paginate_fetch by lia. simpl.
  rewrite length_fmap, length_take. lia.
Qed.
End queries.
