(* ===== verification/KeyService.v ===== *)
(** The key service, [src/maas-api/internal/api_keys/service.go], over any
    store and any subscription selector. *)
From S2P Require Import Prelude GoStrings Unstructured GoTime Runtime.
From S2P Require Import SubscriptionTypes Selector KeyGen ApiKeyTypes KeyStore.
From stdpp Require Import pretty.
Import Keys KeyGen.

Module Service.

(** The part of the configuration the service reads. *)
Record Config : Type := mkConfig {
  TenantName : string;
  APIKeyMaxExpirationDays : Z;
  LastUsedDebounceSecs : Z;
}.

(** [src/maas-api/internal/api_keys/service.go:31-35] SubscriptionSelector. *)
Record SubscriptionSelector : Type := mkSelector {
  Select : list string → string → string → string →
    result Sub.select_error Sub.SelectResponse;
  SelectHighestPriority : list string → string →
    result Sub.select_error Sub.SelectResponse;
}.

(** The selector the server wires in. *)
Definition cluster_selector `{ApiMachinery} (s : Selector.Selector)
    : SubscriptionSelector :=
  mkSelector (Selector.Select s) (Selector.SelectHighestPriority s).

(** The immutable part of the service; its state is [svc] below.
    [src/maas-api/internal/api_keys/service.go:37-48] Service. *)
Record Service : Type := mkService {
  config : option Config;
  subSelector : SubscriptionSelector;
  lastUsedDebounceTTL : Z;
}.

(** The store's state, the debounce map (key ID to the instant of the last
    reservation), and the goroutines started and not yet run, each with the key
    and the slot it reserved. *)
Record svc (S : Type) : Type := mkSvc {
  st : S;
  lastUsedDebounce : gmap string Z;
  goroutines : list (string * Z);
}.
Arguments mkSvc {_} _ _ _.
Arguments st {_} _.
Arguments lastUsedDebounce {_} _.
Arguments goroutines {_} _.

(** Service errors, with the wrapped error where callers look for it. *)
Inductive service_error : Type :=
  | InvalidGroupName (group : string)
  | ErrExpirationNotPositive
  | ErrExpirationExceedsMax (message : string)
  | KeyGenerationFailed (e : string)
  | SelectionFailed (e : Sub.select_error)
  | StoreFailed (e : store_error)
  | ScopeRequired
  | ErrTenantRequired
  | ErrTenantMismatch (requested configured : string)
  | InvalidKeyID (id : string).

#[global] Instance service_error_eq_dec : EqDecision service_error.
Proof. solve_decision. Defined.

(** ** Configuration *)

(** [src/maas-api/internal/constant/const.go:24-24] DefaultAPIKeyMaxExpirationDays. *)
Definition DefaultAPIKeyMaxExpirationDays : Z := 90.
(** [src/maas-api/internal/constant/const.go:27-27] DefaultEphemeralKeyMaxExpiration. *)
Definition DefaultEphemeralKeyMaxExpiration : Z := Hour.

(** [src/maas-api/internal/api_keys/service.go:50-55] GetTenantName. *)
Definition GetTenantName (s : Service) : string :=
  match config s with Some c => TenantName c | None => "" end.

(** [src/maas-api/internal/api_keys/service.go:57-62] GetMaxExpirationDays. *)
Definition GetMaxExpirationDays (s : Service) : Z :=
  match config s with
  | Some c => if (0 <? APIKeyMaxExpirationDays c)%Z
              then APIKeyMaxExpirationDays c else DefaultAPIKeyMaxExpirationDays
  | None => DefaultAPIKeyMaxExpirationDays
  end.

(** [src/maas-api/internal/api_keys/service.go:64-86] NewServiceWithLogger. *)
Definition NewService (cfg : option Config) (sub : SubscriptionSelector)
    : Service :=
  let debounceTTL :=
    match cfg with
    | Some c => if (0 <=? LastUsedDebounceSecs c)%Z
                then dur_mul (LastUsedDebounceSecs c) Second
                else (60 * Second)%Z
    | None => (60 * Second)%Z
    end in
  mkService cfg sub debounceTTL.

(** The regular limit, with the two wrapping multiplications.
    [src/maas-api/internal/api_keys/service.go:123-125] CreateAPIKey. *)
Definition maxRegularDuration (s : Service) : Z :=
  dur_mul (dur_mul (GetMaxExpirationDays s) 24) Hour.

(** [src/maas-api/internal/api_keys/service.go:88-100] CreateAPIKeyResponse. *)
Record CreateAPIKeyResponse : Type := mkCreated {
  Key : string;
  KeyPrefix : string;
  ID : string;
  Name : string;
  Subscription : string;
  CreatedAt : string;
  ExpiresAt : option string;
  Ephemeral : bool;
  Labels : option (gmap string string);
}.

Definition group_byte (c : ascii) : bool :=
  base62_byte c || contains [":"; "."; "_"; "-"]%char c.

(** [^[a-zA-Z0-9:._-]+$].
    [src/maas-api/internal/api_keys/service.go:20-24] validGroupNamePattern. *)
Definition validGroupName (s : string) : bool :=
  (s != "") && all_bytes group_byte s.

(** The duration of a key: the default for none given, and the limits.
    [src/maas-api/internal/api_keys/service.go:127-151] CreateAPIKey. *)
Definition effective_expiry (s : Service) (expiresIn : option Z)
    (ephemeral : bool) : result service_error Z :=
  let d := match expiresIn with
           | Some d => d
           | None => if ephemeral then DefaultEphemeralKeyMaxExpiration
                     else maxRegularDuration s
           end in
  if (d <=? 0)%Z then Err ErrExpirationNotPositive
  else if ephemeral then
    if (DefaultEphemeralKeyMaxExpiration <? d)%Z then
      Err (ErrExpirationExceedsMax
        ("ephemeral key expiration (" +:+ dur_String d +:+ ") cannot exceed "
         +:+ dur_String DefaultEphemeralKeyMaxExpiration
         +:+ ": expiration exceeds maximum allowed"))
    else Ok d
  else if (maxRegularDuration s <? d)%Z then
    Err (ErrExpirationExceedsMax
      ("requested expiration (" +:+ dur_String d
       +:+ ") exceeds maximum allowed (" +:+ pretty (GetMaxExpirationDays s)
       +:+ " days): expiration exceeds maximum allowed"))
  else Ok d.

(** [src/maas-api/internal/api_keys/service.go:165-181] CreateAPIKey. *)
Definition bind_subscription (s : Service) (userGroups : list string)
    (username requestedSubscription : string)
    : result Sub.select_error Sub.SelectResponse :=
  if requestedSubscription != "" then
    Select (subSelector s) userGroups username requestedSubscription ""
  else SelectHighestPriority (subSelector s) userGroups username.

(** ** Debouncing: the atomic operations of [sync.Map] *)

(** The value present, or the one stored when there was none. *)
Definition LoadOrStore (m : gmap string Z) (k : string) (v : Z)
    : option Z * gmap string Z :=
  match m !! k with Some a => (Some a, m) | None => (None, <[k := v]> m) end.

Definition CompareAndSwap (m : gmap string Z) (k : string) (old new : Z)
    : bool * gmap string Z :=
  if m !! k == Some old then (true, <[k := new]> m) else (false, m).

Definition CompareAndDelete (m : gmap string Z) (k : string) (old : Z)
    : gmap string Z :=
  if m !! k == Some old then delete k m else m.

Section service.
Context {S : Type} `{Env, Store.MetadataStore S}.

(** Running a store operation inside the service. *)
Definition in_store {A} (m : prog S A) : prog (svc S) A :=
  zoom st (λ t w, mkSvc t (lastUsedDebounce w) (goroutines w)) m.

Definition on_debounce {A} (f : gmap string Z → A * gmap string Z)
    : prog (svc S) A :=
  w ← get;
  let '(x, m) := f (lastUsedDebounce w) in
  _ ← put (mkSvc (st w) m (goroutines w));
  mret x.

(** [src/maas-api/internal/api_keys/service.go:404-432] shouldUpdateLastUsed. *)
Definition shouldUpdateLastUsed (s : Service) (keyID : string)
    : prog (svc S) (bool * Z) :=
  if (lastUsedDebounceTTL s =? 0)%Z then mret (true, zero_time)
  else
    t ← now;
    loaded ← on_debounce (λ m, LoadOrStore m keyID t);
    match loaded with
    | None => mret (true, t)
    | Some lastTime =>
        if (lastUsedDebounceTTL s <=? time_sub t lastTime)%Z then
          swapped ← on_debounce (λ m, CompareAndSwap m keyID lastTime t);
          mret (if swapped : bool then (true, t) else (false, zero_time))
        else mret (false, zero_time)
    end.

(** [src/maas-api/internal/api_keys/service.go:434-444] clearDebounceSlot. *)
Definition clearDebounceSlot (s : Service) (keyID : string) (slotTime : Z)
    : prog (svc S) () :=
  if (lastUsedDebounceTTL s =? 0)%Z then mret ()
  else on_debounce (λ m, ((), CompareAndDelete m keyID slotTime)).

(** The cleanup goroutine's sweep, run with nothing in between.
    [src/maas-api/internal/api_keys/service.go:391-398] StartDebounceCleanup. *)
Definition sweep (s : Service) : prog (svc S) () :=
  t ← now;
  let cutoff := (t - lastUsedDebounceTTL s)%Z in
  on_debounce (λ m, ((), filter (λ kt, (kt.2 <? cutoff)%Z = false) m)).

(** One goroutine of [ValidateAPIKey].
    [src/maas-api/internal/api_keys/service.go:267-287] ValidateAPIKey. *)
Definition update_last_used (s : Service) (g : string * Z)
    : prog (svc S) () :=
  r ← in_store (Store.UpdateLastUsed g.1);
  match r with
  | Err _ => clearDebounceSlot s g.1 g.2
  | Ok _ => mret ()
  end.

Definition spawn (g : string * Z) : prog (svc S) () :=
  modify (λ w, mkSvc (st w) (lastUsedDebounce w) (goroutines w ++ [g])).

(** ** Operations *)

(** [src/maas-api/internal/api_keys/service.go:102-211] CreateAPIKey. *)
Definition CreateAPIKey (s : Service) (username : string)
    (userGroups : list string) (name description : string)
    (expiresIn : option Z) (ephemeral : bool)
    (requestedSubscription tenant : string)
    (labels : option (gmap string string))
    : prog (svc S) (result service_error CreateAPIKeyResponse) :=
  match find_first (λ g, negb (validGroupName g)) userGroups with
  | Some group => mret (Err (InvalidGroupName group))
  | None =>
      match effective_expiry s expiresIn ephemeral with
      | Err e => mret (Err e)
      | Ok d =>
          t ← now;
          let expiresAt := (t + d)%Z in
          k ← GenerateAPIKey;
          match k with
          | Err e => mret (Err (KeyGenerationFailed e))
          | Ok (plaintext, hash, prefix) =>
              match bind_subscription s userGroups username
                      requestedSubscription with
              | Err e => mret (Err (SelectionFailed e))
              | Ok subResp =>
                  let subscriptionName := Sub.resp_Name subResp in
                  keyID ← new_uuid;
                  r ← in_store (Store.AddKey (Store.mkAdd username keyID hash
                        name description (Some userGroups) subscriptionName
                        tenant (Some expiresAt) ephemeral labels));
                  match r with
                  | Err e => mret (Err (StoreFailed e))
                  | Ok _ =>
                      t' ← now;
                      mret (Ok (mkCreated plaintext prefix keyID name
                        subscriptionName (RFC3339 UTC t')
                        (Some (RFC3339 UTC expiresAt)) ephemeral labels))
                  end
              end
          end
      end
  end.

(** [src/maas-api/internal/api_keys/service.go:213-215] GetAPIKey. *)
Definition GetAPIKey (id : string) : prog (svc S) (result store_error ApiKey) :=
  in_store (Store.Get id).

(** [src/maas-api/internal/api_keys/service.go:226-229] ValidateAPIKey. *)
Definition invalid (reason : string) : ValidationResult :=
  mkValidation false "" "" "" "" [] "" "" reason.

(** [src/maas-api/internal/api_keys/service.go:318-327] ValidateAPIKey. *)
Definition accepted (k : ApiKey) : ValidationResult :=
  mkValidation true (k_ID k) (k_Username k) (k_ID k) (k_Name k)
    (default [] (k_Groups k)) (k_Subscription k) (k_Tenant k) "".

(** [src/maas-api/internal/api_keys/service.go:217-328] ValidateAPIKey. *)
Definition ValidateAPIKey (s : Service) (key : string)
    : prog (svc S) (result service_error ValidationResult) :=
  if negb (IsValidKeyFormat key) then mret (Ok (invalid "invalid key format"))
  else
    let hash := HashAPIKey key in
    if hash == "" then mret (Ok (invalid "invalid key format"))
    else
      r ← in_store (Store.GetByHash hash);
      match r with
      | Err ErrKeyNotFound => mret (Ok (invalid "key not found"))
      | Err ErrInvalidKey => mret (Ok (invalid "key revoked or expired"))
      | Err e => mret (Err (StoreFailed e))
      | Ok metadata =>
          reserved ← shouldUpdateLastUsed s (k_ID metadata);
          _ ← (if reserved.1 : bool then spawn (k_ID metadata, reserved.2)
               else mret ());
          if TrimSpace (k_Subscription metadata) == "" then
            mret (Ok (invalid "key has no subscription bound"))
          else if negb (uuid_parse (k_ID metadata)) then
            mret (Err (InvalidKeyID (k_ID metadata)))
          else mret (Ok (accepted metadata))
      end.

(** [src/maas-api/internal/api_keys/service.go:330-333] RevokeAPIKey. *)
Definition RevokeAPIKey (keyID : string) : prog (svc S) (result store_error ()) :=
  in_store (Store.Revoke keyID).

(** [src/maas-api/internal/api_keys/service.go:335-345] Search. *)
Definition Search (username tenant : string) (filters : SearchFilters)
    (sort : SortParams) (pagination : PaginationParams)
    : prog (svc S) (result store_error PaginatedResult) :=
  in_store (Store.Search username tenant filters sort pagination).

(** [src/maas-api/internal/api_keys/service.go:347-355] BulkRevokeAPIKeys. *)
Definition BulkRevokeAPIKeys (username subscription tenant : string)
    (dryRun : bool) : prog (svc S) (result service_error Z) :=
  if (username == "") && (subscription == "") then mret (Err ScopeRequired)
  else
    r ← in_store (Store.BulkRevoke username subscription tenant dryRun);
    mret (match r with Ok n => Ok n | Err e => Err (StoreFailed e) end).

(** [src/maas-api/internal/api_keys/service.go:357-368] RevokeTenantAPIKeys. *)
Definition RevokeTenantAPIKeys (s : Service) (tenant : string)
    : prog (svc S) (result service_error Z) :=
  let tenant := TrimSpace tenant in
  if tenant == "" then mret (Err ErrTenantRequired)
  else if (GetTenantName s != "") && (tenant != GetTenantName s) then
    mret (Err (ErrTenantMismatch tenant (GetTenantName s)))
  else
    r ← in_store (Store.InvalidateTenant tenant);
    mret (match r with Ok n => Ok n | Err e => Err (StoreFailed e) end).

(** [src/maas-api/internal/api_keys/service.go:446-455] CleanupExpiredEphemeral. *)
Definition CleanupExpiredEphemeral : prog (svc S) (result service_error Z) :=
  r ← in_store Store.DeleteExpiredEphemeral;
  mret (match r with Ok n => Ok n | Err e => Err (StoreFailed e) end).

(** [errors.Is(err, ErrTenantMismatch)]: the service's own, or the store's. *)
Definition is_tenant_mismatch (e : service_error) : bool :=
  match e with
  | ErrTenantMismatch _ _ | StoreFailed (ErrStoreTenantMismatch _ _) => true
  | _ => false
  end.

End service.
End Service.
