(* ===== verification/KeyExamples.v ===== *)
(** A concrete environment and database, on which the properties of the key
    service are instantiated. *)
From S2P Require Import Prelude GoStrings Unstructured Sorting GoTime Runtime.
From S2P Require Import SubscriptionTypes Selector SelectionCorrectness.
From S2P Require Import ApiKeyTypes KeyStore PostgresStore PostgresFacts.
From S2P Require Import KeyService.
Import Keys Store PG Service.

(** 2025-01-01T00:00:00Z. *)
Definition new_year : Z := (1735689600 * Second)%Z.

#[export] Instance doc_env : Env := DocEnv.env_at new_year.
#[export] Instance doc_env_lawful : LawfulEnv := DocEnv.env_at_lawful new_year.

(** A database on the same clock, without faults, keeping microseconds. *)
#[export] Instance doc_db : Database := {|
  db_now := wall;
  db_fault _ := None;
  pg_time t := (t / 1000 * 1000)%Z;
  jsonb m := m;
  scan_order _ l := l;
  collate_lt := str_lt;
  session_zone _ := UTC;
|}.

#[export] Instance doc_db_lawful : LawfulDatabase.
Proof.
  split.
  - intros t. simpl. pose proof (Z.div_mod t 1000).
    pose proof (Z.mod_pos_bound t 1000). lia.
  - done.
  - split; [apply str_lt_asym|apply str_lt_neg_trans].
Qed.

Definition tenant : string := "models-as-a-service".
Definition doc_store : PostgresStore := NewPostgresStore tenant.
#[export] Instance doc_ops : MetadataStore table := PG.store doc_store.
#[export] Instance doc_laws : StoreLaws table := pg_laws doc_store.

(** The service of one deployment, on the example cluster. *)
Definition doc_service : Service :=
  NewService (Some (mkConfig tenant 90 60))
    (cluster_selector (cluster [premium; basic])).

Definition empty_world : io (svc table) := IO 0 (mkSvc ∅ ∅ []).

(** Alice mints a key for the subscription "basic". *)
Definition mint : prog (svc table) (result service_error CreateAPIKeyResponse) :=
  CreateAPIKey doc_service "alice" ["users"] "ci" "" None false "basic" tenant
    None.
Definition minted : CreateAPIKeyResponse :=
  match (mint empty_world).1 with
  | Ok c => c
  | Err _ => mkCreated "" "" "" "" "" "" None false None
  end.
Definition after_mint : io (svc table) := (mint empty_world).2.

Example mint_Ok :
  CreateAPIKey doc_service "alice" ["users"] "ci" "" None false "basic" tenant
    None empty_world = (Ok minted, after_mint).
Proof. by_compute. Qed.

(** The key as it is stored. *)
Definition minted_view : view :=
  default (mkView "" "" "" [] "" "" None false StatusActive)
    (table_keys (st (state after_mint)) !! ID minted).

Lemma after_mint_keys :
  table_keys (st (state after_mint)) = {[ ID minted := minted_view ]}.
Proof. by_compute. Qed.

Lemma after_mint_wf : wf (st (state after_mint)).
Proof.
  change (table_wf (st (state after_mint))).
  assert (st (state after_mint) = {[ ID minted :=
    default (mkRow "" "" "" None "" StatusActive [] 0 None None false "" "" None)
      (st (state after_mint) !! ID minted) ]}) as -> by by_compute.
  split.
  - intros id r [<- <-]%lookup_singleton_Some. by_compute.
  - intros id id' r r' [<- _]%lookup_singleton_Some [<- _]%lookup_singleton_Some. done.
Qed.

Lemma minted_ID : ID minted ≠ "".
Proof.
  assert (bool_decide (ID minted = "") = false) as H by by_compute.
  exact (proj1 (bool_decide_eq_false _) H).
Qed.

Lemma empty_wf : wf (st (state empty_world)).
Proof. split; intros id; by intros. Qed.

(** Evaluated by [vm_compute] only: the hash in it is long to unfold. *)
#[global] Opaque mint minted after_mint minted_view.
