(* ===== verification/KeyServiceCorrectness.v ===== *)
(** The key service, for any store keeping the laws of the store interface: facts
    about its calls, and its properties. *)
From S2P Require Import Prelude GoStrings Unstructured GoTime Runtime.
From S2P Require Import SubscriptionTypes Selector KeyGen.
From S2P Require Import ApiKeyTypes KeyStore KeyService.
From S2P Require Import Sorting.
From S2P Require Import PostgresStore PostgresFacts.
From S2P Require Import KeyExamples.
Import Keys KeyGen Store Service.

Section facts.
Context {S : Type} `{Env, MetadataStore S}.
Implicit Types (w : io (svc S)).

(** The store's part of the world. *)
Definition store_io w : io S := IO (ticks w) (st (state w)).

Lemma in_store_run {A} (m : prog S A) w :
  in_store m w =
  ((m (store_io w)).1,
   IO (ticks (m (store_io w)).2)
      (mkSvc (state (m (store_io w)).2) (lastUsedDebounce (state w))
         (goroutines (state w)))).
Proof. unfold in_store, zoom, store_io. by destruct (m _). Qed.

Lemma on_debounce_run {A} (f : gmap string Z → A * gmap string Z) w :
  on_debounce f w =
  ((f (lastUsedDebounce (state w))).1,
   IO (ticks w) (mkSvc (st (state w)) (f (lastUsedDebounce (state w))).2
     (goroutines (state w)))).
Proof.
  unfold on_debounce, mbind, prog_bind, get, put. simpl.
  by destruct (f (lastUsedDebounce (state w))).
Qed.

(** Debouncing reads the clock and leaves the store alone. *)
Lemma shouldUpdateLastUsed_store s id w :
  st (state (shouldUpdateLastUsed s id w).2) = st (state w) ∧
  ticks w ≤ ticks (shouldUpdateLastUsed s id w).2.
Proof.
  unfold shouldUpdateLastUsed. case_match; [done|].
  rewrite bind_run, run_now, bind_run, on_debounce_run. simpl.
  destruct (LoadOrStore _ _ _) as [[a|] m]; simpl; [|split; [done|lia]].
  case_match; [|split; [done|simpl; lia]].
  rewrite bind_run, on_debounce_run. simpl. split; [done|lia].
Qed.

(** What a looked-up key is answered with. *)
Definition verdict (k : ApiKey) : result service_error ValidationResult :=
  if TrimSpace (k_Subscription k) == "" then
    Ok (invalid "key has no subscription bound")
  else if negb (uuid_parse (k_ID k)) then Err (InvalidKeyID (k_ID k))
  else Ok (accepted k).

(** Validation is the format check followed by one lookup by hash, whose
    answer decides. *)
Lemma ValidateAPIKey_run s key w :
  if IsValidKeyFormat key then
    let g := GetByHash (HashAPIKey key) (store_io w) in
    let v := ValidateAPIKey s key w in
    st (state v.2) = state g.2 ∧ ticks g.2 ≤ ticks v.2 ∧
    v.1 = match g.1 with
          | Ok k => verdict k
          | Err ErrKeyNotFound => Ok (invalid "key not found")
          | Err ErrInvalidKey => Ok (invalid "key revoked or expired")
          | Err e => Err (StoreFailed e)
          end
  else ValidateAPIKey s key w = (Ok (invalid "invalid key format"), w).
Proof.
  unfold ValidateAPIKey. destruct (IsValidKeyFormat key) eqn:Ef; simpl; [|done].
  pose proof (HashAPIKey_valid key Ef) as Hlen.
  rewrite bool_decide_eq_false_2 by (intros E; by rewrite E in Hlen).
  rewrite bind_run, in_store_run. simpl.
  destruct (GetByHash (HashAPIKey key) (store_io w)) as [x i]. simpl.
  destruct x as [k|[]]; simpl; try (split; [done|]; split; [lia|done]).
  rewrite bind_run. set (w1 := IO _ _).
  destruct (shouldUpdateLastUsed_store s (k_ID k) w1) as [Hs Ht].
  destruct (shouldUpdateLastUsed s (k_ID k) w1) as [[[] slot] w2]; simpl in *;
    rewrite bind_run; unfold spawn, modify, verdict; simpl;
    case_bool_decide; simpl; rewrite ?Hs; try done;
    destruct (uuid_parse (k_ID k)); simpl; by rewrite ?Hs.
Qed.

(** ** Creation *)

Lemma effective_expiry_Ok s e eph d :
  effective_expiry s e eph = Ok d →
  (0 < d)%Z ∧
  (eph = true → (d ≤ Hour)%Z) ∧
  (eph = false → (d ≤ maxRegularDuration s)%Z) ∧
  d = default (if eph then Hour else maxRegularDuration s) e.
Proof.
  unfold effective_expiry, DefaultEphemeralKeyMaxExpiration. intros He.
  set (d0 := match e with Some _ => _ | None => _ end) in *.
  assert (d0 = default (if eph then Hour else maxRegularDuration s) e) as Hd
    by (by destruct e, eph).
  rewrite <-Hd. clearbody d0.
  destruct (Z.leb_spec d0 0) as [|]; [done|].
  destruct eph.
  - destruct (Z.ltb_spec Hour d0) as [|]; [done|]. injection He as <-. split_and!; (done || intros; (done || lia)).
  - destruct (Z.ltb_spec (maxRegularDuration s) d0) as [|]; [done|].
    injection He as <-. split_and!; (done || intros; (done || lia)).
Qed.

(** The steps of a successful creation. *)
Lemma CreateAPIKey_Ok s u gs name desc e eph req tenant labels w w' c :
  CreateAPIKey s u gs name desc e eph req tenant labels w = (Ok c, w') →
  ∃ d hash sub i i',
    (∀ g, g ∈ gs → validGroupName g = true) ∧
    effective_expiry s e eph = Ok d ∧
    bind_subscription s gs u req = Ok sub ∧
    IsValidKeyFormat (Key c) = true ∧ HashAPIKey (Key c) = hash ∧
    (∃ n, ID c = uuid_new n) ∧ Name c = name ∧
    Subscription c = Sub.resp_Name sub ∧ Ephemeral c = eph ∧
    ExpiresAt c = Some (RFC3339 UTC (wall (ticks w) + d)) ∧
    AddKey (mkAdd u (ID c) hash name desc (Some gs) (Subscription c) tenant
      (Some (wall (ticks w) + d)%Z) eph labels) i = (Ok (), i') ∧
    state i = st (state w) ∧ ticks w ≤ ticks i ∧ st (state w') = state i' ∧
    ticks i' ≤ ticks w'.
Proof.
  unfold CreateAPIKey. destruct (find_first _ gs) eqn:Hg; [done|].
  destruct (effective_expiry s e eph) as [d|] eqn:He; [|done].
  rewrite bind_run, run_now, bind_run. simpl.
  destruct (GenerateAPIKey _) as [[[[p h] pre]|] w1] eqn:Hk; simpl; [|done].
  destruct (bind_subscription s gs u req) as [sub|] eqn:Hb; [|done].
  destruct (GenerateAPIKey_Ok _ _ _ _ _ Hk) as (a & b & _ & _ & _ & _ & _ & ->).
  apply GenerateAPIKey_hash in Hk as [Hv Hh]. simpl.
  unfold new_uuid. rewrite !bind_run. simpl. rewrite in_store_run.
  unfold store_io. simpl.
  match goal with |- context [AddKey ?q ?i] =>
    destruct (AddKey q i) as [[[]|] i'] eqn:Ha end; simpl; [|done].
  rewrite bind_run, run_now. simpl. intros [= <- <-]. simpl.
  eexists d, h, sub, _, i'. simpl.
  split.
  { intros g Hgs. rewrite find_first_None in Hg. apply Hg in Hgs.
    by apply negb_false_iff in Hgs. }
  do 4 (split; [done|]). split; [eauto|]. do 4 (split; [done|]).
  split; [exact Ha|]. simpl. split; [done|]. split; [lia|].
  split; [done|]. lia.
Qed.
End facts.

(** * Properties *)

Section properties.
Context {S : Type} `{Env, MetadataStore S, !StoreLaws S}.

(** ** The service *)

Implicit Types (s : Service).

(** C3. Validation is sound: a key is declared valid only if the store holds,
    in the store's tenant scope, an active key with the hash of the presented
    plaintext, not past its expiration at some instant of the call; the answer
    is that key's owner, groups, subscription and tenant, its subscription is
    not blank, and nothing was changed in the store. *)
Theorem validate_sound s key (w w' : io (svc S)) r :
  wf (st (state w)) → ValidateAPIKey s key w = (Ok r, w') → Valid r = true →
  IsValidKeyFormat key = true ∧ keys (st (state w')) = keys (st (state w)) ∧
  ∃ v, keys (st (state w)) !! KeyID r = Some v ∧
    v_hash v = HashAPIKey key ∧ v_status v = StatusActive ∧
    in_scope (v_tenant v) = true ∧
    (v_expires v = None ∨
     ∃ n, ticks w ≤ n < ticks w' ∧ ¬ expired v (wall n)) ∧
    UserID r = KeyID r ∧ val_Username r = v_username v ∧
    val_Groups r = v_groups v ∧ val_Subscription r = v_subscription v ∧
    val_Tenant r = v_tenant v ∧ TrimSpace (v_subscription v) ≠ "".
Proof.
  intros Hwf E Hvalid. pose proof (ValidateAPIKey_run s key w) as Hrun.
  rewrite E in Hrun. destruct (IsValidKeyFormat key); [|by simplify_eq/=].
  destruct (GetByHash _ _) as [[k|e] i'] eqn:Hg; simpl in Hrun.
  2:{ destruct Hrun as (_ & _ & Hr). by destruct e; simplify_eq/=. }
  destruct Hrun as (-> & Hticks & Hr).
  apply GetByHash_Ok in Hg as (-> & v & Hv & Hh & Hs & Ha & Hd & Hexp); [|done].
  unfold verdict in Hr. destruct (TrimSpace _ == "") eqn:Et; [by simplify_eq/=|].
  destruct (negb (uuid_parse _)); [done|]. injection Hr as ->.
  destruct Hd as (Hu & Hn & Hgr & Hsub & Ht & _).
  apply bool_decide_eq_false in Et. rewrite Hsub in Et.
  split; [done|]. split; [done|]. exists v. simpl in *.
  split_and!; try done.
  destruct Hexp as [?|(n & Hn' & ?)]; [by left|right]. exists n.
  split; [lia|done].
Qed.

(** C1. Creation followed by validation: the plaintext returned once by
    [CreateAPIKey] validates later, whatever has happened to other keys, as long
    as this key is still stored as it was, no other key of the tenant scope has
    its hash, its expiration has not passed and the name of its subscription is
    not blank: the answer identifies the creator, the groups, the subscription
    and the tenant it was created with, unless the store reports a fault. *)
Theorem create_then_validate `{!LawfulEnv} s s' u gs name desc e eph req tenant
    labels c (w w1 w2 w3 : io (svc S)) r :
  wf (st (state w)) →
  CreateAPIKey s u gs name desc e eph req tenant labels w = (Ok c, w1) →
  keys (st (state w2)) !! ID c = keys (st (state w1)) !! ID c →
  wf (st (state w2)) →
  sole_hash in_scope (keys (st (state w2))) (ID c) (HashAPIKey (Key c)) →
  TrimSpace (Subscription c) ≠ "" →
  ValidateAPIKey s' (Key c) w2 = (r, w3) →
  (∀ n v, n < ticks w3 → keys (st (state w2)) !! ID c = Some v →
     ¬ expired v (wall n)) →
  r = Ok (mkValidation true (ID c) u (ID c) name gs (Subscription c) tenant "")
  ∨ ∃ e, r = Err (StoreFailed (ErrStore e)).
Proof.
  intros Hwf Hc Hsame Hwf2 Hsole Hblank Hv Hexp.
  apply CreateAPIKey_Ok in Hc as (d & h & sub & i & i' & _ & _ & _ & Hfmt &
    Hh & [nu Hid] & Hname & Hsub & _ & _ & Hadd & Hi & _ & Hi' & _).
  apply AddKey_Ok in Hadd as (Hkeys & _ & _ & Hscope); [|by rewrite Hi].
  simpl in Hkeys, Hscope. rewrite Hi' in Hsame.
  set (v := added round _) in Hkeys.
  assert (keys (st (state w2)) !! ID c = Some v) as Hlook
    by (rewrite Hsame, Hkeys; apply lookup_insert_eq).
  pose proof (ValidateAPIKey_run s' (Key c) w2) as Hrun.
  rewrite Hfmt, Hv in Hrun. simpl in Hrun.
  destruct (GetByHash (HashAPIKey (Key c)) (store_io w2)) as [x j] eqn:Hg.
  simpl in Hrun. destruct Hrun as (_ & Hticks & ->).
  destruct (GetByHash_hit (HashAPIKey (Key c)) (ID c) v x (store_io w2) j)
    as [(k & -> & Hk)|[err ->]]; simpl; try done.
  - intros n Hn. apply Hexp; [lia|done].
  - left. apply GetByHash_Ok in Hg as (_ & v' & Hv' & _ & _ & _ & Hd & _); [|done].
    simpl in Hv'. rewrite Hk, Hlook in Hv'. injection Hv' as <-.
    destruct Hd as (Hu & Hn & Hgr & Hsb & Ht & _). simpl in *.
    unfold verdict, accepted. rewrite Hsb, bool_decide_eq_false_2 by done.
    rewrite Hk, Hid, uuid_parse_new. simpl. rewrite Hu, Hn, Hgr, Ht. done.
  - right. eauto.
Qed.

(** C2. Revocation is final: once the only key with a plaintext's hash has been
    revoked, no later validation of the plaintext succeeds, whatever calls the
    store receives in between, other than creating a key with the same hash. *)
Theorem revoked_never_validates s id key os (w w1 : io S) (w2 w3 : io (svc S)) r :
  wf (state w) → Revoke id w = (Ok (), w1) →
  (∀ id' v, keys (state w1) !! id' = Some v → v_hash v = HashAPIKey key →
     id' = id) →
  does_not_add (λ p, p_keyHash p == HashAPIKey key) os →
  st (state w2) = state (run_ops os w1) →
  ValidateAPIKey s key w2 = (Ok r, w3) → Valid r = false.
Proof.
  intros Hwf Hrev Hsole Hos Hw2 Hval.
  assert (wf (state w1)) as Hwf1.
  { pose proof (op_wf (OpRevoke id) w Hwf) as H'. simpl in H'. unfold void in H'.
    by rewrite Hrev in H'. }
  assert (dead_hash (keys (state w1)) (HashAPIKey key)) as Hdead.
  { apply Revoke_Ok in Hrev as (v & _ & _ & _ & Hk); [|done].
    intros id' v' Hv' Hh. assert (id' = id) as -> by eauto.
    rewrite Hk, lookup_insert_eq in Hv'. by injection Hv' as <-. }
  apply (run_ops_dead os) in Hdead; [|done..]. rewrite <-Hw2 in Hdead.
  pose proof (ValidateAPIKey_run s key w2) as Hrun. rewrite Hval in Hrun.
  destruct (IsValidKeyFormat key); [|by simplify_eq/=].
  destruct (GetByHash _ _) as [[k|e] j] eqn:Hg; simpl in Hrun.
  - apply GetByHash_Ok in Hg as (_ & v & Hv & Hh & _ & Ha & _).
    + by destruct (Hdead _ _ Hv Hh).
    + simpl. rewrite Hw2. by apply run_ops_wf.
  - destruct Hrun as (_ & _ & Hr). by destruct e; simplify_eq/=.
Qed.
(** C36. What minting stores: under the returned ID, an active key with the hash
    of the returned plaintext, the creator's groups (each matching the allowed
    pattern), the subscription the selector granted the creator, and an
    expiration that is always set, positive, and at most an hour away for an
    ephemeral key, at most the configured limit for a regular one. *)
Theorem create_stores_bounded_key s u gs name desc e eph req tenant labels c
    (w w' : io (svc S)) :
  wf (st (state w)) →
  CreateAPIKey s u gs name desc e eph req tenant labels w = (Ok c, w') →
  ∃ d v sub, keys (st (state w')) !! ID c = Some v ∧
    v_expires v = Some (round (wall (ticks w) + d)) ∧ (0 < d)%Z ∧
    (d ≤ if eph then Hour else maxRegularDuration s)%Z ∧
    ExpiresAt c = Some (RFC3339 UTC (wall (ticks w) + d)) ∧
    v_status v = StatusActive ∧ v_hash v = HashAPIKey (Key c) ∧
    IsValidKeyFormat (Key c) = true ∧ v_username v = u ∧ v_groups v = gs ∧
    (∀ g, g ∈ gs → validGroupName g = true) ∧
    bind_subscription s gs u req = Ok sub ∧
    v_subscription v = Sub.resp_Name sub ∧ v_tenant v = tenant ∧
    in_scope tenant = true.
Proof.
  intros Hwf Hc.
  apply CreateAPIKey_Ok in Hc as (d & h & sub & i & i' & Hgs & Hd & Hb & Hfmt &
    Hh & _ & _ & Hsub & _ & Hexp & Hadd & Hi & _ & Hi' & _).
  apply AddKey_Ok in Hadd as (Hkeys & _ & _ & Hscope); [|by rewrite Hi].
  apply effective_expiry_Ok in Hd as (Hpos & Heph & Hreg & _).
  exists d, (added round (mkAdd u (ID c) h name desc (Some gs) (Subscription c)
    tenant (Some (wall (ticks w) + d)%Z) eph labels)), sub.
  rewrite Hi', Hkeys, lookup_insert_eq. simpl in *.
  split_and!; try done. by destruct eph; auto.
Qed.
End properties.

(** The limit on regular keys, [days * 24h] in 64-bit nanoseconds: up to
    106751 days it is exact; from 106752 days to 213503 the product wraps to a
    negative duration, and no regular key can be created at all, neither with
    the default expiration nor with any requested one. *)
Theorem regular_limit_overflow s :
  let days := GetMaxExpirationDays s in
  (days ≤ 106751 → maxRegularDuration s = days * (24 * Hour))%Z ∧
  (106752 ≤ days ≤ 213503 → ∀ e, is_ok (effective_expiry s e false) = false)%Z.
Proof.
  set (days := GetMaxExpirationDays s).
  assert (1 ≤ days)%Z as Hpos.
  { unfold days, GetMaxExpirationDays, DefaultAPIKeyMaxExpirationDays.
    destruct (config s) as [c|]; [|lia].
    destruct (Z.ltb_spec 0 (APIKeyMaxExpirationDays c)); lia. }
  assert (∀ z, (z ≤ 213503)%Z → (1 ≤ z)%Z → dur_mul z 24 = (z * 24)%Z) as H24.
  { intros z ? ?. apply dur_mul_exact. unfold min_int64, max_int64. lia. }
  unfold maxRegularDuration. fold days. split.
  - intros Hd. rewrite H24 by lia. rewrite dur_mul_exact; [lia|].
    unfold min_int64, max_int64, Hour, Minute, Second. lia.
  - intros Hd e. unfold effective_expiry, maxRegularDuration. fold days.
    rewrite H24 by lia.
    assert (dur_mul (days * 24) Hour < 0)%Z as Hneg.
    { unfold dur_mul, wrap64, Hour, Minute, Second.
      rewrite (Zmod_eq_full _ (2 ^ 64)) by done.
      assert ((days * 24 * (60 * (60 * 1000000000)) + 2 ^ 63) / 2 ^ 64 = 1)%Z as ->.
      { symmetry. apply Z.div_unique with (days * 24 * (60 * (60 * 1000000000)) + 2 ^ 63 - 2 ^ 64)%Z;
          lia. }
      lia. }
    set (m := dur_mul _ _) in *.
    destruct e as [d|]; simpl.
    + destruct (Z.leb_spec d 0); [done|]. destruct (Z.ltb_spec m d); [done|lia].
    + destruct (Z.leb_spec m 0); [done|lia].
Qed.

(** ** Instances on the PostgreSQL store *)

(** Validation of the freshly minted key. *)
Definition validated : result service_error ValidationResult * io (svc _) :=
  ValidateAPIKey doc_service (Key minted) after_mint.

Lemma validate_sound_witness :
  ∃ v, keys (st (state after_mint)) !! ID minted = Some v ∧
    v_username v = "alice" ∧ v_subscription v = "basic".
Proof.
  assert (∃ r, ValidateAPIKey doc_service (Key minted) after_mint =
      (Ok r, validated.2) ∧ Valid r = true ∧
    KeyID r = ID minted ∧ val_Username r = "alice" ∧ val_Subscription r = "basic")
    as (r & E & Hv & Hid & Hu & Hs)
    by (eexists; split_and!; [by_compute|by_compute..]).
  destruct (validate_sound doc_service (Key minted) after_mint
    validated.2 r after_mint_wf E Hv) as (_ & _ & v & Hlook & _ & _ & _ & _ & _ & Hu' & _ & Hs' & _).
  exists v. rewrite Hid in Hlook. split; [exact Hlook|].
  exact (conj (eq_trans (eq_sym Hu') Hu) (eq_trans (eq_sym Hs') Hs)).
Defined.

Lemma create_then_validate_witness :
  validated.1 =
  Ok (mkValidation true (ID minted) "alice" (ID minted) "ci" ["users"] "basic"
        tenant "").
Proof.
  destruct (create_then_validate doc_service doc_service "alice" ["users"] "ci" ""
    None false "basic" tenant None minted empty_world after_mint after_mint
    validated.2 validated.1 empty_wf mint_Ok eq_refl after_mint_wf) as [E|[e E]].
  - intros id' v'. simpl. rewrite after_mint_keys.
    by intros [<- _]%lookup_singleton_Some.
  - by vm_compute.
  - unfold validated. by destruct (ValidateAPIKey _ _ _).
  - intros n v Hn Hv. simpl in Hv. rewrite after_mint_keys, lookup_singleton_eq in Hv.
    apply (inj Some) in Hv as <-. intros (e & He & Hlt).
    assert (v_expires minted_view = Some (new_year + 90 * 24 * Hour)%Z) as He'
      by by_compute. rewrite He in He'. apply (inj Some) in He' as ->.
    assert (ticks validated.2 = 10) as Ht by by_compute. rewrite Ht in Hn.
    simpl in Hlt. unfold Hour, Minute, Second in Hlt. lia.
  - rewrite E. by_compute.
  - exfalso. assert (is_ok validated.1 = true) as Hok by by_compute.
    by rewrite E in Hok.
Defined.

(** The world after the minted key is revoked. *)
Definition revoked : io _ := (Revoke (ID minted) (store_io after_mint)).2.
Definition after_revoke : io (svc _) :=
  IO (ticks revoked) (mkSvc (state revoked) ∅ []).
Definition revalidated : result service_error ValidationResult * io (svc _) :=
  ValidateAPIKey doc_service (Key minted) after_revoke.

Lemma revoked_never_validates_witness :
  ∃ r, revalidated.1 = Ok r ∧ Valid r = false.
Proof.
  assert (Revoke (ID minted) (store_io after_mint) = (Ok (), revoked)) as Hr
    by by_compute.
  assert (keys (state revoked) =
    {[ ID minted := set_status StatusRevoked minted_view ]}) as Hk by by_compute.
  assert (∃ r, ValidateAPIKey doc_service (Key minted) after_revoke =
    (Ok r, revalidated.2)) as [r Hv] by (eexists; by_compute).
  exists r. split; [exact (f_equal fst Hv)|].
  apply (revoked_never_validates doc_service (ID minted) (Key minted) []
    (store_io after_mint) revoked after_revoke revalidated.2 r after_mint_wf Hr).
  - rewrite Hk. by intros id' v [<- _]%lookup_singleton_Some.
  - by apply does_not_add_none.
  - reflexivity.
  - exact Hv.
Defined.

Lemma create_stores_bounded_key_witness :
  ∃ v, keys (st (state after_mint)) !! ID minted = Some v ∧
    v_groups v = ["users"] ∧ v_status v = StatusActive.
Proof.
  destruct (create_stores_bounded_key doc_service "alice" ["users"] "ci" "" None
    false "basic" tenant None minted empty_world after_mint empty_wf mint_Ok)
    as (d & v & sub & Hlook & _ & _ & _ & _ & Ha & _ & _ & _ & Hg & _).
  exists v. split_and!; [exact Hlook|exact Hg|exact Ha].
Defined.

Lemma regular_limit_overflow_witness :
  let s := NewService (Some (mkConfig tenant 200000 60))
             (subSelector doc_service) in
  is_ok (effective_expiry s (Some Hour) false) = false.
Proof. apply regular_limit_overflow. by vm_compute. Defined.
