(* ===== verification/PostgresCorrectness.v ===== *)
(** The properties of the PostgreSQL store itself: the one-way lifecycle of
    rows, tenant isolation, exact searches, bulk revocation and cleanup. *)
From S2P Require Import Prelude GoStrings Sorting GoTime Runtime ApiKeyTypes.
From S2P Require Import KeyStore PostgresStore PostgresFacts.
From S2P Require Import KeyService KeyExamples.
Import Keys Store PG.

Section properties.
Context `{Env, Database} (s : PostgresStore).

(** Bulk revocation is exact. A successful call counted exactly the rows of
    the store's tenant that are active, unexpired and in the requested scope; a
    dry run leaves the table as it is, and a real one marks those rows revoked,
    in one statement, and changes nothing else. A scope is always given and the
    tenant is always the store's own. *)
Theorem BulkRevoke_exact u sub t dryRun w n w' :
  PG.BulkRevoke s u sub t dryRun w = (Ok n, w') →
  let in_scope r := bulk_where s u sub (ticks w) r = true in
  (u ≠ "" ∨ sub ≠ "") ∧ t = tenantName s ∧
  n = Z.of_nat (size (filter (λ kr : string * row, in_scope kr.2) (state w))) ∧
  (∀ r, in_scope r ↔
     r_tenant r = tenantName s ∧ r_status r = StatusActive ∧
     (∀ e, r_expires_at r = Some e → (db_now (ticks w) < e)%Z) ∧
     (u ≠ "" → r_username r = u) ∧ (sub ≠ "" → r_subscription r = sub)) ∧
  (dryRun = true → state w' = state w) ∧
  (dryRun = false → ∀ id, state w' !! id =
     (λ r, if bulk_where s u sub (ticks w) r
           then set_row_status StatusRevoked r else r) <$> state w !! id).
Proof.
  intros (Hs & Ht & Hn & Hw)%BulkRevoke_Ok. split_and!; try done.
  - intros r. apply bulk_where_iff.
  - by intros ->.
  - intros -> id. by rewrite Hw, lookup_fmap.
Qed.

(** Cleanup deletes only what it may: the rows gone after it are ephemeral
    rows of the store's tenant that expired more than thirty minutes before the
    statement, by the database's clock; every such row is gone when the call
    succeeds, the count is their number, and the other rows are untouched. *)
Theorem cleanup_exact w n w' :
  PG.DeleteExpiredEphemeral s w = (Ok n, w') →
  (∀ id r, state w !! id = Some r →
     (state w' !! id = None ↔
      r_ephemeral r = true ∧ r_tenant r = tenantName s ∧
      ∃ e, r_expires_at r = Some e ∧
        (e < db_now (ticks w) - 30 * Minute)%Z) ∧
     (state w' !! id = None ∨ state w' !! id = Some r)) ∧
  (∀ id, state w !! id = None → state w' !! id = None) ∧
  n = Z.of_nat (size (filter (λ kr : string * row,
        deletable s (ticks w) kr.2 = true) (state w))).
Proof.
  unfold PG.DeleteExpiredEphemeral, delete_where. rewrite bind_run.
  match goal with |- context [stmt ?f w] =>
    destruct (stmt_run f w) as (_ & Hs); destruct (stmt f w) as [[?|?] w1] end;
    simpl in *; intros [= <- <-].
  destruct Hs as [[[? ?] _]|[[[? ?] _]|[[= ->] ->]]]; [done..|].
  split_and!; [|intros id Hn; by apply map_lookup_filter_None_2; left|done].
  intros id r Hr.
  assert (deletable s (ticks w) r = true ↔
    r_ephemeral r = true ∧ r_tenant r = tenantName s ∧
    ∃ e, r_expires_at r = Some e ∧ (e < db_now (ticks w) - 30 * Minute)%Z)
    as <-.
  { split; [apply deletable_spec|]. intros (He & Ht & e & Hexp & Hlt).
    unfold deletable, expired_before. rewrite He, Hexp, bool_decide_eq_true_2 by done.
    by apply Z.ltb_lt. }
  destruct (deletable s (ticks w) r) eqn:Ed.
  - rewrite (map_lookup_filter_None_2 _ _ id); [naive_solver|].
    right. intros r' Hr' E. simplify_eq/=. congruence.
  - rewrite (map_lookup_filter_Some_2 _ _ id r) by done. naive_solver.
Qed.
(** ** Searching *)

Context `{!LawfulDatabase}.

(** Searching is exact and confined. A successful search answers one page,
    [limit] rows from [offset] on, of a fixed order of all the rows matching
    the request, sorted as asked; [HasMore] tells whether rows remain beyond
    the page; and every key answered belongs to the store's tenant, whatever
    tenant the caller named, to the requested user, and passes the ephemeral,
    status, subscription and label filters. *)
Theorem Search_exact u t f so p w res w' :
  PG.Search s u t f so p w = (Ok res, w') →
  ∃ l, sorted (order_by so) l ∧
    (∀ r, r ∈ l ↔ (∃ id, state w !! id = Some r) ∧
                  search_where s u f (ticks w) r = true) ∧
    page_Keys res =
      (λ r, search_key (effective_status (ticks w) r, r)) <$>
        take (Z.to_nat (Limit p)) (drop (Z.to_nat (Offset p)) l) ∧
    (page_HasMore res = true ↔
       Z.to_nat (Offset p) + Z.to_nat (Limit p) < length l) ∧
    (1 ≤ Limit p ≤ 100)%Z ∧ state w' = state w ∧
    ∀ k, k ∈ page_Keys res → ∃ r, r ∈ l ∧ k_ID k = r_id r ∧
      k_Tenant k = tenantName s ∧ (u ≠ "" → k_Username k = u) ∧
      (f_IncludeEphemeral f ≠ Some true → k_Ephemeral k = false) ∧
      (f_Status f ≠ [] →
         Status_String (k_Status k) ∈ TrimSpace <$> f_Status f) ∧
      (∀ sub, f_Subscription f = Some sub → sub ≠ "" →
         k_Subscription k = TrimSpace sub).
Proof.
  intros E. pose proof (Search_run s u t f so p w) as Hsame.
  rewrite E in Hsame. apply Search_Ok in E as [[Hlim Hoff]%page_error_None ->].
  set (l := sort_stable (order_by so) _).
  assert (∀ r, r ∈ l ↔ (∃ id, state w !! id = Some r) ∧
    search_where s u f (ticks w) r = true) as Hmem.
  { intros r. unfold l. rewrite elem_of_sort_stable. apply elem_of_rows_where. }
  exists l. split; [apply sort_stable_sorted, _|]. split; [done|].
  unfold with_status. rewrite <-list_fmap_compose, paginate_fetch by lia. simpl.
  split; [done|]. split; [apply Nat.ltb_lt|]. split; [done|]. split; [done|].
  intros k (r & -> & Hr)%list_elem_of_fmap. exists r. simpl.
  assert (r ∈ l) as Hin.
  { eapply subseteq_drop, subseteq_take. exact Hr. }
  split; [done|]. split; [done|].
  apply Hmem in Hin as [_ (? & ? & ? & ? & ? & _)%search_where_iff].
  split_and!; done.
Qed.
(** ** Histories of calls *)

#[local] Instance pg : MetadataStore table := PG.store s.

Lemma history_wf os w :
  table_wf (state w) → table_wf (state (run_ops os w)).
Proof. apply (@run_ops_wf _ _ _ (pg_laws s)). Qed.

Lemma history_forward os (w : io table) : ticks w ≤ ticks (run_ops os w).
Proof.
  revert w. induction os as [|o os IH]; intros w; simpl; [lia|].
  etrans; [apply (run_op_forward s o)|apply IH].
Qed.

(** A row along a history: as long as it is there it is kept; once it is gone
    it had been due. *)
Lemma history_row os w id r :
  table_wf (state w) → state w !! id = Some r →
  (∃ r', state (run_ops os w) !! id = Some r' ∧
     kept s (ticks w) (ticks (run_ops os w)) r r') ∨
  due s (ticks w) (ticks (run_ops os w)) r.
Proof.
  revert w r. induction os as [|o os IH]; intros w r Hwf Hr.
  { left. exists r. split; [done|apply kept_refl]. }
  pose proof (run_op_row s o w id r Hwf Hr) as Hrow.
  assert (ticks w ≤ ticks (run_op o w).2) as Ht by apply (run_op_forward s o).
  assert (ticks (run_op o w).2 ≤ ticks (run_ops (o :: os) w)) as Ht'.
  { change (run_ops (o :: os) w) with (run_ops os (run_op o w).2).
    apply history_forward. }
  destruct (state (run_op o w).2 !! id) as [r1|] eqn:Hr1.
  - destruct (IH (run_op o w).2 r1) as [(r' & Hr' & Hk)|Hd];
      [by apply (@op_wf _ _ _ (pg_laws s))|done| |].
    + left. exists r'. split; [done|].
      apply (kept_trans _ _ _ _ r1);
        [eapply kept_mono; [..|exact Hrow]; done|eapply kept_mono; [..|exact Hk]; done].
    + right. eapply due_kept; [eapply kept_mono; [..|exact Hrow]; done|].
      eapply due_mono; [..|exact Hd]; [lia|done].
  - right. eapply due_mono; [..|exact Hrow]; [lia|done].
Qed.

(** C6. One-way lifecycle, of the rows of the store along every history of
    calls, with whatever faults. A row that is there stays under its ID with
    the ID, owner, name, description, groups, subscription, tenant, hash, labels
    and instants of creation and expiration it has; only when it is active does
    its status change, to revoked, or to expired when a reading of the API's
    clock during the history is past its expiration. Otherwise it is an
    ephemeral row of the tenant that had expired more than thirty minutes before
    some statement of the history. *)
Theorem key_lifecycle os w id r :
  table_wf (state w) → state w !! id = Some r →
  let w' := run_ops os w in
  (∃ r', state w' !! id = Some r' ∧
     r_id r' = r_id r ∧ r_username r' = r_username r ∧ r_name r' = r_name r ∧
     r_description r' = r_description r ∧ r_user_groups r' = r_user_groups r ∧
     r_subscription r' = r_subscription r ∧ r_tenant r' = r_tenant r ∧
     r_key_hash r' = r_key_hash r ∧ r_labels r' = r_labels r ∧
     r_ephemeral r' = r_ephemeral r ∧ r_created_at r' = r_created_at r ∧
     r_expires_at r' = r_expires_at r ∧
     (r_status r' = r_status r ∨
      r_status r = StatusActive ∧
      (r_status r' = StatusRevoked ∨
       r_status r' = StatusExpired ∧
       ∃ n e, ticks w ≤ n < ticks w' ∧ r_expires_at r = Some e ∧
         (e < wall n)%Z))) ∨
  (r_ephemeral r = true ∧ r_tenant r = tenantName s ∧
   ∃ n e, ticks w ≤ n < ticks w' ∧ r_expires_at r = Some e ∧
     (e < db_now n - 30 * Minute)%Z).
Proof.
  intros Hwf Hr w'.
  destruct (history_row os w id r Hwf Hr) as [(r' & Hr' & st & Hst & H')|]; [|by right].
  left. exists r'. split; [done|].
  assert (r_status r' = st) as -> by by destruct H' as [->|(? & _ & ->)].
  destruct H' as [->|(i & _ & ->)]; simpl; (split_and!; [done..|]);
    (destruct Hst as [->|(Ha & _ & Hs)]; [by left|right]; split; [done|]);
    (destruct Hs as [->|(-> & n & Hn & Hx)]; [by left|right]; split; [done|]);
    unfold expired_before in Hx; destruct (r_expires_at r) as [e|]; try done;
    apply Z.ltb_lt in Hx; eauto.
Qed.

(** C7. Schema constraints and tenant isolation. From a table whose rows are
    filed under their IDs, with no two keys of a tenant sharing a hash, every
    history of calls, with whatever faults, ends in such a table; and the rows
    of other tenants are afterwards exactly what they were, column by column. *)
Theorem history_keeps_constraints os w :
  let w' := run_ops os w in
  table_wf (state w) →
  table_wf (state w') ∧
  ∀ id r, r_tenant r ≠ tenantName s →
    state w !! id = Some r → state w' !! id = Some r.
Proof.
  intros w' Hwf. split; [by apply history_wf|].
  intros id r Ht Hr. subst w'. revert w Hwf Hr.
  induction os as [|o os IH]; intros w Hwf Hr; [done|].
  apply IH; [by apply (@op_wf _ _ _ (pg_laws s))|by apply op_frame_table].
Qed.
End properties.

(** ** Instances *)

Definition minted_table : io table :=
  IO (ticks after_mint) (Service.st (state after_mint)).

Lemma BulkRevoke_exact_witness :
  ∃ w', PG.BulkRevoke doc_store "alice" "" tenant false minted_table =
    (Ok 1%Z, w') ∧ tenant = tenantName doc_store.
Proof.
  pose (w' := (PG.BulkRevoke doc_store "alice" "" tenant false minted_table).2).
  assert (PG.BulkRevoke doc_store "alice" "" tenant false minted_table =
    (Ok 1%Z, w')) as E by by_compute.
  exists w'. split; [exact E|].
  exact (proj1 (proj2 (BulkRevoke_exact doc_store _ _ _ _ _ _ _ E))).
Defined.

(** An ephemeral key that expired an hour before. *)
Definition stale_row : row :=
  mkRow "e1" "alice" "tmp" None "h" StatusActive [] 0
    (Some (new_year - Hour)%Z) None true "basic" tenant None.
Definition stale_table : io table := IO 0 {[ "e1" := stale_row ]}.

Lemma cleanup_exact_witness :
  ∃ w', PG.DeleteExpiredEphemeral doc_store stale_table = (Ok 1%Z, w') ∧
    state w' !! "e1" = None.
Proof.
  pose (w' := (PG.DeleteExpiredEphemeral doc_store stale_table).2).
  assert (PG.DeleteExpiredEphemeral doc_store stale_table = (Ok 1%Z, w')) as E
    by by_compute.
  exists w'. split; [exact E|].
  destruct (cleanup_exact doc_store _ _ _ E) as [Hrow _].
  destruct (Hrow "e1" stale_row) as [[_ Hgone] _]; [reflexivity|].
  apply Hgone. split; [reflexivity|]. split; [reflexivity|].
  exists (new_year - Hour)%Z. split; [reflexivity|]. by_compute.
Defined.

Lemma Search_exact_witness :
  ∃ res w', PG.Search doc_store "alice" "" no_filters (mkSort "name" "asc")
      (mkPage 50 0) minted_table = (Ok res, w') ∧ page_HasMore res = false ∧
    state w' = state minted_table.
Proof.
  pose (g := PG.Search doc_store "alice" "" no_filters (mkSort "name" "asc")
      (mkPage 50 0) minted_table).
  assert (∃ res, g = (Ok res, g.2) ∧ page_HasMore res = false) as (res & E & Hm)
    by (eexists; split; by_compute).
  exists res, g.2. split; [exact E|]. split; [exact Hm|].
  destruct (Search_exact doc_store _ _ _ _ _ _ _ _ E) as (l & _ & _ & _ & _ & _ & H & _).
  exact H.
Defined.

(** A row of another tenant beside the minted one, and a history that touches
    every row of the tenant. *)
Definition shared_table : io table :=
  IO (ticks minted_table)
     (<["other" := mkRow "other" "bob" "x" None "h" StatusActive [] 0 None None
                     false "basic" "blue" None]> (state minted_table)).
Definition busy_history : list op :=
  [OpUpdateLastUsed "other"; OpUpdateLastUsed (Service.ID minted); OpRevoke (Service.ID minted);
   OpDeleteExpiredEphemeral].

Lemma shared_table_wf : table_wf (state shared_table).
Proof.
  apply (insert_wf _ (mkRow "other" "bob" "x" None "h" StatusActive [] 0 None None
    false "basic" "blue" None)); [exact after_mint_wf|by_compute].
Qed.

Lemma history_keeps_constraints_witness :
  table_wf (state (@run_ops _ (PG.store doc_store) busy_history shared_table)) ∧
  state (@run_ops _ (PG.store doc_store) busy_history shared_table) !! "other" =
    state shared_table !! "other".
Proof.
  destruct (history_keeps_constraints doc_store busy_history shared_table
    shared_table_wf) as [Hwf Hother].
  split; [exact Hwf|].
  assert (∃ r, state shared_table !! "other" = Some r ∧ r_tenant r = "blue")
    as (r & Hr & Ht) by (eexists; split; by_compute).
  rewrite Hr. apply Hother; [rewrite Ht; discriminate|exact Hr].
Defined.

Lemma key_lifecycle_witness :
  ∃ r r', state shared_table !! Service.ID minted = Some r ∧
    state (@run_ops _ (PG.store doc_store) busy_history shared_table)
      !! Service.ID minted = Some r' ∧
    r_status r = StatusActive ∧ r_status r' = StatusRevoked ∧
    r_username r' = r_username r.
Proof.
  assert (∃ r r', state shared_table !! Service.ID minted = Some r ∧
    state (@run_ops _ (PG.store doc_store) busy_history shared_table)
      !! Service.ID minted = Some r' ∧
    r_status r = StatusActive ∧ r_status r' = StatusRevoked ∧
    r_ephemeral r = false) as (r & r' & Hr & Hr' & Ha & Hs & He)
    by (do 2 eexists; split_and!; by_compute).
  exists r, r'. do 4 (split; [done|]).
  destruct (key_lifecycle doc_store busy_history shared_table (Service.ID minted) r
    shared_table_wf Hr) as [(x & Hx & _ & Hu & _)|(He' & _)]; [|congruence].
  assert (Some r' = Some x) as [= ->]
    by (etrans; [symmetry; exact Hr'|exact Hx]). exact Hu.
Defined.
