(* ===== verification/KeyHandler.v ===== *)
(** The HTTP handlers of API keys,
    [src/maas-api/internal/api_keys/handler.go]. *)
From S2P Require Import Prelude GoStrings Regex Unstructured GoTime Runtime.
From S2P Require Import SubscriptionTypes KeyGen ApiKeyTypes KeyStore KeyService.
From S2P Require Import Http.
From stdpp Require Import pretty.
Import Keys Http.

Module KeyHandler.

(** The order a [range] over a map takes. *)
Class MapRange : Type := {
  map_range {A} : gmap string A → list (string * A);
  map_range_perm {A} (m : gmap string A) : map_range m ≡ₚ map_to_list m;
}.

(** [adminChecker] answers the check made at a tick; [metrics] tells whether a
    recorder is configured.
    [src/maas-api/internal/api_keys/handler.go:46-51] Handler. *)
Record Handler : Type := mkHandler {
  service : Service.Service;
  adminChecker : nat → UserContext → result string bool;
  metrics : bool;
}.

(** [src/maas-api/internal/api_keys/handler.go:53-58] MetricsRecorder. *)
Inductive event : Type :=
  | RecordKeyValidation (tenant res : string)
  | RecordTokenMint (tenant res : string)
  | RecordRejection (reason : Rejection).

(** The JSON bodies. *)
Inductive payload : Type :=
  | ConfigBody (max_expiration_days : Z) (ephemeral_max_expiration : string)
  | KeyBody (k : ApiKey)
  | CreatedBody (c : Service.CreateAPIKeyResponse)
  | ValidationBody (r : ValidationResult)
  | SearchBody (r : SearchAPIKeysResponse)
  | BulkBody (r : BulkRevokeResponse)
  | TenantBody (RevokedCount : Z) (Message : string)
  | CleanupBody (DeletedCount : Z) (Message : string)
  | ErrorBody (error : string)
  | ErrorCodeBody (error code : string).

Definition error (code : Z) (msg : string) : response payload :=
  JSON code (ErrorBody msg).

(** [src/maas-api/internal/api_keys/handler.go:22-27] apiKeySubscriptionResolutionErrCode. *)
Definition apiKeySubscriptionResolutionErrCode : string := "invalid_subscription".
(** [src/maas-api/internal/api_keys/handler.go:26-26] apiKeySubscriptionResolutionErrMsg. *)
Definition apiKeySubscriptionResolutionErrMsg : string :=
  "Unable to resolve a subscription for this API key".

(** ** Validation of names and labels *)

(** [[\x00-\x1F\x7F]]: a rune outside ASCII has no byte in the class.
    [src/maas-api/internal/api_keys/handler.go:29-31] invalidKeyNameCharsPattern. *)
Definition control_byte (c : ascii) : bool :=
  (code c <=? 31) || (code c =? 127).
(** [src/maas-api/internal/api_keys/handler.go:30-31] invalidLabelCharsPattern. *)
Definition invalidChars (s : string) : bool := any_byte control_byte s.

Definition alnum : RE.re := RE.Chr KeyGen.base62_byte.
Definition label_class (extra : list ascii) : RE.re :=
  RE.Chr (λ c, KeyGen.base62_byte c || contains extra c).

(** [X([XY]*X)?], the shape of both parts of a label key. *)
Definition delimited (inner : RE.re) : RE.re :=
  RE.Cat alnum (RE.Opt (RE.Cat (RE.Star inner) alnum)).

(** [src/maas-api/internal/api_keys/handler.go:32-37] validLabelKeyPattern. *)
Definition validLabelKeyPattern : RE.re :=
  RE.Cat
    (RE.Opt (RE.Cat (delimited (label_class ["."; "-"]%char))
                    (RE.Chr (λ c, c == "/"%char))))
    (delimited (label_class ["."; "_"; "-"]%char)).

(** [src/maas-api/internal/constant/const.go:40-40] MaxLabelsEntries. *)
Definition MaxLabelsEntries : nat := 50.
(** [src/maas-api/internal/constant/const.go:41-41] MaxLabelKeyLength. *)
Definition MaxLabelKeyLength : nat := 128.
(** [src/maas-api/internal/constant/const.go:42-42] MaxLabelValueLength. *)
Definition MaxLabelValueLength : nat := 1024.

(** The body of the loop over the labels.
    [src/maas-api/internal/api_keys/handler.go:337-364] validateLabels. *)
Definition label_error (kv : string * string) : option string :=
  let '(key, value) := kv in
  if String.length key =? 0 then Some "label keys cannot be empty"
  else if MaxLabelKeyLength <? String.length key then
    Some ("label key '" +:+ key +:+ "' exceeds 128 characters")
  else if negb (RE.matches validLabelKeyPattern key) then
    Some ("label key '" +:+ key +:+ "' contains invalid characters (only alphanumerics, dots, underscores, hyphens allowed)")
  else if String.length value =? 0 then
    Some ("label value for key '" +:+ key +:+ "' cannot be empty")
  else if MaxLabelValueLength <? String.length value then
    Some ("label value for key '" +:+ key +:+ "' exceeds 1024 characters")
  else if invalidChars value then
    Some ("label value for key '" +:+ key +:+ "' contains invalid control characters")
  else None.

(** The first error in the order of the loop.
    [src/maas-api/internal/api_keys/handler.go:324-366] validateLabels. *)
Definition validateLabels `{MapRange} (labels : option (gmap string string))
    : option string :=
  match labels with
  | None => None
  | Some m =>
      if MaxLabelsEntries <? size m then
        Some "labels cannot exceed 50 key-value pairs"
      else match omap label_error (map_range m) with
           | [] => None
           | e :: _ => Some e
           end
  end.

(** [src/maas-api/internal/api_keys/handler.go:190-197] CreateAPIKeyRequest. *)
Record CreateAPIKeyRequest : Type := mkCreate {
  Name : string;
  Description : string;
  Subscription : string;
  ExpiresIn : option Z;
  Ephemeral : bool;
  Labels : option (gmap string string);
}.

(** The check of a name that was given.
    [src/maas-api/internal/api_keys/handler.go:232-246] CreateAPIKey. *)
Definition name_error (name : string) : option string :=
  if String.length name =? 0 then Some "key name cannot be whitespace only"
  else if 128 <? RuneCountInString name then
    Some "key name cannot exceed 128 characters"
  else if invalidChars name then
    Some "key name contains invalid control characters"
  else None.

(** ** Responses to service errors *)

(** [src/maas-api/internal/api_keys/handler.go:272-309] CreateAPIKey. *)
Definition create_failure (e : Service.service_error)
    : response payload * string :=
  match e with
  | Service.ErrExpirationNotPositive =>
      (error StatusBadRequest "expiration must be positive", "rejected")
  | Service.ErrExpirationExceedsMax message =>
      (error StatusBadRequest message, "rejected")
  | Service.SelectionFailed
      (Sub.SubscriptionNotFoundError _ | Sub.AccessDeniedError _
      | Sub.NoSubscriptionError | Sub.MultipleSubscriptionsError _
      | Sub.ModelNotInSubscriptionError _ _) =>
      (JSON StatusBadRequest
         (ErrorCodeBody apiKeySubscriptionResolutionErrMsg
            apiKeySubscriptionResolutionErrCode), "rejected")
  | Service.SelectionFailed (Sub.ModelUnhealthyError _ phase _ message) =>
      (JSON (if phase == "Failed" then StatusForbidden else StatusBadRequest)
         (ErrorCodeBody message "subscription_not_ready"), "rejected")
  | _ => (error StatusInternalServerError "Failed to create API key", "failure")
  end.

(** [src/maas-api/internal/api_keys/handler.go:660-669] RevokeTenantAPIKeys. *)
Definition tenant_failure (e : Service.service_error) : response payload :=
  match e with
  | Service.ErrTenantRequired => error StatusBadRequest "tenant is required"
  | _ => if Service.is_tenant_mismatch e
         then error StatusBadRequest "tenant mismatch"
         else error StatusInternalServerError "Failed to revoke tenant API keys"
  end.

(** [src/maas-api/internal/api_keys/handler.go:782-792] bulkRevokeScopeDescription. *)
Definition bulkRevokeScopeDescription (req : BulkRevokeRequest) : string :=
  if (br_Username req != "") && (br_Subscription req != "") then
    "user " +:+ br_Username req +:+ " in subscription " +:+ br_Subscription req
  else if br_Subscription req != "" then
    "subscription " +:+ br_Subscription req
  else "user " +:+ br_Username req.

Section handlers.
Context {S : Type} `{Env, Store.MetadataStore S, MapRange}.
Notation hprog := (prog (Service.svc S)).

(** [src/maas-api/internal/api_keys/handler.go:60-65] GetAPIKeyConfig. *)
Definition GetAPIKeyConfig (h : Handler) : response payload :=
  JSON StatusOK
    (ConfigBody (Service.GetMaxExpirationDays (service h))
       (dur_String Service.DefaultEphemeralKeyMaxExpiration)).

(** The user, or the response already written.
    [src/maas-api/internal/api_keys/handler.go:82-98] getUserContext. *)
Definition getUserContext (user : context_user)
    : result (response payload) UserContext :=
  match user with
  | NoUser => Err (error StatusInternalServerError "User context not found")
  | OtherType =>
      Err (error StatusInternalServerError "Invalid user context type")
  | User u => Ok u
  end.

(** [src/maas-api/internal/api_keys/handler.go:109-117] isAdmin. *)
Definition isAdmin (h : Handler) (user : UserContext)
    : hprog (result string bool) :=
  n ← tick; mret (adminChecker h n user).

(** [src/maas-api/internal/api_keys/handler.go:119-130] isAuthorizedForKey. *)
Definition isAuthorizedForKey (h : Handler) (user : UserContext)
    (keyOwner keyTenant : string) : hprog (result string bool) :=
  if Tenant user != keyTenant then mret (Ok false)
  else if Username user == keyOwner then mret (Ok true)
  else isAdmin h user.

(** [src/maas-api/internal/api_keys/handler.go:132-136] recordTokenMint. *)
Definition recordTokenMint (h : Handler) (tenant res : string) : list event :=
  if metrics h then [RecordTokenMint tenant res] else [].

(** [src/maas-api/internal/api_keys/handler.go:169-169] GetAPIKey. *)
Definition key_not_found : response payload :=
  error StatusNotFound "API key not found".

(** The lookup and the authorization check that [GetAPIKey] and
    [RevokeAPIKey] begin with: the key, or the response written instead.
    [src/maas-api/internal/api_keys/handler.go:151-181] GetAPIKey. *)
Definition authorized_key (h : Handler) (user : UserContext) (id : string)
    : hprog (result (response payload) ApiKey) :=
  r ← Service.GetAPIKey id;
  match r with
  | Err ErrKeyNotFound => mret (Err key_not_found)
  | Err _ =>
      mret (Err (error StatusInternalServerError "Failed to retrieve API key"))
  | Ok tok =>
      a ← isAuthorizedForKey h user (k_Username tok) (k_Tenant tok);
      match a with
      | Ok true => mret (Ok tok)
      | Ok false | Err _ => mret (Err key_not_found)
      end
  end.

(** [src/maas-api/internal/api_keys/handler.go:138-184] GetAPIKey. *)
Definition GetAPIKey (h : Handler) (user : context_user) (tokenID : string)
    : hprog (response payload) :=
  if tokenID == "" then mret (error StatusBadRequest "Token ID required")
  else match getUserContext user with
       | Err r => mret r
       | Ok u =>
           r ← authorized_key h u tokenID;
           match r with
           | Err resp => mret resp
           | Ok tok => mret (JSON StatusOK (KeyBody tok))
           end
       end.

(** [src/maas-api/internal/api_keys/handler.go:228-246] CreateAPIKey. *)
Definition key_name (req : CreateAPIKeyRequest) : hprog (result string string) :=
  if Ephemeral req && (Name req == "") then
    t ← now; mret (Ok ("ephemeral-" +:+ pretty t))
  else
    let name := TrimSpace (Name req) in
    match name_error name with
    | Some e => mret (Err e)
    | None => mret (Ok name)
    end.

(** [src/maas-api/internal/api_keys/handler.go:204-322] CreateAPIKey. *)
Definition CreateAPIKey (h : Handler) (user : context_user)
    (bound : result string CreateAPIKeyRequest)
    : hprog (response payload * list event) :=
  match bound with
  | Err e => mret (error StatusBadRequest e, [])
  | Ok req =>
      match getUserContext user with
      | Err r => mret (r, [])
      | Ok u =>
          if negb (Ephemeral req) && (Name req == "") then
            mret (error StatusBadRequest
                    "name is required for non-ephemeral keys", [])
          else match validateLabels (Labels req) with
          | Some e => mret (error StatusBadRequest e, [])
          | None =>
              n ← key_name req;
              match n with
              | Err e => mret (error StatusBadRequest e, [])
              | Ok name =>
                  let expiresIn :=
                    match ExpiresIn req with
                    | Some d => Some d
                    | None => if Ephemeral req then Some Hour else None
                    end in
                  r ← Service.CreateAPIKey (service h) (Username u) (Groups u)
                        name (Description req) expiresIn (Ephemeral req)
                        (TrimSpace (Subscription req)) (Tenant u) (Labels req);
                  match r with
                  | Err e =>
                      let '(resp, res) := create_failure e in
                      mret (resp, recordTokenMint h (Tenant u) res)
                  | Ok c =>
                      mret (JSON StatusCreated (CreatedBody c),
                            recordTokenMint h (Tenant u) "success")
                  end
              end
          end
      end
  end.

(** [src/maas-api/internal/api_keys/handler.go:373-414] ValidateAPIKeyHandler. *)
Definition ValidateAPIKeyHandler (h : Handler) (bound : result string string)
    : hprog (response payload * list event) :=
  match bound with
  | Err _ => mret (error StatusBadRequest "key is required", [])
  | Ok key =>
      r ← Service.ValidateAPIKey (service h) key;
      match r with
      | Err _ =>
          mret (error StatusInternalServerError "validation failed",
                if metrics h then
                  [RecordKeyValidation (Service.GetTenantName (service h)) "error"]
                else [])
      | Ok result =>
          mret (JSON StatusOK (ValidationBody result),
                if metrics h then
                  if Valid result
                  then [RecordKeyValidation (val_Tenant result) "valid"]
                  else [RecordKeyValidation (val_Tenant result) "invalid";
                        RecordRejection RejectionUnauthorized]
                else [])
      end
  end.

(** [src/maas-api/internal/api_keys/handler.go:417-483] RevokeAPIKey. *)
Definition RevokeAPIKey (h : Handler) (user : context_user) (keyID : string)
    : hprog (response payload) :=
  if keyID == "" then mret (error StatusBadRequest "API key ID required")
  else match getUserContext user with
  | Err r => mret r
  | Ok u =>
      a ← authorized_key h u keyID;
      match a with
      | Err resp => mret resp
      | Ok _ =>
          r ← Service.RevokeAPIKey keyID;
          match r with
          | Err ErrKeyNotFound => mret key_not_found
          | Err _ =>
              mret (error StatusInternalServerError "Failed to revoke API key")
          | Ok _ =>
              r ← Service.GetAPIKey keyID;
              match r with
              | Err _ => mret (error StatusInternalServerError
                           "Key revoked but failed to retrieve metadata")
              | Ok revokedKey => mret (JSON StatusOK (KeyBody revokedKey))
              end
          end
      end
  end.

(** ** Searching *)

(** The request with its defaults filled in.
    [src/maas-api/internal/api_keys/handler.go:516-531] SearchAPIKeys. *)
Definition search_defaults (req : SearchAPIKeysRequest)
    : SearchFilters * SortParams * PaginationParams :=
  (default no_filters (Filters req),
   default (mkSort DefaultSortBy DefaultSortOrder) (Sort req),
   default (mkPage DefaultLimit 0) (Pagination req)).

(** The username searched for: an administrator's choice, the caller
    otherwise.
    [src/maas-api/internal/api_keys/handler.go:544-564] SearchAPIKeys. *)
Definition search_target (admin : bool) (user : UserContext)
    (filters : SearchFilters) : result (response payload) string :=
  let target := f_Username filters in
  if admin then Ok target
  else if (target != "") && (target != Username user) then
    Err (error StatusForbidden
           "non-admin users can only search their own API keys")
  else Ok (Username user).

(** Sort order and page size, validated and normalised.
    [src/maas-api/internal/api_keys/handler.go:566-608] SearchAPIKeys. *)
Definition search_params (filters : SearchFilters) (sort : SortParams)
    (page : PaginationParams)
    : result (response payload) (SortParams * PaginationParams) :=
  if (By sort != "") && negb (contains ValidSortFields (By sort)) then
    Err (error StatusBadRequest
      "invalid sort.by: must be one of: created_at, expires_at, last_used_at, name")
  else
    let orderLower := ToLower (TrimSpace (Order sort)) in
    if (Order sort != "") && negb (contains ValidSortOrders orderLower) then
      Err (error StatusBadRequest "invalid sort.order: must be asc or desc")
    else
      let sort := mkSort (By sort)
                    (if Order sort == "" then "" else orderLower) in
      if (Limit page <? 1)%Z then
        Err (error StatusBadRequest "pagination.limit must be at least 1")
      else
        let page := mkPage (Z.min (Limit page) MaxLimit) (Offset page) in
        if (Offset page <? 0)%Z then
          Err (error StatusBadRequest "pagination.offset must be non-negative")
        else match validateLabels (Some (f_LabelsContain filters)) with
             | Some e => Err (error StatusBadRequest e)
             | None => Ok (sort, page)
             end.

(** [src/maas-api/internal/api_keys/handler.go:485-636] SearchAPIKeys. *)
Definition SearchAPIKeys (h : Handler) (user : context_user)
    (bound : result string SearchAPIKeysRequest) : hprog (response payload) :=
  match user, bound with
  | NoUser, _ => mret (JSON StatusOK (SearchBody (mkSearchResponse "list" [] false)))
  | _, Err e => mret (error StatusBadRequest e)
  | OtherType, _ =>
      mret (error StatusInternalServerError "Invalid user context type")
  | User u, Ok req =>
      let '(filters, sort, page) := search_defaults req in
      match find_first (λ st, negb (contains ValidStatuses (TrimSpace st)))
              (f_Status filters) with
      | Some st =>
          mret (error StatusBadRequest ("invalid status '" +:+ st
                  +:+ "': must be active, revoked, or expired"))
      | None =>
          a ← isAdmin h u;
          match a with
          | Err _ => mret (error StatusInternalServerError
                       "Failed to check authorization")
          | Ok admin =>
              match search_target admin u filters with
              | Err r => mret r
              | Ok target =>
                  match search_params filters sort page with
                  | Err r => mret r
                  | Ok (sort, page) =>
                      r ← Service.Search target (Tenant u) filters sort page;
                      match r with
                      | Err _ => mret (error StatusInternalServerError
                                   "Failed to search API keys")
                      | Ok result =>
                          mret (JSON StatusOK (SearchBody
                            (mkSearchResponse "list" (page_Keys result)
                               (page_HasMore result))))
                      end
                  end
              end
          end
      end
  end.

(** ** Many keys *)

(** [src/maas-api/internal/api_keys/handler.go:638-653] CleanupExpiredEphemeralKeys. *)
Definition CleanupExpiredEphemeralKeys : hprog (response payload) :=
  r ← Service.CleanupExpiredEphemeral;
  match r with
  | Err _ => mret (error StatusInternalServerError
               "Failed to cleanup expired ephemeral keys")
  | Ok count =>
      mret (JSON StatusOK (CleanupBody count
        ("Successfully deleted " +:+ pretty count
         +:+ " expired ephemeral key(s)")))
  end.

(** [src/maas-api/internal/api_keys/handler.go:655-678] RevokeTenantAPIKeys. *)
Definition RevokeTenantAPIKeys (h : Handler) (param : string)
    : hprog (response payload) :=
  let tenant := TrimSpace param in
  r ← Service.RevokeTenantAPIKeys (service h) tenant;
  match r with
  | Err e => mret (tenant_failure e)
  | Ok count =>
      mret (JSON StatusOK (TenantBody count
        ("Successfully revoked " +:+ pretty count
         +:+ " active API key(s) for tenant " +:+ tenant)))
  end.

(** Whether the scope asks for more than the caller's own keys.
    [src/maas-api/internal/api_keys/handler.go:706-709] BulkRevokeAPIKeys. *)
Definition needsAdmin (user : UserContext) (req : BulkRevokeRequest) : bool :=
  (br_Subscription req != "")
  || ((br_Username req != "") && (br_Username req != Username user)).

(** [src/maas-api/internal/api_keys/handler.go:710-728] BulkRevokeAPIKeys. *)
Definition bulk_authorization (h : Handler) (user : UserContext)
    (req : BulkRevokeRequest) : hprog (option (response payload)) :=
  if needsAdmin user req then
    a ← isAdmin h user;
    match a with
    | Err _ => mret (Some (error StatusInternalServerError
                 "Failed to check authorization"))
    | Ok false => mret (Some (error StatusForbidden
        "Access denied: admin privileges required for this bulk revoke operation"))
    | Ok true => mret None
    end
  else mret None.

(** The count is answered after the counting, or after the revocation; an
    audit record is written in the latter case only.
    [src/maas-api/internal/api_keys/handler.go:680-780] BulkRevokeAPIKeys. *)
Definition BulkRevokeAPIKeys (h : Handler) (user : context_user)
    (bound : result string BulkRevokeRequest) : hprog (response payload) :=
  match bound with
  | Err e => mret (error StatusBadRequest e)
  | Ok req =>
      let req := mkBulkRevoke (TrimSpace (br_Username req))
                   (TrimSpace (br_Subscription req)) (br_DryRun req) in
      if (br_Username req == "") && (br_Subscription req == "") then
        mret (error StatusBadRequest
                "at least one of username or subscription is required")
      else match getUserContext user with
      | Err r => mret r
      | Ok u =>
          denied ← bulk_authorization h u req;
          match denied with
          | Some r => mret r
          | None =>
              let scopeDesc := bulkRevokeScopeDescription req in
              r ← Service.BulkRevokeAPIKeys (br_Username req)
                    (br_Subscription req) (Tenant u) (br_DryRun req);
              match r with
              | Err _ =>
                  mret (error StatusInternalServerError
                    (if br_DryRun req then "Failed to perform dry-run"
                     else "Failed to revoke API keys"))
              | Ok count =>
                  mret (JSON StatusOK (BulkBody (mkBulkResponse count
                    (if br_DryRun req then
                       "Dry run: " +:+ pretty count
                       +:+ " active key(s) would be revoked for " +:+ scopeDesc
                     else
                       "Successfully revoked " +:+ pretty count
                       +:+ " active API key(s) for " +:+ scopeDesc)
                    (br_DryRun req))))
              end
          end
      end
  end.
End handlers.
End KeyHandler.
