(* ===== verification/KeyHandlerCorrectness.v ===== *)
(** The properties of the key handlers: who may read, revoke and search which
    keys, and what a refused request reveals. *)
From S2P Require Import Prelude GoStrings Regex Unstructured Sorting GoTime.
From S2P Require Import Runtime SubscriptionTypes KeyGen ApiKeyTypes KeyStore.
From S2P Require Import PostgresStore PostgresFacts.
From S2P Require Import KeyService KeyServiceCorrectness.
From S2P Require Import Http KeyHandler KeyExamples.
Import Keys Store Service Http KeyHandler.

(** ** Labels *)

Definition valid_label (key value : string) : Prop :=
  String.length key ≤ 128 ∧ RE.lang validLabelKeyPattern key ∧
  0 < String.length value ≤ 1024 ∧ invalidChars value = false.

Definition label_byte (c : ascii) : bool :=
  KeyGen.base62_byte c || contains ["."; "_"; "-"; "/"]%char c.

Lemma pattern_over : RE.over label_byte validLabelKeyPattern.
Proof.
  assert (∀ c l, KeyGen.base62_byte c || contains l c = true →
    forallb (contains ["."; "_"; "-"; "/"]%char) l = true →
    label_byte c = true) as Hc.
  { intros c l Hc Hl. unfold label_byte. apply orb_true_iff in Hc as [->|Hc]; [done|].
    apply orb_true_iff. right. rewrite forallb_elem_of in Hl.
    by apply Hl, contains_true. }
  assert (∀ c, KeyGen.base62_byte c = true → label_byte c = true) as Ha
    by (intros c Hc'; unfold label_byte; by rewrite Hc').
  unfold validLabelKeyPattern, delimited, RE.Opt, label_class, alnum. simpl.
  split_and!; try done;
    intros c Hc'; try (by apply Ha);
    try (apply (Hc c ["."; "-"]%char); [exact Hc'|by_compute]);
    try (apply (Hc c ["."; "_"; "-"]%char); [exact Hc'|by_compute]).
  apply bool_decide_eq_true in Hc' as ->. by_compute.
Qed.

Lemma pattern_nonempty key : RE.lang validLabelKeyPattern key → key ≠ "".
Proof. intros H ->. by apply RE.matches_lang in H. Qed.

Lemma label_error_None key value :
  label_error (key, value) = None ↔ valid_label key value.
Proof.
  unfold label_error, valid_label, MaxLabelKeyLength, MaxLabelValueLength.
  rewrite <-RE.matches_lang.
  destruct (Nat.eqb_spec (String.length key) 0) as [E0|E0].
  { split; [done|]. intros (_ & Hm & _). apply RE.matches_lang, pattern_nonempty in Hm.
    by destruct key. }
  destruct (Nat.ltb_spec 128 (String.length key)); [split; [done|lia]|].
  destruct (RE.matches validLabelKeyPattern key); simpl; [|naive_solver].
  destruct (Nat.eqb_spec (String.length value) 0); [split; [done|lia]|].
  destruct (Nat.ltb_spec 1024 (String.length value)); [split; [done|lia]|].
  destruct (invalidChars value); [naive_solver|].
  split; [|done]. intros _. split_and!; [lia|done|lia|lia|done].
Qed.

#[local] Arguments label_error : simpl never.
#[local] Arguments validateLabels : simpl never.

(** Label validation is exact and does not depend on the order Go ranges
    over the map in: it passes exactly the maps of at most 50 entries whose
    keys have at most 128 bytes and the Kubernetes grammar and whose values
    have 1 to 1024 bytes and no control character; every byte of an accepted
    key is alphanumeric, a dot, an underscore, a hyphen or a slash. *)
Theorem validateLabels_exact `{MapRange} m :
  (validateLabels (Some m) = None ↔
   size m ≤ 50 ∧ ∀ key value, m !! key = Some value → valid_label key value) ∧
  (validateLabels (Some m) = None →
   ∀ key value, m !! key = Some value → all_bytes label_byte key = true).
Proof.
  assert (validateLabels (Some m) = None ↔
    size m ≤ 50 ∧ ∀ key value, m !! key = Some value → valid_label key value)
    as Hiff.
  { unfold validateLabels, MaxLabelsEntries.
    destruct (Nat.ltb_spec 50 (size m)); [split; [done|lia]|].
    assert ((∀ key value, m !! key = Some value → valid_label key value) ↔
            omap label_error (map_range m) = []) as ->.
    { setoid_rewrite <-label_error_None. setoid_rewrite <-elem_of_map_to_list.
      setoid_rewrite <-map_range_perm.
      induction (map_range m) as [|[k v] l IH]; simpl.
      { split; [done|]. by intros _ k v Hin%elem_of_nil. }
      split.
      - intros Hall. rewrite Hall by left. apply IH. intros k' v' Hin.
        apply Hall. by right.
      - destruct (label_error (k, v)) eqn:El; [done|].
        intros E k' v' [[= -> ->]|Hin]%elem_of_cons; [done|].
        change (omap label_error l = []) in E. rewrite <-IH in E. by apply E. }
    destruct (omap label_error (map_range m)); naive_solver. }
  split; [done|]. intros [_ Hall]%Hiff key value (_ & Hk & _)%Hall.
  eapply RE.lang_over, Hk. apply pattern_over.
Qed.

Section properties.
Context {S : Type} `{Env, MetadataStore S, !StoreLaws S, MapRange}.
Implicit Types (w : io (svc S)) (u : UserContext).

(** ** Authorization *)

(** The caller may act on this key: same tenant, and the owner or an
    administrator by some answer of the checker. *)
Definition may_access (h : Handler) u (v : view) : Prop :=
  v_tenant v = Tenant u ∧
  (v_username v = Username u ∨ ∃ n, adminChecker h n u = Ok true).

Lemma service_Get_run id w :
  Service.GetAPIKey id w =
  ((Get id (store_io w)).1,
   IO (ticks (Get id (store_io w)).2)
     (mkSvc (state (Get id (store_io w)).2) (lastUsedDebounce (state w))
        (goroutines (state w)))).
Proof. apply in_store_run. Qed.

Lemma isAuthorizedForKey_run h u owner tenant w :
  let a := isAuthorizedForKey h u owner tenant w in
  state a.2 = state w ∧
  (a.1 = Ok true → tenant = Tenant u ∧
     (owner = Username u ∨ ∃ n, adminChecker h n u = Ok true)).
Proof.
  unfold isAuthorizedForKey, isAdmin. simpl.
  destruct (decide (Tenant u = tenant)) as [<-|];
    [rewrite bool_decide_eq_true_2 by done|by rewrite bool_decide_eq_false_2].
  simpl. destruct (decide (Username u = owner)) as [<-|];
    [rewrite bool_decide_eq_true_2 by done|rewrite bool_decide_eq_false_2 by done].
  { auto. }
  rewrite bind_run. simpl. eauto 10.
Qed.

Lemma wf_Get id (w : io S) : wf (state w) → wf (state (Get id w).2).
Proof. apply (op_wf (OpGet id)). Qed.
Lemma keys_Get id (w : io S) :
  wf (state w) → keys (state (Get id w).2) = keys (state w).
Proof. intros. by apply (op_reads (OpGet id)). Qed.

(** The common beginning of reading and revoking a key. *)
Lemma authorized_key_run h u id w :
  wf (st (state w)) →
  let a := authorized_key h u id w in
  wf (st (state a.2)) ∧ keys (st (state a.2)) = keys (st (state w)) ∧
  (a.1 = Err key_not_found ∨
   a.1 = Err (error StatusInternalServerError "Failed to retrieve API key") ∨
   ∃ k v, a.1 = Ok k ∧ k_ID k = id ∧ keys (st (state w)) !! id = Some v ∧
     in_scope (v_tenant v) = true ∧ may_access h u v).
Proof.
  intros Hwf. unfold authorized_key. rewrite bind_run, service_Get_run. simpl.
  pose proof (wf_Get id (store_io w) Hwf) as Hwf'.
  pose proof (keys_Get id (store_io w) Hwf) as Hk'.
  destruct (Get id (store_io w)) as [x i] eqn:Hg. simpl in *.
  destruct x as [k|[]]; simpl; try (split_and!; [done|done|tauto]).
  rewrite bind_run. set (w1 := IO _ _).
  destruct (isAuthorizedForKey_run h u (k_Username k) (k_Tenant k) w1) as [Hs Ha].
  destruct (isAuthorizedForKey h u (k_Username k) (k_Tenant k) w1) as [a w2].
  simpl in *. destruct a as [[]|e]; simpl; rewrite Hs; simpl;
    (split; [done|]; split; [done|]); [|by left..].
  right; right. apply Get_Ok in Hg as (v & Hv & Hsc & Hid & Hu & Ht); [|done].
  exists k, v. split_and!; try done. destruct (Ha eq_refl) as [Ht' Ho].
  split; [congruence|]. by rewrite <-Hu.
Qed.

(** Reading a key. The three possible answers to a lookup by a caller are
    the key, one and the same 404 body, and one and the same 500 body: the key
    is answered only to its owner or an administrator of its own tenant, so a
    key the caller may not see and a key that does not exist cannot be told
    apart; nothing is changed in the store. *)
Theorem GetAPIKey_no_oracle h u id w :
  wf (st (state w)) → id ≠ "" →
  let a := GetAPIKey h (User u) id w in
  keys (st (state a.2)) = keys (st (state w)) ∧
  (a.1 = key_not_found ∨
   a.1 = error StatusInternalServerError "Failed to retrieve API key" ∨
   ∃ k v, a.1 = JSON StatusOK (KeyBody k) ∧ k_ID k = id ∧
     keys (st (state w)) !! id = Some v ∧ may_access h u v) ∧
  ((∀ v, keys (st (state w)) !! id = Some v → ¬ may_access h u v) →
   a.1 = key_not_found ∨
   a.1 = error StatusInternalServerError "Failed to retrieve API key").
Proof.
  intros Hwf Hid. unfold GetAPIKey. rewrite bool_decide_eq_false_2 by done. simpl.
  rewrite bind_run. destruct (authorized_key_run h u id w Hwf) as (_ & Hk & Hc).
  destruct (authorized_key h u id w) as [x w1]. simpl in *.
  destruct Hc as [-> |[-> |(k & v & -> & Hkid & Hv & _ & Hm)]]; simpl.
  - auto.
  - auto.
  - split; [done|]. split; [eauto 10|]. intros Hno. by destruct (Hno v Hv).
Qed.

(** Revoking a key. Whatever the answer, the only key a request can change
    is the one it names, and only if the caller may access it; a 200 answer
    means that this key was active and is now revoked. *)
Theorem RevokeAPIKey_authorized h u id w :
  wf (st (state w)) → id ≠ "" →
  let a := RevokeAPIKey h (User u) id w in
  (∀ id', id' ≠ id →
     keys (st (state a.2)) !! id' = keys (st (state w)) !! id') ∧
  (keys (st (state a.2)) ≠ keys (st (state w)) →
     ∃ v, keys (st (state w)) !! id = Some v ∧ may_access h u v) ∧
  (status a.1 = StatusOK →
     ∃ v, keys (st (state w)) !! id = Some v ∧ may_access h u v ∧
       v_status v = StatusActive ∧
       keys (st (state a.2)) !! id = Some (set_status StatusRevoked v)).
Proof.
  intros Hwf Hid. unfold RevokeAPIKey. rewrite bool_decide_eq_false_2 by done. simpl.
  rewrite bind_run. destruct (authorized_key_run h u id w Hwf) as (Hwf1 & Hk1 & Hc).
  destruct (authorized_key h u id w) as [x w1]. simpl in *.
  destruct Hc as [-> |[-> |(k & v & -> & Hkid & Hv & Hsc & Hm)]]; simpl.
  { rewrite Hk1. done. }
  { rewrite Hk1. done. }
  rewrite bind_run. unfold Service.RevokeAPIKey. rewrite in_store_run. simpl.
  pose proof (λ id' Hne, Revoke_others id id' (store_io w1) Hwf1 Hne) as Hothers.
  pose proof (op_wf (OpRevoke id) (store_io w1) Hwf1) as Hwf2.
  simpl in Hothers, Hwf2. unfold void in Hwf2. simpl in Hwf2. rewrite Hk1 in Hothers.
  destruct (Revoke id (store_io w1)) as [y i] eqn:Hr. simpl in *.
  assert (Hfail : ∀ code : Z, code ≠ StatusOK →
    (∀ id', id' ≠ id → keys (state i) !! id' = keys (st (state w)) !! id') ∧
    (keys (state i) ≠ keys (st (state w)) →
      ∃ v, keys (st (state w)) !! id = Some v ∧ may_access h u v) ∧
    (code = StatusOK → ∃ v, keys (st (state w)) !! id = Some v ∧
      may_access h u v ∧ v_status v = StatusActive ∧
      keys (state i) !! id = Some (set_status StatusRevoked v))).
  { intros r Hne. split; [done|]. split; [eauto|]. by intros ?. }
  destruct y as [[]|[]]; simpl; try (apply Hfail; done).
  apply Revoke_Ok in Hr as (v' & Hv' & _ & Ha & Hk2); [|done].
  simpl in Hv', Hk2. rewrite Hk1 in Hv', Hk2. rewrite Hv in Hv'. injection Hv' as <-.
  rewrite bind_run, service_Get_run. simpl. unfold store_io. simpl.
  set (w3 := IO (ticks i) (state i)).
  pose proof (keys_Get id w3 Hwf2) as Hk3. simpl in Hk3.
  destruct (Get id w3) as [z j]. simpl in *.
  assert (keys (state j) !! id = Some (set_status StatusRevoked v)) as Hlook
    by (rewrite Hk3, Hk2; apply lookup_insert_eq).
  destruct z; simpl; (split; [intros id' ?; rewrite Hk3; by apply Hothers|]);
    (split; [eauto|]); [eauto 10|done].
Qed.
End properties.

(** ** Over the PostgreSQL store *)

Section postgres.
Context `{Env, PG.Database, MapRange} (s : PG.PostgresStore).
#[local] Instance pg_ops : MetadataStore PG.table := PG.store s.
Implicit Types (w : io (svc PG.table)) (u : UserContext).

Definition is_admin (h : Handler) u : Prop := ∃ n, adminChecker h n u = Ok true.

Lemma bulk_authorization_run h u req w :
  let a := bulk_authorization h u req w in
  state a.2 = state w ∧
  (a.1 = None →
   is_admin h u ∨ br_Subscription req = "" ∧
     (br_Username req = "" ∨ br_Username req = Username u)).
Proof.
  unfold bulk_authorization, is_admin. simpl. destruct (needsAdmin u req) eqn:En.
  - unfold isAdmin. rewrite !bind_run. simpl.
    destruct (adminChecker h (ticks w) u) as [[]|] eqn:Ea; simpl;
      (split; [done|]; intros [=]); eauto.
  - split; [done|]. intros _. right. unfold needsAdmin in En. destruct_bools.
    split; [done|]. destruct (decide (br_Username req = "")); [by left|right].
    destruct (decide (br_Username req = Username u)); [done|].
    by rewrite !bool_decide_eq_false_2 in *.
Qed.

(** C37. Bulk revocation through the API is confined. Whatever the request and
    its answer, the only change to the table is that active rows of the
    caller's own tenant become revoked; without administrator rights the
    caller's own rows only; and a dry run changes nothing. *)
Theorem BulkRevokeAPIKeys_confined h u req w id r :
  st (state w) !! id = Some r →
  let w' := (BulkRevokeAPIKeys h (User u) req w).2 in
  st (state w') !! id = Some r ∨
  (st (state w') !! id = Some (PG.set_row_status StatusRevoked r) ∧
   PG.r_status r = StatusActive ∧ PG.r_tenant r = Tenant u ∧
   (is_admin h u ∨ PG.r_username r = Username u) ∧
   ∃ q, req = Ok q ∧ br_DryRun q = false).
Proof.
  intros Hr. unfold BulkRevokeAPIKeys. destruct req as [q|e]; [|by left].
  set (req := mkBulkRevoke _ _ _). simpl.
  destruct ((TrimSpace (br_Username q) == "") &&
            (TrimSpace (br_Subscription q) == "")) eqn:Es; [by left|].
  rewrite bind_run.
  destruct (bulk_authorization_run h u req w) as [Hs Ha].
  destruct (bulk_authorization h u req w) as [x w1]. simpl in *.
  destruct x as [resp|]; simpl; [left; by rewrite Hs|].
  rewrite bind_run. unfold Service.BulkRevokeAPIKeys. simpl. rewrite Es.
  rewrite bind_run, in_store_run. simpl.
  pose proof (BulkRevoke_state s (TrimSpace (br_Username q))
    (TrimSpace (br_Subscription q)) (Tenant u) (br_DryRun q) (store_io w1)) as Hc.
  destruct (PG.BulkRevoke _ _ _ _ _ _) as [y i]. simpl in *.
  assert (Hgoal : state i !! id = Some r ∨
    (state i !! id = Some (PG.set_row_status StatusRevoked r) ∧
     PG.r_status r = StatusActive ∧ PG.r_tenant r = Tenant u ∧
     (is_admin h u ∨ PG.r_username r = Username u) ∧
     ∃ q0, (Ok q : result string BulkRevokeRequest) = Ok q0 ∧ br_DryRun q0 = false)).
  { rewrite Hs in Hc. destruct Hc as [->|(Hd & Ht & ->)]; [by left|].
    rewrite lookup_fmap, Hr. simpl.
    destruct (PG.bulk_where s _ _ (ticks w1) r) eqn:Eb; [right|by left].
    apply bulk_where_iff in Eb as (Hrt & Hst & _ & Hu & _).
    split; [done|]. split; [done|]. split; [congruence|].
    split; [|by exists q]. destruct (Ha eq_refl) as [?|[Hsub Huser]]; [by left|right].
    apply andb_false_iff in Es. rewrite !bool_decide_eq_false in Es.
    destruct Huser as [Huser|Huser]; [tauto|]. rewrite <-Huser. apply Hu. tauto. }
  destruct y; simpl; exact Hgoal.
Qed.

Lemma search_target_spec admin u f :
  match search_target admin u f with
  | Ok target => admin = true ∨ target = Username u
  | Err resp => status resp = StatusForbidden
  end.
Proof.
  unfold search_target. destruct admin; [by left|].
  destruct ((f_Username f != "") && _); [done|by right].
Qed.

Lemma search_params_spec f so p :
  match search_params f so p with
  | Ok (_, p') => (Limit p' ≤ 100)%Z
  | Err resp => status resp = StatusBadRequest
  end.
Proof.
  unfold search_params. destruct (_ && _); [done|]. destruct (_ && _); [done|].
  destruct (Limit p <? 1)%Z; [done|]. simpl. destruct (Offset p <? 0)%Z; [done|].
  destruct (validateLabels (Some (f_LabelsContain f))); [done|]. simpl. unfold MaxLimit. lia.
Qed.

(** Searching through the API is confined. A 200 answer lists at most 100
    keys, all of the store's tenant, and to a caller without administrator
    rights only keys the caller owns, whatever filters were sent; the table is
    not changed. *)
Theorem SearchAPIKeys_confined `{!PG.LawfulDatabase} h u req w r :
  let a := SearchAPIKeys h (User u) req w in
  st (state a.2) = st (state w) ∧
  (a.1 = JSON StatusOK (SearchBody r) → Username u ≠ "" →
   length (Data r) ≤ 100 ∧
   ∀ k, k ∈ Data r → k_Tenant k = PG.tenantName s ∧
     (is_admin h u ∨ k_Username k = Username u)).
Proof.
  unfold SearchAPIKeys. destruct req as [req|e]; [|done].
  destruct (search_defaults req) as [[filters sort] page].
  destruct (find_first _ (f_Status filters)); [done|].
  unfold isAdmin. rewrite !bind_run. simpl.
  destruct (adminChecker h (ticks w) u) as [admin|e] eqn:Ea; simpl; [|done].
  pose proof (search_target_spec admin u filters) as Ht.
  destruct (search_target admin u filters) as [target|resp]; simpl.
  2:{ split; [done|]. intros ->. by simpl in Ht. }
  pose proof (search_params_spec filters sort page) as Hp.
  destruct (search_params filters sort page) as [[so p]|resp]; simpl.
  2:{ split; [done|]. intros ->. by simpl in Hp. }
  rewrite bind_run. unfold Service.Search. rewrite in_store_run. simpl.
  set (i := store_io _).
  pose proof (Search_run s target (Tenant u) filters so p i) as Hs.
  destruct (PG.Search s target (Tenant u) filters so p i) as [x j] eqn:Hsearch.
  simpl in Hs. destruct x as [res|e]; simpl; (split; [exact Hs|]); [|done].
  intros [= <-] Hu. simpl. split.
  - apply Search_Ok_length in Hsearch. lia.
  - intros k Hk. apply (Search_Ok_keys s _ _ _ _ _ _ _ _ k) in Hsearch
      as [Hten Huser]; [|done]. split; [done|].
    destruct Ht as [-> | ->]; [left; by eexists|right; by apply Huser].
Qed.

(** Revoking a tenant's keys through the internal API. A 200 answer means
    that the tenant named, once trimmed, is the store's own, that none of its
    keys is active any more, that the count is of those that were, and that
    every other row is as it was. *)
Theorem RevokeTenantAPIKeys_complete h param w n m :
  let a := RevokeTenantAPIKeys h param w in
  a.1 = JSON StatusOK (TenantBody n m) →
  TrimSpace (TrimSpace param) = PG.tenantName s ∧
  n = Z.of_nat (size (filter (λ kr : string * PG.row,
        PG.r_tenant kr.2 = PG.tenantName s ∧ PG.r_status kr.2 = StatusActive)
        (st (state w)))) ∧
  ∀ id r, st (state w) !! id = Some r → ∃ r', st (state a.2) !! id = Some r' ∧
    (PG.r_tenant r = PG.tenantName s → PG.r_status r' ≠ StatusActive) ∧
    (PG.r_tenant r ≠ PG.tenantName s → r' = r).
Proof.
  unfold RevokeTenantAPIKeys, Service.RevokeTenantAPIKeys. rewrite !bind_run.
  set (t := TrimSpace (TrimSpace param)).
  destruct (t == ""); [done|]. destruct (_ && _).
  { simpl. unfold tenant_failure. simpl. done. }
  rewrite bind_run, in_store_run. simpl.
  destruct (PG.InvalidateTenant s t (store_io w)) as [x i] eqn:Hi.
  destruct x as [k|e]; simpl.
  2:{ unfold tenant_failure. simpl. by destruct e. }
  apply InvalidateTenant_Ok in Hi as (-> & -> & Hst). simpl in Hst.
  intros [= <- <-]. rewrite Hst. split; [done|]. split.
  { unfold PG.count_where. f_equal. f_equal. apply map_filter_ext.
    intros id r _. simpl. by rewrite andb_true_iff, !bool_decide_eq_true. }
  intros id r Hr. rewrite lookup_fmap, Hr. simpl. eexists. split; [done|].
  destruct (decide (PG.r_tenant r = PG.tenantName s)) as [E|E].
  - rewrite (bool_decide_eq_true_2 _ E). simpl. split; [|done]. intros _.
    case_bool_decide; [done|done].
  - by rewrite (bool_decide_eq_false_2 _ E).
Qed.
End postgres.

(** ** Instances *)

#[local] Instance doc_range : MapRange :=
  { map_range A m := map_to_list m; map_range_perm A m := Permutation_refl _ }.

(** Only "root" is an administrator. *)
Definition doc_handler : Handler :=
  mkHandler doc_service (λ _ u, Ok (Username u == "root")) true.
Definition alice : UserContext := mkUser "alice" ["users"] tenant.
Definition mallory : UserContext := mkUser "mallory" ["users"] tenant.

(** Mallory asks for Alice's key. *)
Definition stolen : response payload * io (svc PG.table) :=
  GetAPIKey doc_handler (User mallory) (ID minted) after_mint.

Lemma GetAPIKey_no_oracle_witness :
  stolen.1 = key_not_found ∨
  stolen.1 = error StatusInternalServerError "Failed to retrieve API key".
Proof.
  apply (GetAPIKey_no_oracle doc_handler mallory (ID minted) after_mint
    after_mint_wf).
  - exact minted_ID.
  - intros v Hv [_ [Ho|[n Ha]]].
    + assert (v_username <$> (keys (st (state after_mint)) !! ID minted) =
              Some "alice") as Hu by by_compute.
      rewrite Hv in Hu. apply (inj Some) in Hu. rewrite Ho in Hu. discriminate Hu.
    + discriminate Ha.
Defined.

(** Alice revokes it. *)
Definition alice_revokes : response payload * io (svc PG.table) :=
  RevokeAPIKey doc_handler (User alice) (ID minted) after_mint.

Lemma RevokeAPIKey_authorized_witness :
  ∃ v, keys (st (state after_mint)) !! ID minted = Some v ∧
    keys (st (state alice_revokes.2)) !! ID minted =
      Some (set_status StatusRevoked v).
Proof.
  destruct (RevokeAPIKey_authorized doc_handler alice (ID minted) after_mint
    after_mint_wf) as (_ & _ & H).
  - exact minted_ID.
  - destruct H as (v & Hv & _ & _ & Hv'); [by_compute|].
    exists v. split; [exact Hv|exact Hv'].
Defined.

(** Mallory asks for the revocation of Alice's keys. *)
Lemma BulkRevokeAPIKeys_confined_witness :
  ∃ r, st (state after_mint) !! ID minted = Some r ∧
    let w' := (BulkRevokeAPIKeys doc_handler (User mallory)
                 (Ok (mkBulkRevoke "alice" "" false)) after_mint).2 in
    st (state w') !! ID minted = Some r ∨
    st (state w') !! ID minted = Some (PG.set_row_status StatusRevoked r).
Proof.
  assert (∃ r, st (state after_mint) !! ID minted = Some r) as [r Hr]
    by (eexists; by_compute).
  exists r. split; [exact Hr|].
  destruct (BulkRevokeAPIKeys_confined doc_store doc_handler mallory
    (Ok (mkBulkRevoke "alice" "" false)) after_mint _ r Hr) as [H|[H _]];
    [left; exact H|right; exact H].
Defined.

Lemma SearchAPIKeys_confined_witness :
  ∃ r, (SearchAPIKeys doc_handler (User alice)
          (Ok (mkSearchRequest None None None)) after_mint).1 =
       JSON StatusOK (SearchBody r) ∧ length (Data r) ≤ 100.
Proof.
  assert (∃ r, (SearchAPIKeys doc_handler (User alice)
    (Ok (mkSearchRequest None None None)) after_mint).1 =
    JSON StatusOK (SearchBody r)) as [r Hr] by (eexists; by_compute).
  exists r. split; [exact Hr|].
  destruct (SearchAPIKeys_confined doc_store doc_handler alice
    (Ok (mkSearchRequest None None None)) after_mint r) as [_ H].
  apply H; [exact Hr|discriminate].
Defined.

Lemma RevokeTenantAPIKeys_complete_witness :
  ∃ n m, (RevokeTenantAPIKeys doc_handler " models-as-a-service " after_mint).1 =
    JSON StatusOK (TenantBody n m) ∧
    TrimSpace (TrimSpace " models-as-a-service ") = PG.tenantName doc_store.
Proof.
  assert (∃ n m, (RevokeTenantAPIKeys doc_handler " models-as-a-service "
    after_mint).1 = JSON StatusOK (TenantBody n m)) as (n & m & Hr)
    by (do 2 eexists; by_compute).
  exists n, m. split; [exact Hr|].
  exact (proj1 (RevokeTenantAPIKeys_complete doc_store doc_handler _ after_mint
    n m Hr)).
Defined.
