(* ===== verification/DebounceCorrectness.v ===== *)
(** The debouncing of [last_used_at] writes under concurrency: goroutines
    interleave at the atomic operations of [sync.Map].
    [src/maas-api/internal/api_keys/service.go], [shouldUpdateLastUsed] and
    [StartDebounceCleanup]. *)
From S2P Require Import Prelude GoStrings GoTime Runtime KeyStore KeyService.
From S2P Require Import KeyServiceCorrectness.
From stdpp Require Import relations.
From S2P Require Import KeyExamples.
Import Service.

Module Debounce.

(** Where a goroutine is between two atomic operations. *)
Inductive pc : Type :=
  | Idle
  (** in [shouldUpdateLastUsed], the clock read; then the old value loaded. *)
  | HasNow (k : string) (t : Z)
  | Loaded (k : string) (t lastTime : Z)
  (** in the sweep: its cutoff; then a stale entry seen, not yet deleted. *)
  | Sweeping (cutoff : Z)
  | Evicting (cutoff : Z) (k : string).

(** The clock, the shared map, the goroutines, and the reservations granted,
    newest first. *)
Record sys : Type := mkSys {
  clock : Z;
  slots : gmap string Z;
  threads : gmap nat pc;
  granted : list (string * Z);
}.

Section steps.
(** The TTL, and whether the cleanup goroutine runs. *)
Context (ttl : Z) (cleanup : bool).

Definition at_pc (s : sys) (g : nat) : pc := default Idle (threads s !! g).
Definition move (s : sys) (g : nat) (p : pc) (m : gmap string Z)
    (new : list (string * Z)) : sys :=
  mkSys (clock s) m (<[g := p]> (threads s)) (new ++ granted s).

(** One atomic step of some goroutine, or the passing of time.
    [src/maas-api/internal/api_keys/service.go:404-432] shouldUpdateLastUsed. *)
Inductive step : sys → sys → Prop :=
  | step_time s t :
      (clock s ≤ t)%Z →
      step s (mkSys t (slots s) (threads s) (granted s))
  | step_now s g k :
      at_pc s g = Idle →
      step s (move s g (HasNow k (clock s)) (slots s) [])
  | step_stored s g k t m :
      at_pc s g = HasNow k t → LoadOrStore (slots s) k t = (None, m) →
      step s (move s g Idle m [(k, t)])
  | step_loaded s g k t a m :
      at_pc s g = HasNow k t → LoadOrStore (slots s) k t = (Some a, m) →
      step s (move s g (Loaded k t a) m [])
  | step_skip s g k t a :
      at_pc s g = Loaded k t a → (ttl <=? time_sub t a)%Z = false →
      step s (move s g Idle (slots s) [])
  | step_swap s g k t a ok m :
      at_pc s g = Loaded k t a → (ttl <=? time_sub t a)%Z = true →
      CompareAndSwap (slots s) k a t = (ok, m) →
      step s (move s g Idle m (if ok : bool then [(k, t)] else []))
  | step_sweep s g :
      cleanup = true → at_pc s g = Idle →
      step s (move s g (Sweeping (clock s - ttl)) (slots s) [])
  | step_stale s g c k t :
      at_pc s g = Sweeping c → slots s !! k = Some t → (t < c)%Z →
      step s (move s g (Evicting c k) (slots s) [])
  | step_delete s g c k :
      at_pc s g = Evicting c k →
      step s (move s g (Sweeping c) (delete k (slots s)) [])
  | step_swept s g c :
      at_pc s g = Sweeping c →
      step s (move s g Idle (slots s) []).

End steps.

Definition init (t : Z) : sys := mkSys t ∅ ∅ [].

(** ** Spacing *)

(** The reservations of one key, newest first. *)
Definition grants (k : string) (l : list (string * Z)) : list Z :=
  (List.filter (λ kt : string * Z, kt.1 == k) l).*2.

(** Each at least [ttl] after the one before it. *)
Fixpoint spaced (ttl : Z) (l : list Z) : Prop :=
  match l with
  | t :: ((t' :: _) as l') => (t' + ttl ≤ t)%Z ∧ spaced ttl l'
  | _ => True
  end.

Definition consistent (ttl : Z) (s : sys) : Prop :=
  (∀ k, slots s !! k = head (grants k (granted s)) ∧
        spaced ttl (grants k (granted s))) ∧
  (∀ g p, threads s !! g = Some p →
     match p with Sweeping _ | Evicting _ _ => False | _ => True end).

Lemma grants_cons k k' t l :
  grants k ((k', t) :: l) = if k' == k then t :: grants k l else grants k l.
Proof. unfold grants. simpl. by destruct (k' == k). Qed.

Lemma time_sub_ge ttl t a :
  (0 < ttl)%Z → (ttl <=? time_sub t a)%Z = true → (a + ttl ≤ t)%Z.
Proof. unfold time_sub, min_int64, max_int64. rewrite Z.leb_le. lia. Qed.

Lemma move_pcs (s : sys) g p m new :
  (∀ g' p', threads s !! g' = Some p' →
     match p' with Sweeping _ | Evicting _ _ => False | _ => True end) →
  match p with Sweeping _ | Evicting _ _ => False | _ => True end →
  ∀ g' p', threads (move s g p m new) !! g' = Some p' →
     match p' with Sweeping _ | Evicting _ _ => False | _ => True end.
Proof.
  unfold move. simpl. intros Hs Hp g' p' [[_ <-]|[_ H]]%lookup_insert_Some;
    [done|exact (Hs g' p' H)].
Qed.

Lemma at_pc_not_sweeping ttl s g p :
  consistent ttl s → at_pc s g = p →
  match p with Sweeping _ | Evicting _ _ => False | _ => True end.
Proof.
  intros [_ Hp] <-. unfold at_pc. destruct (threads s !! g) as [p'|] eqn:E; simpl;
    [exact (Hp g p' E)|done].
Qed.

Lemma consistent_grant ttl s g p k t m :
  consistent ttl s →
  match p with Sweeping _ | Evicting _ _ => False | _ => True end →
  m = <[k := t]> (slots s) →
  match slots s !! k with Some a => (a + ttl ≤ t)%Z | None => True end →
  consistent ttl (move s g p m [(k, t)]).
Proof.
  intros [Hs Hp] Hpc -> Ha. split; [|by apply move_pcs].
  intros k'. simpl. rewrite grants_cons. case_bool_decide; subst.
  - rewrite lookup_insert_eq. destruct (Hs k') as [Hk Hsp]. split; [done|].
    rewrite Hk in Ha. simpl. by destruct (grants k' (granted s)).
  - by rewrite lookup_insert_ne.
Qed.

Lemma step_consistent ttl s s' :
  (0 < ttl)%Z → step ttl false s s' → consistent ttl s → consistent ttl s'.
Proof.
  intros Httl Hstep Hc. destruct Hstep as [s t|s g k|s g k t m Hpc Hm|s g k t a m Hpc Hm
    |s g k t a Hpc Hsub|s g k t a ok m Hpc Hsub Hm|s g|s g c k t Hpc|s g c k Hpc|s g c Hpc];
    try (by apply (at_pc_not_sweeping ttl) in Hpc); try done.
  - split; [apply Hc|]. apply move_pcs; [apply Hc|done].
  - unfold LoadOrStore in Hm. destruct (slots s !! k) eqn:E; [done|].
    injection Hm as <-. apply consistent_grant; [done..|]. by rewrite E.
  - unfold LoadOrStore in Hm. destruct (slots s !! k) eqn:E; [|done].
    injection Hm as -> <-. split; [apply Hc|]. apply move_pcs; [apply Hc|done].
  - split; [apply Hc|]. apply move_pcs; [apply Hc|done].
  - unfold CompareAndSwap in Hm. destruct (slots s !! k == Some a) eqn:E.
    + injection Hm as <- <-. apply bool_decide_eq_true in E.
      apply consistent_grant; [done..|]. rewrite E. by apply time_sub_ge.
    + injection Hm as <- <-. split; [apply Hc|]. apply move_pcs; [apply Hc|done].
Qed.

Lemma init_consistent ttl t : consistent ttl (init t).
Proof.
  split; [done|]. intros g p Hp. unfold init in Hp. simpl in Hp.
  by rewrite lookup_empty in Hp.
Qed.

Lemma rtc_consistent ttl s s' :
  (0 < ttl)%Z → rtc (step ttl false) s s' → consistent ttl s → consistent ttl s'.
Proof. intros ?. induction 1; eauto using step_consistent. Qed.

(** ** Schedules, executably *)

(** The choices a scheduler makes; the step of each is computed. *)
Inductive act : Type :=
  | Wait (t : Z)
  | Call (g : nat) (k : string)
  | Continue (g : nat)
  | Sweep (g : nat)
  | Visit (g : nat) (k : string).

Definition perform (ttl : Z) (cleanup : bool) (s : sys) (a : act) : option sys :=
  match a with
  | Wait t =>
      if (clock s <=? t)%Z then Some (mkSys t (slots s) (threads s) (granted s))
      else None
  | Call g k =>
      match at_pc s g with
      | Idle => Some (move s g (HasNow k (clock s)) (slots s) [])
      | _ => None
      end
  | Continue g =>
      match at_pc s g with
      | HasNow k t =>
          let '(old, m) := LoadOrStore (slots s) k t in
          match old with
          | None => Some (move s g Idle m [(k, t)])
          | Some a => Some (move s g (Loaded k t a) m [])
          end
      | Loaded k t a =>
          if (ttl <=? time_sub t a)%Z then
            let '(ok, m) := CompareAndSwap (slots s) k a t in
            Some (move s g Idle m (if ok : bool then [(k, t)] else []))
          else Some (move s g Idle (slots s) [])
      | Evicting c k => Some (move s g (Sweeping c) (delete k (slots s)) [])
      | _ => None
      end
  | Sweep g =>
      match at_pc s g with
      | Idle =>
          if cleanup then Some (move s g (Sweeping (clock s - ttl)) (slots s) [])
          else None
      | _ => None
      end
  | Visit g k =>
      match at_pc s g, slots s !! k with
      | Sweeping c, Some t =>
          if (t <? c)%Z then Some (move s g (Evicting c k) (slots s) []) else None
      | _, _ => None
      end
  end.

Definition schedule (ttl : Z) (cleanup : bool) : list act → sys → option sys :=
  fix go l s :=
    match l with
    | [] => Some s
    | a :: l' => s' ← perform ttl cleanup s a; go l' s'
    end.

Lemma perform_step ttl cleanup s a s' :
  perform ttl cleanup s a = Some s' → step ttl cleanup s s'.
Proof.
  destruct a as [t|g k|g|g|g k]; unfold perform; intros H.
  - destruct (Z.leb_spec (clock s) t); simplify_eq. by constructor.
  - destruct (at_pc s g) eqn:?; simplify_eq. by constructor.
  - destruct (at_pc s g) eqn:?; simplify_eq.
    + destruct (LoadOrStore (slots s) k t) as [[] ?] eqn:?; simplify_eq;
        by econstructor.
    + destruct (ttl <=? time_sub t lastTime)%Z eqn:?.
      * destruct (CompareAndSwap (slots s) k lastTime t) eqn:?; simplify_eq.
        by eapply step_swap.
      * simplify_eq. by eapply step_skip.
    + by constructor.
  - destruct (at_pc s g) eqn:?, cleanup eqn:?; simplify_eq. by constructor.
  - destruct (at_pc s g) eqn:?, (slots s !! k) eqn:?; simplify_eq.
    destruct (Z.ltb_spec t cutoff) || destruct (Z.ltb_spec z cutoff);
      simplify_eq; by econstructor.
Qed.

Lemma schedule_rtc ttl cleanup l : ∀ s s',
  schedule ttl cleanup l s = Some s' → rtc (step ttl cleanup) s s'.
Proof.
  induction l as [|a l IH]; intros s s' H; [by simplify_eq/=|].
  simpl in H. apply bind_Some in H as (s1 & H1 & H2).
  eapply rtc_l; [by eapply perform_step|by apply IH].
Qed.

End Debounce.

(** * Properties *)

Import Service Debounce.

(** Debouncing under concurrency, without the cleanup goroutine. However
    the goroutines interleave, the reservations granted for a key are at least
    the TTL apart, and the slot in the map is the last one granted: between two
    writes of the same key's [last_used_at] lies at least the TTL. *)
Theorem reservations_spaced ttl t0 s k :
  (0 < ttl)%Z → rtc (step ttl false) (init t0) s →
  slots s !! k = head (grants k (granted s)) ∧
  spaced ttl (grants k (granted s)).
Proof.
  intros Httl Hrun.
  destruct (rtc_consistent ttl _ _ Httl Hrun (init_consistent ttl t0)) as [Hk _].
  apply Hk.
Qed.

(** The step relation contains the code: a call of [shouldUpdateLastUsed]
    with nothing in between is a schedule of one idle goroutine, from any
    shared state whose clock is not ahead of the call's reading; it leaves the
    same map, and a reservation is granted exactly when the call says to
    proceed, with the slot it returns. *)
Theorem shouldUpdateLastUsed_schedule {S} `{Env, Store.MetadataStore S}
    sv k (w : io (svc S)) c th gr g :
  lastUsedDebounceTTL sv ≠ 0%Z → (c ≤ wall (ticks w))%Z →
  default Idle (th !! g) = Idle →
  let '((proceed, slot), w') := shouldUpdateLastUsed sv k w in
  ∃ s', rtc (step (lastUsedDebounceTTL sv) false)
          (mkSys c (lastUsedDebounce (state w)) th gr) s' ∧
    slots s' = lastUsedDebounce (state w') ∧ at_pc s' g = Idle ∧
    granted s' = (if proceed : bool then [(k, slot)] else []) ++ gr.
Proof.
  intros Httl Hc Hidle. unfold shouldUpdateLastUsed.
  rewrite (proj2 (Z.eqb_neq _ _)) by done.
  rewrite bind_run, run_now, bind_run, on_debounce_run. simpl.
  set (ttl := lastUsedDebounceTTL sv). set (t := wall (ticks w)) in *.
  set (m := lastUsedDebounce (state w)).
  set (s0 := mkSys c m th gr). set (s1 := mkSys t m th gr).
  set (s2 := move s1 g (HasNow k t) m []).
  assert (rtc (step ttl false) s0 s2) as H02.
  { eapply rtc_l; [by apply (step_time ttl false s0 t)|].
    apply rtc_once. by apply (step_now ttl false s1 g k). }
  assert (at_pc s2 g = HasNow k t) as Hpc2
    by (unfold at_pc; simpl; by rewrite lookup_insert_eq).
  destruct (LoadOrStore m k t) as [[a|] m'] eqn:El; simpl.
  - assert (m' = m) as ->.
    { unfold LoadOrStore in El. by destruct (m !! k); simplify_eq. }
    set (s3 := move s2 g (Loaded k t a) m []).
    assert (rtc (step ttl false) s0 s3) as H03.
    { eapply rtc_r; [exact H02|]. by eapply (step_loaded ttl false s2). }
    assert (at_pc s3 g = Loaded k t a) as Hpc3
      by (unfold at_pc; simpl; by rewrite lookup_insert_eq).
    destruct (ttl <=? time_sub t a)%Z eqn:Esub.
    + rewrite bind_run, on_debounce_run. simpl.
      destruct (CompareAndSwap m k a t) as [ok m2] eqn:Ec. simpl.
      destruct ok; eexists;
        (split; [eapply rtc_r; [exact H03|by eapply step_swap]|]);
        (split; [done|]; split; [|done]);
        unfold at_pc; simpl; by rewrite lookup_insert_eq.
    + exists (move s3 g Idle m []). split.
      { eapply rtc_r; [exact H03|]. by eapply step_skip. }
      split; [done|]. split; [|done].
      unfold at_pc. simpl. by rewrite lookup_insert_eq.
  - exists (move s2 g Idle m' [(k, t)]). split.
    { eapply rtc_r; [exact H02|]. by eapply step_stored. }
    split; [done|]. split; [|done].
    unfold at_pc. simpl. by rewrite lookup_insert_eq.
Qed.

(** The cleanup goroutine breaks the spacing: its sweep sees an entry of age
    one TTL, a validation refreshes it, the sweep's unconditional delete then
    removes the refreshed entry, and the next validation, a second later, is
    granted another write. *)
Theorem cleanup_race :
  ∃ s, rtc (step (60 * Second) true) (init 0) s ∧
    grants "k" (granted s) = [62 * Second; 61 * Second; 0]%Z ∧
    ¬ spaced (60 * Second) (grants "k" (granted s)).
Proof.
  set (trace :=
    [Call 1 "k"; Continue 1;                     (* the first reservation *)
     Wait (61 * Second); Sweep 0; Visit 0 "k";   (* the sweep sees it *)
     Call 2 "k"; Continue 2; Continue 2;         (* a refresh *)
     Continue 0;                                 (* the delete *)
     Wait (62 * Second); Call 3 "k"; Continue 3]).
  destruct (schedule (60 * Second) true trace (init 0)) as [s|] eqn:E;
    [|vm_compute in E; done].
  exists s. split; [exact (schedule_rtc _ _ _ _ _ E)|].
  vm_compute in E. injection E as <-.
  split; [by_compute|]. vm_compute. by intros [[] _].
Qed.

(** ** Instances *)

(** Two goroutines race for the first reservation: one is granted. *)
Lemma reservations_spaced_witness :
  ∃ s, rtc (step Second false) (init 0) s ∧
    grants "k" (granted s) = [0%Z] ∧ slots s !! "k" = Some 0%Z.
Proof.
  destruct (schedule Second false
    [Call 1 "k"; Call 2 "k"; Continue 1; Continue 2; Continue 2] (init 0))
    as [s|] eqn:E; [|vm_compute in E; done].
  pose proof (schedule_rtc _ _ _ _ _ E) as Hrun.
  assert (grants "k" (granted s) = [0%Z]) as Hg
    by (vm_compute in E; injection E as <-; reflexivity).
  exists s. split; [exact Hrun|]. split; [exact Hg|].
  destruct (reservations_spaced Second 0 s "k" eq_refl Hrun) as [H _].
  rewrite Hg in H. exact H.
Defined.

(** The first validation of a key, from an empty map. *)
Lemma shouldUpdateLastUsed_schedule_witness :
  (shouldUpdateLastUsed doc_service "k" empty_world).1 = (true, new_year) ∧
  ∃ s', rtc (step (lastUsedDebounceTTL doc_service) false)
          (mkSys new_year ∅ ∅ []) s' ∧
    slots s' = {[ "k" := new_year ]} ∧ at_pc s' 7 = Idle ∧
    granted s' = [("k", new_year)].
Proof.
  split; [vm_compute; reflexivity|].
  pose proof (shouldUpdateLastUsed_schedule doc_service "k" empty_world new_year
    ∅ [] 7%nat) as H.
  specialize (H ltac:(vm_compute; discriminate) ltac:(vm_compute; discriminate)
    eq_refl).
  assert (shouldUpdateLastUsed doc_service "k" empty_world =
    ((true, new_year), IO 1 (mkSvc ∅ {[ "k" := new_year ]} []))) as E by by_compute.
  rewrite E in H. exact H.
Defined.
