(* ===== verification/AdminCacheCorrectness.v ===== *)
(** The cache of administrator checks: the code of [IsAdmin], and goroutines
    that interleave at its accesses to the shared map.
    [src/maas-api/internal/auth/cached_admin_checker.go]. *)
From S2P Require Import Prelude GoStrings Sorting GoTime Http Runtime.
From stdpp Require Import relations.
From S2P Require Import KeyExamples.
Import Http.

Module AdminCache.

(** [src/maas-api/internal/auth/cached_admin_checker.go:20-24] cacheEntry. *)
Record cacheEntry : Type := mkEntry {
  isAdmin : bool;
  expiresAt : Z;
}.

#[global] Instance cacheEntry_eq_dec : EqDecision cacheEntry.
Proof. solve_decision. Defined.

(** [delegate] answers the check made at a tick.
    [src/maas-api/internal/auth/cached_admin_checker.go:26-38] CachedAdminChecker. *)
Record CachedAdminChecker : Type := mkChecker {
  delegate : nat → UserContext → result string bool;
  ttl : Z;
  negativeTTL : Z;
  maxSize : Z;
}.

(** The mutable part: the map behind the lock and the two counters. *)
Record shared : Type := mkShared {
  cache : gmap string cacheEntry;
  hits : nat;
  misses : nat;
}.

(** The panics are errors.
    [src/maas-api/internal/auth/cached_admin_checker.go:40-76] NewCachedAdminChecker. *)
Definition NewCachedAdminChecker
    (delegate : option (nat → UserContext → result string bool))
    (ttl negativeTTL maxSize : Z) : result string CachedAdminChecker :=
  match delegate with
  | None => Err "delegate cannot be nil for CachedAdminChecker"
  | Some d =>
      if (ttl <=? 0)%Z then Err "ttl must be positive for CachedAdminChecker"
      else if (negativeTTL <=? 0)%Z then
        Err "negativeTTL must be positive for CachedAdminChecker"
      else if (maxSize <=? 0)%Z then
        Err "maxSize must be positive for CachedAdminChecker"
      else Ok (mkChecker d ttl negativeTTL maxSize)
  end.

Definition nul : string := String (byte 0) "".

(** [src/maas-api/internal/auth/cached_admin_checker.go:159-164] cacheKey. *)
Definition cacheKey (user : UserContext) : string :=
  Username user +:+ nul +:+ GoStrings.join nul (sort_stable str_lt (Groups user)).

(** [src/maas-api/internal/auth/cached_admin_checker.go:134-140] evictExpiredLocked. *)
Definition evictExpiredLocked (now : Z) (c : gmap string cacheEntry)
    : gmap string cacheEntry :=
  filter (λ kv, (expiresAt kv.2 <? now)%Z = false) c.

(** The lookup under the read lock, and the test of its freshness.
    [src/maas-api/internal/auth/cached_admin_checker.go:88-95] IsAdmin. *)
Definition fresh (c : gmap string cacheEntry) (key : string) (now : Z)
    : option bool :=
  match c !! key with
  | Some entry => if (now <? expiresAt entry)%Z then Some (isAdmin entry) else None
  | None => None
  end.

(** [src/maas-api/internal/auth/cached_admin_checker.go:107-110] IsAdmin. *)
Definition entry_ttl (ch : CachedAdminChecker) (res : bool) : Z :=
  if res then ttl ch else negativeTTL ch.

(** What is done under the write lock.
    [src/maas-api/internal/auth/cached_admin_checker.go:114-122] IsAdmin. *)
Definition remember (ch : CachedAdminChecker) (key : string) (res : bool)
    (storeTime : Z) (c : gmap string cacheEntry) : gmap string cacheEntry :=
  let c := evictExpiredLocked storeTime c in
  if (Z.of_nat (size c) <? maxSize ch)%Z
  then <[key := mkEntry res (storeTime + entry_ttl ch res)]> c
  else c.

Definition hit (s : shared) : shared := mkShared (cache s) (S (hits s)) (misses s).
Definition miss (c : gmap string cacheEntry) (s : shared) : shared :=
  mkShared c (hits s) (S (misses s)).

(** [ctx.Err()], by tick. *)
Definition Ctx : Type := nat → option string.
Definition ctx_Err (ctx : Ctx) : prog shared (option string) :=
  n ← tick; mret (ctx n).

(** [src/maas-api/internal/auth/cached_admin_checker.go:78-127] IsAdmin. *)
Definition IsAdmin `{Env} (c : option CachedAdminChecker) (ctx : Ctx)
    (user : option UserContext) : prog shared (result string bool) :=
  match c, user with
  | Some ch, Some u =>
      if Username u == "" then mret (Ok false)
      else
        cancelled ← ctx_Err ctx;
        match cancelled with
        | Some e => mret (Err e)
        | None =>
            let key := cacheKey u in
            t ← now;
            s ← get;
            match fresh (cache s) key t with
            | Some answer => _ ← modify hit; mret (Ok answer)
            | None =>
                n ← tick;
                match delegate ch n u with
                | Err e => _ ← modify (λ s, miss (cache s) s); mret (Err e)
                | Ok res =>
                    cancelled ← ctx_Err ctx;
                    match cancelled with
                    | Some e => _ ← modify (λ s, miss (cache s) s); mret (Err e)
                    | None =>
                        storeTime ← now;
                        _ ← modify (λ s,
                              miss (remember ch key res storeTime (cache s)) s);
                        mret (Ok res)
                    end
                end
            end
        end
  | _, _ => mret (Ok false)
  end.

(** ** The delegate of a deployment *)

(** [create_policies] is the answer at a tick of the Kubernetes API to a subject
    access review of creating [maasauthpolicies] in a namespace.
    [src/maas-api/internal/auth/sar_admin_checker.go:18-21] SARAdminChecker. *)
Record SARAdminChecker : Type := mkSAR {
  create_policies : nat → string → string → list string → result string bool;
  namespace : string;
}.

(** [src/maas-api/internal/auth/sar_admin_checker.go:23-36] NewSARAdminChecker. *)
Definition NewSARAdminChecker
    (client : option (nat → string → string → list string → result string bool))
    (namespace : string) : result string SARAdminChecker :=
  match client with
  | None => Err "client cannot be nil for SARAdminChecker"
  | Some c =>
      if namespace == "" then Err "namespace cannot be empty for SARAdminChecker"
      else Ok (mkSAR c namespace)
  end.

(** [src/maas-api/internal/auth/sar_admin_checker.go:38-64] IsAdmin. *)
Definition SAR_IsAdmin (s : SARAdminChecker) (n : nat) (user : UserContext)
    : result string bool :=
  if Username user == "" then Ok false
  else match create_policies s n (namespace s) (Username user) (Groups user) with
       | Err e => Err ("SAR admin check: " +:+ e)
       | Ok allowed => Ok allowed
       end.

(** ** Goroutines *)

(** Where a call is between two steps that others can interleave with. *)
Inductive pc : Type :=
  | Idle
  | Keyed (u : UserContext) (now : Z)
  | Missed (u : UserContext)
  | Decided (u : UserContext) (res : bool) (asked : Z)
  | Storing (u : UserContext) (res : bool) (storeTime : Z).

(** A decision: the delegate's answer for a user, when it was given, and the
    store time read after it. *)
Record decision : Type := mkDecision {
  d_user : UserContext;
  d_result : bool;
  d_asked : Z;
  d_stored : Z;
}.

(** The clock, the shared state, the goroutines, the delegate's decisions and
    the answers the callers were given, with the time each was settled at. *)
Record sys : Type := mkSys {
  clock : Z;
  mem : shared;
  threads : gmap nat pc;
  decisions : list decision;
  answers : list (Z * UserContext * bool);
}.

Definition at_pc (s : sys) (g : nat) : pc := default Idle (threads s !! g).

Definition move (s : sys) (g : nat) (p : pc) (m : shared)
    (ds : list decision) (as_ : list (Z * UserContext * bool)) : sys :=
  mkSys (clock s) m (<[g := p]> (threads s)) (ds ++ decisions s)
    (as_ ++ answers s).

(** One step of a goroutine, or the passing of time. The delegate may answer
    anything; a call may fail, by an error of the delegate or a cancelled
    context.
    [src/maas-api/internal/auth/cached_admin_checker.go:78-127] IsAdmin. *)
Inductive step (ch : CachedAdminChecker) : sys → sys → Prop :=
  | step_time s t :
      (clock s ≤ t)%Z →
      step ch s (mkSys t (mem s) (threads s) (decisions s) (answers s))
  | step_call s g u :
      at_pc s g = Idle →
      step ch s (move s g (Keyed u (clock s)) (mem s) [] [])
  | step_hit s g u t answer :
      at_pc s g = Keyed u t → fresh (cache (mem s)) (cacheKey u) t = Some answer →
      step ch s (move s g Idle (hit (mem s)) [] [(t, u, answer)])
  | step_lookup_miss s g u t :
      at_pc s g = Keyed u t → fresh (cache (mem s)) (cacheKey u) t = None →
      step ch s (move s g (Missed u) (mem s) [] [])
  | step_delegate s g u res :
      at_pc s g = Missed u →
      step ch s (move s g (Decided u res (clock s)) (mem s) [] [])
  | step_fail s g u :
      at_pc s g = Missed u ∨ (∃ res t, at_pc s g = Decided u res t) →
      step ch s (move s g Idle (miss (cache (mem s)) (mem s)) [] [])
  | step_store_time s g u res t :
      at_pc s g = Decided u res t →
      step ch s (move s g (Storing u res (clock s)) (mem s)
                  [mkDecision u res t (clock s)] [])
  | step_store s g u res t :
      at_pc s g = Storing u res t →
      step ch s (move s g Idle
        (miss (remember ch (cacheKey u) res t (cache (mem s))) (mem s))
        [] [(t, u, res)]).

Definition init (t : Z) : sys := mkSys t (mkShared ∅ 0 0) ∅ [] [].

End AdminCache.

(** * Properties *)

Import Http AdminCache.

(** ** Keys *)

(** A user as the gateway's headers give one: no NUL byte, no empty group name. *)
Definition well_formed (u : UserContext) : Prop :=
  contains_byte (Username u) (byte 0) = false ∧
  Forall (λ g, g ≠ "" ∧ contains_byte g (byte 0) = false) (Groups u).

Definition same_subject (u v : UserContext) : Prop :=
  Username u = Username v ∧ Groups u ≡ₚ Groups v.

Lemma nul_app s : nul +:+ s = String (byte 0) s.
Proof. done. Qed.

Lemma join_cons x l :
  GoStrings.join nul (x :: l) = match l with [] => x | _ => x +:+ String (byte 0) (GoStrings.join nul l) end.
Proof. by destruct l. Qed.

Lemma join_inj l1 l2 :
  Forall (λ g, g ≠ "" ∧ contains_byte g (byte 0) = false) l1 →
  Forall (λ g, g ≠ "" ∧ contains_byte g (byte 0) = false) l2 →
  GoStrings.join nul l1 = GoStrings.join nul l2 → l1 = l2.
Proof.
  intros H1. revert l2. induction H1 as [|x l1 [Hx Hnx] H1 IH];
    intros l2 H2; destruct H2 as [|y l2 [Hy Hny] H2]; rewrite ?join_cons; intros E.
  - done.
  - exfalso. destruct l2; [by simpl in E; subst|]. by destruct y.
  - exfalso. destruct l1; [by simpl in E; subst|]. by destruct x.
  - assert (cut (byte 0) x = None) as Cx by (by apply cut_None).
    assert (cut (byte 0) y = None) as Cy by (by apply cut_None).
    destruct l1 as [|x' l1], l2 as [|y' l2].
    + by subst.
    + subst x. by rewrite cut_app in Cx.
    + subst y. by rewrite cut_app in Cy.
    + apply (f_equal (cut (byte 0))) in E. rewrite !cut_app in E by done.
      injection E as -> E. f_equal. by apply IH.
Qed.

Lemma cacheKey_subject u v :
  well_formed u → well_formed v → cacheKey u = cacheKey v → same_subject u v.
Proof.
  intros [Hu Hgu] [Hv Hgv] E. unfold cacheKey in E. rewrite !nul_app in E.
  apply (f_equal (cut (byte 0))) in E. rewrite !cut_app in E by done.
  injection E as EU EG. split; [done|].
  rewrite <-(sort_stable_perm str_lt (Groups u)),
    <-(sort_stable_perm str_lt (Groups v)).
  apply join_inj in EG; [by rewrite EG|by rewrite sort_stable_perm..].
Qed.

(** ** The invariant *)

Section invariant.
Context (ch : CachedAdminChecker).

(** The answer [res] for the key, settled at [t], rests on a decision taken for
    that key less than a time-to-live before. *)
Definition backed (ds : list decision) (key : string) (res : bool) (t : Z) : Prop :=
  ∃ d, d ∈ ds ∧ cacheKey (d_user d) = key ∧ d_result d = res ∧
    (t < d_stored d + entry_ttl ch res)%Z.

Definition entry_backed (ds : list decision) (key : string) (e : cacheEntry) : Prop :=
  ∃ d, d ∈ ds ∧ cacheKey (d_user d) = key ∧ d_result d = isAdmin e ∧
    expiresAt e = (d_stored d + entry_ttl ch (isAdmin e))%Z.

Definition pc_ok (now : Z) (ds : list decision) (p : pc) : Prop :=
  match p with
  | Decided u res t => (t ≤ now)%Z
  | Storing u res t => ∃ t0, mkDecision u res t0 t ∈ ds
  | _ => True
  end.

Record invariant (s : sys) : Prop := {
  inv_size : (Z.of_nat (size (cache (mem s))) ≤ maxSize ch)%Z;
  inv_cache : map_Forall (entry_backed (decisions s)) (cache (mem s));
  inv_decisions : Forall (λ d, (d_asked d ≤ d_stored d)%Z) (decisions s);
  inv_threads : map_Forall (λ _, pc_ok (clock s) (decisions s)) (threads s);
  inv_answers :
    Forall (λ a : Z * UserContext * bool,
      backed (decisions s) (cacheKey a.1.2) a.2 a.1.1) (answers s);
}.

Lemma backed_more ds ds' key res t :
  backed ds key res t → backed (ds' ++ ds) key res t.
Proof. intros (d & Hd & ?). exists d. split; [apply elem_of_app; by right|done]. Qed.
Lemma entry_backed_more ds ds' key e :
  entry_backed ds key e → entry_backed (ds' ++ ds) key e.
Proof. intros (d & Hd & ?). exists d. split; [apply elem_of_app; by right|done]. Qed.
Lemma pc_ok_more now now' ds ds' p :
  (now ≤ now')%Z → pc_ok now ds p → pc_ok now' (ds' ++ ds) p.
Proof.
  destruct p; simpl; [done..|lia|]. intros _ [t0 Ht]. exists t0.
  apply elem_of_app. by right.
Qed.

Lemma inv_at_pc s g : invariant s → pc_ok (clock s) (decisions s) (at_pc s g).
Proof.
  intros Hi. unfold at_pc. destruct (threads s !! g) as [p|] eqn:E; [|done].
  by apply (inv_threads s Hi g).
Qed.

Lemma fresh_Some c key now res :
  fresh c key now = Some res ↔
  ∃ e, c !! key = Some e ∧ isAdmin e = res ∧ (now < expiresAt e)%Z.
Proof.
  unfold fresh. destruct (c !! key) as [e|]; [|naive_solver].
  destruct (Z.ltb_spec now (expiresAt e)); naive_solver lia.
Qed.

Lemma evict_subseteq now c : evictExpiredLocked now c ⊆ c.
Proof. apply map_filter_subseteq. Qed.

Lemma remember_size key res t c :
  (Z.of_nat (size c) ≤ maxSize ch)%Z →
  (Z.of_nat (size (remember ch key res t c)) ≤ maxSize ch)%Z.
Proof.
  intros Hc. unfold remember. destruct (Z.ltb_spec (Z.of_nat
    (size (evictExpiredLocked t c))) (maxSize ch)) as [Hlt|].
  - rewrite map_size_insert. destruct (_ !! _); simpl; lia.
  - pose proof (map_subseteq_size _ _ (evict_subseteq t c)). lia.
Qed.

Lemma remember_backed ds key res t c t0 u :
  map_Forall (entry_backed ds) c → cacheKey u = key →
  mkDecision u res t0 t ∈ ds →
  map_Forall (entry_backed ds) (remember ch key res t c).
Proof.
  intros Hc Hk Hd k e He. unfold remember in He.
  assert (evictExpiredLocked t c !! k = Some e → entry_backed ds k e) as Hold.
  { intros H. apply (Hc k). by eapply lookup_weaken, evict_subseteq. }
  destruct (_ <? _)%Z; [|by apply Hold].
  apply lookup_insert_Some in He as [[<- <-]|[_ He]]; [|by apply Hold].
  by exists (mkDecision u res t0 t).
Qed.

Lemma remember_lookup key res t c e :
  remember ch key res t c !! key = Some e →
  e = mkEntry res (t + entry_ttl ch res) ∨ c !! key = Some e.
Proof.
  unfold remember. destruct (_ <? _)%Z.
  - rewrite lookup_insert_eq. intros [= <-]. by left.
  - intros H. right. by eapply lookup_weaken, evict_subseteq.
Qed.

(** A step of one goroutine that adds decisions and answers. *)
Lemma invariant_move s g p m ds as_ :
  invariant s →
  (Z.of_nat (size (cache m)) ≤ maxSize ch)%Z →
  map_Forall (entry_backed (ds ++ decisions s)) (cache m) →
  Forall (λ d, (d_asked d ≤ d_stored d)%Z) ds →
  pc_ok (clock s) (ds ++ decisions s) p →
  Forall (λ a : Z * UserContext * bool,
    backed (ds ++ decisions s) (cacheKey a.1.2) a.2 a.1.1) as_ →
  invariant (move s g p m ds as_).
Proof.
  intros Hi Hsz Hc Hd Hp Ha. split; simpl; [done|done| | |].
  - apply Forall_app. split; [done|apply Hi].
  - apply map_Forall_insert_2; [done|]. intros g' p' Hp'.
    apply (pc_ok_more (clock s)); [lia|]. by apply (inv_threads s Hi g').
  - apply Forall_app. split; [done|].
    eapply Forall_impl; [apply Hi|]. intros a. apply backed_more.
Qed.

Lemma invariant_same s g p m :
  invariant s → cache m = cache (mem s) → pc_ok (clock s) (decisions s) p →
  invariant (move s g p m [] []).
Proof.
  intros Hi Hm Hp. apply invariant_move; rewrite ?Hm; simpl;
    [done|apply Hi|apply Hi|constructor|done|constructor].
Qed.

Lemma step_invariant s s' :
  (0 < ttl ch)%Z → (0 < negativeTTL ch)%Z →
  step ch s s' → invariant s → invariant s'.
Proof.
  intros Hp Hn Hstep Hi. assert (∀ b, (0 < entry_ttl ch b)%Z) as Hpos by (by intros []).
  destruct Hstep as [s t|s g u|s g u t answer Hpc Hf|s g u t Hpc|s g u res Hpc
    |s g u Hpc|s g u res t Hpc|s g u res t Hpc].
  - destruct Hi. split; simpl; try done. eapply map_Forall_impl; [done|].
    intros ? p. by apply (pc_ok_more (clock s) t _ []).
  - by apply invariant_same.
  - apply invariant_move; simpl; [done|apply Hi|apply Hi|constructor|done|].
    constructor; [|constructor]. apply fresh_Some in Hf as (e & He & <- & Hlt).
    destruct (inv_cache s Hi _ _ He) as (d & Hd & Hk & Hr & Hx).
    exists d. simpl. split_and!; [done..|lia].
  - by apply invariant_same.
  - apply invariant_same; simpl; [done..|lia].
  - by apply invariant_same.
  - apply invariant_move; simpl; [done|apply Hi| | | |constructor].
    + intros k e He. apply (entry_backed_more _ [_]). by apply (inv_cache s Hi).
    + constructor; [|constructor]. simpl.
      pose proof (inv_at_pc s g Hi) as H. by rewrite Hpc in H.
    + exists t. by left.
  - pose proof (inv_at_pc s g Hi) as H. rewrite Hpc in H. destruct H as [t0 Hd].
    apply invariant_move; simpl; [done| | |constructor|done|].
    + apply remember_size, Hi.
    + by eapply remember_backed; [apply Hi| |].
    + constructor; [|constructor]. exists (mkDecision u res t0 t). simpl.
      split_and!; [done..|]. specialize (Hpos res). lia.
Qed.

Lemma init_invariant t : (0 ≤ maxSize ch)%Z → invariant (init t).
Proof.
  intros. split; simpl; [|by apply map_Forall_empty|constructor|by apply map_Forall_empty|constructor].
  by rewrite map_size_empty.
Qed.

Lemma rtc_invariant s s' :
  (0 < ttl ch)%Z → (0 < negativeTTL ch)%Z →
  rtc (step ch) s s' → invariant s → invariant s'.
Proof. intros ??. induction 1; eauto using step_invariant. Qed.

End invariant.

Lemma at_pc_move s g p m ds as_ : at_pc (move s g p m ds as_) g = p.
Proof. unfold at_pc. simpl. by rewrite lookup_insert_eq. Qed.

Lemma New_Ok d t nt ms ch :
  NewCachedAdminChecker d t nt ms = Ok ch →
  (0 < ttl ch)%Z ∧ (0 < negativeTTL ch)%Z ∧ (0 < maxSize ch)%Z.
Proof.
  unfold NewCachedAdminChecker. destruct d; [|done].
  destruct (Z.leb_spec t 0); [done|]. destruct (Z.leb_spec nt 0); [done|].
  destruct (Z.leb_spec ms 0); [done|]. by intros [= <-].
Qed.

(** * Properties *)

(** C39. A cached answer is somebody's permission only if it is the caller's
    own, and only for its time-to-live. However concurrent calls interleave,
    every answer given rests on a decision of the delegate with the same
    result, that was stored less than the time-to-live of that result before,
    for the same user name and the same groups in whatever order, provided that
    no name or group of the two users holds a NUL byte and no group is empty (the
    keys of others may collide); and the map never holds more than its configured
    number of entries. *)
Theorem cached_answers_current d t nt ms ch t0 s :
  NewCachedAdminChecker d t nt ms = Ok ch → rtc (step ch) (init t0) s →
  (Z.of_nat (size (cache (mem s))) ≤ ms)%Z ∧
  ∀ now u res, (now, u, res) ∈ answers s →
    ∃ dec, dec ∈ decisions s ∧ d_result dec = res ∧
      (well_formed u → well_formed (d_user dec) → same_subject (d_user dec) u) ∧
      (d_asked dec ≤ d_stored dec)%Z ∧
      (now < d_stored dec + (if res : bool then t else nt))%Z.
Proof.
  intros Hnew Hrun. pose proof (New_Ok _ _ _ _ _ Hnew) as (Ht & Hnt & Hms).
  assert (ttl ch = t ∧ negativeTTL ch = nt ∧ maxSize ch = ms) as (<- & <- & <-).
  { unfold NewCachedAdminChecker in Hnew. repeat case_match; by simplify_eq/=. }
  apply rtc_invariant in Hrun; [|done..|apply init_invariant; lia].
  split; [apply Hrun|]. intros now u res Hin.
  pose proof (proj1 (Forall_forall _ _) (inv_answers ch s Hrun) _ Hin)
    as (dec & Hd & Hk & Hr & Hlt).
  exists dec. split_and!; [done..| | |exact Hlt].
  - intros. by apply cacheKey_subject.
  - by apply (proj1 (Forall_forall _ _) (inv_decisions ch s Hrun)).
Qed.

(** The interleaved steps contain the code: a call of [IsAdmin] with no
    other goroutine in between is a schedule of one. It leaves the shared state
    the schedule leaves and answers what the schedule answers; what it decides
    anew is an answer of the delegate for that very user; and a failing call
    leaves the map as it was, so that errors are never cached. *)
Theorem IsAdmin_schedule `{LawfulEnv} ch ctx u (w : io shared) c th ds as_ g :
  Username u ≠ "" → (c ≤ wall (ticks w))%Z → default Idle (th !! g) = Idle →
  let '(r, w') := IsAdmin (Some ch) ctx (Some u) w in
  ∃ s' new,
    rtc (step ch) (mkSys c (state w) th ds as_) s' ∧
    mem s' = state w' ∧ at_pc s' g = Idle ∧
    decisions s' = new ++ ds ∧
    Forall (λ d, d_user d = u ∧ ∃ n, delegate ch n u = Ok (d_result d)) new ∧
    match r with
    | Ok res => ∃ t, answers s' = (t, u, res) :: as_ ∧ (wall (ticks w) ≤ t)%Z
    | Err _ => answers s' = as_ ∧ new = [] ∧ cache (state w') = cache (state w)
    end.
Proof.
  intros Hu Hc Hidle. unfold IsAdmin. rewrite bool_decide_eq_false_2 by done.
  unfold ctx_Err, now, tick, get, modify, mbind, prog_bind, mret, prog_ret. simpl.
  set (n := ticks w). assert (∀ i j, i ≤ j → (wall i ≤ wall j)%Z) as Hm
    by (intros; by apply wall_mono).
  set (s0 := mkSys c (state w) th ds as_).
  destruct (ctx n) as [e|]; simpl.
  { exists s0, []. split; [apply rtc_refl|]. split_and!; first [done|constructor]. }
  set (t := wall (S n)).
  set (s1 := mkSys t (state w) th ds as_).
  set (s2 := move s1 g (Keyed u t) (state w) [] []).
  assert (rtc (step ch) s0 s2) as H02.
  { eapply rtc_l; [apply (step_time ch s0 t); simpl; etrans; [exact Hc|apply Hm; lia]|].
    apply rtc_once. by apply (step_call ch s1 g u). }
  assert (at_pc s2 g = Keyed u t) as Hpc2 by apply at_pc_move.
  destruct (fresh (cache (state w)) (cacheKey u) t) as [a|] eqn:Hf; simpl.
  { exists (move s2 g Idle (hit (state w)) [] [(t, u, a)]), [].
    split; [eapply rtc_r; [exact H02|]; by apply step_hit|].
    split_and!; [done|apply at_pc_move|done|constructor|].
    exists t. split; [done|]. apply Hm. lia. }
  set (s3 := move s2 g (Missed u) (state w) [] []).
  assert (rtc (step ch) s0 s3) as H03
    by (eapply rtc_r; [exact H02|]; by eapply step_lookup_miss).
  assert (at_pc s3 g = Missed u) as Hpc3 by apply at_pc_move.
  destruct (delegate ch (S (S n)) u) as [res|e] eqn:Hd; simpl.
  2:{ exists (move s3 g Idle (miss (cache (state w)) (state w)) [] []), [].
    split; [eapply rtc_r; [exact H03|]; apply (step_fail ch s3 g u); by left|].
    split_and!; first [done|apply at_pc_move|constructor]. }
  set (s4 := move s3 g (Decided u res t) (state w) [] []).
  assert (rtc (step ch) s0 s4) as H04
    by (eapply rtc_r; [exact H03|]; by apply (step_delegate ch s3 g u res)).
  assert (at_pc s4 g = Decided u res t) as Hpc4 by apply at_pc_move.
  destruct (ctx (S (S (S n)))) as [e|]; simpl.
  { exists (move s4 g Idle (miss (cache (state w)) (state w)) [] []), [].
    split; [eapply rtc_r; [exact H04|]; apply (step_fail ch s4 g u); eauto|].
    split_and!; first [done|apply at_pc_move|constructor]. }
  set (t' := wall (S (S (S (S n))))).
  set (s5 := mkSys t' (state w) (threads s4) ds as_).
  set (s6 := move s5 g (Storing u res t') (state w) [mkDecision u res t t'] []).
  assert (rtc (step ch) s0 s6) as H06.
  { etrans; [exact H04|].
    eapply rtc_l; [apply (step_time ch s4 t'); simpl; apply Hm; lia|].
    apply rtc_once. by apply (step_store_time ch s5 g u res t). }
  assert (at_pc s6 g = Storing u res t') as Hpc6 by apply at_pc_move.
  exists (move s6 g Idle
    (miss (remember ch (cacheKey u) res t' (cache (state w))) (state w))
    [] [(t', u, res)]), [mkDecision u res t t'].
  split; [eapply rtc_r; [exact H06|]; by apply (step_store ch s6 g u res t')|].
  split_and!; [done|apply at_pc_move|done| |].
  - constructor; [|constructor]. simpl. eauto.
  - exists t'. split; [done|]. apply Hm. lia.
Qed.

(** ** Instances *)

Definition root_user : UserContext := mkUser "root" ["ops"; "admins"] "t".

(** Only [root] is an administrator. *)
Definition root_only (n : nat) (u : UserContext) : result string bool :=
  Ok (Username u == "root").

Definition doc_checker : CachedAdminChecker :=
  mkChecker root_only (30 * Second) (5 * Second) 2.

(** One call, then another, by the same user, out of the cache. *)
Lemma cached_answers_current_witness :
  NewCachedAdminChecker (Some root_only) (30 * Second) (5 * Second) 2 =
    Ok doc_checker ∧
  ∃ s, rtc (step doc_checker) (init 0) s ∧
    size (cache (mem s)) = 1 ∧ (20 * Second, root_user, true)%Z ∈ answers s ∧
    ∃ dec, dec ∈ decisions s ∧ d_result dec = true ∧
      same_subject (d_user dec) root_user ∧
      (20 * Second < d_stored dec + 30 * Second)%Z.
Proof.
  split; [reflexivity|].
  set (u' := mkUser "root" ["admins"; "ops"] "t").
  set (s1 := move (init 0) 1 (Keyed u' 0) (mkShared ∅ 0 0) [] []).
  set (s2 := move s1 1 (Missed u') (mem s1) [] []).
  set (s3 := move s2 1 (Decided u' true 0) (mem s2) [] []).
  set (s4 := move s3 1 (Storing u' true 0) (mem s3) [mkDecision u' true 0 0] []).
  set (s5 := move s4 1 Idle
    (miss (remember doc_checker (cacheKey u') true 0 ∅) (mem s4)) [] [(0%Z, u', true)]).
  set (s6 := mkSys (20 * Second) (mem s5) (threads s5) (decisions s5) (answers s5)).
  set (s7 := move s6 2 (Keyed root_user (20 * Second)) (mem s6) [] []).
  set (s8 := move s7 2 Idle (hit (mem s7)) [] [((20 * Second)%Z, root_user, true)]).
  assert (rtc (step doc_checker) (init 0) s8) as Hrun.
  { eapply rtc_l; [apply (step_call _ (init 0) 1 u'); reflexivity|].
    eapply rtc_l; [apply (step_lookup_miss _ s1 1 u' 0); reflexivity|].
    eapply rtc_l; [apply (step_delegate _ s2 1 u' true); reflexivity|].
    eapply rtc_l; [apply (step_store_time _ s3 1 u' true 0); reflexivity|].
    eapply rtc_l; [apply (step_store _ s4 1 u' true 0); reflexivity|].
    eapply rtc_l; [apply (step_time _ s5 (20 * Second)); vm_compute; discriminate|].
    eapply rtc_l; [apply (step_call _ s6 2 root_user); reflexivity|].
    eapply rtc_l; [apply (step_hit _ s7 2 root_user (20 * Second) true);
      reflexivity|].
    apply rtc_refl. }
  exists s8. split; [exact Hrun|]. split; [reflexivity|].
  assert ((20 * Second, root_user, true)%Z ∈ answers s8) as Hin by (by left).
  split; [exact Hin|].
  destruct (cached_answers_current (Some root_only) (30 * Second) (5 * Second) 2
    doc_checker 0 s8 eq_refl Hrun)
    as [_ H].
  destruct (H _ _ _ Hin) as (dec & Hd & Hr & Hs & _ & Hlt).
  exists dec. split; [exact Hd|]. split; [exact Hr|]. split; [|exact Hlt].
  apply Hs.
  - split; [reflexivity|]. repeat constructor; discriminate.
  - apply list_elem_of_singleton in Hd as ->. split; [reflexivity|].
    repeat constructor; discriminate.
Defined.

Lemma IsAdmin_schedule_witness :
  (IsAdmin (Some doc_checker) (λ _, None) (Some root_user)
    (IO 0 (mkShared ∅ 0 0))).1 = Ok true ∧
  ∃ s' new,
    rtc (step doc_checker) (mkSys 0 (mkShared ∅ 0 0) ∅ [] []) s' ∧
    decisions s' = new ++ [] ∧ at_pc s' 1 = Idle ∧
    misses (mem s') = 1 ∧ ∃ t, answers s' = [(t, root_user, true)].
Proof.
  split; [vm_compute; reflexivity|].
  pose proof (IsAdmin_schedule doc_checker (λ _, None) root_user
    (IO 0 (mkShared ∅ 0 0)) 0 ∅ [] [] 1%nat) as H.
  specialize (H ltac:(discriminate) ltac:(vm_compute; discriminate) eq_refl).
  destruct (IsAdmin (Some doc_checker) (λ _, None) (Some root_user)
    (IO 0 (mkShared ∅ 0 0))) as [r w'] eqn:E.
  vm_compute in E. injection E as <- <-.
  destruct H as (s' & new & Hrun & Hm & Hpc & Hd & _ & t & Ha & _).
  exists s', new. split; [exact Hrun|]. split; [exact Hd|]. split; [exact Hpc|].
  split; [rewrite Hm; reflexivity|]. exists t. exact Ha.
Defined.
