(* ===== verification/Trimming.v ===== *)
(** [strings.TrimSpace] and [strings.Fields]: trimming is idempotent, and what
    both do on printable ASCII words. *)
From S2P Require Import Prelude GoStrings.

(** ** Reversal *)

Lemma rev_app_spec s t : String.rev_app s t = String.rev s +:+ t.
Proof.
  unfold String.rev. revert t. induction s as [|c s IH]; intros t; simpl; [done|].
  rewrite (IH (String c t)), (IH (String c "")). by rewrite <-app_assoc_str.
Qed.

Lemma rev_cons c s : String.rev (String c s) = String.rev s +:+ String c "".
Proof. unfold String.rev. simpl. by rewrite rev_app_spec. Qed.

Lemma rev_app_distr s t : String.rev (s +:+ t) = String.rev t +:+ String.rev s.
Proof.
  induction s as [|c s IH]; simpl; [by rewrite app_nil_r_str|].
  by rewrite !rev_cons, IH, app_assoc_str.
Qed.

Lemma rev_involutive s : String.rev (String.rev s) = s.
Proof. induction s as [|c s IH]; [done|]. by rewrite rev_cons, rev_app_distr, IH. Qed.

Lemma length_rev_str s : String.length (String.rev s) = String.length s.
Proof.
  induction s as [|c s IH]; [done|]. rewrite rev_cons, length_app_str, IH. simpl. lia.
Qed.

(** ** Trimming *)

Section trim.
Context (ps : list string).

Lemma strip_any_Some s r :
  strip_any ps s = Some r → ∃ p, p ∈ ps ∧ s = p +:+ r.
Proof.
  induction ps as [|p qs IH]; simpl; [done|].
  destruct (strip_prefix p s) as [r'|] eqn:E.
  - intros [= ->]. apply strip_prefix_Some in E. exists p. split; [by left|done].
  - intros (q & Hq & ->)%IH. exists q. split; [by right|done].
Qed.

Lemma strip_any_None p s : p ∈ ps → strip_any ps s = None → ∀ r, s ≠ p +:+ r.
Proof.
  induction ps as [|q qs IH]; [by intros ?%elem_of_nil|].
  simpl. intros Hp. destruct (strip_prefix q s) eqn:E; [done|].
  intros Hs r ->. apply elem_of_cons in Hp as [->|Hp].
  - by rewrite strip_prefix_app in E.
  - by eapply IH.
Qed.

Lemma strip_any_first_byte c s :
  Forall (λ p, match p with "" => False | String a _ => a ≠ c end) ps →
  strip_any ps (String c s) = None.
Proof.
  induction 1 as [|[|a p] qs Ha _ IH]; simpl; [done|done|].
  by rewrite bool_decide_eq_false_2.
Qed.

Context (nonempty : Forall (λ p, p ≠ "") ps).

Lemma trim_prefixes_spec fuel : ∀ s,
  String.length s ≤ fuel →
  strip_any ps (trim_prefixes ps fuel s) = None ∧
  ∃ pre, s = pre +:+ trim_prefixes ps fuel s.
Proof.
  induction fuel as [|fuel IH]; intros s Hs; simpl.
  - destruct s; simpl in Hs; [|lia]. split; [|by exists ""].
    destruct (strip_any ps "") as [r|] eqn:E; [|done]. exfalso.
    apply strip_any_Some in E as (p & Hp & E). destruct p; [|done].
    by apply (proj1 (Forall_forall _ _) nonempty) in Hp.
  - destruct (strip_any ps s) as [r|] eqn:E; [|by split; [|exists ""]].
    apply strip_any_Some in E as (p & Hp & ->).
    apply (proj1 (Forall_forall _ _) nonempty) in Hp.
    rewrite length_app_str in Hs. destruct p as [|a p]; [done|]. simpl in Hs.
    destruct (IH r ltac:(lia)) as [Hn [pre Hpre]]. split; [done|].
    exists (String a p +:+ pre). rewrite <-app_assoc_str. by f_equal.
Qed.

Lemma trim_prefixes_id fuel s :
  strip_any ps s = None → trim_prefixes ps fuel s = s.
Proof. destruct fuel; simpl; [done|]. by intros ->. Qed.
End trim.

Lemma spaces_nonempty : Forall (λ p, p ≠ "") spaces.
Proof. by repeat constructor. Qed.
Lemma rev_spaces_nonempty : Forall (λ p, p ≠ "") (String.rev <$> spaces).
Proof. by repeat constructor. Qed.

Lemma trim_left_id s : strip_any spaces s = None → trim_left s = s.
Proof. apply trim_prefixes_id. Qed.

Lemma trim_right_id s :
  strip_any (String.rev <$> spaces) (String.rev s) = None → trim_right s = s.
Proof.
  intros H. unfold trim_right. rewrite trim_prefixes_id by done.
  apply rev_involutive.
Qed.

Lemma TrimSpace_id s :
  strip_any spaces s = None →
  strip_any (String.rev <$> spaces) (String.rev s) = None → TrimSpace s = s.
Proof. intros. unfold TrimSpace. by rewrite trim_left_id, trim_right_id. Qed.

Lemma TrimSpace_idemp s : TrimSpace (TrimSpace s) = TrimSpace s.
Proof.
  unfold TrimSpace at 2 3. set (l := trim_left s).
  destruct (trim_prefixes_spec spaces spaces_nonempty (String.length s) s)
    as [Hl _]; [done|]. change (strip_any spaces l = None) in Hl.
  destruct (trim_prefixes_spec _ rev_spaces_nonempty (String.length l)
    (String.rev l)) as [Hr [pre Hpre]]; [by rewrite length_rev_str|].
  set (t := trim_prefixes (String.rev <$> spaces) (String.length l)
    (String.rev l)) in *.
  change (TrimSpace (String.rev t) = String.rev t).
  apply TrimSpace_id; [|by rewrite rev_involutive].
  destruct (strip_any spaces (String.rev t)) as [r|] eqn:E; [|done]. exfalso.
  apply strip_any_Some in E as (p & Hp & E).
  apply (f_equal String.rev) in Hpre.
  rewrite rev_involutive, rev_app_distr, E, <-app_assoc_str in Hpre.
  by eapply (strip_any_None spaces p l).
Qed.

(** ** Printable ASCII *)

Definition printable (c : ascii) : bool := (33 <=? code c) && (code c <=? 126).

(** [c] starts no pattern. *)
Definition starts_none (ps : list string) (c : ascii) : bool :=
  forallb (λ p, match p with "" => false | String a _ => a != c end) ps.

Lemma starts_none_strip ps c s :
  starts_none ps c = true → strip_any ps (String c s) = None.
Proof.
  intros H. apply strip_any_first_byte, Forall_forall. intros p Hp.
  unfold starts_none in H. rewrite forallb_elem_of in H. apply H in Hp.
  destruct p; [done|]. by apply negb_true_iff, bool_decide_eq_false in Hp.
Qed.

Lemma printable_no_space c :
  printable c = true →
  starts_none spaces c = true ∧ starts_none (String.rev <$> spaces) c = true.
Proof.
  destruct c as [[] [] [] [] [] [] [] []]; vm_compute;
    first [intros _; split; reflexivity|intros [=]].
Qed.

(** Text that starts and ends with a printable byte is not trimmed. *)
Lemma TrimSpace_printable c s d t :
  printable c = true → printable d = true → String c s = t +:+ String d "" →
  TrimSpace (String c s) = String c s.
Proof.
  intros [Hc _]%printable_no_space [_ Hd]%printable_no_space E.
  apply TrimSpace_id; [by apply starts_none_strip|].
  rewrite E, rev_app_distr. by apply starts_none_strip.
Qed.

Lemma last_byte c s : ∃ t d, String c s = t +:+ String d "".
Proof.
  revert c. induction s as [|c' s IH]; intros c; [by exists "", c|].
  destruct (IH c') as (t & d & ->). by exists (String c t), d.
Qed.

(** A word: printable throughout, and not empty. *)
Definition word (s : string) : bool := (s != "") && all_bytes printable s.

Lemma TrimSpace_word s : word s = true → TrimSpace s = s.
Proof.
  unfold word. intros [Hs Hp]%andb_true_iff. destruct s as [|c s]; [done|].
  destruct (last_byte c s) as (t & d & E). rewrite E in Hp.
  pose proof Hp as Hp'. rewrite all_bytes_app in Hp'. simpl in Hp'.
  rewrite <-E in Hp. simpl in Hp. destruct_bools.
  by eapply TrimSpace_printable.
Qed.

(** ** [strings.Fields] *)

(** The length of the white-space rune a string starts with. *)
Definition space_length (s : string) : option nat :=
  String.length <$> find_first (λ p, has_prefix s p) spaces.

Definition flush (cur : string) (l : list string) : list string :=
  if cur == "" then l else cur :: l.

(** [skip] bytes still belong to a space; [cur] is the field being read. A
    space starts with a byte that continues no rune, so reading byte by byte
    finds the same spaces as reading rune by rune. *)
Fixpoint fields_from (skip : nat) (cur s : string) : list string :=
  match s with
  | EmptyString => flush cur []
  | String c s' =>
      match skip with
      | S k => fields_from k cur s'
      | O =>
          match space_length s with
          | Some (S n) => flush cur (fields_from n "" s')
          | _ => fields_from 0 (cur +:+ String c "") s'
          end
      end
  end.

(** [strings.Fields]. *)
Definition Fields (s : string) : list string := fields_from 0 "" s.

Lemma strip_find ps s :
  strip_any ps s = None → find_first (λ p, has_prefix s p) ps = None.
Proof.
  induction ps as [|p ps IH]; simpl; [done|]. unfold has_prefix at 1.
  by destruct (strip_prefix p s).
Qed.

Lemma space_length_printable c s :
  printable c = true → space_length (String c s) = None.
Proof.
  intros [H _]%printable_no_space. unfold space_length.
  rewrite strip_find; [done|]. by apply starts_none_strip.
Qed.

Lemma fields_word cur s r :
  all_bytes printable s = true →
  fields_from 0 cur (s +:+ r) = fields_from 0 (cur +:+ s) r.
Proof.
  revert cur. induction s as [|c s IH]; intros cur H; [by rewrite app_nil_r_str|].
  simpl in H. apply andb_true_iff in H as [Hc Hs].
  change (String c s +:+ r) with (String c (s +:+ r)). cbn [fields_from].
  rewrite space_length_printable by done. rewrite IH by done.
  by rewrite <-app_assoc_str.
Qed.

Lemma fields_space cur s :
  fields_from 0 cur (String (byte 32) s) = flush cur (fields_from 0 "" s).
Proof. reflexivity. Qed.

(** Words separated by single spaces are the fields. *)
Lemma Fields_join l :
  Forall (λ s, word s = true) l → Fields (GoStrings.join " " l) = l.
Proof.
  unfold Fields. induction 1 as [|s l Hs Hl IH]; [done|].
  unfold word in Hs. apply andb_true_iff in Hs as [Hne Hp].
  apply negb_true_iff, bool_decide_eq_false in Hne.
  assert (∀ r, flush s r = s :: r) as Hf.
  { intros. unfold flush. by rewrite bool_decide_eq_false_2. }
  destruct l as [|s' l].
  - simpl. rewrite <-(app_nil_r_str s) at 1. rewrite fields_word by done.
    simpl. apply Hf.
  - change (GoStrings.join " " (s :: s' :: l)) with
      (s +:+ String (byte 32) (GoStrings.join " " (s' :: l))).
    rewrite fields_word, fields_space by done. simpl ("" +:+ s).
    by rewrite Hf, IH.
Qed.

Example Fields_tabs : Fields ("  a" +:+ bytes [9; 194; 160] +:+ "b  ") = ["a"; "b"].
Proof. by_compute. Qed.
