(* ===== verification/Json.v ===== *)
(** [encoding/json]: [json.Unmarshal] into a [[]string], where anything but [null]
    and an array of strings and [null]s is an error, of syntax or of type; and into
    a map of such lists, with [json.Marshal] of one and their round trip. *)
From S2P Require Import Prelude GoStrings Regex Sorting.

Definition quote : ascii := byte 34.
Definition backslash : ascii := byte 92.

(** ** Runes *)

(** U+FFFD. *)
Definition replacement : string := bytes [239; 191; 189].

(** The UTF-8 encoding of a code point that is no surrogate. *)
Definition encode_rune (r : N) : string :=
  let b (n : N) : ascii := byte (N.to_nat n) in
  let tail (n : N) : ascii := b (128 + n mod 64)%N in
  if (r <? 128)%N then String (b r) ""
  else if (r <? 2048)%N then String (b (192 + r / 64)%N) (String (tail r) "")
  else if (r <? 65536)%N then
    String (b (224 + r / 4096)%N) (String (tail (r / 64)%N) (String (tail r) ""))
  else
    String (b (240 + r / 262144)%N) (String (tail (r / 4096)%N)
      (String (tail (r / 64)%N) (String (tail r) ""))).

Definition hex_value (c : ascii) : option N :=
  let n := code c in
  if (48 <=? n) && (n <=? 57) then Some (N.of_nat (n - 48))
  else if (97 <=? n) && (n <=? 102) then Some (N.of_nat (n - 87))
  else if (65 <=? n) && (n <=? 70) then Some (N.of_nat (n - 55))
  else None.

(** The four digits after [\u]. *)
Definition getu4 (a b c d : ascii) : option N :=
  a ← hex_value a; b ← hex_value b; c ← hex_value c; d ← hex_value d;
  Some (((a * 16 + b) * 16 + c) * 16 + d)%N.

Definition high_surrogate (r : N) : bool := ((55296 <=? r) && (r <? 56320))%N.
Definition low_surrogate (r : N) : bool := ((56320 <=? r) && (r <? 57344))%N.

(** The byte an escape other than [\u] stands for. *)
Definition escape (c : ascii) : option ascii :=
  let n := code c in
  if (n =? 34) || (n =? 92) || (n =? 47) then Some c
  else if n =? 98 then Some (byte 8)
  else if n =? 102 then Some (byte 12)
  else if n =? 110 then Some (byte 10)
  else if n =? 114 then Some (byte 13)
  else if n =? 116 then Some (byte 9)
  else None.

(** Every byte that is part of no valid rune becomes U+FFFD. *)
Fixpoint coerce (skip : nat) (s : string) : string :=
  match s with
  | EmptyString => ""
  | String c s' =>
      match skip with
      | S k => String c (coerce k s')
      | O =>
          if code c <? 128 then String c (coerce 0 s')
          else match rune_tail c s' with
               | O => replacement +:+ coerce 0 s'
               | k => String c (coerce k s')
               end
      end
  end.

(** ** Strings and arrays *)

Definition prepend (p : string) (r : option (string * string))
    : option (string * string) :=
  '(s, rest) ← r; Some (p +:+ s, rest).

(** The text after an opening quote: the string, its invalid bytes still in it,
    and what follows the closing quote. A surrogate that is no half of a pair
    is replaced by U+FFFD. *)
Fixpoint read_string (s : string) : option (string * string) :=
  match s with
  | EmptyString => None
  | String c s1 =>
      if c == quote then Some ("", s1)
      else if c == backslash then
        match s1 with
        | String "u" (String h1 (String h2 (String h3 (String h4 s2)))) =>
            match getu4 h1 h2 h3 h4 with
            | None => None
            | Some r =>
                if high_surrogate r then
                  match s2 with
                  | String b (String "u"
                      (String g1 (String g2 (String g3 (String g4 s3))))) =>
                      match getu4 g1 g2 g3 g4 with
                      | Some r1 =>
                          if (b == backslash) && low_surrogate r1 then
                            prepend (encode_rune
                              (65536 + (r - 55296) * 1024 + (r1 - 56320))%N)
                              (read_string s3)
                          else prepend replacement (read_string s2)
                      | None => prepend replacement (read_string s2)
                      end
                  | _ => prepend replacement (read_string s2)
                  end
                else if low_surrogate r
                then prepend replacement (read_string s2)
                else prepend (encode_rune r) (read_string s2)
            end
        | String e s2 =>
            match escape e with
            | Some a => prepend (String a "") (read_string s2)
            | None => None
            end
        | EmptyString => None
        end
      else if code c <? 32 then None
      else prepend (String c "") (read_string s1)
  end.

Fixpoint skip_ws (s : string) : string :=
  match s with
  | String c s' =>
      let n := code c in
      if (n =? 32) || (n =? 9) || (n =? 10) || (n =? 13) then skip_ws s' else s
  | EmptyString => s
  end.

(** A [null] leaves the element the empty string. *)
Definition read_element (s : string) : option (string * string) :=
  match strip_prefix "null" s with
  | Some rest => Some ("", rest)
  | None =>
      match s with
      | String c s' =>
          if c == quote then
            '(x, rest) ← read_string s'; Some (coerce 0 x, rest)
          else None
      | EmptyString => None
      end
  end.

(** The elements of a non-empty array, from the first on, and what follows the
    closing bracket. *)
Fixpoint read_elements (fuel : nat) (s : string) : option (list string * string) :=
  match fuel with
  | O => None
  | S n =>
      '(x, rest) ← read_element (skip_ws s);
      match skip_ws rest with
      | String "," rest =>
          '(l, rest) ← read_elements n rest; Some (x :: l, rest)
      | String "]" rest => Some ([x], rest)
      | _ => None
      end
  end.

Definition read_array (s : string) : option (list string * string) :=
  let s := skip_ws s in
  match strip_prefix "]" s with
  | Some rest => Some ([], rest)
  | None => read_elements (String.length s) s
  end.

(** [json.Unmarshal] into a nil [[]string]; [None] is an error. *)
Definition Unmarshal (s : string) : option (list string) :=
  let s := skip_ws s in
  '(l, rest) ← match strip_prefix "null" s with
               | Some rest => Some ([], rest)
               | None => match strip_prefix "[" s with
                         | Some s' => read_array s'
                         | None => None
                         end
               end;
  if skip_ws rest == "" then Some l else None.

(** ** The fuel is enough: an element takes at least a byte *)

Lemma skip_ws_length s : String.length (skip_ws s) ≤ String.length s.
Proof. induction s as [|c s IH]; simpl; [done|]. destruct (_ || _); simpl; lia. Qed.

(** What is left has fewer than [m] bytes. *)
Definition shrinks {A} (m : nat) (r : option (A * string)) : Prop :=
  ∀ x rest, r = Some (x, rest) → String.length rest < m.

Lemma shrinks_prepend m p s :
  shrinks (String.length s) (read_string s) → String.length s ≤ m →
  shrinks m (prepend p (read_string s)).
Proof.
  unfold prepend. intros Hs Hm x rest H.
  destruct (read_string s) as [[y r]|]; [|done].
  simpl in H. injection H as _ <-. specialize (Hs y r eq_refl). lia.
Qed.

Lemma read_string_shrinks_ind n : ∀ s, String.length s ≤ n →
  shrinks (String.length s) (read_string s).
Proof.
  induction n as [|n IH]; intros s Hs; (destruct s as [|c s]; [done|]);
    simpl in Hs; [lia|].
  cbn [read_string].
  repeat case_match; subst; simpl in Hs; try done;
    try (apply shrinks_prepend; [apply IH|]; simpl; lia).
  intros x rest [= _ <-]. simpl. lia.
Qed.

Lemma read_string_shrinks s : shrinks (String.length s) (read_string s).
Proof. by eapply read_string_shrinks_ind. Qed.

Lemma read_element_shrinks s : shrinks (String.length s) (read_element s).
Proof.
  unfold read_element. intros x rest H.
  destruct (strip_prefix "null" s) as [r|] eqn:E.
  - apply strip_prefix_Some in E as ->. injection H as _ <-. simpl. lia.
  - destruct s as [|c s]; [done|]. destruct (c == quote); [|done].
    pose proof (read_string_shrinks s) as Hr.
    destruct (read_string s) as [[y r]|]; [|done].
    simpl in H. injection H as _ <-. specialize (Hr y r eq_refl). simpl. lia.
Qed.

(** As much fuel as there are bytes is enough. *)
Lemma read_elements_fuel n m s :
  String.length s ≤ n → String.length s ≤ m → read_elements n s = read_elements m s.
Proof.
  assert (∀ m, read_elements m "" = None) as H0 by (by intros []).
  revert m s. induction n as [|n IH]; intros m s Hn Hm.
  { destruct s; simpl in Hn; [by rewrite !H0|lia]. }
  destruct m as [|m]. { destruct s; simpl in Hm; [by rewrite !H0|lia]. }
  cbn [read_elements]. pose proof (skip_ws_length s) as Hl.
  pose proof (read_element_shrinks (skip_ws s)) as He.
  destruct (read_element (skip_ws s)) as [[x rest]|]; [|done]. simpl.
  specialize (He x rest eq_refl). pose proof (skip_ws_length rest).
  destruct (skip_ws rest) as [|c r]; [done|]. simpl in *.
  rewrite (IH m r) by lia. done.
Qed.

(** ** Evaluated *)

Definition quoted (s : string) : string := String quote (s +:+ String quote "").

Example Unmarshal_two :
  Unmarshal (" [ " +:+ quoted "ai-eng" +:+ ", " +:+ quoted "platform" +:+ "] ")
  = Some ["ai-eng"; "platform"].
Proof. by_compute. Qed.
Example Unmarshal_null :
  Unmarshal "null" = Some [] ∧
  Unmarshal ("[null," +:+ quoted "a" +:+ "]") = Some [""; "a"].
Proof. split; by_compute. Qed.
Example Unmarshal_type_error : Unmarshal "[1]" = None ∧ Unmarshal "{}" = None.
Proof. split; by_compute. Qed.
Example Unmarshal_escapes :
  Unmarshal ("[" +:+ quoted "\u00e9\t\ud83d\ude00\ud800x" +:+ "]") =
  Some [bytes [195; 169; 9; 240; 159; 152; 128; 239; 191; 189; 120]].
Proof. by_compute. Qed.
Example Unmarshal_invalid_bytes :
  Unmarshal ("[" +:+ quoted (bytes [97; 195; 98]) +:+ "]") =
  Some [bytes [97; 239; 191; 189; 98]].
Proof. by_compute. Qed.
Example Unmarshal_trailing : Unmarshal "[null]x" = None ∧ Unmarshal "[null,]" = None.
Proof. split; by_compute. Qed.
(** * Maps to lists of strings *)

(** A list of strings or [null]. *)
Definition read_list (s : string) : option (list string * string) :=
  match strip_prefix "null" s with
  | Some rest => Some ([], rest)
  | None => match strip_prefix "[" s with
            | Some s' => read_array s'
            | None => None
            end
  end.

(** A name, a colon and a list. *)
Definition read_member (s : string) : option ((string * list string) * string) :=
  match s with
  | String c s' =>
      if c == quote then
        '(name, rest) ← read_string s';
        match skip_ws rest with
        | String ":" rest =>
            '(l, rest) ← read_list (skip_ws rest); Some ((coerce 0 name, l), rest)
        | _ => None
        end
      else None
  | EmptyString => None
  end.

(** The members of a non-empty object, from the first on, and what follows the
    closing brace. *)
Fixpoint read_members (fuel : nat) (s : string)
    : option (list (string * list string) * string) :=
  match fuel with
  | O => None
  | S n =>
      '(x, rest) ← read_member (skip_ws s);
      match skip_ws rest with
      | String "," rest =>
          '(l, rest) ← read_members n rest; Some (x :: l, rest)
      | String "}" rest => Some ([x], rest)
      | _ => None
      end
  end.

(** Of members with the same name the last one counts. *)
Definition read_object (s : string) : option (gmap string (list string) * string) :=
  let s := skip_ws s in
  match strip_prefix "}" s with
  | Some rest => Some (∅, rest)
  | None =>
      '(l, rest) ← read_members (String.length s) s;
      Some (foldl (λ m x, <[x.1 := x.2]> m) ∅ l, rest)
  end.

(** [json.Unmarshal] into a nil [map[string][]string]: [None] is an error, [Some
    None] leaves the map nil. *)
Definition UnmarshalMap (s : string) : option (option (gmap string (list string))) :=
  let s := skip_ws s in
  '(m, rest) ← match strip_prefix "null" s with
               | Some rest => Some (None, rest)
               | None => match strip_prefix "{" s with
                         | Some s' => '(m, rest) ← read_object s'; Some (Some m, rest)
                         | None => None
                         end
               end;
  if skip_ws rest == "" then Some m else None.

(** ** Writing *)

Definition hex_digit (n : N) : ascii :=
  if (n <? 10)%N then byte (48 + N.to_nat n) else byte (87 + N.to_nat n).
Definition unicode_escape (n : N) : string :=
  String backslash (String (byte 117)
    (String (hex_digit (n / 4096)) (String (hex_digit (n / 256 mod 16))
    (String (hex_digit (n / 16 mod 16)) (String (hex_digit (n mod 16)) ""))))).

(** An ASCII character: quotation marks and backslashes, control characters, and
    those that HTML would take for markup are escaped. *)
Definition write_ascii (c : ascii) : string :=
  let n := code c in
  let short (e : ascii) := String backslash (String e "") in
  if (n =? 34) || (n =? 92) then short c
  else if n =? 8 then short (byte 98)
  else if n =? 12 then short (byte 102)
  else if n =? 10 then short (byte 110)
  else if n =? 13 then short (byte 114)
  else if n =? 9 then short (byte 116)
  else if (n <? 32) || (n =? 60) || (n =? 62) || (n =? 38) then unicode_escape (N.of_nat n)
  else String c "".

(** U+2028 and U+2029 are escaped too, and a byte of no valid rune becomes
    U+FFFD. *)
Fixpoint write_runes (skip : nat) (s : string) : string :=
  match s with
  | EmptyString => ""
  | String c s' =>
      match skip with
      | S k => String c (write_runes k s')
      | O =>
          if code c <? 128 then write_ascii c +:+ write_runes 0 s'
          else match rune_tail c s', s' with
               | O, _ => unicode_escape 65533%N +:+ write_runes 0 s'
               | S (S O), String c1 (String c2 s2) =>
                   if (code c =? 226) && (code c1 =? 128) && ((code c2 =? 168) || (code c2 =? 169))
                   then unicode_escape (8232 + N.of_nat (code c2 - 168))%N +:+ write_runes 0 s2
                   else String c (write_runes 2 s')
               | k, _ => String c (write_runes k s')
               end
      end
  end.
Definition write_string (s : string) : string :=
  String quote (write_runes 0 s +:+ String quote "").

Definition write_list (l : list string) : string :=
  "[" +:+ GoStrings.join "," (write_string <$> l) +:+ "]".
Definition write_member (x : string * list string) : string :=
  write_string x.1 +:+ ":" +:+ write_list x.2.

(** [json.Marshal] of a [map[string][]string] whose lists are not nil: the names
    are sorted. *)
Definition MarshalMap (m : gmap string (list string)) : string :=
  "{" +:+ GoStrings.join ","
    (write_member <$> sort_stable (λ x y, str_lt x.1 y.1) (map_to_list m)) +:+ "}".


(** ** Every member takes at least a byte *)

Lemma read_elements_shrinks n : ∀ s, shrinks (String.length s) (read_elements n s).
Proof.
  induction n as [|n IH]; intros s l rest H; [done|]. cbn [read_elements] in H.
  pose proof (skip_ws_length s) as Hl. pose proof (read_element_shrinks (skip_ws s)) as He.
  destruct (read_element (skip_ws s)) as [[x r]|]; [|done]. specialize (He x r eq_refl).
  cbn [mbind option_bind] in H. pose proof (skip_ws_length r) as Hr.
  destruct (skip_ws r) as [|c t] eqn:Et; [done|].
  assert (String.length t < String.length s) as Ht by (simpl in *; lia).
  specialize (IH t). destruct (read_elements n t) as [[l' rest']|].
  - specialize (IH l' rest' eq_refl). repeat case_match; simplify_eq/=; lia.
  - repeat case_match; simplify_eq/=; lia.
Qed.

Lemma read_list_shrinks s : shrinks (String.length s) (read_list s).
Proof.
  unfold read_list. intros l rest H. destruct (strip_prefix "null" s) as [r|] eqn:E.
  { apply strip_prefix_Some in E as ->. injection H as _ <-. simpl. lia. }
  destruct (strip_prefix "[" s) as [r|] eqn:E'; [|done].
  apply strip_prefix_Some in E' as ->. unfold read_array in H.
  pose proof (skip_ws_length r). destruct (strip_prefix "]" (skip_ws r)) as [r'|] eqn:E'.
  - apply strip_prefix_Some in E'. injection H as _ <-. rewrite E' in *. simpl in *. lia.
  - apply read_elements_shrinks in H. simpl. lia.
Qed.

Lemma read_member_shrinks s : shrinks (String.length s) (read_member s).
Proof.
  intros x rest H. destruct s as [|c s]; [done|]. cbn [read_member] in H.
  destruct (c == quote); [|done]. pose proof (read_string_shrinks s) as Hs.
  destruct (read_string s) as [[name r]|]; [|done]. specialize (Hs name r eq_refl).
  cbn [mbind option_bind] in H. pose proof (skip_ws_length r) as Hr.
  destruct (skip_ws r) as [|d t] eqn:Et; [done|].
  pose proof (read_list_shrinks (skip_ws t)) as Hl. pose proof (skip_ws_length t).
  destruct (read_list (skip_ws t)) as [[l rest']|].
  - specialize (Hl l rest' eq_refl). repeat case_match; simplify_eq/=; lia.
  - repeat case_match; simplify_eq/=.
Qed.

(** As much fuel as there are bytes is enough. *)
Lemma read_members_fuel n m s :
  String.length s ≤ n → String.length s ≤ m → read_members n s = read_members m s.
Proof.
  assert (∀ m, read_members m "" = None) as H0 by (by intros []).
  revert m s. induction n as [|n IH]; intros m s Hn Hm.
  { destruct s; simpl in Hn; [by rewrite !H0|lia]. }
  destruct m as [|m]. { destruct s; simpl in Hm; [by rewrite !H0|lia]. }
  cbn [read_members]. pose proof (skip_ws_length s) as Hl.
  pose proof (read_member_shrinks (skip_ws s)) as He.
  destruct (read_member (skip_ws s)) as [[x rest]|]; [|done]. simpl.
  specialize (He x rest eq_refl). pose proof (skip_ws_length rest).
  destruct (skip_ws rest) as [|c r]; [done|]. simpl in *.
  rewrite (IH m r) by lia. done.
Qed.

(** ** What is written is read back *)

Definition ascii_text (s : string) : Prop :=
  ∀ c, In c (String.list_ascii_of_string s) → code c < 128.

Lemma ascii_text_cons c s : ascii_text (String c s) ↔ code c < 128 ∧ ascii_text s.
Proof. unfold ascii_text. simpl. naive_solver. Qed.

Lemma read_write_ascii c r : code c < 128 →
  read_string (write_ascii c +:+ r) = prepend (String c "") (read_string r).
Proof.
  intros Hc. destruct c as [[] [] [] [] [] [] [] []];
    first [reflexivity|exfalso; revert Hc; vm_compute; lia].
Qed.

Lemma write_runes_cons c s : code c < 128 →
  write_runes 0 (String c s) = write_ascii c +:+ write_runes 0 s.
Proof. intros Hc. cbn [write_runes]. apply Nat.ltb_lt in Hc. by rewrite Hc. Qed.

Lemma read_write_runes s rest : ascii_text s →
  read_string (write_runes 0 s +:+ String quote rest) = Some (s, rest).
Proof.
  induction s as [|c s IH]; intros Hs; [done|].
  apply ascii_text_cons in Hs as [Hc Hs].
  rewrite write_runes_cons by done. rewrite <-app_assoc_str, read_write_ascii by done.
  by rewrite IH.
Qed.

Lemma coerce_ascii s : ascii_text s → coerce 0 s = s.
Proof.
  induction s as [|c s IH]; intros Hs; [done|]. apply ascii_text_cons in Hs as [Hc Hs].
  cbn [coerce]. apply Nat.ltb_lt in Hc. by rewrite Hc, IH.
Qed.

Lemma write_string_app s rest :
  write_string s +:+ rest = String quote (write_runes 0 s +:+ String quote rest).
Proof. unfold write_string. cbn [String.append]. by rewrite <-app_assoc_str. Qed.

Lemma skip_ws_text c s : 32 < code c → skip_ws (String c s) = String c s.
Proof.
  intros Hc. cbn [skip_ws].
  repeat (rewrite (proj2 (Nat.eqb_neq _ _)) by lia). done.
Qed.

Ltac skip_text := rewrite skip_ws_text by (vm_compute; lia).

Lemma read_element_write s rest : ascii_text s →
  read_element (skip_ws (write_string s +:+ rest)) = Some (s, rest).
Proof.
  intros Hs. rewrite write_string_app. skip_text. unfold read_element.
  change (strip_prefix "null" (String quote ?x)) with (@None string).
  change (quote == quote) with true. cbv iota.
  rewrite read_write_runes by done. simpl. by rewrite coerce_ascii.
Qed.

Lemma join_member sep x y l :
  GoStrings.join sep (x :: y :: l) = x +:+ sep +:+ GoStrings.join sep (y :: l).
Proof. done. Qed.

(** There are at least as many bytes as elements. *)
Lemma join_length {A} (f : A → string) l :
  (∀ x, f x ≠ "") → length l ≤ String.length (GoStrings.join "," (f <$> l)).
Proof.
  intros Hf. induction l as [|x [|y l] IH]; [done| |].
  - specialize (Hf x). simpl. destruct (f x); [done|simpl; lia].
  - cbn [fmap list_fmap] in *. rewrite join_member, !length_app_str. simpl length in *.
    specialize (Hf x). destruct (f x); [done|simpl in *; lia].
Qed.

Lemma read_elements_write fuel x l rest :
  Forall ascii_text (x :: l) → length l < fuel →
  read_elements fuel (GoStrings.join "," (write_string <$> x :: l) +:+ String "]" rest)
  = Some (x :: l, rest).
Proof.
  revert fuel x. induction l as [|y l IH]; intros fuel x Hl Hf;
    (destruct fuel as [|fuel]; [lia|]); apply Forall_cons in Hl as [Hx Hl].
  - cbn [fmap list_fmap GoStrings.join read_elements].
    rewrite read_element_write by done. cbn [mbind option_bind]. by skip_text.
  - cbn [fmap list_fmap] in *. rewrite join_member, <-!app_assoc_str.
    cbn [read_elements]. rewrite read_element_write by done.
    cbn [mbind option_bind String.append]. skip_text.
    rewrite IH by (done || (simpl in Hf; lia)). done.
Qed.

Lemma write_list_app l rest :
  write_list l +:+ rest
  = String "[" (GoStrings.join "," (write_string <$> l) +:+ String "]" rest).
Proof. unfold write_list. by rewrite <-!app_assoc_str. Qed.

Lemma join_quoted f (x : string) l rest :
  (∀ y : string, ∃ t, f y = String quote t) →
  ∃ t, GoStrings.join "," (f <$> x :: l) +:+ rest = String quote t.
Proof.
  intros Hf. destruct (Hf x) as [t Ht].
  destruct l as [|y l]; cbn [fmap list_fmap GoStrings.join]; rewrite Ht;
    eexists; by rewrite <-?app_assoc_str.
Qed.

Lemma read_list_write l rest : Forall ascii_text l →
  read_list (skip_ws (write_list l +:+ rest)) = Some (l, rest).
Proof.
  intros Hl. rewrite write_list_app. skip_text. unfold read_list.
  change (strip_prefix "null" (String "[" ?x)) with (@None string).
  change (strip_prefix "[" (String "[" ?x)) with (Some x). cbv iota.
  unfold read_array. destruct l as [|x l]; [done|].
  destruct (join_quoted write_string x l (String "]" rest)) as [t Ht]; [by eexists|].
  pose proof (read_elements_write (String.length (String quote t)) x l rest Hl) as He.
  rewrite Ht in *. skip_text. apply He.
  rewrite <-Ht, length_app_str.
  pose proof (join_length write_string (x :: l) ltac:(done)). simpl length in *. lia.
Qed.

Definition ascii_member (x : string * list string) : Prop :=
  ascii_text x.1 ∧ Forall ascii_text x.2.

Lemma read_member_write x rest : ascii_member x →
  read_member (skip_ws (write_member x +:+ rest)) = Some (x, rest).
Proof.
  destruct x as [name l]. intros [Hn Hl]. unfold write_member. cbn [fst snd] in *.
  rewrite <-!app_assoc_str, write_string_app. skip_text. unfold read_member.
  change (quote == quote) with true. cbv iota.
  rewrite read_write_runes by done. cbn [mbind option_bind String.append]. skip_text.
  rewrite read_list_write by done. cbn [mbind option_bind]. by rewrite coerce_ascii.
Qed.

Lemma read_members_write fuel x l rest :
  Forall ascii_member (x :: l) → length l < fuel →
  read_members fuel (GoStrings.join "," (write_member <$> x :: l) +:+ String "}" rest)
  = Some (x :: l, rest).
Proof.
  revert fuel x. induction l as [|y l IH]; intros fuel x Hl Hf;
    (destruct fuel as [|fuel]; [lia|]); apply Forall_cons in Hl as [Hx Hl].
  - cbn [fmap list_fmap GoStrings.join read_members].
    rewrite read_member_write by done. cbn [mbind option_bind]. by skip_text.
  - cbn [fmap list_fmap] in *. rewrite join_member, <-!app_assoc_str.
    cbn [read_members]. rewrite read_member_write by done.
    cbn [mbind option_bind String.append]. skip_text.
    rewrite IH by (done || (simpl in Hf; lia)). done.
Qed.

(** Inserting the entries of a map in any order gives the map. *)
Lemma insert_entries {A} (m : gmap string A) l : l ≡ₚ map_to_list m →
  foldl (λ m x, <[x.1 := x.2]> m) ∅ l = m.
Proof.
  intros Hp.
  assert (NoDup l.*1) as Hnd by (rewrite Hp; apply NoDup_fst_map_to_list).
  assert (∀ m0 : gmap string A, foldl (λ m x, <[x.1 := x.2]> m) m0 l = list_to_map l ∪ m0) as Hfold.
  { clear Hp. induction l as [|[k x] l IH]; intros m0; cbn; [by rewrite (left_id_L ∅ (∪))|].
    apply NoDup_cons in Hnd as [Hk Hnd]. rewrite IH by done.
    rewrite <-insert_union_l. symmetry. apply insert_union_r.
    by apply not_elem_of_list_to_map_1. }
  rewrite Hfold, (right_id_L ∅ (∪)).
  rewrite (list_to_map_proper l (map_to_list m)) by done. apply list_to_map_to_list.
Qed.

(** A map of ASCII strings is read back as it was written. *)
Lemma Unmarshal_Marshal m :
  map_Forall (λ k l, ascii_text k ∧ Forall ascii_text l) m →
  UnmarshalMap (MarshalMap m) = Some (Some m).
Proof.
  intros Hm. unfold MarshalMap, UnmarshalMap.
  set (l := sort_stable _ _). assert (l ≡ₚ map_to_list m) as Hp by apply sort_stable_perm.
  assert (Forall ascii_member l) as Hl.
  { rewrite Hp. apply Forall_forall. intros [k x] Hx%elem_of_map_to_list. by apply (Hm k x). }
  cbn [String.append]. skip_text.
  change (strip_prefix "null" (String "{" ?x)) with (@None string).
  change (strip_prefix "{" (String "{" ?x)) with (Some x). cbv iota.
  unfold read_object. rewrite <-(insert_entries m l Hp). destruct l as [|x l]; [done|].
  assert (∀ y, ∃ t, write_member y = String quote t) as Hq.
  { intros [n v]. unfold write_member. cbn [fst snd].
    rewrite write_string_app. by eexists. }
  assert (∃ t, GoStrings.join "," (write_member <$> x :: l) +:+ "}" = String quote t)
    as [t Ht].
  { destruct (Hq x) as [t Ht]. destruct l as [|y l]; cbn [fmap list_fmap GoStrings.join];
      rewrite Ht; eexists; by rewrite <-?app_assoc_str. }
  pose proof (read_members_write (String.length (String quote t)) x l "" Hl) as He.
  rewrite Ht in *. skip_text. cbn [strip_prefix]. 
  change (strip_prefix "}" (String quote ?x)) with (@None string). cbv iota.
  rewrite He; [done|]. rewrite <-Ht, length_app_str.
  assert (∀ y, write_member y ≠ "") as Hne by (intros y; by destruct (Hq y) as [? ->]).
  pose proof (join_length write_member (x :: l) Hne). simpl length in *. lia.
Qed.

Example Marshal_sorted :
  MarshalMap (list_to_map [("team", ["gw-a"; "gw<b"]); ("env", ["gw-a"])])
  = "{" +:+ quoted "env" +:+ ":[" +:+ quoted "gw-a" +:+ "]," +:+ quoted "team" +:+ ":["
    +:+ quoted "gw-a" +:+ "," +:+ quoted "gw\u003cb" +:+ "]}".
Proof. by_compute. Qed.
Example Unmarshal_last_member :
  UnmarshalMap ("{ " +:+ quoted "a" +:+ ":[]," +:+ quoted "a" +:+ " : null }")
  = Some (Some {[ "a" := [] ]})
  ∧ UnmarshalMap "null" = Some None ∧ UnmarshalMap "[]" = None.
Proof. split_and!; by_compute. Qed.
