(* ===== verification/Headers.v ===== *)
(** The identity of a caller: the headers the gateway sets, the two middlewares
    that read them, and the middleware that authenticates a bearer token.
    [src/maas-api/internal/token/handler.go],
    [src/maas-api/internal/auth/tenant_auth_middleware.go]. *)
From S2P Require Import Prelude GoStrings Trimming Json Http.
Import Http.

Module Headers.

(** The groups left after trimming.
    [src/maas-api/internal/token/handler.go:56-61] ParseGroupsHeader. *)
Definition non_blank (groups : list string) : list string :=
  List.filter (λ g, g != "") (TrimSpace <$> groups).

(** The text between the brackets, if the text is bracketed.
    [src/maas-api/internal/token/handler.go:44-47] ParseGroupsHeader. *)
Definition brackets (trimmed : string) : option string :=
  match trimmed with
  | String "[" s =>
      match String.rev s with
      | String "]" inner => Some (String.rev inner)
      | _ => None
      end
  | _ => None
  end.

(** [src/maas-api/internal/token/handler.go:31-65] ParseGroupsHeader. *)
Definition ParseGroupsHeader (header : string) : result string (list string) :=
  if header == "" then Err "header is empty"
  else
    let parsedGroups :=
      match Unmarshal header with
      | Some groups => Some groups
      | None => Fields <$> brackets (TrimSpace header)
      end in
    match parsedGroups with
    | None => Err ("unsupported group header format: " +:+ header)
    | Some groups =>
        match non_blank groups with
        | [] => Err "no groups found in header"
        | validGroups => Ok validGroups
        end
    end.

(** The handler of the token package: the tenant of the deployment.
    [src/maas-api/internal/token/handler.go:15-28] Handler. *)
Record Handler : Type := mkHandler { tenantName : string }.

(** What a middleware does: the next handler runs, with the user set or without
    one, or the request is answered. *)
Inductive outcome (B : Type) : Type :=
  | Next (u : context_user)
  | Abort (r : response B).
Arguments Next {_} _.
Arguments Abort {_} _.

(** The bodies written. *)
Inductive body : Type :=
  | AuthFailure (refId : string)
  | Failure (error details : string).

(** [src/maas-api/internal/token/handler.go:83-88] ExtractUserInfo. *)
Definition auth_failure (refId : string) : outcome body :=
  Abort (JSON StatusInternalServerError (AuthFailure refId)).

(** The values of [X-MaaS-Username] and [X-MaaS-Group], empty if absent.
    [src/maas-api/internal/token/handler.go:70-136] ExtractUserInfo. *)
Definition ExtractUserInfo (h : Handler) (usernameHeader groupHeader : string)
    : outcome body :=
  let username := TrimSpace usernameHeader in
  if username == "" then auth_failure "001"
  else if groupHeader == "" then auth_failure "002"
  else match ParseGroupsHeader groupHeader with
       | Err _ => auth_failure "003"
       | Ok groups => Next (User (mkUser username groups (tenantName h)))
       end.

(** [src/maas-api/internal/token/handler.go:138-216] ExtractUserInfoOptional. *)
Definition ExtractUserInfoOptional (h : Handler)
    (usernameHeader groupHeader : string) : outcome body :=
  let username := TrimSpace usernameHeader in
  if (username == "") && (groupHeader == "") then Next NoUser
  else if username == "" then auth_failure "001"
  else if groupHeader == "" then auth_failure "002"
  else match ParseGroupsHeader groupHeader with
       | Err _ => auth_failure "003"
       | Ok groups => Next (User (mkUser username groups (tenantName h)))
       end.

(** ** Bearer tokens *)

(** What [TokenReviews().Create] answers for a token: whether it is
    authenticated, and whose it is. *)
Record TokenReview : Type := mkReview {
  Authenticated : bool;
  review_User : string;
  review_Groups : list string;
}.

(** The Kubernetes API: token reviews, and subject access reviews of the
    permission to create [selfsubjectaccessreviews]. *)
Class KubeClient : Type := {
  token_review : string → result string TokenReview;
  access_review : string → list string → result string bool;
}.

(** [src/maas-api/internal/auth/tenant_auth_middleware.go:18-120] TenantAuthMiddleware. *)
Definition TenantAuthMiddleware {kube : KubeClient} (authHeader : string)
    : outcome body :=
  match strip_prefix "Bearer " authHeader with
  | None =>
      Abort (JSON StatusUnauthorized
        (Failure "Authentication required" "Missing or invalid bearer token"))
  | Some token =>
      match token_review token with
      | Err _ =>
          Abort (JSON StatusUnauthorized
            (Failure "Authentication failed" "Token validation error"))
      | Ok result =>
          if negb (Authenticated result) then
            Abort (JSON StatusUnauthorized
              (Failure "Authentication failed" "Invalid token"))
          else
            match access_review (review_User result) (review_Groups result) with
            | Err _ =>
                Abort (JSON StatusInternalServerError
                  (Failure "Authorization check failed"
                     "Unable to verify authenticated user status"))
            | Ok allowed =>
                if negb allowed then
                  Abort (JSON StatusForbidden
                    (Failure "Insufficient permissions"
                       "User is not authorized to access cluster resources"))
                else Next NoUser
            end
      end
  end.

(** ** Formats the gateway writes *)

(** Authorino's rendering of an array selected as plain text. *)
Definition bracketed (groups : list string) : string :=
  "[" +:+ GoStrings.join " " groups +:+ "]".

(** A JSON array of strings that need no escapes. *)
Definition json_array (groups : list string) : string :=
  "[" +:+ GoStrings.join "," (quoted <$> groups) +:+ "]".

End Headers.
