(* ===== verification/HeadersCorrectness.v ===== *)
(** The two formats of the group header, and the properties of the middlewares
    that read it. *)
From S2P Require Import Prelude GoStrings Trimming Json Http Headers.
Import Http Headers.

(** ** Blank groups *)

Lemma non_blank_spec gs :
  Forall (λ g, g ≠ "" ∧ TrimSpace g = g) (non_blank gs).
Proof.
  apply Forall_forall. intros g [Hg Hne]%filter_bool_elem_of.
  apply list_elem_of_fmap in Hg as (x & -> & _). rewrite TrimSpace_idemp.
  by apply negb_true_iff, bool_decide_eq_false in Hne.
Qed.

Lemma non_blank_words gs : Forall (λ g, word g = true) gs → non_blank gs = gs.
Proof.
  unfold non_blank. induction 1 as [|g gs Hg _ IH]; [done|].
  rewrite fmap_cons. cbn [List.filter]. rewrite TrimSpace_word by done. unfold word in Hg.
  apply andb_true_iff in Hg as [-> _]. by rewrite IH.
Qed.

Lemma parsed_words h gs :
  h ≠ "" → gs ≠ [] → Forall (λ g, word g = true) gs →
  match Unmarshal h with
  | Some l => Some l
  | None => Fields <$> brackets (TrimSpace h)
  end = Some gs →
  ParseGroupsHeader h = Ok gs.
Proof.
  intros Hh Hgs Hw E. unfold ParseGroupsHeader.
  rewrite bool_decide_eq_false_2 by done. rewrite E, non_blank_words by done.
  by destruct gs.
Qed.

(** ** Brackets *)

Lemma brackets_inner s : brackets ("[" +:+ s +:+ "]") = Some s.
Proof.
  unfold brackets. change ("[" +:+ s +:+ "]") with (String "[" (s +:+ "]")).
  cbn match. rewrite rev_app_distr. simpl. by rewrite rev_involutive.
Qed.

Lemma TrimSpace_brackets s : TrimSpace ("[" +:+ s +:+ "]") = "[" +:+ s +:+ "]".
Proof.
  apply (TrimSpace_printable "[" (s +:+ "]") "]" ("[" +:+ s)); done.
Qed.

(** A prefix of [g] followed by a byte that the prefix does not have. *)
Lemma strip_prefix_stop p g c r :
  strip_prefix p g = None → contains_byte p c = false →
  strip_prefix p (g +:+ String c r) = None.
Proof.
  revert g. induction p as [|a p IH]; intros g; [done|].
  unfold contains_byte. simpl. intros Hg [Hc Hp]%orb_false_iff.
  destruct g as [|b g]; simpl in *.
  - rewrite bool_decide_eq_false_2; [done|]. intros ->.
    by rewrite bool_decide_eq_true_2 in Hc.
  - destruct (a == b); [|done]. by apply IH.
Qed.

(** A first group that makes the bracketed text no JSON: it starts with neither
    a quote nor a closing bracket nor [null]. *)
Definition not_json (g : string) : bool :=
  negb (has_prefix g "null") &&
  match g with String c _ => (c != quote) && (c != "]"%char) | "" => false end.

Lemma skip_ws_printable c s : printable c = true → skip_ws (String c s) = String c s.
Proof.
  unfold printable. intros [Hc _]%andb_true_iff. apply Nat.leb_le in Hc. cbn [skip_ws].
  rewrite !(proj2 (Nat.eqb_neq _ _)) by lia. done.
Qed.

Lemma bracketed_not_json g gs :
  Forall (λ g, word g = true) (g :: gs) → not_json g = true →
  Unmarshal (bracketed (g :: gs)) = None.
Proof.
  intros [Hw _]%Forall_cons Hj. unfold not_json, has_prefix in Hj.
  apply andb_true_iff in Hj as [Hn Hj].
  assert (∃ c r, bracketed (g :: gs) = String "[" (g +:+ String c r) ∧
    contains_byte "null" c = false) as (c & r & -> & Hc).
  { unfold bracketed. destruct gs as [|g' gs].
    - by exists "]"%char, "".
    - exists " "%char. eexists. split; [|done].
      change (GoStrings.join " " (g :: g' :: gs)) with
        (g +:+ " " +:+ GoStrings.join " " (g' :: gs)).
      simpl. f_equal. rewrite <-!app_assoc_str. done. }
  assert (strip_prefix "null" (g +:+ String c r) = None) as Hnull.
  { apply strip_prefix_stop; [|done]. by destruct (strip_prefix "null" g). }
  destruct g as [|b g]; [done|]. destruct_bools.
  unfold word in Hw. simpl in Hw. apply andb_true_iff in Hw as [Hb _].
  unfold Unmarshal. simpl (skip_ws (String "[" _)). cbn match.
  change (String b g +:+ String c r) with (String b (g +:+ String c r)) in *.
  set (t := g +:+ String c r) in *.
  change (strip_prefix "null" (String "[" (String b t))) with (@None string).
  change (strip_prefix "[" (String "[" (String b t))) with (Some (String b t)).
  cbn match. unfold read_array. rewrite skip_ws_printable by done.
  assert (strip_prefix "]" (String b t) = None) as ->.
  { cbn [strip_prefix]. by rewrite bool_decide_eq_false_2. }
  assert (read_elements (String.length (String b t)) (String b t) = None) as ->.
  { cbn [String.length read_elements]. rewrite skip_ws_printable by done.
    unfold read_element. rewrite Hnull, bool_decide_eq_false_2 by done. done. }
  done.
Qed.

(** ** JSON *)

(** A word whose JSON text needs no escapes. *)
Definition unescaped (g : string) : bool :=
  all_bytes (λ c, (c != quote) && (c != backslash)) g.

Lemma read_string_plain s r :
  all_bytes printable s = true → unescaped s = true →
  read_string (s +:+ String quote r) = Some (s, r).
Proof.
  unfold unescaped. induction s as [|c s IH].
  - intros _ _. change ("" +:+ String quote r) with (String quote r).
    cbn [read_string]. by rewrite bool_decide_eq_true_2.
  - simpl. intros [Hc Hs]%andb_true_iff [[Hq Hb]%andb_true_iff Hu]%andb_true_iff.
    change (String c s +:+ String quote r) with (String c (s +:+ String quote r)).
    destruct_bools. cbn [read_string]. rewrite !bool_decide_eq_false_2 by done.
    unfold printable in Hc. apply andb_true_iff in Hc as [Hc _].
    apply Nat.leb_le in Hc. rewrite (proj2 (Nat.ltb_ge _ _)) by lia.
    by rewrite IH.
Qed.

Lemma coerce_printable s : all_bytes printable s = true → coerce 0 s = s.
Proof.
  induction s as [|c s IH]; simpl; [done|]. intros [Hc Hs]%andb_true_iff.
  unfold printable in Hc. apply andb_true_iff in Hc as [_ Hc].
  apply Nat.leb_le in Hc. rewrite (proj2 (Nat.ltb_lt _ _)) by lia.
  by rewrite IH.
Qed.

Lemma read_element_quoted s r :
  all_bytes printable s = true → unescaped s = true →
  read_element (quoted s +:+ r) = Some (s, r).
Proof.
  intros Hp Hu. unfold quoted.
  change (String quote (s +:+ String quote "") +:+ r) with
    (String quote ((s +:+ String quote "") +:+ r)).
  rewrite <-app_assoc_str. change (String quote "" +:+ r) with (String quote r).
  unfold read_element.
  change (strip_prefix "null" (String quote (s +:+ String quote r)))
    with (@None string).
  cbn match. rewrite bool_decide_eq_true_2, read_string_plain by done. simpl.
  by rewrite coerce_printable.
Qed.

Lemma skip_ws_quoted s r : skip_ws (quoted s +:+ r) = quoted s +:+ r.
Proof. done. Qed.

Lemma read_elements_quoted g gs : ∀ n, S (length gs) ≤ n →
  Forall (λ g, all_bytes printable g = true ∧ unescaped g = true) (g :: gs) →
  read_elements n (GoStrings.join "," (quoted <$> g :: gs) +:+ "]") =
  Some (g :: gs, "").
Proof.
  revert g. induction gs as [|g' gs IH]; intros g n Hn [[Hp Hu] Hgs]%Forall_cons;
    (destruct n as [|n]; [lia|]); cbn [read_elements].
  - simpl (GoStrings.join _ _). by rewrite skip_ws_quoted, read_element_quoted.
  - change (GoStrings.join "," (quoted <$> g :: g' :: gs)) with
      (quoted g +:+ ("," +:+ GoStrings.join "," (quoted <$> g' :: gs))).
    rewrite <-app_assoc_str, skip_ws_quoted, read_element_quoted by done.
    cbn [mbind option_bind].
    set (t := GoStrings.join "," (quoted <$> g' :: gs)) in *.
    change (skip_ws (("," +:+ t) +:+ "]")) with (String "," (t +:+ "]")).
    cbn match. unfold t. by rewrite (IH g' n) by (simpl in *; done || lia).
Qed.

Lemma Unmarshal_json_array g gs :
  Forall (λ g, all_bytes printable g = true ∧ unescaped g = true) (g :: gs) →
  Unmarshal (json_array (g :: gs)) = Some (g :: gs).
Proof.
  intros Hgs. unfold Unmarshal, json_array.
  set (t := GoStrings.join "," (quoted <$> g :: gs) +:+ "]").
  change (skip_ws ("[" +:+ t)) with (String "[" t).
  change (strip_prefix "null" (String "[" t)) with (@None string).
  change (strip_prefix "[" (String "[" t)) with (Some t). cbn match.
  assert (∃ t', t = String quote t') as [t' Ht].
  { subst t. destruct gs; eexists; reflexivity. }
  assert (read_array t = Some (g :: gs, "")) as ->; [|done].
  unfold read_array. rewrite Ht.
  change (skip_ws (String quote t')) with (String quote t').
  change (strip_prefix "]" (String quote t')) with (@None string). cbn match.
  rewrite <-Ht, (read_elements_fuel _ (S (length gs + String.length t))) by lia.
  apply read_elements_quoted; [lia|done].
Qed.

(** ** Subject access reviews *)

Lemma TenantAuthMiddleware_admits {kube : KubeClient} header :
  (∃ u, TenantAuthMiddleware header = Next u) ↔
  ∃ token r, header = "Bearer " +:+ token ∧ token_review token = Ok r ∧
    Authenticated r = true ∧
    access_review (review_User r) (review_Groups r) = Ok true.
Proof.
  unfold TenantAuthMiddleware. split.
  - intros [u H]. destruct (strip_prefix "Bearer " header) as [tok|] eqn:E; [|done].
    apply strip_prefix_Some in E as ->. exists tok.
    destruct (token_review tok) as [r|]; [|done].
    destruct (Authenticated r) eqn:Ea; [|done]. simpl in H.
    destruct (access_review _ _) as [[]|] eqn:Es; try done. by exists r.
  - intros (tok & r & -> & Hr & Ha & Hs). rewrite strip_prefix_app, Hr, Ha. simpl.
    rewrite Hs. by exists NoUser.
Qed.

(** * Properties *)

(** Identity is all or nothing. The strict middleware lets a request through
    only with a user: a non-empty name without surrounding white space, at least
    one group, none of them blank or padded, and the tenant of the deployment,
    which no header can change; every other request is answered 500, because its
    user name is blank, its group header is absent or does not parse. The
    lenient middleware differs for one case only: neither header, which passes
    without a user. *)
Theorem identity_from_headers h uh gh :
  match ExtractUserInfo h uh gh with
  | Next (User u) =>
      Username u = TrimSpace uh ∧ Username u ≠ "" ∧
      TrimSpace (Username u) = Username u ∧
      Groups u ≠ [] ∧ Forall (λ g, g ≠ "" ∧ TrimSpace g = g) (Groups u) ∧
      ParseGroupsHeader gh = Ok (Groups u) ∧ Tenant u = tenantName h
  | Next _ => False
  | Abort r =>
      status r = StatusInternalServerError ∧
      (TrimSpace uh = "" ∨ gh = "" ∨ ∃ e, ParseGroupsHeader gh = Err e)
  end ∧
  ExtractUserInfoOptional h uh gh =
    (if (TrimSpace uh == "") && (gh == "") then Next NoUser
     else ExtractUserInfo h uh gh).
Proof.
  assert (∀ gs, ParseGroupsHeader gh = Ok gs →
    gs ≠ [] ∧ Forall (λ g, g ≠ "" ∧ TrimSpace g = g) gs) as Hparse.
  { intros gs H. unfold ParseGroupsHeader in H. destruct (gh == ""); [done|].
    destruct (match Unmarshal gh with Some _ => _ | None => _ end) as [raw|]; [|done].
    pose proof (non_blank_spec raw). by destruct (non_blank raw); simplify_eq. }
  unfold ExtractUserInfoOptional, ExtractUserInfo.
  destruct (decide (TrimSpace uh = "")) as [Eu|Eu].
  - rewrite bool_decide_eq_true_2 by done. simpl. auto.
  - rewrite bool_decide_eq_false_2 by done. destruct (decide (gh = "")) as [->|Eg].
    + rewrite bool_decide_eq_true_2 by done. simpl. auto.
    + rewrite bool_decide_eq_false_2 by done. split; [|done].
      destruct (ParseGroupsHeader gh) as [gs|e] eqn:Hg; [|simpl; by eauto 6].
      destruct (Hparse gs eq_refl). simpl. by rewrite TrimSpace_idemp.
Qed.

(** Both formats round-trip. Groups without white space and control or
    non-ASCII bytes are read back from the bracketed text Authorino writes,
    provided its first group does not make the text JSON (by starting with a
    quote, a closing bracket or [null]), and from a JSON array, provided they
    need no escapes. *)
Theorem groups_roundtrip g gs :
  Forall (λ g, word g = true) (g :: gs) →
  (not_json g = true → ParseGroupsHeader (bracketed (g :: gs)) = Ok (g :: gs)) ∧
  (Forall (λ g, unescaped g = true) (g :: gs) →
   ParseGroupsHeader (json_array (g :: gs)) = Ok (g :: gs)).
Proof.
  intros Hw. split.
  - intros Hj. apply parsed_words; [done..|].
    rewrite bracketed_not_json by done. unfold bracketed.
    rewrite TrimSpace_brackets, brackets_inner.
    cbn [fmap option_fmap option_map]. by rewrite Fields_join.
  - intros Hu. apply parsed_words; [done..|]. rewrite Unmarshal_json_array; [done|].
    apply Forall_and; split; [|done]. eapply Forall_impl; [exact Hw|].
    intros x [_ ?]%andb_true_iff. done.
Qed.

(** ** Instances *)

Lemma groups_roundtrip_witness :
  ParseGroupsHeader "[ai-eng platform ops]" = Ok ["ai-eng"; "platform"; "ops"] ∧
  ParseGroupsHeader (json_array ["ai-eng"; "platform"]) = Ok ["ai-eng"; "platform"].
Proof.
  assert (Forall (λ g, word g = true) ["ai-eng"; "platform"; "ops"]) as H1
    by (repeat (constructor; [reflexivity|]); constructor).
  assert (Forall (λ g, word g = true) ["ai-eng"; "platform"]) as H2
    by (repeat (constructor; [reflexivity|]); constructor).
  assert (Forall (λ g, unescaped g = true) ["ai-eng"; "platform"]) as H3
    by (repeat (constructor; [reflexivity|]); constructor).
  split.
  - exact (proj1 (groups_roundtrip _ _ H1) eq_refl).
  - exact (proj2 (groups_roundtrip _ _ H2) H3).
Defined.

(** The bracketed text of the one group [null] is JSON, and without groups; a
    group with a space is read as two. *)
Example bracketed_pitfalls :
  ParseGroupsHeader (bracketed ["null"]) = Err "no groups found in header" ∧
  ParseGroupsHeader (bracketed ["dev admins"]) = Ok ["dev"; "admins"].
Proof. split; by_compute. Qed.
