(* ===== verification/ModelList.v ===== *)
(** The models of the catalogue: MaaSModelRef objects as API models, and the
    filter by readiness. [src/maas-api/internal/models/maasmodelref.go],
    [src/maas-api/internal/models/discovery.go]. *)
From S2P Require Import Prelude GoStrings Json Unstructured.

Module ModelList.

(** [src/maas-api/internal/constant/const.go:33-33] AnnotationGenAIUseCase. *)
Definition AnnotationGenAIUseCase : string := "opendatahub.io/genai-use-case".
(** [src/maas-api/internal/constant/const.go:34-34] AnnotationDescription. *)
Definition AnnotationDescription : string := "openshift.io/description".
(** [src/maas-api/internal/constant/const.go:35-35] AnnotationDisplayName. *)
Definition AnnotationDisplayName : string := "openshift.io/display-name".
(** [src/maas-api/internal/constant/const.go:36-36] AnnotationContextWindow. *)
Definition AnnotationContextWindow : string := "opendatahub.io/context-window".
(** [src/maas-api/internal/constant/const.go:37-37] AnnotationModelCapabilities. *)
Definition AnnotationModelCapabilities : string :=
  "opendatahub.io/model-capabilities".

(** [src/maas-api/internal/models/maasmodelref.go:19-23] kindExternalModel. *)
Definition kindExternalModel : string := "ExternalModel".
(** [src/maas-api/internal/models/maasmodelref.go:23-23] kindLLMISvc. *)
Definition kindLLMISvc : string := "llmisvc".
(** [src/maas-api/internal/models/maasmodelref.go:24-24] kindLLMISvcAlternate. *)
Definition kindLLMISvcAlternate : string := "LLMInferenceService".

(** [src/maas-api/internal/models/types.go:14-20] Details. *)
Record Details : Type := mkDetails {
  GenAIUseCase : string;
  det_Description : string;
  det_DisplayName : string;
  ContextWindow : string;
  ModelCapabilities : list string;
}.

(** [src/maas-api/internal/models/types.go:23-27] SubscriptionInfo. *)
Record SubscriptionInfo : Type := mkInfo {
  info_Name : string;
  info_DisplayName : string;
  info_Description : string;
}.

(** The embedded [openai.Model] is its ID, creation time and owner, its object
    type being always "model"; the aliases are never set by a listing.
    [src/maas-api/internal/models/types.go:34-46] Model. *)
Record Model : Type := mkModel {
  ID : string;
  Created : Z;
  OwnedBy : string;
  Kind : string;
  URL : option string;
  Ready : bool;
  det : option Details;
  Subscriptions : list SubscriptionInfo;
}.

#[global] Instance Details_eq_dec : EqDecision Details.
Proof. solve_decision. Defined.
#[global] Instance SubscriptionInfo_eq_dec : EqDecision SubscriptionInfo.
Proof. solve_decision. Defined.
#[global] Instance Model_eq_dec : EqDecision Model.
Proof. solve_decision. Defined.

(** [knative.dev/pkg/apis]: the text of the [*apis.URL] that a string parses
    to, if it parses. *)
Class UrlParser : Type := parse_url : string → option string.

Section listing.
Context {api : ApiMachinery} {urls : UrlParser}.

Definition status_string (u : obj) (path : list string) : string :=
  or_empty (found (NestedString u path)).

(** [src/maas-api/internal/models/maasmodelref.go:77-97] maasModelRefToModel. *)
Definition model_id (u : obj) (kind : string) : string :=
  if kind == kindExternalModel then
    let modelRefName := status_string u ["spec"; "modelRef"; "name"] in
    if modelRefName != "" then modelRefName else GetName u
  else
    let alias := status_string u ["status"; "resolvedModelAlias"] in
    if alias != "" then alias else GetName u.

(** [src/maas-api/internal/models/maasmodelref.go:99-117] maasModelRefToModel. *)
Definition model_details (u : obj) : option Details :=
  match GetAnnotations u with
  | None => None
  | Some annotations =>
      let at_ k := annotation (Some annotations) k in
      let raw := at_ AnnotationModelCapabilities in
      let caps := if raw != "" then default [] (Unmarshal raw) else [] in
      let d := mkDetails (at_ AnnotationGenAIUseCase) (at_ AnnotationDescription)
                 (at_ AnnotationDisplayName) (at_ AnnotationContextWindow) caps in
      if (det_DisplayName d != "") || (det_Description d != "")
         || (GenAIUseCase d != "") || (ContextWindow d != "")
         || negb (length (ModelCapabilities d) =? 0)
      then Some d else None
  end.

(** [src/maas-api/internal/models/maasmodelref.go:119-131] maasModelRefToModel. *)
Definition model_url (u : obj) : option string :=
  let endpoint := status_string u ["status"; "endpoint"] in
  match found (NestedStringSlice u ["status"; "httpRouteHostnames"]) with
  | Some (hostname :: _) => parse_url ("https://" +:+ hostname)
  | _ => if endpoint != "" then parse_url endpoint else None
  end.

(** [src/maas-api/internal/models/maasmodelref.go:56-153] maasModelRefToModel. *)
Definition maasModelRefToModel (u : option obj) : option Model :=
  match u with
  | None => None
  | Some u =>
      let phase := status_string u ["status"; "phase"] in
      let kind := status_string u ["spec"; "modelRef"; "kind"] in
      let kind := if kind == "" then kindLLMISvc else kind in
      Some {|
        ID := model_id u kind;
        Created := default 0%Z (GetCreationUnix u);
        OwnedBy := GetNamespace u +:+ "/" +:+ GetName u;
        Kind := kind;
        URL := model_url u;
        Ready := phase == "Ready";
        det := model_details u;
        Subscriptions := [];
      |}
  end.

(** A lister is the answer of its [List()]; [None] is a nil interface.
    [src/maas-api/internal/models/maasmodelref.go:33-50] ListFromMaaSModelRefLister. *)
Definition ListFromMaaSModelRefLister
    (lister : option (result string (list obj))) : result string (list Model) :=
  match lister with
  | None => Ok []
  | Some (Err e) => Err e
  | Some (Ok items) => Ok (omap (λ u, maasModelRefToModel (Some u)) items)
  end.
End listing.

(** The kinds that are listed when ready.
    [src/maas-api/internal/models/discovery.go:174-195] FilterModelsByAccess. *)
Definition known_kind (kind : string) : bool :=
  (kind == kindExternalModel) || (kind == kindLLMISvc)
  || (kind == kindLLMISvcAlternate) || (kind == "").

(** The context, the authorization header and the subscription header are not
    read.
    [src/maas-api/internal/models/discovery.go:154-199] FilterModelsByAccess. *)
Fixpoint FilterModelsByAccess (models : list Model) : list Model :=
  match models with
  | [] => []
  | model :: models' =>
      let out := FilterModelsByAccess models' in
      if known_kind (Kind model) then
        if Ready model then model :: out else out
      else out
  end.

End ModelList.
