(* ===== verification/ModelsHandler.v ===== *)
(** [GET /v1/models]: which subscriptions a listing is for, and the models they
    give, gathered from concurrent probes.
    [src/maas-api/internal/handlers/models.go]. *)
From S2P Require Import Prelude GoStrings Sorting Unstructured Http GoTime Runtime.
From S2P Require Import SubscriptionTypes Selector ModelList.
Import Http Selector ModelList.

Module ModelsHandler.

(** The subscription selector and the lister may be nil; [metrics] tells whether
    a recorder is configured.
    [src/maas-api/internal/handlers/models.go:26-33] ModelsHandler. *)
Record ModelsHandler : Type := mkHandler {
  subscriptionSelector : option Selector.Selector;
  maasModelRefLister : option (result string (list obj));
  metrics : bool;
}.

Inductive payload : Type :=
  | Page (data : list Model)
  | Error (message type : string).

(** [src/maas-api/internal/handlers/models.go:128-132] handleSubscriptionSelectionError. *)
Definition permission_error (msg : string) : response payload :=
  JSON StatusForbidden (Error msg "permission_error").
(** [src/maas-api/internal/handlers/models.go:158-162] handleSubscriptionSelectionError. *)
Definition server_error (msg : string) : response payload :=
  JSON StatusInternalServerError (Error msg "server_error").

(** What is read of a request: the [Authorization] header, the values of
    [X-Maas-Subscription] in order, and the user of the context. *)
Record request : Type := mkRequest {
  authorization : string;
  subscription_values : list string;
  user : context_user;
}.

Section handler.
Context {api : ApiMachinery} {urls : UrlParser} {slice : SliceSort}.

(** ** The subscriptions of a listing *)

(** [src/maas-api/internal/handlers/models.go:111-163] handleSubscriptionSelectionError. *)
Definition handleSubscriptionSelectionError (err : Sub.select_error)
    : response payload :=
  match err with
  | Sub.MultipleSubscriptionsError _ =>
      permission_error "API key has no subscription bound"
  | Sub.AccessDeniedError _ | Sub.SubscriptionNotFoundError _ =>
      permission_error "access denied to requested subscription"
  | Sub.NoSubscriptionError => permission_error (Sub.error_message err)
  | _ => server_error "Failed to select subscription"
  end.

(** The synthetic response for a deployment without a selector.
    [src/maas-api/internal/handlers/models.go:107-108] selectSubscriptionsForListing. *)
Definition only_name (name : string) : Sub.SelectResponse :=
  Sub.mkResp name "" "" "" 0 [] "" "" None "" false "" false "" "" "".

(** [src/maas-api/internal/handlers/models.go:55-109] selectSubscriptionsForListing. *)
Definition selectSubscriptionsForListing (h : ModelsHandler)
    (userContext : option UserContext) (requestedSubscription : string)
    (returnAllModels : bool)
    : result (response payload) (list Sub.SelectResponse) :=
  let groups := default [] (Groups <$> userContext) in
  let username := default "" (Username <$> userContext) in
  if returnAllModels then
    match subscriptionSelector h with
    | Some sel =>
        match GetAllAccessible sel groups username with
        | Err _ => Err (server_error "Failed to get subscriptions")
        | Ok allSubs => Ok allSubs
        end
    | None => Err (server_error "Subscription system not configured")
    end
  else
    match subscriptionSelector h with
    | Some sel =>
        match Select sel groups username requestedSubscription "" with
        | Err err => Err (handleSubscriptionSelectionError err)
        | Ok result => Ok [result]
        end
    | None =>
        if requestedSubscription == "" then Ok []
        else Ok [only_name requestedSubscription]
    end.

(** The authorization header, the requested subscription (the last value that
    is not blank) and whether an API key is presented; or the answer written
    and the rejections recorded.
    [src/maas-api/internal/handlers/models.go:175-216] extractAndValidateAuth. *)
Definition extractAndValidateAuth (h : ModelsHandler) (req : request)
    : result (response payload * list Rejection) (string * string * bool) :=
  let authHeader := TrimSpace (authorization req) in
  if authHeader == "" then
    Err (JSON StatusUnauthorized
           (Error "Authorization required" "authentication_error"),
         if metrics h then [RejectionUnauthorized] else [])
  else
    let isAPIKeyRequest := has_prefix authHeader "Bearer sk-oai-" in
    let requestedSubscription :=
      default "" (find_first (λ v, v != "")
                    (TrimSpace <$> rev (subscription_values req))) in
    if isAPIKeyRequest && (requestedSubscription == "") then
      Err (permission_error "API key has no subscription bound", [])
    else Ok (authHeader, requestedSubscription, isAPIKeyRequest).

(** [src/maas-api/internal/handlers/models.go:218-247] getUserContextIfNeeded. *)
Definition getUserContextIfNeeded (h : ModelsHandler) (req : request)
    : result (response payload) (option UserContext) :=
  match subscriptionSelector h with
  | None => Ok None
  | Some _ =>
      match user req with
      | User u => Ok (Some u)
      | _ => Err (server_error "Internal server error")
      end
  end.

(** ** Gathering *)

(** [src/maas-api/internal/handlers/models.go:463-487] filterModelsBySubscription. *)
Definition filterModelsBySubscription (modelList : list Model)
    (modelRefs : list Sub.ModelRefInfo) : list Model :=
  if length modelRefs =? 0 then modelList
  else
    let allowed : gset string := list_to_set
      ((λ ref, Sub.ref_Namespace ref +:+ "/" +:+ Sub.ref_Name ref) <$> modelRefs) in
    List.filter (λ model, bool_decide (OwnedBy model ∈ allowed)) modelList.

(** What the goroutine of one subscription sends.
    [src/maas-api/internal/handlers/models.go:278-308] aggregateModelsFromSubscriptions. *)
Definition probe (cancelled : bool) (list : list Model)
    (sub : Sub.SelectResponse) : Sub.SelectResponse * Datatypes.list Model :=
  if cancelled then (sub, [])
  else (sub, FilterModelsByAccess
               (filterModelsBySubscription list (Sub.resp_ModelRefs sub))).

(** How the goroutines of a request are scheduled: the order in which their
    results arrive, each once, and whether the n-th to arrive found the context
    done while it waited for its turn. *)
Class Goroutines : Type := {
  arrival {A} : list A → list A;
  arrival_perm {A} (l : list A) : arrival l ≡ₚ l;
  cancelled : nat → bool;
}.

Definition with_subscriptions (m : Model) (l : list SubscriptionInfo) : Model :=
  mkModel (ID m) (Created m) (OwnedBy m) (Kind m) (URL m) (Ready m) (det m) l.

(** [src/maas-api/internal/handlers/models.go:165-173] addSubscriptionIfNew. *)
Definition addSubscriptionIfNew (model : Model) (subInfo : SubscriptionInfo)
    : Model :=
  if existsb (λ existing, info_Name existing == info_Name subInfo)
       (Subscriptions model)
  then model
  else with_subscriptions model (Subscriptions model ++ [subInfo]).

(** [src/maas-api/internal/handlers/models.go:258-262] modelKey. *)
Definition modelKey : Type := string * string * string.
(** [src/maas-api/internal/handlers/models.go:324-328] aggregateModelsFromSubscriptions. *)
Definition key_of (m : Model) : modelKey := (ID m, default "" (URL m), OwnedBy m).

(** [src/maas-api/internal/handlers/models.go:345-353] aggregateModelsFromSubscriptions. *)
Definition key_less (a b : modelKey) : bool :=
  let '(ida, urla, owna) := a in
  let '(idb, urlb, ownb) := b in
  if bool_decide (ida ≠ idb) then str_lt ida idb
  else if bool_decide (urla ≠ urlb) then str_lt urla urlb
  else str_lt owna ownb.

(** [src/maas-api/internal/handlers/models.go:322-336] aggregateModelsFromSubscriptions. *)
Definition merge_model (subInfo : SubscriptionInfo)
    (modelsByKey : gmap modelKey Model) (model : Model) : gmap modelKey Model :=
  match modelsByKey !! key_of model with
  | Some existing =>
      <[key_of model := addSubscriptionIfNew existing subInfo]> modelsByKey
  | None => <[key_of model := with_subscriptions model [subInfo]]> modelsByKey
  end.

(** [src/maas-api/internal/handlers/models.go:316-320] aggregateModelsFromSubscriptions. *)
Definition info_of (sub : Sub.SelectResponse) : SubscriptionInfo :=
  mkInfo (Sub.resp_Name sub) (Sub.resp_DisplayName sub) (Sub.resp_Description sub).

(** [src/maas-api/internal/handlers/models.go:313-337] aggregateModelsFromSubscriptions. *)
Definition merge_result (modelsByKey : gmap modelKey Model)
    (r : Sub.SelectResponse * list Model) : gmap modelKey Model :=
  foldl (merge_model (info_of r.1)) modelsByKey r.2.

Context {sched : Goroutines}.

(** The keys of a map are distinct, so that the order in which it is ranged over
    before sorting makes no difference.
    [src/maas-api/internal/handlers/models.go:249-360] aggregateModelsFromSubscriptions. *)
Definition aggregateModelsFromSubscriptions (list : list Model)
    (subscriptionsToUse : Datatypes.list Sub.SelectResponse)
    : Datatypes.list Model :=
  let results := imap (λ i sub, probe (cancelled i) list sub)
                   (arrival subscriptionsToUse) in
  let modelsByKey := foldl merge_result ∅ results in
  let keys := sort_slice key_less (map_to_list modelsByKey).*1 in
  omap (λ k, modelsByKey !! k) keys.

(** ** The endpoint *)

(** The headers [Cache-Control: no-store] and [X-Access-Checked-At], the JSON
    answer and the rejections recorded. *)
Record answer : Type := mkAnswer {
  no_store : bool;
  checked_at : option string;
  reply : response payload;
  rejections : list Rejection;
}.

(** [src/maas-api/internal/handlers/models.go:362-461] ListLLMs. *)
Definition ListLLMs `{Env} (h : ModelsHandler) (req : request)
    : prog () answer :=
  match user req with
  | NoUser =>
      t ← now;
      mret (mkAnswer true (Some (RFC3339 UTC t)) (JSON StatusOK (Page [])) [])
  | _ =>
      match extractAndValidateAuth h req with
      | Err (r, rejected) => mret (mkAnswer false None r rejected)
      | Ok (authHeader, requestedSubscription, isAPIKeyRequest) =>
          let returnAllModels :=
            negb isAPIKeyRequest && (requestedSubscription == "") in
          match getUserContextIfNeeded h req with
          | Err r => mret (mkAnswer false None r [])
          | Ok userContext =>
              match selectSubscriptionsForListing h userContext
                      requestedSubscription returnAllModels with
              | Err r => mret (mkAnswer true None r [])
              | Ok subscriptionsToUse =>
                  t ← now;
                  match maasModelRefLister h with
                  | None =>
                      mret (mkAnswer true (Some (RFC3339 UTC t))
                              (JSON StatusOK (Page [])) [])
                  | Some lister =>
                      match ListFromMaaSModelRefLister (Some lister) with
                      | Err _ =>
                          mret (mkAnswer true None
                                  (server_error "Failed to list models") [])
                      | Ok list =>
                          let modelList :=
                            if length subscriptionsToUse =? 0 then
                              match subscriptionSelector h with
                              | None => FilterModelsByAccess list
                              | Some _ => []
                              end
                            else aggregateModelsFromSubscriptions list
                                   subscriptionsToUse in
                          t' ← now;
                          mret (mkAnswer true (Some (RFC3339 UTC t'))
                                  (JSON StatusOK (Page modelList)) [])
                      end
                  end
              end
          end
      end
  end.
End handler.

End ModelsHandler.
