(* ===== verification/ModelsHandlerCorrectness.v ===== *)
(** The gathering of models: the order of the keys, what the map of models holds
    after some results, and the properties of the listing. *)
From S2P Require Import Prelude GoStrings Sorting Unstructured Http.
From S2P Require Import SubscriptionTypes Selector ModelList ModelsHandler.
From S2P Require Import GoTime Runtime.
From S2P Require Import SelectionCorrectness.
From S2P Require Import KeyExamples.
Import Http ModelList ModelsHandler.

(** ** The order *)

(** Comparing a first string, and the rest when it is the same. *)
Definition lex {A} (f : A → string) (rest : A → A → bool) (x y : A) : bool :=
  if bool_decide (f x ≠ f y) then str_lt (f x) (f y) else rest x y.

Lemma lex_strict_weak {A} (f : A → string) rest :
  StrictWeak rest → StrictWeak (lex f rest).
Proof.
  intros Hrest. split; unfold lex.
  - intros x y. repeat case_bool_decide; try congruence.
    + apply str_lt_asym.
    + apply sw_asym.
  - intros x y z. repeat case_bool_decide; try congruence.
    + apply str_lt_neg_trans.
    + intros Hxy Hyz. exfalso.
      assert (f x = f y) by (apply str_lt_total; congruence). done.
    + by apply sw_neg_trans.
Qed.

#[global] Instance key_less_strict_weak : StrictWeak key_less.
Proof.
  assert (StrictWeak (lex (λ k : modelKey, k.1.1)
    (lex (λ k : modelKey, k.1.2) (λ x y : modelKey, str_lt x.2 y.2)))) as H.
  { do 2 apply lex_strict_weak. split; intros.
    - by apply str_lt_asym.
    - by eapply str_lt_neg_trans. }
  destruct H as [Ha Hn]. split.
  - intros [[a b] c] [[d e] f]. exact (Ha (a, b, c) (d, e, f)).
  - intros [[a b] c] [[d e] f] [[g h] i].
    exact (Hn (a, b, c) (d, e, f) (g, h, i)).
Qed.

(** ** Filtering *)

(** The subscription's references include the model; one without references
    includes them all. *)
Definition offers (sub : Sub.SelectResponse) (m : Model) : Prop :=
  Sub.resp_ModelRefs sub = [] ∨
  ∃ ref, ref ∈ Sub.resp_ModelRefs sub ∧
    OwnedBy m = Sub.ref_Namespace ref +:+ "/" +:+ Sub.ref_Name ref.

Lemma elem_of_filterModels l refs m :
  m ∈ filterModelsBySubscription l refs ↔
  m ∈ l ∧ (refs = [] ∨ ∃ ref, ref ∈ refs ∧
    OwnedBy m = Sub.ref_Namespace ref +:+ "/" +:+ Sub.ref_Name ref).
Proof.
  unfold filterModelsBySubscription. destruct refs as [|r refs']; [naive_solver|].
  change (length (r :: refs') =? 0) with false. cbv iota.
  rewrite filter_bool_elem_of, bool_decide_eq_true, elem_of_list_to_set,
    list_elem_of_fmap.
  naive_solver.
Qed.

Lemma elem_of_FilterModels l m :
  m ∈ FilterModelsByAccess l ↔
  m ∈ l ∧ Ready m = true ∧ known_kind (Kind m) = true.
Proof.
  induction l as [|x l IH]; simpl.
  - split; [by intros ?%elem_of_nil|by intros [?%elem_of_nil _]].
  - destruct (known_kind (Kind x)) eqn:Ek, (Ready x) eqn:Er;
      rewrite ?elem_of_cons, IH; naive_solver congruence.
Qed.

(** What a listing may show of a model for a subscription. *)
Definition shown (list : list Model) (sub : Sub.SelectResponse) (m : Model)
    : Prop :=
  m ∈ list ∧ Ready m = true ∧ known_kind (Kind m) = true ∧ offers sub m.

Lemma elem_of_probe c list sub m :
  m ∈ (probe c list sub).2 ↔ c = false ∧ shown list sub m.
Proof.
  unfold probe, shown, offers. destruct c; simpl.
  - split; [by intros ?%elem_of_nil|by intros [? _]].
  - rewrite elem_of_FilterModels, elem_of_filterModels. naive_solver.
Qed.

Lemma probe_sub c list sub : (probe c list sub).1 = sub.
Proof. by destruct c. Qed.

(** ** Merging *)

Definition names (m : Model) : list string := info_Name <$> Subscriptions m.

(** [acc] gathers the pairs [P] of a subscription and a model. *)
Record gathers (P : list (SubscriptionInfo * Model)) (acc : gmap modelKey Model)
    : Prop := {
  gathered_sound k m' : acc !! k = Some m' →
    key_of m' = k ∧ (∃ i m, (i, m) ∈ P ∧ m' = with_subscriptions m (Subscriptions m')) ∧
    Subscriptions m' ≠ [] ∧ NoDup (names m') ∧
    ∀ i, i ∈ Subscriptions m' → ∃ m, (i, m) ∈ P ∧ key_of m = k;
  gathered_complete i m : (i, m) ∈ P →
    ∃ m', acc !! key_of m = Some m' ∧ info_Name i ∈ names m';
}.

Lemma names_with m l : names (with_subscriptions m l) = info_Name <$> l.
Proof. done. Qed.

Lemma addSubscriptionIfNew_names m i n :
  n ∈ names (addSubscriptionIfNew m i) ↔ n = info_Name i ∨ n ∈ names m.
Proof.
  unfold addSubscriptionIfNew.
  destruct (existsb _ _) eqn:E.
  - apply existsb_elem_of in E as (j & Hj & E). apply bool_decide_eq_true in E.
    split; [by right|]. intros [->|?]; [|done]. unfold names.
    apply list_elem_of_fmap. by exists j.
  - rewrite names_with, fmap_app, elem_of_app. simpl.
    rewrite list_elem_of_singleton. unfold names. naive_solver.
Qed.

Lemma addSubscriptionIfNew_spec m i :
  let m' := addSubscriptionIfNew m i in
  m' = with_subscriptions m (Subscriptions m') ∧
  (Subscriptions m ≠ [] → Subscriptions m' ≠ []) ∧
  (NoDup (names m) → NoDup (names m')) ∧
  (∀ j, j ∈ Subscriptions m' → j = i ∨ j ∈ Subscriptions m).
Proof.
  unfold addSubscriptionIfNew. simpl. destruct (existsb _ _) eqn:E.
  - split_and!; [by destruct m|done..|by right].
  - split; [done|]. split; [by destruct (Subscriptions m)|]. split.
    + intros Hn. rewrite names_with, fmap_app. apply NoDup_app. split; [done|].
      split; [|apply NoDup_singleton]. intros n Hin ->%list_elem_of_singleton.
      apply list_elem_of_fmap in Hin as (j & Hj & Hjm).
      apply (existsb_not_elem_of _ _) with (x := j) in E; [|done].
      by rewrite Hj, bool_decide_eq_true_2 in E.
    + simpl. intros j [?| ->%list_elem_of_singleton]%elem_of_app; auto.
Qed.

Lemma gathers_nil : gathers [] ∅.
Proof.
  split; [|by intros ?? ?%elem_of_nil]. intros k m'. by rewrite lookup_empty.
Qed.

Lemma gathers_snoc P acc i m :
  gathers P acc → gathers (P ++ [(i, m)]) (merge_model i acc m).
Proof.
  intros [Hs Hc]. assert (∀ x, x ∈ P → x ∈ P ++ [(i, m)]) as Hl
    by (intros; apply elem_of_app; by left).
  assert ((i, m) ∈ P ++ [(i, m)]) as Hr by (apply elem_of_app; right; by left).
  assert (∀ k m', acc !! k = Some m' →
    key_of m' = k ∧ (∃ i' m0, (i', m0) ∈ P ++ [(i, m)] ∧
      m' = with_subscriptions m0 (Subscriptions m')) ∧
    Subscriptions m' ≠ [] ∧ NoDup (names m') ∧
    ∀ j, j ∈ Subscriptions m' → ∃ m0, (j, m0) ∈ P ++ [(i, m)] ∧ key_of m0 = k) as Hs'.
  { intros k m' Hm'. destruct (Hs k m' Hm') as (? & (i' & m0 & ? & ?) & ? & ? & Hi).
    split_and!; [done|by eauto|done..|]. intros j (m1 & ? & ?)%Hi. eauto. }
  unfold merge_model. destruct (acc !! key_of m) as [ex|] eqn:E; split.
  - intros k m' [[<- <-]|[_ Hm']]%lookup_insert_Some; [|by apply Hs'].
    destruct (Hs' _ _ E) as (Hk & (i' & m0 & Hin & Hm0) & Hne & Hnd & Hi).
    destruct (addSubscriptionIfNew_spec ex i) as (He & Hne' & Hnd' & Hi').
    split; [by rewrite He|]. split.
    { exists i', m0. split; [done|]. rewrite He at 1. by rewrite Hm0 at 1. }
    split; [by apply Hne'|]. split; [by apply Hnd'|].
    intros j [->|Hj]%Hi'; [by eauto|by apply Hi].
  - intros j m1 [Hj|[= -> ->]%list_elem_of_singleton]%elem_of_app.
    + destruct (Hc _ _ Hj) as (m' & Hm' & Hn).
      destruct (decide (key_of m1 = key_of m)) as [Ek|Ek].
      * rewrite Ek, lookup_insert_eq. eexists. split; [done|].
        apply addSubscriptionIfNew_names. right. congruence.
      * rewrite lookup_insert_ne by done. eauto.
    + rewrite lookup_insert_eq. eexists. split; [done|].
      apply addSubscriptionIfNew_names. by left.
  - intros k m' [[<- <-]|[_ Hm']]%lookup_insert_Some; [|by apply Hs'].
    split; [done|]. split; [by exists i, m|]. split; [done|].
    split; [apply NoDup_singleton|]. simpl.
    intros j ->%list_elem_of_singleton. eauto.
  - intros j m1 [Hj|[= -> ->]%list_elem_of_singleton]%elem_of_app.
    + destruct (Hc _ _ Hj) as (m' & Hm' & Hn). exists m'. split; [|done].
      rewrite lookup_insert_ne by congruence. done.
    + rewrite lookup_insert_eq. eexists. split; [done|]. by left.
Qed.

(** The pairs of the results. *)
Definition pairs (results : list (Sub.SelectResponse * list Model))
    : list (SubscriptionInfo * Model) :=
  r ← results; (info_of r.1,.) <$> r.2.

Lemma elem_of_pairs results i m :
  (i, m) ∈ pairs results ↔ ∃ r, r ∈ results ∧ i = info_of r.1 ∧ m ∈ r.2.
Proof.
  unfold pairs. rewrite list_elem_of_bind. split.
  - intros (r & Hm & Hr). apply list_elem_of_fmap in Hm as (x & [= -> ->] & ?).
    by exists r.
  - intros (r & Hr & -> & Hm). exists r. split; [|done].
    apply list_elem_of_fmap. by exists m.
Qed.

Lemma gathers_models i l : ∀ P acc,
  gathers P acc → gathers (P ++ ((i,.) <$> l)) (foldl (merge_model i) acc l).
Proof.
  induction l as [|m l IH]; intros P acc H; simpl; [by rewrite app_nil_r|].
  rewrite cons_middle, app_assoc. by apply IH, gathers_snoc.
Qed.

Lemma gathers_results results : ∀ P acc,
  gathers P acc → gathers (P ++ pairs results) (foldl merge_result acc results).
Proof.
  induction results as [|r results IH]; intros P acc H; simpl;
    [by rewrite app_nil_r|].
  change (pairs (r :: results)) with (((info_of r.1,.) <$> r.2) ++ pairs results).
  rewrite app_assoc. apply IH. by apply gathers_models.
Qed.

(** ** The list *)

Section listed.
Context {slice : SliceSort} {sched : Goroutines}.

Definition gathered (list : list Model) (subs : Datatypes.list Sub.SelectResponse)
    : gmap modelKey Model :=
  foldl merge_result ∅ (imap (λ i sub, probe (cancelled i) list sub) (arrival subs)).

Lemma gathered_gathers list subs :
  gathers (pairs (imap (λ i sub, probe (cancelled i) list sub) (arrival subs)))
    (gathered list subs).
Proof. apply (gathers_results _ [] ∅ gathers_nil). Qed.

Lemma elem_of_gathered_pairs list subs i m :
  (i, m) ∈ pairs (imap (λ i sub, probe (cancelled i) list sub) (arrival subs)) →
  ∃ sub, sub ∈ subs ∧ i = info_of sub ∧ shown list sub m.
Proof.
  intros (r & Hr & -> & Hm)%elem_of_pairs.
  apply elem_of_lookup_imap in Hr as (n & sub & -> & Hsub).
  rewrite probe_sub. apply elem_of_probe in Hm as [_ Hm]. exists sub.
  split; [|done]. rewrite <-arrival_perm. by eapply list_elem_of_lookup_2.
Qed.

Lemma gathered_pairs_elem_of list subs sub m :
  (∀ n, cancelled n = false) → sub ∈ subs → shown list sub m →
  (info_of sub, m) ∈
    pairs (imap (λ i sub, probe (cancelled i) list sub) (arrival subs)).
Proof.
  intros Hn Hsub Hm. rewrite <-(arrival_perm subs) in Hsub.
  apply list_elem_of_lookup in Hsub as [n Hsub]. apply elem_of_pairs.
  exists (probe (cancelled n) list sub). rewrite probe_sub, elem_of_probe.
  split; [|done]. apply elem_of_lookup_imap. eauto.
Qed.

Lemma aggregate_keys list subs :
  key_of <$> aggregateModelsFromSubscriptions list subs =
  sort_slice key_less (map_to_list (gathered list subs)).*1.
Proof.
  unfold aggregateModelsFromSubscriptions.
  change (foldl merge_result ∅ (imap _ _)) with (gathered list subs).
  pose proof (gathered_sound _ _ (gathered_gathers list subs)) as Hs.
  assert (∀ k, k ∈ sort_slice key_less (map_to_list (gathered list subs)).*1 →
    is_Some (gathered list subs !! k)) as Hk.
  { intros k [[k' m'] [-> ?%elem_of_map_to_list]]%elem_of_sort_slice%list_elem_of_fmap.
    by exists m'. }
  induction (sort_slice _ _) as [|k l IH]; [done|]. simpl.
  destruct (Hk k) as [m' Hm']; [by left|]. rewrite Hm'. simpl. f_equal.
  - by apply Hs.
  - apply IH. intros. apply Hk. by right.
Qed.

Lemma elem_of_aggregate list subs m' :
  m' ∈ aggregateModelsFromSubscriptions list subs ↔
  gathered list subs !! key_of m' = Some m'.
Proof.
  unfold aggregateModelsFromSubscriptions.
  change (foldl merge_result ∅ (imap _ _)) with (gathered list subs).
  rewrite list_elem_of_omap. split.
  - intros (k & _ & Hk). pose proof (gathered_sound _ _
      (gathered_gathers list subs) _ _ Hk) as [-> _]. done.
  - intros H. exists (key_of m'). split; [|done].
    apply elem_of_sort_slice, list_elem_of_fmap. exists (key_of m', m').
    split; [done|]. by apply elem_of_map_to_list.
Qed.
End listed.

(** ** The subscriptions of a listing *)

Lemma selectSubscriptionsForListing_spec {api : ApiMachinery} {slice : SliceSort}
    h sel u requested all :
  subscriptionSelector h = Some sel →
  match selectSubscriptionsForListing h (Some u) requested all with
  | Ok subs =>
      if all : bool
      then Selector.GetAllAccessible sel (Groups u) (Username u) = Ok subs
      else ∃ sub, Selector.Select sel (Groups u) (Username u) requested "" = Ok sub ∧
             subs = [sub]
  | Err r => ∀ data, body r ≠ Page data
  end.
Proof.
  intros Hsel. unfold selectSubscriptionsForListing. rewrite Hsel. simpl.
  destruct all.
  - by destruct (Selector.GetAllAccessible _ _ _).
  - destruct (Selector.Select _ _ _ _ _) as [sub|[]]; simpl; by eauto.
Qed.

(** * Properties *)

Import Selector.

#[local] Arguments maasModelRefToModel : simpl never.

Section properties.
Context {slice : SliceSort} {sched : Goroutines}.

(** Gathering is exact, in whatever order the concurrent probes end. The
    models come sorted by ID, URL and owner, each once. A model is shown only if
    it is listed, ready, of a known kind, and included by a subscription of the
    request, and it names exactly the subscriptions that include it, each once;
    and if no probe found its context cancelled, every such model is shown with
    every such subscription. *)
Theorem aggregate_exact list subs :
  NoDup (key_of <$> list) →
  let out := aggregateModelsFromSubscriptions list subs in
  sorted key_less (key_of <$> out) ∧ NoDup (key_of <$> out) ∧
  (∀ m', m' ∈ out → ∃ m, m ∈ list ∧ Ready m = true ∧ known_kind (Kind m) = true ∧
     m' = with_subscriptions m (Subscriptions m') ∧
     Subscriptions m' ≠ [] ∧ NoDup (names m') ∧
     ∀ i, i ∈ Subscriptions m' → ∃ sub, sub ∈ subs ∧ i = info_of sub ∧ offers sub m) ∧
  ((∀ n, cancelled n = false) → ∀ m sub, shown list sub m → sub ∈ subs →
     ∃ m', m' ∈ out ∧ key_of m' = key_of m ∧ Sub.resp_Name sub ∈ names m').
Proof.
  intros Hnd out. pose proof (gathered_gathers list subs) as Hg.
  assert (∀ m1 m2, m1 ∈ list → m2 ∈ list → key_of m1 = key_of m2 → m1 = m2) as Hinj.
  { intros m1 m2 H1 H2 E. apply list_elem_of_lookup in H1 as [i Hi].
    apply list_elem_of_lookup in H2 as [j Hj].
    assert (i = j) as ->; [|congruence].
    apply (NoDup_lookup _ i j (key_of m1) Hnd); rewrite list_lookup_fmap.
    - by rewrite Hi.
    - by rewrite Hj, E. }
  split. { unfold out. rewrite aggregate_keys. apply sort_slice_sorted, _. }
  split. { unfold out. rewrite aggregate_keys, sort_slice_perm.
           apply NoDup_fst_map_to_list. }
  split.
  - intros m' Hm'%elem_of_aggregate.
    destruct (gathered_sound _ _ Hg _ _ Hm')
      as (_ & (i & m & Him & Heq) & Hne & Hn & Hi).
    apply elem_of_gathered_pairs in Him as (sub & _ & _ & Hm & Hr & Hk & _).
    exists m. split_and!; [done..|]. intros j (m2 & Hjm & Ek)%Hi.
    apply elem_of_gathered_pairs in Hjm as (sub' & Hs & -> & Hm2 & _ & _ & Ho).
    exists sub'. split_and!; [done..|]. rewrite <-(Hinj m2 m); [done..|].
    rewrite Ek, Heq. done.
  - intros Hn m sub Hm Hsub.
    destruct (gathered_complete _ _ Hg (info_of sub) m) as (m' & Hm' & Hin).
    { by apply gathered_pairs_elem_of. }
    destruct (gathered_sound _ _ Hg _ _ Hm') as [Hk _].
    exists m'. rewrite <-Hk in Hm'. apply elem_of_aggregate in Hm'. done.
Qed.

(** C38. A listing stays within what the caller was granted. When the selector is
    configured, a page with a model in it goes to an identified caller, and each
    of its models is in the cache, ready, and attributed to subscriptions the
    selector granted this caller for this request, each of which names it among
    its model references or has none at all, and then offers every model:
    the one [Select] granted when a subscription is requested, which a request
    with an API key always does, and else those of [GetAllAccessible]; and the
    answer is marked as not to be cached. *)
Theorem ListLLMs_confined {api : ApiMachinery} {urls : UrlParser} `{Env}
    h sel req w a data m :
  subscriptionSelector h = Some sel → ListLLMs h req w = a →
  body (reply a.1) = Page data → m ∈ data →
  no_store a.1 = true ∧ status (reply a.1) = StatusOK ∧
  ∃ u listed subs m0, user req = User u ∧
    ListFromMaaSModelRefLister (maasModelRefLister h) = Ok listed ∧
    ((GetAllAccessible sel (Groups u) (Username u) = Ok subs ∧
      has_prefix (TrimSpace (authorization req)) "Bearer sk-oai-" = false) ∨
     ∃ requested sub, Select sel (Groups u) (Username u) requested "" = Ok sub ∧
       requested ≠ "" ∧ requested ∈ TrimSpace <$> subscription_values req ∧
       subs = [sub]) ∧
    m0 ∈ listed ∧ Ready m0 = true ∧ m = with_subscriptions m0 (Subscriptions m) ∧
    Subscriptions m ≠ [] ∧
    ∀ i, i ∈ Subscriptions m → ∃ sub m1, sub ∈ subs ∧ i = info_of sub ∧
      shown listed sub m1 ∧ key_of m1 = key_of m0.
Proof.
  intros Hsel <-. unfold ListLLMs, getUserContextIfNeeded. rewrite Hsel.
  unfold extractAndValidateAuth, mbind, prog_bind, mret, prog_ret, now, tick. simpl.
  assert (∀ listed subs,
    m ∈ (if length subs =? 0 then [] else aggregateModelsFromSubscriptions listed subs) →
    ∃ m0, m0 ∈ listed ∧ Ready m0 = true ∧ m = with_subscriptions m0 (Subscriptions m) ∧
    Subscriptions m ≠ [] ∧
    ∀ i, i ∈ Subscriptions m → ∃ sub m1, sub ∈ subs ∧ i = info_of sub ∧
      shown listed sub m1 ∧ key_of m1 = key_of m0) as Hagg.
  { intros listed subs Hm. destruct (length subs =? 0); [by apply elem_of_nil in Hm|].
    apply elem_of_aggregate in Hm.
    destruct (gathered_sound _ _ (gathered_gathers listed subs) _ _ Hm)
      as (_ & (i & m0 & Him & Heq) & Hne & _ & Hi).
    apply elem_of_gathered_pairs in Him as (_ & _ & _ & Hm0 & Hr & _).
    exists m0. split_and!; [done..|]. intros j (m1 & Hj & Ek)%Hi.
    apply elem_of_gathered_pairs in Hj as (sub & ? & ? & ?).
    exists sub, m1. split_and!; [done..|]. rewrite Ek, Heq. done. }
  destruct (user req) as [| |u] eqn:Eu; simpl.
  { intros [= <-] []%elem_of_nil. }
  { destruct (TrimSpace (authorization req) == ""); [done|].
    by destruct (has_prefix _ _ && _). }
  destruct (TrimSpace (authorization req) == ""); [done|].
  set (requested := default "" _). set (key := has_prefix _ _).
  assert (requested ≠ "" → requested ∈ TrimSpace <$> subscription_values req) as Hreq.
  { unfold requested. destruct (find_first _ _) as [v|] eqn:Ef; [|done]. intros _.
    apply find_first_Some in Ef as [Hv _]. simpl.
    apply list_elem_of_fmap in Hv as (x & -> & Hx).
    apply list_elem_of_fmap. exists x. split; [done|]. by apply list_elem_of_In, in_rev, list_elem_of_In. }
  destruct (key && (requested == "")) eqn:Eg; [done|]. simpl.
  pose proof (selectSubscriptionsForListing_spec h sel u requested
    (negb key && (requested == "")) Hsel) as Hs.
  destruct (selectSubscriptionsForListing _ _ _ _) as [subs|r]; simpl;
    [|by intros ?%Hs].
  destruct (maasModelRefLister h) as [[items|]|] eqn:El; simpl;
    [|done|by intros [= <-] ?%elem_of_nil].
  intros [= <-] Hm. split; [done|]. split; [done|].
  destruct (Hagg _ subs Hm) as (m0 & ? & ? & ? & ? & ?).
  exists u, (omap (λ o, maasModelRefToModel (Some o)) items), subs, m0.
  split; [done|]. split; [done|]. split; [|done].
  destruct (decide (requested = "")) as [Er|Er].
  - rewrite bool_decide_eq_true_2 in Hs, Eg by done. rewrite andb_true_r in Hs, Eg.
    rewrite Eg in Hs. simpl in Hs. left. by split; [apply Hs|].
  - rewrite bool_decide_eq_false_2, andb_false_r in Hs by done.
    destruct Hs as (sub & ? & ?). right. exists requested, sub. by split_and!; auto.
Qed.
End properties.

(** ** Instances *)

(** The results arrive in the reverse order, none cancelled. *)
#[export, refine] Instance doc_schedule : Goroutines := {|
  arrival A l := reverse l;
  cancelled n := false;
|}.
Proof. intros A l. apply reverse_Permutation. Defined.

#[export] Instance doc_urls : UrlParser := Some.

Definition model_object (ns name phase : string) : obj :=
  [meta ns name;
   ("spec", VMap [("modelRef", VMap [("kind", VString "llmisvc")])]);
   ("status", VMap [("phase", VString phase);
                    ("endpoint", VString "https://gw.example")])].

Definition doc_handler : ModelsHandler :=
  mkHandler (Some (mkSelector (Ok [premium; basic]) None None))
    (Some (Ok [model_object "llm" "opt" "Ready"; model_object "llm" "granite" "Ready";
               model_object "llm" "phi" "Pending"])) true.

(** Bob is in both groups, and logs in with a token. *)
Definition bob_request : request :=
  mkRequest "Bearer eyJhbGciOi" [] (User (mkUser "bob" ["users"; "vips"] "t")).

Definition bob_answer : answer := (ListLLMs doc_handler bob_request (IO 0 ())).1.
Definition bob_page : list Model :=
  match body (reply bob_answer) with Page l => l | _ => [] end.

Example bob_models :
  (λ m, (ID m, names m)) <$> bob_page =
  [("granite", ["premium"; "basic"]); ("opt", ["premium"])].
Proof. vm_compute. reflexivity. Qed.

Definition doc_models : list Model :=
  match ListFromMaaSModelRefLister (maasModelRefLister doc_handler) with
  | Ok l => l
  | Err _ => []
  end.

Lemma aggregate_exact_witness :
  NoDup (key_of <$> doc_models) ∧
  ∃ m', m' ∈ aggregateModelsFromSubscriptions doc_models
               [toResponse (parsed premium); toResponse (parsed basic)] ∧
    ID m' = "opt" ∧ "premium" ∈ names m'.
Proof.
  assert (NoDup (key_of <$> doc_models)) as Hnd
    by (apply (bool_decide_unpack _); vm_compute; exact I).
  split; [exact Hnd|].
  destruct (aggregate_exact doc_models
    [toResponse (parsed premium); toResponse (parsed basic)] Hnd)
    as (_ & _ & _ & Hc).
  destruct doc_models as [|opt [|granite [|phi [|]]]] eqn:E;
    try (vm_compute in E; discriminate).
  destruct (Hc (λ _, eq_refl) opt (toResponse (parsed premium))) as (m' & Hm & Hk & Hn).
  - vm_compute in E. injection E as <- _ _.
    split_and!; [by left|reflexivity|reflexivity|]. right.
    eexists. split; [by right; left|reflexivity].
  - by left.
  - exists m'. split; [exact Hm|]. split; [|exact Hn].
    vm_compute in E. injection E as <- _ _. unfold key_of in Hk.
    injection Hk as -> _ _. reflexivity.
Defined.

Lemma ListLLMs_confined_witness :
  ∃ m, m ∈ bob_page ∧ no_store bob_answer = true ∧
    ∃ u, user bob_request = User u ∧ Username u = "bob" ∧ Ready m = true.
Proof.
  destruct bob_page as [|m l] eqn:E; [vm_compute in E; discriminate|].
  exists m. split; [by left|].
  destruct (ListLLMs_confined doc_handler
    (mkSelector (Ok [premium; basic]) None None) bob_request (IO 0 ())
    (ListLLMs doc_handler bob_request (IO 0 ())) (m :: l) m eq_refl eq_refl)
    as (Hns & _ & u & listed & subs & m0 & Hu & _ & _ & _ & Hr & Hm & _).
  - rewrite <-E. vm_compute. reflexivity.
  - by left.
  - split; [exact Hns|]. exists u. split; [exact Hu|].
    injection Hu as <-. split; [reflexivity|]. rewrite Hm. exact Hr.
Defined.

(** A subscription without model references, which the CRD forbids, would list
    every ready model. *)
Example no_references_list_all :
  let sel := mkSelector (Ok [sub_object "ns" "empty" "Active" 1 ["users"] [] []])
               None None in
  let h := mkHandler (Some sel) (Some (Ok [model_object "llm" "opt" "Ready"])) true in
  let req := mkRequest "Bearer sk-oai-x" ["empty"]
               (User (mkUser "bob" ["users"] "t")) in
  match body (reply (ListLLMs h req (IO 0 ())).1) with
  | Page l => ID <$> l
  | _ => []
  end = ["opt"].
Proof. vm_compute. reflexivity. Qed.

(** Subscriptions of one name in two namespaces are shown as one. *)
Example same_name_collapses :
  names <$> aggregateModelsFromSubscriptions doc_models
    [toResponse (parsed basic); toResponse (parsed basic_red)] = [["basic"]].
Proof. vm_compute. reflexivity. Qed.
