(* ===== verification/SpecCompare.v ===== *)
(** When the spec of a generated object needs no update: the comparison of the
    spec a controller wants with the one the API server holds.
    [src/maas-controller/pkg/controller/maas/maasauthpolicy_controller.go]. *)
From S2P Require Import Prelude GoStrings Unstructured.
From stdpp Require Import pretty.

Module SpecCompare.

(** ** The JSON round trip *)

(** A number is [float64] after the round trip. [VFloat] keeps the text of a
    literal, so the [float64] a literal stands for is computed here: the nearest
    [m * 10 ^ x], as [strconv.ParseFloat] has it. *)
Fixpoint read_digits (s : string) (acc count : Z) : Z * Z * string :=
  match s with
  | String a s' =>
      if (48 <=? code a) && (code a <=? 57)
      then read_digits s' (10 * acc + Z.of_nat (code a - 48))%Z (count + 1)%Z
      else (acc, count, s)
  | EmptyString => (acc, count, s)
  end.

(** Up to sign the digits before and after the point, and the exponent. *)
Definition read_decimal (s : string) : option (Z * Z) :=
  let '(whole, _, s) := read_digits s 0 0 in
  let '(m, places, s) :=
    match GoStrings.strip_prefix "." s with
    | Some s => read_digits s whole 0
    | None => (whole, 0%Z, s)
    end in
  match s with
  | EmptyString => Some (m, (- places)%Z)
  | String e s =>
      if negb ((code e =? 101) || (code e =? 69)) then None
      else
        let '(negative, s) :=
          match GoStrings.strip_prefix "-" s with
          | Some s => (true, s)
          | None => (false, default s (GoStrings.strip_prefix "+" s))
          end in
        match read_digits s 0 0 with
        | (x, _, EmptyString) => Some (m, ((if negative then - x else x) - places)%Z)
        | _ => None
        end
  end.

Definition decimal (literal : string) : option (Z * Z) :=
  match GoStrings.strip_prefix "-" literal with
  | Some s => (λ mx : Z * Z, ((- mx.1)%Z, mx.2)) <$> read_decimal s
  | None => read_decimal literal
  end.

(** The nearest [float64] of [n / d], both positive: [q * 2 ^ e] with [q] of at
    most 53 bits and [e] at least -1074, ties to even. *)
Definition nearest (n d : Z) : Z * Z :=
  let k := (Z.log2 n - Z.log2 d)%Z in
  let k :=
    if (if 0 <=? k then d * 2 ^ k <=? n else d <=? n * 2 ^ (- k))%Z then k else (k - 1)%Z in
  let e := Z.max (k - 52) (-1074) in
  let n := if (0 <=? e)%Z then n else (n * 2 ^ (- e))%Z in
  let d := if (0 <=? e)%Z then (d * 2 ^ e)%Z else d in
  let q := (n / d)%Z in
  let rest := (2 * (n mod d))%Z in
  (if (d <? rest)%Z || ((rest =? d)%Z && Z.odd q) then (q + 1)%Z else q, e).

(** The [float64] of [m * 10 ^ x] as an integer over a power of two, in lowest
    terms; the two zeros are equal to Go. *)
Definition float64_of (m x : Z) : Z * Z :=
  if (m =? 0)%Z then (0, 0)%Z
  else
    let '(q, e) :=
      nearest (Z.abs m * 10 ^ Z.max x 0) (10 ^ Z.max (- x) 0) in
    if (0 <=? e)%Z then (Z.sgn m * (q * 2 ^ e), 0)%Z
    else
      let g := Z.gcd q (2 ^ (- e)) in
      (Z.sgn m * (q / g), e + Z.log2 g)%Z.

(** One text for each [float64]. *)
Definition float64_text (f : Z * Z) : string :=
  if (f.2 =? 0)%Z then pretty f.1 else pretty f.1 +:+ "p" +:+ pretty f.2.

(** [json.Marshal], then [json.Unmarshal] into [any]: every number is a
    [float64], the one it has been printed from if it was one; the strings of a
    cluster are UTF-8 and stay. A text that is no JSON number is not there.
    [src/maas-controller/pkg/controller/maas/maasauthpolicy_controller.go:1215-1229] specMatchesDesired. *)
Fixpoint normalize (v : value) : value :=
  match v with
  | VInt z => VFloat (float64_text (float64_of z 0))
  | VFloat literal =>
      VFloat match decimal literal with
             | Some (m, x) => float64_text (float64_of m x)
             | None => literal
             end
  | VSlice l => VSlice (normalize <$> l)
  | VMap m => VMap ((λ kv : string * value, (kv.1, normalize kv.2)) <$> m)
  | _ => v
  end.

(** ** Comparing *)

(** [reflect.DeepEqual] of two decoded documents. *)
Fixpoint same (a b : value) {struct a} : bool :=
  match a, b with
  | VNull, VNull => true
  | VBool x, VBool y => Bool.eqb x y
  | VInt x, VInt y => (x =? y)%Z
  | VFloat x, VFloat y => x == y
  | VString x, VString y => x == y
  | VSlice x, VSlice y =>
      (fix items (x y : list value) : bool :=
         match x, y with
         | [], [] => true
         | v :: x', w :: y' => same v w && items x' y'
         | _, _ => false
         end) x y
  | VMap x, VMap y =>
      (fix fields (x : gomap) : bool :=
         match x with
         | [] => true
         | (k, v) :: x' =>
             match map_get k y with
             | Some w => same v w
             | None => false
             end && fields x'
         end) x
      && forallb (λ kw : string * value, bool_decide (is_Some (map_get kw.1 x))) y
  | _, _ => false
  end.

(** What stays of a value of the current spec next to the desired one; maps lose
    the keys that are not desired, slices are compared position by position.
    [src/maas-controller/pkg/controller/maas/maasauthpolicy_controller.go:1257-1270] stripExtraFieldsSlice. *)
Fixpoint strip (cv dv : value) {struct cv} : value :=
  match cv, dv with
  | VMap c, VMap d =>
      VMap ((fix fields (c : gomap) : gomap :=
               match c with
               | [] => []
               | (k, v) :: c' =>
                   match map_get k d with
                   | None => fields c'
                   | Some w => (k, strip v w) :: fields c'
                   end
               end) c)
  | VSlice c, VSlice d =>
      VSlice ((fix items (c d : list value) : list value :=
                 match c, d with
                 | v :: c', w :: d' => strip v w :: items c' d'
                 | _, _ => c
                 end) c d)
  | _, _ => cv
  end.

(** [src/maas-controller/pkg/controller/maas/maasauthpolicy_controller.go:1235-1255] stripExtraFields. *)
Fixpoint stripExtraFields (current desired : gomap) : gomap :=
  match current with
  | [] => []
  | (k, cv) :: current' =>
      match map_get k desired with
      | None => stripExtraFields current' desired
      | Some dv => (k, strip cv dv) :: stripExtraFields current' desired
      end
  end.

(** [src/maas-controller/pkg/controller/maas/maasauthpolicy_controller.go:1288-1297] isEmptyCollection. *)
Definition isEmptyCollection (v : value) : bool :=
  match v with
  | VMap m => length m =? 0
  | VSlice l => length l =? 0
  | _ => false
  end.

(** A desired value next to the current map of its key, empty if there is
    none.
    [src/maas-controller/pkg/controller/maas/maasauthpolicy_controller.go:1276-1286] stripEmptyDesiredFields. *)
Fixpoint drop_empty (dv : value) (current : gomap) {struct dv} : value :=
  match dv with
  | VMap d =>
      VMap ((fix fields (d : gomap) : gomap :=
               match d with
               | [] => []
               | (k, v) :: d' =>
                   let v := drop_empty v (default [] (get_map k current)) in
                   if bool_decide (map_get k current = None) && isEmptyCollection v
                   then fields d' else (k, v) :: fields d'
               end) d)
  | _ => dv
  end.

(** [src/maas-controller/pkg/controller/maas/maasauthpolicy_controller.go:1272-1286] stripEmptyDesiredFields. *)
Fixpoint stripEmptyDesiredFields (desired current : gomap) : gomap :=
  match desired with
  | [] => []
  | (k, dv) :: desired' =>
      let dv := drop_empty dv (default [] (get_map k current)) in
      if bool_decide (map_get k current = None) && isEmptyCollection dv
      then stripEmptyDesiredFields desired' current
      else (k, dv) :: stripEmptyDesiredFields desired' current
  end.

(** A nil map is no map at all after the round trip.
    [src/maas-controller/pkg/controller/maas/maasauthpolicy_controller.go:1206-1233] specMatchesDesired. *)
Definition specMatchesDesired (desired : gomap) (current : option gomap) : bool :=
  match normalize (VMap desired), normalize <$> (VMap <$> current) with
  | VMap desiredNorm, Some (VMap currentNorm) =>
      let currentNorm := stripExtraFields currentNorm desiredNorm in
      let desiredNorm := stripEmptyDesiredFields desiredNorm currentNorm in
      same (VMap desiredNorm) (VMap currentNorm)
  | _, _ => false
  end.

End SpecCompare.

(** * What the comparison decides *)

Import SpecCompare.

(** ** Values by induction *)

Section value_ind.
Context (P : value → Prop).
Context (P_atom : ∀ v, as_slice v = None → as_map v = None → P v).
Context (P_slice : ∀ l, Forall P l → P (VSlice l)).
Context (P_map : ∀ m, Forall (λ kv : string * value, P kv.2) m → P (VMap m)).

Fixpoint value_nested_ind (v : value) : P v :=
  match v with
  | VSlice l => P_slice l
      ((fix items (l : list value) : Forall P l :=
          match l with
          | [] => Forall_nil_2 _
          | x :: l' => Forall_cons_2 _ _ _ (value_nested_ind x) (items l')
          end) l)
  | VMap m => P_map m
      ((fix fields (m : gomap) : Forall (λ kv : string * value, P kv.2) m :=
          match m with
          | [] => Forall_nil_2 _
          | (k, x) :: m' => Forall_cons_2 _ (k, x) _ (value_nested_ind x) (fields m')
          end) m)
  | VNull => P_atom VNull eq_refl eq_refl
  | VBool b => P_atom (VBool b) eq_refl eq_refl
  | VInt z => P_atom (VInt z) eq_refl eq_refl
  | VFloat s => P_atom (VFloat s) eq_refl eq_refl
  | VString s => P_atom (VString s) eq_refl eq_refl
  end.
End value_ind.

(** ** Well-formed values: a map binds a key once *)

Fixpoint well_formed (v : value) : bool :=
  match v with
  | VSlice l => forallb well_formed l
  | VMap m =>
      bool_decide (NoDup m.*1)
      && forallb (λ kv : string * value, well_formed kv.2) m
  | _ => true
  end.

Lemma map_get_elem k (m : gomap) v : map_get k m = Some v → (k, v) ∈ m.
Proof.
  induction m as [|[k' v'] m IH]; simpl; [done|]. case_bool_decide as E.
  - intros [= ->]. subst. by left.
  - intros H. right. by apply IH.
Qed.

Lemma map_get_keys k (m : gomap) : is_Some (map_get k m) ↔ k ∈ m.*1.
Proof.
  induction m as [|[k' v'] m IH]; simpl.
  - rewrite elem_of_nil. split; [by intros []|done].
  - rewrite elem_of_cons. case_bool_decide as E; [naive_solver|].
    rewrite IH. naive_solver.
Qed.

Lemma map_get_fmap (f : value → value) k (m : gomap) :
  map_get k ((λ kv : string * value, (kv.1, f kv.2)) <$> m) = f <$> map_get k m.
Proof.
  induction m as [|[k' v'] m IH]; cbn; [done|]. by case_bool_decide.
Qed.

(** A key of a map with unique keys has one binding. *)
Lemma elem_map_get k v (m : gomap) : NoDup m.*1 → (k, v) ∈ m → map_get k m = Some v.
Proof.
  induction m as [|[k' v'] m IH]; cbn; [by intros _ []%not_elem_of_nil|].
  intros [Hk' Hnd]%NoDup_cons [[= -> ->]|H]%elem_of_cons.
  - by rewrite bool_decide_eq_true_2.
  - case_bool_decide as E; [|by apply IH]. subst. destruct Hk'.
    apply list_elem_of_fmap. by exists (k, v).
Qed.

Lemma well_formed_map m :
  well_formed (VMap m) = true ↔
  NoDup m.*1 ∧ ∀ k v, map_get k m = Some v → well_formed v = true.
Proof.
  cbn. rewrite andb_true_iff, bool_decide_eq_true, forallb_elem_of. split.
  - intros [Hnd H]. split; [done|]. intros k v E%map_get_elem. apply (H _ E).
  - intros [Hnd H]. split; [done|]. intros [k v] E%elem_map_get; [|done]. by eapply H.
Qed.

Lemma well_formed_slice l :
  well_formed (VSlice l) = true ↔ Forall (λ v, well_formed v = true) l.
Proof. cbn. rewrite forallb_elem_of, Forall_forall. done. Qed.

(** ** What the functions do, key by key *)

Lemma same_slice x y :
  same (VSlice x) (VSlice y) = true ↔ Forall2 (λ v w, same v w = true) x y.
Proof.
  revert y. induction x as [|v x IH]; intros [|w y]; cbn.
  - split; [by constructor|done].
  - split; [done|]. by intros ?%Forall2_nil_cons_inv.
  - split; [done|]. by intros ?%Forall2_cons_nil_inv.
  - rewrite andb_true_iff, Forall2_cons. cbn in IH. by rewrite IH.
Qed.

Lemma same_map x y :
  NoDup x.*1 →
  same (VMap x) (VMap y) = true ↔
  ∀ k, match map_get k x, map_get k y with
       | Some v, Some w => same v w = true
       | None, None => True
       | _, _ => False
       end.
Proof.
  intros Hnd.
  assert (same (VMap x) (VMap y) = true ↔
    (∀ k v, (k, v) ∈ x → ∃ w, map_get k y = Some w ∧ same v w = true)
    ∧ (∀ k, is_Some (map_get k y) → is_Some (map_get k x))) as ->.
  { cbn. rewrite andb_true_iff. apply Morphisms_Prop.and_iff_morphism; [clear Hnd|].
    - induction x as [|[k v] x IH].
      + split; [by intros _ ?? []%not_elem_of_nil|done].
      + rewrite andb_true_iff, IH. split.
        * intros [H1 H2] k' v' [[= -> ->]|Hin]%elem_of_cons; [|by apply H2].
          destruct (map_get k y); [eauto|done].
        * intros H. split; [|intros k' v' Hin; apply H; by right].
          destruct (H k v) as (w & -> & ?); [by left|done].
    - rewrite forallb_elem_of. split.
      + intros H k [w Hw]. specialize (H (k, w) (map_get_elem _ _ _ Hw)).
        by apply bool_decide_eq_true in H.
      + intros H [k w] Hin. apply bool_decide_eq_true, H, map_get_keys.
        apply list_elem_of_fmap. by exists (k, w). }
  split.
  - intros [H1 H2] k. destruct (map_get k x) as [v|] eqn:E.
    + destruct (H1 k v (map_get_elem _ _ _ E)) as (w & -> & ?). done.
    + destruct (map_get k y) eqn:E'; [|done]. destruct (H2 k) as [? ?]; [done|congruence].
  - intros H. split.
    + intros k v Hin%elem_map_get; [|done]. specialize (H k). rewrite Hin in H.
      destruct (map_get k y); [eauto|done].
    + intros k [w Hw]. specialize (H k). rewrite Hw in H.
      by destruct (map_get k x).
Qed.

Lemma strip_map c d : strip (VMap c) (VMap d) = VMap (stripExtraFields c d).
Proof.
  cbn. f_equal. induction c as [|[k v] c IH]; cbn; [done|].
  destruct (map_get k d); by rewrite IH.
Qed.

Lemma drop_empty_map d current :
  drop_empty (VMap d) current = VMap (stripEmptyDesiredFields d current).
Proof.
  cbn. f_equal. induction d as [|[k v] d IH]; cbn; [done|].
  destruct (bool_decide _ && _); by rewrite IH.
Qed.

Lemma map_get_strip k c d :
  map_get k (stripExtraFields c d) =
  match map_get k c, map_get k d with Some v, Some w => Some (strip v w) | _, _ => None end.
Proof.
  induction c as [|[k' v] c IH]; cbn; [done|].
  destruct (decide (k' = k)) as [->|Hne].
  - rewrite bool_decide_eq_true_2 by done. destruct (map_get k d) eqn:E; cbn.
    + by rewrite bool_decide_eq_true_2.
    + rewrite IH. by destruct (map_get k c).
  - rewrite bool_decide_eq_false_2 by done.
    destruct (map_get k' d); cbn; rewrite ?bool_decide_eq_false_2 by done; apply IH.
Qed.

Definition dropped (dv : value) (k : string) (current : gomap) : option value :=
  let dv := drop_empty dv (default [] (get_map k current)) in
  if bool_decide (map_get k current = None) && isEmptyCollection dv then None
  else Some dv.

Lemma stripEmpty_keys d current k :
  k ∈ (stripEmptyDesiredFields d current).*1 → k ∈ d.*1.
Proof.
  induction d as [|[k' v] d IH]; cbn; [done|].
  destruct (_ && _); cbn; rewrite !elem_of_cons; naive_solver.
Qed.

Lemma stripEmpty_nodup d current :
  NoDup d.*1 → NoDup (stripEmptyDesiredFields d current).*1.
Proof.
  induction d as [|[k v] d IH]; cbn; [done|]. intros [Hk Hnd]%NoDup_cons.
  destruct (_ && _); cbn; [by apply IH|]. apply NoDup_cons. split; [|by apply IH].
  by intros ?%stripEmpty_keys.
Qed.

Lemma map_get_stripEmpty k d current :
  NoDup d.*1 →
  map_get k (stripEmptyDesiredFields d current) =
  (map_get k d ≫= λ v, dropped v k current).
Proof.
  induction d as [|[k' v] d IH]; cbn; [done|]. intros [Hk Hnd]%NoDup_cons.
  destruct (decide (k' = k)) as [->|Hne].
  - rewrite (bool_decide_eq_true_2 (k = k)) by done. cbn. unfold dropped.
    destruct (_ && _); cbn; [|by rewrite bool_decide_eq_true_2].
    destruct (map_get k (stripEmptyDesiredFields d current)) eqn:E; [|done].
    destruct Hk. apply (stripEmpty_keys _ current), map_get_keys. by rewrite E.
  - rewrite (bool_decide_eq_false_2 (k' = k)) by done.
    destruct (_ && _); cbn; rewrite ?(bool_decide_eq_false_2 (k' = k)) by done;
      by apply IH.
Qed.

(** ** What is compared *)

(** A collection with nothing in it but such collections. *)
Inductive hollow : value → Prop :=
  | hollow_slice : hollow (VSlice [])
  | hollow_map m : (∀ k v, map_get k m = Some v → hollow v) → hollow (VMap m).

(** The current document holds all the desired one asks for; at a key of a map
    that is not inside a slice, a hollow value may be missing. *)
Inductive covers (in_slice : bool) : value → value → Prop :=
  | covers_atom v :
      as_slice v = None → as_map v = None → covers in_slice v v
  | covers_slice d c : Forall2 (covers true) d c → covers in_slice (VSlice d) (VSlice c)
  | covers_map d c :
      (∀ k v w, map_get k d = Some v → map_get k c = Some w → covers in_slice v w) →
      (∀ k v, map_get k d = Some v → map_get k c = None →
         in_slice = false ∧ hollow v) →
      covers in_slice (VMap d) (VMap c).

(** Everything covers itself. *)
Lemma covers_refl b v : covers b v v.
Proof.
  revert b. induction v as [v Hs Hm|l IH|m IH] using value_nested_ind; intros b.
  - by apply covers_atom.
  - apply covers_slice. induction IH; constructor; auto.
  - apply covers_map; [|congruence]. intros k v w E E'. simplify_eq.
    apply map_get_elem in E. rewrite Forall_forall in IH. apply (IH _ E).
Qed.

Lemma isEmpty_map m : isEmptyCollection (VMap m) = true ↔ ∀ k, map_get k m = None.
Proof.
  destruct m as [|[k v] m]; cbn; [done|]. split; [done|]. intros H.
  specialize (H k). by rewrite bool_decide_eq_true_2 in H.
Qed.

(** With nothing there, exactly a hollow value disappears. *)
Lemma drop_empty_hollow v :
  well_formed v = true → isEmptyCollection (drop_empty v []) = true ↔ hollow v.
Proof.
  induction v as [v Hs Hm|l IH|m IH] using value_nested_ind; intros Hwf.
  - destruct v; try done; split; try done; by inversion 1.
  - destruct l; cbn; split; try done; [by constructor|by inversion 1].
  - apply well_formed_map in Hwf as [Hnd Hwf]. rewrite drop_empty_map, isEmpty_map.
    rewrite Forall_forall in IH. split.
    + intros H. constructor. intros k v E. specialize (H k).
      rewrite map_get_stripEmpty, E in H by done. cbn in H. unfold dropped in H. cbn in H.
      apply (IH _ (map_get_elem _ _ _ E)); [by eapply Hwf|].
      by destruct (isEmptyCollection _).
    + inversion 1 as [|m' Hm]; subst. intros k. rewrite map_get_stripEmpty by done.
      destruct (map_get k m) as [v|] eqn:E; [|done]. cbn. unfold dropped. cbn.
      assert (isEmptyCollection (drop_empty v []) = true) as ->; [|done].
      apply (IH _ (map_get_elem _ _ _ E)); [by eapply Hwf|by eapply Hm].
Qed.

Lemma covers_map_iff b d c :
  covers b (VMap d) (VMap c) ↔
  ∀ k, match map_get k d, map_get k c with
       | Some v, Some w => covers b v w
       | Some v, None => b = false ∧ hollow v
       | None, _ => True
       end.
Proof.
  split.
  - inversion 1 as [| |? ? H1 H2]; subst; [done|]. intros k.
    destruct (map_get k d) eqn:E; [|done]. destruct (map_get k c) eqn:E'; eauto.
  - intros H. apply covers_map; intros k v; specialize (H k).
    + intros w E E'. by rewrite E, E' in H.
    + intros E E'. by rewrite E, E' in H.
Qed.

Lemma covers_slice_iff b d c :
  covers b (VSlice d) (VSlice c) ↔ Forall2 (covers true) d c.
Proof. split; [by inversion 1|apply covers_slice]. Qed.

Definition atom (v : value) : Prop := as_slice v = None ∧ as_map v = None.

Lemma covers_atom_iff b v w : atom v → covers b v w ↔ w = v.
Proof.
  intros [Hs Hm]. split; [|intros ->; by apply covers_atom].
  inversion 1; subst; done.
Qed.

Lemma same_atom v w : atom v → same v w = true ↔ w = v.
Proof.
  intros [Hs Hm]. destruct v as [|x|x|x|x| |], w as [|y|y|y|y| |]; cbn; try done.
  - rewrite Bool.eqb_true_iff. naive_solver.
  - rewrite Z.eqb_eq. naive_solver.
  - rewrite bool_decide_eq_true. naive_solver.
  - rewrite bool_decide_eq_true. naive_solver.
Qed.

Lemma strip_atom w v : atom v → strip w v = w.
Proof. intros [Hs Hm]. by destruct v, w. Qed.

Lemma drop_empty_other v current : as_map v = None → drop_empty v current = v.
Proof. by destruct v. Qed.

(** Inside slices. *)
Lemma strip_strict d c :
  well_formed d = true → well_formed c = true →
  same d (strip c d) = true ↔ covers true d c.
Proof.
  revert c. induction d as [v Hs Hm|l IH|m IH] using value_nested_ind; intros c Hd Hc.
  - rewrite strip_atom by done. by rewrite same_atom, covers_atom_iff.
  - destruct c as [| | | | |c|c]; cbn; try (split; [done|by inversion 1]).
    cbn in Hd, Hc. rewrite covers_slice_iff.
    revert c Hc. induction IH as [|v l Hv IHl IH]; intros [|w c] Hc; cbn.
    + split; [by constructor|done].
    + split; [done|]. by intros ?%Forall2_nil_cons_inv.
    + split; [done|]. by intros ?%Forall2_cons_nil_inv.
    + cbn in Hd, Hc. apply andb_true_iff in Hd as [? Hd], Hc as [? Hc].
      rewrite andb_true_iff, Forall2_cons, Hv by done. by rewrite (IH Hd c Hc).
  - destruct c as [| | | | |c|c]; try (cbn; split; [done|by inversion 1]).
    apply well_formed_map in Hd as [Hnd Hd], Hc as [Hnd' Hc].
    rewrite strip_map, same_map, covers_map_iff by done. apply forall_proper. intros k.
    rewrite map_get_strip.
    destruct (map_get k m) as [v|] eqn:E, (map_get k c) as [w|] eqn:E'; try done.
    + rewrite Forall_forall in IH. apply (IH _ (map_get_elem _ _ _ E)); eauto.
    + split; [done|]. by intros [? _].
Qed.

Lemma strip_lax d c :
  well_formed d = true → well_formed c = true →
  same (drop_empty d (default [] (as_map (strip c d)))) (strip c d) = true
  ↔ covers false d c.
Proof.
  revert c. induction d as [v Hs Hm|l IH|m IH] using value_nested_ind; intros c Hd Hc.
  - rewrite drop_empty_other, strip_atom by done. by rewrite same_atom, covers_atom_iff.
  - rewrite drop_empty_other, strip_strict by done.
    destruct c as [| | | | |c|c]; try by split; inversion 1.
    by rewrite !covers_slice_iff.
  - destruct c as [| | | | |c|c]; try (cbn; split; [done|by inversion 1]).
    apply well_formed_map in Hd as [Hnd Hd], Hc as [Hnd' Hc].
    rewrite strip_map. cbn [as_map default].
    rewrite drop_empty_map, same_map, covers_map_iff by by apply stripEmpty_nodup.
    apply forall_proper. intros k. rewrite map_get_stripEmpty, map_get_strip by done.
    destruct (map_get k m) as [v|] eqn:E; cbn; [|by destruct (map_get k c)].
    unfold dropped, get_map. rewrite map_get_strip, E.
    destruct (map_get k c) as [w|] eqn:E'; cbn.
    + rewrite Forall_forall in IH. apply (IH _ (map_get_elem _ _ _ E)); eauto.
    + rewrite <-(drop_empty_hollow v) by eauto.
      destruct (isEmptyCollection _); naive_solver.
Qed.

(** ** The comparison *)

Lemma normalize_map m :
  normalize (VMap m) = VMap ((λ kv : string * value, (kv.1, normalize kv.2)) <$> m).
Proof. done. Qed.

Lemma normalize_well_formed v : well_formed (normalize v) = well_formed v.
Proof.
  induction v as [v Hs Hm|l IH|m IH] using value_nested_ind; [by destruct v| |].
  - cbn. induction IH as [|v l Hv _ IH]; cbn; [done|]. by rewrite Hv, IH.
  - cbn. f_equal.
    + apply bool_decide_ext. by rewrite <-list_fmap_compose.
    + induction IH as [|[k v] m Hv _ IH]; cbn; [done|]. cbn in Hv. by rewrite Hv, IH.
Qed.

Lemma specMatches_covers d c :
  well_formed (VMap d) = true → well_formed (VMap c) = true →
  specMatchesDesired d (Some c) = true
  ↔ covers false (normalize (VMap d)) (normalize (VMap c)).
Proof.
  intros Hd Hc. rewrite <-strip_lax by by rewrite normalize_well_formed.
  unfold specMatchesDesired. cbn [fmap option_fmap option_map].
  rewrite !normalize_map, strip_map. cbn [as_map default].
  by rewrite drop_empty_map.
Qed.

Lemma specMatches_none d : specMatchesDesired d None = false.
Proof. done. Qed.

Lemma specMatches_refl d :
  well_formed (VMap d) = true → specMatchesDesired d (Some d) = true.
Proof. intros Hd. apply specMatches_covers; [done..|]. apply covers_refl. Qed.

(** Integers of up to 53 bits stay, and are told apart. *)
Lemma nearest_exact n : (0 < n < 2 ^ 53)%Z →
  nearest n 1 = ((n * 2 ^ (52 - Z.log2 n))%Z, (Z.log2 n - 52)%Z).
Proof.
  intros [Hn Hmax]. pose proof (Z.log2_nonneg n).
  assert (Z.log2 n <= 52)%Z by (apply Z.lt_succ_r, Z.log2_lt_pow2; done).
  unfold nearest. change (Z.log2 1) with 0%Z. rewrite Z.sub_0_r.
  rewrite (proj2 (Z.leb_le 0 (Z.log2 n))) by done.
  rewrite Z.mul_1_l, (proj2 (Z.leb_le _ _) (proj1 (Z.log2_spec n Hn))).
  rewrite Z.max_l by lia.
  replace (- (Z.log2 n - 52))%Z with (52 - Z.log2 n)%Z by lia.
  assert ((if (0 <=? Z.log2 n - 52)%Z then (1 * 2 ^ (Z.log2 n - 52))%Z else 1%Z) = 1%Z) as ->.
  { case_match; [|done]. by replace (Z.log2 n - 52)%Z with 0%Z by lia. }
  assert ((if (0 <=? Z.log2 n - 52)%Z then n else (n * 2 ^ (52 - Z.log2 n))%Z)
          = (n * 2 ^ (52 - Z.log2 n))%Z) as ->.
  { case_match; [|done]. replace (52 - Z.log2 n)%Z with 0%Z by lia. by rewrite Z.mul_1_r. }
  by rewrite Z.div_1_r, Z.mod_1_r.
Qed.

Lemma float64_of_exact z : (Z.abs z < 2 ^ 53)%Z → float64_of z 0 = (z, 0%Z).
Proof.
  intros Hz. unfold float64_of. destruct (Z.eqb_spec z 0) as [->|Hne]; [done|].
  change (10 ^ Z.max 0 0)%Z with 1%Z. change (10 ^ Z.max (- 0) 0)%Z with 1%Z.
  rewrite Z.mul_1_r, nearest_exact by lia.
  pose proof (Z.log2_nonneg (Z.abs z)).
  assert (Z.log2 (Z.abs z) <= 52)%Z by (apply Z.lt_succ_r, Z.log2_lt_pow2; lia).
  destruct (Z.leb_spec 0 (Z.log2 (Z.abs z) - 52)) as [Hle|Hlt].
  - replace (Z.log2 (Z.abs z)) with 52%Z by lia. cbn -[Z.mul]. f_equal. lia.
  - replace (- (Z.log2 (Z.abs z) - 52))%Z with (52 - Z.log2 (Z.abs z))%Z by lia.
    set (j := (52 - Z.log2 (Z.abs z))%Z).
    assert (0 < 2 ^ j)%Z by (apply Z.pow_pos_nonneg; lia).
    assert (Z.gcd (Z.abs z * 2 ^ j) (2 ^ j) = 2 ^ j)%Z as ->.
    { rewrite Z.gcd_comm, Z.mul_comm. apply Z.gcd_mul_diag_l. lia. }
    rewrite Z.div_mul, Z.log2_pow2 by lia. f_equal; lia.
Qed.

Lemma integers_told_apart y z : (Z.abs y < 2 ^ 53)%Z → (Z.abs z < 2 ^ 53)%Z →
  normalize (VInt y) = normalize (VInt z) → y = z.
Proof.
  intros Hy Hz. cbn [normalize]. rewrite !float64_of_exact by done. cbn.
  intros [= E]. by apply (inj pretty).
Qed.

(** Literals of one number count as equal, also to the integer; others do not. *)
Example literals_of_one :
  normalize <$> [VFloat "1.0"; VFloat "10e-1"; VFloat "0.1E+1"; VInt 1]
  = replicate 4 (VFloat "1").
Proof. by_compute. Qed.
Example literals_apart :
  normalize (VFloat "0.1") ≠ normalize (VFloat "0.1000000000000001")
  ∧ normalize (VFloat "0.1") = normalize (VFloat "0.10000000000000001")
  ∧ normalize (VInt (2 ^ 53)) = normalize (VInt (2 ^ 53 + 1))
  ∧ normalize (VFloat "4e-324") = normalize (VFloat "5e-324")
  ∧ normalize (VFloat "2e-324") = normalize (VFloat "-0.0").
Proof. split_and!; [by vm_compute|by_compute..]. Qed.

(** A document holds all an equal one asks for. *)
Lemma same_covers b a d :
  well_formed a = true → same a d = true → covers b (normalize d) (normalize a).
Proof.
  revert b d. induction a as [v Hs Hm|l IH|m IH] using value_nested_ind; intros b d Hwf H.
  - apply same_atom in H as ->; [|done]. apply covers_refl.
  - destruct d as [| | | | |d|d]; try done. apply same_slice in H.
    apply covers_slice. apply well_formed_slice in Hwf.
    revert Hwf IH. induction H as [|v w l d Hvw _ IHl]; intros Hwf IH; [constructor|].
    apply Forall_cons in Hwf as [??], IH as [? IH]. constructor; auto.
  - destruct d as [| | | | |d|d]; try done.
    apply well_formed_map in Hwf as [Hnd Hwf]. rewrite same_map in H by done.
    rewrite !normalize_map, covers_map_iff. intros k. specialize (H k).
    rewrite !map_get_fmap. rewrite Forall_forall in IH.
    destruct (map_get k d) as [w|]; [|done]. cbn.
    destruct (map_get k m) as [v|] eqn:E; [|done]. cbn.
    apply (IH _ (map_get_elem _ _ _ E)); eauto.
Qed.

(** What lacks something differs. *)
Lemma specMatches_differs d (old : option value) :
  well_formed (VMap d) = true →
  (∀ v, old = Some v → well_formed v = true) →
  specMatchesDesired d (old ≫= as_map) = false →
  match old with Some old => same old (VMap d) = false | None => True end.
Proof.
  intros Hd Ho H. destruct old as [[| | | | | |c]|]; try done.
  apply not_true_is_false. intros Hs. cbn in H.
  apply not_true_iff_false in H. apply H, specMatches_covers; [done|by apply Ho|].
  apply same_covers; [by apply Ho|done].
Qed.
