(* ===== verification/GoFmt.v ===== *)
(** Formatting: the verbs of Go's [fmt] that the messages of a model's status
    use beyond plain concatenation. *)
From S2P Require Import Prelude GoStrings Regex.
From stdpp Require Import pretty.

Module Fmt.

(** [strconv.IsPrint] of a rune beyond ASCII: the tables of [unicode]. *)
Class Unicode : Type := { IsPrint : N → bool }.

(** The rune of a well-formed sequence: a first byte and those that follow. *)
Definition rune (c : ascii) (tail : list ascii) : N :=
  let low (b : ascii) := (N.of_nat (code b) mod 64)%N in
  let first :=
    match tail with
    | [_] => (N.of_nat (code c) mod 32)%N
    | [_; _] => (N.of_nat (code c) mod 16)%N
    | _ => (N.of_nat (code c) mod 8)%N
    end in
  foldl (λ r b, (r * 64 + low b)%N) first tail.

(** The first bytes of a string. *)
Fixpoint take_bytes (n : nat) (s : string) : list ascii :=
  match n, s with
  | S n', String c s' => c :: take_bytes n' s'
  | _, _ => []
  end.

(** Lower-case hexadecimal, in so many digits. *)
Definition hex_digit (n : N) : ascii :=
  if (n <? 10)%N then Ascii.ascii_of_N (48 + n) else Ascii.ascii_of_N (87 + n).
Fixpoint hex (width : nat) (n : N) : string :=
  match width with
  | O => ""
  | S w => hex w (n / 16) +:+ String (hex_digit (n mod 16)) ""
  end.

Definition backslash : string := String (byte 92) "".
Definition quote_mark : string := String (byte 34) "".

(** An ASCII character, as [appendEscapedRune] of [strconv] writes it. *)
Definition escape_ascii (c : ascii) : string :=
  let n := code c in
  if (n =? 34) || (n =? 92) then backslash +:+ String c ""
  else if (32 <=? n) && (n <=? 126) then String c ""
  else if n =? 7 then backslash +:+ "a"
  else if n =? 8 then backslash +:+ "b"
  else if n =? 12 then backslash +:+ "f"
  else if n =? 10 then backslash +:+ "n"
  else if n =? 13 then backslash +:+ "r"
  else if n =? 9 then backslash +:+ "t"
  else if n =? 11 then backslash +:+ "v"
  else backslash +:+ "x" +:+ hex 2 (N.of_nat n).

Section quote.
Context {uni : Unicode}.

(** Bytes that are not part of a rune are written in hexadecimal; [skip] bytes
    belong to the rune before. *)
Fixpoint quoted (skip : nat) (s : string) : string :=
  match s with
  | EmptyString => ""
  | String c s' =>
      match skip with
      | S k => quoted k s'
      | O =>
          if code c <? 128 then escape_ascii c +:+ quoted 0 s'
          else
            match rune_tail c s' with
            | O => backslash +:+ "x" +:+ hex 2 (N.of_nat (code c)) +:+ quoted 0 s'
            | k =>
                let tail := take_bytes k s' in
                let r := rune c tail in
                (if IsPrint r then String.string_of_list_ascii (c :: tail)
                 else if (r <? 65536)%N then backslash +:+ "u" +:+ hex 4 r
                 else backslash +:+ "U" +:+ hex 8 r)
                +:+ quoted k s'
            end
      end
  end.

(** [%q] of a string: [strconv.Quote]. *)
Definition Quote (s : string) : string := quote_mark +:+ quoted 0 s +:+ quote_mark.
End quote.

(** [%v] of a list of strings. *)
Definition show_list (l : list string) : string := "[" +:+ GoStrings.join " " l +:+ "]".

Example quote_plain : @Quote {| IsPrint _ := true |} "gpt" = quote_mark +:+ "gpt" +:+ quote_mark.
Proof. by_compute. Qed.
Example quote_escapes :
  @Quote {| IsPrint _ := false |} (bytes [10; 195; 169; 1; 255])
  = quote_mark +:+ backslash +:+ "n" +:+ backslash +:+ "u00e9" +:+ backslash +:+ "x01"
    +:+ backslash +:+ "xff" +:+ quote_mark.
Proof. by_compute. Qed.

End Fmt.
