(* ===== verification/MaasTypes.v ===== *)
(** The custom resources of the controllers, as far as these read and write
    them.
    [src/maas-controller/api/maas/v1alpha1]. *)
From S2P Require Import Prelude.

Module V1.

(** [src/maas-controller/api/maas/v1alpha1/common_types.go:24-30] Phase. *)
Definition PhasePending : string := "Pending".
Definition PhaseActive : string := "Active".
Definition PhaseDegraded : string := "Degraded".
Definition PhaseFailed : string := "Failed".
Definition PhaseInvalid : string := "Invalid".

(** The reasons the controllers write.
    [src/maas-controller/api/maas/v1alpha1/common_types.go:47-93] ConditionReason. *)
Definition ReasonReconciled : string := "Reconciled".
Definition ReasonReconcileFailed : string := "ReconcileFailed".
Definition ReasonPartialFailure : string := "PartialFailure".
Definition ReasonValid : string := "Valid".
Definition ReasonNotFound : string := "NotFound".
Definition ReasonGetFailed : string := "GetFailed".
Definition ReasonAccepted : string := "Accepted".
Definition ReasonNotAccepted : string := "NotAccepted".
Definition ReasonBackendNotReady : string := "BackendNotReady".
Definition ReasonInvalidSpec : string := "InvalidSpec".
Definition ReasonUnknown : string := "Unknown".
Definition ReasonAcceptedEnforced : string := "AcceptedEnforced".
Definition ReasonNotEnforced : string := "NotEnforced".
Definition ReasonConditionsNotFound : string := "ConditionsNotFound".

(** [src/maas-controller/api/maas/v1alpha1/maassubscription_types.go:76-91] TokenRateLimit. *)
Record TokenRateLimit : Type := mkLimit {
  Limit : Z;
  Window : string;
}.

(** The billing rate is its [PerToken] string.
    [src/maas-controller/api/maas/v1alpha1/maassubscription_types.go:55-73] ModelSubscriptionRef. *)
Record ModelSubscriptionRef : Type := mkModelRef {
  ref_Name : string;
  ref_Namespace : string;
  TokenRateLimits : list TokenRateLimit;
  BillingRate : option string;
}.

(** [src/maas-controller/api/maas/v1alpha1/maassubscription_types.go:100-112] TokenMetadata. *)
Record TokenMetadata : Type := mkTokenMetadata {
  OrganizationID : string;
  CostCenter : string;
  meta_Labels : option (gmap string string);
}.

(** The owner is its groups and users.
    [src/maas-controller/api/maas/v1alpha1/maassubscription_types.go:24-52] MaaSSubscriptionSpec. *)
Record MaaSSubscriptionSpec : Type := mkSpec {
  owner_Groups : list string;
  owner_Users : list string;
  ModelRefs : list ModelSubscriptionRef;
  spec_TokenMetadata : option TokenMetadata;
  Priority : Z;
}.

(** [src/maas-controller/api/maas/v1alpha1/common_types.go:115-133] ResourceRefStatus. *)
Record ResourceRefStatus : Type := mkRefStatus {
  st_Name : string;
  st_Namespace : string;
  st_Ready : bool;
  st_Reason : string;
  st_Message : string;
}.

(** A [ModelRefStatus] is its embedded [ResourceRefStatus].
    [src/maas-controller/api/maas/v1alpha1/maassubscription_types.go:119-126] TokenRateLimitStatus. *)
Record TokenRateLimitStatus : Type := mkTrlpStatus {
  trlp_ref : ResourceRefStatus;
  trlp_Model : string;
}.

(** [metav1.Condition], without the time of its last transition, which is set
    only together with the status. *)
Record Condition : Type := mkCondition {
  c_Type : string;
  c_Status : string;
  c_Reason : string;
  c_Message : string;
  c_ObservedGeneration : Z;
}.

(** [src/maas-controller/api/maas/v1alpha1/maassubscription_types.go:128-144] MaaSSubscriptionStatus. *)
Record MaaSSubscriptionStatus : Type := mkStatus {
  Phase : string;
  Conditions : list Condition;
  ModelRefStatuses : list ResourceRefStatus;
  TokenRateLimitStatuses : list TokenRateLimitStatus;
}.

(** [deleting] tells whether a deletion timestamp is set.
    [src/maas-controller/api/maas/v1alpha1/maassubscription_types.go:152-159] MaaSSubscription. *)
Record MaaSSubscription : Type := mkSubscription {
  Name : string;
  Namespace : string;
  Generation : Z;
  deleting : bool;
  Finalizers : list string;
  Spec : MaaSSubscriptionSpec;
  Status : MaaSSubscriptionStatus;
}.

#[global] Instance TokenRateLimit_eq_dec : EqDecision TokenRateLimit.
Proof. solve_decision. Defined.
#[global] Instance ModelSubscriptionRef_eq_dec : EqDecision ModelSubscriptionRef.
Proof. solve_decision. Defined.
#[global] Instance TokenMetadata_eq_dec : EqDecision TokenMetadata.
Proof. solve_decision. Defined.
#[global] Instance MaaSSubscriptionSpec_eq_dec : EqDecision MaaSSubscriptionSpec.
Proof. solve_decision. Defined.
#[global] Instance ResourceRefStatus_eq_dec : EqDecision ResourceRefStatus.
Proof. solve_decision. Defined.
#[global] Instance TokenRateLimitStatus_eq_dec : EqDecision TokenRateLimitStatus.
Proof. solve_decision. Defined.
#[global] Instance Condition_eq_dec : EqDecision Condition.
Proof. solve_decision. Defined.
#[global] Instance MaaSSubscriptionStatus_eq_dec : EqDecision MaaSSubscriptionStatus.
Proof. solve_decision. Defined.

#[global] Instance MaaSSubscription_eq_dec : EqDecision MaaSSubscription.
Proof. solve_decision. Defined.

(** The zero values. *)
Definition zero_spec : MaaSSubscriptionSpec := mkSpec [] [] [] None 0.
Definition zero_status : MaaSSubscriptionStatus := mkStatus "" [] [] [].

Definition set_Status (s : MaaSSubscription) (st : MaaSSubscriptionStatus)
    : MaaSSubscription :=
  mkSubscription (Name s) (Namespace s) (Generation s) (deleting s)
    (Finalizers s) (Spec s) st.
Definition set_Finalizers (s : MaaSSubscription) (fs : list string)
    : MaaSSubscription :=
  mkSubscription (Name s) (Namespace s) (Generation s) (deleting s) fs (Spec s)
    (Status s).

(** The namespaced name of a referenced model. *)
Definition model_key (ref : ModelSubscriptionRef) : string * string :=
  (ref_Namespace ref, ref_Name ref).

(** ** MaaSAuthPolicy *)

(** Its model references are namespaces and names, its subjects groups and users.
    [src/maas-controller/api/maas/v1alpha1/maasauthpolicy_types.go:23-81] MaaSAuthPolicySpec. *)
Record MaaSAuthPolicySpec : Type := mkAuthSpec {
  as_ModelRefs : list (string * string);
  subject_Groups : list string;
  subject_Users : list string;
  as_MeteringMetadata : option TokenMetadata;
}.

(** [src/maas-controller/api/maas/v1alpha1/maasauthpolicy_types.go:83-95] AuthPolicyRefStatus. *)
Record AuthPolicyRefStatus : Type := mkAuthRefStatus {
  aps_ref : ResourceRefStatus;
  aps_Model : string;
  aps_ModelNamespace : string;
}.

(** [src/maas-controller/api/maas/v1alpha1/maasauthpolicy_types.go:97-109] MaaSAuthPolicyStatus. *)
Record MaaSAuthPolicyStatus : Type := mkAuthStatus {
  ap_Phase : string;
  ap_Conditions : list Condition;
  ap_AuthPolicies : list AuthPolicyRefStatus;
}.

(** [src/maas-controller/api/maas/v1alpha1/maasauthpolicy_types.go:118-124] MaaSAuthPolicy. *)
Record MaaSAuthPolicy : Type := mkAuthPolicyCR {
  ap_Name : string;
  ap_Namespace : string;
  ap_Generation : Z;
  ap_deleting : bool;
  ap_Finalizers : list string;
  ap_Spec : MaaSAuthPolicySpec;
  ap_Status : MaaSAuthPolicyStatus;
}.

#[global] Instance MaaSAuthPolicySpec_eq_dec : EqDecision MaaSAuthPolicySpec.
Proof. solve_decision. Defined.
#[global] Instance AuthPolicyRefStatus_eq_dec : EqDecision AuthPolicyRefStatus.
Proof. solve_decision. Defined.
#[global] Instance MaaSAuthPolicyStatus_eq_dec : EqDecision MaaSAuthPolicyStatus.
Proof. solve_decision. Defined.
#[global] Instance MaaSAuthPolicy_eq_dec : EqDecision MaaSAuthPolicy.
Proof. solve_decision. Defined.

Definition zero_auth_spec : MaaSAuthPolicySpec := mkAuthSpec [] [] [] None.
Definition set_auth_Status (p : MaaSAuthPolicy) (st : MaaSAuthPolicyStatus)
    : MaaSAuthPolicy :=
  mkAuthPolicyCR (ap_Name p) (ap_Namespace p) (ap_Generation p) (ap_deleting p)
    (ap_Finalizers p) (ap_Spec p) st.
Definition set_auth_Finalizers (p : MaaSAuthPolicy) (fs : list string)
    : MaaSAuthPolicy :=
  mkAuthPolicyCR (ap_Name p) (ap_Namespace p) (ap_Generation p) (ap_deleting p) fs
    (ap_Spec p) (ap_Status p).
Definition auth_key (p : MaaSAuthPolicy) : string * string :=
  (ap_Namespace p, ap_Name p).

(** [src/maas-controller/api/maas/v1alpha1/tenant_types.go:81-100] TenantExternalOIDCConfig. *)
Record TenantExternalOIDCConfig : Type := mkOIDC {
  oidc_IssuerURL : string;
  oidc_ClientID : string;
  oidc_TTL : Z;
}.

(** ** MaaSModelRef *)

(** The [spec.modelRef], first, is a kind and a name.
    [src/maas-controller/api/maas/v1alpha1/maasmodelref_types.go:40-75] MaaSModelSpec. *)
Record MaaSModelSpec : Type := mkModelSpec {
  m_Kind : string;
  m_Name : string;
  m_EndpointOverride : string;
  m_TenantRef : string;
}.

(** [src/maas-controller/api/maas/v1alpha1/maasmodelref_types.go:102-158] MaaSModelStatus. *)
Record MaaSModelStatus : Type := mkModelStatus {
  ms_Phase : string;
  ms_Endpoint : string;
  ms_HTTPRouteName : string;
  ms_HTTPRouteNamespace : string;
  ms_HTTPRouteGatewayName : string;
  ms_HTTPRouteGatewayNamespace : string;
  ms_HTTPRouteHostnames : list string;
  ms_ResolvedTenantRef : string;
  ms_ResolvedModelAlias : string;
  ms_Conditions : list Condition;
}.

(** Its namespace and name are those it is stored under.
    [src/maas-controller/api/maas/v1alpha1/maasmodelref_types.go:31-38] MaaSModelRef. *)
Record MaaSModelRef : Type := mkModel {
  m_Generation : Z;
  m_deleting : bool;
  m_Finalizers : list string;
  m_Spec : MaaSModelSpec;
  m_Status : MaaSModelStatus;
}.

#[global] Instance MaaSModelSpec_eq_dec : EqDecision MaaSModelSpec.
Proof. solve_decision. Defined.
#[global] Instance MaaSModelStatus_eq_dec : EqDecision MaaSModelStatus.
Proof. solve_decision. Defined.

Definition zero_model_spec : MaaSModelSpec := mkModelSpec "" "" "" "".
Definition zero_model_status : MaaSModelStatus :=
  mkModelStatus "" "" "" "" "" "" [] "" "" [].
Definition set_model_Status (m : MaaSModelRef) (st : MaaSModelStatus) : MaaSModelRef :=
  mkModel (m_Generation m) (m_deleting m) (m_Finalizers m) (m_Spec m) st.
Definition set_model_Finalizers (m : MaaSModelRef) (fs : list string) : MaaSModelRef :=
  mkModel (m_Generation m) (m_deleting m) fs (m_Spec m) (m_Status m).

(** Updates of one field of the status. *)
Definition set_Phase (phase : string) (st : MaaSModelStatus) : MaaSModelStatus :=
  mkModelStatus phase (ms_Endpoint st) (ms_HTTPRouteName st) (ms_HTTPRouteNamespace st)
    (ms_HTTPRouteGatewayName st) (ms_HTTPRouteGatewayNamespace st)
    (ms_HTTPRouteHostnames st) (ms_ResolvedTenantRef st) (ms_ResolvedModelAlias st)
    (ms_Conditions st).
Definition set_Endpoint (endpoint : string) (st : MaaSModelStatus) : MaaSModelStatus :=
  mkModelStatus (ms_Phase st) endpoint (ms_HTTPRouteName st) (ms_HTTPRouteNamespace st)
    (ms_HTTPRouteGatewayName st) (ms_HTTPRouteGatewayNamespace st)
    (ms_HTTPRouteHostnames st) (ms_ResolvedTenantRef st) (ms_ResolvedModelAlias st)
    (ms_Conditions st).
Definition set_route (name ns : string) (st : MaaSModelStatus) : MaaSModelStatus :=
  mkModelStatus (ms_Phase st) (ms_Endpoint st) name ns
    (ms_HTTPRouteGatewayName st) (ms_HTTPRouteGatewayNamespace st)
    (ms_HTTPRouteHostnames st) (ms_ResolvedTenantRef st) (ms_ResolvedModelAlias st)
    (ms_Conditions st).
Definition set_gateway (name ns : string) (hostnames : list string) (st : MaaSModelStatus)
    : MaaSModelStatus :=
  mkModelStatus (ms_Phase st) (ms_Endpoint st) (ms_HTTPRouteName st)
    (ms_HTTPRouteNamespace st) name ns hostnames (ms_ResolvedTenantRef st)
    (ms_ResolvedModelAlias st) (ms_Conditions st).
Definition set_tenant (tenant : string) (st : MaaSModelStatus) : MaaSModelStatus :=
  mkModelStatus (ms_Phase st) (ms_Endpoint st) (ms_HTTPRouteName st)
    (ms_HTTPRouteNamespace st) (ms_HTTPRouteGatewayName st)
    (ms_HTTPRouteGatewayNamespace st) (ms_HTTPRouteHostnames st) tenant
    (ms_ResolvedModelAlias st) (ms_Conditions st).
Definition set_alias (alias : string) (st : MaaSModelStatus) : MaaSModelStatus :=
  mkModelStatus (ms_Phase st) (ms_Endpoint st) (ms_HTTPRouteName st)
    (ms_HTTPRouteNamespace st) (ms_HTTPRouteGatewayName st)
    (ms_HTTPRouteGatewayNamespace st) (ms_HTTPRouteHostnames st)
    (ms_ResolvedTenantRef st) alias (ms_Conditions st).
Definition set_Conditions (cs : list Condition) (st : MaaSModelStatus) : MaaSModelStatus :=
  mkModelStatus (ms_Phase st) (ms_Endpoint st) (ms_HTTPRouteName st)
    (ms_HTTPRouteNamespace st) (ms_HTTPRouteGatewayName st)
    (ms_HTTPRouteGatewayNamespace st) (ms_HTTPRouteHostnames st)
    (ms_ResolvedTenantRef st) (ms_ResolvedModelAlias st) cs.

End V1.
