(* ===== verification/TokenLimits.v ===== *)
(** The pure decisions of the subscription controller: which token limits are
    acceptable, and the phase of a subscription.
    [src/maas-controller/pkg/controller/maas/maassubscription_controller.go]. *)
From S2P Require Import Prelude GoStrings Unstructured MaasTypes.
From stdpp Require Import pretty.
Import V1.

Module Limits.

(** [src/maas-controller/pkg/controller/maas/maassubscription_controller.go:94-96] maxTokenRateLimit. *)
Definition maxTokenRateLimit : Z := 1000000000.
(** [src/maas-controller/pkg/controller/maas/maassubscription_controller.go:98-101] maxWindowSeconds. *)
Definition maxWindowSeconds : Z := 366 * 24 * 3600.

Definition digit (c : ascii) : bool := (48 <=? code c) && (code c <=? 57).

(** The unit a byte names, in seconds. *)
Definition unit_seconds (c : ascii) : option Z :=
  if c == "s"%char then Some 1%Z
  else if c == "m"%char then Some 60%Z
  else if c == "h"%char then Some 3600%Z
  else None.

(** [^[1-9]\d{0,3}(s|m|h)$]: the digits before the last byte and the unit.
    [src/maas-controller/pkg/controller/maas/maassubscription_controller.go:103-103] windowPattern. *)
Definition windowPattern (window : string) : option (string * Z) :=
  match String.rev window with
  | String u r =>
      let num := String.rev r in
      match num, unit_seconds u with
      | String d rest, Some unit =>
          if digit d && (d != "0"%char) && all_bytes digit rest
             && (String.length rest <=? 3)
          then Some (num, unit) else None
      | _, _ => None
      end
  | EmptyString => None
  end.

(** [strconv.ParseInt] in base 10, on digits few enough not to overflow. *)
Fixpoint parse_digits (acc : Z) (s : string) : Z :=
  match s with
  | EmptyString => acc
  | String d s' => parse_digits (10 * acc + (Z.of_nat (code d) - 48)) s'
  end.

(** The errors, which are only logged: the limit is not positive or too large,
    the window is malformed or, in seconds, too long. *)
Inductive limit_error : Type :=
  | LimitNotPositive (limit : Z)
  | LimitTooLarge (limit : Z)
  | BadWindow (window : string)
  | WindowTooLong (window : string) (seconds : Z).

(** [None] is the nil error; the number cannot fail to parse after the pattern.
    [src/maas-controller/pkg/controller/maas/maassubscription_controller.go:103-141] validateTokenRateLimit. *)
Definition validateTokenRateLimit (limit : Z) (window : string)
    : option limit_error :=
  if (limit <=? 0)%Z then Some (LimitNotPositive limit)
  else if (maxTokenRateLimit <? limit)%Z then Some (LimitTooLarge limit)
  else
    match windowPattern window with
    | None => Some (BadWindow window)
    | Some (numStr, unit) =>
        let value := parse_digits 0 numStr in
        let seconds := (value * unit)%Z in
        if (maxWindowSeconds <? seconds)%Z then Some (WindowTooLong window seconds)
        else None
    end.

(** The duration of a window the pattern accepts, in seconds. *)
Definition window_seconds (window : string) : option Z :=
  '(num, unit) ← windowPattern window; Some (parse_digits 0 num * unit)%Z.

(** ** Phases *)

(** How many statuses are not ready because the backend of a model that counts
    as valid is not; valid models are known by their names only.
    [src/maas-controller/pkg/controller/maas/maassubscription_controller.go:303-319] deriveFinalPhase. *)
Definition backend_issues (modelStatuses : list ResourceRefStatus)
    (trlpStatuses : list TokenRateLimitStatus) : nat :=
  let validModelSet := st_Name <$> List.filter st_Ready modelStatuses in
  length (List.filter (λ s, negb (st_Ready (trlp_ref s))
            && (st_Reason (trlp_ref s) == ReasonBackendNotReady)
            && contains validModelSet (trlp_Model s)) trlpStatuses).

(** [src/maas-controller/pkg/controller/maas/maassubscription_controller.go:283-341] deriveFinalPhase. *)
Definition deriveFinalPhase (modelStatuses : list ResourceRefStatus)
    (trlpStatuses : list TokenRateLimitStatus) : string * string :=
  if length modelStatuses =? 0 then
    (PhaseFailed, "no model references specified")
  else
    let validModels := Z.of_nat (length (List.filter st_Ready modelStatuses)) in
    let invalidModels :=
      Z.of_nat (length (List.filter (λ s, negb (st_Ready s)) modelStatuses)) in
    let unhealthyTRLPs := Z.of_nat
      (length (List.filter (λ s, negb (st_Ready (trlp_ref s))) trlpStatuses)) in
    let modelsWithBackendIssues :=
      Z.of_nat (backend_issues modelStatuses trlpStatuses) in
    let effectiveValidModels := (validModels - modelsWithBackendIssues)%Z in
    let effectiveInvalidModels := (invalidModels + modelsWithBackendIssues)%Z in
    let total := pretty (Z.of_nat (length modelStatuses)) in
    if (effectiveValidModels <=? 0)%Z then
      (PhaseFailed,
       "all " +:+ total +:+ " model references are invalid or unavailable")
    else if (0 <? effectiveInvalidModels)%Z then
      (PhaseDegraded, pretty effectiveInvalidModels +:+ " of " +:+ total
        +:+ " model references are invalid or unavailable")
    else
      let trlpOnlyIssues := (unhealthyTRLPs - modelsWithBackendIssues)%Z in
      if (0 <? trlpOnlyIssues)%Z then
        (PhaseDegraded, pretty trlpOnlyIssues +:+ " of "
          +:+ pretty (Z.of_nat (length trlpStatuses))
          +:+ " TokenRateLimitPolicies not accepted")
      else (PhaseActive, "successfully reconciled").

(** ** The health of a policy *)

Section health.
Context {api : ApiMachinery}.

Fixpoint accepted_condition (conditions : list value) : bool * string :=
  match conditions with
  | [] => (false, "Accepted condition not found")
  | c :: conditions' =>
      match as_map c with
      | None => accepted_condition conditions'
      | Some cond =>
          match map_get "type" cond with
          | Some (VString "Accepted") =>
              match map_get "status" cond with
              | Some (VString "True") => (true, "")
              | _ => match get_string "message" cond with
                     | Some msg => (false, msg)
                     | None => (false, "Accepted condition is False")
                     end
              end
          | _ => accepted_condition conditions'
          end
      end
  end.

(** [src/maas-controller/pkg/controller/maas/maassubscription_controller.go:253-281] getTRLPAcceptedCondition. *)
Definition getTRLPAcceptedCondition (trlp : obj) : bool * string :=
  match found (NestedMap trlp ["status"]) with
  | None => (false, "status not available")
  | Some status =>
      match found (NestedSlice status ["conditions"]) with
      | None => (false, "conditions not found")
      | Some conditions => accepted_condition conditions
      end
  end.
End health.

(** ** Evaluated *)

Example year_ok : validateTokenRateLimit 1000 "8784h" = None.
Proof. by_compute. Qed.
Example too_long :
  validateTokenRateLimit 1000 "9000h" = Some (WindowTooLong "9000h" 32400000).
Proof. by_compute. Qed.
Example bad_windows :
  windowPattern "0h" = None ∧ windowPattern "h" = None ∧ windowPattern "1d" = None
  ∧ windowPattern "10000s" = None ∧ windowPattern "01h" = None.
Proof. repeat split. Qed.

End Limits.
