(* ===== verification/Cluster.v ===== *)
(** The Kubernetes objects the controllers work on, and their calls of the API
    server: each may fail, before or after it has taken effect. *)
From S2P Require Import Prelude GoStrings Unstructured GoTime Runtime MaasTypes.
From S2P Require Import SpecCompare.

Module Cluster.

(** Namespace and name. *)
Abbreviation key := (string * string)%type.

(** ** Objects *)

Record ParentRef : Type := mkParent {
  p_Group : option string;
  p_Kind : option string;
  p_Namespace : option string;
  p_Name : string;
}.

(** What a Gateway reports of a route: an entry of [status.parents]. *)
Record RouteParentStatus : Type := mkParentStatus {
  rp_Ref : ParentRef;
  rp_Conditions : list V1.Condition;
}.

Record HTTPRoute : Type := mkRoute {
  rt_labels : gmap string string;
  rt_parents : list ParentRef;
  rt_Hostnames : list string;
  rt_status_parents : list RouteParentStatus;
}.

(** A Gateway: its UID, the hostnames of its listeners, its addresses with their
    types. *)
Record Gateway : Type := mkGatewayObject {
  gw_UID : string;
  gw_Listeners : list (option string);
  gw_Addresses : list (option string * string);
}.

(** A URL: its host, with the port, its path, and its text. *)
Record URL : Type := mkURL {
  u_Host : string;
  u_Path : string;
  u_String : string;
}.

(** A KServe LLMInferenceService: its generation, the types and statuses of its
    conditions, its addresses with the names of their models, its URL. *)
Record Addressable : Type := mkAddress {
  ad_Name : option string;
  ad_URL : option URL;
  ad_Models : list string;
}.
Record LLMInferenceService : Type := mkLLMISvc {
  ls_Generation : Z;
  ls_Conditions : list (string * string);
  ls_Addresses : list Addressable;
  ls_URL : option URL;
}.

(** One entry of [spec.limits] of a TokenRateLimitPolicy. *)
Record limit : Type := mkEntry {
  rates : list V1.TokenRateLimit;
  predicate : string;
  counter : string;
}.

Record trlp_spec : Type := mkTrlpSpec {
  targetName : string;
  limits : gmap string limit;
}.

(** A TokenRateLimitPolicy: its metadata, with the HTTPRoute that controls it,
    its spec, and the rest of the object, in which Kuadrant reports. *)
Record Trlp : Type := mkTrlp {
  t_labels : gmap string string;
  t_annotations : gmap string string;
  t_owner : option key;
  t_spec : trlp_spec;
  t_object : obj;
}.

Record GatewayRef : Type := mkGateway { g_Name : string; g_Namespace : string }.

#[global] Instance GatewayRef_eq_dec : EqDecision GatewayRef.
Proof. solve_decision. Defined.

(** The metadata of a tenant configuration. *)
Record TenantMeta : Type := mkTenant {
  tn_labels : gmap string string;
  tn_annotations : gmap string string;
}.

(** A legacy Tenant: its metadata, [spec.gatewayRef] and [spec.externalOIDC]. *)
Record LegacyTenant : Type := mkLegacy {
  lt_meta : TenantMeta;
  lt_GatewayRef : GatewayRef;
  lt_ExternalOIDC : option V1.TenantExternalOIDCConfig;
}.

(** An AITenant: [status.gatewayRef] and [spec.oidc]. *)
Record AITenant : Type := mkAITenant {
  ai_GatewayRef : GatewayRef;
  ai_OIDC : option V1.TenantExternalOIDCConfig;
}.

(** [metav1.OwnerReference]; nobody blocks deletions. *)
Record OwnerReference : Type := mkOwner {
  o_APIVersion : string;
  o_Kind : string;
  o_Name : string;
  o_UID : string;
  o_Controller : bool;
}.

(** A Kuadrant AuthPolicy: its metadata, and the rest of the object. *)
Record AuthPolicy : Type := mkAuthPolicy {
  a_labels : gmap string string;
  a_annotations : gmap string string;
  a_owners : list OwnerReference;
  a_generation : Z;
  a_Object : obj;
}.

(** An EndpointSlice: its labels, its ports, and whether each endpoint is
    ready. *)
Record EndpointSlice : Type := mkSlice {
  es_labels : gmap string string;
  es_ports : list (option Z);
  es_ready : list (option bool);
}.

#[global] Instance limit_eq_dec : EqDecision limit.
Proof. solve_decision. Defined.
#[global] Instance trlp_spec_eq_dec : EqDecision trlp_spec.
Proof. solve_decision. Defined.

(** What the API server holds; tenant configurations have one name per
    namespace, a legacy ExternalModel is its provider. *)
Record cluster : Type := mkCluster {
  subscriptions : gmap key V1.MaaSSubscription;
  models : gmap key V1.MaaSModelRef;
  routes : gmap key HTTPRoute;
  external_models : gmap key obj;
  policies : gmap key Trlp;
  namespaces : gmap string (gmap string string);
  tenant_configs : gmap string TenantMeta;
  legacy_tenants : gmap string LegacyTenant;
  aitenants : gmap key AITenant;
  auth_crs : gmap key V1.MaaSAuthPolicy;
  auth_policies : gmap key AuthPolicy;
  gateways : gmap key Gateway;
  endpoint_slices : gmap key EndpointSlice;
  llmisvcs : gmap key LLMInferenceService;
  legacy_external_models : gmap key string;
}.

Definition set_policies
    (f : gmap key Trlp → gmap key Trlp) (c : cluster) : cluster :=
  mkCluster (subscriptions c) (models c) (routes c) (external_models c)
    (f (policies c)) (namespaces c) (tenant_configs c) (legacy_tenants c) (aitenants c)
    (auth_crs c) (auth_policies c) (gateways c) (endpoint_slices c) (llmisvcs c)
    (legacy_external_models c).
Definition set_subscriptions
    (f : gmap key V1.MaaSSubscription → gmap key V1.MaaSSubscription) (c : cluster) : cluster :=
  mkCluster (f (subscriptions c)) (models c) (routes c) (external_models c)
    (policies c) (namespaces c) (tenant_configs c) (legacy_tenants c) (aitenants c)
    (auth_crs c) (auth_policies c) (gateways c) (endpoint_slices c) (llmisvcs c)
    (legacy_external_models c).
Definition set_auth_crs
    (f : gmap key V1.MaaSAuthPolicy → gmap key V1.MaaSAuthPolicy) (c : cluster) : cluster :=
  mkCluster (subscriptions c) (models c) (routes c) (external_models c)
    (policies c) (namespaces c) (tenant_configs c) (legacy_tenants c) (aitenants c)
    (f (auth_crs c)) (auth_policies c) (gateways c) (endpoint_slices c) (llmisvcs c)
    (legacy_external_models c).
Definition set_auth_policies
    (f : gmap key AuthPolicy → gmap key AuthPolicy) (c : cluster) : cluster :=
  mkCluster (subscriptions c) (models c) (routes c) (external_models c)
    (policies c) (namespaces c) (tenant_configs c) (legacy_tenants c) (aitenants c)
    (auth_crs c) (f (auth_policies c)) (gateways c) (endpoint_slices c) (llmisvcs c)
    (legacy_external_models c).
Definition set_models
    (f : gmap key V1.MaaSModelRef → gmap key V1.MaaSModelRef) (c : cluster) : cluster :=
  mkCluster (subscriptions c) (f (models c)) (routes c) (external_models c)
    (policies c) (namespaces c) (tenant_configs c) (legacy_tenants c) (aitenants c)
    (auth_crs c) (auth_policies c) (gateways c) (endpoint_slices c) (llmisvcs c)
    (legacy_external_models c).

(** ** Errors *)

(** Of a call of the API server: not found, a kind that is not registered, or
    anything else. *)
Inductive api_error : Type :=
  | NotFound
  | NoMatch
  | Failure (msg : string).

(** Of the controller: its sentinel errors, a failed call, an error of its own,
    and an error in a context ([%w]).
    [src/maas-controller/pkg/controller/maas/providers.go:33-43] ErrKindNotImplemented. *)
Inductive error : Type :=
  | ErrModelNotFound (model : key)
  | ErrHTTPRouteNotFound (what : string)
  | ErrTenantResolutionPending (what : string)
  | ErrKindNotImplemented
  | ErrApi (e : api_error)
  | ErrOther (msg : string)
  | In (context : string) (e : error).

(** [errors.Is]. *)
Fixpoint is_model_not_found (e : error) : bool :=
  match e with
  | ErrModelNotFound _ => true
  | In _ e => is_model_not_found e
  | _ => false
  end.
Fixpoint is_route_not_found (e : error) : bool :=
  match e with
  | ErrHTTPRouteNotFound _ => true
  | In _ e => is_route_not_found e
  | _ => false
  end.
Fixpoint is_tenant_pending (e : error) : bool :=
  match e with
  | ErrTenantResolutionPending _ => true
  | In _ e => is_tenant_pending e
  | _ => false
  end.
Fixpoint is_kind_not_implemented (e : error) : bool :=
  match e with
  | ErrKindNotImplemented => true
  | In _ e => is_kind_not_implemented e
  | _ => false
  end.

(** ** The API server *)

(** The n-th call fails with an error, [true] if it took effect nonetheless;
    lists come in an order of the server's; [error_text] is the text of an
    error; [set_controller] is [controllerutil.SetControllerReference] on an
    object with or without a controller, [add_finalizer] and [remove_finalizer]
    are that package's too; [find_condition] and [set_condition] are
    [apimeta.FindStatusCondition] and [SetStatusCondition]; [next_generation] is
    the generation the server gives an object whose spec is replaced;
    [SetNestedMap] is that of [unstructured]. *)
Class ApiServer : Type := {
  api_fault : nat → option (api_error * bool);
  list_order {A} : nat → list A → list A;
  error_text : error → string;
  set_controller : option key → key → result string (option key);
  add_finalizer : list string → string → list string;
  remove_finalizer : list string → string → list string;
  find_condition : list V1.Condition → string → option V1.Condition;
  set_condition : list V1.Condition → V1.Condition → list V1.Condition;
  next_generation : Z → option value → option value → Z;
  SetNestedMap : obj → gomap → list string → result string obj;
}.

(** What Kubernetes and controller-runtime document; the kinds are registered,
    and a server at fault does not claim that an object is absent. *)
Class LawfulApiServer `{ApiServer} : Prop := {
  api_fault_failure n e b : api_fault n = Some (e, b) → ∃ msg, e = Failure msg;
  list_order_perm {A} n (l : list A) : list_order n l ≡ₚ l;
  set_controller_none k : set_controller None k = Ok (Some k);
  set_controller_same k : set_controller (Some k) k = Ok (Some k);
  elem_of_add_finalizer l x y : y ∈ add_finalizer l x ↔ y = x ∨ y ∈ l;
  elem_of_remove_finalizer l x y : y ∈ remove_finalizer l x ↔ y ≠ x ∧ y ∈ l;
  find_set_condition l c : find_condition (set_condition l c) (V1.c_Type c) = Some c;
  find_set_condition_ne l c t :
    t ≠ V1.c_Type c → find_condition (set_condition l c) t = find_condition l t;
  find_condition_type l t c : find_condition l t = Some c → V1.c_Type c = t;
  next_generation_changed g old new :
    match old with Some old => SpecCompare.same old new = false | None => True end →
    next_generation g old (Some new) = (g + 1)%Z;
  SetNestedMap_get o v k :
    ∃ o', SetNestedMap o v [k] = Ok o' ∧ map_get k o' = Some (VMap v)
          ∧ ∀ k', k' ≠ k → map_get k' o' = map_get k' o;
}.

(** [NestedMap] of a field of the object. *)
Class LawfulAccessors `{ApiMachinery} : Prop := {
  NestedMap_field o k : found (NestedMap o [k]) = get_map k o;
}.

(** Controller code: API calls that may fail. *)
Abbreviation kprog A := (prog cluster (result error A)) (only parsing).

(** [if err != nil { return err }]. *)
Definition try_bind {S E A B} (m : prog S (result E A))
    (f : A → prog S (result E B)) : prog S (result E B) :=
  r ← m; match r with Ok x => f x | Err e => mret (Err e) end.
Notation "x ←? m ; k" := (try_bind m (λ x, k))
  (at level 20, m at level 100, k at level 200) : go_scope.

Section calls.
Context `{ApiServer}.

Definition read {S A} (f : nat → S → result api_error A) : prog S (result api_error A) :=
  n ← tick;
  match api_fault n with
  | Some (e, _) => mret (Err e)
  | None => c ← get; mret (f n c)
  end.

(** A write that fails may have taken effect. *)
Definition write {S} (f : S → result api_error S) : prog S (result api_error ()) :=
  n ← tick;
  c ← get;
  match api_fault n with
  | Some (e, false) => mret (Err e)
  | Some (e, true) =>
      match f c with
      | Ok c' => _ ← put c'; mret (Err e)
      | Err _ => mret (Err e)
      end
  | None =>
      match f c with
      | Ok c' => _ ← put c'; mret (Ok ())
      | Err e => mret (Err e)
      end
  end.

(** [client.Get]. *)
Definition get_in {S K A} `{Countable K} (objects : S → gmap K A) (k : K)
    : prog S (result api_error A) :=
  read (λ _ c, match objects c !! k with Some x => Ok x | None => Err NotFound end).

(** [client.List] of the objects that pass a test. *)
Definition list_in {S K A} `{Countable K} (objects : S → gmap K A)
    (test : K → A → bool) : prog S (result api_error (list (K * A))) :=
  read (λ n c, Ok (List.filter (λ kx : K * A, test kx.1 kx.2)
                     (list_order n (map_to_list (objects c))))).

(** [client.Create], [Update] and [Delete] of a TokenRateLimitPolicy. *)
Definition create_policy (k : key) (t : Trlp) : prog cluster (result api_error ()) :=
  write (λ c, match policies c !! k with
              | Some _ => Err (Failure "already exists")
              | None => Ok (set_policies <[k := t]> c)
              end).
Definition update_policy (k : key) (t : Trlp) : prog cluster (result api_error ()) :=
  write (λ c, match policies c !! k with
              | Some _ => Ok (set_policies <[k := t]> c)
              | None => Err NotFound
              end).
Definition delete_policy (k : key) : prog cluster (result api_error ()) :=
  write (λ c, match policies c !! k with
              | Some _ => Ok (set_policies (delete k) c)
              | None => Err NotFound
              end).

(** [client.Update] of a subscription's finalizers, the status being a
    subresource; a terminating object goes with its last finalizer. *)
Definition update_finalizers (k : key) (fs : list string)
    : prog cluster (result api_error ()) :=
  write (λ c, match subscriptions c !! k with
              | Some s =>
                  Ok (set_subscriptions
                        (if V1.deleting s && (length fs =? 0) then delete k
                         else <[k := V1.set_Finalizers s fs]>) c)
              | None => Err NotFound
              end).

(** [client.Status().Update]. *)
Definition update_status (k : key) (st : V1.MaaSSubscriptionStatus)
    : prog cluster (result api_error ()) :=
  write (λ c, match subscriptions c !! k with
              | Some s => Ok (set_subscriptions <[k := V1.set_Status s st]> c)
              | None => Err NotFound
              end).

(** [client.Create], [Update] and [Delete] of an AuthPolicy; the server counts
    the changes of its spec. *)
Definition create_auth (k : key) (a : AuthPolicy) : prog cluster (result api_error ()) :=
  write (λ c, match auth_policies c !! k with
              | Some _ => Err (Failure "already exists")
              | None =>
                  Ok (set_auth_policies
                        <[k := mkAuthPolicy (a_labels a) (a_annotations a)
                                 (a_owners a) 1 (a_Object a)]> c)
              end).
Definition update_auth (k : key) (a : AuthPolicy) : prog cluster (result api_error ()) :=
  write (λ c, match auth_policies c !! k with
              | Some old =>
                  let g := next_generation (a_generation old)
                             (map_get "spec" (a_Object old))
                             (map_get "spec" (a_Object a)) in
                  Ok (set_auth_policies
                        <[k := mkAuthPolicy (a_labels a) (a_annotations a)
                                 (a_owners a) g (a_Object a)]> c)
              | None => Err NotFound
              end).
Definition delete_auth (k : key) : prog cluster (result api_error ()) :=
  write (λ c, match auth_policies c !! k with
              | Some _ => Ok (set_auth_policies (delete k) c)
              | None => Err NotFound
              end).

(** As [update_finalizers] and [update_status], of a MaaSAuthPolicy. *)
Definition update_auth_finalizers (k : key) (fs : list string)
    : prog cluster (result api_error ()) :=
  write (λ c, match auth_crs c !! k with
              | Some p =>
                  Ok (set_auth_crs
                        (if V1.ap_deleting p && (length fs =? 0) then delete k
                         else <[k := V1.set_auth_Finalizers p fs]>) c)
              | None => Err NotFound
              end).
Definition update_auth_status (k : key) (st : V1.MaaSAuthPolicyStatus)
    : prog cluster (result api_error ()) :=
  write (λ c, match auth_crs c !! k with
              | Some p => Ok (set_auth_crs <[k := V1.set_auth_Status p st]> c)
              | None => Err NotFound
              end).

(** As [update_finalizers] and [update_status], of a MaaSModelRef. *)
Definition update_model_finalizers (k : key) (fs : list string)
    : prog cluster (result api_error ()) :=
  write (λ c, match models c !! k with
              | Some m =>
                  Ok (set_models
                        (if V1.m_deleting m && (length fs =? 0) then delete k
                         else <[k := V1.set_model_Finalizers m fs]>) c)
              | None => Err NotFound
              end).
Definition update_model_status (k : key) (st : V1.MaaSModelStatus)
    : prog cluster (result api_error ()) :=
  write (λ c, match models c !! k with
              | Some m => Ok (set_models <[k := V1.set_model_Status m st]> c)
              | None => Err NotFound
              end).

(** An API error in a context. *)
Definition in_context {S A} (context : string)
    (m : prog S (result api_error A)) : prog S (result error A) :=
  r ← m;
  mret match r with Ok x => Ok x | Err e => Err (In context (ErrApi e)) end.
End calls.

End Cluster.
