(* ===== verification/ControllerHelpers.v ===== *)
(** What the controllers share: the names of the resources generated for an
    ExternalModel, tenants and their gateways, the HTTPRoutes of models, lists of
    subscriptions by model.
    [src/maas-controller/pkg/modelnaming/externalmodel.go],
    [src/maas-controller/pkg/controller/maas/helpers.go]. *)
From S2P Require Import Prelude GoStrings Sha256 Trimming.
From S2P Require Import Unstructured Runtime.
From S2P Require Import MaasTypes Cluster.

Module Naming.

Definition externalModelResourcePrefix : string := "maas-".
Definition kubernetesNameMaxLength : nat := 253.
Definition hashLength : nat := 8.

(** [strings.Trim] with the cutset ["-."]. *)
Fixpoint trim_cut (s : string) : string :=
  match s with
  | String c s' =>
      if (c == "-"%char) || (c == "."%char) then trim_cut s' else s
  | EmptyString => s
  end.
Definition Trim (s : string) : string :=
  String.rev (trim_cut (String.rev (trim_cut s))).

(** [src/maas-controller/pkg/modelnaming/externalmodel.go:19-33] ExternalModelResourceName. *)
Definition ExternalModelResourceName (modelName : string) : string :=
  let name := externalModelResourcePrefix +:+ modelName in
  if String.length name <=? kubernetesNameMaxLength then name
  else
    let hash := String.substring 0 hashLength
                  (SHA.EncodeToString (SHA.Sum256 modelName)) in
    let budget := kubernetesNameMaxLength
                  - String.length externalModelResourcePrefix
                  - String.length hash - 1 in
    let trimmed := Trim (String.substring 0 budget modelName) in
    let trimmed := if trimmed == "" then hash else trimmed in
    externalModelResourcePrefix +:+ trimmed +:+ "-" +:+ hash.

(** ** The name fits *)

Lemma trim_cut_length s : String.length (trim_cut s) ≤ String.length s.
Proof. induction s as [|c s IH]; simpl; [done|]. destruct (_ || _); simpl; lia. Qed.

Lemma Trim_length s : String.length (Trim s) ≤ String.length s.
Proof.
  unfold Trim. rewrite length_rev_str. etrans; [apply trim_cut_length|].
  rewrite length_rev_str. apply trim_cut_length.
Qed.

Lemma substring_length n m s : String.length (String.substring n m s) ≤ m.
Proof.
  revert n m. induction s as [|c s IH]; intros [|n] [|m]; simpl; try lia.
  - specialize (IH 0 m). lia.
  - apply IH.
  - apply IH.
Qed.

Lemma ExternalModelResourceName_length modelName :
  String.length (ExternalModelResourceName modelName) ≤ 253.
Proof.
  unfold ExternalModelResourceName. cbv zeta.
  destruct (Nat.leb_spec (String.length (externalModelResourcePrefix +:+ modelName))
    kubernetesNameMaxLength) as [H|_]; [exact H|].
  set (hash := String.substring 0 hashLength _).
  assert (String.length hash ≤ 8) as Hh by apply substring_length.
  set (budget := kubernetesNameMaxLength - _ - _ - 1).
  pose proof (Trim_length (String.substring 0 budget modelName)) as Ht.
  pose proof (substring_length 0 budget modelName) as Hb.
  assert (budget = 247 - String.length hash) as Hbud
    by (subst budget; change (String.length externalModelResourcePrefix) with 5;
        unfold kubernetesNameMaxLength; lia).
  rewrite !length_app_str. change (String.length externalModelResourcePrefix) with 5.
  change (String.length "-") with 1. destruct (_ == ""); lia.
Qed.

Example short_name : ExternalModelResourceName "gpt" = "maas-gpt".
Proof. by_compute. Qed.

End Naming.

(** * Helpers *)

Import Cluster.

Module Helpers.

(** The settings the controllers share.
    [src/maas-controller/pkg/controller/maas/maassubscription_controller.go:56-74] MaaSSubscriptionReconciler. *)
Record Reconciler : Type := mkReconciler {
  DefaultTenantNamespace : string;
  TenantNamespaceDiscoveryEnabled : bool;
  GatewayName : string;
  GatewayNamespace : string;
}.

(** [src/maas-controller/pkg/platform/tenantreconcile/constants.go:19-23] AnnotationManaged. *)
Definition AnnotationManaged : string := "opendatahub.io/managed".
(** [src/maas-controller/pkg/platform/tenantreconcile/constants.go:41-50] LabelTenantName. *)
Definition LabelTenantName : string := "maas.opendatahub.io/tenant-name".
Definition LabelTenantNamespace : string := "maas.opendatahub.io/tenant-namespace".
Definition LabelAIGatewayTenant : string := "ai-gateway.opendatahub.io/tenant".
Definition LabelManagedByAITenant : string :=
  "maas.opendatahub.io/managed-by-aitenant".
(** [src/maas-controller/pkg/platform/tenantreconcile/platform_context.go:11-18] AnnotationAITenantName. *)
Definition AnnotationAITenantName : string := "maas.opendatahub.io/aitenant-name".
Definition AnnotationAITenantNamespace : string :=
  "maas.opendatahub.io/aitenant-namespace".

(** Indexing a label or annotation map. *)
Definition at_key (m : gmap string string) (k : string) : string := default "" (m !! k).

(** [src/maas-controller/pkg/controller/maas/annotations.go:29-40] isManaged. *)
Definition isManaged (annotations : gmap string string) : bool :=
  match annotations !! AnnotationManaged with
  | None => true
  | Some val => val != "false"
  end.

(** [src/maas-controller/pkg/controller/maas/helpers.go:260-265] qualifiedName. *)
Definition qualifiedName (namespace name : string) : string :=
  if namespace == "" then name else namespace +:+ "/" +:+ name.

(** [strings.Split] on a comma. *)
Fixpoint split_comma (cur s : string) : list string :=
  match s with
  | EmptyString => [cur]
  | String c s' =>
      if c == ","%char then cur :: split_comma "" s'
      else split_comma (cur +:+ String c "") s'
  end.

(** [src/maas-controller/pkg/controller/maas/helpers.go:276-286] annotationListContains. *)
Definition annotationListContains (value want : string) : bool :=
  if (value == "") || (want == "") then false
  else existsb (λ item, TrimSpace item == want) (split_comma "" value).

(** [src/maas-controller/pkg/controller/maas/helpers.go:271-274] namespaceHasTenantDiscoveryLabel. *)
Definition namespaceHasTenantDiscoveryLabel (labels : gmap string string) : bool :=
  (at_key labels LabelAIGatewayTenant != "")
  || (at_key labels LabelManagedByAITenant == "true").

(** [src/maas-controller/pkg/platform/tenantreconcile/constants.go:59-61] DefaultAITenantName. *)
Definition DefaultAITenantName : string := "models-as-a-service".
(** [src/maas-controller/pkg/platform/tenantreconcile/platform_context.go:19-20] tenantNamespacePrefix. *)
Definition tenantNamespacePrefix : string := "ai-tenant-".

(** [src/maas-controller/pkg/platform/tenantreconcile/platform_context.go:112-122] TenantNamespaceForAITenant. *)
Definition TenantNamespaceForAITenant (name defaultTenantNamespace : string) : string :=
  if (name == DefaultAITenantName)
     || ((defaultTenantNamespace != "") && (name == defaultTenantNamespace)) then
    if defaultTenantNamespace != "" then defaultTenantNamespace
    else DefaultAITenantName
  else tenantNamespacePrefix +:+ name.

(** [src/maas-controller/pkg/platform/tenantreconcile/platform_context.go:26-30] PlatformContext. *)
Record PlatformContext : Type := mkPlatform {
  pc_GatewayRef : GatewayRef;
  pc_ExternalOIDC : option V1.TenantExternalOIDCConfig;
}.

(** The identifier of a tenant in the names of its resources; both kinds of
    tenant configuration have the same name.
    [src/maas-controller/pkg/platform/tenantreconcile/constants.go:264-312] TenantIdentifierFor. *)
Definition TenantIdentifierFor (ns : string) (m : TenantMeta) : result string string :=
  if at_key (tn_labels m) LabelManagedByAITenant == "true" then
    let tenantName := at_key (tn_labels m) LabelTenantName in
    if tenantName == "" then Err "LabelTenantName is missing or empty"
    else if tenantName == DefaultAITenantName then
      if (at_key (tn_labels m) LabelTenantNamespace == "")
         || (at_key (tn_labels m) LabelTenantNamespace != ns)
      then Err "LabelTenantNamespace must match the tenant config namespace"
      else Ok ""
    else Ok tenantName
  else Ok "".

(** [src/maas-controller/pkg/platform/tenantreconcile/constants.go:173-178] resourceNameForTenant. *)
Definition resourceNameForTenant (baseName tenantID : string) : string :=
  if tenantID == "" then baseName else baseName +:+ "-" +:+ tenantID.
(** [src/maas-controller/pkg/platform/tenantreconcile/constants.go:216-218] MaaSAPIServiceName. *)
Definition MaaSAPIServiceName (tenantID : string) : string :=
  resourceNameForTenant "maas-api" tenantID.

Section helpers.
Context {api : ApiMachinery} `{ApiServer} (r : Reconciler).

(** ** Tenant namespaces *)

(** [src/maas-controller/pkg/controller/maas/helpers.go:160-176] tenantNamespaceAllowed. *)
Definition tenantNamespaceAllowed (ns : string) : kprog bool :=
  if (DefaultTenantNamespace r == "") || (ns == DefaultTenantNamespace r) then
    mret (Ok true)
  else if negb (TenantNamespaceDiscoveryEnabled r) then mret (Ok false)
  else
    namespace ← get_in namespaces ns;
    match namespace with
    | Err NotFound => mret (Ok false)
    | Err e => mret (Err (In ("failed to read namespace " +:+ ns
                              +:+ " for tenant discovery") (ErrApi e)))
    | Ok labels => mret (Ok (namespaceHasTenantDiscoveryLabel labels))
    end.

(** [src/maas-controller/pkg/controller/maas/helpers.go:151-158] isTenantNamespace. *)
Definition isTenantNamespace (ns : string) : prog cluster bool :=
  ok ← tenantNamespaceAllowed ns;
  mret match ok with Ok b => b | Err _ => false end.

(** [allowed] remembers the namespaces asked about.
    [src/maas-controller/pkg/controller/maas/helpers.go:229-240] filterSubscriptionsByTenantNamespace. *)
Fixpoint filter_allowed {A} (namespace : A → string) (allowed : gmap string bool)
    (l : list A) : prog cluster (list A) :=
  match l with
  | [] => mret []
  | x :: l' =>
      ok ← match allowed !! namespace x with
           | Some ok => mret ok
           | None => isTenantNamespace (namespace x)
           end;
      rest ← filter_allowed namespace (<[namespace x := ok]> allowed) l';
      mret (if ok : bool then x :: rest else rest)
  end.
(** [src/maas-controller/pkg/controller/maas/helpers.go:228-242] filterSubscriptionsByTenantNamespace. *)
Definition filterSubscriptionsByTenantNamespace (subs : list V1.MaaSSubscription)
    : prog cluster (list V1.MaaSSubscription) := filter_allowed V1.Namespace ∅ subs.
(** [src/maas-controller/pkg/controller/maas/helpers.go:244-258] filterAuthPoliciesByTenantNamespace. *)
Definition filterAuthPoliciesByTenantNamespace (policies : list V1.MaaSAuthPolicy)
    : prog cluster (list V1.MaaSAuthPolicy) :=
  filter_allowed V1.ap_Namespace ∅ policies.

(** ** Gateways *)

(** [src/maas-controller/pkg/controller/maas/helpers.go:325-330] fallbackTenantGatewayRef. *)
Definition fallbackTenantGatewayRef : GatewayRef :=
  if (GatewayName r == "") || (GatewayNamespace r == "") then mkGateway "" ""
  else mkGateway (GatewayName r) (GatewayNamespace r).

(** A tenant configuration, preferred, or a legacy Tenant.
    [src/maas-controller/pkg/controller/maas/helpers.go:209-226] fetchTenantForNamespace. *)
Definition fetchTenantForNamespace (ns : string)
    : prog cluster (result api_error (TenantMeta * option LegacyTenant)) :=
  config ← get_in tenant_configs ns;
  match config with
  | Ok m => mret (Ok (m, None))
  | Err NotFound =>
      legacy ← get_in legacy_tenants ns;
      mret match legacy with
           | Ok t => Ok (lt_meta t, Some t)
           | Err e => Err e
           end
  | Err e => mret (Err e)
  end.

(** [src/maas-controller/pkg/platform/tenantreconcile/platform_context.go:68-99] resolveAITenantPlatformContext. *)
Definition resolveAITenantPlatformContext (tenant : TenantMeta)
    : kprog PlatformContext :=
  let name := at_key (tn_annotations tenant) AnnotationAITenantName in
  let ns := at_key (tn_annotations tenant) AnnotationAITenantNamespace in
  if at_key (tn_labels tenant) LabelTenantName == "" then
    mret (Err (ErrOther "AITenant-managed tenant config is missing its name label"))
  else if name == "" then
    mret (Err (ErrOther "AITenant-managed tenant config is missing its AITenant"))
  else if ns == "" then
    mret (Err (ErrOther
      "AITenant-managed tenant config is missing its AITenant namespace"))
  else
    aitenant ←? in_context "get owning AITenant" (get_in aitenants (ns, name));
    let ref := ai_GatewayRef aitenant in
    if (g_Name ref == "") || (g_Namespace ref == "") then
      mret (Err (ErrOther "AITenant status.gatewayRef is not ready"))
    else mret (Ok (mkPlatform ref (ai_OIDC aitenant))).

(** [src/maas-controller/pkg/platform/tenantreconcile/platform_context.go:31-66] ResolvePlatformContext. *)
Definition ResolvePlatformContext (tenant : TenantMeta) (legacy : option LegacyTenant)
    : kprog PlatformContext :=
  if at_key (tn_labels tenant) LabelManagedByAITenant == "true" then
    resolveAITenantPlatformContext tenant
  else
    match legacy with
    | Some t =>
        let ref := lt_GatewayRef t in
        if (g_Name ref == "") && (g_Namespace ref == "") then
          mret (Ok (mkPlatform fallbackTenantGatewayRef (lt_ExternalOIDC t)))
        else if (g_Name ref == "") || (g_Namespace ref == "") then
          mret (Err (ErrOther "spec.gatewayRef must set both name and namespace"))
        else mret (Ok (mkPlatform ref (lt_ExternalOIDC t)))
    | None => mret (Ok (mkPlatform fallbackTenantGatewayRef None))
    end.

(** [src/maas-controller/pkg/controller/maas/helpers.go:288-323] tenantGatewayRefForNamespace. *)
Definition tenantGatewayRefForNamespace (ns : string) : kprog GatewayRef :=
  tenant ← fetchTenantForNamespace ns;
  match tenant with
  | Ok (m, legacy) =>
      p ←? ResolvePlatformContext m legacy;
      mret (Ok (pc_GatewayRef p))
  | Err NotFound =>
      if (ns == DefaultTenantNamespace r)
         || negb (TenantNamespaceDiscoveryEnabled r)
      then mret (Ok fallbackTenantGatewayRef)
      else
        allowed ←? tenantNamespaceAllowed ns;
        if negb allowed then mret (Ok fallbackTenantGatewayRef)
        else mret (Err (ErrOther ("MaasTenantConfig " +:+ ns
               +:+ "/default-tenant not found for discovered tenant namespace")))
  | Err e => mret (Err (ErrApi e))
  end.

(** [src/maas-controller/pkg/controller/maas/helpers.go:368-380] parentRefTargetsGateway. *)
Definition parentRefTargetsGateway (p : ParentRef) : bool :=
  (default "Gateway" (p_Kind p) == "Gateway")
  && (default "gateway.networking.k8s.io" (p_Group p) == "gateway.networking.k8s.io").

Definition maxHTTPRouteParentRefs : nat := 32.

(** [src/maas-controller/pkg/controller/maas/helpers.go:332-361] validateHTTPRouteReferencesGateway. *)
Definition validateHTTPRouteReferencesGateway (routeName routeNamespace : string)
    (ref : GatewayRef) : kprog () :=
  if (g_Name ref == "") && (g_Namespace ref == "") then mret (Ok ())
  else if (g_Name ref == "") || (g_Namespace ref == "") then
    mret (Err (ErrOther "gatewayRef must set both name and namespace"))
  else
    route ←? in_context "failed to get HTTPRoute for gateway validation"
               (get_in routes (routeNamespace, routeName));
    if maxHTTPRouteParentRefs <? length (rt_parents route) then
      mret (Err (ErrOther "HTTPRoute has too many parentRefs"))
    else if existsb (λ p, parentRefTargetsGateway p && (p_Name p == g_Name ref)
              && (default routeNamespace (p_Namespace p) == g_Namespace ref))
              (rt_parents route)
    then mret (Ok ())
    else mret (Err (ErrOther "HTTPRoute does not reference tenant Gateway")).

(** ** The HTTPRoute of a model *)

(** The labels of a route that KServe keeps for the model.
    [src/maas-controller/pkg/controller/maas/providers_llmisvc.go:315-321] HTTPRouteForModel. *)
Definition llmisvc_test (ns : string) (m : V1.MaaSModelRef) (k : key) (route : HTTPRoute) : bool :=
  (k.1 == ns)
  && (rt_labels route !! "app.kubernetes.io/name" == Some (V1.m_Name (V1.m_Spec m)))
  && (rt_labels route !! "app.kubernetes.io/component" == Some "llminferenceservice-router")
  && (rt_labels route !! "app.kubernetes.io/part-of" == Some "llminferenceservice").

(** [src/maas-controller/pkg/controller/maas/providers_llmisvc.go:313-329] HTTPRouteForModel. *)
Definition llmisvc_route (ns : string) (model : V1.MaaSModelRef) : kprog (string * string) :=
  items ←? in_context "failed to list HTTPRoutes for LLMInferenceService"
    (list_in routes (llmisvc_test ns model));
  match items with
  | [] => mret (Err (ErrHTTPRouteNotFound
            ("for LLMInferenceService " +:+ V1.m_Name (V1.m_Spec model) +:+ " in namespace " +:+ ns)))
  | (k, _) :: _ => mret (Ok (k.2, k.1))
  end.

(** [src/maas-controller/pkg/controller/maas/providers_external.go:295-322] HTTPRouteForModel. *)
Definition external_route (ns : string) (model : V1.MaaSModelRef)
    : kprog (string * string) :=
  em ← get_in external_models (ns, V1.m_Name (V1.m_Spec model));
  match em with
  | Ok o =>
      match found (NestedString o ["status"; "httpRouteName"]) with
      | Some name =>
          if name != "" then mret (Ok (name, ns))
          else mret (Err (ErrHTTPRouteNotFound "status.httpRouteName not set yet"))
      | None => mret (Err (ErrHTTPRouteNotFound "status.httpRouteName not set yet"))
      end
  | Err NotFound | Err NoMatch =>
      mret (Ok (Naming.ExternalModelResourceName (V1.m_Name (V1.m_Spec model)), ns))
  | Err e => mret (Err (In "failed to get inference ExternalModel" (ErrApi e)))
  end.

(** [None] is an unknown kind.
    [src/maas-controller/pkg/controller/maas/providers.go:84-111] GetRouteResolver. *)
Definition GetRouteResolver (kind : string)
    : option (string → V1.MaaSModelRef → kprog (string * string)) :=
  if (kind == "LLMInferenceService") || (kind == "llmisvc") then Some llmisvc_route
  else if kind == "ExternalModel" then Some external_route
  else None.

(** The route's name and namespace.
    [src/maas-controller/pkg/controller/maas/providers.go:113-157] findHTTPRouteForModel. *)
Definition findHTTPRouteForModel (modelNamespace modelName : string)
    : kprog (string * string) :=
  m ← get_in models (modelNamespace, modelName);
  match m with
  | Err NotFound => mret (Err (ErrModelNotFound (modelNamespace, modelName)))
  | Err e => mret (Err (In "failed to get MaaSModelRef" (ErrApi e)))
  | Ok model =>
      if V1.m_deleting model then
        mret (Err (ErrModelNotFound (modelNamespace, modelName)))
      else
        match GetRouteResolver (V1.m_Kind (V1.m_Spec model)) with
        | None => mret (Err (ErrOther ("unknown model kind: " +:+ V1.m_Kind (V1.m_Spec model))))
        | Some resolve =>
            rt ←? resolve modelNamespace model;
            let '(routeName, routeNS) := rt in
            route ← get_in routes (routeNS, routeName);
            match route with
            | Err NotFound => mret (Err (ErrHTTPRouteNotFound
                ("HTTPRoute " +:+ routeNS +:+ "/" +:+ routeName)))
            | Err e => mret (Err (In "failed to get HTTPRoute" (ErrApi e)))
            | Ok _ => mret (Ok (routeName, routeNS))
            end
        end
  end.

(** The index of [spec.modelRef].
    [src/maas-controller/pkg/controller/maas/maassubscription_controller.go:1056-1071] SetupWithManager. *)
Definition modelRefIndex (s : V1.MaaSSubscription) : list string :=
  (λ ref, V1.ref_Namespace ref +:+ "/" +:+ V1.ref_Name ref)
    <$> V1.ModelRefs (V1.Spec s).

(** [client.MatchingFields] of that index. *)
Definition list_by_model (modelKey : string)
    : prog cluster (result api_error (list V1.MaaSSubscription)) :=
  items ← list_in subscriptions (λ _ s, contains (modelRefIndex s) modelKey);
  mret match items with Ok l => Ok l.*2 | Err e => Err e end.

(** Those being deleted are left out.
    [src/maas-controller/pkg/controller/maas/helpers.go:84-103] findAllSubscriptionsForModel. *)
Definition findAllSubscriptionsForModel (modelNamespace modelName : string)
    : kprog (list V1.MaaSSubscription) :=
  items ←? in_context "failed to list MaaSSubscriptions"
    (list_by_model (modelNamespace +:+ "/" +:+ modelName));
  mret (Ok (List.filter (λ s, negb (V1.deleting s)) items)).

End helpers.
End Helpers.
