(* ===== verification/ModelProviders.v ===== *)
(** The backends of models: for each kind, which HTTPRoute and Gateway serve the
    model, its endpoint, whether it is ready, and its name in requests.
    [src/maas-controller/pkg/controller/maas/providers.go],
    [providers_llmisvc.go], [providers_external.go], and
    [maasmodelref_controller.go] for the tenant's Gateway. *)
From S2P Require Import Prelude GoStrings Unstructured Runtime.
From S2P Require Import GoFmt MaasTypes Cluster ControllerHelpers.
Import V1 Cluster Helpers Fmt.

Module Providers.

(** [src/maas-controller/pkg/controller/maas/maasmodelref_controller.go:55-82] MaaSModelRefReconciler. *)
Record ModelReconciler : Type := mkModelReconciler {
  model_settings : Reconciler;
  AITenantNamespace : string;
  Recorder : bool;
}.

(** A model with another status. *)
Definition with_status (model : MaaSModelRef) (f : MaaSModelStatus → MaaSModelStatus)
    : MaaSModelRef := set_model_Status model (f (m_Status model)).

(** [fmt.Sprintf] of a namespace and a name. *)
Definition slash (ns name : string) : string := ns +:+ "/" +:+ name.

(** ** The Gateway of the model's tenant *)

(** The Gateway a parent of a route refers to.
    [src/maas-controller/pkg/controller/maas/maasmodelref_controller.go:899-903] resolveGatewayRefFromHTTPRoute. *)
Definition parent_gateway (routeNS : string) (p : ParentRef) : GatewayRef :=
  mkGateway (p_Name p) (default routeNS (p_Namespace p)).

(** The tenants by the name and namespace of their Gateways.
    [src/maas-controller/pkg/controller/maas/maasmodelref_controller.go:877-885] resolveGatewayRefFromHTTPRoute. *)
Definition tenantsByGateway (items : list (key * AITenant)) : gmap key (list string) :=
  foldl (λ m item,
    let ref := ai_GatewayRef item.2 in
    if (g_Name ref != "") && (g_Namespace ref != "") then
      let k := (g_Name ref, g_Namespace ref) in
      <[k := default [] (m !! k) ++ [item.1.2]]> m
    else m) ∅ items.

(** [src/maas-controller/pkg/controller/maas/maasmodelref_controller.go:905-914] resolveGatewayRefFromHTTPRoute. *)
Fixpoint match_tenants (ref : GatewayRef) (seen : gset string) (names : list string)
    : gset string * list (string * GatewayRef) :=
  match names with
  | [] => (seen, [])
  | name :: names' =>
      if bool_decide (name ∈ seen) then match_tenants ref seen names'
      else
        let '(seen', ms) := match_tenants ref ({[name]} ∪ seen) names' in
        (seen', (name, ref) :: ms)
  end.

(** [src/maas-controller/pkg/controller/maas/maasmodelref_controller.go:887-915] resolveGatewayRefFromHTTPRoute. *)
Fixpoint gateway_matches (routeNS : string) (byGateway : gmap key (list string))
    (seenTenants : gset string) (parents : list ParentRef) : list (string * GatewayRef) :=
  match parents with
  | [] => []
  | p :: parents' =>
      if negb (parentRefTargetsGateway p) then
        gateway_matches routeNS byGateway seenTenants parents'
      else
        let ref := parent_gateway routeNS p in
        let '(seen, ms) :=
          match_tenants ref seenTenants
            (default [] (byGateway !! (g_Name ref, g_Namespace ref))) in
        ms ++ gateway_matches routeNS byGateway seen parents'
  end.

Definition show_gateway (ref : GatewayRef) : string := slash (g_Namespace ref) (g_Name ref).

(** The parents that are Gateways. *)
Definition parent_gateways (routeNS : string) (parents : list ParentRef) : list GatewayRef :=
  parent_gateway routeNS <$> List.filter parentRefTargetsGateway parents.

Section gateways.
Context {srv : ApiServer} {uni : Unicode} (r : ModelReconciler).

(** The status with the tenant, and its Gateway or why there is none.
    [src/maas-controller/pkg/controller/maas/maasmodelref_controller.go:863-953] resolveGatewayRefFromHTTPRoute. *)
Definition resolveGatewayRefFromHTTPRoute (st : MaaSModelStatus) (routeKey : key)
    (route : HTTPRoute) : prog cluster (MaaSModelStatus * result error GatewayRef) :=
  let routeName := slash routeKey.1 routeKey.2 in
  if length (rt_parents route) =? 0 then
    mret (set_tenant "" st, Err (ErrTenantResolutionPending
      ("HTTPRoute " +:+ routeName +:+ " has no gateway parentRefs")))
  else
    tenantList ← list_in aitenants (λ k _, k.1 == AITenantNamespace r);
    mret match tenantList with
    | Err e =>
        (st, Err (In "failed to list AITenants for auto-resolution" (ErrApi e)))
    | Ok items =>
        match gateway_matches routeKey.1 (tenantsByGateway items) ∅ (rt_parents route) with
        | [(tenant, ref)] => (set_tenant tenant st, Ok ref)
        | [] =>
            (set_tenant "" st, Err (ErrOther
              ("no AITenant found for any gateway referenced by HTTPRoute " +:+ routeName
               +:+ " (gateways: "
               +:+ show_list (show_gateway <$> parent_gateways routeKey.1 (rt_parents route))
               +:+ "); ensure an AITenant exists with a matching gateway, or set spec.tenantRef explicitly")))
        | matches =>
            (set_tenant "" st, Err (ErrOther
              ("multiple gateways on HTTPRoute " +:+ routeName
               +:+ " match different AITenants: "
               +:+ show_list ((λ m : string * GatewayRef,
                     show_gateway m.2 +:+ " (tenant " +:+ m.1 +:+ ")") <$> matches)
               +:+ "; set spec.tenantRef explicitly to select the desired tenant")))
        end
    end.

(** [src/maas-controller/pkg/controller/maas/maasmodelref_controller.go:829-861] resolveGatewayRef. *)
Definition resolveGatewayRef (model : MaaSModelRef) (routeKey : key) (route : HTTPRoute)
    : prog cluster (MaaSModelStatus * result error GatewayRef) :=
  let st := m_Status model in
  let tenantRef := m_TenantRef (m_Spec model) in
  if tenantRef != "" then
    aitenant ← get_in aitenants (AITenantNamespace r, tenantRef);
    mret match aitenant with
    | Err NotFound =>
        (set_tenant "" st, Err (ErrOther ("AITenant " +:+ Quote tenantRef
           +:+ " not found in namespace " +:+ AITenantNamespace r)))
    | Err e => (st, Err (In ("failed to get AITenant " +:+ Quote tenantRef) (ErrApi e)))
    | Ok t =>
        let ref := ai_GatewayRef t in
        if (g_Name ref == "") || (g_Namespace ref == "") then
          (set_tenant "" st, Err (ErrOther ("AITenant " +:+ Quote tenantRef
             +:+ " has no gateway reference in status")))
        else (set_tenant tenantRef st, Ok ref)
    end
  else resolveGatewayRefFromHTTPRoute st routeKey route.
End gateways.

(** Whether the route refers to the expected Gateway; with it, or with the first
    Gateway it refers to.
    [src/maas-controller/pkg/controller/maas/providers_llmisvc.go:85-107] validateLLMISvcHTTPRoute,
    the same code as
    [src/maas-controller/pkg/controller/maas/providers_external.go:141-165] ReconcileRoute. *)
Fixpoint find_gateway (routeNS : string) (expected first : GatewayRef)
    (parents : list ParentRef) : bool * GatewayRef :=
  match parents with
  | [] => (false, first)
  | p :: parents' =>
      if negb (parentRefTargetsGateway p) then find_gateway routeNS expected first parents'
      else
        let ref := parent_gateway routeNS p in
        if (g_Name ref == g_Name expected) && (g_Namespace ref == g_Namespace expected)
        then (true, ref)
        else
          find_gateway routeNS expected (if g_Name first == "" then ref else first) parents'
  end.

Definition no_gateway : GatewayRef := mkGateway "" "".

(** The host of a Gateway: of a listener, of an address by name, of an address.
    [src/maas-controller/pkg/controller/maas/providers_llmisvc.go:169-183] GetModelEndpoint,
    the same code as
    [src/maas-controller/pkg/controller/maas/providers_external.go:258-273] GetModelEndpoint. *)
Definition gateway_host (gw : Gateway) : option string :=
  match omap id (gw_Listeners gw) with
  | hostname :: _ => Some hostname
  | [] =>
      match List.filter (λ a : option string * string, a.1 == Some "Hostname")
              (gw_Addresses gw) with
      | a :: _ => Some a.2
      | [] => snd <$> head (gw_Addresses gw)
      end
  end.

Section endpoints.
Context {srv : ApiServer}.

(** The host of a Gateway that is read.
    [src/maas-controller/pkg/controller/maas/providers_llmisvc.go:164-184] GetModelEndpoint. *)
Definition read_gateway_host (gatewayName gatewayNS : string) : kprog string :=
  gateway ←? in_context ("failed to get gateway " +:+ slash gatewayNS gatewayName)
               (get_in gateways (gatewayNS, gatewayName));
  mret match gateway_host gateway with
       | Some host => Ok host
       | None => Err (ErrOther ("unable to determine endpoint: gateway "
                   +:+ slash gatewayNS gatewayName +:+ " has no hostname or addresses"))
       end.
End endpoints.

(** ** LLMInferenceService *)

(** [strings.LastIndexByte], as the two sides of the last colon. *)
Fixpoint cut_last (c : ascii) (s : string) : option (string * string) :=
  match s with
  | EmptyString => None
  | String a s' =>
      match cut_last c s' with
      | Some (l, r) => Some (String a l, r)
      | None => if a == c then Some ("", s') else None
      end
  end.
Definition digit (a : ascii) : bool := (48 <=? code a) && (code a <=? 57).

(** [Hostname] of [net/url]: without the port, and without the brackets of an
    IPv6 address. *)
Definition Hostname (u : URL) : string :=
  let host :=
    match cut_last ":" (u_Host u) with
    | Some (l, port) => if all_bytes digit port then l else u_Host u
    | None => u_Host u
    end in
  match strip_prefix "[" host with
  | Some inner =>
      match strip_prefix "]" (String.rev inner) with
      | Some s => String.rev s
      | None => host
      end
  | None => host
  end.

(** [src/maas-controller/pkg/controller/maas/providers_llmisvc.go:187-190] addressNameGatewayExternal. *)
Definition addressNameGatewayExternal : string := "gateway-external".
Definition addressNameGatewayExternalModelRouting : string :=
  "gateway-external-model-routing".

Module LLMISvc.

(** The URL of an address of the name, on one of the hosts if there are any.
    [src/maas-controller/pkg/controller/maas/providers_llmisvc.go:252-267] selectAddress. *)
Definition candidate (targetName : string) (hostSet : gset string) (filtering : bool)
    (addr : Addressable) : option string :=
  match ad_Name addr, ad_URL addr with
  | Some name, Some u =>
      if name != targetName then None
      else if filtering then
        let host := ToLower (Hostname u) in
        if host == "" then None
        else if bool_decide (host ∈ hostSet) then Some (u_String u) else None
      else Some (u_String u)
  | _, _ => None
  end.

(** [src/maas-controller/pkg/controller/maas/providers_llmisvc.go:250-277] selectAddress. *)
Definition selectAddress (llmisvc : LLMInferenceService) (targetName : string)
    (hostSet : gset string) (filtering : bool) : string :=
  let urls := omap (candidate targetName hostSet filtering) (ls_Addresses llmisvc) in
  match List.filter (λ u, has_prefix u "https://") urls with
  | u :: _ => u
  | [] => default "" (head urls)
  end.

Definition is_base (u : URL) : bool := (u_Path u == "") || (u_Path u == "/").

(** The first base URL, or the first non-empty one.
    [src/maas-controller/pkg/controller/maas/providers_llmisvc.go:222-234] getEndpointFromLLMISvc. *)
Fixpoint base_or_first (fallbackURL : string) (addrs : list Addressable)
    : string + string :=
  match addrs with
  | [] => inr fallbackURL
  | addr :: addrs' =>
      match ad_URL addr with
      | None => base_or_first fallbackURL addrs'
      | Some u =>
          if is_base u then inl (u_String u)
          else base_or_first (if fallbackURL == "" then u_String u else fallbackURL) addrs'
      end
  end.

(** [src/maas-controller/pkg/controller/maas/providers_llmisvc.go:192-248] getEndpointFromLLMISvc. *)
Definition getEndpointFromLLMISvc (llmisvc : LLMInferenceService)
    (expectedHostnames : list string) : string :=
  let hostSet : gset string := list_to_set (ToLower <$> expectedHostnames) in
  let filtering := negb (bool_decide (hostSet = ∅)) in
  let routing := selectAddress llmisvc addressNameGatewayExternalModelRouting hostSet filtering in
  let external := selectAddress llmisvc addressNameGatewayExternal hostSet filtering in
  if routing != "" then routing
  else if external != "" then external
  else if filtering then ""
  else
    match base_or_first "" (ls_Addresses llmisvc) with
    | inl base => base
    | inr fallbackURL =>
        match ls_URL llmisvc with
        | Some u =>
            if is_base u then u_String u
            else if fallbackURL != "" then fallbackURL else u_String u
        | None => fallbackURL
        end
    end.

Section handler.
Context {srv : ApiServer} {uni : Unicode} (r : ModelReconciler).

(** [src/maas-controller/pkg/controller/maas/providers_llmisvc.go:39-115] validateLLMISvcHTTPRoute. *)
Definition llmisvc_ReconcileRoute (k : key) (model : MaaSModelRef)
    : prog cluster (MaaSModelStatus * result error ()) :=
  let routeNS := k.1 in
  let name := m_Name (m_Spec model) in
  routeList ← list_in routes (llmisvc_test routeNS model);
  match routeList with
  | Err e => mret (m_Status model, Err (In
      ("failed to list HTTPRoutes for LLMInferenceService " +:+ name) (ErrApi e)))
  | Ok [] => mret (m_Status model, Err (ErrHTTPRouteNotFound
      ("for LLMInferenceService " +:+ name +:+ " in namespace " +:+ routeNS)))
  | Ok ((routeKey, route) :: _) =>
      resolved ← resolveGatewayRef r model routeKey route;
      let '(st, gatewayRef) := resolved in
      mret match gatewayRef with
      | Err e => (st, Err (In ("resolve tenant gateway for model " +:+ slash k.1 k.2) e))
      | Ok expected =>
          let '(gatewayFound, gw) := find_gateway routeNS expected no_gateway (rt_parents route) in
          let st := set_gateway (g_Name gw) (g_Namespace gw) (rt_Hostnames route)
                      (set_route routeKey.2 routeNS st) in
          if gatewayFound : bool then (st, Ok ())
          else (st, Err (ErrOther
            ("HTTPRoute " +:+ slash routeNS routeKey.2
             +:+ " does not reference gateway (expected: " +:+ show_gateway expected
             +:+ ", found: " +:+ show_gateway gw
             +:+ "). The LLMInferenceService must be configured to use "
             +:+ show_gateway expected)))
      end
  end.

(** [src/maas-controller/pkg/controller/maas/providers_llmisvc.go:146-185] GetModelEndpoint. *)
Definition llmisvc_GetModelEndpoint (k : key) (model : MaaSModelRef) : kprog string :=
  let st := m_Status model in
  match ms_HTTPRouteHostnames st with
  | hostname :: _ => mret (Ok ("https://" +:+ hostname +:+ "/" +:+ k.2))
  | [] =>
      let '(gatewayName, gatewayNS) :=
        if ms_HTTPRouteGatewayName st == "" then
          (GatewayName (model_settings r), GatewayNamespace (model_settings r))
        else (ms_HTTPRouteGatewayName st, ms_HTTPRouteGatewayNamespace st) in
      host ←? read_gateway_host gatewayName gatewayNS;
      mret (Ok ("https://" +:+ host +:+ "/" +:+ k.2))
  end.

(** [src/maas-controller/pkg/controller/maas/providers_llmisvc.go:127-132] Status. *)
Definition is_ready (llmisvc : LLMInferenceService) : bool :=
  existsb (λ c : string * string, (c.1 == "Ready") && (c.2 == "True"))
    (ls_Conditions llmisvc).

(** The endpoint and whether the model is ready.
    [src/maas-controller/pkg/controller/maas/providers_llmisvc.go:117-144] Status. *)
Definition llmisvc_Status (k : key) (model : MaaSModelRef) : kprog (string * bool) :=
  let name := m_Name (m_Spec model) in
  found ← get_in llmisvcs (k.1, name);
  match found with
  | Err NotFound => mret (Err (ErrOther ("LLMInferenceService " +:+ name
                      +:+ " not found in namespace " +:+ k.1)))
  | Err e => mret (Err (ErrApi e))
  | Ok llmisvc =>
      if negb (is_ready llmisvc) then mret (Ok ("", false))
      else
        let endpoint :=
          getEndpointFromLLMISvc llmisvc (ms_HTTPRouteHostnames (m_Status model)) in
        if endpoint == "" then
          endpoint ←? llmisvc_GetModelEndpoint k model;
          mret (Ok (endpoint, true))
        else mret (Ok (endpoint, true))
  end.

(** The name of the first model of an address.
    [src/maas-controller/pkg/controller/maas/providers_llmisvc.go:297-302] ResolveModelAlias. *)
Fixpoint first_model (addrs : list Addressable) : string :=
  match addrs with
  | [] => ""
  | addr :: addrs' =>
      match ad_Models addr with
      | name :: _ => if name != "" then name else first_model addrs'
      | [] => first_model addrs'
      end
  end.

(** [src/maas-controller/pkg/controller/maas/providers_llmisvc.go:279-303] ResolveModelAlias. *)
Definition llmisvc_ResolveModelAlias (k : key) (model : MaaSModelRef) : kprog string :=
  found ← get_in llmisvcs (k.1, m_Name (m_Spec model));
  mret match found with
       | Err e => Err (ErrApi e)
       | Ok llmisvc => Ok (first_model (ls_Addresses llmisvc))
       end.

(** [src/maas-controller/pkg/controller/maas/providers_llmisvc.go:305-308] CleanupOnDelete. *)
Definition llmisvc_CleanupOnDelete (k : key) (model : MaaSModelRef) : kprog () := mret (Ok ()).
End handler.

End LLMISvc.

(** ** ExternalModel *)

Module External.

(** [src/maas-controller/pkg/controller/maas/providers_external.go:121-126] ReconcileRoute. *)
Definition clear_route (st : MaaSModelStatus) : MaaSModelStatus :=
  set_gateway "" "" [] (set_route "" "" (set_Endpoint "" st)).

(** The expected Gateway has accepted the route.
    [src/maas-controller/pkg/controller/maas/providers_external.go:167-186] ReconcileRoute. *)
Definition gatewayAccepted (routeNS : string) (expected : GatewayRef) (route : HTTPRoute)
    : bool :=
  existsb (λ parent,
    (p_Name (rp_Ref parent) == g_Name expected)
    && (default routeNS (p_Namespace (rp_Ref parent)) == g_Namespace expected)
    && existsb (λ cond, (c_Type cond == "Accepted") && (c_Status cond == "True"))
         (rp_Conditions parent)) (rt_status_parents route).

Section handler.
Context {api : ApiMachinery} {srv : ApiServer} {uni : Unicode} (r : ModelReconciler).

(** The name of the model's HTTPRoute; [None] when it is not known yet.
    [src/maas-controller/pkg/controller/maas/providers_external.go:58-111] ReconcileRoute. *)
Definition route_name (k : key) (model : MaaSModelRef) : kprog (option string) :=
  let name := m_Name (m_Spec model) in
  inferenceEM ← get_in external_models (k.1, name);
  match inferenceEM with
  | Ok o =>
      mret (Ok match found (NestedString o ["status"; "httpRouteName"]) with
               | Some routeName => if routeName != "" then Some routeName else None
               | None => None
               end)
  | Err NotFound | Err NoMatch =>
      externalModel ← get_in legacy_external_models (k.1, name);
      mret match externalModel with
           | Ok _ => Ok (Some (Naming.ExternalModelResourceName name))
           | Err NotFound => Err (ErrOther ("ExternalModel " +:+ name
               +:+ " not found in namespace " +:+ k.1
               +:+ " (checked inference.opendatahub.io and maas.opendatahub.io)"))
           | Err e => Err (In ("failed to get maas ExternalModel " +:+ name) (ErrApi e))
           end
  | Err e => mret (Err (In ("failed to get ExternalModel " +:+ name) (ErrApi e)))
  end.

(** [src/maas-controller/pkg/controller/maas/providers_external.go:132-222] ReconcileRoute. *)
Definition validate_route (k : key) (model : MaaSModelRef) (routeName : string)
    (route : HTTPRoute) : prog cluster (MaaSModelStatus * result error ()) :=
  let routeNS := k.1 in
  resolved ← resolveGatewayRef r model (routeNS, routeName) route;
  let '(st, gatewayRef) := resolved in
  mret match gatewayRef with
  | Err e => (st, Err (In "failed to resolve gateway for ExternalModel" e))
  | Ok expected =>
      let '(gatewayFound, gw) := find_gateway routeNS expected no_gateway (rt_parents route) in
      if negb gatewayFound then
        (st, Err (ErrOther ("HTTPRoute " +:+ slash routeNS routeName
           +:+ " does not reference gateway " +:+ show_gateway expected
           +:+ " (found: " +:+ show_gateway gw +:+ ")")))
      else if negb (gatewayAccepted routeNS expected route) then
        (set_route routeName routeNS st, Ok ())
      else
        (set_gateway (g_Name gw) (g_Namespace gw) (rt_Hostnames route)
           (set_route routeName routeNS st), Ok ())
  end.

(** [src/maas-controller/pkg/controller/maas/providers_external.go:55-223] ReconcileRoute. *)
Definition external_ReconcileRoute (k : key) (model : MaaSModelRef)
    : prog cluster (MaaSModelStatus * result error ()) :=
  name ← route_name k model;
  match name with
  | Err e => mret (m_Status model, Err e)
  | Ok None => mret (clear_route (m_Status model), Ok ())
  | Ok (Some routeName) =>
      found ← get_in routes (k.1, routeName);
      match found with
      | Err NotFound => mret (clear_route (m_Status model), Ok ())
      | Err e => mret (m_Status model,
                   Err (In ("failed to get HTTPRoute " +:+ slash k.1 routeName) (ErrApi e)))
      | Ok route => validate_route k model routeName route
      end
  end.

(** [src/maas-controller/pkg/controller/maas/providers_external.go:240-276] GetModelEndpoint. *)
Definition external_GetModelEndpoint (k : key) (model : MaaSModelRef) : kprog string :=
  match ms_HTTPRouteHostnames (m_Status model) with
  | hostname :: _ => mret (Ok ("https://" +:+ hostname))
  | [] =>
      host ←? read_gateway_host (GatewayName (model_settings r))
                (GatewayNamespace (model_settings r));
      mret (Ok ("https://" +:+ host))
  end.

(** [src/maas-controller/pkg/controller/maas/providers_external.go:225-238] Status. *)
Definition external_Status (k : key) (model : MaaSModelRef) : kprog (string * bool) :=
  let st := m_Status model in
  if (ms_HTTPRouteName st == "") || (ms_HTTPRouteGatewayName st == "") then
    mret (Ok ("", false))
  else
    endpoint ←? external_GetModelEndpoint k model;
    mret (Ok (endpoint, true)).

(** [src/maas-controller/pkg/controller/maas/providers_external.go:278-283] ResolveModelAlias. *)
Definition external_ResolveModelAlias (k : key) (model : MaaSModelRef) : kprog string :=
  mret (Ok (m_Name (m_Spec model))).

(** [src/maas-controller/pkg/controller/maas/providers_external.go:285-289] CleanupOnDelete. *)
Definition external_CleanupOnDelete (k : key) (model : MaaSModelRef) : kprog () := mret (Ok ()).
End handler.

End External.

(** ** Kinds *)

(** [src/maas-controller/pkg/controller/maas/providers.go:51-70] BackendHandler. *)
Record BackendHandler : Type := mkHandler {
  ReconcileRoute : key → MaaSModelRef → prog cluster (MaaSModelStatus * result error ());
  Status : key → MaaSModelRef → kprog (string * bool);
  GetModelEndpoint : key → MaaSModelRef → kprog string;
  ResolveModelAlias : key → MaaSModelRef → kprog string;
  CleanupOnDelete : key → MaaSModelRef → kprog ();
}.

Section kinds.
Context {api : ApiMachinery} {srv : ApiServer} {uni : Unicode} (r : ModelReconciler).

(** [src/maas-controller/pkg/controller/maas/providers_llmisvc.go:34-37] llmisvcHandler. *)
Definition llmisvcHandler : BackendHandler := {|
  ReconcileRoute := LLMISvc.llmisvc_ReconcileRoute r;
  Status := LLMISvc.llmisvc_Status r;
  GetModelEndpoint := LLMISvc.llmisvc_GetModelEndpoint r;
  ResolveModelAlias := LLMISvc.llmisvc_ResolveModelAlias;
  CleanupOnDelete := LLMISvc.llmisvc_CleanupOnDelete;
|}.

(** [src/maas-controller/pkg/controller/maas/providers_external.go:50-53] externalModelHandler. *)
Definition externalModelHandler : BackendHandler := {|
  ReconcileRoute := External.external_ReconcileRoute r;
  Status := External.external_Status r;
  GetModelEndpoint := External.external_GetModelEndpoint r;
  ResolveModelAlias := External.external_ResolveModelAlias;
  CleanupOnDelete := External.external_CleanupOnDelete;
|}.

(** [src/maas-controller/pkg/controller/maas/providers.go:84-102] GetBackendHandler. *)
Definition GetBackendHandler (kind : string) : option BackendHandler :=
  if (kind == "LLMInferenceService") || (kind == "llmisvc") then Some llmisvcHandler
  else if kind == "ExternalModel" then Some externalModelHandler
  else None.
End kinds.

End Providers.
