(* ===== verification/SubscriptionController.v ===== *)
(** The subscription controller: token rate limit policies, one per model, built
    from all the subscriptions of the model, and the status of a subscription.
    [src/maas-controller/pkg/controller/maas/maassubscription_controller.go]. *)
From S2P Require Import Prelude GoStrings Sorting Unstructured Runtime Json.
From S2P Require Import MaasTypes TokenLimits Cluster ControllerHelpers.
Import V1 Limits Cluster Helpers.

Module SubController.

Definition maasSubscriptionFinalizer : string :=
  "maas.opendatahub.io/subscription-cleanup".

(** The labels of a generated policy. *)
Definition label_model : string := "maas.opendatahub.io/model".
Definition label_model_namespace : string := "maas.opendatahub.io/model-namespace".
Definition label_managed_by : string := "app.kubernetes.io/managed-by".
Definition label_part_of : string := "app.kubernetes.io/part-of".
Definition label_component : string := "app.kubernetes.io/component".
Definition annotation_subscriptions : string := "maas.opendatahub.io/subscriptions".

(** ** Limits *)

(** The rates of a reference, unless one of its limits is invalid; without
    limits, 100 tokens a minute.
    [src/maas-controller/pkg/controller/maas/maassubscription_controller.go:556-571] reconcileTRLPForModel. *)
Definition rates_of (ref : ModelSubscriptionRef) : option (list TokenRateLimit) :=
  match TokenRateLimits ref with
  | [] => Some [mkLimit 100 "1m"]
  | trls =>
      if forallb (λ trl, match validateTokenRateLimit (Limit trl) (Window trl) with
                         | None => true
                         | Some _ => false
                         end) trls
      then Some trls else None
  end.

(** A subscription that contributes to a policy. *)
Record subInfo : Type := mkSubInfo {
  si_sub : MaaSSubscription;
  si_ref : ModelSubscriptionRef;
  si_rates : list TokenRateLimit;
}.

(** The first reference to the model whose limits are valid.
    [src/maas-controller/pkg/controller/maas/maassubscription_controller.go:551-582] reconcileTRLPForModel. *)
Fixpoint contribution (modelNamespace modelName : string) (sub : MaaSSubscription)
    (refs : list ModelSubscriptionRef) : option subInfo :=
  match refs with
  | [] => None
  | ref :: refs' =>
      if (ref_Namespace ref != modelNamespace) || (ref_Name ref != modelName) then
        contribution modelNamespace modelName sub refs'
      else
        match rates_of ref with
        | Some rates => Some (mkSubInfo sub ref rates)
        | None => contribution modelNamespace modelName sub refs'
        end
  end.

(** [strings.ReplaceAll(s, "/", "-")]. *)
Fixpoint dashes (s : string) : string :=
  match s with
  | EmptyString => EmptyString
  | String c s' => String (if c == "/"%char then "-"%char else c) (dashes s')
  end.

Definition subRef (sub : MaaSSubscription) : string :=
  Namespace sub +:+ "/" +:+ Name sub.

(** [src/maas-controller/pkg/controller/maas/maassubscription_controller.go:606-614] reconcileTRLPForModel. *)
Definition limit_key (si : subInfo) : string :=
  dashes (subRef (si_sub si)) +:+ "-" +:+ ref_Name (si_ref si) +:+ "-tokens".

(** [src/maas-controller/pkg/controller/maas/maassubscription_controller.go:608-611] reconcileTRLPForModel. *)
Definition modelScopedRef (si : subInfo) : string :=
  subRef (si_sub si) +:+ "@" +:+ ref_Namespace (si_ref si) +:+ "/"
  +:+ ref_Name (si_ref si).

(** The requests a limit applies to: those the AuthPolicy has selected this
    subscription and model for, the model list excepted.
    [src/maas-controller/pkg/controller/maas/maassubscription_controller.go:615-621] reconcileTRLPForModel. *)
Definition when_selected (scopedRef : string) : string :=
  "auth.identity.selected_subscription_key == " +:+ quoted scopedRef
  +:+ " && !request.path.endsWith(" +:+ quoted "/v1/models" +:+ ")".

(** [src/maas-controller/pkg/controller/maas/maassubscription_controller.go:614-628] reconcileTRLPForModel. *)
Definition limit_of (si : subInfo) : limit :=
  mkEntry (si_rates si) (when_selected (modelScopedRef si)) "auth.identity.userid".

(** [src/maas-controller/pkg/controller/maas/maassubscription_controller.go:603-629] reconcileTRLPForModel. *)
Definition limitsMap (subs : list subInfo) : gmap string limit :=
  foldl (λ m si, <[limit_key si := limit_of si]> m) ∅ subs.

(** [src/maas-controller/pkg/controller/maas/maassubscription_controller.go:513-513] reconcileTRLPForModel. *)
Definition policyName (modelName : string) : string := "maas-trlp-" +:+ modelName.

(** [src/maas-controller/pkg/controller/maas/maassubscription_controller.go:640-646] reconcileTRLPForModel. *)
Definition policy_labels (modelNamespace modelName : string) : gmap string string :=
  list_to_map [(label_model, modelName); (label_model_namespace, modelNamespace);
    (label_managed_by, "maas-controller"); (label_part_of, "maas-subscription");
    (label_component, "token-rate-limit-policy")].

(** The sorted names of the contributing subscriptions.
    [src/maas-controller/pkg/controller/maas/maassubscription_controller.go:631-649] reconcileTRLPForModel. *)
Definition policy_annotations (subs : list subInfo) : gmap string string :=
  {[ annotation_subscriptions := GoStrings.join "," (sort_stable str_lt
       ((λ si, qualifiedName (Namespace (si_sub si)) (Name (si_sub si))) <$> subs)) ]}.

Section controller.
Context {api : ApiMachinery} `{ApiServer} (r : Reconciler).

(** ** Policies *)

Definition has_label (t : Trlp) (k v : string) : bool := t_labels t !! k == Some v.

(** An absent kind, or nothing found, is an empty list. *)
Definition list_policies (test : Trlp → bool) : kprog (list (key * Trlp)) :=
  items ← list_in policies (λ _ t, test t);
  mret match items with
       | Ok l => Ok l
       | Err NotFound | Err NoMatch => Ok []
       | Err e => Err (In "failed to list TokenRateLimitPolicies" (ErrApi e))
       end.

(** [src/maas-controller/pkg/controller/maas/maassubscription_controller.go:841-852] deleteModelTRLP. *)
Fixpoint delete_managed (items : list (key * Trlp)) : kprog () :=
  match items with
  | [] => mret (Ok ())
  | (k, t) :: items' =>
      if negb (isManaged (t_annotations t)) then delete_managed items'
      else
        d ← delete_policy k;
        match d with
        | Ok _ | Err NotFound => delete_managed items'
        | Err e => mret (Err (In "failed to delete TokenRateLimitPolicy" (ErrApi e)))
        end
  end.

(** [src/maas-controller/pkg/controller/maas/maassubscription_controller.go:819-853] deleteModelTRLP. *)
Definition deleteModelTRLP (modelNamespace modelName : string) : kprog () :=
  items ←? list_policies (λ t,
    has_label t label_model modelName
    && has_label t label_model_namespace modelNamespace
    && has_label t label_managed_by "maas-controller"
    && has_label t label_part_of "maas-subscription");
  delete_managed items.

(** [src/maas-controller/pkg/controller/maas/maassubscription_controller.go:724-768] validateSubscriptionTenantGatewaysForRoute. *)
Fixpoint validate_gateways (routeName routeNS : string)
    (tenants gateways : list string) (subs : list MaaSSubscription) : kprog () :=
  match subs with
  | [] => mret (Ok ())
  | sub :: subs' =>
      if contains tenants (Namespace sub) then
        validate_gateways routeName routeNS tenants gateways subs'
      else
        let tenants := Namespace sub :: tenants in
        ref ←? tenantGatewayRefForNamespace r (Namespace sub);
        let gatewayKey := qualifiedName (g_Namespace ref) (g_Name ref) in
        if contains gateways gatewayKey then
          validate_gateways routeName routeNS tenants gateways subs'
        else
          v ← validateHTTPRouteReferencesGateway routeName routeNS ref;
          match v with
          | Err e => mret (Err (In "model is not attached to tenant gateway" e))
          | Ok _ => validate_gateways routeName routeNS tenants
                      (gatewayKey :: gateways) subs'
          end
  end.
Definition validateSubscriptionTenantGatewaysForRoute
    (subs : list MaaSSubscription) (routeName routeNS : string) : kprog () :=
  validate_gateways routeName routeNS [] [] subs.

(** Creating the policy, or bringing the existing one up to date, unless it has
    been opted out meanwhile. The comparison with the old object comes after its
    owner has been set.
    [src/maas-controller/pkg/controller/maas/maassubscription_controller.go:651-722] reconcileTRLPForModel. *)
Definition apply_policy (k route : key) (policy : Trlp) : kprog () :=
  match set_controller None route with
  | Err e => mret (Err (In "failed to set owner reference" (ErrOther e)))
  | Ok owner =>
      existing ← get_in policies k;
      match existing with
      | Err NotFound =>
          in_context "failed to create TokenRateLimitPolicy"
            (create_policy k (mkTrlp (t_labels policy) (t_annotations policy) owner
                                (t_spec policy) []))
      | Err e => mret (Err (In "failed to get existing TokenRateLimitPolicy" (ErrApi e)))
      | Ok ex =>
          if negb (isManaged (t_annotations ex)) then mret (Ok ())
          else
            match set_controller (t_owner ex) route with
            | Err e => mret (Err (In "failed to set owner reference" (ErrOther e)))
            | Ok owner' =>
                let annotations := t_annotations policy ∪ t_annotations ex in
                let labels := t_labels policy ∪ t_labels ex in
                if (annotations == t_annotations ex) && (labels == t_labels ex)
                   && (t_spec policy == t_spec ex)
                then mret (Ok ())
                else
                  in_context "failed to update TokenRateLimitPolicy"
                    (update_policy k (mkTrlp labels annotations owner'
                                        (t_spec policy) (t_object ex)))
            end
      end
  end.

(** Whether the policy of the model may be written: one that exists must not be
    opted out.
    [src/maas-controller/pkg/controller/maas/maassubscription_controller.go:514-527] reconcileTRLPForModel. *)
Definition opted_in (k : key) : kprog bool :=
  existing ← get_in policies k;
  mret match existing with
       | Ok ex => Ok (isManaged (t_annotations ex))
       | Err NotFound => Ok true
       | Err e => Err (In "failed to check existing TokenRateLimitPolicy" (ErrApi e))
       end.

(** [src/maas-controller/pkg/controller/maas/maassubscription_controller.go:479-722] reconcileTRLPForModel. *)
Definition reconcileTRLPForModel (modelNamespace modelName : string) : kprog () :=
  found ←? findAllSubscriptionsForModel modelNamespace modelName;
  allSubs ← filterSubscriptionsByTenantNamespace r found;
  route ← findHTTPRouteForModel modelNamespace modelName;
  match route with
  | Err e =>
      if is_model_not_found e || (length allSubs =? 0) then
        d ← deleteModelTRLP modelNamespace modelName;
        mret match d with
             | Ok _ => Ok ()
             | Err e => Err (In "failed to clean up TokenRateLimitPolicy" e)
             end
      else if is_route_not_found e then mret (Ok ())
      else mret (Err (In "failed to resolve HTTPRoute" e))
  | Ok (httpRouteName, httpRouteNS) =>
      _ ←? validateSubscriptionTenantGatewaysForRoute allSubs httpRouteName
             httpRouteNS;
      let k := (httpRouteNS, policyName modelName) in
      managed ←? opted_in k;
      if negb managed then mret (Ok ())
      else if length allSubs =? 0 then
        d ← deleteModelTRLP modelNamespace modelName;
        mret match d with
             | Ok _ => Ok ()
             | Err e => Err (In "failed to delete TokenRateLimitPolicy" e)
             end
      else
        _ ←? in_context "failed to fetch HTTPRoute"
               (get_in routes (httpRouteNS, httpRouteName));
        let subs := omap (λ sub, contribution modelNamespace modelName sub
                                   (ModelRefs (Spec sub))) allSubs in
        if length subs =? 0 then deleteModelTRLP modelNamespace modelName
        else
          apply_policy k (httpRouteNS, httpRouteName)
            (mkTrlp (policy_labels modelNamespace modelName)
               (policy_annotations subs) None
               (mkTrlpSpec httpRouteName (limitsMap subs)) [])
  end.

(** The references to distinct models, each the first to its model.
    [src/maas-controller/pkg/controller/maas/maassubscription_controller.go:462-468] reconcileTokenRateLimitPolicies. *)
Fixpoint distinct_refs (seen : list string) (refs : list ModelSubscriptionRef)
    : list ModelSubscriptionRef :=
  match refs with
  | [] => []
  | ref :: refs' =>
      let k := ref_Namespace ref +:+ "/" +:+ ref_Name ref in
      if contains seen k then distinct_refs seen refs'
      else ref :: distinct_refs (k :: seen) refs'
  end.

Fixpoint each {A} (f : A → kprog ()) (l : list A) : kprog () :=
  match l with
  | [] => mret (Ok ())
  | x :: l' => _ ←? f x; each f l'
  end.

(** Whether a listed policy is stale for a subscription, and of which model.
    [src/maas-controller/pkg/controller/maas/maassubscription_controller.go:791-810] cleanupStaleTRLPs. *)
Definition stale_model (sub : MaaSSubscription) (k : key) (t : Trlp)
    : option (string * string) :=
  let modelName := at_key (t_labels t) label_model in
  if modelName == "" then None
  else
    let modelNamespace := at_key (t_labels t) label_model_namespace in
    let modelNamespace := if modelNamespace == "" then k.1 else modelNamespace in
    if existsb (λ ref, ref_Namespace ref +:+ "/" +:+ ref_Name ref
                       == modelNamespace +:+ "/" +:+ modelName)
         (ModelRefs (Spec sub))
    then None
    else
      let owners := at_key (t_annotations t) annotation_subscriptions in
      if annotationListContains owners (qualifiedName (Namespace sub) (Name sub))
         || annotationListContains owners (Name sub)
      then Some (modelNamespace, modelName) else None.

(** [src/maas-controller/pkg/controller/maas/maassubscription_controller.go:770-817] cleanupStaleTRLPs. *)
Definition cleanupStaleTRLPs (sub : MaaSSubscription) : kprog () :=
  items ←? list_policies (λ t, has_label t label_managed_by "maas-controller"
                               && has_label t label_part_of "maas-subscription");
  each (λ kt : key * Trlp,
    match stale_model sub kt.1 kt.2 with
    | None => mret (Ok ())
    | Some (ns, name) =>
        d ← deleteModelTRLP ns name;
        mret match d with
             | Ok _ => Ok ()
             | Err e => Err (In "failed to clean up stale TokenRateLimitPolicy" e)
             end
    end) items.

(** [src/maas-controller/pkg/controller/maas/maassubscription_controller.go:456-477] reconcileTokenRateLimitPolicies. *)
Definition reconcileTokenRateLimitPolicies (sub : MaaSSubscription) : kprog () :=
  _ ←? each (λ ref, reconcileTRLPForModel (ref_Namespace ref) (ref_Name ref))
         (distinct_refs [] (ModelRefs (Spec sub)));
  cleanupStaleTRLPs sub.

End controller.
End SubController.
