(* ===== verification/SubscriptionReconcile.v ===== *)
(** The status of a subscription: what the subscription controller observes of
    its models and policies, and how it records it.
    [src/maas-controller/pkg/controller/maas/maassubscription_controller.go]. *)
From S2P Require Import Prelude GoStrings Sorting Unstructured Runtime.
From S2P Require Import MaasTypes TokenLimits Cluster ControllerHelpers.
From S2P Require Import SubscriptionController.
From stdpp Require Import pretty.
Import V1 Limits Cluster Helpers SubController.

Module SubStatus.

(** [src/maas-controller/pkg/controller/maas/maassubscription_controller.go:143-145] ConditionSpecPriorityDuplicate. *)
Definition ConditionSpecPriorityDuplicate : string := "SpecPriorityDuplicate".

(** The results of a program on each element. *)
Fixpoint collect {A B} (f : A → prog cluster B) (l : list A) : prog cluster (list B) :=
  match l with
  | [] => mret []
  | x :: l' => y ← f x; ys ← collect f l'; mret (y :: ys)
  end.

(** ** Consistency of the two lists of statuses *)

(** The models whose policy reports that the backend is missing, with the
    message of the last report.
    [src/maas-controller/pkg/controller/maas/maassubscription_controller.go:430-435] Reconcile. *)
Definition backendNotReady (trlpStatuses : list TokenRateLimitStatus)
    : gmap string string :=
  foldl (λ m ts,
    if st_Reason (trlp_ref ts) == ReasonBackendNotReady then
      <[st_Namespace (trlp_ref ts) +:+ "/" +:+ trlp_Model ts
        := st_Message (trlp_ref ts)]> m
    else m) ∅ trlpStatuses.

(** [src/maas-controller/pkg/controller/maas/maassubscription_controller.go:436-445] Reconcile. *)
Definition correct_status (missing : gmap string string) (s : ResourceRefStatus)
    : ResourceRefStatus :=
  if st_Ready s then
    match missing !! (st_Namespace s +:+ "/" +:+ st_Name s) with
    | Some msg => mkRefStatus (st_Name s) (st_Namespace s) false ReasonNotFound msg
    | None => s
    end
  else s.

(** [src/maas-controller/pkg/controller/maas/maassubscription_controller.go:424-446] Reconcile. *)
Definition correct_statuses (modelStatuses : list ResourceRefStatus)
    (trlpStatuses : list TokenRateLimitStatus) : list ResourceRefStatus :=
  correct_status (backendNotReady trlpStatuses) <$> modelStatuses.

(** The status and the reason of the Ready condition in a phase.
    [src/maas-controller/pkg/controller/maas/maassubscription_controller.go:903-922] updateStatus. *)
Definition ready_condition (phase : string) : string * string :=
  if phase == PhaseActive then ("True", ReasonReconciled)
  else if phase == PhaseDegraded then ("False", ReasonPartialFailure)
  else if phase == PhaseFailed then ("False", ReasonReconcileFailed)
  else if phase == PhaseInvalid then ("False", ReasonInvalidSpec)
  else ("Unknown", ReasonUnknown).

(** [src/maas-controller/pkg/controller/maas/maassubscription_controller.go:1040-1048] conditionsSemanticallyEqual. *)
Definition conditionsSemanticallyEqual (a b : option Condition) : bool :=
  match a, b with
  | None, None => true
  | Some a, Some b =>
      (c_Type a == c_Type b) && (c_Status a == c_Status b)
      && (c_Reason a == c_Reason b) && (c_Message a == c_Message b)
      && (c_ObservedGeneration a =? c_ObservedGeneration b)%Z
  | _, _ => false
  end.

Section status.
Context {api : ApiMachinery} {srv : ApiServer} (r : Reconciler).

(** ** Observing *)

(** [src/maas-controller/pkg/controller/maas/maassubscription_controller.go:159-181] validateModelRefs. *)
Definition model_status (ref : ModelSubscriptionRef) : prog cluster ResourceRefStatus :=
  let ns := ref_Namespace ref in
  let name := ref_Name ref in
  model ← get_in models (ns, name);
  mret match model with
       | Ok _ => mkRefStatus name ns true ReasonValid ""
       | Err NotFound =>
           mkRefStatus name ns false ReasonNotFound
             ("MaaSModelRef " +:+ ns +:+ "/" +:+ name +:+ " not found")
       | Err e =>
           mkRefStatus name ns false ReasonGetFailed
             ("failed to get MaaSModelRef: " +:+ error_text (ErrApi e))
       end.

(** [src/maas-controller/pkg/controller/maas/maassubscription_controller.go:147-184] validateModelRefs. *)
Definition validateModelRefs (sub : MaaSSubscription)
    : prog cluster (list ResourceRefStatus) :=
  collect model_status (distinct_refs [] (ModelRefs (Spec sub))).

(** [src/maas-controller/pkg/controller/maas/maassubscription_controller.go:198-248] checkTokenRateLimitHealth. *)
Definition policy_status (ref : ModelSubscriptionRef)
    : prog cluster TokenRateLimitStatus :=
  let name := policyName (ref_Name ref) in
  let status ns ready reason message :=
    mkTrlpStatus (mkRefStatus name ns ready reason message) (ref_Name ref) in
  route ← findHTTPRouteForModel (ref_Namespace ref) (ref_Name ref);
  match route with
  | Err e =>
      mret (if is_route_not_found e || is_model_not_found e then
              status (ref_Namespace ref) false ReasonBackendNotReady
                ("HTTPRoute not found yet; TokenRateLimitPolicy cannot be created: "
                 +:+ error_text e)
            else
              status (ref_Namespace ref) false ReasonGetFailed
                ("failed to find HTTPRoute for model: " +:+ error_text e))
  | Ok (_, httpRouteNS) =>
      trlp ← get_in policies (httpRouteNS, name);
      mret match trlp with
           | Err NotFound =>
               status httpRouteNS false ReasonNotFound
                 "TokenRateLimitPolicy not created yet"
           | Err e =>
               status httpRouteNS false ReasonGetFailed
                 ("failed to get TokenRateLimitPolicy: " +:+ error_text (ErrApi e))
           | Ok t =>
               let '(accepted, message) := getTRLPAcceptedCondition (t_object t) in
               if accepted then status httpRouteNS true ReasonAccepted ""
               else status httpRouteNS false ReasonNotAccepted message
           end
  end.

(** [src/maas-controller/pkg/controller/maas/maassubscription_controller.go:186-251] checkTokenRateLimitHealth. *)
Definition checkTokenRateLimitHealth (sub : MaaSSubscription)
    : prog cluster (list TokenRateLimitStatus) :=
  collect policy_status (distinct_refs [] (ModelRefs (Spec sub))).

(** ** Recording *)

(** A failed update is only logged.
    [src/maas-controller/pkg/controller/maas/maassubscription_controller.go:887-940] updateStatus. *)
Definition updateStatus (sub : MaaSSubscription) (phase message : string)
    (statusSnapshot : MaaSSubscriptionStatus) : prog cluster () :=
  let k := (Namespace sub, Name sub) in
  latest ← get_in subscriptions k;
  let conditions := Conditions (Status sub) in
  let '(currentStatus, conditions) :=
    match latest with
    | Ok l =>
        (Status l,
         match find_condition (Conditions (Status l)) ConditionSpecPriorityDuplicate with
         | Some dup => set_condition conditions dup
         | None => conditions
         end)
    | Err _ => (statusSnapshot, conditions)
    end in
  let '(status, reason) := ready_condition phase in
  let newStatus :=
    mkStatus phase
      (set_condition conditions
         (mkCondition "Ready" status reason message (Generation sub)))
      (ModelRefStatuses (Status sub)) (TokenRateLimitStatuses (Status sub)) in
  if currentStatus == newStatus then mret ()
  else _ ← update_status k newStatus; mret ().

(** ** Duplicate priorities *)

(** The condition a live subscription should have, among the live ones.
    [src/maas-controller/pkg/controller/maas/maassubscription_controller.go:984-1025] scanForDuplicatePriority. *)
Definition duplicate_condition (live : list MaaSSubscription) (s : MaaSSubscription)
    (generation : Z) : Condition :=
  let keys := sort_stable str_lt (subRef <$> List.filter (λ s',
      (Namespace s' == Namespace s) && (Priority (Spec s') =? Priority (Spec s))%Z)
      live) in
  let peers := List.filter (λ k, k != subRef s) keys in
  if length peers =? 0 then
    mkCondition ConditionSpecPriorityDuplicate "False" "NoDuplicatePeers" "" generation
  else
    mkCondition ConditionSpecPriorityDuplicate "True" "SharedPriority"
      ("spec.priority " +:+ pretty (Priority (Spec s)) +:+ " is shared with: "
       +:+ GoStrings.join ", " peers) generation.

(** [src/maas-controller/pkg/controller/maas/maassubscription_controller.go:984-1037] scanForDuplicatePriority. *)
Definition scan_one (live : list MaaSSubscription) (s : MaaSSubscription)
    : prog cluster () :=
  let k := (Namespace s, Name s) in
  latest ← get_in subscriptions k;
  match latest with
  | Err _ => mret ()
  | Ok l =>
      if deleting l then mret ()
      else
        let desired := duplicate_condition live s (Generation l) in
        let conditions := Conditions (Status l) in
        if conditionsSemanticallyEqual
             (find_condition conditions ConditionSpecPriorityDuplicate) (Some desired)
        then mret ()
        else
          _ ← update_status k
                (mkStatus (Phase (Status l)) (set_condition conditions desired)
                   (ModelRefStatuses (Status l)) (TokenRateLimitStatuses (Status l)));
          mret ()
  end.

(** [src/maas-controller/pkg/controller/maas/maassubscription_controller.go:942-1038] scanForDuplicatePriority. *)
Definition scanForDuplicatePriority : prog cluster () :=
  listed ← list_in subscriptions (λ _ _, true);
  match listed with
  | Err _ => mret ()
  | Ok items =>
      allowed ← filterSubscriptionsByTenantNamespace r items.*2;
      let live := List.filter (λ s, negb (deleting s)) allowed in
      _ ← collect (scan_one live) live;
      mret ()
  end.

End status.
End SubStatus.

(** * The reconcile loop *)

Import V1 Limits Cluster Helpers SubController SubStatus.

Module SubReconcile.

Section reconcile.
Context {api : ApiMachinery} {srv : ApiServer} (r : Reconciler).

(** ** Deletion *)

(** The aggregated policies are rebuilt without the subscription, then its
    finalizer goes.
    [src/maas-controller/pkg/controller/maas/maassubscription_controller.go:855-885] handleDeletion. *)
Definition handleDeletion (sub : MaaSSubscription) : kprog () :=
  if contains (Finalizers sub) maasSubscriptionFinalizer then
    _ ←? each (λ ref, reconcileTRLPForModel r (ref_Namespace ref) (ref_Name ref))
           (distinct_refs [] (ModelRefs (Spec sub)));
    _ ←? cleanupStaleTRLPs sub;
    u ← update_finalizers (Namespace sub, Name sub)
          (remove_finalizer (Finalizers sub) maasSubscriptionFinalizer);
    mret match u with Ok _ => Ok () | Err e => Err (ErrApi e) end
  else mret (Ok ()).

(** ** Reconciling *)

(** Adding the finalizer, when it is missing.
    [src/maas-controller/pkg/controller/maas/maassubscription_controller.go:377-383] Reconcile. *)
Definition ensure_finalizer (sub : MaaSSubscription) : kprog MaaSSubscription :=
  if contains (Finalizers sub) maasSubscriptionFinalizer then mret (Ok sub)
  else
    let fs := add_finalizer (Finalizers sub) maasSubscriptionFinalizer in
    u ← update_finalizers (Namespace sub, Name sub) fs;
    mret match u with
         | Ok _ => Ok (set_Finalizers sub fs)
         | Err e => Err (ErrApi e)
         end.

(** The status with the observed models. *)
Definition with_models (sub : MaaSSubscription) (ms : list ResourceRefStatus)
    : MaaSSubscription :=
  set_Status sub (mkStatus (Phase (Status sub)) (Conditions (Status sub)) ms
                    (TokenRateLimitStatuses (Status sub))).
Definition with_statuses (sub : MaaSSubscription) (ms : list ResourceRefStatus)
    (ts : list TokenRateLimitStatus) : MaaSSubscription :=
  set_Status sub (mkStatus (Phase (Status sub)) (Conditions (Status sub)) ms ts).

(** Policies, then the statuses, the phase, and the record of them.
    [src/maas-controller/pkg/controller/maas/maassubscription_controller.go:385-453] Reconcile. *)
Definition reconcile_spec (sub : MaaSSubscription) : kprog () :=
  let statusSnapshot := Status sub in
  modelStatuses ← validateModelRefs sub;
  let sub := with_models sub modelStatuses in
  let hasValidModels := existsb st_Ready modelStatuses in
  done ← (if hasValidModels then reconcileTokenRateLimitPolicies r sub
          else cleanupStaleTRLPs sub);
  match done with
  | Err e =>
      let what := if hasValidModels then "reconcile" else "clean up stale" in
      _ ← updateStatus sub PhaseFailed
            ("failed to " +:+ what +:+ " TokenRateLimitPolicies: " +:+ error_text e)
            statusSnapshot;
      mret (Err e)
  | Ok _ =>
      trlpStatuses ← checkTokenRateLimitHealth sub;
      let modelStatuses := correct_statuses modelStatuses trlpStatuses in
      let '(phase, message) := deriveFinalPhase modelStatuses trlpStatuses in
      _ ← updateStatus (with_statuses sub modelStatuses trlpStatuses) phase message
            statusSnapshot;
      mret (Ok ())
  end.

(** An empty list of the specification stands for an absent one.
    [src/maas-controller/pkg/controller/maas/maassubscription_controller.go:343-454] Reconcile. *)
Definition Reconcile (req : key) : kprog () :=
  found ← get_in subscriptions req;
  match found with
  | Err NotFound => mret (Ok ())
  | Err e => mret (Err (ErrApi e))
  | Ok sub =>
      if deleting sub then handleDeletion sub
      else
        isTenantNS ←? tenantNamespaceAllowed r req.1;
        if negb isTenantNS then mret (Ok ())
        else if Spec sub == zero_spec then
          _ ← updateStatus sub PhaseInvalid "spec is required" (Status sub);
          mret (Ok ())
        else
          sub ←? ensure_finalizer sub;
          reconcile_spec sub
  end.

(** ** Watches *)

(** Requests for subscriptions, without repetition. *)
Fixpoint distinct_requests (seen : list key) (subs : list MaaSSubscription)
    : list key :=
  match subs with
  | [] => []
  | s :: subs' =>
      let k := (Namespace s, Name s) in
      if contains seen k then distinct_requests seen subs'
      else k :: distinct_requests (k :: seen) subs'
  end.

(** [src/maas-controller/pkg/controller/maas/maassubscription_controller.go:1169-1189] mapAITenantToMaaSSubscriptions. *)
Definition mapAITenantToMaaSSubscriptions (aitenant : string) : prog cluster (list key) :=
  let tenantNamespace :=
    TenantNamespaceForAITenant aitenant (DefaultTenantNamespace r) in
  items ← list_in subscriptions (λ k _, k.1 == tenantNamespace);
  match items with
  | Err _ => mret []
  | Ok l =>
      subs ← filterSubscriptionsByTenantNamespace r l.*2;
      mret ((λ s, (Namespace s, Name s)) <$> subs)
  end.

(** [src/maas-controller/pkg/controller/maas/maassubscription_controller.go:1206-1220] duplicatePriorityScanPredicate. *)
Definition duplicatePriorityScanPredicate (oldSub newSub : MaaSSubscription) : bool :=
  negb (Priority (Spec oldSub) =? Priority (Spec newSub))%Z.

(** [src/maas-controller/pkg/controller/maas/maassubscription_controller.go:1222-1239] mapNamespaceToMaaSSubscriptions. *)
Definition mapNamespaceToMaaSSubscriptions (ns : string) : prog cluster (list key) :=
  if (ns != DefaultTenantNamespace r) && negb (TenantNamespaceDiscoveryEnabled r)
  then mret []
  else
    items ← list_in subscriptions (λ k _, k.1 == ns);
    mret match items with
         | Err _ => []
         | Ok l => (λ s, (Namespace s, Name s)) <$> l.*2
         end.

(** [src/maas-controller/pkg/controller/maas/maassubscription_controller.go:1241-1278] mapGeneratedTRLPToParent. *)
Definition mapGeneratedTRLPToParent (k : key) (t : Trlp) : prog cluster (list key) :=
  if at_key (t_labels t) label_managed_by != "maas-controller" then mret []
  else
    let modelName := at_key (t_labels t) label_model in
    if modelName == "" then mret []
    else
      let modelNamespace := at_key (t_labels t) label_model_namespace in
      let modelNamespace := if modelNamespace == "" then k.1 else modelNamespace in
      items ← list_by_model (modelNamespace +:+ "/" +:+ modelName);
      match items with
      | Err _ => mret []
      | Ok l =>
          subs ← filterSubscriptionsByTenantNamespace r l;
          mret (distinct_requests [] (List.filter (λ s, negb (deleting s)) subs))
      end.

(** [src/maas-controller/pkg/controller/maas/maassubscription_controller.go:1280-1306] mapMaaSModelRefToMaaSSubscriptions. *)
Definition mapMaaSModelRefToMaaSSubscriptions (model : key) : prog cluster (list key) :=
  items ← list_by_model (model.1 +:+ "/" +:+ model.2);
  match items with
  | Err _ => mret []
  | Ok l =>
      subs ← filterSubscriptionsByTenantNamespace r l;
      mret (distinct_requests [] subs)
  end.

(** [src/maas-controller/pkg/controller/maas/maassubscription_controller.go:1310-1343] mapHTTPRouteToMaaSSubscriptions. *)
Definition mapHTTPRouteToMaaSSubscriptions (route : key) : prog cluster (list key) :=
  ms ← list_in models (λ k _, k.1 == route.1);
  match ms with
  | Err _ => mret []
  | Ok l =>
      subs ← collect (λ m : key * MaaSModelRef,
        items ← list_by_model (m.1.1 +:+ "/" +:+ m.1.2);
        match items with
        | Err _ => mret []
        | Ok l => filterSubscriptionsByTenantNamespace r l
        end) l;
      mret (distinct_requests [] (concat subs))
  end.

End reconcile.
End SubReconcile.
