(* ===== verification/ControllerFacts.v ===== *)
(** How the controllers' programs are reasoned about: programs that only read
    the cluster, with what they return, and relations every step of a program
    respects. *)
From S2P Require Import Prelude GoStrings Unstructured Runtime.
From S2P Require Import MaasTypes Cluster ControllerHelpers.
Import Cluster Helpers.

(** ** Programs that only read *)

Section reads.
Context {S : Type}.

(** The state stays, and the answer is related to it. *)
Definition reads {A} (m : prog S A) (Q : S → A → Prop) : Prop :=
  ∀ w, state (m w).2 = state w ∧ Q (state w) (m w).1.

Lemma reads_ret {A} (x : A) (Q : S → A → Prop) : (∀ c, Q c x) → reads (mret x) Q.
Proof. intros H w. split; [done|apply H]. Qed.

Lemma reads_bind {A B} (m : prog S A) (f : A → prog S B) Q R (T : S → B → Prop) :
  reads m Q →
  (∀ x, reads (f x) (R x)) →
  (∀ c x y, Q c x → R x c y → T c y) →
  reads (m ≫= f) T.
Proof.
  intros Hm Hf HT w. rewrite bind_run. destruct (Hm w) as [E HQ].
  destruct (Hf (m w).1 (m w).2) as [E' HR]. rewrite E', E. split; [done|].
  rewrite E in HR. by eapply HT.
Qed.

(** The continuation may use what was read. *)
Lemma reads_then {A B} (m : prog S A) (f : A → prog S B) Q (T : S → B → Prop) :
  reads m Q →
  (∀ x, reads (f x) (λ c y, Q c x → T c y)) →
  reads (m ≫= f) T.
Proof. intros Hm Hf. eapply reads_bind; [done|apply Hf|]. simpl. auto. Qed.

Lemma reads_mono {A} (m : prog S A) (Q R : S → A → Prop) :
  reads m Q → (∀ c x, Q c x → R c x) → reads m R.
Proof. intros Hm H w. destruct (Hm w). eauto. Qed.

Lemma reads_and {A} (m : prog S A) (Q R : S → A → Prop) :
  reads m Q → reads m R → reads m (λ c x, Q c x ∧ R c x).
Proof. intros Hm Hm' w. destruct (Hm w), (Hm' w). eauto. Qed.

Lemma reads_state {A} (m : prog S A) Q w : reads m Q → state (m w).2 = state w.
Proof. intros Hm. apply Hm. Qed.

Lemma reads_run {A} (m : prog S A) Q w :
  reads m Q → ∃ x w', m w = (x, w') ∧ state w' = state w ∧ Q (state w) x.
Proof. intros Hm. exists (m w).1, (m w).2. destruct (Hm w). by destruct (m w). Qed.
End reads.

(** Runs the reading program at the head of the goal's program, by what [L] says
    of it. *)
Tactic Notation "step_reads" uconstr(L) "as" simple_intropattern(x)
    ident(E) simple_intropattern(HQ) :=
  match goal with |- context [mbind ?f ?m ?w] =>
    let w' := fresh "w" in
    let Hrun := fresh "Hrun" in
    destruct (reads_run m _ w L) as (x & w' & Hrun & E & HQ);
    rewrite ?(run_bind m _ w _ w' Hrun); clear Hrun
  end.

(** ** Relations that programs respect *)

Section respects.
Context {S : Type}.

Definition respects {A} (R : S → S → Prop) (m : prog S A) : Prop :=
  ∀ w, R (state w) (state (m w).2).

Context (R : S → S → Prop) `{!Reflexive R, !Transitive R}.

Lemma respects_reads {A} (m : prog S A) Q : reads m Q → respects R m.
Proof. intros Hm w. rewrite (reads_state _ _ _ Hm). done. Qed.
Lemma respects_ret {A} (x : A) : respects R (mret x).
Proof. intros w. simpl. done. Qed.
Lemma respects_bind {A B} (m : prog S A) (f : A → prog S B) :
  respects R m → (∀ x, respects R (f x)) → respects R (m ≫= f).
Proof.
  intros Hm Hf w. rewrite bind_run. etrans; [apply Hm|apply Hf].
Qed.
(** As [respects_bind], with what a reading program has read. *)
Lemma respects_reads_bind {A B} (m : prog S A) (f : A → prog S B) Q :
  reads m Q →
  (∀ x w, Q (state w) x → R (state w) (state (f x w).2)) →
  respects R (m ≫= f).
Proof.
  intros Hm Hf w. rewrite bind_run. destruct (Hm w) as [E HQ].
  rewrite <-E at 1. apply Hf. by rewrite E.
Qed.
End respects.

(** ** Calls of the API server *)

Lemma run_try {S E A B} (m : prog S (result E A))
    (f : A → prog S (result E B)) w :
  try_bind m f w =
  match (m w).1 with Ok x => f x (m w).2 | Err e => (Err e, (m w).2) end.
Proof. unfold try_bind. rewrite bind_run. by destruct (m w) as [[] ?]. Qed.

Lemma respects_try {S} (R : S → S → Prop) `{!Reflexive R, !Transitive R} {E A B}
    (m : prog S (result E A)) (f : A → prog S (result E B)) :
  respects R m → (∀ x, respects R (f x)) → respects R (try_bind m f).
Proof.
  intros Hm Hf. apply respects_bind; [done..|]. intros [x|e]; [apply Hf|].
  by apply respects_ret.
Qed.

Lemma reads_try {S E A B} (m : prog S (result E A))
    (f : A → prog S (result E B)) Q (T : S → result E B → Prop) :
  reads m Q →
  (∀ x, reads (f x) (λ c y, Q c (Ok x) → T c y)) →
  (∀ c e, Q c (Err e) → T c (Err e)) →
  reads (try_bind m f) T.
Proof.
  intros Hm Hf He. unfold try_bind. eapply reads_then; [done|].
  intros [x|e]; [apply Hf|]. apply reads_ret. intros c. apply He.
Qed.

Section calls.
Context {srv : ApiServer} {lawful : LawfulApiServer}.

(** Some call fails. *)
Definition unreliable : Prop := ∃ n, is_Some (api_fault n).

Lemma get_in_reads {S K A} `{Countable K} (objects : S → gmap K A) (k : K) :
  reads (get_in objects k) (λ c r,
    match r with
    | Ok x => objects c !! k = Some x
    | Err NotFound => objects c !! k = None
    | Err NoMatch => False
    | Err (Failure _) => unreliable
    end).
Proof.
  intros w. unfold get_in, read, mbind, prog_bind. simpl.
  destruct (api_fault (ticks w)) as [[e b]|] eqn:E; simpl; split; try done.
  - destruct (api_fault_failure _ _ _ E) as [msg ->]. eexists. by rewrite E.
  - by destruct (objects (state w) !! k).
Qed.

Lemma get_in_ok {S K A} `{Countable K} (objects : S → gmap K A) (k : K) w x :
  api_fault (ticks w) = None → objects (state w) !! k = Some x →
  get_in objects k w = (Ok x, IO (Datatypes.S (ticks w)) (state w)).
Proof.
  intros Hf E. unfold get_in, read, mbind, prog_bind. simpl. rewrite Hf.
  unfold mret, prog_ret, get. cbn [state]. by rewrite E.
Qed.

Lemma list_in_reads {S K A} `{Countable K} (objects : S → gmap K A)
    (test : K → A → bool) :
  reads (list_in objects test) (λ c r,
    match r with
    | Ok l => l ≡ₚ List.filter (λ kx : K * A, test kx.1 kx.2) (map_to_list (objects c))
    | Err (Failure _) => unreliable
    | Err _ => False
    end).
Proof.
  intros w. unfold list_in, read, mbind, prog_bind. simpl.
  destruct (api_fault (ticks w)) as [[e b]|] eqn:E; simpl; split; try done.
  - destruct (api_fault_failure _ _ _ E) as [msg ->]. eexists. by rewrite E.
  - apply filter_bool_perm, list_order_perm.
Qed.

(** What a listing holds. *)
Lemma listed_elem {K A} `{Countable K} (m : gmap K A) (f : K * A → bool) l k x :
  l ≡ₚ List.filter f (map_to_list m) →
  (k, x) ∈ l ↔ m !! k = Some x ∧ f (k, x) = true.
Proof.
  intros ->. rewrite filter_bool_elem_of, elem_of_map_to_list. done.
Qed.

(** A write takes effect or not; it does when it succeeds. *)
Lemma write_run {S} (f : S → result api_error S) w :
  (state (write f w).2 = state w ∧ (write f w).1 ≠ Ok ())
  ∨ f (state w) = Ok (state (write f w).2).
Proof.
  unfold write, mbind, prog_bind, get, tick, put. simpl.
  destruct (api_fault (ticks w)) as [[e [|]]|] eqn:E.
  - destruct (f (state w)) eqn:F; simpl; [by right|]. by left.
  - simpl. by left.
  - destruct (f (state w)) eqn:F; simpl; [by right|]. by left.
Qed.

Lemma respects_write {S} (R : S → S → Prop) `{!Reflexive R} f :
  (∀ c c', f c = Ok c' → R c c') →
  respects R (write f).
Proof.
  intros Hf w. destruct (write_run f w) as [[-> _]|E]; [done|by apply Hf].
Qed.

Lemma in_context_run {S A} context (m : prog S (result api_error A)) w :
  (in_context context m w).2 = (m w).2
  ∧ (in_context context m w).1 =
    match (m w).1 with Ok x => Ok x | Err e => Err (In context (ErrApi e)) end.
Proof. unfold in_context. rewrite bind_run. done. Qed.

Lemma reads_in_context {S A} context (m : prog S (result api_error A)) Q
    (T : S → result error A → Prop) :
  reads m Q →
  (∀ c x, Q c (Ok x) → T c (Ok x)) →
  (∀ c e, Q c (Err e) → T c (Err (In context (ErrApi e)))) →
  reads (in_context context m) T.
Proof.
  intros Hm H1 H2 w. destruct (in_context_run context m w) as [-> ->].
  destruct (Hm w) as [-> HQ]. split; [done|]. destruct (m w).1; auto.
Qed.

Lemma respects_in_context {S} (R : S → S → Prop) {A} context
    (m : prog S (result api_error A)) :
  respects R m → respects R (in_context context m).
Proof.
  intros Hm w. destruct (in_context_run context m w) as [-> _]. apply Hm.
Qed.
End calls.

(** * What the shared helpers read *)

Section facts.
Context {api : ApiMachinery} {srv : ApiServer} {lawful : LawfulApiServer}.
Context (r : Reconciler).

(** ** Tenant namespaces *)

(** Which namespaces hold tenants. *)
Definition ns_allowed (c : cluster) (ns : string) : bool :=
  (DefaultTenantNamespace r == "") || (ns == DefaultTenantNamespace r)
  || (TenantNamespaceDiscoveryEnabled r
      && match namespaces c !! ns with
         | Some labels => namespaceHasTenantDiscoveryLabel labels
         | None => false
         end).

Lemma tenantNamespaceAllowed_reads ns :
  reads (tenantNamespaceAllowed r ns) (λ c x,
    match x with Ok b => b = ns_allowed c ns | Err _ => unreliable end).
Proof.
  unfold tenantNamespaceAllowed, ns_allowed.
  destruct (_ || _); [by apply reads_ret|]. simpl.
  destruct (TenantNamespaceDiscoveryEnabled r); [|by apply reads_ret]. simpl.
  eapply reads_then; [apply get_in_reads|]. intros [labels|[| |msg]];
    apply reads_ret; intros c; simpl; intros E; [by rewrite E..|done|done].
Qed.

Lemma isTenantNamespace_reads ns :
  reads (isTenantNamespace r ns) (λ c b,
    b = ns_allowed c ns ∨ (b = false ∧ unreliable)).
Proof.
  unfold isTenantNamespace.
  eapply reads_then; [apply tenantNamespaceAllowed_reads|].
  intros [b|e]; apply reads_ret; intros c H; [by left|by right].
Qed.

(** A subscription outside the tenant namespaces is dropped, and none of the
    others is as long as no call fails. *)
Definition allowed_subs (c : cluster) (subs : list V1.MaaSSubscription)
    : list V1.MaaSSubscription :=
  List.filter (λ s, ns_allowed c (V1.Namespace s)) subs.

Lemma filter_allowed_reads {A} (namespace : A → string) known subs :
  reads (filter_allowed r namespace known subs) (λ c l,
    (∀ ns b, known !! ns = Some b → b = ns_allowed c ns ∨ (b = false ∧ unreliable)) →
    (∀ s, s ∈ l → s ∈ subs ∧ ns_allowed c (namespace s) = true)
    ∧ (¬ unreliable → l = List.filter (λ s, ns_allowed c (namespace s)) subs)).
Proof.
  revert known. induction subs as [|s subs IH]; intros known.
  - apply reads_ret. intros c _. split; [intros s []%not_elem_of_nil|done].
  - cbn [filter_allowed].
    eapply (reads_then _ _ (λ c b,
      (∀ ns b, known !! ns = Some b → b = ns_allowed c ns ∨ (b = false ∧ unreliable)) →
      b = ns_allowed c (namespace s) ∨ (b = false ∧ unreliable))).
    { destruct (known !! namespace s) as [b|] eqn:E.
      - apply reads_ret. intros c H. by apply H.
      - eapply reads_mono; [apply isTenantNamespace_reads|]. by intros c b ? _. }
    intros b. eapply reads_then; [apply IH|]. intros l. apply reads_ret.
    intros c Hl Hb Hknown. specialize (Hb Hknown).
    destruct Hl as [Hin Hall].
    { intros ns b'. destruct (decide (ns = namespace s)) as [->|Hne].
      - rewrite lookup_insert_eq. by intros [= <-].
      - rewrite lookup_insert_ne by done. apply Hknown. }
    split.
    + intros s'. destruct b.
      * intros [->|Hs]%elem_of_cons.
        -- split; [left|]. destruct Hb as [<-|[??]]; done.
        -- destruct (Hin s' Hs). split; [by right|done].
      * intros Hs. destruct (Hin s' Hs). split; [by right|done].
    + intros Hrel. cbn [List.filter].
      destruct Hb as [<-|[_ ?]]; [|done]. rewrite (Hall Hrel). by destruct b.
Qed.

Lemma filterSubscriptions_reads subs :
  reads (filterSubscriptionsByTenantNamespace r subs) (λ c l,
    (∀ s, s ∈ l → s ∈ subs ∧ ns_allowed c (V1.Namespace s) = true)
    ∧ (¬ unreliable → l = allowed_subs c subs)).
Proof.
  eapply reads_mono; [apply filter_allowed_reads|]. intros c l H. apply H.
  intros ns b. by rewrite lookup_empty.
Qed.

(** ** The subscriptions of a model *)

(** A subscription names a model. *)
Definition references (s : V1.MaaSSubscription) (modelKey : string) : bool :=
  contains (modelRefIndex s) modelKey.

Lemma list_by_model_reads k :
  reads (list_by_model k) (λ c x,
    match x with
    | Ok l => l ≡ₚ List.filter (λ s, references s k)
                     ((map_to_list (subscriptions c)).*2)
    | Err (Failure _) => unreliable
    | Err _ => False
    end).
Proof.
  unfold list_by_model. eapply reads_then; [apply list_in_reads|].
  intros [l|[]]; apply reads_ret; intros c H; try done.
  rewrite H. clear H. induction (map_to_list _) as [|[k' s] l' IH]; [done|].
  cbn. unfold references. destruct (contains _ _); cbn; by rewrite IH.
Qed.

(** The live subscriptions of the cluster that name a model. *)
Definition live_subs (c : cluster) (k : string) : list V1.MaaSSubscription :=
  List.filter (λ s, negb (V1.deleting s) && references s k)
    ((map_to_list (subscriptions c)).*2).

Lemma live_subs_elem c k s :
  s ∈ live_subs c k ↔
  (∃ key, subscriptions c !! key = Some s) ∧ V1.deleting s = false
  ∧ references s k = true.
Proof.
  unfold live_subs. rewrite filter_bool_elem_of, andb_true_iff, negb_true_iff.
  rewrite list_elem_of_fmap. split.
  - intros [([key s'] & -> & H%elem_of_map_to_list) ?]. eauto.
  - intros [[key H] ?]. split; [|done]. exists (key, s).
    by rewrite elem_of_map_to_list.
Qed.

Lemma findAll_reads ns name :
  reads (findAllSubscriptionsForModel ns name) (λ c x,
    match x with
    | Ok l => l ≡ₚ live_subs c (ns +:+ "/" +:+ name)
    | Err _ => unreliable
    end).
Proof.
  unfold findAllSubscriptionsForModel.
  eapply reads_try; [eapply (reads_in_context _ _ _ (λ c x,
    match x with
    | Ok l => l ≡ₚ List.filter (λ s, references s (ns +:+ "/" +:+ name))
                     ((map_to_list (subscriptions c)).*2)
    | Err _ => unreliable
    end)); [apply list_by_model_reads|done|]| |done].
  { by intros c [| |msg]. }
  intros l. apply reads_ret. intros c Hl. unfold live_subs.
  rewrite (filter_bool_perm _ _ _ Hl). clear Hl.
  induction (map_to_list (subscriptions c)).*2 as [|s l' IH]; [done|]. simpl.
  destruct (references s _) eqn:E1, (V1.deleting s) eqn:E2; simpl;
    rewrite ?E2; simpl; by rewrite ?IH.
Qed.

(** ** The HTTPRoute of a model *)

(** The model exists and is not being deleted. *)
Definition model_live (c : cluster) (k : key) : Prop :=
  ∃ m, models c !! k = Some m ∧ V1.m_deleting m = false.

(** The names of the HTTPRoutes a resolver may give. *)
Definition llmisvc_name (c : cluster) (ns : string) (m : V1.MaaSModelRef) (rn : string) : Prop :=
  ∃ route, routes c !! (ns, rn) = Some route ∧ llmisvc_test ns m (ns, rn) route = true.
Definition external_name (c : cluster) (ns : string) (m : V1.MaaSModelRef) (rn : string) : Prop :=
  match external_models c !! (ns, V1.m_Name (V1.m_Spec m)) with
  | Some o => found (NestedString o ["status"; "httpRouteName"]) = Some rn ∧ rn ≠ ""
  | None => rn = Naming.ExternalModelResourceName (V1.m_Name (V1.m_Spec m))
  end.
Definition resolves (c : cluster) (ns : string) (m : V1.MaaSModelRef) (rn : string) : Prop :=
  if (V1.m_Kind (V1.m_Spec m) == "LLMInferenceService") || (V1.m_Kind (V1.m_Spec m) == "llmisvc")
  then llmisvc_name c ns m rn
  else V1.m_Kind (V1.m_Spec m) = "ExternalModel" ∧ external_name c ns m rn.

(** A live model has an HTTPRoute, which lives in the model's namespace. *)
Definition routable (c : cluster) (model : key) (rn : string) : Prop :=
  ∃ m, models c !! model = Some m ∧ V1.m_deleting m = false
     ∧ resolves c model.1 m rn ∧ is_Some (routes c !! (model.1, rn)).

(** What a resolver answers. *)
Definition resolver_answer (name : string → Prop) (ns : string)
    (x : result error (string * string)) : Prop :=
  match x with
  | Ok (rn, ns') => ns' = ns ∧ name rn
  | Err e => is_model_not_found e = false
             ∧ (is_route_not_found e = true ∨ ¬ unreliable → ∀ rn, ¬ name rn)
  end.

(** A sentinel error says what is missing. *)
Definition route_answer (c : cluster) (model : key)
    (x : result error (string * string)) : Prop :=
  match x with
  | Ok (rn, ns) => ns = model.1 ∧ routable c model rn
  | Err e =>
      (is_model_not_found e = true → ¬ model_live c model)
      ∧ (is_route_not_found e = true → model_live c model)
      ∧ (is_route_not_found e = true ∨ ¬ unreliable → ∀ rn, ¬ routable c model rn)
  end.

Lemma llmisvc_route_reads ns m :
  reads (llmisvc_route ns m) (λ c x, resolver_answer (llmisvc_name c ns m) ns x).
Proof.
  unfold llmisvc_route. eapply reads_try.
  - apply (reads_in_context _ _ _ (λ c x,
      match x with
      | Ok l => ∀ k rt, (k, rt) ∈ l ↔
                  routes c !! k = Some rt ∧ llmisvc_test ns m k rt = true
      | Err e => is_model_not_found e = false ∧ is_route_not_found e = false
                 ∧ unreliable
      end) (list_in_reads _ _)); [|by intros c [| |]].
    intros c l Hl k rt. apply (listed_elem _ _ _ _ _ Hl).
  - intros [|[[k1 k2] rt] l]; apply reads_ret; intros c H; simpl.
    + split; [done|]. intros _ rn (rt & E & Ht).
      by destruct (H (ns, rn) rt) as [_ []%not_elem_of_nil].
    + destruct (proj1 (H (k1, k2) rt) ltac:(left)) as [E Ht].
      assert (k1 = ns) as -> by (unfold llmisvc_test in Ht; by destruct_bools).
      split; [done|]. by exists rt.
  - intros c e (He & Hr & Hu). split; [done|]. simpl in Hr. rewrite Hr.
    by intros [|[]].
Qed.

Lemma external_route_reads ns m :
  reads (external_route ns m) (λ c x, resolver_answer (external_name c ns m) ns x).
Proof.
  unfold external_route, external_name. eapply reads_then; [apply get_in_reads|].
  intros [o|[| |msg]].
  - destruct (found _) as [n|] eqn:E; [case_bool_decide as Hn|]; simpl;
      apply reads_ret; intros c Hc; simpl; rewrite Hc.
    + split; [done|]. intros _ rn [??]. congruence.
    + split; [done|]. split; [congruence|done].
    + split; [done|]. intros _ rn [??]. congruence.
  - apply reads_ret. intros c Hc. simpl. by rewrite Hc.
  - by apply reads_ret.
  - apply reads_ret. intros c Hu. split; [done|]. by intros [|[]].
Qed.

Lemma GetRouteResolver_reads resolve ns m :
  GetRouteResolver (V1.m_Kind (V1.m_Spec m)) = Some resolve →
  reads (resolve ns m) (λ c x, resolver_answer (resolves c ns m) ns x).
Proof.
  unfold GetRouteResolver, resolves. destruct (_ || _).
  - intros [= <-]. apply llmisvc_route_reads.
  - case_bool_decide as Hk; [|done]. intros [= <-].
    eapply reads_mono; [apply external_route_reads|].
    intros c [[rn ns']|e]; simpl; [naive_solver|].
    intros [He Hr]. split; [done|]. intros E rn [_ Hn]. by eapply Hr.
Qed.

(** A route that was resolved but is absent is the only one there could be. *)
Lemma resolves_absent c ns m rn rn' :
  resolves c ns m rn → routes c !! (ns, rn) = None →
  resolves c ns m rn' → is_Some (routes c !! (ns, rn')) → False.
Proof.
  unfold resolves. destruct (_ || _).
  - intros (rt & E & _). congruence.
  - intros [_ H] Hnone [_ H'] [rt Hrt]. unfold external_name in *.
    destruct (external_models c !! _); [|congruence].
    destruct H, H'. congruence.
Qed.

Lemma findHTTPRoute_reads ns name :
  reads (findHTTPRouteForModel ns name) (λ c x, route_answer c (ns, name) x).
Proof.
  unfold findHTTPRouteForModel. eapply reads_then; [apply get_in_reads|].
  intros [m|[| |msg]].
  2: { apply reads_ret. intros c E. split_and!; [|done|].
       - intros _ (m & E' & _). by rewrite E in E'.
       - intros _ rn (m & E' & _). by rewrite E in E'. }
  2: by apply reads_ret.
  2: { apply reads_ret. intros c Hu. split_and!; [done..|]. by intros [|[]]. }
  destruct (V1.m_deleting m) eqn:Hdel.
  { apply reads_ret. intros c E. split_and!; [|done|].
    - intros _ (m' & E' & ?). congruence.
    - intros _ rn (m' & E' & ? & _). congruence. }
  destruct (GetRouteResolver _) as [resolve|] eqn:Hres.
  2: { apply reads_ret. intros c E. split_and!; [done..|].
       intros _ rn (m' & E' & _ & Hn & _). simplify_eq. revert Hn.
       unfold resolves. unfold GetRouteResolver in Hres.
       destruct (_ || _); [done|]. case_bool_decide; [done|]. by intros []. }
  eapply reads_try; [by eapply GetRouteResolver_reads| |].
  2: { intros c e [He Hr] E. split_and!; [by rewrite He|by exists m|].
       intros Hnf rn (m' & E' & _ & Hn & _). simplify_eq. by eapply Hr. }
  intros [rn rns]. eapply reads_then; [apply get_in_reads|].
  intros [rt|[| |msg]]; apply reads_ret; [| |done|].
  - intros c E [-> Hn] Em. split; [done|]. exists m. by split_and!.
  - intros c E [-> Hn] Em. split_and!; [done|by exists m|].
    intros _ rn' (m' & E' & _ & Hn' & Hrt). simplify_eq.
    exact (resolves_absent c ns m rn rn' Hn E Hn' Hrt).
  - intros c Hu _ _. split_and!; [done..|]. by intros [|[]].
Qed.
End facts.
