(* ===== verification/ModelProviderFacts.v ===== *)
(** What the backends of models read: the tenant whose Gateway serves a route, the
    host of an endpoint, and the answers of the handlers. *)
From S2P Require Import Prelude GoStrings Unstructured Runtime.
From S2P Require Import GoFmt MaasTypes Cluster ControllerHelpers ModelProviders.
From S2P Require Import ControllerFacts.
Import V1 Cluster Helpers Fmt Providers.

(** ** Tenants by Gateway *)

(** The reference is that of a tenant, and complete. *)
Definition complete (ref : GatewayRef) : Prop := g_Name ref ≠ "" ∧ g_Namespace ref ≠ "".

Lemma tenantsByGateway_snoc items item :
  tenantsByGateway (items ++ [item]) =
  let m := tenantsByGateway items in
  let ref := ai_GatewayRef item.2 in
  if (g_Name ref != "") && (g_Namespace ref != "") then
    <[(g_Name ref, g_Namespace ref) :=
        default [] (m !! (g_Name ref, g_Namespace ref)) ++ [item.1.2]]> m
  else m.
Proof. unfold tenantsByGateway. by rewrite foldl_app. Qed.

Lemma tenantsByGateway_elem items ref name :
  name ∈ default [] (tenantsByGateway items !! (g_Name ref, g_Namespace ref)) ↔
  ∃ item, item ∈ items ∧ item.1.2 = name ∧ ai_GatewayRef item.2 = ref ∧ complete ref.
Proof.
  induction items as [|item items IH] using rev_ind.
  - split; [by intros ?%elem_of_nil|]. by intros (? & ?%elem_of_nil & _).
  - rewrite tenantsByGateway_snoc. cbv zeta.
    setoid_rewrite elem_of_app. setoid_rewrite list_elem_of_singleton.
    set (ref0 := ai_GatewayRef item.2).
    destruct (decide (complete ref0)) as [Hc|Hc].
    + destruct Hc as [Hn Hns].
      rewrite !bool_decide_eq_false_2 by done. cbn [andb negb].
      destruct (decide (ref = ref0)) as [->|Hne].
      * rewrite lookup_insert_eq. simpl. rewrite elem_of_app, IH.
        rewrite list_elem_of_singleton. split.
        -- intros [(it & ? & ? & ?)| ->]; [by eauto|]. exists item. split_and!; [by right|done..].
        -- intros (it & [?| ->] & ? & ? & ?); [left; eauto|by right].
      * rewrite lookup_insert_ne; [|intros [= ??]; apply Hne; by destruct ref, ref0; simpl in *; subst].
        rewrite IH. split; [intros (it & ? & ?); exists it; split; [by left|done]|].
        intros (it & [?| ->] & ? & ? & ?); [eauto|by destruct Hne].
    + assert ((g_Name ref0 != "") && (g_Namespace ref0 != "") = false) as ->.
      { apply not_true_is_false. intros H. apply Hc. by destruct_bools. }
      rewrite IH. split; [intros (it & ? & ?); exists it; split; [by left|done]|].
      intros (it & [?| ->] & ? & <- & ?); [eauto|done].
Qed.

(** ** The tenants that a route's Gateways match *)

Lemma match_tenants_spec ref seen names :
  let '(seen', ms) := match_tenants ref seen names in
  (∀ t, t ∈ seen' ↔ t ∈ seen ∨ t ∈ names)
  ∧ (∀ t ref', (t, ref') ∈ ms ↔ ref' = ref ∧ t ∈ names ∧ t ∉ seen)
  ∧ NoDup ms.*1.
Proof.
  revert seen. induction names as [|n names IH]; intros seen.
  - cbn. split_and!; [set_solver|set_solver|constructor].
  - cbn [match_tenants]. case_bool_decide as Hn.
    + specialize (IH seen). destruct (match_tenants ref seen names) as [seen' ms].
      destruct IH as (IH1 & IH2 & IH3). split_and!; [set_solver| |done].
      intros t ref'. rewrite IH2. set_solver.
    + specialize (IH ({[n]} ∪ seen)).
      destruct (match_tenants ref ({[n]} ∪ seen) names) as [seen' ms].
      destruct IH as (IH1 & IH2 & IH3). split_and!; [set_solver| |].
      * intros t ref'. rewrite elem_of_cons, IH2. split; [|].
        -- intros [[= -> ->]|]; set_solver.
        -- intros (-> & Ht & Hs). destruct (decide (t = n)) as [->|]; [by left|].
           right. set_solver.
      * cbn. constructor; [|done]. intros ([t ref'] & -> & Ht%IH2)%list_elem_of_fmap.
        set_solver.
Qed.

(** A Gateway of the route that a tenant of the list has. *)
Definition listed_match (routeNS : string) (items : list (key * AITenant))
    (parents : list ParentRef) (t : string) (ref : GatewayRef) : Prop :=
  ref ∈ parent_gateways routeNS parents
  ∧ ∃ item, item ∈ items ∧ item.1.2 = t ∧ ai_GatewayRef item.2 = ref ∧ complete ref.

(** Each tenant has one Gateway. *)
Definition one_gateway (items : list (key * AITenant)) : Prop :=
  ∀ x y, x ∈ items → y ∈ items → x.1.2 = y.1.2 → x = y.

Lemma gateway_matches_spec routeNS items seen parents :
  one_gateway items →
  let ms := gateway_matches routeNS (tenantsByGateway items) seen parents in
  (∀ t ref, (t, ref) ∈ ms → (t ∉ seen) ∧ listed_match routeNS items parents t ref)
  ∧ (∀ t ref, listed_match routeNS items parents t ref → t ∈ seen ∨ (t, ref) ∈ ms)
  ∧ NoDup ms.*1.
Proof.
  intros Hone. revert seen. induction parents as [|p parents IH]; intros seen.
  - cbn. split_and!; [set_solver| |constructor]. intros t ref [[]%elem_of_nil _].
  - cbn [gateway_matches]. unfold listed_match, parent_gateways. cbn [List.filter].
    destruct (parentRefTargetsGateway p); cbn [negb]; [|apply IH].
    set (ref0 := parent_gateway routeNS p).
    pose proof (match_tenants_spec ref0 seen
      (default [] (tenantsByGateway items !! (g_Name ref0, g_Namespace ref0)))) as Hm.
    destruct (match_tenants _ _ _) as [seen' ms0]. destruct Hm as (Hs & Hm & Hd).
    specialize (IH seen'). destruct IH as (IH1 & IH2 & IH3).
    setoid_rewrite tenantsByGateway_elem in Hs.
    setoid_rewrite tenantsByGateway_elem in Hm.
    split_and!.
    + intros t ref. rewrite elem_of_app. intros [[-> [H ?]]%Hm|[Ht [? H]]%IH1].
      * split; [done|]. split; [cbn; left|done].
      * split; [intros Hin; apply Ht, Hs; by left|]. split; [cbn; by right|done].
    + intros t ref [Hin Hit]. cbn in Hin. apply elem_of_cons in Hin as [->|Hin].
      * destruct (decide (t ∈ seen)); [by left|]. right. apply elem_of_app. left.
        by apply Hm.
      * destruct (IH2 t ref) as [H|H]; [by split| |right; apply elem_of_app; by right].
        apply Hs in H as [?|(it & Hi & Ht & Hr & Hc)]; [by left|].
        destruct Hit as (it' & Hi' & Ht' & Hr' & Hc').
        assert (it = it') as -> by (apply Hone; congruence).
        destruct (decide (t ∈ seen)); [by left|]. right. apply elem_of_app. left.
        apply Hm. split; [congruence|]. split; [|done]. exists it'. by rewrite Hr in *.
    + rewrite fmap_app. apply NoDup_app. split_and!; [done| |done].
      intros t ([? ref] & -> & H)%list_elem_of_fmap ([? ref'] & E & H')%list_elem_of_fmap.
      cbn in E. subst. apply Hm in H as (_ & H & _). apply IH1 in H' as [H' _].
      apply H', Hs. by right.
Qed.

Lemma find_gateway_spec routeNS expected first parents :
  let '(found, gw) := find_gateway routeNS expected first parents in
  (found = true ↔ expected ∈ parent_gateways routeNS parents)
  ∧ (found = true → gw = expected).
Proof.
  revert first. induction parents as [|p parents IH]; intros first.
  - cbn. split; [|done]. split; [done|by intros ?%elem_of_nil].
  - cbn [find_gateway]. unfold parent_gateways. cbn [List.filter].
    destruct (parentRefTargetsGateway p); cbn [negb]; [|apply IH].
    set (ref := parent_gateway routeNS p). cbn [fmap list_fmap].
    destruct (decide (ref = expected)) as [Heq|Hne].
    + rewrite Heq, !bool_decide_eq_true_2 by done. cbn.
      fold ref. rewrite Heq. split; [|done]. split; [by left|done].
    + assert ((g_Name ref == g_Name expected) && (g_Namespace ref == g_Namespace expected)
        = false) as ->.
      { apply not_true_is_false. intros H. apply Hne. destruct_bools.
        destruct ref, expected. simpl in *. congruence. }
      set (first' := if g_Name first == "" then ref else first). specialize (IH first').
      destruct (find_gateway routeNS expected first' parents) as [found gw].
      destruct IH as [IH1 IH2]. split; [|done]. rewrite IH1. rewrite elem_of_cons.
      split; [by right|]. intros [E|]; [by destruct Hne|done].
Qed.

(** ** The Gateway of a model's tenant *)

Section resolve.
Context {api : ApiMachinery} {srv : ApiServer} {lawful : LawfulApiServer} {uni : Unicode}.
Context (r : ModelReconciler).

(** A tenant has a Gateway. *)
Definition claims (c : cluster) (t : string) (ref : GatewayRef) : Prop :=
  ∃ a, aitenants c !! (AITenantNamespace r, t) = Some a ∧ ai_GatewayRef a = ref ∧ complete ref.

(** A Gateway of the route is that of a tenant. *)
Definition route_match (c : cluster) (routeNS : string) (route : HTTPRoute) (t : string)
    (ref : GatewayRef) : Prop :=
  ref ∈ parent_gateways routeNS (rt_parents route) ∧ claims c t ref.

(** The tenant of a model and its Gateway: the tenant the model names, or the only
    one whose Gateway the route refers to. *)
Definition tenant_of (c : cluster) (routeNS tenantRef : string) (route : HTTPRoute)
    (t : string) (ref : GatewayRef) : Prop :=
  if tenantRef != "" then t = tenantRef ∧ claims c t ref
  else route_match c routeNS route t ref
       ∧ ∀ t' ref', route_match c routeNS route t' ref' → t' = t.

(** What resolving a tenant answers. *)
Definition tenant_answer (c : cluster) (st : MaaSModelStatus) (routeNS tenantRef : string)
    (route : HTTPRoute) (x : MaaSModelStatus * result error GatewayRef) : Prop :=
  match x.2 with
  | Ok ref => ∃ t, x.1 = set_tenant t st ∧ tenant_of c routeNS tenantRef route t ref
  | Err e =>
      is_kind_not_implemented e = false ∧ is_route_not_found e = false
      ∧ (is_tenant_pending e = true → tenantRef = "" ∧ rt_parents route = [])
      ∧ ((x.1 = set_tenant "" st ∧ ∀ t ref, ¬ tenant_of c routeNS tenantRef route t ref)
         ∨ (x.1 = st ∧ unreliable))
  end.

Lemma listed_claims c items routeNS parents t ref :
  items ≡ₚ List.filter (λ kx : key * AITenant, kx.1.1 == AITenantNamespace r)
             (map_to_list (aitenants c)) →
  listed_match routeNS items parents t ref ↔
  ref ∈ parent_gateways routeNS parents ∧ claims c t ref.
Proof.
  intros Hl. unfold listed_match, claims.
  assert (∀ k a, (k, a) ∈ items ↔ aitenants c !! k = Some a ∧ k.1 = AITenantNamespace r) as He.
  { intros k a. rewrite (listed_elem _ _ _ _ _ Hl). cbn. by rewrite bool_decide_eq_true. }
  split; intros [Hp H]; split; try done.
  - destruct H as ([[ns n] a] & [Ha Hns]%He & <- & ? & ?). simpl in *. subst ns. eauto.
  - destruct H as (a & Ha & ? & ?). exists ((AITenantNamespace r, t), a).
    by split_and!; [apply He|..].
Qed.

Lemma listed_one_gateway c items :
  items ≡ₚ List.filter (λ kx : key * AITenant, kx.1.1 == AITenantNamespace r)
             (map_to_list (aitenants c)) →
  one_gateway items.
Proof.
  intros Hl [[ns n] a] [[ns' n'] a'] Hx%(listed_elem _ _ _ _ _ Hl)
    Hy%(listed_elem _ _ _ _ _ Hl). cbn in *.
  intros ->. destruct Hx, Hy. destruct_bools. congruence.
Qed.

Lemma no_match_nil c routeNS route :
  rt_parents route = [] → ∀ t ref, ¬ route_match c routeNS route t ref.
Proof.
  intros E t ref [H _]. unfold parent_gateways in H. rewrite E in H. cbn in H.
  by apply elem_of_nil in H.
Qed.

Lemma resolve_from_route_reads st rk route :
  reads (resolveGatewayRefFromHTTPRoute r st rk route) (λ c x,
    tenant_answer c st rk.1 "" route x).
Proof.
  unfold resolveGatewayRefFromHTTPRoute, tenant_answer, tenant_of.
  destruct (Nat.eqb_spec (length (rt_parents route)) 0) as [H0|H0].
  { apply reads_ret. intros c. apply length_zero_iff_nil in H0. cbn. split_and!; [done..|].
    left. split; [done|]. intros t ref [H _]. by eapply no_match_nil in H. }
  eapply reads_then; [apply list_in_reads|]. intros [items|[| |msg]]; apply reads_ret;
    intros c Hl; try done.
  2: { cbn. split_and!; [done..|]. by right. }
  pose proof (gateway_matches_spec rk.1 items ∅ (rt_parents route)
    (listed_one_gateway c items Hl)) as (H1 & H2 & H3).
  setoid_rewrite (listed_claims c items rk.1 (rt_parents route) _ _ Hl) in H1.
  setoid_rewrite (listed_claims c items rk.1 (rt_parents route) _ _ Hl) in H2.
  destruct (gateway_matches _ _ _ _) as [|[t ref] [|[t2 ref2] ms]]; cbn.
  - split_and!; [done..|]. left. split; [done|].
    intros t ref [[Hp Hc] _]. destruct (H2 t ref) as [?%not_elem_of_empty|?%elem_of_nil]; done.
  - exists t. split; [done|]. split; [apply (H1 t ref); by left|].
    intros t' ref' [Hp Hc].
    destruct (H2 t' ref') as [?%not_elem_of_empty|H]; [done..|].
    apply list_elem_of_singleton in H. congruence.
  - split_and!; [done..|]. left. split; [done|].
    intros t' ref' [_ Hu]. cbn in H3. apply NoDup_cons in H3 as [H3 _].
    apply H3. rewrite (Hu t ref), <-(Hu t2 ref2); [by left|..].
    + apply (H1 t2 ref2). right. by left.
    + apply (H1 t ref). by left.
Qed.

Lemma resolveGatewayRef_reads model rk route :
  reads (resolveGatewayRef r model rk route) (λ c x,
    tenant_answer c (m_Status model) rk.1 (m_TenantRef (m_Spec model)) route x).
Proof.
  unfold resolveGatewayRef. cbv zeta. case_bool_decide as E; cbn [negb].
  { rewrite E. apply resolve_from_route_reads. }
  unfold tenant_answer, tenant_of. rewrite bool_decide_eq_false_2 by done. cbn [negb].
  eapply reads_then; [apply get_in_reads|]. intros [a|[| |msg]]; apply reads_ret;
    intros c Ha; try done; cbn.
  - destruct (_ || _) eqn:Hn; cbn.
    + split_and!; [done..|]. left. split; [done|].
      intros t ref [-> (a' & Ha' & <- & [??])]. simplify_eq.
      apply orb_true_iff in Hn as [Hn|Hn]; by destruct_bools.
    + exists (m_TenantRef (m_Spec model)). split; [done|]. split; [done|].
      exists a. split_and!; [done..|]. by destruct_bools.
  - split_and!; [done..|]. left. split; [done|].
    intros t ref [-> (a & Ha' & _)]. congruence.
  - split_and!; [done..|]. by right.
Qed.
End resolve.

(** ** Endpoints *)

Definition is_llmisvc (kind : string) : bool :=
  (kind == "LLMInferenceService") || (kind == "llmisvc").

(** An address of the service is on one of the hosts, whatever the case of their
    letters. *)
Definition on_host (svc : LLMInferenceService) (hosts : list string) (endpoint : string)
    : Prop :=
  ∃ addr u host, addr ∈ ls_Addresses svc ∧ ad_URL addr = Some u ∧ u_String u = endpoint
    ∧ host ∈ hosts ∧ ToLower (Hostname u) = ToLower host.

Lemma selectAddress_cases svc name hostSet filtering :
  LLMISvc.selectAddress svc name hostSet filtering = ""
  ∨ ∃ addr, addr ∈ ls_Addresses svc
      ∧ LLMISvc.candidate name hostSet filtering addr
        = Some (LLMISvc.selectAddress svc name hostSet filtering).
Proof.
  unfold LLMISvc.selectAddress.
  set (urls := omap (LLMISvc.candidate name hostSet filtering) (ls_Addresses svc)).
  assert (∀ u, u ∈ urls → ∃ addr, addr ∈ ls_Addresses svc
    ∧ LLMISvc.candidate name hostSet filtering addr = Some u) as Hin.
  { intros u (addr & ? & ?)%list_elem_of_omap. eauto. }
  destruct (List.filter _ urls) as [|u l] eqn:E.
  - destruct urls as [|u l]; [by left|]. right. apply Hin. by left.
  - right. apply Hin. assert (u ∈ List.filter (λ u, has_prefix u "https://") urls) as H.
    { rewrite E. by left. }
    by apply filter_bool_elem_of in H as [H _].
Qed.

Lemma candidate_on_host svc name hosts addr u :
  addr ∈ ls_Addresses svc →
  LLMISvc.candidate name (list_to_set (ToLower <$> hosts)) true addr = Some u →
  on_host svc hosts u.
Proof.
  unfold LLMISvc.candidate. intros Haddr.
  destruct (ad_Name addr) as [s|]; [|done].
  destruct (ad_URL addr) as [url|] eqn:Hu; [|done].
  destruct (s != name); [done|]. destruct (ToLower (Hostname url) == ""); [done|].
  case_bool_decide as Hin; [|done].
  intros [= <-]. apply elem_of_list_to_set, list_elem_of_fmap in Hin as (host & ? & ?).
  by exists addr, url, host.
Qed.

(** With hosts to match, an endpoint of the service is on one of them. *)
Lemma getEndpoint_on_host svc hosts :
  hosts ≠ [] →
  LLMISvc.getEndpointFromLLMISvc svc hosts = ""
  ∨ on_host svc hosts (LLMISvc.getEndpointFromLLMISvc svc hosts).
Proof.
  intros Hne. unfold LLMISvc.getEndpointFromLLMISvc.
  set (hostSet := list_to_set (ToLower <$> hosts) : gset string).
  assert (bool_decide (hostSet = ∅) = false) as ->.
  { apply bool_decide_eq_false_2. destruct hosts; [done|]. unfold hostSet. cbn. set_solver. }
  cbn [negb].
  destruct (selectAddress_cases svc addressNameGatewayExternalModelRouting hostSet true)
    as [->|(addr & Haddr & Hc)]; cbn [negb].
  - destruct (selectAddress_cases svc addressNameGatewayExternal hostSet true)
      as [->|(addr & Haddr & Hc)]; [by left|].
    rewrite bool_decide_eq_true_2 by done. cbn [negb].
    case_bool_decide; cbn [negb]; [by left|]. right. by eapply candidate_on_host.
  - case_bool_decide as E; cbn [negb]; [|right; by eapply candidate_on_host].
    destruct (selectAddress_cases svc addressNameGatewayExternal hostSet true)
      as [->|(addr' & Haddr' & Hc')]; [by left|].
    case_bool_decide; cbn [negb]; [by left|]. right. by eapply candidate_on_host.
Qed.

(** ** The handlers *)

Section handlers.
Context {api : ApiMachinery} {srv : ApiServer} {lawful : LawfulApiServer} {uni : Unicode}.
Context (r : ModelReconciler).

Lemma read_gateway_host_reads name ns :
  reads (read_gateway_host name ns) (λ c x,
    match x with
    | Ok host => ∃ gw, gateways c !! (ns, name) = Some gw ∧ gateway_host gw = Some host
    | Err e => is_kind_not_implemented e = false ∧
        (unreliable ∨ ∀ gw, gateways c !! (ns, name) = Some gw → gateway_host gw = None)
    end).
Proof.
  unfold read_gateway_host. eapply reads_try; [eapply (reads_in_context _ _ _ (λ c x,
    match x with
    | Ok gw => gateways c !! (ns, name) = Some gw
    | Err e => is_kind_not_implemented e = false ∧
                 (unreliable ∨ gateways c !! (ns, name) = None)
    end)); [apply get_in_reads|done|]| |].
  - intros c [| |msg] H; [split; [done|by right]|done|split; [done|by left]].
  - intros gw. apply reads_ret. intros c Hgw. destruct (gateway_host gw) eqn:E.
    + eauto.
    + split; [done|]. right. intros gw' E'. congruence.
  - intros c e [? [?|H]]; [by auto|]. split; [done|]. right. intros gw E. congruence.
Qed.

(** What only the route tells. *)
Definition routing_only (st st' : MaaSModelStatus) : Prop :=
  ms_Phase st' = ms_Phase st ∧ ms_ResolvedModelAlias st' = ms_ResolvedModelAlias st
  ∧ ms_Conditions st' = ms_Conditions st
  ∧ (ms_Endpoint st' = ms_Endpoint st ∨ ms_Endpoint st' = "").

(** The route serves the model: KServe keeps it for the model's service, or it is
    the route of the external model. *)
Definition serves (c : cluster) (k : key) (model : MaaSModelRef) (rn : string)
    (route : HTTPRoute) : Prop :=
  routes c !! (k.1, rn) = Some route
  ∧ if is_llmisvc (m_Kind (m_Spec model)) then llmisvc_test k.1 model (k.1, rn) route = true
    else external_name c k.1 model rn.

(** The status a backend leaves when its route is as it should be: the route is on
    the Gateway of the model's tenant; for an external model, that Gateway may not
    have accepted it, or there may not be a route. *)
Inductive attached (c : cluster) (k : key) (model : MaaSModelRef) : MaaSModelStatus → Prop :=
  | attached_to rn route t ref :
      serves c k model rn route →
      tenant_of r c k.1 (m_TenantRef (m_Spec model)) route t ref →
      ref ∈ parent_gateways k.1 (rt_parents route) →
      (is_llmisvc (m_Kind (m_Spec model)) = false →
       External.gatewayAccepted k.1 ref route = true) →
      attached c k model (set_gateway (g_Name ref) (g_Namespace ref) (rt_Hostnames route)
        (set_route rn k.1 (set_tenant t (m_Status model))))
  | attached_waiting rn route t ref :
      is_llmisvc (m_Kind (m_Spec model)) = false →
      serves c k model rn route →
      tenant_of r c k.1 (m_TenantRef (m_Spec model)) route t ref →
      ref ∈ parent_gateways k.1 (rt_parents route) →
      External.gatewayAccepted k.1 ref route = false →
      attached c k model (set_route rn k.1 (set_tenant t (m_Status model)))
  | attached_not :
      is_llmisvc (m_Kind (m_Spec model)) = false →
      (∀ rn route, ¬ serves c k model rn route) →
      attached c k model (External.clear_route (m_Status model)).

(** Why a backend that is not at fault refuses: no route, a route that is not on
    the Gateway of the model's tenant, or no external model. *)
Definition unroutable (c : cluster) (k : key) (model : MaaSModelRef) : Prop :=
  (∀ rn route, ¬ serves c k model rn route)
  ∨ (∃ rn route, serves c k model rn route
     ∧ ∀ t ref, tenant_of r c k.1 (m_TenantRef (m_Spec model)) route t ref →
         ref ∉ parent_gateways k.1 (rt_parents route))
  ∨ (is_llmisvc (m_Kind (m_Spec model)) = false
     ∧ external_models c !! (k.1, m_Name (m_Spec model)) = None
     ∧ legacy_external_models c !! (k.1, m_Name (m_Spec model)) = None).

(** What a backend says of the route. *)
Definition route_answer_of (c : cluster) (k : key) (model : MaaSModelRef)
    (x : MaaSModelStatus * result error ()) : Prop :=
  routing_only (m_Status model) x.1
  ∧ match x.2 with
    | Ok _ => attached c k model x.1
    | Err e =>
        is_kind_not_implemented e = false
        ∧ (is_route_not_found e = true →
             is_llmisvc (m_Kind (m_Spec model)) = true
             ∧ ∀ rn route, ¬ serves c k model rn route)
        ∧ (is_tenant_pending e = true →
             ∃ rn route, serves c k model rn route ∧ rt_parents route = []
               ∧ m_TenantRef (m_Spec model) = "")
        ∧ (unreliable ∨ unroutable c k model)
    end.

Lemma tenant_of_unique c ns tenantRef route t ref t' ref' :
  tenant_of r c ns tenantRef route t ref → tenant_of r c ns tenantRef route t' ref' →
  t' = t ∧ ref' = ref.
Proof.
  assert (∀ t ref ref', claims r c t ref → claims r c t ref' → ref' = ref) as Hone.
  { intros ??? (a & ? & <- & _) (a' & ? & <- & _). congruence. }
  unfold tenant_of. destruct (tenantRef != "").
  - intros [-> Hc] [-> Hc']. eauto.
  - intros [[Hp Hc] Hu] [[Hp' Hc'] Hu']. assert (t' = t) as -> by (eapply Hu; by split).
    split; [done|]. by eapply Hone.
Qed.

Lemma routing_set_tenant t st : routing_only st (set_tenant t st).
Proof. split_and!; [done..|by left]. Qed.

(** The Gateway of the route is not that of its tenant. *)
Lemma off_gateway_unroutable c k model rn route t ref :
  serves c k model rn route →
  tenant_of r c k.1 (m_TenantRef (m_Spec model)) route t ref →
  ref ∉ parent_gateways k.1 (rt_parents route) →
  unroutable c k model.
Proof.
  intros Hs Ht Hn. right. left. exists rn, route. split; [done|]. intros t' ref' Ht'.
  by destruct (tenant_of_unique _ _ _ _ _ _ _ _ Ht Ht') as [_ ->].
Qed.

(** The tenant of the route is not known. *)
Lemma no_tenant_answer c k model rn route st e context :
  serves c k model rn route →
  tenant_answer r c (m_Status model) k.1 (m_TenantRef (m_Spec model)) route (st, Err e) →
  route_answer_of c k model (st, Err (In context e)).
Proof.
  intros Hs (He & Hr & Hp & Hst). cbn in Hst. unfold route_answer_of. cbn.
  split; [destruct Hst as [[-> _]|[-> _]]; [apply routing_set_tenant|split_and!; by auto]|].
  rewrite He, Hr. split_and!; [done..| |].
  - intros Hpe. destruct (Hp Hpe). by exists rn, route.
  - destruct Hst as [[_ Hn]|[_ Hu]]; [|by left]. right. right. left.
    exists rn, route. split; [done|]. intros t ref Ht. by apply Hn in Ht.
Qed.

Lemma llmisvc_ReconcileRoute_reads k model :
  is_llmisvc (m_Kind (m_Spec model)) = true →
  reads (LLMISvc.llmisvc_ReconcileRoute r k model) (λ c x, route_answer_of c k model x).
Proof.
  intros Hk. unfold LLMISvc.llmisvc_ReconcileRoute, route_answer_of. cbv zeta.
  eapply reads_then; [apply list_in_reads|].
  assert (routing_only (m_Status model) (m_Status model)) as Hrefl
    by (split_and!; [done..|by left]).
  intros [items|[| |msg]]; [|by apply reads_ret..|].
  2: { apply reads_ret. intros c Hu. cbn. split_and!; [done..|by left]. }
  destruct items as [|[rk route] items].
  { apply reads_ret. intros c Hl. cbn.
    assert (∀ rn route, ¬ serves c k model rn route) as Hno.
    { intros rn route H. unfold serves in H. rewrite Hk in H.
      by apply (listed_elem _ _ _ (k.1, rn) route Hl), elem_of_nil in H. }
    split_and!; [done..|by right; left]. }
  eapply reads_then; [apply resolveGatewayRef_reads; done|]. intros [st x].
  apply reads_ret. intros c Hx Hl.
  assert ((rk, route) ∈ (rk, route) :: items) as [Hrt Ht]%(listed_elem _ _ _ _ _ Hl) by left.
  assert (rk.1 = k.1) as Ens by (unfold llmisvc_test in Ht; cbn in Ht; by destruct_bools).
  destruct rk as [ns rn]. cbn in Ens. subst ns.
  assert (serves c k model rn route) as Hserves by (split; [done|by rewrite Hk]).
  unfold tenant_answer in Hx. destruct x as [ref|e]; cbn in Hx.
  - destruct Hx as (t & -> & Htn).
    pose proof (find_gateway_spec k.1 ref no_gateway (rt_parents route)) as Hf.
    destruct (find_gateway _ _ _ _) as [[|] gw].
    + destruct Hf as [Hf1 Hf2]. rewrite (Hf2 eq_refl). cbn.
      split; [by apply routing_set_tenant|].
      apply attached_to; [done..|by apply Hf1|by rewrite Hk].
    + cbn. split; [by apply routing_set_tenant|]. split_and!; [done..|]. right.
      eapply off_gateway_unroutable; [done..|]. by rewrite <-(proj1 Hf).
  - by eapply no_tenant_answer.
Qed.

Lemma external_name_unique c ns model rn rn' :
  external_name c ns model rn → external_name c ns model rn' → rn = rn'.
Proof.
  unfold external_name. destruct (external_models c !! _); [|congruence].
  intros [? _] [? _]. congruence.
Qed.

(** An error that is none of the sentinels. *)
Definition plain (e : error) : Prop :=
  is_kind_not_implemented e = false ∧ is_route_not_found e = false
  ∧ is_tenant_pending e = false.

Lemma route_name_reads k model :
  reads (External.route_name k model) (λ c x,
    match x with
    | Ok (Some rn) => external_name c k.1 model rn
    | Ok None => ∀ rn, ¬ external_name c k.1 model rn
    | Err e => plain e ∧ (unreliable ∨
        (external_models c !! (k.1, m_Name (m_Spec model)) = None
         ∧ legacy_external_models c !! (k.1, m_Name (m_Spec model)) = None))
    end).
Proof.
  unfold External.route_name, external_name. cbv zeta.
  eapply reads_then; [apply get_in_reads|]. intros [o|[| |msg]].
  - apply reads_ret. intros c Ho. rewrite Ho.
    destruct (found _) as [rn|]; [case_bool_decide as Hn; cbn [negb]|].
    + intros rn' [??]. congruence.
    + done.
    + by intros rn' [??].
  - eapply reads_then; [apply get_in_reads|]. intros [p|[| |msg]]; apply reads_ret;
      intros c Hp Ho; [by rewrite Ho|split; [done|by right]|done|split; [done|by left]].
  - eapply reads_then; [apply get_in_reads|]. intros [p|[| |msg]]; by apply reads_ret.
  - apply reads_ret. intros c Hu. split; [done|by left].
Qed.

Lemma validate_route_reads k model rn route :
  is_llmisvc (m_Kind (m_Spec model)) = false →
  reads (External.validate_route r k model rn route) (λ c x,
    serves c k model rn route → route_answer_of c k model x).
Proof.
  intros Hk. unfold External.validate_route, route_answer_of. cbv zeta.
  eapply reads_then; [apply resolveGatewayRef_reads; done|]. intros [st x].
  apply reads_ret. intros c Hx Hserves.
  unfold tenant_answer in Hx. destruct x as [ref|e]; cbn in Hx.
  - destruct Hx as (t & -> & Htn).
    pose proof (find_gateway_spec k.1 ref no_gateway (rt_parents route)) as Hf.
    destruct (find_gateway _ _ _ _) as [[|] gw]; cbn [negb].
    + destruct Hf as [Hf1 Hf2]. rewrite (Hf2 eq_refl).
      destruct (External.gatewayAccepted k.1 ref route) eqn:Ha; cbn.
      * split; [by apply routing_set_tenant|]. apply attached_to; [done..|by apply Hf1|done].
      * split; [by apply routing_set_tenant|]. eapply attached_waiting; [done..|by apply Hf1|done].
    + cbn. split; [by apply routing_set_tenant|]. split_and!; [done..|]. right.
      eapply off_gateway_unroutable; [done..|]. by rewrite <-(proj1 Hf).
  - by eapply no_tenant_answer.
Qed.

Lemma external_ReconcileRoute_reads k model :
  is_llmisvc (m_Kind (m_Spec model)) = false →
  reads (External.external_ReconcileRoute r k model) (λ c x, route_answer_of c k model x).
Proof.
  intros Hk. unfold External.external_ReconcileRoute.
  assert (∀ c e, plain e → unreliable ∨ unroutable c k model →
    route_answer_of c k model (m_Status model, Err e)) as Hplain.
  { intros c e (H1 & H2 & H3) Hwhy. unfold route_answer_of. cbn. rewrite H1, H2, H3.
    split; [split_and!; [done..|by left]|done]. }
  assert (∀ st, routing_only st (External.clear_route st)) as Hclear
    by (intros st; split_and!; [done..|by right]).
  eapply reads_then; [apply route_name_reads|]. intros [[rn|]|e].
  - eapply reads_then; [apply get_in_reads|]. intros [route|[| |msg]].
    + eapply reads_mono; [by apply validate_route_reads|]. intros c x H Hrt Hn.
      apply H. split; [done|by rewrite Hk].
    + apply reads_ret. intros c Hrt Hn. split; [apply Hclear|]. apply attached_not; [done|].
      intros rn' route [Hrt' Hn']. rewrite Hk in Hn'.
      rewrite (external_name_unique _ _ _ _ _ Hn' Hn) in Hrt'. congruence.
    + by apply reads_ret.
    + apply reads_ret. intros c Hu _. apply Hplain; [done|by left].
  - apply reads_ret. intros c Hn. split; [apply Hclear|]. apply attached_not; [done|].
    intros rn route [_ Hn']. rewrite Hk in Hn'. by apply (Hn rn).
  - apply reads_ret. intros c [He Hwhy]. apply Hplain; [done|].
    destruct Hwhy as [?|[??]]; [by left|]. right. by right; right.
Qed.

(** *** Readiness *)

(** The backend is ready: the service reports it, or the route of the external
    model and its Gateway are recorded. *)
Definition backend_ready (c : cluster) (k : key) (model : MaaSModelRef) : Prop :=
  if is_llmisvc (m_Kind (m_Spec model)) then
    ∃ svc, llmisvcs c !! (k.1, m_Name (m_Spec model)) = Some svc
           ∧ LLMISvc.is_ready svc = true
  else ms_HTTPRouteName (m_Status model) ≠ "" ∧ ms_HTTPRouteGatewayName (m_Status model) ≠ "".

(** An endpoint: an address of the service, or a host of the route or of the
    Gateway. *)
Definition endpoint_of (c : cluster) (k : key) (model : MaaSModelRef) (endpoint : string)
    : Prop :=
  let st := m_Status model in
  let suffix := if is_llmisvc (m_Kind (m_Spec model)) then "/" +:+ k.2 else "" in
  (is_llmisvc (m_Kind (m_Spec model)) = true ∧
   ∃ svc, llmisvcs c !! (k.1, m_Name (m_Spec model)) = Some svc
     ∧ endpoint = LLMISvc.getEndpointFromLLMISvc svc (ms_HTTPRouteHostnames st)
     ∧ endpoint ≠ "")
  ∨ (∃ host, head (ms_HTTPRouteHostnames st) = Some host
       ∧ endpoint = "https://" +:+ host +:+ suffix)
  ∨ (ms_HTTPRouteHostnames st = []
     ∧ ∃ gk gw host, gateways c !! gk = Some gw ∧ gateway_host gw = Some host
       ∧ endpoint = "https://" +:+ host +:+ suffix).

(** What a backend says of its readiness. *)
Definition runtime_answer (c : cluster) (k : key) (model : MaaSModelRef)
    (x : result error (string * bool)) : Prop :=
  match x with
  | Ok (endpoint, ready) =>
      (ready = true ↔ backend_ready c k model)
      ∧ (if ready then endpoint ≠ "" ∧ endpoint_of c k model endpoint else endpoint = "")
  | Err e =>
      is_kind_not_implemented e = false
      ∧ (unreliable
         ∨ (is_llmisvc (m_Kind (m_Spec model)) = true
            ∧ llmisvcs c !! (k.1, m_Name (m_Spec model)) = None)
         ∨ ms_HTTPRouteHostnames (m_Status model) = [])
  end.

Lemma llmisvc_endpoint_reads k model :
  is_llmisvc (m_Kind (m_Spec model)) = true →
  reads (LLMISvc.llmisvc_GetModelEndpoint r k model) (λ c x,
    match x with
    | Ok endpoint => endpoint ≠ "" ∧ endpoint_of c k model endpoint
    | Err e => is_kind_not_implemented e = false
               ∧ ms_HTTPRouteHostnames (m_Status model) = []
    end).
Proof.
  intros Hk. unfold LLMISvc.llmisvc_GetModelEndpoint, endpoint_of. cbv zeta. rewrite Hk.
  destruct (ms_HTTPRouteHostnames (m_Status model)) as [|host hosts].
  - destruct (if _ == "" then _ else _) as [name ns].
    eapply reads_try; [apply read_gateway_host_reads| |by intros c e []].
    intros host. apply reads_ret. intros c (gw & Hgw & Hh). split; [done|].
    right. right. split; [done|]. by exists (ns, name), gw, host.
  - apply reads_ret. intros c. split; [done|]. right. left. by exists host.
Qed.

Lemma llmisvc_Status_reads k model :
  is_llmisvc (m_Kind (m_Spec model)) = true →
  reads (LLMISvc.llmisvc_Status r k model) (λ c x, runtime_answer c k model x).
Proof.
  intros Hk. unfold LLMISvc.llmisvc_Status, runtime_answer. cbv zeta.
  eapply reads_then; [apply get_in_reads|].
  intros [svc|[| |msg]]; [|apply reads_ret; intros c H; split; auto..]; [|done].
  assert (∀ c, llmisvcs c !! (k.1, m_Name (m_Spec model)) = Some svc →
    LLMISvc.is_ready svc = true ↔ backend_ready c k model) as Hready.
  { intros c Hs. unfold backend_ready. rewrite Hk. split; [eauto|].
    intros (svc' & ? & ?). congruence. }
  destruct (LLMISvc.is_ready svc) eqn:Er; cbn [negb].
  2: { apply reads_ret. intros c Hs. by rewrite <-(Hready c Hs). }
  case_bool_decide as Hep.
  - eapply reads_try; [by apply llmisvc_endpoint_reads| |].
    + intros ep. apply reads_ret. intros c [??] Hs. by rewrite <-(Hready c Hs).
    + intros c e [??] _. auto.
  - apply reads_ret. intros c Hs. rewrite <-(Hready c Hs). split; [done|].
    split; [done|]. left. split; [done|]. eauto.
Qed.

Lemma external_Status_reads k model :
  is_llmisvc (m_Kind (m_Spec model)) = false →
  reads (External.external_Status r k model) (λ c x, runtime_answer c k model x).
Proof.
  intros Hk. unfold External.external_Status, runtime_answer, backend_ready. cbv zeta. rewrite Hk.
  destruct (_ || _) eqn:Hn.
  { apply reads_ret. intros c. split; [|done]. split; [done|].
    intros [? ?]. apply orb_true_iff in Hn as [Hn|Hn]; by destruct_bools. }
  unfold External.external_GetModelEndpoint, endpoint_of. rewrite Hk.
  eapply (reads_try _ _ (λ c x,
    match x with
    | Ok endpoint => endpoint ≠ "" ∧ endpoint_of c k model endpoint
    | Err e => is_kind_not_implemented e = false
               ∧ ms_HTTPRouteHostnames (m_Status model) = []
    end)); [| |by intros c e [??]; auto].
  - unfold endpoint_of. cbv zeta. rewrite Hk.
    destruct (ms_HTTPRouteHostnames (m_Status model)) as [|host hosts].
    + eapply reads_try; [apply read_gateway_host_reads| |by intros c e []].
      intros host. apply reads_ret. intros c (gw & Hgw & Hh). split; [done|].
      right. right. split; [done|]. eexists _, gw, host. rewrite app_nil_r_str. done.
    + apply reads_ret. intros c. split; [done|]. right. left. exists host.
      by rewrite app_nil_r_str.
  - intros ep. apply reads_ret. intros c [? Hep]. unfold endpoint_of in Hep.
    cbv zeta in Hep. rewrite Hk in Hep. split; [|done]. destruct_bools. done.
Qed.

(** *** Names in requests *)

(** What a backend says of the model's name in requests; empty when there is none
    yet. *)
Definition alias_answer (c : cluster) (k : key) (model : MaaSModelRef)
    (x : result error string) : Prop :=
  match x with
  | Ok alias =>
      if is_llmisvc (m_Kind (m_Spec model)) then
        ∃ svc, llmisvcs c !! (k.1, m_Name (m_Spec model)) = Some svc
               ∧ alias = LLMISvc.first_model (ls_Addresses svc)
      else alias = m_Name (m_Spec model)
  | Err _ => True
  end.

(** ** By kind *)

Lemma GetBackendHandler_cases kind handler :
  GetBackendHandler r kind = Some handler →
  (is_llmisvc kind = true ∧ handler = llmisvcHandler r)
  ∨ (is_llmisvc kind = false ∧ kind = "ExternalModel" ∧ handler = externalModelHandler r).
Proof.
  unfold GetBackendHandler, is_llmisvc. destruct (_ || _); [intros [= <-]; by left|].
  case_bool_decide; [|done]. intros [= <-]. by right.
Qed.

Lemma ReconcileRoute_reads handler k model :
  GetBackendHandler r (m_Kind (m_Spec model)) = Some handler →
  reads (ReconcileRoute handler k model) (λ c x, route_answer_of c k model x).
Proof.
  intros [[Hk ->]|(Hk & _ & ->)]%GetBackendHandler_cases; cbn.
  - by apply llmisvc_ReconcileRoute_reads.
  - by apply external_ReconcileRoute_reads.
Qed.

Lemma Status_reads handler k model :
  GetBackendHandler r (m_Kind (m_Spec model)) = Some handler →
  reads (Status handler k model) (λ c x, runtime_answer c k model x).
Proof.
  intros [[Hk ->]|(Hk & _ & ->)]%GetBackendHandler_cases; cbn.
  - by apply llmisvc_Status_reads.
  - by apply external_Status_reads.
Qed.

Lemma ResolveModelAlias_reads handler k model :
  GetBackendHandler r (m_Kind (m_Spec model)) = Some handler →
  reads (ResolveModelAlias handler k model) (λ c x, alias_answer c k model x).
Proof.
  intros [[Hk ->]|(Hk & _ & ->)]%GetBackendHandler_cases; cbn.
  - unfold LLMISvc.llmisvc_ResolveModelAlias, alias_answer. rewrite Hk.
    eapply reads_then; [apply get_in_reads|].
    intros [svc|e]; apply reads_ret; intros c Hs; [eauto|done].
  - unfold External.external_ResolveModelAlias, alias_answer. rewrite Hk. by apply reads_ret.
Qed.
End handlers.
