(* ===== verification/SubscriptionPolicies.v ===== *)
(** The effect of the subscription controller on the policies of the cluster. *)
From S2P Require Import Prelude GoStrings Sorting Unstructured Runtime.
From S2P Require Import MaasTypes TokenLimits Cluster ControllerHelpers.
From S2P Require Import SubscriptionController ControllerFacts.
Import V1 Limits Cluster Helpers SubController.

(** ** Effects on policies *)

(** Nothing but policies changes. *)
Definition only_policies (c c' : cluster) : Prop :=
  c' = set_policies (λ _, policies c') c.

#[global] Instance only_policies_refl : Reflexive only_policies.
Proof. by intros []. Qed.
#[global] Instance only_policies_trans : Transitive only_policies.
Proof. unfold only_policies. intros c1 c2 c3 E1 E2. rewrite E2, E1. done. Qed.

Lemma only_policies_set f c : only_policies c (set_policies f c).
Proof. done. Qed.

(** Some of the policies that pass a test go, and nothing else happens. *)
Definition deletes (P : Trlp → bool) (c c' : cluster) : Prop :=
  only_policies c c' ∧
  ∀ k, policies c' !! k = policies c !! k
       ∨ (policies c' !! k = None ∧ ∃ t, policies c !! k = Some t ∧ P t = true).

(** All of them go. *)
Definition deletes_all (P : Trlp → bool) (c c' : cluster) : Prop :=
  deletes P c c' ∧ ∀ k t, policies c' !! k = Some t → P t = false.

#[global] Instance deletes_refl P : Reflexive (deletes P).
Proof. intros c. split; [done|]. by left. Qed.
#[global] Instance deletes_trans P : Transitive (deletes P).
Proof.
  intros c1 c2 c3 [O1 H1] [O2 H2]. split; [by etrans|]. intros k.
  destruct (H2 k) as [->|(-> & t & E & Pt)]; [done|]. right. split; [done|].
  destruct (H1 k) as [E'|[E' _]]; [|congruence].
  exists t. by rewrite <-E'.
Qed.

Lemma deletes_mono (P Q : Trlp → bool) c c' :
  (∀ t, P t = true → Q t = true) → deletes P c c' → deletes Q c c'.
Proof.
  intros HPQ [O H]. split; [done|]. intros k.
  destruct (H k) as [|(? & t & ? & ?)]; [by left|]. right. eauto.
Qed.

(** What a deletion leaves was there before. *)
Lemma deletes_lookup P c c' k t :
  deletes P c c' → policies c' !! k = Some t → policies c !! k = Some t.
Proof. intros [_ H] E. destruct (H k) as [<-|[? _]]; congruence. Qed.

(** A policy of the controller for a model. *)
Definition model_policy (ns name : string) (t : Trlp) : bool :=
  has_label t label_model name && has_label t label_model_namespace ns
  && has_label t label_managed_by "maas-controller"
  && has_label t label_part_of "maas-subscription".

Definition managed (t : Trlp) : bool := isManaged (t_annotations t).

(** What reconciling a model may do: delete policies of the model, or write one
    that is not opted out. *)
Inductive trlp_effect (ns name : string) (c c' : cluster) : Prop :=
  | effect_deletes :
      deletes (λ t, model_policy ns name t && managed t) c c' →
      trlp_effect ns name c c'
  | effect_writes t :
      c' = set_policies <[(ns, policyName name) := t]> c →
      (∀ old, policies c !! (ns, policyName name) = Some old → managed old = true) →
      t_annotations t !! AnnotationManaged =
        (policies c !! (ns, policyName name) ≫= λ old,
           t_annotations old !! AnnotationManaged) →
      policy_labels ns name ⊆ t_labels t →
      trlp_effect ns name c c'.

Lemma trlp_effect_refl ns name c : trlp_effect ns name c c.
Proof. by apply effect_deletes. Qed.

Lemma trlp_effect_only ns name c c' :
  trlp_effect ns name c c' → only_policies c c'.
Proof. intros [[? _]|t -> _ _ _]; [done|apply only_policies_set]. Qed.

(** Opted-out policies stay as they are. *)
Definition keeps_opted_out (c c' : cluster) : Prop :=
  ∀ k t, policies c !! k = Some t → managed t = false → policies c' !! k = Some t.

#[global] Instance keeps_opted_out_refl : Reflexive keeps_opted_out.
Proof. by intros c k t. Qed.
#[global] Instance keeps_opted_out_trans : Transitive keeps_opted_out.
Proof. intros c1 c2 c3 H1 H2 k t ??. eauto. Qed.

Lemma deletes_keeps P c c' :
  (∀ t, P t = true → managed t = true) → deletes P c c' → keeps_opted_out c c'.
Proof.
  intros HP [_ H] k t E Hm. destruct (H k) as [->|(_ & t' & E' & Pt)]; [done|].
  apply HP in Pt. congruence.
Qed.

Lemma trlp_effect_keeps ns name c c' :
  trlp_effect ns name c c' → keeps_opted_out c c'.
Proof.
  intros [H|t -> Hold _ _].
  - eapply deletes_keeps, H. intros t Ht. by apply andb_true_iff in Ht as [_ ?].
  - intros k t' E Hm. cbn. destruct (decide (k = (ns, policyName name))) as [->|Hne].
    + apply Hold in E. congruence.
    + by rewrite lookup_insert_ne.
Qed.

Section effects.
Context {api : ApiMachinery} {srv : ApiServer} {lawful : LawfulApiServer}.
Context (r : Reconciler).

(** ** Deleting *)

Lemma delete_policy_run k w :
  deletes (λ _, true) (state w) (state (delete_policy k w).2)
  ∧ (∀ k', k' ≠ k →
       policies (state (delete_policy k w).2) !! k' = policies (state w) !! k')
  ∧ match (delete_policy k w).1 with
    | Ok _ | Err NotFound => policies (state (delete_policy k w).2) !! k = None
    | Err _ => True
    end.
Proof.
  unfold delete_policy, write, mbind, prog_bind, get, tick, put. simpl.
  destruct (api_fault (ticks w)) as [[e [|]]|] eqn:F; simpl.
  - destruct (api_fault_failure _ _ _ F) as [msg ->].
    destruct (policies (state w) !! k) as [t|] eqn:E; simpl; [|done].
    split_and!; [split; [done|]|..]; simpl.
    + intros k'. destruct (decide (k' = k)) as [->|].
      * right. rewrite lookup_delete_eq. eauto.
      * left. by rewrite lookup_delete_ne.
    + intros. by rewrite lookup_delete_ne.
    + done.
  - destruct (api_fault_failure _ _ _ F) as [msg ->]. done.
  - destruct (policies (state w) !! k) as [t|] eqn:E; simpl; [|done].
    split_and!; [split; [done|]|..]; simpl.
    + intros k'. destruct (decide (k' = k)) as [->|].
      * right. rewrite lookup_delete_eq. eauto.
      * left. by rewrite lookup_delete_ne.
    + intros. by rewrite lookup_delete_ne.
    + by rewrite lookup_delete_eq.
Qed.

(** The items are policies of the cluster, or are gone. *)
Definition listed_in (items : list (key * Trlp)) (c : cluster) : Prop :=
  ∀ k t, (k, t) ∈ items → policies c !! k = Some t ∨ policies c !! k = None.

Lemma deletes_listed_in P items c c' :
  deletes P c c' → listed_in items c → listed_in items c'.
Proof.
  intros [_ H] Hl k t Ht. destruct (H k) as [->|[-> _]]; [|by right]. by apply Hl.
Qed.

Lemma delete_managed_run P items w :
  listed_in items (state w) →
  (∀ k t, (k, t) ∈ items → P t = true) →
  deletes (λ t, P t && managed t) (state w) (state (delete_managed items w).2)
  ∧ ((delete_managed items w).1 = Ok () →
     ∀ k t, (k, t) ∈ items → managed t = true →
       policies (state (delete_managed items w).2) !! k = None).
Proof.
  revert w. induction items as [|[k t] items IH]; intros w Hl HP.
  { split; [done|]. intros _ k t []%not_elem_of_nil. }
  assert (listed_in items (state w)) as Hl' by (intros k' t' ?; apply Hl; by right).
  assert (∀ k' t', (k', t') ∈ items → P t' = true) as HP'
    by (intros k' t' ?; eapply HP; by right).
  cbn [delete_managed]. destruct (isManaged (t_annotations t)) eqn:Hm; simpl.
  2: { destruct (IH w Hl' HP') as [IH1 IH2]. split; [done|].
       intros Hok k' t' [[= -> ->]|Ht]%elem_of_cons Hm'.
       - unfold managed in Hm'. congruence.
       - by eapply IH2. }
  rewrite bind_run. destruct (delete_policy_run k w) as (Hd & Hne & Hk).
  set (w1 := (delete_policy k w).2) in *.
  assert (deletes (λ t, P t && managed t) (state w) (state w1)) as Hd'.
  { destruct Hd as [O _]. split; [done|]. intros k'.
    destruct (decide (k' = k)) as [->|]; [|left; by apply Hne].
    destruct (policies (state w1) !! k) as [t1|] eqn:E1.
    - left. symmetry. destruct (delete_policy_run k w) as (Hd & _ & _).
      by eapply deletes_lookup.
    - destruct (Hl k t ltac:(left)) as [E|E]; [|by left].
      right. split; [done|]. exists t. split; [done|].
      unfold managed. rewrite Hm, (HP k t ltac:(left)). done. }
  destruct (IH w1) as [IH1 IH2]; [by eapply deletes_listed_in|done|].
  assert (policies (state w1) !! k = None →
    deletes (λ t, P t && managed t) (state w) (state (delete_managed items w1).2)
    ∧ ((delete_managed items w1).1 = Ok () → ∀ k' t', (k', t') ∈ (k, t) :: items →
       managed t' = true → policies (state (delete_managed items w1).2) !! k' = None))
    as Hgo.
  { intros Hnone. split; [by etrans|].
    intros Hok k' t' [[= -> ->]|Ht]%elem_of_cons Hm'; [|by eapply IH2].
    destruct IH1 as [_ IH1]. destruct (IH1 k) as [->|[-> _]]; done. }
  clearbody w1. destruct (delete_policy k w).1 as [[]|[| |msg]]; cbn in *;
    unfold mret, prog_ret; auto; by split.
Qed.

Lemma list_policies_reads test :
  reads (list_policies test) (λ c x,
    match x with
    | Ok l => l ≡ₚ List.filter (λ kt : key * Trlp, test kt.2) (map_to_list (policies c))
    | Err _ => unreliable
    end).
Proof.
  unfold list_policies. eapply reads_then; [apply list_in_reads|].
  intros [l|[| |msg]]; by apply reads_ret.
Qed.

Lemma deleteModelTRLP_run ns name w :
  deletes (λ t, model_policy ns name t && managed t) (state w)
    (state (deleteModelTRLP ns name w).2)
  ∧ ((deleteModelTRLP ns name w).1 = Ok () →
     deletes_all (λ t, model_policy ns name t && managed t) (state w)
       (state (deleteModelTRLP ns name w).2)).
Proof.
  unfold deleteModelTRLP. rewrite run_try.
  fold (model_policy ns name).
  match goal with |- context [list_policies ?test w] =>
    destruct (list_policies_reads test w) as [E Hl];
    destruct (list_policies test w).1 as [items|e]; [|simpl; rewrite E; done];
    set (w1 := (list_policies test w).2) in *
  end.
  assert (∀ k t, (k, t) ∈ items ↔
    policies (state w) !! k = Some t ∧ model_policy ns name t = true) as Hitems.
  { intros k t. by apply (listed_elem _ _ _ _ _ Hl). }
  destruct (delete_managed_run (model_policy ns name) items w1) as [H1 H2].
  { intros k t Ht. left. rewrite E. by apply Hitems. }
  { intros k t Ht. by apply Hitems in Ht as [_ ?]. }
  rewrite E in H1. split; [done|]. intros Hok. split; [done|].
  intros k t Ht. apply not_true_iff_false. intros [Hp Hm]%andb_true_iff.
  rewrite (H2 Hok k t) in Ht; [done| |done]. apply Hitems.
  split; [|done]. by eapply deletes_lookup.
Qed.
End effects.
