(* ===== verification/SubscriptionModelFacts.v ===== *)
(** What reconciling the policy of one model does. *)
From S2P Require Import Prelude GoStrings Sorting Unstructured Runtime.
From S2P Require Import MaasTypes TokenLimits Cluster ControllerHelpers.
From S2P Require Import SubscriptionController ControllerFacts.
From S2P Require Import SubscriptionPolicies.
Import V1 Limits Cluster Helpers SubController.

Section facts.
Context {api : ApiMachinery} {srv : ApiServer} {lawful : LawfulApiServer}.
Context (r : Reconciler).

Lemma opted_in_reads k :
  reads (opted_in k) (λ c x,
    match x with
    | Ok b => b = match policies c !! k with Some t => managed t | None => true end
    | Err _ => unreliable
    end).
Proof.
  unfold opted_in. eapply reads_then; [apply get_in_reads|].
  intros [t|[| |msg]]; apply reads_ret; intros c E; simpl in *; try done; by rewrite E.
Qed.

(** A policy holds what was asked for. *)
Definition up_to_date (t pol : Trlp) : Prop :=
  t_spec t = t_spec pol ∧ t_labels pol ⊆ t_labels t
  ∧ t_annotations pol ⊆ t_annotations t.

(** The policy is written, or stays because it is up to date or opted out, or
    because of an error. *)
Definition applied (k : key) (pol : Trlp) (c c' : cluster) (ok : bool) : Prop :=
  (c' = c ∧ (ok = true →
     ∃ t, policies c !! k = Some t ∧ (managed t = false ∨ up_to_date t pol)))
  ∨ ∃ t, c' = set_policies <[k := t]> c
       ∧ (∀ old, policies c !! k = Some old → managed old = true)
       ∧ t_annotations t !! AnnotationManaged =
           (policies c !! k ≫= λ old, t_annotations old !! AnnotationManaged)
       ∧ up_to_date t pol.

(** A write under a context that may have taken effect. *)
Lemma in_context_write {S} context (f : S → result api_error S) w :
  let out := in_context context (write f) w in
  (state out.2 = state w ∧ is_ok out.1 = false) ∨ f (state w) = Ok (state out.2).
Proof.
  simpl. destruct (in_context_run context (write f) w) as [-> ->].
  destruct (write_run f w) as [[-> Hne]|E]; [left|by right].
  split; [done|]. destruct (write f w).1 as [[]|e]; done.
Qed.

Lemma apply_policy_run k route pol w :
  t_annotations pol !! AnnotationManaged = None →
  applied k pol (state w) (state (apply_policy k route pol w).2)
    (is_ok (apply_policy k route pol w).1).
Proof.
  intros Hpol. unfold apply_policy.
  destruct (set_controller None route) as [owner|e]; [|by left].
  rewrite bind_run. destruct (get_in_reads policies k w) as [E HQ].
  set (w1 := (get_in policies k w).2) in *.
  destruct (get_in policies k w).1 as [ex|[| |msg]]; [| |done|by left].
  - destruct (negb (isManaged (t_annotations ex))) eqn:Hm.
    { left. rewrite <-E. split; [done|]. intros _. rewrite E. exists ex.
      split; [done|]. left. unfold managed. by destruct (isManaged _). }
    destruct (set_controller (t_owner ex) route) as [owner'|e]; [|by left; rewrite <-E].
    case_match eqn:Hsame.
    + destruct_bools. left. rewrite <-E. split; [done|]. intros _. rewrite E.
      exists ex. split; [done|]. right. split; [done|].
      split; [replace (t_labels ex) with (t_labels pol ∪ t_labels ex)
             |replace (t_annotations ex) with (t_annotations pol ∪ t_annotations ex)];
        apply map_union_subseteq_l.
    + clear Hsame. match goal with |- context [update_policy k ?t] => set (t' := t) end.
      destruct (in_context_write "failed to update TokenRateLimitPolicy"
        (λ c, match policies c !! k with
              | Some _ => Ok (set_policies <[k := t']> c)
              | None => Err NotFound
              end) w1) as [[Hs Ho]|Hw].
      { left. unfold update_policy. by rewrite Hs, Ho, E. }
      right. exists t'. unfold update_policy. rewrite E, HQ in Hw.
      injection Hw as Hw. rewrite <-Hw. split; [done|]. split; [|split].
      * intros old. rewrite HQ. intros [= <-]. unfold managed. by destruct (isManaged _).
      * rewrite HQ. simpl. by rewrite lookup_union_r.
      * split; [done|]. split; apply map_union_subseteq_l.
  - match goal with |- context [create_policy k ?t] => set (t' := t) end.
    destruct (in_context_write "failed to create TokenRateLimitPolicy"
      (λ c, match policies c !! k with
            | Some _ => Err (Failure "already exists")
            | None => Ok (set_policies <[k := t']> c)
            end) w1) as [[Hs Ho]|Hw].
    { left. unfold create_policy. by rewrite Hs, Ho, E. }
    right. exists t'. unfold create_policy. rewrite E, HQ in Hw.
    injection Hw as Hw. rewrite <-Hw. split; [done|]. rewrite HQ. by split_and!.
Qed.

(** ** Gateways *)

(** The gateway of a tenant's namespace: the one of its AITenant, the one of its
    legacy Tenant, or the default. *)
Definition platform_context (c : cluster) (m : TenantMeta) (legacy : option LegacyTenant)
    : option PlatformContext :=
  if at_key (tn_labels m) LabelManagedByAITenant == "true" then
    t ← aitenants c !! (at_key (tn_annotations m) AnnotationAITenantNamespace,
                        at_key (tn_annotations m) AnnotationAITenantName);
    let ref := ai_GatewayRef t in
    if (g_Name ref == "") || (g_Namespace ref == "") then None
    else Some (mkPlatform ref (ai_OIDC t))
  else
    match legacy with
    | Some t =>
        let ref := lt_GatewayRef t in
        if (g_Name ref == "") && (g_Namespace ref == "")
        then Some (mkPlatform (fallbackTenantGatewayRef r) (lt_ExternalOIDC t))
        else if (g_Name ref == "") || (g_Namespace ref == "") then None
        else Some (mkPlatform ref (lt_ExternalOIDC t))
    | None => Some (mkPlatform (fallbackTenantGatewayRef r) None)
    end.
(** The configuration of a tenant's namespace. *)
Definition tenant_of (c : cluster) (ns : string)
    : option (TenantMeta * option LegacyTenant) :=
  match tenant_configs c !! ns with
  | Some m => Some (m, None)
  | None => (λ t, (lt_meta t, Some t)) <$> legacy_tenants c !! ns
  end.
Definition tenant_context (c : cluster) (ns : string) : option PlatformContext :=
  match tenant_of c ns with
  | Some (m, legacy) => platform_context c m legacy
  | None => Some (mkPlatform (fallbackTenantGatewayRef r) None)
  end.
Definition tenant_gateway (c : cluster) (ns : string) : option GatewayRef :=
  pc_GatewayRef <$> tenant_context c ns.

Lemma fetchTenant_reads ns :
  reads (fetchTenantForNamespace ns) (λ c x,
    match x with
    | Ok t => tenant_of c ns = Some t
    | Err NotFound => tenant_of c ns = None
    | Err NoMatch => False
    | Err (Failure _) => unreliable
    end).
Proof.
  unfold fetchTenantForNamespace, tenant_of. eapply reads_then; [apply get_in_reads|].
  intros [m|[| |msg]].
  - apply reads_ret. by intros c ->.
  - eapply reads_then; [apply get_in_reads|].
    intros [t|[| |msg]]; apply reads_ret; intros c H H'; rewrite ?H'; simpl;
      rewrite ?H; done.
  - by apply reads_ret.
  - by apply reads_ret.
Qed.

Lemma platform_reads m legacy :
  reads (ResolvePlatformContext r m legacy) (λ c x,
    ∀ p, x = Ok p → platform_context c m legacy = Some p).
Proof.
  unfold ResolvePlatformContext, resolveAITenantPlatformContext, platform_context.
  destruct (at_key (tn_labels m) LabelManagedByAITenant == "true").
  - repeat (case_match; [by apply reads_ret|]).
    eapply reads_try; [by apply (reads_in_context _ _ _ (λ c x, match x with
        | Ok t => aitenants c !! (at_key (tn_annotations m) AnnotationAITenantNamespace,
            at_key (tn_annotations m) AnnotationAITenantName) = Some t
        | Err _ => True end)
        (get_in_reads _ _))| |done].
    intros t. case_match eqn:E; [by apply reads_ret|].
    apply reads_ret. intros c Hc p [= <-]. rewrite Hc. simpl. by rewrite E.
  - destruct legacy as [t|]; [|apply reads_ret; by intros c ? [= <-]].
    repeat case_match; apply reads_ret; by intros c ? [= <-].
Qed.

Lemma tenantGateway_reads ns :
  reads (tenantGatewayRefForNamespace r ns) (λ c x,
    ∀ ref, x = Ok ref → tenant_gateway c ns = Some ref).
Proof.
  unfold tenantGatewayRefForNamespace, tenant_gateway, tenant_context.
  eapply reads_then; [apply fetchTenant_reads|].
  intros [[m legacy]|[| |msg]]; try by apply reads_ret.
  - eapply reads_try; [apply platform_reads| |done].
    intros p. apply reads_ret. intros c Hp -> ? [= <-]. by rewrite (Hp p).
  - case_match; [apply reads_ret; by intros c -> ? [= <-]|].
    eapply reads_try; [apply tenantNamespaceAllowed_reads| |done].
    intros b. case_match; apply reads_ret; [|done]. by intros c _ -> ? [= <-].
Qed.

(** The route is attached to a gateway, or the gateway is not configured. *)
Definition attached (c : cluster) (routeName routeNS : string) (ref : GatewayRef) : Prop :=
  (g_Name ref = "" ∧ g_Namespace ref = "")
  ∨ ∃ route, routes c !! (routeNS, routeName) = Some route
    ∧ ∃ p, p ∈ rt_parents route ∧ parentRefTargetsGateway p = true
      ∧ p_Name p = g_Name ref ∧ default routeNS (p_Namespace p) = g_Namespace ref.

Lemma validateRoute_reads routeName routeNS ref :
  reads (validateHTTPRouteReferencesGateway routeName routeNS ref) (λ c x,
    x = Ok () → attached c routeName routeNS ref).
Proof.
  unfold validateHTTPRouteReferencesGateway.
  destruct (g_Name ref == "") eqn:E1, (g_Namespace ref == "") eqn:E2; simpl;
    destruct_bools; try by apply reads_ret.
  { apply reads_ret. intros c _. by left. }
  eapply reads_try.
  { apply (reads_in_context _ _ _ (λ c x, match x with
      | Ok rt => routes c !! (routeNS, routeName) = Some rt | Err _ => True end)
      (get_in_reads _ _)); done. }
  2: done.
  intros rt. case_match; [by apply reads_ret|]. case_match eqn:Hex; [|by apply reads_ret].
  apply reads_ret. intros c Hrt _. right. exists rt. split; [done|].
  apply existsb_elem_of in Hex as (p & Hp & Ht). destruct_bools. eauto.
Qed.

(** A route gets a policy only if it is attached to the gateways of all the
    tenants that subscribe; gateways are told apart by their qualified names. *)
Definition gateway_key (ref : GatewayRef) : string :=
  qualifiedName (g_Namespace ref) (g_Name ref).
Definition attached_key (c : cluster) (routeName routeNS k : string) : Prop :=
  ∃ ref, gateway_key ref = k ∧ attached c routeName routeNS ref.
Definition attached_all (c : cluster) (routeName routeNS : string)
    (subs : list MaaSSubscription) : Prop :=
  ∀ s, s ∈ subs → ∃ ref, tenant_gateway c (Namespace s) = Some ref
                         ∧ attached_key c routeName routeNS (gateway_key ref).

Lemma validate_gateways_reads routeName routeNS tenants gateways subs :
  reads (validate_gateways r routeName routeNS tenants gateways subs) (λ c x,
    x = Ok () →
    (∀ ns, ns ∈ tenants → ∃ ref, tenant_gateway c ns = Some ref
       ∧ attached_key c routeName routeNS (gateway_key ref)) →
    (∀ k, k ∈ gateways → attached_key c routeName routeNS k) →
    attached_all c routeName routeNS subs).
Proof.
  revert tenants gateways. induction subs as [|s subs IH]; intros tenants gateways.
  { apply reads_ret. intros c _ _ _ s []%not_elem_of_nil. }
  cbn [validate_gateways]. case_match eqn:Hseen.
  { eapply reads_mono; [apply IH|]. intros c x H Hok Ht Hg s' [->|Hs]%elem_of_cons.
    - apply contains_true in Hseen. by apply Ht.
    - by apply (H Hok Ht Hg). }
  eapply reads_try; [apply tenantGateway_reads| |done].
  intros ref. fold (gateway_key ref). case_match eqn:Hg'.
  - eapply reads_mono; [apply IH|]. intros c x H Href Hok Ht Hg.
    apply contains_true in Hg'.
    assert (∀ ns, ns ∈ Namespace s :: tenants → ∃ ref, tenant_gateway c ns = Some ref
       ∧ attached_key c routeName routeNS (gateway_key ref)) as Ht'.
    { intros ns [->|]%elem_of_cons; [|auto]. eauto. }
    intros s' [->|Hs]%elem_of_cons; [apply Ht'; left|by apply (H Hok Ht' Hg)].
  - eapply reads_then; [apply validateRoute_reads|].
    intros [[]|e]; [|by apply reads_ret].
    eapply reads_mono; [apply IH|]. intros c x H Hatt Href Hok Ht Hg.
    assert (attached_key c routeName routeNS (gateway_key ref)) as Hkey
      by (exists ref; eauto).
    assert (∀ ns, ns ∈ Namespace s :: tenants → ∃ ref, tenant_gateway c ns = Some ref
       ∧ attached_key c routeName routeNS (gateway_key ref)) as Ht'.
    { intros ns [->|]%elem_of_cons; [|auto]. eauto. }
    assert (∀ k, k ∈ gateway_key ref :: gateways →
      attached_key c routeName routeNS k) as Hg2.
    { intros k [->|]%elem_of_cons; auto. }
    intros s' [->|Hs]%elem_of_cons; [apply Ht'; left|by apply (H Hok Ht' Hg2)].
Qed.

Lemma validateGateways_reads subs routeName routeNS :
  reads (validateSubscriptionTenantGatewaysForRoute r subs routeName routeNS)
    (λ c x, x = Ok () → attached_all c routeName routeNS subs).
Proof.
  eapply reads_mono; [apply validate_gateways_reads|]. intros c x H Hok.
  apply (H Hok); by intros ? []%not_elem_of_nil.
Qed.

(** ** One model *)

Definition model_key_of (ns name : string) : string := ns +:+ "/" +:+ name.

(** The contributions to the policy of a model: those of the live subscriptions
    of tenant namespaces, when their limits are valid. *)
Definition wanted (c : cluster) (ns name : string) : list subInfo :=
  omap (λ sub, contribution ns name sub (ModelRefs (Spec sub)))
    (allowed_subs r c (live_subs c (model_key_of ns name))).

(** The contributions found: all of them, unless a call fails. *)
Definition gathers (c : cluster) (ns name : string) (subs : list subInfo) : Prop :=
  (∀ si, si ∈ subs → si ∈ wanted c ns name)
  ∧ (¬ unreliable → subs ≡ₚ wanted c ns name).

Definition trlp_key (ns name : string) : key := (ns, policyName name).

Inductive trlp_outcome (ns name : string) (c c' : cluster) : Prop :=
  | outcome_gone :
      ¬ model_live c (ns, name) ∨ gathers c ns name [] →
      deletes_all (λ t, model_policy ns name t && managed t) c c' →
      trlp_outcome ns name c c'
  | outcome_waiting :
      model_live c (ns, name) → (∀ rn, ¬ routable c (ns, name) rn) → c' = c →
      trlp_outcome ns name c c'
  | outcome_opted_out t routeName :
      routable c (ns, name) routeName →
      policies c !! trlp_key ns name = Some t → managed t = false → c' = c →
      trlp_outcome ns name c c'
  | outcome_current subs t routeName :
      routable c (ns, name) routeName →
      gathers c ns name subs → subs ≠ [] →
      policies c' !! trlp_key ns name = Some t →
      t_spec t = mkTrlpSpec routeName (limitsMap subs) →
      policy_labels ns name ⊆ t_labels t →
      policy_annotations subs ⊆ t_annotations t →
      (∀ s, s ∈ si_sub <$> subs → ∃ ref, tenant_gateway c (Namespace s) = Some ref
         ∧ attached_key c routeName ns (gateway_key ref)) →
      trlp_outcome ns name c c'.

Lemma omap_gathers c ns name all l :
  all ≡ₚ live_subs c (model_key_of ns name) →
  (∀ s, s ∈ l → s ∈ all ∧ ns_allowed r c (Namespace s) = true) →
  (¬ unreliable → l = allowed_subs r c all) →
  gathers c ns name (omap (λ sub, contribution ns name sub (ModelRefs (Spec sub))) l).
Proof.
  intros Hall Hin Hrel. split.
  - intros si. unfold wanted. rewrite !list_elem_of_omap. intros (s & Hs & E).
    exists s. split; [|done]. destruct (Hin s Hs) as [Hs' Ha].
    unfold allowed_subs. rewrite filter_bool_elem_of. by rewrite <-Hall.
  - intros Hr. rewrite (Hrel Hr). unfold wanted. apply omap_Permutation.
    by apply filter_bool_perm.
Qed.

Lemma contribution_Some ns name sub refs si :
  contribution ns name sub refs = Some si →
  si_sub si = sub ∧ si_ref si ∈ refs ∧ ref_Namespace (si_ref si) = ns
  ∧ ref_Name (si_ref si) = name ∧ rates_of (si_ref si) = Some (si_rates si).
Proof.
  induction refs as [|ref refs IH]; simpl; [done|].
  destruct (_ || _) eqn:E; [|destruct (rates_of ref) eqn:Er].
  - intros H. destruct (IH H) as (?&?&?&?&?). split_and!; try done. by right.
  - intros [= <-]. destruct_bools. simpl. split_and!; try done. left.
  - intros H. destruct (IH H) as (?&?&?&?&?). split_and!; try done. by right.
Qed.

Lemma policy_annotations_managed subs :
  policy_annotations subs !! AnnotationManaged = None.
Proof. unfold policy_annotations. by rewrite lookup_singleton_ne. Qed.

(** The effect, whatever fails, and the outcome of a success. *)
Definition trlp_result (ns name : string) (c : cluster)
    (out : result error () * io cluster) : Prop :=
  trlp_effect ns name c (state out.2)
  ∧ (out.1 = Ok () → trlp_outcome ns name c (state out.2)).

Lemma result_error ns name c e w : state w = c → trlp_result ns name c (Err e, w).
Proof. intros <-. split; [apply trlp_effect_refl|done]. Qed.

Lemma result_deletes ns name c w m :
  state w = c → ¬ model_live c (ns, name) ∨ gathers c ns name [] →
  (m w).2 = (deleteModelTRLP ns name w).2 →
  ((m w).1 = Ok () → (deleteModelTRLP ns name w).1 = Ok ()) →
  trlp_result ns name c (m w).
Proof.
  intros <- Hgone E2 E1. destruct (deleteModelTRLP_run ns name w) as [H1 H2].
  split; rewrite E2; [by apply effect_deletes|].
  intros Hok. apply outcome_gone; auto.
Qed.

Lemma result_deletes_in context ns name c w :
  state w = c → ¬ model_live c (ns, name) ∨ gathers c ns name [] →
  trlp_result ns name c
    ((d ← deleteModelTRLP ns name;
      mret match d with Ok _ => Ok () | Err e => Err (In context e) end) w).
Proof.
  intros Hw Hgone. apply result_deletes; [done..| |]; rewrite bind_run; [done|].
  by destruct (deleteModelTRLP ns name w).1 as [[]|].
Qed.

Lemma gathers_nil_all c ns name all l :
  all ≡ₚ live_subs c (model_key_of ns name) →
  (∀ s, s ∈ l → s ∈ all ∧ ns_allowed r c (Namespace s) = true) →
  (¬ unreliable → l = allowed_subs r c all) →
  length l = 0 → gathers c ns name [].
Proof.
  intros Hall Hin Hrel ->%nil_length_inv.
  apply (omap_gathers c ns name all []); done.
Qed.

Lemma result_applies ns name c w subs routeName :
  state w = c → routable c (ns, name) routeName →
  gathers c ns name subs → subs ≠ [] →
  (∀ s, s ∈ si_sub <$> subs → ∃ ref, tenant_gateway c (Namespace s) = Some ref
     ∧ attached_key c routeName ns (gateway_key ref)) →
  trlp_result ns name c
    (apply_policy (trlp_key ns name) (ns, routeName)
       (mkTrlp (policy_labels ns name) (policy_annotations subs) None
          (mkTrlpSpec routeName (limitsMap subs)) []) w).
Proof.
  intros Hw Hroute Hg Hne Hatt.
  set (pol := mkTrlp _ _ _ _ _).
  pose proof (apply_policy_run (trlp_key ns name) (ns, routeName) pol w
    (policy_annotations_managed subs)) as H.
  destruct (apply_policy _ _ pol w) as [x w']. simpl in H. subst c.
  destruct H as [[E Hok]|(t & E & Hold & Ha & Hs & Hl & Han)].
  - split; simpl; [rewrite E; apply trlp_effect_refl|]. intros ->.
    destruct (Hok eq_refl) as (t & Ht & [Hm|(Hs & Hl & Han)]).
    + by eapply outcome_opted_out.
    + eapply outcome_current; try done. by rewrite E.
  - split; simpl; [by eapply effect_writes|]. intros _.
    eapply outcome_current; try done. rewrite E. cbn. apply lookup_insert_eq.
Qed.

Lemma reconcileTRLP_run ns name w :
  trlp_result ns name (state w) (reconcileTRLPForModel r ns name w).
Proof.
  unfold reconcileTRLPForModel.
  unfold try_bind at 1. step_reads (findAll_reads ns name) as [all|e] E1 Hall;
    [|by apply result_error].
  step_reads (filterSubscriptions_reads r all) as l E2 [Hin Hrel].
  rewrite E1 in Hin, Hrel, E2.
  step_reads (findHTTPRoute_reads ns name) as [[rn rns]|e] E3 Hroute;
    rewrite E2 in Hroute, E3.
  2: { case_match eqn:Hmissing.
    - apply result_deletes_in; [done|]. apply orb_true_iff in Hmissing as [Hm|Hl].
      + left. by apply Hroute.
      + right. apply Nat.eqb_eq in Hl. by eapply gathers_nil_all.
    - case_match eqn:Hr; [|by apply result_error]. split; [rewrite <-E3; apply trlp_effect_refl|].
      intros _. destruct Hroute as (_ & Hl & Hn). apply outcome_waiting; auto. }
  destruct Hroute as [-> Hroute]. cbn [fst] in *.
  unfold try_bind at 1. step_reads (validateGateways_reads l rn ns) as [[]|e] E4 Hatt;
    [|apply result_error; congruence].
  rewrite E3 in Hatt, E4. specialize (Hatt eq_refl).
  unfold try_bind at 1. step_reads (opted_in_reads (ns, policyName name)) as [b|e] E5 Hb;
    [|apply result_error; congruence].
  rewrite E4 in Hb, E5. destruct b; simpl.
  2: { split; [rewrite <-E5; apply trlp_effect_refl|]. intros _. simpl. symmetry in Hb.
       destruct (policies (state w) !! _) as [t|] eqn:Ht; [|done].
       by eapply outcome_opted_out. }
  clear Hb. destruct (length l =? 0) eqn:Hl.
  { apply result_deletes_in; [done|]. right. apply Nat.eqb_eq in Hl.
    by eapply gathers_nil_all. }
  clear Hl. unfold try_bind at 1.
  match goal with |- context [in_context ?ctx (get_in routes ?k)] =>
    step_reads (reads_in_context ctx _ _ (λ _ _, True) (get_in_reads routes k)
      (λ _ _ _, I) (λ _ _ _, I)) as [rt|e] E6 _
  end; [|apply result_error; congruence].
  rewrite E5 in E6.
  pose proof (omap_gathers _ _ _ _ _ Hall Hin Hrel) as Hg.
  set (subs := omap _ l) in *. destruct (length subs =? 0) eqn:Hlen.
  { apply Nat.eqb_eq, nil_length_inv in Hlen. rewrite Hlen in Hg.
    apply result_deletes; auto. }
  apply result_applies; try done.
  - intros E. by rewrite E in Hlen.
  - intros s (si & -> & Hsi)%list_elem_of_fmap.
    apply list_elem_of_omap in Hsi as (s & Hs & Hc). apply contribution_Some in Hc as [-> _].
    by apply Hatt.
Qed.
End facts.
