(* ===== verification/SubscriptionReconcileFacts.v ===== *)
(** What the status of a subscription says of the cluster, and how the phase
    follows from it. *)
From S2P Require Import Prelude GoStrings Sorting Unstructured Runtime.
From S2P Require Import MaasTypes TokenLimits Cluster ControllerHelpers.
From S2P Require Import SubscriptionController SubscriptionReconcile.
From S2P Require Import ControllerFacts SubscriptionModelFacts.
From S2P Require Import Json.
From S2P Require Import Trimming.
From S2P Require Import SubscriptionPolicies.
Import V1 Limits Cluster Helpers SubController SubStatus.

(** ** Distinct references *)

Definition ref_key (ref : ModelSubscriptionRef) : string :=
  ref_Namespace ref +:+ "/" +:+ ref_Name ref.

Lemma distinct_refs_sub seen refs ref :
  ref ∈ distinct_refs seen refs → ref ∈ refs ∧ ref_key ref ∉ seen.
Proof.
  revert seen. induction refs as [|ref' refs IH]; intros seen; simpl;
    [by intros ?%not_elem_of_nil|].
  destruct (contains seen _) eqn:E.
  - intros H%IH. destruct H. split; [by right|done].
  - intros [->|H]%elem_of_cons.
    + apply contains_false in E. split; [left|done].
    + apply IH in H as [? Hn]. split; [by right|]. intros ?. apply Hn. by right.
Qed.

Lemma distinct_refs_covers seen refs ref :
  ref ∈ refs → ref_key ref ∉ seen →
  ∃ ref', ref' ∈ distinct_refs seen refs ∧ ref_key ref' = ref_key ref.
Proof.
  revert seen. induction refs as [|ref' refs IH]; intros seen; simpl;
    [by intros ?%not_elem_of_nil|].
  intros [->|H]%elem_of_cons Hn; destruct (contains seen _) eqn:E.
  - by apply contains_true in E.
  - exists ref'. split; [left|done].
  - by apply IH.
  - destruct (decide (ref_key ref = ref_key ref')) as [Heq|Hne].
    + exists ref'. split; [left|done].
    + destruct (IH (ref_key ref' :: seen) H) as (r & Hr & Hk).
      { by intros [?|?]%elem_of_cons. }
      exists r. split; [by right|done].
Qed.

Lemma distinct_refs_nil refs : distinct_refs [] refs = [] ↔ refs = [].
Proof. by destruct refs. Qed.

(** ** The phase *)

Lemma length_filter_zero {A} (f : A → bool) l :
  length (List.filter f l) = 0 ↔ ∀ x, x ∈ l → f x = false.
Proof.
  induction l as [|y l IH]; simpl.
  - split; [intros _ x []%not_elem_of_nil|done].
  - split.
    + destruct (f y) eqn:E; [done|]. intros H x [->|Hx]%elem_of_cons; [done|].
      by apply IH.
    + intros H. rewrite (H y) by left. apply IH. intros x Hx. apply H. by right.
Qed.

Lemma length_filter_split {A} (f : A → bool) l :
  length (List.filter f l) + length (List.filter (λ x, negb (f x)) l) = length l.
Proof. induction l as [|y l IH]; simpl; [done|]. destruct (f y); simpl; lia. Qed.

(** Without a backend issue of a model that counts as valid, the phase is the
    best that holds of all statuses. *)
Lemma deriveFinalPhase_spec ms ts :
  backend_issues ms ts = 0 →
  ((deriveFinalPhase ms ts).1 = PhaseActive ↔
     ms ≠ [] ∧ (∀ s, s ∈ ms → st_Ready s = true)
     ∧ (∀ t, t ∈ ts → st_Ready (trlp_ref t) = true))
  ∧ ((deriveFinalPhase ms ts).1 = PhaseFailed ↔ ∀ s, s ∈ ms → st_Ready s = false)
  ∧ ((deriveFinalPhase ms ts).1 ∈ [PhaseActive; PhaseDegraded; PhaseFailed]).
Proof.
  intros Hb. unfold deriveFinalPhase. rewrite Hb.
  pose proof (length_filter_zero st_Ready ms) as Hready.
  pose proof (length_filter_zero (λ s, negb (st_Ready s)) ms) as Hnot.
  pose proof (length_filter_zero (λ s, negb (st_Ready (trlp_ref s))) ts) as Htrlp.
  setoid_rewrite negb_false_iff in Hnot. setoid_rewrite negb_false_iff in Htrlp.
  pose proof (length_filter_split st_Ready ms) as Hsum.
  set (v := length (List.filter st_Ready ms)) in *.
  set (i := length (List.filter (λ s, negb (st_Ready s)) ms)) in *.
  set (u := length (List.filter (λ s, negb (st_Ready (trlp_ref s))) ts)) in *.
  clearbody v i u. destruct (length ms =? 0) eqn:Hlen.
  { apply Nat.eqb_eq, nil_length_inv in Hlen as ->. cbn. split_and!.
    - split; [done|]. by intros [? _].
    - split; [intros _ s []%not_elem_of_nil|done].
    - right. right. left. }
  apply Nat.eqb_neq in Hlen.
  assert (ms ≠ []) as Hne by (by intros ->).
  repeat (case_match; [|]); cbn.
  all: repeat match goal with
       | H : (_ <=? _)%Z = true |- _ => apply Z.leb_le in H
       | H : (_ <=? _)%Z = false |- _ => apply Z.leb_gt in H
       | H : (_ <? _)%Z = true |- _ => apply Z.ltb_lt in H
       | H : (_ <? _)%Z = false |- _ => apply Z.ltb_ge in H
       end.
  - assert (v = 0) as Hv by lia. split_and!.
    + split; [done|]. intros (_ & Hall & _). apply Hnot in Hall. lia.
    + split; [|done]. intros _. by apply Hready.
    + right. right. left.
  - split_and!.
    + split; [done|]. intros (_ & Hall & _). apply Hnot in Hall. lia.
    + split; [done|]. intros Hall. apply Hready in Hall. lia.
    + right. left.
  - split_and!.
    + split; [done|]. intros (_ & _ & Hall). apply Htrlp in Hall. lia.
    + split; [done|]. intros Hall. apply Hready in Hall. lia.
    + right. left.
  - split_and!.
    + split; [|done]. intros _. split; [done|].
      split; [apply Hnot|apply Htrlp]; lia.
    + split; [done|]. intros Hall. apply Hready in Hall. lia.
    + left.
Qed.

(** ** Correcting the statuses *)

Lemma backendNotReady_lookup ts k :
  is_Some (backendNotReady ts !! k) ↔
  ∃ t, t ∈ ts ∧ st_Reason (trlp_ref t) = ReasonBackendNotReady
     ∧ k = st_Namespace (trlp_ref t) +:+ "/" +:+ trlp_Model t.
Proof.
  unfold backendNotReady.
  assert (∀ m, is_Some (foldl (λ m ts,
      if st_Reason (trlp_ref ts) == ReasonBackendNotReady then
        <[st_Namespace (trlp_ref ts) +:+ "/" +:+ trlp_Model ts
          := st_Message (trlp_ref ts)]> m
      else m) m ts !! k) ↔
    is_Some ((m : gmap string string) !! k)
    ∨ ∃ t, t ∈ ts ∧ st_Reason (trlp_ref t) = ReasonBackendNotReady
     ∧ k = st_Namespace (trlp_ref t) +:+ "/" +:+ trlp_Model t) as H.
  { induction ts as [|t ts IH]; intros m; cbn [foldl].
    - split; [by left|]. intros [?|(t & []%not_elem_of_nil & _)]; done.
    - rewrite IH. setoid_rewrite elem_of_cons. case_bool_decide as E.
      + destruct (decide (k = st_Namespace (trlp_ref t) +:+ "/" +:+ trlp_Model t))
          as [->|Hne].
        * rewrite lookup_insert_eq. split; [|by left]. intros _. right.
          exists t. split; [by left|done].
        * rewrite lookup_insert_ne by done. naive_solver.
      + naive_solver. }
  rewrite H, lookup_empty. split; [|by right]. by intros [[]|].
Qed.

Lemma correct_statuses_ready ms ts s :
  s ∈ correct_statuses ms ts → st_Ready s = true →
  s ∈ ms ∧ ∀ t, t ∈ ts → st_Reason (trlp_ref t) = ReasonBackendNotReady →
    st_Namespace s +:+ "/" +:+ st_Name s
    ≠ st_Namespace (trlp_ref t) +:+ "/" +:+ trlp_Model t.
Proof.
  unfold correct_statuses. intros (s0 & -> & Hs)%list_elem_of_fmap.
  unfold correct_status. destruct (st_Ready s0) eqn:Hr; [|congruence].
  destruct (backendNotReady ts !! _) eqn:E; [done|]. intros _. split; [done|].
  intros t Ht Hreason Heq. apply eq_None_not_Some in E. apply E.
  apply backendNotReady_lookup. eauto.
Qed.

Lemma Forall2_elem_r {A B} (P : A → B → Prop) l k y :
  Forall2 P l k → y ∈ k → ∃ x, x ∈ l ∧ P x y.
Proof.
  induction 1 as [|x y' l k ?? IH]; [by intros ?%not_elem_of_nil|].
  intros [->|Hy]%elem_of_cons; [exists x; by split; [left|]|].
  destruct (IH Hy) as (x' & ? & ?). exists x'. by split; [right|].
Qed.
Lemma Forall2_elem_l {A B} (P : A → B → Prop) l k x :
  Forall2 P l k → x ∈ l → ∃ y, y ∈ k ∧ P x y.
Proof. intros H%Forall2_flip. apply (Forall2_elem_r _ _ _ _ H). Qed.

(** The two lists of statuses of one reconcile, reference by reference. *)
Definition observed (refs : list ModelSubscriptionRef) (ms : list ResourceRefStatus)
    (ts : list TokenRateLimitStatus) : Prop :=
  Forall2 (λ ref s, st_Name s = ref_Name ref ∧ st_Namespace s = ref_Namespace ref)
    refs ms
  ∧ Forall2 (λ ref t, trlp_Model t = ref_Name ref
      ∧ (st_Reason (trlp_ref t) = ReasonBackendNotReady →
           st_Namespace (trlp_ref t) = ref_Namespace ref
           ∧ st_Ready (trlp_ref t) = false)) refs ts.

(** Models of one name are in one namespace. *)
Definition names_tell_apart (refs : list ModelSubscriptionRef) : Prop :=
  ∀ x y, x ∈ refs → y ∈ refs → ref_Name x = ref_Name y →
    ref_Namespace x = ref_Namespace y.

Lemma correct_statuses_no_issue refs ms ts :
  observed refs ms ts → names_tell_apart refs →
  backend_issues (correct_statuses ms ts) ts = 0.
Proof.
  intros [Hms Hts] Hapart. unfold backend_issues. apply length_filter_zero.
  intros t Ht. apply not_true_iff_false. intros H. destruct_bools.
  apply contains_true, list_elem_of_fmap in H0 as (s & Hname & Hs).
  rewrite filter_bool_elem_of in Hs. destruct Hs as [Hs Hready].
  destruct (correct_statuses_ready _ _ _ Hs Hready) as [Hs' Hno].
  destruct (Forall2_elem_r _ _ _ _ Hts Ht) as (y & Hy & HM & HB).
  destruct (Forall2_elem_r _ _ _ _ Hms Hs') as (x & Hx & HN & HNS).
  destruct (HB H1) as [HB' _]. apply (Hno t Ht H1).
  rewrite HN, HNS, HB', HM. rewrite (Hapart x y); [congruence|done..|congruence].
Qed.

(** ** Observing *)

Section observing.
Context {api : ApiMachinery} {srv : ApiServer} {lawful : LawfulApiServer}.

Lemma collect_reads {A B} (f : A → prog cluster B) (Q : A → cluster → B → Prop) l :
  (∀ x, reads (f x) (Q x)) →
  reads (collect f l) (λ c ys, Forall2 (λ x y, Q x c y) l ys).
Proof.
  intros Hf. induction l as [|x l IH]; [by apply reads_ret|].
  cbn [collect]. eapply reads_then; [apply Hf|]. intros y.
  eapply reads_then; [apply IH|]. intros ys. apply reads_ret. auto.
Qed.

(** The policy of a model is in force. *)
Definition healthy (c : cluster) (ref : ModelSubscriptionRef) : Prop :=
  ∃ rn t, routable c (model_key ref) rn
    ∧ policies c !! trlp_key (ref_Namespace ref) (ref_Name ref) = Some t
    ∧ (getTRLPAcceptedCondition (t_object t)).1 = true.

Lemma healthy_key c x y : model_key x = model_key y → healthy c x → healthy c y.
Proof. unfold healthy, model_key. by intros [= -> ->]. Qed.

Lemma policy_status_reads ref :
  reads (policy_status ref) (λ c t,
    trlp_Model t = ref_Name ref
    ∧ (st_Reason (trlp_ref t) = ReasonBackendNotReady →
         st_Namespace (trlp_ref t) = ref_Namespace ref ∧ st_Ready (trlp_ref t) = false)
    ∧ (st_Ready (trlp_ref t) = true → healthy c ref)
    ∧ (¬ unreliable → healthy c ref → st_Ready (trlp_ref t) = true)).
Proof.
  unfold policy_status. eapply reads_then; [apply findHTTPRoute_reads|].
  intros [[rn rns]|e].
  - eapply reads_then; [apply get_in_reads|]. intros [t|[| |msg]]; apply reads_ret.
    + intros c Ht [-> Hr]. destruct (getTRLPAcceptedCondition _) as [[|] msg] eqn:Ha; cbn.
      * split_and!; [done..| |done]. intros _. exists rn, t.
        split_and!; [done|done|]. by rewrite Ha.
      * split_and!; [done..|]. intros _ (rn' & t' & _ & Ht' & Ha').
        pose proof (eq_trans (eq_sym Ht) Ht') as [= <-].
        by rewrite Ha in Ha'.
    + intros c Ht [-> Hr]. cbn. split_and!; [done..|].
      intros _ (rn' & t' & _ & Ht' & _). pose proof (eq_trans (eq_sym Ht) Ht'). done.
    + done.
    + intros c Hu _. cbn. split_and!; done.
  - apply reads_ret. intros c (_ & _ & Hn).
    case_match; cbn; (split_and!; [done|done|done|]);
      intros Hrel (rn & t & Hr & _); exfalso; eapply Hn; eauto.
Qed.

Lemma model_status_reads ref :
  reads (model_status ref) (λ c s,
    (st_Name s = ref_Name ref ∧ st_Namespace s = ref_Namespace ref)
    ∧ (st_Ready s = true → is_Some (models c !! model_key ref))
    ∧ (¬ unreliable → is_Some (models c !! model_key ref) → st_Ready s = true)).
Proof.
  unfold model_status, model_key. eapply reads_then; [apply get_in_reads|].
  intros [m|[| |msg]]; apply reads_ret; intros c E; cbn; split_and!; try done.
  intros _ [??]. congruence.
Qed.

(** ** Recording *)

(** Everything of a subscription but its finalizers and status. *)
Definition same_object (s s' : MaaSSubscription) : Prop :=
  Name s' = Name s ∧ Namespace s' = Namespace s ∧ Generation s' = Generation s
  ∧ deleting s' = deleting s ∧ Spec s' = Spec s.

#[global] Instance same_object_refl : Reflexive same_object.
Proof. done. Qed.
#[global] Instance same_object_trans : Transitive same_object.
Proof. intros s1 s2 s3 (?&?&?&?&?) (?&?&?&?&?). split_and!; congruence. Qed.

Lemma set_Status_same s : set_Status s (Status s) = s.
Proof. by destruct s. Qed.

(** What is recorded of a phase, over the status held by the server. *)
Definition recorded (sub : MaaSSubscription) (phase message : string)
    (old st : MaaSSubscriptionStatus) : Prop :=
  Phase st = phase
  ∧ ModelRefStatuses st = ModelRefStatuses (Status sub)
  ∧ TokenRateLimitStatuses st = TokenRateLimitStatuses (Status sub)
  ∧ find_condition (Conditions st) "Ready"
    = Some (mkCondition "Ready" (ready_condition phase).1 (ready_condition phase).2
              message (Generation sub))
  ∧ ∀ d, find_condition (Conditions old) ConditionSpecPriorityDuplicate = Some d →
         find_condition (Conditions st) ConditionSpecPriorityDuplicate = Some d.

Lemma updateStatus_run sub phase message snapshot w s :
  api_fault (ticks w) = None →
  subscriptions (state w) !! (Namespace sub, Name sub) = Some s →
  let w' := (updateStatus sub phase message snapshot w).2 in
  let k := (Namespace sub, Name sub) in
  ∃ st, recorded sub phase message (Status s) st
    ∧ ((state w' = state w
        ∧ (Status s = st ∨ ∃ n, is_Some (api_fault n)))
       ∨ state w' = set_subscriptions <[k := set_Status s st]> (state w)).
Proof.
  intros Hf Hs. cbv zeta. unfold updateStatus.
  rewrite (run_bind _ _ _ _ _ (get_in_ok _ _ _ _ Hf Hs)). cbv beta iota zeta.
  set (conds := match find_condition (Conditions (Status s)) _ with
                | Some dup => _ | None => _ end).
  destruct (ready_condition phase) as [status reason] eqn:Hready.
  set (c0 := mkCondition "Ready" _ _ _ _).
  set (st := mkStatus _ _ _ _). exists st. split.
  - unfold recorded. rewrite Hready. split_and!; [done..| |].
    + apply (find_set_condition _ c0).
    + intros d Hd. cbn. rewrite find_set_condition_ne by done.
      unfold conds. rewrite Hd.
      rewrite <-(find_condition_type _ _ _ Hd). apply find_set_condition.
  - case_bool_decide as Hsame; [by left; auto|].
    rewrite bind_run. unfold update_status.
    match goal with |- context [write ?f ?w] => destruct (write_run f w) as [[E Hne]|E] end.
    + left. simpl. split; [done|]. right.
      revert Hne. unfold write, mbind, prog_bind, tick, get. cbn [ticks state].
      destruct (api_fault (Datatypes.S (ticks w))) as [[]|] eqn:F; [by eauto|].
      rewrite Hs. by intros [].
    + right. cbn [state] in E. rewrite Hs in E. injection E as E. by rewrite E.
Qed.
End observing.

(** * Policies and steps of a reconcile *)

Import V1 Limits Cluster Helpers SubController.

(** ** Concatenations *)

Lemma app_str_inj_l (p s1 s2 : string) : p +:+ s1 = p +:+ s2 → s1 = s2.
Proof. induction p as [|a p IH]; simpl; [done|]. intros [= ?]. auto. Qed.

Lemma app_str_inj_r (s1 s2 q : string) : s1 +:+ q = s2 +:+ q → s1 = s2.
Proof.
  revert s2. induction s1 as [|a s1 IH]; intros [|b s2]; cbn; try done.
  - intros H%(f_equal String.length). cbn in H. rewrite length_app_str in H. lia.
  - intros H%(f_equal String.length). cbn in H. rewrite length_app_str in H. lia.
  - intros [= -> H]. f_equal. by apply IH.
Qed.

(** A separator that the first parts do not hold. *)
Lemma app_str_sep_inj (c : ascii) (a a' b b' : string) :
  contains_byte a c = false → contains_byte a' c = false →
  a +:+ String c b = a' +:+ String c b' → a = a' ∧ b = b'.
Proof.
  intros Ha Ha' E. pose proof (cut_app c a b Ha) as H.
  rewrite E, (cut_app c a' b' Ha') in H. by injection H as -> ->.
Qed.

Definition slash_free (s : string) : bool := negb (contains_byte s "/"%char).
Definition dash_free (s : string) : bool := negb (contains_byte s "-"%char).

Lemma subRef_inj (s s' : MaaSSubscription) :
  slash_free (Namespace s) = true → slash_free (Namespace s') = true →
  subRef s = subRef s' → Namespace s = Namespace s' ∧ Name s = Name s'.
Proof.
  unfold subRef, slash_free. intros H%negb_true_iff H'%negb_true_iff.
  apply app_str_sep_inj; done.
Qed.

Lemma dashes_app s1 s2 : dashes (s1 +:+ s2) = dashes s1 +:+ dashes s2.
Proof. induction s1 as [|a s1 IH]; cbn; [done|]. by rewrite IH. Qed.

Lemma dashes_slash_free s : slash_free s = true → dashes s = s.
Proof.
  unfold slash_free, contains_byte. induction s as [|a s IH]; cbn; [done|].
  case_bool_decide as E; cbn; [done|]. intros H. by rewrite IH.
Qed.

(** ** Keys *)

(** The part of a limit key that depends on the subscription. *)
Definition safe_key (s : MaaSSubscription) : string := dashes (subRef s).

Lemma limit_key_inj si si' :
  ref_Name (si_ref si) = ref_Name (si_ref si') →
  limit_key si = limit_key si' ↔ safe_key (si_sub si) = safe_key (si_sub si').
Proof.
  unfold limit_key, safe_key. intros ->. split; [|by intros ->].
  apply app_str_inj_r.
Qed.

Lemma safe_key_eq s :
  slash_free (Namespace s) = true → slash_free (Name s) = true →
  safe_key s = Namespace s +:+ String "-" (Name s).
Proof.
  intros H1 H2. unfold safe_key, subRef.
  rewrite dashes_app, (dashes_slash_free _ H1). f_equal.
  change (String "-" (dashes (Name s)) = String "-" (Name s)).
  by rewrite dashes_slash_free.
Qed.

(** In one namespace, keys tell subscriptions apart, and so they do if no
    namespace holds a dash. *)
Lemma safe_key_inj s s' :
  slash_free (Namespace s) = true → slash_free (Name s) = true →
  slash_free (Namespace s') = true → slash_free (Name s') = true →
  Namespace s = Namespace s'
  ∨ (dash_free (Namespace s) = true ∧ dash_free (Namespace s') = true) →
  safe_key s = safe_key s' → Namespace s = Namespace s' ∧ Name s = Name s'.
Proof.
  intros H1 H2 H3 H4 H. rewrite !safe_key_eq by done. destruct H as [->|[Hd Hd']].
  - intros E%app_str_inj_l. by injection E as ->.
  - unfold dash_free in *. destruct_bools. by apply app_str_sep_inj.
Qed.

(** ** The map of limits *)

Lemma limitsMap_app l si : limitsMap (l ++ [si]) = <[limit_key si := limit_of si]> (limitsMap l).
Proof. unfold limitsMap. by rewrite foldl_app. Qed.

(** Every entry is the limit of a contribution. *)
Lemma limitsMap_lookup_Some l k x :
  limitsMap l !! k = Some x → ∃ si, si ∈ l ∧ k = limit_key si ∧ x = limit_of si.
Proof.
  induction l as [|si l IH] using rev_ind; [done|]. rewrite limitsMap_app.
  destruct (decide (k = limit_key si)) as [->|Hne].
  - rewrite lookup_insert_eq. intros [= <-]. exists si. split; [|done].
    apply elem_of_app. right. by left.
  - rewrite lookup_insert_ne by done. intros H%IH. destruct H as (si' & H & ?).
    exists si'. split; [|done]. apply elem_of_app. by left.
Qed.

(** Every contribution has an entry under its key. *)
Lemma limitsMap_covers l si : si ∈ l → is_Some (limitsMap l !! limit_key si).
Proof.
  induction l as [|si' l IH] using rev_ind; [by intros ?%not_elem_of_nil|].
  rewrite limitsMap_app. intros [H|H]%elem_of_app.
  - destruct (decide (limit_key si = limit_key si')) as [->|Hne];
      [by rewrite lookup_insert_eq|]. rewrite lookup_insert_ne by done. auto.
  - apply list_elem_of_singleton in H as ->. by rewrite lookup_insert_eq.
Qed.

(** With keys of their own, the contributions are the entries. *)
Lemma limitsMap_lookup l k x :
  (∀ si si', si ∈ l → si' ∈ l → limit_key si = limit_key si' → si = si') →
  limitsMap l !! k = Some x ↔ ∃ si, si ∈ l ∧ k = limit_key si ∧ x = limit_of si.
Proof.
  intros Hinj. split; [apply limitsMap_lookup_Some|].
  intros (si & Hsi & -> & ->). destruct (limitsMap_covers l si Hsi) as [y Hy].
  rewrite Hy. destruct (limitsMap_lookup_Some _ _ _ Hy) as (si' & Hsi' & E & ->).
  by rewrite (Hinj si si' Hsi Hsi' E).
Qed.

(** ** Predicates *)

(** The scoped reference of a subscription and a model. *)
Definition scoped_ref (s : MaaSSubscription) (ns name : string) : string :=
  subRef s +:+ "@" +:+ ns +:+ "/" +:+ name.

Lemma when_selected_inj a b : when_selected a = when_selected b → a = b.
Proof.
  unfold when_selected, quoted.
  intros H%app_str_inj_l. cbn in H. injection H as H.
  rewrite <-!app_assoc_str in H. by apply app_str_inj_r in H.
Qed.

Lemma scoped_ref_inj s s' ns name :
  slash_free (Namespace s) = true → slash_free (Namespace s') = true →
  scoped_ref s ns name = scoped_ref s' ns name →
  Namespace s = Namespace s' ∧ Name s = Name s'.
Proof. intros ?? H%app_str_inj_r. by apply subRef_inj. Qed.

(** ** The annotation that names the contributors *)

Definition comma_free (s : string) : bool := negb (contains_byte s ","%char).

Lemma split_comma_app cur s1 s2 :
  comma_free s1 = true → split_comma cur (s1 +:+ s2) = split_comma (cur +:+ s1) s2.
Proof.
  unfold comma_free, contains_byte. revert cur.
  induction s1 as [|a s1 IH]; intros cur; [by rewrite app_nil_r_str|].
  cbn. case_bool_decide as E; cbn; [done|]. intros H. rewrite IH by done.
  by rewrite <-app_assoc_str.
Qed.

(** Splitting undoes joining. *)
Lemma split_join cur l :
  Forall (λ s, comma_free s = true) l → l ≠ [] →
  split_comma cur (GoStrings.join "," l)
  = match l with [] => [] | x :: l' => (cur +:+ x) :: l' end.
Proof.
  intros Hl Hne. revert cur. induction Hl as [|x l Hx Hl IH]; intros cur; [done|].
  destruct l as [|y l].
  - cbn [GoStrings.join]. rewrite <-(app_nil_r_str x) at 1. by rewrite split_comma_app.
  - change (GoStrings.join "," (x :: y :: l))
      with (x +:+ String "," (GoStrings.join "," (y :: l))).
    rewrite split_comma_app by done. cbn [split_comma].
    rewrite bool_decide_eq_true_2 by done. by rewrite (IH ltac:(done) "").
Qed.

(** What the cleanup reads of the annotation is what was written into it. *)
Lemma annotation_roundtrip l n :
  Forall (λ s, comma_free s = true ∧ word s = true) l → n ≠ "" →
  annotationListContains (GoStrings.join "," l) n = true ↔ n ∈ l.
Proof.
  intros Hl Hn. unfold annotationListContains.
  rewrite (bool_decide_eq_false_2 (n = "")), orb_false_r by done.
  destruct l as [|x l]; [by rewrite elem_of_nil|].
  case_bool_decide as E.
  { exfalso. apply Forall_inv in Hl as [_ Hx]. destruct l; cbn in E; simplify_eq.
    apply (f_equal String.length) in E. rewrite length_app_str in E. cbn in E. lia. }
  rewrite split_join; [|by eapply Forall_impl; [done|]; intros ? []|done].
  rewrite existsb_elem_of. split.
  - intros (y & Hy & Ht). apply bool_decide_eq_true in Ht as <-.
    rewrite Forall_forall in Hl. destruct (Hl y Hy) as [_ Hw].
    by rewrite (TrimSpace_word y Hw).
  - intros H. exists n. split; [done|]. rewrite Forall_forall in Hl.
    destruct (Hl n H) as [_ Hw]. rewrite (TrimSpace_word n Hw).
    by apply bool_decide_eq_true.
Qed.

(** * Steps of a reconcile *)

Import SubStatus SubReconcile.

(** ** What a reconcile may change *)

(** The object of a key before and after: only its finalizers and status change,
    and only a terminating one goes. *)
Definition same_slot (before after : option MaaSSubscription) : Prop :=
  match before, after with
  | Some s, Some s' => same_object s s'
  | Some s, None => deleting s = true
  | None, None => True
  | None, Some _ => False
  end.

Record reconcile_step (k : key) (c c' : cluster) : Prop := {
  step_rest : c' = set_subscriptions (λ _, subscriptions c')
                     (set_policies (λ _, policies c') c);
  step_others : ∀ k', k' ≠ k → subscriptions c' !! k' = subscriptions c !! k';
  step_own : same_slot (subscriptions c !! k) (subscriptions c' !! k);
  step_opted_out : keeps_opted_out c c';
}.

#[global] Instance same_slot_refl : Reflexive same_slot.
Proof. by intros [s|]. Qed.
#[global] Instance same_slot_trans : Transitive same_slot.
Proof.
  intros [s1|] [s2|] [s3|]; simpl; try done.
  - apply same_object_trans.
  - intros (?&?&?&?&?). congruence.
Qed.

#[global] Instance reconcile_step_refl k : Reflexive (reconcile_step k).
Proof. intros c. split; [by destruct c|done..]. Qed.
#[global] Instance reconcile_step_trans k : Transitive (reconcile_step k).
Proof.
  intros c1 c2 c3 [] []. split.
  - rewrite step_rest1, step_rest0. done.
  - intros k' Hne. etrans; [by apply step_others1|by apply step_others0].
  - by etrans.
  - by etrans.
Qed.

Lemma policies_step k c c' :
  only_policies c c' → keeps_opted_out c c' → reconcile_step k c c'.
Proof. intros E H. rewrite E. by split. Qed.

Lemma step_models k c c' : reconcile_step k c c' → models c' = models c.
Proof. intros []. by rewrite step_rest0. Qed.

Section reconcile.
Context {api : ApiMachinery} {srv : ApiServer} {lawful : LawfulApiServer}.
Context (r : Reconciler).

Lemma respects_each (R : cluster → cluster → Prop) `{!Reflexive R, !Transitive R} {A}
    (f : A → kprog ()) l :
  (∀ x, respects R (f x)) → respects R (each f l).
Proof.
  intros Hf. induction l as [|x l IH]; cbn [each].
  - by apply respects_ret.
  - by apply respects_try.
Qed.

Lemma reconcileTRLP_step k ns name :
  respects (reconcile_step k) (reconcileTRLPForModel r ns name).
Proof.
  intros w. destruct (reconcileTRLP_run r ns name w) as [H _].
  apply policies_step; [by eapply trlp_effect_only|by eapply trlp_effect_keeps].
Qed.

Lemma deleteModel_step k ns name :
  respects (reconcile_step k) (deleteModelTRLP ns name).
Proof.
  intros w. destruct (deleteModelTRLP_run ns name w) as [H _].
  apply policies_step; [apply H|]. eapply deletes_keeps, H.
  intros t Ht. by apply andb_true_iff in Ht as [_ ?].
Qed.

Lemma cleanup_step k sub : respects (reconcile_step k) (cleanupStaleTRLPs sub).
Proof.
  unfold cleanupStaleTRLPs. apply respects_try; [apply _..| |].
  { eapply respects_reads, list_policies_reads. apply _. }
  intros items. apply respects_each; [apply _..|]. intros [k' t]. cbn.
  destruct (stale_model sub k' t) as [[ns name]|]; [|apply respects_ret; apply _].
  apply respects_bind; [apply _|apply deleteModel_step|].
  intros x. apply respects_ret. apply _.
Qed.

Lemma reconcilePolicies_step k sub :
  respects (reconcile_step k) (reconcileTokenRateLimitPolicies r sub).
Proof.
  unfold reconcileTokenRateLimitPolicies. apply respects_try; [apply _..| |].
  - apply respects_each; [apply _..|]. intros ref. apply reconcileTRLP_step.
  - intros _. apply cleanup_step.
Qed.

Lemma update_finalizers_step k fs :
  respects (reconcile_step k) (update_finalizers k fs).
Proof.
  apply respects_write; [apply _|]. intros c c'.
  destruct (subscriptions c !! k) as [s|] eqn:E; [|done]. intros [= <-].
  split; try done; cbn.
  - intros k' Hne. case_match; [by rewrite lookup_delete_ne|by rewrite lookup_insert_ne].
  - rewrite E. case_match eqn:Hd.
    + rewrite lookup_delete_eq. by apply andb_true_iff in Hd as [? _].
    + by rewrite lookup_insert_eq.
  - intros k' t. done.
Qed.

Lemma update_status_step k st : respects (reconcile_step k) (update_status k st).
Proof.
  apply respects_write; [apply _|]. intros c c'.
  destruct (subscriptions c !! k) as [s|] eqn:E; [|done]. intros [= <-].
  split; try done; cbn.
  - intros k' Hne. by rewrite lookup_insert_ne.
  - by rewrite E, lookup_insert_eq.
  - intros k' t. done.
Qed.

Lemma updateStatus_step sub phase message snapshot :
  respects (reconcile_step (Namespace sub, Name sub))
    (updateStatus sub phase message snapshot).
Proof.
  unfold updateStatus. apply respects_bind; [apply _| |].
  { eapply respects_reads, get_in_reads. apply _. }
  intros latest. destruct (match latest with Ok l => _ | Err _ => _ end) as [cur conds].
  destruct (ready_condition phase). cbv zeta.
  case_match; [apply respects_ret; apply _|].
  apply respects_bind; [apply _|apply update_status_step|].
  intros ?. apply respects_ret. apply _.
Qed.

Lemma handleDeletion_step sub :
  respects (reconcile_step (Namespace sub, Name sub)) (handleDeletion r sub).
Proof.
  unfold handleDeletion. case_match; [|apply respects_ret; apply _].
  apply respects_try; [apply _..| |].
  { apply respects_each; [apply _..|]. intros ref. apply reconcileTRLP_step. }
  intros _. apply respects_try; [apply _..|apply cleanup_step|].
  intros _. apply respects_bind; [apply _|apply update_finalizers_step|].
  intros ?. apply respects_ret. apply _.
Qed.

Lemma reconcile_spec_step sub :
  respects (reconcile_step (Namespace sub, Name sub)) (reconcile_spec r sub).
Proof.
  unfold reconcile_spec. apply respects_bind; [apply _| |].
  { eapply respects_reads; [apply _|]. apply collect_reads, model_status_reads. }
  intros ms. cbv zeta. apply respects_bind; [apply _| |].
  { case_match; [apply reconcilePolicies_step|apply cleanup_step]. }
  intros [[]|e].
  - apply respects_bind; [apply _| |].
    { eapply respects_reads; [apply _|]. apply collect_reads, policy_status_reads. }
    intros ts. destruct (deriveFinalPhase _ _) as [phase msg].
    apply respects_bind; [apply _| |].
    + apply (updateStatus_step (with_statuses (with_models sub ms) _ _)).
    + intros ?. apply respects_ret. apply _.
  - apply respects_bind; [apply _| |].
    + apply (updateStatus_step (with_models sub ms)).
    + intros ?. apply respects_ret. apply _.
Qed.

(** All but subscriptions stays. *)
Definition only_finalizers (c c' : cluster) : Prop :=
  c' = set_subscriptions (λ _, subscriptions c') c.

#[global] Instance only_finalizers_refl : Reflexive only_finalizers.
Proof. by intros []. Qed.

Lemma ensure_finalizer_step sub :
  respects (reconcile_step (Namespace sub, Name sub)) (ensure_finalizer sub).
Proof.
  unfold ensure_finalizer. case_match; [apply respects_ret; apply _|].
  apply respects_bind; [apply _|apply update_finalizers_step|].
  intros ?. apply respects_ret. apply _.
Qed.

Lemma ensure_finalizer_same sub w s :
  (ensure_finalizer sub w).1 = Ok s → Status s = Status sub ∧ same_object sub s.
Proof.
  unfold ensure_finalizer. case_match; [by intros [= <-]|].
  rewrite bind_run. cbn. destruct (update_finalizers _ _ w).1; [|done].
  by intros [= <-].
Qed.

(** When nothing fails, the finalizer is there. *)
Lemma ensure_finalizer_reliable sub w :
  (∀ n, api_fault n = None) →
  subscriptions (state w) !! (Namespace sub, Name sub) = Some sub →
  deleting sub = false →
  ∃ sub', (ensure_finalizer sub w).1 = Ok sub' ∧ same_object sub sub'
    ∧ subscriptions (state (ensure_finalizer sub w).2) !! (Namespace sub, Name sub)
      = Some sub'
    ∧ maasSubscriptionFinalizer ∈ Finalizers sub'
    ∧ only_finalizers (state w) (state (ensure_finalizer sub w).2).
Proof.
  intros Hrel Hs Hlive. unfold ensure_finalizer.
  destruct (contains _ _) eqn:Hc.
  { exists sub. apply contains_true in Hc.
    split_and!; [done..|apply only_finalizers_refl]. }
  rewrite bind_run. unfold update_finalizers, write.
  unfold mbind, prog_bind, tick, get. cbn [ticks state fst snd].
  rewrite Hrel, Hs, Hlive. cbn.
  exists (set_Finalizers sub (add_finalizer (Finalizers sub) maasSubscriptionFinalizer)).
  split_and!.
  - done.
  - done.
  - apply lookup_insert_eq.
  - apply elem_of_add_finalizer. by left.
  - done.
Qed.

(** The names in a subscription are those of its key. *)
Definition well_keyed (c : cluster) : Prop :=
  ∀ k s, subscriptions c !! k = Some s → k = (Namespace s, Name s).

Lemma reconcile_step_keyed k c c' : reconcile_step k c c' → well_keyed c → well_keyed c'.
Proof.
  intros Hs Hc k' s' E. destruct (decide (k' = k)) as [->|Hne].
  - pose proof (step_own _ _ _ Hs) as Hown. rewrite E in Hown.
    destruct (subscriptions c !! k) as [s|] eqn:E0; [|done].
    destruct Hown as (-> & -> & _). by apply Hc.
  - rewrite (step_others _ _ _ Hs k' Hne) in E. by apply Hc.
Qed.

Lemma Reconcile_respects k w :
  well_keyed (state w) → reconcile_step k (state w) (state (Reconcile r k w).2).
Proof.
  intros Hk. unfold Reconcile.
  step_reads (get_in_reads subscriptions k) as [sub|[| |msg]] E H;
    [|by unfold mret, prog_ret; cbn; rewrite E..].
  pose proof (Hk _ _ H) as ->. rewrite <-E at 1. clear E H Hk w. revert w0.
  match goal with |- ∀ w0, reconcile_step ?k (state w0) (state (?m w0).2) =>
    change (respects (reconcile_step k) m) end.
  case_match; [apply handleDeletion_step|].
  apply respects_try; [apply _..| |].
  { eapply respects_reads; [apply _|]. apply tenantNamespaceAllowed_reads. }
  intros b. case_match; [apply respects_ret; apply _|].
  case_match.
  { apply respects_bind; [apply _|apply updateStatus_step|].
    intros ?. apply respects_ret. apply _. }
  intros w. rewrite run_try. etrans; [apply (ensure_finalizer_step sub w)|].
  destruct (ensure_finalizer sub w).1 as [s|e] eqn:E; [|done].
  destruct (ensure_finalizer_same _ _ _ E) as (_ & <- & <- & _).
  apply reconcile_spec_step.
Qed.
End reconcile.
