(* ===== verification/SubscriptionLoopFacts.v ===== *)
(** What holds after a subscription's models have been reconciled one by one, and
    what the scan for duplicate priorities does. *)
From S2P Require Import Prelude GoStrings Sorting Unstructured Runtime.
From S2P Require Import MaasTypes TokenLimits Cluster ControllerHelpers.
From S2P Require Import SubscriptionController SubscriptionReconcile.
From S2P Require Import ControllerFacts SubscriptionPolicies.
From S2P Require Import SubscriptionModelFacts SubscriptionReconcileFacts.
From S2P Require Import SubscriptionReconcileFacts.
Import V1 Limits Cluster Helpers SubController SubStatus SubReconcile.

(** A loop that succeeds leaves behind what each of its rounds establishes and
    the others keep. *)
Lemma each_establishes {A} (f : A → kprog ()) (P : A → cluster → Prop) l w :
  (∀ x w, x ∈ l → (f x w).1 = Ok () → P x (state (f x w).2)) →
  (∀ x y w, x ∈ l → y ∈ l → (f x w).1 = Ok () → P y (state w) → P y (state (f x w).2)) →
  (each f l w).1 = Ok () →
  ∀ x, x ∈ l → P x (state (each f l w).2).
Proof.
  intros Hest Hkeep Hok.
  cut (∀ seen : list A, (∀ x, x ∈ seen → x ∈ l) → ∀ (l' : list A) w, (∀ x, x ∈ l' → x ∈ l) →
    (∀ x, x ∈ seen → P x (state w)) → (each f l' w).1 = Ok () →
    ∀ x, x ∈ seen ∨ x ∈ l' → P x (state (each f l' w).2)).
  { intros H x Hx. eapply (H []); eauto; by intros ? ?%not_elem_of_nil. }
  clear w Hok. intros seen Hseen l'. revert seen Hseen.
  induction l' as [|y l' IH]; intros seen Hseen w Hl' Hw.
  - intros _ x [Hx|[]%not_elem_of_nil]. by apply Hw.
  - cbn [each]. rewrite run_try. destruct (f y w).1 as [[]|e] eqn:E; [|done].
    intros Hok x Hx. apply (IH (y :: seen)).
    + intros z [->|Hz]%elem_of_cons; [apply Hl'; left|auto].
    + intros z Hz. apply Hl'. by right.
    + assert (y ∈ l) as Hy by (apply Hl'; left).
      intros z [->|Hz]%elem_of_cons; [by apply Hest|].
      apply Hkeep; auto.
    + done.
    + rewrite !elem_of_cons in *. naive_solver.
Qed.

Section loops.
Context {api : ApiMachinery} {srv : ApiServer} {lawful : LawfulApiServer}.
Context (r : Reconciler).

(** A policy limits a subscription. *)
Definition mentions (t : Trlp) (s : MaaSSubscription) (ns name : string) : Prop :=
  ∃ k l, limits (t_spec t) !! k = Some l
    ∧ predicate l = when_selected (scoped_ref s ns name).

#[export] Instance mentions_dec t s ns name : Decision (mentions t s ns name).
Proof.
  refine (cast_if (decide (when_selected (scoped_ref s ns name)
    ∈ (λ kl : string * limit, predicate kl.2) <$> map_to_list (limits (t_spec t)))));
    unfold mentions; setoid_rewrite list_elem_of_fmap in e || setoid_rewrite list_elem_of_fmap in n.
  - destruct e as ([k l] & E & H%elem_of_map_to_list). eauto.
  - intros (k & l & H%elem_of_map_to_list & E). apply n. by exists (k, l).
Defined.

(** The names of objects hold no slash. *)
Definition slash_free_names (c : cluster) : Prop :=
  ∀ k s, subscriptions c !! k = Some s →
    slash_free (Namespace s) = true ∧ slash_free (Name s) = true.

Lemma wanted_elem c ns name si :
  si ∈ wanted r c ns name ↔
  (∃ k, subscriptions c !! k = Some (si_sub si)) ∧ deleting (si_sub si) = false
  ∧ references (si_sub si) (model_key_of ns name) = true
  ∧ ns_allowed r c (Namespace (si_sub si)) = true
  ∧ contribution ns name (si_sub si) (ModelRefs (Spec (si_sub si))) = Some si.
Proof.
  unfold wanted. rewrite list_elem_of_omap. unfold allowed_subs.
  setoid_rewrite filter_bool_elem_of. setoid_rewrite live_subs_elem. split.
  - intros (s & (((k & E) & ? & ?) & ?) & Hc).
    pose proof (contribution_Some _ _ _ _ _ Hc) as [<- _]. split_and!; eauto.
  - intros ((k & E) & ? & ? & ? & Hc). exists (si_sub si). split_and!; eauto.
Qed.

Lemma limit_predicate ns name sub refs si :
  contribution ns name sub refs = Some si →
  predicate (limit_of si) = when_selected (scoped_ref sub ns name).
Proof.
  intros H. apply contribution_Some in H as (E1 & _ & E2 & E3 & _).
  unfold limit_of, modelScopedRef, scoped_ref. cbn. by rewrite E1, E2, E3.
Qed.

(** The policy of a model, where it has one, does not limit a subscription that
    is being deleted or has nothing to contribute to it. *)
Definition released (s : MaaSSubscription) (ns name : string) (c : cluster) : Prop :=
  well_keyed c → slash_free_names c →
  (∃ k, subscriptions c !! k = Some s) →
  deleting s = true ∨ contribution ns name s (ModelRefs (Spec s)) = None →
  (∃ rn, routable c (ns, name) rn) ∨ ¬ model_live c (ns, name) →
  ∀ t, policies c !! trlp_key ns name = Some t → managed t = true →
       model_policy ns name t = true → ¬ mentions t s ns name.

Lemma outcome_released s ns name c c' :
  only_policies c c' → trlp_outcome r ns name c c' → released s ns name c'.
Proof.
  intros Honly Hout Hkeyed Hnames [k Hs] Hdel Hmodel t Ht Hm Hp Hment.
  rewrite Honly in Hkeyed, Hnames, Hs, Hmodel.
  change (well_keyed c) in Hkeyed. change (slash_free_names c) in Hnames.
  change (subscriptions c !! k = Some s) in Hs.
  change ((∃ rn, routable c (ns, name) rn) ∨ ¬ model_live c (ns, name)) in Hmodel.
  destruct Hout as [_ [_ Hgone]|Hlive Hno _|t0 rn0 _ Ht0 Hm0 ->
                   |subs t0 rn Hroute [Hsubs _] _ Ht0 Hspec _ _ _].
  - apply Hgone in Ht. rewrite Hp, Hm in Ht. done.
  - destruct Hmodel as [[rn Hr]|?]; [|done]. by apply (Hno rn).
  - congruence.
  - assert (t0 = t) as -> by congruence. destruct Hment as (k' & l & Hl & Hpred).
    rewrite Hspec in Hl. apply limitsMap_lookup_Some in Hl as (si & Hsi & _ & ->).
    apply Hsubs, wanted_elem in Hsi as ((k2 & E2) & Hd2 & _ & _ & Hc).
    rewrite (limit_predicate _ _ _ _ _ Hc) in Hpred.
    destruct (Hnames _ _ Hs), (Hnames _ _ E2).
    apply when_selected_inj, scoped_ref_inj in Hpred as [En EN]; [|done..].
    pose proof (Hkeyed _ _ Hs) as ->. pose proof (Hkeyed _ _ E2) as ->.
    rewrite En, EN in E2. destruct Hdel; congruence.
Qed.

(** Deleting policies, or writing the one of another model, keeps that. *)
Lemma effect_released s ns name ns' name' c c' :
  trlp_effect ns' name' c c' → (ns, name) ≠ (ns', name') →
  released s ns name c → released s ns name c'.
Proof.
  intros He Hne Hrel. pose proof (trlp_effect_only _ _ _ _ He) as Honly.
  intros H1 H2 H3 Hdel H4 t Ht. rewrite Honly in H1, H2, H3, H4.
  apply (Hrel H1 H2 H3 Hdel H4). destruct He as [Hd|t' -> _ _ _].
  - by eapply deletes_lookup.
  - cbn [policies set_policies] in Ht. rewrite lookup_insert_ne in Ht; [done|].
    unfold trlp_key, policyName. intros [= E1 E2]. apply Hne. congruence.
Qed.

Lemma deletes_released s ns name P c c' :
  deletes P c c' → released s ns name c → released s ns name c'.
Proof.
  intros Hd Hrel. pose proof (proj1 Hd) as Honly.
  intros H1 H2 H3 Hdel H4 t Ht. rewrite Honly in H1, H2, H3, H4.
  apply (Hrel H1 H2 H3 Hdel H4). by eapply deletes_lookup.
Qed.

Lemma released_before s ns name c c1 :
  only_policies c c1 → released s ns name c1 →
  well_keyed c → slash_free_names c →
  (∃ k, subscriptions c !! k = Some s) →
  deleting s = true ∨ contribution ns name s (ModelRefs (Spec s)) = None →
  (∃ rn, routable c (ns, name) rn) ∨ ¬ model_live c (ns, name) →
  ∀ t, policies c1 !! trlp_key ns name = Some t → managed t = true →
       model_policy ns name t = true → ¬ mentions t s ns name.
Proof.
  intros Honly Hrel H1 H2 H3 Hdel H4. apply Hrel; [..|done|]; by rewrite Honly.
Qed.

Lemma models_released s l w :
  let f ref := reconcileTRLPForModel r (ref_Namespace ref) (ref_Name ref) in
  (each f l w).1 = Ok () →
  ∀ ref, ref ∈ l → released s (ref_Namespace ref) (ref_Name ref) (state (each f l w).2).
Proof.
  intros f Hok. apply (each_establishes f (λ ref c,
    released s (ref_Namespace ref) (ref_Name ref) c)); [..|done].
  - intros ref w' _ Hf.
    destruct (reconcileTRLP_run r (ref_Namespace ref) (ref_Name ref) w') as [He Ho].
    eapply outcome_released; [by eapply trlp_effect_only|by apply Ho].
  - intros x y w' _ _ Hf Hrel.
    destruct (reconcileTRLP_run r (ref_Namespace x) (ref_Name x) w') as [He Ho].
    destruct (decide ((ref_Namespace y, ref_Name y) = (ref_Namespace x, ref_Name x)))
      as [[= -> ->]|Hne].
    + eapply outcome_released; [by eapply trlp_effect_only|by apply Ho].
    + by eapply effect_released.
Qed.

(** ** Cleaning up *)

Lemma cleanup_deletes sub w :
  ∃ P, deletes P (state w) (state (cleanupStaleTRLPs sub w).2).
Proof.
  exists (λ _, true). revert w.
  change (respects (deletes (λ _, true)) (cleanupStaleTRLPs sub)).
  unfold cleanupStaleTRLPs. apply respects_try; [apply _..| |].
  { eapply respects_reads, list_policies_reads. apply _. }
  intros items. apply respects_each; [apply _..|]. intros [k t]. cbn.
  destruct (stale_model sub k t) as [[ns name]|]; [|apply respects_ret; apply _].
  apply respects_bind; [apply _| |].
  - intros w. destruct (deleteModelTRLP_run ns name w) as [H _].
    by eapply deletes_mono, H.
  - intros x. apply respects_ret. apply _.
Qed.

(** A policy of the controller with the labels it writes. *)
Definition labelled (t : Trlp) : bool :=
  has_label t label_managed_by "maas-controller"
  && has_label t label_part_of "maas-subscription"
  && (at_key (t_labels t) label_model_namespace != "").

Lemma labelled_model_policy t :
  labelled t = true → at_key (t_labels t) label_model ≠ "" →
  model_policy (at_key (t_labels t) label_model_namespace)
    (at_key (t_labels t) label_model) t = true.
Proof.
  unfold labelled, model_policy, has_label, at_key. intros H Hm. destruct_bools.
  destruct (t_labels t !! label_model); [|done].
  destruct (t_labels t !! label_model_namespace); [|done]. cbn.
  rewrite !andb_true_iff, !bool_decide_eq_true. split_and!; congruence.
Qed.

(** After a cleanup no policy of a model the subscription does not name lists
    it as a contributor. *)
Lemma cleanup_run sub w :
  (cleanupStaleTRLPs sub w).1 = Ok () →
  ∀ k t, policies (state (cleanupStaleTRLPs sub w).2) !! k = Some t →
    managed t = true → labelled t = true → stale_model sub k t = None.
Proof.
  unfold cleanupStaleTRLPs. rewrite run_try.
  match goal with |- context [list_policies ?test w] =>
    destruct (list_policies_reads test w) as [E Hl];
    destruct (list_policies test w).1 as [items|e]; [|done];
    set (w1 := (list_policies test w).2) in *
  end.
  set (f := λ kt : key * Trlp, match stale_model sub kt.1 kt.2 with
                               | Some (ns, name) => _ | None => _ end).
  assert (∀ x w0, deletes (λ _, true) (state w0) (state (f x w0).2)) as Hf.
  { intros [k t] w0. unfold f. cbn [fst snd].
    destruct (stale_model sub k t) as [[ns name]|]; [|done].
    rewrite bind_run. eapply deletes_mono; [|apply (proj1 (deleteModelTRLP_run ns name w0))].
    done. }
  intros Hok k t Ht Hm Hlab.
  assert (deletes (λ _, true) (state w1) (state (each f items w1).2)) as Hd.
  { apply (respects_each (deletes (λ _, true))); [apply _..|]. intros x w0. apply Hf. }
  pose proof (deletes_lookup _ _ _ _ _ Hd Ht) as Ht1. rewrite E in Ht1.
  assert ((k, t) ∈ items) as Hin.
  { apply (listed_elem _ _ _ _ _ Hl). split; [done|].
    unfold labelled in Hlab. destruct_bools. cbn. by rewrite H, H1. }
  destruct (stale_model sub k t) as [[ns name]|] eqn:Hstale; [exfalso|done].
  assert (policies (state (each f items w1).2) !! k ≠ Some t) as Hgone; [|done].
  apply (each_establishes f (λ x c, (k, t) = x → policies c !! k ≠ Some t)
    items w1) with (x := (k, t)); try done.
  - intros x w0 _ Hx <-. unfold f in *. cbn [fst snd] in *. rewrite Hstale in *.
    rewrite bind_run in *. cbn in Hx |- *.
    destruct (deleteModelTRLP_run ns name w0) as [_ Hall].
    destruct (deleteModelTRLP ns name w0).1 as [[]|]; [|done].
    destruct (Hall eq_refl) as [_ Hno]. intros Ht'. apply Hno in Ht'.
    rewrite Hm, andb_true_r in Ht'.
    unfold stale_model in Hstale. case_bool_decide as Hname; [done|].
    rewrite bool_decide_eq_false_2 in Hstale.
    2: { unfold labelled in Hlab. by destruct_bools. }
    case_match; [done|]. case_match; [|done]. injection Hstale as <- <-.
    by rewrite labelled_model_policy in Ht'.
  - intros x y w0 _ _ _ Hy Ey Ht'. apply (Hy Ey). exact (deletes_lookup _ _ _ _ _ (Hf x w0) Ht').
Qed.

(** ** Deletion *)

Lemma ref_key_inj x y :
  slash_free (ref_Namespace x) = true → slash_free (ref_Namespace y) = true →
  ref_key x = ref_key y → model_key x = model_key y.
Proof.
  unfold slash_free, ref_key, model_key. intros Hx Hy E. destruct_bools.
  apply app_str_sep_inj in E as [-> ->]; done.
Qed.

Lemma models_only l w :
  let f ref := reconcileTRLPForModel r (ref_Namespace ref) (ref_Name ref) in
  only_policies (state w) (state (each f l w).2).
Proof.
  intros f. apply (respects_each only_policies); [apply _..|]. intros ref w0.
  destruct (reconcileTRLP_run r (ref_Namespace ref) (ref_Name ref) w0) as [He _].
  exact (trlp_effect_only _ _ _ _ He).
Qed.

(** Nothing of a subscription being deleted is updated unless its models have
    been released and its stale policies cleaned up. *)
Lemma handleDeletion_run sub w :
  let c' := state (handleDeletion r sub w).2 in
  subscriptions c' = subscriptions (state w)
  ∨ ∃ c1, only_policies (state w) c1 ∧ policies c' = policies c1
    ∧ (∀ ref, ref ∈ distinct_refs [] (ModelRefs (Spec sub)) →
         released sub (ref_Namespace ref) (ref_Name ref) c1)
    ∧ ∀ k t, policies c1 !! k = Some t → managed t = true → labelled t = true →
             stale_model sub k t = None.
Proof.
  cbv zeta. unfold handleDeletion. case_match; [|by left].
  rewrite run_try. set (f := λ ref, reconcileTRLPForModel _ _ _).
  set (refs := distinct_refs _ _).
  pose proof (models_only refs w) as Honly. pose proof (models_released sub refs w) as Hrel.
  cbv zeta in Honly, Hrel. change (each (λ ref, _) refs w) with (each f refs w) in Honly, Hrel.
  destruct (each f refs w) as [[[]|e] w1]; cbn [fst snd] in *;
    [|left; by rewrite Honly].
  specialize (Hrel eq_refl). rewrite run_try.
  destruct (cleanup_deletes sub w1) as [P Hd].
  pose proof (cleanup_run sub w1) as Hclean.
  destruct (cleanupStaleTRLPs sub w1) as [[[]|e] w2]; cbn [fst snd] in *.
  2: { left. rewrite (proj1 Hd), Honly. done. }
  right. exists (state w2). split_and!.
  - etrans; [exact Honly|apply Hd].
  - rewrite bind_run. unfold update_finalizers. cbn [snd].
    match goal with |- context [write ?g w2] =>
      destruct (write_run g w2) as [[E _]|E] end; [cbn; by rewrite E|].
    destruct (subscriptions (state w2) !! _); [|done]. cbn.
    injection E as E. by rewrite <-E.
  - intros ref Href. eapply deletes_released; [done|]. by apply Hrel.
  - intros k t. by apply Hclean.
Qed.

(** ** The recorded phase *)

Lemma correct_statuses_id ms ts :
  (∀ t, t ∈ ts → st_Reason (trlp_ref t) ≠ ReasonBackendNotReady) →
  correct_statuses ms ts = ms.
Proof.
  intros H. unfold correct_statuses.
  transitivity (id <$> ms); [|apply list_fmap_id].
  apply list_fmap_ext. intros i s _. unfold correct_status.
  destruct (st_Ready s); [|done].
  destruct (backendNotReady ts !! _) eqn:E; [|done]. exfalso.
  assert (is_Some (backendNotReady ts !! (st_Namespace s +:+ "/" +:+ st_Name s)))
    as (t & Ht & Hr & _)%backendNotReady_lookup by (rewrite E; by eexists).
  by apply (H t).
Qed.

(** The statuses read for the references of a subscription. *)
Definition models_read (c : cluster) (refs : list ModelSubscriptionRef)
    (ms : list ResourceRefStatus) : Prop :=
  Forall2 (λ ref s, (st_Name s = ref_Name ref ∧ st_Namespace s = ref_Namespace ref)
    ∧ (st_Ready s = true → is_Some (models c !! model_key ref))
    ∧ (¬ unreliable → is_Some (models c !! model_key ref) → st_Ready s = true)) refs ms.
Definition policies_read (c : cluster) (refs : list ModelSubscriptionRef)
    (ts : list TokenRateLimitStatus) : Prop :=
  Forall2 (λ ref t, trlp_Model t = ref_Name ref
    ∧ (st_Reason (trlp_ref t) = ReasonBackendNotReady →
         st_Namespace (trlp_ref t) = ref_Namespace ref ∧ st_Ready (trlp_ref t) = false)
    ∧ (st_Ready (trlp_ref t) = true → healthy c ref)
    ∧ (¬ unreliable → healthy c ref → st_Ready (trlp_ref t) = true)) refs ts.

Lemma read_observed c c' refs ms ts :
  models_read c refs ms → policies_read c' refs ts → observed refs ms ts.
Proof.
  unfold models_read, policies_read. intros H1 H2.
  split; (eapply Forall2_impl; [eassumption|]); naive_solver.
Qed.

(** The phase of what was read is Active exactly when all models are healthy. *)
Lemma phase_active c c' refs ms ts :
  ¬ unreliable → models c' = models c → names_tell_apart refs →
  models_read c refs ms → policies_read c' refs ts →
  (deriveFinalPhase (correct_statuses ms ts) ts).1 = PhaseActive ↔
  refs ≠ [] ∧ ∀ ref, ref ∈ refs → healthy c' ref.
Proof.
  intros Hrel Hmodels Hapart Hms Hts.
  pose proof (read_observed _ _ _ _ _ Hms Hts) as Hobs.
  destruct (deriveFinalPhase_spec (correct_statuses ms ts) ts) as [-> _];
    [by eapply correct_statuses_no_issue|].
  assert (correct_statuses ms ts ≠ [] ↔ refs ≠ []) as ->.
  { unfold correct_statuses. destruct ms; destruct refs; try done;
      apply Forall2_length in Hms; done. }
  split.
  - intros (Hne & _ & Hall). split; [done|]. intros ref Href.
    destruct (Forall2_elem_l _ _ _ _ Hts Href) as (t & Ht & _ & _ & H & _). auto.
  - intros [Hne Hall].
    assert (∀ t, t ∈ ts → st_Ready (trlp_ref t) = true) as Hready.
    { intros t Ht. destruct (Forall2_elem_r _ _ _ _ Hts Ht) as (ref & Href & _ & _ & _ & H).
      auto. }
    rewrite correct_statuses_id.
    2: { intros t Ht Hr. destruct (Forall2_elem_r _ _ _ _ Hts Ht)
           as (ref & Href & _ & H & _). destruct (H Hr) as [_ Hf].
         by rewrite Hready in Hf. }
    split_and!; [done| |done]. intros s Hs.
    destruct (Forall2_elem_r _ _ _ _ Hms Hs) as (ref & Href & _ & _ & H).
    apply H; [done|]. rewrite <-Hmodels.
    destruct (Hall ref Href) as (rn & t & (m & Hm & _) & _). by eexists.
Qed.

Lemma reconcilePolicies_only sub w :
  only_policies (state w) (state (reconcileTokenRateLimitPolicies r sub w).2).
Proof.
  unfold reconcileTokenRateLimitPolicies. rewrite run_try.
  pose proof (models_only (distinct_refs [] (ModelRefs (Spec sub))) w) as H.
  cbv zeta in H. etrans; [exact H|].
  destruct (each _ _ w).1 as [[]|e]; [|done].
  match goal with |- only_policies (state ?w1) _ =>
    destruct (cleanup_deletes sub w1) as [P Hd]; apply Hd end.
Qed.

(** Reconciling the policies of a subscription: those of its models release it
    where it has nothing to contribute. *)
Lemma reconcilePolicies_released sub s w :
  (reconcileTokenRateLimitPolicies r sub w).1 = Ok () →
  ∀ ref, ref ∈ distinct_refs [] (ModelRefs (Spec sub)) →
    released s (ref_Namespace ref) (ref_Name ref)
      (state (reconcileTokenRateLimitPolicies r sub w).2).
Proof.
  unfold reconcileTokenRateLimitPolicies. rewrite run_try.
  pose proof (models_released s (distinct_refs [] (ModelRefs (Spec sub))) w) as H.
  cbv zeta in H. destruct (each _ _ w) as [[[]|e] w1]; [|done]. cbn [fst snd] in *.
  intros _ ref Href. destruct (cleanup_deletes sub w1) as [P Hd].
  eapply deletes_released; [exact Hd|]. by apply H.
Qed.

(** What [reconcile_spec] records, when nothing fails. *)
Lemma reconcile_spec_records sub w s :
  (∀ n, api_fault n = None) →
  subscriptions (state w) !! (Namespace sub, Name sub) = Some s →
  (reconcile_spec r sub w).1 = Ok () →
  let c' := state (reconcile_spec r sub w).2 in
  ∃ st ms ts,
    subscriptions c' !! (Namespace sub, Name sub) = Some (set_Status s st)
    ∧ Phase st = (deriveFinalPhase (correct_statuses ms ts) ts).1
    ∧ models_read (state w) (distinct_refs [] (ModelRefs (Spec sub))) ms
    ∧ policies_read c' (distinct_refs [] (ModelRefs (Spec sub))) ts
    ∧ ∃ c1, only_policies (state w) c1 ∧ policies c' = policies c1
      ∧ (existsb st_Ready ms = true →
         ∀ s' ref, ref ∈ distinct_refs [] (ModelRefs (Spec sub)) →
           released s' (ref_Namespace ref) (ref_Name ref) c1).
Proof.
  intros Hrel Hs. cbv zeta. unfold reconcile_spec.
  step_reads (collect_reads _ _ (distinct_refs [] (ModelRefs (Spec sub))) model_status_reads)
    as ms E1 Hms.
  cbv zeta. set (sub1 := with_models sub ms).
  set (work := if existsb _ ms then reconcileTokenRateLimitPolicies _ _ else _).
  assert (only_policies (state w0) (state (work w0).2)) as Honly.
  { unfold work. case_match; [apply reconcilePolicies_only|].
    destruct (cleanup_deletes sub1 w0) as [P Hd]. apply Hd. }
  assert ((work w0).1 = Ok () → existsb st_Ready ms = true → ∀ s' ref,
    ref ∈ distinct_refs [] (ModelRefs (Spec sub)) →
    released s' (ref_Namespace ref) (ref_Name ref) (state (work w0).2)) as Hwork.
  { unfold work. intros Hok Hv s' ref Href. rewrite Hv in Hok |- *.
    by apply (reconcilePolicies_released sub1 s' w0). }
  rewrite bind_run. destruct (work w0) as [[[]|e] w1]; cbn [fst snd] in *.
  2: { rewrite bind_run. done. }
  step_reads (collect_reads _ _ (distinct_refs [] (ModelRefs (Spec sub1))) policy_status_reads)
    as ts E2 Hts.
  destruct (deriveFinalPhase _ ts) as [phase msg] eqn:Hphase.
  intros _. rewrite bind_run. cbn [snd].
  match goal with |- context [updateStatus ?sub2 phase msg ?snap w2] =>
    destruct (updateStatus_run sub2 phase msg snap w2 s) as (st & Hst & Hstate)
  end; [done|rewrite E2, Honly, E1; exact Hs|].
  exists st, ms, ts. cbn in Hstate |- *.
  assert (subscriptions (state w2) !! (Namespace sub, Name sub) = Some s) as Hs2
    by (by rewrite E2, Honly, E1).
  assert (policies_read (state w2) (distinct_refs [] (ModelRefs (Spec sub))) ts) as Hts2
    by (by rewrite E2).
  rewrite Hphase. destruct Hst as (HP & _). split_and!; [|done|done| |].
  - destruct Hstate as [[-> [<-|[n [? Hn]]]] | ->].
    + by rewrite set_Status_same.
    + by rewrite Hrel in Hn.
    + apply lookup_insert_eq.
  - by destruct Hstate as [[-> _] | ->].
  - exists (state w1). split_and!; [by rewrite <-E1| |by apply Hwork].
    transitivity (policies (state w2)); [|by rewrite E2].
    by destruct Hstate as [[-> _] | ->].
Qed.

(** When nothing fails, a live subscription of a tenant namespace gets to
    [reconcile_spec] with its finalizer in place. *)
Lemma Reconcile_live w s :
  (∀ n, api_fault n = None) →
  let k := (Namespace s, Name s) in
  subscriptions (state w) !! k = Some s → deleting s = false →
  ns_allowed r (state w) (Namespace s) = true → Spec s ≠ zero_spec →
  ∃ s1 w2, Reconcile r k w = reconcile_spec r s1 w2 ∧ same_object s s1
    ∧ subscriptions (state w2) !! k = Some s1
    ∧ maasSubscriptionFinalizer ∈ Finalizers s1
    ∧ only_finalizers (state w) (state w2)
    ∧ reconcile_step k (state w) (state w2).
Proof.
  intros Hrel k Hs Hlive Hns Hspec.
  assert (¬ unreliable) as Hr by (intros [n [? Hn]]; by rewrite Hrel in Hn).
  unfold Reconcile.
  step_reads (get_in_reads subscriptions k) as [s0|[| |msg]] E1 H; [|congruence|done..].
  assert (s0 = s) as -> by congruence. rewrite Hlive. unfold try_bind at 1.
  step_reads (tenantNamespaceAllowed_reads r (Namespace s)) as [b|e] E2 Hb; [|done].
  rewrite E1 in Hb. assert (b = true) as -> by congruence. cbn [negb].
  rewrite bool_decide_eq_false_2 by done. rewrite run_try.
  destruct (ensure_finalizer_reliable s w1 Hrel) as (s1 & Ho & Hsame & Hs1 & Hf & Hfin);
    [by rewrite E2, E1|done|]. rewrite Ho.
  pose proof (ensure_finalizer_step s w1) as Hstep.
  exists s1, (ensure_finalizer s w1).2. rewrite E2, E1 in Hfin, Hstep. by split_and!.
Qed.
End loops.

(** * The scan for duplicate priorities *)

Lemma conditionsSemanticallyEqual_true a b :
  conditionsSemanticallyEqual a b = true ↔ a = b.
Proof.
  destruct a as [[]|], b as [[]|]; cbn; try (split; [done|intros [=]]); [|done].
  rewrite !andb_true_iff, !bool_decide_eq_true, Z.eqb_eq. split.
  - intros ((((-> & ->) & ->) & ->) & ->). done.
  - by intros [= -> -> -> -> ->].
Qed.

(** Another subscription of the namespace with the same priority. *)
Definition same_priority (s s' : MaaSSubscription) : Prop :=
  Namespace s' = Namespace s ∧ Priority (Spec s') = Priority (Spec s).

Lemma duplicate_condition_status live s g :
  c_Type (duplicate_condition live s g) = ConditionSpecPriorityDuplicate
  ∧ (c_Status (duplicate_condition live s g) = "True" ↔
     ∃ s', s' ∈ live ∧ same_priority s s' ∧ subRef s' ≠ subRef s)
  ∧ (c_Status (duplicate_condition live s g) = "False" ↔
     ¬ ∃ s', s' ∈ live ∧ same_priority s s' ∧ subRef s' ≠ subRef s).
Proof.
  unfold duplicate_condition, same_priority.
  set (peers := List.filter _ _).
  assert (∀ k, k ∈ peers ↔ k ≠ subRef s ∧ ∃ s', s' ∈ live ∧ k = subRef s'
    ∧ Namespace s' = Namespace s ∧ Priority (Spec s') = Priority (Spec s)) as Hpeers.
  { intros k. unfold peers.
    rewrite filter_bool_elem_of, elem_of_sort_stable, list_elem_of_fmap.
    setoid_rewrite filter_bool_elem_of.
    setoid_rewrite andb_true_iff. setoid_rewrite bool_decide_eq_true.
    setoid_rewrite Z.eqb_eq. rewrite negb_true_iff, bool_decide_eq_false. naive_solver. }
  clearbody peers. split; [by destruct (_ =? _)|].
  destruct peers as [|k peers]; cbn.
  - assert (¬ ∃ s', s' ∈ live ∧ same_priority s s' ∧ subRef s' ≠ subRef s) as Hno.
    { intros (s' & Hl & [??] & Hne). apply (not_elem_of_nil (subRef s')).
      apply Hpeers. split; [done|]. eauto. }
    split; split; done.
  - assert (∃ s', s' ∈ live ∧ same_priority s s' ∧ subRef s' ≠ subRef s) as Hyes.
    { destruct (proj1 (Hpeers k) ltac:(left)) as (Hne & s' & Hl & -> & ? & ?).
      exists s'. done. }
    split; split; done.
Qed.

Section scan.
Context {api : ApiMachinery} {srv : ApiServer} {lawful : LawfulApiServer}.
Context (r : Reconciler).

Definition key_of (s : MaaSSubscription) : key := (Namespace s, Name s).

(** A subscription but for one condition of its status. *)
Definition rescanned (s s' : MaaSSubscription) : Prop :=
  same_object s s' ∧ Finalizers s' = Finalizers s
  ∧ Phase (Status s') = Phase (Status s)
  ∧ ModelRefStatuses (Status s') = ModelRefStatuses (Status s)
  ∧ TokenRateLimitStatuses (Status s') = TokenRateLimitStatuses (Status s)
  ∧ ∀ t, t ≠ ConditionSpecPriorityDuplicate →
         find_condition (Conditions (Status s')) t
         = find_condition (Conditions (Status s)) t.

#[global] Instance rescanned_refl : Reflexive rescanned.
Proof. intros s. by split_and!. Qed.
#[global] Instance rescanned_trans : Transitive rescanned.
Proof.
  intros s1 s2 s3 (A1&A2&A3&A4&A5&A6) (B1&B2&B3&B4&B5&B6).
  split_and!; try congruence; [by etrans|]. intros t Ht. rewrite B6, A6; done.
Qed.

Definition scanned (live : list MaaSSubscription) (s : MaaSSubscription) (c : cluster)
    : Prop :=
  ∃ s', subscriptions c !! key_of s = Some s' ∧ rescanned s s'
    ∧ find_condition (Conditions (Status s')) ConditionSpecPriorityDuplicate
      = Some (duplicate_condition live s (Generation s)).

Lemma scan_one_run live s w l :
  (∀ n, api_fault n = None) →
  subscriptions (state w) !! key_of s = Some l → rescanned s l → deleting s = false →
  let c' := state (scan_one live s w).2 in
  scanned live s c' ∧ ∀ k, k ≠ key_of s → subscriptions c' !! k = subscriptions (state w) !! k.
Proof.
  intros Hrel Hl Hres Hlive. cbv zeta. unfold scan_one.
  rewrite (run_bind _ _ _ _ _ (get_in_ok _ _ _ _ (Hrel _) Hl)).
  pose proof Hres as ((HN & HNs & HG & HD & HSp) & _). rewrite HD, Hlive. cbv zeta.
  set (d := duplicate_condition live s (Generation l)).
  assert (d = duplicate_condition live s (Generation s)) as Hd by (unfold d; by rewrite HG).
  destruct (conditionsSemanticallyEqual _ _) eqn:Heq.
  { apply conditionsSemanticallyEqual_true in Heq. split; [|done].
    exists l. rewrite <-Hd. done. }
  rewrite bind_run. unfold update_status, write, mbind, prog_bind, tick, get, put.
  cbn [ticks state fst snd]. rewrite Hrel. unfold key_of in *. rewrite Hl.
  cbn [ticks state fst snd]. split.
  - eexists. split; [apply lookup_insert_eq|]. split.
    + etrans; [exact Hres|]. split_and!; try done.
      intros t Ht. cbn. apply find_set_condition_ne.
      destruct (duplicate_condition_status live s (Generation l)) as [Ht' _].
      fold d in Ht'. by rewrite Ht'.
    + rewrite <-Hd. cbn.
      destruct (duplicate_condition_status live s (Generation l)) as [Ht _].
      fold d in Ht. rewrite <-Ht. apply find_set_condition.
  - intros k Hne. cbn. by rewrite lookup_insert_ne.
Qed.

(** The loop: what has been scanned stays scanned, the rest stays itself. *)
Lemma scan_all_run live todo w :
  (∀ n, api_fault n = None) →
  (∀ s s', s ∈ live → s' ∈ live → key_of s = key_of s' → s = s') →
  (∀ s, s ∈ live → deleting s = false) →
  (∀ s, s ∈ todo → s ∈ live) →
  (∀ s, s ∈ live → ∃ l, subscriptions (state w) !! key_of s = Some l ∧ rescanned s l) →
  let c' := state (collect (scan_one live) todo w).2 in
  (∀ s, s ∈ live → s ∈ todo ∨ scanned live s (state w) → scanned live s c').
Proof.
  intros Hrel Hinj Hlive. revert w. induction todo as [|x todo IH]; intros w Htodo Hcur.
  { intros c' s Hs [[]%not_elem_of_nil|?]; done. }
  cbv zeta. cbn [collect]. rewrite bind_run.
  assert (x ∈ live) as Hx by (apply Htodo; left).
  destruct (Hcur x Hx) as (l & Hl & Hres).
  destruct (scan_one_run live x w l Hrel Hl Hres (Hlive x Hx)) as [Hscan Hother].
  set (w1 := (scan_one live x w).2) in *. rewrite bind_run. cbn [snd].
  intros s Hs Hor. apply IH; [intros ??; apply Htodo; by right| |done|].
  - intros s' Hs'. destruct (decide (key_of s' = key_of x)) as [Hk|Hne].
    + rewrite (Hinj s' x Hs' Hx Hk). destruct Hscan as (l' & ? & ? & _). eauto.
    + rewrite Hother by done. by apply Hcur.
  - destruct (decide (key_of s = key_of x)) as [Hk|Hne].
    + right. by rewrite (Hinj s x Hs Hx Hk).
    + destruct Hor as [[->|Ht]%elem_of_cons|Hsc]; [done|by left|right].
      destruct Hsc as (l' & ? & ?). exists l'. by rewrite Hother.
Qed.

(** The subscriptions scanned are the live ones of the tenant namespaces. *)
Definition scan_set (c : cluster) (s : MaaSSubscription) : Prop :=
  subscriptions c !! key_of s = Some s ∧ deleting s = false
  ∧ ns_allowed r c (Namespace s) = true.

Lemma scan_run w :
  (∀ n, api_fault n = None) → well_keyed (state w) →
  ∃ live, (∀ s, s ∈ live ↔ scan_set (state w) s)
    ∧ ∀ s, s ∈ live → scanned live s (state (scanForDuplicatePriority r w).2).
Proof.
  intros Hrel Hkeyed.
  assert (¬ unreliable) as Hr by (intros [n [? Hn]]; by rewrite Hrel in Hn).
  unfold scanForDuplicatePriority.
  step_reads (list_in_reads subscriptions (λ _ _, true)) as [items|[| |msg]] E1 Hitems;
    [|done..].
  step_reads (filterSubscriptions_reads r items.*2) as allowed E2 [_ Hallowed].
  rewrite E1 in Hallowed. rewrite (Hallowed Hr). clear Hallowed.
  set (live := List.filter _ _). rewrite bind_run. cbn [snd].
  assert (∀ s, s ∈ live ↔ scan_set (state w) s) as Hset.
  { intros s. unfold live, allowed_subs, scan_set.
    rewrite !filter_bool_elem_of, negb_true_iff, list_elem_of_fmap.
    assert ((∃ y, s = y.2 ∧ y ∈ items) ↔ subscriptions (state w) !! key_of s = Some s) as ->;
      [|tauto]. split.
    - intros ([k s'] & -> & H). apply (listed_elem _ _ _ _ _ Hitems) in H as [H _].
      cbn. pose proof (Hkeyed _ _ H) as ->. done.
    - intros H. exists (key_of s, s). split; [done|].
      by apply (listed_elem _ _ _ _ _ Hitems). }
  exists live. split; [done|]. intros s Hs.
  apply scan_all_run; [done| | |done| |done|by left].
  - intros x y Hx Hy Hk. apply Hset in Hx as [Hx _], Hy as [Hy _].
    rewrite Hk in Hx. congruence.
  - intros x Hx. by apply Hset in Hx as (_ & ? & _).
  - intros x Hx. apply Hset in Hx as (Hx & _). exists x. by rewrite E2, E1.
Qed.
End scan.
