(* ===== verification/SubscriptionExamples.v ===== *)
(** A concrete API server and concrete clusters for the subscription controller. *)
From S2P Require Import Prelude GoStrings Unstructured Runtime.
From S2P Require Import SpecCompare MaasTypes TokenLimits Cluster ControllerHelpers.
From S2P Require Import SubscriptionController SubscriptionReconcile.
From S2P Require Import ControllerFacts.
Import V1 Limits Cluster Helpers SubController SubStatus SubReconcile.

Module DocCluster.

(** ** The server *)

Fixpoint replace_condition (l : list Condition) (c : Condition) : list Condition :=
  match l with
  | [] => [c]
  | c' :: l' => if c_Type c' == c_Type c then c :: l' else c' :: replace_condition l' c
  end.

Fixpoint map_set (k : string) (v : value) (m : obj) : obj :=
  match m with
  | [] => [(k, v)]
  | (k', v') :: m' => if k' == k then (k, v) :: m' else (k', v') :: map_set k v m'
  end.

(** Paths of one field. *)
Definition set_nested (o m : obj) (path : list string) : result string obj :=
  match path with
  | [k] => Ok (map_set k (VMap m) o)
  | _ => Err "unsupported path"
  end.

(** A server on which some calls fail, that lists in the order of the keys. *)
Definition server (fault : nat → option (api_error * bool)) : ApiServer := {|
  api_fault := fault;
  list_order _ _ l := l;
  error_text _ := "error";
  set_controller owner k :=
    match owner with
    | None => Ok (Some k)
    | Some k' => if k' == k then Ok (Some k) else Err "already owned"
    end;
  add_finalizer l x := if contains l x then l else l ++ [x];
  remove_finalizer l x := List.filter (λ y, y != x) l;
  find_condition l t := find_first (λ c, c_Type c == t) l;
  set_condition := replace_condition;
  next_generation g old new :=
    match old, new with
    | Some old, Some new => if SpecCompare.same old new then g else (g + 1)%Z
    | _, _ => (g + 1)%Z
    end;
  SetNestedMap := set_nested;
|}.

Lemma find_replace l c :
  find_first (λ c', c_Type c' == c_Type c) (replace_condition l c) = Some c.
Proof.
  induction l as [|c' l IH]; simpl.
  - by rewrite bool_decide_eq_true_2.
  - case_bool_decide as E; simpl.
    + by rewrite bool_decide_eq_true_2.
    + by rewrite bool_decide_eq_false_2.
Qed.

Lemma find_replace_ne l c t :
  t ≠ c_Type c →
  find_first (λ c', c_Type c' == t) (replace_condition l c)
  = find_first (λ c', c_Type c' == t) l.
Proof.
  intros Hne. induction l as [|c' l IH]; simpl.
  - by rewrite bool_decide_eq_false_2.
  - case_bool_decide as E; simpl.
    + rewrite (bool_decide_eq_false_2 (c_Type c = t)) by done.
      by rewrite bool_decide_eq_false_2 by congruence.
    + by rewrite IH.
Qed.

Lemma map_get_set k v m : map_get k (map_set k v m) = Some v.
Proof.
  induction m as [|[k' v'] m IH]; simpl; [by rewrite bool_decide_eq_true_2|].
  case_bool_decide as E; simpl.
  - by rewrite bool_decide_eq_true_2.
  - by rewrite bool_decide_eq_false_2.
Qed.

Lemma map_get_set_ne k k' v m : k' ≠ k → map_get k' (map_set k v m) = map_get k' m.
Proof.
  intros Hne. induction m as [|[k'' v'] m IH]; simpl.
  - by rewrite bool_decide_eq_false_2.
  - destruct (decide (k'' = k)) as [->|]; simpl.
    + rewrite (bool_decide_eq_true_2 (k = k)) by done. simpl.
      by rewrite !bool_decide_eq_false_2.
    + rewrite (bool_decide_eq_false_2 (k'' = k)) by done. simpl. by rewrite IH.
Qed.

Lemma server_lawful fault :
  (∀ n e b, fault n = Some (e, b) → ∃ msg, e = Failure msg) →
  @LawfulApiServer (server fault).
Proof.
  intros Hfault. split; cbn.
  - done.
  - done.
  - done.
  - intros k. by rewrite bool_decide_eq_true_2.
  - intros l x y. destruct (contains l x) eqn:E.
    + apply contains_true in E. naive_solver.
    + rewrite elem_of_app, list_elem_of_singleton. naive_solver.
  - intros l x y. rewrite filter_bool_elem_of, negb_true_iff, bool_decide_eq_false.
    naive_solver.
  - apply find_replace.
  - apply find_replace_ne.
  - intros l t c (_ & H%bool_decide_eq_true)%find_first_Some. done.
  - intros g [old|] new H; [by rewrite H|done].
  - intros o v k. eexists. split; [done|]. split; [apply map_get_set|].
    intros k' Hne. by apply map_get_set_ne.
Qed.

Definition reliable : ApiServer := server (λ _, None).
(** One call times out. *)
Definition flaky (call : nat) : ApiServer :=
  server (λ n, if n =? call then Some (Failure "timeout", false) else None).

Lemma reliable_lawful : @LawfulApiServer reliable.
Proof. by apply server_lawful. Qed.

Lemma flaky_lawful call : @LawfulApiServer (flaky call).
Proof.
  apply server_lawful. intros n e b. destruct (n =? call); [|done].
  intros [= <- <-]. eauto.
Qed.

(** ** Clusters *)

Definition gateway : ParentRef := mkParent None None (Some "ingress") "maas-gateway".
Definition route : HTTPRoute := mkRoute ∅ [gateway] [] [].
Definition settings : Reconciler :=
  mkReconciler "models-as-a-service" true "maas-gateway" "ingress".
Definition tenant_labels : gmap string string := {[ LabelAIGatewayTenant := "t" ]}.

Definition limited (name ns : string) (trls : list TokenRateLimit) : ModelSubscriptionRef :=
  mkModelRef name ns trls None.
Definition subscription (ns name : string) (refs : list ModelSubscriptionRef)
    : MaaSSubscription :=
  mkSubscription name ns 1 false [maasSubscriptionFinalizer]
    (mkSpec ["users"] [] refs None 0) zero_status.
Definition of_subscriptions (subs : list MaaSSubscription) : gmap key MaaSSubscription :=
  list_to_map ((λ s, ((Namespace s, Name s), s)) <$> subs).

(** Kuadrant has accepted the policy. *)
Definition accepted_object : obj :=
  [("status", VMap [("conditions", VSlice [VMap [("type", VString "Accepted");
      ("status", VString "True")]])])].

(** A model of kind ExternalModel. *)
Definition external_ref (name : string) (deleting : bool) : MaaSModelRef :=
  mkModel 1 deleting [] (mkModelSpec "ExternalModel" name "" "") zero_model_status.

(** Two external models with their routes, in one namespace each. *)
Definition cluster_of (subs : list MaaSSubscription) (ps : gmap key Trlp)
    : cluster := {|
  subscriptions := of_subscriptions subs;
  models := list_to_map [(("llm", "granite"), external_ref "granite" false);
                         (("lab", "granite"), external_ref "granite" true);
                         (("llm", "mistral"), external_ref "mistral" false)];
  routes := list_to_map [(("llm", "maas-granite"), route); (("llm", "maas-mistral"), route)];
  external_models := ∅;
  policies := ps;
  namespaces := list_to_map [("a", tenant_labels); ("a-b", tenant_labels)];
  tenant_configs := list_to_map [("a", mkTenant ∅ ∅); ("a-b", mkTenant ∅ ∅)];
  legacy_tenants := ∅;
  aitenants := ∅;
  auth_crs := ∅;
  auth_policies := ∅;
  gateways := ∅;
  endpoint_slices := ∅;
  llmisvcs := ∅;
  legacy_external_models := ∅;
|}.

(** A policy that Kuadrant has accepted, before the controller updates it. *)
Definition old_policy (name : string) : Trlp :=
  mkTrlp (policy_labels "llm" name) ∅ (Some ("llm", "maas-" +:+ name))
    (mkTrlpSpec ("maas-" +:+ name) ∅) accepted_object.
Definition old_policies : gmap key Trlp :=
  list_to_map [(("llm", "maas-trlp-granite"), old_policy "granite");
               (("llm", "maas-trlp-mistral"), old_policy "mistral")].

Definition hour : list TokenRateLimit := [mkLimit 1000 "1h"].
Definition long : list TokenRateLimit := [mkLimit 1000 "9000h"].

Definition tenant : string := "models-as-a-service".
Definition alpha : MaaSSubscription := subscription tenant "alpha" [limited "granite" "llm" hour].
Definition beta : MaaSSubscription := subscription tenant "beta" [limited "granite" "llm" hour].

(** The same, with a window the CRD admits and the controller refuses. *)
Definition endless : MaaSSubscription :=
  subscription tenant "endless" [limited "granite" "llm" long].

(** Two subscriptions whose limit keys are the same. *)
Definition ab_c : MaaSSubscription := subscription "a-b" "c" [limited "granite" "llm" hour].
Definition a_bc : MaaSSubscription := subscription "a" "b-c" [limited "granite" "llm" hour].

(** Two models of the same name, one of which is being deleted. *)
Definition twins : MaaSSubscription :=
  subscription tenant "twins" [limited "granite" "llm" hour; limited "granite" "lab" hour].

(** Being deleted. *)
Definition leaving : MaaSSubscription :=
  mkSubscription "leaving" tenant 1 true [maasSubscriptionFinalizer]
    (mkSpec ["users"] [] [limited "granite" "llm" hour] None 0) zero_status.

Definition start (subs : list MaaSSubscription) : io cluster :=
  IO 0 (cluster_of subs old_policies).

Lemma of_subscriptions_lookup subs k s :
  of_subscriptions subs !! k = Some s → k = (Namespace s, Name s) ∧ s ∈ subs.
Proof.
  unfold of_subscriptions.
  intros (s' & [= -> ->] & H)%elem_of_list_to_map_2%list_elem_of_fmap. done.
Qed.

End DocCluster.
