(* ===== verification/SubscriptionControllerCorrectness.v ===== *)
(** The properties of the subscription controller: which limits a policy holds,
    what a reconcile leaves alone, what a deletion leaves behind, and what the
    phase of a subscription says. *)
From S2P Require Import Prelude GoStrings Sorting Unstructured Runtime.
From S2P Require Import MaasTypes TokenLimits Cluster ControllerHelpers.
From S2P Require Import SubscriptionController SubscriptionReconcile.
From S2P Require Import ControllerFacts SubscriptionPolicies.
From S2P Require Import SubscriptionModelFacts SubscriptionReconcileFacts.
From S2P Require Import SubscriptionReconcileFacts SubscriptionLoopFacts.
From S2P Require Import SubscriptionLoopFacts Trimming SubscriptionExamples.
From stdpp Require Import pretty.
Import V1 Limits Cluster Helpers SubController SubStatus SubReconcile DocCluster.

(** ** Limits and windows *)

(** The windows the CRD admits: a number up to 9999 and a unit. *)
Definition crd_window (v : Z) (u : ascii) : string := pretty v +:+ String u "".

Lemma windowPattern_crd v u :
  (1 <= v <= 9999)%Z → is_Some (unit_seconds u) →
  ∃ num k, windowPattern (crd_window v u) = Some (num, k)
    ∧ unit_seconds u = Some k ∧ parse_digits 0 num = v.
Proof.
  intros Hv [k Hu].
  assert (u ∈ ["s"; "m"; "h"]%char) as Hin.
  { unfold unit_seconds in Hu. repeat case_bool_decide; subst; try done;
      repeat (first [by left | right]). }
  assert (forallb (λ v, forallb (λ u,
      match windowPattern (crd_window v u), unit_seconds u with
      | Some (num, k), Some k' => (k =? k')%Z && (parse_digits 0 num =? v)%Z
      | _, _ => false
      end) ["s"; "m"; "h"]%char) (seqZ 1 9999) = true) as H by by_compute.
  rewrite forallb_elem_of in H. specialize (H v). rewrite elem_of_seqZ in H.
  specialize (H ltac:(lia)). rewrite forallb_elem_of in H. specialize (H u Hin).
  rewrite Hu in H. destruct (windowPattern _) as [[num k']|]; [|done].
  apply andb_true_iff in H as [->%Z.eqb_eq ?%Z.eqb_eq]. eauto.
Qed.

Lemma validate_crd_window limit v u k :
  (1 <= v <= 9999)%Z → unit_seconds u = Some k →
  validateTokenRateLimit limit (crd_window v u) = None ↔
  (1 <= limit <= maxTokenRateLimit ∧ v * k <= maxWindowSeconds)%Z.
Proof.
  intros Hv Hu.
  destruct (windowPattern_crd v u Hv ltac:(by rewrite Hu)) as (num & k' & Hw & Hu' & Hp).
  assert (k' = k) as -> by congruence.
  unfold validateTokenRateLimit. rewrite Hw. cbv zeta. rewrite Hp.
  destruct (Z.leb_spec limit 0), (Z.ltb_spec maxTokenRateLimit limit),
    (Z.ltb_spec maxWindowSeconds (v * k)); (split; [intros; try done; lia|]); try lia; done.
Qed.

(** ** The limits of a policy *)

Section properties.
Context {api : ApiMachinery} {srv : ApiServer} {lawful : LawfulApiServer}.
Context (r : Reconciler).

(** A live subscription of a tenant namespace contributes its limits to the
    policy of a model. *)
Definition contributes (c : cluster) (ns name : string) (s : MaaSSubscription)
    (si : subInfo) : Prop :=
  (∃ k, subscriptions c !! k = Some s) ∧ deleting s = false
  ∧ ns_allowed r c (Namespace s) = true
  ∧ contribution ns name s (ModelRefs (Spec s)) = Some si.

(** The keys of a policy's limits tell the subscriptions apart. *)
Definition keys_apart (c : cluster) : Prop :=
  ∀ k k' s s', subscriptions c !! k = Some s → subscriptions c !! k' = Some s' →
    safe_key s = safe_key s' → s = s'.

Lemma contribution_references ns name s refs si :
  contribution ns name s refs = Some si →
  contains ((λ ref, ref_Namespace ref +:+ "/" +:+ ref_Name ref) <$> refs)
    (model_key_of ns name) = true.
Proof.
  intros H. apply contribution_Some in H as (_ & Hin & <- & <- & _).
  apply contains_true, list_elem_of_fmap. exists (si_ref si). done.
Qed.

Lemma wanted_contributes c ns name si :
  si ∈ wanted r c ns name ↔ ∃ s, contributes c ns name s si.
Proof.
  rewrite wanted_elem. unfold contributes. split.
  - intros (?&?&?&?&?). exists (si_sub si). done.
  - intros (s & Hk & Hd & Ha & Hc). pose proof (contribution_Some _ _ _ _ _ Hc) as [-> _].
    split_and!; try done. eapply contribution_references, Hc.
Qed.

Lemma wanted_keys c ns name si si' :
  keys_apart c → si ∈ wanted r c ns name → si' ∈ wanted r c ns name →
  limit_key si = limit_key si' → si = si'.
Proof.
  intros Hapart H1 H2 Hk.
  apply wanted_elem in H1 as ((k1 & E1) & _ & _ & _ & C1).
  apply wanted_elem in H2 as ((k2 & E2) & _ & _ & _ & C2).
  pose proof (contribution_Some _ _ _ _ _ C1) as (_ & _ & _ & N1 & _).
  pose proof (contribution_Some _ _ _ _ _ C2) as (_ & _ & _ & N2 & _).
  apply limit_key_inj in Hk; [|congruence].
  rewrite (Hapart _ _ _ _ E1 E2 Hk) in C1. congruence.
Qed.

(** C8. When nothing fails and a model is reconciled successfully: a policy of it
    that is opted out of management stays as it is. A model that is gone or being
    deleted, or that has a route, no opted-out policy and no contributing
    subscription, has no managed policy left. A live model without a route is
    left as it was, unless nobody contributes and it has no managed policy left.
    With a route, contributing subscriptions and no opted-out policy, the policy
    of the model targets a route of the model and holds exactly one limit per
    contributing subscription, with its rates and its predicate, under its key,
    provided that keys tell subscriptions apart. *)
Theorem policy_limits_exact ns name w :
  (∀ n, api_fault n = None) →
  keys_apart (state w) →
  (reconcileTRLPForModel r ns name w).1 = Ok () →
  let c := state w in
  let c' := state (reconcileTRLPForModel r ns name w).2 in
  let routed := ∃ rn, routable c (ns, name) rn in
  let wanted := ∃ s si, contributes c ns name s si in
  let opted_out t := policies c !! trlp_key ns name = Some t ∧ managed t = false in
  let none_left := ∀ k t, policies c' !! k = Some t →
                     model_policy ns name t = true → managed t = false in
  (∀ t, opted_out t → policies c' !! trlp_key ns name = Some t)
  ∧ (¬ model_live c (ns, name) → none_left)
  ∧ (model_live c (ns, name) → ¬ routed → c' = c ∨ (¬ wanted ∧ none_left))
  ∧ (routed → (¬ ∃ t, opted_out t) → ¬ wanted → none_left)
  ∧ (routed → (¬ ∃ t, opted_out t) → wanted →
     ∃ t, policies c' !! trlp_key ns name = Some t
       ∧ routable c (ns, name) (targetName (t_spec t))
       ∧ ∀ k l, limits (t_spec t) !! k = Some l ↔
                ∃ s si, contributes c ns name s si ∧ k = limit_key si ∧ l = limit_of si).
Proof.
  intros Hrel Hapart Hok. cbv zeta.
  assert (¬ unreliable) as Hr by (intros [n [? Hn]]; by rewrite Hrel in Hn).
  destruct (reconcileTRLP_run r ns name w) as [Heff Hout]. specialize (Hout Hok).
  set (c' := state (reconcileTRLPForModel r ns name w).2) in *.
  split; [intros t [Ht Hm]; by eapply (trlp_effect_keeps _ _ _ _ Heff)|].
  assert (∀ rn, routable (state w) (ns, name) rn → model_live (state w) (ns, name))
    as Hlive by (intros rn (m & ? & ? & _); by exists m).
  destruct Hout as
    [Hgone [_ Hall]|Hl Hno E|t0 rn0 Hroute Ht0 Hm0 E
    |subs t rn Hroute [Hin Hperm] Hne Ht Hspec _ _ _].
  - assert (∀ k t, policies c' !! k = Some t → model_policy ns name t = true →
      managed t = false) as Hnone.
    { intros k t Ht Hp. pose proof (Hall k t Ht) as H. by rewrite Hp in H. }
    assert (model_live (state w) (ns, name) →
      ¬ ∃ s si, contributes (state w) ns name s si) as Hnot.
    { intros Hl (s & si & Hs). destruct Hgone as [?|[_ Hg]]; [done|].
      specialize (Hg Hr). apply (not_elem_of_nil si). rewrite Hg.
      apply wanted_contributes. eauto. }
    split_and!; [intros _; exact Hnone|intros; right; auto|intros _ _ _; exact Hnone|].
    intros [rn Hrn] _ Hw. destruct (Hnot (Hlive rn Hrn) Hw).
  - split_and!; [done|by left|by intros [rn ?%Hno]..].
  - split_and!; [|naive_solver..]. intros Hn. destruct Hn. eauto.
  - specialize (Hperm Hr).
    assert (∃ s si, contributes (state w) ns name s si) as Hw.
    { destruct subs as [|si subs]; [done|].
      destruct (proj1 (wanted_contributes (state w) ns name si)) as [s Hs];
        [apply Hin; left|]. eauto. }
    split_and!; [intros Hn; destruct Hn; eauto|naive_solver..|].
    intros _ _ _. exists t. rewrite Hspec. split_and!; [done|done|]. intros k l.
    cbn [limits]. rewrite limitsMap_lookup.
    2: { intros si si' Hsi Hsi'. apply (wanted_keys (state w) ns name); auto. }
    setoid_rewrite Hperm. setoid_rewrite wanted_contributes. naive_solver.
Qed.

(** C11. Whatever calls fail, a policy written by a successful reconcile of a model
    targets a route of the model and limits only live subscriptions of tenant
    namespaces that name the model, each with its own rates, and only if the
    route is attached to the gateway of each one's tenant. *)
Theorem written_policy_sound ns name w t :
  (reconcileTRLPForModel r ns name w).1 = Ok () →
  let c := state w in
  policies (state (reconcileTRLPForModel r ns name w).2) !! trlp_key ns name = Some t →
  policies c !! trlp_key ns name ≠ Some t →
  routable c (ns, name) (targetName (t_spec t))
  ∧ ∀ k l, limits (t_spec t) !! k = Some l →
    ∃ s si ref, contributes c ns name s si ∧ k = limit_key si ∧ l = limit_of si
      ∧ tenant_gateway r c (Namespace s) = Some ref
      ∧ attached_key c (targetName (t_spec t)) ns (gateway_key ref).
Proof.
  intros Hok. cbv zeta. intros Ht Hne.
  destruct (reconcileTRLP_run r ns name w) as [_ Hout]. specialize (Hout Hok).
  set (c' := state _) in *. destruct Hout as
    [_ [Hd _]|_ _ E|t0 rn0 _ _ _ E|subs t0 rn Hroute [Hin _] _ Ht0 Hspec _ _ Hatt].
  - apply (deletes_lookup _ _ _ _ _ Hd) in Ht. done.
  - rewrite E in Ht. done.
  - rewrite E in Ht. done.
  - assert (t0 = t) as -> by congruence. rewrite Hspec. split; [done|].
    cbn [limits targetName]. intros k l (si & Hsi & -> & ->)%limitsMap_lookup_Some.
    destruct (proj1 (wanted_contributes (state w) ns name si) (Hin si Hsi)) as [s Hs].
    pose proof Hs as (_ & _ & _ & Hc). apply contribution_Some in Hc as [E _].
    destruct (Hatt s) as (ref & ? & ?); [|exists s, si, ref; by split_and!].
    apply list_elem_of_fmap. exists si. split; [|done].
    by rewrite E.
Qed.

(** C10. Whatever calls fail, reconciling a subscription changes no other
    subscription and nothing but the finalizers and the status of its own, which
    goes only if it was being deleted; it changes no model, route, namespace or
    tenant; and a policy opted out of management stays exactly as it is. *)
Theorem Reconcile_confined k w :
  well_keyed (state w) →
  reconcile_step k (state w) (state (Reconcile r k w).2).
Proof. apply Reconcile_respects. Qed.

(** The entries of a comma-separated list. *)
Inductive entry (e : string) : string → Prop :=
  | entry_last : comma_free e = true → entry e e
  | entry_first rest : comma_free e = true → entry e (e +:+ "," +:+ rest)
  | entry_later x rest : entry e rest → entry e (x +:+ "," +:+ rest).

(** A list names [want] when one of its entries, trimmed, is it. *)
Definition names (value want : string) : Prop :=
  want ≠ "" ∧ ∃ e, entry e value ∧ TrimSpace e = want.

Lemma split_comma_later e x rest cur :
  e ∈ split_comma "" rest → e ∈ split_comma cur (x +:+ "," +:+ rest).
Proof.
  intros He. revert cur. induction x as [|ch x IH]; intros cur; cbn.
  - rewrite bool_decide_eq_true_2 by done. by right.
  - case_bool_decide; [right|]; apply IH.
Qed.

Lemma names_contains value want :
  names value want → annotationListContains value want = true.
Proof.
  intros (Hw & e & He & Ht). unfold annotationListContains.
  assert (e ∈ split_comma "" value) as Hin.
  { induction He as [Hc|rest Hc|x rest _ IH].
    - rewrite <-(app_nil_r_str e) at 2. rewrite split_comma_app by done. by left.
    - rewrite split_comma_app by done. cbn. by left.
    - by apply split_comma_later. }
  assert (value ≠ "") as Hv.
  { intros ->. apply list_elem_of_singleton in Hin as ->. done. }
  rewrite !bool_decide_eq_false_2 by done. apply existsb_elem_of.
  exists e. split; [done|]. by apply bool_decide_eq_true.
Qed.

Lemma model_policy_labelled ns name t :
  model_policy ns name t = true → ns ≠ "" →
  at_key (t_labels t) label_model = name ∧
  at_key (t_labels t) label_model_namespace = ns ∧ labelled t = true.
Proof.
  unfold model_policy, labelled, has_label. intros H Hns. destruct_bools.
  unfold at_key. rewrite H, H2. cbn. split_and!; [done..|].
  rewrite H0, H1, !bool_decide_eq_true_2, bool_decide_eq_false_2 by done. done.
Qed.

(** A policy that is not stale for a subscription belongs to one of its models
    or does not name it. *)
Lemma stale_model_None s k t ns name contributors :
  stale_model s k t = None →
  at_key (t_labels t) label_model = name →
  at_key (t_labels t) label_model_namespace = ns → ns ≠ "" → name ≠ "" →
  slash_free ns = true →
  (∀ ref, ref ∈ ModelRefs (Spec s) → slash_free (ref_Namespace ref) = true) →
  (∀ ref, ref ∈ ModelRefs (Spec s) → (ref_Namespace ref, ref_Name ref) ≠ (ns, name)) →
  t_annotations t !! annotation_subscriptions = Some contributors →
  ¬ names contributors (qualifiedName (Namespace s) (Name s))
  ∧ ¬ names contributors (Name s).
Proof.
  unfold stale_model. intros Hst <- <- Hns Hname Hslash Hrefs Hother Hann.
  rewrite !bool_decide_eq_false_2 in Hst by done.
  destruct (existsb _ _) eqn:Hex.
  - apply existsb_elem_of in Hex as (ref & Href & Heq%bool_decide_eq_true).
    destruct (Hother ref Href).
    specialize (Hrefs ref Href). unfold slash_free in *. destruct_bools.
    apply app_str_sep_inj in Heq as [-> ->]; done.
  - unfold at_key in Hst. rewrite Hann in Hst. cbn in Hst.
    destruct (_ || _) eqn:Hor; [done|]. apply orb_false_iff in Hor as [H1 H2].
    split; intros Hn%names_contains; congruence.
Qed.

(** C9. Whatever calls fail, a subscription being deleted leaves the cluster, or
    loses its finalizer, only when none of the managed policies of its models
    limits it any more, a live model without a route excepted, whose policy may
    be left as it was; and no managed policy that bears the labels of the
    controller for another model names the subscription in its annotation of
    contributors, neither by its qualified name nor by its bare name. *)
Theorem deletion_releases k w s :
  well_keyed (state w) → slash_free_names (state w) →
  subscriptions (state w) !! k = Some s → deleting s = true →
  (∀ ref, ref ∈ ModelRefs (Spec s) → slash_free (ref_Namespace ref) = true) →
  let c := state w in
  let c' := state (Reconcile r k w).2 in
  subscriptions c' !! k ≠ Some s →
  (∀ ref, ref ∈ ModelRefs (Spec s) →
   let ns := ref_Namespace ref in
   let name := ref_Name ref in
   (∃ rn, routable c (ns, name) rn) ∨ ¬ model_live c (ns, name) →
   ∀ t, policies c' !! trlp_key ns name = Some t →
        managed t = true → model_policy ns name t = true → ¬ mentions t s ns name)
  ∧ ∀ k' t ns name contributors, policies c' !! k' = Some t → managed t = true →
      model_policy ns name t = true → ns ≠ "" → name ≠ "" → slash_free ns = true →
      (∀ ref, ref ∈ ModelRefs (Spec s) → (ref_Namespace ref, ref_Name ref) ≠ (ns, name)) →
      t_annotations t !! annotation_subscriptions = Some contributors →
      ¬ names contributors (qualifiedName (Namespace s) (Name s))
      ∧ ¬ names contributors (Name s).
Proof.
  intros Hkeyed Hnames Hs Hdel Hrefs. cbv zeta. unfold Reconcile.
  step_reads (get_in_reads subscriptions k) as [s'|[| |msg]] E H; try congruence;
    try (unfold mret, prog_ret; cbn; rewrite E; intros []; done).
  assert (s' = s) as -> by congruence. rewrite Hdel.
  destruct (handleDeletion_run r s w0) as [Hsame|(c1 & Honly & Hpol & Hrel & Hstale)].
  { intros Hne. exfalso. apply Hne. by rewrite Hsame, E. }
  intros _. rewrite Hpol. rewrite E in Honly. split.
  - intros ref Href Hmodel.
    destruct (distinct_refs_covers [] _ _ Href) as (ref' & Hin & Hk);
      [apply not_elem_of_nil|].
    assert (model_key ref' = model_key ref) as [= HN HM].
    { destruct (distinct_refs_sub _ _ _ Hin). apply ref_key_inj; auto. }
    specialize (Hrel ref' Hin). rewrite HN, HM in Hrel.
    eapply released_before; eauto.
  - intros k' t ns name contributors Ht Hm Hp Hns Hname Hslash Hother Hann.
    destruct (model_policy_labelled _ _ _ Hp) as (Hl1 & Hl2 & Hlab); [done|].
    specialize (Hstale k' t Ht Hm Hlab). by apply (stale_model_None s k' t ns name).
Qed.

Lemma distinct_covers refs ref :
  (∀ ref, ref ∈ refs → slash_free (ref_Namespace ref) = true) → ref ∈ refs →
  ∃ ref', ref' ∈ distinct_refs [] refs ∧ model_key ref' = model_key ref.
Proof.
  intros Hrefs Href.
  destruct (distinct_refs_covers [] _ _ Href) as (ref' & Hin & Hkey);
    [apply not_elem_of_nil|].
  exists ref'. split; [done|]. destruct (distinct_refs_sub _ _ _ Hin).
  apply ref_key_inj; auto.
Qed.

(** The phase of what was read of the distinct models, over all references. *)
Lemma phase_active_refs c c' refs ms ts :
  ¬ unreliable → models c' = models c → names_tell_apart refs →
  (∀ ref, ref ∈ refs → slash_free (ref_Namespace ref) = true) →
  models_read c (distinct_refs [] refs) ms →
  policies_read c' (distinct_refs [] refs) ts →
  (deriveFinalPhase (correct_statuses ms ts) ts).1 = PhaseActive ↔
  refs ≠ [] ∧ ∀ ref, ref ∈ refs → healthy c' ref.
Proof.
  intros Hr Hmodels Hapart Hrefs Hms Hts.
  rewrite (phase_active c c' (distinct_refs [] refs) ms ts Hr Hmodels); [|..|done|done].
  - rewrite <-(distinct_refs_nil refs). apply and_iff_compat_l.
    split; intros Hall ref Href.
    + destruct (distinct_covers refs ref Hrefs Href) as (ref' & Hin & Hk).
      by eapply healthy_key, Hall.
    + apply Hall. by destruct (distinct_refs_sub _ _ _ Href).
  - intros x y Hx Hy. apply Hapart; by eapply distinct_refs_sub.
Qed.

Lemma healthy_some_ready c c' refs ms ref :
  ¬ unreliable → models c' = models c → models_read c refs ms →
  ref ∈ refs → healthy c' ref → existsb st_Ready ms = true.
Proof.
  intros Hr Hmodels Hms Href (rn & t & (m & Hm & _) & _).
  destruct (Forall2_elem_l _ _ _ _ Hms Href) as (x & Hx & _ & _ & H).
  apply existsb_elem_of. exists x. split; [done|]. apply H; [done|].
  rewrite <-Hmodels. by eexists.
Qed.

Lemma reconcile_step_slash_free k c c' :
  reconcile_step k c c' → slash_free_names c → slash_free_names c'.
Proof.
  intros Hs Hc k' s' E. destruct (decide (k' = k)) as [->|Hne].
  - pose proof (step_own _ _ _ Hs) as Hown. rewrite E in Hown.
    destruct (subscriptions c !! k) as [s|] eqn:E0; [|done].
    destruct Hown as (-> & -> & _). by eapply Hc.
  - rewrite (step_others _ _ _ Hs k' Hne) in E. by eapply Hc.
Qed.

Lemma routable_step k c c' model rn :
  reconcile_step k c c' → routable c' model rn → routable c model rn.
Proof. intros Hs. by rewrite (step_rest _ _ _ Hs). Qed.

(** What [reconcile_spec] leaves behind when nothing fails: the phase it
    records, and no limit where the subscription has nothing to contribute. *)
Lemma reconcile_spec_leaves s w :
  (∀ n, api_fault n = None) →
  well_keyed (state w) →
  subscriptions (state w) !! (Namespace s, Name s) = Some s →
  names_tell_apart (ModelRefs (Spec s)) →
  (∀ ref, ref ∈ ModelRefs (Spec s) → slash_free (ref_Namespace ref) = true) →
  (reconcile_spec r s w).1 = Ok () →
  let c' := state (reconcile_spec r s w).2 in
  ∃ st, subscriptions c' !! (Namespace s, Name s) = Some (set_Status s st)
    ∧ (Phase st = PhaseActive ↔
       ModelRefs (Spec s) ≠ [] ∧ ∀ ref, ref ∈ ModelRefs (Spec s) → healthy c' ref)
    ∧ (slash_free_names (state w) → Phase st = PhaseActive →
       ∀ ref, ref ∈ ModelRefs (Spec s) →
       let ns := ref_Namespace ref in
       let name := ref_Name ref in
       contribution ns name s (ModelRefs (Spec s)) = None →
       ∀ t, policies c' !! trlp_key ns name = Some t → managed t = true →
            model_policy ns name t = true → ¬ mentions t s ns name).
Proof.
  intros Hrel Hkeyed Hs Hapart Hrefs Hok.
  assert (¬ unreliable) as Hr by (intros [n [? Hn]]; by rewrite Hrel in Hn).
  destruct (reconcile_spec_records r s w s Hrel Hs Hok)
    as (st & ms & ts & Hc' & HP & Hms & Hts & c1 & Hc1 & Hpol & Hreleased).
  pose proof (reconcile_spec_step r s w) as Hstep.
  pose proof (step_models _ _ _ Hstep) as Hmodels.
  set (c' := state (reconcile_spec r s w).2) in *.
  pose proof (phase_active_refs (state w) c' _ ms ts Hr Hmodels Hapart Hrefs Hms Hts)
    as Hphase. rewrite <-HP in Hphase.
  exists st. split_and!; [done|exact Hphase|].
  intros Hslash [_ Hall]%Hphase ref Href ns name Hnone t Ht.
  destruct (distinct_covers _ ref Hrefs Href) as (ref' & Hin & [= EN EM]).
  assert (existsb st_Ready ms = true) as Hready.
  { eapply healthy_some_ready; [done..|exact Hin|].
    apply Hall. by destruct (distinct_refs_sub _ _ _ Hin). }
  specialize (Hreleased Hready s ref' Hin). rewrite EN, EM in Hreleased.
  rewrite Hpol in Ht. revert t Ht.
  eapply released_before; [exact Hc1|exact Hreleased|done|done|by eauto|by right|].
  left. destruct (Hall ref Href) as (rn & _ & Hrn & _). exists rn.
  by eapply routable_step.
Qed.

Lemma contribution_None_of s s' ns name refs :
  contribution ns name s refs = None → contribution ns name s' refs = None.
Proof.
  induction refs as [|ref refs IH]; cbn; [done|].
  destruct (_ || _); [done|]. by destruct (rates_of ref).
Qed.

Lemma mentions_same s s' t ns name :
  Name s' = Name s → Namespace s' = Namespace s →
  mentions t s ns name → mentions t s' ns name.
Proof.
  intros HN HNs (k & l & Hl & E). exists k, l. split; [done|].
  rewrite E. unfold scoped_ref, subRef. by rewrite HN, HNs.
Qed.

(** The same of a whole reconcile. *)
Lemma Reconcile_leaves k w s :
  (∀ n, api_fault n = None) →
  well_keyed (state w) →
  subscriptions (state w) !! k = Some s → deleting s = false →
  ns_allowed r (state w) k.1 = true → Spec s ≠ zero_spec →
  names_tell_apart (ModelRefs (Spec s)) →
  (∀ ref, ref ∈ ModelRefs (Spec s) → slash_free (ref_Namespace ref) = true) →
  (Reconcile r k w).1 = Ok () →
  let c' := state (Reconcile r k w).2 in
  ∃ s', subscriptions c' !! k = Some s' ∧ same_object s s'
    ∧ (Phase (Status s') = PhaseActive ↔
       ModelRefs (Spec s) ≠ [] ∧ ∀ ref, ref ∈ ModelRefs (Spec s) → healthy c' ref)
    ∧ (slash_free_names (state w) → Phase (Status s') = PhaseActive →
       ∀ ref, ref ∈ ModelRefs (Spec s) →
       let ns := ref_Namespace ref in
       let name := ref_Name ref in
       contribution ns name s (ModelRefs (Spec s)) = None →
       ∀ t, policies c' !! trlp_key ns name = Some t → managed t = true →
            model_policy ns name t = true → ¬ mentions t s ns name).
Proof.
  intros Hrel Hkeyed Hs Hlive Hns Hspec Hapart Hrefs.
  pose proof (Hkeyed _ _ Hs) as ->.
  destruct (Reconcile_live r w s) as (s1 & w2 & -> & Hsame & Hs1 & _ & _ & Hstep); [done..|].
  intros Hok. pose proof Hsame as (HN & HNs & _ & _ & HSp).
  destruct (reconcile_spec_leaves s1 w2) as (st & Hc' & Hphase & Hno);
    rewrite ?HN, ?HNs, ?HSp in *; try done; [by eapply reconcile_step_keyed|].
  exists (set_Status s1 st). split_and!; [done|by etrans|exact Hphase|].
  intros Hslash Ha ref Href ns name Hnone t Ht Hm Hp Hment.
  eapply (Hno (reconcile_step_slash_free _ _ _ Hstep Hslash) Ha ref Href); [..|done|done|done|].
  - by eapply contribution_None_of.
  - by eapply mentions_same.
Qed.

(** A subscription whose limits on a model are refused has nothing to contribute
    to its policy. *)
Lemma contribution_over ns name s refs :
  (∀ x, x ∈ refs → ref_Namespace x = ns → ref_Name x = name →
   ∃ l, l ∈ TokenRateLimits x ∧ validateTokenRateLimit (Limit l) (Window l) ≠ None) →
  contribution ns name s refs = None.
Proof.
  intros Hover. destruct (contribution ns name s refs) as [si|] eqn:E; [|done].
  apply contribution_Some in E as (_ & Hin & HNs & HN & Hr).
  destruct (Hover _ Hin HNs HN) as (l & Hl & Hbad). exfalso. apply Hbad.
  unfold rates_of in Hr. destruct (TokenRateLimits (si_ref si)) as [|x xs] eqn:Et.
  { by apply not_elem_of_nil in Hl. }
  destruct (forallb _ (x :: xs)) eqn:Hall; [|done].
  rewrite forallb_elem_of in Hall. specialize (Hall l Hl). by destruct (validateTokenRateLimit _ _).
Qed.

(** C27. When nothing fails and the reconcile of a live subscription succeeds, its
    phase is Active exactly when each of its models has a route and a policy
    that Kuadrant has accepted, provided that no two of its models in different
    namespaces have the same name. *)
Theorem active_iff_enforced k w s :
  (∀ n, api_fault n = None) →
  well_keyed (state w) →
  subscriptions (state w) !! k = Some s → deleting s = false →
  ns_allowed r (state w) k.1 = true → Spec s ≠ zero_spec →
  names_tell_apart (ModelRefs (Spec s)) →
  (∀ ref, ref ∈ ModelRefs (Spec s) → slash_free (ref_Namespace ref) = true) →
  (Reconcile r k w).1 = Ok () →
  let c' := state (Reconcile r k w).2 in
  ∃ s', subscriptions c' !! k = Some s' ∧ same_object s s'
    ∧ (Phase (Status s') = PhaseActive ↔
       ModelRefs (Spec s) ≠ [] ∧ ∀ ref, ref ∈ ModelRefs (Spec s) → healthy c' ref).
Proof.
  intros Hrel Hkeyed Hs Hlive Hns Hspec Hapart Hrefs Hok.
  destruct (Reconcile_leaves k w s) as (s' & ? & ? & ? & _); [done..|]. eauto.
Qed.

(** C28. A limit that is refused leaves a subscription unlimited but not inactive.
    When nothing fails and the reconcile of a live subscription succeeds, whose
    references to one of its models all carry a limit with a window that the CRD
    admits (a number from 1 to 9999 and a unit) and that exceeds 366 days, then
    it becomes Active all the same as soon as each of its models has a route and
    a policy that Kuadrant has accepted, written for others; and when it is
    Active no managed policy of that model limits it. *)
Theorem active_without_limit k w s ref :
  (∀ n, api_fault n = None) →
  well_keyed (state w) → slash_free_names (state w) →
  subscriptions (state w) !! k = Some s → deleting s = false →
  ns_allowed r (state w) k.1 = true → Spec s ≠ zero_spec →
  names_tell_apart (ModelRefs (Spec s)) →
  (∀ ref, ref ∈ ModelRefs (Spec s) → slash_free (ref_Namespace ref) = true) →
  ref ∈ ModelRefs (Spec s) →
  (∀ x, x ∈ ModelRefs (Spec s) → model_key x = model_key ref →
   ∃ l v u sec, l ∈ TokenRateLimits x ∧ Window l = crd_window v u ∧
     (1 <= v <= 9999)%Z ∧ unit_seconds u = Some sec ∧ (maxWindowSeconds < v * sec)%Z) →
  (Reconcile r k w).1 = Ok () →
  let c' := state (Reconcile r k w).2 in
  let ns := ref_Namespace ref in
  let name := ref_Name ref in
  ∃ s', subscriptions c' !! k = Some s' ∧ same_object s s'
    ∧ ((∀ x, x ∈ ModelRefs (Spec s) → healthy c' x) → Phase (Status s') = PhaseActive)
    ∧ (Phase (Status s') = PhaseActive →
       ∀ t, policies c' !! trlp_key ns name = Some t → managed t = true →
            model_policy ns name t = true → ¬ mentions t s ns name).
Proof.
  intros Hrel Hkeyed Hslash Hs Hlive Hns Hspec Hapart Hrefs Href Hover Hok.
  destruct (Reconcile_leaves k w s) as (s' & Hs' & Hsame & Hphase & Hno); [done..|].
  exists s'. split_and!; [done..| |].
  - intros Hall. apply Hphase. split; [|done]. intros E. rewrite E in Href.
    by apply not_elem_of_nil in Href.
  - intros Ha. apply (Hno Hslash Ha ref Href). apply contribution_over. intros x Hx HNs HN.
    destruct (Hover x Hx) as (l & v & u & sec & Hl & Hw & Hv & Hu & Hbig);
      [unfold model_key; congruence|].
    exists l. split; [done|]. rewrite Hw. intros Hvalid.
    apply (validate_crd_window _ v u sec) in Hvalid as [_ ?]; [lia|done..].
Qed.
End properties.

(** ** The validation of a limit *)

(** On the windows the CRD admits, a token rate limit is accepted exactly
    when the limit is between one and a billion and the window is at most 366
    days; in particular windows like 9000h pass the CRD and are refused here. *)
Theorem validateTokenRateLimit_exact limit v u k :
  (1 <= v <= 9999)%Z → unit_seconds u = Some k →
  validateTokenRateLimit limit (crd_window v u) = None ↔
  (1 <= limit <= maxTokenRateLimit ∧ v * k <= maxWindowSeconds)%Z.
Proof. apply validate_crd_window. Qed.

Lemma validateTokenRateLimit_exact_witness :
  validateTokenRateLimit 1000 (crd_window 9000 "h"%char) ≠ None
  ∧ validateTokenRateLimit 1000 (crd_window 8784 "h"%char) = None.
Proof.
  split.
  - rewrite (validateTokenRateLimit_exact 1000 9000 "h"%char 3600);
      [vm_compute; intros [_ H]; by apply H|lia|done].
  - apply (validateTokenRateLimit_exact 1000 8784 "h"%char 3600);
      [lia|done|]. vm_compute. repeat split; intros [=].
Defined.

(** ** Statuses *)

Section status.
Context {api : ApiMachinery} {srv : ApiServer} {lawful : LawfulApiServer}.

(** Recording a phase does not clobber the condition the scan for duplicate
    priorities keeps in the same status, however stale the copy of the
    subscription the reconcile works on: the recorded status has the phase, the
    Ready condition of the phase at the generation reconciled, and the
    SpecPriorityDuplicate condition the server held. Only the update may fail. *)
Theorem updateStatus_keeps_scan sub phase message snapshot w s d :
  api_fault (ticks w) = None →
  let k := (Namespace sub, Name sub) in
  subscriptions (state w) !! k = Some s →
  find_condition (Conditions (Status s)) ConditionSpecPriorityDuplicate = Some d →
  ∃ s', subscriptions (state (updateStatus sub phase message snapshot w).2) !! k = Some s'
    ∧ same_object s s'
    ∧ find_condition (Conditions (Status s')) ConditionSpecPriorityDuplicate = Some d
    ∧ ((∀ n, api_fault n = None) →
       Phase (Status s') = phase
       ∧ find_condition (Conditions (Status s')) "Ready"
         = Some (mkCondition "Ready" (ready_condition phase).1 (ready_condition phase).2
                   message (Generation sub))).
Proof.
  intros Hf k Hs Hd.
  destruct (updateStatus_run sub phase message snapshot w s Hf Hs) as (st & Hst & Hstate).
  cbv zeta in Hstate. fold k in Hstate. destruct Hst as (HP & _ & _ & HR & HD).
  destruct Hstate as [[-> Hsame]| ->].
  - exists s. split_and!; try done. intros Hrel.
    destruct Hsame as [->|[n [? Hn]]]; [done|]. by rewrite Hrel in Hn.
  - exists (set_Status s st). split_and!; try done; [apply lookup_insert_eq|by apply HD].
Qed.
End status.

(** ** Duplicate priorities *)

Section scan.
Context {api : ApiMachinery} {srv : ApiServer} {lawful : LawfulApiServer}.
Context (r : Reconciler).

(** When nothing fails, the scan leaves on every live subscription of a
    tenant namespace a SpecPriorityDuplicate condition that is True exactly when
    another such subscription of the same namespace has the same priority and
    False otherwise, and changes nothing else of it. *)
Theorem scan_exact w s :
  (∀ n, api_fault n = None) →
  well_keyed (state w) → slash_free_names (state w) →
  scan_set r (state w) s →
  ∃ s' d,
    subscriptions (state (scanForDuplicatePriority r w).2) !! key_of s = Some s'
    ∧ rescanned s s'
    ∧ find_condition (Conditions (Status s')) ConditionSpecPriorityDuplicate = Some d
    ∧ c_ObservedGeneration d = Generation s
    ∧ (c_Status d = "True" ↔
       ∃ s2, scan_set r (state w) s2 ∧ same_priority s s2 ∧ key_of s2 ≠ key_of s)
    ∧ (c_Status d = "True" ∨ c_Status d = "False").
Proof.
  intros Hrel Hkeyed Hnames Hs.
  destruct (scan_run r w Hrel Hkeyed) as (live & Hset & Hscan).
  destruct (Hscan s (proj2 (Hset s) Hs)) as (s' & Hs' & Hres & Hd).
  exists s', (duplicate_condition live s (Generation s)). split_and!; try done.
  - unfold duplicate_condition. by destruct (_ =? _).
  - destruct (duplicate_condition_status live s (Generation s)) as (_ & -> & _).
    setoid_rewrite Hset. split; intros (s2 & H2 & Hp & Hne); exists s2.
    + split_and!; try done. intros [= HN HM]. apply Hne. unfold subRef. by rewrite HN, HM.
    + split_and!; try done. intros Href. apply Hne. unfold key_of.
      destruct Hs as [Hs _], H2 as [H2 _].
      destruct (Hnames _ _ Hs) as [? _], (Hnames _ _ H2) as [? _].
      apply subRef_inj in Href as [-> ->]; done.
  - unfold duplicate_condition. destruct (_ =? _); [by right|by left].
Qed.
End scan.

(** ** The annotation of the contributors *)

(** The cleanup of stale policies reads in the annotation of a policy exactly
    the contributors that were written into it, provided that the names of
    objects are what Kubernetes admits: printable and without commas. *)
Theorem contributors_roundtrip subs s :
  Forall (λ si, comma_free (subRef (si_sub si)) = true ∧ word (subRef (si_sub si)) = true
                ∧ Namespace (si_sub si) ≠ "") subs →
  Namespace s ≠ "" →
  annotationListContains
    (at_key (policy_annotations subs) annotation_subscriptions)
    (qualifiedName (Namespace s) (Name s)) = true
  ↔ ∃ si, si ∈ subs ∧ subRef (si_sub si) = subRef s.
Proof.
  rewrite Forall_forall. intros Hsubs Hns. unfold at_key, policy_annotations. rewrite lookup_singleton_eq. cbn [from_option id].
  assert (∀ s, Namespace s ≠ "" → qualifiedName (Namespace s) (Name s) = subRef s) as Hq.
  { intros s' H. unfold qualifiedName, subRef. by rewrite bool_decide_eq_false_2. }
  rewrite (Hq s Hns), annotation_roundtrip.
  - rewrite elem_of_sort_stable, list_elem_of_fmap.
    split; intros (si & H1 & H2); exists si.
    + rewrite H1, Hq; [done|]. by destruct (Hsubs si H2) as (_ & _ & ?).
    + rewrite <-H2, Hq; [done|]. by destruct (Hsubs si H1) as (_ & _ & ?).
  - rewrite Forall_forall. intros x.
    rewrite elem_of_sort_stable, list_elem_of_fmap. intros (si & -> & Hsi).
    destruct (Hsubs si Hsi) as (? & ? & Hne). by rewrite (Hq _ Hne).
  - unfold subRef. intros H%(f_equal String.length). rewrite length_app_str in H. cbn in H. lia.
Qed.

(** ** Evaluated *)

Lemma start_well_keyed subs : well_keyed (state (start subs)).
Proof. by intros k s [-> _]%of_subscriptions_lookup. Qed.

Lemma start_slash_free subs :
  forallb (λ s, slash_free (Namespace s) && slash_free (Name s)) subs = true →
  slash_free_names (state (start subs)).
Proof.
  rewrite forallb_elem_of. intros H k s [_ Hs]%of_subscriptions_lookup.
  apply H in Hs. by apply andb_true_iff in Hs.
Qed.

Lemma start_keys_apart subs :
  forallb (λ s, forallb (λ s', bool_decide (safe_key s ≠ safe_key s' ∨ s = s')) subs) subs
    = true →
  keys_apart (state (start subs)).
Proof.
  rewrite forallb_elem_of. intros H k k' s s' [_ Hs]%of_subscriptions_lookup
    [_ Hs']%of_subscriptions_lookup Heq.
  apply H in Hs. rewrite forallb_elem_of in Hs.
  apply Hs, bool_decide_eq_true in Hs' as [?|?]; done.
Qed.

Import DocApi.

(** The runs the examples evaluate. *)
Definition reconciled (srv : ApiServer) (subs : list MaaSSubscription) (s : MaaSSubscription)
    : result error () * io cluster :=
  @Reconcile DocApi.doc_api srv settings (key_of s) (start subs).
Definition granite (w : io cluster) : option Trlp :=
  policies (state w) !! trlp_key "llm" "granite".
Ltac granite_compute :=
  match goal with
  | |- ∃ t, granite ?w = Some t ∧ @?P t => apply (some_check (granite w) P); by_compute
  end.
Definition phase_of (s : MaaSSubscription) (w : io cluster) : option string :=
  Phase ∘ Status <$> subscriptions (state w) !! key_of s.

Lemma policy_limits_exact_witness :
  ∃ t, policies (state (@reconcileTRLPForModel DocApi.doc_api reliable settings
                          "llm" "granite" (start [alpha; beta])).2)
         !! trlp_key "llm" "granite" = Some t
  ∧ routable (cluster_of [alpha; beta] old_policies) ("llm", "granite") (targetName (t_spec t)).
Proof.
  destruct (@policy_limits_exact DocApi.doc_api reliable reliable_lawful settings
    "llm" "granite" (start [alpha; beta])) as (_ & _ & _ & _ & H).
  - done.
  - apply start_keys_apart. vm_compute. reflexivity.
  - vm_compute. reflexivity.
  - destruct H as (t & Ht & Hr & _).
    + exists "maas-granite", (DocCluster.external_ref "granite" false).
      repeat split; vm_compute; eauto.
    + intros (t & Ht & Hm). change (Some (old_policy "granite") = Some t) in Ht.
      injection Ht as <-. discriminate Hm.
    + exists alpha, (mkSubInfo alpha (limited "granite" "llm" hour) hour).
      split; [exists (key_of alpha); vm_compute; reflexivity|].
      repeat split; vm_compute; reflexivity.
    + exists t. split; [exact Ht|exact Hr].
Defined.

Lemma written_policy_sound_witness :
  ∃ t, granite (@reconcileTRLPForModel DocApi.doc_api reliable settings "llm" "granite"
                  (start [alpha; beta])).2 = Some t
    ∧ routable (cluster_of [alpha; beta] old_policies) ("llm", "granite")
        (targetName (t_spec t)).
Proof.
  destruct (some_check (granite (@reconcileTRLPForModel DocApi.doc_api reliable settings
    "llm" "granite" (start [alpha; beta])).2)
    (λ t, t_spec t ≠ t_spec (old_policy "granite"))) as (t & Ht & Hne); [by_compute|].
  exists t. split; [exact Ht|].
  destruct (@written_policy_sound DocApi.doc_api reliable reliable_lawful settings
    "llm" "granite" (start [alpha; beta]) t) as [H _].
  - vm_compute. reflexivity.
  - exact Ht.
  - intros E. change (Some (old_policy "granite") = Some t) in E. congruence.
  - exact H.
Defined.

Lemma Reconcile_confined_witness :
  reconcile_step (key_of alpha) (state (start [alpha; beta]))
    (state (reconciled (flaky 4) [alpha; beta] alpha).2).
Proof.
  apply (@Reconcile_confined DocApi.doc_api (flaky 4) (flaky_lawful 4) settings
    (key_of alpha) (start [alpha; beta])).
  apply start_well_keyed.
Defined.

Lemma deletion_releases_witness :
  ∃ t, granite (reconciled reliable [alpha; leaving] leaving).2 = Some t
    ∧ ¬ mentions t leaving "llm" "granite".
Proof.
  destruct (some_check (granite (reconciled reliable [alpha; leaving] leaving).2)
    (λ t, managed t = true ∧ model_policy "llm" "granite" t = true))
    as (t & Ht & Hm & Hp); [by_compute|].
  exists t. split; [exact Ht|].
  destruct (@deletion_releases DocApi.doc_api reliable reliable_lawful settings
    (key_of leaving) (start [alpha; leaving]) leaving) as [H _].
  - apply start_well_keyed.
  - apply start_slash_free. vm_compute. reflexivity.
  - vm_compute. reflexivity.
  - reflexivity.
  - intros ref [->|[]%not_elem_of_nil]%elem_of_cons. vm_compute. reflexivity.
  - vm_compute. discriminate.
  - apply (H (limited "granite" "llm" hour)) with (t := t); [left| |exact Ht|exact Hm|exact Hp].
    left. exists "maas-granite", (DocCluster.external_ref "granite" false).
    repeat split; vm_compute; eauto.
Defined.

Lemma active_iff_enforced_witness :
  phase_of alpha (reconciled reliable [alpha; beta] alpha).2 = Some PhaseActive
  ∧ ∃ s', subscriptions (state (reconciled reliable [alpha; beta] alpha).2) !! key_of alpha
            = Some s' ∧ same_object alpha s'.
Proof.
  split; [vm_compute; reflexivity|].
  destruct (@active_iff_enforced DocApi.doc_api reliable reliable_lawful settings
    (key_of alpha) (start [alpha; beta]) alpha) as (s' & H1 & H2 & _).
  - done.
  - apply start_well_keyed.
  - vm_compute. reflexivity.
  - reflexivity.
  - vm_compute. reflexivity.
  - discriminate.
  - intros x y [->|[]%not_elem_of_nil]%elem_of_cons [->|[]%not_elem_of_nil]%elem_of_cons.
    reflexivity.
  - intros ref [->|[]%not_elem_of_nil]%elem_of_cons. vm_compute. reflexivity.
  - vm_compute. reflexivity.
  - exists s'. split; [exact H1|exact H2].
Defined.

Definition duplicate : Condition :=
  mkCondition ConditionSpecPriorityDuplicate "True" "SharedPriority" "shared" 1.
Definition warned : MaaSSubscription :=
  set_Status alpha (mkStatus PhaseActive [duplicate] [] []).

Lemma updateStatus_keeps_scan_witness :
  ∃ s', subscriptions (state (@updateStatus reliable alpha PhaseFailed "failed" zero_status
                                (start [warned])).2) !! key_of alpha = Some s'
    ∧ Phase (Status s') = PhaseFailed.
Proof.
  destruct (@updateStatus_keeps_scan reliable reliable_lawful alpha PhaseFailed "failed"
    zero_status (start [warned]) warned duplicate) as (s' & H1 & _ & _ & H2).
  - reflexivity.
  - vm_compute. reflexivity.
  - vm_compute. reflexivity.
  - exists s'. split; [exact H1|]. apply H2. done.
Defined.

Lemma scan_exact_witness :
  ∃ s' d, subscriptions (state (@scanForDuplicatePriority reliable settings
                                  (start [alpha; beta])).2) !! key_of alpha = Some s'
    ∧ rescanned (srv := reliable) alpha s'
    ∧ (@find_condition reliable) (Conditions (Status s')) ConditionSpecPriorityDuplicate
      = Some d
    ∧ c_Status d = "True".
Proof.
  destruct (@scan_exact reliable reliable_lawful settings (start [alpha; beta]) alpha)
    as (s' & d & H1 & H2 & H3 & _ & H4 & _).
  - done.
  - apply start_well_keyed.
  - apply start_slash_free. vm_compute. reflexivity.
  - repeat split; vm_compute; reflexivity.
  - exists s', d. split; [exact H1|]. split; [exact H2|]. split; [exact H3|].
    apply H4. exists beta. split; [repeat split; vm_compute; reflexivity|].
    split; [split; reflexivity|discriminate].
Defined.

Lemma contributors_roundtrip_witness :
  annotationListContains
    (at_key (policy_annotations [mkSubInfo alpha (limited "granite" "llm" hour) hour])
       annotation_subscriptions) (qualifiedName tenant "alpha") = true
  ∧ annotationListContains
    (at_key (policy_annotations [mkSubInfo alpha (limited "granite" "llm" hour) hour])
       annotation_subscriptions) (qualifiedName tenant "beta") ≠ true.
Proof.
  split.
  - apply (contributors_roundtrip [mkSubInfo alpha (limited "granite" "llm" hour) hour] alpha).
    + repeat constructor; discriminate.
    + discriminate.
    + exists (mkSubInfo alpha (limited "granite" "llm" hour) hour).
      split; [left|reflexivity].
  - intros H. apply (contributors_roundtrip
      [mkSubInfo alpha (limited "granite" "llm" hour) hour] beta) in H.
    + destruct H as (si & [->|[]%not_elem_of_nil]%elem_of_cons & [=]).
    + repeat constructor; discriminate.
    + discriminate.
Defined.

(** ** What the modelling showed *)

Lemma active_without_limit_witness :
  phase_of endless (reconciled reliable [alpha; endless] endless).2 = Some PhaseActive
  ∧ ∃ t, granite (reconciled reliable [alpha; endless] endless).2 = Some t
         ∧ mentions t alpha "llm" "granite" ∧ ¬ mentions t endless "llm" "granite".
Proof.
  split; [vm_compute; reflexivity|].
  destruct (some_check (granite (reconciled reliable [alpha; endless] endless).2)
    (λ t, (managed t = true ∧ model_policy "llm" "granite" t = true)
          ∧ mentions t alpha "llm" "granite")) as (t & Ht & [Hm Hp] & Ha); [by_compute|].
  exists t. split; [exact Ht|]. split; [exact Ha|].
  assert (∃ s', subscriptions (state (reconciled reliable [alpha; endless] endless).2)
    !! key_of endless = Some s' ∧ Phase (Status s') = PhaseActive) as (s0 & Hs0 & HP0)
    by (eexists; split; vm_compute; reflexivity).
  destruct (@active_without_limit DocApi.doc_api reliable reliable_lawful settings
    (key_of endless) (start [alpha; endless]) endless (limited "granite" "llm" long))
    as (s' & Hs' & _ & _ & Hno).
  - done.
  - apply start_well_keyed.
  - apply start_slash_free. vm_compute. reflexivity.
  - vm_compute. reflexivity.
  - reflexivity.
  - vm_compute. reflexivity.
  - discriminate.
  - intros x y [->|[]%not_elem_of_nil]%elem_of_cons [->|[]%not_elem_of_nil]%elem_of_cons.
    reflexivity.
  - intros ref [->|[]%not_elem_of_nil]%elem_of_cons. vm_compute. reflexivity.
  - left.
  - intros x [->|[]%not_elem_of_nil]%elem_of_cons _.
    exists (mkLimit 1000 "9000h"), 9000%Z, "h"%char, 3600%Z.
    repeat split; try (vm_compute; reflexivity); vm_compute; try left; discriminate.
  - vm_compute. reflexivity.
  - apply (Hno ltac:(assert (Some s0 = Some s') as [= <-] by
      (etrans; [symmetry; exact Hs0|exact Hs']); exact HP0) t); assumption.
Defined.

(** Two subscriptions of two tenants share a limit key: one of them is not
    limited, although both are Active. *)
Theorem colliding_keys_lose_a_limit :
  safe_key ab_c = safe_key a_bc ∧ key_of ab_c ≠ key_of a_bc
  ∧ phase_of ab_c (reconciled reliable [ab_c; a_bc] ab_c).2 = Some PhaseActive
  ∧ phase_of a_bc (reconciled reliable [ab_c; a_bc] a_bc).2 = Some PhaseActive
  ∧ (∃ t, granite (reconciled reliable [ab_c; a_bc] a_bc).2 = Some t
          ∧ mentions t a_bc "llm" "granite" ∧ ¬ mentions t ab_c "llm" "granite")
  ∧ ∃ t, granite (reconciled reliable [ab_c; a_bc] ab_c).2 = Some t
         ∧ mentions t a_bc "llm" "granite" ∧ ¬ mentions t ab_c "llm" "granite".
Proof.
  split; [by_compute|]. split; [discriminate|]. split; [by_compute|]. split; [by_compute|].
  split; granite_compute.
Qed.

(** When reading a tenant's namespace fails once, the reconcile of another
    subscription removes the tenant's limits from the policy and succeeds. *)
Theorem fault_drops_a_limit :
  let before := (reconciled reliable [alpha; a_bc] alpha).2 in
  let after := @Reconcile DocApi.doc_api (flaky (ticks before + 3)) settings
                 (key_of alpha) before in
  (∃ t, granite before = Some t ∧ mentions t a_bc "llm" "granite")
  ∧ after.1 = Ok ()
  ∧ ∃ t, granite after.2 = Some t ∧ ¬ mentions t a_bc "llm" "granite".
Proof.
  cbv zeta. split; [|split; [by_compute|]]; granite_compute.
Qed.

(** Of two models of the same name in different namespaces, one that is gone
    makes the phase Failed, although the other is served and limited. *)
Theorem twins_fail :
  phase_of twins (reconciled reliable [twins] twins).2 = Some PhaseFailed
  ∧ healthy (api := DocApi.doc_api) (state (reconciled reliable [twins] twins).2)
      (limited "granite" "llm" hour)
  ∧ ∃ t, granite (reconciled reliable [twins] twins).2 = Some t
         ∧ mentions t twins "llm" "granite".
Proof.
  split; [by_compute|]. split.
  - destruct (some_check (granite (reconciled reliable [twins] twins).2)
      (λ t, (getTRLPAcceptedCondition (t_object t)).1 = true)) as (t & Ht & Ha);
      [by_compute|].
    exists "maas-granite", t. split; [|by split].
    exists (DocCluster.external_ref "granite" false). vm_compute. repeat split; eauto.
  - granite_compute.
Qed.
