(* ===== verification/GatewayAuthSpec.v ===== *)
(** The AuthPolicy of a gateway: authentication, metadata, authorization and
    response rules, generated for Authorino. In the texts under [raw] a backquote
    stands for a double quote.
    [src/maas-controller/pkg/controller/maas/maasauthpolicy_controller.go]. *)
From S2P Require Import Prelude GoStrings Unstructured Json MaasTypes ControllerHelpers.
Import Helpers.

Module GatewaySpec.

(** The settings of the policy controller.
    [src/maas-controller/pkg/controller/maas/maasauthpolicy_controller.go:58-95] MaaSAuthPolicyReconciler. *)
Record AuthReconciler : Type := mkAuthReconciler {
  settings : Reconciler;
  InfraNamespace : string;
  ClusterAudience : string;
  MetadataCacheTTL : Z;
  AuthzCacheTTL : Z;
}.

(** [TTL] is a Go [int].
    [src/maas-controller/pkg/controller/maas/maasauthpolicy_controller.go:97-102] oidcConfig. *)
Record oidcConfig : Type := mkOidc {
  IssuerURL : string;
  ClientID : string;
  TTL : Z;
}.

(** [src/maas-controller/pkg/controller/maas/maasauthpolicy_controller.go:104-124] authzCacheTTL. *)
Definition authzCacheTTL (r : AuthReconciler) : Z :=
  let metadata := if (MetadataCacheTTL r <? 0)%Z then 0%Z else MetadataCacheTTL r in
  let authz := if (AuthzCacheTTL r <? 0)%Z then 0%Z else AuthzCacheTTL r in
  if (authz <? metadata)%Z then authz else metadata.

(** [src/maas-controller/pkg/controller/maas/maasauthpolicy_controller.go:1871-1881] ValidateCacheTTLs. *)
Definition ValidateCacheTTLs (r : AuthReconciler) : bool :=
  negb (MetadataCacheTTL r <? 0)%Z && negb (AuthzCacheTTL r <? 0)%Z.

(** ** Texts *)

Fixpoint raw (s : string) : string :=
  match s with
  | EmptyString => EmptyString
  | String c s' => String (if c == "`"%char then quote else c) (raw s')
  end.

Definition predicate (s : string) : value := VMap [("predicate", VString s)].
Definition expression (s : string) : value := VMap [("expression", VString s)].
Definition selector (s : string) : value := VMap [("selector", VString s)].

(** [src/maas-controller/pkg/controller/maas/maasauthpolicy_controller.go:366-369] celUserID. *)
Definition celUserID : string :=
  "(has(auth.metadata) && has(auth.metadata.apiKeyValidation)) ? "
  +:+ "auth.metadata.apiKeyValidation.userId : "
  +:+ "(has(auth.identity.preferred_username) ? auth.identity.preferred_username : "
  +:+ "(has(auth.identity.sub) ? auth.identity.sub : auth.identity.user.username))".
(** [src/maas-controller/pkg/controller/maas/maasauthpolicy_controller.go:376-379] celUsername. *)
Definition celUsername : string :=
  "(has(auth.metadata) && has(auth.metadata.apiKeyValidation)) ? "
  +:+ "auth.metadata.apiKeyValidation.username : "
  +:+ "(has(auth.identity.preferred_username) ? auth.identity.preferred_username : "
  +:+ "(has(auth.identity.sub) ? auth.identity.sub : auth.identity.user.username))".
(** [src/maas-controller/pkg/controller/maas/maasauthpolicy_controller.go:385-387] celGroups. *)
Definition celGroups : string :=
  "(has(auth.metadata) && has(auth.metadata.apiKeyValidation)) ? "
  +:+ "auth.metadata.apiKeyValidation.groups : (has(auth.identity.groups) ? "
  +:+ "auth.identity.groups : auth.identity.user.groups)".
(** [src/maas-controller/pkg/controller/maas/maasauthpolicy_controller.go:389-389] safeGroupNamePattern. *)
Definition safeGroupNamePattern : string :=
  "^[A-Za-z0-9:._/-]+$".
(** [src/maas-controller/pkg/controller/maas/maasauthpolicy_controller.go:390-390] celOIDCGroupsSafe. *)
Definition celOIDCGroupsSafe : string :=
  "auth.identity.groups.all(g, g.matches('"
  +:+ safeGroupNamePattern
  +:+ "'))".
(** [src/maas-controller/pkg/controller/maas/maasauthpolicy_controller.go:396-402] celTokenGroupsHeaderJSON. *)
Definition celTokenGroupsHeaderJSON : string :=
  "has(auth.identity.groups) ? (size(auth.identity.groups) > 0 && "
  +:+ celOIDCGroupsSafe
  +:+ raw " ? '[`system:authenticated`,`' + auth.identity.groups.join('`,`') + '`]' : "
  +:+ raw "'[`system:authenticated`]') : (has(auth.identity.user.groups) && "
  +:+ raw "size(auth.identity.user.groups) > 0 ? '[`system:authenticated`,`' + "
  +:+ raw "auth.identity.user.groups.join('`,`') + '`]' : '[`system:authenticated`]')".
(** [src/maas-controller/pkg/controller/maas/maasauthpolicy_controller.go:404-406] celSubscription. *)
Definition celSubscription : string :=
  "(has(auth.metadata) && has(auth.metadata.apiKeyValidation)) ? "
  +:+ raw "auth.metadata.apiKeyValidation.subscription : (`x-maas-subscription` in "
  +:+ raw "request.headers ? request.headers[`x-maas-subscription`] : ``)".
(** [src/maas-controller/pkg/controller/maas/maasauthpolicy_controller.go:420-420] celPathParts. *)
Definition celPathParts : string :=
  raw "request.path.split(`/`).filter(x, x != ``)".
(** [src/maas-controller/pkg/controller/maas/maasauthpolicy_controller.go:421-423] celPathModelIdentityAvailable. *)
Definition celPathModelIdentityAvailable : string :=
  "size("
  +:+ celPathParts
  +:+ ") >= 2 && "
  +:+ celPathParts
  +:+ raw "[0] != `v1` && "
  +:+ celPathParts
  +:+ raw "[0] != `maas-api`".
(** [src/maas-controller/pkg/controller/maas/maasauthpolicy_controller.go:424-424] celModelIdentityAvailable. *)
Definition celModelIdentityAvailable : string :=
  "("
  +:+ celPathModelIdentityAvailable
  +:+ raw " || `x-gateway-model-name` in request.headers)".
(** [src/maas-controller/pkg/controller/maas/maasauthpolicy_controller.go:425-429] celModelIdentity. *)
Definition celModelIdentity : string :=
  "("
  +:+ celPathModelIdentityAvailable
  +:+ " ? "
  +:+ celPathParts
  +:+ raw "[0] + `/` + "
  +:+ celPathParts
  +:+ raw "[1] : (`x-gateway-model-name` in request.headers   ? "
  +:+ raw "request.headers[`x-gateway-model-name`]   : ``))".
(** [src/maas-controller/pkg/controller/maas/maasauthpolicy_controller.go:432-435] celResolvedModelIdentity. *)
Definition celResolvedModelIdentity : string :=
  raw "(has(auth.metadata[`subscription-info`].resolvedModel) && "
  +:+ raw "auth.metadata[`subscription-info`].resolvedModel != `` ? "
  +:+ raw "auth.metadata[`subscription-info`].resolvedModel : "
  +:+ celModelIdentity
  +:+ ")".

(** [src/maas-controller/pkg/controller/maas/maasauthpolicy_controller.go:446-454] subscriptionGatewayCacheKeySelector. *)
Definition subscriptionGatewayCacheKeySelector : string :=
  "("
  +:+ celUserID
  +:+ raw ") + `|` + ("
  +:+ celGroups
  +:+ raw ").join(`,`) + `|` + ("
  +:+ celSubscription
  +:+ raw ") + `|` + "
  +:+ celModelIdentity.

(** The expressions that recognize an API key, recognize its absence, and
    extract it.
    [src/maas-controller/pkg/controller/maas/maasauthpolicy_controller.go:1730-1746] apiKeyCELPredicates. *)
Definition apiKeyCELPredicates (xAPIKeyEnabled : bool) : string * string * string :=
  if negb xAPIKeyEnabled then
    (raw "request.headers.authorization.matches(`^Bearer sk-oai-.*`)",
     raw "!request.headers.authorization.startsWith(`Bearer sk-oai-`)",
     raw "request.headers.authorization.replace(`Bearer `, ``)")
  else
    let isAPIKey :=
      raw "request.headers.authorization.matches(`^Bearer sk-oai-.*`) || "
      +:+ raw "(`x-api-key` in request.headers && request.headers[`x-api-key`].matches(`^sk-oai-.*`))" in
    (isAPIKey,
     "!(" +:+ isAPIKey +:+ ")",
     raw "request.headers.authorization.matches(`^Bearer sk-oai-.*`) "
     +:+ raw "? request.headers.authorization.replace(`Bearer `, ``) "
     +:+ raw ": request.headers[`x-api-key`]").

Section spec.
Context (r : AuthReconciler) (oidc : option oidcConfig) (xAPIKeyEnabled : bool).
Context (tenantID gatewayName : string).

Definition celIsAPIKey : string := (apiKeyCELPredicates xAPIKeyEnabled).1.1.
Definition celIsNotAPIKey : string := (apiKeyCELPredicates xAPIKeyEnabled).1.2.
Definition celExtractKey : string := (apiKeyCELPredicates xAPIKeyEnabled).2.

(** ** Callbacks *)

(** [src/maas-controller/pkg/controller/maas/maasauthpolicy_controller.go:731-734] buildGatewayAuthPolicySpec. *)
Definition maasAPIServiceName : string :=
  if tenantID != "" then "maas-api-" +:+ tenantID else "maas-api".
(** [src/maas-controller/pkg/controller/maas/maasauthpolicy_controller.go:736-736] buildGatewayAuthPolicySpec. *)
Definition apiKeyValidationURL : string :=
  "https://" +:+ maasAPIServiceName +:+ "." +:+ InfraNamespace r
  +:+ ".svc.cluster.local:8443/internal/v1/api-keys/validate".
(** [src/maas-controller/pkg/controller/maas/maasauthpolicy_controller.go:737-737] buildGatewayAuthPolicySpec. *)
Definition subscriptionSelectorURL : string :=
  "https://" +:+ maasAPIServiceName +:+ "." +:+ InfraNamespace r
  +:+ ".svc.cluster.local:8443/internal/v1/subscriptions/select".

(** [src/maas-controller/pkg/controller/maas/maasauthpolicy_controller.go:739-745] buildGatewayAuthPolicySpec. *)
Definition subscriptionInfoBody : string :=
  raw "{
  `groups`: "
  +:+ celGroups
  +:+ raw ",
  `username`: "
  +:+ celUsername
  +:+ raw ",
  `requestedSubscription`: "
  +:+ celSubscription
  +:+ raw ",
  `requestedModel`: "
  +:+ celModelIdentity
  +:+ "
}".

(** ** Rules *)

(** [src/maas-controller/pkg/controller/maas/maasauthpolicy_controller.go:749-807] buildGatewayAuthPolicySpec. *)
Definition authenticationRules : gomap :=
  [
    ("api-keys", VMap [
      ("plain", selector "request.headers.authorization");
      ("when", VSlice [VMap [
          ("selector", VString "request.headers.authorization");
          ("operator", VString "matches");
          ("value", VString "^Bearer sk-oai-.*")]]);
      ("metrics", VBool false);
      ("priority", VInt 0)]);
    ("openshift-identities", VMap [
      ("kubernetesTokenReview", VMap [("audiences", VSlice [VString (ClusterAudience r)])]);
      ("when", VSlice [predicate celIsNotAPIKey]);
      ("metrics", VBool false);
      ("priority", VInt 2)])]
  ++ (if xAPIKeyEnabled then [("api-keys-x-api-key", VMap [
      ("plain", selector "request.headers.x-api-key");
      ("when", VSlice [predicate (raw "`x-api-key` in request.headers && "
          +:+ raw "request.headers[`x-api-key`].matches(`^sk-oai-.*`) && "
          +:+ raw "!request.headers.authorization.matches(`^Bearer sk-oai-.*`)")]);
      ("metrics", VBool false);
      ("priority", VInt 1)])] else [])
  ++ match oidc with
     | Some o => [("oidc-identities", VMap [
      ("jwt", VMap [("issuerUrl", VString (IssuerURL o)); ("ttl", VInt (TTL o))]);
      ("when", VSlice [predicate (celIsNotAPIKey
          +:+ raw " && request.headers.authorization.matches(`^Bearer [^.]+\\.[^.]+\\.[^.]+$`)")]);
      ("metrics", VBool false);
      ("priority", VInt 1)])]
     | None => []
     end.

(** [src/maas-controller/pkg/controller/maas/maasauthpolicy_controller.go:809-809] buildGatewayAuthPolicySpec. *)
Definition authValidCacheKey : string :=
  raw "`api-key|` + ("
  +:+ celExtractKey
  +:+ raw ") + `|` + "
  +:+ celModelIdentity.

(** [src/maas-controller/pkg/controller/maas/maasauthpolicy_controller.go:811-813] buildGatewayAuthPolicySpec. *)
Definition requireGroupMembershipRego : string :=
  raw "allow {
  object.get(input.auth.metadata[`subscription-info`], `accessAllowed`, false) == true
}".

(** [src/maas-controller/pkg/controller/maas/maasauthpolicy_controller.go:815-938] buildGatewayAuthPolicySpec. *)
Definition authorizationRules : gomap :=
  [
    ("deny-client-identity-headers", VMap [
      ("metrics", VBool false);
      ("priority", VInt 0);
      ("patternMatching", VMap [
        ("patterns", VSlice [
          predicate (raw "!(`x-maas-username` in request.headers)");
          predicate (raw "!(`x-maas-group` in request.headers)")])])]);
    ("auth-valid", VMap [
      ("metrics", VBool false);
      ("priority", VInt 0);
      ("opa", VMap [
        ("rego", VString (raw "allow {
  object.get(input.auth.metadata, `apiKeyValidation`, {})
  input.auth.metadata.apiKeyValidation.valid == true
}
allow {
  not input.auth.metadata.apiKeyValidation
}"))]);
      ("cache", VMap [("key", selector authValidCacheKey); ("ttl", VInt (authzCacheTTL r))])]);
    ("subscription-valid", VMap [
      ("when", VSlice [predicate celModelIdentityAvailable]);
      ("metrics", VBool false);
      ("priority", VInt 0);
      ("opa", VMap [
        ("rego", VString (raw "allow {
	object.get(input.auth.metadata[`subscription-info`], `name`, ``) != ``
	object.get(input.auth.metadata[`subscription-info`], `error`, ``) == ``
	phase := object.get(input.auth.metadata[`subscription-info`], `phase`, ``)
	any([phase == `Active`, phase == `Degraded`])
	object.get(input.auth.metadata[`subscription-info`], `deletionTimestamp`, ``) == ``
}"))]);
      ("cache", VMap [
        ("key", selector subscriptionGatewayCacheKeySelector);
        ("ttl", VInt (authzCacheTTL r))])]);
    ("require-group-membership", VMap [
      ("when", VSlice [predicate celModelIdentityAvailable]);
      ("metrics", VBool false);
      ("priority", VInt 0);
      ("opa", VMap [("rego", VString requireGroupMembershipRego)]);
      ("cache", VMap [
        ("key", selector subscriptionGatewayCacheKeySelector);
        ("ttl", VInt (authzCacheTTL r))])])]
  ++ match oidc with
     | Some o => [
    ("oidc-groups-safe", VMap [
      ("when", VSlice [predicate (celIsNotAPIKey
          +:+ " && has(auth.identity.groups) && size(auth.identity.groups) > 0")]);
      ("metrics", VBool false);
      ("priority", VInt 0);
      ("opa", VMap [
        ("rego", VString (raw "unsafe_group[g] {
	g := input.auth.identity.groups[_]
	not regex.match(`"
          +:+ safeGroupNamePattern
          +:+ raw "`, g)
}

allow {
	count(unsafe_group) == 0
}"))])]);
    ("oidc-client-bound", VMap [
      ("when", VSlice [predicate (celIsNotAPIKey
          +:+ raw " && request.headers.authorization.matches(`^Bearer [^.]+\\.[^.]+\\.[^.]+$`) "
          +:+ "&& has(auth.identity.azp)")]);
      ("metrics", VBool false);
      ("priority", VInt 1);
      ("patternMatching", VMap [
        ("patterns", VSlice [VMap [
            ("selector", VString "auth.identity.azp");
            ("operator", VString "eq");
            ("value", VString (ClientID o))]])])])]
     | None => []
     end.

(** [src/maas-controller/pkg/controller/maas/maasauthpolicy_controller.go:941-988] buildGatewayAuthPolicySpec. *)
Definition metadataRules : gomap :=
  [
    ("apiKeyValidation", VMap [
      ("when", VSlice [predicate celIsAPIKey]);
      ("http", VMap [
        ("url", VString apiKeyValidationURL);
        ("contentType", VString "application/json");
        ("method", VString "POST");
        ("body", expression (raw "{`key`: " +:+ celExtractKey +:+ "}"))]);
      ("cache", VMap [("key", selector celExtractKey); ("ttl", VInt (MetadataCacheTTL r))]);
      ("metrics", VBool false);
      ("priority", VInt 0)]);
    ("subscription-info", VMap [
      ("when", VSlice [predicate celModelIdentityAvailable]);
      ("http", VMap [
        ("url", VString subscriptionSelectorURL);
        ("contentType", VString "application/json");
        ("method", VString "POST");
        ("body", expression subscriptionInfoBody)]);
      ("cache", VMap [
        ("key", selector subscriptionGatewayCacheKeySelector);
        ("ttl", VInt (MetadataCacheTTL r))]);
      ("metrics", VBool false);
      ("priority", VInt 1)])].

(** [src/maas-controller/pkg/controller/maas/maasauthpolicy_controller.go:991-1131] buildGatewayAuthPolicySpec. *)
Definition responseRules : gomap :=
  [
    ("success", VMap [
      ("headers", VMap [
        ("X-MaaS-Username", VMap [
          ("when", VSlice [predicate celIsAPIKey]);
          ("plain", selector "auth.metadata.apiKeyValidation.username");
          ("metrics", VBool false);
          ("priority", VInt 0)]);
        ("X-MaaS-Username-Token", VMap [
          ("when", VSlice [predicate celIsNotAPIKey]);
          ("plain", expression ("has(auth.identity.preferred_username) ? auth.identity.preferred_username : "
            +:+ "(has(auth.identity.sub) ? auth.identity.sub : auth.identity.user.username)"));
          ("key", VString "X-MaaS-Username");
          ("metrics", VBool false);
          ("priority", VInt 1)]);
        ("X-MaaS-Group", VMap [
          ("when", VSlice [predicate celIsAPIKey]);
          ("plain", expression (raw "size(auth.metadata.apiKeyValidation.groups) > 0 ? '[`' + "
            +:+ raw "auth.metadata.apiKeyValidation.groups.join('`,`') + '`]' : '[]'"));
          ("metrics", VBool false);
          ("priority", VInt 0)]);
        ("X-MaaS-Group-Token", VMap [
          ("when", VSlice [predicate celIsNotAPIKey]);
          ("plain", expression celTokenGroupsHeaderJSON);
          ("key", VString "X-MaaS-Group");
          ("metrics", VBool false);
          ("priority", VInt 1)]);
        ("X-MaaS-Subscription", VMap [
          ("when", VSlice [predicate ("(has(auth.metadata) && has(auth.metadata.apiKeyValidation) && "
              +:+ raw "auth.metadata.apiKeyValidation.subscription != ``) || `x-maas-subscription` "
              +:+ "in request.headers")]);
          ("plain", expression celSubscription);
          ("metrics", VBool false);
          ("priority", VInt 0)])]);
      ("filters", VMap [
        ("identity", VMap [
          ("json", VMap [
            ("properties", VMap [
              ("groups", expression celGroups);
              ("groups_str", expression ("(" +:+ celGroups +:+ raw ").join(`,`)"));
              ("userid", expression celUsername);
              ("keyId", expression ("(has(auth.metadata) && has(auth.metadata.apiKeyValidation)) ? "
                +:+ raw "auth.metadata.apiKeyValidation.keyId : ``"));
              ("keyName", expression ("(has(auth.metadata) && has(auth.metadata.apiKeyValidation)) ? "
                +:+ raw "auth.metadata.apiKeyValidation.keyName : ``"));
              ("selected_subscription", expression (raw "has(auth.metadata[`subscription-info`].name) ? "
                +:+ raw "auth.metadata[`subscription-info`].name : ``"));
              ("selected_subscription_key", expression (raw "(has(auth.metadata[`subscription-info`].namespace) && "
                +:+ raw "has(auth.metadata[`subscription-info`].name)) ? "
                +:+ raw "auth.metadata[`subscription-info`].namespace + `/` + "
                +:+ raw "auth.metadata[`subscription-info`].name + `@` + "
                +:+ celResolvedModelIdentity
                +:+ raw " : ``"));
              ("subscription_info", expression (raw "has(auth.metadata[`subscription-info`].name) ? "
                +:+ raw "auth.metadata[`subscription-info`] : {}"));
              ("subscription_error", expression (raw "has(auth.metadata[`subscription-info`].error) ? "
                +:+ raw "auth.metadata[`subscription-info`].error : ``"));
              ("subscription_error_message", expression (raw "has(auth.metadata[`subscription-info`].message) ? "
                +:+ raw "auth.metadata[`subscription-info`].message : ``"))])]);
          ("metrics", VBool true);
          ("priority", VInt 0)])])]);
    ("unauthenticated", VMap [
      ("code", VInt 401);
      ("message", VMap [("value", VString "Authentication required")])]);
    ("unauthorized", VMap [
      ("code", VInt 403);
      ("body", expression (raw "has(auth.metadata[`subscription-info`].message) ? "
        +:+ raw "auth.metadata[`subscription-info`].message : `Access denied`"));
      ("headers", VMap [
        ("x-ext-auth-reason", expression (raw "has(auth.metadata[`subscription-info`].error) ? "
          +:+ raw "auth.metadata[`subscription-info`].error : `unauthorized`"));
        ("content-type", VMap [("value", VString "text/plain")])])])].

(** [src/maas-controller/pkg/controller/maas/maasauthpolicy_controller.go:1134-1154] buildGatewayAuthPolicySpec. *)
Definition buildGatewayAuthPolicySpec : gomap :=
  [
    ("targetRef", VMap [
      ("group", VString "gateway.networking.k8s.io");
      ("kind", VString "Gateway");
      ("name", VString gatewayName)]);
    ("defaults", VMap [
      ("when", VSlice [predicate (raw "request.path != `/maas-api/health` || request.method != `GET`")]);
      ("rules", VMap [
        ("metadata", VMap metadataRules);
        ("authentication", VMap authenticationRules);
        ("authorization", VMap authorizationRules);
        ("response", VMap responseRules)])])].

End spec.
End GatewaySpec.
