(* ===== verification/ConflictDetection.v ===== *)
(** AuthPolicies of others on the HTTPRoutes of the platform's models.
    [src/maas-controller/pkg/controller/maas/conflict_detection.go]. *)
From S2P Require Import Prelude GoStrings Sorting Unstructured Runtime.
From S2P Require Import MaasTypes Cluster ControllerHelpers.
From stdpp Require Import pretty.
Import V1 Cluster Helpers.

Module Conflicts.

Definition ConditionConflictingAuthPolicy : string := "ConflictingAuthPolicy".

(** [src/maas-controller/pkg/controller/maas/conflict_detection.go:38-44] conflictingPolicyInfo. *)
Record conflictingPolicyInfo : Type := mkConflict {
  cf_Name : string;
  cf_Namespace : string;
  cf_HTTPRouteName : string;
  cf_Model : string;
  cf_ModelNS : string;
}.

(** [src/maas-controller/pkg/controller/maas/conflict_detection.go:46-48] String. *)
Definition conflict_string (c : conflictingPolicyInfo) : string :=
  cf_Namespace c +:+ "/" +:+ cf_Name c +:+ " (targets HTTPRoute "
  +:+ cf_HTTPRouteName c +:+ ", model " +:+ cf_ModelNS c +:+ "/" +:+ cf_Model c +:+ ")".

(** The qualified name of the policy: the key of [uniq], and of the order.
    [src/maas-controller/pkg/controller/maas/conflict_detection.go:84-85] detectConflictingAuthPolicies. *)
Definition conflict_key (c : conflictingPolicyInfo) : string :=
  cf_Namespace c +:+ "/" +:+ cf_Name c.

(** [src/maas-controller/pkg/controller/maas/conflict_detection.go:74-77] detectConflictingAuthPolicies. *)
Definition uniq (conflicts : list conflictingPolicyInfo)
    : gmap string conflictingPolicyInfo :=
  foldl (λ m c, <[conflict_key c := c]> m) ∅ conflicts.

(** The keys are distinct, so any sort gives the same list.
    [src/maas-controller/pkg/controller/maas/conflict_detection.go:72-88] detectConflictingAuthPolicies. *)
Definition deduplicate (conflicts : list conflictingPolicyInfo)
    : list conflictingPolicyInfo :=
  sort_stable (λ a b, str_lt (conflict_key a) (conflict_key b))
    (map_to_list (uniq conflicts)).*2.

(** [src/maas-controller/pkg/controller/maas/conflict_detection.go:170-175] pluralY. *)
Definition pluralY (n : nat) : string := if n =? 1 then "y" else "ies".

(** A message of at most 1024 bytes.
    [src/maas-controller/pkg/controller/maas/conflict_detection.go:157-159] setConflictingAuthPolicyCondition. *)
Definition cut_message (msg : string) : string :=
  if 1024 <? String.length msg then String.substring 0 1021 msg +:+ "..." else msg.

(** [src/maas-controller/pkg/controller/maas/conflict_detection.go:134-168] setConflictingAuthPolicyCondition. *)
Definition conflict_condition (generation : Z) (conflicts : list conflictingPolicyInfo)
    : Condition :=
  if length conflicts =? 0 then
    mkCondition ConditionConflictingAuthPolicy "False" "NoConflict"
      "No conflicting AuthPolicies detected on MaaS-managed HTTPRoutes" generation
  else
    mkCondition ConditionConflictingAuthPolicy "True" "ConflictDetected"
      (cut_message ("Detected " +:+ pretty (length conflicts) +:+ " non-MaaS AuthPolic"
         +:+ pluralY (length conflicts) +:+ " targeting MaaS-managed HTTPRoutes: "
         +:+ GoStrings.join ", " (conflict_key <$> conflicts) +:+ ". "
         +:+ "These policies may override MaaS authentication. "
         +:+ "See MaaS troubleshooting documentation for remediation."))
      generation.

Section detection.
Context {api : ApiMachinery} {srv : ApiServer}.

(** Not the platform's own, and its target is the route.
    [src/maas-controller/pkg/controller/maas/conflict_detection.go:107-118] findConflictsForHTTPRoute. *)
Definition conflicting (httpRouteName : string) (ap : AuthPolicy) : bool :=
  let target field := default "" (found (NestedString (a_Object ap) ["spec"; "targetRef"; field])) in
  (at_key (a_labels ap) "app.kubernetes.io/managed-by" != "maas-controller")
  && (target "name" == httpRouteName)
  && (target "kind" == "HTTPRoute")
  && (target "group" == "gateway.networking.k8s.io").

(** [src/maas-controller/pkg/controller/maas/conflict_detection.go:91-132] findConflictsForHTTPRoute. *)
Definition findConflictsForHTTPRoute (httpRouteName httpRouteNS : string) (model : key)
    : kprog (list conflictingPolicyInfo) :=
  allAPs ← list_in auth_policies (λ k _, k.1 == httpRouteNS);
  mret match allAPs with
       | Err NoMatch => Ok []
       | Err e => Err (In ("list AuthPolicies in namespace " +:+ httpRouteNS) (ErrApi e))
       | Ok l =>
           Ok ((λ kap : key * AuthPolicy,
                  mkConflict kap.1.2 kap.1.1 httpRouteName model.2 model.1)
                 <$> List.filter (λ kap, conflicting httpRouteName kap.2) l)
       end.

(** [src/maas-controller/pkg/controller/maas/conflict_detection.go:54-70] detectConflictingAuthPolicies. *)
Fixpoint conflicts_of (refs : list key) : kprog (list conflictingPolicyInfo) :=
  match refs with
  | [] => mret (Ok [])
  | ref :: refs' =>
      route ← findHTTPRouteForModel ref.1 ref.2;
      match route with
      | Err e =>
          if is_model_not_found e || is_route_not_found e then conflicts_of refs'
          else mret (Err (In ("resolve HTTPRoute for model " +:+ ref.1 +:+ "/"
                              +:+ ref.2) e))
      | Ok (httpRouteName, httpRouteNS) =>
          modelConflicts ←? findConflictsForHTTPRoute httpRouteName httpRouteNS ref;
          rest ←? conflicts_of refs';
          mret (Ok (modelConflicts ++ rest))
      end
  end.

(** [src/maas-controller/pkg/controller/maas/conflict_detection.go:50-89] detectConflictingAuthPolicies. *)
Definition detectConflictingAuthPolicies (policy : MaaSAuthPolicy)
    : kprog (list conflictingPolicyInfo) :=
  conflicts ←? conflicts_of (as_ModelRefs (ap_Spec policy));
  mret (Ok (deduplicate conflicts)).
End detection.

End Conflicts.
