(* ===== verification/AuthPolicyGateway.v ===== *)
(** The policy controller's gateway: the tenant's gateway and OIDC provider, the
    AuthPolicy of the gateway, and the readiness of the upgrade.
    [src/maas-controller/pkg/controller/maas/maasauthpolicy_controller.go]. *)
From S2P Require Import Prelude GoStrings Unstructured Runtime.
From S2P Require Import SpecCompare MaasTypes Cluster ControllerHelpers GatewayAuthSpec.
From stdpp Require Import pretty.
Import V1 Cluster Helpers SpecCompare GatewaySpec.

Module AuthGateway.

(** [src/maas-controller/pkg/controller/maas/maasauthpolicy_controller.go:438-440] maasGatewayAuthPolicyName. *)
Definition maasGatewayAuthPolicyName : string := "maas-gateway-auth".
(** [src/maas-controller/pkg/controller/maas/maasauthpolicy_controller.go:442-444] legacyGatewayDefaultAuthPolicyName. *)
Definition legacyGatewayDefaultAuthPolicyName : string := "gateway-default-auth".

(** [src/maas-controller/pkg/controller/maas/maasauthpolicy_controller.go:1322-1326] reconcileGatewayAuthPolicy. *)
Definition gateway_labels : gmap string string :=
  list_to_map [("app.kubernetes.io/managed-by", "maas-controller");
               ("app.kubernetes.io/part-of", "maas-gateway-auth");
               ("app.kubernetes.io/component", "gateway-auth")].

(** The owner with the UID of the gateway is replaced, or one is added.
    [src/maas-controller/pkg/controller/maas/maasauthpolicy_controller.go:2183-2209] setGatewayOwnerReference. *)
Definition setGatewayOwnerReference (gatewayName uid : string)
    (owners : list OwnerReference) : list OwnerReference :=
  let ref := mkOwner "gateway.networking.k8s.io/v1" "Gateway" gatewayName uid true in
  (fix go (os : list OwnerReference) : list OwnerReference :=
     match os with
     | [] => [ref]
     | o :: os' => if o_UID o == uid then ref :: os' else o :: go os'
     end) owners.

(** A scan of the conditions: the last of each type counts, but the message of
    the last that is not True stays. *)
Record ready_scan : Type := mkScan {
  accepted : bool;
  enforced : bool;
  acceptedMsg : string;
  enforcedMsg : string;
}.

(** [src/maas-controller/pkg/controller/maas/maasauthpolicy_controller.go:1798-1819] getAuthPolicyReadyState. *)
Definition scan_condition (s : ready_scan) (c : value) : ready_scan :=
  match as_map c with
  | None => s
  | Some cond =>
      let typ := or_empty (get_string "type" cond) in
      let status := or_empty (get_string "status" cond) in
      let msg := or_empty (get_string "message" cond) in
      if typ == "Accepted" then
        mkScan (status == "True") (enforced s)
          (if status == "True" then acceptedMsg s else msg) (enforcedMsg s)
      else if typ == "Enforced" then
        mkScan (accepted s) (status == "True") (acceptedMsg s)
          (if status == "True" then enforcedMsg s else msg)
      else s
  end.

Section ready.
Context {api : ApiMachinery}.

(** [src/maas-controller/pkg/controller/maas/maasauthpolicy_controller.go:1787-1828] getAuthPolicyReadyState. *)
Definition getAuthPolicyReadyState (ap : obj) : bool * string * string :=
  match found (NestedSlice ap ["status"; "conditions"]) with
  | None | Some [] => (false, ReasonConditionsNotFound, "status conditions not available")
  | Some conditions =>
      let s := foldl scan_condition (mkScan false false "" "") conditions in
      if accepted s && enforced s then (true, ReasonAcceptedEnforced, "")
      else if negb (accepted s) then (false, ReasonNotAccepted, acceptedMsg s)
      else (false, ReasonNotEnforced, enforcedMsg s)
  end.
End ready.

Section gateway.
Context {api : ApiMachinery} {srv : ApiServer} (r : AuthReconciler).

(** ** The tenant *)

(** [src/maas-controller/pkg/controller/maas/maasauthpolicy_controller.go:126-156] fetchTenantIdentifier. *)
Definition fetchTenantIdentifier (policyNamespace : string) : kprog string :=
  tenant ← fetchTenantForNamespace policyNamespace;
  mret match tenant with
       | Err NotFound => Ok ""
       | Err e => Err (ErrApi e)
       | Ok (m, _) =>
           match TenantIdentifierFor policyNamespace m with
           | Ok id => Ok id
           | Err e => Err (ErrOther e)
           end
       end.

(** The shared settings with a default tenant namespace. *)
Definition with_default_namespace : Reconciler :=
  let s := settings r in
  mkReconciler
    (if DefaultTenantNamespace s == "" then DefaultAITenantName
     else DefaultTenantNamespace s)
    (TenantNamespaceDiscoveryEnabled s) (GatewayName s) (GatewayNamespace s).

(** [src/maas-controller/pkg/controller/maas/maasauthpolicy_controller.go:158-211] fetchTenantPlatformContext. *)
Definition fetchTenantPlatformContext (tenantNamespace : string)
    : kprog PlatformContext :=
  let s := with_default_namespace in
  let fallback := mkPlatform (fallbackTenantGatewayRef (settings r)) None in
  tenant ← fetchTenantForNamespace tenantNamespace;
  match tenant with
  | Err NoMatch => mret (Ok fallback)
  | Err NotFound =>
      if negb (TenantNamespaceDiscoveryEnabled s)
         || (tenantNamespace == DefaultTenantNamespace s)
      then mret (Ok fallback)
      else
        allowed ←? tenantNamespaceAllowed s tenantNamespace;
        if allowed then
          mret (Err (ErrOther ("MaasTenantConfig " +:+ tenantNamespace
            +:+ "/default-tenant not found; refusing to use default platform context for discovered tenant namespace")))
        else mret (Ok fallback)
  | Err e => mret (Err (In "failed to get tenant config CR" (ErrApi e)))
  | Ok (m, legacy) => ResolvePlatformContext (settings r) m legacy
  end.

(** Incomplete or invalid configurations are left out, like unreadable ones.
    [src/maas-controller/pkg/controller/maas/maasauthpolicy_controller.go:213-269] fetchOIDCConfig. *)
Definition fetchOIDCConfig (policyNamespace : string) : prog cluster (option oidcConfig) :=
  context ← fetchTenantPlatformContext policyNamespace;
  mret match context with
       | Err _ => None
       | Ok p =>
           match pc_ExternalOIDC p with
           | None => None
           | Some oidc =>
               if (oidc_IssuerURL oidc == "") || (oidc_ClientID oidc == "") then None
               else
                 let ttl := oidc_TTL oidc in
                 if (ttl =? 0)%Z then
                   Some (mkOidc (oidc_IssuerURL oidc) (oidc_ClientID oidc) 300)
                 else if (ttl <? 30)%Z then None
                 else Some (mkOidc (oidc_IssuerURL oidc) (oidc_ClientID oidc) ttl)
           end
       end.

(** [src/maas-controller/pkg/controller/maas/maasauthpolicy_controller.go:271-284] fetchGatewayInfo. *)
Definition fetchGatewayInfo (tenantNamespace : string) : kprog GatewayRef :=
  context ←? fetchTenantPlatformContext tenantNamespace;
  mret (Ok (pc_GatewayRef context)).

(** ** Upgrades *)

(** A slice with the TLS port and a ready endpoint.
    [src/maas-controller/pkg/controller/maas/maasauthpolicy_controller.go:304-319] targetMaaSAPIReady. *)
Definition slice_ready (s : EndpointSlice) : bool :=
  existsb (λ port, port == Some 8443%Z) (es_ports s)
  && existsb (λ ready, default true ready) (es_ready s).

(** [src/maas-controller/pkg/controller/maas/maasauthpolicy_controller.go:286-322] targetMaaSAPIReady. *)
Definition targetMaaSAPIReady (tenantID : string) : kprog bool :=
  let serviceName := MaaSAPIServiceName tenantID in
  slices ←? in_context "list target maas-api EndpointSlices"
    (list_in endpoint_slices (λ k s, (k.1 == InfraNamespace r)
       && (es_labels s !! "kubernetes.io/service-name" == Some serviceName)));
  mret (Ok (existsb (λ ks : key * EndpointSlice, slice_ready ks.2) slices)).

(** [src/maas-controller/pkg/controller/maas/maasauthpolicy_controller.go:1459-1472] modelAuthPolicyExists. *)
Definition modelAuthPolicyExists (modelNamespace modelName : string) : kprog bool :=
  found ← get_in auth_policies (modelNamespace, "maas-auth-" +:+ modelName);
  mret match found with
       | Err NotFound => Ok false
       | Err e => Err (ErrApi e)
       | Ok _ => Ok true
       end.

(** [src/maas-controller/pkg/controller/maas/maasauthpolicy_controller.go:334-355] hasLegacyModelAuthPolicy. *)
Fixpoint any_legacy (checkedModels : list string) (refs : list key) : kprog bool :=
  match refs with
  | [] => mret (Ok false)
  | ref :: refs' =>
      let modelKey := ref.1 +:+ "/" +:+ ref.2 in
      if contains checkedModels modelKey then any_legacy checkedModels refs'
      else
        exists_ ←? modelAuthPolicyExists ref.1 ref.2;
        if exists_ then mret (Ok true) else any_legacy (modelKey :: checkedModels) refs'
  end.

(** [src/maas-controller/pkg/controller/maas/maasauthpolicy_controller.go:324-356] hasLegacyModelAuthPolicy. *)
Definition hasLegacyModelAuthPolicy (policyNamespace : string) : kprog bool :=
  items ←? in_context "list MaaSAuthPolicies for upgrade cutover"
    (list_in auth_crs (λ k _, k.1 == policyNamespace));
  any_legacy []
    (concat ((λ p, as_ModelRefs (ap_Spec p))
       <$> List.filter (λ p, negb (ap_deleting p)) items.*2)).

(** ** The AuthPolicy of a gateway *)

Definition is_tenant_gateway (gateway : GatewayRef) : bool :=
  (g_Namespace gateway != GatewayNamespace (settings r))
  || (g_Name gateway != GatewayName (settings r)).

(** [src/maas-controller/pkg/controller/maas/maasauthpolicy_controller.go:1156-1165] gatewayAuthPolicyName. *)
Definition gatewayAuthPolicyName (gateway : GatewayRef) : string :=
  if is_tenant_gateway gateway then g_Name gateway +:+ "-maas-auth"
  else maasGatewayAuthPolicyName.

Definition gateway_policy_key (gateway : GatewayRef) : key :=
  (g_Namespace gateway, gatewayAuthPolicyName gateway).

(** Ready or not, with a message.
    [src/maas-controller/pkg/controller/maas/maasauthpolicy_controller.go:1167-1204] gatewayAuthPolicyReady. *)
Definition gatewayAuthPolicyReady (gateway : GatewayRef) : kprog (bool * string) :=
  found ← get_in auth_policies (gateway_policy_key gateway);
  mret match found with
       | Err NotFound => Ok (false, "AuthPolicy has not been created")
       | Err e => Err (In "get gateway AuthPolicy" (ErrApi e))
       | Ok ap =>
           if negb (isManaged (a_annotations ap)) then
             Ok (false, "AuthPolicy is opted out of controller management")
           else
             match NestedInt64 (a_Object ap) ["status"; "observedGeneration"] with
             | NestedErr e =>
                 Err (In "read gateway AuthPolicy observed generation" (ErrOther e))
             | Unstructured.NotFound =>
                 Ok (false, "AuthPolicy status has not reported an observed generation")
             | Found observed =>
                 if negb (observed =? a_generation ap)%Z then
                   Ok (false, "AuthPolicy status observed generation " +:+ pretty observed
                         +:+ ", current generation is " +:+ pretty (a_generation ap))
                 else
                   let '(ready, _, message) := getAuthPolicyReadyState (a_Object ap) in
                   Ok (ready,
                       if (message == "") && negb ready
                       then "Accepted and Enforced conditions are not both True"
                       else message)
             end
       end.

Definition desired_spec (oidc : option oidcConfig) (xAPIKeyEnabled : bool)
    (tenantID : string) (gateway : GatewayRef) : gomap :=
  buildGatewayAuthPolicySpec r oidc xAPIKeyEnabled tenantID (g_Name gateway).

(** Creating the policy, owned by the gateway of a tenant.
    [src/maas-controller/pkg/controller/maas/maasauthpolicy_controller.go:1366-1378] reconcileGatewayAuthPolicy. *)
Definition create_gateway_policy (spec : gomap) (gateway : GatewayRef)
    (owner : option string) : kprog bool :=
  match SetNestedMap [] spec ["spec"] with
  | Err e => mret (Err (In "failed to set gateway AuthPolicy spec" (ErrOther e)))
  | Ok object =>
      let owners := match owner with
                    | Some uid => setGatewayOwnerReference (g_Name gateway) uid []
                    | None => []
                    end in
      _ ←? in_context "failed to create gateway AuthPolicy"
             (create_auth (gateway_policy_key gateway)
                (mkAuthPolicy gateway_labels ∅ owners 0 object));
      mret (Ok true)
  end.

(** Bringing an existing policy up to date, if its spec lacks something.
    [src/maas-controller/pkg/controller/maas/maasauthpolicy_controller.go:1381-1404] reconcileGatewayAuthPolicy. *)
Definition update_gateway_policy (spec : gomap) (gateway : GatewayRef)
    (owner : option string) (existing : AuthPolicy) : kprog bool :=
  if negb (isManaged (a_annotations existing)) then mret (Ok false)
  else
    let currentSpec := found (NestedMap (a_Object existing) ["spec"]) in
    match SetNestedMap (a_Object existing) spec ["spec"] with
    | Err e => mret (Err (In "failed to set gateway AuthPolicy spec for update" (ErrOther e)))
    | Ok object =>
        let owners := match owner with
                      | Some uid => setGatewayOwnerReference (g_Name gateway) uid (a_owners existing)
                      | None => a_owners existing
                      end in
        if specMatchesDesired spec currentSpec then mret (Ok false)
        else
          _ ←? in_context "failed to update gateway AuthPolicy"
                 (update_auth (gateway_policy_key gateway)
                    (mkAuthPolicy (a_labels existing) (a_annotations existing) owners
                       (a_generation existing) object));
          mret (Ok true)
    end.

(** Whether the policy has been written; the policy of a gateway that is gone is
    deleted.
    [src/maas-controller/pkg/controller/maas/maasauthpolicy_controller.go:1299-1404] reconcileGatewayAuthPolicy. *)
Definition reconcileGatewayAuthPolicy (oidc : option oidcConfig) (xAPIKeyEnabled : bool)
    (tenantID : string) (gateway : GatewayRef) : kprog bool :=
  let spec := desired_spec oidc xAPIKeyEnabled tenantID gateway in
  let k := gateway_policy_key gateway in
  let apply (existing : option AuthPolicy) (owner : option string) : kprog bool :=
    match existing with
    | None => create_gateway_policy spec gateway owner
    | Some ex => update_gateway_policy spec gateway owner ex
    end in
  let go (existing : option AuthPolicy) : kprog bool :=
    if is_tenant_gateway gateway then
      gw ← get_in gateways (g_Namespace gateway, g_Name gateway);
      match gw with
      | Ok gw => apply existing (Some (gw_UID gw))
      | Err NotFound =>
          match existing with
          | Some ex =>
              if isManaged (a_annotations ex) then
                _ ←? in_context "failed to delete stale tenant gateway AuthPolicy"
                       (delete_auth k);
                mret (Ok false)
              else mret (Ok false)
          | None => mret (Ok false)
          end
      | Err e => mret (Err (In "failed to get Gateway for OwnerReference" (ErrApi e)))
      end
    else apply existing None in
  existing ← get_in auth_policies k;
  match existing with
  | Err NotFound => go None
  | Err e => mret (Err (In "failed to get gateway AuthPolicy" (ErrApi e)))
  | Ok ex => go (Some ex)
  end.

(** Best effort.
    [src/maas-controller/pkg/controller/maas/maasauthpolicy_controller.go:1664-1688] deleteLegacyGatewayDefaultAuthPolicy. *)
Definition deleteLegacyGatewayDefaultAuthPolicy : prog cluster () :=
  let k := (GatewayNamespace (settings r), legacyGatewayDefaultAuthPolicyName) in
  existing ← get_in auth_policies k;
  match existing with
  | Err _ => mret ()
  | Ok ap =>
      if negb (isManaged (a_annotations ap)) then mret ()
      else _ ← delete_auth k; mret ()
  end.

(** [src/maas-controller/pkg/controller/maas/maasauthpolicy_controller.go:1640-1662] ensureBaseGatewayAuthPolicy. *)
Definition ensureBaseGatewayAuthPolicy (oidc : option oidcConfig) (xAPIKeyEnabled : bool)
    (tenantID : string) (gateway : GatewayRef) : kprog () :=
  _ ← (if negb (is_tenant_gateway gateway) then deleteLegacyGatewayDefaultAuthPolicy
       else mret ());
  existing ← get_in auth_policies (gateway_policy_key gateway);
  match existing with
  | Ok _ => mret (Ok ())
  | Err NotFound =>
      _ ←? reconcileGatewayAuthPolicy oidc xAPIKeyEnabled tenantID gateway;
      mret (Ok ())
  | Err e => mret (Err (In "failed to check gateway AuthPolicy" (ErrApi e)))
  end.

(** A provider reference whose format is that of the Anthropic SDK.
    [src/maas-controller/pkg/controller/maas/maasauthpolicy_controller.go:1716-1724] discoverXAPIKeyNeeded. *)
Definition messages_ref (ref : value) : bool :=
  match as_map ref with
  | Some m => get_string "apiFormat" m == Some "messages"
  | None => false
  end.

(** [src/maas-controller/pkg/controller/maas/maasauthpolicy_controller.go:1690-1728] discoverXAPIKeyNeeded. *)
Definition discoverXAPIKeyNeeded : prog cluster bool :=
  items ← list_in external_models (λ _ _, true);
  mret match items with
       | Err _ => false
       | Ok l =>
           existsb (λ ko : key * obj,
             match found (NestedSlice ko.2 ["spec"; "externalProviderRefs"]) with
             | Some refs => existsb messages_ref refs
             | None => false
             end) l
       end.

End gateway.

End AuthGateway.
