(* ===== verification/AuthPolicyController.v ===== *)
(** The reconcile loop of a MaaSAuthPolicy: legacy policies of its models, its
    status and events, its deletion, and which policies an event enqueues.
    [src/maas-controller/pkg/controller/maas/maasauthpolicy_controller.go]. *)
From S2P Require Import Prelude GoStrings Unstructured Runtime.
From S2P Require Import MaasTypes Cluster ControllerHelpers GatewayAuthSpec.
From S2P Require Import SubscriptionReconcile.
From S2P Require Import AuthPolicyGateway ConflictDetection.
From stdpp Require Import pretty.
Import V1 Cluster Helpers GatewaySpec AuthGateway Conflicts.

Module AuthController.

(** [src/maas-controller/pkg/controller/maas/maasauthpolicy_controller.go:470-470] maasAuthPolicyFinalizer. *)
Definition maasAuthPolicyFinalizer : string := "maas.opendatahub.io/authpolicy-cleanup".

(** [src/maas-controller/pkg/controller/maas/maasauthpolicy_controller.go:718-723] authPolicyRef. *)
Record authPolicyRef : Type := mkAuthRef {
  ar_Name : string;
  ar_Namespace : string;
  ar_Model : string;
  ar_ModelNamespace : string;
}.

(** A Kubernetes event about the policy. *)
Record event : Type := mkEvent {
  ev_type : string;
  ev_reason : string;
  ev_message : string;
}.

(** [ctrl.Result], in seconds, and the events emitted. *)
Record outcome : Type := mkOutcome {
  RequeueAfter : Z;
  events : list event;
}.

Definition finished : outcome := mkOutcome 0 [].
Definition requeue : outcome := mkOutcome 10 [].

(** ** Phases *)

(** [src/maas-controller/pkg/controller/maas/maasauthpolicy_controller.go:681-716] deriveAuthPolicyPhase. *)
Definition deriveAuthPolicyPhase (policy : MaaSAuthPolicy) (missingModels : list key)
    : string * string :=
  let totalModels := length (as_ModelRefs (ap_Spec policy)) in
  let missingCount := length missingModels in
  let statuses := ap_AuthPolicies (ap_Status policy) in
  let unhealthyPolicies :=
    length (List.filter (λ ap, negb (st_Ready (aps_ref ap))) statuses) in
  if (Z.of_nat totalModels - Z.of_nat missingCount =? 0)%Z then
    (PhaseFailed, "all " +:+ pretty totalModels
       +:+ " model references are invalid or missing")
  else if 0 <? missingCount then
    (PhaseDegraded, pretty missingCount +:+ " of " +:+ pretty totalModels
       +:+ " model references are missing")
  else if 0 <? unhealthyPolicies then
    (PhaseDegraded, pretty unhealthyPolicies +:+ " of " +:+ pretty (length statuses)
       +:+ " group AuthPolicies not accepted/enforced")
  else (PhaseActive, "successfully reconciled").

(** ** Events *)

(** [FindStatusCondition] answers a pointer into the list of conditions and
    [SetStatusCondition] updates an existing condition in place: what was found
    before the update reads, after it, as the condition that is there now. *)
Definition seen_after (before after : option Condition) : option Condition :=
  match before with None => None | Some _ => after end.

(** [src/maas-controller/pkg/controller/maas/maasauthpolicy_controller.go:633-654] Reconcile. *)
Definition conflict_events (prevConflict currConflict : option Condition)
    (conflicts : list conflictingPolicyInfo) : list event :=
  match currConflict with
  | None => []
  | Some curr =>
      let shouldEmitConflictEvent :=
        (c_Status curr == "True")
        && match prevConflict with
           | None => true
           | Some prev => (c_Status prev != c_Status curr)
                          || (c_Message prev != c_Message curr)
           end in
      let shouldEmitResolvedEvent :=
        (c_Status curr == "False")
        && match prevConflict with
           | None => false
           | Some prev => c_Status prev == "True"
           end in
      (if shouldEmitConflictEvent then
         [mkEvent "Warning" "ConflictingAuthPolicy"
            ("Detected " +:+ pretty (length conflicts) +:+ " non-MaaS AuthPolic"
             +:+ pluralY (length conflicts) +:+ " on MaaS auth surfaces: "
             +:+ GoStrings.join "; " (conflict_string <$> conflicts))]
       else [])
      ++ (if shouldEmitResolvedEvent then
            [mkEvent "Normal" "ConflictingAuthPolicyResolved"
               "All conflicting AuthPolicies on MaaS auth surfaces have been resolved"]
          else [])
  end.

Section controller.
Context {api : ApiMachinery} {srv : ApiServer} (r : AuthReconciler).

(** ** Models *)

(** Unreadable models are missing too.
    [src/maas-controller/pkg/controller/maas/maasauthpolicy_controller.go:663-679] findMissingModelRefs. *)
Fixpoint missing_refs (refs : list key) : prog cluster (list key) :=
  match refs with
  | [] => mret []
  | ref :: refs' =>
      model ← get_in models ref;
      missing ← missing_refs refs';
      mret match model with Ok _ => missing | Err _ => ref :: missing end
  end.
Definition findMissingModelRefs (policy : MaaSAuthPolicy) : prog cluster (list key) :=
  missing_refs (as_ModelRefs (ap_Spec policy)).

(** ** The policies of the models, which earlier versions generated *)

Definition label_model : string := "maas.opendatahub.io/model".
Definition label_model_namespace : string := "maas.opendatahub.io/model-namespace".
Definition label_managed_by : string := "app.kubernetes.io/managed-by".
Definition label_part_of : string := "app.kubernetes.io/part-of".
Definition annotation_policies : string := "maas.opendatahub.io/auth-policies".

(** An absent kind, or nothing found, is an empty list. *)
Definition list_auth (context : string) (test : key → AuthPolicy → bool)
    : kprog (list (key * AuthPolicy)) :=
  items ← list_in auth_policies test;
  mret match items with
       | Ok l => Ok l
       | Err NotFound | Err NoMatch => Ok []
       | Err e => Err (In context (ErrApi e))
       end.

Definition generated (ap : AuthPolicy) : bool :=
  (a_labels ap !! label_managed_by == Some "maas-controller")
  && (a_labels ap !! label_part_of == Some "maas-auth-policy").

(** [src/maas-controller/pkg/controller/maas/maasauthpolicy_controller.go:1541-1555] deleteModelAuthPolicy. *)
Fixpoint delete_generated (modelNamespace : string) (items : list (key * AuthPolicy))
    : kprog () :=
  match items with
  | [] => mret (Ok ())
  | (k, p) :: items' =>
      let labeled := at_key (a_labels p) label_model_namespace in
      if ((labeled != "") && (labeled != modelNamespace))
         || negb (isManaged (a_annotations p))
      then delete_generated modelNamespace items'
      else
        d ← delete_auth k;
        match d with
        | Ok _ | Err NotFound => delete_generated modelNamespace items'
        | Err e => mret (Err (In "failed to delete AuthPolicy" (ErrApi e)))
        end
  end.

(** [src/maas-controller/pkg/controller/maas/maasauthpolicy_controller.go:1523-1556] deleteModelAuthPolicy. *)
Definition deleteModelAuthPolicy (modelNamespace modelName : string) : kprog () :=
  items ←? list_auth "failed to list AuthPolicies for cleanup"
    (λ k ap, (k.1 == modelNamespace) && (a_labels ap !! label_model == Some modelName)
             && generated ap);
  delete_generated modelNamespace items.

(** A generated policy of a model that the policy has contributed to and does not
    refer to any more: the model.
    [src/maas-controller/pkg/controller/maas/maasauthpolicy_controller.go:1497-1514] cleanupStaleAuthPolicies. *)
Definition stale_auth_model (policy : MaaSAuthPolicy) (k : key) (ap : AuthPolicy)
    : option key :=
  let modelName := at_key (a_labels ap) label_model in
  if modelName == "" then None
  else
    let modelNamespace := at_key (a_labels ap) label_model_namespace in
    let modelNamespace := if modelNamespace == "" then k.1 else modelNamespace in
    let currentModels :=
      (λ ref : key, ref.1 +:+ "/" +:+ ref.2) <$> as_ModelRefs (ap_Spec policy) in
    if contains currentModels (modelNamespace +:+ "/" +:+ modelName) then None
    else
      let owners := at_key (a_annotations ap) annotation_policies in
      if annotationListContains owners (qualifiedName (ap_Namespace policy) (ap_Name policy))
         || annotationListContains owners (ap_Name policy)
      then Some (modelNamespace, modelName) else None.

(** [src/maas-controller/pkg/controller/maas/maasauthpolicy_controller.go:1496-1520] cleanupStaleAuthPolicies. *)
Fixpoint cleanup_stale (policy : MaaSAuthPolicy) (items : list (key * AuthPolicy))
    : kprog () :=
  match items with
  | [] => mret (Ok ())
  | (k, ap) :: items' =>
      match stale_auth_model policy k ap with
      | None => cleanup_stale policy items'
      | Some model =>
          d ← deleteModelAuthPolicy model.1 model.2;
          match d with
          | Ok _ => cleanup_stale policy items'
          | Err e => mret (Err (In "failed to clean up stale AuthPolicy for removed model" e))
          end
      end
  end.

(** [src/maas-controller/pkg/controller/maas/maasauthpolicy_controller.go:1474-1521] cleanupStaleAuthPolicies. *)
Definition cleanupStaleAuthPolicies (policy : MaaSAuthPolicy) : kprog () :=
  items ←? list_auth "failed to list managed AuthPolicies for stale cleanup"
    (λ _ ap, generated ap);
  cleanup_stale policy items.

(** [src/maas-controller/pkg/controller/maas/maasauthpolicy_controller.go:1418-1451] reconcileModelAuthPolicies. *)
Fixpoint clean_models (refs : list key) : kprog () :=
  match refs with
  | [] => mret (Ok ())
  | ref :: refs' =>
      route ← findHTTPRouteForModel ref.1 ref.2;
      match route with
      | Err e =>
          if is_model_not_found e then
            d ← deleteModelAuthPolicy ref.1 ref.2;
            match d with
            | Ok _ => clean_models refs'
            | Err e => mret (Err (In "failed to clean up AuthPolicy for missing model" e))
            end
          else if is_route_not_found e then clean_models refs'
          else mret (Err (In "failed to resolve HTTPRoute for model" e))
      | Ok (_, httpRouteNS) =>
          exists_ ← modelAuthPolicyExists httpRouteNS ref.2;
          match exists_ with
          | Err e => mret (Err (In "failed to check legacy group policy for model" e))
          | Ok true =>
              d ← deleteModelAuthPolicy httpRouteNS ref.2;
              match d with
              | Ok _ => clean_models refs'
              | Err e => mret (Err (In "failed to delete legacy group policy for model" e))
              end
          | Ok false => clean_models refs'
          end
      end
  end.

(** No policy is generated for a model any more, so there are no references.
    [src/maas-controller/pkg/controller/maas/maasauthpolicy_controller.go:1406-1457] reconcileModelAuthPolicies. *)
Definition reconcileModelAuthPolicies (policy : MaaSAuthPolicy)
    : kprog (list authPolicyRef) :=
  _ ←? clean_models (as_ModelRefs (ap_Spec policy));
  _ ←? cleanupStaleAuthPolicies policy;
  mret (Ok []).

(** ** Status *)

(** [src/maas-controller/pkg/controller/maas/maasauthpolicy_controller.go:1748-1785] updateAuthPolicyRefStatus. *)
Definition ref_status (ref : authPolicyRef) : prog cluster AuthPolicyRefStatus :=
  let status ready reason message :=
    mkAuthRefStatus (mkRefStatus (ar_Name ref) (ar_Namespace ref) ready reason message)
      (ar_Model ref) (ar_ModelNamespace ref) in
  ap ← get_in auth_policies (ar_Namespace ref, ar_Name ref);
  mret match ap with
       | Err NotFound => status false ReasonNotFound "AuthPolicy not created yet"
       | Err e => status false ReasonGetFailed
                    ("failed to get AuthPolicy: " +:+ error_text (ErrApi e))
       | Ok ap =>
           let '(ready, reason, message) := getAuthPolicyReadyState (a_Object ap) in
           status ready reason message
       end.
Definition updateAuthPolicyRefStatus (refs : list authPolicyRef)
    : prog cluster (list AuthPolicyRefStatus) := SubStatus.collect ref_status refs.

(** Nothing is written when nothing changes; a failed update is only logged.
    [src/maas-controller/pkg/controller/maas/maasauthpolicy_controller.go:1830-1869] updateStatus. *)
Definition updateStatus (policy : MaaSAuthPolicy) (phase message : string)
    (statusSnapshot : MaaSAuthPolicyStatus) : prog cluster () :=
  let '(status, reason) := SubStatus.ready_condition phase in
  let newStatus :=
    mkAuthStatus phase
      (set_condition (ap_Conditions (ap_Status policy))
         (mkCondition "Ready" status reason message (ap_Generation policy)))
      (ap_AuthPolicies (ap_Status policy)) in
  if statusSnapshot == newStatus then mret ()
  else _ ← update_auth_status (auth_key policy) newStatus; mret ().

Definition with_conditions (policy : MaaSAuthPolicy) (cs : list Condition)
    : MaaSAuthPolicy :=
  set_auth_Status policy
    (mkAuthStatus (ap_Phase (ap_Status policy)) cs (ap_AuthPolicies (ap_Status policy))).
Definition with_auth_policies (policy : MaaSAuthPolicy) (l : list AuthPolicyRefStatus)
    : MaaSAuthPolicy :=
  set_auth_Status policy
    (mkAuthStatus (ap_Phase (ap_Status policy)) (ap_Conditions (ap_Status policy)) l).

(** The policy with the condition on conflicts, and the events.
    [src/maas-controller/pkg/controller/maas/maasauthpolicy_controller.go:619-654] Reconcile. *)
Definition report_conflicts (policy : MaaSAuthPolicy)
    : prog cluster (MaaSAuthPolicy * list event) :=
  detected ← detectConflictingAuthPolicies policy;
  let conditions := ap_Conditions (ap_Status policy) in
  let condition :=
    match detected with
    | Err e => mkCondition ConditionConflictingAuthPolicy "Unknown" "ConflictCheckFailed"
                 (error_text e) (ap_Generation policy)
    | Ok conflicts => conflict_condition (ap_Generation policy) conflicts
    end in
  let conditions' := set_condition conditions condition in
  let currConflict := find_condition conditions' ConditionConflictingAuthPolicy in
  let prevConflict :=
    seen_after (find_condition conditions ConditionConflictingAuthPolicy) currConflict in
  mret (with_conditions policy conditions',
        conflict_events prevConflict currConflict
          match detected with Ok conflicts => conflicts | Err _ => [] end).

(** ** Reconciling *)

(** Recording a failure and returning it. *)
Definition failed (policy : MaaSAuthPolicy) (context : string) (e : error)
    : kprog outcome :=
  _ ← updateStatus policy PhaseFailed (context +:+ error_text e) (ap_Status policy);
  mret (Err e).
(** Waiting. *)
Definition pending (policy : MaaSAuthPolicy) (message : string) : kprog outcome :=
  _ ← updateStatus policy PhasePending message (ap_Status policy);
  mret (Ok requeue).

(** From the models' legacy policies on.
    [src/maas-controller/pkg/controller/maas/maasauthpolicy_controller.go:608-661] Reconcile. *)
Definition finish (policy : MaaSAuthPolicy) (missingModels : list key) : kprog outcome :=
  let statusSnapshot := ap_Status policy in
  refs ← reconcileModelAuthPolicies policy;
  match refs with
  | Err e => failed policy "Failed to reconcile: " e
  | Ok refs =>
      statuses ← updateAuthPolicyRefStatus refs;
      reported ← report_conflicts (with_auth_policies policy statuses);
      let '(policy, evs) := reported in
      let '(phase, message) := deriveAuthPolicyPhase policy missingModels in
      _ ← updateStatus policy phase message statusSnapshot;
      mret (Ok (mkOutcome 0 evs))
  end.

(** From the gateway's policy on.
    [src/maas-controller/pkg/controller/maas/maasauthpolicy_controller.go:582-606] Reconcile. *)
Definition reconcile_gateway (policy : MaaSAuthPolicy) (missingModels : list key)
    (oidc : option oidcConfig) (xAPIKeyEnabled : bool) (tenantID : string)
    (gateway : GatewayRef) (legacyPolicyExists : bool) : kprog outcome :=
  changed ← reconcileGatewayAuthPolicy r oidc xAPIKeyEnabled tenantID gateway;
  match changed with
  | Err e => failed policy "Failed to reconcile gateway AuthPolicy: " e
  | Ok gwChanged =>
      if gwChanged || legacyPolicyExists
         || (ap_Phase (ap_Status policy) != PhaseActive)
      then
        ready ← gatewayAuthPolicyReady r gateway;
        match ready with
        | Err e => failed policy "Failed to check gateway AuthPolicy readiness: " e
        | Ok (false, readinessMessage) =>
            pending policy ("Waiting for gateway AuthPolicy " +:+ g_Namespace gateway
              +:+ "/" +:+ gatewayAuthPolicyName r gateway
              +:+ " to be accepted and enforced: " +:+ readinessMessage)
        | Ok (true, _) => finish policy missingModels
        end
      else finish policy missingModels
  end.

(** The cutover from legacy policies waits for the API of this version.
    [src/maas-controller/pkg/controller/maas/maasauthpolicy_controller.go:557-580] Reconcile. *)
Definition reconcile_cutover (policy : MaaSAuthPolicy) (missingModels : list key)
    (oidc : option oidcConfig) (xAPIKeyEnabled : bool) (tenantID : string)
    (gateway : GatewayRef) : kprog outcome :=
  legacy ← hasLegacyModelAuthPolicy (ap_Namespace policy);
  match legacy with
  | Err e => failed policy "Failed to check upgrade cutover safety: " e
  | Ok false =>
      reconcile_gateway policy missingModels oidc xAPIKeyEnabled tenantID gateway false
  | Ok true =>
      target ← targetMaaSAPIReady r tenantID;
      match target with
      | Err e => failed policy "Failed to check target maas-api readiness: " e
      | Ok false =>
          pending policy ("Waiting for target maas-api Service " +:+ InfraNamespace r +:+ "/"
            +:+ MaaSAPIServiceName tenantID
            +:+ " to have a ready endpoint before replacing the working legacy AuthPolicy")
      | Ok true =>
          reconcile_gateway policy missingModels oidc xAPIKeyEnabled tenantID gateway true
      end
  end.

Definition is_default_gateway (gateway : GatewayRef) : bool :=
  (g_Namespace gateway == GatewayNamespace (settings r))
  && (g_Name gateway == GatewayName (settings r)).

(** [src/maas-controller/pkg/controller/maas/maasauthpolicy_controller.go:516-555] Reconcile. *)
Definition reconcile_spec (policy : MaaSAuthPolicy) : kprog outcome :=
  let ns := ap_Namespace policy in
  missingModels ← findMissingModelRefs policy;
  oidc ← fetchOIDCConfig r ns;
  tenant ← fetchTenantIdentifier ns;
  match tenant with
  | Err e => failed policy "Failed to resolve tenant identifier: " e
  | Ok tenantID =>
      xAPIKeyEnabled ← discoverXAPIKeyNeeded;
      info ← fetchGatewayInfo r ns;
      match info with
      | Err e => failed policy "Failed to fetch gateway info: " e
      | Ok gateway =>
          if (tenantID != "") && is_default_gateway gateway then
            _ ← updateStatus policy PhaseActive "" (ap_Status policy);
            mret (Ok finished)
          else
            reconcile_cutover policy missingModels oidc xAPIKeyEnabled tenantID gateway
      end
  end.

(** Adding the finalizer, when it is missing.
    [src/maas-controller/pkg/controller/maas/maasauthpolicy_controller.go:508-514] Reconcile. *)
Definition ensure_finalizer (policy : MaaSAuthPolicy) : kprog MaaSAuthPolicy :=
  if contains (ap_Finalizers policy) maasAuthPolicyFinalizer then mret (Ok policy)
  else
    let fs := add_finalizer (ap_Finalizers policy) maasAuthPolicyFinalizer in
    u ← update_auth_finalizers (auth_key policy) fs;
    mret match u with
         | Ok _ => Ok (set_auth_Finalizers policy fs)
         | Err e => Err (ErrApi e)
         end.

(** ** Deletion *)

(** [src/maas-controller/pkg/controller/maas/maasauthpolicy_controller.go:1560-1566] handleDeletion. *)
Fixpoint delete_models (refs : list key) : kprog () :=
  match refs with
  | [] => mret (Ok ())
  | ref :: refs' => _ ←? deleteModelAuthPolicy ref.1 ref.2; delete_models refs'
  end.

(** The policies of the namespace that stay.
    [src/maas-controller/pkg/controller/maas/maasauthpolicy_controller.go:1579-1588] handleDeletion. *)
Definition remaining_live (policy : MaaSAuthPolicy) (l : list MaaSAuthPolicy)
    : list MaaSAuthPolicy :=
  List.filter (λ p,
    negb ((ap_Name p == ap_Name policy) && (ap_Namespace p == ap_Namespace policy))
    && negb (ap_deleting p)) l.

(** The last policy of a namespace brings the gateway's policy up to date, unless
    the gateway is not the tenant's own.
    [src/maas-controller/pkg/controller/maas/maasauthpolicy_controller.go:1589-1630] handleDeletion. *)
Definition reset_gateway (policy : MaaSAuthPolicy) : kprog () :=
  let ns := ap_Namespace policy in
  tenantID ←? fetchTenantIdentifier ns;
  gateway ←? fetchGatewayInfo r ns;
  let default_namespace := DefaultTenantNamespace (settings r) in
  let isDefaultTenantNamespace :=
    (default_namespace == "") || (ns == default_namespace) in
  let isDefaultGateway := is_default_gateway gateway in
  let isNonDefaultTenant := tenantID != "" in
  if isNonDefaultTenant && isDefaultGateway then mret (Ok ())
  else if negb isDefaultTenantNamespace && negb isNonDefaultTenant && isDefaultGateway
  then mret (Ok ())
  else
    oidc ← fetchOIDCConfig r ns;
    xAPIKeyEnabled ← discoverXAPIKeyNeeded;
    _ ←? reconcileGatewayAuthPolicy r oidc xAPIKeyEnabled tenantID gateway;
    mret (Ok ()).

(** [src/maas-controller/pkg/controller/maas/maasauthpolicy_controller.go:1558-1638] handleDeletion. *)
Definition handleDeletion (policy : MaaSAuthPolicy) : kprog () :=
  if contains (ap_Finalizers policy) maasAuthPolicyFinalizer then
    _ ←? delete_models (as_ModelRefs (ap_Spec policy));
    _ ←? cleanupStaleAuthPolicies policy;
    remaining ← list_in auth_crs (λ k _, k.1 == ap_Namespace policy);
    match remaining with
    | Err e => mret (Err (ErrApi e))
    | Ok l =>
        _ ←? (if length (remaining_live policy l.*2) =? 0 then reset_gateway policy
              else mret (Ok ()));
        u ← update_auth_finalizers (auth_key policy)
              (remove_finalizer (ap_Finalizers policy) maasAuthPolicyFinalizer);
        mret match u with Ok _ => Ok () | Err e => Err (ErrApi e) end
    end
  else mret (Ok ()).

(** An empty list of the specification stands for an absent one.
    [src/maas-controller/pkg/controller/maas/maasauthpolicy_controller.go:472-661] Reconcile. *)
Definition Reconcile (req : key) : kprog outcome :=
  found ← get_in auth_crs req;
  match found with
  | Err NotFound => mret (Ok finished)
  | Err e => mret (Err (ErrApi e))
  | Ok policy =>
      if ap_deleting policy then _ ←? handleDeletion policy; mret (Ok finished)
      else
        isTenantNS ←? tenantNamespaceAllowed (settings r) req.1;
        if negb isTenantNS then mret (Ok finished)
        else if ap_Spec policy == zero_auth_spec then
          _ ← updateStatus policy PhaseInvalid "spec is required" (ap_Status policy);
          mret (Ok finished)
        else
          policy ←? ensure_finalizer policy;
          reconcile_spec policy
  end.

(** ** Watches *)

(** Those being deleted are left out.
    [src/maas-controller/pkg/controller/maas/helpers.go:105-125] findAllAuthPoliciesForModel. *)
Definition findAllAuthPoliciesForModel (modelNamespace modelName : string)
    : kprog (list MaaSAuthPolicy) :=
  items ←? in_context "failed to list MaaSAuthPolicies" (list_in auth_crs (λ _ _, true));
  mret (Ok (List.filter (λ p,
    negb (ap_deleting p)
    && contains (as_ModelRefs (ap_Spec p)) (modelNamespace, modelName)) items.*2)).

(** Requests for the policies of a namespace, filtered by tenant namespace. *)
Definition map_namespace (ns : string) : prog cluster (list key) :=
  items ← list_in auth_crs (λ k _, k.1 == ns);
  match items with
  | Err _ => mret []
  | Ok l =>
      ps ← filterAuthPoliciesByTenantNamespace (settings r) l.*2;
      mret (auth_key <$> ps)
  end.

(** [src/maas-controller/pkg/controller/maas/maasauthpolicy_controller.go:2015-2035] mapAITenantToMaaSAuthPolicies. *)
Definition mapAITenantToMaaSAuthPolicies (aitenant : string) : prog cluster (list key) :=
  map_namespace (TenantNamespaceForAITenant aitenant (DefaultTenantNamespace (settings r))).

(** [src/maas-controller/pkg/controller/maas/maasauthpolicy_controller.go:2037-2059] mapTenantToMaaSAuthPolicies. *)
Definition mapTenantToMaaSAuthPolicies (ns : string) : prog cluster (list key) :=
  map_namespace ns.

(** [src/maas-controller/pkg/controller/maas/maasauthpolicy_controller.go:2061-2078] mapNamespaceToMaaSAuthPolicies. *)
Definition mapNamespaceToMaaSAuthPolicies (ns : string) : prog cluster (list key) :=
  if (ns != DefaultTenantNamespace (settings r))
     && negb (TenantNamespaceDiscoveryEnabled (settings r))
  then mret []
  else
    items ← list_in auth_crs (λ k _, k.1 == ns);
    mret match items with Err _ => [] | Ok l => auth_key <$> l.*2 end.

(** [src/maas-controller/pkg/controller/maas/maasauthpolicy_controller.go:2080-2090] findAnyAuthPolicyForModel. *)
Definition findAnyAuthPolicyForModel (modelNamespace modelName : string)
    : prog cluster (option MaaSAuthPolicy) :=
  found ← findAllAuthPoliciesForModel modelNamespace modelName;
  match found with
  | Err _ => mret None
  | Ok l => ps ← filterAuthPoliciesByTenantNamespace (settings r) l; mret (head ps)
  end.

(** [src/maas-controller/pkg/controller/maas/maasauthpolicy_controller.go:2092-2115] mapGeneratedAuthPolicyToParent. *)
Definition mapGeneratedAuthPolicyToParent (k : key) (ap : AuthPolicy)
    : prog cluster (list key) :=
  if at_key (a_labels ap) label_managed_by != "maas-controller" then mret []
  else
    let modelName := at_key (a_labels ap) label_model in
    if modelName == "" then mret []
    else
      let modelNamespace := at_key (a_labels ap) label_model_namespace in
      let modelNamespace := if modelNamespace == "" then k.1 else modelNamespace in
      found ← findAnyAuthPolicyForModel modelNamespace modelName;
      mret match found with Some p => [auth_key p] | None => [] end.

(** Requests for the tenants' policies that refer to a model of a set. *)
Definition policies_for (mentioned : key → bool) : prog cluster (list key) :=
  items ← list_in auth_crs (λ _ _, true);
  match items with
  | Err _ => mret []
  | Ok l =>
      ps ← filterAuthPoliciesByTenantNamespace (settings r) l.*2;
      mret (auth_key <$>
              List.filter (λ p, existsb mentioned (as_ModelRefs (ap_Spec p))) ps)
  end.

(** [src/maas-controller/pkg/controller/maas/maasauthpolicy_controller.go:2117-2141] mapMaaSModelRefToMaaSAuthPolicies. *)
Definition mapMaaSModelRefToMaaSAuthPolicies (model : key) : prog cluster (list key) :=
  policies_for (λ ref, ref == model).

(** [src/maas-controller/pkg/controller/maas/maasauthpolicy_controller.go:2143-2181] mapHTTPRouteToMaaSAuthPolicies. *)
Definition mapHTTPRouteToMaaSAuthPolicies (route : key) : prog cluster (list key) :=
  ms ← list_in models (λ k _, k.1 == route.1);
  match ms with
  | Err _ | Ok [] => mret []
  | Ok l =>
      let modelKeysInNS := (λ m : key * MaaSModelRef, m.1.1 +:+ "/" +:+ m.1.2) <$> l in
      policies_for (λ ref, contains modelKeysInNS (ref.1 +:+ "/" +:+ ref.2))
  end.

End controller.
End AuthController.
