(* ===== verification/ModelRefController.v ===== *)
(** The reconcile loop of a MaaSModelRef: its phase, its conditions, the identity
    it shares with others, its deletion, and which models an event enqueues.
    [src/maas-controller/pkg/controller/maas/maasmodelref_controller.go],
    [src/maas-controller/pkg/controller/maas/model_identity_conflict.go]. *)
From S2P Require Import Prelude GoStrings Sorting Unstructured Runtime.
From S2P Require Import GoFmt MaasTypes Cluster ControllerHelpers ModelProviders.
From S2P Require Import ConflictDetection AuthPolicyController.
From stdpp Require Import pretty.
Import V1 Cluster Helpers Fmt Providers.

Module ModelController.

(** [src/maas-controller/pkg/controller/maas/maasmodelref_controller.go:95-95] maasModelFinalizer. *)
Definition maasModelFinalizer : string := "maas.opendatahub.io/model-cleanup".

(** Reasons.
    [src/maas-controller/api/maas/v1alpha1/common_types.go:94-113] ConditionReason. *)
Definition ReasonNoPairingFound : string := "NoPairingFound".
Definition ReasonGovernancePaired : string := "GovernancePaired".
Definition ReasonGovernanceGap : string := "GovernanceGap".
Definition ReasonRuntimeHealthy : string := "RuntimeHealthy".
Definition ReasonRuntimeHealthFailure : string := "RuntimeHealthFailure".

Definition ConditionGovernanceAttached : string := "GovernanceAttached".
Definition ConditionRuntimeReady : string := "RuntimeReady".
(** [src/maas-controller/pkg/controller/maas/model_identity_conflict.go:33-37] ConditionModelIdentityUnique. *)
Definition ConditionModelIdentityUnique : string := "ModelIdentityUnique".

(** ** Conditions *)

(** [apimeta.SetStatusCondition] on the conditions of a model. *)
Definition with_condition `{ApiServer} (c : Condition) (model : MaaSModelRef) : MaaSModelRef :=
  with_status model (λ st, set_Conditions (set_condition (ms_Conditions st) c) st).

(** [src/maas-controller/pkg/controller/maas/maasmodelref_controller.go:315-326] deriveModelPhase. *)
Definition deriveModelPhase (governed runtimeReady : bool) : string * string :=
  match governed, runtimeReady with
  | true, true => ("Ready", "Governed and runtime-healthy")
  | true, false => ("Unhealthy", "Governed but backend is not ready")
  | false, true => ("Pending", "Awaiting governance pairing")
  | false, false => ("Pending", "Awaiting governance pairing and backend readiness")
  end.

(** The status and the reason of the condition Ready.
    [src/maas-controller/pkg/controller/maas/maasmodelref_controller.go:402-415] updateStatusWithReason. *)
Definition ready_state (phase reason : string) : string * string :=
  if phase != "Ready" then
    ("False",
     if reason != "" then reason
     else if phase == "Failed" then "ReconcileFailed"
     else if phase == "Invalid" then "InvalidSpec"
     else "BackendNotReady")
  else ("True", "Reconciled").

(** [src/maas-controller/pkg/controller/maas/model_identity_conflict.go:171-176] pluralS. *)
Definition pluralS (n : nat) : string := if n =? 1 then "" else "s".

Section conditions.
Context {srv : ApiServer} {uni : Unicode}.

(** [src/maas-controller/pkg/controller/maas/maasmodelref_controller.go:275-296] setGovernanceCondition. *)
Definition setGovernanceCondition (model : MaaSModelRef) (governed : bool) : MaaSModelRef :=
  let cond := mkCondition ConditionGovernanceAttached in
  with_condition
    (if governed then
       cond "True" ReasonGovernancePaired "Active governance pairing found" (m_Generation model)
     else
       match find_condition (ms_Conditions (m_Status model)) ConditionGovernanceAttached with
       | Some prev =>
           if c_Status prev == "True" then
             cond "False" ReasonGovernanceGap "Governance pairing lost" (m_Generation model)
           else cond "False" ReasonNoPairingFound
                  "No active subscription and auth policy pairing found" (m_Generation model)
       | None => cond "False" ReasonNoPairingFound
                   "No active subscription and auth policy pairing found" (m_Generation model)
       end) model.

(** [src/maas-controller/pkg/controller/maas/maasmodelref_controller.go:298-313] setRuntimeReadyCondition. *)
Definition setRuntimeReadyCondition (model : MaaSModelRef) (ready : bool) : MaaSModelRef :=
  with_condition
    (if ready then
       mkCondition ConditionRuntimeReady "True" ReasonRuntimeHealthy "Backend is healthy"
         (m_Generation model)
     else
       mkCondition ConditionRuntimeReady "False" ReasonRuntimeHealthFailure
         "Backend is not ready" (m_Generation model)) model.

(** [src/maas-controller/pkg/controller/maas/model_identity_conflict.go:133-169] setModelIdentityCondition. *)
Definition identity_condition (ns alias : string) (generation : Z) (conflicts : list string)
    : Condition :=
  if length conflicts =? 0 then
    mkCondition ConditionModelIdentityUnique "True" "UniqueIdentity"
      "No other MaaSModelRef in this namespace resolves to the same model identity" generation
  else
    mkCondition ConditionModelIdentityUnique "False" "ModelNameConflict"
      (Conflicts.cut_message ("Model identity " +:+ Quote alias +:+ " is shared with "
         +:+ pretty (length conflicts) +:+ " other MaaSModelRef" +:+ pluralS (length conflicts)
         +:+ " in namespace " +:+ ns +:+ ": " +:+ GoStrings.join ", " conflicts +:+ ". "
         +:+ "Body-based routing selects a backend by model identity alone and cannot "
         +:+ "disambiguate MaaSModelRefs that resolve to the same identity "
         +:+ bytes [226; 128; 148]
         +:+ " requests may be routed to the wrong backend or evaluated against the wrong subscription. "
         +:+ "Give each model a unique spec.model.name to resolve this."))
      generation.

(** The events of a change of that condition.
    [src/maas-controller/pkg/controller/maas/model_identity_conflict.go:112-130] checkModelIdentityConflict. *)
Definition identity_events (alias : string) (prev curr : option Condition)
    (conflicts : list string) : list AuthController.event :=
  match curr with
  | None => []
  | Some curr =>
      let shouldEmitConflictEvent :=
        (c_Status curr == "False")
        && match prev with
           | None => true
           | Some prev => (c_Status prev != c_Status curr) || (c_Message prev != c_Message curr)
           end in
      let shouldEmitResolvedEvent :=
        (c_Status curr == "True")
        && match prev with Some prev => c_Status prev == "False" | None => false end in
      (if shouldEmitConflictEvent then
         [AuthController.mkEvent "Warning" "ModelNameConflict"
            ("Model identity " +:+ Quote alias +:+ " is shared with "
             +:+ pretty (length conflicts) +:+ " other MaaSModelRef"
             +:+ pluralS (length conflicts) +:+ " in this namespace: "
             +:+ GoStrings.join ", " conflicts)]
       else [])
      ++ (if shouldEmitResolvedEvent then
            [AuthController.mkEvent "Normal" "ModelNameConflictResolved"
               "Model identity is no longer shared with any other MaaSModelRef in this namespace"]
          else [])
  end.
End conditions.

Section controller.
Context {api : ApiMachinery} {srv : ApiServer} {uni : Unicode} (r : ModelReconciler).

(** ** Governance *)

(** [src/maas-controller/pkg/controller/maas/maasmodelref_controller.go:251-261] findAnySubscriptionForModel. *)
Definition findAnySubscriptionForModel (k : key) : prog cluster (option MaaSSubscription) :=
  subs ← findAllSubscriptionsForModel k.1 k.2;
  match subs with
  | Err _ => mret None
  | Ok subs =>
      subs ← filterSubscriptionsByTenantNamespace (model_settings r) subs;
      mret (head subs)
  end.

(** [src/maas-controller/pkg/controller/maas/maasmodelref_controller.go:263-273] findAnyAuthPolicyForModel. *)
Definition findAnyAuthPolicyForModel (k : key) : prog cluster (option MaaSAuthPolicy) :=
  policies ← AuthController.findAllAuthPoliciesForModel k.1 k.2;
  match policies with
  | Err _ => mret None
  | Ok policies =>
      policies ← filterAuthPoliciesByTenantNamespace (model_settings r) policies;
      mret (head policies)
  end.

(** [src/maas-controller/pkg/controller/maas/maasmodelref_controller.go:239-249] checkGovernanceAttached. *)
Definition checkGovernanceAttached (k : key) : prog cluster bool :=
  sub ← findAnySubscriptionForModel k;
  match sub with
  | None => mret false
  | Some _ =>
      ap ← findAnyAuthPolicyForModel k;
      mret match ap with Some _ => true | None => false end
  end.

(** ** Identity *)

(** [src/maas-controller/pkg/controller/maas/model_identity_conflict.go:39-72] findModelAliasConflicts. *)
Definition findModelAliasConflicts (k : key) (model : MaaSModelRef) : kprog (list string) :=
  let alias := ms_ResolvedModelAlias (m_Status model) in
  if alias == "" then mret (Ok [])
  else
    siblings ←? in_context ("list MaaSModelRefs in namespace " +:+ k.1)
                  (list_in models (λ k' _, k'.1 == k.1));
    mret (Ok (sort_stable str_lt
      ((λ other : key * MaaSModelRef, other.1.2)
         <$> List.filter (λ other : key * MaaSModelRef,
               (other.1.2 != k.2)
               && (ms_ResolvedModelAlias (m_Status other.2) == alias)) siblings))).

(** The model with the condition on its identity, and the events.
    [src/maas-controller/pkg/controller/maas/model_identity_conflict.go:74-131] checkModelIdentityConflict. *)
Definition checkModelIdentityConflict (k : key) (model : MaaSModelRef)
    : prog cluster (MaaSModelRef * list AuthController.event) :=
  let alias := ms_ResolvedModelAlias (m_Status model) in
  let unknown reason message :=
    mkCondition ConditionModelIdentityUnique "Unknown" reason message (m_Generation model) in
  if alias == "" then
    mret (with_condition (unknown "AliasNotResolved"
            "Model alias has not been resolved yet; conflict status is unknown") model, [])
  else
    let prev := find_condition (ms_Conditions (m_Status model)) ConditionModelIdentityUnique in
    conflicts ← findModelAliasConflicts k model;
    mret match conflicts with
    | Err e => (with_condition (unknown "ConflictCheckFailed" (error_text e)) model, [])
    | Ok conflicts =>
        let model' :=
          with_condition (identity_condition k.1 alias (m_Generation model) conflicts) model in
        let curr :=
          find_condition (ms_Conditions (m_Status model')) ConditionModelIdentityUnique in
        (model', if Recorder r then identity_events alias prev curr conflicts else [])
    end.

(** ** Status *)

(** Nothing is written when nothing changes; a failed update is only logged.
    [src/maas-controller/pkg/controller/maas/maasmodelref_controller.go:398-434] updateStatusWithReason. *)
Definition updateStatusWithReason (k : key) (model : MaaSModelRef)
    (phase message reason : string) (statusSnapshot : MaaSModelStatus) : prog cluster () :=
  let '(status, condReason) := ready_state phase reason in
  let model :=
    with_condition (mkCondition "Ready" status condReason message (m_Generation model))
      (with_status model (set_Phase phase)) in
  if statusSnapshot == m_Status model then mret ()
  else _ ← update_model_status k (m_Status model); mret ().

(** [src/maas-controller/pkg/controller/maas/maasmodelref_controller.go:394-396] updateStatus. *)
Definition updateStatus (k : key) (model : MaaSModelRef) (phase message : string)
    (statusSnapshot : MaaSModelStatus) : prog cluster () :=
  updateStatusWithReason k model phase message "" statusSnapshot.

(** ** Deletion *)

(** [src/maas-controller/pkg/controller/maas/maasmodelref_controller.go:376-389] deleteGeneratedPoliciesByLabel. *)
Fixpoint delete_managed {A} (kind : string) (annotations : A → gmap string string)
    (remove : key → prog cluster (result api_error ())) (items : list (key * A))
    : kprog () :=
  match items with
  | [] => mret (Ok ())
  | (k, p) :: items' =>
      if negb (isManaged (annotations p)) then delete_managed kind annotations remove items'
      else
        d ← remove k;
        match d with
        | Ok _ | Err NotFound => delete_managed kind annotations remove items'
        | Err e => mret (Err (In ("failed to delete " +:+ kind +:+ " " +:+ slash k.1 k.2)
                               (ErrApi e)))
        end
  end.

(** [src/maas-controller/pkg/controller/maas/maasmodelref_controller.go:358-392] deleteGeneratedPoliciesByLabel. *)
Definition deleteGeneratedPoliciesByLabel {A} (kind : string)
    (objects : cluster → gmap key A) (labels annotations : A → gmap string string)
    (remove : key → prog cluster (result api_error ())) (model : key) : kprog () :=
  policyList ← list_in objects (λ k p, (k.1 == model.1)
    && (labels p !! "maas.opendatahub.io/model" == Some model.2)
    && (labels p !! "app.kubernetes.io/managed-by" == Some "maas-controller"));
  match policyList with
  | Err NotFound | Err NoMatch => mret (Ok ())
  | Err e => mret (Err (In ("failed to list " +:+ kind +:+ " resources for model " +:+ model.2)
                         (ErrApi e)))
  | Ok items => delete_managed kind annotations remove items
  end.

(** [src/maas-controller/pkg/controller/maas/maasmodelref_controller.go:340-346] handleDeletion. *)
Definition cleanup_backend (k : key) (model : MaaSModelRef) : kprog () :=
  match GetBackendHandler r (m_Kind (m_Spec model)) with
  | Some handler => CleanupOnDelete handler k model
  | None => mret (Ok ())
  end.

(** [src/maas-controller/pkg/controller/maas/maasmodelref_controller.go:328-356] handleDeletion. *)
Definition handleDeletion (k : key) (model : MaaSModelRef) : kprog () :=
  if contains (m_Finalizers model) maasModelFinalizer then
    _ ←? deleteGeneratedPoliciesByLabel "AuthPolicy" auth_policies a_labels a_annotations
           delete_auth k;
    _ ←? deleteGeneratedPoliciesByLabel "TokenRateLimitPolicy" policies t_labels t_annotations
           delete_policy k;
    _ ←? cleanup_backend k model;
    u ← update_model_finalizers k (remove_finalizer (m_Finalizers model) maasModelFinalizer);
    mret match u with Ok _ => Ok () | Err e => Err (ErrApi e) end
  else mret (Ok ()).

(** ** Reconciling *)

(** The name in requests; an unknown one leaves the name as it is.
    [src/maas-controller/pkg/controller/maas/maasmodelref_controller.go:216-224] Reconcile. *)
Definition resolve_alias (handler : BackendHandler) (k : key) (model : MaaSModelRef)
    : prog cluster MaaSModelRef :=
  alias ← ResolveModelAlias handler k model;
  mret match alias with
       | Err _ => model
       | Ok alias => if alias != "" then with_status model (set_alias alias) else model
       end.

(** From the backend's answer on.
    [src/maas-controller/pkg/controller/maas/maasmodelref_controller.go:210-237] Reconcile. *)
Definition report (handler : BackendHandler) (k : key) (model : MaaSModelRef)
    (endpoint : string) (runtimeReady : bool) (statusSnapshot : MaaSModelStatus)
    : kprog (list AuthController.event) :=
  let override := m_EndpointOverride (m_Spec model) in
  let model :=
    with_status model (set_Endpoint (if override != "" then override else endpoint)) in
  model ← resolve_alias handler k model;
  governed ← checkGovernanceAttached k;
  let model := setRuntimeReadyCondition (setGovernanceCondition model governed) runtimeReady in
  checked ← checkModelIdentityConflict k model;
  let '(model, evs) := checked in
  let '(phase, message) := deriveModelPhase governed runtimeReady in
  let model := if phase != "Ready" then with_status model (set_Endpoint "") else model in
  _ ← updateStatus k model phase message statusSnapshot;
  mret (Ok evs).

(** Whether the backend is ready.
    [src/maas-controller/pkg/controller/maas/maasmodelref_controller.go:196-209] Reconcile. *)
Definition reconcile_runtime (handler : BackendHandler) (k : key) (model : MaaSModelRef)
    (statusSnapshot : MaaSModelStatus) : kprog (list AuthController.event) :=
  answer ← Status handler k model;
  match answer with
  | Err e =>
      let model := with_status model (λ st, set_Phase "Failed" (set_Endpoint "" st)) in
      if is_kind_not_implemented e then
        _ ← updateStatusWithReason k model "Failed"
              ("kind not implemented: " +:+ m_Kind (m_Spec model)) "Unsupported" statusSnapshot;
        mret (Ok [])
      else
        _ ← updateStatus k model "Failed"
              ("Failed to update model status: " +:+ error_text e) statusSnapshot;
        mret (Err e)
  | Ok (endpoint, runtimeReady) => report handler k model endpoint runtimeReady statusSnapshot
  end.

(** The HTTPRoute of the model.
    [src/maas-controller/pkg/controller/maas/maasmodelref_controller.go:174-194] Reconcile. *)
Definition reconcile_route (handler : BackendHandler) (k : key) (model : MaaSModelRef)
    (statusSnapshot : MaaSModelStatus) : kprog (list AuthController.event) :=
  routed ← ReconcileRoute handler k model;
  let '(st, route) := routed in
  let model := set_model_Status model st in
  match route with
  | Ok _ => reconcile_runtime handler k model statusSnapshot
  | Err e =>
      if is_kind_not_implemented e then
        _ ← updateStatusWithReason k model "Failed"
              ("kind not implemented: " +:+ m_Kind (m_Spec model)) "Unsupported" statusSnapshot;
        mret (Ok [])
      else if is_route_not_found e then
        _ ← updateStatus k (with_status model (set_Endpoint "")) "Pending"
              "Waiting for HTTPRoute to be created" statusSnapshot;
        mret (Ok [])
      else if is_tenant_pending e then
        _ ← updateStatus k (with_status model (set_Endpoint "")) "Pending"
              ("Waiting for tenant resolution: " +:+ error_text e) statusSnapshot;
        mret (Ok [])
      else
        _ ← updateStatus k model "Failed"
              ("Failed to reconcile HTTPRoute: " +:+ error_text e) statusSnapshot;
        mret (Err e)
  end.

(** Adding the finalizer, when it is missing.
    [src/maas-controller/pkg/controller/maas/maasmodelref_controller.go:156-162] Reconcile. *)
Definition ensure_finalizer (k : key) (model : MaaSModelRef) : kprog MaaSModelRef :=
  if contains (m_Finalizers model) maasModelFinalizer then mret (Ok model)
  else
    let fs := add_finalizer (m_Finalizers model) maasModelFinalizer in
    u ← update_model_finalizers k fs;
    mret match u with
         | Ok _ => Ok (set_model_Finalizers model fs)
         | Err e => Err (ErrApi e)
         end.

(** The events emitted; nothing is requeued.
    [src/maas-controller/pkg/controller/maas/maasmodelref_controller.go:130-237] Reconcile. *)
Definition Reconcile (req : key) : kprog (list AuthController.event) :=
  found ← get_in models req;
  match found with
  | Err NotFound => mret (Ok [])
  | Err e => mret (Err (ErrApi e))
  | Ok model =>
      if m_deleting model then _ ←? handleDeletion req model; mret (Ok [])
      else if m_Spec model == zero_model_spec then
        _ ← updateStatus req model "Invalid" "spec is required" (m_Status model);
        mret (Ok [])
      else
        model ←? ensure_finalizer req model;
        let statusSnapshot := m_Status model in
        match GetBackendHandler r (m_Kind (m_Spec model)) with
        | None =>
            _ ← updateStatus req model "Failed"
                  ("unknown kind: " +:+ m_Kind (m_Spec model)) statusSnapshot;
            mret (Ok [])
        | Some handler => reconcile_route handler req model statusSnapshot
        end
  end.

(** ** Watches *)

(** [src/maas-controller/pkg/controller/maas/maasmodelref_controller.go:100-107] modelRefNameIndexer. *)
Definition modelRefNameIndexer (model : MaaSModelRef) : list string :=
  if m_Name (m_Spec model) == "" then [] else [m_Name (m_Spec model)].

(** [src/maas-controller/pkg/controller/maas/maasmodelref_controller.go:109-110] tenantAssociationUnresolved. *)
Definition tenantAssociationUnresolved : string := "_unresolved_".

(** [src/maas-controller/pkg/controller/maas/maasmodelref_controller.go:112-128] tenantAssociationIndexer. *)
Definition tenantAssociationIndexer (model : MaaSModelRef) : list string :=
  if m_TenantRef (m_Spec model) != "" then [m_TenantRef (m_Spec model)]
  else if ms_ResolvedTenantRef (m_Status model) != "" then
    [ms_ResolvedTenantRef (m_Status model)]
  else [tenantAssociationUnresolved].

(** The models that pass a test; none when they cannot be listed. *)
Definition list_models (test : key → MaaSModelRef → bool)
    : prog cluster (option (list key)) :=
  items ← list_in models test;
  mret match items with Ok l => Some l.*1 | Err _ => None end.

(** [src/maas-controller/pkg/controller/maas/maasmodelref_controller.go:663-680] mapHTTPRouteToMaaSModelRefs. *)
Definition mapHTTPRouteToMaaSModelRefs (routeNS : string) : prog cluster (list key) :=
  items ← list_models (λ k _, k.1 == routeNS);
  mret (default [] items).

(** A sibling whose name in requests is the new or the old one.
    [src/maas-controller/pkg/controller/maas/maasmodelref_controller.go:699-706] enqueueSiblingsWithAlias. *)
Definition is_sibling (changed : key) (newAlias oldAlias : string) (k : key)
    (m : MaaSModelRef) : bool :=
  let alias := ms_ResolvedModelAlias (m_Status m) in
  (k.1 == changed.1) && (k.2 != changed.2)
  && (((newAlias != "") && (alias == newAlias)) || ((oldAlias != "") && (alias == oldAlias))).

(** [src/maas-controller/pkg/controller/maas/maasmodelref_controller.go:682-708] enqueueSiblingsWithAlias. *)
Definition enqueueSiblingsWithAlias (changed : key) (model : MaaSModelRef) (oldAlias : string)
    : prog cluster (list key) :=
  let newAlias := ms_ResolvedModelAlias (m_Status model) in
  if (newAlias == "") && (oldAlias == "") then mret []
  else
    items ← list_models (is_sibling changed newAlias oldAlias);
    mret (default [] items).

(** A model is created or deleted.
    [src/maas-controller/pkg/controller/maas/maasmodelref_controller.go:562-567] SetupWithManager. *)
Definition on_model_created (k : key) (model : MaaSModelRef) : prog cluster (list key) :=
  enqueueSiblingsWithAlias k model "".

(** A model is updated.
    [src/maas-controller/pkg/controller/maas/maasmodelref_controller.go:568-574] SetupWithManager. *)
Definition on_model_updated (k : key) (old new : MaaSModelRef) : prog cluster (list key) :=
  if ms_ResolvedModelAlias (m_Status old) != ms_ResolvedModelAlias (m_Status new) then
    enqueueSiblingsWithAlias k new (ms_ResolvedModelAlias (m_Status old))
  else mret [].

(** The references without those seen before.
    [src/maas-controller/pkg/controller/maas/maasmodelref_controller.go:720-729] mapMaaSSubscriptionToMaaSModelRefs. *)
Fixpoint unseen (seen : gset key) (refs : list key) : list key :=
  match refs with
  | [] => []
  | ref :: refs' =>
      if bool_decide (ref ∈ seen) then unseen seen refs'
      else ref :: unseen ({[ref]} ∪ seen) refs'
  end.

(** [src/maas-controller/pkg/controller/maas/maasmodelref_controller.go:710-731] mapMaaSSubscriptionToMaaSModelRefs. *)
Definition mapMaaSSubscriptionToMaaSModelRefs (sub : MaaSSubscription)
    : prog cluster (list key) :=
  allowed ← isTenantNamespace (model_settings r) (V1.Namespace sub);
  mret (if allowed : bool then unseen ∅ (model_key <$> ModelRefs (Spec sub)) else []).

(** [src/maas-controller/pkg/controller/maas/maasmodelref_controller.go:733-754] mapMaaSAuthPolicyToMaaSModelRefs. *)
Definition mapMaaSAuthPolicyToMaaSModelRefs (policy : MaaSAuthPolicy)
    : prog cluster (list key) :=
  allowed ← isTenantNamespace (model_settings r) (ap_Namespace policy);
  mret (if allowed : bool then unseen ∅ (as_ModelRefs (ap_Spec policy)) else []).

(** [client.MatchingFields] of the tenant. *)
Definition associated (tenant : string) (k : key) (m : MaaSModelRef) : bool :=
  contains (tenantAssociationIndexer m) tenant.

(** [src/maas-controller/pkg/controller/maas/maasmodelref_controller.go:756-800] mapAITenantToMaaSModelRefs. *)
Definition mapAITenantToMaaSModelRefs (tenant : string) : prog cluster (list key) :=
  items ← list_models (associated tenant);
  match items with
  | None => mret []
  | Some with_tenant =>
      items ← list_models (associated tenantAssociationUnresolved);
      mret match items with
           | None => []
           | Some unresolved => unseen ∅ (with_tenant ++ unresolved)
           end
  end.

(** [src/maas-controller/pkg/controller/maas/maasmodelref_controller.go:802-827] mapLLMISvcToMaaSModelRefs. *)
Definition mapLLMISvcToMaaSModelRefs (llmisvc : key) : prog cluster (list key) :=
  items ← list_in models (λ _ m, contains (modelRefNameIndexer m) llmisvc.2);
  mret match items with
       | Err _ => []
       | Ok l =>
           fst <$> List.filter (λ m : key * MaaSModelRef,
             (m_Kind (m_Spec m.2) == "LLMInferenceService") && (m.1.1 == llmisvc.1)) l
       end.
End controller.

(** ** Which updates of LLMInferenceServices count *)

(** [src/maas-controller/pkg/controller/maas/maasmodelref_controller.go:454-461] llmisvcReadyStatus. *)
Fixpoint ready_status (conditions : list (string * string)) : string :=
  match conditions with
  | [] => ""
  | c :: conditions' => if c.1 == "Ready" then c.2 else ready_status conditions'
  end.
Definition llmisvcReadyStatus (o : LLMInferenceService) : string :=
  ready_status (ls_Conditions o).

(** With [predicate.GenerationChangedPredicate] of controller-runtime.
    [src/maas-controller/pkg/controller/maas/maasmodelref_controller.go:436-452] llmisvcReadyChangedPredicate. *)
Definition static_update (old new : LLMInferenceService) : bool :=
  (ls_Generation old != ls_Generation new)
  || (llmisvcReadyStatus old != llmisvcReadyStatus new).

(** [src/maas-controller/pkg/controller/maas/maasmodelref_controller.go:517-527] unstructuredLLMIsvcReadyStatus. *)
Fixpoint unstructured_ready (conditions : list value) : string :=
  match conditions with
  | [] => ""
  | c :: conditions' =>
      match as_map c with
      | None => unstructured_ready conditions'
      | Some cond =>
          if or_empty (get_string "type" cond) == "Ready" then
            match get_string "status" cond with
            | Some status => status
            | None => unstructured_ready conditions'
            end
          else unstructured_ready conditions'
      end
  end.

Section unstructured.
Context {api : ApiMachinery}.

(** [src/maas-controller/pkg/controller/maas/maasmodelref_controller.go:513-529] unstructuredLLMIsvcReadyStatus. *)
Definition unstructuredLLMIsvcReadyStatus (o : obj) : string :=
  unstructured_ready (default [] (found (NestedSlice o ["status"; "conditions"]))).

(** The generations are the objects'.
    [src/maas-controller/pkg/controller/maas/maasmodelref_controller.go:636-648] SetupWithManager. *)
Definition dynamic_update (oldGeneration newGeneration : Z) (old new : obj) : bool :=
  negb ((oldGeneration == newGeneration)
        && (unstructuredLLMIsvcReadyStatus old == unstructuredLLMIsvcReadyStatus new)).
End unstructured.

(** ** A watch that waits for its kind *)

(** The [sync.Once], and the watches registered. *)
Record crd_watch : Type := mkWatch {
  once_done : bool;
  registered : nat;
}.

(** A CRD is seen; [ok] tells whether the watch can be registered now.
    [src/maas-controller/pkg/controller/maas/maasmodelref_controller.go:495-508] registerWatchWhenCRDAppears. *)
Definition on_crd (crdName : string) (st : crd_watch) (seen : string * bool) : crd_watch :=
  let '(crd, ok) := seen in
  if crd != crdName then st
  else if once_done st then st
  else mkWatch true (if ok then S (registered st) else registered st).

End ModelController.
