(* ===== verification/TenantCluster.v ===== *)
(** The Kubernetes objects of the tenants: their kinds with what the AITenant
    controller reads and writes of each, a store with a map for every kind, and
    the calls of the API server, each of which may fail before or after it has
    taken effect. *)
From S2P Require Import Prelude GoStrings Unstructured Runtime MaasTypes Cluster.
From Stdlib Require Import Eqdep_dec.

Module Infra.
Import Cluster.

(** ** Objects *)

(** [metav1.ObjectMeta]; maps that are nil and empty are the same. *)
Record ObjectMeta : Type := mkMeta {
  om_Labels : gmap string string;
  om_Annotations : gmap string string;
  om_Finalizers : list string;
  om_Owners : list OwnerReference;
  om_UID : string;
  om_Generation : Z;
  om_DeletionTimestamp : option Z;
}.

Definition set_Labels (f : gmap string string → gmap string string) (m : ObjectMeta)
    : ObjectMeta :=
  mkMeta (f (om_Labels m)) (om_Annotations m) (om_Finalizers m) (om_Owners m) (om_UID m)
    (om_Generation m) (om_DeletionTimestamp m).
Definition set_Annotations (f : gmap string string → gmap string string) (m : ObjectMeta)
    : ObjectMeta :=
  mkMeta (om_Labels m) (f (om_Annotations m)) (om_Finalizers m) (om_Owners m) (om_UID m)
    (om_Generation m) (om_DeletionTimestamp m).
Definition set_Finalizers (f : list string → list string) (m : ObjectMeta) : ObjectMeta :=
  mkMeta (om_Labels m) (om_Annotations m) (f (om_Finalizers m)) (om_Owners m) (om_UID m)
    (om_Generation m) (om_DeletionTimestamp m).
Definition set_Owners (l : list OwnerReference) (m : ObjectMeta) : ObjectMeta :=
  mkMeta (om_Labels m) (om_Annotations m) (om_Finalizers m) l (om_UID m)
    (om_Generation m) (om_DeletionTimestamp m).

(** An object that has not been sent to the server. *)
Definition new_meta : ObjectMeta := mkMeta ∅ ∅ [] [] "" 0 None.

(** [spec.gateway], of which there is the name, and [spec.oidc]; the deprecated
    [spec.rbac] is ignored by the controller.
    [src/maas-controller/api/maas/v1alpha1/aitenant_types.go:56-85] AITenantSpec. *)
Record AITenantSpec : Type := mkAITenantSpec {
  sp_Gateway : option string;
  sp_OIDC : option V1.TenantExternalOIDCConfig;
}.

(** [src/maas-controller/api/maas/v1alpha1/aitenant_types.go:119-137] AITenantStatus. *)
Record AITenantStatus : Type := mkAITenantStatus {
  st_Phase : string;
  st_TenantNamespace : string;
  st_GatewayRef : GatewayRef;
  st_Conditions : list V1.Condition;
}.

(** [src/maas-controller/api/maas/v1alpha1/tenant_types.go:112-132] TenantMetricsConfig. *)
Record TenantMetricsConfig : Type := mkMetrics {
  CaptureOrganization : option bool;
  CaptureUser : option bool;
  CaptureGroup : option bool;
  CaptureModelUsage : option bool;
}.
(** [src/maas-controller/api/maas/v1alpha1/tenant_types.go:102-110] TenantTelemetryConfig. *)
Record TenantTelemetryConfig : Type := mkTelemetry {
  te_Enabled : option bool;
  te_Metrics : option TenantMetricsConfig;
}.

(** [src/maas-controller/api/maas/v1alpha1/tenant_types.go:179-189] TenantResourceRequirements. *)
Record TenantResourceRequirements : Type := mkRequirements {
  rr_Limits : option (gmap string string);
  rr_Requests : option (gmap string string);
}.
(** [src/maas-controller/api/maas/v1alpha1/tenant_types.go:141-155] TenantMaasAPIConfig. *)
Record TenantMaasAPIConfig : Type := mkMaasAPI {
  ma_Replicas : option Z;
  ma_Resources : option TenantResourceRequirements;
}.
(** [src/maas-controller/api/maas/v1alpha1/tenant_types.go:191-213] TenantAutoscalingConfig. *)
Record TenantAutoscalingConfig : Type := mkAutoscaling {
  MaxReplicas : option Z;
  TargetCPUUtilization : option Z;
  TargetMemoryUtilization : option Z;
}.
(** [src/maas-controller/api/maas/v1alpha1/tenant_types.go:157-177] TenantPayloadProcessingConfig. *)
Record TenantPayloadProcessingConfig : Type := mkPayloadProcessing {
  pp_Replicas : option Z;
  pp_Autoscaling : option TenantAutoscalingConfig;
  pp_Resources : option TenantResourceRequirements;
}.

(** The configuration of API keys is its [maxExpirationDays].
    [src/maas-controller/api/maas/v1alpha1/maastenantconfig_types.go:48-65] MaasTenantConfigSpec. *)
Record MaasTenantConfigSpec : Type := mkConfigSpec {
  cs_APIKeys : option (option Z);
  cs_Telemetry : option TenantTelemetryConfig;
  cs_MaasAPI : option TenantMaasAPIConfig;
  cs_PayloadProcessing : option TenantPayloadProcessingConfig;
}.

(** [src/maas-controller/api/maas/v1alpha1/tenant_types.go:51-79] TenantSpec. *)
Record TenantSpec : Type := mkTenantSpec {
  ts_GatewayRef : GatewayRef;
  ts_APIKeys : option (option Z);
  ts_ExternalOIDC : option V1.TenantExternalOIDCConfig;
  ts_Telemetry : option TenantTelemetryConfig;
  ts_MaasAPI : option TenantMaasAPIConfig;
  ts_PayloadProcessing : option TenantPayloadProcessingConfig;
}.

(** A listener's [allowedRoutes.namespaces]: [from], and the [matchLabels] of the
    [selector]. *)
Record RouteNamespaces : Type := mkRouteNamespaces {
  rn_From : option string;
  rn_Selector : option (gmap string string);
}.
Record Listener : Type := mkListener {
  li_Name : string;
  li_Namespaces : option RouteNamespaces;
}.

(** [rbacv1.PolicyRule]. *)
Record PolicyRule : Type := mkRule {
  APIGroups : list string;
  Resources : list string;
  ResourceNames : list string;
  Verbs : list string;
}.

(** ** Kinds *)

Inductive Kind : Type :=
  | AITenants | Namespaces | MaasTenantConfigs | Tenants | Gateways
  | Roles | RoleBindings | ConfigMaps | Jobs | AuthPolicies.

#[global] Instance Kind_eq_dec : EqDecision Kind.
Proof. solve_decision. Defined.

(** A ConfigMap is its data, a Job the document of its spec. *)
Definition spec_of (K : Kind) : Type :=
  match K with
  | AITenants => AITenantSpec
  | MaasTenantConfigs => MaasTenantConfigSpec
  | Tenants => TenantSpec
  | Gateways => list Listener
  | Roles => list PolicyRule
  | ConfigMaps => gmap string string
  | Jobs => obj
  | Namespaces | RoleBindings | AuthPolicies => ()
  end.

(** The phase of a namespace; the types and statuses of a Job's conditions. *)
Definition status_of (K : Kind) : Type :=
  match K with
  | AITenants => AITenantStatus
  | Namespaces => string
  | MaasTenantConfigs => list V1.Condition
  | Jobs => list (string * string)
  | _ => ()
  end.

Record object (K : Kind) : Type := mkObject {
  meta : ObjectMeta;
  spec : spec_of K;
  status : status_of K;
}.
Arguments mkObject _ _ _ _ : assert.
Arguments meta {_} _.
Arguments spec {_} _.
Arguments status {_} _.

Definition with_meta {K} (f : ObjectMeta → ObjectMeta) (o : object K) : object K :=
  mkObject K (f (meta o)) (spec o) (status o).
Definition with_spec {K} (s : spec_of K) (o : object K) : object K :=
  mkObject K (meta o) s (status o).
Definition with_status {K} (f : status_of K → status_of K) (o : object K) : object K :=
  mkObject K (meta o) (spec o) (f (status o)).

Definition being_deleted {K} (o : object K) : bool :=
  match om_DeletionTimestamp (meta o) with Some _ => true | None => false end.

#[global] Instance OwnerReference_eq_dec : EqDecision OwnerReference.
Proof. solve_decision. Defined.
#[global] Instance TenantExternalOIDCConfig_eq_dec : EqDecision V1.TenantExternalOIDCConfig.
Proof. solve_decision. Defined.
#[global] Instance TenantMetricsConfig_eq_dec : EqDecision TenantMetricsConfig.
Proof. solve_decision. Defined.
#[global] Instance ObjectMeta_eq_dec : EqDecision ObjectMeta.
Proof. solve_decision. Defined.
#[global] Instance TenantTelemetryConfig_eq_dec : EqDecision TenantTelemetryConfig.
Proof. solve_decision. Defined.
#[global] Instance TenantResourceRequirements_eq_dec : EqDecision TenantResourceRequirements.
Proof. solve_decision. Defined.
#[global] Instance TenantMaasAPIConfig_eq_dec : EqDecision TenantMaasAPIConfig.
Proof. solve_decision. Defined.
#[global] Instance TenantAutoscalingConfig_eq_dec : EqDecision TenantAutoscalingConfig.
Proof. solve_decision. Defined.
#[global] Instance TenantPayloadProcessingConfig_eq_dec :
  EqDecision TenantPayloadProcessingConfig.
Proof. solve_decision. Defined.
#[global] Instance PolicyRule_eq_dec : EqDecision PolicyRule.
Proof. solve_decision. Defined.
#[global] Instance AITenantSpec_eq_dec : EqDecision AITenantSpec.
Proof. solve_decision. Defined.
#[global] Instance AITenantStatus_eq_dec : EqDecision AITenantStatus.
Proof. solve_decision. Defined.
#[global] Instance MaasTenantConfigSpec_eq_dec : EqDecision MaasTenantConfigSpec.
Proof. solve_decision. Defined.

(** By kind. *)
Definition aitenant_spec (o : object AITenants) : AITenantSpec := spec o.
Definition aitenant_status (o : object AITenants) : AITenantStatus := status o.
Definition namespace_phase (o : object Namespaces) : string := status o.
Definition config_spec (o : object MaasTenantConfigs) : MaasTenantConfigSpec := spec o.
Definition config_conditions (o : object MaasTenantConfigs) : list V1.Condition := status o.
Definition tenant_spec (o : object Tenants) : TenantSpec := spec o.
Definition listeners (o : object Gateways) : list Listener := spec o.
Definition config_data (o : object ConfigMaps) : gmap string string := spec o.
Definition job_conditions (o : object Jobs) : list (string * string) := status o.

(** ** The store *)

(** The key of an object without a namespace has an empty one. *)
Definition infra : Type := ∀ K : Kind, gmap key (object K).

Definition update {K} (f : gmap key (object K) → gmap key (object K)) (w : infra) : infra :=
  λ K', match decide (K = K') with
        | left e => match e in _ = K' return gmap key (object K') with eq_refl => f (w K) end
        | right _ => w K'
        end.

Lemma update_same {K} f (w : infra) : update f w K = f (w K).
Proof.
  unfold update. destruct (decide (K = K)) as [e|]; [|done].
  by rewrite (UIP_dec Kind_eq_dec e eq_refl).
Qed.
Lemma update_other {K K'} f (w : infra) : K ≠ K' → update (K := K) f w K' = w K'.
Proof. intros Hne. unfold update. by destruct (decide (K = K')). Qed.

(** ** Calls *)

(** Answers of the API server: no such object, no such namespace to create it
    in, an object of the name, or another failure. *)
Inductive server_error : Type :=
  | NotFound
  | NamespaceNotFound
  | AlreadyExists
  | Unavailable (e : api_error).

(** Identifiers of new objects, the generation of an object that is written, the
    time, and [controllerutil] and [apimeta] on what is not in [ApiServer]: the
    owner references with a controller added, conditions without those of a type;
    [validation.IsDNS1123Label]; texts of errors. *)
Class TenantServer : Type := {
  clock : nat → Z;
  server_uid : nat → string;
  server_generation (K : Kind) : Z → spec_of K → spec_of K → Z;
  SetControllerReference :
    string → string → string → list OwnerReference → result string (list OwnerReference);
  RemoveStatusCondition : list V1.Condition → string → list V1.Condition;
  IsDNS1123Label : string → list string;
  server_error_text : server_error → string;
}.

(** The owner reference to a controller. *)
Definition controller_of (kind name uid : string) : OwnerReference :=
  mkOwner "maas.opendatahub.io/v1alpha1" kind name uid true.

(** What they document: on an object that has no other controller, a controller
    reference is set in the place of one to the same object, and then is the
    first; the generation counts changes of the spec; a condition is removed; the
    empty string is no label. *)
Class LawfulTenantServer `{TenantServer} : Prop := {
  server_generation_same K g s : server_generation K g s s = g;
  SetControllerReference_first kind name uid l l' :
    SetControllerReference kind name uid l = Ok l' →
    List.find o_Controller l' = Some (controller_of kind name uid);
  SetControllerReference_free kind name uid l :
    (∀ o, List.find o_Controller l = Some o → ∃ uid', o = controller_of kind name uid') →
    ∃ l', SetControllerReference kind name uid l = Ok l';
  elem_of_RemoveStatusCondition l t c :
    c ∈ RemoveStatusCondition l t ↔ c ∈ l ∧ V1.c_Type c ≠ t;
  IsDNS1123Label_empty : IsDNS1123Label "" ≠ [];
}.

Section calls.
Context `{ApiServer, TenantServer}.

(** What the server does to its store at a tick; it may report a failure
    nonetheless, or do nothing. *)
Definition mutate (f : nat → infra → result server_error infra)
    : prog infra (result server_error ()) :=
  n ← tick;
  w ← get;
  match api_fault n with
  | Some (e, false) => mret (Err (Unavailable e))
  | Some (e, true) =>
      match f n w with
      | Ok w' => _ ← put w'; mret (Err (Unavailable e))
      | Err _ => mret (Err (Unavailable e))
      end
  | None =>
      match f n w with
      | Ok w' => _ ← put w'; mret (Ok ())
      | Err e => mret (Err e)
      end
  end.

(** [client.Get]. *)
Definition Get (K : Kind) (k : key) : prog infra (result server_error (object K)) :=
  n ← tick;
  match api_fault n with
  | Some (e, _) => mret (Err (Unavailable e))
  | None => w ← get; mret match w K !! k with Some o => Ok o | None => Err NotFound end
  end.

(** [client.List] of the objects that pass a test. *)
Definition List (K : Kind) (test : key → object K → bool)
    : prog infra (result server_error (list (key * object K))) :=
  n ← tick;
  match api_fault n with
  | Some (e, _) => mret (Err (Unavailable e))
  | None =>
      w ← get;
      mret (Ok (List.filter (λ ko : key * object K, test ko.1 ko.2)
                  (list_order n (map_to_list (w K)))))
  end.

(** What the server makes of a new object's metadata. *)
Definition created_meta (n : nat) (m : ObjectMeta) : ObjectMeta :=
  mkMeta (om_Labels m) (om_Annotations m) (om_Finalizers m) (om_Owners m) (server_uid n) 1 None.

(** [client.Create]; the namespace has to be there. *)
Definition Create (K : Kind) (k : key) (o : object K) : prog infra (result server_error ()) :=
  mutate (λ n w,
    if (k.1 != "") && negb (bool_decide (is_Some (w Namespaces !! ("", k.1))))
    then Err NamespaceNotFound
    else match w K !! k with
         | Some _ => Err AlreadyExists
         | None => Ok (update (K := K) <[k := with_meta (created_meta n) o]> w)
         end).

(** An object as it is stored after a change of its metadata and spec; one that
    is being deleted goes with its last finalizer. *)
Definition stored {K} (old o : object K) : option (object K) :=
  if being_deleted old && negb (length (om_Finalizers (meta old)) =? 0)
     && (length (om_Finalizers (meta o)) =? 0) then None
  else Some (mkObject K
    (mkMeta (om_Labels (meta o)) (om_Annotations (meta o)) (om_Finalizers (meta o))
       (om_Owners (meta o)) (om_UID (meta old))
       (server_generation K (om_Generation (meta old)) (spec old) (spec o))
       (om_DeletionTimestamp (meta old))) (spec o) (status old)).

(** [client.Patch] with the difference to what was read, or [client.Update]: not
    of the status. *)
Definition Patch (K : Kind) (k : key) (o : object K) : prog infra (result server_error ()) :=
  mutate (λ _ w, match w K !! k with
                 | None => Err NotFound
                 | Some old => Ok (update (K := K) (partial_alter (λ _, stored old o) k) w)
                 end).

(** [client.Status().Update]. *)
Definition UpdateStatus (K : Kind) (k : key) (st : status_of K)
    : prog infra (result server_error ()) :=
  mutate (λ _ w, match w K !! k with
                 | None => Err NotFound
                 | Some old => Ok (update (K := K) <[k := with_status (λ _, st) old]> w)
                 end).

(** What is left of an object that is deleted at a time: itself, being deleted,
    as long as it has finalizers. *)
Definition deleted {K} (t : Z) (old : object K) : option (object K) :=
  if length (om_Finalizers (meta old)) =? 0 then None
  else if being_deleted old then Some old
  else Some (with_meta (λ m, mkMeta (om_Labels m) (om_Annotations m) (om_Finalizers m)
               (om_Owners m) (om_UID m) (om_Generation m) (Some t)) old).

(** [client.Delete]. *)
Definition Delete (K : Kind) (k : key) : prog infra (result server_error ()) :=
  mutate (λ n w, match w K !! k with
                 | None => Err NotFound
                 | Some old =>
                     Ok (update (K := K) (partial_alter (λ _, deleted (clock n) old) k) w)
                 end).
End calls.

End Infra.
