(* ===== verification/AITenantParts.v ===== *)
(** The parts of a tenant that the AITenant controller looks after: names and
    ownership, the labels of gateways on the infrastructure namespace, claims on
    gateways, the tenant's namespace, configuration and roles, and the revocation
    of its API keys.
    [src/maas-controller/pkg/controller/maas/aitenant_controller.go]. *)
From S2P Require Import Prelude GoStrings Sorting Trimming Regex Json Sha256 GoTime Runtime.
From S2P Require Import Unstructured GoFmt MaasTypes Cluster ControllerHelpers TenantCluster.
From S2P Require Import AuthPolicyGateway.
Import Cluster Helpers Fmt Infra.

Module Tenant.

(** [src/maas-controller/pkg/controller/maas/aitenant_controller.go:87-112] AITenantReconciler. *)
Record AITenantReconciler : Type := mkAITenantReconciler {
  AppNamespace : string;
  TenantNamespace : string;
  AITenantNamespace : string;
  DefaultGatewayName : string;
  GatewaysNamespace : string;
  DeletionTimeout : Z;
  Recorder : bool;
  RELATED_IMAGE : string;
}.

(** ** Errors *)

(** An answer of the server, an error of its own, an error in a context, and
    [errTenantAPIKeyRevocationJobFailed]. *)
Inductive error : Type :=
  | ErrServer (e : server_error)
  | ErrText (msg : string)
  | ErrIn (context : string) (e : error)
  | ErrRevocationJobFailed (job : string).

(** [err.Error()]. *)
Fixpoint error_message `{TenantServer} (e : error) : string :=
  match e with
  | ErrServer e => server_error_text e
  | ErrText msg => msg
  | ErrIn context e => context +:+ ": " +:+ error_message e
  | ErrRevocationJobFailed job => "API key revocation Job failed: " +:+ job
  end.

(** [src/maas-controller/pkg/controller/maas/aitenant_controller.go:1809-1817] isNotFoundError. *)
Definition isNotFoundError (e : server_error) : bool :=
  match e with NotFound | NamespaceNotFound => true | _ => false end.
(** [src/maas-controller/pkg/controller/maas/aitenant_controller.go:1819-1827] isAlreadyExistsError. *)
Definition isAlreadyExistsError (e : server_error) : bool :=
  match e with AlreadyExists => true | _ => false end.
(** [src/maas-controller/pkg/controller/maas/aitenant_controller.go:1829-1846] isNamespaceMissingError. *)
Fixpoint isNamespaceMissingError (e : error) : bool :=
  match e with
  | ErrServer NamespaceNotFound => true
  | ErrIn _ e => isNamespaceMissingError e
  | _ => false
  end.
(** [errors.Is]. *)
Fixpoint is_revocation_failed (e : error) : bool :=
  match e with
  | ErrRevocationJobFailed _ => true
  | ErrIn _ e => is_revocation_failed e
  | _ => false
  end.

Abbreviation tprog A := (prog infra (result error A)) (only parsing).

(** A call, its error in a context. *)
Definition call {A} (context : string) (m : prog infra (result server_error A)) : tprog A :=
  r ← m; mret match r with Ok x => Ok x | Err e => Err (ErrIn context (ErrServer e)) end.
Definition plain_call {A} (m : prog infra (result server_error A)) : tprog A :=
  r ← m; mret match r with Ok x => Ok x | Err e => Err (ErrServer e) end.
(** [client.IgnoreNotFound]. *)
Definition ignore_not_found (m : prog infra (result server_error ()))
    : prog infra (result server_error ()) :=
  r ← m;
  mret match r with Err e => if isNotFoundError e then Ok () else Err e | Ok _ => Ok () end.

(** ** Names *)

Definition slash (ns name : string) : string := ns +:+ "/" +:+ name.

(** [src/maas-controller/pkg/controller/maas/aitenant_controller.go:58-82] aitenantFinalizer. *)
Definition aitenantFinalizer : string := "maas.opendatahub.io/aitenant-cleanup".
Definition aitenantCreatedAnnotation : string := "maas.opendatahub.io/created-by-aitenant".
Definition aitenantUIDAnnotation : string := "maas.opendatahub.io/aitenant-uid".
Definition legacyDeprecatedByAnnotation : string := "maas.opendatahub.io/deprecated-by".
Definition legacyMigratedToAnnotation : string := "maas.opendatahub.io/migrated-to".
Definition legacyDefaultGatewayName : string := "maas-default-gateway".
Definition aitenantAPIKeysRevokedAnnotation : string := "maas.opendatahub.io/api-keys-revoked".
Definition aitenantAPIKeysRevokedCondition : string := "APIKeysRevoked".
Definition gatewayLabelsAnnotation : string := "maas.opendatahub.io/gateway-selector-labels".
Definition gatewayClaimLabel : string := "maas.opendatahub.io/gateway-claim".
Definition generatedNamespaceLabel : string := "opendatahub.io/generated-namespace".
(** [src/maas-controller/pkg/controller/maas/tenant_reconcile.go:50-53] tenantFinalizer. *)
Definition tenantFinalizer : string := "maas.opendatahub.io/tenant-cleanup".
Definition legacyTenantFinalizer : string := "maas.opendatahub.io/tenant-finalizer".
(** [src/maas-controller/pkg/platform/tenantreconcile/constants.go:35-56] ComponentName. *)
Definition ComponentName : string := "modelsasservice".
Definition LabelGatewayAccess : string := "maas.opendatahub.io/gateway-access".
Definition DefaultAITenantNamespace : string := "ai-tenants".

(** The name of a MaasTenantConfig, and of a legacy Tenant.
    [src/maas-controller/api/maas/v1alpha1/maastenantconfig_types.go:21-26] MaasTenantConfigInstanceName. *)
Definition MaasTenantConfigKind : string := "MaasTenantConfig".
Definition default_tenant_name : string := "default-tenant".

(** [strings.TrimSuffix]. *)
Definition TrimSuffix (s suffix : string) : string :=
  match strip_prefix (String.rev suffix) (String.rev s) with
  | Some r => String.rev r
  | None => s
  end.

(** [src/maas-controller/pkg/controller/maas/aitenant_controller.go:1900-1920] aitenantBoundedName. *)
Definition aitenantBoundedName (prefix aitenantName suffix : string) (maxLength : nat) : string :=
  let name := prefix +:+ aitenantName +:+ suffix in
  if String.length name <=? maxLength then name
  else
    let hash := String.substring 0 8 (SHA.EncodeToString (SHA.Sum256 aitenantName)) in
    let budget := (Z.of_nat maxLength - Z.of_nat (String.length prefix)
                   - Z.of_nat (String.length suffix) - Z.of_nat (String.length hash) - 1)%Z in
    if (budget <? 1)%Z then
      let fallback := TrimSuffix prefix "-" +:+ "-" +:+ hash +:+ suffix in
      if String.length fallback <=? maxLength then fallback
      else TrimSuffix prefix "-" +:+ "-" +:+ hash
    else
      let trimmed := Naming.Trim (String.substring 0 (Z.to_nat budget) aitenantName) in
      let trimmed := if trimmed == "" then hash else trimmed in
      prefix +:+ trimmed +:+ suffix +:+ "-" +:+ hash.

(** [src/maas-controller/pkg/controller/maas/aitenant_controller.go:1895-1898] aitenantChildName. *)
Definition aitenantChildName (aitenantName suffix : string) : string :=
  aitenantBoundedName "aitenant-" aitenantName ("-" +:+ suffix) 63.
(** [src/maas-controller/pkg/controller/maas/aitenant_controller.go:1887-1889] tenantAdminRoleName. *)
Definition tenantAdminRoleName (k : key) : string := aitenantChildName k.2 "tenant-admin".
(** [src/maas-controller/pkg/controller/maas/aitenant_controller.go:1891-1893] aitenantAccessRoleName. *)
Definition aitenantAccessRoleName (k : key) : string := aitenantChildName k.2 "object-admin".
(** [src/maas-controller/pkg/controller/maas/aitenant_controller.go:1441-1446] aitenantAPIKeyRevocationJobName. *)
Definition aitenantAPIKeyRevocationJobName (aitenantName : string) : string :=
  aitenantBoundedName "maas-api-revoke-keys-" aitenantName "" (63 - 6).

(** Resources of a tenant with names that Kubernetes limits.
    [src/maas-controller/pkg/platform/tenantreconcile/constants.go:232-234] PayloadPreProcessingServiceName. *)
Definition PayloadPreProcessingServiceName (tenantID : string) : string :=
  resourceNameForTenant "payload-pre-processing" tenantID.
(** [src/maas-controller/pkg/platform/tenantreconcile/constants.go:192-194] MaaSAPIKeyCleanupCronJobName. *)
Definition MaaSAPIKeyCleanupCronJobName (tenantID : string) : string :=
  resourceNameForTenant "maas-api-key-cleanup" tenantID.

Section names.
Context (r : AITenantReconciler).

(** [src/maas-controller/pkg/controller/maas/aitenant_controller.go:346-351] aitenantNamespace. *)
Definition aitenantNamespace : string :=
  if AITenantNamespace r == "" then DefaultAITenantNamespace else AITenantNamespace r.
(** [src/maas-controller/pkg/controller/maas/aitenant_controller.go:353-355] tenantNamespaceName. *)
Definition tenantNamespaceName (k : key) : string :=
  TenantNamespaceForAITenant k.2 (TenantNamespace r).

(** [src/maas-controller/pkg/controller/maas/aitenant_controller.go:585-596] gatewayRefFor. *)
Definition gatewayRefFor (k : key) (s : AITenantSpec) : GatewayRef :=
  mkGateway
    match sp_Gateway s with Some name => if name != "" then name else k.2 | None => k.2 end
    (GatewaysNamespace r).

Context `{TenantServer} {uni : Unicode}.

(** [src/maas-controller/pkg/controller/maas/aitenant_controller.go:319-344] validateAITenantPlacement. *)
Definition validateAITenantPlacement (k : key) : result error () :=
  let name := slash k.1 k.2 in
  let tenantNamespace := tenantNamespaceName k in
  let errs := IsDNS1123Label tenantNamespace in
  if k.1 == "" then Err (ErrText ("AITenant " +:+ Quote k.2 +:+ " must be namespaced"))
  else if (AppNamespace r != "") && (k.1 == AppNamespace r) then
    Err (ErrText ("AITenant " +:+ name
      +:+ " must not be created in the protected application namespace " +:+ Quote (AppNamespace r)))
  else if (TenantNamespace r != "") && (k.1 == TenantNamespace r) then
    Err (ErrText ("AITenant " +:+ name
      +:+ " must be created in a separate infra namespace, not the tenant namespace "
      +:+ Quote (TenantNamespace r)))
  else if k.1 != aitenantNamespace then
    Err (ErrText ("AITenant " +:+ name
      +:+ " must be created in the configured AITenant infrastructure namespace "
      +:+ Quote aitenantNamespace))
  else if tenantNamespace == k.1 then
    Err (ErrText ("derived tenant namespace must be different from the AITenant infra namespace "
      +:+ Quote k.1))
  else if (AppNamespace r != "") && (tenantNamespace == AppNamespace r) then
    Err (ErrText ("derived tenant namespace must not be the protected application namespace "
      +:+ Quote (AppNamespace r)))
  else if 0 <? length errs then
    Err (ErrText ("derived tenant namespace " +:+ Quote tenantNamespace +:+ " is invalid: "
      +:+ GoStrings.join "; " errs))
  else Ok ().
End names.

(** ** Ownership *)

(** [src/maas-controller/pkg/controller/maas/aitenant_controller.go:1756-1777] applyAITenantMetadata. *)
Definition applyAITenantMetadata (k : key) (tenantNamespace : string) (m : ObjectMeta)
    : ObjectMeta :=
  set_Annotations (λ a, <[AnnotationAITenantNamespace := k.1]>
                          (<[AnnotationAITenantName := k.2]> a))
    (set_Labels (λ l,
       <[LabelGatewayAccess := "true"]>
      (<[LabelTenantNamespace := tenantNamespace]>
      (<[LabelTenantName := k.2]>
      (<[LabelAIGatewayTenant := k.2]>
      (<[LabelManagedByAITenant := "true"]>
      (<["app.kubernetes.io/part-of" := ComponentName]>
      (<["app.kubernetes.io/managed-by" := "maas-controller"]> l))))))) m).

(** [src/maas-controller/pkg/controller/maas/aitenant_controller.go:1875-1885] removeMapValueIfEqual. *)
Definition removeMapValueIfEqual (k value : string) (m : gmap string string)
    : gmap string string :=
  if at_key m k == value then delete k m else m.

(** [src/maas-controller/pkg/controller/maas/aitenant_controller.go:1779-1795] removeAITenantMetadata. *)
Definition removeAITenantMetadata (k : key) (tenantNamespace : string) (m : ObjectMeta)
    : ObjectMeta :=
  set_Annotations (λ a,
      removeMapValueIfEqual aitenantCreatedAnnotation "true"
     (removeMapValueIfEqual AnnotationAITenantNamespace k.1
     (removeMapValueIfEqual AnnotationAITenantName k.2 a)))
    (set_Labels (λ l,
      removeMapValueIfEqual LabelGatewayAccess "true"
     (removeMapValueIfEqual LabelTenantNamespace tenantNamespace
     (removeMapValueIfEqual LabelTenantName k.2
     (removeMapValueIfEqual LabelAIGatewayTenant k.2
     (removeMapValueIfEqual LabelManagedByAITenant "true"
     (removeMapValueIfEqual "app.kubernetes.io/part-of" ComponentName
     (removeMapValueIfEqual "app.kubernetes.io/managed-by" "maas-controller" l))))))) m).

(** [src/maas-controller/pkg/controller/maas/aitenant_controller.go:1797-1807] ownedByAITenant. *)
Definition ownedByAITenant (m : ObjectMeta) (k : key) : bool :=
  (at_key (om_Annotations m) AnnotationAITenantName == k.2)
  && (at_key (om_Annotations m) AnnotationAITenantNamespace == k.1).
(** [src/maas-controller/pkg/controller/maas/aitenant_controller.go:1859-1863] hasAITenantOwnerAnnotations. *)
Definition hasAITenantOwnerAnnotations (m : ObjectMeta) : bool :=
  (at_key (om_Annotations m) AnnotationAITenantName != "")
  || (at_key (om_Annotations m) AnnotationAITenantNamespace != "").
(** It belongs to another tenant. *)
Definition owned_by_other (m : ObjectMeta) (k : key) : bool :=
  hasAITenantOwnerAnnotations m && negb (ownedByAITenant m k).

(** ** Status *)

Section status.
Context `{ApiServer, TenantServer}.

(** [src/maas-controller/pkg/controller/maas/aitenant_controller.go:1733-1747] setAITenantPhase. *)
Definition setAITenantPhase (t : object AITenants) (phase reason message : string)
    : object AITenants :=
  with_status (K := AITenants) (λ st,
    mkAITenantStatus phase (st_TenantNamespace st) (st_GatewayRef st)
      (set_condition (st_Conditions st)
         (V1.mkCondition "Ready" (if phase == "Active" then "True" else "False")
            reason message (om_Generation (meta t))))) t.

(** [src/maas-controller/pkg/controller/maas/aitenant_controller.go:1749-1754] updateAITenantStatus. *)
Definition updateAITenantStatus (k : key) (t : object AITenants)
    (statusSnapshot : AITenantStatus) : tprog () :=
  if statusSnapshot == aitenant_status t then mret (Ok ())
  else plain_call (UpdateStatus AITenants k (status t)).
End status.

(** ** Objects that are created or brought up to date *)

Section upsert.
Context `{ApiServer, TenantServer}.

(** The object that is there has the right owner, and is patched if it needs to.
    [src/maas-controller/pkg/controller/maas/aitenant_controller.go:1528-1544] upsertWithCreate. *)
Definition upsert_existing {K} `{EqDecision (object K)} (kind : string) (k owner : key)
    (mutate : object K → tprog (object K)) (current : object K) : tprog () :=
  if owned_by_other (meta current) owner then
    mret (Err (ErrText (kind +:+ " " +:+ slash k.1 k.2 +:+ " is managed by another AITenant")))
  else
    wanted ←? mutate current;
    if current == wanted then mret (Ok ())
    else call ("patch " +:+ kind +:+ " " +:+ slash k.1 k.2) (Patch K k wanted).

(** [src/maas-controller/pkg/controller/maas/aitenant_controller.go:1494-1545] upsertWithCreate. *)
Definition upsert {K} `{EqDecision (object K)} (kind : string) (k owner : key)
    (o : object K) (mutate : object K → tprog (object K)) : tprog () :=
  let name := kind +:+ " " +:+ slash k.1 k.2 in
  current ← Get K k;
  match current with
  | Ok current => upsert_existing kind k owner mutate current
  | Err e =>
      if negb (isNotFoundError e) then mret (Err (ErrIn ("get " +:+ name) (ErrServer e)))
      else
        o ←? mutate o;
        created ← Create K k o;
        match created with
        | Ok _ => mret (Ok ())
        | Err e =>
            if negb (isAlreadyExistsError e)
            then mret (Err (ErrIn ("create " +:+ name) (ErrServer e)))
            else
              current ←? call ("get " +:+ name +:+ " after create conflict") (Get K k);
              upsert_existing kind k owner mutate current
        end
  end.

(** [src/maas-controller/pkg/controller/maas/aitenant_controller.go:1474-1485] deleteOwned. *)
Definition deleteOwned (K : Kind) (k owner : key) : tprog () :=
  if k.2 == "" then mret (Ok ())
  else
    o ← Get K k;
    match o with
    | Err e => mret (if isNotFoundError e then Ok () else Err (ErrServer e))
    | Ok o =>
        if negb (ownedByAITenant (meta o) owner) then mret (Ok ())
        else plain_call (ignore_not_found (Delete K k))
    end.
End upsert.

(** ** The labels of gateways on the infrastructure namespace *)

(** Which gateways own a label; [None] is a nil map. *)
Abbreviation ownership := (option (gmap string (list string))) (only parsing).
Definition owners_of (o : ownership) (label : string) : list string :=
  default [] (default ∅ o !! label).

(** [src/maas-controller/pkg/controller/maas/aitenant_controller.go:421-431] parseOwnershipAnnotation. *)
Definition parseOwnershipAnnotation (raw : string) : option ownership :=
  if raw == "" then Some (Some ∅) else Json.UnmarshalMap raw.

(** The labels a listener selects namespaces by.
    [src/maas-controller/pkg/controller/maas/aitenant_controller.go:438-445] gatewayDesiredLabels. *)
Definition listener_labels (l : Listener) : gmap string string :=
  match li_Namespaces l with
  | Some ns =>
      if rn_From ns == Some "Selector" then default ∅ (rn_Selector ns) else ∅
  | None => ∅
  end.

Section labels.
Context {uni : Unicode}.

(** The order in which Go ranges over the labels only decides which conflict is
    reported.
    [src/maas-controller/pkg/controller/maas/aitenant_controller.go:446-452] gatewayDesiredLabels. *)
Fixpoint add_labels (gw : key) (listener : string) (desired : gmap string string)
    (labels : list (string * string)) : result error (gmap string string) :=
  match labels with
  | [] => Ok desired
  | (k, v) :: labels' =>
      match desired !! k with
      | Some existing =>
          if existing != v then
            Err (ErrText ("gateway " +:+ slash gw.1 gw.2
              +:+ " has conflicting namespace selector values for label " +:+ Quote k
              +:+ ": listener " +:+ Quote listener +:+ " wants " +:+ Quote v
              +:+ " but another listener wants " +:+ Quote existing))
          else add_labels gw listener (<[k := v]> desired) labels'
      | None => add_labels gw listener (<[k := v]> desired) labels'
      end
  end.

(** [src/maas-controller/pkg/controller/maas/aitenant_controller.go:433-455] gatewayDesiredLabels. *)
Fixpoint desired_from (gw : key) (desired : gmap string string) (listeners : list Listener)
    : result error (gmap string string) :=
  match listeners with
  | [] => Ok desired
  | l :: listeners' =>
      match add_labels gw (li_Name l) desired (map_to_list (listener_labels l)) with
      | Ok desired => desired_from gw desired listeners'
      | Err e => Err e
      end
  end.
Definition gatewayDesiredLabels (gw : key) (listeners : list Listener)
    : result error (gmap string string) := desired_from gw ∅ listeners.

(** A desired label that has another value, set by hand or for another gateway.
    [src/maas-controller/pkg/controller/maas/aitenant_controller.go:481-502] ensureInfraNamespaceGatewayLabels. *)
Definition label_conflict (appNamespace gw : string) (o : ownership)
    (labels : gmap string string) (kv : string * string) : option error :=
  let '(k, v) := kv in
  match labels !! k with
  | None => None
  | Some existing =>
      if existing == v then None
      else
        match owners_of o k with
        | [] =>
            Some (ErrText ("label " +:+ Quote k +:+ " on infra namespace " +:+ appNamespace
              +:+ " already has value " +:+ Quote existing
              +:+ " set outside the controller; gateway " +:+ Quote gw +:+ " wants "
              +:+ Quote v +:+ " " +:+ bytes [226; 128; 148] +:+ " resolve manually"))
        | owner :: others =>
            if (0 <? length others) || (owner != gw) then
              let otherName :=
                match others with
                | second :: _ => if owner == gw then second else owner
                | [] => owner
                end in
              Some (ErrText ("conflicting gateway label " +:+ Quote k +:+ " on infra namespace "
                +:+ appNamespace +:+ ": owned by gateway " +:+ Quote otherName +:+ " (value "
                +:+ Quote existing +:+ ") but gateway " +:+ Quote gw +:+ " wants " +:+ Quote v))
            else None
        end
  end.
End labels.

(** [src/maas-controller/pkg/controller/maas/aitenant_controller.go:504-513] ensureInfraNamespaceGatewayLabels. *)
Definition stale_labels (gw : string) (o : ownership) (desired : gmap string string)
    : list string :=
  fst <$> List.filter (λ ko : string * list string,
    contains ko.2 gw && negb (bool_decide (is_Some (desired !! ko.1))))
    (map_to_list (default ∅ o)).

(** [src/maas-controller/pkg/controller/maas/aitenant_controller.go:515-537] ensureInfraNamespaceGatewayLabels. *)
Definition labels_up_to_date (gw : string) (o : ownership) (desired : gmap string string)
    (labels : gmap string string) : bool :=
  (length (stale_labels gw o desired) =? 0)
  && forallb (λ kv, at_key labels kv.1 == kv.2) (map_to_list desired)
  && forallb (λ kv, contains (owners_of o kv.1) gw) (map_to_list desired).

(** [src/maas-controller/pkg/controller/maas/aitenant_controller.go:546-551] ensureInfraNamespaceGatewayLabels. *)
Definition claim_label (gw : string) (x : gmap string string * gmap string (list string))
    (kv : string * string) : gmap string string * gmap string (list string) :=
  let '(labels, o) := x in
  (<[kv.1 := kv.2]> labels,
   if contains (owners_of (Some o) kv.1) gw then o
   else <[kv.1 := owners_of (Some o) kv.1 ++ [gw]]> o).

(** [slices.DeleteFunc] of the gateway.
    [src/maas-controller/pkg/controller/maas/aitenant_controller.go:552-558] ensureInfraNamespaceGatewayLabels. *)
Definition without (gw : string) (owners : list string) : list string :=
  List.filter (λ s, s != gw) owners.
Definition release_label (gw : string) (x : gmap string string * gmap string (list string))
    (k : string) : gmap string string * gmap string (list string) :=
  let '(labels, o) := x in
  match without gw (owners_of (Some o) k) with
  | [] => (delete k labels, delete k o)
  | owners => (labels, <[k := owners]> o)
  end.

(** The annotation; lists that are [null] are written as empty ones.
    [src/maas-controller/pkg/controller/maas/aitenant_controller.go:560-572] ensureInfraNamespaceGatewayLabels. *)
Definition write_ownership (o : gmap string (list string)) (annotations : gmap string string)
    : gmap string string :=
  if bool_decide (o = ∅) then delete gatewayLabelsAnnotation annotations
  else <[gatewayLabelsAnnotation := Json.MarshalMap o]> annotations.

(** [src/maas-controller/pkg/controller/maas/aitenant_controller.go:539-572] ensureInfraNamespaceGatewayLabels. *)
Definition relabelled (gw : string) (o : gmap string (list string))
    (desired : gmap string string) (ns : object Namespaces) : object Namespaces :=
  let claimed :=
    foldl (claim_label gw) (om_Labels (meta ns), o) (map_to_list desired) in
  let '(labels, o') :=
    foldl (release_label gw) claimed (stale_labels gw (Some o) desired) in
  with_meta (λ m, set_Annotations (write_ownership o') (set_Labels (λ _, labels) m)) ns.

(** What a part of a reconcile does: an error, or a panic, which ends it. *)
Inductive outcome : Type := Done | Failed (e : error) | Panicked.

Section gateway_labels.
Context `{ApiServer, TenantServer} {uni : Unicode} (r : AITenantReconciler).

(** Nothing is written when nothing changes; a nil map cannot be written to. The
    error of a wrong annotation is without the one of [json.Unmarshal].
    [src/maas-controller/pkg/controller/maas/aitenant_controller.go:457-583] ensureInfraNamespaceGatewayLabels. *)
Definition ensureInfraNamespaceGatewayLabels (gw : key) (listeners : list Listener)
    : prog infra outcome :=
  match gatewayDesiredLabels gw listeners with
  | Err e => mret (Failed e)
  | Ok desired =>
      infraNs ← Get Namespaces ("", AppNamespace r);
      match infraNs with
      | Err e =>
          mret (if isNotFoundError e && bool_decide (desired = ∅) then Done
                else Failed (ErrIn ("read infra namespace " +:+ AppNamespace r) (ErrServer e)))
      | Ok ns =>
          match parseOwnershipAnnotation
                  (at_key (om_Annotations (meta ns)) gatewayLabelsAnnotation) with
          | None => mret (Failed (ErrText ("unmarshal " +:+ gatewayLabelsAnnotation
                      +:+ " annotation on infra namespace " +:+ AppNamespace r)))
          | Some o =>
              let labels := om_Labels (meta ns) in
              match omap (label_conflict (AppNamespace r) gw.2 o labels) (map_to_list desired) with
              | e :: _ => mret (Failed e)
              | [] =>
                  if labels_up_to_date gw.2 o desired labels then mret Done
                  else
                    match o with
                    | None => mret Panicked
                    | Some o =>
                        p ← Patch Namespaces ("", AppNamespace r) (relabelled gw.2 o desired ns);
                        mret match p with
                             | Ok _ => Done
                             | Err e => Failed (ErrIn ("patch labels on infra namespace "
                                          +:+ AppNamespace r) (ErrServer e))
                             end
                    end
              end
          end
      end
  end.

(** [src/maas-controller/pkg/controller/maas/aitenant_controller.go:623-661] cleanupGatewayLabelsOnDelete. *)
Definition unlabelled (gw : string) (o : gmap string (list string)) (ns : object Namespaces)
    : object Namespaces :=
  let owned := List.filter (λ ko : string * list string, contains ko.2 gw) (map_to_list o) in
  let sole := fst <$> List.filter (λ ko : string * list string, length ko.2 =? 1) owned in
  let shared :=
    fst <$> List.filter (λ ko : string * list string, negb (length ko.2 =? 1)) owned in
  let labels := foldl (λ l k, delete k l) (om_Labels (meta ns)) sole in
  let o := foldl (λ o k, <[k := without gw (owners_of (Some o) k)]> o)
             (foldl (λ o k, delete k o) o sole) shared in
  with_meta (λ m, set_Annotations (write_ownership o) (set_Labels (λ _, labels) m)) ns.

(** [src/maas-controller/pkg/controller/maas/aitenant_controller.go:598-671] cleanupGatewayLabelsOnDelete. *)
Definition cleanupGatewayLabelsOnDelete (k : key) (s : AITenantSpec) : tprog () :=
  let gatewayRef := gatewayRefFor r k s in
  if (g_Name gatewayRef == "") || (g_Namespace gatewayRef == "") then mret (Ok ())
  else
    infraNs ← Get Namespaces ("", AppNamespace r);
    match infraNs with
    | Err e =>
        mret (if isNotFoundError e then Ok ()
              else Err (ErrIn ("read infra namespace " +:+ AppNamespace r) (ErrServer e)))
    | Ok ns =>
        match parseOwnershipAnnotation
                (at_key (om_Annotations (meta ns)) gatewayLabelsAnnotation) with
        | None => mret (Ok ())
        | Some o =>
            let o := default ∅ o in
            if existsb (λ ko : string * list string, contains ko.2 (g_Name gatewayRef))
                 (map_to_list o)
            then call ("cleanup gateway labels on infra namespace " +:+ AppNamespace r)
                   (Patch Namespaces ("", AppNamespace r) (unlabelled (g_Name gatewayRef) o ns))
            else mret (Ok ())
        end
    end.
End gateway_labels.

(** ** Claims on gateways *)

(** [src/maas-controller/pkg/controller/maas/aitenant_controller.go:1547-1558] gatewayClaimName. *)
Definition gatewayClaimName (gatewayRef : GatewayRef) : string :=
  let raw := g_Namespace gatewayRef +:+ "/" +:+ g_Name gatewayRef in
  "gateway-claim-" +:+ String.substring 0 32 (SHA.EncodeToString (SHA.Sum256 raw)).

(** [src/maas-controller/pkg/controller/maas/aitenant_controller.go:1560-1585] isClaimOwnedByAITenant. *)
Definition isClaimOwnedByAITenant (claim : ObjectMeta) (k : key) (uid : string) : bool :=
  match List.find o_Controller (om_Owners claim) with
  | Some ref =>
      if (o_Kind ref != "AITenant") || (o_Name ref != k.2) then false
      else if (uid != "") && (o_UID ref != "") then o_UID ref == uid
      else ownedByAITenant claim k
  | None => ownedByAITenant claim k
  end.

Definition is_claim (ns : string) (k : key) (cm : object ConfigMaps) : bool :=
  (k.1 == ns) && (om_Labels (meta cm) !! gatewayClaimLabel == Some "true").

(** Who has the claim, for the message.
    [src/maas-controller/pkg/controller/maas/aitenant_controller.go:1662-1669] ensureGatewayClaim. *)
Definition claim_owner (claim : ObjectMeta) : string :=
  match List.find (λ ref, o_Controller ref && (o_Kind ref == "AITenant")) (om_Owners claim) with
  | Some ref => o_Name ref
  | None => at_key (om_Annotations claim) AnnotationAITenantName
  end.

Definition claim_data (gatewayRef : GatewayRef) : gmap string string :=
  <["gatewayNamespace" := g_Namespace gatewayRef]>
    {["gatewayName" := g_Name gatewayRef]}.

(** [src/maas-controller/pkg/controller/maas/aitenant_controller.go:1599-1617] ensureGatewayClaim. *)
Definition new_claim (k : key) (gatewayRef : GatewayRef) (owners : list OwnerReference)
    : object ConfigMaps :=
  mkObject ConfigMaps
    (mkMeta (list_to_map [("app.kubernetes.io/managed-by", "maas-controller");
                          (gatewayClaimLabel, "true"); (LabelManagedByAITenant, "true")])
       (list_to_map [(AnnotationAITenantName, k.2); (AnnotationAITenantNamespace, k.1)])
       [] owners "" 0 None)
    (claim_data gatewayRef) ().

Section claims.
Context `{ApiServer, TenantServer} {uni : Unicode} (r : AITenantReconciler).

(** Deletes what is found, one after the other. *)
Fixpoint delete_claims (what : string) (claims : list (key * object ConfigMaps)) : tprog () :=
  match claims with
  | [] => mret (Ok ())
  | (k, _) :: claims' =>
      _ ←? call ("delete " +:+ what +:+ " " +:+ slash k.1 k.2)
             (ignore_not_found (Delete ConfigMaps k));
      delete_claims what claims'
  end.

(** [src/maas-controller/pkg/controller/maas/aitenant_controller.go:1705-1731] cleanupStaleClaims. *)
Definition cleanupStaleClaims (k : key) (uid : string) (currentRef : GatewayRef) : tprog () :=
  let ns := aitenantNamespace r in
  claims ←? call ("list gateway claims in " +:+ ns) (List ConfigMaps (is_claim ns));
  delete_claims "stale gateway claim"
    (List.filter (λ c : key * object ConfigMaps,
       (c.1.2 != gatewayClaimName currentRef)
       && isClaimOwnedByAITenant (meta c.2) k uid) claims).

(** [src/maas-controller/pkg/controller/maas/aitenant_controller.go:1682-1703] deleteGatewayClaim. *)
Definition deleteGatewayClaim (k : key) (uid : string) : tprog () :=
  let ns := aitenantNamespace r in
  claims ←? call ("list gateway claims in " +:+ ns) (List ConfigMaps (is_claim ns));
  delete_claims "gateway claim"
    (List.filter (λ c : key * object ConfigMaps, isClaimOwnedByAITenant (meta c.2) k uid)
       claims).

(** A claim of this tenant that is there: its owner reference is renewed.
    [src/maas-controller/pkg/controller/maas/aitenant_controller.go:1635-1660] ensureGatewayClaim. *)
Definition renew_claim (k : key) (uid : string) (gatewayRef : GatewayRef)
    (existing : object ConfigMaps) : tprog () :=
  let ns := aitenantNamespace r in
  let name := slash ns (gatewayClaimName gatewayRef) in
  let data := at_key (config_data existing) in
  if (data "gatewayNamespace" != g_Namespace gatewayRef)
     || (data "gatewayName" != g_Name gatewayRef) then
    mret (Err (ErrText ("claim " +:+ name +:+ " already exists for gateway "
      +:+ slash (data "gatewayNamespace") (data "gatewayName") +:+ " but tenant "
      +:+ slash k.1 k.2 +:+ " needs " +:+ slash (g_Namespace gatewayRef) (g_Name gatewayRef)
      +:+ "; this indicates a hash collision or stale claim")))
  else
    match SetControllerReference "AITenant" k.2 uid (om_Owners (meta existing)) with
    | Err e => mret (Err (ErrText ("set owner reference on existing gateway claim " +:+ name
                 +:+ ": " +:+ e)))
    | Ok owners =>
        _ ←? (if om_Owners (meta existing) == owners then mret (Ok ())
              else call ("update owner reference on gateway claim " +:+ name)
                     (Patch ConfigMaps (ns, gatewayClaimName gatewayRef)
                        (with_meta (set_Owners owners) existing)));
        cleanupStaleClaims k uid gatewayRef
    end.

(** [src/maas-controller/pkg/controller/maas/aitenant_controller.go:1587-1680] ensureGatewayClaim. *)
Definition ensureGatewayClaim (k : key) (uid : string) (gatewayRef : GatewayRef) : tprog () :=
  let ns := aitenantNamespace r in
  let claimName := gatewayClaimName gatewayRef in
  let name := slash ns claimName in
  if (g_Namespace gatewayRef == "") || (g_Name gatewayRef == "") then
    mret (Err (ErrText ("gateway reference must have both namespace and name set (got namespace="
      +:+ Quote (g_Namespace gatewayRef) +:+ ", name=" +:+ Quote (g_Name gatewayRef) +:+ ")")))
  else
    match SetControllerReference "AITenant" k.2 uid [] with
    | Err e => mret (Err (ErrText ("set owner reference on gateway claim " +:+ name +:+ ": " +:+ e)))
    | Ok owners =>
        created ← Create ConfigMaps (ns, claimName) (new_claim k gatewayRef owners);
        match created with
        | Ok _ => cleanupStaleClaims k uid gatewayRef
        | Err e =>
            if negb (isAlreadyExistsError e) then
              mret (Err (ErrIn ("create gateway claim " +:+ name) (ErrServer e)))
            else
              existing ←? call ("get existing gateway claim " +:+ name)
                            (Get ConfigMaps (ns, claimName));
              if isClaimOwnedByAITenant (meta existing) k uid then
                renew_claim k uid gatewayRef existing
              else
                mret (Err (ErrText ("gateway "
                  +:+ slash (g_Namespace gatewayRef) (g_Name gatewayRef)
                  +:+ " is already claimed by AITenant "
                  +:+ slash (at_key (om_Annotations (meta existing)) AnnotationAITenantNamespace)
                        (claim_owner (meta existing))
                  +:+ "; each AITenant requires a dedicated Gateway for isolation")))
        end
    end.
End claims.

(** ** The tenant's namespace *)

#[export] Instance object_eq_dec K `{EqDecision (spec_of K), EqDecision (status_of K)} :
  EqDecision (object K).
Proof. solve_decision. Defined.

Section namespace.
Context `{ApiServer, TenantServer} {uni : Unicode} (r : AITenantReconciler).

(** A namespace that is there is adopted, unless it is another tenant's.
    [src/maas-controller/pkg/controller/maas/aitenant_controller.go:385-399] ensureTenantNamespace. *)
Definition adopt_namespace (k : key) (ns : object Namespaces) : tprog bool :=
  let name := tenantNamespaceName r k in
  if namespace_phase ns == "Terminating" then
    mret (Err (ErrText ("tenant namespace " +:+ Quote name +:+ " is terminating")))
  else if owned_by_other (meta ns) k then
    mret (Err (ErrText ("tenant namespace " +:+ Quote name +:+ " is managed by another AITenant")))
  else
    let wanted := with_meta (applyAITenantMetadata k name) ns in
    if bool_decide (meta ns = meta wanted) then mret (Ok false)
    else
      _ ←? call ("patch tenant namespace " +:+ Quote name) (Patch Namespaces ("", name) wanted);
      mret (Ok false).

(** Whether it has been created.
    [src/maas-controller/pkg/controller/maas/aitenant_controller.go:357-400] ensureTenantNamespace. *)
Definition ensureTenantNamespace (k : key) : tprog bool :=
  let name := tenantNamespaceName r k in
  ns ← Get Namespaces ("", name);
  match ns with
  | Ok ns => adopt_namespace k ns
  | Err e =>
      if negb (isNotFoundError e) then
        mret (Err (ErrIn ("get tenant namespace " +:+ Quote name) (ErrServer e)))
      else
        let m := applyAITenantMetadata k name new_meta in
        let m := set_Annotations <[aitenantCreatedAnnotation := "true"]>
                   (set_Labels <[generatedNamespaceLabel := "true"]> m) in
        created ← Create Namespaces ("", name) (mkObject Namespaces m () "");
        match created with
        | Ok _ => mret (Ok true)
        | Err e =>
            if negb (isAlreadyExistsError e) then
              mret (Err (ErrIn ("create tenant namespace " +:+ Quote name) (ErrServer e)))
            else
              ns ←? call ("get tenant namespace " +:+ Quote name +:+ " after create conflict")
                      (Get Namespaces ("", name));
              adopt_namespace k ns
        end
  end.

(** [src/maas-controller/pkg/controller/maas/aitenant_controller.go:402-419] validateTenantGateway. *)
Definition validateTenantGateway (ref : GatewayRef) : tprog (object Gateways) :=
  if g_Namespace ref == "" then
    mret (Err (ErrText "gateway namespace is required; set --gateway-namespace"))
  else if g_Name ref == "" then
    mret (Err (ErrText "spec.gateway.name is required when AITenant name is empty"))
  else
    let name := slash (g_Namespace ref) (g_Name ref) in
    gw ← Get Gateways (g_Namespace ref, g_Name ref);
    mret match gw with
         | Ok gw => Ok gw
         | Err e =>
             if isNotFoundError e then
               Err (ErrText ("gateway " +:+ name +:+ " not found: the Gateway must be created by a network or cluster administrator before AITenant can be provisioned"))
             else Err (ErrIn ("get Gateway " +:+ name) (ErrServer e))
         end.

(** ** Legacy Tenants *)

(** [src/maas-controller/pkg/controller/maas/aitenant_controller.go:733-739] legacyGatewayNameIsSharedDefault. *)
Definition legacyGatewayNameIsSharedDefault (k : key) (gatewayName : string) : bool :=
  let defaultGatewayName :=
    if DefaultGatewayName r == "" then legacyDefaultGatewayName else DefaultGatewayName r in
  (k.2 != DefaultAITenantName) && (gatewayName == defaultGatewayName).

(** The platform context of a legacy Tenant in the AITenant.
    [src/maas-controller/pkg/controller/maas/aitenant_controller.go:705-723] migrateLegacyTenantPlatformContext. *)
Definition migrated_spec (k : key) (s : AITenantSpec) (legacy : TenantSpec) : AITenantSpec :=
  let oidc := match sp_OIDC s with Some o => Some o | None => ts_ExternalOIDC legacy end in
  let name := g_Name (ts_GatewayRef legacy) in
  let unset := match sp_Gateway s with Some n => n == "" | None => true end in
  mkAITenantSpec
    (if (name != "") && unset && negb (legacyGatewayNameIsSharedDefault k name)
     then Some name else sp_Gateway s) oidc.

(** Whether the AITenant has been patched.
    [src/maas-controller/pkg/controller/maas/aitenant_controller.go:698-731] migrateLegacyTenantPlatformContext. *)
Definition migrateLegacyTenantPlatformContext (k : key) (t : object AITenants)
    (tenantNamespace : string) : tprog bool :=
  legacy ← Get Tenants (tenantNamespace, default_tenant_name);
  match legacy with
  | Err e => mret (if isNotFoundError e then Ok false else Err (ErrServer e))
  | Ok legacy =>
      let ref := ts_GatewayRef (tenant_spec legacy) in
      if (g_Namespace ref != "") && (g_Namespace ref != GatewaysNamespace r) then
        mret (Err (ErrText ("legacy Tenant " +:+ slash tenantNamespace default_tenant_name
          +:+ " spec.gatewayRef.namespace=" +:+ Quote (g_Namespace ref)
          +:+ " does not match configured gateway namespace " +:+ Quote (GatewaysNamespace r)
          +:+ "; AITenant supports gateway name migration only, so update --gateway-namespace or clear the legacy namespace before migration")))
      else
        let wanted := migrated_spec k (aitenant_spec t) (tenant_spec legacy) in
        if aitenant_spec t == wanted then mret (Ok false)
        else
          _ ←? call "patch AITenant with legacy Tenant platform context"
                 (Patch AITenants k (with_spec (K := AITenants) wanted t));
          mret (Ok true)
  end.

(** [src/maas-controller/pkg/controller/maas/aitenant_controller.go:788-801] copyLegacyTenantConfig. *)
Definition copyLegacyTenantConfig (tenantNamespace : string) (config : object MaasTenantConfigs)
    : tprog (object MaasTenantConfigs) :=
  legacy ← Get Tenants (tenantNamespace, default_tenant_name);
  mret match legacy with
       | Err e => if isNotFoundError e then Ok config else Err (ErrServer e)
       | Ok legacy =>
           let kept {A} (x y : option A) := match x with Some _ => x | None => y end in
           Ok (with_spec (K := MaasTenantConfigs)
                 (mkConfigSpec
                    (kept (cs_APIKeys (config_spec config)) (ts_APIKeys (tenant_spec legacy)))
                    (kept (cs_Telemetry (config_spec config)) (ts_Telemetry (tenant_spec legacy)))
                    (cs_MaasAPI (config_spec config))
                    (cs_PayloadProcessing (config_spec config))) config)
       end.

(** [src/maas-controller/pkg/controller/maas/aitenant_controller.go:803-826] markLegacyTenantDeprecated. *)
Definition markLegacyTenantDeprecated (k : key) (tenantNamespace : string) : tprog () :=
  legacy ← Get Tenants (tenantNamespace, default_tenant_name);
  match legacy with
  | Err e => mret (if isNotFoundError e then Ok () else Err (ErrServer e))
  | Ok legacy =>
      if owned_by_other (meta legacy) k then mret (Ok ())
      else
        let wanted := with_meta (λ m,
          set_Finalizers (λ fs, remove_finalizer (remove_finalizer fs tenantFinalizer)
                                  legacyTenantFinalizer)
            (set_Annotations (λ a,
               <[legacyMigratedToAnnotation := default_tenant_name]>
                 (<[legacyDeprecatedByAnnotation := MaasTenantConfigKind]> a)) m)) legacy in
        if bool_decide (meta legacy = meta wanted) then mret (Ok ())
        else plain_call (Patch Tenants (tenantNamespace, default_tenant_name) wanted)
  end.

(** Its name and namespace are those it was read by.
    [src/maas-controller/pkg/controller/maas/aitenant_controller.go:884-899] isExpectedAITenantManagedConfig. *)
Definition isExpectedAITenantManagedConfig (config : object MaasTenantConfigs) (k : key)
    (tenantNamespace : string) : bool :=
  let labels := om_Labels (meta config) in
  negb (being_deleted config) && ownedByAITenant (meta config) k
  && (at_key labels "app.kubernetes.io/managed-by" == "maas-controller")
  && (at_key labels LabelManagedByAITenant == "true")
  && (at_key labels LabelTenantName == k.2)
  && (at_key labels LabelTenantNamespace == tenantNamespace).

(** Everything the legacy Tenant says has been copied.
    [src/maas-controller/pkg/controller/maas/aitenant_controller.go:853-867] cleanupMigratedLegacyTenant. *)
Definition migrated (k : key) (config : object MaasTenantConfigs) (legacy : object Tenants)
    : bool :=
  let annotation := at_key (om_Annotations (meta legacy)) in
  let covered {A} `{EqDecision A} (x y : option A) :=
    match x with Some _ => bool_decide (x = y) | None => true end in
  negb (owned_by_other (meta legacy) k)
  && (annotation legacyDeprecatedByAnnotation == MaasTenantConfigKind)
  && (annotation legacyMigratedToAnnotation == default_tenant_name)
  && covered (ts_APIKeys (tenant_spec legacy)) (cs_APIKeys (config_spec config))
  && covered (ts_Telemetry (tenant_spec legacy)) (cs_Telemetry (config_spec config)).

(** [src/maas-controller/pkg/controller/maas/aitenant_controller.go:828-882] cleanupMigratedLegacyTenant. *)
Definition cleanupMigratedLegacyTenant (k : key) (tenantNamespace : string) : tprog () :=
  let ck := (tenantNamespace, default_tenant_name) in
  config ← Get MaasTenantConfigs ck;
  match config with
  | Err e => mret (if isNotFoundError e then Ok () else Err (ErrServer e))
  | Ok config =>
      if negb (isExpectedAITenantManagedConfig config k tenantNamespace) then mret (Ok ())
      else
        legacy ← Get Tenants ck;
        match legacy with
        | Err e => mret (if isNotFoundError e then Ok () else Err (ErrServer e))
        | Ok legacy =>
            if migrated k config legacy then
              call ("delete migrated legacy Tenant " +:+ slash ck.1 ck.2)
                (ignore_not_found (Delete Tenants ck))
            else mret (Ok ())
        end
  end.

(** ** The tenant's configuration *)

(** What is done to a configuration that is new or there.
    [src/maas-controller/pkg/controller/maas/aitenant_controller.go:754-767] ensureTenantConfig. *)
Definition configure (k : key) (tenantNamespace : string) (t : object MaasTenantConfigs)
    : tprog (object MaasTenantConfigs) :=
  if being_deleted t then
    mret (Err (ErrText ("MaasTenantConfig " +:+ slash tenantNamespace default_tenant_name
      +:+ " is being deleted; waiting for cleanup to finish before recreating")))
  else copyLegacyTenantConfig tenantNamespace
         (with_meta (applyAITenantMetadata k tenantNamespace) t).

(** [src/maas-controller/pkg/controller/maas/aitenant_controller.go:782-785] ensureTenantConfig. *)
Definition config_ready (config : object MaasTenantConfigs) : bool :=
  match find_condition (config_conditions config) "Ready" with
  | Some ready =>
      (V1.c_Status ready == "True")
      && (V1.c_ObservedGeneration ready == om_Generation (meta config))
  | None => false
  end.

(** Whether it is ready, and whether the namespace is missing.
    [src/maas-controller/pkg/controller/maas/aitenant_controller.go:741-786] ensureTenantConfig. *)
Definition ensureTenantConfig (k : key) : tprog (bool * bool) :=
  let ns := tenantNamespaceName r k in
  let ck := (ns, default_tenant_name) in
  upserted ← upsert "MaasTenantConfig" ck k
               (mkObject MaasTenantConfigs new_meta (mkConfigSpec None None None None) [])
               (configure k ns);
  match upserted with
  | Err e => mret (if isNamespaceMissingError e then Ok (false, true) else Err e)
  | Ok _ =>
      _ ←? markLegacyTenantDeprecated k ns;
      _ ←? cleanupMigratedLegacyTenant k ns;
      config ←? call ("get MaasTenantConfig " +:+ slash ck.1 ck.2 +:+ " readiness")
                  (Get MaasTenantConfigs ck);
      mret (Ok (config_ready config, false))
  end.
End namespace.

(** ** Roles *)

Definition maas_group : string := "maas.opendatahub.io".

(** [src/maas-controller/pkg/controller/maas/aitenant_controller.go:922-944] ensureTenantNamespaceRole. *)
Definition tenant_admin_rules : list PolicyRule :=
  [mkRule [maas_group] ["maasauthpolicies"; "maassubscriptions"] []
     ["get"; "list"; "watch"; "create"; "update"; "patch"; "delete"];
   mkRule [maas_group] ["maastenantconfigs"] [default_tenant_name] ["get"; "update"; "patch"];
   mkRule [maas_group] ["maasmodelrefs"] [] ["get"; "list"; "watch"]].
(** [src/maas-controller/pkg/controller/maas/aitenant_controller.go:963-970] ensureAITenantObjectRole. *)
Definition object_admin_rules (k : key) : list PolicyRule :=
  [mkRule [maas_group] ["aitenants"] [k.2] ["get"]].

Section roles.
Context `{ApiServer, TenantServer} (r : AITenantReconciler).

(** [src/maas-controller/pkg/controller/maas/aitenant_controller.go:916-946] ensureTenantNamespaceRole. *)
Definition with_rules (k : key) (rules : list PolicyRule) (role : object Roles)
    : tprog (object Roles) :=
  mret (Ok (with_spec (K := Roles) rules
              (with_meta (applyAITenantMetadata k (tenantNamespaceName r k)) role))).

(** [src/maas-controller/pkg/controller/maas/aitenant_controller.go:908-947] ensureTenantNamespaceRole. *)
Definition ensureTenantNamespaceRole (k : key) : tprog () :=
  upsert "Role" (tenantNamespaceName r k, tenantAdminRoleName k) k
    (mkObject Roles new_meta [] ()) (with_rules k tenant_admin_rules).
(** [src/maas-controller/pkg/controller/maas/aitenant_controller.go:949-973] ensureAITenantObjectRole. *)
Definition ensureAITenantObjectRole (k : key) : tprog () :=
  upsert "Role" (k.1, aitenantAccessRoleName k) k
    (mkObject Roles new_meta [] ()) (with_rules k (object_admin_rules k)).
(** [src/maas-controller/pkg/controller/maas/aitenant_controller.go:901-906] ensureTenantAdminRBAC. *)
Definition ensureTenantAdminRBAC (k : key) : tprog () :=
  _ ←? ensureTenantNamespaceRole k;
  ensureAITenantObjectRole k.
End roles.

(** ** The Job that revokes a tenant's API keys *)

(** [net.JoinHostPort]. *)
Definition JoinHostPort (host port : string) : string :=
  if contains_byte host ":" || contains_byte host "%"
  then "[" +:+ host +:+ "]:" +:+ port
  else host +:+ ":" +:+ port.

(** [src/maas-controller/pkg/platform/tenantreconcile/constants.go:71-71] DefaultMaaSAPIKeyCleanupImage. *)
Definition DefaultMaaSAPIKeyCleanupImage : string := "registry.redhat.io/ubi9/ubi-minimal:9.7".

(** Where the tenant's keys are revoked: its own API service, by its name.
    [src/maas-controller/pkg/controller/maas/aitenant_controller.go:1315-1329] tenantAPIKeyRevocationJob. *)
Definition revocation_endpoint (aitenantName namespace : string) : string :=
  let tenantID := if aitenantName == DefaultAITenantName then "" else aitenantName in
  let serviceHost := MaaSAPIServiceName tenantID +:+ "." +:+ namespace +:+ ".svc" in
  "https://" +:+ JoinHostPort serviceHost "8443" +:+ "/internal/v1/tenants/"
  +:+ aitenantName +:+ "/api-keys".

(** The container that calls it.
    [src/maas-controller/pkg/controller/maas/aitenant_controller.go:1389-1433] tenantAPIKeyRevocationJob. *)
Definition revocation_container (image endpoint : string) : value :=
  let resources memory cpu := VMap [("memory", VString memory); ("cpu", VString cpu)] in
  VMap [
    ("name", VString "revoke-keys");
    ("image", VString image);
    ("command", VSlice [VString "curl"]);
    ("args", VSlice (VString <$>
       ["--fail"; "--silent"; "--show-error"; "--max-time"; "30"; "--cacert";
        "/etc/pki/maas-api/service-ca.crt"; "-X"; "DELETE"; endpoint]));
    ("volumeMounts", VSlice [VMap [("name", VString "maas-api-service-ca");
       ("mountPath", VString "/etc/pki/maas-api"); ("readOnly", VBool true)]]);
    ("resources", VMap [("requests", resources "16Mi" "10m");
                        ("limits", resources "32Mi" "50m")]);
    ("securityContext", VMap [
       ("allowPrivilegeEscalation", VBool false);
       ("readOnlyRootFilesystem", VBool true);
       ("runAsNonRoot", VBool true);
       ("capabilities", VMap [("drop", VSlice [VString "ALL"])]);
       ("seccompProfile", VMap [("type", VString "RuntimeDefault")])])].

(** Its pod.
    [src/maas-controller/pkg/controller/maas/aitenant_controller.go:1354-1437] tenantAPIKeyRevocationJob. *)
Definition revocation_template (image endpoint : string) : value :=
  VMap [
    ("metadata", VMap [("labels", VMap [
       ("app", VString "maas-api-cleanup");
       ("app.kubernetes.io/component", VString "api");
       ("app.kubernetes.io/name", VString "maas-api");
       ("app.kubernetes.io/part-of", VString "models-as-a-service")])]);
    ("spec", VMap [
       ("serviceAccountName", VString "maas-api-cleanup");
       ("automountServiceAccountToken", VBool false);
       ("restartPolicy", VString "OnFailure");
       ("securityContext", VMap [
          ("runAsNonRoot", VBool true);
          ("seccompProfile", VMap [("type", VString "RuntimeDefault")])]);
       ("volumes", VSlice [VMap [
          ("name", VString "maas-api-service-ca");
          ("configMap", VMap [
             ("name", VString "openshift-service-ca.crt");
             ("items", VSlice [VMap [("key", VString "service-ca.crt");
                                     ("path", VString "service-ca.crt")]])])]]);
       ("containers", VSlice [revocation_container image endpoint])])].

(** [src/maas-controller/pkg/controller/maas/aitenant_controller.go:1314-1439] tenantAPIKeyRevocationJob. *)
Definition tenantAPIKeyRevocationJob (r : AITenantReconciler) (k : key) (uid : string)
    : object Jobs :=
  let image := if RELATED_IMAGE r != "" then RELATED_IMAGE r else DefaultMaaSAPIKeyCleanupImage in
  mkObject Jobs
    (mkMeta
       (list_to_map [("app", "maas-api-cleanup"); ("app.kubernetes.io/component", "api");
          ("app.kubernetes.io/managed-by", "maas-controller");
          ("app.kubernetes.io/name", "maas-api");
          ("app.kubernetes.io/part-of", "models-as-a-service"); (LabelTenantName, k.2)])
       (list_to_map [(AnnotationAITenantName, k.2); (AnnotationAITenantNamespace, k.1);
                     (aitenantUIDAnnotation, uid)])
       [] [] "" 0 None)
    [("backoffLimit", VInt 2); ("activeDeadlineSeconds", VInt 120);
     ("ttlSecondsAfterFinished", VInt 300);
     ("template", revocation_template image (revocation_endpoint k.2 (AppNamespace r)))]
    [].
Definition job_key (r : AITenantReconciler) (k : key) : key :=
  (AppNamespace r, aitenantAPIKeyRevocationJobName k.2).

(** [src/maas-controller/pkg/controller/maas/aitenant_controller.go:1310-1312] tenantAPIKeyRevocationJobMatchesAITenant. *)
Definition tenantAPIKeyRevocationJobMatchesAITenant (job : object Jobs) (uid : string) : bool :=
  om_Annotations (meta job) !! aitenantUIDAnnotation == Some uid.
(** [src/maas-controller/pkg/controller/maas/aitenant_controller.go:1448-1455] jobComplete. *)
Definition jobComplete (job : object Jobs) : bool :=
  existsb (λ c : string * string, (c.1 == "Complete") && (c.2 == "True")) (job_conditions job).
(** [src/maas-controller/pkg/controller/maas/aitenant_controller.go:1457-1464] jobFailed. *)
Definition jobFailed (job : object Jobs) : bool :=
  existsb (λ c : string * string, (c.1 == "Failed") && (c.2 == "True")) (job_conditions job).

Section revocation.
Context `{ApiServer, TenantServer} (r : AITenantReconciler).

(** [src/maas-controller/pkg/controller/maas/aitenant_controller.go:1302-1308] tenantAPIKeysRevoked. *)
Definition tenantAPIKeysRevoked (t : object AITenants) : bool :=
  (at_key (om_Annotations (meta t)) aitenantAPIKeysRevokedAnnotation == "true")
  || match find_condition (st_Conditions (aitenant_status t)) aitenantAPIKeysRevokedCondition with
     | Some condition => V1.c_Status condition == "True"
     | None => false
     end.

(** [src/maas-controller/pkg/controller/maas/aitenant_controller.go:1287-1295] markTenantAPIKeysRevoked. *)
Definition keys_revoked (t : object AITenants) : object AITenants :=
  with_status (K := AITenants) (λ st,
    mkAITenantStatus (st_Phase st) (st_TenantNamespace st) (st_GatewayRef st)
      (set_condition (st_Conditions st)
         (V1.mkCondition aitenantAPIKeysRevokedCondition "True" "RevocationJobCompleted"
            "Tenant API keys were revoked" (om_Generation (meta t))))) t.
(** [src/maas-controller/pkg/controller/maas/aitenant_controller.go:1286-1300] markTenantAPIKeysRevoked. *)
Definition markTenantAPIKeysRevoked (k : key) (t : object AITenants)
    : tprog (object AITenants) :=
  let t' := keys_revoked t in
  u ← updateAITenantStatus k t' (aitenant_status t);
  mret match u with
       | Ok _ => Ok t'
       | Err e => Err (ErrIn ("mark tenant API keys revoked on AITenant " +:+ slash k.1 k.2) e)
       end.

(** Whether the keys are revoked, with the tenant, which then says so. The
    tenant's copy in memory says so too when that could not be recorded.
    [src/maas-controller/pkg/controller/maas/aitenant_controller.go:1228-1269] ensureTenantAPIKeysRevoked. *)
Definition ensureTenantAPIKeysRevoked (k : key) (t : object AITenants)
    : prog infra (object AITenants * result error bool) :=
  let uid := om_UID (meta t) in
  let jk := job_key r k in
  let name := slash jk.1 jk.2 in
  if tenantAPIKeysRevoked t then mret (t, Ok true)
  else if TrimSpace (AppNamespace r) == "" then
    mret (t, Err (ErrText "app namespace is required to revoke tenant API keys"))
  else
    existing ← Get Jobs jk;
    match existing with
    | Err e =>
        if negb (isNotFoundError e) then
          mret (t, Err (ErrIn ("get API key revocation Job " +:+ name) (ErrServer e)))
        else
          created ← Create Jobs jk (tenantAPIKeyRevocationJob r k uid);
          mret (t, match created with
                   | Ok _ => Ok false
                   | Err e =>
                       if isAlreadyExistsError e then Ok false
                       else Err (ErrIn ("create API key revocation Job " +:+ name) (ErrServer e))
                   end)
    | Ok job =>
        if negb (tenantAPIKeyRevocationJobMatchesAITenant job uid) then
          d ← call ("delete stale API key revocation Job " +:+ name)
                (ignore_not_found (Delete Jobs jk));
          mret (t, match d with Ok _ => Ok false | Err e => Err e end)
        else if jobComplete job then
          m ← markTenantAPIKeysRevoked k t;
          mret match m with
               | Ok t' => (t', Ok true)
               | Err e => (keys_revoked t, Err e)
               end
        else if jobFailed job then
          d ← call ("delete failed API key revocation Job " +:+ name)
                (ignore_not_found (Delete Jobs jk));
          mret (t, match d with Ok _ => Err (ErrRevocationJobFailed name) | Err e => Err e end)
        else mret (t, Ok false)
    end.

(** [src/maas-controller/pkg/controller/maas/aitenant_controller.go:1271-1284] deleteTenantAPIKeyRevocationJob. *)
Definition deleteTenantAPIKeyRevocationJob (k : key) : tprog () :=
  let jk := job_key r k in
  let name := slash jk.1 jk.2 in
  existing ← Get Jobs jk;
  match existing with
  | Err e =>
      mret (if isNotFoundError e then Ok ()
            else Err (ErrIn ("get completed API key revocation Job " +:+ name) (ErrServer e)))
  | Ok _ => call ("delete completed API key revocation Job " +:+ name)
              (ignore_not_found (Delete Jobs jk))
  end.
End revocation.

End Tenant.
