(* ===== verification/AITenantController.v ===== *)
(** The reconcile loop of an AITenant: bootstrapping a tenant, its deletion with
    and without a timeout, and which tenants an event enqueues.
    [src/maas-controller/pkg/controller/maas/aitenant_controller.go]. *)
From S2P Require Import Prelude GoStrings GoTime Runtime.
From S2P Require Import GoFmt MaasTypes Cluster ControllerHelpers TenantCluster.
From S2P Require Import AuthPolicyGateway AuthPolicyController AITenantParts.
Import Cluster Helpers Fmt Infra Tenant.

Module TenantController.

(** When a tenant is reconciled again, in nanoseconds, if at all. *)
Abbreviation requeue := (option Z) (only parsing).
Definition seconds (n : Z) : option Z := Some (n * Second)%Z.

Section deletion.
Context `{ApiServer, TenantServer} {uni : Unicode} (r : AITenantReconciler).

(** Whether it is gone.
    [src/maas-controller/pkg/controller/maas/aitenant_controller.go:1110-1139] deleteTenantConfig. *)
Definition deleteTenantConfig (k : key) : tprog bool :=
  let ck := (tenantNamespaceName r k, default_tenant_name) in
  let name := slash ck.1 ck.2 in
  config ← Get MaasTenantConfigs ck;
  match config with
  | Err e =>
      mret (if isNotFoundError e then Ok true
            else Err (ErrIn ("get MaasTenantConfig " +:+ name +:+ " during AITenant deletion")
                        (ErrServer e)))
  | Ok config =>
      if negb (ownedByAITenant (meta config) k) then mret (Ok true)
      else if being_deleted config then mret (Ok false)
      else if negb (contains (om_Finalizers (meta config)) tenantFinalizer) then
        _ ←? call ("add cleanup finalizer to MaasTenantConfig " +:+ name)
               (Patch MaasTenantConfigs ck
                  (with_meta (set_Finalizers (λ fs, add_finalizer fs tenantFinalizer)) config));
        mret (Ok false)
      else
        _ ←? call ("delete MaasTenantConfig " +:+ name)
               (ignore_not_found (Delete MaasTenantConfigs ck));
        mret (Ok false)
  end.

(** [src/maas-controller/pkg/controller/maas/aitenant_controller.go:1141-1156] deleteAITenantScopedChildren. *)
Definition deleteAITenantScopedChildren (k : key) : tprog () :=
  let ns := tenantNamespaceName r k in
  _ ←? deleteOwned RoleBindings (ns, tenantAdminRoleName k) k;
  _ ←? deleteOwned Roles (ns, tenantAdminRoleName k) k;
  _ ←? deleteOwned RoleBindings (k.1, aitenantAccessRoleName k) k;
  deleteOwned Roles (k.1, aitenantAccessRoleName k) k.

(** [src/maas-controller/pkg/controller/maas/aitenant_controller.go:1158-1192] releaseTenantNamespace. *)
Definition releaseTenantNamespace (k : key) : tprog () :=
  let name := tenantNamespaceName r k in
  ns ← Get Namespaces ("", name);
  match ns with
  | Err e =>
      mret (if isNotFoundError e then Ok ()
            else Err (ErrIn ("get tenant namespace " +:+ Quote name
                             +:+ " during AITenant deletion") (ErrServer e)))
  | Ok ns =>
      if negb (ownedByAITenant (meta ns) k) then mret (Ok ())
      else if being_deleted ns then mret (Ok ())
      else
        let released := with_meta (λ m,
          set_Labels (removeMapValueIfEqual generatedNamespaceLabel "true")
            (removeAITenantMetadata k name m)) ns in
        if bool_decide (meta ns = meta released) then mret (Ok ())
        else call ("release tenant namespace " +:+ Quote name +:+ " during AITenant deletion")
               (Patch Namespaces ("", name) released)
  end.

(** The AuthPolicy of the tenant's Gateway.
    [src/maas-controller/pkg/controller/maas/aitenant_controller.go:1195-1206] deleteTenantGatewayAuthPolicy. *)
Definition gateway_policy_of (k : key) (t : object AITenants) : option key :=
  let recorded := st_GatewayRef (aitenant_status t) in
  let ref :=
    if (g_Name recorded == "") || (g_Namespace recorded == "")
    then gatewayRefFor r k (aitenant_spec t) else recorded in
  if (g_Name ref == "") || (g_Namespace ref == "") then None
  else Some (g_Namespace ref,
    if k.2 == DefaultAITenantName then AuthGateway.maasGatewayAuthPolicyName
    else g_Name ref +:+ "-maas-auth").

(** [src/maas-controller/pkg/controller/maas/aitenant_controller.go:1194-1226] deleteTenantGatewayAuthPolicy. *)
Definition deleteTenantGatewayAuthPolicy (k : key) (t : object AITenants) : tprog () :=
  match gateway_policy_of k t with
  | None => mret (Ok ())
  | Some pk =>
      let name := slash pk.1 pk.2 in
      authPolicy ← Get AuthPolicies pk;
      match authPolicy with
      | Err e =>
          mret (if isNotFoundError e then Ok ()
                else Err (ErrIn ("get tenant gateway AuthPolicy " +:+ name
                                 +:+ " during AITenant deletion") (ErrServer e)))
      | Ok p =>
          if negb (isManaged (om_Annotations (meta p))) then mret (Ok ())
          else call ("delete tenant gateway AuthPolicy " +:+ name)
                 (ignore_not_found (Delete AuthPolicies pk))
      end
  end.

(** The tenant without the finalizer, and the Job, whose error is only logged.
    [src/maas-controller/pkg/controller/maas/aitenant_controller.go:1044-1058] reconcileAITenantDelete,
    the same code as
    [src/maas-controller/pkg/controller/maas/aitenant_controller.go:1099-1107] forceRemoveAITenantFinalizer. *)
Definition release_tenant (k : key) (t : object AITenants) : tprog requeue :=
  _ ←? plain_call (Patch AITenants k
         (with_meta (set_Finalizers (λ fs, remove_finalizer fs aitenantFinalizer)) t));
  _ ← deleteTenantAPIKeyRevocationJob r k;
  mret (Ok None).

(** After the deletion timeout: every step is tried, and their errors only logged.
    [src/maas-controller/pkg/controller/maas/aitenant_controller.go:1061-1108] forceRemoveAITenantFinalizer. *)
Definition forceRemoveAITenantFinalizer (k : key) (t : object AITenants)
    : prog infra (result error requeue * list AuthController.event) :=
  let timeout := dur_String (DeletionTimeout r) in
  let lost := "; cleanup finalizer removed without successful cleanup "
              +:+ bytes [226; 128; 148] +:+ " API keys may still exist" in
  let t' := setAITenantPhase t "Terminating" "CleanupForced"
              ("Deletion timeout (" +:+ timeout +:+ ") reached" +:+ lost) in
  _ ← updateAITenantStatus k t' (aitenant_status t);
  _ ← deleteTenantConfig k;
  _ ← deleteAITenantScopedChildren k;
  _ ← releaseTenantNamespace k;
  _ ← deleteTenantGatewayAuthPolicy k t';
  _ ← deleteGatewayClaim r k (om_UID (meta t'));
  _ ← cleanupGatewayLabelsOnDelete r k (aitenant_spec t');
  done ← release_tenant k t';
  mret (done, if Recorder r then
    [AuthController.mkEvent "Warning" "AITenantCleanupForced"
       ("Deletion timeout (" +:+ timeout +:+ ") reached for AITenant " +:+ slash k.1 k.2 +:+ lost)]
    else []).

(** Records that the deletion is blocked.
    [src/maas-controller/pkg/controller/maas/aitenant_controller.go:994-999] reconcileAITenantDelete. *)
Definition blocked (k : key) (t : object AITenants) (e : error) : tprog requeue :=
  _ ←? updateAITenantStatus k
         (setAITenantPhase t "Terminating" "DeletionBlocked" (error_message e))
         (aitenant_status t);
  mret (if is_revocation_failed e then Ok (seconds 30) else Err e).

(** From the revocation of the keys on.
    [src/maas-controller/pkg/controller/maas/aitenant_controller.go:1008-1059] reconcileAITenantDelete. *)
Definition cleanup (k : key) (t : object AITenants) : tprog requeue :=
  tenantDeleted ←? deleteTenantConfig k;
  if negb tenantDeleted then mret (Ok (seconds 5))
  else
    _ ←? deleteAITenantScopedChildren k;
    released ← releaseTenantNamespace k;
    match released with
    | Err e =>
        _ ←? updateAITenantStatus k
               (setAITenantPhase t "Terminating" "DeletionBlocked" (error_message e))
               (aitenant_status t);
        mret (Err e)
    | Ok _ =>
        _ ←? deleteTenantGatewayAuthPolicy k t;
        _ ←? deleteGatewayClaim r k (om_UID (meta t));
        _ ←? cleanupGatewayLabelsOnDelete r k (aitenant_spec t);
        release_tenant k t
    end.

(** [src/maas-controller/pkg/controller/maas/aitenant_controller.go:984-1007] reconcileAITenantDelete. *)
Definition terminate (k : key) (t : object AITenants) : tprog requeue :=
  let t' := with_status (K := AITenants) (λ st,
    mkAITenantStatus (st_Phase st) (tenantNamespaceName r k) (st_GatewayRef st)
      (st_Conditions st)) t in
  let t' := setAITenantPhase t' "Terminating" "DeletionInProgress"
              "AITenant deletion cleanup is in progress" in
  _ ←? updateAITenantStatus k t' (aitenant_status t);
  revoked ← ensureTenantAPIKeysRevoked r k t';
  match revoked with
  | (t', Err e) => blocked k t' e
  | (t', Ok false) => mret (Ok (seconds 10))
  | (t', Ok true) => cleanup k t'
  end.

(** [src/maas-controller/pkg/controller/maas/aitenant_controller.go:975-1059] reconcileAITenantDelete. *)
Definition reconcileAITenantDelete (k : key) (t : object AITenants)
    : prog infra (result error requeue * list AuthController.event) :=
  if negb (contains (om_Finalizers (meta t)) aitenantFinalizer) then mret (Ok None, [])
  else
    now ← tick;
    let since := (clock now - default 0 (om_DeletionTimestamp (meta t)))%Z in
    if ((0 <? DeletionTimeout r) && (DeletionTimeout r <=? since))%Z then
      forceRemoveAITenantFinalizer k t
    else
      done ← terminate k t; mret (done, []).
End deletion.

(** ** Bootstrapping *)

(** Whether a part of a reconcile ends it, and with what; or whether the
    configuration is ready. *)
Inductive progress : Type :=
  | Return (done : result error requeue)
  | Continue (tenantConfigReady : bool).

Definition default_bootstrap (k : key) : bool := k.2 == DefaultAITenantName.

Section reconcile.
Context `{ApiServer, TenantServer} {uni : Unicode} (r : AITenantReconciler).

(** A phase is recorded, and the tenant reconciled again after a while. *)
Definition record (k : key) (t : object AITenants) (statusSnapshot : AITenantStatus)
    (phase reason message : string) (after : requeue) : tprog requeue :=
  _ ←? updateAITenantStatus k (setAITenantPhase t phase reason message) statusSnapshot;
  mret (Ok after).
Definition fail (k : key) (t : object AITenants) (statusSnapshot : AITenantStatus)
    (reason : string) (e : error) : tprog requeue :=
  record k t statusSnapshot "Failed" reason (error_message e) (seconds 30).

(** [src/maas-controller/pkg/controller/maas/aitenant_controller.go:169-206] Reconcile. *)
Definition ensureTenantResources (k : key) (t : object AITenants)
    (statusSnapshot : AITenantStatus) : prog infra progress :=
  namespaceCreated ← ensureTenantNamespace r k;
  match namespaceCreated with
  | Err e =>
      done ← fail k t statusSnapshot "TenantNamespaceFailed" e; mret (Return done)
  | Ok true =>
      done ← record k t statusSnapshot "Pending" "TenantNamespacePending"
               "waiting for tenant namespace to become available" (seconds 1);
      mret (Return done)
  | Ok false =>
      config ← ensureTenantConfig r k;
      match config with
      | Err e =>
          done ← fail k t statusSnapshot "TenantConfigReconcileFailed" e; mret (Return done)
      | Ok (_, true) =>
          done ← record k t statusSnapshot "Pending" "TenantNamespacePending"
                   "waiting for tenant namespace to accept tenant resources" (seconds 1);
          mret (Return done)
      | Ok (ready, false) => mret (Continue ready)
      end
  end.

(** The condition on the labels of the infrastructure namespace.
    [src/maas-controller/pkg/controller/maas/aitenant_controller.go:227-239] Reconcile. *)
Definition set_Conditions (f : list V1.Condition → list V1.Condition) (t : object AITenants)
    : object AITenants :=
  with_status (K := AITenants) (λ st,
    mkAITenantStatus (st_Phase st) (st_TenantNamespace st) (st_GatewayRef st)
      (f (st_Conditions st))) t.
Definition note_labels (t : object AITenants) (labelled : outcome) : object AITenants :=
  match labelled with
  | Failed e =>
      set_Conditions (λ cs, set_condition cs
        (V1.mkCondition "Degraded" "True" "InfraNamespaceLabelFailed" (error_message e)
           (om_Generation (meta t)))) t
  | _ => set_Conditions (λ cs, RemoveStatusCondition cs "Degraded") t
  end.

(** Roles, and the phase.
    [src/maas-controller/pkg/controller/maas/aitenant_controller.go:256-276] Reconcile. *)
Definition conclude (k : key) (t : object AITenants) (statusSnapshot : AITenantStatus)
    (tenantConfigReady : bool) : tprog requeue :=
  rbac ← ensureTenantAdminRBAC r k;
  match rbac with
  | Err e => fail k t statusSnapshot "RBACReconcileFailed" e
  | Ok _ =>
      if negb tenantConfigReady then
        record k t statusSnapshot "Pending" "TenantConfigNotReady"
          "waiting for MaasTenantConfig to report Ready" (seconds 30)
      else
        record k t statusSnapshot "Active" "Reconciled"
          "AITenant bootstrap resources are reconciled" None
  end.

(** The claim on the Gateway; the resources, unless they are there; the rest.
    [src/maas-controller/pkg/controller/maas/aitenant_controller.go:241-276] Reconcile. *)
Definition claim_gateway (k : key) (t : object AITenants) (statusSnapshot : AITenantStatus)
    (tenantConfigReady : option bool) : tprog requeue :=
  claimed ← ensureGatewayClaim r k (om_UID (meta t)) (st_GatewayRef (aitenant_status t));
  match claimed with
  | Err e => fail k t statusSnapshot "GatewayClaimFailed" e
  | Ok _ =>
      match tenantConfigReady with
      | Some ready => conclude k t statusSnapshot ready
      | None =>
          p ← ensureTenantResources k t statusSnapshot;
          match p with
          | Return done => mret done
          | Continue ready => conclude k t statusSnapshot ready
          end
      end
  end.

(** The Gateway, its labels, and the claim on it; a panic is recovered by
    controller-runtime, which reconciles again.
    [src/maas-controller/pkg/controller/maas/aitenant_controller.go:218-240] Reconcile. *)
Definition bind_gateway (k : key) (t : object AITenants) (statusSnapshot : AITenantStatus)
    (tenantConfigReady : option bool) : tprog requeue :=
  let gatewayRef := st_GatewayRef (aitenant_status t) in
  gw ← validateTenantGateway gatewayRef;
  match gw with
  | Err e => fail k t statusSnapshot "GatewayCheckFailed" e
  | Ok gw =>
      labelled ← ensureInfraNamespaceGatewayLabels r
                   (g_Namespace gatewayRef, g_Name gatewayRef) (listeners gw);
      match labelled with
      | Panicked => mret (Err (ErrText "panic: assignment to entry in nil map"))
      | _ => claim_gateway k (note_labels t labelled) statusSnapshot tenantConfigReady
      end
  end.

(** The default tenant's namespace comes before its Gateway, others' after.
    [src/maas-controller/pkg/controller/maas/aitenant_controller.go:159-276] Reconcile. *)
Definition bootstrap (k : key) (t : object AITenants) (statusSnapshot : AITenantStatus)
    : tprog requeue :=
  let t := with_status (K := AITenants) (λ st,
    mkAITenantStatus (st_Phase st) (st_TenantNamespace st) (gatewayRefFor r k (aitenant_spec t))
      (st_Conditions st)) t in
  _ ←? updateAITenantStatus k t statusSnapshot;
  let statusSnapshot := aitenant_status t in
  if default_bootstrap k then
    p ← ensureTenantResources k t statusSnapshot;
    match p with
    | Return done => mret done
    | Continue ready => bind_gateway k t statusSnapshot (Some ready)
    end
  else bind_gateway k t statusSnapshot None.

(** A tenant that is there and not being deleted.
    [src/maas-controller/pkg/controller/maas/aitenant_controller.go:133-276] Reconcile. *)
Definition reconcile_live (k : key) (t : object AITenants) : tprog requeue :=
  if negb (contains (om_Finalizers (meta t)) aitenantFinalizer) then
    _ ←? plain_call (Patch AITenants k
           (with_meta (set_Finalizers (λ fs, add_finalizer fs aitenantFinalizer)) t));
    mret (Ok (seconds 1))
  else
    let statusSnapshot := aitenant_status t in
    match validateAITenantPlacement r k with
    | Err e => record k t statusSnapshot "Failed" "InvalidPlacement" (error_message e) None
    | Ok _ =>
        let tenantNamespace := tenantNamespaceName r k in
        let t := with_status (K := AITenants) (λ st,
          mkAITenantStatus (st_Phase st) tenantNamespace (st_GatewayRef st) (st_Conditions st)) t in
        migrated ← migrateLegacyTenantPlatformContext r k t tenantNamespace;
        match migrated with
        | Err e =>
            record k t statusSnapshot "Failed" "LegacyTenantMigrationFailed" (error_message e) None
        | Ok true => mret (Ok (seconds 1))
        | Ok false => bootstrap k t statusSnapshot
        end
    end.

(** [src/maas-controller/pkg/controller/maas/aitenant_controller.go:126-277] Reconcile. *)
Definition Reconcile (k : key) : prog infra (result error requeue * list AuthController.event) :=
  aitenant ← Get AITenants k;
  match aitenant with
  | Err e => mret (if isNotFoundError e then Ok None else Err (ErrServer e), [])
  | Ok t =>
      if being_deleted t then reconcileAITenantDelete r k t
      else done ← reconcile_live k t; mret (done, [])
  end.

(** ** Events *)

(** [src/maas-controller/pkg/controller/maas/aitenant_controller.go:300-317] enqueueAITenantForTenantConfig. *)
Definition enqueueAITenantForTenantConfig (config : ObjectMeta) : list key :=
  let name := at_key (om_Annotations config) AnnotationAITenantName in
  let ns := at_key (om_Annotations config) AnnotationAITenantNamespace in
  if (name == "") || (ns == "") then [] else [(ns, name)].

(** [src/maas-controller/pkg/controller/maas/aitenant_controller.go:673-696] enqueueAITenantForGateway. *)
Definition enqueueAITenantForGateway (gateway : key) : prog infra (list key) :=
  items ← List AITenants (λ k _, k.1 == aitenantNamespace r);
  mret match items with
       | Err _ => []
       | Ok items =>
           fst <$> List.filter (λ item : key * object AITenants,
             let ref := gatewayRefFor r item.1 (aitenant_spec item.2) in
             (g_Name ref == gateway.2) && (g_Namespace ref == gateway.1)) items
       end.

(** Updates of AITenants that reconcile them: a change of the spec, or a deletion.
    [src/maas-controller/pkg/controller/maas/aitenant_controller.go:285-287] SetupWithManager. *)
Definition aitenant_updated (old new : object AITenants) : bool :=
  (om_Generation (meta old) != om_Generation (meta new))
  || (negb (being_deleted old) && being_deleted new).
End reconcile.

End TenantController.
