(* ===== verification/PlatformParams.v ===== *)
(** The parameters of a tenant's platform: what of a tenant configuration, its
    annotations and the environment decides how it is rendered.
    [src/maas-controller/pkg/platform/tenantreconcile/params.go]. *)
From S2P Require Import Prelude GoStrings GoTime GoFmt MaasTypes Cluster ControllerHelpers.
From S2P Require Import TokenLimits TenantCluster AITenantParts.
From stdpp Require Import pretty.
Import Cluster Helpers Fmt Infra.

Module Params.

(** [src/maas-controller/pkg/platform/tenantreconcile/constants.go:25-27] AnnotationMaaSAPIReplicas. *)
Definition AnnotationMaaSAPIReplicas : string := "maas.opendatahub.io/maas-api-replicas".
(** [src/maas-controller/pkg/platform/tenantreconcile/constants.go:29-33] AnnotationPayloadProcessingReplicas. *)
Definition AnnotationPayloadProcessingReplicas : string :=
  "maas.opendatahub.io/payload-processing-replicas".
(** [src/maas-controller/pkg/platform/tenantreconcile/constants.go:69-69] DefaultMaaSAPIImage. *)
Definition DefaultMaaSAPIImage : string := "quay.io/opendatahub/maas-api:latest".
(** [src/maas-controller/pkg/platform/tenantreconcile/constants.go:70-70] DefaultPayloadProcessingImage. *)
Definition DefaultPayloadProcessingImage : string :=
  "quay.io/opendatahub/odh-ai-gateway-payload-processing:odh-stable".
(** [src/maas-controller/pkg/platform/tenantreconcile/constants.go:72-72] DefaultAPIKeyMaxExpirationDays. *)
Definition DefaultAPIKeyMaxExpirationDays : string := "90".

(** [src/maas-controller/pkg/platform/tenantreconcile/params.go:19-70] PlatformParams. *)
Record PlatformParams : Type := mkParams {
  p_AppNamespace : string;
  p_ControllerNamespace : string;
  p_GatewayNamespace : string;
  p_GatewayName : string;
  p_ClusterAudience : string;
  p_SubscriptionNamespace : string;
  p_ExternalOIDC : option V1.TenantExternalOIDCConfig;
  p_TenantIdentifier : string;
  p_MaaSAPIImage : string;
  p_PayloadProcessingImage : string;
  p_MaaSAPIKeyCleanupImage : string;
  p_APIKeyMaxExpirationDays : string;
  p_MaaSAPIReplicas : option Z;
  p_MaaSAPIResources : option TenantResourceRequirements;
  p_PayloadProcessingReplicas : option Z;
  p_PayloadProcessingAutoscaling : bool;
  p_PayloadProcessingMaxReplicas : Z;
  p_PayloadProcessingTargetCPU : Z;
  p_PayloadProcessingTargetMemory : Z;
  p_MonitoringNamespace : string;
  p_RouterExtProcFallback : bool;
  p_PayloadProcessingResources : option TenantResourceRequirements;
  p_Warnings : list string;
}.

(** The environment variables that name images, empty when not set. *)
Record images : Type := mkImages {
  RELATED_IMAGE_ODH_MAAS_API_IMAGE : string;
  RELATED_IMAGE_ODH_AI_GATEWAY_PAYLOAD_PROCESSING_IMAGE : string;
  RELATED_IMAGE_UBI_MINIMAL_IMAGE : string;
}.

(** [src/maas-controller/pkg/platform/tenantreconcile/params.go:144-151] firstNonEmpty. *)
Fixpoint firstNonEmpty (values : list string) : string :=
  match values with
  | [] => ""
  | v :: values => if v != "" then v else firstNonEmpty values
  end.

(** ** Replicas *)

(** [strconv.ParseInt] in base 10, 32 bits wide, with its errors as [None]. *)
Definition ParseInt32 (s : string) : option Z :=
  let in_range (n : Z) : option Z :=
    if (-2147483648 <=? n)%Z && (n <=? 2147483647)%Z then Some n else None in
  let unsigned (digits : string) : option Z :=
    if (digits != "") && forallb (λ c, (48 <=? code c) && (code c <=? 57))
                           (String.list_ascii_of_string digits)
    then Some (Limits.parse_digits 0 digits) else None in
  match s with
  | String "-" digits => n ← unsigned digits; in_range (- n)%Z
  | String "+" digits => n ← unsigned digits; in_range n
  | _ => n ← unsigned s; in_range n
  end.

(** [src/maas-controller/pkg/platform/tenantreconcile/params.go:185-185] maxReplicaCount. *)
Definition maxReplicaCount : Z := 100.
(** [src/maas-controller/pkg/platform/tenantreconcile/params.go:188-188] defaultMaxReplicas. *)
Definition defaultMaxReplicas : Z := 10.
(** [src/maas-controller/pkg/platform/tenantreconcile/params.go:189-189] defaultTargetCPU. *)
Definition defaultTargetCPU : Z := 70.
(** [src/maas-controller/pkg/platform/tenantreconcile/params.go:190-190] defaultTargetMemory. *)
Definition defaultTargetMemory : Z := 80.

Section params.
Context {uni : Unicode}.

(** The replicas, or a warning.
    [src/maas-controller/pkg/platform/tenantreconcile/params.go:193-206] parseReplicaAnnotation. *)
Definition parseReplicaAnnotation (annotationKey value : string) : result string Z :=
  let invalid (why : string) : result string Z :=
    Err ("annotation " +:+ annotationKey +:+ " has invalid value " +:+ Quote value +:+ ": must be "
      +:+ why +:+ "; remove the annotation to use the default replica count") in
  match ParseInt32 value with
  | None => invalid "a positive integer"
  | Some n =>
      if (n <? 1)%Z then invalid ">= 1"
      else if (maxReplicaCount <? n)%Z then invalid ("<= " +:+ pretty maxReplicaCount)
      else Ok n
  end.

(** [src/maas-controller/pkg/platform/tenantreconcile/params.go:162-171] resolveReplicaAnnotations. *)
Definition replica_annotation (annotations : gmap string string) (annotationKey : string)
    : option Z * list string :=
  match annotations !! annotationKey with
  | None => (None, [])
  | Some v =>
      match parseReplicaAnnotation annotationKey v with
      | Ok n => (Some n, [])
      | Err warn => (None, [warn])
      end
  end.

(** [src/maas-controller/pkg/platform/tenantreconcile/params.go:153-183] resolveReplicaAnnotations. *)
Definition resolveReplicaAnnotations (annotations : gmap string string)
    : option Z * option Z * list string :=
  let '(maasAPI, w1) := replica_annotation annotations AnnotationMaaSAPIReplicas in
  let '(payload, w2) := replica_annotation annotations AnnotationPayloadProcessingReplicas in
  (maasAPI, payload, w1 ++ w2).

(** ** Settings *)

(** [src/maas-controller/pkg/platform/tenantreconcile/params.go:256-286] validatePayloadProcessingResources. *)
Definition validatePayloadProcessingResources (cfg : TenantPayloadProcessingConfig)
    : list string * option TenantResourceRequirements :=
  match pp_Resources cfg with
  | None => ([], None)
  | Some resources =>
      match pp_Autoscaling cfg with
      | None => ([], Some resources)
      | Some _ =>
          match rr_Requests resources with
          | None =>
              (["spec.payloadProcessing.resources.requests is required when autoscaling is enabled; "
                +:+ "specify both cpu and memory requests or remove spec.payloadProcessing.resources "
                +:+ "to use manifest defaults"], None)
          | Some requests =>
              if negb (bool_decide (is_Some (requests !! "cpu"))) then
                (["spec.payloadProcessing.resources.requests.cpu is required when autoscaling is enabled"],
                 None)
              else if negb (bool_decide (is_Some (requests !! "memory"))) then
                (["spec.payloadProcessing.resources.requests.memory is required when autoscaling is enabled"],
                 None)
              else ([], Some resources)
          end
      end
  end.

Record payload_settings : Type := mkPayload {
  ps_enabled : bool;
  ps_replicas : option Z;
  ps_maxReplicas : Z;
  ps_targetCPU : Z;
  ps_targetMemory : Z;
  ps_resources : option TenantResourceRequirements;
  ps_warnings : list string;
}.

(** [src/maas-controller/pkg/platform/tenantreconcile/params.go:208-254] resolvePayloadProcessingConfig. *)
Definition resolvePayloadProcessingConfig (s : MaasTenantConfigSpec) : payload_settings :=
  match cs_PayloadProcessing s with
  | None => mkPayload false None defaultMaxReplicas defaultTargetCPU defaultTargetMemory None []
  | Some cfg =>
      let '(warnings, resources) := validatePayloadProcessingResources cfg in
      match pp_Autoscaling cfg with
      | None =>
          mkPayload false (pp_Replicas cfg) defaultMaxReplicas defaultTargetCPU defaultTargetMemory
            resources warnings
      | Some a =>
          mkPayload true (pp_Replicas cfg)
            (default defaultMaxReplicas (MaxReplicas a))
            (default defaultTargetCPU (TargetCPUUtilization a))
            (default defaultTargetMemory (TargetMemoryUtilization a)) resources warnings
      end
  end.

(** [src/maas-controller/pkg/platform/tenantreconcile/params.go:288-306] resolveMaasAPIConfig. *)
Definition resolveMaasAPIConfig (s : MaasTenantConfigSpec)
    : option Z * option TenantResourceRequirements :=
  match cs_MaasAPI s with
  | None => (None, None)
  | Some cfg => (ma_Replicas cfg, ma_Resources cfg)
  end.

(** [src/maas-controller/pkg/platform/tenantreconcile/params.go:340-346] resolveAPIKeyMaxExpirationDays. *)
Definition resolveAPIKeyMaxExpirationDays (s : MaasTenantConfigSpec) : string :=
  match cs_APIKeys s with
  | Some (Some days) => pretty days
  | _ => DefaultAPIKeyMaxExpirationDays
  end.

(** [a] when it is set, otherwise [b]. *)
Definition or_else {A} (a b : option A) : option A :=
  match a with Some _ => a | None => b end.

(** The replicas may exceed the maximum of the autoscaler, which is then raised.
    [src/maas-controller/pkg/platform/tenantreconcile/params.go:120-133] BuildPlatformParams. *)
Definition clamp_max (enabled : bool) (replicas : option Z) (maxReplicas : Z) : Z * list string :=
  match enabled, replicas with
  | true, Some n =>
      if (maxReplicas <? n)%Z then
        (n, ["spec.payloadProcessing.replicas (" +:+ pretty n
             +:+ ") exceeds spec.payloadProcessing.autoscaling.maxReplicas ("
             +:+ pretty maxReplicas +:+ "); clamping maxReplicas to match"])
      else (maxReplicas, [])
  | _, _ => (maxReplicas, [])
  end.

(** [src/maas-controller/pkg/platform/tenantreconcile/params.go:72-142] BuildPlatformParams. *)
Definition BuildPlatformParams (env : images) (ns : string) (tenant : TenantMeta)
    (s : MaasTenantConfigSpec) (context : PlatformContext)
    (appNamespace controllerNamespace clusterAudience monitoringNamespace : string)
    : result string PlatformParams :=
  match TenantIdentifierFor ns tenant with
  | Err e => Err ("resolve tenant identifier: " +:+ e)
  | Ok tenantID =>
      let '(apiReplicas, payloadReplicas, warnings) :=
        resolveReplicaAnnotations (tn_annotations tenant) in
      let '(maasAPIReplicas, maasAPIResources) := resolveMaasAPIConfig s in
      let pp := resolvePayloadProcessingConfig s in
      let replicas := or_else (ps_replicas pp) payloadReplicas in
      let '(maxReplicas, clamped) := clamp_max (ps_enabled pp) replicas (ps_maxReplicas pp) in
      Ok (mkParams appNamespace controllerNamespace (g_Namespace (pc_GatewayRef context))
            (g_Name (pc_GatewayRef context)) clusterAudience ns (pc_ExternalOIDC context) tenantID
            (firstNonEmpty [RELATED_IMAGE_ODH_MAAS_API_IMAGE env; DefaultMaaSAPIImage])
            (firstNonEmpty [RELATED_IMAGE_ODH_AI_GATEWAY_PAYLOAD_PROCESSING_IMAGE env;
                            DefaultPayloadProcessingImage])
            (firstNonEmpty [RELATED_IMAGE_UBI_MINIMAL_IMAGE env; Tenant.DefaultMaaSAPIKeyCleanupImage])
            (resolveAPIKeyMaxExpirationDays s) (or_else maasAPIReplicas apiReplicas) maasAPIResources
            replicas (ps_enabled pp) maxReplicas (ps_targetCPU pp) (ps_targetMemory pp)
            monitoringNamespace false (ps_resources pp)
            (warnings ++ ps_warnings pp ++ clamped))
  end.
End params.

(** ** Bounds *)

(** What the schema of the resource admits.
    [src/maas-controller/api/maas/v1alpha1/tenant_types.go:136-213] TenantAutoscalingConfig. *)
Definition count_ok (n : option Z) : Prop := ∀ x, n = Some x → (1 <= x <= 100)%Z.
Definition spec_admitted (s : MaasTenantConfigSpec) : Prop :=
  (∀ cfg, cs_MaasAPI s = Some cfg → count_ok (ma_Replicas cfg)) ∧
  (∀ cfg, cs_PayloadProcessing s = Some cfg → count_ok (pp_Replicas cfg) ∧
     ∀ a, pp_Autoscaling cfg = Some a → count_ok (MaxReplicas a)
       ∧ count_ok (TargetCPUUtilization a) ∧ count_ok (TargetMemoryUtilization a)).

(** CPU and memory are requested. *)
Definition requests_both (r : TenantResourceRequirements) : Prop :=
  ∃ m, rr_Requests r = Some m ∧ is_Some (m !! "cpu") ∧ is_Some (m !! "memory").

Section bounds.
Context {uni : Unicode}.

Lemma parseReplicaAnnotation_bounds k v n : parseReplicaAnnotation k v = Ok n → (1 <= n <= 100)%Z.
Proof.
  unfold parseReplicaAnnotation, maxReplicaCount. destruct (ParseInt32 v) as [m|]; [|done].
  destruct (Z.ltb_spec m 1); [done|]. destruct (Z.ltb_spec 100 m); [done|]. intros [= <-]. lia.
Qed.

(** An annotation counts with its number, or there is a warning. *)
Lemma replica_annotation_spec ann k :
  match replica_annotation ann k with
  | (Some n, w) => (1 <= n <= 100)%Z ∧ w = [] ∧ is_Some (ann !! k)
  | (None, w) => ann !! k = None ∧ w = [] ∨ is_Some (ann !! k) ∧ ∃ x, w = [x]
  end.
Proof.
  unfold replica_annotation. destruct (ann !! k) as [v|]; [|by left].
  destruct (parseReplicaAnnotation k v) as [n|] eqn:E; [|right; eauto].
  apply parseReplicaAnnotation_bounds in E. eauto.
Qed.

Lemma or_else_ok (a b : option Z) : count_ok a → count_ok b → count_ok (or_else a b).
Proof. destruct a; cbn; naive_solver. Qed.

Lemma default_ok d (a : option Z) : (1 <= d <= 100)%Z → count_ok a → (1 <= default d a <= 100)%Z.
Proof. destruct a as [x|]; cbn; [|done]. intros _ H. by apply H. Qed.

Lemma resolvePayloadProcessingConfig_spec s : spec_admitted s →
  let ps := resolvePayloadProcessingConfig s in
  count_ok (ps_replicas ps) ∧ (1 <= ps_maxReplicas ps <= 100)%Z
  ∧ (1 <= ps_targetCPU ps <= 100)%Z ∧ (1 <= ps_targetMemory ps <= 100)%Z
  ∧ (ps_enabled ps = true → ∀ r, ps_resources ps = Some r →
       requests_both r).
Proof.
  intros [_ Hp]. unfold resolvePayloadProcessingConfig, defaultMaxReplicas, defaultTargetCPU,
    defaultTargetMemory.
  destruct (cs_PayloadProcessing s) as [cfg|]; cbn; [|by split_and!; [done|lia..|done]].
  destruct (Hp cfg eq_refl) as [Hr Ha].
  unfold validatePayloadProcessingResources.
  destruct (pp_Autoscaling cfg) as [a|] eqn:Ea; cbn.
  - destruct (Ha a eq_refl) as (H1 & H2 & H3).
    destruct (pp_Resources cfg) as [res|]; cbn.
    + destruct (rr_Requests res) as [m|] eqn:Em; cbn;
        [|by split_and!; [done|by apply default_ok..|done]].
      case_bool_decide; cbn; [|by split_and!; [done|by apply default_ok..|done]].
      case_bool_decide; cbn; [|by split_and!; [done|by apply default_ok..|done]].
      split_and!; [done|by apply default_ok..|]. intros _ r [= <-]. by exists m.
    + split_and!; [done|by apply default_ok..|done].
  - destruct (pp_Resources cfg) as [res|]; cbn; split_and!; done || lia.
Qed.

Lemma clamp_max_spec enabled replicas m :
  count_ok replicas → (1 <= m <= 100)%Z →
  let m' := (clamp_max enabled replicas m).1 in
  (m <= m' <= 100)%Z ∧ (enabled = true → ∀ n, replicas = Some n → (n <= m')%Z).
Proof.
  intros Hr Hm. unfold clamp_max. destruct enabled, replicas as [n|]; cbn; try by split; [lia|].
  specialize (Hr n eq_refl). destruct (Z.ltb_spec m n); cbn; split; try lia; by intros _ ? [= <-].
Qed.

(** An annotation counts: it is a number from 1 to 100. *)
Definition counts (v : string) (n : Z) : Prop := ParseInt32 v = Some n ∧ (1 <= n <= 100)%Z.

(** Where a number of replicas comes from: the setting of the spec if there is one,
    otherwise the annotation if it counts; and an annotation that does not count is
    warned about. *)
Record settled (setting : option Z) (annotations : gmap string string) (k : string)
    (warnings : list string) (replicas : option Z) : Prop := {
  settled_spec n : setting = Some n → replicas = Some n;
  settled_annotation n : setting = None →
    replicas = Some n ↔ ∃ v, annotations !! k = Some v ∧ counts v n;
  settled_warning v : annotations !! k = Some v → (∀ n, ¬ counts v n) →
    ∃ w, w ∈ warnings ∧ has_prefix w ("annotation " +:+ k +:+ " ") = true;
}.

Lemma parseReplicaAnnotation_counts k v :
  match parseReplicaAnnotation k v with
  | Ok n => counts v n
  | Err w => (∀ n, ¬ counts v n) ∧ has_prefix w ("annotation " +:+ k +:+ " ") = true
  end.
Proof.
  unfold parseReplicaAnnotation, counts, maxReplicaCount. cbv zeta.
  assert (∀ rest, has_prefix ("annotation " +:+ k +:+ " has invalid value " +:+ rest)
    ("annotation " +:+ k +:+ " ") = true) as Hw.
  { intros rest. apply has_prefix_true. exists ("has invalid value " +:+ rest).
    by rewrite <-!app_assoc_str. }
  destruct (ParseInt32 v) as [m|].
  - destruct (Z.ltb_spec m 1); [|destruct (Z.ltb_spec 100 m)]; [| |done];
      (split; [intros n [[= <-] ?]; lia|apply Hw]).
  - split; [by intros n [? _]|apply Hw].
Qed.

Lemma settled_or_else setting ann k warnings :
  (∀ w, w ∈ (replica_annotation ann k).2 → w ∈ warnings) →
  settled setting ann k warnings (or_else setting (replica_annotation ann k).1).
Proof.
  unfold replica_annotation. intros Hw. split.
  - by intros n ->.
  - intros n ->. cbn. destruct (ann !! k) as [v|]; [|naive_solver].
    pose proof (parseReplicaAnnotation_counts k v) as H.
    destruct (parseReplicaAnnotation k v) as [m|w]; cbn.
    + split; [intros [= <-]; eauto|]. intros (? & [= <-] & Hc).
      destruct H as [H _], Hc as [Hc _]. congruence.
    + split; [done|]. intros (? & [= <-] & Hc). by destruct (proj1 H n).
  - intros v E Hno. rewrite E in Hw. pose proof (parseReplicaAnnotation_counts k v) as H.
    destruct (parseReplicaAnnotation k v) as [m|w]; [by destruct (Hno m)|].
    exists w. split; [apply Hw; left|apply H].
Qed.

(** C22. The parameters of a platform are in bounds, whatever the annotations say: for
    a configuration that its schema admits, numbers of replicas, their maximum and
    the targets are between 1 and 100, an autoscaler's minimum is not above its
    maximum, and with autoscaling an override of resources requests CPU and memory.
    Both numbers of replicas, of the API and of payload processing, are the setting
    of the spec if there is one, otherwise the annotation if it is a number from 1 to
    100, otherwise not set; and an annotation that is not such a number is warned
    about. *)
Theorem platform_params_bounded env ns tenant s context app ctl aud mon p :
  spec_admitted s →
  BuildPlatformParams env ns tenant s context app ctl aud mon = Ok p →
  count_ok (p_MaaSAPIReplicas p) ∧ count_ok (p_PayloadProcessingReplicas p)
  ∧ (1 <= p_PayloadProcessingMaxReplicas p <= 100)%Z
  ∧ (1 <= p_PayloadProcessingTargetCPU p <= 100)%Z
  ∧ (1 <= p_PayloadProcessingTargetMemory p <= 100)%Z
  ∧ (p_PayloadProcessingAutoscaling p = true →
       (∀ n, p_PayloadProcessingReplicas p = Some n → (n <= p_PayloadProcessingMaxReplicas p)%Z)
       ∧ ∀ r, p_PayloadProcessingResources p = Some r →
           requests_both r)
  ∧ settled (cs_MaasAPI s ≫= ma_Replicas) (tn_annotations tenant)
      "maas.opendatahub.io/maas-api-replicas" (p_Warnings p) (p_MaaSAPIReplicas p)
  ∧ settled (cs_PayloadProcessing s ≫= pp_Replicas) (tn_annotations tenant)
      "maas.opendatahub.io/payload-processing-replicas" (p_Warnings p)
      (p_PayloadProcessingReplicas p).
Proof.
  intros Hs. unfold BuildPlatformParams.
  destruct (TenantIdentifierFor ns tenant) as [tenantID|e]; [|done].
  unfold resolveReplicaAnnotations. set (ann := tn_annotations tenant).
  pose proof (replica_annotation_spec ann AnnotationMaaSAPIReplicas) as H1.
  pose proof (replica_annotation_spec ann AnnotationPayloadProcessingReplicas) as H2.
  pose proof (settled_or_else (cs_MaasAPI s ≫= ma_Replicas) ann AnnotationMaaSAPIReplicas) as S1.
  pose proof (settled_or_else (cs_PayloadProcessing s ≫= pp_Replicas) ann
    AnnotationPayloadProcessingReplicas) as S2.
  destruct (replica_annotation _ AnnotationMaaSAPIReplicas) as [n1 w1].
  destruct (replica_annotation _ AnnotationPayloadProcessingReplicas) as [n2 w2].
  destruct (resolvePayloadProcessingConfig_spec s Hs) as (P1 & P2 & P3 & P4 & P5).
  assert (count_ok n1) as C1 by (destruct n1; [|done]; intros ? [= <-]; apply H1).
  assert (count_ok n2) as C2 by (destruct n2; [|done]; intros ? [= <-]; apply H2).
  assert (resolveMaasAPIConfig s = (cs_MaasAPI s ≫= ma_Replicas, cs_MaasAPI s ≫= ma_Resources))
    as -> by (unfold resolveMaasAPIConfig; by destruct (cs_MaasAPI s)).
  assert (ps_replicas (resolvePayloadProcessingConfig s)
    = (cs_PayloadProcessing s ≫= pp_Replicas)) as Er.
  { unfold resolvePayloadProcessingConfig. destruct (cs_PayloadProcessing s) as [cfg|]; [|done].
    cbn. destruct (validatePayloadProcessingResources cfg). by destruct (pp_Autoscaling cfg). }
  rewrite Er in *.
  destruct (clamp_max_spec (ps_enabled (resolvePayloadProcessingConfig s))
    (or_else (cs_PayloadProcessing s ≫= pp_Replicas) n2)
    (ps_maxReplicas (resolvePayloadProcessingConfig s))) as [Q1 Q2]; [by apply or_else_ok|done|].
  destruct (clamp_max _ _ _) as [m clamped]. cbn [fst] in Q1, Q2. intros [= <-]. cbn.
  split; [|split; [|split; [lia|split; [done|split; [done|split; [|split]]]]]].
  - apply or_else_ok; [|done]. destruct (cs_MaasAPI s) as [cfg|] eqn:Ec; [|done].
    by apply (proj1 Hs).
  - by apply or_else_ok.
  - intros He. split; [by apply Q2|by apply P5].
  - apply S1. intros w Hw. rewrite !elem_of_app. by left; left.
  - apply S2. intros w Hw. rewrite !elem_of_app. by left; right.
Qed.
End bounds.

Lemma platform_params_bounded_witness :
  let uni := {| IsPrint _ := false |} in
  let s := mkConfigSpec None None (Some (mkMaasAPI (Some 2%Z) None))
             (Some (mkPayloadProcessing (Some 20%Z)
                (Some (mkAutoscaling (Some 10%Z) None None)) None)) in
  let tenant := mkTenant ∅ {[AnnotationMaaSAPIReplicas := "three"]} in
  ∃ p, BuildPlatformParams (mkImages "" "" "") "team" tenant s (mkPlatform (mkGateway "gw" "gws") None)
         "app" "ctl" "aud" "mon" = Ok p
    ∧ p_MaaSAPIReplicas p = Some 2%Z ∧ length (p_Warnings p) = 2
    ∧ p_PayloadProcessingReplicas p = Some 20%Z ∧ (20 <= p_PayloadProcessingMaxReplicas p)%Z.
Proof.
  intros uni s tenant. eexists. split; [by_compute|]. cbn [p_MaaSAPIReplicas p_Warnings p_PayloadProcessingReplicas].
  split_and!; [done..|].
  refine (proj1 (proj1 (proj2 (proj2 (proj2 (proj2 (proj2
    (platform_params_bounded (mkImages "" "" "") "team" tenant s
       (mkPlatform (mkGateway "gw" "gws") None) "app" "ctl" "aud" "mon" _ _ eq_refl)))))) eq_refl)
    20%Z eq_refl).
  split.
  - intros cfg [= <-] x [= <-]. lia.
  - intros cfg [= <-]. split; [intros x [= <-]; lia|]. intros a [= <-]. cbn.
    split_and!; [intros x [= <-]; lia|done|done].
Defined.

End Params.
