(* ===== verification/Platform.v ===== *)
(** The platform of a tenant: what the server holds of it, its calls, the names
    of its resources, its prerequisites, and the pipeline that renders and applies
    it and reports whether it is available.
    [src/maas-controller/pkg/platform/tenantreconcile]. *)
From S2P Require Import Prelude GoStrings GoTime Runtime Unstructured GoFmt MaasTypes Cluster.
From S2P Require Import ControllerHelpers TenantCluster AITenantParts PlatformParams.
From stdpp Require Import pretty.
Import Infra Params Cluster Helpers Fmt.

Module Platform.

(** ** Objects *)

(** [src/maas-controller/api/maas/v1alpha1/maastenantconfig_types.go:67-88] MaasTenantConfigStatus. *)
Record MaasTenantConfigStatus : Type := mkConfigStatus {
  cf_Phase : string;
  cf_InfraNamespace : string;
  cf_Conditions : list V1.Condition;
}.

(** Its name is [default-tenant], as the schema has it.
    [src/maas-controller/api/maas/v1alpha1/maastenantconfig_types.go:40-46] MaasTenantConfig. *)
Record MaasTenantConfig : Type := mkTenantConfig {
  tc_Labels : gmap string string;
  tc_Annotations : gmap string string;
  tc_Finalizers : list string;
  tc_Generation : Z;
  tc_deleting : bool;
  tc_Spec : MaasTenantConfigSpec;
  tc_Status : MaasTenantConfigStatus;
}.

Definition set_tc_Finalizers (fs : list string) (t : MaasTenantConfig) : MaasTenantConfig :=
  mkTenantConfig (tc_Labels t) (tc_Annotations t) fs (tc_Generation t) (tc_deleting t) (tc_Spec t)
    (tc_Status t).
Definition set_tc_Status (st : MaasTenantConfigStatus) (t : MaasTenantConfig) : MaasTenantConfig :=
  mkTenantConfig (tc_Labels t) (tc_Annotations t) (tc_Finalizers t) (tc_Generation t)
    (tc_deleting t) (tc_Spec t) st.

Definition tenant_meta (t : MaasTenantConfig) : TenantMeta :=
  mkTenant (tc_Labels t) (tc_Annotations t).

(** The singleton Config, which owns what is applied: its UID, and whether it is
    being deleted. *)
Record Config : Type := mkConfig { an_UID : string; an_deleting : bool }.

(** An object of any other kind: its metadata, the document, and whether it is being
    deleted. *)
Record resource : Type := mkResource {
  rs_Labels : gmap string string;
  rs_Annotations : gmap string string;
  rs_Owners : list OwnerReference;
  rs_Generation : Z;
  rs_Object : obj;
  rs_Finalizers : list string;
  rs_deleting : bool;
}.

(** A deletion removes an object that has no finalizers; another is only marked, and
    goes when its finalizers are taken off. *)
Definition set_rs_deleting (x : resource) : resource :=
  mkResource (rs_Labels x) (rs_Annotations x) (rs_Owners x) (rs_Generation x) (rs_Object x)
    (rs_Finalizers x) true.
Definition deleted (x : resource) : option resource :=
  if length (rs_Finalizers x) =? 0 then None else Some (set_rs_deleting x).

(** Its kind, its namespace and its name. *)
Abbreviation rkey := (string * key)%type.

(** What the server holds: what the other controllers see, the tenant
    configurations by namespace, the Config, the resources, the data of Secrets, and
    the kinds that are registered; and what the process remembers: whether the
    cleanup of earlier versions has been tried, and done. *)
Record platform : Type := mkWorld {
  w_cluster : cluster;
  w_configs : gmap string MaasTenantConfig;
  w_anchor : option Config;
  w_resources : gmap rkey resource;
  w_secrets : gmap key (gmap string string);
  w_kinds : gset string;
  w_cleanupOnce : bool;
  w_cleanupCompleted : bool;
}.

Definition set_cluster (c : cluster) (w : platform) : platform :=
  mkWorld c (w_configs w) (w_anchor w) (w_resources w) (w_secrets w) (w_kinds w)
    (w_cleanupOnce w) (w_cleanupCompleted w).
Definition set_configs (f : gmap string MaasTenantConfig → gmap string MaasTenantConfig)
    (w : platform) : platform :=
  mkWorld (w_cluster w) (f (w_configs w)) (w_anchor w) (w_resources w) (w_secrets w) (w_kinds w)
    (w_cleanupOnce w) (w_cleanupCompleted w).
Definition set_resources (f : gmap rkey resource → gmap rkey resource) (w : platform) : platform :=
  mkWorld (w_cluster w) (w_configs w) (w_anchor w) (f (w_resources w)) (w_secrets w) (w_kinds w)
    (w_cleanupOnce w) (w_cleanupCompleted w).
Definition set_cleanup (once completed : bool) (w : platform) : platform :=
  mkWorld (w_cluster w) (w_configs w) (w_anchor w) (w_resources w) (w_secrets w) (w_kinds w)
    once completed.

(** The other controllers see the metadata of the configurations. *)
Definition seen (w : platform) : cluster :=
  let c := w_cluster w in
  mkCluster (subscriptions c) (models c) (routes c) (external_models c) (policies c) (namespaces c)
    (tenant_meta <$> w_configs w) (legacy_tenants c) (aitenants c) (auth_crs c) (auth_policies c)
    (gateways c) (endpoint_slices c) (llmisvcs c) (legacy_external_models c).

(** What they leave is put back; they do not write configurations. *)
Definition put_back (c : cluster) (w : platform) : platform :=
  set_cluster (mkCluster (subscriptions c) (models c) (routes c) (external_models c) (policies c)
    (namespaces c) (tenant_configs (w_cluster w)) (legacy_tenants c) (aitenants c) (auth_crs c)
    (auth_policies c) (gateways c) (endpoint_slices c) (llmisvcs c) (legacy_external_models c)) w.

(** A program of theirs. *)
Definition on_cluster {A} (m : prog cluster A) : prog platform A := zoom seen put_back m.

Abbreviation pprog A := (prog platform (result error A)) (only parsing).

(** ** The server *)

(** Server-side apply on what is there; conflicts, the name of the object an error
    is about, and what a caller may not see;
    [filepath.Abs]; [validation.IsDNS1123Subdomain]; accessors of [unstructured]. *)
Class PlatformServer : Type := {
  apply_object : option resource → resource → resource;
  is_conflict : api_error → bool;
  details_name : api_error → option string;
  is_forbidden : api_error → bool;
  filepath_Abs : string → result string string;
  IsDNS1123Subdomain : string → list string;
  NestedBool : gomap → list string → nested bool;
  NestedStringMap : gomap → list string → nested (gmap string string);
}.

(** The value a document has at a path of map keys. *)
Fixpoint field_at (o : obj) (path : list string) : option value :=
  match path with
  | [] => None
  | [k] => map_get k o
  | k :: path => get_map k o ≫= λ m, field_at m path
  end.
Definition is_scalar (v : value) : bool :=
  match v with VBool _ | VInt _ | VString _ => true | _ => false end.

(** What is documented of a forced server-side apply: the labels, annotations, owners
    and fields that are applied are there afterwards, and whether the object is being
    deleted is left as it was. Lists may be merged by key, so only the fields with a
    string, an integer or a boolean are told. *)
Class LawfulPlatformServer `{PlatformServer} : Prop := {
  apply_labels old x : rs_Labels x ⊆ rs_Labels (apply_object old x);
  apply_annotations old x : rs_Annotations x ⊆ rs_Annotations (apply_object old x);
  apply_owners old x o : o ∈ rs_Owners x → o ∈ rs_Owners (apply_object old x);
  apply_fields old x path v :
    is_scalar v = true → field_at (rs_Object x) path = Some v →
    field_at (rs_Object (apply_object old x)) path = Some v;
  apply_deleting old x : rs_deleting (apply_object (Some old) x) = rs_deleting old;
}.

(** What is rendered: the kustomization of a directory for a namespace, and what
    [PostRender] makes of it with the parameters of a configuration. *)
Class Renderer : Type := {
  RenderKustomize : string → string → result string (list (rkey * resource));
  PostRender : string → MaasTenantConfig → list (rkey * resource) → PlatformParams →
    result string (list (rkey * resource));
}.

Section calls.
Context {srv : ApiServer} {psrv : PlatformServer}.

Definition registered (kind : string) (w : platform) : bool := bool_decide (kind ∈ w_kinds w).

(** [client.Get] and [client.List] of resources, whose kinds may not be
    registered. *)
Definition get_resource (k : rkey) : prog platform (result api_error resource) :=
  read (λ _ w,
    if negb (registered k.1 w) then Err NoMatch
    else match w_resources w !! k with Some x => Ok x | None => Err NotFound end).
Definition list_resources (kind : string)
    : prog platform (result api_error (list (rkey * resource))) :=
  read (λ n w,
    if negb (registered kind w) then Err NoMatch
    else Ok (List.filter (λ kr : rkey * resource, kr.1.1 == kind)
               (list_order n (map_to_list (w_resources w))))).

(** [client.Delete], [client.Update], and server-side apply. *)
Definition delete_resource (k : rkey) : prog platform (result api_error ()) :=
  write (λ w, if negb (registered k.1 w) then Err NoMatch
              else match w_resources w !! k with
                   | Some _ => Ok (set_resources (partial_alter (λ o, o ≫= deleted) k) w)
                   | None => Err NotFound
                   end).
Definition update_resource (k : rkey) (x : resource) : prog platform (result api_error ()) :=
  write (λ w, match w_resources w !! k with
              | Some _ => Ok (set_resources <[k := x]> w)
              | None => Err NotFound
              end).
Definition apply_resource (k : rkey) (x : resource) : prog platform (result api_error ()) :=
  write (λ w, if negb (registered k.1 w) then Err NoMatch
              else Ok (set_resources (partial_alter (λ old, Some (apply_object old x)) k) w)).

(** [client.Update] of the finalizers of a configuration, and of its status. *)
Definition update_config_finalizers (ns : string) (fs : list string)
    : prog platform (result api_error ()) :=
  write (λ w, match w_configs w !! ns with
              | Some t =>
                  Ok (set_configs (if tc_deleting t && (length fs =? 0) then delete ns
                                   else <[ns := set_tc_Finalizers fs t]>) w)
              | None => Err NotFound
              end).
Definition update_config_status (ns : string) (st : MaasTenantConfigStatus)
    : prog platform (result api_error ()) :=
  write (λ w, match w_configs w !! ns with
              | Some t => Ok (set_configs <[ns := set_tc_Status st t]> w)
              | None => Err NotFound
              end).

(** [client.Delete] of subscriptions and policies, which have finalizers. *)
Definition set_deleting_subscription (s : V1.MaaSSubscription) : V1.MaaSSubscription :=
  V1.mkSubscription (V1.Name s) (V1.Namespace s) (V1.Generation s) true (V1.Finalizers s)
    (V1.Spec s) (V1.Status s).
Definition delete_subscription (k : key) : prog platform (result api_error ()) :=
  write (λ w, match subscriptions (w_cluster w) !! k with
              | Some s =>
                  Ok (set_cluster (set_subscriptions
                        (if length (V1.Finalizers s) =? 0 then delete k
                         else <[k := set_deleting_subscription s]>) (w_cluster w)) w)
              | None => Err NotFound
              end).
Definition set_deleting_policy (p : V1.MaaSAuthPolicy) : V1.MaaSAuthPolicy :=
  V1.mkAuthPolicyCR (V1.ap_Name p) (V1.ap_Namespace p) (V1.ap_Generation p) true
    (V1.ap_Finalizers p) (V1.ap_Spec p) (V1.ap_Status p).
Definition delete_auth_cr (k : key) : prog platform (result api_error ()) :=
  write (λ w, match auth_crs (w_cluster w) !! k with
              | Some p =>
                  Ok (set_cluster (set_auth_crs
                        (if length (V1.ap_Finalizers p) =? 0 then delete k
                         else <[k := set_deleting_policy p]>) (w_cluster w)) w)
              | None => Err NotFound
              end).

(** [client.IgnoreNotFound]. *)
Definition unless_missing (m : prog platform (result api_error ()))
    : prog platform (result api_error ()) :=
  r ← m; mret match r with Err NotFound => Ok () | _ => r end.
End calls.

(** ** Names *)

(** [src/maas-controller/pkg/platform/tenantreconcile/constants.go:89-92] baseGatewayTokenRateLimitDefaultDenyPolicyName. *)
Definition baseGatewayTokenRateLimitDefaultDenyPolicyName : string := "gateway-default-deny".
(** [src/maas-controller/pkg/platform/tenantreconcile/constants.go:94-94] baseMaaSAPIRouteName. *)
Definition baseMaaSAPIRouteName : string := "maas-api-route".
(** [src/maas-controller/pkg/platform/tenantreconcile/constants.go:96-96] baseGatewayDestinationRuleName. *)
Definition baseGatewayDestinationRuleName : string := "maas-api-backend-tls".
(** [src/maas-controller/pkg/platform/tenantreconcile/constants.go:97-97] baseTelemetryPolicyName. *)
Definition baseTelemetryPolicyName : string := "maas-telemetry".
(** [src/maas-controller/pkg/platform/tenantreconcile/constants.go:98-98] baseIstioTelemetryName. *)
Definition baseIstioTelemetryName : string := "latency-per-subscription".
(** [src/maas-controller/pkg/platform/tenantreconcile/constants.go:99-99] baseMaaSAPIDeploymentName. *)
Definition baseMaaSAPIDeploymentName : string := "maas-api".
(** [src/maas-controller/pkg/platform/tenantreconcile/constants.go:105-107] PayloadProcessingName. *)
Definition PayloadProcessingName : string := "payload-processing".
(** [src/maas-controller/pkg/platform/tenantreconcile/constants.go:108-108] PayloadPreProcessingName. *)
Definition PayloadPreProcessingName : string := "payload-pre-processing".
(** [src/maas-controller/pkg/platform/tenantreconcile/constants.go:109-109] PayloadProcessingPluginsConfigMapName. *)
Definition PayloadProcessingPluginsConfigMapName : string := "payload-processing-plugins".
(** [src/maas-controller/pkg/platform/tenantreconcile/constants.go:110-110] PayloadProcessingReaderClusterRoleBindingName. *)
Definition PayloadProcessingReaderClusterRoleBindingName : string := "payload-processing-reader".
(** [src/maas-controller/pkg/platform/tenantreconcile/constants.go:111-113] PayloadProcessingEnvoyFilterPriority. *)
Definition PayloadProcessingEnvoyFilterPriority : Z := 10.
(** [src/maas-controller/pkg/platform/tenantreconcile/constants.go:117-118] MaaSControllerDeploymentName. *)
Definition MaaSControllerDeploymentName : string := "maas-controller".
(** [src/maas-controller/pkg/platform/tenantreconcile/constants.go:119-119] MaaSDBSecretName. *)
Definition MaaSDBSecretName : string := "maas-db-config".
(** [src/maas-controller/pkg/platform/tenantreconcile/constants.go:120-120] MaaSDBSecretKey. *)
Definition MaaSDBSecretKey : string := "DB_CONNECTION_URL".
(** [src/maas-controller/pkg/platform/tenantreconcile/constants.go:122-123] ConditionDependenciesAvailable. *)
Definition ConditionDependenciesAvailable : string := "DependenciesAvailable".
(** [src/maas-controller/pkg/platform/tenantreconcile/constants.go:124-124] ConditionMaaSPrerequisitesAvailable. *)
Definition ConditionMaaSPrerequisitesAvailable : string := "MaaSPrerequisitesAvailable".
(** [src/maas-controller/pkg/platform/tenantreconcile/constants.go:125-125] ConditionDeploymentsAvailable. *)
Definition ConditionDeploymentsAvailable : string := "DeploymentsAvailable".
(** [src/maas-controller/pkg/platform/tenantreconcile/constants.go:126-126] ConditionTypeDegraded. *)
Definition ConditionTypeDegraded : string := "Degraded".
(** [src/maas-controller/pkg/platform/tenantreconcile/constants.go:127-127] ReadyConditionType. *)
Definition ReadyConditionType : string := "Ready".

(** [src/maas-controller/pkg/platform/tenantreconcile/constants.go:180-182] GatewayTokenRateLimitDefaultDenyPolicyName. *)
Definition GatewayTokenRateLimitDefaultDenyPolicyName (tenantID : string) : string :=
  resourceNameForTenant baseGatewayTokenRateLimitDefaultDenyPolicyName tenantID.
(** [src/maas-controller/pkg/platform/tenantreconcile/constants.go:188-190] MaaSAPIRouteName. *)
Definition MaaSAPIRouteName (tenantID : string) : string :=
  resourceNameForTenant baseMaaSAPIRouteName tenantID.
(** [src/maas-controller/pkg/platform/tenantreconcile/constants.go:196-198] GatewayDestinationRuleName. *)
Definition GatewayDestinationRuleName (tenantID : string) : string :=
  resourceNameForTenant baseGatewayDestinationRuleName tenantID.
(** [src/maas-controller/pkg/platform/tenantreconcile/constants.go:200-202] TelemetryPolicyName. *)
Definition TelemetryPolicyName (tenantID : string) : string :=
  resourceNameForTenant baseTelemetryPolicyName tenantID.
(** [src/maas-controller/pkg/platform/tenantreconcile/constants.go:204-206] IstioTelemetryName. *)
Definition IstioTelemetryName (tenantID : string) : string :=
  resourceNameForTenant baseIstioTelemetryName tenantID.
(** [src/maas-controller/pkg/platform/tenantreconcile/constants.go:208-214] MaaSAPIDeploymentName. *)
Definition MaaSAPIDeploymentName (tenantID : string) : string :=
  resourceNameForTenant baseMaaSAPIDeploymentName tenantID.
(** Of the deployment, the service, the EnvoyFilter, the service account, the
    network policy and the autoscaler.
    [src/maas-controller/pkg/platform/tenantreconcile/constants.go:220-222] PayloadProcessingDeploymentName. *)
Definition PayloadProcessingDeploymentName (tenantID : string) : string :=
  resourceNameForTenant PayloadProcessingName tenantID.
(** [src/maas-controller/pkg/platform/tenantreconcile/constants.go:224-226] PayloadPreProcessingDeploymentName. *)
Definition PayloadPreProcessingDeploymentName (tenantID : string) : string :=
  resourceNameForTenant PayloadPreProcessingName tenantID.
(** [src/maas-controller/pkg/platform/tenantreconcile/constants.go:240-242] PayloadProcessingPluginsConfigMapForTenant. *)
Definition PayloadProcessingPluginsConfigMapForTenant (tenantID : string) : string :=
  resourceNameForTenant PayloadProcessingPluginsConfigMapName tenantID.
(** [src/maas-controller/pkg/platform/tenantreconcile/constants.go:260-262] PayloadProcessingReaderClusterRoleBindingNameForTenant. *)
Definition PayloadProcessingReaderClusterRoleBindingNameForTenant (tenantID : string) : string :=
  resourceNameForTenant PayloadProcessingReaderClusterRoleBindingName tenantID.

(** ** Dependencies and prerequisites *)

Section prerequisites.
Context {api : ApiMachinery} {srv : ApiServer} {psrv : PlatformServer}.

(** [src/maas-controller/pkg/platform/tenantreconcile/prerequisites.go:18-28] IsGVKAvailable. *)
Definition IsGVKAvailable (kind : string) : prog platform (result api_error bool) :=
  read (λ _ w, Ok (registered kind w)).

(** [src/maas-controller/pkg/platform/tenantreconcile/pipeline.go:34-42] CheckDependencies. *)
Definition CheckDependencies : pprog () :=
  ok ←? in_context "dependencies" (IsGVKAvailable "AuthConfig");
  mret (if ok : bool then Ok ()
        else Err (ErrOther ("dependency missing: AuthConfig CRD "
          +:+ "(authorino.kuadrant.io/v1beta3) not available on cluster"))).

(** [src/maas-controller/pkg/platform/tenantreconcile/prerequisites.go:36-40] PrerequisiteReport. *)
Record PrerequisiteReport : Type := mkReport { Blocking : list string; Warnings : list string }.

(** An Authorino that listens with TLS.
    [src/maas-controller/pkg/platform/tenantreconcile/prerequisites.go:97-110] checkAuthorinoTLS. *)
Definition tls_configured (item : obj) : bool :=
  match NestedBool item ["spec"; "listener"; "tls"; "enabled"],
        NestedString item ["spec"; "listener"; "tls"; "certSecretRef"; "name"] with
  | NestedErr _, _ | _, NestedErr _ => false
  | enabled, certName => default false (found enabled) && (default "" (found certName) != "")
  end.

(** [src/maas-controller/pkg/platform/tenantreconcile/prerequisites.go:74-116] checkAuthorinoTLS. *)
Definition checkAuthorinoTLS : prog platform string :=
  has ← IsGVKAvailable "Authorino";
  match has with
  | Err _ => mret "failed to check Authorino CRD availability due to a cluster API error"
  | Ok false => mret ""
  | Ok true =>
      items ← list_resources "Authorino";
      mret match items with
           | Err _ => "failed to list Authorino instances due to a cluster API error"
           | Ok [] => "no Authorino instances found. "
               +:+ "Authorino must be deployed and configured with TLS for MaaS authentication"
           | Ok items =>
               if existsb (λ item : rkey * resource, tls_configured (rs_Object item.2)) items then ""
               else "Authorino TLS is not configured: no Authorino instance has "
                 +:+ "listener.tls.enabled=true with a certSecretRef. "
                 +:+ "Patch Authorino with spec.listener.tls.enabled=true and "
                 +:+ "spec.listener.tls.certSecretRef to enable TLS. See "
                 +:+ "https://docs.kuadrant.io/1.0.x/authorino/docs/user-guides/mtls-authentication/"
           end
  end.

(** [src/maas-controller/pkg/platform/tenantreconcile/prerequisites.go:118-145] checkDatabaseSecret. *)
Definition checkDatabaseSecret (appNamespace : string) : prog platform string :=
  secret ← get_in w_secrets (appNamespace, MaaSDBSecretName);
  let where_ := "'" +:+ MaaSDBSecretName +:+ "' " in
  mret match secret with
       | Err NotFound =>
           "database Secret " +:+ where_ +:+ "not found in namespace '" +:+ appNamespace
           +:+ "'. Create the Secret with key '" +:+ MaaSDBSecretKey
           +:+ "' containing the PostgreSQL connection URL. "
           +:+ "MaaS API cannot start without a database connection"
       | Err _ =>
           "failed to check database Secret " +:+ where_ +:+ "in namespace '" +:+ appNamespace
           +:+ "' due to a cluster API error"
       | Ok data =>
           if TrimSpace (at_key data MaaSDBSecretKey) == "" then
             "database Secret " +:+ where_ +:+ "in namespace '" +:+ appNamespace
             +:+ "' is missing required key '" +:+ MaaSDBSecretKey
             +:+ "'. The Secret must contain a valid PostgreSQL connection URL"
           else ""
       end.

(** The status, reason and message of the last condition of a type.
    [src/maas-controller/pkg/platform/tenantreconcile/prerequisites.go:196-227] checkDSCIMonitoring. *)
Fixpoint last_condition (typ : string) (conditions : list value) (cur : string * string * string)
    : string * string * string :=
  match conditions with
  | [] => cur
  | c :: conditions =>
      last_condition typ conditions
        match as_map c with
        | None => cur
        | Some cond =>
            if or_empty (get_string "type" cond) == typ
            then (or_empty (get_string "status" cond), or_empty (get_string "reason" cond),
                  or_empty (get_string "message" cond))
            else cur
        end
  end.

(** What is wrong with a condition, if it is not True.
    [src/maas-controller/pkg/platform/tenantreconcile/prerequisites.go:229-281] checkDSCIMonitoring. *)
Definition condition_problem (what typ until : string) (conditions : list value) : option string :=
  let '(status, reason, message) := last_condition typ conditions ("", "", "") in
  let tail := ". Showback/FinOps usage views will not work until " +:+ until in
  if status == "True" then None
  else if status == "" then
    Some (what +:+ ": " +:+ typ +:+ " condition not found in DSCInitialization status" +:+ tail)
  else
    Some (what +:+ " (" +:+ typ +:+ "=" +:+ status
      +:+ (if reason != "" then ": " +:+ reason else "")
      +:+ (if message != "" then ": " +:+ message else "") +:+ ")" +:+ tail).

(** [src/maas-controller/pkg/platform/tenantreconcile/prerequisites.go:147-281] checkDSCIMonitoring. *)
Definition checkDSCIMonitoring : prog platform string :=
  items ← list_resources "DSCInitialization";
  mret match items with
       | Err NoMatch =>
           "DSCI monitoring not configured: DSCInitialization CRD not found. "
           +:+ "Showback/FinOps usage views will not work without monitoring stack enabled"
       | Err _ =>
           "unable to verify DSCI monitoring status due to a cluster API error. "
           +:+ "Ensure monitoring is enabled in DSCInitialization for showback functionality"
       | Ok [] =>
           "DSCI monitoring not configured: no DSCInitialization found. "
           +:+ "Showback/FinOps usage views will not work without monitoring stack enabled"
       | Ok (first :: rest) =>
           let dsci := default first (List.find (λ item : rkey * resource,
                         item.1.2.2 == "default-dsci") (first :: rest)) in
           match NestedSlice (rs_Object dsci.2) ["status"; "conditions"] with
           | NestedErr _ =>
               "unable to verify DSCI monitoring conditions due to a status read error. "
               +:+ "Ensure monitoring stack is deployed in DSCInitialization"
           | Unstructured.NotFound | Found [] =>
               "DSCI monitoring status not available: no conditions found. "
               +:+ "Monitoring stack may still be deploying. "
               +:+ "Showback/FinOps usage views will not work until monitoring is ready"
           | Found conditions =>
               match condition_problem "DSCI monitoring is not ready" "MonitoringReady"
                       "monitoring is ready" conditions with
               | Some problem => problem
               | None =>
                   match condition_problem "DSCI monitoring stack is not available"
                           "MonitoringStackAvailable" "monitoring stack is available" conditions with
                   | Some problem => problem
                   | None =>
                       default "" (condition_problem "DSCI Perses is not available" "PersesAvailable"
                                     "Perses is available" conditions)
                   end
               end
           end
       end.

Definition reported (msg : string) : list string := if msg != "" then [msg] else [].

(** [src/maas-controller/pkg/platform/tenantreconcile/prerequisites.go:42-61] CollectPrerequisiteReport. *)
Definition CollectPrerequisiteReport (appNamespace : string)
    : prog platform PrerequisiteReport :=
  tls ← checkAuthorinoTLS;
  database ← checkDatabaseSecret appNamespace;
  monitoring ← checkDSCIMonitoring;
  mret (mkReport (reported database) (reported tls ++ reported monitoring)).
End prerequisites.

(** ** Applying *)

Section apply.
Context {srv : ApiServer} {tsrv : TenantServer} {psrv : PlatformServer}.

(** [src/maas-controller/pkg/platform/tenantreconcile/apply.go:106-111] isMaaSControllerDeployment. *)
Definition isMaaSControllerDeployment (k : rkey) (appNs : string) : bool :=
  if (appNs == "") || (k.2.1 != appNs) then false
  else (ToLower k.1 == "deployment") && (k.2.2 == MaaSControllerDeploymentName).

(** [src/maas-controller/pkg/platform/tenantreconcile/apply.go:97-104] skipConfigControllerOwnerRef. *)
Definition skipConfigControllerOwnerRef (k : rkey) (appNs : string) : bool :=
  isMaaSControllerDeployment k appNs.

(** What is there of a resource, when it can be read.
    [src/maas-controller/pkg/platform/tenantreconcile/apply.go:113-122] isLiveResourceUnmanaged. *)
Definition live_resource (k : rkey) : prog platform (option resource) :=
  if k.2.2 == "" then mret None
  else r ← get_resource k; mret match r with Ok x => Some x | Err _ => None end.
Definition unmanaged (x : resource) : bool :=
  rs_Annotations x !! AnnotationManaged == Some "false".
(** [src/maas-controller/pkg/platform/tenantreconcile/apply.go:113-125] isLiveResourceUnmanaged. *)
Definition isLiveResourceUnmanaged (k : rkey) : prog platform bool :=
  live ← live_resource k; mret match live with Some x => unmanaged x | None => false end.

(** [src/maas-controller/pkg/platform/tenantreconcile/apply.go:187-192] isOwnedByExternalController. *)
Definition external (configUID : string) (x : resource) : bool :=
  existsb (λ ref, o_Controller ref && (o_UID ref != configUID)) (rs_Owners x).
(** [src/maas-controller/pkg/platform/tenantreconcile/apply.go:173-195] isOwnedByExternalController. *)
Definition isOwnedByExternalController (k : rkey) (configUID : string) : prog platform bool :=
  live ← live_resource k;
  mret match live with Some x => external configUID x | None => false end.

(** [src/maas-controller/pkg/platform/tenantreconcile/apply.go:127-138] isPayloadProcessingPluginsConfigMap. *)
Definition isPayloadProcessingPluginsConfigMap (k : rkey) : bool :=
  (k.1 == "ConfigMap") &&
  ((k.2.2 == PayloadProcessingPluginsConfigMapName)
   || has_prefix k.2.2 (PayloadProcessingPluginsConfigMapName +:+ "-")).

Definition set_rs_Annotations (f : gmap string string → gmap string string) (x : resource)
    : resource :=
  mkResource (rs_Labels x) (f (rs_Annotations x)) (rs_Owners x) (rs_Generation x) (rs_Object x)
    (rs_Finalizers x) (rs_deleting x).

(** [src/maas-controller/pkg/platform/tenantreconcile/apply.go:140-171] preparePayloadProcessingPluginsConfigMapApply. *)
Definition preparePayloadProcessingPluginsConfigMapApply (k : rkey) (u : resource)
    : prog platform resource :=
  if negb (isPayloadProcessingPluginsConfigMap k) then mret u
  else
    live ← live_resource k;
    let managedValue :=
      match live with
      | Some x => if rs_Annotations x !! AnnotationManaged == Some "true" then "true" else "false"
      | None => "false"
      end in
    mret (set_rs_Annotations <[AnnotationManaged := managedValue]> u).

(** [src/maas-controller/pkg/platform/tenantreconcile/apply.go:207-213] tenantTrackingName. *)
Definition tenantTrackingName (t : MaasTenantConfig) : string :=
  if at_key (tc_Labels t) LabelTenantName != "" then at_key (tc_Labels t) LabelTenantName
  else Tenant.default_tenant_name.
(** [src/maas-controller/pkg/platform/tenantreconcile/apply.go:197-205] setTenantTrackingLabels. *)
Definition setTenantTrackingLabels (ns : string) (t : MaasTenantConfig) (u : resource) : resource :=
  mkResource (<[LabelTenantNamespace := ns]> (<[LabelTenantName := tenantTrackingName t]>
    (rs_Labels u))) (rs_Annotations u) (rs_Owners u) (rs_Generation u) (rs_Object u)
    (rs_Finalizers u) (rs_deleting u).

(** The Config becomes the controller, unless there is another.
    [src/maas-controller/pkg/platform/tenantreconcile/apply.go:60-74] ApplyRendered. *)
Definition own (mcfg : Config) (k : rkey) (appNs : string) (u : resource) : resource :=
  if skipConfigControllerOwnerRef k appNs then u
  else
    match SetControllerReference "Config" "default" (an_UID mcfg) (rs_Owners u) with
    | Ok owners =>
        mkResource (rs_Labels u) (rs_Annotations u) owners (rs_Generation u) (rs_Object u)
          (rs_Finalizers u) (rs_deleting u)
    | Err _ => u
    end.

(** The status is not applied. *)
Definition without_status (u : resource) : resource :=
  mkResource (rs_Labels u) (rs_Annotations u) (rs_Owners u) (rs_Generation u)
    (List.filter (λ kv : string * value, kv.1 != "status") (rs_Object u))
    (rs_Finalizers u) (rs_deleting u).

(** One object.
    [src/maas-controller/pkg/platform/tenantreconcile/apply.go:36-83] ApplyRendered. *)
Definition apply_one (ns : string) (t : MaasTenantConfig) (appNs : string) (mcfg : Config)
    (k : rkey) (u : resource) : pprog () :=
  skip ← isLiveResourceUnmanaged k;
  if skip : bool then mret (Ok ())
  else
    owned ← isOwnedByExternalController k (an_UID mcfg);
    if owned : bool then mret (Ok ())
    else
      u ← preparePayloadProcessingPluginsConfigMapApply k
            (setTenantTrackingLabels ns t (own mcfg k appNs u));
      in_context ("apply " +:+ k.1 +:+ " " +:+ k.2.1 +:+ "/" +:+ k.2.2)
        (apply_resource k (without_status u)).

Fixpoint apply_all (ns : string) (t : MaasTenantConfig) (appNs : string) (mcfg : Config)
    (objs : list (rkey * resource)) : pprog () :=
  match objs with
  | [] => mret (Ok ())
  | (k, u) :: objs =>
      _ ←? apply_one ns t appNs mcfg k u;
      apply_all ns t appNs mcfg objs
  end.
(** [src/maas-controller/pkg/platform/tenantreconcile/apply.go:21-86] ApplyRendered. *)
Definition ApplyRendered (ns : string) (t : MaasTenantConfig) (appNs : string) (mcfg : Config)
    (objs : list (rkey * resource)) : pprog () :=
  if an_UID mcfg == "" then mret (Err (ErrOther "config with UID is required for platform apply"))
  else apply_all ns t appNs mcfg objs.
End apply.

(** ** The pipeline *)

(** [src/maas-controller/pkg/platform/tenantreconcile/pipeline.go:25-32] RunResult. *)
Record RunResult : Type := mkRun {
  DeploymentPending : bool;
  Detail : string;
  run_Warnings : list string;
}.

Section pipeline.
Context {api : ApiMachinery} {srv : ApiServer} {tsrv : TenantServer} {psrv : PlatformServer}.
Context {rnd : Renderer} {uni : Unicode}.

(** A gateway has Kuadrant's EnvoyFilter or WasmPlugin.
    [src/maas-controller/pkg/platform/tenantreconcile/gateway_auth.go:24-51] gatewayHasKuadrantWasmAuth. *)
Definition gatewayHasKuadrantWasmAuth (gatewayNamespace gatewayName : string) : pprog bool :=
  let k := (gatewayNamespace, "kuadrant-" +:+ gatewayName) in
  let name := k.1 +:+ "/" +:+ k.2 in
  ef ← get_resource ("EnvoyFilter", k);
  match ef with
  | Ok _ => mret (Ok true)
  | Err NotFound =>
      wp ← get_resource ("WasmPlugin", k);
      mret match wp with
           | Ok _ => Ok true
           | Err e =>
               if (match e with NotFound => true | _ => false end) || is_forbidden e then Ok false
               else Err (In ("get WasmPlugin " +:+ name) (ErrApi e))
           end
  | Err e => mret (Err (In ("get EnvoyFilter " +:+ name) (ErrApi e)))
  end.

(** [src/maas-controller/pkg/platform/tenantreconcile/pipeline.go:300-330] cleanupPayloadProcessingHPA. *)
Definition cleanupPayloadProcessingHPA (p : PlatformParams) : pprog () :=
  if p_PayloadProcessingAutoscaling p then mret (Ok ())
  else
    let k := (p_GatewayNamespace p, PayloadProcessingDeploymentName (p_TenantIdentifier p)) in
    let name := k.1 +:+ "/" +:+ k.2 in
    hpa ← get_resource ("HorizontalPodAutoscaler", k);
    match hpa with
    | Err NotFound => mret (Ok ())
    | Err e => mret (Err (In ("get HPA " +:+ name) (ErrApi e)))
    | Ok _ =>
        in_context ("delete HPA " +:+ name)
          (unless_missing (delete_resource ("HorizontalPodAutoscaler", k)))
    end.

(** [src/maas-controller/pkg/platform/tenantreconcile/pipeline.go:183-183] maasParametersConfigMapName. *)
Definition maasParametersConfigMapName : string := "maas-parameters".
Definition config_map_value (key : string) (x : resource) : string :=
  default "" (get_map "data" (rs_Object x) ≫= get_string key).
(** [src/maas-controller/pkg/platform/tenantreconcile/pipeline.go:199-207] syncMaaSParametersConfigMap. *)
Definition with_config_map_value (key v : string) (x : resource) : resource :=
  let data := default [] (get_map "data" (rs_Object x)) in
  mkResource (rs_Labels x) (rs_Annotations x) (rs_Owners x) (rs_Generation x)
    (("data", VMap ((key, VString v) :: List.filter (λ kv : string * value, kv.1 != key) data))
     :: List.filter (λ kv : string * value, kv.1 != "data") (rs_Object x))
    (rs_Finalizers x) (rs_deleting x).

(** [retry.RetryOnConflict] with its five steps. *)
Fixpoint retry_on_conflict (steps : nat) (m : prog platform (result api_error ()))
    : prog platform (result api_error ()) :=
  match steps with
  | O => mret (Ok ())
  | S steps =>
      r ← m;
      match r with
      | Err e => if is_conflict e && negb (steps =? 0) then retry_on_conflict steps m
                 else mret (Err e)
      | Ok _ => mret (Ok ())
      end
  end.

(** [src/maas-controller/pkg/platform/tenantreconcile/pipeline.go:185-217] syncMaaSParametersConfigMap. *)
Definition syncMaaSParametersConfigMap (namespace : string) (p : PlatformParams) : pprog () :=
  let k := ("ConfigMap", (namespace, maasParametersConfigMapName)) in
  let days := "api-key-max-expiration-days" in
  cm ← get_resource k;
  match cm with
  | Err NotFound => mret (Ok ())
  | Err e => mret (Err (In "get maas-parameters ConfigMap" (ErrApi e)))
  | Ok cm =>
      if config_map_value days cm == p_APIKeyMaxExpirationDays p then mret (Ok ())
      else
        r ← retry_on_conflict 5
              (latest ← get_resource k;
               match latest with
               | Err e => mret (Err e)
               | Ok latest =>
                   update_resource k (with_config_map_value days (p_APIKeyMaxExpirationDays p) latest)
               end);
        mret match r with Ok _ => Ok () | Err e => Err (ErrApi e) end
  end.

(** The field of a Deployment, zero when it is not there. *)
Definition count_at (o : obj) (section field : string) : Z :=
  default 0%Z (get_map section o ≫= get_int64 field).

(** Whether it has been rolled out, and why not.
    [src/maas-controller/pkg/platform/tenantreconcile/pipeline.go:230-243] MaasAPIDeploymentReady. *)
Definition rolled_out (dep : resource) : bool * string :=
  let desired := default 1%Z (get_map "spec" (rs_Object dep) ≫= get_int64 "replicas") in
  let of_status := count_at (rs_Object dep) "status" in
  if (of_status "observedGeneration" <? rs_Generation dep)%Z then
    (false, "waiting for deployment spec to be observed")
  else if (of_status "updatedReplicas" <? desired)%Z then
    (false, "updated replicas " +:+ pretty (of_status "updatedReplicas") +:+ "/" +:+ pretty desired)
  else if (of_status "availableReplicas" <? desired)%Z then
    (false, "available replicas " +:+ pretty (of_status "availableReplicas") +:+ "/" +:+ pretty desired)
  else (true, "").

(** [src/maas-controller/pkg/platform/tenantreconcile/pipeline.go:219-244] MaasAPIDeploymentReady. *)
Definition MaasAPIDeploymentReady (appNamespace tenantID : string) : pprog (bool * string) :=
  let name := MaaSAPIDeploymentName tenantID in
  dep ← get_resource ("Deployment", (appNamespace, name));
  mret match dep with
       | Err NotFound => Ok (false, "deployment " +:+ appNamespace +:+ "/" +:+ name +:+ " not found")
       | Err e => Err (ErrApi e)
       | Ok dep => Ok (rolled_out dep)
       end.

Definition gatewayNameLabel : string := "gateway.networking.k8s.io/gateway-name".

(** What an EnvoyFilter says of its priority and of the gateway it is for.
    [src/maas-controller/pkg/platform/tenantreconcile/pipeline.go:266-297] PayloadProcessingEnvoyFilterReady. *)
Definition filter_wired (name gatewayName : string) (o : obj) : result error (bool * string) :=
  let ef := "EnvoyFilter " +:+ name in
  match NestedInt64 o ["spec"; "priority"] with
  | NestedErr e => Err (In "read EnvoyFilter priority" (ErrOther e))
  | priority =>
      let shown := match found priority with Some p => pretty p | None => "missing" end in
      if match found priority with
         | Some p => (p <? PayloadProcessingEnvoyFilterPriority)%Z
         | None => true
         end
      then Ok (false, ef +:+ " spec.priority=" +:+ shown +:+ "; need >= "
                 +:+ pretty PayloadProcessingEnvoyFilterPriority
                 +:+ " so HTTP_FILTER inserts apply after Kuadrant wasm "
                 +:+ "(otherwise body-routed /v1/* returns 404 NR)")
      else
        match NestedStringMap o ["spec"; "workloadSelector"; "labels"] with
        | NestedErr e => Err (In "read EnvoyFilter workloadSelector" (ErrOther e))
        | labels =>
            let got := at_key (default ∅ (found labels)) gatewayNameLabel in
            let selector := ef +:+ " workloadSelector.labels[" +:+ Quote gatewayNameLabel +:+ "]" in
            if got == "" then
              Ok (false, ef +:+ " has no workloadSelector.labels[" +:+ Quote gatewayNameLabel +:+ "]")
            else if got != gatewayName then
              Ok (false, selector +:+ "=" +:+ Quote got +:+ "; expected gateway " +:+ Quote gatewayName)
            else Ok (true, "")
        end
  end.

(** [src/maas-controller/pkg/platform/tenantreconcile/pipeline.go:246-298] PayloadProcessingEnvoyFilterReady. *)
Definition PayloadProcessingEnvoyFilterReady (gatewayNamespace gatewayName tenantID : string)
    : pprog (bool * string) :=
  let efName := PayloadProcessingDeploymentName tenantID in
  let name := gatewayNamespace +:+ "/" +:+ efName in
  ef ← get_resource ("EnvoyFilter", (gatewayNamespace, efName));
  mret match ef with
       | Err NotFound =>
           Ok (false, "EnvoyFilter " +:+ name
             +:+ " not found — ext_proc will not run; body-routed /v1/* returns 404 NR")
       | Err e => Err (ErrApi e)
       | Ok ef => filter_wired name gatewayName (rs_Object ef)
       end.

(** Where things are, and how they are rendered. *)
Record PlatformSettings : Type := mkSettings {
  pl_ManifestPath : string;
  pl_AppNamespace : string;
  pl_ControllerNamespace : string;
  pl_ClusterAudience : string;
  pl_MonitoringNamespace : string;
  pl_images : images;
}.

Definition set_RouterExtProcFallback (b : bool) (p : PlatformParams) : PlatformParams :=
  mkParams (p_AppNamespace p) (p_ControllerNamespace p) (p_GatewayNamespace p) (p_GatewayName p)
    (p_ClusterAudience p) (p_SubscriptionNamespace p) (p_ExternalOIDC p) (p_TenantIdentifier p)
    (p_MaaSAPIImage p) (p_PayloadProcessingImage p) (p_MaaSAPIKeyCleanupImage p)
    (p_APIKeyMaxExpirationDays p) (p_MaaSAPIReplicas p) (p_MaaSAPIResources p)
    (p_PayloadProcessingReplicas p) (p_PayloadProcessingAutoscaling p)
    (p_PayloadProcessingMaxReplicas p) (p_PayloadProcessingTargetCPU p)
    (p_PayloadProcessingTargetMemory p) (p_MonitoringNamespace p) b
    (p_PayloadProcessingResources p) (p_Warnings p).

(** A result of the renderer, its error in a context. *)
Definition rendered {A} (context : string) (x : result string A) : result error A :=
  match x with Ok a => Ok a | Err e => Err (In context (ErrOther e)) end.

(** What there is to apply: the rendered objects, with the parameters.
    [src/maas-controller/pkg/platform/tenantreconcile/pipeline.go:60-103] RunPlatform. *)
Definition render (s : PlatformSettings) (ns : string) (t : MaasTenantConfig)
    (context : PlatformContext) : pprog (PlatformParams * list (rkey * resource)) :=
  let gateway := pc_GatewayRef context in
  let gatewayKey := (g_Namespace gateway, g_Name gateway) in
  let gatewayText := g_Namespace gateway +:+ "/" +:+ g_Name gateway in
  manifestPath ←? mret (rendered "manifest path" (filepath_Abs (pl_ManifestPath s)));
  let errs := IsDNS1123Subdomain (pl_AppNamespace s) in
  if 0 <? length errs then
    mret (Err (ErrOther ("invalid application namespace " +:+ Quote (pl_AppNamespace s) +:+ ": "
      +:+ show_list errs)))
  else if (g_Namespace gateway == "") || (g_Name gateway == "") then
    mret (Err (ErrOther "gateway ref must be set before calling RunPlatform"))
  else
    gw ← on_cluster (get_in gateways gatewayKey);
    match gw with
    | Err NotFound => mret (Err (ErrOther ("gateway " +:+ gatewayText +:+ " not found")))
    | Err e => mret (Err (In "gateway lookup" (ErrApi e)))
    | Ok _ =>
        params ←? mret (rendered "build params"
          (BuildPlatformParams (pl_images s) ns (tenant_meta t) (tc_Spec t) context
             (pl_AppNamespace s) (pl_ControllerNamespace s) (pl_ClusterAudience s)
             (pl_MonitoringNamespace s)));
        wasmPresent ← gatewayHasKuadrantWasmAuth (g_Namespace gateway) (g_Name gateway);
        match wasmPresent with
        | Err e => mret (Err (In "detect gateway kuadrant wasm" e))
        | Ok wasmPresent =>
            let params := set_RouterExtProcFallback (negb wasmPresent) params in
            objs ←? mret (rendered "kustomize" (RenderKustomize manifestPath (pl_AppNamespace s)));
            resources ←? mret (rendered "post-render" (PostRender ns t objs params));
            mret (Ok (params, resources))
        end
    end.

(** An error in a context. *)
Definition wrap {A} (context : string) (m : pprog A) : pprog A :=
  r ← m; mret match r with Ok x => Ok x | Err e => Err (In context e) end.

(** Whether all is available.
    [src/maas-controller/pkg/platform/tenantreconcile/pipeline.go:121-139] RunPlatform. *)
Definition availability (s : PlatformSettings) (ns : string) (t : MaasTenantConfig)
    (p : PlatformParams) : pprog RunResult :=
  tenantID ←? mret (rendered "resolve tenant identifier" (TenantIdentifierFor ns (tenant_meta t)));
  deployment ←? wrap "deployment status" (MaasAPIDeploymentReady (pl_AppNamespace s) tenantID);
  if negb deployment.1 then mret (Ok (mkRun true deployment.2 (p_Warnings p)))
  else
    wired ←? wrap "payload-processing EnvoyFilter status"
      (PayloadProcessingEnvoyFilterReady (p_GatewayNamespace p) (p_GatewayName p) tenantID);
    if negb wired.1 then mret (Ok (mkRun true wired.2 (p_Warnings p)))
    else mret (Ok (mkRun false "" (p_Warnings p))).

(** [src/maas-controller/pkg/platform/tenantreconcile/pipeline.go:44-140] RunPlatform. *)
Definition RunPlatform (s : PlatformSettings) (ns : string) (t : MaasTenantConfig)
    (context : PlatformContext) (mcfg : Config) : pprog RunResult :=
  to_apply ←? render s ns t context;
  let '(params, resources) := to_apply in
  _ ←? wrap "cleanup payload-processing HPA" (cleanupPayloadProcessingHPA params);
  _ ←? wrap "apply" (ApplyRendered ns t (pl_AppNamespace s) mcfg resources);
  _ ←? wrap "sync maas-parameters ConfigMap"
         (syncMaaSParametersConfigMap (pl_AppNamespace s) params);
  availability s ns t params.
End pipeline.
End Platform.
