(* ===== verification/Manifests.v ===== *)
(** Rendered manifests: what kustomize builds and the namespaces and labels it is
    given, and how the documents of workloads are changed.
    [src/maas-controller/pkg/platform/tenantreconcile/kustomize.go] and the helpers of
    [params.go]. *)
From S2P Require Import Prelude GoStrings Unstructured GoFmt MaasTypes Cluster ControllerHelpers.
From S2P Require Import TenantCluster AITenantParts PlatformParams Platform.
Import Infra Params Cluster Helpers Fmt Platform.

Module Manifests.

(** A rendered object: its kind, namespace and name, and the rest. *)
Abbreviation rendered := (rkey * resource)%type.

(** [if err != nil { return err }], errors being texts. *)
#[export] Instance result_ret : MRet (result string) := λ A x, Ok x.
#[export] Instance result_bind : MBind (result string) := λ A B f x,
  match x with Ok a => f a | Err e => Err e end.
(** [fmt.Errorf("context: %w", err)]. *)
Definition wrapped {A} (context : string) (x : result string A) : result string A :=
  match x with Ok a => Ok a | Err e => Err (context +:+ ": " +:+ e) end.

(** ** Documents *)

(** [m[k] = v] and [delete(m, k)]. *)
Fixpoint map_put (k : string) (v : value) (m : gomap) : gomap :=
  match m with
  | [] => [(k, v)]
  | (k', v') :: m => if k' == k then (k, v) :: m else (k', v') :: map_put k v m
  end.
Definition map_remove (k : string) (m : gomap) : gomap :=
  List.filter (λ kv : string * value, kv.1 != k) m.

(** The setters of [unstructured], which make the maps on the way and fail at
    anything else; and the integer that a floating-point literal is, if it is one. *)
Class NestedWriter : Type := {
  SetNestedField : gomap → value → list string → result string gomap;
  SetNestedSlice : gomap → list value → list string → result string gomap;
  SetNestedStringMap : gomap → gmap string string → list string → result string gomap;
  RemoveNestedField : gomap → list string → gomap;
  integral : string → option Z;
}.

(** The keys of a Go map in some order. *)
Definition string_map (m : gmap string string) : value :=
  VMap ((λ kv : string * string, (kv.1, VString kv.2)) <$> map_to_list m).

Definition SetName (name : string) (r : rendered) : rendered := ((r.1.1, (r.1.2.1, name)), r.2).
Definition SetNamespace (ns : string) (r : rendered) : rendered := ((r.1.1, (ns, r.1.2.2)), r.2).
Definition set_Object (o : obj) (r : rendered) : rendered :=
  (r.1, mkResource (rs_Labels r.2) (rs_Annotations r.2) (rs_Owners r.2) (rs_Generation r.2) o
          (rs_Finalizers r.2) (rs_deleting r.2)).
Definition set_Labels (f : gmap string string → gmap string string) (r : rendered) : rendered :=
  (r.1, mkResource (f (rs_Labels r.2)) (rs_Annotations r.2) (rs_Owners r.2) (rs_Generation r.2)
          (rs_Object r.2) (rs_Finalizers r.2) (rs_deleting r.2)).

(** A change of the document. *)
Definition on_object (f : obj → result string obj) (r : rendered) : result string rendered :=
  o ← f (rs_Object r.2); mret (set_Object o r).

(** What is documented of them: the getters read the document by type; what is set is
    read, what a path does not meet is kept, and the setters of lists and of maps of
    strings set a field. *)
Fixpoint apart (p q : list string) : bool :=
  match p, q with k :: p, k' :: q => (k != k') || apart p q | _, _ => false end.
Class LawfulNested {api : ApiMachinery} {psrv : PlatformServer} {wr : NestedWriter} : Prop := {
  string_reads m p : NestedString m p = DocApi.typed as_string m p;
  int64_reads m p : NestedInt64 m p = DocApi.typed as_int64 m p;
  slice_reads m p : NestedSlice m p = DocApi.typed as_slice m p;
  string_map_reads m p : NestedStringMap m p = DocApi.typed DocApi.as_string_map m p;
  field_set m v p m' : SetNestedField m v p = Ok m' → DocApi.walk m' p = Found v;
  field_kept m v p m' q : SetNestedField m v p = Ok m' → apart p q = true →
    DocApi.walk m' q = DocApi.walk m q;
  removed_kept m p q : apart p q = true → DocApi.walk (RemoveNestedField m p) q = DocApi.walk m q;
  removed_gone m p : p ≠ [] → found (DocApi.walk (RemoveNestedField m p) p) = None;
  slice_set m l p : SetNestedSlice m l p = SetNestedField m (VSlice l) p;
  string_map_set m s p : SetNestedStringMap m s p = SetNestedField m (string_map s) p;
}.

(** ** What kustomize builds *)

(** Which files there are, and what a directory builds; paths are the elements
    that are joined. *)
Class Kustomize : Type := {
  fileExists : list string → bool;
  kustomize_Run : list string → result string (list rendered);
}.

(** [src/maas-controller/pkg/platform/tenantreconcile/kustomize.go:17-20] overlayDefaultNamespace. *)
Definition overlayDefaultNamespace : string := "opendatahub".
(** [src/maas-controller/pkg/platform/tenantreconcile/kustomize.go:65-65] maasAPIMetricsServiceMonitorName. *)
Definition maasAPIMetricsServiceMonitorName : string := "maas-api-metrics".

(** [src/maas-controller/pkg/platform/tenantreconcile/kustomize.go:54-63] resolveKustomizationPath. *)
Definition resolveKustomizationPath {kust : Kustomize} {uni : Unicode} (manifestDir : string)
    : result string (list string) :=
  if fileExists [manifestDir; "kustomization.yaml"] then Ok [manifestDir]
  else if fileExists [manifestDir; "default"; "kustomization.yaml"] then Ok [manifestDir; "default"]
  else Err ("kustomization.yaml not found under " +:+ Quote manifestDir).

(** A subject of the default namespace.
    [src/maas-controller/pkg/platform/tenantreconcile/kustomize.go:138-147] remapSubjectNamespaces. *)
Definition remap_subject (appNamespace : string) (s : value) : value :=
  match s with
  | VMap subj =>
      if get_string "namespace" subj == Some overlayDefaultNamespace
      then VMap (map_put "namespace" (VString appNamespace) subj) else s
  | _ => s
  end.
(** [src/maas-controller/pkg/platform/tenantreconcile/kustomize.go:118-164] remapSubjectNamespaces. *)
Definition remapSubjectNamespaces (appNamespace : string) (r : rendered) : rendered :=
  if negb ((r.1.1 == "ClusterRoleBinding") || (r.1.1 == "RoleBinding")) then r
  else
    match get_slice "subjects" (rs_Object r.2) with
    | None => r
    | Some subjects =>
        set_Object (map_put "subjects" (VSlice (remap_subject appNamespace <$> subjects))
                      (rs_Object r.2)) r
    end.

(** [src/maas-controller/pkg/platform/tenantreconcile/kustomize.go:166-217] remapServiceMonitorServerName. *)
Definition remapServiceMonitorServerName (appNamespace : string) (r : rendered) : rendered :=
  if negb ((r.1.1 == "ServiceMonitor") && (r.1.2.2 == maasAPIMetricsServiceMonitorName)) then r
  else
    match get_map "spec" (rs_Object r.2) with
    | None => r
    | Some spec =>
        match get_slice "endpoints" spec with
        | Some (VMap ep :: endpoints) =>
            match get_map "tlsConfig" ep with
            | None => r
            | Some tlsCfg =>
                let want := maasAPIMetricsServiceMonitorName +:+ "." +:+ appNamespace +:+ ".svc" in
                let ep := map_put "tlsConfig" (VMap (map_put "serverName" (VString want) tlsCfg)) ep in
                set_Object (map_put "spec" (VMap (map_put "endpoints" (VSlice (VMap ep :: endpoints)) spec))
                              (rs_Object r.2)) r
            end
        | _ => r
        end
    end.

(** [src/maas-controller/pkg/platform/tenantreconcile/kustomize.go:77-80] postBuildTransform. *)
Definition component_labels (labels : gmap string string) : gmap string string :=
  <["app.kubernetes.io/part-of" := "models-as-a-service"]>
    (<["app.opendatahub.io/" +:+ Tenant.ComponentName := "true"]> labels).

(** One object.
    [src/maas-controller/pkg/platform/tenantreconcile/kustomize.go:82-114] postBuildTransform. *)
Definition transform_one (appNamespace : string) (r : rendered) : rendered :=
  let r :=
    if appNamespace == "" then r
    else
      let r := if r.1.2.1 == overlayDefaultNamespace then SetNamespace appNamespace r else r in
      let r := remapSubjectNamespaces appNamespace r in
      if appNamespace != overlayDefaultNamespace
      then remapServiceMonitorServerName appNamespace r else r in
  set_Labels component_labels r.
(** [src/maas-controller/pkg/platform/tenantreconcile/kustomize.go:67-116] postBuildTransform. *)
Definition postBuildTransform (resources : list rendered) (appNamespace : string) : list rendered :=
  transform_one appNamespace <$> resources.

(** Integers are of one type here, so nothing is normalized.
    [src/maas-controller/pkg/platform/tenantreconcile/kustomize.go:22-52] RenderKustomize. *)
Definition RenderKustomize {kust : Kustomize} {uni : Unicode} (manifestDir appNamespace : string)
    : result string (list rendered) :=
  path ← resolveKustomizationPath manifestDir;
  match kustomize_Run path with
  | Err e => Err ("kustomize build " +:+ Quote (GoStrings.join "/" path) +:+ ": " +:+ e)
  | Ok built => Ok (postBuildTransform built appNamespace)
  end.

(** ** Containers *)

Definition pod_path : list string := ["spec"; "template"; "spec"].
Definition containers_path : list string := pod_path ++ ["containers"].
Definition job_containers_path : list string :=
  ["spec"; "jobTemplate"; "spec"; "template"; "spec"; "containers"].

(** The first element that is a map with a name is changed. *)
Fixpoint update_named (name : string) (f : gomap → gomap) (l : list value) : option (list value) :=
  match l with
  | [] => None
  | v :: l =>
      match v with
      | VMap m =>
          if get_string "name" m == Some name then Some (VMap (f m) :: l)
          else cons v <$> update_named name f l
      | _ => cons v <$> update_named name f l
      end
  end.

Section documents.
Context {api : ApiMachinery} {psrv : PlatformServer} {wr : NestedWriter} {uni : Unicode}.

Definition update_container (path : list string) (name : string) (f : gomap → gomap) (o : obj)
    : result string obj :=
  match NestedSlice o path with
  | Found containers =>
      match update_named name f containers with
      | Some containers => SetNestedSlice o containers path
      | None => Err ("container " +:+ Quote name +:+ " not found")
      end
  | _ => Err "containers not found"
  end.

(** [src/maas-controller/pkg/platform/tenantreconcile/params.go:1212-1225] setContainerImage. *)
Definition setContainerImage (containerName image : string) : obj → result string obj :=
  update_container containers_path containerName (map_put "image" (VString image)).
(** [src/maas-controller/pkg/platform/tenantreconcile/params.go:1291-1304] setCronJobContainerImage. *)
Definition setCronJobContainerImage (containerName image : string) : obj → result string obj :=
  update_container job_containers_path containerName (map_put "image" (VString image)).

(** A quantity list, unless it is nil. *)
Definition quantities (key : string) (m : option (gmap string string)) (res : gomap) : gomap :=
  match m with None => res | Some m => map_put key (string_map m) res end.
(** [src/maas-controller/pkg/platform/tenantreconcile/params.go:1177-1210] setContainerResources. *)
Definition setContainerResources (containerName : string) (res : TenantResourceRequirements)
    : obj → result string obj :=
  update_container containers_path containerName
    (map_put "resources"
       (VMap (quantities "limits" (rr_Limits res) (quantities "requests" (rr_Requests res) [])))).

(** [src/maas-controller/pkg/platform/tenantreconcile/params.go:1241-1255] setContainerArg. *)
Fixpoint put_arg (prefix arg : string) (args : list value) : list value :=
  match args with
  | [] => [VString arg]
  | a :: args =>
      match a with
      | VString s =>
          if (s == prefix) || has_prefix s (prefix +:+ "=") then VString arg :: args
          else a :: put_arg prefix arg args
      | _ => a :: put_arg prefix arg args
      end
  end.
(** [src/maas-controller/pkg/platform/tenantreconcile/params.go:1227-1260] setContainerArg. *)
Definition setContainerArg (containerName arg : string) : obj → result string obj :=
  let prefix := match cut "="%char arg with Some (before, _) => before | None => arg end in
  update_container containers_path containerName (λ cm,
    map_put "args" (VSlice (put_arg prefix arg (default [] (get_slice "args" cm)))) cm).

(** [src/maas-controller/pkg/platform/tenantreconcile/params.go:1272-1284] setOrAddEnvVar. *)
Definition put_env (envName envValue : string) (env : list value) : list value :=
  default (env ++ [VMap [("name", VString envName); ("value", VString envValue)]])
    (update_named envName (λ em, map_remove "valueFrom" (map_put "value" (VString envValue) em)) env).
(** [src/maas-controller/pkg/platform/tenantreconcile/params.go:1262-1289] setOrAddEnvVar. *)
Definition setOrAddEnvVar (containerName envName envValue : string) : obj → result string obj :=
  update_container containers_path containerName (λ cm,
    map_put "env" (VSlice (put_env envName envValue (default [] (get_slice "env" cm)))) cm).

(** ** Labels, selectors and volumes *)

Definition add_label (what : string) (path : list string) (key v : string) (o : obj)
    : result string obj :=
  match NestedStringMap o path with
  | NestedErr e => Err (what +:+ ": " +:+ e)
  | labels => SetNestedStringMap o (<[key := v]> (default ∅ (found labels))) path
  end.
(** [src/maas-controller/pkg/platform/tenantreconcile/params.go:1306-1318] addPodTemplateLabel. *)
Definition addPodTemplateLabel : string → string → obj → result string obj :=
  add_label "read pod template labels" ["spec"; "template"; "metadata"; "labels"].
(** [src/maas-controller/pkg/platform/tenantreconcile/params.go:1332-1344] addServiceSelectorLabel. *)
Definition addServiceSelectorLabel : string → string → obj → result string obj :=
  add_label "read service selector" ["spec"; "selector"].
(** [src/maas-controller/pkg/platform/tenantreconcile/params.go:1320-1322] setDeploymentSelectorMatchLabels. *)
Definition setDeploymentSelectorMatchLabels (labels : gmap string string) (o : obj)
    : result string obj := SetNestedStringMap o labels ["spec"; "selector"; "matchLabels"].
(** [src/maas-controller/pkg/platform/tenantreconcile/params.go:1324-1326] setServiceSelectorMatchLabels. *)
Definition setServiceSelectorMatchLabels (labels : gmap string string) (o : obj)
    : result string obj := SetNestedStringMap o labels ["spec"; "selector"].
(** [src/maas-controller/pkg/platform/tenantreconcile/params.go:1328-1330] patchDeploymentServiceAccountName. *)
Definition patchDeploymentServiceAccountName (serviceAccountName : string) (o : obj)
    : result string obj :=
  SetNestedField o (VString serviceAccountName) (pod_path ++ ["serviceAccountName"]).

(** The first volume of a name has a field set, if there is such a volume. *)
Fixpoint set_volume (name : string) (v : value) (path : list string) (volumes : list value)
    : option (result string (list value)) :=
  match volumes with
  | [] => None
  | vol :: volumes =>
      match vol with
      | VMap m =>
          if default "" (found (NestedString m ["name"])) == name
          then Some (m ← SetNestedField m v path; mret (VMap m :: volumes))
          else option_map (λ r : result string (list value), l ← r; mret (vol :: l))
            (set_volume name v path volumes)
      | _ => option_map (λ r : result string (list value), l ← r; mret (vol :: l))
            (set_volume name v path volumes)
      end
  end.

(** [src/maas-controller/pkg/platform/tenantreconcile/params.go:1346-1370] patchConfigMapVolumeRef. *)
Definition patchConfigMapVolumeRef (volumeName configMapName : string) (o : obj)
    : result string obj :=
  match NestedSlice o (pod_path ++ ["volumes"]) with
  | NestedErr e => Err ("read pod volumes: " +:+ e)
  | Unstructured.NotFound => Ok o
  | Found volumes =>
      match set_volume volumeName (VString configMapName) ["configMap"; "name"] volumes with
      | None => Ok o
      | Some (Err e) => Err ("write volume " +:+ Quote volumeName +:+ " configMap name: " +:+ e)
      | Some (Ok volumes) => SetNestedSlice o volumes (pod_path ++ ["volumes"])
      end
  end.
End documents.
End Manifests.
