(* ===== verification/Rendering.v ===== *)
(** How the rendered manifests are made those of a tenant: names, namespaces,
    images, environment, selectors, routes and filters, and what is added to them.
    [src/maas-controller/pkg/platform/tenantreconcile/params.go] and
    [src/maas-controller/pkg/platform/tenantreconcile/postrender.go]. *)
From S2P Require Import Prelude GoStrings Unstructured GoFmt MaasTypes Cluster ControllerHelpers.
From S2P Require Import TenantCluster AITenantParts PlatformParams Platform Manifests.
From stdpp Require Import pretty.
Import Infra Params Cluster Helpers Fmt Platform Manifests.

Module Rendering.

(** [src/maas-controller/pkg/platform/tenantreconcile/constants.go:102-102] baseMaaSAPIDeploymentNSNetworkPolicyName. *)
Definition baseMaaSAPIDeploymentNSNetworkPolicyName : string := "maas-api-allow-deployment-ns".
(** [src/maas-controller/pkg/platform/tenantreconcile/constants.go:103-103] baseMaaSAPIServingCertName. *)
Definition baseMaaSAPIServingCertName : string := "maas-api-serving-cert".
(** [src/maas-controller/pkg/platform/tenantreconcile/constants.go:256-258] MaaSAPIServingCertName. *)
Definition MaaSAPIServingCertName (tenantID : string) : string :=
  resourceNameForTenant baseMaaSAPIServingCertName tenantID.
(** [src/maas-controller/pkg/platform/tenantreconcile/constants.go:115-116] LabelTenantInstance. *)
Definition LabelTenantInstance : string := "maas.opendatahub.io/tenant-instance".
(** [src/maas-controller/pkg/platform/tenantreconcile/constants.go:74-75] DefaultOTLPCollectorService. *)
Definition DefaultOTLPCollectorService : string := "data-science-collector-collector".
(** [src/maas-controller/pkg/platform/tenantreconcile/constants.go:82-83] DefaultOTLPCollectorPort. *)
Definition DefaultOTLPCollectorPort : Z := 4317.

Definition rhclWasmFilterName : string := "envoy.filters.http.wasm".
Definition routerFilterName : string := "envoy.filters.http.router".
(** [src/maas-controller/pkg/platform/tenantreconcile/params.go:987-989] wasmpluginAnchorName. *)
Definition wasmpluginAnchorName (gatewayNamespace gatewayName : string) : string :=
  "extensions.istio.io/wasmplugin/" +:+ gatewayNamespace +:+ ".kuadrant-" +:+ gatewayName.
(** [src/maas-controller/pkg/platform/tenantreconcile/params.go:991-993] grpcClusterName. *)
Definition grpcClusterName (service namespace : string) (port : Z) : string :=
  "outbound|" +:+ pretty port +:+ "||" +:+ service +:+ "." +:+ namespace +:+ ".svc.cluster.local".
(** [src/maas-controller/pkg/platform/tenantreconcile/params.go:862-867] payloadProcessingOTLPEndpoint. *)
Definition payloadProcessingOTLPEndpoint (monitoringNamespace : string) : string :=
  if monitoringNamespace == "" then ""
  else "http://" +:+ DefaultOTLPCollectorService +:+ "." +:+ monitoringNamespace +:+ ".svc:"
       +:+ pretty DefaultOTLPCollectorPort.

(** [strings.Contains] and [strings.ReplaceAll]. *)
Fixpoint contains_text (s t : string) : bool :=
  has_prefix s t || match s with EmptyString => false | String _ s => contains_text s t end.
Fixpoint replaced (old new : string) (skip : nat) (s : string) : string :=
  match s with
  | EmptyString => ""
  | String a s' =>
      match skip with
      | S skip => replaced old new skip s'
      | O => if has_prefix s old then new +:+ replaced old new (String.length old - 1) s'
             else String a (replaced old new 0 s')
      end
  end.
Definition ReplaceAll (s old new : string) : string := replaced old new 0 s.

Section patches.
Context {api : ApiMachinery} {psrv : PlatformServer} {wr : NestedWriter} {uni : Unicode}.
Context (params : PlatformParams).
Abbreviation tenantID := (p_TenantIdentifier params).

Definition numbered (what : string) (i : nat) (after : string) : string :=
  what +:+ "[" +:+ pretty i +:+ "]" +:+ after.

(** ** Network policies and certificates *)

(** [src/maas-controller/pkg/platform/tenantreconcile/params.go:450-480] patchDeploymentNSNetworkPolicy. *)
Definition patchDeploymentNSNetworkPolicy (o : obj) : result string obj :=
  let ns := p_ControllerNamespace params in
  if ns == "" then Ok o
  else
    match NestedSlice o ["spec"; "ingress"] with
    | NestedErr e => Err e
    | Found (VMap rule :: ingress) =>
        match get_slice "from" rule with
        | Some (VMap peer :: from) =>
            match get_map "namespaceSelector" peer with
            | Some nsSelector =>
                let nsSelector := map_put "matchLabels"
                  (VMap [("kubernetes.io/metadata.name", VString ns)]) nsSelector in
                let peer := map_put "namespaceSelector" (VMap nsSelector) peer in
                let rule := map_put "from" (VSlice (VMap peer :: from)) rule in
                SetNestedSlice o (VMap rule :: ingress) ["spec"; "ingress"]
            | None => Ok o
            end
        | _ => Ok o
        end
    | _ => Ok o
    end.

(** [src/maas-controller/pkg/platform/tenantreconcile/params.go:482-509] patchMaaSAPIServingCert. *)
Definition patchMaaSAPIServingCert (r : rendered) : result string rendered :=
  let certName := MaaSAPIServingCertName tenantID in
  let serviceName := MaaSAPIServiceName tenantID in
  let host := serviceName +:+ "." +:+ p_AppNamespace params +:+ ".svc" in
  on_object (λ o,
    o ← wrapped "patch Certificate secretName"
          (SetNestedField o (VString certName) ["spec"; "secretName"]);
    wrapped "patch Certificate dnsNames"
      (SetNestedSlice o [VString host; VString (host +:+ ".cluster.local")] ["spec"; "dnsNames"]))
    (SetName certName r).

(** [src/maas-controller/pkg/platform/tenantreconcile/params.go:901-920] nestedPortNumber. *)
Definition nestedPortNumber (v : option value) : option Z :=
  match v with
  | Some (VInt z) => Some z
  | Some (VFloat literal) => integral literal
  | _ => None
  end.
(** [src/maas-controller/pkg/platform/tenantreconcile/params.go:945-956] patchNetworkPolicyOTLPEgress. *)
Definition has_otlp_port (rule : gomap) : bool :=
  existsb (λ port, match port with
    | VMap port => nestedPortNumber (map_get "port" port) == Some DefaultOTLPCollectorPort
    | _ => false
    end) (default [] (get_slice "ports" rule)).

(** The first rule with the port and a peer has the peer replaced.
    [src/maas-controller/pkg/platform/tenantreconcile/params.go:940-983] patchNetworkPolicyOTLPEgress. *)
Fixpoint egress_to (monitoringNamespace : string) (egress : list value) : option (list value) :=
  match egress with
  | [] => None
  | v :: egress =>
      let skip := option_map (cons v) (egress_to monitoringNamespace egress) in
      match v with
      | VMap rule =>
          if negb (has_otlp_port rule) then skip
          else
            match get_slice "to" rule with
            | Some (VMap peer :: to) =>
                let nsSelector := map_put "matchLabels"
                  (VMap [("kubernetes.io/metadata.name", VString monitoringNamespace)])
                  (default [] (get_map "namespaceSelector" peer)) in
                let podSelector := VMap [("matchLabels", VMap
                  [("app.kubernetes.io/name", VString DefaultOTLPCollectorService);
                   ("app.kubernetes.io/component", VString "opentelemetry-collector")])] in
                let peer := map_put "podSelector" podSelector
                  (map_put "namespaceSelector" (VMap nsSelector) peer) in
                Some (VMap (map_put "to" (VSlice (VMap peer :: to)) rule) :: egress)
            | _ => skip
            end
      | _ => skip
      end
  end.
(** [src/maas-controller/pkg/platform/tenantreconcile/params.go:929-985] patchNetworkPolicyOTLPEgress. *)
Definition patchNetworkPolicyOTLPEgress (monitoringNamespace : string) (o : obj)
    : result string obj :=
  if monitoringNamespace == "" then Ok o
  else
    match NestedSlice o ["spec"; "egress"] with
    | NestedErr e => Err ("read NetworkPolicy egress: " +:+ e)
    | Unstructured.NotFound => Err "NetworkPolicy egress rules not found"
    | Found egress =>
        match egress_to monitoringNamespace egress with
        | Some egress => SetNestedSlice o egress ["spec"; "egress"]
        | None => Err ("NetworkPolicy missing OTLP egress rule for port "
                    +:+ pretty DefaultOTLPCollectorPort)
        end
    end.

(** [src/maas-controller/pkg/platform/tenantreconcile/params.go:1147-1175] patchPayloadProcessingNetworkPolicy. *)
Definition patchPayloadProcessingNetworkPolicy (r : rendered) : result string rendered :=
  on_object (λ o,
    o ← wrapped "write NetworkPolicy podSelector"
          (SetNestedField o (VMap [("matchExpressions", VSlice [VMap
             [("key", VString LabelTenantInstance); ("operator", VString "In");
              ("values", VSlice [VString (PayloadProcessingDeploymentName tenantID);
                                 VString (PayloadPreProcessingDeploymentName tenantID)])]])])
             ["spec"; "podSelector"]);
    wrapped "patch OTLP egress namespace"
      (patchNetworkPolicyOTLPEgress (p_MonitoringNamespace params) o))
    (SetNamespace (p_GatewayNamespace params) r).

(** [src/maas-controller/pkg/platform/tenantreconcile/params.go:1126-1145] patchPayloadProcessingClusterRoleBinding. *)
Definition patchPayloadProcessingClusterRoleBinding (o : obj) : result string obj :=
  match NestedSlice o ["subjects"] with
  | NestedErr e => Err ("read ClusterRoleBinding subjects: " +:+ e)
  | Unstructured.NotFound | Found [] => Err "ClusterRoleBinding subjects not found"
  | Found (VMap subj :: subjects) =>
      let subj := map_put "name" (VString (PayloadProcessingDeploymentName tenantID))
        (map_put "namespace" (VString (p_GatewayNamespace params)) subj) in
      wrapped "write ClusterRoleBinding subjects"
        (SetNestedSlice o (VMap subj :: subjects) ["subjects"])
  | Found _ => Err "ClusterRoleBinding subjects[0] is not an object"
  end.

(** ** Workloads *)

(** Environment variables, one after the other.
    [src/maas-controller/pkg/platform/tenantreconcile/params.go:523-534] patchMaaSAPIDeployment. *)
Fixpoint set_environment (container : string) (env : list (string * string)) (o : obj)
    : result string obj :=
  match env with
  | [] => Ok o
  | (k, v) :: env =>
      o ← wrapped ("patch " +:+ k) (setOrAddEnvVar container k v o);
      set_environment container env o
  end.

Definition set_replicas (what : string) (n : option Z) (o : obj) : result string obj :=
  match n with
  | Some n => wrapped ("patch " +:+ what +:+ " replicas")
                (SetNestedField o (VInt n) ["spec"; "replicas"])
  | None => Ok o
  end.
Definition set_resources_of (container : string) (res : option TenantResourceRequirements) (o : obj)
    : result string obj :=
  match res with
  | Some res => wrapped ("patch " +:+ container +:+ " resources") (setContainerResources container res o)
  | None => Ok o
  end.

(** The name of a tenant in the database and in headers.
    [src/maas-controller/pkg/platform/tenantreconcile/params.go:548-553] patchMaaSAPIDeployment. *)
Definition tenant_name : string := if tenantID == "" then "models-as-a-service" else tenantID.

(** [src/maas-controller/pkg/platform/tenantreconcile/params.go:511-567] patchMaaSAPIDeployment. *)
Definition patchMaaSAPIDeployment (o : obj) : result string obj :=
  o ← set_replicas "maas-api" (p_MaaSAPIReplicas params) o;
  o ← wrapped "patch maas-api image" (setContainerImage "maas-api" (p_MaaSAPIImage params) o);
  o ← set_environment "maas-api"
        [("GATEWAY_NAMESPACE", p_GatewayNamespace params); ("GATEWAY_NAME", p_GatewayName params);
         ("MAAS_SUBSCRIPTION_NAMESPACE", p_SubscriptionNamespace params);
         ("API_KEY_MAX_EXPIRATION_DAYS", p_APIKeyMaxExpirationDays params)] o;
  o ← set_resources_of "maas-api" (p_MaaSAPIResources params) o;
  o ← set_environment "maas-api" [("TENANT_NAME", tenant_name)] o;
  wrapped "patch tenant-instance label"
    (addPodTemplateLabel LabelTenantInstance (MaaSAPIDeploymentName tenantID) o).

(** [src/maas-controller/pkg/platform/tenantreconcile/params.go:569-577] patchMaaSAPIService. *)
Definition patchMaaSAPIService (o : obj) : result string obj :=
  wrapped "patch tenant-instance selector"
    (addServiceSelectorLabel LabelTenantInstance (MaaSAPIDeploymentName tenantID) o).

(** [src/maas-controller/pkg/platform/tenantreconcile/params.go:869-899] patchPayloadProcessingTracing. *)
Definition patchPayloadProcessingTracing (o : obj) : result string obj :=
  if p_MonitoringNamespace params == "" then
    setContainerArg "payload-processing" "--tracing=false" o
  else
    let endpoint := payloadProcessingOTLPEndpoint (p_MonitoringNamespace params) in
    o ← wrapped "set --tracing=true" (setContainerArg "payload-processing" "--tracing=true" o);
    set_environment "payload-processing"
      [("OTEL_EXPORTER_OTLP_TRACES_ENDPOINT", endpoint); ("OTEL_EXPORTER_OTLP_ENDPOINT", endpoint);
       ("OTEL_TRACES_SAMPLER", "parentbased_traceidratio"); ("OTEL_TRACES_SAMPLER_ARG", "1.0")] o.

(** [src/maas-controller/pkg/platform/tenantreconcile/params.go:661-676] patchIPPDeploymentSelector. *)
Definition patchIPPDeploymentSelector (appLabel deploymentName : string) (o : obj)
    : result string obj :=
  if tenantID == "" then Ok o
  else setDeploymentSelectorMatchLabels
         {[ "app" := appLabel; LabelTenantInstance := deploymentName ]} o.

(** What both deployments of payload processing get.
    [src/maas-controller/pkg/platform/tenantreconcile/params.go:646-657] patchPreProcessingDeployment. *)
Definition patch_processing (appLabel deploymentName : string) (o : obj) : result string obj :=
  o ← wrapped "patch tenant-instance label" (addPodTemplateLabel LabelTenantInstance deploymentName o);
  o ← wrapped "patch deployment selector" (patchIPPDeploymentSelector appLabel deploymentName o);
  o ← wrapped "patch serviceAccountName"
        (patchDeploymentServiceAccountName (PayloadProcessingDeploymentName tenantID) o);
  wrapped "patch plugins ConfigMap volume"
    (patchConfigMapVolumeRef "plugins-config-volume"
       (PayloadProcessingPluginsConfigMapForTenant tenantID) o).

(** [src/maas-controller/pkg/platform/tenantreconcile/params.go:579-636] patchPayloadProcessingDeployment. *)
Definition patchPayloadProcessingDeployment (o : obj) : result string obj :=
  o ← (if p_PayloadProcessingAutoscaling params then Ok (RemoveNestedField o ["spec"; "replicas"])
       else set_replicas "payload-processing" (p_PayloadProcessingReplicas params) o);
  o ← wrapped "patch payload-processing image"
        (setContainerImage "payload-processing" (p_PayloadProcessingImage params) o);
  o ← set_environment "payload-processing"
        [("GATEWAY_NAMESPACE", p_GatewayNamespace params); ("GATEWAY_NAME", p_GatewayName params);
         ("TENANT_NAMESPACE", p_SubscriptionNamespace params)] o;
  o ← (if tenantID != "" then
         set_environment "payload-processing" [("DISABLE_EXTERNAL_MODEL_CONTROLLER", "true")] o
       else Ok o);
  o ← patch_processing PayloadProcessingName (PayloadProcessingDeploymentName tenantID) o;
  o ← wrapped "patch payload-processing tracing" (patchPayloadProcessingTracing o);
  set_resources_of "payload-processing" (p_PayloadProcessingResources params) o.

(** [src/maas-controller/pkg/platform/tenantreconcile/params.go:638-659] patchPreProcessingDeployment. *)
Definition patchPreProcessingDeployment (o : obj) : result string obj :=
  o ← (if p_PayloadProcessingImage params != "" then
         wrapped "patch payload-pre-processing image"
           (setContainerImage PayloadPreProcessingName (p_PayloadProcessingImage params) o)
       else Ok o);
  patch_processing PayloadPreProcessingName (PayloadPreProcessingDeploymentName tenantID) o.

(** [src/maas-controller/pkg/platform/tenantreconcile/params.go:678-689] patchPayloadProcessingService. *)
Definition patchPayloadProcessingService (o : obj) : result string obj :=
  wrapped "patch payload-processing service selector"
    (setServiceSelectorMatchLabels
       {[ "app" := PayloadProcessingName;
          LabelTenantInstance := PayloadProcessingDeploymentName tenantID ]} o).
(** [src/maas-controller/pkg/platform/tenantreconcile/params.go:691-702] patchPayloadPreProcessingService. *)
Definition patchPayloadPreProcessingService (o : obj) : result string obj :=
  wrapped "patch payload-pre-processing service selector"
    (setServiceSelectorMatchLabels
       {[ "app" := PayloadPreProcessingName;
          LabelTenantInstance := PayloadPreProcessingDeploymentName tenantID ]} o).

(** A word of the command.
    [src/maas-controller/pkg/platform/tenantreconcile/params.go:726-734] patchCleanupCronJobImage. *)
Definition patch_word (v : value) : value :=
  match v with
  | VString cmd =>
      if contains_text cmd "maas-api:8443"
      then VString (ReplaceAll cmd "maas-api:8443" (MaaSAPIServiceName tenantID +:+ ":8443"))
      else v
  | _ => v
  end.
(** [src/maas-controller/pkg/platform/tenantreconcile/params.go:704-747] patchCleanupCronJobImage. *)
Definition patchCleanupCronJobImage (o : obj) : result string obj :=
  o ← wrapped "patch cleanup CronJob image"
        (setCronJobContainerImage "cleanup" (p_MaaSAPIKeyCleanupImage params) o);
  match NestedSlice o job_containers_path with
  | NestedErr e => Err ("read cleanup CronJob containers: " +:+ e)
  | Unstructured.NotFound | Found [] => Ok o
  | Found (VMap container :: containers) =>
      match get_slice "command" container with
      | Some command =>
          if existsb (λ v, match v with VString cmd => contains_text cmd "maas-api:8443" | _ => false end)
               command
          then
            wrapped "write cleanup CronJob containers"
              (SetNestedSlice o
                 (VMap (map_put "command" (VSlice (patch_word <$> command)) container) :: containers)
                 job_containers_path)
          else Ok o
      | None => Ok o
      end
  | Found _ => Err "cleanup CronJob container is not a map"
  end.

(** ** Routes *)

(** The references of a rule to [maas-api] go to the service of the tenant; the rest
    of the references, and whether there was one.
    [src/maas-controller/pkg/platform/tenantreconcile/params.go:793-805] patchHTTPRoute. *)
Fixpoint rewrite_backends (i j : nat) (refs : list value) : result string (list value * bool) :=
  match refs with
  | [] => Ok ([], false)
  | VMap ref :: refs =>
      rest ← rewrite_backends i (S j) refs;
      mret (if get_string "name" ref == Some "maas-api"
            then (VMap (map_put "name" (VString (MaaSAPIServiceName tenantID)) ref) :: rest.1, true)
            else (VMap ref :: rest.1, rest.2))
  | _ :: _ =>
      Err (numbered "HTTPRoute rule" i "" +:+ numbered " backendRef" j " is not an object")
  end.
(** [src/maas-controller/pkg/platform/tenantreconcile/params.go:781-813] patchHTTPRoute. *)
Fixpoint rewrite_rules (i : nat) (rules : list value) : result string (list value) :=
  match rules with
  | [] => Ok []
  | VMap rule :: rules =>
      match NestedSlice rule ["backendRefs"] with
      | NestedErr e => Err ("read " +:+ numbered "HTTPRoute rule" i " backendRefs: " +:+ e)
      | Unstructured.NotFound => Err (numbered "HTTPRoute rule" i " has no backendRefs")
      | Found refs =>
          refs ← rewrite_backends i 0 refs;
          if negb refs.2 then
            Err (numbered "HTTPRoute rule" i (" has no " +:+ Quote "maas-api" +:+ " backendRef to rewrite"))
          else
            rule ← wrapped ("write " +:+ numbered "HTTPRoute rule" i " backendRefs")
                     (SetNestedSlice rule refs.1 ["backendRefs"]);
            rules ← rewrite_rules (S i) rules;
            mret (VMap rule :: rules)
      end
  | _ :: _ => Err (numbered "HTTPRoute rule" i " is not an object")
  end.

Definition to_gateway (ref : gomap) : gomap :=
  map_put "name" (VString (p_GatewayName params))
    (map_put "namespace" (VString (p_GatewayNamespace params)) ref).

(** [src/maas-controller/pkg/platform/tenantreconcile/params.go:749-821] patchHTTPRoute. *)
Definition patchHTTPRoute (o : obj) : result string obj :=
  match NestedSlice o ["spec"; "parentRefs"] with
  | NestedErr e => Err ("read HTTPRoute parentRefs: " +:+ e)
  | Unstructured.NotFound | Found [] => Err "HTTPRoute parentRefs not found"
  | Found (VMap ref :: refs) =>
      o ← wrapped "write HTTPRoute parentRefs"
            (SetNestedSlice o (VMap (to_gateway ref) :: refs) ["spec"; "parentRefs"]);
      match NestedSlice o ["spec"; "rules"] with
      | NestedErr e => Err ("read HTTPRoute rules: " +:+ e)
      | Unstructured.NotFound => Err "HTTPRoute rules not found"
      | Found rules =>
          rules ← rewrite_rules 0 rules;
          wrapped "write HTTPRoute rules" (SetNestedSlice o rules ["spec"; "rules"])
      end
  | Found _ => Err "HTTPRoute parentRefs[0] is not an object"
  end.

(** [src/maas-controller/pkg/platform/tenantreconcile/params.go:823-840] patchMaaSAPIDestinationRule. *)
Definition patchMaaSAPIDestinationRule (o : obj) : result string obj :=
  match NestedString o ["spec"; "host"] with
  | NestedErr e => Err ("read maas-api DestinationRule host: " +:+ e)
  | Unstructured.NotFound => Err "maas-api DestinationRule host not found"
  | Found host =>
      if host == "" then Ok o
      else wrapped "write maas-api DestinationRule host"
             (SetNestedField o (VString (MaaSAPIServiceName tenantID +:+ "." +:+ p_AppNamespace params
                +:+ ".svc.cluster.local")) ["spec"; "host"])
  end.

(** [src/maas-controller/pkg/platform/tenantreconcile/params.go:842-857] patchPayloadDestinationRule. *)
Definition patchPayloadDestinationRule (name : string) (o : obj) : result string obj :=
  let newHost := name +:+ "." +:+ p_GatewayNamespace params +:+ ".svc.cluster.local" in
  match NestedString o ["spec"; "host"] with
  | NestedErr e => Err ("read " +:+ name +:+ " DestinationRule host: " +:+ e)
  | Unstructured.NotFound => Ok o
  | Found host =>
      if host == newHost then Ok o
      else wrapped ("write " +:+ name +:+ " DestinationRule host")
             (SetNestedField o (VString newHost) ["spec"; "host"])
  end.

(** ** The filter of the Gateway *)

Definition wasmFilterPatchCount : nat := 4.
Definition routerFallbackPatchCount : nat := 2.
Definition routeDisablePatchCount : nat := 5.

(** Each patch is changed, from the i-th on.
    [src/maas-controller/pkg/platform/tenantreconcile/params.go:1063-1080] patchPayloadProcessingEnvoyFilter. *)
Fixpoint each_patch (f : nat → gomap → result string gomap) (i : nat) (patches : list value)
    : result string (list value) :=
  match patches with
  | [] => Ok []
  | VMap patch :: patches =>
      patch ← f i patch;
      patches ← each_patch f (S i) patches;
      mret (VMap patch :: patches)
  | _ :: _ => Err (numbered "EnvoyFilter configPatches" i " is not an object")
  end.

(** The filter it comes next to, and the cluster it calls.
    [src/maas-controller/pkg/platform/tenantreconcile/params.go:1069-1077] patchPayloadProcessingEnvoyFilter. *)
Definition anchor_patch (targets : list (string * string)) (i : nat) (patch : gomap)
    : result string gomap :=
  let target := nth i targets ("", "") in
  patch ← wrapped ("write " +:+ numbered "configPatches" i " subFilter.name")
            (SetNestedField patch (VString target.1)
               ["match"; "listener"; "filterChain"; "filter"; "subFilter"; "name"]);
  wrapped ("write " +:+ numbered "configPatches" i " grpc cluster_name")
    (SetNestedField patch (VString target.2)
       ["patch"; "value"; "typed_config"; "grpc_service"; "envoy_grpc"; "cluster_name"]).

(** The route it is switched off for.
    [src/maas-controller/pkg/platform/tenantreconcile/params.go:1108-1118] patchPayloadProcessingEnvoyFilter. *)
Definition route_patch (base i : nat) (patch : gomap) : result string gomap :=
  wrapped ("write " +:+ numbered "configPatches" i " route name")
    (SetNestedField patch
       (VString (p_AppNamespace params +:+ "." +:+ MaaSAPIRouteName tenantID +:+ "." +:+ pretty (i - base)))
       ["match"; "routeConfiguration"; "vhost"; "route"; "name"]).

(** Patches that come next to the router when Kuadrant's filter is absent, next to
    that otherwise.
    [src/maas-controller/pkg/platform/tenantreconcile/params.go:1016-1103] patchPayloadProcessingEnvoyFilter. *)
Definition anchor_patches (configPatches : list value) : result string (list value) :=
  let ns := p_GatewayNamespace params in
  let anchorName := wasmpluginAnchorName ns (p_GatewayName params) in
  let beforeCluster := grpcClusterName (PayloadPreProcessingDeploymentName tenantID) ns 9004 in
  let afterCluster := grpcClusterName (PayloadProcessingDeploymentName tenantID) ns 9004 in
  let routerEnd := wasmFilterPatchCount + routerFallbackPatchCount in
  let minPatchCount := routerEnd + routeDisablePatchCount in
  if length configPatches <? minPatchCount then
    Err ("EnvoyFilter configPatches: expected at least " +:+ pretty minPatchCount +:+ " entries, got "
      +:+ pretty (length configPatches))
  else
    let fallback := p_RouterExtProcFallback params in
    let configPatches :=
      (if fallback then take routerFallbackPatchCount (drop wasmFilterPatchCount configPatches)
       else take wasmFilterPatchCount configPatches) ++ drop routerEnd configPatches in
    let filterPatchCount := length configPatches - routeDisablePatchCount in
    let filters := take filterPatchCount configPatches in
    filters ←
      (if fallback then
         if filterPatchCount != routerFallbackPatchCount then
           Err ("EnvoyFilter configPatches: expected " +:+ pretty routerFallbackPatchCount
             +:+ " router filter patches, got " +:+ pretty filterPatchCount)
         else
           each_patch (anchor_patch [(routerFilterName, beforeCluster); (routerFilterName, afterCluster)])
             0 filters
       else if filterPatchCount == wasmFilterPatchCount then
         each_patch (anchor_patch [(anchorName, beforeCluster); (anchorName, afterCluster);
             (rhclWasmFilterName, beforeCluster); (rhclWasmFilterName, afterCluster)]) 0 filters
       else
         Err ("EnvoyFilter configPatches: expected " +:+ pretty wasmFilterPatchCount +:+ " wasm or "
           +:+ pretty routerFallbackPatchCount +:+ " router filter patches, got "
           +:+ pretty filterPatchCount));
    routes ← each_patch (route_patch filterPatchCount) filterPatchCount
               (drop filterPatchCount configPatches);
    mret (filters ++ routes).

(** [src/maas-controller/pkg/platform/tenantreconcile/params.go:995-1124] patchPayloadProcessingEnvoyFilter. *)
Definition patchPayloadProcessingEnvoyFilter (o : obj) : result string obj :=
  o ← wrapped "write EnvoyFilter priority"
        (SetNestedField o (VInt PayloadProcessingEnvoyFilterPriority) ["spec"; "priority"]);
  o ← wrapped "write EnvoyFilter workloadSelector"
        (SetNestedStringMap o {[ gatewayNameLabel := p_GatewayName params ]}
           ["spec"; "workloadSelector"; "labels"]);
  let o := RemoveNestedField (RemoveNestedField o ["spec"; "targetRefs"]) ["spec"; "targetRef"] in
  match NestedSlice o ["spec"; "configPatches"] with
  | NestedErr e => Err ("read EnvoyFilter configPatches: " +:+ e)
  | Unstructured.NotFound => Err "EnvoyFilter configPatches not found"
  | Found configPatches =>
      configPatches ← anchor_patches configPatches;
      wrapped "write EnvoyFilter configPatches"
        (SetNestedSlice o configPatches ["spec"; "configPatches"])
  end.

(** ** One object *)

(** Given the name of a tenant's, in the namespace of its Gateway. *)
Definition for_gateway (name : string) (r : rendered) : rendered :=
  SetNamespace (p_GatewayNamespace params) (SetName name r).

(** By kind and name.
    [src/maas-controller/pkg/platform/tenantreconcile/params.go:380-448] patchResource. *)
Definition patchResource (r : rendered) : result string rendered :=
  let kind := r.1.1 in
  let name := r.1.2.2 in
  let processing := PayloadProcessingDeploymentName tenantID in
  let preProcessing := PayloadPreProcessingDeploymentName tenantID in
  let at_ (k n : string) := (kind == k) && (name == n) in
  if at_ "Deployment" baseMaaSAPIDeploymentName then
    on_object patchMaaSAPIDeployment (SetName (MaaSAPIDeploymentName tenantID) r)
  else if at_ "Deployment" PayloadProcessingName then
    on_object patchPayloadProcessingDeployment (for_gateway processing r)
  else if at_ "CronJob" "maas-api-key-cleanup" then
    on_object patchCleanupCronJobImage (SetName (Tenant.MaaSAPIKeyCleanupCronJobName tenantID) r)
  else if at_ "HTTPRoute" baseMaaSAPIRouteName then
    on_object patchHTTPRoute (SetName (MaaSAPIRouteName tenantID) r)
  else if at_ "DestinationRule" baseGatewayDestinationRuleName then
    on_object patchMaaSAPIDestinationRule (for_gateway (GatewayDestinationRuleName tenantID) r)
  else if at_ "DestinationRule" PayloadProcessingName then
    on_object (patchPayloadDestinationRule processing) (for_gateway processing r)
  else if at_ "DestinationRule" PayloadPreProcessingName then
    on_object (patchPayloadDestinationRule preProcessing) (for_gateway preProcessing r)
  else if at_ "EnvoyFilter" PayloadProcessingName then
    on_object patchPayloadProcessingEnvoyFilter (for_gateway processing r)
  else if at_ "Deployment" PayloadPreProcessingName then
    on_object patchPreProcessingDeployment (for_gateway preProcessing r)
  else if at_ "Service" "maas-api" then
    on_object patchMaaSAPIService (SetName (MaaSAPIServiceName tenantID) r)
  else if at_ "Service" PayloadPreProcessingName then
    on_object patchPayloadPreProcessingService
      (for_gateway (Tenant.PayloadPreProcessingServiceName tenantID) r)
  else if at_ "Service" PayloadProcessingName then
    on_object patchPayloadProcessingService (for_gateway processing r)
  else if at_ "ServiceAccount" PayloadProcessingName then Ok (for_gateway processing r)
  else if at_ "ConfigMap" PayloadProcessingPluginsConfigMapName then
    Ok (for_gateway (PayloadProcessingPluginsConfigMapForTenant tenantID) r)
  else if at_ "NetworkPolicy" baseMaaSAPIDeploymentNSNetworkPolicyName then
    on_object patchDeploymentNSNetworkPolicy r
  else if at_ "NetworkPolicy" PayloadProcessingName then
    patchPayloadProcessingNetworkPolicy (SetName processing r)
  else if at_ "ClusterRoleBinding" PayloadProcessingReaderClusterRoleBindingName then
    on_object patchPayloadProcessingClusterRoleBinding
      (SetName (PayloadProcessingReaderClusterRoleBindingNameForTenant tenantID) r)
  else if at_ "Certificate" baseMaaSAPIServingCertName then patchMaaSAPIServingCert r
  else Ok r.

(** [src/maas-controller/pkg/platform/tenantreconcile/params.go:370-378] applyPlatformParams. *)
Fixpoint applyPlatformParams (resources : list rendered) : result string (list rendered) :=
  match resources with
  | [] => Ok []
  | r :: resources =>
      r ← patchResource r;
      resources ← applyPlatformParams resources;
      mret (r :: resources)
  end.


(** ** What [PostRender] adds and changes first *)

(** [src/maas-controller/pkg/platform/tenantreconcile/postrender.go:81-96] configureTokenRateLimitPolicy. *)
Definition configureTokenRateLimitPolicy (r : rendered) : result string rendered :=
  on_object (λ o,
    wrapped "failed to set spec.targetRef.name on TokenRateLimitPolicy"
      (SetNestedField o (VString (p_GatewayName params)) ["spec"; "targetRef"; "name"]))
    (for_gateway (GatewayTokenRateLimitDefaultDenyPolicyName tenantID) r).

(** The Secret of the certificate that the platform serves.
    [src/maas-controller/pkg/platform/tenantreconcile/postrender.go:106-109] configureMaaSAPIService. *)
Definition serving_cert_secret : string :=
  if tenantID == "" then "maas-api-serving-cert" else "maas-api-" +:+ tenantID +:+ "-serving-cert".
(** [src/maas-controller/pkg/platform/tenantreconcile/postrender.go:103-120] configureMaaSAPIService. *)
Definition configureMaaSAPIService (r : rendered) : rendered :=
  (r.1, set_rs_Annotations
          <["service.beta.openshift.io/serving-cert-secret-name" := serving_cert_secret]> r.2).
(** [src/maas-controller/pkg/platform/tenantreconcile/postrender.go:122-160] configureMaaSAPIDeployment. *)
Definition configureMaaSAPIDeployment (o : obj) : result string obj :=
  match NestedSlice o (pod_path ++ ["volumes"]) with
  | NestedErr e => Err ("failed to get volumes: " +:+ e)
  | Unstructured.NotFound => Err "no volumes found in deployment"
  | Found volumes =>
      match set_volume "maas-api-tls" (VString serving_cert_secret) ["secret"; "secretName"] volumes with
      | Some (Err e) => Err ("failed to set maas-api-tls secret name: " +:+ e)
      | changed =>
          let volumes := match changed with Some (Ok volumes) => volumes | _ => volumes end in
          wrapped "failed to set volumes" (SetNestedSlice o volumes (pod_path ++ ["volumes"]))
      end
  end.

(** The references of a rule.
    [src/maas-controller/pkg/platform/tenantreconcile/postrender.go:539-548] configureMaaSAPIHTTPRoute. *)
Fixpoint redirect_refs (j : nat) (refs : list value) : result string (list value) :=
  match refs with
  | [] => Ok []
  | VMap ref :: refs =>
      ref ← wrapped ("failed to set " +:+ numbered "backendRefs" j ".name")
              (SetNestedField ref (VString (MaaSAPIServiceName tenantID)) ["name"]);
      refs ← redirect_refs (S j) refs;
      mret (VMap ref :: refs)
  | v :: refs => refs ← redirect_refs (S j) refs; mret (v :: refs)
  end.
(** [src/maas-controller/pkg/platform/tenantreconcile/postrender.go:530-553] configureMaaSAPIHTTPRoute. *)
Fixpoint redirect_rules (i : nat) (rules : list value) : result string (list value) :=
  match rules with
  | [] => Ok []
  | v :: rules =>
      v ← match v with
          | VMap rule =>
              match NestedSlice rule ["backendRefs"] with
              | NestedErr _ | Unstructured.NotFound | Found [] => mret v
              | Found refs =>
                  refs ← redirect_refs 0 refs;
                  rule ← wrapped ("failed to set " +:+ numbered "rule" i ".backendRefs")
                           (SetNestedSlice rule refs ["backendRefs"]);
                  mret (VMap rule)
              end
          | _ => mret v
          end;
      rules ← redirect_rules (S i) rules;
      mret (v :: rules)
  end.

(** [src/maas-controller/pkg/platform/tenantreconcile/postrender.go:489-564] configureMaaSAPIHTTPRoute. *)
Definition configureMaaSAPIHTTPRoute (r : rendered) : result string rendered :=
  on_object (λ o,
    match NestedSlice o ["spec"; "parentRefs"] with
    | NestedErr e => Err ("HTTPRoute has no parentRefs: " +:+ e)
    | Unstructured.NotFound | Found [] => Err "HTTPRoute has no parentRefs: %!w(<nil>)"
    | Found (VMap ref :: refs) =>
        o ← wrapped "failed to set HTTPRoute parentRefs"
              (SetNestedSlice o (VMap (to_gateway ref) :: refs) ["spec"; "parentRefs"]);
        match NestedSlice o ["spec"; "rules"] with
        | NestedErr e => Err ("failed to get HTTPRoute rules: " +:+ e)
        | Unstructured.NotFound | Found [] => Err "HTTPRoute has no rules"
        | Found rules =>
            rules ← redirect_rules 0 rules;
            wrapped "failed to set HTTPRoute rules" (SetNestedSlice o rules ["spec"; "rules"])
        end
    | Found _ => Err "parentRefs[0] is not a map"
    end)
    (if tenantID != "" then SetName (MaaSAPIRouteName tenantID) r else r).

(** One object, by kind and name.
    [src/maas-controller/pkg/platform/tenantreconcile/postrender.go:34-57] PostRender. *)
Definition configure (r : rendered) : result string rendered :=
  let at_ (k n : string) := (r.1.1 == k) && (r.1.2.2 == n) in
  if at_ "TokenRateLimitPolicy" baseGatewayTokenRateLimitDefaultDenyPolicyName then
    configureTokenRateLimitPolicy r
  else if at_ "DestinationRule" baseGatewayDestinationRuleName then
    Ok (SetNamespace (p_GatewayNamespace params) r)
  else if at_ "Service" "maas-api" then Ok (configureMaaSAPIService r)
  else if at_ "Deployment" "maas-api" then on_object configureMaaSAPIDeployment r
  else if at_ "HTTPRoute" "maas-api-route" then configureMaaSAPIHTTPRoute r
  else Ok r.

(** Those that are opted out are left out.
    [src/maas-controller/pkg/platform/tenantreconcile/postrender.go:23-60] PostRender. *)
Fixpoint configure_all (resources : list rendered) : result string (list rendered) :=
  match resources with
  | [] => Ok []
  | r :: resources =>
      if unmanaged r.2 then configure_all resources
      else
        r ← configure r;
        resources ← configure_all resources;
        mret (r :: resources)
  end.

(** [src/maas-controller/pkg/platform/tenantreconcile/postrender.go:244-252] isTelemetryEnabled. *)
Definition isTelemetryEnabled (t : option TenantTelemetryConfig) : bool :=
  default false (t ≫= te_Enabled).

(** [src/maas-controller/pkg/platform/tenantreconcile/postrender.go:449-487] buildTelemetryLabels. *)
Definition buildTelemetryLabels (config : option TenantTelemetryConfig) : gomap :=
  let metrics := config ≫= te_Metrics in
  let captured (f : TenantMetricsConfig → option bool) (unset : bool) := default unset (metrics ≫= f) in
  let if_present (field : string) :=
    "has(" +:+ field +:+ ") ? " +:+ field +:+ " : " +:+ quote_mark +:+ quote_mark in
  let when (b : bool) (k v : string) := if b then [(k, VString v)] else [] in
  [("subscription", VString "auth.identity.selected_subscription");
   ("cost_center", VString (if_present "auth.identity.subscription_info.costCenter"))]
  ++ when (captured CaptureOrganization true) "organization_id"
       (if_present "auth.identity.subscription_info.organizationId")
  ++ when (captured CaptureUser false) "user" "auth.identity.userid"
  ++ when (captured CaptureGroup false) "group" "auth.identity.groups_str"
  ++ when (captured CaptureModelUsage true) "model"
       ("responseBodyJSON(" +:+ quote_mark +:+ "/model" +:+ quote_mark +:+ ")").

(** What is made here belongs to nobody yet. *)
Definition made (kind ns name : string) (labels : gmap string string) (o : obj) : rendered :=
  ((kind, (ns, name)), mkResource labels ∅ [] 0 o [] false).
Definition observability_labels (ns : string) (t : MaasTenantConfig) : gmap string string :=
  {[ "app.kubernetes.io/part-of" := "maas-observability"; LabelTenantName := tenantTrackingName t;
     LabelTenantNamespace := ns ]}.
Definition strings (l : list (string * string)) : value :=
  VMap ((λ kv : string * string, (kv.1, VString kv.2)) <$> l).

(** [src/maas-controller/pkg/platform/tenantreconcile/postrender.go:254-295] configureTelemetryPolicyResources. *)
Definition configureTelemetryPolicyResources (ns : string) (t : MaasTenantConfig) : list rendered :=
  let telemetry := cs_Telemetry (tc_Spec t) in
  if negb (isTelemetryEnabled telemetry) then []
  else
    [made "TelemetryPolicy" (p_GatewayNamespace params) (TelemetryPolicyName tenantID)
       (observability_labels ns t)
       [("spec", VMap
          [("targetRef", strings [("group", "gateway.networking.k8s.io"); ("kind", "Gateway");
                                  ("name", p_GatewayName params)]);
           ("metrics", VMap [("default", VMap [("labels", VMap (buildTelemetryLabels telemetry))])])])]].

(** [src/maas-controller/pkg/platform/tenantreconcile/postrender.go:297-346] configureIstioTelemetryResources. *)
Definition configureIstioTelemetryResources (ns : string) (t : MaasTenantConfig) : list rendered :=
  if negb (isTelemetryEnabled (cs_Telemetry (tc_Spec t))) then []
  else
    [made "Telemetry" (p_GatewayNamespace params) (IstioTelemetryName tenantID)
       (observability_labels ns t)
       [("spec", VMap
          [("selector", VMap [("matchLabels", strings [(gatewayNameLabel, p_GatewayName params)])]);
           ("metrics", VSlice [VMap
              [("providers", VSlice [strings [("name", "prometheus")]]);
               ("overrides", VSlice [VMap
                  [("match", strings [("metric", "REQUEST_DURATION"); ("mode", "CLIENT_AND_SERVER")]);
                   ("tagOverrides", VMap [("subscription", strings
                      [("operation", "UPSERT");
                       ("value", "request.headers[" +:+ quote_mark +:+ "x-maas-subscription"
                          +:+ quote_mark +:+ "]")])])]])]])])]].

Definition utilization (resource : string) (percent : Z) : value :=
  VMap [("type", VString "Resource");
        ("resource", VMap [("name", VString resource);
           ("target", VMap [("type", VString "Utilization"); ("averageUtilization", VInt percent)])])].
Definition scaling_policy (typ : string) (v period : Z) : value :=
  VMap [("type", VString typ); ("value", VInt v); ("periodSeconds", VInt period)].
Definition scaling (window : Z) (policies : list value) (rest : gomap) : value :=
  VMap (("stabilizationWindowSeconds", VInt window) :: ("policies", VSlice policies) :: rest).

(** [src/maas-controller/pkg/platform/tenantreconcile/postrender.go:348-447] configurePayloadProcessingHPA. *)
Definition configurePayloadProcessingHPA : list rendered :=
  if negb (p_PayloadProcessingAutoscaling params) then []
  else
    [made "HorizontalPodAutoscaler" (p_GatewayNamespace params) (PayloadProcessingDeploymentName tenantID) ∅
       [("spec", VMap
          [("scaleTargetRef", strings [("apiVersion", "apps/v1"); ("kind", "Deployment");
                                       ("name", PayloadProcessingDeploymentName tenantID)]);
           ("minReplicas", VInt (default 1%Z (p_PayloadProcessingReplicas params)));
           ("maxReplicas", VInt (p_PayloadProcessingMaxReplicas params));
           ("metrics", VSlice [utilization "cpu" (p_PayloadProcessingTargetCPU params);
                               utilization "memory" (p_PayloadProcessingTargetMemory params)]);
           ("behavior", VMap
              [("scaleDown", scaling 300 [scaling_policy "Percent" 25 60] []);
               ("scaleUp", scaling 0 [scaling_policy "Percent" 100 15; scaling_policy "Pods" 4 15]
                  [("selectPolicy", VString "Max")])])])]].

(** OIDC is configured elsewhere.
    [src/maas-controller/pkg/platform/tenantreconcile/postrender.go:15-79] PostRender. *)
Definition PostRender (ns : string) (t : MaasTenantConfig) (resources : list rendered)
    : result string (list rendered) :=
  filtered ← configure_all resources;
  applyPlatformParams
    (filtered ++ configureTelemetryPolicyResources ns t ++ configureIstioTelemetryResources ns t
     ++ configurePayloadProcessingHPA).
End patches.

(** The renderer of the platform. *)
Definition manifests {api : ApiMachinery} {psrv : PlatformServer} {wr : NestedWriter}
    {kust : Kustomize} {uni : Unicode} : Renderer := {|
  Platform.RenderKustomize := Manifests.RenderKustomize;
  Platform.PostRender ns t resources p := PostRender p ns t resources;
|}.
End Rendering.
