(* ===== verification/TenantConfigController.v ===== *)
(** The controller of MaasTenantConfigs, which brings up the platform of a tenant
    and takes it down: which configurations it looks after, its guards, conditions
    and phases, and what it deletes.
    [src/maas-controller/pkg/controller/maas/tenant_reconcile.go],
    [src/maas-controller/pkg/controller/maas/tenant_controller.go] and
    [src/maas-controller/pkg/controller/maas/tenant_conditions.go]. *)
From S2P Require Import Prelude GoStrings GoTime Runtime Unstructured GoFmt MaasTypes Cluster.
From S2P Require Import ControllerHelpers TenantCluster GatewayAuthSpec AuthPolicyGateway.
From S2P Require Import AITenantParts PlatformParams Platform.
Import Infra Cluster Helpers Fmt Platform.

Module ConfigController.

(** [src/maas-controller/pkg/controller/maas/tenant_controller.go:46-84] TenantReconciler. *)
Record TenantReconciler : Type := mkTenantReconciler {
  tr_Platform : PlatformSettings;
  tr_OperatorNamespace : string;
  tr_POD_NAMESPACE : string;
  tr_WATCH_NAMESPACE : string;
  tr_TenantNamespace : string;
  tr_GatewayName : string;
  tr_GatewayNamespace : string;
  tr_TenantNamespaceDiscoveryEnabled : bool;
  tr_MetadataCacheTTL : Z;
}.

(** When to reconcile again, in nanoseconds, if at all. *)
Abbreviation requeue := (option Z) (only parsing).
Definition after (n : Z) : requeue := Some (n * Second)%Z.

(** What a step answers: a result to return at once, if any, and an error, if any. *)
Abbreviation early := (option requeue * option error)%type (only parsing).

(** [src/maas-controller/pkg/controller/maas/tenant_reconcile.go:46-46] managementStateAnnotation. *)
Definition managementStateAnnotation : string := "component.opendatahub.io/management-state".
(** [src/maas-controller/pkg/controller/maas/tenant_reconcile.go:47-47] managementStateManaged. *)
Definition managementStateManaged : string := "Managed".
(** [src/maas-controller/pkg/controller/maas/tenant_reconcile.go:48-48] managementStateRemoved. *)
Definition managementStateRemoved : string := "Removed".
(** [src/maas-controller/pkg/controller/maas/tenant_reconcile.go:49-49] managementStateUnmanaged. *)
Definition managementStateUnmanaged : string := "Unmanaged".

(** [src/maas-controller/pkg/platform/tenantreconcile/platform_context.go:101-110] TenantUsesAITenantPlatformContext. *)
Definition managed_by_aitenant (t : MaasTenantConfig) : bool :=
  at_key (tc_Labels t) LabelManagedByAITenant == "true".
(** [src/maas-controller/pkg/controller/maas/tenant_reconcile.go:55-64] tenantUsesCleanupFinalizer. *)
Definition tenantUsesCleanupFinalizer (ns : string) (t : MaasTenantConfig) : result string bool :=
  match TenantIdentifierFor ns (tenant_meta t) with
  | Err e => Err e
  | Ok tenantID => Ok (managed_by_aitenant t || (tenantID != ""))
  end.

(** [src/maas-controller/pkg/controller/maas/tenant_reconcile.go:66-71] managementState. *)
Definition managementState (t : MaasTenantConfig) : string :=
  at_key (tc_Annotations t) managementStateAnnotation.

(** ** Conditions *)

Section conditions.
Context {srv : ApiServer}.

(** [src/maas-controller/pkg/controller/maas/tenant_conditions.go:13-22] setTenantCondition. *)
Definition setTenantCondition (typ status reason message : string) (t : MaasTenantConfig)
    : MaasTenantConfig :=
  let st := tc_Status t in
  set_tc_Status (mkConfigStatus (cf_Phase st) (cf_InfraNamespace st)
    (set_condition (cf_Conditions st)
       (V1.mkCondition typ status reason message (tc_Generation t)))) t.
Definition set_Phase (phase : string) (t : MaasTenantConfig) : MaasTenantConfig :=
  let st := tc_Status t in
  set_tc_Status (mkConfigStatus phase (cf_InfraNamespace st) (cf_Conditions st)) t.
Definition set_InfraNamespace (ns : string) (t : MaasTenantConfig) : MaasTenantConfig :=
  let st := tc_Status t in
  set_tc_Status (mkConfigStatus (cf_Phase st) ns (cf_Conditions st)) t.

(** [src/maas-controller/pkg/controller/maas/tenant_conditions.go:24-32] setDependenciesCondition. *)
Definition setDependenciesCondition (ok : bool) (detail : string) : MaasTenantConfig → MaasTenantConfig :=
  if ok then
    setTenantCondition ConditionDependenciesAvailable "True" "DependenciesMet"
      "AuthConfig CRD (Kuadrant) is available on the cluster"
  else setTenantCondition ConditionDependenciesAvailable "False" "DependencyMissing" detail.

(** [src/maas-controller/pkg/controller/maas/tenant_conditions.go:34-51] setPrerequisiteConditionsFromReport. *)
Definition setPrerequisiteConditionsFromReport (rep : PrerequisiteReport) (t : MaasTenantConfig)
    : MaasTenantConfig :=
  if 0 <? length (Blocking rep) then
    let agg := GoStrings.join "; " (Blocking rep ++ Warnings rep) in
    setTenantCondition ConditionTypeDegraded "True" "PrerequisitesMissing" agg
      (setTenantCondition ConditionMaaSPrerequisitesAvailable "False" "PrerequisitesMissing" agg t)
  else if 0 <? length (Warnings rep) then
    setTenantCondition ConditionMaaSPrerequisitesAvailable "True" "PrerequisitesMet"
      "Prerequisites satisfied; see Degraded for warnings" t
  else
    setTenantCondition ConditionMaaSPrerequisitesAvailable "True" "PrerequisitesMet"
      "All prerequisites are satisfied" t.

(** [src/maas-controller/pkg/controller/maas/tenant_conditions.go:53-59] setDeploymentsAvailableCondition. *)
Definition setDeploymentsAvailableCondition (ok : bool) (reason message : string)
    : MaasTenantConfig → MaasTenantConfig :=
  setTenantCondition ConditionDeploymentsAvailable (if ok then "True" else "False") reason message.

(** [src/maas-controller/pkg/controller/maas/tenant_conditions.go:61-66] prerequisitesUnevaluatedCondition. *)
Definition prerequisitesUnevaluatedCondition (detail : string) (t : MaasTenantConfig)
    : MaasTenantConfig :=
  setTenantCondition ConditionTypeDegraded "False" "DependenciesNotMet" detail
    (setTenantCondition ConditionMaaSPrerequisitesAvailable "Unknown" "DependenciesNotMet" detail t).

(** The status that [patchStatus] sets, and the call.
    [src/maas-controller/pkg/controller/maas/tenant_reconcile.go:515-523] patchStatus. *)
Definition with_ready (phase status reason message : string) (t : MaasTenantConfig)
    : MaasTenantConfig :=
  setTenantCondition ReadyConditionType status reason message (set_Phase phase t).
(** [src/maas-controller/pkg/controller/maas/tenant_reconcile.go:514-525] patchStatus. *)
Definition patchStatus (ns : string) (t : MaasTenantConfig) (phase status reason message : string)
    : prog platform (result api_error ()) :=
  update_config_status ns (tc_Status (with_ready phase status reason message t)).
End conditions.

Section controller.
Context {api : ApiMachinery} {srv : ApiServer} {tsrv : TenantServer} {psrv : PlatformServer}.
Context {rnd : Renderer} {uni : Unicode}.
Context (r : TenantReconciler).

(** [src/maas-controller/pkg/controller/maas/tenant_reconcile.go:498-500] appNamespaceForTenant. *)
Definition appNamespaceForTenant : string := pl_AppNamespace (tr_Platform r).
(** [src/maas-controller/pkg/controller/maas/tenant_reconcile.go:488-496] operatorNamespace. *)
Definition operatorNamespace : string :=
  if tr_OperatorNamespace r != "" then tr_OperatorNamespace r
  else if tr_POD_NAMESPACE r != "" then tr_POD_NAMESPACE r
  else tr_WATCH_NAMESPACE r.

(** What every step does when it has recorded a status: return, unless that failed;
    then there is an error and no result. *)
Definition recorded (ns : string) (t : MaasTenantConfig) (phase status reason message : string)
    (again : requeue) : prog platform early :=
  done ← patchStatus ns t phase status reason message;
  mret match done with Ok _ => (Some again, None) | Err e => (None, Some (ErrApi e)) end.

(** ** Guards *)

(** [src/maas-controller/pkg/controller/maas/tenant_reconcile.go:478-486] handleIdleManagementState. *)
Definition handleIdleManagementState (ns : string) (t : MaasTenantConfig) (ms : string)
    : prog platform early :=
  done ← patchStatus ns t "" "False" "ManagementStateIdle"
           ("management state is " +:+ Quote ms
            +:+ "; platform workloads are not driven by this reconciler in this state");
  mret (Some None, match done with Ok _ => None | Err e => Some (ErrApi e) end).

(** [src/maas-controller/pkg/controller/maas/tenant_reconcile.go:212-229] handleManagementState. *)
Definition handleManagementState (ns : string) (t : MaasTenantConfig)
    : prog platform (MaasTenantConfig * early) :=
  let ms := managementState t in
  if ms == managementStateUnmanaged then
    x ← handleIdleManagementState ns t ms; mret (t, x)
  else if (ms != "") && (ms != managementStateManaged) && (ms != managementStateRemoved) then
    let message := "unsupported " +:+ managementStateAnnotation +:+ "=" +:+ Quote ms in
    x ← recorded ns t "Failed" "False" "UnexpectedManagementState" message (after 30);
    mret (with_ready "Failed" "False" "UnexpectedManagementState" message t, x)
  else mret (t, (None, None)).

(** The Config, or what to return; nothing for an error.
    [src/maas-controller/pkg/controller/maas/tenant_reconcile.go:441-476] readyConfigOrWait. *)
Definition readyConfigOrWait (ns : string) (t : MaasTenantConfig)
    : prog platform (option Config * early) :=
  anchor ← read (λ _ w, match w_anchor w with Some c => Ok c | None => Err NotFound end);
  let waiting (reason message : string) (again : requeue) : prog platform (option Config * early) :=
    e ← recorded ns t "Pending" "False" reason message again; mret (None, e) in
  match anchor with
  | Err NotFound =>
      waiting "ConfigMissing" ("Config " +:+ Quote "default" +:+ " is required before platform apply")
        (after 10)
  | Err e => mret (None, (None, Some (ErrApi e)))
  | Ok ct =>
      if an_deleting ct then
        waiting "ConfigTerminating" ("Config " +:+ Quote "default"
          +:+ " is deleting; platform reconcile is suspended until the anchor is gone or recreated")
          (after 10)
      else if an_UID ct == "" then
        waiting "WaitingForConfigUID" ("Config " +:+ Quote "default"
          +:+ " has no UID yet; waiting before platform apply") (after 5)
      else mret (Some ct, (None, None))
  end.

(** [src/maas-controller/pkg/controller/maas/tenant_reconcile.go:502-512] validateGatewayExists. *)
Definition validateGatewayExists (namespace name : string) : pprog () :=
  let gateway := "gateway " +:+ namespace +:+ "/" +:+ name in
  gw ← on_cluster (get_in gateways (namespace, name));
  mret match gw with
       | Ok _ => Ok ()
       | Err NotFound =>
           Err (ErrOther (gateway +:+ " not found: the specified Gateway must exist before enabling "
             +:+ "MaaS platform reconcile"))
       | Err e => Err (In ("failed to look up " +:+ gateway) (ErrApi e))
       end.

(** The settings the helpers share. *)
Definition helper_settings : Reconciler :=
  mkReconciler (tr_TenantNamespace r) (tr_TenantNamespaceDiscoveryEnabled r) (tr_GatewayName r)
    (tr_GatewayNamespace r).

(** The Gateway and the manifests.
    [src/maas-controller/pkg/controller/maas/tenant_reconcile.go:250-278] validateConfigAndGateway. *)
Definition validateGateway (ns : string) (t : MaasTenantConfig) (mcfg : Config)
    : prog platform (option (Config * PlatformContext) * early) :=
  context ← on_cluster (ResolvePlatformContext helper_settings (tenant_meta t) None);
  match context with
  | Err e =>
      x ← recorded ns t "Failed" "False" "InvalidGateway" (error_text e) (after 30); mret (None, x)
  | Ok context =>
      let ref := pc_GatewayRef context in
      exists_ ← validateGatewayExists (g_Namespace ref) (g_Name ref);
      match exists_ with
      | Err e =>
          x ← recorded ns t "Pending" "False" "GatewayNotReady" (error_text e) (after 30);
          mret (None, x)
      | Ok _ =>
          if pl_ManifestPath (tr_Platform r) == "" then
            x ← recorded ns t "Failed" "False" "ManifestPathUnset"
                  ("MAAS_PLATFORM_MANIFESTS is not set and no default kustomize path resolved; "
                   +:+ "cannot apply platform manifests") (after 120);
            mret (None, x)
          else mret (Some (mcfg, context), (None, None))
      end
  end.

(** [src/maas-controller/pkg/controller/maas/tenant_reconcile.go:231-279] validateConfigAndGateway. *)
Definition validateConfigAndGateway (ns : string) (t : MaasTenantConfig)
    : prog platform (option (Config * PlatformContext) * early) :=
  config ← readyConfigOrWait ns t;
  match config with
  | (None, e) => mret (None, e)
  | (Some mcfg, _) =>
      if managementState t == managementStateRemoved then
        x ← recorded ns t "Pending" "False" "WaitingForRemovedTeardown"
              ("management state is Removed; platform reconcile is suspended until the Config "
               +:+ "anchor is deleted by component GC") (after 10);
        mret (None, x)
      else validateGateway ns t mcfg
  end.

(** The configuration as it is afterwards, the report, and whether to return.
    [src/maas-controller/pkg/controller/maas/tenant_reconcile.go:281-317] checkDependenciesAndPrerequisites. *)
Definition checkDependenciesAndPrerequisites (ns : string) (t : MaasTenantConfig)
    : prog platform (MaasTenantConfig * PrerequisiteReport * early) :=
  dependencies ← CheckDependencies;
  match dependencies with
  | Err e =>
      let detail := error_text e in
      let t := prerequisitesUnevaluatedCondition
                 "Prerequisites were not evaluated because required dependencies are not met"
                 (setDeploymentsAvailableCondition false "DependenciesNotMet" detail
                    (setDependenciesCondition false detail t)) in
      x ← recorded ns t "Pending" "False" "DependenciesNotAvailable" detail (after 45);
      mret (with_ready "Pending" "False" "DependenciesNotAvailable" detail t, mkReport [] [], x)
  | Ok _ =>
      let t := setDependenciesCondition true "" t in
      rep ← CollectPrerequisiteReport appNamespaceForTenant;
      let t := setPrerequisiteConditionsFromReport rep t in
      if 0 <? length (Blocking rep) then
        let agg := GoStrings.join "; " (Blocking rep) +:+ "; " +:+ GoStrings.join "; " (Warnings rep) in
        let t := setDeploymentsAvailableCondition false "PrerequisitesMissing" agg
                   (set_Phase "Failed" t) in
        let t := setTenantCondition ReadyConditionType "False" "PrerequisitesNotMet" agg t in
        done ← update_config_status ns (tc_Status t);
        mret (t, mkReport [] [],
              match done with Ok _ => (Some (after 45), None) | Err e => (None, Some (ErrApi e)) end)
      else mret (t, rep, (None, None))
  end.

(** ** The platform *)

(** [src/maas-controller/pkg/controller/maas/tenant_reconcile.go:797-832] ensureGatewayManagementAuth. *)
Definition ensureGatewayManagementAuth (ns : string) (t : MaasTenantConfig) : pprog () :=
  match TenantIdentifierFor ns (tenant_meta t) with
  | Err e => mret (Err (ErrOther e))
  | Ok tenantID =>
      let authR := GatewaySpec.mkAuthReconciler helper_settings appNamespaceForTenant
                     (pl_ClusterAudience (tr_Platform r)) (tr_MetadataCacheTTL r)
                     (tr_MetadataCacheTTL r) in
      gateway ←? on_cluster (AuthGateway.fetchGatewayInfo authR ns);
      if (tenantID != "") && (g_Namespace gateway == tr_GatewayNamespace r)
         && (g_Name gateway == tr_GatewayName r)
      then mret (Ok ())
      else
        oidc ← on_cluster (AuthGateway.fetchOIDCConfig authR ns);
        xAPIKeyEnabled ← on_cluster AuthGateway.discoverXAPIKeyNeeded;
        on_cluster (AuthGateway.ensureBaseGatewayAuthPolicy authR oidc xAPIKeyEnabled tenantID gateway)
  end.

(** [src/maas-controller/pkg/controller/maas/tenant_reconcile.go:319-363] reconcilePlatform. *)
Definition reconcilePlatform (ns : string) (t : MaasTenantConfig) (context : PlatformContext)
    (mcfg : Config) : prog platform (option RunResult * early) :=
  run ← RunPlatform (tr_Platform r) ns t context mcfg;
  match run with
  | Err e =>
      let detail := error_text e in
      x ← recorded ns (setDeploymentsAvailableCondition false "PlatformReconcileFailed" detail t)
            "Failed" "False" "PlatformReconcileFailed" detail (after 45);
      mret (None, x)
  | Ok runRes =>
      auth ← ensureGatewayManagementAuth ns t;
      match auth with
      | Err _ => mret (None, (Some (after 45), None))
      | Ok _ =>
          if DeploymentPending runRes then
            let t := setDeploymentsAvailableCondition false "DeploymentsNotReady" (Detail runRes)
                       (set_Phase "Pending" t) in
            let t := setTenantCondition ReadyConditionType "False" "DeploymentsNotReady"
                       (Detail runRes) t in
            done ← update_config_status ns (tc_Status t);
            mret (None, match done with
                        | Ok _ => (Some (after 20), None)
                        | Err e => (None, Some (ErrApi e))
                        end)
          else mret (Some runRes, (None, None))
      end
  end.

(** [src/maas-controller/pkg/controller/maas/tenant_reconcile.go:365-400] aggregateWarningsAndSetDegraded. *)
Definition aggregateWarningsAndSetDegraded (prereqReport : PrerequisiteReport) (runRes : RunResult)
    : MaasTenantConfig → MaasTenantConfig :=
  let hasPrereqWarnings := 0 <? length (Warnings prereqReport) in
  let hasReplicaWarnings := 0 <? length (run_Warnings runRes) in
  let allWarnings := Warnings prereqReport ++ run_Warnings runRes in
  if 0 <? length allWarnings then
    setTenantCondition ConditionTypeDegraded "True"
      (if hasPrereqWarnings && hasReplicaWarnings then "MultipleWarnings"
       else if hasPrereqWarnings then "PrerequisitesWarning" else "InvalidReplicaAnnotation")
      (GoStrings.join "; " allWarnings)
  else setTenantCondition ConditionTypeDegraded "False" "NoWarnings" "".

(** [src/maas-controller/pkg/controller/maas/tenant_reconcile.go:531-540] cleanupLegacyMaaSAPIDeployment. *)
Definition legacyNamespaces : list string :=
  let controller := pl_ControllerNamespace (tr_Platform r) in
  if (controller != "") && (appNamespaceForTenant != controller) then [controller] else [].
(** [src/maas-controller/pkg/controller/maas/tenant_reconcile.go:543-588] cleanupLegacyMaaSAPIDeployment. *)
Definition cleanup_legacy_in (ns : string) : pprog () :=
  let k := ("Deployment", (ns, "maas-api")) in
  dep ← get_resource k;
  match dep with
  | Err NotFound => mret (Ok ())
  | Err e => mret (Err (In ("check for legacy maas-api deployment in " +:+ ns) (ErrApi e)))
  | Ok dep =>
      if at_key (rs_Labels dep) "app.kubernetes.io/part-of" != "models-as-a-service" then mret (Ok ())
      else
        _ ←? in_context ("delete legacy maas-api deployment from " +:+ ns)
               (unless_missing (delete_resource k));
        _ ← delete_resource ("Service", (ns, "maas-api"));
        _ ← delete_resource ("HTTPRoute", (ns, "maas-api-route"));
        _ ← delete_resource ("ConfigMap", (ns, "maas-api-config"));
        mret (Ok ())
  end.
Fixpoint cleanup_legacy (namespaces : list string) : pprog () :=
  match namespaces with
  | [] => mret (Ok ())
  | ns :: namespaces => _ ←? cleanup_legacy_in ns; cleanup_legacy namespaces
  end.
(** [src/maas-controller/pkg/controller/maas/tenant_reconcile.go:527-592] cleanupLegacyMaaSAPIDeployment. *)
Definition cleanupLegacyMaaSAPIDeployment : pprog () := cleanup_legacy legacyNamespaces.

(** [sync.Once] runs its function once, whatever comes of it.
    [src/maas-controller/pkg/controller/maas/tenant_reconcile.go:402-418] attemptLegacyCleanup. *)
Definition attemptLegacyCleanup : prog platform () :=
  w ← get;
  if w_cleanupCompleted w || w_cleanupOnce w then mret ()
  else
    _ ← modify (set_cleanup true false);
    done ← cleanupLegacyMaaSAPIDeployment;
    match done with
    | Err _ => mret ()
    | Ok _ => modify (set_cleanup true true)
    end.

Definition IsStatusConditionTrue (conditions : list V1.Condition) (typ : string) : bool :=
  match find_condition conditions typ with Some c => V1.c_Status c == "True" | None => false end.
(** [src/maas-controller/pkg/controller/maas/tenant_reconcile.go:421-433] setFinalStatus. *)
Definition final (t : MaasTenantConfig) : MaasTenantConfig :=
  let t := set_Phase (if IsStatusConditionTrue (cf_Conditions (tc_Status t)) ConditionTypeDegraded
                      then "Degraded" else "Active") t in
  let t := setDeploymentsAvailableCondition true "DeploymentsReady"
             "maas-api deployment and payload-processing EnvoyFilter are available" t in
  setTenantCondition ReadyConditionType "True" "Reconciled"
    "MaaS platform manifests applied and maas-api deployment is available" t.
(** [src/maas-controller/pkg/controller/maas/tenant_reconcile.go:420-439] setFinalStatus. *)
Definition setFinalStatus (ns : string) (t : MaasTenantConfig) : pprog requeue :=
  done ← update_config_status ns (tc_Status (final t));
  mret match done with Ok _ => Ok (after 300) | Err e => Err (ErrApi e) end.

(** ** Deletion *)

(** [src/maas-controller/pkg/controller/maas/tenant_reconcile.go:616-641] cleanupTenantResources. *)
Definition appResourcesToDelete (tenantID : string) : list rkey :=
  let appNs := appNamespaceForTenant in
  [("Deployment", (appNs, MaaSAPIDeploymentName tenantID));
   ("Service", (appNs, MaaSAPIServiceName tenantID));
   ("HTTPRoute", (appNs, MaaSAPIRouteName tenantID));
   ("CronJob", (appNs, Tenant.MaaSAPIKeyCleanupCronJobName tenantID))].
(** [src/maas-controller/pkg/controller/maas/tenant_reconcile.go:643-723] cleanupTenantResources. *)
Definition gatewayResourcesToDelete (tenantID : string) : list rkey :=
  let gatewayNs := tr_GatewayNamespace r in
  [("TokenRateLimitPolicy", (gatewayNs, GatewayTokenRateLimitDefaultDenyPolicyName tenantID));
   ("DestinationRule", (gatewayNs, GatewayDestinationRuleName tenantID));
   ("TelemetryPolicy", (gatewayNs, TelemetryPolicyName tenantID));
   ("Telemetry", (gatewayNs, IstioTelemetryName tenantID));
   ("Deployment", (gatewayNs, PayloadProcessingDeploymentName tenantID));
   ("Deployment", (gatewayNs, PayloadPreProcessingDeploymentName tenantID));
   ("Service", (gatewayNs, PayloadProcessingDeploymentName tenantID));
   ("Service", (gatewayNs, Tenant.PayloadPreProcessingServiceName tenantID));
   ("DestinationRule", (gatewayNs, PayloadProcessingDeploymentName tenantID));
   ("DestinationRule", (gatewayNs, PayloadPreProcessingDeploymentName tenantID));
   ("EnvoyFilter", (gatewayNs, PayloadProcessingDeploymentName tenantID));
   ("NetworkPolicy", (gatewayNs, PayloadProcessingDeploymentName tenantID));
   ("ServiceAccount", (gatewayNs, PayloadProcessingDeploymentName tenantID));
   ("ConfigMap", (gatewayNs, PayloadProcessingPluginsConfigMapForTenant tenantID));
   ("ClusterRoleBinding", ("", PayloadProcessingReaderClusterRoleBindingNameForTenant tenantID))].

(** [src/maas-controller/pkg/controller/maas/tenant_reconcile.go:725-741] cleanupTenantResources. *)
Fixpoint delete_resources (ks : list rkey) : pprog () :=
  match ks with
  | [] => mret (Ok ())
  | k :: ks =>
      deleted ← unless_missing (delete_resource k);
      match deleted with
      | Err e => mret (Err (ErrApi e))
      | Ok _ => delete_resources ks
      end
  end.

(** [src/maas-controller/pkg/controller/maas/tenant_reconcile.go:594-742] cleanupTenantResources. *)
Definition cleanupTenantResources (ns : string) (t : MaasTenantConfig) : pprog () :=
  match TenantIdentifierFor ns (tenant_meta t) with
  | Err e => mret (Err (ErrOther e))
  | Ok tenantID =>
      delete_resources (appResourcesToDelete tenantID ++ gatewayResourcesToDelete tenantID)
  end.

Fixpoint delete_each (what : string) (del : key → prog platform (result api_error ()))
    (ks : list key) : pprog () :=
  match ks with
  | [] => mret (Ok ())
  | k :: ks =>
      _ ←? in_context ("failed to delete " +:+ what +:+ " " +:+ k.1 +:+ "/" +:+ k.2)
             (unless_missing (del k));
      delete_each what del ks
  end.

(** Whether none was there.
    [src/maas-controller/pkg/controller/maas/tenant_reconcile.go:744-767] cleanupMaaSSubscriptions. *)
Definition cleanupMaaSSubscriptions (ns : string) : pprog bool :=
  items ←? in_context "failed to list MaaSSubscriptions"
             (on_cluster (list_in subscriptions (λ k _, k.1 == ns)));
  _ ←? delete_each "MaaSSubscription" delete_subscription (items.*1);
  mret (Ok (length items =? 0)).
(** [src/maas-controller/pkg/controller/maas/tenant_reconcile.go:769-795] cleanupMaaSAuthPolicies. *)
Definition cleanupMaaSAuthPolicies (ns : string) : pprog bool :=
  items ←? in_context "failed to list MaaSAuthPolicies"
             (on_cluster (list_in auth_crs (λ k _, k.1 == ns)));
  _ ←? delete_each "MaaSAuthPolicy" delete_auth_cr (items.*1);
  mret (Ok (length items =? 0)).

(** [src/maas-controller/pkg/controller/maas/tenant_reconcile.go:182-210] handleDeletion. *)
Definition handleDeletion (ns : string) (t : MaasTenantConfig) : pprog requeue :=
  if negb (contains (tc_Finalizers t) Tenant.tenantFinalizer) then mret (Ok None)
  else
    subscriptionsDeleted ←? cleanupMaaSSubscriptions ns;
    authPoliciesDeleted ←? cleanupMaaSAuthPolicies ns;
    if negb subscriptionsDeleted || negb authPoliciesDeleted then mret (Ok (after 5))
    else
      _ ←? cleanupTenantResources ns t;
      done ← update_config_finalizers ns (remove_finalizer (tc_Finalizers t) Tenant.tenantFinalizer);
      mret match done with Ok _ => Ok None | Err e => Err (ErrApi e) end.

(** ** Reconciling *)

(** Which configurations are left alone.
    [src/maas-controller/pkg/controller/maas/tenant_reconcile.go:84-113] reconcile. *)
Definition ignored (ns : string) (t : MaasTenantConfig) : bool :=
  let elsewhere := (tr_TenantNamespace r != "") && (ns != tr_TenantNamespace r) in
  if tr_TenantNamespaceDiscoveryEnabled r then elsewhere && negb (managed_by_aitenant t)
  else elsewhere.

(** The finalizer is added, or taken from the default tenant's.
    [src/maas-controller/pkg/controller/maas/tenant_reconcile.go:125-138] reconcile. *)
Definition converge_finalizer (ns : string) (t : MaasTenantConfig) (uses : bool)
    : pprog MaasTenantConfig :=
  let has := contains (tc_Finalizers t) Tenant.tenantFinalizer in
  let update (fs : list string) : pprog MaasTenantConfig :=
    done ← update_config_finalizers ns fs;
    mret match done with Ok _ => Ok (set_tc_Finalizers fs t) | Err e => Err (ErrApi e) end in
  if uses then
    if has then mret (Ok t) else update (add_finalizer (tc_Finalizers t) Tenant.tenantFinalizer)
  else if has then update (remove_finalizer (tc_Finalizers t) Tenant.tenantFinalizer)
  else mret (Ok t).

(** [return *result, err]. *)
Definition returned (res : requeue) (err : option error) : result error requeue :=
  match err with Some e => Err e | None => Ok res end.

(** The platform and what follows it.
    [src/maas-controller/pkg/controller/maas/tenant_reconcile.go:163-179] reconcile. *)
Definition bring_up (ns : string) (t : MaasTenantConfig) (context : PlatformContext)
    (mcfg : Config) (prereqReport : PrerequisiteReport) : pprog requeue :=
  run ← reconcilePlatform ns t context mcfg;
  match run with
  | (_, (Some result, err)) => mret (returned result err)
  | (_, (None, Some e)) => mret (Err e)
  | (None, _) => mret (Ok None)
  | (Some runRes, _) =>
      let t := aggregateWarningsAndSetDegraded prereqReport runRes t in
      _ ← attemptLegacyCleanup;
      setFinalStatus ns t
  end.

(** A configuration that is not being deleted; the error of a step that has no
    result to return counts after the second and the fourth only.
    [src/maas-controller/pkg/controller/maas/tenant_reconcile.go:140-161] reconcile. *)
Definition reconcile_live (ns : string) (t : MaasTenantConfig) : pprog requeue :=
  let t := set_InfraNamespace appNamespaceForTenant t in
  managed ← handleManagementState ns t;
  match managed with
  | (_, (Some result, err)) => mret (returned result err)
  | (t, (None, _)) =>
      valid ← validateConfigAndGateway ns t;
      match valid with
      | (_, (Some result, err)) => mret (returned result err)
      | (_, (None, Some e)) => mret (Err e)
      | (None, _) => mret (Ok None)
      | (Some (mcfg, context), _) =>
          checked ← checkDependenciesAndPrerequisites ns t;
          match checked with
          | (_, (Some result, err)) => mret (returned result err)
          | (t, prereqReport, (None, _)) => bring_up ns t context mcfg prereqReport
          end
      end
  end.

(** [src/maas-controller/pkg/controller/maas/tenant_reconcile.go:73-123] reconcile. *)
Definition reconcile (ns : string) : pprog requeue :=
  config ← get_in w_configs ns;
  match config with
  | Err NotFound => mret (Ok None)
  | Err e => mret (Err (ErrApi e))
  | Ok t =>
      if ignored ns t then mret (Ok None)
      else
        match tenantUsesCleanupFinalizer ns t with
        | Err e => mret (Err (ErrOther e))
        | Ok uses =>
            if tc_deleting t then handleDeletion ns t
            else
              t ←? converge_finalizer ns t uses;
              reconcile_live ns t
        end
  end.

(** The answer of the server that an error comes from. *)
Fixpoint cause (e : error) : option api_error :=
  match e with ErrApi e => Some e | In _ e => cause e | _ => None end.

(** [src/maas-controller/pkg/controller/maas/tenant_controller.go:156-166] isMaasTenantConfigConflict. *)
Definition isMaasTenantConfigConflict (e : error) : bool :=
  match cause e with
  | Some e => details_name e == Some Tenant.default_tenant_name
  | None => false
  end.

(** A conflict on the configuration itself has it reconciled again at once.
    [src/maas-controller/pkg/controller/maas/tenant_controller.go:140-154] Reconcile. *)
Definition Reconcile (ns : string) : pprog requeue :=
  result ← reconcile ns;
  mret match result with
       | Err e =>
           if match cause e with Some e => is_conflict e | None => false end
              && isMaasTenantConfigConflict e
           then Ok (after 0) else Err e
       | Ok _ => result
       end.

(** ** Events *)

(** [src/maas-controller/pkg/controller/maas/tenant_controller.go:170-175] enqueueDefaultTenant. *)
Definition enqueueDefaultTenant : list key :=
  [(tr_TenantNamespace r, Tenant.default_tenant_name)].
(** [src/maas-controller/pkg/controller/maas/tenant_controller.go:177-186] enqueueTenantForAITenant. *)
Definition enqueueTenantForAITenant (aitenantName : string) : list key :=
  [(TenantNamespaceForAITenant aitenantName (tr_TenantNamespace r), Tenant.default_tenant_name)].
(** [src/maas-controller/pkg/controller/maas/tenant_controller.go:188-195] crdLabeledForMaaSComponent. *)
Definition crdLabeledForMaaSComponent (labels : gmap string string) : bool :=
  at_key labels ("app.opendatahub.io/" +:+ Tenant.ComponentName) == "true".
(** [src/maas-controller/pkg/controller/maas/tenant_controller.go:197-201] secretNamedMaaSDB. *)
Definition secretNamedMaaSDB (name : string) : bool := name == MaaSDBSecretName.
(** [src/maas-controller/pkg/controller/maas/tenant_controller.go:203-210] inTenantWorkNamespaces. *)
Definition inTenantWorkNamespaces (ns : string) : bool :=
  (ns == appNamespaceForTenant) || (ns == tr_TenantNamespace r) || (ns == operatorNamespace).
End controller.
End ConfigController.
