(* ===== verification/Admission.v ===== *)
(** The admission webhooks: what requests that create or update AITenants,
    subscriptions, policies and model references are let through, and the requests
    on AITenants as the API server serves them.
    [src/maas-controller/pkg/webhook]. *)
From S2P Require Import Prelude GoStrings GoFmt Runtime MaasTypes Cluster TenantCluster.
From S2P Require Import AITenantParts.
Import Cluster Fmt Infra Tenant.

Module Webhooks.

(** ** Validators *)

(** What the server sends to a validator, decoded. *)
Inductive runtime_object : Type :=
  | AnAITenant (k : key) (t : object AITenants)
  | ASubscription (k : key) (s : V1.MaaSSubscription)
  | APolicy (k : key) (p : V1.MaaSAuthPolicy)
  | AModelRef (k : key) (m : V1.MaaSModelRef).

(** [%T]. *)
Definition type_name (obj : runtime_object) : string :=
  match obj with
  | AnAITenant _ _ => "*v1alpha1.AITenant"
  | ASubscription _ _ => "*v1alpha1.MaaSSubscription"
  | APolicy _ _ => "*v1alpha1.MaaSAuthPolicy"
  | AModelRef _ _ => "*v1alpha1.MaaSModelRef"
  end.
Definition unexpected (what : string) (obj : runtime_object) : error :=
  ErrText ("expected " +:+ what +:+ ", got " +:+ type_name obj).

(** Whether the client is set, and the configuration.
    [src/maas-controller/pkg/webhook/aitenant_webhook.go:34-38] AITenantValidator. *)
Record AITenantValidator : Type := mkAITenantValidator {
  at_Client : bool;
  at_AITenantNamespace : string;
  at_GatewayNamespace : string;
}.

(** [src/maas-controller/pkg/webhook/maasmodelref_webhook.go:36-39] MaaSModelRefValidator. *)
Record MaaSModelRefValidator : Type := mkMaaSModelRefValidator {
  mr_Client : bool;
  mr_AITenantNamespace : string;
}.

(** [src/maas-controller/pkg/webhook/tenant_namespace_validator.go:30-32] TenantNamespaceValidator. *)
Record TenantNamespaceValidator : Type := mkTenantNamespaceValidator { tn_Client : bool }.

Section validators.
Context `{ApiServer, TenantServer} {uni : Unicode}.

(** *** AITenants *)

(** [src/maas-controller/pkg/webhook/aitenant_webhook.go:124-135] gatewayRefFor. *)
Definition gatewayRefFor (v : AITenantValidator) (k : key) (s : AITenantSpec) : GatewayRef :=
  let ref := mkGateway k.2 (at_GatewayNamespace v) in
  match sp_Gateway s with
  | Some name => if name != "" then mkGateway name (g_Namespace ref) else ref
  | None => ref
  end.

(** Another tenant than the one at a key has the Gateway.
    [src/maas-controller/pkg/webhook/aitenant_webhook.go:149-157] validateGatewayUniqueness. *)
Definition in_use (v : AITenantValidator) (k : key) (target : GatewayRef)
    (item : key * object AITenants) : bool :=
  negb ((item.1.2 == k.2) && (item.1.1 == k.1))
  && (let existing := gatewayRefFor v item.1 (aitenant_spec item.2) in
      (g_Namespace existing == g_Namespace target) && (g_Name existing == g_Name target)).

(** [src/maas-controller/pkg/webhook/aitenant_webhook.go:137-169] validateGatewayUniqueness. *)
Definition validateGatewayUniqueness (v : AITenantValidator) (k : key) (t : object AITenants)
    : tprog () :=
  let target := gatewayRefFor v k (aitenant_spec t) in
  items ←? call "failed to list AITenants" (List AITenants (λ k' _, k'.1 == at_AITenantNamespace v));
  mret match List.find (in_use v k target) items with
       | Some (k', _) =>
           Err (ErrText ("gateway " +:+ slash (g_Namespace target) (g_Name target)
             +:+ " is already in use by AITenant " +:+ slash k'.1 k'.2
             +:+ "; each AITenant requires a dedicated Gateway for isolation; please create a new "
             +:+ "Gateway for this tenant or specify a different gateway name in spec.gateway.name"))
       | None => Ok ()
       end.

(** The configuration is complete.
    [src/maas-controller/pkg/webhook/aitenant_webhook.go:54-65] ValidateCreate. *)
Definition configured (v : option AITenantValidator) : result error AITenantValidator :=
  match v with
  | None => Err (ErrText "webhook validator not configured")
  | Some v =>
      if negb (at_Client v) then Err (ErrText "webhook client not configured")
      else if at_AITenantNamespace v == "" then
        Err (ErrText "AITenant infrastructure namespace is not configured")
      else if at_GatewayNamespace v == "" then
        Err (ErrText "gateway namespace is not configured")
      else Ok v
  end.

(** [src/maas-controller/pkg/webhook/aitenant_webhook.go:48-79] ValidateCreate. *)
Definition ValidateCreate (v : option AITenantValidator) (obj : runtime_object) : tprog () :=
  match obj with
  | AnAITenant k t =>
      match configured v with
      | Err e => mret (Err e)
      | Ok v =>
          if k.1 != at_AITenantNamespace v then
            mret (Err (ErrText ("AITenant " +:+ slash k.1 k.2
              +:+ " must be created in the configured AITenant infrastructure namespace "
              +:+ Quote (at_AITenantNamespace v))))
          else validateGatewayUniqueness v k t
      end
  | _ => mret (Err (unexpected "AITenant object" obj))
  end.

(** [src/maas-controller/pkg/webhook/aitenant_webhook.go:81-114] ValidateUpdate. *)
Definition ValidateUpdate (v : option AITenantValidator) (oldObj newObj : runtime_object)
    : tprog () :=
  match oldObj, newObj with
  | AnAITenant _ _, AnAITenant k t =>
      match configured v with
      | Err e => mret (Err e)
      | Ok v => validateGatewayUniqueness v k t
      end
  | AnAITenant _ _, _ => mret (Err (unexpected "AITenant object for new" newObj))
  | _, _ => mret (Err (unexpected "AITenant object for old" oldObj))
  end.

(** *** Subscriptions and policies *)

(** Whether a namespace may contain them, and why not.
    [src/maas-controller/pkg/webhook/tenant_namespace_validator.go:40-67] ValidateNamespace. *)
Definition ValidateNamespace (v : option TenantNamespaceValidator) (namespace : string)
    : prog infra (bool * string) :=
  match v with
  | Some (mkTenantNamespaceValidator true) =>
      configs ← List MaasTenantConfigs (λ k _, k.1 == namespace);
      match configs with
      | Err e =>
          mret (false, "failed to check for MaasTenantConfig CR in namespace "
            +:+ Quote namespace +:+ ": " +:+ server_error_text e)
      | Ok configs =>
          if 0 <? length configs then mret (true, "")
          else
            legacy ← List Tenants (λ k _, k.1 == namespace);
            match legacy with
            | Err e =>
                mret (false, "failed to check for legacy Tenant CR in namespace "
                  +:+ Quote namespace +:+ ": " +:+ server_error_text e)
            | Ok legacy =>
                if 0 <? length legacy then mret (true, "")
                else mret (false, "namespace " +:+ Quote namespace
                  +:+ " is not enabled for MaaS tenant resources. "
                  +:+ "Create a MaasTenantConfig CR in this namespace to enable it.")
            end
      end
  | _ => mret (false, "namespace validator not configured")
  end.

(** [src/maas-controller/pkg/webhook/maassubscription_webhook.go:55-62] ValidateCreate. *)
Definition in_tenant_namespace (v : option TenantNamespaceValidator) (namespace : string)
    : tprog () :=
  match v with
  | None => mret (Err (ErrText "webhook validator not configured"))
  | Some _ =>
      allowed ← ValidateNamespace v namespace;
      mret (if allowed.1 : bool then Ok () else Err (ErrText allowed.2))
  end.

(** [src/maas-controller/pkg/webhook/maassubscription_webhook.go:48-65] ValidateCreate. *)
Definition ValidateCreate_subscription (v : option TenantNamespaceValidator)
    (obj : runtime_object) : tprog () :=
  match obj with
  | ASubscription k _ => in_tenant_namespace v k.1
  | _ => mret (Err (unexpected "MaaSSubscription object" obj))
  end.

(** [src/maas-controller/pkg/webhook/maasauthpolicy_webhook.go:48-65] ValidateCreate. *)
Definition ValidateCreate_policy (v : option TenantNamespaceValidator) (obj : runtime_object)
    : tprog () :=
  match obj with
  | APolicy k _ => in_tenant_namespace v k.1
  | _ => mret (Err (unexpected "MaaSAuthPolicy object" obj))
  end.

(** *** Model references *)

(** [src/maas-controller/pkg/webhook/maasmodelref_webhook.go:84-115] validateTenantRef. *)
Definition validateTenantRef (v : option MaaSModelRefValidator) (m : V1.MaaSModelRef) : tprog () :=
  let ref := V1.m_TenantRef (V1.m_Spec m) in
  if ref == "" then mret (Ok ())
  else
    match v with
    | None => mret (Err (ErrText "webhook validator not configured"))
    | Some v =>
        if negb (mr_Client v) then mret (Err (ErrText "webhook client not configured"))
        else if mr_AITenantNamespace v == "" then
          mret (Err (ErrText "AITenant infrastructure namespace is not configured"))
        else
          aitenant ← Get AITenants (mr_AITenantNamespace v, ref);
          mret match aitenant with
               | Ok _ => Ok ()
               | Err e =>
                   if isNotFoundError e then
                     Err (ErrText ("spec.tenantRef " +:+ Quote ref
                       +:+ " references AITenant that does not exist in namespace "
                       +:+ mr_AITenantNamespace v))
                   else Err (ErrIn "failed to validate tenantRef" (ErrServer e))
               end
    end.

(** [src/maas-controller/pkg/webhook/maasmodelref_webhook.go:49-61] ValidateCreate. *)
Definition ValidateCreate_model (v : option MaaSModelRefValidator) (obj : runtime_object)
    : tprog () :=
  match obj with
  | AModelRef _ m => validateTenantRef v m
  | _ => mret (Err (unexpected "MaaSModelRef object" obj))
  end.
(** [src/maas-controller/pkg/webhook/maasmodelref_webhook.go:63-75] ValidateUpdate. *)
Definition ValidateUpdate_model (v : option MaaSModelRefValidator) (oldObj newObj : runtime_object)
    : tprog () :=
  match newObj with
  | AModelRef _ m => validateTenantRef v m
  | _ => mret (Err (unexpected "MaaSModelRef object" newObj))
  end.

(** *** What is always let through *)

(** [src/maas-controller/pkg/webhook/aitenant_webhook.go:116-122] ValidateDelete. *)
Definition ValidateDelete (obj : runtime_object) : tprog () := mret (Ok ()).
(** [src/maas-controller/pkg/webhook/maassubscription_webhook.go:67-79] ValidateUpdate. *)
Definition ValidateUpdate_subscription (oldObj newObj : runtime_object) : tprog () := mret (Ok ()).
(** [src/maas-controller/pkg/webhook/maasauthpolicy_webhook.go:67-79] ValidateUpdate. *)
Definition ValidateUpdate_policy (oldObj newObj : runtime_object) : tprog () := mret (Ok ()).
End validators.

(** ** Requests *)

(** A manager's validator of AITenants has the configuration of its controller. *)
Definition validator_of (r : AITenantReconciler) : AITenantValidator :=
  mkAITenantValidator true (aitenantNamespace r) (GatewaysNamespace r).

(** The validators that are registered, each for the creation of its kind.
    [src/maas-controller/cmd/manager/main.go:926-961] setupWebhooks. *)
Definition admit_create `{ApiServer, TenantServer} {uni : Unicode} (r : AITenantReconciler)
    (obj : runtime_object) : tprog () :=
  let tenantValidator := Some (mkTenantNamespaceValidator true) in
  match obj with
  | AnAITenant _ _ => ValidateCreate (Some (validator_of r)) obj
  | ASubscription _ _ => ValidateCreate_subscription tenantValidator obj
  | APolicy _ _ => ValidateCreate_policy tenantValidator obj
  | AModelRef _ _ =>
      ValidateCreate_model (Some (mkMaaSModelRefValidator true (aitenantNamespace r))) obj
  end.

(** A request on an AITenant. *)
Inductive request : Type :=
  | CreateTenant (k : key) (t : object AITenants)
  | UpdateTenant (k : key) (t : object AITenants)
  | UpdateTenantStatus (k : key) (st : AITenantStatus)
  | DeleteTenant (k : key).

Section requests.
Context `{ApiServer, TenantServer} {uni : Unicode} (v : option AITenantValidator).

(** As [failurePolicy=fail] has the server treat it, on creations and updates but
    not on updates of the status. *)
Definition serve (q : request) : tprog () :=
  match q with
  | CreateTenant k t =>
      _ ←? ValidateCreate v (AnAITenant k t);
      plain_call (Create AITenants k t)
  | UpdateTenant k t =>
      old ←? plain_call (Get AITenants k);
      _ ←? ValidateUpdate v (AnAITenant k old) (AnAITenant k t);
      plain_call (Patch AITenants k t)
  | UpdateTenantStatus k st => plain_call (UpdateStatus AITenants k st)
  | DeleteTenant k => plain_call (Delete AITenants k)
  end.

Fixpoint serve_all (qs : list request) : prog infra (list (result error ())) :=
  match qs with
  | [] => mret []
  | q :: qs => x ← serve q; xs ← serve_all qs; mret (x :: xs)
  end.
End requests.

End Webhooks.
