(* ===== verification/AITenantFacts.v ===== *)
(** How the AITenant controller's programs are reasoned about, by weakest
    preconditions over the store, and what each part of a reconcile does. *)
From S2P Require Import Prelude GoStrings Sorting Trimming Json Sha256 Runtime.
From S2P Require Import GoFmt MaasTypes Cluster ControllerHelpers ControllerFacts TenantCluster.
From S2P Require Import AuthPolicyGateway AITenantParts AITenantController.
Import Cluster Helpers Fmt Infra Tenant TenantController.

(** ** Weakest preconditions *)

Section wp.
Context {S : Type}.

(** Started in a state, at whatever tick, the program ends in a state and with an
    answer that are related so. *)
Definition wp {A} (m : prog S A) (Q : A → S → Prop) (c : S) : Prop :=
  ∀ n, Q (m (IO n c)).1 (state (m (IO n c)).2).

Lemma wp_run {A} (m : prog S A) Q w : wp m Q (state w) → Q (m w).1 (state (m w).2).
Proof. destruct w as [n c]. intros H. apply H. Qed.

Lemma wp_ret {A} (x : A) (Q : A → S → Prop) c : Q x c → wp (mret x) Q c.
Proof. intros H n. apply H. Qed.

Lemma wp_bind {A B} (m : prog S A) (f : A → prog S B) Q c :
  wp m (λ x, wp (f x) Q) c → wp (m ≫= f) Q c.
Proof.
  intros H n. rewrite bind_run. specialize (H n).
  destruct (m (IO n c)) as [x [n' c']]. apply H.
Qed.

Lemma wp_mono {A} (m : prog S A) (Q R : A → S → Prop) c :
  wp m Q c → (∀ x c', Q x c' → R x c') → wp m R c.
Proof. intros H HR n. apply HR, H. Qed.

Lemma wp_and {A} (m : prog S A) (Q R : A → S → Prop) c :
  wp m Q c → wp m R c → wp m (λ x c', Q x c' ∧ R x c') c.
Proof. intros HQ HR n. by split. Qed.

Lemma wp_try {E A B} (m : prog S (result E A)) (f : A → prog S (result E B)) Q c :
  wp m (λ x c', match x with Ok x => wp (f x) Q c' | Err e => Q (Err e) c' end) c →
  wp (try_bind m f) Q c.
Proof. intros H. apply wp_bind. eapply wp_mono; [done|]. intros [x|e] c' Hx; [done|by apply wp_ret]. Qed.

Lemma wp_tick (Q : nat → S → Prop) c : (∀ n, Q n c) → wp tick Q c.
Proof. intros H n. apply H. Qed.

Lemma wp_reads {A} (m : prog S A) (Q : S → A → Prop) c :
  reads m Q → wp m (λ x c', c' = c ∧ Q c x) c.
Proof. intros H n. destruct (H (IO n c)) as [E HQ]. done. Qed.

Lemma wp_respects {A} (R : S → S → Prop) (m : prog S A) c :
  respects R m → wp m (λ _, R c) c.
Proof. intros H n. apply (H (IO n c)). Qed.

Lemma respects_wp {A} (R : S → S → Prop) (m : prog S A) :
  (∀ c, wp m (λ _, R c) c) → respects R m.
Proof. intros H [n c]. apply (H c n). Qed.
End wp.

(** Runs the first step of a program by a lemma on it. *)
Ltac wp_step L := eapply wp_bind, wp_mono; [by apply L|].
Ltac wp_try_step L := eapply wp_try, wp_mono; [by apply L|].

(** ** Calls *)

Section calls.
Context {srv : ApiServer} {tsrv : TenantServer} {lawful : LawfulApiServer}.

(** A mutation takes effect when it succeeds; when it fails, the server says why
    and does nothing, or something failed and it took effect or not. *)
Lemma wp_mutate f c :
  (∀ n e, f n c ≠ Err (Unavailable e)) →
  wp (mutate f) (λ x c', ∃ n,
    match x with
    | Ok _ => f n c = Ok c'
    | Err (Unavailable _) => unreliable ∧ (c' = c ∨ f n c = Ok c')
    | Err e => c' = c ∧ f n c = Err e
    end) c.
Proof.
  intros Hf n. exists n. specialize (Hf n).
  unfold mutate, mbind, prog_bind, get, tick, put. cbn.
  destruct (api_fault n) as [[e [|]]|] eqn:E.
  - assert unreliable by (exists n; by rewrite E). destruct (f n c) eqn:F; cbn; eauto.
  - assert unreliable by (exists n; by rewrite E). cbn. eauto.
  - destruct (f n c) as [c'|[]] eqn:F; cbn; try done. by destruct (Hf e).
Qed.

(** What the calls do when they take effect. *)
Definition created {K} (k : key) (o : object K) (c c' : infra) : Prop :=
  (k.1 = "" ∨ is_Some (c Namespaces !! ("", k.1))) ∧ c K !! k = None
  ∧ ∃ n, c' = update (K := K) <[k := with_meta (created_meta n) o]> c.
Definition patched {K} (k : key) (o : object K) (c c' : infra) : Prop :=
  ∃ old, c K !! k = Some old
    ∧ c' = update (K := K) (partial_alter (λ _, stored old o) k) c.
Definition status_set {K} (k : key) (st : status_of K) (c c' : infra) : Prop :=
  ∃ old, c K !! k = Some old
    ∧ c' = update (K := K) <[k := with_status (λ _, st) old]> c.
Definition removed (K : Kind) (k : key) (c c' : infra) : Prop :=
  ∃ old n, c K !! k = Some old
    ∧ c' = update (K := K) (partial_alter (λ _, deleted (clock n) old) k) c.

Lemma wp_Get K k c :
  wp (Get K k) (λ x c', c' = c ∧
    match x with
    | Ok o => c K !! k = Some o
    | Err NotFound => c K !! k = None
    | Err (Unavailable _) => unreliable
    | Err _ => False
    end) c.
Proof.
  intros n. unfold Get, mbind, prog_bind, get, tick. cbn.
  destruct (api_fault n) as [[e b]|] eqn:E; cbn.
  - split; [done|]. exists n. by rewrite E.
  - split; [done|]. by destruct (c K !! k).
Qed.

Lemma wp_List K test c :
  wp (List K test) (λ x c', c' = c ∧
    match x with
    | Ok l => l ≡ₚ List.filter (λ ko : key * object K, test ko.1 ko.2) (map_to_list (c K))
    | Err (Unavailable _) => unreliable
    | Err _ => False
    end) c.
Proof.
  intros n. unfold Infra.List, mbind, prog_bind, get, tick. cbn.
  destruct (api_fault n) as [[e b]|] eqn:E; cbn.
  - split; [done|]. exists n. by rewrite E.
  - split; [done|]. apply filter_bool_perm, list_order_perm.
Qed.

Lemma wp_Create K k o c :
  wp (Create K k o) (λ x c',
    match x with
    | Ok _ => created k o c c'
    | Err AlreadyExists => c' = c ∧ is_Some (c K !! k)
    | Err NamespaceNotFound => c' = c ∧ k.1 ≠ "" ∧ c Namespaces !! ("", k.1) = None
    | Err (Unavailable _) => unreliable ∧ (c' = c ∨ created k o c c')
    | Err NotFound => False
    end) c.
Proof.
  unfold Create. eapply wp_mono; [apply wp_mutate|].
  { intros n e. by repeat case_match. }
  intros x c' [n Hx]. unfold created.
  assert ((k.1 != "") && negb (bool_decide (is_Some (c Namespaces !! ("", k.1)))) = false
    → k.1 = "" ∨ is_Some (c Namespaces !! ("", k.1))) as Hns.
  { intros [H|H]%andb_false_iff.
    - left. by apply negb_false_iff, bool_decide_eq_true in H.
    - right. by apply negb_false_iff, bool_decide_eq_true in H. }
  destruct ((k.1 != "") && _) eqn:En.
  { apply andb_true_iff in En as [E1%negb_true_iff%bool_decide_eq_false E2].
    apply negb_true_iff, bool_decide_eq_false in E2.
    apply eq_None_not_Some in E2. destruct x as [[]|[]]; naive_solver. }
  specialize (Hns eq_refl).
  destruct (c K !! k) as [old|] eqn:E; destruct x as [[]|[]]; naive_solver.
Qed.

Lemma wp_Patch K k o c :
  wp (Patch K k o) (λ x c',
    match x with
    | Ok _ => patched k o c c'
    | Err NotFound => c' = c ∧ c K !! k = None
    | Err (Unavailable _) => unreliable ∧ (c' = c ∨ patched k o c c')
    | Err _ => False
    end) c.
Proof.
  unfold Patch. eapply wp_mono; [apply wp_mutate|].
  { intros n e. by repeat case_match. }
  intros x c' [n Hx]. unfold patched.
  destruct (c K !! k) as [old|] eqn:E; destruct x as [[]|[]]; naive_solver.
Qed.

Lemma wp_UpdateStatus K k st c :
  wp (UpdateStatus K k st) (λ x c',
    match x with
    | Ok _ => status_set k st c c'
    | Err NotFound => c' = c ∧ c K !! k = None
    | Err (Unavailable _) => unreliable ∧ (c' = c ∨ status_set k st c c')
    | Err _ => False
    end) c.
Proof.
  unfold UpdateStatus. eapply wp_mono; [apply wp_mutate|].
  { intros n e. by repeat case_match. }
  intros x c' [n Hx]. unfold status_set.
  destruct (c K !! k) as [old|] eqn:E; destruct x as [[]|[]]; naive_solver.
Qed.

Lemma wp_Delete K k c :
  wp (Delete K k) (λ x c',
    match x with
    | Ok _ => removed K k c c'
    | Err NotFound => c' = c ∧ c K !! k = None
    | Err (Unavailable _) => unreliable ∧ (c' = c ∨ removed K k c c')
    | Err _ => False
    end) c.
Proof.
  unfold Delete. eapply wp_mono; [apply wp_mutate|].
  { intros n e. by repeat case_match. }
  intros x c' [n Hx]. unfold removed.
  destruct (c K !! k) as [old|] eqn:E; destruct x as [[]|[]]; naive_solver.
Qed.

(** ** Frames *)

(** Only objects of the set change. *)
Definition only (F : Kind → key → Prop) (c c' : infra) : Prop :=
  ∀ K k, ¬ F K k → c' K !! k = c K !! k.

#[export] Instance only_refl F : Reflexive (only F).
Proof. by intros c K k. Qed.
#[export] Instance only_trans F : Transitive (only F).
Proof. intros c1 c2 c3 H1 H2 K k HF. by rewrite H2, H1. Qed.
Lemma only_mono (F F' : Kind → key → Prop) c c' :
  only F c c' → (∀ K k, F K k → F' K k) → only F' c c'.
Proof. intros H HF K k Hn. apply H. auto. Qed.

Definition at_object (K : Kind) (k : key) (K' : Kind) (k' : key) : Prop := K' = K ∧ k' = k.

Lemma update_lookup {K} (g : option (object K) → option (object K)) k (c : infra) :
  update (K := K) (partial_alter g k) c K !! k = g (c K !! k).
Proof. by rewrite update_same, lookup_partial_alter_eq. Qed.
Lemma update_only {K} (g : option (object K) → option (object K)) k (c : infra) :
  only (at_object K k) c (update (K := K) (partial_alter g k) c).
Proof.
  intros K' k' Hne. destruct (decide (K = K')) as [<-|HK].
  - rewrite update_same. destruct (decide (k' = k)) as [->|Hk]; [by destruct Hne|].
    by rewrite lookup_partial_alter_ne.
  - by rewrite update_other.
Qed.

Lemma created_only {K} k (o : object K) c c' : created k o c c' → only (at_object K k) c c'.
Proof. intros (_ & _ & n & ->). apply (update_only (λ _, Some _)). Qed.
Lemma patched_only {K} k (o : object K) c c' : patched k o c c' → only (at_object K k) c c'.
Proof. intros (old & _ & ->). apply update_only. Qed.
Lemma status_set_only {K} k (st : status_of K) c c' :
  status_set k st c c' → only (at_object K k) c c'.
Proof. intros (old & _ & ->). apply (update_only (λ _, Some _)). Qed.
Lemma removed_only K k c c' : removed K k c c' → only (at_object K k) c c'.
Proof. intros (old & n & _ & ->). apply update_only. Qed.
End calls.

#[export] Hint Resolve created_only patched_only status_set_only removed_only : maas.

(** ** Calls with contexts *)

Section contexts.
Context {srv : ApiServer} {tsrv : TenantServer}.

Lemma wp_call {A} context (m : prog infra (result server_error A)) Q c :
  wp m (λ x, Q match x with Ok a => Ok a | Err e => Err (ErrIn context (ErrServer e)) end) c →
  wp (call context m) Q c.
Proof. intros H. apply wp_bind. eapply wp_mono; [exact H|]. intros x c' Hx. by apply wp_ret. Qed.
Lemma wp_plain_call {A} (m : prog infra (result server_error A)) Q c :
  wp m (λ x, Q match x with Ok a => Ok a | Err e => Err (ErrServer e) end) c →
  wp (plain_call m) Q c.
Proof. intros H. apply wp_bind. eapply wp_mono; [exact H|]. intros x c' Hx. by apply wp_ret. Qed.
Lemma wp_ignore_not_found (m : prog infra (result server_error ())) Q c :
  wp m (λ x, Q match x with Err e => if isNotFoundError e then Ok () else Err e | Ok _ => Ok () end) c →
  wp (ignore_not_found m) Q c.
Proof. intros H. apply wp_bind. eapply wp_mono; [exact H|]. intros x c' Hx. by apply wp_ret. Qed.

Context {lawful : LawfulApiServer}.

(** A deletion that does not mind that the object is gone. *)
Lemma wp_delete context K k c :
  wp (call context (ignore_not_found (Delete K k))) (λ x c',
    only (at_object K k) c c' ∧ (x = Ok () → removed K k c c' ∨ c' = c ∧ c K !! k = None)
    ∧ (∀ e, x = Err e → unreliable)) c.
Proof.
  apply wp_call, wp_ignore_not_found. eapply wp_mono; [apply wp_Delete|].
  intros [[]|[]] c' Hx; cbn; try done.
  - split_and!; [eauto with maas|by left|done].
  - destruct Hx as [-> E]. split_and!; [done|by right|done].
  - destruct Hx as [Hu [->|Hx]]; split_and!; eauto with maas; done.
Qed.

(** What is left of an object after its deletion: nothing, or itself as long as
    it has finalizers. *)
Definition gone_or_going (K : Kind) (k : key) (c : infra) : Prop :=
  match c K !! k with None => True | Some o => being_deleted o = true end.

Lemma removed_gone K k c c' : removed K k c c' → gone_or_going K k c'.
Proof.
  intros (old & n & E & ->). unfold gone_or_going. rewrite update_lookup.
  unfold deleted. destruct (_ =? 0); [done|]. by destruct (being_deleted old) eqn:Ed.
Qed.

Lemma wp_delete_gone context K k c :
  wp (call context (ignore_not_found (Delete K k))) (λ x c',
    only (at_object K k) c c' ∧ (x = Ok () → gone_or_going K k c')) c.
Proof.
  eapply wp_mono; [apply wp_delete|]. intros x c' (H1 & H2 & _). split; [done|].
  intros Hx. destruct (H2 Hx) as [H|[-> H]]; [by eapply removed_gone|].
  unfold gone_or_going. by rewrite H.
Qed.
End contexts.

(** ** Objects brought up to date *)

(** The object as it was wanted. *)
Definition resembles {K} (wanted o : object K) : Prop :=
  om_Labels (meta o) = om_Labels (meta wanted)
  ∧ om_Annotations (meta o) = om_Annotations (meta wanted)
  ∧ om_Finalizers (meta o) = om_Finalizers (meta wanted)
  ∧ om_Owners (meta o) = om_Owners (meta wanted)
  ∧ spec o = spec wanted.

Lemma resembles_refl {K} (o : object K) : resembles o o.
Proof. by split_and!. Qed.

Section upserts.
Context {srv : ApiServer} {tsrv : TenantServer} {lawful : LawfulApiServer}.

(** A patch that keeps the finalizers keeps the object. *)
Lemma patched_lookup {K} k (o : object K) c c' :
  patched k o c c' →
  (∀ old, c K !! k = Some old → om_Finalizers (meta o) = om_Finalizers (meta old)) →
  ∃ old o', c K !! k = Some old ∧ c' K !! k = Some o' ∧ resembles o o'
    ∧ being_deleted o' = being_deleted old ∧ om_UID (meta o') = om_UID (meta old)
    ∧ status o' = status old.
Proof.
  intros (old & E & ->) Hf. specialize (Hf old E). exists old.
  rewrite update_lookup. unfold stored. rewrite Hf.
  assert (being_deleted old && negb (length (om_Finalizers (meta old)) =? 0)
          && (length (om_Finalizers (meta old)) =? 0) = false) as ->.
  { destruct (_ =? 0); [by rewrite andb_false_r|by rewrite andb_false_r]. }
  eexists. split_and!; [done..| |done|done|done]. by split_and!; rewrite ?Hf.
Qed.

Lemma created_lookup {K} k (o : object K) c c' :
  created k o c c' →
  ∃ o', c' K !! k = Some o' ∧ resembles o o' ∧ being_deleted o' = false ∧ status o' = status o.
Proof.
  intros (_ & _ & n & ->). rewrite update_same, lookup_insert_eq.
  eexists. split_and!; [done| |done|done]. by split_and!.
Qed.

Context {K : Kind} `{EqDecision (object K)}.
Context (kind : string) (k owner : key) (mut : object K → tprog (object K)).
Context (MQ : object K → result error (object K) → Prop) (c : infra).
Context (Hmut : ∀ base, wp (mut base) (λ x c', c' = c ∧ MQ base x) c).
Context (Hfin : ∀ base o, MQ base (Ok o) → om_Finalizers (meta o) = om_Finalizers (meta base)).

Definition upserted (o : object K) (c' : infra) : Prop :=
  ∃ base wanted o', MQ base (Ok wanted) ∧ c' K !! k = Some o' ∧ resembles wanted o'
    ∧ ((base = o ∧ c K !! k = None ∧ being_deleted o' = false ∧ status o' = status wanted)
       ∨ (c K !! k = Some base ∧ owned_by_other (meta base) owner = false
          ∧ being_deleted o' = being_deleted base ∧ status o' = status base)).

Definition not_upserted (o : object K) (e : error) : Prop :=
  unreliable
  ∨ (∃ cur, c K !! k = Some cur ∧ owned_by_other (meta cur) owner = true)
  ∨ (∃ base, MQ base (Err e) ∧ (c K !! k = Some base ∨ base = o))
  ∨ (c K !! k = None ∧ k.1 ≠ "" ∧ c Namespaces !! ("", k.1) = None
     ∧ isNamespaceMissingError e = true).

Lemma wp_upsert_existing o cur : c K !! k = Some cur →
  wp (upsert_existing kind k owner mut cur) (λ x c', only (at_object K k) c c' ∧
    match x with Ok _ => upserted o c' | Err e => not_upserted o e end) c.
Proof.
  intros E. unfold upsert_existing. destruct (owned_by_other (meta cur) owner) eqn:Eo.
  { apply wp_ret. split; [done|]. right; left. eauto. }
  wp_try_step Hmut. intros [wanted|e] c' [-> HM]; [|split; [done|]; by right; right; left; eauto].
  case_bool_decide as Heq; [subst wanted|].
  { apply wp_ret. split; [done|]. exists cur, cur, cur. split_and!; [done..|apply resembles_refl|].
    right. done. }
  apply wp_call. eapply wp_mono; [apply wp_Patch|]. intros [[]|[]] c' Hx; cbn; try done.
  - split; [eauto with maas|].
    destruct (patched_lookup k wanted c c' Hx) as (old & o' & E' & E'' & Hr & Hd & _ & Hst).
    { intros old E'. rewrite E in E'. injection E' as <-. by apply Hfin. }
    rewrite E in E'. injection E' as <-. exists cur, wanted, o'. split_and!; [done..|]. by right.
  - destruct Hx as [_ Hx]. congruence.
  - destruct Hx as [Hu [->|Hx]]; (split; [eauto with maas|by left]). done.
Qed.

Lemma wp_upsert o :
  wp (upsert kind k owner o mut) (λ x c', only (at_object K k) c c' ∧
    match x with Ok _ => upserted o c' | Err e => not_upserted o e end) c.
Proof.
  unfold upsert. wp_step wp_Get. intros [cur|e] c1 [-> E]; [by apply wp_upsert_existing|].
  destruct e; cbn; try done; [|apply wp_ret; split; [done|by left]].
  wp_try_step Hmut. intros [wanted|e] c' [-> HM]; [|split; [done|]; by right; right; left; eauto].
  wp_step wp_Create. intros [[]|[]] c' Hx; cbn; try done.
  - apply wp_ret. split; [eauto with maas|].
    destruct (created_lookup k wanted c c' Hx) as (o' & E' & Hr & Hd & Hst).
    exists o, wanted, o'. split_and!; [done..|]. by left.
  - destruct Hx as (-> & Hk & Hns). apply wp_ret. split; [done|]. do 3 right. done.
  - destruct Hx as [-> [cur E']]. congruence.
  - destruct Hx as [Hu [->|Hx]]; apply wp_ret; (split; [eauto with maas|by left]). done.
Qed.
End upserts.

(** ** Ownership *)

Definition tenant_labels (k : key) (tenantNamespace : string) : list (string * string) :=
  [("app.kubernetes.io/managed-by", "maas-controller");
   ("app.kubernetes.io/part-of", ComponentName); (LabelManagedByAITenant, "true");
   (LabelAIGatewayTenant, k.2); (LabelTenantName, k.2);
   (LabelTenantNamespace, tenantNamespace); (LabelGatewayAccess, "true")].

(** The object says whose it is. *)
Definition marked (k : key) (tenantNamespace : string) (m : ObjectMeta) : Prop :=
  Forall (λ kv : string * string, om_Labels m !! kv.1 = Some kv.2) (tenant_labels k tenantNamespace)
  ∧ om_Annotations m !! AnnotationAITenantName = Some k.2
  ∧ om_Annotations m !! AnnotationAITenantNamespace = Some k.1.

Lemma apply_marked k ns m : marked k ns (applyAITenantMetadata k ns m).
Proof.
  unfold marked, applyAITenantMetadata. cbn. split_and!.
  - repeat (apply Forall_cons; split;
      [cbn; repeat first [apply lookup_insert_eq|rewrite lookup_insert_ne by done]|]).
    by apply Forall_nil.
  - by rewrite lookup_insert_ne, lookup_insert_eq by done.
  - by rewrite lookup_insert_eq.
Qed.

Lemma marked_eq k ns m m' :
  om_Labels m' = om_Labels m → om_Annotations m' = om_Annotations m →
  marked k ns m → marked k ns m'.
Proof. unfold marked. by intros -> ->. Qed.

Lemma marked_new k ns m :
  marked k ns m →
  marked k ns (set_Annotations <[aitenantCreatedAnnotation := "true"]>
                 (set_Labels <[generatedNamespaceLabel := "true"]> m)).
Proof.
  intros (Hl & H1 & H2). unfold marked. cbn. rewrite !lookup_insert_ne by done.
  split_and!; [|done..]. unfold tenant_labels in *. rewrite !Forall_cons in *. cbn in *.
  rewrite !lookup_insert_ne, Forall_nil by done. naive_solver.
Qed.

Lemma marked_owned k ns m : marked k ns m → ownedByAITenant m k = true.
Proof.
  intros (_ & H1 & H2). unfold ownedByAITenant, at_key. rewrite H1, H2. cbn.
  by rewrite !bool_decide_eq_true_2.
Qed.

Lemma owned_not_other m k : ownedByAITenant m k = true → owned_by_other m k = false.
Proof. unfold owned_by_other. intros ->. apply andb_false_r. Qed.

(** ** Names *)

Lemma aitenantBoundedName_prefix prefix name suffix n :
  String.length prefix + String.length suffix + 10 ≤ n →
  ∃ s, aitenantBoundedName prefix name suffix n = prefix +:+ s.
Proof.
  intros Hn. unfold aitenantBoundedName. destruct (_ <=? n); [by eexists|].
  cbv zeta. set (hash := String.substring 0 8 _).
  pose proof (Naming.substring_length 0 8 (SHA.EncodeToString (SHA.Sum256 name))) as Hh.
  fold hash in Hh. rewrite (proj2 (Z.ltb_ge _ _)) by lia. by eexists.
Qed.

Lemma aitenantBoundedName_length prefix name suffix n :
  String.length prefix + String.length suffix + 17 ≤ n →
  String.length (aitenantBoundedName prefix name suffix n) ≤ n.
Proof.
  intros Hn. unfold aitenantBoundedName.
  destruct (Nat.leb_spec (String.length (prefix +:+ name +:+ suffix)) n); [done|].
  cbv zeta. set (hash := String.substring 0 8 _).
  pose proof (Naming.substring_length 0 8 (SHA.EncodeToString (SHA.Sum256 name))) as Hh.
  fold hash in Hh. set (budget := (Z.of_nat n - _ - _ - _ - 1)%Z).
  assert (1 ≤ budget)%Z by lia. rewrite (proj2 (Z.ltb_ge _ _)) by lia.
  pose proof (Naming.Trim_length (String.substring 0 (Z.to_nat budget) name)) as Ht.
  pose proof (Naming.substring_length 0 (Z.to_nat budget) name) as Hb.
  rewrite !length_app_str. change (String.length "-") with 1. case_bool_decide; lia.
Qed.

Lemma aitenantChildName_nonempty name suffix :
  String.length suffix ≤ 43 → aitenantChildName name suffix ≠ "".
Proof.
  intros Hs. unfold aitenantChildName.
  destruct (aitenantBoundedName_prefix "aitenant-" name ("-" +:+ suffix) 63) as [s ->]; [|done].
  rewrite length_app_str. cbn. lia.
Qed.

(** ** The namespace *)

#[global] Arguments gatewayClaimName : simpl never.
#[global] Arguments aitenantBoundedName : simpl never.

Section parts.
Context {srv : ApiServer} {tsrv : TenantServer} {lawful : LawfulApiServer}.
Context {uni : Unicode} (r : AITenantReconciler).

Definition tenant_ns (k : key) : key := ("", tenantNamespaceName r k).
Definition config_key (k : key) : key := (tenantNamespaceName r k, default_tenant_name).

Lemma wp_adopt_namespace k ns c : c Namespaces !! tenant_ns k = Some ns →
  wp (adopt_namespace r k ns) (λ x c', only (at_object Namespaces (tenant_ns k)) c c' ∧
    match x with
    | Ok created => created = false ∧ ∃ ns', c' Namespaces !! tenant_ns k = Some ns'
        ∧ marked k (tenantNamespaceName r k) (meta ns') ∧ namespace_phase ns' ≠ "Terminating"
    | Err _ => unreliable ∨ namespace_phase ns = "Terminating" ∨ owned_by_other (meta ns) k = true
    end) c.
Proof.
  intros E. unfold adopt_namespace. case_bool_decide as Ht.
  { apply wp_ret. split; [done|]. auto. }
  destruct (owned_by_other _ _) eqn:Eo. { apply wp_ret. split; [done|]. auto. }
  case_bool_decide as Heq.
  { apply wp_ret. split; [done|]. split; [done|]. exists ns. split_and!; [done| |done].
    rewrite Heq. apply apply_marked. }
  apply wp_try, wp_call. eapply wp_mono; [apply wp_Patch|]. intros [[]|[]] c' Hx; cbn; try done.
  - apply wp_ret. split; [eauto with maas|]. split; [done|].
    destruct (patched_lookup _ _ c c' Hx) as (old & ns' & E' & E'' & Hr & _ & _ & Hst).
    { intros old E'. fold (tenant_ns k) in E'. rewrite E in E'. by injection E' as <-. }
    fold (tenant_ns k) in E', E''. rewrite E in E'. injection E' as <-.
    exists ns'. split_and!; [done| |unfold namespace_phase in *; by rewrite Hst].
    destruct Hr as (Hl & Ha & _). eapply marked_eq; [exact Hl|exact Ha|apply apply_marked].
  - destruct Hx as [_ Hx]. change ("", tenantNamespaceName r k) with (tenant_ns k) in *. congruence.
  - destruct Hx as [Hu [->|Hx]]; (split; [eauto with maas|by left]). done.
Qed.

Lemma wp_ensureTenantNamespace k c :
  wp (ensureTenantNamespace r k) (λ x c', only (at_object Namespaces (tenant_ns k)) c c' ∧
    match x with
    | Ok created => created = bool_decide (c Namespaces !! tenant_ns k = None)
        ∧ ∃ ns', c' Namespaces !! tenant_ns k = Some ns'
        ∧ marked k (tenantNamespaceName r k) (meta ns') ∧ namespace_phase ns' ≠ "Terminating"
    | Err _ => unreliable ∨ ∃ ns, c Namespaces !! tenant_ns k = Some ns
        ∧ (namespace_phase ns = "Terminating" ∨ owned_by_other (meta ns) k = true)
    end) c.
Proof.
  unfold ensureTenantNamespace. wp_step wp_Get. intros [ns|e] c1 [-> E];
    change ("", tenantNamespaceName r k) with (tenant_ns k) in *.
  { eapply wp_mono; [by apply wp_adopt_namespace|]. cbn. intros [created|e] c' [H1 H2].
    - split; [done|]. destruct H2 as (-> & ns' & H2). split; [|by exists ns'].
      by rewrite E.
    - split; [done|]. destruct H2 as [?|H2]; eauto. }
  destruct e; cbn; try done; [|apply wp_ret; split; [done|by left]].
  wp_step wp_Create. intros [[]|[]] c' Hx; cbn; try done.
  - apply wp_ret. split; [eauto with maas|]. split; [by rewrite E|].
    destruct (created_lookup _ _ c c' Hx) as (ns' & E' & Hr & Hd & Hst).
    exists ns'. split_and!; [done| |unfold namespace_phase; by rewrite Hst].
    destruct Hr as (Hl & Ha & _). eapply marked_eq; [exact Hl|exact Ha|].
    apply marked_new, apply_marked.
  - destruct Hx as (_ & Hk & _). by destruct Hk.
  - destruct Hx as [_ [? Hx]]. change ("", tenantNamespaceName r k) with (tenant_ns k) in *. congruence.
  - destruct Hx as [Hu [->|Hx]]; apply wp_ret; (split; [eauto with maas|by left]). done.
Qed.

(** ** The configuration *)

Lemma wp_copyLegacyTenantConfig ns config c :
  wp (copyLegacyTenantConfig ns config) (λ x c', c' = c ∧
    match x with Ok o => meta o = meta config | Err _ => unreliable end) c.
Proof.
  unfold copyLegacyTenantConfig. wp_step wp_Get. intros [legacy|e] c' [-> E]; apply wp_ret;
    [done|]. by destruct e.
Qed.

Definition configured (k : key) (base : object MaasTenantConfigs)
    (x : result error (object MaasTenantConfigs)) : Prop :=
  match x with
  | Ok o => being_deleted base = false
      ∧ meta o = applyAITenantMetadata k (tenantNamespaceName r k) (meta base)
  | Err _ => unreliable ∨ being_deleted base = true
  end.

Lemma wp_configure k base c :
  wp (configure k (tenantNamespaceName r k) base) (λ x c', c' = c ∧ configured k base x) c.
Proof.
  unfold configure. destruct (being_deleted base) eqn:Ed.
  { apply wp_ret. split; [done|]. by right. }
  eapply wp_mono; [apply wp_copyLegacyTenantConfig|]. intros [o|e] c' [-> H]; cbn; auto.
Qed.

Definition legacy_key (k : key) (K' : Kind) (k' : key) : Prop := at_object Tenants (config_key k) K' k'.

Lemma wp_markLegacyTenantDeprecated k c :
  wp (markLegacyTenantDeprecated k (tenantNamespaceName r k)) (λ x c',
    only (at_object Tenants (config_key k)) c c' ∧ ∀ e, x = Err e → unreliable) c.
Proof.
  unfold markLegacyTenantDeprecated. wp_step wp_Get. intros [legacy|e] c' [-> E].
  - destruct (owned_by_other _ _); [by apply wp_ret|].
    case_bool_decide; [by apply wp_ret|]. apply wp_plain_call.
    eapply wp_mono; [apply wp_Patch|]. intros [[]|[]] c' Hx; cbn; try done.
    + split; [eauto with maas|done].
    + destruct Hx as [_ Hx]. congruence.
    + destruct Hx as [Hu [->|Hx]]; (split; [eauto with maas|done]). done.
  - by destruct e; apply wp_ret.
Qed.

Lemma wp_cleanupMigratedLegacyTenant k c :
  wp (cleanupMigratedLegacyTenant k (tenantNamespaceName r k)) (λ x c',
    only (at_object Tenants (config_key k)) c c' ∧ ∀ e, x = Err e → unreliable) c.
Proof.
  unfold cleanupMigratedLegacyTenant. wp_step wp_Get. intros [config|e] c' [-> E];
    [|by destruct e; apply wp_ret].
  destruct (negb _); [by apply wp_ret|].
  wp_step wp_Get. intros [legacy|e] c' [-> E']; [|by destruct e; apply wp_ret].
  destruct (migrated k config legacy); [|by apply wp_ret].
  eapply wp_mono; [apply wp_delete|]. intros x c' (H1 & _ & H2). done.
Qed.

Definition config_objects (k : key) (K' : Kind) (k' : key) : Prop :=
  (K' = MaasTenantConfigs ∨ K' = Tenants) ∧ k' = config_key k.

(** Why a tenant has no configuration: its namespace is missing, or there is one
    that is another tenant's or being deleted. *)
Definition config_blocked (k : key) (c : infra) : Prop :=
  match c MaasTenantConfigs !! config_key k with
  | Some config => owned_by_other (meta config) k = true ∨ being_deleted config = true
  | None => c Namespaces !! tenant_ns k = None
  end.

Lemma wp_ensureTenantConfig k c :
  wp (ensureTenantConfig r k) (λ x c', only (config_objects k) c c' ∧
    match x with
    | Ok (ready, false) => ∃ config, c' MaasTenantConfigs !! config_key k = Some config
        ∧ marked k (tenantNamespaceName r k) (meta config) ∧ being_deleted config = false
        ∧ ready = config_ready config
    | _ => unreliable ∨ config_blocked k c
    end) c.
Proof.
  unfold ensureTenantConfig.
  eapply wp_bind, wp_mono; [eapply (wp_upsert _ _ _ _ (configured k) c)|].
  { intros base. apply wp_configure. }
  { intros base o [_ ->]. done. }
  change (tenantNamespaceName r k, default_tenant_name) with (config_key k).
  intros x c1 [Ho Hx].
  assert (only (config_objects k) c c1) as Ho1.
  { eapply only_mono; [exact Ho|]. intros K' k' [-> ->]. split; [by left|done]. }
  destruct x as [[]|e].
  - destruct Hx as (base & wanted & o' & [Hd Hmeta] & E & Hr & Hbase).
    assert (marked k (tenantNamespaceName r k) (meta o')) as Hm.
    { destruct Hr as (Hl & Ha & _). eapply marked_eq; [exact Hl|exact Ha|].
      rewrite Hmeta. apply apply_marked. }
    assert (being_deleted o' = false) as Hd'.
    { destruct Hbase as [(_ & _ & H & _)|(_ & _ & H & _)]; congruence. }
    wp_try_step wp_markLegacyTenantDeprecated. intros [[]|e] c2 [Ho2 Hu2]; [|split; [|by left; eapply Hu2]].
    2:{ etrans; [exact Ho1|]. eapply only_mono; [exact Ho2|]. intros K' k' [-> ->]. split; [by right|done]. }
    wp_try_step wp_cleanupMigratedLegacyTenant. intros x c3 [Ho3 Hu3].
    assert (only (config_objects k) c c3) as Hf.
    { etrans; [exact Ho1|]. eapply only_mono; [etrans; [exact Ho2|exact Ho3]|].
      intros K' k' [-> ->]. split; [by right|done]. }
    destruct x as [[]|e]; [|split; [exact Hf|by left; eapply Hu3]].
    assert (c3 MaasTenantConfigs !! config_key k = Some o') as E3.
    { rewrite Ho3, Ho2; [done|by intros []..]. }
    apply wp_try, wp_call. eapply wp_mono; [apply wp_Get|].
    change (tenantNamespaceName r k, default_tenant_name) with (config_key k).
    intros [config|e] c' [-> Hc].
    + apply wp_ret. split; [done|]. rewrite E3 in Hc. injection Hc as <-. eauto.
    + split; [done|]. destruct e; try done; [congruence|by left].
  - assert (unreliable ∨ config_blocked k c) as Hb.
    { unfold config_blocked. destruct Hx as [Hu|[(cur & -> & Hx)|[(base & Hx & Hb)|Hx]]]; auto.
      - destruct Hb as [->| ->]; destruct Hx as [Hx|Hx]; auto. done.
      - destruct Hx as (-> & _ & Hx & _). auto. }
    destruct (isNamespaceMissingError e); by apply wp_ret.
Qed.

(** ** Roles *)

Lemma wp_role k rk rules c :
  wp (upsert "Role" rk k (mkObject Roles new_meta [] ()) (with_rules r k rules)) (λ x c',
    only (at_object Roles rk) c c' ∧
    match x with
    | Ok _ => ∃ role : object Roles, c' Roles !! rk = Some role
        ∧ marked k (tenantNamespaceName r k) (meta role) ∧ spec role = rules
    | Err _ => unreliable ∨
        match c Roles !! rk with
        | Some role => owned_by_other (meta role) k = true
        | None => rk.1 ≠ "" ∧ c Namespaces !! ("", rk.1) = None
        end
    end) c.
Proof.
  eapply wp_mono; [eapply (wp_upsert _ _ _ _ (λ base x, x = Ok (with_spec (K := Roles) rules
    (with_meta (applyAITenantMetadata k (tenantNamespaceName r k)) base))) c)|].
  { intros base. by apply wp_ret. }
  { by intros base o [= ->]. }
  intros [[]|e] c' [Ho Hx]; (split; [exact Ho|]).
  - destruct Hx as (base & wanted & o' & [= ->] & E & (Hl & Ha & _ & _ & Hs) & _).
    exists o'. split_and!; [done| |done]. eapply marked_eq; [exact Hl|exact Ha|apply apply_marked].
  - destruct Hx as [Hu|[(cur & -> & Hx)|[(base & [=] & _)|(-> & H1 & H2 & _)]]]; auto.
Qed.

Definition admin_role (k : key) : key := (tenantNamespaceName r k, tenantAdminRoleName k).
Definition object_role (k : key) : key := (k.1, aitenantAccessRoleName k).
Definition role_objects (k : key) (K' : Kind) (k' : key) : Prop :=
  K' = Roles ∧ (k' = admin_role k ∨ k' = object_role k).

(** The roles of a tenant are there, with their rules. *)
Definition has_role (k rk : key) (rules : list PolicyRule) (c : infra) : Prop :=
  ∃ role : object Roles, c Roles !! rk = Some role
    ∧ marked k (tenantNamespaceName r k) (meta role) ∧ spec role = rules.
Definition role_blocked (k rk : key) (c : infra) : Prop :=
  match c Roles !! rk with
  | Some role => owned_by_other (meta role) k = true
  | None => rk.1 ≠ "" ∧ c Namespaces !! ("", rk.1) = None
  end.

Lemma wp_ensureTenantAdminRBAC k c : admin_role k ≠ object_role k →
  wp (ensureTenantAdminRBAC r k) (λ x c', only (role_objects k) c c' ∧
    match x with
    | Ok _ => has_role k (admin_role k) tenant_admin_rules c'
        ∧ has_role k (object_role k) (object_admin_rules k) c'
    | Err _ => unreliable ∨ role_blocked k (admin_role k) c ∨ role_blocked k (object_role k) c
    end) c.
Proof.
  intros Hne. unfold ensureTenantAdminRBAC, ensureTenantNamespaceRole, ensureAITenantObjectRole.
  wp_try_step wp_role. change (tenantNamespaceName r k, tenantAdminRoleName k) with (admin_role k).
  change (k.1, aitenantAccessRoleName k) with (object_role k).
  intros [[]|e] c1 [Ho1 H1].
  2:{ split; [|destruct H1; auto]. eapply only_mono; [exact Ho1|]. intros ?? [-> ->]. split; auto. }
  eapply wp_mono; [apply wp_role|]. intros x c2 [Ho2 H2].
  change (k.1, aitenantAccessRoleName k) with (object_role k) in *.
  split.
  { etrans; [eapply only_mono; [exact Ho1|]|eapply only_mono; [exact Ho2|]];
      intros ?? [-> ->]; split; auto. }
  destruct x as [[]|e].
  - split; [|done]. unfold has_role. rewrite Ho2; [done|]. intros [_ H]. by destruct Hne.
  - destruct H2 as [Hu|H2]; [by left|]. right; right. unfold role_blocked.
    rewrite !Ho1 in H2; [done|by intros [? _]|].
    intros [_ H]. by destruct Hne.
Qed.

(** ** Claims *)

Definition claim_key (gr : GatewayRef) : key := (aitenantNamespace r, gatewayClaimName gr).

(** The objects that a tenant may write as claims: those it has, and those nobody
    has. *)
Definition own_claims (k : key) (uid : string) (c : infra) (K' : Kind) (k' : key) : Prop :=
  K' = ConfigMaps ∧ k'.1 = aitenantNamespace r
  ∧ ∀ cm, c ConfigMaps !! k' = Some cm → isClaimOwnedByAITenant (meta cm) k uid = true.

Definition claims_gateway (cm : object ConfigMaps) (gr : GatewayRef) : Prop :=
  at_key (config_data cm) "gatewayNamespace" = g_Namespace gr
  ∧ at_key (config_data cm) "gatewayName" = g_Name gr.

(** The tenant has the claim on a gateway, as its controller. *)
Definition claim_held (k : key) (uid : string) (gr : GatewayRef) (c : infra) : Prop :=
  ∃ cm, c ConfigMaps !! claim_key gr = Some cm
    ∧ List.find o_Controller (om_Owners (meta cm)) = Some (controller_of "AITenant" k.2 uid)
    ∧ claims_gateway cm gr.

Lemma controlled_claim cm k uid :
  List.find o_Controller (om_Owners cm) = Some (controller_of "AITenant" k.2 uid) →
  uid ≠ "" → isClaimOwnedByAITenant cm k uid = true.
Proof.
  intros E Hu. unfold isClaimOwnedByAITenant. rewrite E. cbn.
  rewrite (bool_decide_eq_true_2 (k.2 = k.2)), (bool_decide_eq_true_2 (uid = uid)),
    (bool_decide_eq_false_2 (uid = "")) by done. done.
Qed.
(** A claim that another tenant controls is not this one's. *)
Lemma controlled_by_other cm k uid (k' : key) uid' :
  List.find o_Controller (om_Owners cm) = Some (controller_of "AITenant" k'.2 uid') →
  uid ≠ "" → uid' ≠ "" → uid ≠ uid' → isClaimOwnedByAITenant cm k uid = false.
Proof.
  intros E Hu Hu' Hne. unfold isClaimOwnedByAITenant. rewrite E. cbn.
  destruct (_ || _); [done|]. rewrite !(bool_decide_eq_false_2 (_ = "")) by done. cbn.
  by apply bool_decide_eq_false.
Qed.

Lemma own_claims_after k uid c c' : only (own_claims k uid c) c c' →
  (∀ k' cm, c' ConfigMaps !! k' = Some cm → k'.1 = aitenantNamespace r →
     isClaimOwnedByAITenant (meta cm) k uid = true → own_claims k uid c ConfigMaps k').
Proof.
  intros Ho k' cm E Hns Hown. split_and!; [done|done|]. intros cm0 E0.
  destruct (isClaimOwnedByAITenant (meta cm0) k uid) eqn:Ec; [done|].
  rewrite Ho in E; [naive_solver|]. intros (_ & _ & H). rewrite (H _ E0) in Ec. done.
Qed.

Definition in_claims (l : list (key * object ConfigMaps)) (K' : Kind) (k' : key) : Prop :=
  K' = ConfigMaps ∧ ∃ cm, (k', cm) ∈ l.

Lemma wp_delete_claims what l c :
  wp (delete_claims what l) (λ x c', only (in_claims l) c c'
    ∧ (x = Ok () → Forall (λ kc : key * object ConfigMaps, gone_or_going ConfigMaps kc.1 c') l)
    ∧ ∀ e, x = Err e → unreliable) c.
Proof.
  revert c. induction l as [|[k1 cm1] l IH]; intros c; cbn; [by apply wp_ret|].
  eapply wp_try, wp_mono; [apply wp_and; [apply wp_delete|apply wp_delete_gone]|].
  intros x c1 [(Ho1 & _ & Hu1) [_ Hg1]].
  assert (only (in_claims ((k1, cm1) :: l)) c c1) as Ho.
  { eapply only_mono; [exact Ho1|]. intros ?? [-> ->]. split; [done|]. exists cm1. left. }
  destruct x as [[]|e]; [|split_and!; [done|done|by eapply Hu1]].
  eapply wp_mono; [apply IH|]. intros x c2 (Ho2 & Hg2 & Hu2). split_and!; [|intros ->|done].
  - etrans; [exact Ho|]. eapply only_mono; [exact Ho2|]. intros ?? [-> [cm Hcm]].
    split; [done|]. exists cm. by right.
  - specialize (Hg2 eq_refl). apply Forall_cons; split; [cbn|exact Hg2].
    destruct (decide (k1 ∈ l.*1)) as [[[k2 cm2] [E Hin]]%list_elem_of_fmap|Hni].
    + cbn in E. subst k2. rewrite Forall_forall in Hg2. apply (Hg2 _ Hin).
    + unfold gone_or_going. rewrite Ho2; [apply (Hg1 eq_refl)|].
      intros [_ [cm Hcm]]. apply Hni, list_elem_of_fmap. by exists (k1, cm).
Qed.

(** The claims of the infrastructure namespace that a tenant has. *)
Definition tenants_claim (k : key) (uid : string) (cm : key * object ConfigMaps) : Prop :=
  is_claim (aitenantNamespace r) cm.1 cm.2 = true ∧ isClaimOwnedByAITenant (meta cm.2) k uid = true.
(** No claim of a tenant is left, but those that are being deleted and the ones
    of some names. *)
Definition no_claims_but (P : key → Prop) (k : key) (uid : string) (c : infra) : Prop :=
  ∀ k' cm, c ConfigMaps !! k' = Some cm → tenants_claim k uid (k', cm) →
    P k' ∨ being_deleted cm = true.

(** Deletes the tenant's claims whose keys pass a test. *)
Lemma wp_clean_claims what context k uid (test : key → bool) c :
  wp (claims ←? call context (List ConfigMaps (is_claim (aitenantNamespace r)));
      delete_claims what (List.filter (λ cm : key * object ConfigMaps,
        test cm.1 && isClaimOwnedByAITenant (meta cm.2) k uid) claims)) (λ x c',
    only (λ K' k', own_claims k uid c K' k' ∧ test k' = true) c c'
    ∧ (x = Ok () → no_claims_but (λ k', test k' = false) k uid c')
    ∧ ∀ e, x = Err e → unreliable) c.
Proof.
  apply wp_try, wp_call. eapply wp_mono; [apply wp_List|]. intros [l|e] c1 [-> Hl].
  2:{ split_and!; [done|done|]. by destruct e. }
  assert (∀ k1 cm1, (k1, cm1) ∈ l ↔ c ConfigMaps !! k1 = Some cm1
            ∧ is_claim (aitenantNamespace r) k1 cm1 = true) as Hin.
  { intros k1 cm1. rewrite Hl, list_elem_of_In, filter_In, <- list_elem_of_In, elem_of_map_to_list.
    done. }
  eapply wp_mono; [apply wp_delete_claims|]. intros x c' (Ho & Hg & Hu). split_and!; [| |exact Hu].
  - eapply only_mono; [exact Ho|]. intros K' k1 [-> [cm Hcm]].
    apply list_elem_of_In, filter_In in Hcm as [Hcm%list_elem_of_In [Ht Hc]%andb_true_iff].
    apply Hin in Hcm as [E [Hns%bool_decide_eq_true _]%andb_true_iff].
    split; [|done]. split_and!; [done|done|]. intros cm'. rewrite E. by intros [= <-].
  - intros ->. specialize (Hg eq_refl). rewrite Forall_forall in Hg.
    intros k1 cm1 E1 [Hc1 Ho1].
    destruct (decide (k1 ∈ (List.filter (λ cm : key * object ConfigMaps,
        test cm.1 && isClaimOwnedByAITenant (meta cm.2) k uid) l).*1))
      as [[kc [-> Hkc]]%list_elem_of_fmap|Hni].
    + specialize (Hg _ Hkc). unfold gone_or_going in Hg. rewrite E1 in Hg. by right.
    + rewrite Ho in E1.
      * left. destruct (test k1) eqn:Et; [|done]. destruct Hni.
        apply list_elem_of_fmap. exists (k1, cm1). split; [done|].
        apply list_elem_of_In, filter_In. rewrite <- list_elem_of_In, Hin. cbn in *.
        by rewrite Et.
      * intros [_ [cm Hcm]]. apply Hni, list_elem_of_fmap. by exists (k1, cm).
Qed.

Lemma wp_cleanupStaleClaims k uid gr c :
  wp (cleanupStaleClaims r k uid gr) (λ x c',
    only (λ K' k', own_claims k uid c K' k' ∧ k' ≠ claim_key gr) c c'
    ∧ (x = Ok () → no_claims_but (λ k' : key, k'.2 = gatewayClaimName gr) k uid c')
    ∧ ∀ e, x = Err e → unreliable) c.
Proof.
  pose (test := λ k' : key, k'.2 != gatewayClaimName gr).
  eapply wp_mono; [apply (wp_clean_claims _ _ _ _ test)|].
  unfold test. cbn. intros x c' (Ho & Hn & Hu). split_and!; [| |done].
  - eapply only_mono; [exact Ho|]. intros K' k' [H1 H2]. split; [done|]. intros ->.
    cbn in H2. by rewrite bool_decide_eq_true_2 in H2.
  - intros Hx k' cm E Hc. destruct (Hn Hx k' cm E Hc) as [H|H]; [left|by right].
    by apply negb_false_iff, bool_decide_eq_true in H.
Qed.

Lemma wp_deleteGatewayClaim k uid c :
  wp (deleteGatewayClaim r k uid) (λ x c', only (own_claims k uid c) c c'
    ∧ (x = Ok () → no_claims_but (λ _, False) k uid c') ∧ ∀ e, x = Err e → unreliable) c.
Proof.
  eapply wp_mono; [apply (wp_clean_claims _ _ _ _ (λ _, true))|].
  cbn. intros x c' (Ho & Hn & Hu). split_and!; [| |done].
  - eapply only_mono; [exact Ho|]. by intros K' k' [H1 H2].
  - intros Hx k' cm E Hc. destruct (Hn Hx k' cm E Hc) as [H|H]; [done|by right].
Qed.

(** What keeps a tenant from having the claim on a gateway. *)
Definition claim_blocked (k : key) (uid : string) (gr : GatewayRef) (c : infra) : Prop :=
  c Namespaces !! ("", aitenantNamespace r) = None
  ∨ ∃ cm, c ConfigMaps !! claim_key gr = Some cm
      ∧ (isClaimOwnedByAITenant (meta cm) k uid = false ∨ ¬ claims_gateway cm gr
         ∨ ∃ e, SetControllerReference "AITenant" k.2 uid (om_Owners (meta cm)) = Err e).

Lemma claim_held_only k uid gr c c' (F : Kind → key → Prop) :
  only F c c' → ¬ F ConfigMaps (claim_key gr) → claim_held k uid gr c → claim_held k uid gr c'.
Proof. unfold claim_held. intros Ho Hn. by rewrite Ho. Qed.

(** The tenant's claim is there; its other claims go. *)
Lemma wp_cleanup_held k uid gr c c1 :
  only (own_claims k uid c) c c1 → claim_held k uid gr c1 →
  wp (cleanupStaleClaims r k uid gr) (λ x c', only (own_claims k uid c) c c' ∧
    match x with Ok _ => claim_held k uid gr c' | Err _ => unreliable end) c1.
Proof.
  intros Ho Hh. eapply wp_mono; [apply wp_cleanupStaleClaims|]. intros x c' (Ho' & _ & Hu).
  split.
  - intros K' k' Hn. rewrite Ho'; [by apply Ho|]. intros [(-> & Hns & Hc) _]. apply Hn.
    split_and!; [done|done|]. intros cm E.
    destruct (isClaimOwnedByAITenant (meta cm) k uid) eqn:Ec; [done|].
    rewrite <- Ec. apply Hc. rewrite Ho; [done|]. intros (_ & _ & H). by rewrite (H _ E) in Ec.
  - destruct x as [[]|e]; [|by eapply Hu]. eapply claim_held_only; [exact Ho'| |exact Hh].
    by intros [_ H].
Qed.

Context {tlawful : LawfulTenantServer}.

Lemma wp_renew_claim k uid gr existing c :
  c ConfigMaps !! claim_key gr = Some existing →
  isClaimOwnedByAITenant (meta existing) k uid = true →
  wp (renew_claim r k uid gr existing) (λ x c', only (own_claims k uid c) c c' ∧
    match x with
    | Ok _ => claim_held k uid gr c'
    | Err _ => unreliable ∨ claim_blocked k uid gr c
    end) c.
Proof.
  intros E Hown. unfold renew_claim.
  destruct (decide (claims_gateway existing gr)) as [[Hd1 Hd2]|Hd].
  2:{ assert ((at_key (config_data existing) "gatewayNamespace" != g_Namespace gr)
        || (at_key (config_data existing) "gatewayName" != g_Name gr) = true) as ->.
      { apply orb_true_iff. rewrite !negb_true_iff, !bool_decide_eq_false.
        destruct (decide (at_key (config_data existing) "gatewayNamespace" = g_Namespace gr));
          [|by left]. right. intros H. by destruct Hd. }
      apply wp_ret. split; [done|]. right; right. eauto. }
  rewrite !bool_decide_eq_true_2 by done. cbn.
  destruct (SetControllerReference _ _ _ _) as [owners|e] eqn:Es.
  2:{ apply wp_ret. split; [done|]. right; right. eauto 6. }
  apply SetControllerReference_first in Es as Hc.
  assert (∀ x c', only (own_claims k uid c) c c' ∧
    match x with Ok _ => claim_held k uid gr c' | Err _ => unreliable end →
    only (own_claims k uid c) c c' ∧
    match x : result error () with
    | Ok _ => claim_held k uid gr c' | Err _ => unreliable ∨ claim_blocked k uid gr c end) as Hmono.
  { intros [|] c'; naive_solver. }
  case_bool_decide as Heq.
  { cbn. eapply wp_mono; [apply (wp_cleanup_held k uid gr c c)|exact Hmono]; [done|].
    exists existing. by rewrite Heq. }
  apply wp_try, wp_call. eapply wp_mono; [apply wp_Patch|].
  change (aitenantNamespace r, gatewayClaimName gr) with (claim_key gr).
  assert (∀ c1, patched (claim_key gr) (with_meta (set_Owners owners) existing) c c1 →
    only (own_claims k uid c) c c1) as Hp.
  { intros c1 Hx. eapply only_mono; [eauto with maas|]. intros ?? [-> ->].
    split_and!; [done..|]. rewrite E. by intros ? [= <-]. }
  intros [[]|[]] c1 Hx; try done.
  - eapply wp_mono; [apply (wp_cleanup_held k uid gr c c1)|exact Hmono]; [by apply Hp|].
    destruct (patched_lookup _ _ c c1 Hx) as (old & o' & E' & E'' & Hr & _).
    { intros old E'. rewrite E in E'. by injection E' as <-. }
    destruct Hr as (_ & _ & _ & Ho & Hs). exists o'. split_and!; [done| |].
    + rewrite Ho. exact Hc.
    + unfold claims_gateway, config_data. rewrite Hs. by split.
  - destruct Hx as [_ Hx]. congruence.
  - destruct Hx as [Hu [->|Hx]]; (split; [by auto|by left]).
Qed.

Lemma wp_ensureGatewayClaim k uid gr c :
  wp (ensureGatewayClaim r k uid gr) (λ x c', only (own_claims k uid c) c c' ∧
    match x with
    | Ok _ => claim_held k uid gr c'
    | Err _ => unreliable ∨ g_Namespace gr = "" ∨ g_Name gr = "" ∨ claim_blocked k uid gr c
    end) c.
Proof.
  unfold ensureGatewayClaim.
  destruct ((g_Namespace gr == "") || (g_Name gr == "")) eqn:En.
  { apply wp_ret. split; [done|]. apply orb_true_iff in En as [H|H];
      apply bool_decide_eq_true in H; auto. }
  destruct (SetControllerReference _ _ _ _) as [owners|e] eqn:Es.
  2:{ destruct (SetControllerReference_free "AITenant" k.2 uid []) as [? Hs]; [done|congruence]. }
  apply SetControllerReference_first in Es as Hc.
  change (aitenantNamespace r, gatewayClaimName gr) with (claim_key gr).
  wp_step wp_Create. intros x c1 Hx.
  assert (∀ c1, created (claim_key gr) (new_claim k gr owners) c c1 →
    only (own_claims k uid c) c c1) as Hp.
  { intros c2 H2. eapply only_mono; [eauto with maas|]. intros ?? [-> ->].
    destruct H2 as (_ & E & _). split_and!; [done..|]. by rewrite E. }
  destruct x as [[]|[]]; cbn; try done.
  - eapply wp_mono; [apply (wp_cleanup_held k uid gr c c1); [by apply Hp|]|].
    + destruct (created_lookup _ _ c c1 Hx) as (o' & E' & (_ & _ & _ & Ho & Hs) & _).
      exists o'. split_and!; [done|by rewrite Ho|].
      unfold claims_gateway, config_data. rewrite Hs. cbn. unfold claim_data, at_key.
      by rewrite lookup_insert_eq, lookup_insert_ne, lookup_singleton_eq.
    + intros [[]|e] c2; naive_solver.
  - destruct Hx as (-> & _ & Hns). apply wp_ret. split; [done|]. do 3 right. by left.
  - destruct Hx as [-> [cm E]]. apply wp_try, wp_call.
    eapply wp_mono; [apply wp_Get|]. change (aitenantNamespace r, gatewayClaimName gr) with (claim_key gr).
    intros [cm'|e] c2 [-> E2].
    2:{ split; [done|]. destruct e; try done; [congruence|by left]. }
    rewrite E in E2. injection E2 as <-.
    destruct (isClaimOwnedByAITenant (meta cm) k uid) eqn:Ec.
    + eapply wp_mono; [by apply wp_renew_claim|]. intros [|] c2; naive_solver.
    + apply wp_ret. split; [done|]. do 4 right. eauto.
  - destruct Hx as [Hu [->|Hx]]; apply wp_ret; (split; [by auto|by left]).
Qed.

(** ** Gateways and the labels of the infrastructure namespace *)

Lemma wp_validateTenantGateway gr c :
  wp (validateTenantGateway gr) (λ x c', c' = c ∧
    match x with
    | Ok gw => c Gateways !! (g_Namespace gr, g_Name gr) = Some gw
    | Err _ => unreliable ∨ g_Namespace gr = "" ∨ g_Name gr = ""
        ∨ c Gateways !! (g_Namespace gr, g_Name gr) = None
    end) c.
Proof.
  unfold validateTenantGateway. case_bool_decide; [apply wp_ret; auto|].
  case_bool_decide; [apply wp_ret; auto|]. wp_step wp_Get.
  intros [gw|e] c' [-> E]; apply wp_ret; [done|]. split; [done|]. destruct e; cbn; try done; auto.
Qed.

Definition infra_ns : key := ("", AppNamespace r).

Definition owned_labels (m : ObjectMeta) : option (option (gmap string (list string))) :=
  parseOwnershipAnnotation (at_key (om_Annotations m) gatewayLabelsAnnotation).

(** What a namespace becomes for a gateway that wants labels. *)
Definition labels_ensured (gw : string) (desired : gmap string string)
    (ns ns' : object Namespaces) : Prop :=
  ∃ o, owned_labels (meta ns) = Some o
    ∧ omap (label_conflict (AppNamespace r) gw o (om_Labels (meta ns))) (map_to_list desired) = []
    ∧ (ns' = ns ∧ labels_up_to_date gw o desired (om_Labels (meta ns)) = true
       ∨ ∃ m, o = Some m ∧ resembles (relabelled gw m desired ns) ns').

Lemma wp_ensureInfraNamespaceGatewayLabels gw ls c :
  wp (ensureInfraNamespaceGatewayLabels r gw ls) (λ x c',
    only (at_object Namespaces infra_ns) c c' ∧
    (x = Done → ∃ desired, gatewayDesiredLabels gw ls = Ok desired ∧
      ∀ ns, c Namespaces !! infra_ns = Some ns →
        ∃ ns', c' Namespaces !! infra_ns = Some ns' ∧ labels_ensured gw.2 desired ns ns')) c.
Proof.
  unfold ensureInfraNamespaceGatewayLabels. change ("", AppNamespace r) with infra_ns.
  destruct (gatewayDesiredLabels _ _) as [desired|]; [|by apply wp_ret].
  wp_step wp_Get. intros [ns|e] c1 [-> E].
  2:{ apply wp_ret. split; [done|]. intros H. exists desired. split; [done|]. intros ns E'.
      destruct e; cbn in H; try done. congruence. }
  destruct (parseOwnershipAnnotation _) as [o|] eqn:Eo; [|by apply wp_ret].
  destruct (omap _ _) eqn:Ec; [|by apply wp_ret].
  destruct (labels_up_to_date _ _ _ _) eqn:Eu.
  { apply wp_ret. split; [done|]. intros _. exists desired. split; [done|].
    rewrite E. intros ? [= <-]. exists ns. split; [done|]. exists o. split_and!; [done..|by left]. }
  destruct o as [m|]; [|by apply wp_ret]. wp_step wp_Patch.
  intros [[]|[]] c' Hx; apply wp_ret; try done; [|by destruct Hx as [-> _]|].
  - split; [eauto with maas|]. intros _. exists desired. split; [done|].
    rewrite E. intros ? [= <-].
    destruct (patched_lookup _ _ c c' Hx) as (old & ns' & _ & E' & Hr & _).
    { intros old E'. rewrite E in E'. injection E' as <-. unfold relabelled.
      by destruct (foldl (release_label _) _ _). }
    exists ns'. split; [done|]. exists (Some m). split_and!; [done..|right; eauto].
  - destruct Hx as [_ [->|Hx]]; (split; [|done]); [done|eauto with maas].
Qed.

(** ** Deletion *)

(** The object is not this tenant's, or it goes. *)
Definition let_go (K : Kind) (k k' : key) (c : infra) : Prop :=
  ∀ o, c K !! k' = Some o → ownedByAITenant (meta o) k = true → being_deleted o = true.

Lemma let_go_only K k k' (F : Kind → key → Prop) c c' :
  only F c c' → ¬ F K k' → let_go K k k' c → let_go K k k' c'.
Proof. unfold let_go. intros Ho Hn. by rewrite Ho. Qed.

Lemma wp_deleteOwned K k' k c : k'.2 ≠ "" →
  wp (deleteOwned K k' k) (λ x c', only (at_object K k') c c' ∧
    match x with Ok _ => let_go K k k' c' | Err _ => unreliable end) c.
Proof.
  intros Hne. unfold deleteOwned. rewrite bool_decide_eq_false_2 by done.
  wp_step wp_Get. intros [o|e] c1 [-> E].
  2:{ destruct e; cbn; try done; apply wp_ret; (split; [done|]); try done.
      intros o. by rewrite E. }
  destruct (ownedByAITenant (meta o) k) eqn:Eo; cbn.
  2:{ apply wp_ret. split; [done|]. intros o'. rewrite E. intros [= <-]. congruence. }
  apply wp_plain_call, wp_ignore_not_found.
  eapply wp_mono; [apply wp_Delete|]. intros [[]|[]] c' Hx; cbn; try done.
  - split; [eauto with maas|]. apply removed_gone in Hx. unfold gone_or_going in Hx.
    intros o' E'. by rewrite E' in Hx.
  - destruct Hx as [-> Hx]. congruence.
  - destruct Hx as [Hu [->|Hx]]; (split; [eauto with maas|done]). done.
Qed.

Lemma wp_deleteTenantConfig k c :
  wp (deleteTenantConfig r k) (λ x c', only (at_object MaasTenantConfigs (config_key k)) c c' ∧
    match x with
    | Ok true => ∀ config, c' MaasTenantConfigs !! config_key k = Some config →
        ownedByAITenant (meta config) k = false
    | Ok false => ∃ config, c MaasTenantConfigs !! config_key k = Some config
        ∧ ownedByAITenant (meta config) k = true
    | Err _ => unreliable
    end) c.
Proof.
  unfold deleteTenantConfig.
  change (tenantNamespaceName r k, default_tenant_name) with (config_key k).
  wp_step wp_Get. intros [config|e] c1 [-> E].
  2:{ destruct e; cbn; try done; apply wp_ret; (split; [done|]); try done.
      intros config. by rewrite E. }
  assert (∀ c', patched (config_key k) (with_meta (set_Finalizers
      (λ fs, add_finalizer fs tenantFinalizer)) config) c c' ∨ removed MaasTenantConfigs (config_key k) c c'
    → only (at_object MaasTenantConfigs (config_key k)) c c') as Hp.
  { intros c' [H|H]; eauto with maas. }
  destruct (ownedByAITenant (meta config) k) eqn:Eo; cbn [negb].
  2:{ apply wp_ret. split; [done|]. intros config'. rewrite E. by intros [= <-]. }
  destruct (being_deleted config); [apply wp_ret; split; [done|]; eauto|].
  destruct (contains _ _); cbn [negb]; apply wp_try, wp_call.
  - apply wp_ignore_not_found. eapply wp_mono; [apply wp_Delete|].
    intros [[]|[]] c' Hx; try done; cbn.
    + apply wp_ret; split; [auto|]; eauto.
    + destruct Hx. congruence.
    + destruct Hx as [Hu [->|Hx]]; (split; [try done; auto|done]).
  - eapply wp_mono; [apply wp_Patch|]. intros [[]|[]] c' Hx; try done.
    + apply wp_ret; split; [auto|]; eauto.
    + destruct Hx. congruence.
    + destruct Hx as [Hu [->|Hx]]; (split; [try done; auto|done]).
Qed.

Lemma removed_not_equal (a : gmap string string) x v : v ≠ "" →
  at_key (removeMapValueIfEqual x v a) x ≠ v.
Proof.
  intros Hv. unfold removeMapValueIfEqual. case_bool_decide as E; [|done].
  unfold at_key. rewrite lookup_delete_eq. by intros <-.
Qed.
Lemma removed_other (a : gmap string string) x v y : x ≠ y →
  at_key (removeMapValueIfEqual x v a) y = at_key a y.
Proof.
  intros Hne. unfold removeMapValueIfEqual. case_bool_decide; [|done].
  unfold at_key. by rewrite lookup_delete_ne.
Qed.

(** A namespace without what [removeAITenantMetadata] removes is not this tenant's. *)
Lemma released_not_owned k name m : k.2 ≠ "" →
  ownedByAITenant (removeAITenantMetadata k name m) k = false.
Proof.
  intros Hk. unfold ownedByAITenant, removeAITenantMetadata. cbn [om_Annotations set_Annotations].
  rewrite (removed_other _ aitenantCreatedAnnotation), (removed_other _ AnnotationAITenantNamespace)
    by done.
  rewrite bool_decide_eq_false_2; [done|]. by apply removed_not_equal.
Qed.

Lemma wp_releaseTenantNamespace k c : k.2 ≠ "" →
  wp (releaseTenantNamespace r k) (λ x c', only (at_object Namespaces (tenant_ns k)) c c' ∧
    match x with Ok _ => let_go Namespaces k (tenant_ns k) c' | Err _ => unreliable end) c.
Proof.
  intros Hk. unfold releaseTenantNamespace.
  change ("", tenantNamespaceName r k) with (tenant_ns k).
  wp_step wp_Get. intros [ns|e] c1 [-> E].
  2:{ destruct e; cbn; try done; apply wp_ret; (split; [done|]); try done.
      intros o. by rewrite E. }
  destruct (ownedByAITenant (meta ns) k) eqn:Eo; cbn [negb].
  2:{ apply wp_ret. split; [done|]. intros o. rewrite E. intros [= <-]. congruence. }
  destruct (being_deleted ns) eqn:Ed.
  { apply wp_ret. split; [done|]. intros o. by rewrite E; intros [= <-]. }
  pose proof (released_not_owned k (tenantNamespaceName r k) (meta ns) Hk) as Hr.
  case_bool_decide as Heq.
  { apply wp_ret. split; [done|]. intros o. rewrite E. intros [= <-].
    rewrite Heq in Eo. unfold ownedByAITenant in *. cbn in Eo, Hr. congruence. }
  apply wp_call. eapply wp_mono; [apply wp_Patch|]. intros [[]|[]] c' Hx; try done.
  - split; [eauto with maas|]. intros o Ho Hown.
    destruct (patched_lookup _ _ c c' Hx) as (old & o' & E' & E'' & (Hl & Ha & _) & _).
    { intros old E'. rewrite E in E'. by injection E' as <-. }
    rewrite E'' in Ho. injection Ho as ->. unfold ownedByAITenant in *.
    rewrite Ha in Hown. cbn in Hown, Hr. congruence.
  - destruct Hx. congruence.
  - destruct Hx as [Hu [->|Hx]]; (split; [eauto with maas|done]). done.
Qed.

(** The roles of a tenant, and bindings to them. *)
Definition child_objects (k : key) (K' : Kind) (k' : key) : Prop :=
  (K' = Roles ∨ K' = RoleBindings) ∧ (k' = admin_role k ∨ k' = object_role k).

Lemma wp_deleteAITenantScopedChildren k c : admin_role k ≠ object_role k →
  wp (deleteAITenantScopedChildren r k) (λ x c', only (child_objects k) c c' ∧
    match x with
    | Ok _ => ∀ K' k', child_objects k K' k' → let_go K' k k' c'
    | Err _ => unreliable
    end) c.
Proof.
  intros Hne. unfold deleteAITenantScopedChildren.
  change (tenantNamespaceName r k, tenantAdminRoleName k) with (admin_role k).
  change (k.1, aitenantAccessRoleName k) with (object_role k).
  assert ((admin_role k).2 ≠ "" ∧ (object_role k).2 ≠ "") as [H1 H2].
  { split; apply aitenantChildName_nonempty; cbn; lia. }
  assert (∀ K' k' c1 c2, child_objects k K' k' → only (at_object K' k') c1 c2 →
    only (child_objects k) c1 c2) as Hsub.
  { intros K' k' c1 c2 H Ho. eapply only_mono; [exact Ho|]. by intros ?? [-> ->]. }
  assert (∀ x, x = RoleBindings ∨ x = Roles → ∀ y, y = admin_role k ∨ y = object_role k →
    child_objects k x y) as Hc by (intros x ? y ?; split; tauto).
  wp_try_step wp_deleteOwned. intros [[]|e] c1 [Ho1 L1];
    (apply Hsub in Ho1; [|by apply Hc; auto]); [|by split].
  wp_try_step wp_deleteOwned. intros [[]|e] c2 [Ho2 L2];
    [|split; [etrans; [exact Ho1|]; apply Hsub in Ho2; [done|by apply Hc; auto]|done]].
  wp_try_step wp_deleteOwned. intros [[]|e] c3 [Ho3 L3];
    [|split; [etrans; [exact Ho1|]; apply Hsub in Ho2, Ho3; [by etrans|by apply Hc; auto..]|done]].
  eapply wp_mono; [by apply wp_deleteOwned|]. intros x c4 [Ho4 L4]. split.
  { apply Hsub in Ho2, Ho3, Ho4; [by etrans; [|etrans; [|etrans]]|by apply Hc; auto..]. }
  destruct x as [[]|e]; [|done]. intros K' k' [HK Hk].
  destruct HK as [-> | ->], Hk as [-> | ->]; [|exact L4| |].
  - eapply let_go_only; [exact Ho4|by intros [_ ?]|].
    eapply let_go_only; [exact Ho3|by intros [? _]|exact L2].
  - eapply let_go_only; [exact Ho4|by intros [? _]|].
    eapply let_go_only; [exact Ho3|by intros [_ ?]|].
    eapply let_go_only; [exact Ho2|by intros [? _]|exact L1].
  - eapply let_go_only; [exact Ho4|by intros [? _]|exact L3].
Qed.

(** The AuthPolicy is not there, not managed, or it goes. *)
Definition policy_gone (pk : option key) (c : infra) : Prop :=
  ∀ k' p, pk = Some k' → c AuthPolicies !! k' = Some p →
    isManaged (om_Annotations (meta p)) = true → being_deleted p = true.

Definition policy_object (pk : option key) (K' : Kind) (k' : key) : Prop :=
  K' = AuthPolicies ∧ pk = Some k'.

Lemma wp_deleteTenantGatewayAuthPolicy k t c :
  wp (deleteTenantGatewayAuthPolicy r k t) (λ x c',
    only (policy_object (gateway_policy_of r k t)) c c' ∧
    match x with Ok _ => policy_gone (gateway_policy_of r k t) c' | Err _ => unreliable end) c.
Proof.
  unfold deleteTenantGatewayAuthPolicy. destruct (gateway_policy_of r k t) as [pk|].
  2:{ apply wp_ret. split; [done|]. by intros ?? [=]. }
  wp_step wp_Get. intros [p|e] c1 [-> E].
  2:{ destruct e; cbn; try done; apply wp_ret; (split; [done|]); try done.
      intros ?? [= <-]. by rewrite E. }
  destruct (isManaged _) eqn:Em; cbn [negb].
  2:{ apply wp_ret. split; [done|]. intros ?? [= <-]. rewrite E. intros [= <-]. congruence. }
  eapply wp_mono; [apply wp_and; [apply wp_delete|apply wp_delete_gone]|].
  intros x c' [(Ho & _ & Hu) [_ Hg]]. split.
  - eapply only_mono; [exact Ho|]. by intros ?? [-> ->].
  - destruct x as [[]|e]; [|by eapply Hu]. specialize (Hg eq_refl). unfold gone_or_going in Hg.
    intros ?? [= <-] E'. by rewrite E' in Hg.
Qed.

End parts.

(** ** What is done to the labels *)

(** Names of labels and gateways are ASCII. *)
Definition ascii_ownership (o : gmap string (list string)) : Prop :=
  map_Forall (λ k l, Json.ascii_text k ∧ Forall Json.ascii_text l) o.

Section label_facts.
Context (gw : string).

Lemma without_spec l x : x ∈ without gw l ↔ x ∈ l ∧ x ≠ gw.
Proof.
  unfold without. rewrite list_elem_of_In, filter_In, <- list_elem_of_In, negb_true_iff,
    bool_decide_eq_false. done.
Qed.

Lemma owners_of_insert o k x l :
  owners_of (Some (<[k := l]> o)) x = if decide (x = k) then l else owners_of (Some o) x.
Proof.
  unfold owners_of. cbn. destruct (decide (x = k)) as [->|];
    [by rewrite lookup_insert_eq|by rewrite lookup_insert_ne].
Qed.
Lemma owners_of_delete o k x :
  owners_of (Some (delete k o)) x = if decide (x = k) then [] else owners_of (Some o) x.
Proof.
  unfold owners_of. cbn. destruct (decide (x = k)) as [->|];
    [by rewrite lookup_delete_eq|by rewrite lookup_delete_ne].
Qed.

(** The owners of a label once the gateway is among them. *)
Definition with_owner (l : list string) : list string := if contains l gw then l else l ++ [gw].

Lemma claim_label_spec labels o (kv : string * string) x :
  let '(labels', o') := claim_label gw (labels, o) kv in
  (labels' !! x, owners_of (Some o') x)
  = if decide (x = kv.1) then (Some kv.2, with_owner (owners_of (Some o) x))
    else (labels !! x, owners_of (Some o) x).
Proof.
  destruct kv as [k v]. cbn. unfold with_owner. destruct (decide (x = k)) as [->|Hne].
  - rewrite lookup_insert_eq. destruct (contains _ gw) eqn:Ec; [done|].
    by rewrite owners_of_insert, decide_True.
  - rewrite lookup_insert_ne by done. destruct (contains _ gw); [done|].
    by rewrite owners_of_insert, decide_False.
Qed.

(** A map's bindings, added one after the other. *)
Lemma claim_labels_spec desired labels o x :
  let '(labels', o') := foldl (claim_label gw) (labels, o) (map_to_list desired) in
  (labels' !! x, owners_of (Some o') x)
  = match desired !! x with
    | Some v => (Some v, with_owner (owners_of (Some o) x))
    | None => (labels !! x, owners_of (Some o) x)
    end.
Proof.
  assert (∀ l, NoDup l.*1 → ∀ labels o,
    let '(labels', o') := foldl (claim_label gw) (labels, o) l in
    (labels' !! x, owners_of (Some o') x)
    = match (list_to_map l : gmap string string) !! x with
      | Some v => (Some v, with_owner (owners_of (Some o) x))
      | None => (labels !! x, owners_of (Some o) x)
      end) as H.
  { induction l as [|[k v] l IH]; intros Hd ls os; [done|].
    apply NoDup_cons in Hd as [Hk Hd]. cbn [foldl].
    destruct (claim_label gw (ls, os) (k, v)) as [ls' os'] eqn:E.
    specialize (IH Hd ls' os'). pose proof (claim_label_spec ls os (k, v) x) as Hs.
    rewrite E in Hs. destruct (foldl _ _ _) as [ls2 os2]. rewrite IH. cbn [list_to_map foldr fst snd].
    destruct (decide (x = k)) as [->|Hne].
    - rewrite lookup_insert_eq. cbn in Hs. rewrite decide_True in Hs by done.
      rewrite not_elem_of_list_to_map_1 by done. exact Hs.
    - rewrite lookup_insert_ne by done. cbn in Hs. rewrite decide_False in Hs by done.
      injection Hs as Hs1 Hs2. by rewrite Hs1, Hs2. }
  specialize (H _ (NoDup_fst_map_to_list desired) labels o).
  by rewrite list_to_map_to_list in H.
Qed.

(** A label and its owners once the gateway is not among them. *)
Definition released (lo : option string * list string) : option string * list string :=
  match without gw lo.2 with [] => (None, []) | l => (lo.1, l) end.

Lemma release_label_spec labels o k x :
  let '(labels', o') := release_label gw (labels, o) k in
  (labels' !! x, owners_of (Some o') x)
  = if decide (x = k) then released (labels !! x, owners_of (Some o) x)
    else (labels !! x, owners_of (Some o) x).
Proof.
  unfold release_label, released. cbn [fst snd]. destruct (decide (x = k)) as [->|Hne];
    destruct (without gw (owners_of (Some o) k)) as [|y l] eqn:E.
  - by rewrite lookup_delete_eq, owners_of_delete, decide_True.
  - by rewrite owners_of_insert, decide_True.
  - by rewrite lookup_delete_ne, owners_of_delete, decide_False.
  - by rewrite owners_of_insert, decide_False.
Qed.

Lemma release_labels_spec ks : NoDup ks → ∀ labels o x,
  let '(labels', o') := foldl (release_label gw) (labels, o) ks in
  (labels' !! x, owners_of (Some o') x)
  = if decide (x ∈ ks) then released (labels !! x, owners_of (Some o) x)
    else (labels !! x, owners_of (Some o) x).
Proof.
  induction ks as [|k ks IH]; intros Hd labels o x; [done|].
  apply NoDup_cons in Hd as [Hk Hd]. cbn [foldl].
  destruct (release_label gw (labels, o) k) as [ls' os'] eqn:E.
  specialize (IH Hd ls' os' x). pose proof (release_label_spec labels o k x) as Hs.
  rewrite E in Hs. destruct (foldl _ _ _) as [ls2 os2]. rewrite IH.
  destruct (decide (x = k)) as [->|Hne].
  - rewrite (decide_False (P := k ∈ ks)) by done. rewrite decide_True by left. exact Hs.
  - injection Hs as -> ->. destruct (decide (x ∈ ks)) as [Hin|Hin].
    + by rewrite decide_True by (by right).
    + rewrite decide_False; [done|]. by rewrite elem_of_cons; intros [].
Qed.

Lemma NoDup_filter_keys {A} (f : string * A → bool) l :
  NoDup l.*1 → NoDup (List.filter f l).*1.
Proof.
  induction l as [|[k x] l IH]; cbn; [done|]. intros [Hk Hd]%NoDup_cons.
  destruct (f (k, x)); cbn; [|auto]. apply NoDup_cons. split; [|auto].
  intros [[k' y] [Hy Hin]]%list_elem_of_fmap. cbn in Hy. subst k'. apply Hk.
  apply list_elem_of_In, filter_In in Hin as [Hin _]. apply list_elem_of_fmap.
  exists (k, y). split; [done|]. by apply list_elem_of_In.
Qed.

Lemma filter_keys_spec (f : list string → bool) (o : gmap string (list string)) x :
  f [] = false →
  x ∈ (List.filter (λ ko : string * list string, f ko.2) (map_to_list o)).*1
  ↔ f (owners_of (Some o) x) = true.
Proof.
  intros Hf. unfold owners_of. cbn. rewrite list_elem_of_fmap. split.
  - intros ([k l] & -> & Hin). apply list_elem_of_In, filter_In in Hin as [Hin Ht].
    apply list_elem_of_In, elem_of_map_to_list in Hin. cbn in *. by rewrite Hin.
  - destruct (o !! x) as [l|] eqn:E; [|cbn; by rewrite Hf]. intros Ht. exists (x, l).
    split; [done|]. apply list_elem_of_In, filter_In. split; [|done].
    by apply list_elem_of_In, elem_of_map_to_list.
Qed.

Lemma stale_labels_spec o desired x :
  x ∈ stale_labels gw o desired ↔ gw ∈ owners_of o x ∧ desired !! x = None.
Proof.
  unfold stale_labels, owners_of. rewrite list_elem_of_fmap. split.
  - intros ([k l] & -> & Hin). apply list_elem_of_In, filter_In in Hin as [Hin Ht].
    apply list_elem_of_In, elem_of_map_to_list in Hin. cbn [fst snd] in *. rewrite Hin. cbn.
    apply andb_true_iff in Ht as [H1%contains_true H2%negb_true_iff%bool_decide_eq_false].
    split; [done|]. by apply eq_None_not_Some.
  - destruct (default ∅ o !! x) as [l|] eqn:E; [|cbn; set_solver]. cbn. intros [Hg Hd].
    exists (x, l). split; [done|]. apply list_elem_of_In, filter_In. split.
    + by apply list_elem_of_In, elem_of_map_to_list.
    + cbn. apply andb_true_iff. split; [by apply contains_true|]. by rewrite Hd.
Qed.

(** What becomes of a label and its owners. *)
Definition relabelled_at (labels : gmap string string) (o : ownership)
    (desired : gmap string string) (x : string) : option string * list string :=
  match desired !! x with
  | Some v => (Some v, with_owner (owners_of o x))
  | None => if decide (gw ∈ owners_of o x) then released (labels !! x, owners_of o x)
            else (labels !! x, owners_of o x)
  end.

(** ** Names stay ASCII *)

Lemma ascii_owners o x : ascii_ownership o → Forall Json.ascii_text (owners_of (Some o) x).
Proof.
  intros Ho. unfold owners_of. cbn. destruct (o !! x) as [l|] eqn:E; [|constructor].
  by apply (Ho x l).
Qed.
Lemma ascii_key o x : ascii_ownership o → owners_of (Some o) x ≠ [] → Json.ascii_text x.
Proof.
  intros Ho. unfold owners_of. cbn. destruct (o !! x) as [l|] eqn:E; [|done].
  intros _. by apply (Ho x l).
Qed.
Lemma ascii_without l : Forall Json.ascii_text l → Forall Json.ascii_text (without gw l).
Proof. rewrite !Forall_forall. intros H x [Hx _]%without_spec. auto. Qed.

Lemma ascii_release ks labels o :
  ascii_ownership o → ascii_ownership (foldl (release_label gw) (labels, o) ks).2.
Proof.
  revert labels o. induction ks as [|k ks IH]; intros labels o Ho; [done|].
  cbn [foldl release_label]. destruct (without gw _) as [|y l] eqn:E; apply IH.
  - by apply map_Forall_delete.
  - apply map_Forall_insert_2; [|done]. split.
    + apply (ascii_key o); [done|]. intros H. by rewrite H in E.
    + rewrite <- E. by apply ascii_without, ascii_owners.
Qed.
Lemma ascii_claim l labels o :
  Json.ascii_text gw → Forall Json.ascii_text l.*1 → ascii_ownership o →
  ascii_ownership (foldl (claim_label gw) (labels, o) l).2.
Proof.
  intros Hg. revert labels o. induction l as [|[k v] l IH]; intros labels o Hl Ho; [done|].
  apply Forall_cons in Hl as [Hk Hl]. cbn [foldl claim_label fst snd].
  apply IH; [done|]. destruct (contains _ gw); [done|].
  apply map_Forall_insert_2; [|done]. split; [done|].
  apply Forall_app. split; [by apply ascii_owners|by apply Forall_singleton].
Qed.
Lemma ascii_fold_without ks o : Forall Json.ascii_text ks → ascii_ownership o →
  ascii_ownership
    (foldl (λ o k, <[k := without gw (owners_of (Some o) k)]> o) o ks).
Proof.
  revert o. induction ks as [|k ks IH]; intros o Hk Ho; [done|].
  apply Forall_cons in Hk as [Hk Hks]. cbn [foldl]. apply IH; [done|].
  apply map_Forall_insert_2; [|done]. split; [done|]. by apply ascii_without, ascii_owners.
Qed.
Lemma ascii_fold_delete ks o :
  ascii_ownership o → ascii_ownership (foldl (λ o k, delete k o) o ks).
Proof.
  revert o. induction ks as [|k ks IH]; intros o Ho; [done|]. by apply IH, map_Forall_delete.
Qed.

(** ** What becomes of them *)

Lemma relabelled_spec o desired (ns : object Namespaces) :
  ∃ labels' o',
    relabelled gw o desired ns = with_meta (λ m,
      set_Annotations (write_ownership o') (set_Labels (λ _, labels') m)) ns
    ∧ (∀ x, (labels' !! x, owners_of (Some o') x)
           = relabelled_at (om_Labels (meta ns)) (Some o) desired x)
    ∧ (ascii_ownership o → Json.ascii_text gw →
       map_Forall (λ x _, Json.ascii_text x) desired → ascii_ownership o').
Proof.
  unfold relabelled.
  assert (∀ x, let '(l, os) := foldl (claim_label gw) (om_Labels (meta ns), o)
      (map_to_list desired) in _) as Hc by apply claim_labels_spec.
  pose proof (ascii_claim (map_to_list desired) (om_Labels (meta ns)) o) as Ha.
  destruct (foldl (claim_label gw) _ _) as [l1 o1]. cbn [snd] in Ha.
  assert (NoDup (stale_labels gw (Some o) desired)) as Hd.
  { apply NoDup_filter_keys, NoDup_fst_map_to_list. }
  assert (∀ x, let '(l, os) := foldl (release_label gw) (l1, o1)
      (stale_labels gw (Some o) desired) in _) as Hr by (intros x; exact (release_labels_spec _ Hd l1 o1 x)).
  pose proof (ascii_release (stale_labels gw (Some o) desired) l1 o1) as Ha'.
  destruct (foldl (release_label gw) _ _) as [l2 o2]. exists l2, o2. split; [done|]. split.
  2:{ intros Ho Hg Hk. apply Ha', Ha; [done| |done]. rewrite Forall_forall.
      intros x ([k v] & -> & Hin%elem_of_map_to_list)%list_elem_of_fmap. by apply (Hk k v). }
  intros x. rewrite Hr. specialize (Hc x). unfold relabelled_at.
  destruct (desired !! x) as [v|] eqn:E; injection Hc as -> ->.
  - rewrite decide_False; [done|]. rewrite stale_labels_spec. naive_solver.
  - destruct (decide (gw ∈ owners_of (Some o) x)).
    + rewrite decide_True; [done|]. by rewrite stale_labels_spec.
    + rewrite decide_False; [done|]. rewrite stale_labels_spec. naive_solver.
Qed.

Lemma up_to_date_spec o desired labels x :
  labels_up_to_date gw o desired labels = true →
  match desired !! x with
  | Some v => at_key labels x = v ∧ gw ∈ owners_of o x
  | None => gw ∉ owners_of o x
  end.
Proof.
  unfold labels_up_to_date. intros [[Hs Hl]%andb_true_iff Ho]%andb_true_iff.
  apply Nat.eqb_eq, length_zero_iff_nil in Hs. rewrite forallb_forall in Hl, Ho.
  destruct (desired !! x) as [v|] eqn:E.
  - apply elem_of_map_to_list, list_elem_of_In in E. specialize (Hl _ E). specialize (Ho _ E).
    cbn in Hl, Ho. by apply bool_decide_eq_true in Hl; apply contains_true in Ho.
  - intros Hg. assert (x ∈ stale_labels gw o desired) as H by by apply stale_labels_spec.
    rewrite Hs in H. by apply not_elem_of_nil in H.
Qed.

Lemma with_owner_in l : gw ∈ l → with_owner l = l.
Proof. intros H. unfold with_owner. by rewrite (proj2 (contains_true _ _) H). Qed.
Lemma elem_of_with_owner l x : x ∈ with_owner l ↔ x ∈ l ∨ x = gw.
Proof.
  unfold with_owner. destruct (contains l gw) eqn:E; [|set_solver].
  apply contains_true in E. naive_solver.
Qed.

Lemma conflict_spec {uni : Unicode} ns o labels desired x v existing :
  omap (label_conflict ns gw o labels) (map_to_list desired) = [] →
  desired !! x = Some v → labels !! x = Some existing →
  existing = v ∨ owners_of o x = [gw].
Proof.
  intros Hn Hd Hl.
  assert (label_conflict ns gw o labels (x, v) = None) as Hc.
  { destruct (label_conflict _ _ _ _ _) as [e|] eqn:E; [|done]. exfalso.
    assert (e ∈ omap (label_conflict ns gw o labels) (map_to_list desired)) as Hin.
    { apply list_elem_of_omap. exists (x, v). split; [by apply elem_of_map_to_list|done]. }
    rewrite Hn in Hin. by apply not_elem_of_nil in Hin. }
  unfold label_conflict in Hc. rewrite Hl in Hc. case_bool_decide as He; [by left|]. right.
  destruct (owners_of o x) as [|y [|z l]]; [done| |done]. cbn in Hc.
  case_bool_decide as Hy; [by subst|done].
Qed.

(** ** What is done to them on deletion *)

Lemma fold_delete_spec {A} (ks : list string) (m : gmap string A) x :
  foldl (λ l k, delete k l) m ks !! x = if decide (x ∈ ks) then None else m !! x.
Proof.
  revert m. induction ks as [|k ks IH]; intros m; cbn; [done|]. rewrite IH.
  destruct (decide (x ∈ ks)) as [H|H].
  - by rewrite decide_True by (by right).
  - destruct (decide (x = k)) as [->|Hne].
    + rewrite lookup_delete_eq, decide_True by left. done.
    + rewrite lookup_delete_ne, decide_False by set_solver. done.
Qed.

Lemma fold_without_spec ks : NoDup ks → ∀ o x,
  owners_of (Some (foldl (λ o k, <[k := without gw (owners_of (Some o) k)]> o) o ks)) x
  = if decide (x ∈ ks) then without gw (owners_of (Some o) x) else owners_of (Some o) x.
Proof.
  induction ks as [|k ks IH]; intros Hd o x; [done|].
  apply NoDup_cons in Hd as [Hk Hd]. cbn [foldl]. rewrite (IH Hd), owners_of_insert.
  destruct (decide (x = k)) as [->|Hne].
  - rewrite (decide_False (P := k ∈ ks)) by done. by rewrite decide_True by left.
  - destruct (decide (x ∈ ks)) as [Hin|Hin].
    + by rewrite decide_True by (by right).
    + rewrite decide_False; [done|]. by rewrite elem_of_cons; intros [].
Qed.

Lemma without_other l : gw ∉ l → without gw l = l.
Proof.
  induction l as [|y l IH]; intros Hn; [done|]. cbn.
  rewrite bool_decide_eq_false_2 by set_solver. cbn. f_equal. apply IH. set_solver.
Qed.

Lemma filter_twice {A} (f g : A → bool) l :
  List.filter f (List.filter g l) = List.filter (λ x, g x && f x) l.
Proof.
  induction l as [|x l IH]; [done|]. cbn. destruct (g x); cbn; [|exact IH].
  destruct (f x); by rewrite IH.
Qed.

(** A label goes when only the gateway owned it. *)
Lemma unlabelled_spec o (ns : object Namespaces) :
  ∃ labels' o',
    unlabelled gw o ns = with_meta (λ m,
      set_Annotations (write_ownership o') (set_Labels (λ _, labels') m)) ns
    ∧ (∀ x, owners_of (Some o') x = without gw (owners_of (Some o) x)
         ∧ labels' !! x = if bool_decide (owners_of (Some o) x = [gw]) then None
                          else om_Labels (meta ns) !! x)
    ∧ (ascii_ownership o → ascii_ownership o').
Proof.
  unfold unlabelled. rewrite !filter_twice. cbn [fst snd].
  set (sole := fmap fst _). set (shared := fmap fst _).
  assert (∀ x, x ∈ sole ↔ owners_of (Some o) x = [gw]) as Hsole.
  { intros x. unfold sole. rewrite (filter_keys_spec (λ l, contains l gw && (length l =? 1))) by done.
    rewrite andb_true_iff, contains_true, Nat.eqb_eq. split; [|intros ->; set_solver].
    intros [H1 H2]. destruct (owners_of (Some o) x) as [|y [|]]; [done| |done].
    apply list_elem_of_singleton in H1. by subst. }
  assert (∀ x, x ∈ shared ↔ gw ∈ owners_of (Some o) x ∧ owners_of (Some o) x ≠ [gw]) as Hshared.
  { intros x. unfold shared.
    rewrite (filter_keys_spec (λ l, contains l gw && negb (length l =? 1))) by done.
    rewrite andb_true_iff, contains_true, negb_true_iff, Nat.eqb_neq.
    destruct (owners_of (Some o) x) as [|y [|]]; [set_solver| |naive_solver].
    rewrite list_elem_of_singleton. naive_solver. }
  assert (NoDup shared) as Hd by apply NoDup_filter_keys, NoDup_fst_map_to_list.
  eexists _, _. split; [reflexivity|]. split.
  2:{ intros Ho. apply ascii_fold_without; [|by apply ascii_fold_delete].
      rewrite Forall_forall. intros x Hx%Hshared. apply (ascii_key o); [done|].
      intros He. rewrite He in Hx. set_solver. }
  intros x. split.
  - rewrite (fold_without_spec _ Hd).
    assert (owners_of (Some (foldl (λ o k, delete k o) o sole)) x
            = if decide (x ∈ sole) then [] else owners_of (Some o) x) as Hx.
    { unfold owners_of. cbn. rewrite fold_delete_spec. by destruct (decide (x ∈ sole)). }
    rewrite Hx. destruct (decide (x ∈ sole)) as [H1|H1].
    + apply Hsole in H1 as E. rewrite E, decide_False by (rewrite Hshared; naive_solver).
      cbn. by rewrite bool_decide_eq_true_2.
    + destruct (decide (x ∈ shared)) as [H2|H2]; [done|].
      symmetry. apply without_other. intros Hg. rewrite Hsole in H1. rewrite Hshared in H2. auto.
  - rewrite fold_delete_spec. case_bool_decide as Hb.
    + by rewrite decide_True by by apply Hsole.
    + rewrite decide_False; [done|]. by rewrite Hsole.
Qed.
End label_facts.

(** ** What a Gateway's listeners want *)

Section wanted.
Context {uni : Unicode} (gw : key).

Lemma add_labels_spec listener l desired desired' : NoDup l.*1 →
  add_labels gw listener desired l = Ok desired' →
  ∀ x v, desired' !! x = Some v ↔ desired !! x = Some v ∨ (x, v) ∈ l.
Proof.
  revert desired. induction l as [|[k u] l IH]; intros desired Hd; cbn.
  { intros [= <-] x v. set_solver. }
  apply NoDup_cons in Hd as [Hk Hd]. destruct (desired !! k) as [u'|] eqn:E.
  - case_bool_decide as Hu; cbn; [|done]. subst u'. intros H x v. rewrite (IH _ Hd H x v).
    rewrite elem_of_cons. destruct (decide (x = k)) as [->|Hne].
    + rewrite lookup_insert_eq, E. naive_solver.
    + rewrite lookup_insert_ne by done. naive_solver.
  - intros H x v. rewrite (IH _ Hd H x v), elem_of_cons. destruct (decide (x = k)) as [->|Hne].
    + rewrite lookup_insert_eq, E. naive_solver.
    + rewrite lookup_insert_ne by done. naive_solver.
Qed.

Lemma desired_from_spec ls desired desired' :
  desired_from gw desired ls = Ok desired' →
  ∀ x v, desired' !! x = Some v ↔
    desired !! x = Some v ∨ ∃ l, l ∈ ls ∧ listener_labels l !! x = Some v.
Proof.
  revert desired. induction ls as [|l ls IH]; intros desired; cbn.
  { intros [= <-] x v. set_solver. }
  destruct (add_labels _ _ _ _) as [d1|] eqn:E; [|done]. intros H x v.
  rewrite (IH _ H x v).
  rewrite (add_labels_spec _ _ _ _ (NoDup_fst_map_to_list (listener_labels l)) E x v).
  rewrite elem_of_map_to_list. setoid_rewrite elem_of_cons. naive_solver.
Qed.

Lemma gatewayDesiredLabels_spec ls desired : gatewayDesiredLabels gw ls = Ok desired →
  ∀ x v, desired !! x = Some v ↔ ∃ l, l ∈ ls ∧ listener_labels l !! x = Some v.
Proof. intros H x v. rewrite (desired_from_spec _ _ _ H). naive_solver. Qed.
End wanted.

(** ** The annotation that records them *)

Lemma read_ownership o m : ascii_ownership o →
  owned_labels (set_Annotations (write_ownership o) m) = Some (Some o).
Proof.
  intros Ho. unfold owned_labels, write_ownership, at_key. cbn.
  case_bool_decide as He.
  - subst o. by rewrite lookup_delete_eq.
  - rewrite lookup_insert_eq. cbn. unfold parseOwnershipAnnotation.
    rewrite bool_decide_eq_false_2; [by apply Json.Unmarshal_Marshal|]. done.
Qed.
