(* ===== verification/AITenantLoopFacts.v ===== *)
(** What a reconcile of an AITenant does, part after part: what it records of the
    tenant, and what is there when it says that the tenant is Active. *)
From S2P Require Import Prelude GoStrings GoTime Runtime.
From S2P Require Import GoFmt MaasTypes Cluster ControllerHelpers ControllerFacts TenantCluster.
From S2P Require Import AuthPolicyGateway AuthPolicyController AITenantParts AITenantController.
From S2P Require Import AITenantFacts.
Import Cluster Helpers Fmt Infra Tenant TenantController.

Section loop.
Context {srv : ApiServer} {tsrv : TenantServer} {lawful : LawfulApiServer}.
Context {tlawful : LawfulTenantServer} {uni : Unicode} (r : AITenantReconciler).

(** ** Names *)

Lemma placement_spec k : validateAITenantPlacement r k = Ok () →
  k.1 = aitenantNamespace r ∧ k.1 ≠ "" ∧ tenantNamespaceName r k ≠ k.1
  ∧ tenant_ns r k ≠ infra_ns r.
Proof.
  unfold validateAITenantPlacement, tenant_ns, infra_ns.
  repeat (case_match; [done|]). intros _.
  repeat match goal with
  | H : (_ && _) = false |- _ => apply andb_false_iff in H
  | H : bool_decide _ = false |- _ => apply bool_decide_eq_false in H
  | H : negb _ = false |- _ => apply negb_false_iff, bool_decide_eq_true in H
  end.
  split_and!; [done..|]. intros [= E]. destruct H4 as [H4|H4].
  - apply negb_false_iff, bool_decide_eq_true in H4. rewrite E, H4 in H5.
    pose proof IsDNS1123Label_empty. by destruct (IsDNS1123Label "").
  - by apply bool_decide_eq_false in H4.
Qed.

Lemma roles_distinct k : tenantNamespaceName r k ≠ k.1 → admin_role r k ≠ object_role k.
Proof. intros Hne [= E _]. done. Qed.

(** ** What is recorded of a tenant *)

Definition phase (t : object AITenants) : string := st_Phase (aitenant_status t).
Definition gateway (t : object AITenants) : GatewayRef := st_GatewayRef (aitenant_status t).
Definition recorded (t : object AITenants) (st : AITenantStatus) : object AITenants :=
  with_status (K := AITenants) (λ _, st) t.

Lemma wp_updateAITenantStatus k t t0 c :
  c AITenants !! k = Some t0 →
  wp (updateAITenantStatus k t (aitenant_status t0)) (λ x c',
    only (at_object AITenants k) c c' ∧
    match x with
    | Ok _ => c' AITenants !! k = Some (recorded t0 (aitenant_status t))
    | Err _ => unreliable ∧ (c' AITenants !! k = Some t0
                 ∨ c' AITenants !! k = Some (recorded t0 (aitenant_status t)))
    end) c.
Proof.
  intros E. unfold updateAITenantStatus. case_bool_decide as Heq.
  { apply wp_ret. split; [done|]. rewrite <- Heq. by destruct t0. }
  assert (∀ c', status_set k (status t) c c' →
    only (at_object AITenants k) c c'
    ∧ c' AITenants !! k = Some (recorded t0 (aitenant_status t))) as Hs.
  { intros c' Hx. split; [eauto with maas|]. destruct Hx as (old & E' & ->).
    rewrite E in E'. injection E' as <-. by rewrite update_same, lookup_insert_eq. }
  apply wp_plain_call. eapply wp_mono; [apply wp_UpdateStatus|].
  intros [[]|[]] c' Hx; try done.
  - by apply Hs.
  - destruct Hx. congruence.
  - destruct Hx as [Hu [->|Hx]]; [split; [done|by auto]|]. apply Hs in Hx as [Ho Hx]. auto.
Qed.

(** What is known after a reconcile of a tenant: if it says that it is Active then
    a property of its gateway holds, unless the reconcile failed, and it said so
    before. *)
Definition settled {A} (k : key) (t0 : object AITenants) (P : GatewayRef → infra → Prop)
    (x : result error A) (c : infra) : Prop :=
  ∃ t, c AITenants !! k = Some t ∧ meta t = meta t0 ∧
    (phase t = "Active" → P (gateway t) c
       ∨ match x with Ok _ => False | Err _ => phase t0 = "Active" end).

Definition stable (P : GatewayRef → infra → Prop) : Prop :=
  ∀ gr k c c', only (at_object AITenants k) c c' → P gr c → P gr c'.

Lemma wp_record k t t0 ph reason message after P c :
  c AITenants !! k = Some t0 → stable P → (ph = "Active" → P (gateway t) c) →
  wp (record k t (aitenant_status t0) ph reason message after) (λ x c',
    only (at_object AITenants k) c c' ∧ settled k t0 P x c') c.
Proof.
  intros E Hst HP. unfold record.
  eapply wp_try, wp_mono; [by apply wp_updateAITenantStatus|].
  intros [[]|e] c' [Ho Hx].
  - apply wp_ret. split; [done|]. eexists. split_and!; [done|done|]. intros Ha. left.
    eapply Hst; [done|]. by apply HP.
  - split; [done|]. destruct Hx as [_ [Hx|Hx]].
    + exists t0. auto.
    + eexists. split_and!; [done|done|]. intros Ha. left. eapply Hst; [done|]. by apply HP.
Qed.

Lemma wp_fail k t t0 reason e P c :
  c AITenants !! k = Some t0 → stable P →
  wp (fail k t (aitenant_status t0) reason e) (λ x c',
    only (at_object AITenants k) c c' ∧ settled k t0 P x c') c.
Proof. intros E Hst. unfold fail. by apply wp_record. Qed.

(** ** What a tenant has *)

Definition namespace_ok (k : key) (c : infra) : Prop :=
  ∃ ns, c Namespaces !! tenant_ns r k = Some ns
    ∧ marked k (tenantNamespaceName r k) (meta ns) ∧ namespace_phase ns ≠ "Terminating".
Definition config_is (k : key) (ready : bool) (c : infra) : Prop :=
  ∃ config, c MaasTenantConfigs !! config_key r k = Some config
    ∧ marked k (tenantNamespaceName r k) (meta config) ∧ being_deleted config = false
    ∧ ready = config_ready config.
Definition roles_ok (k : key) (c : infra) : Prop :=
  has_role r k (admin_role r k) tenant_admin_rules c
  ∧ has_role r k (object_role k) (object_admin_rules k) c.
Definition gateway_ok (gr : GatewayRef) (c : infra) : Prop :=
  is_Some (c Gateways !! (g_Namespace gr, g_Name gr)).

(** Everything that the AITenant controller provides a tenant with. *)
Definition provisioned (k : key) (uid : string) (gr : GatewayRef) (c : infra) : Prop :=
  gateway_ok gr c ∧ claim_held r k uid gr c ∧ namespace_ok k c ∧ config_is k true c
  ∧ roles_ok k c.

Section frames.
Context (F : Kind → key → Prop) (c c' : infra) (Ho : only F c c').

Lemma namespace_ok_only k : ¬ F Namespaces (tenant_ns r k) → namespace_ok k c → namespace_ok k c'.
Proof. unfold namespace_ok. intros Hn. by rewrite Ho. Qed.
Lemma config_is_only k ready :
  ¬ F MaasTenantConfigs (config_key r k) → config_is k ready c → config_is k ready c'.
Proof. unfold config_is. intros Hn. by rewrite Ho. Qed.
Lemma has_role_only k rk rules :
  ¬ F Roles rk → has_role r k rk rules c → has_role r k rk rules c'.
Proof. unfold has_role. intros Hn. by rewrite Ho. Qed.
Lemma gateway_ok_only gr : (∀ gk, ¬ F Gateways gk) → gateway_ok gr c → gateway_ok gr c'.
Proof. unfold gateway_ok. intros Hn. by rewrite Ho. Qed.
Lemma claim_held_frame k uid gr :
  (∀ ck, ¬ F ConfigMaps ck) → claim_held r k uid gr c → claim_held r k uid gr c'.
Proof. intros Hn. by eapply claim_held_only. Qed.
End frames.

Lemma provisioned_stable k uid : stable (provisioned k uid).
Proof.
  intros gr k' c c' Ho (H1 & H2 & H3 & H4 & H5 & H6). split_and!.
  - eapply gateway_ok_only; [exact Ho|by intros ? []|done].
  - eapply claim_held_frame; [exact Ho|by intros ? []|done].
  - eapply namespace_ok_only; [exact Ho|by intros []|done].
  - eapply config_is_only; [exact Ho|by intros []|done].
  - split; (eapply has_role_only; [exact Ho|by intros []|done]).
Qed.

(** ** The parts of a reconcile *)

Definition conclude_objects (k : key) (K' : Kind) (k' : key) : Prop :=
  at_object AITenants k K' k' ∨ role_objects r k K' k'.

Lemma wp_conclude k t t0 ready c :
  c AITenants !! k = Some t0 → tenantNamespaceName r k ≠ k.1 →
  gateway_ok (gateway t) c → claim_held r k (om_UID (meta t0)) (gateway t) c →
  namespace_ok k c → config_is k ready c →
  wp (conclude r k t (aitenant_status t0) ready) (λ x c',
    only (conclude_objects k) c c'
    ∧ settled k t0 (provisioned k (om_UID (meta t0))) x c') c.
Proof.
  intros E Hne Hg Hc Hn Hr. unfold conclude.
  eapply wp_bind, wp_mono; [by apply wp_ensureTenantAdminRBAC, roles_distinct|].
  intros x c1 [Ho Hx].
  assert (c1 AITenants !! k = Some t0) as E1 by (rewrite Ho; [done|by intros []]).
  assert (∀ (x : result error requeue) c', only (at_object AITenants k) c1 c'
    ∧ settled k t0 (provisioned k (om_UID (meta t0))) x c' →
    only (conclude_objects k) c c' ∧ settled k t0 (provisioned k (om_UID (meta t0))) x c') as Hm.
  { intros y c' [Ho' Hs]. split; [|done].
    etrans; [eapply only_mono; [exact Ho|]|eapply only_mono; [exact Ho'|]];
      unfold conclude_objects; auto. }
  destruct x as [[]|e].
  2:{ eapply wp_mono; [apply wp_fail; [done|apply provisioned_stable]|exact Hm]. }
  destruct ready; cbn [negb]; (eapply wp_mono; [apply wp_record|exact Hm]);
    [done|apply provisioned_stable| |done|apply provisioned_stable|done].
  intros _. split_and!; [| | | |exact Hx].
  - eapply gateway_ok_only; [exact Ho|by intros ? []|done].
  - eapply claim_held_frame; [exact Ho|by intros ? []|done].
  - eapply namespace_ok_only; [exact Ho|by intros []|done].
  - eapply config_is_only; [exact Ho|by intros []|done].
Qed.

Definition resource_objects (k : key) (K' : Kind) (k' : key) : Prop :=
  at_object AITenants k K' k' ∨ at_object Namespaces (tenant_ns r k) K' k'
  ∨ config_objects r k K' k'.

Lemma wp_ensureTenantResources k t t0 P c :
  c AITenants !! k = Some t0 → stable P →
  wp (ensureTenantResources r k t (aitenant_status t0)) (λ p c',
    only (resource_objects k) c c' ∧
    match p with
    | Return x => settled k t0 P x c'
    | Continue ready => c' AITenants !! k = Some t0 ∧ namespace_ok k c' ∧ config_is k ready c'
    end) c.
Proof.
  intros E Hst. unfold ensureTenantResources.
  eapply wp_bind, wp_mono; [apply wp_ensureTenantNamespace|]. intros x c1 [Ho Hx].
  assert (c1 AITenants !! k = Some t0) as E1 by (rewrite Ho; [done|by intros []]).
  assert (only (resource_objects k) c c1) as Ho1.
  { eapply only_mono; [exact Ho|]. unfold resource_objects. auto. }
  assert (∀ c1, only (resource_objects k) c c1 → ∀ (x : result error requeue) c',
    only (at_object AITenants k) c1 c' ∧ settled k t0 P x c' →
    wp (mret (Return x)) (λ p c', only (resource_objects k) c c' ∧
    match p with
    | Return x => settled k t0 P x c'
    | Continue ready => c' AITenants !! k = Some t0 ∧ namespace_ok k c' ∧ config_is k ready c'
    end) c') as Hm.
  { intros c2 Ho2 y c' [Ho' Hs]. apply wp_ret. split; [|done]. etrans; [exact Ho2|].
    eapply only_mono; [exact Ho'|]. unfold resource_objects. auto. }
  destruct x as [[]|e].
  - eapply wp_bind, wp_mono; [by apply wp_record|]. by apply Hm.
  - destruct Hx as [_ Hns].
    eapply wp_bind, wp_mono; [apply wp_ensureTenantConfig|]. intros x c2 [Ho2 Hx2].
    assert (c2 AITenants !! k = Some t0) as E2 by (rewrite Ho2; [done|by intros [[] _]]).
    assert (only (resource_objects k) c c2) as Ho12.
    { etrans; [exact Ho1|]. eapply only_mono; [exact Ho2|]. unfold resource_objects. auto. }
    destruct x as [[ready []]|e].
    + eapply wp_bind, wp_mono; [by apply wp_record|]. by apply Hm.
    + apply wp_ret. split_and!; [done|done| |exact Hx2].
      eapply namespace_ok_only; [exact Ho2|by intros [[] _]|done].
    + eapply wp_bind, wp_mono; [by apply wp_fail|]. by apply Hm.
  - eapply wp_bind, wp_mono; [by apply wp_fail|]. by apply Hm.
Qed.

(** What a reconcile of a tenant that is not being deleted may change. *)
Definition live_objects (k : key) (uid : string) (c : infra) (K' : Kind) (k' : key) : Prop :=
  at_object AITenants k K' k' ∨ at_object Namespaces (tenant_ns r k) K' k'
  ∨ at_object Namespaces (infra_ns r) K' k' ∨ config_objects r k K' k' ∨ role_objects r k K' k'
  ∨ own_claims r k uid c K' k'.

Lemma conclude_live k uid c K' k' : conclude_objects k K' k' → live_objects k uid c K' k'.
Proof. intros []; unfold live_objects; auto 7. Qed.
Lemma resource_live k uid c K' k' : resource_objects k K' k' → live_objects k uid c K' k'.
Proof. intros [|[]]; unfold live_objects; auto 7. Qed.

(** A later part's claims are those at the start. *)
Lemma live_after k uid c c1 c2 :
  only (live_objects k uid c) c c1 → only (live_objects k uid c1) c1 c2 →
  only (live_objects k uid c) c c2.
Proof.
  intros H1 H2. etrans; [exact H1|]. eapply only_mono; [exact H2|]. unfold live_objects.
  intros K' k' [H|[H|[H|[H|[H|H]]]]]; auto 7. do 5 right.
  destruct H as (-> & Hns & H). split_and!; [done|done|]. intros cm E.
  destruct (isClaimOwnedByAITenant (meta cm) k uid) eqn:Ec; [done|].
  rewrite <- Ec. apply H. rewrite H1; [done|].
  intros [[[=] _]|[[[=] _]|[[[=] _]|[[[[=]|[=]] _]|[[[=] _]|(_ & _ & Hc)]]]]].
  rewrite (Hc _ E) in Ec. done.
Qed.

(** The claim, and what follows. *)
Lemma wp_claim_gateway k t t0 ready c :
  c AITenants !! k = Some t0 → meta t = meta t0 → tenantNamespaceName r k ≠ k.1 →
  gateway_ok (gateway t) c → (∀ b, ready = Some b → namespace_ok k c ∧ config_is k b c) →
  wp (claim_gateway r k t (aitenant_status t0) ready) (λ x c',
    only (live_objects k (om_UID (meta t0)) c) c c'
    ∧ settled k t0 (provisioned k (om_UID (meta t0))) x c') c.
Proof.
  intros E Hm Hne Hg Hready. unfold claim_gateway. rewrite Hm. set (uid := om_UID (meta t0)).
  eapply wp_bind, wp_mono; [by apply wp_ensureGatewayClaim|]. intros x c1 [Ho1 Hx].
  assert (only (live_objects k uid c) c c1) as Hl1.
  { eapply only_mono; [exact Ho1|]. unfold live_objects. auto 6. }
  assert (c1 AITenants !! k = Some t0) as E1 by (rewrite Ho1; [done|by intros []]).
  assert (gateway_ok (gateway t) c1) as Hg1.
  { eapply gateway_ok_only; [exact Ho1|by intros ? []|done]. }
  assert (∀ F c2 c3, only (live_objects k uid c) c c2 →
    (∀ K' k', F K' k' → live_objects k uid c K' k') →
    ∀ x : result error requeue, only F c2 c3 ∧ settled k t0 (provisioned k uid) x c3 →
    only (live_objects k uid c) c c3 ∧ settled k t0 (provisioned k uid) x c3) as Hmono.
  { intros F c2 c3 H2 HF y [H3 Hs]. split; [|done]. etrans; [exact H2|]. by eapply only_mono. }
  destruct x as [[]|e].
  2:{ eapply wp_mono; [apply wp_fail; [done|apply provisioned_stable]|].
      intros x c'. apply Hmono; [done|]. unfold live_objects. auto. }
  destruct ready as [b|].
  - destruct (Hready b eq_refl) as [Hn Hr]. eapply wp_mono; [apply wp_conclude|]; try done.
    + eapply namespace_ok_only; [exact Ho1|by intros []|done].
    + eapply config_is_only; [exact Ho1|by intros []|done].
    + intros x c'. apply Hmono; [done|]. intros K' k'. apply conclude_live.
  - eapply wp_bind, wp_mono; [apply wp_ensureTenantResources; [done|apply (provisioned_stable k uid)]|].
    intros p c2 [Ho2 Hp].
    assert (only (live_objects k uid c) c c2) as Hl2.
    { etrans; [exact Hl1|]. eapply only_mono; [exact Ho2|]. intros K' k'. apply resource_live. }
    destruct p as [x|ready]; [by apply wp_ret|]. destruct Hp as (E2 & Hn & Hr).
    eapply wp_mono; [apply wp_conclude|]; try done.
    + eapply gateway_ok_only; [exact Ho2|by intros ? [[]|[[]|[[] _]]]|done].
    + eapply claim_held_frame; [exact Ho2|by intros ? [[]|[[]|[[] _]]]|done].
    + intros x c'. apply Hmono; [done|]. intros K' k'. apply conclude_live.
Qed.

Lemma note_labels_keeps t labelled :
  meta (note_labels t labelled) = meta t ∧ gateway (note_labels t labelled) = gateway t.
Proof. by destruct labelled. Qed.

Lemma wp_bind_gateway k t t0 ready c :
  c AITenants !! k = Some t0 → meta t = meta t0 →
  tenantNamespaceName r k ≠ k.1 → tenant_ns r k ≠ infra_ns r →
  (∀ b, ready = Some b → namespace_ok k c ∧ config_is k b c) →
  wp (bind_gateway r k t (aitenant_status t0) ready) (λ x c',
    only (live_objects k (om_UID (meta t0)) c) c c'
    ∧ settled k t0 (provisioned k (om_UID (meta t0))) x c') c.
Proof.
  intros E Hm Hne Hni Hready. unfold bind_gateway. set (uid := om_UID (meta t0)).
  eapply wp_bind, wp_mono; [apply wp_validateTenantGateway|]. intros [gw|e] c1 [-> Hgw].
  2:{ eapply wp_mono; [apply wp_fail; [done|apply (provisioned_stable k uid)]|].
      intros x c' [Ho Hs]. split; [|done]. eapply only_mono; [exact Ho|]. unfold live_objects. auto. }
  eapply wp_bind, wp_mono; [apply wp_ensureInfraNamespaceGatewayLabels|].
  intros labelled c1 [Ho1 _].
  assert (only (live_objects k uid c) c c1) as Hl1.
  { eapply only_mono; [exact Ho1|]. unfold live_objects. auto. }
  assert (c1 AITenants !! k = Some t0) as E1 by (rewrite Ho1; [done|by intros []]).
  assert (wp (claim_gateway r k (note_labels t labelled) (aitenant_status t0) ready) (λ x c',
    only (live_objects k uid c) c c' ∧ settled k t0 (provisioned k uid) x c') c1) as Hclaim.
  { destruct (note_labels_keeps t labelled) as [Hm' Hg'].
    eapply wp_mono; [apply wp_claim_gateway|]; try done.
    - by rewrite Hm'.
    - rewrite Hg'. eapply gateway_ok_only; [exact Ho1|by intros ? []|by eexists].
    - intros b Hb. destruct (Hready b Hb) as [Hn Hr]. split.
      + eapply namespace_ok_only; [exact Ho1| |done]. by intros [_ ?].
      + eapply config_is_only; [exact Ho1|by intros []|done].
    - intros x c' [Ho Hs]. split; [|done]. by eapply live_after. }
  destruct labelled; [exact Hclaim..|].
  apply wp_ret. split; [exact Hl1|]. exists t0. auto.
Qed.

Lemma settled_from {A} k t0 t1 P (x : result error A) c :
  meta t1 = meta t0 → phase t1 = phase t0 → settled k t1 P x c → settled k t0 P x c.
Proof.
  intros Hm Hp (t & E & Ht & H). exists t. split_and!; [done|congruence|]. rewrite <- Hp. done.
Qed.

Lemma wp_bootstrap k t t0 c :
  c AITenants !! k = Some t0 → meta t = meta t0 → phase t = phase t0 →
  aitenant_spec t = aitenant_spec t0 →
  tenantNamespaceName r k ≠ k.1 → tenant_ns r k ≠ infra_ns r →
  wp (bootstrap r k t (aitenant_status t0)) (λ x c',
    only (live_objects k (om_UID (meta t0)) c) c c'
    ∧ settled k t0 (provisioned k (om_UID (meta t0))) x c') c.
Proof.
  intros E Hm Hp Hs Hne Hni. unfold bootstrap. set (uid := om_UID (meta t0)).
  set (t1 := with_status _ t).
  eapply wp_try, wp_mono; [by apply wp_updateAITenantStatus|]. intros x c1 [Ho1 Hx].
  assert (only (live_objects k uid c) c c1) as Hl1.
  { eapply only_mono; [exact Ho1|]. unfold live_objects. auto. }
  set (t2 := recorded t0 (aitenant_status t1)) in *.
  assert (phase t2 = phase t0) as Hp2 by exact Hp.
  destruct x as [[]|e].
  2:{ split; [exact Hl1|]. destruct Hx as [_ [Hx|Hx]]; (eexists; split_and!; [exact Hx|done|]).
      - auto. - rewrite Hp2. auto. }
  change (aitenant_status t1) with (aitenant_status t2).
  assert (∀ (x : result error requeue) c2 c', only (live_objects k uid c) c c2 →
    only (live_objects k uid c2) c2 c' ∧ settled k t2 (provisioned k uid) x c' →
    only (live_objects k uid c) c c' ∧ settled k t0 (provisioned k uid) x c') as Hmono.
  { intros x c2 c' H2 [H3 H4]. split; [by eapply live_after|]. by apply (settled_from k t0 t2). }
  destruct (default_bootstrap k).
  - eapply wp_bind, wp_mono; [apply wp_ensureTenantResources; [done|apply (provisioned_stable k uid)]|].
    intros p c2 [Ho2 Hp']. destruct p as [x|ready].
    + apply wp_ret, (Hmono x c1); [done|]. split; [|done].
      eapply only_mono; [exact Ho2|]. intros K' k'. apply resource_live.
    + destruct Hp' as (E2 & Hn & Hr). eapply wp_mono; [apply (wp_bind_gateway k t1 t2); try done|].
      { by intros b [= <-]. }
      intros x c'. apply Hmono. etrans; [exact Hl1|]. eapply only_mono; [exact Ho2|].
      intros K' k'. apply resource_live.
  - eapply wp_mono; [by apply (wp_bind_gateway k t1 t2)|]. intros x c'. by apply Hmono.
Qed.

(** What a reconcile of a tenant that is there, and not being deleted, leaves: the
    tenant, which is Active only if it is provisioned, or as it was, or failing. *)
Definition live_result (k : key) (t : object AITenants) (c : infra)
    (x : result error requeue) (c' : infra) : Prop :=
  only (live_objects k (om_UID (meta t)) c) c c' ∧
  ∃ t', c' AITenants !! k = Some t' ∧ om_UID (meta t') = om_UID (meta t)
    ∧ being_deleted t' = false ∧
    (phase t' = "Active" →
       provisioned k (om_UID (meta t)) (gateway t') c'
       ∨ status t' = status t ∧ only (at_object AITenants k) c c'
       ∨ phase t = "Active" ∧ ∃ e, x = Err e).

Lemma settled_result k t0 x c c' :
  being_deleted t0 = false →
  only (live_objects k (om_UID (meta t0)) c) c c' →
  settled k t0 (provisioned k (om_UID (meta t0))) x c' → live_result k t0 c x c'.
Proof.
  intros Hd Ho (t & E & Hm & H). split; [done|]. exists t. unfold being_deleted. rewrite Hm.
  split_and!; [done..|]. intros Ha. destruct (H Ha) as [H1|H1]; [by left|].
  destruct x as [|e]; [done|]. do 2 right. eauto.
Qed.

(** The tenant is there, with the same status. *)
Definition same_tenant (k : key) (t : object AITenants) (c : infra) : Prop :=
  ∃ t', c AITenants !! k = Some t' ∧ om_UID (meta t') = om_UID (meta t)
    ∧ being_deleted t' = false ∧ aitenant_status t' = aitenant_status t.

Lemma same_tenant_result k t c x c' :
  only (at_object AITenants k) c c' → same_tenant k t c' → live_result k t c x c'.
Proof.
  intros Ho (t' & E' & Hu & Hd' & Hs). split.
  - eapply only_mono; [exact Ho|]. unfold live_objects. auto.
  - exists t'. split_and!; [done..|]. intros _. right; left. done.
Qed.

(** A patch of the tenant leaves its status. *)
Lemma wp_patch_tenant k o t c :
  c AITenants !! k = Some t → being_deleted t = false →
  wp (Patch AITenants k o) (λ x c', only (at_object AITenants k) c c' ∧ same_tenant k t c'
    ∧ ∀ e, x = Err e → unreliable) c.
Proof.
  intros E Hd.
  assert (same_tenant k t c) as Hc by (exists t; done).
  assert (∀ c', patched k o c c' → same_tenant k t c') as Hp.
  { intros c' (old & E' & ->). rewrite E in E'. injection E' as <-.
    unfold same_tenant. rewrite update_lookup. unfold stored. rewrite Hd. cbn.
    eexists. split_and!; done. }
  eapply wp_mono; [apply wp_Patch|]. intros [[]|[]] c' Hx; try done.
  - split_and!; [eauto with maas|by apply Hp|done].
  - destruct Hx as [-> Hn]. split_and!; [done..|]. congruence.
  - destruct Hx as [Hu [->|Hx]]; [by split_and!|]. split_and!; [eauto with maas|by apply Hp|done].
Qed.

(** What keeps the platform context of a legacy Tenant from being migrated. *)
Definition migration_blocked (k : key) (c : infra) : Prop :=
  ∃ legacy, c Tenants !! config_key r k = Some legacy
    ∧ g_Namespace (ts_GatewayRef (tenant_spec legacy)) ≠ ""
    ∧ g_Namespace (ts_GatewayRef (tenant_spec legacy)) ≠ GatewaysNamespace r.

Lemma wp_migrateLegacyTenantPlatformContext k t t0 c :
  c AITenants !! k = Some t0 → being_deleted t0 = false →
  wp (migrateLegacyTenantPlatformContext r k t (tenantNamespaceName r k)) (λ x c',
    only (at_object AITenants k) c c' ∧ same_tenant k t0 c' ∧
    match x with
    | Ok migrated => migrated = false → c' = c
    | Err _ => unreliable ∨ migration_blocked k c
    end) c.
Proof.
  intros E Hd. unfold migrateLegacyTenantPlatformContext.
  assert (same_tenant k t0 c) as Hc by (exists t0; done).
  wp_step wp_Get. change (tenantNamespaceName r k, default_tenant_name) with (config_key r k).
  intros [legacy|e] c1 [-> El].
  2:{ apply wp_ret. destruct e; cbn; try done; split_and!; auto; done. }
  destruct ((_ != "") && _) eqn:Ens.
  { apply wp_ret. split_and!; [done..|]. right. exists legacy. split; [done|].
    apply andb_true_iff in Ens as [H1 H2].
    by apply negb_true_iff, bool_decide_eq_false in H1, H2. }
  destruct (aitenant_spec t == _); [by apply wp_ret|]. apply wp_try, wp_call.
  eapply wp_mono; [by apply wp_patch_tenant|]. intros [[]|e] c' (Ho & Hs & Hu).
  - by apply wp_ret.
  - split_and!; [done..|]. left. by eapply Hu.
Qed.

Lemma wp_reconcile_live k t c :
  c AITenants !! k = Some t → being_deleted t = false →
  wp (reconcile_live r k t) (live_result k t c) c.
Proof.
  intros E Hd. unfold reconcile_live. destruct (contains _ _); cbn [negb].
  2:{ apply wp_try, wp_plain_call. eapply wp_mono; [by apply wp_patch_tenant|].
      intros [[]|e] c' (Ho & Hs & _); [apply wp_ret|]; by apply same_tenant_result. }
  assert (∀ t2 ph reason message after c1, ph ≠ "Active" →
    only (at_object AITenants k) c c1 → same_tenant k t c1 →
    wp (record k t2 (aitenant_status t) ph reason message after) (live_result k t c) c1) as Hrec.
  { intros t2 ph reason message after c1 Hne Ho (t3 & E3 & Hu & Hd3 & Hst).
    rewrite <- Hst. eapply wp_mono; [apply (wp_record k t2 t3 ph _ _ _ (λ _ _, False)); [done|by intros ?????|by intros ?]|].
    intros x c' [Ho' (t4 & E4 & Hm & H4)]. split.
    { etrans; (eapply only_mono; [done|]); unfold live_objects; auto. }
    exists t4. unfold being_deleted in *. rewrite Hm. split_and!; [done..|]. intros Ha.
    destruct (H4 Ha) as [[]|H]. destruct x as [|e]; [done|]. do 2 right. split; [|by eexists].
    unfold phase in *. congruence. }
  destruct (validateAITenantPlacement r k) as [[]|e] eqn:Ev.
  2:{ apply Hrec; [done..|by exists t]. }
  apply placement_spec in Ev as (Hns & _ & Hne & Hni).
  eapply wp_bind, wp_mono; [by apply wp_migrateLegacyTenantPlatformContext|].
  intros [[]|e] c1 (Ho & Hs & Hx).
  - apply wp_ret. by apply same_tenant_result.
  - rewrite (Hx eq_refl). eapply wp_mono; [apply wp_bootstrap; done|].
    intros x c' [Ho' Hs']. by apply settled_result.
  - by apply Hrec.
Qed.

(** ** Deletion *)

(** The ownership of labels is in ASCII, as the names of gateways and labels are. *)
Definition labels_ascii (c : infra) : Prop :=
  ∀ ns o, c Namespaces !! infra_ns r = Some ns → owned_labels (meta ns) = Some (Some o) →
    ascii_ownership o.
(** No label of the infrastructure namespace is owned by a gateway. *)
Definition labels_released (gw : string) (c : infra) : Prop :=
  ∀ ns o x, c Namespaces !! infra_ns r = Some ns → owned_labels (meta ns) = Some o →
    gw ∉ owners_of o x.

Lemma unlabelled_released gw o (ns ns' : object Namespaces) x o' :
  ascii_ownership o → om_Annotations (meta ns') = om_Annotations (meta (unlabelled gw o ns)) →
  owned_labels (meta ns') = Some o' → gw ∉ owners_of o' x.
Proof.
  destruct (unlabelled_spec gw o ns) as (labels' & os & -> & Hx & Ha). intros Ho Hann.
  assert (owned_labels (meta ns') = Some (Some os)) as ->.
  { rewrite <- (read_ownership os (meta ns)) by auto. unfold owned_labels. by rewrite Hann. }
  intros [= <-]. rewrite (proj1 (Hx x)), without_spec. naive_solver.
Qed.

Lemma wp_cleanupGatewayLabelsOnDelete k s c :
  g_Name (gatewayRefFor r k s) ≠ "" → GatewaysNamespace r ≠ "" → labels_ascii c →
  wp (cleanupGatewayLabelsOnDelete r k s) (λ x c', only (at_object Namespaces (infra_ns r)) c c'
    ∧ match x with
      | Ok _ => labels_released (g_Name (gatewayRefFor r k s)) c'
      | Err _ => unreliable
      end) c.
Proof.
  intros Hn Hns Hascii. unfold cleanupGatewayLabelsOnDelete.
  change ("", AppNamespace r) with (infra_ns r).
  rewrite !bool_decide_eq_false_2 by done. cbn [orb].
  wp_step wp_Get. intros [ns|e] c1 [-> E].
  2:{ destruct e; cbn; try done; apply wp_ret; (split; [done|]); try done.
      intros ns o x. by rewrite E. }
  fold (owned_labels (meta ns)). destruct (owned_labels (meta ns)) as [o|] eqn:Eo.
  2:{ apply wp_ret. split; [done|]. intros ns' o x. rewrite E. intros [= <-]. congruence. }
  destruct (existsb _ _) eqn:Eex.
  2:{ apply wp_ret. split; [done|]. intros ns' o' x. rewrite E. intros [= <-]. rewrite Eo.
      intros [= <-] Hg. apply not_true_iff_false in Eex. destruct Eex. apply existsb_exists.
      unfold owners_of in Hg. destruct (default ∅ o !! x) as [l|] eqn:El; [|by apply not_elem_of_nil in Hg].
      exists (x, l). split; [by apply list_elem_of_In, elem_of_map_to_list|by apply contains_true]. }
  apply wp_call. eapply wp_mono; [apply wp_Patch|]. intros [[]|[]] c' Hx; try done.
  - split; [eauto with maas|]. intros ns' o' x E' Eo'.
    destruct (patched_lookup _ _ c c' Hx) as (old & ns2 & _ & E2 & (_ & Ha & _) & _).
    { intros old E2. rewrite E in E2. by injection E2 as <-. }
    rewrite E' in E2. injection E2 as <-. eapply unlabelled_released; [|exact Ha|exact Eo'].
    destruct o as [o|]; [by eapply Hascii|]. by apply map_Forall_empty.
  - destruct Hx. congruence.
  - destruct Hx as [Hu [->|Hx]]; (split; [eauto with maas|done]). done.
Qed.

(** Everything of a tenant is gone, goes, or is released. *)
Definition config_gone (k : key) (c : infra) : Prop :=
  ∀ config, c MaasTenantConfigs !! config_key r k = Some config →
    ownedByAITenant (meta config) k = false.
Definition children_gone (k : key) (c : infra) : Prop :=
  ∀ K' k', child_objects r k K' k' → let_go K' k k' c.
Definition cleaned (k : key) (t : object AITenants) (c : infra) : Prop :=
  config_gone k c ∧ children_gone k c ∧ let_go Namespaces k (tenant_ns r k) c
  ∧ policy_gone (gateway_policy_of r k t) c
  ∧ no_claims_but r (λ _, False) k (om_UID (meta t)) c
  ∧ labels_released (g_Name (gatewayRefFor r k (aitenant_spec t))) c.

Section cleaned_frames.
Context (F : Kind → key → Prop) (c c' : infra) (Ho : only F c c').

Lemma config_gone_only k :
  ¬ F MaasTenantConfigs (config_key r k) → config_gone k c → config_gone k c'.
Proof. unfold config_gone. intros Hn. by rewrite Ho. Qed.
Lemma children_gone_only k :
  (∀ K' k', F K' k' → K' ≠ Roles ∧ K' ≠ RoleBindings) → children_gone k c → children_gone k c'.
Proof.
  intros Hn H K' k' Hc. eapply let_go_only; [exact Ho| |by apply H].
  intros [H1 H2]%Hn. by destruct Hc as [[] _].
Qed.
Lemma policy_gone_only pk : (∀ k', ¬ F AuthPolicies k') → policy_gone pk c → policy_gone pk c'.
Proof. intros Hn H k' p. rewrite Ho by done. apply H. Qed.
Lemma no_claims_only P k uid :
  (∀ k', ¬ F ConfigMaps k') → no_claims_but r P k uid c → no_claims_but r P k uid c'.
Proof. intros Hn H k' p. rewrite Ho by done. apply H. Qed.
Lemma labels_released_only gw :
  ¬ F Namespaces (infra_ns r) → labels_released gw c → labels_released gw c'.
Proof. intros Hn H ns o x. rewrite Ho by done. apply H. Qed.
Lemma labels_ascii_only : ¬ F Namespaces (infra_ns r) → labels_ascii c → labels_ascii c'.
Proof. intros Hn H ns o. rewrite Ho by done. apply H. Qed.
End cleaned_frames.

Lemma cleaned_only F k t c c' :
  only F c c' → (∀ K' k', F K' k' → K' = AITenants ∨ K' = Jobs) → cleaned k t c → cleaned k t c'.
Proof.
  intros Ho HF (H1 & H2 & H3 & H4 & H5 & H6). split_and!.
  - eapply config_gone_only; [exact Ho|by intros []%HF|done].
  - eapply children_gone_only; [exact Ho| |done]. intros ?? [->| ->]%HF; done.
  - eapply let_go_only; [exact Ho|by intros []%HF|done].
  - eapply policy_gone_only; [exact Ho|by intros ? []%HF|done].
  - eapply no_claims_only; [exact Ho|by intros ? []%HF|done].
  - eapply labels_released_only; [exact Ho|by intros []%HF|done].
Qed.

(** The tenant still has the finalizer. *)
Definition held (k : key) (c : infra) : Prop :=
  ∃ t, c AITenants !! k = Some t ∧ aitenantFinalizer ∈ om_Finalizers (meta t).
Lemma held_only F k c c' : only F c c' → ¬ F AITenants k → held k c → held k c'.
Proof. unfold held. intros Ho Hn. by rewrite Ho. Qed.

Lemma wp_deleteTenantAPIKeyRevocationJob k c :
  wp (deleteTenantAPIKeyRevocationJob r k) (λ _ c', only (at_object Jobs (job_key r k)) c c') c.
Proof.
  unfold deleteTenantAPIKeyRevocationJob. wp_step wp_Get. intros [job|e] c1 [-> _].
  - eapply wp_mono; [apply wp_delete|]. by intros x c' [Ho _].
  - by destruct (isNotFoundError e); apply wp_ret.
Qed.

Definition ending_objects (k : key) (K' : Kind) (k' : key) : Prop :=
  at_object AITenants k K' k' ∨ at_object Jobs (job_key r k) K' k'.

Lemma wp_release_tenant k t c :
  wp (release_tenant r k t) (λ _ c', only (ending_objects k) c c') c.
Proof.
  unfold release_tenant. apply wp_try, wp_plain_call. eapply wp_mono; [apply wp_Patch|].
  intros x c1 Hx.
  assert (only (ending_objects k) c c1) as Ho1.
  { destruct x as [|[]]; try done; [|by destruct Hx as [-> _]|].
    - eapply only_mono; [eauto with maas|]. unfold ending_objects. auto.
    - destruct Hx as [_ [->|Hx]]; [done|]. eapply only_mono; [eauto with maas|].
      unfold ending_objects. auto. }
  destruct x as [|e]; [|exact Ho1]. eapply wp_bind, wp_mono; [apply wp_deleteTenantAPIKeyRevocationJob|].
  intros x' c2 Ho2. apply wp_ret. etrans; [exact Ho1|]. eapply only_mono; [exact Ho2|].
  unfold ending_objects. auto.
Qed.

(** What a tenant's deletion may change. *)
Definition deletion_objects (k : key) (t : object AITenants) (c : infra) (K' : Kind) (k' : key)
    : Prop :=
  at_object AITenants k K' k' ∨ at_object MaasTenantConfigs (config_key r k) K' k'
  ∨ child_objects r k K' k' ∨ at_object Namespaces (tenant_ns r k) K' k'
  ∨ policy_object (gateway_policy_of r k t) K' k' ∨ own_claims r k (om_UID (meta t)) c K' k'
  ∨ at_object Namespaces (infra_ns r) K' k' ∨ at_object Jobs (job_key r k) K' k'.

Lemma wp_update_held k t snapshot c :
  held k c → wp (updateAITenantStatus k t snapshot) (λ _ c',
    only (at_object AITenants k) c c' ∧ held k c') c.
Proof.
  intros (t0 & E & Hf). unfold updateAITenantStatus.
  destruct (snapshot == aitenant_status t); [apply wp_ret; split; [done|by exists t0]|].
  assert (∀ c', status_set k (status t) c c' → only (at_object AITenants k) c c' ∧ held k c') as Hs.
  { intros c' Hx. split; [eauto with maas|]. destruct Hx as (old & E' & ->).
    rewrite E in E'. injection E' as <-. unfold held. rewrite update_same, lookup_insert_eq. eauto. }
  apply wp_plain_call. eapply wp_mono; [apply wp_UpdateStatus|]. intros [[]|[]] c' Hx; try done.
  - by apply Hs.
  - destruct Hx as [-> _]. split; [done|by exists t0].
  - destruct Hx as [_ [->|Hx]]; [split; [done|by exists t0]|by apply Hs].
Qed.

Lemma own_claims_same k uid c c1 K' k' :
  (∀ k', c1 ConfigMaps !! k' = c ConfigMaps !! k') → own_claims r k uid c1 K' k' →
  own_claims r k uid c K' k'.
Proof. intros Hc (-> & H1 & H2). split_and!; [done|done|]. intros cm. rewrite <- Hc. apply H2. Qed.

(** How far a deletion has come. *)
Definition deleting (k : key) (t : object AITenants) (c c' : infra) : Prop :=
  only (deletion_objects k t c) c c' ∧ held k c'.

Lemma deleting_step F k t c c1 c2 :
  deleting k t c c1 → only F c1 c2 →
  (∀ K' k', F K' k' → deletion_objects k t c K' k' ∧ (K' = AITenants → k' ≠ k)) →
  deleting k t c c2.
Proof.
  intros [H1 H2] Ho HF. split.
  - etrans; [exact H1|]. eapply only_mono; [exact Ho|]. by intros K' k' []%HF.
  - eapply held_only; [exact Ho| |exact H2]. intros [_ H]%HF. by apply H.
Qed.

Section cleanup.
Context (k : key) (t : object AITenants).
Context (Hne : tenantNamespaceName r k ≠ k.1) (Hni : tenant_ns r k ≠ infra_ns r).
Context (Hk : k.2 ≠ "") (Hgn : GatewaysNamespace r ≠ "").

Lemma gatewayRefFor_name s : g_Name (gatewayRefFor r k s) ≠ "".
Proof.
  unfold gatewayRefFor. cbn. destruct (sp_Gateway s) as [name|]; [|done].
  by destruct (decide (name = "")) as [->|H]; [|rewrite bool_decide_eq_false_2].
Qed.

(** The last steps: claims, labels, the finalizer. *)
Lemma wp_cleanup_end c c1 :
  deleting k t c c1 → config_gone k c1 → children_gone k c1 →
  let_go Namespaces k (tenant_ns r k) c1 → policy_gone (gateway_policy_of r k t) c1 →
  labels_ascii c1 → (∀ k', c1 ConfigMaps !! k' = c ConfigMaps !! k') →
  wp (_ ←? deleteGatewayClaim r k (om_UID (meta t));
      _ ←? cleanupGatewayLabelsOnDelete r k (aitenant_spec t);
      release_tenant r k t)
    (λ _ c', only (deletion_objects k t c) c c' ∧ (held k c' ∨ cleaned k t c')) c1.
Proof.
  intros Hd H1 H2 H3 H4 Hl Hcm.
  eapply wp_try, wp_mono; [apply wp_deleteGatewayClaim|]. intros x c2 (Ho2 & Hx2 & _).
  assert (deleting k t c c2) as Hd2.
  { eapply deleting_step; [exact Hd|exact Ho2|]. intros K' k' H. split.
    - apply (own_claims_same _ _ c) in H; [|done]. unfold deletion_objects. auto 10.
    - by destruct H as [-> _]. }
  destruct x as [[]|e]; [|split; [apply Hd2|left; apply Hd2]]. specialize (Hx2 eq_refl).
  eapply wp_try, wp_mono; [apply wp_cleanupGatewayLabelsOnDelete; [apply gatewayRefFor_name|done|]|].
  { eapply labels_ascii_only; [exact Ho2|by intros []|done]. }
  intros x c3 [Ho3 Hx3].
  assert (deleting k t c c3) as Hd3.
  { eapply deleting_step; [exact Hd2|exact Ho3|]. intros K' k' [-> ->]. split; [|done].
    unfold deletion_objects, at_object. auto 10. }
  destruct x as [[]|e]; [|split; [apply Hd3|left; apply Hd3]].
  eapply wp_mono; [apply wp_release_tenant|]. intros x c' Ho'. split.
  { etrans; [apply Hd3|]. eapply only_mono; [exact Ho'|]. intros K' k' []; unfold deletion_objects; auto 10. }
  right. eapply cleaned_only; [exact Ho'|by intros ?? [[]|[]]; auto|]. split_and!; [| | | | |done].
  - eapply config_gone_only; [exact Ho3|by intros []|]. eapply config_gone_only; [exact Ho2|by intros []|done].
  - eapply children_gone_only; [exact Ho3|by intros ?? [-> _]|].
    eapply children_gone_only; [exact Ho2|by intros ?? [-> _]|done].
  - eapply let_go_only; [exact Ho3|by intros [_ ?]|]. eapply let_go_only; [exact Ho2|by intros []|done].
  - eapply policy_gone_only; [exact Ho3|by intros ? []|]. eapply policy_gone_only; [exact Ho2|by intros ? []|done].
  - eapply no_claims_only; [exact Ho3|by intros ? []|done].
Qed.

Lemma wp_cleanup c :
  held k c → labels_ascii c →
  wp (cleanup r k t) (λ _ c', only (deletion_objects k t c) c c' ∧ (held k c' ∨ cleaned k t c')) c.
Proof.
  intros Hh Hl. unfold cleanup.
  assert (deleting k t c c) as Hd by done.
  assert (∀ c', deleting k t c c' →
    only (deletion_objects k t c) c c' ∧ (held k c' ∨ cleaned k t c')) as Hstop.
  { intros c' [H1 H2]. auto. }
  eapply wp_try, wp_mono; [apply wp_deleteTenantConfig|]. intros x c1 [Ho1 H1].
  assert (deleting k t c c1) as Hd1.
  { eapply deleting_step; [exact Hd|exact Ho1|]. intros K' k' [-> ->]. split; [|done].
    unfold deletion_objects, at_object. auto 10. }
  destruct x as [gone|e]; [|by apply Hstop].
  destruct gone; cbn [negb]; [|by apply wp_ret, Hstop].
  eapply wp_try, wp_mono; [by apply wp_deleteAITenantScopedChildren, roles_distinct|].
  intros x c2 [Ho2 H2].
  assert (deleting k t c c2) as Hd2.
  { eapply deleting_step; [exact Hd1|exact Ho2|]. intros K' k' H. split; [unfold deletion_objects; auto 10|].
    destruct H as [[-> | ->] _]; done. }
  destruct x as [[]|e]; [|by apply Hstop].
  eapply wp_bind, wp_mono; [by apply wp_releaseTenantNamespace|]. intros x c3 [Ho3 H3].
  assert (deleting k t c c3) as Hd3.
  { eapply deleting_step; [exact Hd2|exact Ho3|]. intros K' k' [-> ->]. split; [|done].
    unfold deletion_objects, at_object. auto 10. }
  destruct x as [[]|e].
  2:{ eapply wp_try, wp_mono; [apply wp_update_held, Hd3|]. intros x c' [Ho' Hh'].
      assert (only (deletion_objects k t c) c c' ∧ (held k c' ∨ cleaned k t c')) as Hs.
      { split; [|by left]. etrans; [apply Hd3|]. eapply only_mono; [exact Ho'|].
        unfold deletion_objects. auto. }
      destruct x as [|e']; [by apply wp_ret|exact Hs]. }
  eapply wp_try, wp_mono; [apply wp_deleteTenantGatewayAuthPolicy|]. intros x c4 [Ho4 H4].
  assert (deleting k t c c4) as Hd4.
  { eapply deleting_step; [exact Hd3|exact Ho4|]. intros K' k' H. split; [unfold deletion_objects; auto 10|].
    by destruct H as [-> _]. }
  destruct x as [[]|e]; [|by apply Hstop].
  apply wp_cleanup_end; try done.
  - eapply config_gone_only; [exact Ho4|by intros []|].
    eapply config_gone_only; [exact Ho3|by intros []|].
    eapply config_gone_only; [exact Ho2|by intros [[] _]|exact H1].
  - eapply children_gone_only; [exact Ho4|by intros ?? [-> _]|].
    eapply children_gone_only; [exact Ho3|by intros ?? [-> _]|done].
  - eapply let_go_only; [exact Ho4|by intros []|done].
  - eapply labels_ascii_only; [exact Ho4|by intros []|].
    eapply labels_ascii_only; [exact Ho3|by intros [_ ?]|].
    eapply labels_ascii_only; [exact Ho2|by intros [[] _]|].
    eapply labels_ascii_only; [exact Ho1|by intros []|done].
  - intros k'. rewrite Ho4 by (by intros []). rewrite Ho3 by (by intros []).
    rewrite Ho2 by (by intros [[] _]). by rewrite Ho1 by (by intros []).
Qed.

(** The keys of a tenant have been revoked: it says so, or its Job is complete. *)
Definition keys_are_revoked (t : object AITenants) (c : infra) : Prop :=
  tenantAPIKeysRevoked t = true
  ∨ ∃ job, c Jobs !! job_key r k = Some job
      ∧ tenantAPIKeyRevocationJobMatchesAITenant job (om_UID (meta t)) = true
      ∧ jobComplete job = true.

(** A copy of the tenant with another status, for the same Gateway. *)
Definition copy_of (t t' : object AITenants) : Prop :=
  meta t' = meta t ∧ aitenant_spec t' = aitenant_spec t ∧ gateway t' = gateway t.

Lemma wp_ensureTenantAPIKeysRevoked c : held k c →
  wp (ensureTenantAPIKeysRevoked r k t) (λ x c', only (ending_objects k) c c' ∧ held k c'
    ∧ copy_of t x.1 ∧ (x.2 = Ok true → keys_are_revoked t c)) c.
Proof.
  intros Hh. unfold ensureTenantAPIKeysRevoked.
  assert (copy_of t t) as Ht by done. assert (copy_of t (keys_revoked t)) as Ht' by done.
  assert (∀ c', only (at_object Jobs (job_key r k)) c c' →
    only (ending_objects k) c c' ∧ held k c') as Hj.
  { intros c' Ho. split; [|eapply held_only; [exact Ho|by intros []|done]].
    eapply only_mono; [exact Ho|]. unfold ending_objects. auto. }
  destruct (tenantAPIKeysRevoked t) eqn:Er.
  { apply wp_ret. split_and!; [done..|]. by left. }
  destruct (TrimSpace (AppNamespace r) == ""); [by apply wp_ret|].
  wp_step wp_Get. intros [job|e] c1 [-> E].
  - destruct (tenantAPIKeyRevocationJobMatchesAITenant job _) eqn:Em; cbn [negb].
    2:{ eapply wp_bind, wp_mono; [apply wp_delete|]. intros x c' [Ho _]. apply wp_ret.
        destruct (Hj c' Ho). by destruct x. }
    destruct (jobComplete job) eqn:Ec.
    { eapply wp_bind, wp_mono; [|].
      - apply wp_bind. eapply wp_mono; [by apply wp_update_held|].
        intros x c' H. apply wp_ret. instantiate (1 := λ x c',
          (only (at_object AITenants k) c c' ∧ held k c') ∧ ∀ t', x = Ok t' → t' = keys_revoked t).
        destruct x; split; try done. by intros ? [= <-].
      - intros x c' [[Ho Hh'] Hx]. apply wp_ret.
        assert (only (ending_objects k) c c').
        { eapply only_mono; [exact Ho|]. unfold ending_objects. auto. }
        destruct x as [t'|e]; [rewrite (Hx t' eq_refl)|]; split_and!; try done.
        intros _. right. by exists job. }
    destruct (jobFailed job); [|by apply wp_ret].
    eapply wp_bind, wp_mono; [apply wp_delete|]. intros x c' [Ho _]. apply wp_ret.
    destruct (Hj c' Ho). by destruct x.
  - destruct (negb (isNotFoundError e)); [by apply wp_ret|].
    wp_step wp_Create. intros x c' Hx.
    assert (only (at_object Jobs (job_key r k)) c c') as Ho.
    { destruct x as [|[]]; try done; [eauto with maas|by destruct Hx as [-> _]|by destruct Hx as [-> _]|].
      destruct Hx as [_ [->|Hx]]; [done|eauto with maas]. }
    apply wp_ret. destruct (Hj c' Ho). split_and!; [done..|]. cbn. by destruct x as [|[]].
Qed.
End cleanup.

Lemma copy_policy k t t' : copy_of t t' → gateway_policy_of r k t' = gateway_policy_of r k t.
Proof. intros (_ & Hs & Hg). unfold gateway_policy_of, gateway in *. by rewrite Hs, Hg. Qed.
Lemma copy_deletion k t t' c K' k' :
  copy_of t t' → deletion_objects k t' c K' k' → deletion_objects k t c K' k'.
Proof. intros Hc. unfold deletion_objects. rewrite (copy_policy k t t' Hc), (proj1 Hc). done. Qed.
Lemma copy_cleaned k t t' c : copy_of t t' → cleaned k t' c → cleaned k t c.
Proof.
  intros Hc. unfold cleaned. rewrite (copy_policy k t t' Hc).
  destruct Hc as (-> & -> & _). done.
Qed.

(** A later part's deletions are those at the start. *)
Lemma deletion_after k t c c1 c2 :
  only (ending_objects k) c c1 → only (deletion_objects k t c1) c1 c2 →
  only (deletion_objects k t c) c c2.
Proof.
  intros H1 H2. etrans; [eapply only_mono; [exact H1|]|eapply only_mono; [exact H2|]].
  - intros K' k' []; unfold deletion_objects; auto 10.
  - intros K' k' [H|[H|[H|[H|[H|[H|H]]]]]]; unfold deletion_objects; auto 10. do 5 right. left.
    eapply own_claims_same; [|exact H]. intros k1. rewrite H1; [done|by intros [[]|[]]].
Qed.

Section terminate.
Context (k : key) (t : object AITenants).
Context (Hne : tenantNamespaceName r k ≠ k.1) (Hni : tenant_ns r k ≠ infra_ns r).
Context (Hk : k.2 ≠ "") (Hgn : GatewaysNamespace r ≠ "").

Lemma labels_ascii_ending c c' : only (ending_objects k) c c' → labels_ascii c → labels_ascii c'.
Proof. intros Ho. eapply labels_ascii_only; [exact Ho|by intros [[]|[]]]. Qed.

(** The deletion ends when everything is clean and the keys are revoked. *)
Definition terminated (c c' : infra) : Prop :=
  only (deletion_objects k t c) c c' ∧ (held k c' ∨ cleaned k t c' ∧ keys_are_revoked k t c).

Lemma wp_terminate c :
  c AITenants !! k = Some t → aitenantFinalizer ∈ om_Finalizers (meta t) → labels_ascii c →
  wp (terminate r k t) (λ _ c', terminated c c') c.
Proof.
  intros E Hf Hl. unfold terminate. assert (held k c) as Hh by by exists t.
  set (t1 := setAITenantPhase _ _ _ _). assert (copy_of t t1) as Hc1 by done.
  assert (∀ c', only (ending_objects k) c c' → held k c' → terminated c c') as Hstop.
  { intros c' Ho Hh'. split; [|by left]. eapply deletion_after; [exact Ho|done]. }
  assert (∀ c1 c2, only (ending_objects k) c c1 → only (at_object AITenants k) c1 c2 →
    only (ending_objects k) c c2) as Htr.
  { intros c1 c2 H1 H2. etrans; [exact H1|]. eapply only_mono; [exact H2|].
    unfold ending_objects. auto. }
  eapply wp_try, wp_mono; [by apply wp_update_held|]. intros x c1 [Ho1 Hh1].
  assert (only (ending_objects k) c c1) as Ho1' by by eapply Htr.
  destruct x as [[]|e]; [|by apply Hstop].
  eapply wp_bind, wp_mono; [by apply wp_ensureTenantAPIKeysRevoked|].
  intros [t2 x] c2 (Ho2 & Hh2 & Hc2 & Hr). cbn [fst snd] in *.
  assert (only (ending_objects k) c c2) as Ho by by etrans.
  destruct x as [[]|e].
  - specialize (Hr eq_refl). assert (copy_of t t2) as Hc.
    { destruct Hc1 as (?&?&?), Hc2 as (?&?&?). split_and!; congruence. }
    eapply wp_mono; [by apply (wp_cleanup k t2); try done; eapply labels_ascii_ending|].
    intros y c' [Ho' Hx]. split.
    + eapply deletion_after; [exact Ho|]. eapply only_mono; [exact Ho'|].
      intros ??. by apply copy_deletion.
    + destruct Hx as [Hx|Hx]; [by left|right]. split; [by eapply copy_cleaned|].
      destruct Hr as [Hr|(job & Ej & Hr)]; [left|right].
      * revert Hr. unfold tenantAPIKeysRevoked. cbn.
        rewrite find_set_condition_ne by done. done.
      * exists job. split; [|done]. rewrite <- Ej, Ho1; [done|]. by intros [].
  - apply wp_ret. by apply Hstop.
  - unfold blocked. eapply wp_try, wp_mono; [by apply wp_update_held|].
    intros y c3 [Ho3 Hh3]. destruct y as [[]|e']; [apply wp_ret|];
      (apply Hstop; [by eapply Htr|done]).
Qed.
End terminate.

(** ** Confinement *)

(** Whatever fails, a deletion changes nothing else. *)
Section confined.
Context (k : key) (t : object AITenants).

Definition within (c c' : infra) : Prop := only (deletion_objects k t c) c c'.

#[local] Instance within_refl : Reflexive within.
Proof. intros c. unfold within. done. Qed.
#[local] Instance within_trans : Transitive within.
Proof.
  intros c1 c2 c3 H1 H2. unfold within in *. etrans; [exact H1|]. eapply only_mono; [exact H2|].
  intros K' k' [H|[H|[H|[H|[H|[H|H]]]]]]; unfold deletion_objects; auto 10. do 5 right. left.
  destruct H as (-> & Hns & H). split_and!; [done|done|]. intros cm E.
  destruct (isClaimOwnedByAITenant (meta cm) k (om_UID (meta t))) eqn:Ec; [done|].
  rewrite <- Ec. apply H. rewrite H1; [done|].
  intros [[[=] _]|[[[=] _]|[[[[=]|[=]] _]|[[[=] _]|[[[=] _]|[(_ & _ & Hc)|[[[=] _]|[[=] _]]]]]]]].
  rewrite (Hc _ E) in Ec. done.
Qed.

Lemma within_only {A} (F : infra → Kind → key → Prop) (m : prog infra A) :
  (∀ c, wp m (λ _ c', only (F c) c c') c) →
  (∀ c K' k', F c K' k' → deletion_objects k t c K' k') → respects within m.
Proof.
  intros Hm HF. apply respects_wp. intros c. eapply wp_mono; [apply Hm|].
  intros x c' Ho. eapply only_mono; [exact Ho|]. apply HF.
Qed.

Lemma Patch_only K k' o c : wp (Patch K k' o) (λ _ c', only (at_object K k') c c') c.
Proof.
  eapply wp_mono; [apply wp_Patch|]. intros [[]|[]] c' Hx; try done; [eauto with maas| |].
  - by destruct Hx as [-> _]. - destruct Hx as [_ [->|Hx]]; [done|eauto with maas].
Qed.
Lemma Delete_only K k' c : wp (Delete K k') (λ _ c', only (at_object K k') c c') c.
Proof.
  eapply wp_mono; [apply wp_Delete|]. intros [[]|[]] c' Hx; try done; [eauto with maas| |].
  - by destruct Hx as [-> _]. - destruct Hx as [_ [->|Hx]]; [done|eauto with maas].
Qed.
Lemma Create_only K k' o c : wp (Create K k' o) (λ _ c', only (at_object K k') c c') c.
Proof.
  eapply wp_mono; [apply wp_Create|]. intros [[]|[]] c' Hx; try done; [eauto with maas|..].
  - by destruct Hx as [-> _]. - by destruct Hx as [-> _].
  - destruct Hx as [_ [->|Hx]]; [done|eauto with maas].
Qed.
Lemma UpdateStatus_only K k' st c : wp (UpdateStatus K k' st) (λ _ c', only (at_object K k') c c') c.
Proof.
  eapply wp_mono; [apply wp_UpdateStatus|]. intros [[]|[]] c' Hx; try done; [eauto with maas| |].
  - by destruct Hx as [-> _]. - destruct Hx as [_ [->|Hx]]; [done|eauto with maas].
Qed.

Lemma within_object {A} K' k' (m : prog infra A) :
  (∀ c, wp m (λ _ c', only (at_object K' k') c c') c) →
  (∀ c, deletion_objects k t c K' k') → respects within m.
Proof. intros Hm HF. eapply within_only; [exact Hm|]. by intros c K1 k1 [-> ->]. Qed.

Lemma within_Get K' k' : respects within (Get K' k').
Proof.
  eapply (within_only (λ _ _ _, False)); [|done].
  intros c. eapply wp_mono; [apply wp_Get|]. by intros x c' [-> _].
Qed.
Lemma within_call {A} context (m : prog infra (result server_error A)) :
  respects within m → respects within (call context m).
Proof. intros Hm. apply respects_bind; [apply _..|done|]. intros x. apply respects_ret, _. Qed.
Lemma within_plain_call {A} (m : prog infra (result server_error A)) :
  respects within m → respects within (plain_call m).
Proof. intros Hm. apply respects_bind; [apply _..|done|]. intros x. apply respects_ret, _. Qed.
Lemma within_ignore (m : prog infra (result server_error ())) :
  respects within m → respects within (ignore_not_found m).
Proof. intros Hm. apply respects_bind; [apply _..|done|]. intros x. apply respects_ret, _. Qed.

Ltac confine := repeat match goal with
  | |- respects _ (mret _) => apply respects_ret, _
  | |- respects _ (Get _ _) => apply within_Get
  | |- respects _ (call _ _) => apply within_call
  | |- respects _ (plain_call _) => apply within_plain_call
  | |- respects _ (ignore_not_found _) => apply within_ignore
  | |- respects _ (try_bind _ _) => apply respects_try; [apply _..| |intros ?]
  | |- respects _ (_ ≫= _) => apply respects_bind; [apply _..| |intros ?]
  | |- respects _ (if ?b then _ else _) => destruct b
  | |- respects _ (match ?x with _ => _ end) => destruct x
  | |- respects _ (Patch ?K' ?k' _) => apply (within_object K' k'); [intros ?; apply Patch_only|]
  | |- respects _ (Delete ?K' ?k') => apply (within_object K' k'); [intros ?; apply Delete_only|]
  | |- respects _ (Create ?K' ?k' _) => apply (within_object K' k'); [intros ?; apply Create_only|]
  | |- respects _ (UpdateStatus ?K' ?k' _) =>
      apply (within_object K' k'); [intros ?; apply UpdateStatus_only|]
  | |- ∀ c, deletion_objects _ _ c _ _ =>
      intros ?; unfold deletion_objects, child_objects, at_object; auto 10; fail
  end.

Lemma within_update t' snapshot : respects within (updateAITenantStatus k t' snapshot).
Proof. unfold updateAITenantStatus. confine. Qed.
Lemma within_config : respects within (deleteTenantConfig r k).
Proof.
  apply (within_object MaasTenantConfigs (config_key r k)); [|confine].
  intros c. eapply wp_mono; [apply wp_deleteTenantConfig|]. by intros x c' [].
Qed.
Lemma within_children : respects within (deleteAITenantScopedChildren r k).
Proof. unfold deleteAITenantScopedChildren, deleteOwned. confine. Qed.
Lemma within_namespace : respects within (releaseTenantNamespace r k).
Proof. unfold releaseTenantNamespace. confine. Qed.
Lemma within_policy t' : copy_of t t' → respects within (deleteTenantGatewayAuthPolicy r k t').
Proof.
  intros Hc. apply (within_only (λ _, policy_object (gateway_policy_of r k t'))).
  - intros c. eapply wp_mono; [apply wp_deleteTenantGatewayAuthPolicy|]. by intros x c' [].
  - intros c ??. rewrite (copy_policy k t t' Hc). unfold deletion_objects. auto 10.
Qed.
Lemma within_claim : respects within (deleteGatewayClaim r k (om_UID (meta t))).
Proof.
  apply (within_only (own_claims r k (om_UID (meta t)))).
  - intros c. eapply wp_mono; [apply wp_deleteGatewayClaim|]. by intros x c' [].
  - intros c ??. unfold deletion_objects. auto 10.
Qed.
Lemma within_labels s : respects within (cleanupGatewayLabelsOnDelete r k s).
Proof. unfold cleanupGatewayLabelsOnDelete. confine. Qed.
Lemma within_release t' : respects within (release_tenant r k t').
Proof.
  apply (within_only (λ _, ending_objects k)); [intros c; apply wp_release_tenant|].
  intros c ?? []; unfold deletion_objects; auto 10.
Qed.
Lemma within_keys t' : respects within (ensureTenantAPIKeysRevoked r k t').
Proof. unfold ensureTenantAPIKeysRevoked, markTenantAPIKeysRevoked, updateAITenantStatus. confine. Qed.

Lemma copy_trans t1 t2 : copy_of t t1 → copy_of t1 t2 → copy_of t t2.
Proof. intros (?&?&?) (?&?&?). split_and!; congruence. Qed.

Lemma wp_true {A} (m : prog infra A) c : wp m (λ _ _, True) c.
Proof. by intros n. Qed.
Lemma wp_mark_copy t' c :
  wp (markTenantAPIKeysRevoked k t') (λ x _, ∀ t2, x = Ok t2 → t2 = keys_revoked t') c.
Proof.
  apply wp_bind. eapply wp_mono; [apply wp_true|]. intros [[]|e] c' _; apply wp_ret; [|done].
  by intros t2 [= <-].
Qed.
Lemma wp_revoked_copy t' c :
  wp (ensureTenantAPIKeysRevoked r k t') (λ x _, copy_of t' x.1) c.
Proof.
  assert (copy_of t' (keys_revoked t')) as Ht by done.
  unfold ensureTenantAPIKeysRevoked. destruct (tenantAPIKeysRevoked t'); [by apply wp_ret|].
  destruct (TrimSpace _ == ""); [by apply wp_ret|].
  eapply wp_bind, wp_mono; [apply wp_true|]. intros [job|e] c1 _.
  - destruct (negb _).
    { eapply wp_bind, wp_mono; [apply wp_true|]. intros x c2 _. by apply wp_ret. }
    destruct (jobComplete job).
    { eapply wp_bind, wp_mono; [apply wp_mark_copy|]. intros x c2 Hx. apply wp_ret.
      destruct x as [t2|e]; [by rewrite (Hx t2 eq_refl)|done]. }
    destruct (jobFailed job); [|by apply wp_ret].
    eapply wp_bind, wp_mono; [apply wp_true|]. intros x c2 _. by apply wp_ret.
  - destruct (negb _); [by apply wp_ret|].
    eapply wp_bind, wp_mono; [apply wp_true|]. intros x c2 _. by apply wp_ret.
Qed.

(** A step whose answer is known to be of some kind. *)
Lemma respects_known {A B} (m : prog infra A) (f : A → prog infra B) (Q : A → Prop) :
  respects within m → (∀ c, wp m (λ x _, Q x) c) → (∀ x, Q x → respects within (f x)) →
  respects within (m ≫= f).
Proof.
  intros Hm HQ Hf w. rewrite bind_run. etrans; [apply Hm|]. apply Hf.
  destruct w as [n c]. apply (HQ c n).
Qed.

Lemma within_cleanup t' : copy_of t t' → respects within (cleanup r k t').
Proof.
  intros Hc. unfold cleanup. rewrite (proj1 Hc).
  pose proof within_config. pose proof within_children. pose proof within_namespace.
  pose proof (within_policy t' Hc). pose proof within_claim.
  repeat first [apply within_update|apply within_labels|apply within_release|done|progress confine].
Qed.

Lemma within_force t' : copy_of t t' → respects within (forceRemoveAITenantFinalizer r k t').
Proof.
  intros Hc. unfold forceRemoveAITenantFinalizer.
  pose proof within_config. pose proof within_children. pose proof within_namespace.
  pose proof (within_policy (setAITenantPhase t' "Terminating" "CleanupForced"
              ("Deletion timeout (" +:+ dur_String (DeletionTimeout r) +:+ ") reached"
               +:+ ("; cleanup finalizer removed without successful cleanup "
              +:+ bytes [226; 128; 148] +:+ " API keys may still exist"))) Hc).
  pose proof within_claim. cbv zeta. change (om_UID (meta (setAITenantPhase t' ?a ?b ?c))) with (om_UID (meta t')). rewrite (proj1 Hc).
  repeat first [apply within_update|apply within_labels|apply within_release|done|progress confine].
Qed.

Lemma within_blocked t' e : respects within (blocked k t' e).
Proof. unfold blocked. pose proof within_update. confine; auto. Qed.

Lemma within_terminate : respects within (terminate r k t).
Proof.
  unfold terminate. set (t1 := setAITenantPhase _ _ _ _). assert (copy_of t t1) as Hc by done.
  apply respects_try; [apply _..|apply within_update|intros _].
  apply (respects_known _ _ (λ x, copy_of t1 x.1)); [apply within_keys|apply wp_revoked_copy|].
  intros [t2 x] Hc2. cbn in Hc2. destruct x as [[]|e].
  - apply within_cleanup. by eapply copy_trans.
  - confine.
  - apply within_blocked.
Qed.

Lemma within_delete : respects within (reconcileAITenantDelete r k t).
Proof.
  unfold reconcileAITenantDelete. destruct (negb _); [confine|].
  apply respects_bind; [apply _..| |].
  { apply (within_only (λ _ _ _, False)); [|done]. intros c. by apply wp_tick. }
  intros now. destruct (_ && _); [by apply within_force|].
  apply respects_bind; [apply _..|apply within_terminate|]. intros x. confine.
Qed.
End confined.

(** Everything a reconcile may change: of the tenant, the parts that are named
    after it, and the claims it has. *)
Definition reconcile_objects (k : key) (t : object AITenants) (c : infra) (K' : Kind) (k' : key)
    : Prop :=
  live_objects k (om_UID (meta t)) c K' k' ∨ deletion_objects k t c K' k'.

(** A tenant stays the one it was, and keeps being deleted. *)
Section kept.
Context (k : key).

Definition kept (c c' : infra) : Prop :=
  ∀ t', c' AITenants !! k = Some t' → ∃ t, c AITenants !! k = Some t
    ∧ om_UID (meta t') = om_UID (meta t) ∧ being_deleted t' = being_deleted t.

#[local] Instance kept_refl : Reflexive kept.
Proof. intros c t'. eauto. Qed.
#[local] Instance kept_trans : Transitive kept.
Proof.
  intros c1 c2 c3 H1 H2 t3 E3. destruct (H2 t3 E3) as (t2 & E2 & ? & ?).
  destruct (H1 t2 E2) as (t1 & E1 & ? & ?). exists t1. split_and!; congruence.
Qed.

Lemma kept_only F c c' : only F c c' → ¬ F AITenants k → kept c c'.
Proof. intros Ho Hn t'. rewrite Ho by done. eauto. Qed.

Lemma kept_status t snapshot : respects kept (updateAITenantStatus k t snapshot).
Proof.
  unfold updateAITenantStatus. destruct (_ == _); [apply respects_ret, _|].
  apply respects_bind; [apply _..| |intros ?; apply respects_ret, _].
  assert (∀ c c', status_set k (status t) c c' → kept c c') as Hs.
  { intros c c' (old & E & ->) t'. rewrite update_same, lookup_insert_eq. intros [= <-]. eauto. }
  apply respects_wp. intros c. eapply wp_mono; [apply wp_UpdateStatus|].
  intros [[]|[]] c' Hx; try done; [by apply Hs|by destruct Hx as [-> _]|].
  destruct Hx as [_ [->|Hx]]; [done|by apply Hs].
Qed.

Lemma kept_patch o : respects kept (Patch AITenants k o).
Proof.
  assert (∀ c c', patched k o c c' → kept c c') as Hs.
  { intros c c' (old & E & ->) t'. rewrite update_lookup. unfold stored.
    destruct (_ && _); [done|]. intros [= <-]. eauto. }
  apply respects_wp. intros c. eapply wp_mono; [apply wp_Patch|].
  intros [[]|[]] c' Hx; try done; [by apply Hs|by destruct Hx as [-> _]|].
  destruct Hx as [_ [->|Hx]]; [done|by apply Hs].
Qed.

Lemma kept_object {A} K' k' (m : prog infra A) :
  (∀ c, wp m (λ _ c', only (at_object K' k') c c') c) → K' ≠ AITenants → respects kept m.
Proof.
  intros Hm Hne. apply respects_wp. intros c. eapply wp_mono; [apply Hm|].
  intros x c' Ho. eapply kept_only; [exact Ho|]. by intros [H _].
Qed.
Lemma kept_within {A} F (m : prog infra A) :
  (∀ c, wp m (λ _ c', only (F c) c c') c) → (∀ c, ¬ F c AITenants k) → respects kept m.
Proof.
  intros Hm Hne. apply respects_wp. intros c. eapply wp_mono; [apply Hm|].
  intros x c' Ho. eapply kept_only; [exact Ho|apply Hne].
Qed.
Lemma kept_Get K' k' : respects kept (Get K' k').
Proof.
  apply (kept_within (λ _ _ _, False)); [|by intros ? ?].
  intros c. eapply wp_mono; [apply wp_Get|]. by intros x c' [-> _].
Qed.
Lemma kept_List K' test : respects kept (List K' test).
Proof.
  apply (kept_within (λ _ _ _, False)); [|by intros ? ?].
  intros c. eapply wp_mono; [apply wp_List|]. by intros x c' [-> _].
Qed.

Ltac keep := repeat match goal with
  | |- respects _ (mret _) => apply respects_ret, _
  | |- respects _ (Get _ _) => apply kept_Get
  | |- respects _ (List _ _) => apply kept_List
  | |- respects _ (updateAITenantStatus _ _ _) => apply kept_status
  | |- respects _ (call _ _) => unfold call
  | |- respects _ (plain_call _) => unfold plain_call
  | |- respects _ (ignore_not_found _) => unfold ignore_not_found
  | |- respects _ (try_bind _ _) => apply respects_try; [apply _..| |intros ?]
  | |- respects _ (_ ≫= _) => apply respects_bind; [apply _..| |intros ?]
  | |- respects _ (if ?b then _ else _) => destruct b
  | |- respects _ (match ?x with _ => _ end) => destruct x
  | |- respects _ (Patch AITenants _ _) => apply kept_patch
  | |- respects _ (Patch ?K' ?k' _) => apply (kept_object K' k'); [intros ?; apply Patch_only|done]
  | |- respects _ (Delete ?K' ?k') => apply (kept_object K' k'); [intros ?; apply Delete_only|done]
  | |- respects _ (Create ?K' ?k' _) => apply (kept_object K' k'); [intros ?; apply Create_only|done]
  end.

Lemma kept_claims what l : respects kept (delete_claims what l).
Proof. induction l as [|[k' cm] l IH]; cbn [delete_claims]; keep. exact IH. Qed.

Lemma kept_delete t : respects kept (reconcileAITenantDelete r k t).
Proof.
  unfold reconcileAITenantDelete, terminate, forceRemoveAITenantFinalizer, blocked, cleanup.
  unfold release_tenant, deleteTenantAPIKeyRevocationJob, deleteTenantConfig.
  unfold deleteAITenantScopedChildren, deleteOwned, releaseTenantNamespace.
  unfold deleteTenantGatewayAuthPolicy, deleteGatewayClaim, cleanupGatewayLabelsOnDelete.
  unfold ensureTenantAPIKeysRevoked, markTenantAPIKeysRevoked.
  repeat first [apply kept_claims|progress keep
    |apply (kept_within (λ _ _ _, False)); [by intros c; apply wp_tick|by intros ? ?]].
Qed.
End kept.

End loop.
