(* ===== verification/AITenantCorrectness.v ===== *)
(** The properties of the AITenant controller: when a tenant is Active, that Active
    tenants do not share a Gateway, what a deletion leaves, what a reconcile leaves
    alone, the labels of gateways, and names. *)
From S2P Require Import Prelude GoStrings Sorting Json Sha256 GoTime Unstructured Runtime.
From S2P Require Import GoFmt MaasTypes Cluster ControllerHelpers ControllerFacts TenantCluster.
From S2P Require Import AuthPolicyGateway AuthPolicyController AITenantParts AITenantController.
From S2P Require Import AITenantFacts AITenantLoopFacts SubscriptionExamples.
Import Cluster Helpers Fmt Infra Tenant TenantController.

(** ** A concrete server and store *)

Module TenantDoc.

Definition same_reference (kind name : string) (o : OwnerReference) : bool :=
  (o_Kind o == kind) && (o_Name o == name).

(** The reference goes to the front, in the place of one to the same object. *)
Definition set_controller_reference (kind name uid : string) (l : list OwnerReference)
    : result string (list OwnerReference) :=
  match List.find o_Controller l with
  | Some o =>
      if same_reference kind name o
      then Ok (controller_of kind name uid
               :: List.filter (λ o, negb (same_reference kind name o)) l)
      else Err "already owned"
  | None => Ok (controller_of kind name uid :: l)
  end.

Definition changed {A} `{EqDecision A} (g : Z) (x y : A) : Z :=
  if x == y then g else (g + 1)%Z.
Definition generation (K : Kind) : Z → spec_of K → spec_of K → Z :=
  match K with
  | AITenants => changed (A := AITenantSpec)
  | MaasTenantConfigs => changed (A := MaasTenantConfigSpec)
  | _ => λ g _ _, g
  end.

Definition condition_names (l : list V1.Condition) : list string := V1.c_Type <$> l.

(** The clock is the tick. *)
#[export] Instance doc_tenant_server : TenantServer := {|
  clock n := Z.of_nat n;
  server_uid n := "uid-" +:+ digits 6 (Z.of_nat n);
  server_generation := generation;
  SetControllerReference := set_controller_reference;
  RemoveStatusCondition l t := List.filter (λ c, V1.c_Type c != t) l;
  IsDNS1123Label s := if s == "" then ["a lowercase RFC 1123 label must not be empty"] else [];
  server_error_text e :=
    match e with
    | NotFound => "not found"
    | NamespaceNotFound => "namespace not found"
    | AlreadyExists => "already exists"
    | Unavailable _ => "unavailable"
    end;
|}.

#[export] Instance doc_tenant_lawful : LawfulTenantServer.
Proof.
  split.
  - intros [] g s; cbn; try done; unfold changed; by rewrite bool_decide_eq_true_2.
  - intros kind name uid l l'. cbn. unfold set_controller_reference.
    destruct (List.find o_Controller l) as [o|]; [destruct (same_reference kind name o)|];
      by intros [= <-].
  - intros kind name uid l H. cbn. unfold set_controller_reference.
    destruct (List.find o_Controller l) as [o|]; [|by eexists].
    destruct (H o eq_refl) as [uid' ->]. unfold same_reference. cbn.
    rewrite !bool_decide_eq_true_2 by done. by eexists.
  - intros l t c. cbn. rewrite filter_bool_elem_of, negb_true_iff, bool_decide_eq_false. done.
  - done.
Qed.

End TenantDoc.

(** ** Concrete tenants *)

Module TenantExamples.
Import TenantDoc.

#[export] Instance ascii_only : Unicode := {| IsPrint _ := false |}.

Definition deployment : AITenantReconciler :=
  mkAITenantReconciler "opendatahub" "models-as-a-service" "ai-tenants" "" "openshift-ingress"
    0 true "".
Definition red : key := ("ai-tenants", "red").
Definition blue : key := ("ai-tenants", "blue").
Definition red_gateway : GatewayRef := mkGateway "red" "openshift-ingress".

Definition tenant_meta (uid : string) (finalizers : list string) (deleted : option Z)
    : ObjectMeta := mkMeta ∅ ∅ finalizers [] uid 1 deleted.
Definition tenant (uid : string) (gateway : option string) (deleted : option Z)
    (st : AITenantStatus) : object AITenants :=
  mkObject AITenants (tenant_meta uid [aitenantFinalizer] deleted)
    (mkAITenantSpec gateway None) st.
Definition status_with (phase : string) (gateway : GatewayRef) (conditions : list V1.Condition)
    : AITenantStatus := mkAITenantStatus phase "ai-tenant-red" gateway conditions.
Definition pending : AITenantStatus := status_with "Pending" red_gateway [].

(** A listener that lets the routes of the namespace in. *)
Definition gateway_object (name : string) (labels : list (string * string)) : object Gateways :=
  mkObject Gateways new_meta
    [mkListener name (Some (mkRouteNamespaces (Some "Selector") (Some (list_to_map labels))))] ().
Definition namespace (labels annotations : list (string * string)) : object Namespaces :=
  mkObject Namespaces (mkMeta (list_to_map labels) (list_to_map annotations) [] [] "ns" 1 None)
    () "Active".
Definition owned_meta (k : key) (finalizers : list string) (deleted : option Z) : ObjectMeta :=
  let m := applyAITenantMetadata k (tenantNamespaceName deployment k) new_meta in
  mkMeta (om_Labels m) (om_Annotations m) finalizers [] "owned" 1 deleted.
Definition ready_config (k : key) : object MaasTenantConfigs :=
  mkObject MaasTenantConfigs (owned_meta k [] None) (mkConfigSpec None None None None)
    [V1.mkCondition "Ready" "True" "Ready" "" 1].

Definition claim_of (k : key) (uid : string) (gr : GatewayRef) : object ConfigMaps :=
  new_claim k gr [controller_of "AITenant" k.2 uid].

Definition store (tenants : list (key * object AITenants))
    (namespaces : list (key * object Namespaces))
    (configs : list (key * object MaasTenantConfigs))
    (gateways : list (key * object Gateways))
    (claims : list (key * object ConfigMaps))
    (jobs : list (key * object Jobs)) : infra := λ K,
  match K with
  | AITenants => list_to_map tenants
  | Namespaces => list_to_map namespaces
  | MaasTenantConfigs => list_to_map configs
  | Gateways => list_to_map gateways
  | ConfigMaps => list_to_map claims
  | Jobs => list_to_map jobs
  | _ => ∅
  end.

Definition platform_namespaces : list (key * object Namespaces) :=
  [(("", "opendatahub"), namespace [] []); (("", "ai-tenants"), namespace [] []);
   (("", "ai-tenant-red"), namespace [] [])].

(** A tenant with a Gateway and a configuration that is ready. *)
Definition prepared (t : object AITenants) (claims : list (key * object ConfigMaps)) : infra :=
  store [(red, t)] platform_namespaces [(config_key deployment red, ready_config red)]
    [(("openshift-ingress", "red"), gateway_object "https" [("team", "red")])] claims [].

(** Two tenants, each with its Gateway. *)
Definition two (tred tblue : object AITenants) (claims : list (key * object ConfigMaps)) : infra :=
  store [(red, tred); (blue, tblue)] (platform_namespaces ++ [(("", "ai-tenant-blue"), namespace [] [])])
    [(config_key deployment red, ready_config red); (config_key deployment blue, ready_config blue)]
    [(("openshift-ingress", "red"), gateway_object "https" [("team", "red")]);
     (("openshift-ingress", "blue"), gateway_object "https" [("team-blue", "true")])] claims [].

(** A tenant that is being deleted, its keys revoked, its label still there. *)
Definition revocation_done : object Jobs :=
  with_status (K := Jobs) (λ _, [("Complete", "True")])
    (tenantAPIKeyRevocationJob deployment red "uid-red").
Definition labelled_namespaces : list (key * object Namespaces) :=
  [(("", "opendatahub"), namespace [("team", "red")]
     [(gatewayLabelsAnnotation, Json.MarshalMap {["team" := ["red"]]})]);
   (("", "ai-tenants"), namespace [] []);
   (("", "ai-tenant-red"), mkObject Namespaces (owned_meta red [] None) () "Active")].
Definition leaving (jobs : list (key * object Jobs)) : infra :=
  store [(red, tenant "uid-red" None (Some 0%Z) (status_with "Active" red_gateway []))]
    labelled_namespaces [] [] [((aitenantNamespace deployment, gatewayClaimName red_gateway),
                                claim_of red "uid-red" red_gateway)] jobs.

Definition run (srv : ApiServer) (k : key) (c : infra)
    : (result error (option Z) * list AuthController.event) * io infra :=
  Reconcile deployment k (IO 0 c).
Definition after (srv : ApiServer) (k : key) (c : infra) : infra := state (run srv k c).2.

Definition phase_at (k : key) (c : infra) : option string := phase <$> (c AITenants !! k).

Example becomes_active :
  phase_at red (after DocCluster.reliable red (prepared (tenant "uid-red" None None pending) []))
  = Some "Active".
Proof. by_compute. Qed.

End TenantExamples.

Import TenantDoc TenantExamples.

(** ** When a tenant is Active *)

Section active.
Context {srv : ApiServer} {tsrv : TenantServer} {lawful : LawfulApiServer}.
Context {tlawful : LawfulTenantServer} {uni : Unicode} (r : AITenantReconciler).

(** A reconcile of a tenant that is there and not being deleted. *)
Lemma reconcile_live_result k t n c :
  c AITenants !! k = Some t → being_deleted t = false →
  live_result r k t c (Reconcile r k (IO n c)).1.1 (state (Reconcile r k (IO n c)).2)
  ∨ state (Reconcile r k (IO n c)).2 = c ∧ unreliable.
Proof.
  intros E Hd.
  assert (wp (Reconcile r k) (λ x c', live_result r k t c x.1 c' ∨ c' = c ∧ unreliable) c) as H;
    [|apply (H n)].
  unfold Reconcile. wp_step wp_Get. intros [t'|e] c1 [-> E'].
  - rewrite E in E'. injection E' as <-. rewrite Hd.
    eapply wp_bind, wp_mono; [by apply wp_reconcile_live|]. intros x c' Hx. apply wp_ret. by left.
  - apply wp_ret. right. split; [done|]. destruct e; try done. congruence.
Qed.

(** C13. A tenant that was not Active is Active after a reconcile, whatever calls of
    the API server fail, only if its Gateway exists and it has the claim on it, its
    namespace is there, marked as its own and not terminating, its configuration is
    there and ready for the generation it has, and both roles have exactly the
    rules they are meant to have. *)
Theorem active_only_if_provisioned k t n c t' :
  c AITenants !! k = Some t → being_deleted t = false → phase t ≠ "Active" →
  state (Reconcile r k (IO n c)).2 AITenants !! k = Some t' → phase t' = "Active" →
  provisioned r k (om_UID (meta t)) (gateway t') (state (Reconcile r k (IO n c)).2).
Proof.
  intros E Hd Hna E' Ha. destruct (reconcile_live_result k t n c E Hd) as [[_ H]|[H _]].
  - destruct H as (t2 & E2 & _ & _ & H). rewrite E' in E2. injection E2 as <-.
    destruct (H Ha) as [H1|[[H1 _]|[H1 _]]]; [done| |done].
    exfalso. apply Hna. rewrite <- Ha. unfold phase, aitenant_status. by rewrite H1.
  - exfalso. rewrite H, E in E'. injection E' as <-. done.
Qed.
End active.

Lemma active_only_if_provisioned_witness :
  let t := tenant "uid-red" None None pending in
  let c := prepared t [] in
  let c' := after DocCluster.reliable red c in
  c AITenants !! red = Some t ∧ phase t ≠ "Active"
  ∧ ∃ t', c' AITenants !! red = Some t' ∧ phase t' = "Active"
      ∧ provisioned (srv := DocCluster.reliable) deployment red "uid-red" (gateway t') c'.
Proof.
  intros t c c'.
  assert (c AITenants !! red = Some t) as E by by_compute.
  split_and!; [exact E|done|].
  destruct (some_check (c' AITenants !! red) (λ t', phase t' = "Active"))
    as (t' & E' & Ha); [by_compute|].
  exists t'. split_and!; [exact E'|exact Ha|].
  pose proof (active_only_if_provisioned (lawful := DocCluster.reliable_lawful)
    deployment red t 0 c t' E eq_refl) as H.
  unfold c', after, run in *. clearbody c. apply H; [done|exact E'|exact Ha].
Defined.

(** ** Gateways are not shared *)

Section exclusive.
Context {srv : ApiServer} {tsrv : TenantServer} {lawful : LawfulApiServer}.
Context {tlawful : LawfulTenantServer} {uni : Unicode} (r : AITenantReconciler).

(** A reconcile of a tenant that is being deleted. *)
Lemma reconcile_deletion k t n c :
  c AITenants !! k = Some t → being_deleted t = true →
  let c' := state (Reconcile r k (IO n c)).2 in
  only (deletion_objects r k t c) c c' ∧ kept k c c'.
Proof.
  intros E Hd.
  assert (wp (Reconcile r k) (λ _ c', only (deletion_objects r k t c) c c' ∧ kept k c c') c) as H;
    [|apply (H n)].
  assert (kept k c c) as Hk by by intros t' E'; exists t'.
  unfold Reconcile. wp_step wp_Get. intros [t'|e] c1 [-> E']; [|by apply wp_ret].
  rewrite E in E'. injection E' as <-. rewrite Hd.
  apply wp_and; [apply (wp_respects (within r k t)), within_delete|].
  apply (wp_respects (kept k)), kept_delete.
Qed.

(** What a reconcile may change, whatever the tenant's state. *)
Lemma reconcile_frame k t n c : c AITenants !! k = Some t →
  only (reconcile_objects r k t c) c (state (Reconcile r k (IO n c)).2).
Proof.
  intros E. destruct (being_deleted t) eqn:Hd.
  - destruct (reconcile_deletion k t n c E Hd) as [H _]. eapply only_mono; [exact H|].
    intros ???. by right.
  - destruct (reconcile_live_result r k t n c E Hd) as [[H _]|[-> _]]; [|done].
    eapply only_mono; [exact H|]. intros ???. by left.
Qed.

Lemma reconcile_absent k n c : c AITenants !! k = None →
  state (Reconcile r k (IO n c)).2 = c.
Proof.
  intros E. assert (wp (Reconcile r k) (λ _ c', c' = c) c) as H; [|apply (H n)].
  unfold Reconcile. wp_step wp_Get. intros [t|e] c1 [-> E']; [congruence|by apply wp_ret].
Qed.

(** The server gives every tenant an identifier of its own. *)
Definition uids_distinct (c : infra) : Prop :=
  ∀ k t, c AITenants !! k = Some t → om_UID (meta t) ≠ "" ∧
    ∀ k' t', c AITenants !! k' = Some t' → om_UID (meta t') = om_UID (meta t) → k' = k.

(** Tenants that are Active, and not being deleted, have the claims on the Gateways
    they record. *)
Definition claims_back (c : infra) : Prop :=
  ∀ k t, c AITenants !! k = Some t → being_deleted t = false → phase t = "Active" →
    claim_held r k (om_UID (meta t)) (gateway t) c.

(** A reconcile that ends without an error, at any tick, on a server whose calls
    may fail; or whatever others do that leaves the claims and does not say of a
    tenant that it is Active. *)
Inductive step : infra → infra → Prop :=
  | reconciles k n c x : (Reconcile r k (IO n c)).1.1 = Ok x →
      step c (state (Reconcile r k (IO n c)).2)
  | others c c' : c' ConfigMaps = c ConfigMaps → uids_distinct c' →
      (∀ k t', c' AITenants !! k = Some t' → phase t' = "Active" → being_deleted t' = false →
        ∃ t, c AITenants !! k = Some t ∧ om_UID (meta t) = om_UID (meta t')
          ∧ aitenant_status t = aitenant_status t' ∧ being_deleted t = false) →
      step c c'.

Lemma others_claim_kept k t n c k1 t1 gr :
  c AITenants !! k = Some t → c AITenants !! k1 = Some t1 → uids_distinct c → k1 ≠ k →
  claim_held r k1 (om_UID (meta t1)) gr c →
  claim_held r k1 (om_UID (meta t1)) gr (state (Reconcile r k (IO n c)).2).
Proof.
  intros E E1 Hu Hne (cm & Ecm & Hc & Hg).
  assert (isClaimOwnedByAITenant (meta cm) k (om_UID (meta t)) = false) as Hno.
  { eapply controlled_by_other; [exact Hc|by apply (Hu k t)|by apply (Hu k1 t1)|].
    intros He. apply Hne. by eapply (Hu k t). }
  exists cm. split_and!; [|done|done]. rewrite (reconcile_frame k t n c E); [done|].
  assert (¬ own_claims r k (om_UID (meta t)) c ConfigMaps (claim_key r gr)) as Hown.
  { intros (_ & _ & H). rewrite (H _ Ecm) in Hno. done. }
  unfold reconcile_objects, live_objects, deletion_objects, at_object, config_objects,
    role_objects, child_objects, policy_object. naive_solver.
Qed.

Lemma step_uids c c' : step c c' → uids_distinct c → uids_distinct c'.
Proof.
  intros [k n c1 x Hx|]; [|done]. intros Hu.
  destruct (c1 AITenants !! k) as [t|] eqn:E; [|by rewrite reconcile_absent].
  set (c2 := state (Reconcile r k (IO n c1)).2 : infra).
  assert (∀ k' t', c2 AITenants !! k' = Some t' →
    ∃ t0, c1 AITenants !! k' = Some t0 ∧ om_UID (meta t') = om_UID (meta t0)) as Hkept.
  { intros k' t' E'. destruct (decide (k' = k)) as [->|Hne].
    - destruct (being_deleted t) eqn:Hd.
      + destruct (reconcile_deletion k t n c1 E Hd) as [_ H].
        destruct (H t' E') as (t0 & ? & ? & _). eauto.
      + destruct (reconcile_live_result r k t n c1 E Hd) as [[_ H]|[H _]].
        * destruct H as (t2 & E2 & ? & _). pose proof (eq_trans (eq_sym E') E2) as [= <-]. eauto.
        * rewrite (H : c2 = c1) in E'. eauto.
    - rewrite (reconcile_frame k t n c1 E : only _ c1 c2) in E'; [eauto|].
      unfold reconcile_objects, live_objects, deletion_objects, at_object, config_objects,
        role_objects, child_objects, policy_object, own_claims. naive_solver. }
  intros k1 t1 E1. destruct (Hkept k1 t1 E1) as (t1' & E1' & ->).
  destruct (Hu k1 t1' E1') as [H1 H2]. split; [done|].
  intros k2 t2 E2. destruct (Hkept k2 t2 E2) as (t2' & E2' & ->). by apply H2.
Qed.

Lemma step_claims c c' : step c c' → uids_distinct c → claims_back c → claims_back c'.
Proof.
  intros [k n c1 x Hx|c1 c2 Hcm _ Ht] Hu Hb.
  2:{ intros k t' E' Hd Ha. destruct (Ht k t' E' Ha Hd) as (t & E & <- & Hst & Hd').
      unfold gateway, phase, claim_held in *. rewrite <- Hst in *. rewrite Hcm.
      by apply (Hb k t). }
  set (c2 := state (Reconcile r k (IO n c1)).2 : infra).
  destruct (c1 AITenants !! k) as [t|] eqn:E; [|by rewrite (reconcile_absent k n c1 E : c2 = c1)].
  intros k1 t1 E1 Hd1 Ha1. destruct (decide (k1 = k)) as [->|Hne].
  - destruct (being_deleted t) eqn:Hd.
    { destruct (reconcile_deletion k t n c1 E Hd) as [_ H].
      destruct (H t1 E1) as (t0 & E0 & _ & Hd0). rewrite E in E0. injection E0 as <-. congruence. }
    destruct (reconcile_live_result r k t n c1 E Hd) as [[_ H]|[H _]].
    + destruct H as (t2 & E2 & HU & _ & H).
      pose proof (eq_trans (eq_sym E1) E2) as [= <-]. rewrite HU.
      destruct (H Ha1) as [H1|[[H1 H2]|[_ [e H1]]]]; [by apply H1|
        |by pose proof (eq_trans (eq_sym H1) Hx) as [=]].
      assert (aitenant_status t1 = aitenant_status t) as Hst by exact H1.
      unfold gateway, phase in *. rewrite Hst in *.
      eapply claim_held_frame; [exact H2|by intros ? []|]. by apply Hb.
    + rewrite (H : c2 = c1) in E1 |- *. rewrite E in E1. injection E1 as <-. by apply Hb.
  - assert (c1 AITenants !! k1 = Some t1) as E0.
    { rewrite <- E1. symmetry. apply (reconcile_frame k t n c1 E).
      unfold reconcile_objects, live_objects, deletion_objects, at_object, config_objects,
        role_objects, child_objects, policy_object, own_claims. naive_solver. }
    eapply others_claim_kept; try done. by apply Hb.
Qed.

(** C14. Along every sequence of reconciles that end without an error, whichever
    calls of the API server fail, and of steps of others that leave the claims
    alone, two AITenants that are both Active, and not being deleted, never have the
    same Gateway. *)
Theorem active_tenants_keep_gateways_apart c c' k1 t1 k2 t2 :
  rtc step c c' → uids_distinct c → claims_back c →
  c' AITenants !! k1 = Some t1 → being_deleted t1 = false → phase t1 = "Active" →
  c' AITenants !! k2 = Some t2 → being_deleted t2 = false → phase t2 = "Active" →
  k1 ≠ k2 → gateway t1 ≠ gateway t2.
Proof.
  intros Hs Hu Hb E1 Hd1 Ha1 E2 Hd2 Ha2 Hne Hg.
  assert (uids_distinct c' ∧ claims_back c') as [Hu' Hb'].
  { induction Hs as [c|c c1 c' Hstep _ IH]; [done|].
    apply IH; [by eapply step_uids|by eapply step_claims|done..]. }
  destruct (Hb' k1 t1 E1 Hd1 Ha1) as (cm1 & Ec1 & H1 & _).
  destruct (Hb' k2 t2 E2 Hd2 Ha2) as (cm2 & Ec2 & H2 & _).
  rewrite <- Hg, Ec1 in Ec2. injection Ec2 as <-. rewrite H1 in H2.
  injection H2 as _ Hid. apply Hne. by eapply (Hu' k2 t2).
Qed.
End exclusive.

(** The identifiers of the tenants of a store are distinct, by evaluation. *)
Lemma uids_check c :
  bool_decide (map_Forall (λ k (t : object AITenants), om_UID (meta t) ≠ ""
    ∧ map_Forall (λ k' (t' : object AITenants),
        om_UID (meta t') = om_UID (meta t) → k' = k) (c AITenants)) (c AITenants)) = true →
  uids_distinct c.
Proof. intros H%bool_decide_eq_true k t E. apply (H k t E). Qed.
Lemma none_active_check `{ApiServer, TenantServer} r c :
  bool_decide (map_Forall (λ _ t, phase t ≠ "Active") (c AITenants)) = true → claims_back r c.
Proof. intros Hn%bool_decide_eq_true k t E _ Ha. by destruct (Hn k t E). Qed.

Lemma active_tenants_keep_gateways_apart_witness :
  let srv := DocCluster.reliable in
  let c := two (tenant "uid-red" None None pending) (tenant "uid-blue" None None pending) [] in
  let c1 := state (Reconcile deployment red (IO 0 c)).2 in
  let c2 := state (Reconcile deployment blue (IO 0 c1)).2 in
  ∃ t1 t2, c2 AITenants !! red = Some t1 ∧ c2 AITenants !! blue = Some t2
    ∧ phase t1 = "Active" ∧ phase t2 = "Active" ∧ gateway t1 ≠ gateway t2.
Proof.
  intros srv c c1 c2.
  assert (uids_distinct c) as Hu by (apply uids_check; by_compute).
  assert (claims_back deployment c) as Hb by (apply none_active_check; by_compute).
  assert ((Reconcile deployment red (IO 0 c)).1.1 = Ok None) as H1 by by_compute.
  assert ((Reconcile deployment blue (IO 0 c1)).1.1 = Ok None) as H2 by by_compute.
  destruct (some_check (c2 AITenants !! red) (λ t, phase t = "Active" ∧ being_deleted t = false))
    as (t1 & E1 & Ha1 & Hd1); [by_compute|].
  destruct (some_check (c2 AITenants !! blue) (λ t, phase t = "Active" ∧ being_deleted t = false))
    as (t2 & E2 & Ha2 & Hd2); [by_compute|].
  exists t1, t2. split_and!; [exact E1|exact E2|exact Ha1|exact Ha2|].
  apply (active_tenants_keep_gateways_apart (lawful := DocCluster.reliable_lawful) deployment
           c c2 red t1 blue t2); [|done..].
  apply (rtc_l _ c c1); [exact (reconciles deployment red 0 c None H1)|].
  apply rtc_once. exact (reconciles deployment blue 0 c1 None H2).
Defined.

(** ** What a deletion leaves *)

Section deletion.
Context {srv : ApiServer} {tsrv : TenantServer} {lawful : LawfulApiServer}.
Context {tlawful : LawfulTenantServer} {uni : Unicode} (r : AITenantReconciler).

(** The deletion timeout is not reached, at any time a reconcile looks. *)
Definition before_timeout (t : object AITenants) : Prop :=
  ∀ n, (0 < DeletionTimeout r)%Z →
    (clock n - default 0 (om_DeletionTimestamp (meta t)) < DeletionTimeout r)%Z.

(** C15. Before the deletion timeout, whatever calls of the API server fail, a
    reconcile of a well-placed AITenant that is being deleted takes its finalizer
    away only if its API keys had been revoked, and now its configuration is gone,
    its roles and bindings, its Gateway's AuthPolicy and its claims are gone or
    going, its namespace is released or going, and no label of the infrastructure
    namespace is owned by its Gateway. *)
Theorem finalizer_goes_only_when_clean k t n c :
  c AITenants !! k = Some t → being_deleted t = true →
  aitenantFinalizer ∈ om_Finalizers (meta t) → before_timeout t →
  validateAITenantPlacement r k = Ok () → k.2 ≠ "" → GatewaysNamespace r ≠ "" →
  labels_ascii r c →
  let c' := state (Reconcile r k (IO n c)).2 in
  held k c' ∨ cleaned r k t c' ∧ keys_are_revoked r k t c.
Proof.
  intros E Hd Hf Ht (_ & _ & Hne & Hni)%placement_spec Hk Hg Ha.
  assert (held k c) as Hh by by exists t.
  assert (wp (Reconcile r k) (λ _ c', held k c' ∨ cleaned r k t c' ∧ keys_are_revoked r k t c) c)
    as H; [|apply (H n)].
  unfold Reconcile. wp_step wp_Get. intros [t'|e] c1 [-> E']; [|apply wp_ret; by left].
  rewrite E in E'. injection E' as <-. rewrite Hd. unfold reconcileAITenantDelete.
  rewrite (proj2 (contains_true _ _) Hf). cbn [negb]. apply wp_bind, wp_tick. intros m.
  assert (((0 <? DeletionTimeout r)
    && (DeletionTimeout r <=? clock m - default 0 (om_DeletionTimestamp (meta t))))%Z = false) as ->.
  { destruct (Z.ltb_spec 0 (DeletionTimeout r)) as [Hpos|]; [|done]. apply Z.leb_gt. by apply Ht. }
  eapply wp_bind, wp_mono; [by apply wp_terminate|]. intros x c' [_ Hx]. by apply wp_ret.
Qed.
End deletion.

Definition asciib (s : string) : bool :=
  forallb (λ c, code c <? 128) (String.list_ascii_of_string s).
Lemma asciib_true s : asciib s = true → Json.ascii_text s.
Proof.
  unfold asciib. rewrite forallb_forall. intros H c Hc. specialize (H c Hc).
  by apply Nat.ltb_lt in H.
Qed.
Lemma labels_ascii_check r c :
  match c Namespaces !! infra_ns r with
  | Some ns => match owned_labels (meta ns) with
               | Some (Some o) =>
                   forallb (λ kl : string * list string, asciib kl.1 && forallb asciib kl.2)
                     (map_to_list o)
               | _ => true
               end
  | None => true
  end = true → labels_ascii r c.
Proof.
  intros H ns o E Eo. rewrite E, Eo in H. rewrite forallb_forall in H. intros k l Hl.
  assert (List.In (k, l) (map_to_list o)) as Hin by by apply list_elem_of_In, elem_of_map_to_list.
  apply H, andb_true_iff in Hin as [H1 H2]. split; [by apply asciib_true|].
  rewrite forallb_forall in H2. apply Forall_forall. intros x Hx.
  by apply asciib_true, H2, list_elem_of_In.
Qed.

Lemma finalizer_goes_only_when_clean_witness :
  let c := leaving [(job_key deployment red, revocation_done)] in
  let c' := after DocCluster.reliable red c in
  ∃ t, c AITenants !! red = Some t ∧ c' AITenants !! red = None
    ∧ cleaned deployment red t c' ∧ keys_are_revoked (srv := DocCluster.reliable) deployment red t c.
Proof.
  intros c c'.
  destruct (some_check (c AITenants !! red) (λ t, being_deleted t = true
    ∧ contains (om_Finalizers (meta t)) aitenantFinalizer = true)) as (t & E & Hd & Hf); [by_compute|].
  assert (c' AITenants !! red = None) as E' by by_compute.
  assert (validateAITenantPlacement deployment red = Ok ()) as Hp by by_compute.
  assert (labels_ascii deployment c) as Ha by (apply labels_ascii_check; by_compute).
  apply contains_true in Hf.
  exists t. split; [exact E|]. split; [exact E'|].
  pose proof (finalizer_goes_only_when_clean (lawful := DocCluster.reliable_lawful)
    deployment red t 0 c E Hd Hf) as H.
  unfold c', after, run in *. clearbody c.
  destruct H as [(t1 & E1 & _)|H]; try done.
  by pose proof (eq_trans (eq_sym E') E1) as [=].
Defined.

(** ** What a reconcile leaves alone *)

(** Whatever calls of the API server fail, a reconcile of an AITenant changes at
    most that AITenant, the two namespaces, its configuration and legacy Tenant, its
    roles and bindings, its revocation Job, its Gateway's AuthPolicy, and claims that
    nobody or itself has; no claim that another tenant controls. *)
Theorem reconcile_confined `{ApiServer, TenantServer, !LawfulApiServer, !LawfulTenantServer}
    {uni : Unicode} r k t n c :
  c AITenants !! k = Some t → uids_distinct c →
  let c' := state (Reconcile r k (IO n c)).2 in
  only (reconcile_objects r k t c) c c'
  ∧ ∀ k1 t1 gr, c AITenants !! k1 = Some t1 → k1 ≠ k →
      claim_held r k1 (om_UID (meta t1)) gr c → claim_held r k1 (om_UID (meta t1)) gr c'.
Proof.
  intros E Hu c'. split; [by apply reconcile_frame|].
  intros k1 t1 gr E1 Hne. by apply (others_claim_kept r k t).
Qed.

(** Another tenant wants the Gateway that this one has. *)
Definition contended : infra :=
  two (tenant "uid-red" None None pending) (tenant "uid-blue" (Some "red") None pending)
    [((aitenantNamespace deployment, gatewayClaimName red_gateway),
      claim_of red "uid-red" red_gateway)].

Lemma reconcile_confined_witness :
  let srv := DocCluster.reliable in
  let c' := state (Reconcile deployment blue (IO 0 contended)).2 in
  phase_at blue c' = Some "Failed"
  ∧ ∃ t1, contended AITenants !! red = Some t1
      ∧ claim_held deployment red (om_UID (meta t1)) red_gateway c'.
Proof.
  intros srv c'. split; [by_compute|].
  destruct (some_check (contended AITenants !! blue) (λ t, om_UID (meta t) = "uid-blue"))
    as (t & E & _); [by_compute|].
  destruct (some_check (contended AITenants !! red) (λ t, om_UID (meta t) = "uid-red"))
    as (t1 & E1 & Hu1); [by_compute|].
  assert (uids_distinct contended) as Hu by (apply uids_check; by_compute).
  assert (claim_held deployment red (om_UID (meta t1)) red_gateway contended) as Hc.
  { rewrite Hu1. destruct (some_check (contended ConfigMaps !! claim_key deployment red_gateway) (λ cm,
      List.find o_Controller (om_Owners (meta cm)) = Some (controller_of "AITenant" "red" "uid-red")
      ∧ at_key (config_data cm) "gatewayNamespace" = g_Namespace red_gateway
      ∧ at_key (config_data cm) "gatewayName" = g_Name red_gateway)) as (cm & Ecm & H1 & H2);
      [by_compute|]. exists cm. split; [exact Ecm|]. split; [exact H1|exact H2]. }
  exists t1. split; [exact E1|].
  destruct (reconcile_confined (H1 := DocCluster.reliable_lawful) deployment blue t 0
    contended E Hu) as [_ H].
  unfold c'. clear c'. assert (red ≠ blue) as Hne by done.
  apply (H red t1 red_gateway E1 Hne Hc).
Defined.

(** ** The labels of Gateways *)

Section labels.
Context {srv : ApiServer} {tsrv : TenantServer} {lawful : LawfulApiServer}.
Context {tlawful : LawfulTenantServer} {uni : Unicode} (r : AITenantReconciler).

(** What the namespace is for a Gateway, once its labels are ensured. *)
Definition labels_exact (gw : string) (ls : list Listener) (ns ns' : object Namespaces) : Prop :=
  ∃ o o', owned_labels (meta ns) = Some o ∧ owned_labels (meta ns') = Some o' ∧ (∀ x,
    (∀ l v, l ∈ ls → listener_labels l !! x = Some v →
       at_key (om_Labels (meta ns')) x = v ∧ gw ∈ owners_of o' x)
    ∧ ((∀ l, l ∈ ls → listener_labels l !! x = None) →
       (gw ∉ owners_of o' x)
       ∧ (owners_of o x = [gw] → om_Labels (meta ns') !! x = None)
       ∧ (gw ∉ owners_of o x → om_Labels (meta ns') !! x = om_Labels (meta ns) !! x))
    ∧ (∀ other, other ≠ gw →
       (other ∈ owners_of o' x ↔ other ∈ owners_of o x)
       ∧ (other ∈ owners_of o x → is_Some (om_Labels (meta ns) !! x) →
          om_Labels (meta ns') !! x = om_Labels (meta ns) !! x))).

Lemma up_to_date_exact gwk ls desired ns o :
  gatewayDesiredLabels gwk ls = Ok desired → owned_labels (meta ns) = Some o →
  labels_up_to_date gwk.2 o desired (om_Labels (meta ns)) = true → labels_exact gwk.2 ls ns ns.
Proof.
  intros Hd Ho Hu. exists o, o. split_and!; [done..|]. intros x.
  apply (up_to_date_spec _ _ _ _ x) in Hu. pose proof (gatewayDesiredLabels_spec _ _ _ Hd x) as Hs.
  split_and!; [|intros Hn|done].
  - intros l v Hl Hv. by rewrite (proj2 (Hs v)) in Hu by eauto.
  - destruct (desired !! x) as [v|] eqn:E.
    + destruct (proj1 (Hs v) eq_refl) as (l & Hl & Hv). rewrite (Hn l Hl) in Hv. done.
    + split_and!; [done| |done]. intros Heq. rewrite Heq in Hu. set_solver.
Qed.

Lemma relabelled_exact gwk ls desired ns ns' o :
  gatewayDesiredLabels gwk ls = Ok desired → owned_labels (meta ns) = Some (Some o) →
  ascii_ownership o → Json.ascii_text gwk.2 → map_Forall (λ x _, Json.ascii_text x) desired →
  omap (label_conflict (AppNamespace r) gwk.2 (Some o) (om_Labels (meta ns)))
    (map_to_list desired) = [] →
  resembles (relabelled gwk.2 o desired ns) ns' → labels_exact gwk.2 ls ns ns'.
Proof.
  intros Hd Ho Hao Hag Had Hc (Hl & Ha & _).
  destruct (relabelled_spec gwk.2 o desired ns) as (labels' & o' & E & Hx & Hasc).
  rewrite E in Hl, Ha. cbn in Hl, Ha.
  exists (Some o), (Some o'). split; [done|]. split.
  { rewrite <- (read_ownership o' (meta ns)) by auto. unfold owned_labels. by rewrite Ha. }
  rewrite Hl. intros x. specialize (Hx x). unfold relabelled_at in Hx.
  pose proof (gatewayDesiredLabels_spec _ _ _ Hd x) as Hs.
  destruct (desired !! x) as [v|] eqn:Ev.
  - injection Hx as Hx1 Hx2. unfold at_key. rewrite Hx1, Hx2. split_and!.
    + intros l u Hin Hu. rewrite (elem_of_with_owner gwk.2).
      assert (Some v = Some u) as [= ->] by by apply Hs; eauto. by split; [|right].
    + intros Hn. destruct (proj1 (Hs v) eq_refl) as (l & Hin & Hv). by rewrite (Hn l Hin) in Hv.
    + intros other Hne. rewrite (elem_of_with_owner gwk.2). split; [naive_solver|].
      intros Ho' [e He]. rewrite He. destruct (conflict_spec _ _ _ _ _ _ _ _ Hc Ev He) as [->|Hg];
        [done|]. rewrite Hg in Ho'. set_solver.
  - assert (∀ l v, l ∈ ls → listener_labels l !! x = Some v → False) as Hno.
    { intros l v Hin Hv. assert (None = Some v) by (apply Hs; eauto). done. }
    pose proof (without_spec gwk.2 (owners_of (Some o) x)) as Hw.
    destruct (decide (gwk.2 ∈ owners_of (Some o) x)) as [Hin|Hni].
    + unfold released in Hx. cbn [fst snd] in Hx.
      destruct (without gwk.2 (owners_of (Some o) x)) as [|y l] eqn:Ew; injection Hx as Hx1 Hx2;
        rewrite Hx1, Hx2.
      * split_and!; [naive_solver|intros _; split_and!; set_solver|].
        intros other Hne. specialize (Hw other). set_solver.
      * split_and!; [naive_solver|intros _; split_and!|].
        -- rewrite Hw. naive_solver.
        -- intros Hg. specialize (Hw y). rewrite Hg in Hw. set_solver.
        -- done.
        -- intros other Hne. rewrite Hw. naive_solver.
    + injection Hx as Hx1 Hx2. rewrite Hx1, Hx2.
      split_and!; [naive_solver|intros _; split_and!; [done| |done]|done].
      intros Hg. rewrite Hg in Hni. set_solver.
Qed.

(** When the labels of a Gateway are ensured without an error, every label that
    one of its listeners selects namespaces by is on the infrastructure namespace,
    with the value wanted, and owned by the Gateway; a label it no longer wants is
    not owned by it any more, and goes if nobody else owns it; labels that others own
    keep their values and owners, and labels it does not own are left alone. *)
Theorem gateway_labels_exact gwk ls n c ns :
  c Namespaces !! infra_ns r = Some ns → labels_ascii r c → Json.ascii_text gwk.2 →
  (∀ l x v, l ∈ ls → listener_labels l !! x = Some v → Json.ascii_text x) →
  let w := ensureInfraNamespaceGatewayLabels r gwk ls (IO n c) in
  w.1 = Done →
  ∃ ns', state w.2 Namespaces !! infra_ns r = Some ns' ∧ labels_exact gwk.2 ls ns ns'.
Proof.
  intros E Hao Hag Hal w Hw.
  destruct (wp_ensureInfraNamespaceGatewayLabels r gwk ls c n) as [_ H].
  destruct (H Hw) as (desired & Hd & Hns). destruct (Hns ns E) as (ns' & E' & o & Ho & Hc & Hx).
  exists ns'. split; [exact E'|]. destruct Hx as [[-> Hu]|(m & -> & Hr)].
  - by eapply up_to_date_exact.
  - eapply relabelled_exact; try done; [by eapply Hao|].
    intros x v (l & Hl & Hv)%(gatewayDesiredLabels_spec _ _ _ Hd). by eapply Hal.
Qed.
End labels.

(** A label that is not wanted any more. *)
Definition zoned : infra :=
  store [] [(("", "opendatahub"), namespace [("team", "red"); ("zone", "a")]
     [(gatewayLabelsAnnotation,
       Json.MarshalMap (list_to_map [("team", ["blue"; "red"]); ("zone", ["red"])]))])] [] [] [] [].
Definition red_listeners : list Listener := listeners (gateway_object "https" [("team", "red")]).

Lemma gateway_labels_exact_witness :
  let srv := DocCluster.reliable in
  let w := ensureInfraNamespaceGatewayLabels deployment ("openshift-ingress", "red")
             red_listeners (IO 0 zoned) in
  ∃ ns ns', zoned Namespaces !! infra_ns deployment = Some ns
    ∧ om_Labels (meta ns) !! "zone" = Some "a"
    ∧ state w.2 Namespaces !! infra_ns deployment = Some ns'
    ∧ om_Labels (meta ns') !! "zone" = None ∧ om_Labels (meta ns') !! "team" = Some "red"
    ∧ labels_exact "red" red_listeners ns ns'.
Proof.
  intros srv w.
  destruct (some_check (zoned Namespaces !! infra_ns deployment)
    (λ ns, om_Labels (meta ns) !! "zone" = Some "a")) as (ns & E & Hz); [by_compute|].
  destruct (some_check (state w.2 Namespaces !! infra_ns deployment) (λ ns',
    om_Labels (meta ns') !! "zone" = None ∧ om_Labels (meta ns') !! "team" = Some "red"))
    as (ns1 & E1 & Hz1 & Ht1); [by_compute|].
  assert (labels_ascii deployment zoned) as Ha by (apply labels_ascii_check; by_compute).
  assert (w.1 = Done) as Hw by by_compute.
  assert (Json.ascii_text "red") as Hred by by apply asciib_true.
  assert (∀ l x v, l ∈ red_listeners → listener_labels l !! x = Some v → Json.ascii_text x) as Hl.
  { intros l x v ->%list_elem_of_singleton. cbn. intros [[<- _]|[_ [=]]]%lookup_insert_Some.
    by apply asciib_true. }
  exists ns, ns1. split; [exact E|]. split; [exact Hz|]. split; [exact E1|]. split; [exact Hz1|].
  split; [exact Ht1|].
  destruct (gateway_labels_exact (lawful := DocCluster.reliable_lawful) deployment
    ("openshift-ingress", "red") red_listeners 0 zoned ns E Ha Hred Hl Hw) as (ns2 & E2 & H).
  pose proof (eq_trans (eq_sym E1) E2) as [= <-]. exact H.
Defined.

(** What is recorded of the owners of labels is read back: the annotation that is
    written for any ownership of labels in ASCII is parsed to the same ownership. *)
Theorem ownership_survives o m : ascii_ownership o →
  owned_labels (set_Annotations (write_ownership o) m) = Some (Some o).
Proof. intros Ho. by apply read_ownership. Qed.

Lemma ownership_survives_witness :
  owned_labels (set_Annotations
    (write_ownership (list_to_map [("team", ["blue"; "red"]); ("zone", [])])) new_meta)
  = Some (Some (list_to_map [("team", ["blue"; "red"]); ("zone", [])])).
Proof.
  apply (ownership_survives (list_to_map [("team", ["blue"; "red"]); ("zone", [])]) new_meta).
  intros k l Hl. cbn [list_to_map foldr fst snd] in Hl. apply lookup_insert_Some in Hl as [[<- <-]|[_ Hl]].
  { split; [by apply asciib_true|]. repeat (apply Forall_cons; split; [by apply asciib_true|]). by apply Forall_nil. }
  apply lookup_insert_Some in Hl as [[<- <-]|[_ [=]]].
  split; [by apply asciib_true|constructor].
Defined.

(** ** Names *)

(** However long the name of an AITenant is, the names made from it fit: roles
    in 63 bytes, the revocation Job in 57, so that its pods' names fit in 63, and
    the claim on a Gateway in 46; and a name that fits is kept as it is. *)
Theorem names_fit k gr name :
  String.length (tenantAdminRoleName k) ≤ 63 ∧ String.length (aitenantAccessRoleName k) ≤ 63
  ∧ String.length (aitenantAPIKeyRevocationJobName name) ≤ 57
  ∧ String.length (gatewayClaimName gr) ≤ 46
  ∧ (String.length name ≤ 36 →
     aitenantAPIKeyRevocationJobName name = "maas-api-revoke-keys-" +:+ name).
Proof.
  split_and!.
  - by apply aitenantBoundedName_length; cbn; lia.
  - by apply aitenantBoundedName_length; cbn; lia.
  - by apply aitenantBoundedName_length; cbn; lia.
  - unfold gatewayClaimName. rewrite length_app_str.
    pose proof (Naming.substring_length 0 32 (SHA.EncodeToString (SHA.Sum256
      (g_Namespace gr +:+ "/" +:+ g_Name gr)))) as H.
    change (String.length "gateway-claim-") with 14. lia.
  - intros Hn. unfold aitenantAPIKeyRevocationJobName, aitenantBoundedName.
    rewrite !app_nil_r_str.
    destruct (Nat.leb_spec (String.length ("maas-api-revoke-keys-" +:+ name)) (63 - 6)) as [|H];
      [done|]. rewrite length_app_str in H.
    change (String.length "maas-api-revoke-keys-") with 21 in H. lia.
Qed.

(** A tenant's name that is admitted, of 41 bytes, makes a Service's name of 64 and
    a CronJob's of 62: Kubernetes admits 63 and 52. *)
Example resource_names_too_long :
  let name := "a-tenant-whose-name-is-of-forty-one-bytes" in
  String.length name = 41
  ∧ String.length (PayloadPreProcessingServiceName name) = 64
  ∧ String.length (MaaSAPIKeyCleanupCronJobName name) = 62.
Proof. split_and!; by_compute. Qed.

(** ** What goes wrong *)

Module TenantFlaws.

Definition policy : object AuthPolicies := mkObject AuthPolicies new_meta () ().
Definition red_policy : key := ("openshift-ingress", "red-maas-auth").
Definition with_policy (pk : key) (c : infra) : infra :=
  update (K := AuthPolicies) <[pk := policy]> c.
Definition label_owners (label : string) (c : infra) : option (list string) :=
  ns ← c Namespaces !! infra_ns deployment;
  o ← owned_labels (meta ns);
  Some (owners_of o label).
Definition present {A} (o : option A) : bool := match o with Some _ => true | None => false end.
Definition done_job (k : key) (uid : string) : key * object Jobs :=
  (job_key deployment k,
   with_status (K := Jobs) (λ _, [("Complete", "True")]) (tenantAPIKeyRevocationJob deployment k uid)).

(** [blue] failed to get the Gateway that [red] has. Its deletion takes the Gateway's
    AuthPolicy and labels away from [red], which is Active and keeps the claim. *)
Definition intruder : infra :=
  with_policy red_policy
    (store [(red, tenant "uid-red" None None (status_with "Active" red_gateway []));
            (blue, tenant "uid-blue" (Some "red") (Some 0%Z) (status_with "Failed" red_gateway []))]
       labelled_namespaces [] []
       [((aitenantNamespace deployment, gatewayClaimName red_gateway),
         claim_of red "uid-red" red_gateway)] [done_job blue "uid-blue"]).
Example deletion_disarms_the_holder :
  let c' := after DocCluster.reliable blue intruder in
  present (intruder AuthPolicies !! red_policy) = true
  ∧ c' AITenants !! blue = None ∧ phase_at red c' = Some "Active"
  ∧ present (c' ConfigMaps !! claim_key deployment red_gateway) = true
  ∧ c' AuthPolicies !! red_policy = None
  ∧ label_owners "team" intruder = Some ["red"] ∧ label_owners "team" c' = Some [].
Proof. split_and!; by_compute. Qed.

(** An AITenant in a wrong namespace is never provisioned, but its deletion starts
    the Job that revokes the keys of the tenant of its name. *)
Definition misplaced_key : key := ("default", "red").
Definition misplaced (deleted : option Z) : infra :=
  store [(misplaced_key, tenant "uid-other" None deleted (status_with "Failed" red_gateway []))]
    platform_namespaces [] [] [] [].
Example misplaced_deletion_revokes :
  phase_at misplaced_key (after DocCluster.reliable misplaced_key (misplaced None)) = Some "Failed"
  ∧ job_key deployment misplaced_key = job_key deployment red
  ∧ present (after DocCluster.reliable misplaced_key (misplaced (Some 0%Z)) Jobs
               !! job_key deployment red) = true.
Proof. split_and!; by_compute. Qed.

(** A tenant that is given another Gateway leaves the labels and the AuthPolicy of
    the one before, also when it is deleted in the end. *)
Definition green : string := "green".
Definition retargeted : infra :=
  with_policy red_policy
    (store [(red, tenant "uid-red" (Some green) None (status_with "Active" red_gateway []))]
       labelled_namespaces [(config_key deployment red, ready_config red)]
       [(("openshift-ingress", green), gateway_object "https" [("colour", "green")])]
       [((aitenantNamespace deployment, gatewayClaimName red_gateway),
         claim_of red "uid-red" red_gateway)] []).
Example retargeting_leaks :
  let c' := after DocCluster.reliable red retargeted in
  phase_at red c' = Some "Active"
  ∧ gateway <$> (c' AITenants !! red) = Some (mkGateway green "openshift-ingress")
  ∧ c' ConfigMaps !! claim_key deployment red_gateway = None
  ∧ label_owners "team" c' = Some ["red"] ∧ present (c' AuthPolicies !! red_policy) = true.
Proof. split_and!; by_compute. Qed.

(** An ownership annotation that says [null] makes every reconcile panic. *)
Definition nulled : infra :=
  store [(red, tenant "uid-red" None None pending)]
    [(("", "opendatahub"), namespace [] [(gatewayLabelsAnnotation, "null")]);
     (("", "ai-tenants"), namespace [] [])] []
    [(("openshift-ingress", "red"), gateway_object "https" [("team", "red")])] [] [].
Example null_annotation_panics :
  (run DocCluster.reliable red nulled).1.1
  = Err (ErrText "panic: assignment to entry in nil map").
Proof. by_compute. Qed.

(** A call that fails leaves two tenants Active on one Gateway: the Gateway is
    recorded before it is claimed. *)
Definition both_active : infra :=
  two (tenant "uid-red" None None (status_with "Active" red_gateway []))
    (tenant "uid-blue" (Some "red") None
       (status_with "Active" (mkGateway "blue" "openshift-ingress") []))
    [((aitenantNamespace deployment, gatewayClaimName red_gateway),
      claim_of red "uid-red" red_gateway)].

Example failure_shares_a_gateway :
  let c' := after (DocCluster.flaky 8) blue both_active in
  phase_at red c' = Some "Active" ∧ phase_at blue c' = Some "Active"
  ∧ gateway <$> (c' AITenants !! red) = Some red_gateway
  ∧ gateway <$> (c' AITenants !! blue) = Some red_gateway.
Proof. split_and!; by_compute. Qed.

(** When the deletion timeout is reached, a configuration without a finalizer only
    gets one: nobody deletes it any more. *)
Definition impatient : AITenantReconciler :=
  mkAITenantReconciler "opendatahub" "models-as-a-service" "ai-tenants" "" "openshift-ingress"
    10 true "".
Definition overdue : infra :=
  store [(red, tenant "uid-red" None (Some (-100)%Z) (status_with "Active" red_gateway []))]
    platform_namespaces [(config_key deployment red, ready_config red)] [] [] [].
Example forced_removal_leaves_config :
  let srv := DocCluster.reliable in
  let c' := state (Reconcile impatient red (IO 0 overdue)).2 in
  c' AITenants !! red = None
  ∧ (λ config, (om_Finalizers (meta config), being_deleted config))
      <$> (c' MaasTenantConfigs !! config_key deployment red) = Some ([tenantFinalizer], false).
Proof. split_and!; by_compute. Qed.

(** A legacy Tenant is deleted although the configuration does not have its
    settings of the API. *)
Definition legacy_tenant : object Tenants :=
  mkObject Tenants new_meta
    (mkTenantSpec (mkGateway "" "") None None None (Some (mkMaasAPI (Some 3%Z) None)) None) ().
Definition legacy : infra :=
  update (K := Tenants) <[config_key deployment red := legacy_tenant]>
    (prepared (tenant "uid-red" None None pending) []).
Example legacy_settings_lost :
  let c' := after DocCluster.reliable red legacy in
  c' Tenants !! config_key deployment red = None
  ∧ cs_MaasAPI ∘ config_spec <$> (c' MaasTenantConfigs !! config_key deployment red) = Some None.
Proof. split_and!; by_compute. Qed.

(** A short name may have the Job of a long one. *)
Example job_names_collide :
  aitenantAPIKeyRevocationJobName "a-tenant-whose-name-is-of-forty-one-bytes"
  = aitenantAPIKeyRevocationJobName "a-tenant-whose-name-is-of-f-4961f345".
Proof. by_compute. Qed.

End TenantFlaws.
