(* ===== verification/AdmissionCorrectness.v ===== *)
(** The properties of the admission webhooks: AITenants that pass through them
    never share a Gateway, what exactly is let through, that a tenant that has
    been provisioned accepts subscriptions and policies, and what gets stuck. *)
From S2P Require Import Prelude GoStrings Runtime GoFmt MaasTypes Cluster ControllerFacts.
From S2P Require Import TenantCluster AITenantParts AITenantController AITenantFacts AITenantLoopFacts.
From S2P Require Import Admission SubscriptionExamples AITenantCorrectness.
Import Cluster Fmt Infra Tenant TenantController Webhooks.

(** ** What validators do *)

Section validators.
Context {srv : ApiServer} {tsrv : TenantServer} {lawful : LawfulApiServer} {uni : Unicode}.

(** No other tenant of the infrastructure namespace has the Gateway. *)
Definition gateway_free (v : AITenantValidator) (k : key) (t : object AITenants) (c : infra)
    : Prop :=
  ∀ k' t', c AITenants !! k' = Some t' → k'.1 = at_AITenantNamespace v → k' ≠ k →
    gatewayRefFor v k' (aitenant_spec t') ≠ gatewayRefFor v k (aitenant_spec t).

Lemma in_use_true v k t k' t' :
  in_use v k (gatewayRefFor v k (aitenant_spec t)) (k', t') = true ↔
  k' ≠ k ∧ gatewayRefFor v k' (aitenant_spec t') = gatewayRefFor v k (aitenant_spec t).
Proof.
  unfold in_use. destruct k as [ns name], k' as [ns' name']. cbn [fst snd].
  rewrite andb_true_iff, negb_true_iff, andb_false_iff, andb_true_iff, !bool_decide_eq_true,
    !bool_decide_eq_false.
  generalize (gatewayRefFor v (ns', name') (aitenant_spec t')).
  generalize (gatewayRefFor v (ns, name) (aitenant_spec t)). intros [n1 m1] [n2 m2]. cbn.
  split; intros [H1 H2]; split.
  - intros [= -> ->]. by destruct H1.
  - by destruct H2 as [-> ->].
  - destruct (decide (name' = name)) as [->|]; [right|by left]. by intros ->.
  - by injection H2 as -> ->.
Qed.

Lemma wp_validateGatewayUniqueness v k t c :
  wp (validateGatewayUniqueness v k t) (λ x c', c' = c ∧
    match x with
    | Ok _ => gateway_free v k t c
    | Err _ => ¬ gateway_free v k t c ∨ unreliable
    end) c.
Proof.
  unfold validateGatewayUniqueness. apply wp_try, wp_call.
  eapply wp_mono; [apply wp_List|]. intros [l|e] c1 [-> Hl]; [|destruct e; tauto].
  assert (∀ k' t', (k', t') ∈ l ↔ c AITenants !! k' = Some t' ∧ k'.1 = at_AITenantNamespace v)
    as Hin.
  { intros k' t'. rewrite Hl, filter_bool_elem_of, elem_of_map_to_list, bool_decide_eq_true. done. }
  apply wp_ret. destruct (List.find _ l) as [[k' t']|] eqn:F.
  - split; [done|]. left. apply List.find_some in F as [F [Hne Hg]%in_use_true].
    apply list_elem_of_In, Hin in F as [E Hk]. intros Hf. by eapply (Hf k' t').
  - split; [done|]. intros k' t' E Hk Hne Hg.
    assert ((k', t') ∈ l) as Hi by by apply Hin.
    apply list_elem_of_In in Hi. pose proof (List.find_none _ _ F _ Hi) as Hno.
    rewrite (proj2 (in_use_true v k t k' t')) in Hno; done.
Qed.

(** What a validator that is set up lets through. *)
Definition ready (v : AITenantValidator) : Prop :=
  at_Client v = true ∧ at_AITenantNamespace v ≠ "" ∧ at_GatewayNamespace v ≠ "".

Lemma configured_spec v :
  match configured v with
  | Ok v' => v = Some v' ∧ ready v'
  | Err _ => ∀ v', v = Some v' → ¬ ready v'
  end.
Proof.
  unfold configured, ready. destruct v as [[[] ns gns]|]; cbn [at_Client at_AITenantNamespace at_GatewayNamespace negb].
  - destruct (bool_decide_reflect (ns = "")) as [->|Hn]; [by intros v' [= <-] (_ & [] & _)|].
    destruct (bool_decide_reflect (gns = "")) as [->|Hg]; [by intros v' [= <-] (_ & _ & [])|].
    done.
  - by intros v' [= <-] (? & _).
  - by intros v' [=].
Qed.

Lemma wp_ValidateCreate v k t c :
  wp (ValidateCreate v (AnAITenant k t)) (λ x c', c' = c ∧
    match x with
    | Ok _ => ∃ v', v = Some v' ∧ ready v' ∧ k.1 = at_AITenantNamespace v' ∧ gateway_free v' k t c
    | Err _ => (∀ v', v = Some v' → ready v' → k.1 = at_AITenantNamespace v' →
                  ¬ gateway_free v' k t c) ∨ unreliable
    end) c.
Proof.
  unfold ValidateCreate. pose proof (configured_spec v) as Hv.
  destruct (configured v) as [v'|e]; [|by apply wp_ret; split; [|left; intros v' -> []%Hv]].
  destruct Hv as [-> Hr]. destruct (bool_decide_reflect (k.1 = at_AITenantNamespace v')) as [Hk|Hk].
  - eapply wp_mono; [apply wp_validateGatewayUniqueness|]. intros x c' [-> Hx]. split; [done|].
    destruct x; [by exists v'|]. destruct Hx as [Hx|Hx]; [left|by right]. by intros v2 [= <-].
  - apply wp_ret. split; [done|]. left. by intros v2 [= <-].
Qed.

Lemma wp_ValidateUpdate v k0 t0 k t c :
  wp (ValidateUpdate v (AnAITenant k0 t0) (AnAITenant k t)) (λ x c', c' = c ∧
    match x with
    | Ok _ => ∃ v', v = Some v' ∧ ready v' ∧ gateway_free v' k t c
    | Err _ => (∀ v', v = Some v' → ready v' → ¬ gateway_free v' k t c) ∨ unreliable
    end) c.
Proof.
  unfold ValidateUpdate. pose proof (configured_spec v) as Hv.
  destruct (configured v) as [v'|e]; [|by apply wp_ret; split; [|left; intros v' -> []%Hv]].
  destruct Hv as [-> Hr]. eapply wp_mono; [apply wp_validateGatewayUniqueness|].
  intros x c' [-> Hx]. split; [done|].
  destruct x; [by exists v'|]. destruct Hx as [Hx|Hx]; [left|by right]. by intros v2 [= <-].
Qed.
End validators.

(** ** AITenants do not share Gateways *)

Section requests.
Context {srv : ApiServer} {tsrv : TenantServer} {lawful : LawfulApiServer} {uni : Unicode}.
Context (r : AITenantReconciler).

(** The webhook resolves Gateways as the controller does. *)
Lemma gatewayRefFor_mirrors k s : gatewayRefFor (validator_of r) k s = Tenant.gatewayRefFor r k s.
Proof.
  unfold gatewayRefFor, Tenant.gatewayRefFor. cbn. destruct (sp_Gateway s) as [name|]; [|done].
  by destruct (_ != _).
Qed.

(** Every AITenant is in the infrastructure namespace, and no two of them have the
    controller provision the same Gateway. *)
Definition isolated (c : infra) : Prop :=
  (∀ k t, c AITenants !! k = Some t → k.1 = aitenantNamespace r) ∧
  ∀ k t k' t', c AITenants !! k = Some t → c AITenants !! k' = Some t' →
    Tenant.gatewayRefFor r k (aitenant_spec t) = Tenant.gatewayRefFor r k' (aitenant_spec t') →
    k = k'.

(** A change of one AITenant keeps them isolated if it had its Gateway before or if
    the Gateway is free. *)
Lemma isolated_step k c c' :
  isolated c → only (at_object AITenants k) c c' →
  (∀ t', c' AITenants !! k = Some t' →
     k.1 = aitenantNamespace r ∧ gateway_free (validator_of r) k t' c
     ∨ ∃ t, c AITenants !! k = Some t ∧ aitenant_spec t = aitenant_spec t') →
  isolated c'.
Proof.
  intros [Hp Hs] Ho Hk.
  assert (∀ k2 t2, c' AITenants !! k2 = Some t2 → k2 ≠ k → c AITenants !! k2 = Some t2) as Hother.
  { intros k2 t2 E Hne. rewrite <- Ho; [done|]. by intros [_ ?]. }
  assert (∀ k2 t2 t', c' AITenants !! k = Some t' → c' AITenants !! k2 = Some t2 → k2 ≠ k →
    Tenant.gatewayRefFor r k2 (aitenant_spec t2) ≠ Tenant.gatewayRefFor r k (aitenant_spec t'))
    as Hfree.
  { intros k2 t2 t' E' E2 Hne Hg. specialize (Hother _ _ E2 Hne).
    destruct (Hk t' E') as [[Hn Hf]|(t & E & Ht)].
    - apply (Hf k2 t2); [done|by eapply Hp|done|]. by rewrite !gatewayRefFor_mirrors.
    - rewrite <- Ht in Hg. by apply Hne, (Hs k2 t2 k t). }
  split.
  - intros k2 t2 E. destruct (decide (k2 = k)) as [->|Hne]; [|eauto].
    destruct (Hk _ E) as [[Hn _]|(t & Et & _)]; eauto.
  - intros k1 t1 k2 t2 E1 E2 Hg. destruct (decide (k1 = k)) as [->|H1], (decide (k2 = k)) as [->|H2];
      [done| | |by eauto].
    + by destruct (Hfree k2 t2 t1 E1 E2 H2).
    + by destruct (Hfree k1 t1 t2 E2 E1 H1).
Qed.

Lemma stored_spec (old o t : object AITenants) :
  stored old o = Some t → aitenant_spec t = aitenant_spec o.
Proof. unfold stored. case_match; [done|]. by intros [= <-]. Qed.

Lemma isolated_serve q c : isolated c →
  wp (serve (Some (validator_of r)) q) (λ _, isolated) c.
Proof.
  intros Hc. destruct q as [k t|k t|k st|k]; cbn [serve].
  - eapply wp_try, wp_mono; [apply wp_ValidateCreate|]. intros [[]|e] c1 [-> Hx]; [|done].
    destruct Hx as (v' & [= <-] & _ & Hk & Hf). apply wp_plain_call.
    assert (∀ c', created k t c c' → isolated c') as Hm.
    { intros c' Hcr. eapply isolated_step; [done|by eapply created_only|]. intros t' E.
      destruct Hcr as (_ & _ & n & ->). rewrite update_same, lookup_insert_eq in E.
      injection E as <-. by left. }
    eapply wp_mono; [apply wp_Create|]. intros [[]|[]] c' Hx; naive_solver.
  - eapply wp_try, wp_plain_call, wp_mono; [apply wp_Get|]. intros [old|e] c1 [-> Ho]; [|done].
    eapply wp_try, wp_mono; [apply wp_ValidateUpdate|]. intros [[]|e] c1 [-> Hx]; [|done].
    destruct Hx as (v' & [= <-] & _ & Hf). apply wp_plain_call.
    assert (∀ c', patched k t c c' → isolated c') as Hm.
    { intros c' Hp. eapply isolated_step; [done|by eapply patched_only|]. intros t' E.
      destruct Hp as (o & Eo & ->). rewrite update_lookup in E. apply stored_spec in E. left.
      split; [by eapply Hc|]. intros k' t2 E2 Hk Hne. rewrite E. by apply Hf. }
    eapply wp_mono; [apply wp_Patch|]. intros [[]|[]] c' Hx; naive_solver.
  - apply wp_plain_call.
    assert (∀ c', status_set k (st : status_of AITenants) c c' → isolated c') as Hm.
    { intros c' Hp. eapply isolated_step; [done|by eapply status_set_only|]. intros t' E.
      destruct Hp as (o & Eo & ->). rewrite update_same, lookup_insert_eq in E.
      injection E as <-. right. by exists o. }
    eapply wp_mono; [apply wp_UpdateStatus|]. intros [[]|[]] c' Hx; naive_solver.
  - apply wp_plain_call.
    assert (∀ c', removed AITenants k c c' → isolated c') as Hm.
    { intros c' Hp. eapply isolated_step; [done|by eapply removed_only|]. intros t' E.
      destruct Hp as (o & n & Eo & ->). rewrite update_lookup in E. right. exists o. split; [done|].
      unfold deleted in E. repeat case_match; try done; by injection E as <-. }
    eapply wp_mono; [apply wp_Delete|]. intros [[]|[]] c' Hx; naive_solver.
Qed.

(** C18. As long as requests are validated and carried out one after the other, no two
    AITenants ever have the controller provision the same Gateway, and all are in
    the infrastructure namespace, whatever is requested and whatever calls fail. *)
Theorem admitted_tenants_isolated qs n c : isolated c →
  isolated (state (serve_all (Some (validator_of r)) qs (IO n c)).2).
Proof.
  intros Hc. cut (wp (serve_all (Some (validator_of r)) qs) (λ _, isolated) c); [by intros H; apply H|].
  clear n. revert c Hc. induction qs as [|q qs IH]; intros c Hc; cbn [serve_all]; [by apply wp_ret|].
  eapply wp_bind, wp_mono; [by apply isolated_serve|]. intros x c1 H1.
  eapply wp_bind, wp_mono; [by apply IH|]. intros xs c2 H2. by apply wp_ret.
Qed.
End requests.

(** ** What is stuck *)

Section frozen.
Context {srv : ApiServer} {tsrv : TenantServer} {lawful : LawfulApiServer} {uni : Unicode}.
Context (r : AITenantReconciler).

(** Another tenant has the Gateway: whatever an update is about, the removal of the
    finalizer of a tenant that is being deleted included, it is refused as long as
    it keeps the Gateway, and nothing changes. *)
Theorem shared_gateway_freezes k t k' t' n c :
  c AITenants !! k' = Some t' → k'.1 = aitenantNamespace r → k' ≠ k →
  Tenant.gatewayRefFor r k' (aitenant_spec t') = Tenant.gatewayRefFor r k (aitenant_spec t) →
  let w := serve (Some (validator_of r)) (UpdateTenant k t) (IO n c) in
  (∃ e, w.1 = Err e) ∧ state w.2 = c.
Proof.
  intros E Hk Hne Hg.
  assert (¬ gateway_free (validator_of r) k t c) as Hno.
  { intros Hf. apply (Hf k' t' E Hk Hne). by rewrite !gatewayRefFor_mirrors. }
  cut (wp (serve (Some (validator_of r)) (UpdateTenant k t))
         (λ x c', (∃ e, x = Err e) ∧ c' = c) c); [by intros H; apply H|].
  cbn [serve]. eapply wp_try, wp_plain_call, wp_mono; [apply wp_Get|].
  intros [old|e] c1 [-> Ho]; [|eauto].
  eapply wp_try, wp_mono; [apply wp_ValidateUpdate|]. intros [[]|e] c1 [-> Hx]; [|eauto].
  by destruct Hx as (v' & [= <-] & _ & Hf).
Qed.

(** A model that names a tenant which is gone cannot be updated, be it to take its
    finalizer, unless it names another. *)
Theorem dangling_model_freezes v old k m n c :
  V1.m_TenantRef (V1.m_Spec m) ≠ "" →
  c AITenants !! (mr_AITenantNamespace v, V1.m_TenantRef (V1.m_Spec m)) = None →
  let w := ValidateUpdate_model (Some v) old (AModelRef k m) (IO n c) in
  (∃ e, w.1 = Err e) ∧ state w.2 = c.
Proof.
  intros Hr E. cut (wp (ValidateUpdate_model (Some v) old (AModelRef k m))
    (λ x c', (∃ e, x = Err e) ∧ c' = c) c); [by intros H; apply H|].
  unfold ValidateUpdate_model, validateTenantRef. rewrite bool_decide_eq_false_2 by done.
  destruct (negb _); [by apply wp_ret; eauto|].
  destruct (_ == _); [by apply wp_ret; eauto|].
  eapply wp_bind, wp_mono; [apply wp_Get|]. intros [t|e] c1 [-> Ho]; [congruence|].
  apply wp_ret. split; [|done]. destruct (isNotFoundError e); eauto.
Qed.
End frozen.

(** ** Namespaces that accept subscriptions and policies *)

Section namespaces.
Context {srv : ApiServer} {tsrv : TenantServer} {lawful : LawfulApiServer} {uni : Unicode}.

(** There is a configuration, or a legacy one. *)
Definition enabled (ns : string) (c : infra) : Prop :=
  (∃ k o, c MaasTenantConfigs !! k = Some o ∧ k.1 = ns)
  ∨ (∃ k o, c Tenants !! k = Some o ∧ k.1 = ns).

Lemma wp_any K ns c :
  wp (List K (λ k _, k.1 == ns)) (λ x c', c' = c ∧
    match x with
    | Ok l => (0 <? length l) = true ↔ ∃ k o, c K !! k = Some o ∧ k.1 = ns
    | Err _ => unreliable
    end) c.
Proof.
  eapply wp_mono; [apply wp_List|]. intros [l|[]] c1 [-> Hl]; try done. split; [done|].
  assert (∀ ko, ko ∈ l ↔ c K !! ko.1 = Some ko.2 ∧ ko.1.1 = ns) as Hin.
  { intros [k o]. rewrite Hl, filter_bool_elem_of, elem_of_map_to_list, bool_decide_eq_true. done. }
  rewrite Nat.ltb_lt. split.
  - destruct l as [|[k o] l]; cbn; [lia|]. intros _. exists k, o. apply (Hin (k, o)). left.
  - intros (k & o & E & Hk). destruct l as [|ko l]; cbn; [|lia].
    pose proof (proj2 (Hin (k, o)) (conj E Hk)) as Hi. inversion Hi.
Qed.

Lemma wp_ValidateNamespace ns c :
  wp (ValidateNamespace (Some (mkTenantNamespaceValidator true)) ns) (λ x c', c' = c ∧
    (x.1 = true → enabled ns c) ∧ (x.1 = false → ¬ enabled ns c ∨ unreliable)) c.
Proof.
  unfold ValidateNamespace, enabled.
  eapply wp_bind, wp_mono; [apply wp_any|].
  intros [l|e] c1 [-> Hl]; [|apply wp_ret; cbn; split_and!; [done|done|by right]].
  destruct (0 <? length l); [apply wp_ret; split_and!; [done|intros _; left; by apply Hl|done]|].
  eapply wp_bind, wp_mono; [apply wp_any|].
  intros [l2|e] c1 [-> Hl2]; [|apply wp_ret; cbn; split_and!; [done|done|by right]].
  destruct (0 <? length l2); apply wp_ret; cbn; split_and!; try done.
  - intros _. right. by apply Hl2.
  - intros _. left. naive_solver.
Qed.

(** An object that only namespaces of tenants may contain. *)
Definition tenant_object (ns : string) (obj : runtime_object) : Prop :=
  match obj with
  | ASubscription k _ | APolicy k _ => k.1 = ns
  | _ => False
  end.

Lemma wp_admit_create r ns obj c : tenant_object ns obj →
  wp (admit_create r obj) (λ x c', c' = c ∧
    (x = Ok () → enabled ns c) ∧ (enabled ns c → x = Ok () ∨ unreliable)) c.
Proof.
  intros Hobj.
  assert (wp (in_tenant_namespace (Some (mkTenantNamespaceValidator true)) ns) (λ x c', c' = c ∧
      (x = Ok () → enabled ns c) ∧ (enabled ns c → x = Ok () ∨ unreliable)) c) as H.
  { unfold in_tenant_namespace. eapply wp_bind, wp_mono; [apply wp_ValidateNamespace|].
    intros [[] msg] c1 (-> & Ht & Hf); apply wp_ret; cbn in *; split_and!; try done; [auto..|].
    intros He. destruct (Hf eq_refl); [done|by right]. }
  destruct obj; try done; cbn in Hobj |- *; by rewrite Hobj.
Qed.

(** Subscriptions and policies can be created in a namespace only when it has a
    tenant configuration or a legacy one, and then always when nothing fails: the
    namespace of a tenant that has been provisioned accepts them. *)
Theorem creation_needs_tenant r ns obj n c : tenant_object ns obj →
  let w := admit_create r obj (IO n c) in
  state w.2 = c
  ∧ (w.1 = Ok () → enabled ns c)
  ∧ (enabled ns c → w.1 = Ok () ∨ unreliable)
  ∧ (∀ k uid gr, provisioned r k uid gr c → tenantNamespaceName r k = ns →
       w.1 = Ok () ∨ unreliable).
Proof.
  intros Hobj w. destruct (wp_admit_create r ns obj c Hobj n) as (H1 & H2 & H3).
  split_and!; [done..|]. intros k uid gr (_ & _ & _ & (o & E & _) & _) <-.
  apply H3. left. by exists (config_key r k), o.
Qed.
End namespaces.

(** ** Concrete requests *)

Import TenantDoc TenantExamples.

(** No tenants yet. *)
Definition bare : infra := store [] platform_namespaces [] [] [] [].
Definition asking (gateway : option string) : object AITenants := tenant "" gateway None pending.
(** [blue] asks for the Gateway of [red], first at its creation and then later. *)
Definition requests : list request :=
  [CreateTenant red (asking None); CreateTenant blue (asking (Some "red"));
   CreateTenant blue (asking None); UpdateTenant blue (asking (Some "red"));
   UpdateTenant blue (asking (Some "green"))].
Definition accepted (x : result error ()) : bool := match x with Ok _ => true | Err _ => false end.

Lemma admitted_tenants_isolated_witness :
  let srv := DocCluster.reliable in
  let w := serve_all (Some (validator_of deployment)) requests (IO 0 bare) in
  accepted <$> w.1 = [true; false; true; false; true] ∧ isolated deployment (state w.2).
Proof.
  intros srv w. split; [by_compute|].
  apply (admitted_tenants_isolated (lawful := DocCluster.reliable_lawful) deployment requests 0 bare).
  split; intros k t; change (bare AITenants) with (∅ : gmap key (object AITenants));
    rewrite lookup_empty; [by intros [=]|by intros ?? [=]].
Defined.

Definition new_policy : runtime_object :=
  APolicy ("ai-tenant-red", "everybody")
    (V1.mkAuthPolicyCR "everybody" "ai-tenant-red" 1 false [] (V1.mkAuthSpec [] ["all"] [] None)
       (V1.mkAuthStatus "" [] [])).

(** A tenant without a configuration refuses what the tenant that became Active takes. *)
Lemma creation_needs_tenant_witness :
  let srv := DocCluster.reliable in
  let c := after srv red (prepared (tenant "uid-red" None None pending) []) in
  accepted (admit_create deployment new_policy (IO 0 bare)).1 = false ∧ phase_at red c = Some "Active"
  ∧ (admit_create deployment new_policy (IO 0 c)).1 = Ok ().
Proof.
  intros srv c. split_and!; [by_compute|by_compute|].
  destruct (some_check (c MaasTenantConfigs !! config_key deployment red)
    (λ o, being_deleted o = false)) as (o & E & _); [by_compute|].
  destruct (creation_needs_tenant (lawful := DocCluster.reliable_lawful) deployment "ai-tenant-red"
    new_policy 0 c eq_refl) as (_ & _ & H & _).
  destruct H as [H|[n [e He]]]; [|exact H|done].
  left. exists (config_key deployment red), o. split; [exact E|by_compute].
Defined.

(** Two requests that are validated at the same time are both let through, and both
    tenants have the Gateway; it is the claim that keeps the second from being
    provisioned. *)
Example concurrent_creations_share :
  let srv := DocCluster.reliable in
  let red_ok := (ValidateCreate (Some (validator_of deployment)) (AnAITenant red (asking None))
                   (IO 0 bare)).1 in
  let blue_ok := (ValidateCreate (Some (validator_of deployment))
                    (AnAITenant blue (asking (Some "red"))) (IO 0 bare)).1 in
  accepted red_ok = true ∧ accepted blue_ok = true
  ∧ Tenant.gatewayRefFor deployment red (aitenant_spec (asking None))
    = Tenant.gatewayRefFor deployment blue (aitenant_spec (asking (Some "red"))).
Proof. split_and!; by_compute. Qed.

(** A tenant that shares its Gateway has been cleaned up and is being deleted: the
    removal of its finalizer is refused. *)
Definition sharing : infra :=
  store [(red, tenant "uid-red" None None (status_with "Active" red_gateway []));
         (blue, tenant "uid-blue" (Some "red") (Some 0%Z) (status_with "Terminating" red_gateway []))]
    platform_namespaces [] [] [] [].
Definition released : object AITenants :=
  with_meta (set_Finalizers (λ fs, List.filter (λ f, f != aitenantFinalizer) fs))
    (tenant "uid-blue" (Some "red") (Some 0%Z) (status_with "Terminating" red_gateway [])).
Example shared_gateway_blocks_release :
  let srv := DocCluster.reliable in
  let w := serve (Some (validator_of deployment)) (UpdateTenant blue released) (IO 0 sharing) in
  om_Finalizers (meta released) = []
  ∧ (∃ e, w.1 = Err e) ∧ state w.2 = sharing.
Proof.
  intros srv w. split; [by_compute|].
  destruct (some_check (sharing AITenants !! red) (λ t, sp_Gateway (aitenant_spec t) = None))
    as (t & E & Hg); [by_compute|].
  apply (shared_gateway_freezes (lawful := DocCluster.reliable_lawful) deployment blue released red t
    0 sharing E); [by_compute|done|].
  unfold Tenant.gatewayRefFor. rewrite (Hg : _ = _). done.
Qed.

(** A model names a tenant that is gone, and is being deleted. *)
Definition orphan : V1.MaaSModelRef :=
  V1.mkModel 1 true [] (V1.mkModelSpec "ExternalModel" "granite" "" "red") V1.zero_model_status.
Example orphan_model_blocks_release :
  let srv := DocCluster.reliable in
  let w := ValidateUpdate_model (Some (mkMaaSModelRefValidator true "ai-tenants"))
             (AModelRef ("llms", "granite") orphan) (AModelRef ("llms", "granite") orphan)
             (IO 0 bare) in
  (∃ e, w.1 = Err e) ∧ state w.2 = bare.
Proof.
  intros srv w. apply (dangling_model_freezes (mkMaaSModelRefValidator true "ai-tenants")
    (AModelRef ("llms", "granite") orphan) ("llms", "granite") orphan 0 bare); [done|by_compute].
Qed.
