(* ===== verification/AuthGatewayFacts.v ===== *)
(** What the policy controller does to AuthPolicies: what it reads of the tenant,
    how a program may change the policies of the cluster, and the policy of a
    gateway, whatever fails and when nothing does. *)
From S2P Require Import Prelude GoStrings Unstructured Runtime.
From S2P Require Import SpecCompare MaasTypes Cluster ControllerHelpers.
From S2P Require Import GatewayAuthSpec AuthPolicyGateway AuthPolicyController.
From S2P Require Import ControllerFacts SubscriptionModelFacts.
From S2P Require Import SubscriptionReconcileFacts.
Import V1 Cluster Helpers SpecCompare GatewaySpec AuthGateway AuthController.

(** ** Effects on AuthPolicies *)

Definition managed_auth (ap : AuthPolicy) : Prop := isManaged (a_annotations ap) = true.

Definition managed_slot (o : option AuthPolicy) : Prop :=
  match o with Some ap => managed_auth ap | None => True end.

(** Policies do not become generated ones. *)
Definition keeps_generated (o o' : option AuthPolicy) : Prop :=
  ∀ ap', o' = Some ap' → generated ap' = true →
    ∃ ap, o = Some ap ∧ a_labels ap = a_labels ap' ∧ a_annotations ap = a_annotations ap'.

(** A slot stays, or holds managed policies before and after: those of an owned
    slot are written or deleted, the generated ones elsewhere only deleted. *)
Definition slot_effect (own : Prop) (o o' : option AuthPolicy) : Prop :=
  o' = o
  ∨ (managed_slot o ∧ managed_slot o' ∧ keeps_generated o o'
     ∧ (own ∨ ∃ ap, o = Some ap ∧ generated ap = true ∧ o' = None)).

Definition auth_effect (own : key → Prop) (c c' : cluster) : Prop :=
  c' = set_auth_policies (λ _, auth_policies c') c
  ∧ ∀ k, slot_effect (own k) (auth_policies c !! k) (auth_policies c' !! k).

(** Generated policies that pass a test go, and nothing else happens. *)
Definition none_own (k : key) : Prop := False.

#[global] Instance slot_effect_refl own : Reflexive (slot_effect own).
Proof. intros o. by left. Qed.
#[global] Instance slot_effect_trans own : Transitive (slot_effect own).
Proof.
  intros o1 o2 o3 [->|(M1 & M2 & K1 & H)] [->|(M3 & M4 & K2 & H')];
    [by left|right..]; try done.
  split_and!; [done..| |].
  { intros ap3 E3 G3. destruct (K2 ap3 E3 G3) as (ap2 & E2 & El2 & Ea2).
    destruct (K1 ap2 E2) as (ap1 & E1 & El1 & Ea1).
    - revert G3. unfold generated. by rewrite El2.
    - exists ap1. split_and!; [done|congruence..]. }
  destruct H as [|(ap & -> & ? & ->)]; [by left|].
  destruct H' as [|(ap' & ? & _)]; [by left|done].
Qed.
#[global] Instance auth_effect_refl own : Reflexive (auth_effect own).
Proof. intros c. split; [by destruct c|]. by left. Qed.
#[global] Instance auth_effect_trans own : Transitive (auth_effect own).
Proof.
  intros c1 c2 c3 [E1 H1] [E2 H2]. split; [by rewrite E2, E1|].
  intros k. etrans; [apply H1|apply H2].
Qed.

Lemma auth_effect_mono (own own' : key → Prop) c c' :
  (∀ k, own k → own' k) → auth_effect own c c' → auth_effect own' c c'.
Proof.
  intros Ho [E H]. split; [done|]. intros k.
  destruct (H k) as [?|(? & ? & ? & [?|?])]; [by left|right..]; auto 6.
Qed.

Lemma auth_effect_own own c c' k :
  auth_effect own c c' → ¬ own k →
  auth_policies c' !! k = auth_policies c !! k
  ∨ (auth_policies c' !! k = None
     ∧ ∃ ap, auth_policies c !! k = Some ap ∧ managed_auth ap ∧ generated ap = true).
Proof.
  intros [_ H] Hk. destruct (H k) as [|(M & _ & _ & [|(ap & E & ? & ?)])]; [by left|done|].
  right. split; [done|]. exists ap. by rewrite E in M.
Qed.

(** What the write of the goal has done, unless it has done nothing. *)
Ltac run_write H :=
  match goal with |- context [write ?f ?w] =>
    destruct (write_run f w) as [[-> _]|H]; [done|]
  end.

(** A call, then an answer. *)
Lemma run_then_ret {A B} context (m : prog cluster (result api_error A))
    (y : result error B) w :
  try_bind (in_context context m) (λ _, mret y) w =
  (match (m w).1 with Ok _ => y | Err e => Err (In context (ErrApi e)) end, (m w).2).
Proof. unfold try_bind, in_context. rewrite !bind_run. by destruct (m w) as [[] ?]. Qed.

Lemma auth_effect_generated own c c' k ap' :
  auth_effect own c c' → auth_policies c' !! k = Some ap' → generated ap' = true →
  ∃ ap, auth_policies c !! k = Some ap ∧ a_labels ap = a_labels ap'
        ∧ a_annotations ap = a_annotations ap'.
Proof.
  intros [_ H] E G. destruct (H k) as [E'|(_ & _ & K & _)]; [|by apply K].
  exists ap'. by rewrite <-E'.
Qed.

Section facts.
Context {api : ApiMachinery} {srv : ApiServer} {lawful : LawfulApiServer}.
Context (r : AuthReconciler).

(** ** The tenant *)

Definition tenant_id (c : cluster) (ns : string) : option string :=
  match tenant_of c ns with
  | None => Some ""
  | Some (m, _) => match TenantIdentifierFor ns m with Ok id => Some id | Err _ => None end
  end.

Lemma fetchTenantIdentifier_reads ns :
  reads (fetchTenantIdentifier ns) (λ c x, ∀ id, x = Ok id → tenant_id c ns = Some id).
Proof.
  unfold fetchTenantIdentifier, tenant_id. eapply reads_then; [apply fetchTenant_reads|].
  intros [[m legacy]|[| |msg]]; apply reads_ret; intros c E id; try done.
  - rewrite E. case_match; by intros [= <-].
  - rewrite E. by intros [= <-].
Qed.

Lemma fetchTenantPlatformContext_reads ns :
  reads (fetchTenantPlatformContext r ns) (λ c x,
    ∀ p, x = Ok p → tenant_context (settings r) c ns = Some p).
Proof.
  unfold fetchTenantPlatformContext, tenant_context.
  eapply reads_then; [apply fetchTenant_reads|].
  intros [[m legacy]|[| |msg]]; try by apply reads_ret.
  - eapply reads_mono; [apply platform_reads|]. by intros c x H ->.
  - case_match; [apply reads_ret; by intros c -> p [= <-]|].
    eapply reads_try; [apply tenantNamespaceAllowed_reads| |done].
    intros b. case_match; apply reads_ret; [done|]. by intros c _ -> p [= <-].
Qed.

Lemma fetchGatewayInfo_reads ns :
  reads (fetchGatewayInfo r ns) (λ c x,
    ∀ gw, x = Ok gw → tenant_gateway (settings r) c ns = Some gw).
Proof.
  unfold fetchGatewayInfo, tenant_gateway.
  eapply reads_try; [apply fetchTenantPlatformContext_reads| |done].
  intros p. apply reads_ret. intros c Hp gw [= <-]. by rewrite (Hp p).
Qed.

Lemma fetchOIDCConfig_reads ns : reads (fetchOIDCConfig r ns) (λ _ _, True).
Proof.
  unfold fetchOIDCConfig. eapply reads_then; [apply fetchTenantPlatformContext_reads|].
  intros x. by apply reads_ret.
Qed.

Lemma discover_reads : reads discoverXAPIKeyNeeded (λ _ _, True).
Proof.
  unfold discoverXAPIKeyNeeded. eapply reads_then; [apply list_in_reads|].
  intros x. by apply reads_ret.
Qed.

(** ** Writing AuthPolicies *)

Lemma delete_auth_effect (own : key → Prop) k w ap :
  auth_policies (state w) !! k = Some ap → managed_auth ap →
  (own k ∨ generated ap = true) →
  auth_effect own (state w) (state (delete_auth k w).2).
Proof.
  intros E Hm Ho. unfold delete_auth.
  run_write H.
  rewrite E in H. injection H as H. rewrite <-H. split; [done|].
  intros k'. cbn. destruct (decide (k' = k)) as [->|Hne].
  - rewrite lookup_delete_eq, E. right. split_and!; [done..|].
    destruct Ho; [by left|right]. by exists ap.
  - rewrite lookup_delete_ne by done. by left.
Qed.

Lemma create_auth_effect (own : key → Prop) k ap :
  managed_auth ap → generated ap = false → own k →
  respects (auth_effect own) (create_auth k ap).
Proof.
  intros Hm Hg Ho. apply respects_write; [apply _|]. intros c c'.
  destruct (auth_policies c !! k) as [old|] eqn:E; [done|]. intros [= <-].
  split; [done|]. intros k'. cbn. destruct (decide (k' = k)) as [->|Hne].
  - rewrite lookup_insert_eq, E. right. split_and!; [done..| |by left].
    intros ap' [= <-] Hg'. unfold generated in *. cbn in Hg'. congruence.
  - rewrite lookup_insert_ne by done. by left.
Qed.

Lemma update_auth_effect (own : key → Prop) k ap w old :
  auth_policies (state w) !! k = Some old → managed_auth old →
  a_labels ap = a_labels old → a_annotations ap = a_annotations old → own k →
  auth_effect own (state w) (state (update_auth k ap w).2).
Proof.
  intros E Hold Hl Ha Ho. unfold update_auth.
  run_write H.
  rewrite E in H. injection H as H. rewrite <-H. split; [done|].
  intros k'. cbn. destruct (decide (k' = k)) as [->|Hne].
  - rewrite lookup_insert_eq, E. right. split_and!; [done| | |by left].
    + unfold managed_slot, managed_auth. cbn. by rewrite Ha.
    + intros ap' [= <-] _. exists old. by split_and!.
  - rewrite lookup_insert_ne by done. by left.
Qed.

(** ** The AuthPolicy of a gateway *)

Definition is_policy_of (gw : GatewayRef) (k : key) : Prop := k = gateway_policy_key r gw.

Lemma create_gateway_effect spec gw owner :
  respects (auth_effect (is_policy_of gw)) (create_gateway_policy r spec gw owner).
Proof.
  unfold create_gateway_policy. case_match; [|apply respects_ret; apply _].
  intros w. rewrite run_then_ret. by apply create_auth_effect.
Qed.

Lemma update_gateway_effect spec gw owner ex w :
  auth_policies (state w) !! gateway_policy_key r gw = Some ex →
  auth_effect (is_policy_of gw) (state w)
    (state (update_gateway_policy r spec gw owner ex w).2).
Proof.
  intros E. unfold update_gateway_policy.
  destruct (isManaged (a_annotations ex)) eqn:Hm; [|done]. cbn [negb].
  case_match; [|done]. case_match; [done|].
  rewrite run_then_ret. by eapply update_auth_effect.
Qed.

Lemma reconcileGateway_effect oidc x id gw :
  respects (auth_effect (is_policy_of gw)) (reconcileGatewayAuthPolicy r oidc x id gw).
Proof.
  intros w. unfold reconcileGatewayAuthPolicy.
  step_reads (get_in_reads auth_policies (gateway_policy_key r gw)) as ex E H.
  destruct ex as [ex|[| |msg]]; cbn beta iota; [| |by unfold mret, prog_ret; cbn; rewrite E..].
  - rewrite <-E in *. clear E w. destruct (is_tenant_gateway r gw).
    2: { by apply update_gateway_effect. }
    step_reads (get_in_reads gateways (g_Namespace gw, g_Name gw)) as uid E Hu.
    rewrite <-E in H |- *. clear E Hu.
    destruct uid as [uid|[| |msg]]; [by apply update_gateway_effect| |done..].
    destruct (isManaged (a_annotations ex)) eqn:Hm; [|done].
    rewrite run_then_ret. eapply delete_auth_effect; [done..|by left].
  - rewrite <-E in *. clear E w. destruct (is_tenant_gateway r gw).
    2: { apply create_gateway_effect. }
    step_reads (get_in_reads gateways (g_Namespace gw, g_Name gw)) as uid E Hu.
    rewrite <-E. destruct uid as [uid|[| |msg]]; [apply create_gateway_effect|done..].
Qed.

(** It writes no other policy. *)
Definition same_others (k : key) (c c' : cluster) : Prop :=
  ∀ k', k' ≠ k → auth_policies c' !! k' = auth_policies c !! k'.
#[local] Instance same_others_refl k : Reflexive (same_others k).
Proof. by intros c k'. Qed.
#[local] Instance same_others_trans k : Transitive (same_others k).
Proof. intros c1 c2 c3 H1 H2 k' Hne. by rewrite H2, H1. Qed.

Lemma write_others k f :
  (∀ c c', f c = Ok c' → same_others k c c') → respects (same_others k) (write f).
Proof. apply respects_write, _. Qed.

Lemma create_others k ap : respects (same_others k) (create_auth k ap).
Proof.
  apply write_others. intros c c'. case_match; [done|]. intros [= <-] k' Hne. cbn.
  by rewrite lookup_insert_ne.
Qed.
Lemma update_others k ap : respects (same_others k) (update_auth k ap).
Proof.
  apply write_others. intros c c'. case_match; [|done]. intros [= <-] k' Hne. cbn.
  by rewrite lookup_insert_ne.
Qed.
Lemma delete_others k : respects (same_others k) (delete_auth k).
Proof.
  apply write_others. intros c c'. case_match; [|done]. intros [= <-] k' Hne. cbn.
  by rewrite lookup_delete_ne.
Qed.

Lemma apply_others spec gw ex owner :
  respects (same_others (gateway_policy_key r gw))
    match ex with
    | None => create_gateway_policy r spec gw owner
    | Some ex => update_gateway_policy r spec gw owner ex
    end.
Proof.
  destruct ex as [ex|]; unfold create_gateway_policy, update_gateway_policy.
  - destruct (negb _); [apply respects_ret; apply _|]. cbv zeta.
    case_match; [|apply respects_ret; apply _].
    destruct (specMatchesDesired _ _); [apply respects_ret; apply _|].
    intros w. rewrite run_then_ret. apply update_others.
  - case_match; [|apply respects_ret; apply _].
    intros w. rewrite run_then_ret. apply create_others.
Qed.

Lemma reconcileGateway_others oidc x id gw :
  respects (same_others (gateway_policy_key r gw))
    (reconcileGatewayAuthPolicy r oidc x id gw).
Proof.
  assert (∀ ex, respects (same_others (gateway_policy_key r gw))
    (if is_tenant_gateway r gw then
      gw' ← get_in gateways (g_Namespace gw, g_Name gw);
      match gw' with
      | Ok uid =>
          match ex with
          | None => create_gateway_policy r (desired_spec r oidc x id gw) gw (Some (gw_UID uid))
          | Some ex => update_gateway_policy r (desired_spec r oidc x id gw) gw (Some (gw_UID uid)) ex
          end
      | Err NotFound =>
          match ex with
          | Some ex =>
              if isManaged (a_annotations ex) then
                _ ←? in_context "failed to delete stale tenant gateway AuthPolicy"
                       (delete_auth (gateway_policy_key r gw));
                mret (Ok false)
              else mret (Ok false)
          | None => mret (Ok false)
          end
      | Err e => mret (Err (In "failed to get Gateway for OwnerReference" (ErrApi e)))
      end
     else
       match ex with
       | None => create_gateway_policy r (desired_spec r oidc x id gw) gw None
       | Some ex => update_gateway_policy r (desired_spec r oidc x id gw) gw None ex
       end)) as Hgo.
  { intros ex. destruct (is_tenant_gateway r gw); [|apply apply_others].
    apply respects_bind; [apply _|eapply respects_reads, get_in_reads; apply _|].
    intros [uid|[| |msg]]; [apply apply_others| |apply respects_ret; apply _..].
    destruct ex as [ex|]; [|apply respects_ret; apply _].
    destruct (isManaged _); [|apply respects_ret; apply _].
    intros w. rewrite run_then_ret. apply delete_others. }
  apply respects_bind; [apply _|eapply respects_reads, get_in_reads; apply _|].
  intros [ex|[| |msg]]; [apply (Hgo (Some ex))|apply (Hgo None)|apply respects_ret; apply _..].
Qed.
End facts.

(** * When nothing fails *)

Section run.
Context {api : ApiMachinery} {accessors : LawfulAccessors}.
Context {srv : ApiServer} {lawful : LawfulApiServer}.
Context (r : AuthReconciler).

(** ** Calls that do not fail *)

Definition reliable_server : Prop := ∀ n, api_fault n = None.

Lemma reliable_not_unreliable : reliable_server → ¬ unreliable.
Proof. intros H [n [x E]]. by rewrite H in E. Qed.

Lemma run_get {S K A} `{Countable K} (objects : S → gmap K A) (k : K) w :
  reliable_server →
  get_in objects k w =
  (match objects (state w) !! k with Some x => Ok x | None => Err NotFound end,
   IO (Datatypes.S (ticks w)) (state w)).
Proof.
  intros Hrel. unfold get_in, read, mbind, prog_bind. simpl. by rewrite Hrel.
Qed.

Lemma run_write_ok {S} (f : S → result api_error S) w c :
  reliable_server → f (state w) = Ok c →
  write f w = (Ok (), IO (Datatypes.S (ticks w)) c).
Proof.
  intros Hrel E. unfold write, mbind, prog_bind, get, tick, put. simpl.
  by rewrite Hrel, E.
Qed.

(** ** The desired spec *)

Lemma desired_well_formed oidc x id gw :
  well_formed (VMap (desired_spec r oidc x id gw)) = true.
Proof. destruct oidc, x; vm_compute; reflexivity. Qed.

(** The spec of a policy has all that is desired. *)
Definition up_to_date (spec : gomap) (ap : AuthPolicy) : Prop :=
  specMatchesDesired spec (get_map "spec" (a_Object ap)) = true.

(** The gateway of a tenant exists. *)
Definition gateway_exists (c : cluster) (gw : GatewayRef) : Prop :=
  is_tenant_gateway r gw = true → is_Some (gateways c !! (g_Namespace gw, g_Name gw)).

(** Objects of the server bind each key of a map once. *)
Definition well_formed_policy (ap : AuthPolicy) : Prop :=
  ∀ v, map_get "spec" (a_Object ap) = Some v → well_formed v = true.

(** What writing a policy leaves of the one there was. *)
Definition rewritten (old : option AuthPolicy) (ap : AuthPolicy) : Prop :=
  match old with
  | None => a_generation ap = 1%Z ∧ ∀ k, k ≠ "spec" → map_get k (a_Object ap) = None
  | Some old =>
      a_generation ap = (a_generation old + 1)%Z
      ∧ a_labels ap = a_labels old ∧ a_annotations ap = a_annotations old
      ∧ ∀ k, k ≠ "spec" → map_get k (a_Object ap) = map_get k (a_Object old)
  end.

(** What a call leaves behind: a policy that is up to date, and if there was
    nothing to write, nothing else. *)
Definition reconciled (spec : gomap) (gw : GatewayRef) (c : cluster)
    (x : result error bool) (w' : io cluster) : Prop :=
  ∃ b ap, x = Ok b
    ∧ auth_policies (state w') !! gateway_policy_key r gw = Some ap
    ∧ managed_auth ap ∧ well_formed_policy ap ∧ up_to_date spec ap
    ∧ state w' = set_auth_policies <[gateway_policy_key r gw := ap]> c
    ∧ if b then rewritten (auth_policies c !! gateway_policy_key r gw) ap
                ∧ ∀ old, auth_policies c !! gateway_policy_key r gw = Some old →
                    ¬ up_to_date spec old
      else auth_policies c !! gateway_policy_key r gw = Some ap.

Lemma create_gateway_run spec gw owner w :
  reliable_server → well_formed (VMap spec) = true →
  auth_policies (state w) !! gateway_policy_key r gw = None →
  reconciled spec gw (state w) (create_gateway_policy r spec gw owner w).1
    (create_gateway_policy r spec gw owner w).2.
Proof.
  intros Hrel Hwf E. unfold create_gateway_policy.
  destruct (SetNestedMap_get [] spec "spec") as (o & -> & Hspec & Hrest).
  rewrite run_then_ret. unfold create_auth.
  erewrite run_write_ok by (done || by rewrite E). cbn [fst snd state].
  eexists true, _. split; [done|]. split; [apply lookup_insert_eq|].
  split_and!; [done| | |done| |by rewrite E].
  - intros v. cbn [a_Object]. rewrite Hspec. by intros [= <-].
  - unfold up_to_date, get_map. cbn [a_Object]. rewrite Hspec. by apply specMatches_refl.
  - rewrite E. split; [done|]. intros k Hk. cbn. by rewrite Hrest.
Qed.

Lemma update_gateway_run spec gw owner ex w :
  reliable_server → well_formed (VMap spec) = true →
  auth_policies (state w) !! gateway_policy_key r gw = Some ex →
  managed_auth ex → well_formed_policy ex →
  reconciled spec gw (state w) (update_gateway_policy r spec gw owner ex w).1
    (update_gateway_policy r spec gw owner ex w).2.
Proof.
  intros Hrel Hwf E Hm Hex. unfold update_gateway_policy. rewrite Hm. cbn [negb].
  rewrite NestedMap_field.
  destruct (SetNestedMap_get (a_Object ex) spec "spec") as (o & -> & Hspec & Hrest).
  destruct (specMatchesDesired spec _) eqn:Hmatch.
  - exists false, ex. split_and!; try done.
    change (state w = set_auth_policies <[gateway_policy_key r gw := ex]> (state w)).
    unfold set_auth_policies. rewrite insert_id by done. by destruct (state w).
  - rewrite run_then_ret. unfold update_auth.
    erewrite run_write_ok by (done || by rewrite E). cbn [fst snd state].
    eexists true, _. split; [done|]. split; [apply lookup_insert_eq|].
    split_and!; [done| | |done| |].
    + intros v. cbn [a_Object]. rewrite Hspec. by intros [= <-].
    + unfold up_to_date, get_map. cbn [a_Object]. rewrite Hspec. by apply specMatches_refl.
    + rewrite E. cbn. split_and!; [|done..|by apply Hrest].
      rewrite Hspec. apply next_generation_changed.
      by apply specMatches_differs; [done..|].
    + intros old. rewrite E. intros [= <-] Hup. unfold up_to_date in Hup. congruence.
Qed.

Lemma reconcileGateway_run oidc x id gw w :
  reliable_server → gateway_exists (state w) gw →
  (∀ ap, auth_policies (state w) !! gateway_policy_key r gw = Some ap →
     managed_auth ap ∧ well_formed_policy ap) →
  reconciled (desired_spec r oidc x id gw) gw (state w)
    (reconcileGatewayAuthPolicy r oidc x id gw w).1
    (reconcileGatewayAuthPolicy r oidc x id gw w).2.
Proof.
  intros Hrel Hgw Hex. pose proof (desired_well_formed oidc x id gw) as Hwf.
  unfold reconcileGatewayAuthPolicy. cbv zeta. rewrite bind_run, run_get by done.
  cbn [fst snd].
  destruct (auth_policies (state w) !! gateway_policy_key r gw) as [ex|] eqn:E.
  - destruct (Hex ex eq_refl) as [Hm Hwex].
    destruct (is_tenant_gateway r gw) eqn:Ht.
    + destruct (Hgw Ht) as [uid Hu]. rewrite bind_run, run_get by done.
      cbn [fst snd state]. rewrite Hu.
      by apply (update_gateway_run (desired_spec r oidc x id gw) gw (Some (gw_UID uid)) ex
        (IO (Datatypes.S (Datatypes.S (ticks w))) (state w))).
    + by apply (update_gateway_run (desired_spec r oidc x id gw) gw None ex
        (IO (Datatypes.S (ticks w)) (state w))).
  - destruct (is_tenant_gateway r gw) eqn:Ht.
    + destruct (Hgw Ht) as [uid Hu]. rewrite bind_run, run_get by done.
      cbn [fst snd state]. rewrite Hu.
      by apply (create_gateway_run (desired_spec r oidc x id gw) gw (Some (gw_UID uid))
        (IO (Datatypes.S (Datatypes.S (ticks w))) (state w))).
    + by apply (create_gateway_run (desired_spec r oidc x id gw) gw None
        (IO (Datatypes.S (ticks w)) (state w))).
Qed.
End run.
