(* ===== verification/TenantConfigFacts.v ===== *)
(** What the platform's pipeline and the parts of a reconcile of a MaasTenantConfig
    do to the server, as weakest preconditions and as frames. *)
From S2P Require Import Prelude GoStrings GoTime Runtime Unstructured GoFmt MaasTypes Cluster.
From S2P Require Import ControllerHelpers ControllerFacts SubscriptionModelFacts TenantCluster.
From S2P Require Import GatewayAuthSpec AuthPolicyGateway AuthGatewayFacts AITenantParts AITenantFacts.
From S2P Require Import PlatformParams Platform TenantConfigController.
Import Infra Params Cluster Helpers Fmt GatewaySpec AuthGateway Platform ConfigController.

(** ** The part the other controllers see *)

Lemma put_back_seen w : put_back (seen w) w = w.
Proof. by destruct w as [[] ? ? ? ? ? ? ?]. Qed.

Lemma wp_on_cluster {A} (m : prog cluster A) Q w :
  wp m (λ x c', Q x (put_back c' w)) (seen w) → wp (on_cluster m) Q w.
Proof.
  intros H n. specialize (H n). unfold on_cluster, zoom. cbn [ticks state].
  destruct (m _) as [x [n' c']]. apply H.
Qed.

Lemma wp_on_cluster_reads {A} (m : prog cluster A) Q w :
  reads m Q → wp (on_cluster m) (λ x w', w' = w ∧ Q (seen w) x) w.
Proof.
  intros H. apply wp_on_cluster. eapply wp_mono; [by apply wp_reads|].
  intros x c' [-> HQ]. by rewrite put_back_seen.
Qed.

(** ** Frames *)

(** Only the resources change, those that pass a test; only what the others see. *)
Definition resources_step (F : rkey → Prop) (w w' : platform) : Prop :=
  w' = set_resources (λ _, w_resources w') w
  ∧ ∀ k, ¬ F k → w_resources w' !! k = w_resources w !! k.
Definition anywhere (k : rkey) : Prop := True.

#[global] Instance resources_step_refl F : Reflexive (resources_step F).
Proof. intros w. split; [by destruct w|done]. Qed.
#[global] Instance resources_step_trans F : Transitive (resources_step F).
Proof.
  intros w1 w2 w3 [E1 H1] [E2 H2]. split; [by rewrite E2, E1|].
  intros k Hk. by rewrite (H2 k Hk), (H1 k Hk).
Qed.
Lemma resources_step_mono (F F' : rkey → Prop) w w' :
  resources_step F w w' → (∀ k, F k → F' k) → resources_step F' w w'.
Proof. intros [E H] HF. split; [done|]. intros k Hk. apply H. auto. Qed.

(** Only AuthPolicies change. *)
Definition policies_step (c c' : cluster) : Prop :=
  c' = set_auth_policies (λ _, auth_policies c') c.
#[global] Instance policies_step_refl : Reflexive policies_step.
Proof. by intros []. Qed.
#[global] Instance policies_step_trans : Transitive policies_step.
Proof. intros c1 c2 c3 E1 E2. unfold policies_step in *. by rewrite E2, E1. Qed.

(** A configuration is as it was, its status apart. *)
Definition same_but_status (t t' : MaasTenantConfig) : Prop := t' = set_tc_Status (tc_Status t') t.

(** ** Calls *)

Section calls.
Context {srv : ApiServer} {lawful : LawfulApiServer} {psrv : PlatformServer}.

Lemma wp_read {A} (f : nat → platform → result api_error A) w :
  (∀ n e, f n w ≠ Err (Failure e)) →
  wp (read f) (λ x w', w' = w ∧
    match x with Err (Failure _) => unreliable | _ => ∃ n, f n w = x end) w.
Proof.
  intros Hf n. unfold read, mbind, prog_bind, get, tick. cbn. specialize (Hf n).
  destruct (api_fault n) as [[e b]|] eqn:E; cbn; (split; [done|]).
  - destruct (api_fault_failure _ _ _ E) as [msg ->]. exists n. by rewrite E.
  - destruct (f n w) as [|[]] eqn:F; [by eauto..|]. by destruct (Hf msg).
Qed.

Lemma wp_write (f : platform → result api_error platform) w :
  (∀ e, f w ≠ Err (Failure e)) →
  wp (write f) (λ x w',
    match x with
    | Ok _ => f w = Ok w'
    | Err (Failure _) => unreliable ∧ (w' = w ∨ f w = Ok w')
    | Err e => w' = w ∧ f w = Err e
    end) w.
Proof.
  intros Hf n. unfold write, mbind, prog_bind, get, tick, put. cbn.
  destruct (api_fault n) as [[e [|]]|] eqn:E.
  - destruct (api_fault_failure _ _ _ E) as [msg ->].
    assert unreliable by (exists n; by rewrite E). destruct (f w) eqn:F; cbn; eauto.
  - destruct (api_fault_failure _ _ _ E) as [msg ->].
    assert unreliable by (exists n; by rewrite E). cbn. eauto.
  - destruct (f w) as [w'|[]] eqn:F; cbn; try done. by destruct (Hf msg).
Qed.

Lemma wp_get_resource k w :
  wp (get_resource k) (λ x w', w' = w ∧
    match x with
    | Ok y => registered k.1 w = true ∧ w_resources w !! k = Some y
    | Err NotFound => registered k.1 w = true ∧ w_resources w !! k = None
    | Err NoMatch => registered k.1 w = false
    | Err (Failure _) => unreliable
    end) w.
Proof.
  eapply wp_mono; [apply wp_read|].
  { intros n e. by repeat case_match. }
  intros x w' [-> Hx]. split; [done|]. cbn beta in Hx.
  destruct (registered k.1 w), (w_resources w !! k) as [y|] eqn:E, x as [z|[]]; cbn in Hx;
    naive_solver.
Qed.

Lemma wp_delete_resource k w :
  wp (delete_resource k) (λ x w',
    match x with
    | Ok _ => w' = set_resources (partial_alter (λ o, o ≫= deleted) k) w
    | Err NotFound => w' = w ∧ registered k.1 w = true ∧ w_resources w !! k = None
    | Err NoMatch => w' = w ∧ registered k.1 w = false
    | Err (Failure _) => unreliable ∧ (w' = w ∨ w' = set_resources (partial_alter (λ o, o ≫= deleted) k) w)
    end) w.
Proof.
  eapply wp_mono; [apply wp_write|].
  { intros e. by repeat case_match. }
  intros x w' Hx. cbn beta in Hx.
  destruct (registered k.1 w), (w_resources w !! k) as [y|] eqn:E, x as [z|[]]; cbn in Hx;
    naive_solver.
Qed.

Lemma delete_resource_step (F : rkey → Prop) k w : F k →
  resources_step F w (set_resources (partial_alter (λ o, o ≫= deleted) k) w).
Proof.
  intros HF. split; [done|]. intros k' Hk. cbn. rewrite lookup_partial_alter_ne; [done|].
  by intros ->.
Qed.

Lemma wp_update_config_status ns st w :
  wp (update_config_status ns st) (λ x w',
    match x with
    | Ok _ => ∃ t, w_configs w !! ns = Some t
                   ∧ w' = set_configs <[ns := set_tc_Status st t]> w
    | Err (Failure _) => unreliable ∧ (w' = w ∨ ∃ t, w_configs w !! ns = Some t
                   ∧ w' = set_configs <[ns := set_tc_Status st t]> w)
    | Err NotFound => w' = w ∧ w_configs w !! ns = None
    | Err NoMatch => False
    end) w.
Proof.
  eapply wp_mono; [apply wp_write|].
  { intros e. by repeat case_match. }
  intros x w' Hx. cbn beta in Hx.
  destruct (w_configs w !! ns) as [t|] eqn:E, x as [z|[]]; naive_solver.
Qed.

Lemma wp_update_config_finalizers ns fs w :
  wp (update_config_finalizers ns fs) (λ x w', ∀ t, w_configs w !! ns = Some t →
    let w1 := set_configs (if tc_deleting t && (length fs =? 0) then delete ns
                           else <[ns := set_tc_Finalizers fs t]>) w in
    match x with
    | Ok _ => w' = w1
    | Err (Failure _) => unreliable ∧ (w' = w ∨ w' = w1)
    | Err _ => False
    end) w.
Proof.
  eapply wp_mono; [apply wp_write|].
  { intros e. by repeat case_match. }
  intros x w' Hx t E. cbn beta in Hx. rewrite E in Hx. destruct x as [z|[]]; naive_solver.
Qed.
End calls.

(** Walks through a program whose calls respect a frame. *)
Ltac in_frame tac := repeat first
  [ progress cbv zeta
  | solve [tac]
  | lazymatch goal with
    | |- respects _ (mret _) => apply respects_ret; apply _
    | |- respects _ (try_bind _ _) => apply respects_try; [apply _|apply _| |intros ?]
    | |- respects _ (_ ≫= _) => apply respects_bind; [apply _| |intros ?]
    | |- respects _ (in_context _ _) => apply respects_in_context
    end
  | case_match ].

(** ** What is there to apply *)

Section pipeline.
Context {api : ApiMachinery} {srv : ApiServer} {lawful : LawfulApiServer}.
Context {tsrv : TenantServer} {psrv : PlatformServer} {rnd : Renderer} {uni : Unicode}.

Lemma respects_get_resource (R : platform → platform → Prop) `{!Reflexive R} k :
  respects R (get_resource k).
Proof. apply respects_wp. intros w. eapply wp_mono; [apply wp_get_resource|]. by intros x w' [-> _]. Qed.
Lemma respects_on_cluster_reads {A} (R : platform → platform → Prop) `{!Reflexive R}
    (m : prog cluster A) Q : reads m Q → respects R (on_cluster m).
Proof.
  intros Hm. apply respects_wp. intros w. eapply wp_mono; [by apply wp_on_cluster_reads|].
  by intros x w' [-> _].
Qed.
Lemma respects_delete_resource (F : rkey → Prop) k : F k →
  respects (resources_step F) (delete_resource k).
Proof.
  intros HF. apply respects_write; [apply _|]. intros c c'.
  destruct (registered _ _); [|done]. destruct (w_resources c !! k); [|done].
  intros [= <-]. by apply delete_resource_step.
Qed.
Lemma respects_apply_resource (F : rkey → Prop) k x : F k →
  respects (resources_step F) (apply_resource k x).
Proof.
  intros HF. apply respects_write; [apply _|]. intros c c'.
  destruct (registered _ _); [|done]. intros [= <-]. split; [done|].
  intros k' Hk. cbn. rewrite lookup_partial_alter_ne; [done|]. by intros ->.
Qed.
Lemma respects_update_resource (F : rkey → Prop) k x : F k →
  respects (resources_step F) (update_resource k x).
Proof.
  intros HF. apply respects_write; [apply _|]. intros c c'.
  destruct (w_resources c !! k); [|done]. intros [= <-]. split; [done|].
  intros k' Hk. cbn. rewrite lookup_insert_ne; [done|]. by intros ->.
Qed.

Ltac resource_frame := in_frame ltac:(first
  [ by apply respects_get_resource; apply _
  | by apply respects_delete_resource
  | by apply respects_apply_resource
  | by apply respects_update_resource
  | by eapply respects_on_cluster_reads, get_in_reads ]).

Lemma cleanupPayloadProcessingHPA_frame p :
  respects (resources_step anywhere) (cleanupPayloadProcessingHPA p).
Proof. unfold cleanupPayloadProcessingHPA, unless_missing. 
 resource_frame.
Qed.

Lemma retry_frame F n m : respects (resources_step F) m →
  respects (resources_step F) (retry_on_conflict n m).
Proof. intros Hm. induction n; cbn [retry_on_conflict]; resource_frame; done. Qed.

Lemma syncMaaSParameters_frame ns p :
  respects (resources_step anywhere) (syncMaaSParametersConfigMap ns p).
Proof.
  unfold syncMaaSParametersConfigMap. resource_frame. apply retry_frame. resource_frame.
Qed.

Lemma apply_one_frame ns t app mcfg k u :
  respects (resources_step (λ k', k' = k)) (apply_one ns t app mcfg k u).
Proof.
  unfold apply_one, isLiveResourceUnmanaged, isOwnedByExternalController,
    preparePayloadProcessingPluginsConfigMapApply, live_resource. resource_frame.
Qed.

Lemma apply_all_frame ns t app mcfg objs :
  respects (resources_step (λ k, k ∈ objs.*1)) (apply_all ns t app mcfg objs).
Proof.
  induction objs as [|[k u] objs IH]; cbn [apply_all]; [apply respects_ret; apply _|].
  apply respects_try; [apply _..| |].
  - intros w. eapply resources_step_mono; [apply apply_one_frame|]. intros k' ->. by left.
  - intros x w. eapply resources_step_mono; [apply IH|]. intros k' Hk. by right.
Qed.

Lemma ApplyRendered_frame ns t app mcfg objs :
  respects (resources_step anywhere) (ApplyRendered ns t app mcfg objs).
Proof.
  unfold ApplyRendered. case_match; [apply respects_ret; apply _|].
  intros w. eapply resources_step_mono; [apply apply_all_frame|done].
Qed.

Lemma kuadrant_frame ns name : respects eq (gatewayHasKuadrantWasmAuth ns name).
Proof. unfold gatewayHasKuadrantWasmAuth. resource_frame. Qed.

(** ** Availability *)

(** The Deployment has seen its latest spec, and as many of its replicas as are
    wanted run it and are available. *)
Definition all_replicas_up (dep : resource) : Prop :=
  let desired := default 1%Z (get_map "spec" (rs_Object dep) ≫= get_int64 "replicas") in
  let reported := count_at (rs_Object dep) "status" in
  (rs_Generation dep <= reported "observedGeneration")%Z
  ∧ (desired <= reported "updatedReplicas")%Z ∧ (desired <= reported "availableReplicas")%Z.

(** The EnvoyFilter comes after Kuadrant's and selects the pods of the Gateway. *)
Definition selects_gateway (gatewayName : string) (ef : resource) : Prop :=
  (∃ p, found (NestedInt64 (rs_Object ef) ["spec"; "priority"]) = Some p
        ∧ (PayloadProcessingEnvoyFilterPriority <= p)%Z)
  ∧ ∃ labels, found (NestedStringMap (rs_Object ef) ["spec"; "workloadSelector"; "labels"])
                = Some labels ∧ labels !! gatewayNameLabel = Some gatewayName.

(** What a tenant needs to be served: its API is up, and its Gateway sends requests
    through its processing. *)
Definition served (s : PlatformSettings) (gw : GatewayRef) (id : string) (w : platform) : Prop :=
  (∃ dep, w_resources w !! ("Deployment", (pl_AppNamespace s, MaaSAPIDeploymentName id)) = Some dep
          ∧ all_replicas_up dep)
  ∧ ∃ ef, w_resources w !! ("EnvoyFilter", (g_Namespace gw, PayloadProcessingDeploymentName id))
          = Some ef ∧ selects_gateway (g_Name gw) ef.

Lemma rolled_out_up dep : (rolled_out dep).1 = true → all_replicas_up dep.
Proof.
  unfold rolled_out, all_replicas_up. set (desired := default _ _).
  destruct (Z.ltb_spec (count_at (rs_Object dep) "status" "observedGeneration") (rs_Generation dep)); [done|].
  destruct (Z.ltb_spec (count_at (rs_Object dep) "status" "updatedReplicas") desired); [done|].
  destruct (Z.ltb_spec (count_at (rs_Object dep) "status" "availableReplicas") desired); [done|].
  intros _. auto.
Qed.

Lemma filter_wired_selects name gw ef b :
  gw ≠ "" → filter_wired name gw (rs_Object ef) = Ok b → b.1 = true → selects_gateway gw ef.
Proof.
  unfold filter_wired, selects_gateway. intros Hgw H Hb.
  destruct (NestedInt64 _ _) as [p| |e]; [|by injection H as <-|done].
  cbn [found] in H. destruct (Z.ltb_spec p PayloadProcessingEnvoyFilterPriority); [by injection H as <-|].
  split; [by exists p|].
  destruct (NestedStringMap _ _) as [labels| |e]; [| |done].
  - exists labels. split; [done|]. cbn [found] in H. unfold at_key in H.
    change (default ∅ (Some labels)) with labels in H.
    destruct (labels !! gatewayNameLabel) as [got|] eqn:El.
    2: { rewrite bool_decide_eq_true_2 in H by done. injection H as <-. discriminate Hb. }
    destruct (bool_decide_reflect (default "" (Some got) = "")); [injection H as <-; discriminate Hb|].
    destruct (bool_decide_reflect (default "" (Some got) = gw)) as [Eg|Eg];
      [by rewrite <-Eg|injection H as <-; discriminate Hb].
  - cbn [found] in H. rewrite bool_decide_eq_true_2 in H by done. injection H as <-. discriminate Hb.
Qed.

Lemma availability_spec s ns t p w : p_GatewayName p ≠ "" →
  wp (availability s ns t p) (λ x w', w' = w ∧ ∀ run, x = Ok run →
    run_Warnings run = p_Warnings p ∧
    (DeploymentPending run = false → ∃ id, TenantIdentifierFor ns (tenant_meta t) = Ok id
       ∧ served s (mkGateway (p_GatewayName p) (p_GatewayNamespace p)) id w)) w.
Proof.
  intros Hgw. unfold availability. apply wp_try, wp_ret.
  destruct (TenantIdentifierFor _ _) as [id|e]; cbn [rendered]; [|done].
  apply wp_try, wp_bind. unfold MaasAPIDeploymentReady. apply wp_bind.
  eapply wp_mono; [apply wp_get_resource|]. intros dep ? [-> Hdep].
  apply wp_ret, wp_ret.
  destruct dep as [dep|[]]; cbn beta iota; [| |done..].
  2: { apply wp_ret. split; [done|]. by intros run [= <-]. }
  destruct (rolled_out dep) as [up detail] eqn:E. destruct up; cbn [negb fst].
  2: { apply wp_ret. split; [done|]. by intros run [= <-]. }
  apply wp_try, wp_bind. unfold PayloadProcessingEnvoyFilterReady. apply wp_bind.
  eapply wp_mono; [apply wp_get_resource|]. intros ef ? [-> Hef].
  apply wp_ret, wp_ret.
  destruct ef as [ef|[]]; cbn beta iota; [| |done..].
  2: { apply wp_ret. split; [done|]. by intros run [= <-]. }
  destruct (filter_wired _ _ _) as [wired|e] eqn:Ew; [|done].
  destruct wired.1 eqn:Eb; cbn [negb]; apply wp_ret; (split; [done|]); intros run [= <-]; [|done].
  split; [done|]. intros _. exists id. split; [done|]. split.
  - exists dep. split; [apply Hdep|]. apply rolled_out_up. by rewrite E.
  - exists ef. split; [apply Hef|]. by eapply filter_wired_selects.
Qed.

Lemma BuildPlatformParams_gateway env ns m spec context app ctl aud mon p :
  BuildPlatformParams env ns m spec context app ctl aud mon = Ok p →
  mkGateway (p_GatewayName p) (p_GatewayNamespace p) = pc_GatewayRef context.
Proof.
  unfold BuildPlatformParams. destruct (TenantIdentifierFor _ _) as [id|]; [|done].
  destruct (resolveReplicaAnnotations _) as [[n1 n2] ws], (resolveMaasAPIConfig _),
    (clamp_max _ _ _).
  intros [= <-]. cbn. by destruct (pc_GatewayRef context).
Qed.

(** The Gateway of the context is there. *)
Definition gateway_there (gw : GatewayRef) (w : platform) : Prop :=
  is_Some (gateways (w_cluster w) !! (g_Namespace gw, g_Name gw)).

Lemma wp_get_gateway k w :
  wp (on_cluster (get_in gateways k)) (λ x w', w' = w ∧
    match x with
    | Ok _ => is_Some (gateways (w_cluster w) !! k)
    | Err NotFound => gateways (w_cluster w) !! k = None
    | Err NoMatch => False
    | Err (Failure _) => unreliable
    end) w.
Proof.
  eapply wp_mono; [eapply wp_on_cluster_reads, get_in_reads|].
  intros [x|[]] w' [-> Hx]; by split; [|eauto].
Qed.

Lemma render_spec s ns t context w :
  wp (render s ns t context) (λ x w', w' = w ∧ ∀ params resources, x = Ok (params, resources) →
    mkGateway (p_GatewayName params) (p_GatewayNamespace params) = pc_GatewayRef context
    ∧ p_GatewayName params ≠ "" ∧ gateway_there (pc_GatewayRef context) w) w.
Proof.
  unfold render. cbv zeta. apply wp_try, wp_ret.
  destruct (filepath_Abs _) as [path|e]; cbn [rendered]; [|done].
  destruct (0 <? _); [by apply wp_ret|].
  destruct (bool_decide_reflect (g_Namespace (pc_GatewayRef context) = "")); [by apply wp_ret|].
  destruct (bool_decide_reflect (g_Name (pc_GatewayRef context) = "")) as [|Hname];
    [by apply wp_ret|]. cbn [orb].
  apply wp_bind. eapply wp_mono; [apply wp_get_gateway|]. intros gw ? [-> Hgw].
  destruct gw as [gw|[]]; [|by apply wp_ret..].
  apply wp_try, wp_ret.
  destruct (BuildPlatformParams _ _ _ _ _ _ _ _ _) as [p|e] eqn:Ep; cbn [rendered]; [|done].
  apply BuildPlatformParams_gateway in Ep.
  apply wp_bind. eapply wp_mono; [apply (wp_respects eq), kuadrant_frame|].
  intros [wasm|e] ? <-; [|by apply wp_ret].
  apply wp_try, wp_ret. destruct (RenderKustomize _ _) as [objs|e]; cbn [rendered]; [|done].
  apply wp_try, wp_ret. destruct (PostRender _ _ _ _) as [out|e]; cbn [rendered]; [|done].
  apply wp_ret. split; [done|]. intros params resources [= <- <-].
  split; [done|]. split; [|done]. cbn. intros He. by rewrite <-Ep in Hname.
Qed.

Lemma wp_wrap {A} context (m : pprog A) (Q : result error A → platform → Prop) w :
  wp m (λ x, Q match x with Ok a => Ok a | Err e => Err (In context e) end) w →
  wp (wrap context m) Q w.
Proof. intros H. apply wp_bind. eapply wp_mono; [exact H|]. intros x c' Hx. by apply wp_ret. Qed.

(** The pipeline touches resources only, and reports that all is up only when it is. *)
Lemma RunPlatform_spec s ns t context mcfg w :
  wp (RunPlatform s ns t context mcfg) (λ x w', resources_step anywhere w w' ∧ ∀ run, x = Ok run →
    DeploymentPending run = false → ∃ id, TenantIdentifierFor ns (tenant_meta t) = Ok id
      ∧ served s (pc_GatewayRef context) id w' ∧ gateway_there (pc_GatewayRef context) w') w.
Proof.
  unfold RunPlatform. apply wp_try. eapply wp_mono; [apply render_spec|].
  intros [[params resources]|e] ? [-> Hr]; [|done].
  destruct (Hr params resources eq_refl) as (Egw & Hname & Hthere).
  apply wp_try, wp_wrap. eapply wp_mono; [apply (wp_respects (resources_step anywhere)),
    cleanupPayloadProcessingHPA_frame|]. intros [[]|e] w1 H1; [|by split].
  apply wp_try, wp_wrap. eapply wp_mono; [apply (wp_respects (resources_step anywhere)),
    ApplyRendered_frame|]. intros [[]|e] w2 H2; [|by split; [etrans|]].
  apply wp_try, wp_wrap. eapply wp_mono; [apply (wp_respects (resources_step anywhere)),
    syncMaaSParameters_frame|]. intros [[]|e] w3 H3; [|by split; [do 2 (etrans; [done|])|]].
  assert (resources_step anywhere w w3) as H by by do 2 (etrans; [done|]).
  eapply wp_mono; [by apply availability_spec|]. intros x ? [-> Hx]. split; [done|].
  intros run -> Hp. destruct (proj2 (Hx run eq_refl) Hp) as (id & Eid & Hs). rewrite Egw in Hs.
  exists id. split; [done|]. split; [done|]. unfold gateway_there. by rewrite (proj1 H).
Qed.
End pipeline.

(** ** The parts of a reconcile *)

(** What is neither a configuration, a resource nor an AuthPolicy stays. *)
Definition quiet (w w' : platform) : Prop :=
  policies_step (w_cluster w) (w_cluster w') ∧ w_secrets w' = w_secrets w ∧ w_kinds w' = w_kinds w.

#[global] Instance quiet_refl : Reflexive quiet.
Proof. intros w. by split. Qed.
#[global] Instance quiet_trans : Transitive quiet.
Proof.
  intros w1 w2 w3 (P1 & S1 & K1) (P2 & S2 & K2). split; [by etrans|]. by rewrite S2, S1, K2, K1.
Qed.
Lemma resources_quiet F w w' : resources_step F w w' → quiet w w'.
Proof. intros [-> _]. done. Qed.

(** Only the configuration of a namespace changes. *)
Definition config_step (ns : string) (w w' : platform) : Prop :=
  w' = set_configs (λ _, w_configs w') w
  ∧ ∀ ns', ns' ≠ ns → w_configs w' !! ns' = w_configs w !! ns'.
#[global] Instance config_step_refl ns : Reflexive (config_step ns).
Proof. intros w. by split; [destruct w|]. Qed.
#[global] Instance config_step_trans ns : Transitive (config_step ns).
Proof.
  intros w1 w2 w3 [E1 H1] [E2 H2]. split; [by rewrite E2, E1|].
  intros ns' Hne. by rewrite (H2 _ Hne), (H1 _ Hne).
Qed.
Lemma config_quiet ns w w' : config_step ns w w' → quiet w w'.
Proof. intros [-> _]. done. Qed.

Section controller.
Context {api : ApiMachinery} {srv : ApiServer} {lawful : LawfulApiServer}.
Context {tsrv : TenantServer} {psrv : PlatformServer} {rnd : Renderer} {uni : Unicode}.
Context (r : TenantReconciler).

(** A configuration says that its platform is up. *)
Definition is_ready (t : MaasTenantConfig) : bool :=
  IsStatusConditionTrue (cf_Conditions (tc_Status t)) ReadyConditionType.

Lemma is_ready_set s reason message t :
  is_ready (setTenantCondition ReadyConditionType s reason message t) = (s == "True").
Proof.
  unfold is_ready, IsStatusConditionTrue, setTenantCondition. cbn [tc_Status set_tc_Status cf_Conditions].
  match goal with |- context [set_condition _ ?c] =>
    change ReadyConditionType with (V1.c_Type c) at 1 end.
  by rewrite find_set_condition.
Qed.

(** The configuration is the one that was there, but for its finalizers and its
    status, which is the one it had or does not say that the platform is up. *)
Definition stale (ns : string) (t : MaasTenantConfig) (w : platform) : Prop :=
  ∃ t', w_configs w !! ns = Some t' ∧ tc_Labels t' = tc_Labels t
        ∧ tc_Annotations t' = tc_Annotations t
        ∧ (tc_Status t' = tc_Status t ∨ is_ready t' = false).

Lemma stale_configs ns t w w' : stale ns t w → w_configs w' = w_configs w → stale ns t w'.
Proof. intros (t' & E & H) E'. exists t'. by rewrite E'. Qed.

Lemma wp_not_ready ns t0 t w : stale ns t0 w → is_ready t = false →
  wp (update_config_status ns (tc_Status t)) (λ x w', stale ns t0 w' ∧ config_step ns w w'
    ∧ ∀ e, x = Err e → unreliable) w.
Proof.
  intros (t1 & E & El & Ea & Hs) Hr. eapply wp_mono; [apply wp_update_config_status|].
  assert (∀ t2, w_configs w !! ns = Some t2 →
    let w' := set_configs <[ns := set_tc_Status (tc_Status t) t2]> w in
    stale ns t0 w' ∧ config_step ns w w') as Hset.
  { intros t2 E2. rewrite E in E2. injection E2 as <-. split.
    - eexists. split; [cbn; apply lookup_insert_eq|]. split; [done|]. split; [done|]. by right.
    - split; [done|]. intros ns' Hne. cbn. by rewrite lookup_insert_ne. }
  assert (stale ns t0 w ∧ config_step ns w w) as Hsame by (split; [by exists t1|done]).
  intros [[]|[]] w' Hx.
  - destruct Hx as (t2 & E2 & ->). destruct (Hset t2 E2). by split_and!.
  - destruct Hx as [_ Hx]. congruence.
  - done.
  - destruct Hx as [Hu [->|(t2 & E2 & ->)]].
    + destruct Hsame. by split_and!.
    + destruct (Hset t2 E2). by split_and!.
Qed.

Lemma wp_patchStatus ns t0 t phase reason message w : stale ns t0 w →
  wp (patchStatus ns t phase "False" reason message) (λ x w', stale ns t0 w' ∧ config_step ns w w'
    ∧ ∀ e, x = Err e → unreliable) w.
Proof. intros H. unfold patchStatus. apply wp_not_ready; [done|]. apply is_ready_set. Qed.

(** A step that records a status returns, unless a call has failed. *)
Lemma wp_recorded ns t0 t phase reason message again w : stale ns t0 w →
  wp (recorded ns t phase "False" reason message again) (λ x w', stale ns t0 w' ∧ config_step ns w w'
    ∧ (x.1 = None → unreliable)) w.
Proof.
  intros H. apply wp_bind. eapply wp_mono; [by apply wp_patchStatus|].
  intros [x|e] w' (H1 & H2 & H3); apply wp_ret; split_and!; try done. intros _. by eapply H3.
Qed.

Definition driven (t : MaasTenantConfig) : Prop :=
  managementState t = "" ∨ managementState t = managementStateManaged
  ∨ managementState t = managementStateRemoved.

Lemma handleManagementState_spec ns t0 t w : stale ns t0 w →
  wp (handleManagementState ns t) (λ x w', stale ns t0 w' ∧ config_step ns w w'
    ∧ tc_Labels x.1 = tc_Labels t ∧ tc_Annotations x.1 = tc_Annotations t
    ∧ (x.2.1 = None → driven t ∨ unreliable)) w.
Proof.
  intros H. unfold handleManagementState, driven. cbv zeta.
  destruct (bool_decide_reflect (managementState t = managementStateUnmanaged)) as [E|E].
  { apply wp_bind, wp_bind. eapply wp_mono; [by apply wp_patchStatus|].
    intros x w' (H1 & H2 & _). apply wp_ret, wp_ret. split_and!; try done. }
  destruct (bool_decide_reflect (managementState t = "")) as [E1|E1]; cbn [negb andb].
  { apply wp_ret. split_and!; auto. done. }
  destruct (bool_decide_reflect (managementState t = managementStateManaged)) as [E2|E2]; cbn [negb andb].
  { apply wp_ret. split_and!; auto. done. }
  destruct (bool_decide_reflect (managementState t = managementStateRemoved)) as [E3|E3]; cbn [negb andb].
  { apply wp_ret. split_and!; auto. done. }
  apply wp_bind. eapply wp_mono; [by apply wp_recorded|].
  intros x w' (H1 & H2 & H3). apply wp_ret. split_and!; try done. intros Hx. right. by apply H3.
Qed.

Lemma readyConfigOrWait_spec ns t0 t w : stale ns t0 w →
  wp (readyConfigOrWait ns t) (λ x w', stale ns t0 w' ∧ config_step ns w w'
    ∧ (is_Some x.1 → w' = w ∧ x.2 = (None, None))) w.
Proof.
  intros H. unfold readyConfigOrWait. cbv zeta. apply wp_bind. eapply wp_mono; [apply wp_read|].
  { intros n e. by case_match. }
  intros anchor ? [-> _].
  assert (∀ reason message again,
    wp (e ← recorded ns t "Pending" "False" reason message again; mret (@None Config, e))
      (λ x w', stale ns t0 w' ∧ config_step ns w w' ∧ (is_Some x.1 → w' = w ∧ x.2 = (None, None))) w)
    as Hwait.
  { intros reason message again. apply wp_bind. eapply wp_mono; [by apply wp_recorded|].
    intros x w' (H1 & H2 & _). apply wp_ret. split_and!; try done. by intros []. }
  destruct anchor as [ct|[]]; [|apply Hwait|apply wp_ret; by split_and!; [| |intros []]..].
  destruct (an_deleting ct); [apply Hwait|]. destruct (an_UID ct == ""); [apply Hwait|].
  apply wp_ret. by split_and!.
Qed.

Lemma validateGateway_spec ns t0 t mcfg w : stale ns t0 w →
  wp (validateGateway r ns t mcfg) (λ x w', stale ns t0 w' ∧ config_step ns w w'
    ∧ ∀ mcfg' context, x.1 = Some (mcfg', context) →
        x.2 = (None, None) ∧ w' = w
        ∧ platform_context (helper_settings r) (seen w) (tenant_meta t) None = Some context) w.
Proof.
  intros H. unfold validateGateway. apply wp_bind.
  eapply wp_mono; [apply wp_on_cluster_reads, platform_reads|]. intros context ? [-> Hc].
  assert (∀ phase reason message again,
    wp (x ← recorded ns t phase "False" reason message again;
        mret (@None (Config * PlatformContext), x))
      (λ x w', stale ns t0 w' ∧ config_step ns w w' ∧ ∀ mcfg' context, x.1 = Some (mcfg', context) →
        x.2 = (None, None) ∧ w' = w
        ∧ platform_context (helper_settings r) (seen w) (tenant_meta t) None = Some context) w)
    as Hfail.
  { intros phase reason message again. apply wp_bind. eapply wp_mono; [by apply wp_recorded|].
    intros x w' (H1 & H2 & _). apply wp_ret. by split_and!. }
  destruct context as [context|e]; [|apply Hfail]. cbv zeta.
  unfold validateGatewayExists. cbv zeta. apply wp_bind, wp_bind.
  eapply wp_mono; [apply wp_get_gateway|]. intros gw ? [-> _]. apply wp_ret.
  destruct gw as [gw|[]]; [|apply Hfail..].
  destruct (_ == ""); [apply Hfail|]. apply wp_ret. split_and!; [done..|].
  intros mcfg' context' [= <- <-]. by split_and!; [| |apply Hc].
Qed.

Lemma validateConfigAndGateway_spec ns t0 t w : stale ns t0 w →
  wp (validateConfigAndGateway r ns t) (λ x w', stale ns t0 w' ∧ config_step ns w w'
    ∧ ∀ mcfg context, x.1 = Some (mcfg, context) →
        x.2 = (None, None) ∧ w' = w ∧ managementState t ≠ managementStateRemoved
        ∧ platform_context (helper_settings r) (seen w) (tenant_meta t) None = Some context) w.
Proof.
  intros H. apply wp_bind. eapply wp_mono; [by apply readyConfigOrWait_spec|].
  intros [[mcfg|] e] w1 (H1 & H2 & H3); [|apply wp_ret; by split_and!].
  destruct (H3 ltac:(by eexists)) as [-> _].
  destruct (bool_decide_reflect (managementState t = managementStateRemoved)) as [E|E].
  - apply wp_bind. eapply wp_mono; [by apply wp_recorded|]. intros x w' (G1 & G2 & _).
    apply wp_ret. by split_and!.
  - eapply wp_mono; [by apply validateGateway_spec|]. intros x w' (G1 & G2 & G3).
    split_and!; [done..|]. intros mcfg' context Hx. destruct (G3 _ _ Hx) as (? & ? & ?). by split_and!.
Qed.

(** What a platform needs. *)
Definition prerequisites_met (w : platform) : Prop :=
  registered "AuthConfig" w = true
  ∧ ∃ data, w_secrets w !! (appNamespaceForTenant r, MaaSDBSecretName) = Some data
            ∧ TrimSpace (at_key data MaaSDBSecretKey) ≠ "".

Lemma CheckDependencies_spec w :
  wp CheckDependencies (λ x w', w' = w ∧ (x = Ok () → registered "AuthConfig" w = true)) w.
Proof.
  unfold CheckDependencies. apply wp_try, wp_bind. unfold IsGVKAvailable.
  eapply wp_mono; [by apply wp_read|]. intros x ? [-> Hx]. apply wp_ret.
  destruct x as [b|e]; [|done]. destruct Hx as [n [= <-]].
  apply wp_ret. by destruct (registered _ _).
Qed.

Lemma respects_read {A} (R : platform → platform → Prop) `{!Reflexive R}
    (f : nat → platform → result api_error A) : respects R (read f).
Proof.
  intros w. unfold read, mbind, prog_bind, get, tick. cbn. by destruct (api_fault _) as [[]|].
Qed.

Lemma checkDatabaseSecret_spec app w :
  wp (checkDatabaseSecret app) (λ x w', w' = w ∧ (x = "" →
    ∃ data, w_secrets w !! (app, MaaSDBSecretName) = Some data
            ∧ TrimSpace (at_key data MaaSDBSecretKey) ≠ "")) w.
Proof.
  unfold checkDatabaseSecret. apply wp_bind. eapply wp_mono; [apply wp_reads, get_in_reads|].
  intros x ? [-> Hx]. apply wp_ret. split; [done|]. destruct x as [data|[]]; [|done..].
  destruct (bool_decide_reflect (TrimSpace (at_key data MaaSDBSecretKey) = "")); [done|]. eauto.
Qed.

Lemma CollectPrerequisiteReport_spec app w :
  wp (CollectPrerequisiteReport app) (λ x w', w' = w ∧ (length (Blocking x) = 0 →
    ∃ data, w_secrets w !! (app, MaaSDBSecretName) = Some data
            ∧ TrimSpace (at_key data MaaSDBSecretKey) ≠ "")) w.
Proof.
  unfold CollectPrerequisiteReport. apply wp_bind.
  eapply wp_mono; [apply (wp_respects eq)|].
  { unfold checkAuthorinoTLS, IsGVKAvailable, list_resources.
    in_frame ltac:(by apply respects_read; apply _). }
  intros tls ? <-. apply wp_bind. eapply wp_mono; [apply checkDatabaseSecret_spec|].
  intros db ? [-> Hdb]. apply wp_bind. eapply wp_mono; [apply (wp_respects eq)|].
  { unfold checkDSCIMonitoring, list_resources.
    in_frame ltac:(by apply respects_read; apply _). }
  intros mon ? <-. apply wp_ret. split; [done|]. cbn [Blocking]. unfold reported.
  destruct (bool_decide_reflect (db = "")); [auto|done].
Qed.

Lemma setTenantCondition_keeps typ s reason message t :
  tc_Labels (setTenantCondition typ s reason message t) = tc_Labels t
  ∧ tc_Annotations (setTenantCondition typ s reason message t) = tc_Annotations t.
Proof. done. Qed.

Lemma prerequisite_conditions_keep rep t :
  tc_Labels (setPrerequisiteConditionsFromReport rep t) = tc_Labels t
  ∧ tc_Annotations (setPrerequisiteConditionsFromReport rep t) = tc_Annotations t.
Proof. unfold setPrerequisiteConditionsFromReport. by repeat case_match. Qed.

Lemma checkDependencies_spec ns t0 t w : stale ns t0 w →
  wp (checkDependenciesAndPrerequisites r ns t) (λ x w', stale ns t0 w' ∧ config_step ns w w'
    ∧ tc_Labels x.1.1 = tc_Labels t ∧ tc_Annotations x.1.1 = tc_Annotations t
    ∧ (x.2.1 = None → prerequisites_met w' ∨ unreliable)) w.
Proof.
  intros H. unfold checkDependenciesAndPrerequisites. apply wp_bind.
  eapply wp_mono; [apply CheckDependencies_spec|]. intros [[]|e] ? [-> Hd]; cbv zeta.
  2: { apply wp_bind. eapply wp_mono; [by apply wp_recorded|].
    intros x w' (H1 & H2 & H3). apply wp_ret. split_and!; try done. intros Hx. right. by apply H3. }
  apply wp_bind. eapply wp_mono; [apply CollectPrerequisiteReport_spec|]. intros rep ? [-> Hrep].
  destruct (prerequisite_conditions_keep rep (setDependenciesCondition true "" t)) as [Kl Ka].
  destruct (Nat.ltb_spec 0 (length (Blocking rep))) as [Hb|Hb].
  - apply wp_bind. eapply wp_mono; [apply wp_not_ready; [done|by apply is_ready_set]|].
    intros [x|e] w' (H1 & H2 & H3); apply wp_ret; split_and!; try done.
    intros _. right. by eapply H3.
  - apply wp_ret. split_and!; try done. intros _. left. split; [by apply Hd|]. apply Hrep. lia.
Qed.

Lemma delete_auth_policies k : respects policies_step (delete_auth k).
Proof.
  apply respects_write; [apply _|]. intros c c'. destruct (auth_policies c !! k); [|done].
  by intros [= <-].
Qed.

Lemma ensureBase_policies (a : AuthReconciler) oidc x id gw :
  respects policies_step (ensureBaseGatewayAuthPolicy a oidc x id gw).
Proof.
  unfold ensureBaseGatewayAuthPolicy, deleteLegacyGatewayDefaultAuthPolicy.
  in_frame ltac:(first
    [ by eapply respects_reads, get_in_reads; apply _
    | by apply delete_auth_policies
    | by intros w; apply (reconcileGateway_effect a) ]).
Qed.

Lemma respects_on_cluster {A} (m : prog cluster A) :
  respects policies_step m →
  respects (λ w w', quiet w w' ∧ w_configs w' = w_configs w ∧ w_resources w' = w_resources w)
    (on_cluster m).
Proof.
  intros Hm. apply respects_wp. intros w. apply wp_on_cluster.
  eapply wp_mono; [by apply (wp_respects policies_step)|]. intros x c' E. cbn beta in E. split_and!; [|done..].
  split_and!; [|done..]. unfold policies_step in *. rewrite E. cbn. by destruct (w_cluster w).
Qed.

Lemma ensureGatewayManagementAuth_frame ns t :
  respects (λ w w', quiet w w' ∧ w_configs w' = w_configs w ∧ w_resources w' = w_resources w)
    (ensureGatewayManagementAuth r ns t).
Proof.
  set (R := λ w w' : platform, _).
  assert (Reflexive R) by (intros w; by split).
  assert (Transitive R).
  { intros w1 w2 w3 (Q1 & C1 & R1) (Q2 & C2 & R2). split; [by etrans|]. by rewrite C2, C1, R2, R1. }
  unfold ensureGatewayManagementAuth.
  in_frame ltac:(first
    [ by eapply respects_on_cluster_reads; [apply _|eapply fetchGatewayInfo_reads]
    | by eapply respects_on_cluster_reads; [apply _|eapply fetchOIDCConfig_reads]
    | by eapply respects_on_cluster_reads; [apply _|eapply discover_reads]
    | by apply respects_on_cluster, ensureBase_policies ]).
Qed.

Lemma reconcilePlatform_spec ns t0 t context mcfg w : stale ns t0 w →
  wp (reconcilePlatform r ns t context mcfg) (λ x w', stale ns t0 w' ∧ quiet w w'
    ∧ (is_Some x.1 → ∃ id, TenantIdentifierFor ns (tenant_meta t) = Ok id
         ∧ served (tr_Platform r) (pc_GatewayRef context) id w'
         ∧ gateway_there (pc_GatewayRef context) w')) w.
Proof.
  intros H. unfold reconcilePlatform. apply wp_bind. eapply wp_mono; [apply RunPlatform_spec|].
  intros run w1 [H1 Hrun].
  assert (stale ns t0 w1) as Hs1 by (eapply stale_configs; [done|by rewrite (proj1 H1)]).
  assert (quiet w w1) as Hq1 by by eapply resources_quiet.
  destruct run as [run|e]; cbv zeta.
  2: { apply wp_bind. eapply wp_mono; [by apply wp_recorded|]. intros x w2 (G1 & G2 & _).
    apply wp_ret. split_and!; [done| |by intros []]. etrans; [done|]. by eapply config_quiet. }
  apply wp_bind. eapply wp_mono; [apply wp_respects, ensureGatewayManagementAuth_frame|].
  intros auth w2 (Hq2 & Hc2 & Hr2).
  assert (stale ns t0 w2) as Hs2 by by eapply stale_configs.
  assert (quiet w w2) as Hq by by etrans.
  destruct auth as [[]|e]; [|apply wp_ret; split_and!; [done..|by intros []]].
  destruct (DeploymentPending run) eqn:Ep.
  - apply wp_bind. eapply wp_mono; [apply wp_not_ready; [done|by apply is_ready_set]|].
    intros x w3 (G1 & G2 & _). apply wp_ret. split_and!; [done| |by intros []].
    etrans; [done|]. by eapply config_quiet.
  - apply wp_ret. split_and!; [done..|]. intros _. destruct (Hrun run eq_refl Ep) as (id & Eid & Hs & Hg).
    exists id. split; [done|]. split.
    + unfold served in *. by rewrite Hr2.
    + unfold gateway_there in *. destruct Hq2 as (P & _). unfold policies_step in P. by rewrite P.
Qed.

(** The cleanup of earlier versions removes resources of the controller's
    namespace when that is not the applications'. *)
Definition legacy_resource (k : rkey) : Prop :=
  k.2.1 ∈ legacyNamespaces r ∧ k.1 ≠ "EnvoyFilter".

Lemma cleanupLegacy_frame :
  respects (resources_step legacy_resource) (cleanupLegacyMaaSAPIDeployment r).
Proof.
  unfold cleanupLegacyMaaSAPIDeployment.
  assert (∀ l, (∀ ns, ns ∈ l → ns ∈ legacyNamespaces r) →
    respects (resources_step legacy_resource) (cleanup_legacy l)) as H; [|by apply H].
  induction l as [|ns l IH]; intros Hl; cbn [cleanup_legacy]; [apply respects_ret; apply _|].
  assert (ns ∈ legacyNamespaces r) as Hns by (apply Hl; left).
  apply respects_try; [apply _..| |intros _; apply IH; intros ns' ?; apply Hl; by right].
  unfold cleanup_legacy_in, unless_missing.
  in_frame ltac:(first
    [ by apply respects_get_resource; apply _
    | by apply respects_delete_resource; split ]).
Qed.

Definition legacy_step (w w' : platform) : Prop :=
  quiet w w' ∧ w_configs w' = w_configs w
  ∧ ∀ k, ¬ legacy_resource k → w_resources w' !! k = w_resources w !! k.

Lemma attemptLegacyCleanup_frame w : wp (attemptLegacyCleanup r) (λ _, legacy_step w) w.
Proof.
  intros n. unfold attemptLegacyCleanup, mbind at 1, prog_bind, get. cbn [state].
  destruct (_ || _); [by split_and!|].
  assert (wp (done ← cleanupLegacyMaaSAPIDeployment r;
              match done with Err _ => mret () | Ok _ => modify (set_cleanup true true) end)
            (λ _, legacy_step w) (set_cleanup true false w)) as H; [|exact (H n)].
  apply wp_bind. eapply wp_mono; [apply wp_respects, cleanupLegacy_frame|].
  intros [x|e] w' [E Hr]; intros m; cbn.
  - rewrite E. by split_and!.
  - rewrite E. by split_and!.
Qed.

Lemma served_legacy gw id w w' :
  legacy_step w w' → served (tr_Platform r) gw id w → served (tr_Platform r) gw id w'.
Proof.
  intros (_ & _ & H) [(dep & E & Hd) (ef & F & He)]. split.
  - exists dep. split; [|done]. rewrite H; [done|]. unfold legacy_resource, legacyNamespaces,
      appNamespaceForTenant. intros [Hin _]. cbn in Hin.
    destruct (bool_decide_reflect (pl_AppNamespace (tr_Platform r) = pl_ControllerNamespace (tr_Platform r)))
      as [|Hne]; [by rewrite andb_false_r in Hin; apply elem_of_nil in Hin|].
    destruct (negb _); cbn in Hin; [|by apply elem_of_nil in Hin].
    by apply list_elem_of_singleton in Hin.
  - exists ef. split; [|done]. rewrite H; [done|]. by intros [_ []].
Qed.

(** ** Up *)

(** The platform of a configuration is up. *)
Definition platform_up (ns : string) (t : MaasTenantConfig) (w : platform) : Prop :=
  ∃ id p, TenantIdentifierFor ns (tenant_meta t) = Ok id
    ∧ platform_context (helper_settings r) (seen w) (tenant_meta t) None = Some p
    ∧ gateway_there (pc_GatewayRef p) w ∧ served (tr_Platform r) (pc_GatewayRef p) id w.

Lemma tenant_meta_eq t t' :
  tc_Labels t = tc_Labels t' → tc_Annotations t = tc_Annotations t' → tenant_meta t = tenant_meta t'.
Proof. unfold tenant_meta. by intros -> ->. Qed.

Lemma platform_context_quiet m w w' : quiet w w' →
  platform_context (helper_settings r) (seen w') m None
  = platform_context (helper_settings r) (seen w) m None.
Proof. intros (P & _). unfold policies_step in P. unfold platform_context, seen. by rewrite P. Qed.

Lemma prerequisites_quiet w w' : quiet w w' → prerequisites_met w → prerequisites_met w'.
Proof. unfold prerequisites_met, registered. by intros (_ & -> & ->). Qed.

(** The configuration asks for its platform. *)
Definition wanted (t : MaasTenantConfig) : Prop :=
  managementState t = "" ∨ managementState t = managementStateManaged.

(** A configuration that says its platform is up says so since before, or rightly;
    its prerequisites are met then, unless a call has failed. *)
Definition rightly_ready (ns : string) (t : MaasTenantConfig) (w : platform) : Prop :=
  ∀ t', w_configs w !! ns = Some t' → is_ready t' = true →
    tc_Status t' = tc_Status t
    ∨ (platform_up ns t' w ∧ (prerequisites_met w ∧ wanted t' ∨ unreliable)).

Lemma stale_rightly ns t w : stale ns t w → rightly_ready ns t w.
Proof.
  intros (t1 & E & _ & _ & Hs) t' E' Hr. rewrite E in E'. injection E' as <-.
  destruct Hs as [|Hs]; [by left|congruence].
Qed.

Lemma wanted_meta t t' : tc_Annotations t = tc_Annotations t' → wanted t → wanted t'.
Proof. unfold wanted, managementState. by intros ->. Qed.

Lemma setFinalStatus_spec ns t0 t w : stale ns t0 w →
  platform_up ns t0 w → (prerequisites_met w ∧ wanted t0 ∨ unreliable) →
  wp (setFinalStatus ns t) (λ _, rightly_ready ns t0) w.
Proof.
  intros H Hup Hp. apply wp_bind. eapply wp_mono; [apply wp_update_config_status|].
  intros x w' Hx. apply wp_ret.
  assert (∀ t1, w_configs w !! ns = Some t1 →
    rightly_ready ns t0 (set_configs <[ns := set_tc_Status (tc_Status (final t)) t1]> w)) as Hset.
  { intros t1 E1 t' E' _. cbn in E'. rewrite lookup_insert_eq in E'. injection E' as <-.
    destruct H as (t2 & E2 & El & Ea & _). rewrite E1 in E2. injection E2 as <-. right.
    set (t' := set_tc_Status _ t1).
    assert (tenant_meta t' = tenant_meta t0) as Em by by apply tenant_meta_eq.
    unfold platform_up in *. rewrite Em. split; [exact Hup|].
    destruct Hp as [[Hp Hw]|]; [left|by right]. split; [exact Hp|]. by eapply wanted_meta. }
  destruct x as [[]|[]].
  - destruct Hx as (t1 & E1 & ->). by apply Hset.
  - destruct Hx as [-> _]. by apply stale_rightly.
  - done.
  - destruct Hx as [_ [->|(t1 & E1 & ->)]]; [by apply stale_rightly|by apply Hset].
Qed.

Lemma bring_up_spec ns t0 t context mcfg rep w : stale ns t0 w →
  tc_Labels t = tc_Labels t0 → tc_Annotations t = tc_Annotations t0 →
  platform_context (helper_settings r) (seen w) (tenant_meta t0) None = Some context →
  (prerequisites_met w ∧ wanted t0 ∨ unreliable) →
  wp (bring_up r ns t context mcfg rep) (λ _, rightly_ready ns t0) w.
Proof.
  intros H El Ea Hc Hp. apply wp_bind. eapply wp_mono; [by apply reconcilePlatform_spec|].
  intros [[run|] e] w1 (H1 & Hq1 & Hrun); cbn [fst snd] in *.
  2: { by destruct e as [[] []]; apply wp_ret, stale_rightly. }
  destruct (Hrun ltac:(by eexists)) as (id & Eid & Hs & Hg).
  assert (wp (_ ← attemptLegacyCleanup r;
              setFinalStatus ns (aggregateWarningsAndSetDegraded rep run t))
            (λ _, rightly_ready ns t0) w1) as Hmain.
  { apply wp_bind. eapply wp_mono; [apply attemptLegacyCleanup_frame|].
    intros x2 w2 Hl. cbn beta in Hl. pose proof Hl as (Hq2 & Hc2 & _).
    assert (quiet w w2) as Hq by by etrans.
    rewrite (tenant_meta_eq t t0 El Ea) in Eid.
    apply setFinalStatus_spec; [by eapply stale_configs| |].
    - exists id, context. split; [done|]. split; [by rewrite (platform_context_quiet _ _ _ Hq)|].
      split; [|by eapply served_legacy].
      unfold gateway_there in *. destruct Hq2 as (P & _). unfold policies_step in P. by rewrite P.
    - destruct Hp as [[Hp Hw]|]; [left; split; [by eapply prerequisites_quiet|done]|by right]. }
  destruct e as [[] []]; try (by apply wp_ret, stale_rightly); exact Hmain.
Qed.

Lemma driven_wanted t : driven t → managementState t ≠ managementStateRemoved → wanted t.
Proof. intros [?|[?|?]] ?; [by left|by right|done]. Qed.

Lemma reconcile_live_spec ns t0 t w : stale ns t0 w →
  tc_Labels t = tc_Labels t0 → tc_Annotations t = tc_Annotations t0 →
  wp (reconcile_live r ns t) (λ _, rightly_ready ns t0) w.
Proof.
  intros H El Ea. unfold reconcile_live. cbv zeta.
  set (t1 := set_InfraNamespace _ t).
  assert (tc_Labels t1 = tc_Labels t0) as El1 by done.
  assert (tc_Annotations t1 = tc_Annotations t0) as Ea1 by done.
  clearbody t1. clear El Ea t. apply wp_bind.
  eapply wp_mono; [by apply handleManagementState_spec|].
  intros [t2 [[again|] e]] w1 (H1 & S1 & El2 & Ea2 & Hd); cbn [fst snd] in *;
    [by apply wp_ret, stale_rightly|].
  specialize (Hd eq_refl).
  apply wp_bind. eapply wp_mono; [by apply validateConfigAndGateway_spec|].
  intros [[[mcfg context]|] e2] w2 (H2 & S2 & Hv); cbn [fst snd] in *.
  2: { by destruct e2 as [[] []]; apply wp_ret, stale_rightly. }
  destruct (Hv _ _ eq_refl) as (-> & -> & Hrm & Hc).
  apply wp_bind. eapply wp_mono; [by apply checkDependencies_spec|].
  intros [[t3 rep] [[again|] e3]] w3 (H3 & S3 & El3 & Ea3 & Hp); cbn [fst snd] in *;
    [by apply wp_ret, stale_rightly|].
  specialize (Hp eq_refl).
  apply bring_up_spec; [done|congruence..| |].
  - rewrite (platform_context_quiet _ _ _ (config_quiet _ _ _ S3)), <-Hc. f_equal.
    apply tenant_meta_eq; congruence.
  - destruct Hp as [Hp|]; [|by right]. destruct Hd as [Hd|]; [|by right]. left. split; [done|].
    eapply wanted_meta; [exact Ea1|]. eapply driven_wanted; [done|].
    unfold managementState in *. by rewrite <-Ea2.
Qed.
End controller.

(** ** Letting go *)

(** Deletions of objects that have finalizers. *)
Section each.
Context {srv : ApiServer} {lawful : LawfulApiServer}.
Context {X : Type} (objects : platform → gmap key X) 
  (upd : (gmap key X → gmap key X) → platform → platform).
Context (finalizers : X → list string) (mark : X → X) (going : X → bool).
Context (del : key → prog platform (result api_error ())).
Context (objects_upd : ∀ f w, objects (upd f w) = f (objects w)).
Context (upd_const : ∀ f w, upd f w = upd (λ _, f (objects w)) w).
Context (upd_upd : ∀ m m' w, upd (λ _, m) (upd (λ _, m') w) = upd (λ _, m) w).
Context (upd_objects : ∀ w, upd (λ _, objects w) w = w).
Context (going_mark : ∀ x, going (mark x) = true).
Context (del_write : ∀ k, del k = write (λ w, match objects w !! k with
  | Some x => Ok (upd (if length (finalizers x) =? 0 then delete k else <[k := mark x]>) w)
  | None => Err NotFound
  end)).

(** Nothing is left of an object, or it is being deleted. *)
Definition let_go (o : option X) : Prop := match o with Some x => going x = true | None => True end.

(** Only these objects change, and no more than that. *)
Definition let_go_of (F : key → Prop) (w w' : platform) : Prop :=
  w' = upd (λ _, objects w') w
  ∧ ∀ k, objects w' !! k = objects w !! k
         ∨ F k ∧ is_Some (objects w !! k) ∧ let_go (objects w' !! k).

Lemma let_go_of_refl F w : let_go_of F w w.
Proof. split; [by rewrite upd_objects|]. by left. Qed.
Lemma let_go_of_trans F w1 w2 w3 : let_go_of F w1 w2 → let_go_of F w2 w3 → let_go_of F w1 w3.
Proof.
  intros [E1 H1] [E2 H2]. split; [by rewrite E2, E1, upd_upd, objects_upd|].
  intros k. destruct (H2 k) as [->|(Fk & Hs & Hl)], (H1 k) as [E|(Fk' & Hs' & Hl')].
  - by left.
  - right. by split_and!.
  - right. rewrite E in Hs. by split_and!.
  - right. by split_and!.
Qed.
Lemma let_go_of_mono (F F' : key → Prop) w w' :
  let_go_of F w w' → (∀ k, F k → F' k) → let_go_of F' w w'.
Proof.
  intros [E H] HF. split; [done|]. intros k. destruct (H k) as [|(? & ? & ?)]; [by left|right]; auto.
Qed.
Lemma let_go_keeps F k w w' : let_go_of F w w' → let_go (objects w !! k) → let_go (objects w' !! k).
Proof. intros [_ H] Hl. destruct (H k) as [->|(_ & _ & ?)]; done. Qed.

Lemma wp_del k w :
  wp (unless_missing (del k)) (λ x w', let_go_of (λ k', k' = k) w w'
    ∧ (x = Ok () → let_go (objects w' !! k)) ∧ (∀ e, x = Err e → unreliable)) w.
Proof.
  unfold unless_missing. apply wp_bind. rewrite del_write.
  eapply wp_mono; [apply wp_write|].
  { intros e. by case_match. }
  intros x w' Hx. cbn beta in Hx. apply wp_ret.
  assert (∀ y, objects w !! k = Some y →
    let w1 := upd (if length (finalizers y) =? 0 then delete k else <[k := mark y]>) w in
    let_go_of (λ k', k' = k) w w1 ∧ let_go (objects w1 !! k)) as Hdel.
  { intros y E w1.
    assert (let_go (objects w1 !! k)) as Hl.
    { unfold w1. rewrite objects_upd. destruct (_ =? 0).
      - by rewrite lookup_delete_eq.
      - rewrite lookup_insert_eq. apply going_mark. }
    split; [|done]. split.
    - unfold w1. by rewrite objects_upd, <-upd_const.
    - intros k'. destruct (decide (k' = k)) as [->|Hne]; [right; by eauto|left].
      unfold w1. rewrite objects_upd. destruct (_ =? 0).
      + by rewrite lookup_delete_ne.
      + by rewrite lookup_insert_ne. }
  destruct (objects w !! k) as [y|] eqn:E.
  - destruct (Hdel y eq_refl) as [H1 H2]. destruct x as [[]|[]].
    + injection Hx as <-. by split_and!.
    + by destruct Hx.
    + by destruct Hx.
    + destruct Hx as [Hu [->|Hx]]; [split_and!; [apply let_go_of_refl|done..]|].
      injection Hx as <-. by split_and!.
  - destruct x as [[]|[]]; [done| |by destruct Hx|].
    + destruct Hx as [-> _]. split_and!; [apply let_go_of_refl| |done]. by rewrite E.
    + destruct Hx as [Hu [->|Hx]]; [|done]. split_and!; [apply let_go_of_refl|done..].
Qed.

Lemma delete_each_spec what ks w :
  wp (delete_each what del ks) (λ x w', let_go_of (λ k, k ∈ ks) w w'
    ∧ (x = Ok () → ∀ k, k ∈ ks → let_go (objects w' !! k)) ∧ (∀ e, x = Err e → unreliable)) w.
Proof.
  revert w. induction ks as [|k ks IH]; intros w; cbn [delete_each].
  { apply wp_ret. split_and!; [apply let_go_of_refl| |done]. intros _ k Hk. by apply elem_of_nil in Hk. }
  apply wp_try, wp_bind. eapply wp_mono; [apply wp_del|].
  intros x w1 (H1 & Hok & Herr). apply wp_ret.
  assert (let_go_of (λ k', k' ∈ k :: ks) w w1) as H1'.
  { eapply let_go_of_mono; [done|]. intros k' ->. by left. }
  destruct x as [[]|e]; [|by split_and!; [| |intros; eapply Herr]].
  eapply wp_mono; [apply IH|]. intros x w2 (H2 & Hok2 & Herr2).
  assert (let_go_of (λ k', k' ∈ k :: ks) w1 w2) as H2'.
  { eapply let_go_of_mono; [done|]. intros k' ?. by right. }
  split_and!; [by eapply let_go_of_trans| |done].
  intros Hx k' [->|Hk]%elem_of_cons; [|by apply Hok2]. eapply let_go_keeps; [done|]. by apply Hok.
Qed.

(** All objects of a namespace that a listing shows, and whether there were any. *)
Lemma cleanup_spec context what (list : prog platform (result api_error (list (key * X)))) ns w :
  wp list (λ x w', w' = w ∧ match x with
    | Ok l => ∀ k x, (k, x) ∈ l ↔ objects w !! k = Some x ∧ k.1 = ns
    | Err _ => unreliable
    end) w →
  wp (items ←? in_context context list;
      _ ←? delete_each what del (items.*1);
      mret (Ok (length items =? 0)))
    (λ x w', let_go_of (λ k, k.1 = ns) w w'
      ∧ match x with
        | Ok true => w' = w ∧ ∀ k, k.1 = ns → objects w !! k = None
        | Ok false => (∃ k, k.1 = ns ∧ is_Some (objects w !! k))
                      ∧ ∀ k, k.1 = ns → let_go (objects w' !! k)
        | Err _ => unreliable
        end) w.
Proof.
  intros Hlist. apply wp_try, wp_bind. eapply wp_mono; [done|]. intros x ? [-> Hx]. apply wp_ret.
  destruct x as [l|e]; [|split; [apply let_go_of_refl|done]].
  assert (∀ k, k ∈ l.*1 ↔ is_Some (objects w !! k) ∧ k.1 = ns) as Hk.
  { intros k. rewrite list_elem_of_fmap. split.
    - intros ([k' x] & -> & [? ?]%Hx). cbn. by eauto.
    - intros [[x E] ?]. exists (k, x). split; [done|]. by apply Hx. }
  apply wp_try. eapply wp_mono; [apply delete_each_spec|]. intros [[]|e] w1 (H1 & Hok & Herr).
  2: { split; [|by eapply Herr]. eapply let_go_of_mono; [done|]. intros k H. by apply Hk in H as [_ ?]. }
  apply wp_ret. split; [eapply let_go_of_mono; [done|]; intros k H; by apply Hk in H as [_ ?]|].
  destruct l as [|[k0 x0] l]; cbn [length Nat.eqb].
  - assert (∀ k, objects w1 !! k = objects w !! k) as E.
    { intros k. destruct (proj2 H1 k) as [|(H & _)]; [done|]. by apply elem_of_nil in H. }
    split.
    + rewrite (proj1 H1). rewrite (map_eq _ _ E). apply upd_objects.
    + intros k Hn. apply eq_None_not_Some. intros Hs.
      assert (k ∈ ([] : Datatypes.list (key * X)).*1) as Hin by by apply Hk.
      by apply elem_of_nil in Hin.
  - split.
    + exists k0. assert ((k0, x0) ∈ (k0, x0) :: l) as Hin by left. apply Hx in Hin as [E ?].
      split; [done|]. by exists x0.
    + intros k Hn. destruct (objects w !! k) as [x|] eqn:E.
      * apply Hok; [done|]. apply Hk. by eauto.
      * destruct (proj2 H1 k) as [->|(_ & Hs & _)]; [by rewrite E|].
        rewrite E in Hs. by destruct Hs.
Qed.
End each.

(** ** Teardown *)

(** What a teardown may change: the configuration, subscriptions and policies of a
    namespace, and resources that pass a test. *)
Record teardown_step (ns : string) (F : rkey → Prop) (w w' : platform) : Prop := {
  td_rest : w' = mkWorld (set_auth_crs (λ _, auth_crs (w_cluster w'))
                     (set_subscriptions (λ _, subscriptions (w_cluster w')) (w_cluster w)))
                   (w_configs w') (w_anchor w) (w_resources w') (w_secrets w) (w_kinds w)
                   (w_cleanupOnce w) (w_cleanupCompleted w);
  td_configs ns' : ns' ≠ ns → w_configs w' !! ns' = w_configs w !! ns';
  td_resources k : ¬ F k → w_resources w' !! k = w_resources w !! k;
  td_subscriptions k : k.1 ≠ ns →
    subscriptions (w_cluster w') !! k = subscriptions (w_cluster w) !! k;
  td_policies k : k.1 ≠ ns → auth_crs (w_cluster w') !! k = auth_crs (w_cluster w) !! k;
  td_no_subscription k : subscriptions (w_cluster w) !! k = None →
    subscriptions (w_cluster w') !! k = None;
  td_no_policy k : auth_crs (w_cluster w) !! k = None → auth_crs (w_cluster w') !! k = None;
}.

#[global] Instance teardown_step_refl ns F : Reflexive (teardown_step ns F).
Proof. intros w. split; try done. by destruct w as [[] ? ? ? ? ? ? ?]. Qed.
#[global] Instance teardown_step_trans ns F : Transitive (teardown_step ns F).
Proof.
  intros w1 w2 w3 [E1 C1 R1 S1 P1 NS1 NP1] [E2 C2 R2 S2 P2 NS2 NP2]. split; [..|by auto|by auto].
  - rewrite E2, E1. done.
  - intros ns' H. by rewrite C2, C1.
  - intros k H. by rewrite R2, R1.
  - intros k H. by rewrite S2, S1.
  - intros k H. by rewrite P2, P1.
Qed.

Lemma resources_teardown ns F w w' : resources_step F w w' → teardown_step ns F w w'.
Proof.
  intros [E H]. split; try (by rewrite E); try done.
  rewrite E. by destruct w as [[] ? ? ? ? ? ? ?].
Qed.
Lemma config_teardown ns F w w' : config_step ns w w' → teardown_step ns F w w'.
Proof.
  intros [E H]. split; try (by rewrite E); try done.
  rewrite E. by destruct w as [[] ? ? ? ? ? ? ?].
Qed.

Definition put_subscriptions (f : gmap key V1.MaaSSubscription → gmap key V1.MaaSSubscription)
    (w : platform) : platform := set_cluster (set_subscriptions f (w_cluster w)) w.
Definition put_policies (f : gmap key V1.MaaSAuthPolicy → gmap key V1.MaaSAuthPolicy)
    (w : platform) : platform := set_cluster (set_auth_crs f (w_cluster w)) w.
Definition subscriptions_of (w : platform) := subscriptions (w_cluster w).
Definition policies_of (w : platform) := auth_crs (w_cluster w).

Section teardown.
Context {api : ApiMachinery} {srv : ApiServer} {lawful : LawfulApiServer}.
Context {tsrv : TenantServer} {psrv : PlatformServer} {rnd : Renderer} {uni : Unicode}.
Context (r : TenantReconciler).

Abbreviation subscriptions_let_go := (let_go_of subscriptions_of put_subscriptions V1.deleting).
Abbreviation policies_let_go := (let_go_of policies_of put_policies V1.ap_deleting).

Lemma subscriptions_teardown ns F w w' :
  subscriptions_let_go (λ k, k.1 = ns) w w' → teardown_step ns F w w'.
Proof.
  intros [E H]. split.
  - rewrite E. by destruct w as [[] ? ? ? ? ? ? ?].
  - intros ns' _. by rewrite E.
  - intros k _. by rewrite E.
  - intros k Hk. destruct (H k) as [|(? & _)]; done.
  - intros k _. by rewrite E.
  - intros k Hn. destruct (H k) as [Hk|(_ & Hs & _)].
    + by unfold subscriptions_of in Hk; rewrite Hk.
    + unfold subscriptions_of in Hs. rewrite Hn in Hs. by destruct Hs.
  - intros k. by rewrite E.
Qed.
Lemma policies_teardown ns F w w' :
  policies_let_go (λ k, k.1 = ns) w w' → teardown_step ns F w w'.
Proof.
  intros [E H]. split.
  - rewrite E. by destruct w as [[] ? ? ? ? ? ? ?].
  - intros ns' _. by rewrite E.
  - intros k _. by rewrite E.
  - intros k _. by rewrite E.
  - intros k Hk. destruct (H k) as [|(? & _)]; done.
  - intros k. by rewrite E.
  - intros k Hn. destruct (H k) as [Hk|(_ & Hs & _)].
    + by unfold policies_of in Hk; rewrite Hk.
    + unfold policies_of in Hs. rewrite Hn in Hs. by destruct Hs.
Qed.

Lemma wp_list_of {X} (objects : cluster → gmap key X) ns w :
  wp (on_cluster (list_in objects (λ k _, k.1 == ns))) (λ x w', w' = w ∧
    match x with
    | Ok l => ∀ k x, (k, x) ∈ l ↔ objects (seen w) !! k = Some x ∧ k.1 = ns
    | Err _ => unreliable
    end) w.
Proof.
  eapply wp_mono; [apply wp_on_cluster_reads, list_in_reads|]. intros x ? [-> Hx]. split; [done|].
  destruct x as [l|[]]; [|done..]. intros k y. rewrite (listed_elem _ _ _ k y Hx). cbn.
  by rewrite bool_decide_eq_true.
Qed.

Lemma cleanupMaaSSubscriptions_spec ns w :
  wp (cleanupMaaSSubscriptions ns) (λ x w', subscriptions_let_go (λ k, k.1 = ns) w w' ∧
    match x with
    | Ok true => w' = w ∧ ∀ k, k.1 = ns → subscriptions_of w !! k = None
    | Ok false => (∃ k, k.1 = ns ∧ is_Some (subscriptions_of w !! k))
                  ∧ ∀ k, k.1 = ns → let_go V1.deleting (subscriptions_of w' !! k)
    | Err _ => unreliable
    end) w.
Proof.
  eapply (cleanup_spec subscriptions_of put_subscriptions V1.Finalizers set_deleting_subscription
    V1.deleting delete_subscription); try done.
  - by intros [[] ? ? ? ? ? ? ?].
  - apply (wp_list_of subscriptions).
Qed.
Lemma cleanupMaaSAuthPolicies_spec ns w :
  wp (cleanupMaaSAuthPolicies ns) (λ x w', policies_let_go (λ k, k.1 = ns) w w' ∧
    match x with
    | Ok true => w' = w ∧ ∀ k, k.1 = ns → policies_of w !! k = None
    | Ok false => (∃ k, k.1 = ns ∧ is_Some (policies_of w !! k))
                  ∧ ∀ k, k.1 = ns → let_go V1.ap_deleting (policies_of w' !! k)
    | Err _ => unreliable
    end) w.
Proof.
  eapply (cleanup_spec policies_of put_policies V1.ap_Finalizers set_deleting_policy
    V1.ap_deleting delete_auth_cr); try done.
  - by intros [[] ? ? ? ? ? ? ?].
  - apply (wp_list_of auth_crs).
Qed.

(** Resources that are gone or being deleted stay so. *)
Lemma deleted_goes (o : option resource) : let_go rs_deleting (o ≫= deleted).
Proof. destruct o as [x|]; [|done]. cbn. unfold deleted. by destruct (_ =? 0). Qed.

Lemma delete_resources_spec ks w :
  wp (delete_resources ks) (λ x w', resources_step (λ k, k ∈ ks) w w'
    ∧ (∀ k, let_go rs_deleting (w_resources w !! k) →
            let_go rs_deleting (w_resources w' !! k))
    ∧ (x = Ok () → ∀ k, k ∈ ks → let_go rs_deleting (w_resources w' !! k))
    ∧ (∀ e, x = Err e → unreliable ∨ ∃ k, k ∈ ks ∧ registered k.1 w = false)) w.
Proof.
  revert w. induction ks as [|k ks IH]; intros w; cbn [delete_resources].
  { apply wp_ret. split_and!; try done. intros _ k Hk. by apply elem_of_nil in Hk. }
  apply wp_bind. unfold unless_missing. apply wp_bind.
  eapply wp_mono; [apply wp_delete_resource|]. intros x w1 Hx. apply wp_ret.
  assert (resources_step (λ k', k' ∈ k :: ks) w w) as Hsame by done.
  set (m1 := partial_alter (λ o, o ≫= deleted) k) in *.
  assert (let w1 := set_resources m1 w in resources_step (λ k', k' ∈ k :: ks) w w1
    ∧ (∀ k', let_go rs_deleting (w_resources w !! k') →
             let_go rs_deleting (w_resources w1 !! k'))
    ∧ let_go rs_deleting (w_resources w1 !! k)) as (Hdel & Hkeep & Hgone).
  { split_and!; [apply delete_resource_step; left|..]; cbn; unfold m1.
    - intros k' E. destruct (decide (k' = k)) as [->|].
      + rewrite lookup_partial_alter_eq. apply deleted_goes.
      + by rewrite lookup_partial_alter_ne.
    - rewrite lookup_partial_alter_eq. apply deleted_goes. }
  assert (∀ w1, resources_step (λ k', k' ∈ k :: ks) w w1 →
    (∀ k', let_go rs_deleting (w_resources w !! k') →
           let_go rs_deleting (w_resources w1 !! k')) →
    let_go rs_deleting (w_resources w1 !! k) →
    wp (delete_resources ks) (λ x w', resources_step (λ k', k' ∈ k :: ks) w w'
      ∧ (∀ k', let_go rs_deleting (w_resources w !! k') →
               let_go rs_deleting (w_resources w' !! k'))
      ∧ (x = Ok () → ∀ k', k' ∈ k :: ks → let_go rs_deleting (w_resources w' !! k'))
      ∧ (∀ e, x = Err e → unreliable ∨ ∃ k', k' ∈ k :: ks ∧ registered k'.1 w = false)) w1) as Hnext.
  { clear w1 Hx Hdel Hkeep Hgone. intros w1 H1 K1 G1. eapply wp_mono; [apply IH|].
    intros y w2 (H2 & K2 & Hok & Herr). split_and!.
    - etrans; [done|]. eapply resources_step_mono; [done|]. intros k' ?. by right.
    - auto.
    - intros Hy k' [->|Hk]%elem_of_cons; auto.
    - intros e He. destruct (Herr e He) as [|(k' & Hin & Hr)]; [by left|right].
      exists k'. split; [by right|]. rewrite (proj1 H1) in Hr. done. }
  destruct x as [[]|[]].
  - subst w1. by apply Hnext.
  - destruct Hx as (-> & _ & E). apply Hnext; [done..|]. by rewrite E.
  - destruct Hx as [-> Hr]. apply wp_ret. split_and!; try done. intros _ _. right.
    exists k. split; [left|done].
  - destruct Hx as [Hu [->| ->]]; apply wp_ret; split_and!; try done; by left.
Qed.

(** Kinds, namespaces and base names of the resources of a tenant that go with it. *)
Definition resource_table : list (string * string * string) :=
  let app := appNamespaceForTenant r in
  let gw := tr_GatewayNamespace r in
  [("Deployment", app, "maas-api"); ("Service", app, "maas-api"); ("HTTPRoute", app, "maas-api-route");
   ("CronJob", app, "maas-api-key-cleanup"); ("TokenRateLimitPolicy", gw, "gateway-default-deny");
   ("DestinationRule", gw, "maas-api-backend-tls"); ("TelemetryPolicy", gw, "maas-telemetry");
   ("Telemetry", gw, "latency-per-subscription"); ("Deployment", gw, "payload-processing");
   ("Deployment", gw, "payload-pre-processing"); ("Service", gw, "payload-processing");
   ("Service", gw, "payload-pre-processing"); ("DestinationRule", gw, "payload-processing");
   ("DestinationRule", gw, "payload-pre-processing"); ("EnvoyFilter", gw, "payload-processing");
   ("NetworkPolicy", gw, "payload-processing"); ("ServiceAccount", gw, "payload-processing");
   ("ConfigMap", gw, "payload-processing-plugins");
   ("ClusterRoleBinding", "", "payload-processing-reader")].

(** The resource of a row for a tenant: its name is followed by that of the tenant,
    unless it is the default one. *)
Definition row_key (id : string) (row : string * string * string) : rkey :=
  (row.1.1, (row.1.2, if id == "" then row.2 else row.2 +:+ "-" +:+ id)).

(** The resources that a teardown deletes. *)
Definition tenant_resources (id : string) : list rkey :=
  appResourcesToDelete r id ++ gatewayResourcesToDelete r id.

Lemma tenant_resources_table id : tenant_resources id = row_key id <$> resource_table.
Proof. reflexivity. Qed.

(** The namespace has neither subscriptions nor policies, and each of the resources of
    the table is gone or being deleted. *)
Definition torn_down (ns id : string) (w : platform) : Prop :=
  (∀ k, k.1 = ns → subscriptions_of w !! k = None)
  ∧ (∀ k, k.1 = ns → policies_of w !! k = None)
  ∧ ∀ row, row ∈ resource_table → let_go rs_deleting (w_resources w !! row_key id row).

(** What is left of a configuration that is being deleted, without the finalizer. *)
Definition released (t : MaasTenantConfig) : option MaasTenantConfig :=
  let fs := remove_finalizer (tc_Finalizers t) Tenant.tenantFinalizer in
  if length fs =? 0 then None else Some (set_tc_Finalizers fs t).

(** Its tenants' subscriptions and policies are being deleted. *)
Definition letting_go (ns : string) (w : platform) : Prop :=
  (∀ k, k.1 = ns → let_go V1.deleting (subscriptions_of w !! k))
  ∧ ∀ k, k.1 = ns → let_go V1.ap_deleting (policies_of w !! k).

(** How a deletion ends. *)
Definition deletion_outcome (ns id : string) (t : MaasTenantConfig) (w : platform)
    (x : result error requeue) (w' : platform) : Prop :=
  match x with
  | Ok None => w_configs w' !! ns = released t ∧ torn_down ns id w'
  | Ok (Some n) => n = (5 * Second)%Z ∧ w_configs w' !! ns = Some t ∧ letting_go ns w'
      ∧ ((∃ k, k.1 = ns ∧ is_Some (subscriptions_of w !! k))
         ∨ ∃ k, k.1 = ns ∧ is_Some (policies_of w !! k))
  | Err _ => (w_configs w' !! ns = Some t ∨ w_configs w' !! ns = released t ∧ torn_down ns id w')
      ∧ (unreliable ∨ ∃ k, k ∈ tenant_resources id ∧ registered k.1 w = false)
  end.

Lemma wp_release ns id t w0 w : w_configs w !! ns = Some t → tc_deleting t = true →
  torn_down ns id w →
  wp (done ← update_config_finalizers ns
               (remove_finalizer (tc_Finalizers t) Tenant.tenantFinalizer);
      mret match done with Ok _ => Ok None | Err e => Err (ErrApi e) end)
    (λ x w', teardown_step ns (λ k, k ∈ tenant_resources id) w w'
             ∧ deletion_outcome ns id t w0 x w') w.
Proof.
  intros E Hd Ht. apply wp_bind. eapply wp_mono; [apply wp_update_config_finalizers|].
  intros x w' Hx. specialize (Hx t E). rewrite Hd in Hx. cbn [andb] in Hx. apply wp_ret.
  set (w1 := set_configs _ w) in Hx.
  assert (teardown_step ns (λ k, k ∈ tenant_resources id) w w1
    ∧ w_configs w1 !! ns = released t ∧ torn_down ns id w1) as (H1 & H2 & H3).
  { split_and!; [|unfold w1, released; cbn; destruct (length _ =? 0)|exact Ht].
    - apply config_teardown. split; [by unfold w1|]. intros ns' Hne. unfold w1. cbn.
      destruct (length _ =? 0); [by rewrite lookup_delete_ne|by rewrite lookup_insert_ne].
    - apply lookup_delete_eq.
    - apply lookup_insert_eq. }
  destruct x as [[]|[]]; [by subst w'|done..|]. destruct Hx as [Hu [->| ->]].
  - split; [done|]. split; [by left|by left].
  - split; [done|]. split; [by right|by left].
Qed.

Lemma handleDeletion_spec ns id t w : w_configs w !! ns = Some t → tc_deleting t = true →
  Tenant.tenantFinalizer ∈ tc_Finalizers t → TenantIdentifierFor ns (tenant_meta t) = Ok id →
  wp (handleDeletion r ns t) (λ x w', teardown_step ns (λ k, k ∈ tenant_resources id) w w'
    ∧ deletion_outcome ns id t w x w') w.
Proof.
  intros E Hd Hf Hid. unfold handleDeletion. rewrite (proj2 (contains_true _ _) Hf). cbn [negb].
  apply wp_try. eapply wp_mono; [apply cleanupMaaSSubscriptions_spec|].
  intros x w1 [S1 H1]. pose proof S1 as [E1 L1].
  assert (teardown_step ns (λ k, k ∈ tenant_resources id) w w1) as T1 by by apply subscriptions_teardown.
  assert (w_configs w1 !! ns = Some t) as C1 by (by rewrite E1).
  destruct x as [b1|e]; [|split; [done|split; [by left|by left]]].
  apply wp_try. eapply wp_mono; [apply cleanupMaaSAuthPolicies_spec|].
  intros x w2 [S2 H2]. pose proof S2 as [E2 L2].
  assert (teardown_step ns (λ k, k ∈ tenant_resources id) w w2) as T2.
  { etrans; [done|]. by apply policies_teardown. }
  assert (w_configs w2 !! ns = Some t) as C2 by (by rewrite E2).
  assert (subscriptions_of w2 = subscriptions_of w1) as Es by (by rewrite E2).
  assert (policies_of w1 = policies_of w) as Ep by (by rewrite E1).
  destruct x as [b2|e]; [|split; [done|split; [by left|by left]]].
  destruct b1, b2; cbn [negb orb].
  - destruct H1 as [-> N1], H2 as [-> N2]. clear E1 L1 E2 L2 S1 S2 T1 C1 T2 C2 Es Ep.
    unfold cleanupTenantResources. rewrite Hid. apply wp_try.
    eapply wp_mono; [apply delete_resources_spec|]. intros x w3 (R3 & _ & Hok & Herr).
    assert (teardown_step ns (λ k, k ∈ tenant_resources id) w w3) as T3
      by by apply resources_teardown.
    assert (w_configs w3 !! ns = Some t) as C3 by (by rewrite (proj1 R3)).
    destruct x as [[]|e].
    2: { split; [done|]. split; [by left|]. destruct (Herr e eq_refl) as [|]; [by left|by right]. }
    eapply wp_mono; [apply (wp_release ns id t w); [done..|]|].
    { split_and!; [intros k Hk; rewrite (proj1 R3); by apply N1
                  |intros k Hk; rewrite (proj1 R3); by apply N2|].
      intros row Hrow. apply Hok; [done|].
      change (row_key id row ∈ tenant_resources id). rewrite tenant_resources_table.
      by apply list_elem_of_fmap_2. }
    intros x w4 [T4 O4]. split; [by etrans|done].
  - apply wp_ret. split; [done|]. destruct H1 as [-> N1], H2 as [H2 N2].
    split_and!; [done|done| |by right]. split; [|done]. intros k Hk. by rewrite Es, N1.
  - apply wp_ret. split; [done|]. destruct H1 as [H1 N1], H2 as [-> N2].
    split_and!; [done|done| |by left]. split; [done|]. intros k Hk. by rewrite N2.
  - apply wp_ret. split; [done|]. destruct H1 as [H1 N1], H2 as [H2 N2].
    split_and!; [done|done| |by left]. split; [|done]. intros k Hk. rewrite Es. by apply N1.
Qed.

(** ** Names *)

Lemma dash_split b b' x x' : b +:+ "-" +:+ x = b' +:+ "-" +:+ x' →
  b = b' ∧ x = x' ∨ (∃ y, b' = (b +:+ "-") +:+ y) ∨ ∃ y, b = (b' +:+ "-") +:+ y.
Proof.
  revert b'. induction b as [|c b IH]; intros [|c' b']; cbn; intros H.
  - injection H as <-. by left.
  - injection H as <- _. right. left. by eexists.
  - injection H as -> _. right. right. by eexists.
  - injection H as -> H. destruct (IH b' H) as [[-> ->]|[[y ->]|[y ->]]]; [by left|..].
    + right. left. by exists y.
    + right. right. by exists y.
Qed.

(** Names of resources that begin differently are different. *)
Lemma resourceNameForTenant_apart b b' id id' :
  has_prefix b' (b +:+ "-") = false → has_prefix b (b' +:+ "-") = false →
  resourceNameForTenant b id = resourceNameForTenant b' id' → b = b' ∧ id = id'.
Proof.
  unfold resourceNameForTenant. intros P P'.
  destruct (bool_decide_reflect (id = "")) as [->|], (bool_decide_reflect (id' = "")) as [->|].
  - by intros ->.
  - intros E. rewrite (proj2 (has_prefix_true _ _)) in P'; [done|]. exists id'. by rewrite <-app_assoc_str.
  - intros E. rewrite (proj2 (has_prefix_true _ _)) in P; [done|]. exists id. by rewrite <-app_assoc_str.
  - intros H. destruct (dash_split _ _ _ _ H) as [?|[E|E]]; [done|..].
    + by rewrite (proj2 (has_prefix_true _ _) E) in P.
    + by rewrite (proj2 (has_prefix_true _ _) E) in P'.
Qed.
End teardown.
