(* ===== verification/TenantConfigCorrectness.v ===== *)
(** The properties of the controller of MaasTenantConfigs: a configuration says that
    its platform is up only when it is, a deletion ends, deletes everything and spares
    other tenants, and applying spares what others manage. *)
From S2P Require Import Prelude GoStrings GoTime Runtime Unstructured GoFmt MaasTypes Cluster.
From S2P Require Import ControllerHelpers ControllerFacts SubscriptionModelFacts TenantCluster.
From S2P Require Import GatewayAuthSpec AuthPolicyGateway AuthGatewayFacts AITenantParts AITenantFacts.
From S2P Require Import SubscriptionExamples PlatformParams Platform TenantConfigController.
From S2P Require Import AITenantCorrectness TenantConfigFacts.
Import Infra Params Cluster Helpers Fmt GatewaySpec AuthGateway Platform ConfigController.

Section properties.
Context {api : ApiMachinery} {srv : ApiServer} {lawful : LawfulApiServer}.
Context {tsrv : TenantServer} {psrv : PlatformServer} {rnd : Renderer} {uni : Unicode}.
Context (r : TenantReconciler).

(** ** Readiness *)

Lemma wp_Reconcile ns Q w :
  wp (reconcile r ns) (λ x w', Q match x with
    | Err e => if match cause e with Some e => is_conflict e | None => false end
                  && isMaasTenantConfigConflict e
               then Ok (after 0) else Err e
    | Ok _ => x end w') w →
  wp (Reconcile r ns) Q w.
Proof. intros H. apply wp_bind. eapply wp_mono; [exact H|]. intros x w' Hx. by apply wp_ret. Qed.

(** The configuration that a reconcile works on. *)
Lemma wp_get_config ns w :
  wp (get_in w_configs ns) (λ x w', w' = w ∧
    match x with
    | Ok t => w_configs w !! ns = Some t
    | Err NotFound => w_configs w !! ns = None
    | Err NoMatch => False
    | Err (Failure _) => unreliable
    end) w.
Proof.
  eapply wp_mono; [apply wp_reads, get_in_reads|]. by intros x w' [-> Hx].
Qed.

Lemma wp_converge ns t uses w : w_configs w !! ns = Some t → tc_deleting t = false →
  wp (converge_finalizer ns t uses) (λ x w', stale ns t w'
    ∧ ∀ t', x = Ok t' → tc_Labels t' = tc_Labels t ∧ tc_Annotations t' = tc_Annotations t) w.
Proof.
  intros E Hd. unfold converge_finalizer. cbv zeta.
  assert (∀ w', w_configs w' !! ns = Some t → stale ns t w') as Hsame.
  { intros w' E'. exists t. split_and!; [done..|by left]. }
  assert (∀ fs, wp (done ← update_config_finalizers ns fs;
      mret match done with Ok _ => Ok (set_tc_Finalizers fs t) | Err e => Err (ErrApi e) end)
    (λ x w', stale ns t w'
      ∧ ∀ t', x = Ok t' → tc_Labels t' = tc_Labels t ∧ tc_Annotations t' = tc_Annotations t) w)
    as Hset.
  { intros fs. apply wp_bind. eapply wp_mono; [apply wp_update_config_finalizers|].
    intros x w' Hx. specialize (Hx t E). rewrite Hd in Hx. cbn [andb] in Hx. apply wp_ret.
    set (w1 := set_configs _ w) in Hx.
    assert (stale ns t w1) as H1.
    { exists (set_tc_Finalizers fs t). split_and!; [|done..|by left].
      unfold w1. cbn. apply lookup_insert_eq. }
    split; [|by destruct x as [[]|]; intros t' [= <-]].
    destruct x as [[]|[]]; [by subst|done..|]. destruct Hx as [_ [->| ->]]; [by apply Hsame|done]. }
  destruct uses, (contains _ _); try apply Hset; apply wp_ret;
    (split; [by apply Hsame|by intros t' [= <-]]).
Qed.

(** C16. However the calls of the server fail, a reconcile leaves a configuration with
    the condition Ready only if that is what its status said before, or if its
    platform is up: the Gateway of its tenant exists, the Deployment of its API has
    rolled out with all its replicas, and the EnvoyFilter sends the requests of that
    very Gateway through its processing; then, unless a call has failed, its
    dependencies are there, its database is configured, and it asks for its
    platform. *)
Theorem ready_means_up ns t w :
  w_configs (state w) !! ns = Some t →
  let w' := state (Reconcile r ns w).2 in
  ∀ t', w_configs w' !! ns = Some t' → is_ready t' = true →
    tc_Status t' = tc_Status t
    ∨ (platform_up r ns t' w' ∧ (prerequisites_met r w' ∧ wanted t' ∨ unreliable)).
Proof.
  intros E. refine (wp_run _ (λ _, rightly_ready r ns t) w _). apply wp_Reconcile.
  set (w0 := state w) in *. clearbody w0. clear w.
  assert (rightly_ready r ns t w0) as Hsame.
  { apply stale_rightly. exists t. split_and!; [done..|by left]. }
  unfold reconcile. apply wp_bind. eapply wp_mono; [apply wp_get_config|].
  intros x ? [-> Hx]. destruct x as [t1|[]]; [|by apply wp_ret..].
  rewrite E in Hx. injection Hx as <-.
  destruct (ignored r ns t); [by apply wp_ret|].
  unfold tenantUsesCleanupFinalizer.
  destruct (TenantIdentifierFor ns (tenant_meta t)) as [id|e] eqn:Hid; [|by apply wp_ret].
  destruct (tc_deleting t) eqn:Hd.
  - destruct (decide (Tenant.tenantFinalizer ∈ tc_Finalizers t)) as [Hf|Hf].
    + eapply wp_mono; [by eapply handleDeletion_spec|]. intros x w1 [_ Ho] t' E' _. left.
      assert (w_configs w1 !! ns = Some t ∨ w_configs w1 !! ns = released t) as [H|H].
      { destruct x as [[n|]|e]; cbn in Ho; naive_solver. }
      * congruence.
      * rewrite H in E'. unfold released in E'. destruct (_ =? 0); [done|]. by injection E' as <-.
    + unfold handleDeletion. destruct (contains _ _) eqn:Ec; [by apply contains_true in Ec|].
      by apply wp_ret.
  - apply wp_try. eapply wp_mono; [by apply wp_converge|]. intros [t1|e] w1 [H1 Hm].
    + destruct (Hm t1 eq_refl). by apply reconcile_live_spec.
    + by apply stale_rightly.
Qed.

(** ** Deletion *)

(** A reconcile of a configuration that is being deleted. *)
Lemma wp_Reconcile_deleting ns t Q w :
  w_configs w !! ns = Some t → tc_deleting t = true →
  (∀ x, Q x w) →
  (∀ id, ignored r ns t = false → TenantIdentifierFor ns (tenant_meta t) = Ok id →
     Tenant.tenantFinalizer ∈ tc_Finalizers t →
     wp (handleDeletion r ns t) (λ x w', Q match x with
       | Err e => if match cause e with Some e => is_conflict e | None => false end
                     && isMaasTenantConfigConflict e
                  then Ok (after 0) else Err e
       | Ok _ => x end w') w) →
  wp (Reconcile r ns) Q w.
Proof.
  intros E Hd Hsame Hdel. apply wp_Reconcile. unfold reconcile. apply wp_bind.
  eapply wp_mono; [apply wp_get_config|]. intros x ? [-> Hx].
  destruct x as [t1|[]]; [|by apply wp_ret..]. rewrite E in Hx. injection Hx as <-.
  destruct (ignored r ns t); [by apply wp_ret|]. unfold tenantUsesCleanupFinalizer.
  destruct (TenantIdentifierFor ns (tenant_meta t)) as [id|e] eqn:Hid; [|by apply wp_ret].
  rewrite Hd. destruct (decide (Tenant.tenantFinalizer ∈ tc_Finalizers t)) as [Hf|Hf]; [by apply (Hdel id)|].
  unfold handleDeletion. destruct (contains _ _) eqn:Ec; [by apply contains_true in Ec|]. by apply wp_ret.
Qed.

(** C19. However the calls of the server fail, a configuration that is being deleted
    keeps its finalizer until its namespace has neither subscriptions nor policies
    and each of the nineteen resources of the table, under the names of its tenant,
    is gone or being deleted (the code asks for their deletion and does not wait for
    their finalizers). The autoscaler and the certificate of the tenant are not in
    the table: they stay. *)
Theorem config_goes_only_when_clean ns t w :
  w_configs (state w) !! ns = Some t → tc_deleting t = true →
  let w' := state (Reconcile r ns w).2 in
  w_configs w' !! ns = Some t
  ∨ ∃ id, TenantIdentifierFor ns (tenant_meta t) = Ok id ∧ w_configs w' !! ns = released t
          ∧ torn_down r ns id w'.
Proof.
  intros E Hd.
  refine (wp_run _ (λ _ w', w_configs w' !! ns = Some t ∨ ∃ id,
    TenantIdentifierFor ns (tenant_meta t) = Ok id ∧ w_configs w' !! ns = released t
    ∧ torn_down r ns id w') w _).
  eapply wp_Reconcile_deleting; [done..|by left|].
  intros id _ Hid Hf. eapply wp_mono; [by eapply handleDeletion_spec|]. intros x w' [_ Ho].
  destruct x as [[n|]|e]; cbn in Ho; [left; apply Ho|right; by exists id|].
  destruct Ho as [[?|?] _]; [by left|right; by exists id].
Qed.

(** Rows of the same kind have names of which neither begins the other. *)
Lemma table_apart row row' : row ∈ resource_table r → row' ∈ resource_table r → row.1.1 = row'.1.1 →
  has_prefix row'.2 (row.2 +:+ "-") = false.
Proof.
  intros H H' Ek.
  assert (forallb (λ row : string * string * string, forallb (λ row' : string * string * string,
    negb (row.1.1 == row'.1.1) || negb (has_prefix row'.2 (row.2 +:+ "-"))) (resource_table r))
    (resource_table r) = true) as Hall by reflexivity.
  rewrite forallb_forall in Hall. apply list_elem_of_In in H, H'.
  specialize (Hall row H). rewrite forallb_forall in Hall. specialize (Hall row' H').
  apply orb_true_iff in Hall as [Hk|Hp]; [|by apply negb_true_iff].
  apply negb_true_iff, bool_decide_eq_false in Hk. done.
Qed.

Lemma tenant_resources_disjoint id id' k :
  id ≠ id' → k ∈ tenant_resources r id → k ∉ tenant_resources r id'.
Proof.
  rewrite !tenant_resources_table. intros Hne (row & -> & Hrow)%list_elem_of_fmap
    (row' & [= Ek En Ea] & Hrow')%list_elem_of_fmap.
  destruct (resourceNameForTenant_apart row.2 row'.2 id id') as [_ ?]; [|by apply table_apart| |done..].
  - by apply table_apart.
  - done.
Qed.

(** C21. Taking down one tenant spares the others: the deletion of a configuration
    leaves alone every resource that a teardown of another tenant would delete, and
    the configurations, subscriptions and policies of other namespaces, however the
    calls of the server fail. *)
Theorem teardown_spares_other_tenants ns t id id' w :
  w_configs (state w) !! ns = Some t → tc_deleting t = true →
  TenantIdentifierFor ns (tenant_meta t) = Ok id → id' ≠ id →
  let w' := state (Reconcile r ns w).2 in
  (∀ k, k ∈ tenant_resources r id' → w_resources w' !! k = w_resources (state w) !! k)
  ∧ ∀ ns', ns' ≠ ns →
      w_configs w' !! ns' = w_configs (state w) !! ns'
      ∧ ∀ name, subscriptions_of w' !! (ns', name) = subscriptions_of (state w) !! (ns', name)
                ∧ policies_of w' !! (ns', name) = policies_of (state w) !! (ns', name).
Proof.
  intros E Hd Hid Hne.
  assert (teardown_step ns (λ k, k ∈ tenant_resources r id) (state w) (state (Reconcile r ns w).2)) as H.
  { refine (wp_run _ (λ _, teardown_step ns (λ k, k ∈ tenant_resources r id) (state w)) w _).
    eapply wp_Reconcile_deleting; [done..|].
    intros id1 _ Hid1 Hf. rewrite Hid in Hid1. injection Hid1 as <-.
    eapply wp_mono; [by eapply handleDeletion_spec|]. by intros x w' [? _]. }
  split.
  - intros k Hk. apply H. by apply tenant_resources_disjoint with id'.
  - intros ns' Hns. split; [by apply H|]. intros name. split; by apply H.
Qed.

(** ** The deletion ends *)









(** ** Applying *)

Section applying.
Context (ns : string) (t : MaasTenantConfig) (app : string) (mcfg : Config).

(** Others look after a resource: it is opted out, or has another controller. *)
Definition foreign (x : resource) : bool := unmanaged x || external (an_UID mcfg) x.

(** What is applied for a rendered object: tracked, owned, without its status; the
    plugins' ConfigMap stays managed only when it says so on the server. *)
Definition tracked (old : option resource) (k : rkey) (u : resource) : resource :=
  let u := setTenantTrackingLabels ns t (own mcfg k app u) in
  without_status
    (if isPayloadProcessingPluginsConfigMap k then
       set_rs_Annotations <[AnnotationManaged :=
         match old with
         | Some x => if rs_Annotations x !! AnnotationManaged == Some "true" then "true" else "false"
         | None => "false"
         end]> u
     else u).

(** What is there afterwards. *)
Definition applied (old : option resource) (k : rkey) (u : resource) : option resource :=
  match old with
  | Some x => if foreign x then Some x else Some (apply_object (Some x) (tracked (Some x) k u))
  | None => Some (apply_object None (tracked None k u))
  end.

Context (reliable : ¬ unreliable).

Lemma wp_live_resource k w : k.2.2 ≠ "" → registered k.1 w = true →
  wp (live_resource k) (λ x w', w' = w ∧ x = w_resources w !! k) w.
Proof.
  intros Hn Hr. unfold live_resource. destruct (bool_decide_reflect (k.2.2 = "")); [done|].
  apply wp_bind. eapply wp_mono; [apply wp_get_resource|]. intros x ? [-> Hx]. apply wp_ret.
  split; [done|]. destruct x as [y|[]]; [by destruct Hx|by destruct Hx|congruence|done].
Qed.

Lemma apply_one_spec k u w : k.2.2 ≠ "" → registered k.1 w = true →
  wp (apply_one ns t app mcfg k u) (λ x w', x = Ok ()
    ∧ w' = set_resources (λ m, partial_alter (λ old, applied old k u) k m) w) w.
Proof.
  intros Hn Hr. unfold apply_one, isLiveResourceUnmanaged, isOwnedByExternalController,
    preparePayloadProcessingPluginsConfigMapApply.
  apply wp_bind, wp_bind. eapply wp_mono; [by apply wp_live_resource|]. intros x ? [-> ->]. apply wp_ret.
  assert (∀ y, w_resources w !! k = Some y → foreign y = true →
    w = set_resources (λ m, partial_alter (λ old, applied old k u) k m) w) as Hkeep.
  { intros y E Hf. destruct w as [c cfg an res sec ki o1 o2]. unfold set_resources. cbn in *. f_equal.
    symmetry. apply partial_alter_id. rewrite E. unfold applied. by rewrite Hf. }
  destruct (match w_resources w !! k with Some x => unmanaged x | None => false end) eqn:Eu.
  { apply wp_ret. split; [done|]. destruct (w_resources w !! k) as [y|] eqn:E; [|done].
    eapply Hkeep; [done|]. unfold foreign. by rewrite Eu. }
  apply wp_bind, wp_bind. eapply wp_mono; [by apply wp_live_resource|]. intros x ? [-> ->]. apply wp_ret.
  destruct (match w_resources w !! k with Some x => external (an_UID mcfg) x | None => false end) eqn:Ee.
  { apply wp_ret. split; [done|]. destruct (w_resources w !! k) as [y|] eqn:E; [|done].
    eapply Hkeep; [done|]. unfold foreign. rewrite Ee. apply orb_true_r. }
  assert (∀ v, without_status v = tracked (w_resources w !! k) k u →
    wp (in_context ("apply " +:+ k.1 +:+ " " +:+ k.2.1 +:+ "/" +:+ k.2.2)
          (apply_resource k (without_status v)))
      (λ x w', x = Ok () ∧ w' = set_resources (λ m, partial_alter (λ old, applied old k u) k m) w) w)
    as Happly.
  { intros v Ev. apply wp_bind. eapply wp_mono; [apply wp_write|].
    { intros e. by repeat case_match. }
    intros x w' Hx. cbn beta in Hx. apply wp_ret. rewrite Hr, Ev in Hx. cbn [negb] in Hx.
    assert (set_resources (partial_alter (λ old, Some (apply_object old
              (tracked (w_resources w !! k) k u))) k) w
            = set_resources (λ m, partial_alter (λ old, applied old k u) k m) w) as Eq.
    { unfold set_resources. f_equal. apply partial_alter_ext. intros o Eo. rewrite Eo.
      unfold applied, foreign. rewrite Eo in Eu, Ee. destruct o as [y|]; [|done].
      by rewrite Eu, Ee. }
    destruct x as [[]|[]]; [|by destruct Hx..].

    injection Hx as <-. by rewrite Eq. }
  apply wp_bind. unfold tracked in Happly. destruct (isPayloadProcessingPluginsConfigMap k); cbn [negb].
  - apply wp_bind. eapply wp_mono; [by apply wp_live_resource|]. intros x ? [-> ->]. apply wp_ret.
    by apply Happly.
  - apply wp_ret. by apply Happly.
Qed.

Lemma apply_all_spec objs w : NoDup objs.*1 →
  (∀ k, k ∈ objs.*1 → k.2.2 ≠ "" ∧ registered k.1 w = true) →
  wp (apply_all ns t app mcfg objs) (λ x w', x = Ok ()
    ∧ (∀ k u, (k, u) ∈ objs → w_resources w' !! k = applied (w_resources w !! k) k u)
    ∧ resources_step (λ k, k ∈ objs.*1) w w') w.
Proof.
  revert w. induction objs as [|[k u] objs IH]; intros w Hd Hk; cbn [apply_all].
  { apply wp_ret. split_and!; [done| |done]. intros k u H. by apply elem_of_nil in H. }
  cbn [fmap list_fmap fst] in Hd, Hk. apply NoDup_cons in Hd as [Hn Hd].
  destruct (Hk k ltac:(left)) as [Hname Hreg].
  apply wp_try. eapply wp_mono; [by apply apply_one_spec|]. intros x ? [-> ->].
  eapply wp_mono; [apply IH; [done|]|].
  { intros k' Hin. destruct (Hk k' ltac:(by right)). by split. }
  intros x w' (-> & Ha & Hs). split_and!; [done| |].
  - intros k' u' [[= -> ->]|Hin]%elem_of_cons.
    + rewrite (proj2 Hs k Hn). cbn. by rewrite lookup_partial_alter_eq.
    + rewrite (Ha k' u' Hin). cbn. rewrite lookup_partial_alter_ne; [done|]. intros ->.
      apply Hn. apply list_elem_of_fmap. by exists (k', u').
  - etrans; [|eapply resources_step_mono; [exact Hs|]; intros k' ?; by right].
    split; [done|]. intros k' Hne. cbn. rewrite lookup_partial_alter_ne; [done|].
    intros ->. apply Hne. left.
Qed.
End applying.

Context {tlawful : LawfulTenantServer} {plawful : LawfulPlatformServer}.

(** Independently of how it is done: an object that others look after. *)
Definition others_look_after (mcfg : Config) (x : resource) : Prop :=
  rs_Annotations x !! "opendatahub.io/managed" = Some "false"
  ∨ ∃ o, o ∈ rs_Owners x ∧ o_Controller o = true ∧ o_UID o ≠ an_UID mcfg.

(** The Deployment of the controller itself, which does not go with the Config. *)
Definition own_deployment (app : string) (k : rkey) : Prop :=
  app ≠ "" ∧ ToLower k.1 = "deployment" ∧ k.2 = (app, "maas-controller").

(** The ConfigMaps of the plugins, which are left to their users. *)
Definition plugins_map (k : rkey) : Prop :=
  k.1 = "ConfigMap" ∧
  (k.2.2 = "payload-processing-plugins"
   ∨ ∃ s, k.2.2 = "payload-processing-plugins-" +:+ s).

(** [y] is what was rendered, as an object of the tenant: its labels with those of the
    tenant, its annotations, its fields but the status, and the Config as its
    controller if it is rendered with none. *)
Record is_applied (ns : string) (t : MaasTenantConfig) (app : string) (mcfg : Config)
    (old : option resource) (k : rkey) (u y : resource) : Prop := {
  applied_namespace : rs_Labels y !! "maas.opendatahub.io/tenant-namespace" = Some ns;
  applied_name : rs_Labels y !! "maas.opendatahub.io/tenant-name" =
    Some (match tc_Labels t !! "maas.opendatahub.io/tenant-name" with
          | Some name => if name == "" then "default-tenant" else name
          | None => "default-tenant"
          end);
  applied_labels l v :
    l ∉ ["maas.opendatahub.io/tenant-namespace"; "maas.opendatahub.io/tenant-name"] →
    rs_Labels u !! l = Some v → rs_Labels y !! l = Some v;
  applied_plugins : plugins_map k →
    rs_Annotations y !! "opendatahub.io/managed" =
    Some (if decide ((old ≫= λ x, rs_Annotations x !! "opendatahub.io/managed")
                     = Some "true")
          then "true" else "false");
  applied_annotations l v :
    (plugins_map k → l ≠ "opendatahub.io/managed") →
    rs_Annotations u !! l = Some v → rs_Annotations y !! l = Some v;
  applied_owner : ¬ own_deployment app k →
    (∀ o, o ∈ rs_Owners u → o_Controller o = false) →
    mkOwner "maas.opendatahub.io/v1alpha1" "Config" "default" (an_UID mcfg) true
      ∈ rs_Owners y;
  applied_fields path v :
    head path ≠ Some "status" → is_scalar v = true →
    field_at (rs_Object u) path = Some v → field_at (rs_Object y) path = Some v;
  applied_deleting x : old = Some x → rs_deleting y = rs_deleting x;
}.

Lemma foreign_spec mcfg x : foreign mcfg x = true ↔ others_look_after mcfg x.
Proof.
  unfold foreign, unmanaged, external, others_look_after.
  rewrite orb_true_iff, bool_decide_eq_true, existsb_elem_of.
  setoid_rewrite andb_true_iff. setoid_rewrite negb_true_iff.
  setoid_rewrite bool_decide_eq_false. done.
Qed.

Lemma plugins_map_spec k : isPayloadProcessingPluginsConfigMap k = true ↔ plugins_map k.
Proof.
  unfold isPayloadProcessingPluginsConfigMap, plugins_map.
  rewrite andb_true_iff, orb_true_iff, !bool_decide_eq_true, has_prefix_true.
  unfold PayloadProcessingPluginsConfigMapName.
  change ("payload-processing-plugins" +:+ "-") with "payload-processing-plugins-". done.
Qed.

Lemma own_deployment_spec app k :
  skipConfigControllerOwnerRef k app = true → own_deployment app k.
Proof.
  unfold skipConfigControllerOwnerRef, isMaaSControllerDeployment, own_deployment.
  destruct k as [kind [ns name]]. cbn [fst snd].
  destruct ((app == "") || (ns != app)) eqn:E; [done|]. intros H.
  apply orb_false_iff in E as [E1 E2]. apply bool_decide_eq_false in E1.
  apply negb_false_iff, bool_decide_eq_true in E2 as ->.
  apply andb_true_iff in H as [H1%bool_decide_eq_true H2%bool_decide_eq_true].
  by subst name.
Qed.

Lemma own_labels mcfg k app u : rs_Labels (own mcfg k app u) = rs_Labels u
  ∧ rs_Annotations (own mcfg k app u) = rs_Annotations u
  ∧ rs_Object (own mcfg k app u) = rs_Object u.
Proof. unfold own. by repeat case_match. Qed.

Lemma own_owner mcfg k app u :
  ¬ own_deployment app k → (∀ o, o ∈ rs_Owners u → o_Controller o = false) →
  controller_of "Config" "default" (an_UID mcfg) ∈ rs_Owners (own mcfg k app u).
Proof.
  intros Hd Ho. unfold own. destruct (skipConfigControllerOwnerRef k app) eqn:Es.
  { by destruct Hd; apply own_deployment_spec. }
  destruct (SetControllerReference_free "Config" "default" (an_UID mcfg) (rs_Owners u))
    as [l Hl].
  { intros o Hf. apply find_some in Hf as [Hin Hc]. apply list_elem_of_In in Hin.
    by rewrite Ho in Hc. }
  rewrite Hl. cbn. apply SetControllerReference_first, find_some in Hl as [Hin _].
  by apply list_elem_of_In.
Qed.

Lemma field_at_filtered o path :
  head path ≠ Some "status" →
  field_at (List.filter (λ kv : string * value, kv.1 != "status") o) path = field_at o path.
Proof.
  assert (∀ k, k ≠ "status" →
    map_get k (List.filter (λ kv : string * value, kv.1 != "status") o) = map_get k o) as H.
  { intros k Hk. induction o as [|[k' v] o IH]; [done|]. cbn.
    destruct (bool_decide_reflect (k' = "status")) as [->|Hs]; cbn.
    - by rewrite bool_decide_eq_false_2.
    - by rewrite IH. }
  destruct path as [|k [|k' path]]; [done|..]; cbn; intros Hk; unfold get_map;
    rewrite H; congruence.
Qed.

Lemma tracked_is_applied ns t app mcfg old k u :
  is_applied ns t app mcfg old k u (apply_object old (tracked ns t app mcfg old k u)).
Proof.
  set (x := tracked ns t app mcfg old k u).
  destruct (own_labels mcfg k app u) as (El & Ea & Eo).
  assert (rs_Labels x = <[LabelTenantNamespace := ns]>
    (<[LabelTenantName := tenantTrackingName t]> (rs_Labels u))) as Hl.
  { unfold x, tracked. destruct (isPayloadProcessingPluginsConfigMap k); cbn; by rewrite El. }
  assert (rs_Annotations x = if isPayloadProcessingPluginsConfigMap k
    then <[AnnotationManaged := match old with
           | Some x => if rs_Annotations x !! AnnotationManaged == Some "true"
                       then "true" else "false"
           | None => "false" end]> (rs_Annotations u) else rs_Annotations u) as Han.
  { unfold x, tracked. destruct (isPayloadProcessingPluginsConfigMap k); cbn; by rewrite Ea. }
  split.
  - eapply lookup_weaken; [|apply apply_labels]. rewrite Hl. apply lookup_insert_eq.
  - eapply lookup_weaken; [|apply apply_labels]. rewrite Hl.
    rewrite lookup_insert_ne by done.
    etrans; [apply lookup_insert_eq|]. f_equal. unfold tenantTrackingName, at_key.
    change LabelTenantName with "maas.opendatahub.io/tenant-name".
    destruct (tc_Labels t !! _) as [name|]; [|done]. cbn.
    by destruct (bool_decide_reflect (name = "")).
  - intros l v Hne Hv. eapply lookup_weaken; [|apply apply_labels]. rewrite Hl.
    rewrite !lookup_insert_ne; [done|..]; intros <-; apply Hne;
      [right; left|left].
  - intros Hp%plugins_map_spec. eapply lookup_weaken; [|apply apply_annotations].
    rewrite Han, Hp. etrans; [apply lookup_insert_eq|]. f_equal.
    unfold AnnotationManaged. destruct old as [y|]; cbn; [|by rewrite decide_False].
    destruct (decide _); [by rewrite bool_decide_eq_true_2|by rewrite bool_decide_eq_false_2].
  - intros l v Hne Hv. eapply lookup_weaken; [|apply apply_annotations]. rewrite Han.
    destruct (isPayloadProcessingPluginsConfigMap k) eqn:Hp; [|done].
    rewrite lookup_insert_ne; [done|]. intros <-. by apply Hne; [apply plugins_map_spec|].
  - intros Hd Ho. apply apply_owners. unfold x, tracked.
    pose proof (own_owner mcfg k app u Hd Ho).
    by destruct (isPayloadProcessingPluginsConfigMap k).
  - intros path v Hh Hsc Hv. apply apply_fields; [done|]. unfold x, tracked, without_status.
    cbn [rs_Object]. rewrite field_at_filtered by done.
    destruct (isPayloadProcessingPluginsConfigMap k); cbn; by rewrite Eo.
  - intros y ->. apply apply_deleting.
Qed.

(** What is put on the server is what was rendered. *)
Lemma applied_spec ns t app mcfg old k u :
  (∃ y, old = Some y ∧ others_look_after mcfg y
        ∧ applied ns t app mcfg old k u = Some y)
  ∨ (¬ (∃ y, old = Some y ∧ others_look_after mcfg y)
     ∧ ∃ y, applied ns t app mcfg old k u = Some y ∧ is_applied ns t app mcfg old k u y).
Proof.
  assert (is_applied ns t app mcfg old k u
            (apply_object old (tracked ns t app mcfg old k u))) as Happ.
  { by apply tracked_is_applied. }
  unfold applied. destruct old as [x|].
  - setoid_rewrite <-foreign_spec. destruct (foreign mcfg x) eqn:Ef.
    + left. eauto.
    + right. split; [|eauto]. intros (y & [= <-] & H). congruence.
  - right. split; [by intros (y & ? & _)|eauto].
Qed.

(** C20. Applying does what was rendered, and spares what others manage. When the calls
    succeed, every rendered object that is on the server opted out ([managed=false])
    or with another controller is as it was. Any other is afterwards on the server
    with everything that was rendered: its fields with strings, integers and booleans
    but the status, its labels and annotations, with the labels of its tenant, and
    the Config as its controller unless it was rendered with a controller or is the
    Deployment of maas-controller; the plugins' ConfigMap is opted out unless it said
    otherwise on the server; and whether it is being deleted is as before. Every
    other resource is as it was. *)
Theorem ApplyRendered_exact ns t app mcfg objs w :
  (∀ n, api_fault n = None) → an_UID mcfg ≠ "" → NoDup objs.*1 →
  (∀ k, k ∈ objs.*1 → k.2.2 ≠ "" ∧ registered k.1 (state w) = true) →
  let '(x, w') := ApplyRendered ns t app mcfg objs w in
  x = Ok ()
  ∧ (∀ k u, (k, u) ∈ objs →
       let old := w_resources (state w) !! k in
       (∃ y, old = Some y ∧ others_look_after mcfg y
             ∧ w_resources (state w') !! k = Some y)
       ∨ (¬ (∃ y, old = Some y ∧ others_look_after mcfg y)
          ∧ ∃ y, w_resources (state w') !! k = Some y
                 ∧ is_applied ns t app mcfg old k u y))
  ∧ (∀ k, k ∉ objs.*1 → w_resources (state w') !! k = w_resources (state w) !! k)
  ∧ state w' = set_resources (λ _, w_resources (state w')) (state w).
Proof.
  intros Hrel Huid Hd Hk.
  assert (¬ unreliable) as Hu by (intros [n [f Hn]]; by rewrite Hrel in Hn).
  pose proof (wp_run _ _ w (apply_all_spec ns t app mcfg Hu objs (state w) Hd Hk)) as H.
  unfold ApplyRendered. destruct (bool_decide_reflect (an_UID mcfg = "")); [done|].
  destruct (apply_all _ _ _ _ _ w) as [x w']. cbn [fst snd] in H.
  destruct H as (-> & Ha & E & Hs). split_and!; [done| |done..].
  intros k u Hin. rewrite (Ha k u Hin). apply applied_spec.
Qed.
End properties.

(** ** Concrete platforms *)

Module ConfigExamples.
Import DocApi TenantDoc.

#[local] Instance ascii_only : Unicode := {| IsPrint _ := false |}.

(** What is applied goes over what is there. *)
Definition merge_fields (old new : obj) : obj :=
  new ++ List.filter (λ kv : string * value, negb (existsb (λ kv', kv'.1 == kv.1) new)) old.
Definition merge (old : option resource) (new : resource) : resource :=
  match old with
  | None => new
  | Some x => mkResource (rs_Labels new ∪ rs_Labels x) (rs_Annotations new ∪ rs_Annotations x)
                (rs_Owners new) (rs_Generation x) (merge_fields (rs_Object x) (rs_Object new))
                (rs_Finalizers x) (rs_deleting x)
  end.

#[export] Instance doc_platform_server : PlatformServer := {|
  apply_object := merge;
  is_conflict _ := false;
  details_name _ := None;
  is_forbidden _ := false;
  filepath_Abs s := Ok s;
  IsDNS1123Subdomain s := if s == "" then ["a lowercase RFC 1123 subdomain must not be empty"] else [];
  NestedBool := typed as_bool;
  NestedStringMap := typed as_string_map;
|}.

Lemma map_get_merged k new l v :
  map_get k new = Some v → map_get k (new ++ l) = Some v.
Proof.
  induction new as [|[k' v'] new IH]; cbn; [done|]. destruct (k' == k); auto.
Qed.

#[export] Instance doc_platform_lawful : LawfulPlatformServer.
Proof.
  split.
  - intros [y|] x; [|done]. apply map_union_subseteq_l.
  - intros [y|] x; [|done]. apply map_union_subseteq_l.
  - by intros [y|] x o.
  - intros [y|] x path v _; [|done]. cbn. unfold merge_fields.
    destruct path as [|k [|k' path]]; cbn; [done| |].
    + apply map_get_merged.
    + unfold get_map. destruct (map_get k (rs_Object x)) as [m|] eqn:E; [|done].
      by rewrite (map_get_merged _ _ _ _ E).
  - done.
Qed.

Definition plain (o : obj) : resource := mkResource ∅ ∅ [] 1 o [] false.

(** The API, and the filter on the Gateway. *)
Definition api_deployment (p : PlatformParams) : rkey * resource :=
  (("Deployment", (p_AppNamespace p, MaaSAPIDeploymentName (p_TenantIdentifier p))),
   plain [("spec", VMap [("replicas", VInt 1)])]).
Definition filter_object (gateway : string) : obj :=
  [("spec", VMap [("priority", VInt 10);
     ("workloadSelector", VMap [("labels", VMap [(gatewayNameLabel, VString gateway)])])])].
Definition gateway_filter (p : PlatformParams) : rkey * resource :=
  (("EnvoyFilter", (p_GatewayNamespace p, PayloadProcessingDeploymentName (p_TenantIdentifier p))),
   plain (filter_object (p_GatewayName p))).

#[export] Instance doc_renderer : Renderer := {|
  RenderKustomize _ _ := Ok [];
  PostRender _ _ _ p := Ok [api_deployment p; gateway_filter p];
|}.

Definition controller : TenantReconciler :=
  mkTenantReconciler
    (mkSettings "/manifests" "opendatahub" "maas-system" "audience" "monitoring" (mkImages "" "" ""))
    "" "" "" "models-as-a-service" "maas-gateway" "ingress" true 0.

Definition no_status : MaasTenantConfigStatus := mkConfigStatus "" "" [].
Definition default_config (annotations : gmap string string) : MaasTenantConfig :=
  mkTenantConfig ∅ annotations [] 1 false (mkConfigSpec None None None None) no_status.

(** The configuration of the tenant red, being deleted. *)
Definition red_config : MaasTenantConfig :=
  mkTenantConfig {[ LabelManagedByAITenant := "true"; LabelTenantName := "red" ]} ∅
    [Tenant.tenantFinalizer] 1 true (mkConfigSpec None None None None) no_status.

Definition gateway_object : Gateway := mkGatewayObject "uid-gateway" [] [].


(** The Gateways of the default tenant and of red; the latter's AITenant. *)
Definition base_cluster (subs : gmap key V1.MaaSSubscription) (crs : gmap key V1.MaaSAuthPolicy)
    : cluster :=
  mkCluster subs ∅ ∅ ∅ ∅ ∅ ∅ ∅ {[ ("ai-tenants", "red") := mkAITenant (mkGateway "red" "ingress") None ]}
    crs ∅ (list_to_map [(("ingress", "maas-gateway"), gateway_object);
                        (("ingress", "red"), gateway_object)]) ∅ ∅ ∅.

(** The API of the default tenant has rolled out. *)
Definition api_up : resource :=
  plain [("spec", VMap [("replicas", VInt 1)]);
         ("status", VMap [("observedGeneration", VInt 1); ("updatedReplicas", VInt 1);
                          ("availableReplicas", VInt 1)])].
Definition database : gmap key (gmap string string) :=
  {[ ("opendatahub", "maas-db-config") := {[ "DB_CONNECTION_URL" := "postgresql://db" ]} ]}.
Definition all_kinds : gset string :=
  list_to_set ["AuthConfig"; "Authorino"; "DSCInitialization"; "Deployment"; "Service"; "HTTPRoute";
    "CronJob"; "TokenRateLimitPolicy"; "DestinationRule"; "TelemetryPolicy"; "Telemetry";
    "EnvoyFilter"; "WasmPlugin"; "NetworkPolicy"; "ServiceAccount"; "ConfigMap"; "ClusterRoleBinding";
    "HorizontalPodAutoscaler"].

Definition world (t : MaasTenantConfig) (secrets : gmap key (gmap string string)) : platform :=
  mkWorld (base_cluster ∅ ∅) {[ "models-as-a-service" := t ]} (Some (mkConfig "uid-config" false))
    {[ ("Deployment", ("opendatahub", "maas-api")) := api_up ]} secrets all_kinds false false.

Definition after_reconcile (srv : ApiServer) (ns : string) (w : platform) : platform :=
  state (Reconcile (srv := srv) controller ns (IO 0 w)).2.
Definition ready_in (w : platform) (ns : string) : bool :=
  match w_configs w !! ns with
  | Some t => is_ready (srv := DocCluster.reliable) t
  | None => false
  end.

(** The namespace of the tenant red, whose API and autoscaler are there. *)
Definition red_namespace : string := "ai-tenant-red".
Definition red_world (subs : gmap key V1.MaaSSubscription) (crs : gmap key V1.MaaSAuthPolicy)
    : platform :=
  mkWorld (base_cluster subs crs) {[ red_namespace := red_config ]} (Some (mkConfig "uid-config" false))
    (list_to_map [(("Deployment", ("opendatahub", "maas-api")), api_up);
                  (("Deployment", ("opendatahub", "maas-api-red")), api_up);
                  (("HorizontalPodAutoscaler", ("ingress", "payload-processing-red")), plain [])])
    database all_kinds false false.



End ConfigExamples.

(** ** The properties, at concrete platforms *)

Section witnesses.
Import DocApi TenantDoc ConfigExamples.
#[local] Instance ascii : Unicode := {| IsPrint _ := false |}.

Lemma doc_reliable : ¬ @unreliable DocCluster.reliable.
Proof. by intros [n [f Hf]]. Qed.

Lemma ready_means_up_witness :
  let srv := DocCluster.reliable in
  let w' := after_reconcile DocCluster.reliable "models-as-a-service"
              (world (default_config ∅) database) in
  ready_in w' "models-as-a-service" = true
  ∧ ∃ t', w_configs w' !! "models-as-a-service" = Some t'
      ∧ platform_up controller "models-as-a-service" t' w' ∧ prerequisites_met controller w'.
Proof.
  intros srv w'. split; [by_compute|].
  assert (ready_in w' "models-as-a-service" = true) as Hr by by_compute.
  unfold ready_in in Hr. destruct (w_configs w' !! "models-as-a-service") as [t'|] eqn:E; [|done].
  exists t'. split; [done|].
  destruct (ready_means_up (lawful := DocCluster.reliable_lawful) controller "models-as-a-service"
    (default_config ∅) (IO 0 (world (default_config ∅) database)) eq_refl t' E Hr) as [Es|[H1 [[H2 _]|H2]]].
  - exfalso. unfold is_ready in Hr. rewrite Es in Hr. vm_compute in Hr. discriminate Hr.
  - by split.
  - by destruct doc_reliable.
Defined.

Lemma config_goes_only_when_clean_witness :
  let srv := DocCluster.reliable in
  let w' := after_reconcile DocCluster.reliable red_namespace (red_world ∅ ∅) in
  w_configs w' !! red_namespace = None ∧ torn_down controller red_namespace "red" w'.
Proof.
  intros srv w'.
  assert (match w_configs w' !! red_namespace with None => true | Some _ => false end = true) as Hn by by_compute.
  destruct (w_configs w' !! red_namespace) as [t'|] eqn:E; [discriminate Hn|].
  split; [done|].
  destruct (config_goes_only_when_clean (lawful := DocCluster.reliable_lawful) controller
    red_namespace red_config (IO 0 (red_world ∅ ∅)) eq_refl eq_refl) as [H|(id & Hid & _ & H)].
  - pose proof (eq_trans (eq_sym E) H) as Hx. discriminate Hx.
  - replace "red" with id; [done|]. enough (Ok (E := string) id = Ok "red") as [= ->] by done.
    rewrite <-Hid. by_compute.
Defined.

Lemma teardown_spares_other_tenants_witness :
  let srv := DocCluster.reliable in
  let w' := after_reconcile DocCluster.reliable red_namespace (red_world ∅ ∅) in
  w_resources w' !! ("Deployment", ("opendatahub", "maas-api")) = Some api_up.
Proof.
  intros srv w'.
  destruct (teardown_spares_other_tenants (lawful := DocCluster.reliable_lawful) controller
    red_namespace red_config "red" "" (IO 0 (red_world ∅ ∅))) as [H _]; [done..|by_compute|done|].
  etrans; [apply (H ("Deployment", ("opendatahub", "maas-api")))|by_compute].
  rewrite tenant_resources_table. left.
Defined.


(** The filter of the Gateway has been opted out. *)
Definition opted_out : resource :=
  mkResource ∅ {[ AnnotationManaged := "false" ]} [] 1 (filter_object "elsewhere")
    [] false.
Definition filter_key : rkey := ("EnvoyFilter", ("ingress", "payload-processing")).
Definition rendered_objects : list (rkey * resource) :=
  [(("Deployment", ("opendatahub", "maas-api")), plain [("spec", VMap [("replicas", VInt 2)])]);
   (filter_key, plain (filter_object "maas-gateway"))].
Definition opted_out_world : platform :=
  set_resources <[filter_key := opted_out]> (world (default_config ∅) database).

Lemma ApplyRendered_exact_witness :
  let srv := DocCluster.reliable in
  let '(x, w') := ApplyRendered "models-as-a-service" (default_config ∅) "opendatahub"
                    (mkConfig "uid-config" false) rendered_objects (IO 0 opted_out_world) in
  x = Ok ()
  ∧ w_resources (state w') !! filter_key = Some opted_out
  ∧ (∃ dep, w_resources (state w') !! ("Deployment", ("opendatahub", "maas-api")) = Some dep
       ∧ field_at (rs_Object dep) ["spec"; "replicas"] = Some (VInt 2)
       ∧ rs_Labels dep !! LabelTenantNamespace = Some "models-as-a-service").
Proof.
  intros srv.
  pose proof (ApplyRendered_exact (lawful := DocCluster.reliable_lawful) "models-as-a-service"
    (default_config ∅) "opendatahub" (mkConfig "uid-config" false) rendered_objects
    (IO 0 opted_out_world)) as H.
  destruct (ApplyRendered _ _ _ _ _ _) as [x w'].
  destruct H as (Hx & Ha & _); [done|done| | |].
  - repeat constructor; set_solver.
  - assert (Forall (λ k : rkey, k.2.2 ≠ "" ∧ registered k.1 opted_out_world = true)
      rendered_objects.*1) as Hf by (repeat constructor; done).
    intros k Hk. by eapply Forall_forall in Hf.
  - split; [done|]. split.
    + destruct (Ha filter_key (plain (filter_object "maas-gateway"))) as [(y & Hy & _ & E)|[Hno _]];
        [right; left| |].
      * rewrite E. symmetry. etrans; [|exact Hy]. by_compute.
      * exfalso. apply Hno. exists opted_out. split; [by_compute|]. left. by_compute.
    + destruct (Ha ("Deployment", ("opendatahub", "maas-api"))
        (plain [("spec", VMap [("replicas", VInt 2)])])) as [(y & Hy & Ho & _)|(_ & y & Hy & Hap)];
        [left| |].
      * exfalso. assert (Some api_up = Some y) as [= <-] by (etrans; [|exact Hy]; by_compute).
        destruct Ho as [Ho|(o & Ho & _)]; [discriminate Ho|by apply not_elem_of_nil in Ho].
      * exists y. split; [exact Hy|]. destruct Hap as [Hns _ _ _ _ _ Hfields _].
        split; [|exact Hns].
        exact (Hfields ["spec"; "replicas"] (VInt 2) ltac:(discriminate) eq_refl eq_refl).
Defined.

(** ** What the code does not rule out *)

(** A missing database, or a management state that is not supported, holds a
    platform back only if that can be written to the status: when it cannot, the
    reconcile goes on, and reports that the platform is up. *)
Example missing_database_passed_over :
  let w := world (default_config ∅) ∅ in
  ready_in (after_reconcile DocCluster.reliable "models-as-a-service" w) "models-as-a-service" = false
  ∧ ready_in (after_reconcile (DocCluster.flaky 8) "models-as-a-service" w) "models-as-a-service" = true
  ∧ w_secrets (after_reconcile (DocCluster.flaky 8) "models-as-a-service" w) = ∅.
Proof. split_and!; by_compute. Qed.

Definition odd_config : MaasTenantConfig :=
  default_config {[ managementStateAnnotation := "Paused" ]}.
Example unsupported_state_passed_over :
  let w := world odd_config database in
  ready_in (after_reconcile DocCluster.reliable "models-as-a-service" w) "models-as-a-service" = false
  ∧ ready_in (after_reconcile (DocCluster.flaky 1) "models-as-a-service" w) "models-as-a-service" = true.
Proof. split; by_compute. Qed.

(** The cleanup of earlier versions is tried once: when a call fails, it is not tried
    again. *)
Definition legacy_key : rkey := ("Deployment", ("maas-system", "maas-api")).
Definition legacy_world : platform :=
  set_resources <[legacy_key := mkResource {[ "app.kubernetes.io/part-of" := "models-as-a-service" ]}
                                  ∅ [] 1 [] [] false]>
    (world (default_config ∅) database).
Definition cleanup_on (srv : ApiServer) (w : platform) : platform :=
  state (attemptLegacyCleanup (srv := srv) controller (IO 0 w)).2.
Example cleanup_not_retried :
  let there (w : platform) := bool_decide (is_Some (w_resources w !! legacy_key)) in
  there (cleanup_on DocCluster.reliable legacy_world) = false
  ∧ let w := cleanup_on (DocCluster.flaky 0) legacy_world in
    there w = true ∧ w_cleanupCompleted w = false
    ∧ there (cleanup_on DocCluster.reliable w) = true.
Proof. cbv zeta. split_and!; by_compute. Qed.

(** A tenant's autoscaler outlives it. *)
Example autoscaler_outlives_tenant :
  let w' := after_reconcile DocCluster.reliable red_namespace (red_world ∅ ∅) in
  bool_decide (is_Some (w_configs w' !! red_namespace)) = false
  ∧ bool_decide (is_Some (w_resources w' !! ("Deployment", ("opendatahub", "maas-api-red")))) = false
  ∧ bool_decide (is_Some (w_resources w' !!
      ("HorizontalPodAutoscaler", ("ingress", "payload-processing-red")))) = true.
Proof. split_and!; by_compute. Qed.

(** A resource that is opted out goes with its tenant nonetheless. *)
Example opted_out_deleted :
  let k : rkey := ("EnvoyFilter", ("ingress", "payload-processing-red")) in
  let w := set_resources <[k := opted_out]> (red_world ∅ ∅) in
  bool_decide (is_Some (w_resources (after_reconcile DocCluster.reliable red_namespace w) !! k)) = false.
Proof. by_compute. Qed.

(** It is written over when it cannot be read. *)
Example opted_out_written_over :
  let run (srv : ApiServer) :=
    state (apply_one (srv := srv) "models-as-a-service" (default_config ∅) "opendatahub"
             (mkConfig "uid-config" false) filter_key (plain (filter_object "maas-gateway"))
             (IO 0 opted_out_world)).2 in
  let gateway (w : platform) :=
    x ← w_resources w !! filter_key;
    found (NestedString (rs_Object x) ["spec"; "workloadSelector"; "labels"; gatewayNameLabel]) in
  gateway (run DocCluster.reliable) = Some "elsewhere"
  ∧ gateway (run (DocCluster.flaky 0)) = Some "maas-gateway".
Proof. split; by_compute. Qed.
End witnesses.
