(* ===== verification/RenderingCorrectness.v ===== *)
(** The properties of rendering: whose the rendered objects are, that services select
    the pods of their tenant and routes lead to its service, and that the filter
    passes the check of its readiness. *)
From S2P Require Import Prelude GoStrings Unstructured GoFmt MaasTypes Cluster ControllerHelpers.
From S2P Require Import SubscriptionExamples TenantCluster AITenantParts AITenantCorrectness.
From S2P Require Import PlatformParams Platform Manifests Rendering TenantConfigController.
From S2P Require Import TenantConfigFacts TenantConfigCorrectness.
Import Infra Params Cluster Helpers Fmt Platform Manifests Rendering ConfigController.

(** ** Errors as texts *)

Lemma bind_ok {A B} (x : result string A) (f : A → result string B) b :
  x ≫= f = Ok b → ∃ a, x = Ok a ∧ f a = Ok b.
Proof. destruct x as [a|e]; cbn; [by exists a|done]. Qed.
Lemma wrapped_ok {A} context (x : result string A) a : wrapped context x = Ok a → x = Ok a.
Proof. by destruct x. Qed.
Lemma on_object_ok f (r r' : rendered) : on_object f r = Ok r' →
  r'.1 = r.1 ∧ f (rs_Object r.2) = Ok (rs_Object r'.2) ∧ rs_Annotations r'.2 = rs_Annotations r.2.
Proof. unfold on_object. intros (o & Ho & [= <-])%bind_ok. by rewrite Ho. Qed.

(** Every step of a change that succeeds has succeeded. *)
Ltac steps :=
  repeat match goal with
  | H : (_ ≫= _) = Ok _ |- _ => apply bind_ok in H as (? & ? & H)
  | H : wrapped _ _ = Ok _ |- _ => apply wrapped_ok in H
  | H : Ok _ = Ok _ |- _ => injection H as H
  | H : mret _ = Ok _ |- _ => injection H as H
  | H : Err _ = Ok _ |- _ => discriminate H
  end.

Section documents.
Context {api : ApiMachinery} {psrv : PlatformServer} {wr : NestedWriter} {uni : Unicode}.
Context {laws : LawfulNested}.

(** A change of a document that keeps what is read at some paths. *)
Definition keeps (q : list string) (o o' : obj) : Prop := DocApi.walk o' q = DocApi.walk o q.

Lemma set_field_keeps q m v p m' : apart p q = true → SetNestedField m v p = Ok m' → keeps q m m'.
Proof. intros Hq Hs. by eapply field_kept. Qed.

Lemma read_set_string m v p m' : SetNestedField m (VString v) p = Ok m' → NestedString m' p = Found v.
Proof. intros H. rewrite string_reads. unfold DocApi.typed. by rewrite (field_set _ _ _ _ H). Qed.
Lemma read_set_int64 m v p m' : SetNestedField m (VInt v) p = Ok m' → NestedInt64 m' p = Found v.
Proof. intros H. rewrite int64_reads. unfold DocApi.typed. by rewrite (field_set _ _ _ _ H). Qed.
Lemma read_set_slice m l p m' : SetNestedSlice m l p = Ok m' → NestedSlice m' p = Found l.
Proof.
  rewrite slice_set, slice_reads. intros H. unfold DocApi.typed. by rewrite (field_set _ _ _ _ H).
Qed.

Lemma as_string_map_of (s : gmap string string) : DocApi.as_string_map (string_map s) = Some s.
Proof.
  unfold DocApi.as_string_map, string_map. cbn.
  assert (∀ l : list (string * string),
    mapM (λ kv : string * value, s ← as_string kv.2; Some (kv.1, s))
      ((λ kv : string * string, (kv.1, VString kv.2)) <$> l) = Some l) as Hl.
  { induction l as [|[k v] l IH]; [done|]. cbn in *. by rewrite IH. }
  rewrite Hl. cbn. by rewrite list_to_map_to_list.
Qed.
Lemma read_set_string_map m s p m' :
  SetNestedStringMap m s p = Ok m' → NestedStringMap m' p = Found s.
Proof.
  rewrite string_map_set, string_map_reads. intros H. unfold DocApi.typed.
  by rewrite (field_set _ _ _ _ H), as_string_map_of.
Qed.

Lemma typed_keeps {A} (f : value → option A) q o o' : keeps q o o' →
  DocApi.typed f o' q = DocApi.typed f o q.
Proof. unfold keeps, DocApi.typed. by intros ->. Qed.

(** ** The filter of the Gateway *)

Lemma filter_patched p name o o' : p_GatewayName p ≠ "" →
  patchPayloadProcessingEnvoyFilter p o = Ok o' →
  filter_wired name (p_GatewayName p) o' = Ok (true, "").
Proof.
  intros Hgw H. unfold patchPayloadProcessingEnvoyFilter in H.
  apply bind_ok in H as (o1 & H1%wrapped_ok & H). apply bind_ok in H as (o2 & H2%wrapped_ok & H).
  cbv zeta in H. set (o4 := RemoveNestedField (RemoveNestedField o2 _) _) in H.
  destruct (NestedSlice o4 ["spec"; "configPatches"]) as [patches| |e]; [|done..].
  apply bind_ok in H as (patches' & _ & H%wrapped_ok). rewrite slice_set in H.
  assert (∀ q, apart ["spec"; "configPatches"] q = true → apart ["spec"; "targetRefs"] q = true →
    apart ["spec"; "targetRef"] q = true → keeps q o2 o') as Hkeep.
  { intros q H3 H4 H5. unfold keeps. rewrite (field_kept _ _ _ _ _ H H3). unfold o4.
    by rewrite !removed_kept. }
  unfold filter_wired. rewrite int64_reads, string_map_reads, !(typed_keeps _ _ o2 o') by (by apply Hkeep).
  rewrite <-string_map_reads, (read_set_string_map _ _ _ _ H2).
  rewrite string_map_set in H2. rewrite (typed_keeps _ _ o1 o2) by (by refine (set_field_keeps _ _ _ _ _ _ H2)).
  rewrite <-int64_reads, (read_set_int64 _ _ _ _ H1).
  cbv beta iota zeta delta [found].
  change (PayloadProcessingEnvoyFilterPriority <? PayloadProcessingEnvoyFilterPriority)%Z with false.
  cbv iota. unfold at_key.
  change (default ∅ (Some ?m)) with m. rewrite lookup_singleton_eq.
  change (default "" (Some ?m)) with m.
  rewrite bool_decide_eq_false_2 by done. by rewrite bool_decide_eq_true_2.
Qed.
End documents.

(** ** Whose the rendered objects are *)

Section renderings.
Context {api : ApiMachinery} {psrv : PlatformServer} {wr : NestedWriter} {uni : Unicode}.

Lemma applyPlatformParams_spec p l out : applyPlatformParams p l = Ok out →
  Forall2 (λ x y, patchResource p x = Ok y) l out.
Proof.
  revert out. induction l as [|x l IH]; intros out H; cbn [applyPlatformParams] in H; steps; subst; [done|].
  constructor; [done|]. by apply IH.
Qed.

Lemma configure_all_spec p l out : configure_all p l = Ok out →
  Forall2 (λ x y, configure p x = Ok y) (List.filter (λ x, negb (unmanaged x.2)) l) out.
Proof.
  revert out. induction l as [|x l IH]; intros out H; cbn [configure_all] in H; [steps; subst; done|].
  cbn. destruct (unmanaged x.2); [by apply IH|]. steps; subst. constructor; [done|]. by apply IH.
Qed.

(** What is added. *)
Definition added (p : PlatformParams) (ns : string) (t : MaasTenantConfig) : list rendered :=
  configureTelemetryPolicyResources p ns t ++ configureIstioTelemetryResources p ns t
  ++ configurePayloadProcessingHPA p.

Lemma rendered_of p ns t built out x : PostRender p ns t built = Ok out →
  x ∈ built → unmanaged x.2 = false →
  ∃ x1 x2, configure p x = Ok x1 ∧ patchResource p x1 = Ok x2 ∧ x2 ∈ out.
Proof.
  intros (filtered & Hf & H)%bind_ok Hx Hm.
  apply configure_all_spec in Hf. apply applyPlatformParams_spec in H.
  assert (x ∈ List.filter (λ x, negb (unmanaged x.2)) built) as Hin.
  { apply list_elem_of_In, filter_In. rewrite Hm. split; [by apply list_elem_of_In|done]. }
  apply list_elem_of_lookup in Hin as [i Hi].
  destruct (Forall2_lookup_l _ _ _ _ _ Hf Hi) as (x1 & Hi1 & H1).
  destruct (Forall2_lookup_l _ _ _ i x1 H) as (x2 & Hi2 & H2); [by apply lookup_app_l_Some|].
  exists x1, x2. split_and!; [done..|]. by eapply list_elem_of_lookup_2.
Qed.

Lemma added_of p ns t built out x : PostRender p ns t built = Ok out →
  x ∈ added p ns t → ∃ x', patchResource p x = Ok x' ∧ x' ∈ out.
Proof.
  intros (filtered & _ & H)%bind_ok [i Hi]%list_elem_of_lookup. apply applyPlatformParams_spec in H.
  destruct (Forall2_lookup_l _ _ _ (length filtered + i) x H) as (x2 & Hi2 & H2).
  { rewrite lookup_app_r by lia. by replace (length filtered + i - length filtered) with i by lia. }
  exists x2. split; [done|]. by eapply list_elem_of_lookup_2.
Qed.

Lemma rendered_from p ns t built out y : PostRender p ns t built = Ok out → y ∈ out →
  ∃ x, patchResource p x = Ok y
       ∧ ((∃ b, b ∈ built ∧ unmanaged b.2 = false ∧ configure p b = Ok x) ∨ x ∈ added p ns t).
Proof.
  intros (filtered & Hf & H)%bind_ok [i Hi]%list_elem_of_lookup.
  apply configure_all_spec in Hf. apply applyPlatformParams_spec in H.
  destruct (Forall2_lookup_r _ _ _ _ _ H Hi) as (x & Hx & Hp). exists x. split; [done|].
  apply lookup_app_Some in Hx as [Hx|[_ Hx]]; [left|right; by eapply list_elem_of_lookup_2].
  destruct (Forall2_lookup_r _ _ _ _ _ Hf Hx) as (b & Hb & Hc). exists b.
  apply list_elem_of_lookup_2, list_elem_of_In, filter_In in Hb as [Hb Hm].
  split_and!; [by apply list_elem_of_In|by destruct (unmanaged b.2)|done].
Qed.

(** Kind and name of what is made a tenant's, and whether it goes to the namespace of
    the Gateway. *)
Definition tenant_rows : list (string * string * bool) :=
  [("Deployment", "maas-api", false); ("Service", "maas-api", false);
   ("HTTPRoute", "maas-api-route", false); ("CronJob", "maas-api-key-cleanup", false);
   ("TokenRateLimitPolicy", "gateway-default-deny", true);
   ("DestinationRule", "maas-api-backend-tls", true); ("Deployment", "payload-processing", true);
   ("Deployment", "payload-pre-processing", true); ("Service", "payload-processing", true);
   ("Service", "payload-pre-processing", true); ("DestinationRule", "payload-processing", true);
   ("DestinationRule", "payload-pre-processing", true); ("EnvoyFilter", "payload-processing", true);
   ("NetworkPolicy", "payload-processing", true); ("ServiceAccount", "payload-processing", true);
   ("ConfigMap", "payload-processing-plugins", true);
   ("ClusterRoleBinding", "payload-processing-reader", false);
   ("Certificate", "maas-api-serving-cert", false)].

Definition tenants (k : rkey) : bool :=
  existsb (λ row : string * string * bool, (k.1 == row.1.1) && (k.2.2 == row.1.2)) tenant_rows.

(** The key that a tenant's object gets. *)
Definition given (p : PlatformParams) (k k' : rkey) : Prop :=
  ∃ row, row ∈ tenant_rows ∧ k.1 = row.1.1 ∧ k.2.2 = row.1.2
    ∧ k' = (row.1.1, (if row.2 : bool then p_GatewayNamespace p else k.2.1,
                      resourceNameForTenant row.1.2 (p_TenantIdentifier p))).

Lemma tenants_spec k : tenants k = true ↔
  ∃ row, row ∈ tenant_rows ∧ k.1 = row.1.1 ∧ k.2.2 = row.1.2.
Proof.
  unfold tenants. rewrite existsb_exists. split.
  - intros (row & Hin & [H1%bool_decide_eq_true H2%bool_decide_eq_true]%andb_true_iff).
    exists row. split; [by apply list_elem_of_In|done].
  - intros (row & Hin & H1 & H2). exists row. rewrite H1, H2, !bool_decide_eq_true_2 by done.
    split; [by apply list_elem_of_In|done].
Qed.

(** The row of a case, if it has one. *)
Ltac by_row k n gw :=
  exists (k, n, gw);
  split; [apply list_elem_of_In; cbn; tauto|split; [reflexivity|split; reflexivity]].
Ltac given_row :=
  match goal with
  | H : ?x = Ok ?r |- _ =>
      let Hkey := fresh "Hkey" in
      assert (r.1 = _) as Hkey by
        (unfold patchMaaSAPIServingCert, patchPayloadProcessingNetworkPolicy in H;
         first [exact (proj1 (on_object_ok _ _ _ H)) | by injection H as <-]);
      rewrite Hkey;
      match goal with
      | |- context [given _ (?k, (_, ?n)) _] =>
          first [reflexivity | solve [by_row k n false] | solve [by_row k n true]]
      end
  end.
(** None of the rows. *)
Ltac unfold_rows H :=
  repeat (destruct H as [<-|H]; [try done;
    repeat match goal with E : (_ && _) = false |- _ => vm_compute in E; first [discriminate E|clear E] end|]);
  done.

Lemma patchResource_key p r r' : patchResource p r = Ok r' →
  if tenants r.1 && (r.1.1 != "TokenRateLimitPolicy") then given p r.1 r'.1 else r'.1 = r.1.
Proof.
  destruct r as [[kind [ns name]] x]. unfold patchResource. cbn [fst snd]. cbv zeta.
  repeat match goal with
  | |- (if (?a && ?b) then _ else _) = _ → _ =>
      let E := fresh "E" in
      destruct (a && b) eqn:E;
        [apply andb_true_iff in E as [->%bool_decide_eq_true ->%bool_decide_eq_true]; intros H; given_row|]
  end.
  intros [= <-]. cbn [fst snd].
  destruct (tenants (kind, (ns, name)) && (kind != "TokenRateLimitPolicy")) eqn:Ht; [exfalso|done].
  apply andb_true_iff in Ht as [(row & Hrow%list_elem_of_In & Ek & En)%tenants_spec Hk].
  cbn in Ek, En. subst kind name. cbn in Hrow. unfold_rows Hrow.
Qed.

Lemma patched_as p r r' : patchResource p r = Ok r' → tenants r.1 = true →
  r.1.1 ≠ "TokenRateLimitPolicy" → given p r.1 r'.1.
Proof.
  intros H%patchResource_key Ht Hk. rewrite Ht, (bool_decide_eq_false_2 _ Hk) in H. exact H.
Qed.
Lemma patched_not p r r' : patchResource p r = Ok r' →
  tenants r.1 = false ∨ r.1.1 = "TokenRateLimitPolicy" → r'.1 = r.1.
Proof.
  intros H%patchResource_key [Ht|Hk].
  - by rewrite Ht in H.
  - rewrite Hk, (bool_decide_eq_true_2 _ eq_refl), andb_false_r in H. exact H.
Qed.

(** Objects of a tenant get its keys, the others keep theirs. *)
Lemma rendered_key p r r1 r2 : configure p r = Ok r1 → patchResource p r1 = Ok r2 →
  if tenants r.1 then given p r.1 r2.1 else r2.1 = r.1.
Proof.
  intros Hc Hp.
  assert (r1.1 = r.1 → (r.1.1 = "TokenRateLimitPolicy" → tenants r.1 = false) →
    if tenants r.1 then given p r.1 r2.1 else r2.1 = r.1) as Hsame.
  { intros Ek Hk. rewrite <-Ek in Hk |- *. destruct (tenants r1.1) eqn:Ht.
    - apply patched_as; [done..|]. intros ?. by specialize (Hk H).
    - apply (patched_not _ _ _ Hp). by left. }
  destruct r as [[kind [ns name]] x]. unfold configure in Hc. cbn [fst snd] in Hc, Hsame. cbv zeta in Hc.
  repeat match type of Hc with
  | (if (?a && ?b) then _ else _) = _ =>
      let E := fresh "E" in destruct (a && b) eqn:E;
        [apply andb_true_iff in E as [->%bool_decide_eq_true ->%bool_decide_eq_true]|]
  end.
  - unfold configureTokenRateLimitPolicy in Hc. apply on_object_ok in Hc as [Ek _].
    rewrite (patched_not _ _ _ Hp), Ek by (right; by rewrite Ek).
    by_row "TokenRateLimitPolicy" "gateway-default-deny" true.
  - injection Hc as <-. apply patched_as in Hp as (row & Hrow & Ek & En & Hk); [|done..].
    cbn in Ek, En, Hk. rewrite Hk, <-Ek, <-En.
    destruct row.2; by_row "DestinationRule" "maas-api-backend-tls" true.
  - injection Hc as <-. by apply Hsame.
  - apply on_object_ok in Hc as [Ek _]. by apply Hsame.
  - unfold configureMaaSAPIHTTPRoute in Hc. apply on_object_ok in Hc as [Ek _].
    destruct (bool_decide_reflect (p_TenantIdentifier p = "")) as [Hid|Hid]; [by apply Hsame|].
    cbn [negb] in Ek. rewrite (patched_not _ _ _ Hp), Ek.
    + by_row "HTTPRoute" "maas-api-route" false.
    + left. rewrite Ek. unfold MaaSAPIRouteName, resourceNameForTenant.
      by rewrite bool_decide_eq_false_2.
  - injection Hc as <-. apply Hsame; [done|]. cbn [fst snd]. intros ->.
    apply not_true_iff_false. intros (row & Hrow%list_elem_of_In & Ek & En)%tenants_spec.
    cbn in Ek, En. subst name. cbn in Hrow. unfold_rows Hrow.
Qed.
End renderings.

Lemma given_named kind base p k k' : (kind, base) ∈ tenant_rows.*1 → k.1 = kind → k.2.2 = base →
  (if tenants k then given p k k' else k' = k) →
  k'.2.2 = resourceNameForTenant base (p_TenantIdentifier p).
Proof.
  intros Hrow Ek En. assert (tenants k = true) as ->.
  { apply tenants_spec. apply list_elem_of_fmap in Hrow as (row & E & Hrow). exists row.
    by rewrite <-E. }
  intros (row & _ & _ & En' & ->). cbn. congruence.
Qed.

(** ** What a teardown leaves *)

(** In the manifests, what becomes a tenant's is in the namespace of the overlay when
    it does not go to that of the Gateway; bindings for the cluster have none. *)
Definition in_overlay (raw : list rendered) : bool :=
  forallb (λ x : rendered, forallb (λ row : string * string * bool,
    negb ((x.1.1 == row.1.1) && (x.1.2.2 == row.1.2)) || row.2
    || (x.1.2.1 == (if row.1.1 == "ClusterRoleBinding" then "" else overlayDefaultNamespace)))
    tenant_rows) raw.

Lemma in_overlay_elem raw x : in_overlay raw = true → x ∈ raw → in_overlay [x] = true.
Proof.
  unfold in_overlay. rewrite forallb_forall. intros H Hx%list_elem_of_In.
  cbn [forallb]. by rewrite (H x Hx).
Qed.

Lemma in_overlay_spec raw x row : in_overlay raw = true → x ∈ raw → row ∈ tenant_rows →
  x.1.1 = row.1.1 → x.1.2.2 = row.1.2 → row.2 = false →
  x.1.2.1 = if row.1.1 == "ClusterRoleBinding" then "" else overlayDefaultNamespace.
Proof.
  unfold in_overlay. rewrite forallb_forall. intros H Hx%list_elem_of_In Hrow%list_elem_of_In Ek En Er.
  specialize (H x Hx). rewrite forallb_forall in H. specialize (H row Hrow).
  rewrite Ek, En, Er, !bool_decide_eq_true_2 in H by done. by apply bool_decide_eq_true in H.
Qed.

Section teardown.
Context {api : ApiMachinery} {psrv : PlatformServer} {wr : NestedWriter} {uni : Unicode}.
Context {kust : Kustomize} (r : TenantReconciler).

Lemma transform_key app x : app ≠ "" →
  (transform_one app x).1 =
  (x.1.1, (if x.1.2.1 == overlayDefaultNamespace then app else x.1.2.1, x.1.2.2)).
Proof.
  intros Happ. unfold transform_one. rewrite (bool_decide_eq_false_2 _ Happ). cbv zeta.
  set (x1 := if _ == overlayDefaultNamespace then SetNamespace app x else x).
  assert ((remapSubjectNamespaces app x1).1 = x1.1) as E1.
  { unfold remapSubjectNamespaces. by repeat case_match. }
  set (x2 := remapSubjectNamespaces app x1) in *.
  assert ((remapServiceMonitorServerName app x2).1 = x2.1) as E2.
  { unfold remapServiceMonitorServerName. by repeat case_match. }
  assert (x1.1 = (x.1.1, (if x.1.2.1 == overlayDefaultNamespace then app else x.1.2.1, x.1.2.2))) as <-.
  { unfold x1. destruct x as [[kind [ns name]] y]. cbn [fst snd]. by destruct (_ == _). }
  unfold set_Labels. destruct (_ != _); cbn [fst]; congruence.
Qed.

(** The row of the table. *)
Ltac by_table :=
  match goal with
  | |- ∃ row, (?k, (?ns, resourceNameForTenant ?n _)) = _ ∧ _ =>
      exists (k, ns, n); split; [reflexivity|apply list_elem_of_In; cbn; tauto]
  end.

Lemma given_torn_down p x k : in_overlay [x] = true → appNamespaceForTenant r ≠ "" →
  p_GatewayNamespace p = tr_GatewayNamespace r →
  given p (transform_one (appNamespaceForTenant r) x).1 k →
  k ∈ tenant_resources r (p_TenantIdentifier p)
  ∨ k = ("Certificate", (appNamespaceForTenant r, MaaSAPIServingCertName (p_TenantIdentifier p))).
Proof.
  intros Ho Happ Hgw (row & Hrow & Ek & En & ->). rewrite transform_key in Ek, En |- * by done.
  cbn [fst snd] in *. rewrite Hgw.
  pose proof (in_overlay_spec _ x row Ho ltac:(by left) Hrow Ek En) as Hns.
  rewrite tenant_resources_table, list_elem_of_fmap. apply list_elem_of_In in Hrow. cbn in Hrow.
  clear Ek En Ho.
  repeat (destruct Hrow as [<-|Hrow]; [
    cbn [fst snd] in *; try (specialize (Hns eq_refl); cbn in Hns; rewrite Hns; cbn);
    first [by right | left; by_table]|]).
  done.
Qed.

Lemma added_key p ns t y : y ∈ added p ns t →
  tenants y.1 = false
  ∧ (y.1 = ("TelemetryPolicy", (p_GatewayNamespace p, TelemetryPolicyName (p_TenantIdentifier p)))
     ∨ y.1 = ("Telemetry", (p_GatewayNamespace p, IstioTelemetryName (p_TenantIdentifier p)))
     ∨ y.1 = ("HorizontalPodAutoscaler",
              (p_GatewayNamespace p, PayloadProcessingDeploymentName (p_TenantIdentifier p)))).
Proof.
  unfold added, configureTelemetryPolicyResources, configureIstioTelemetryResources,
    configurePayloadProcessingHPA.
  rewrite !elem_of_app. intros [H|[H|H]]; case_match;
    apply list_elem_of_In in H; cbn in H; destruct H as [<-|[]] || destruct H; cbn [made fst]; auto.
Qed.

(** C24. The teardown of a tenant takes away what rendering has given it: whatever is
    rendered from an overlay in its namespaces is among the resources the teardown
    deletes, or is the certificate or the autoscaler of the tenant, or is rendered
    under the same key for every tenant. *)
Theorem teardown_takes_what_was_rendered dir p ns t built out k x :
  appNamespaceForTenant r ≠ "" → p_GatewayNamespace p = tr_GatewayNamespace r →
  (∀ path raw, kustomize_Run path = Ok raw → in_overlay raw = true) →
  Manifests.RenderKustomize dir (appNamespaceForTenant r) = Ok built →
  PostRender p ns t built = Ok out → (k, x) ∈ out →
  k ∈ tenant_resources r (p_TenantIdentifier p)
  ∨ k = ("Certificate", (appNamespaceForTenant r, MaaSAPIServingCertName (p_TenantIdentifier p)))
  ∨ k = ("HorizontalPodAutoscaler",
         (tr_GatewayNamespace r, PayloadProcessingDeploymentName (p_TenantIdentifier p)))
  ∨ ∀ p' ns' t' out', PostRender p' ns' t' built = Ok out' → ∃ x', (k, x') ∈ out'.
Proof.
  intros Happ Hgw Hover Hk Hp Hin.
  destruct (rendered_from _ _ _ _ _ _ Hp Hin) as (y & Hy & [(b & Hb & Hm & Hc)|Hadd]).
  - pose proof (rendered_key _ _ _ _ Hc Hy) as Hkey. cbn [fst] in Hkey.
    destruct (tenants b.1) eqn:Ht.
    + apply bind_ok in Hk as (path & _ & Hk).
      destruct (kustomize_Run path) as [raw|e] eqn:Eraw; [|done]. injection Hk as <-.
      apply list_elem_of_fmap in Hb as (raw_b & -> & Hraw).
      destruct (given_torn_down p raw_b k) as [?|?]; [|done..|by left|by right; left].
      by eapply in_overlay_elem; [apply (Hover _ _ Eraw)|].
    + right. right. right. intros p' ns' t' out' Hp'.
      destruct (rendered_of _ _ _ _ _ _ Hp' Hb Hm) as (y1 & [k2 y2] & Hc' & Hy' & Hout).
      exists y2. pose proof (rendered_key _ _ _ _ Hc' Hy') as Hkey'. rewrite Ht in Hkey'.
      cbn in Hkey'. congruence.
  - destruct (added_key _ _ _ _ Hadd) as [Ht Hkey].
    apply patched_not in Hy as Ek; [|by left]. cbn [fst] in Ek. rewrite <-Ek, Hgw in Hkey.
    destruct Hkey as [->|[->| ->]]; [left|left|by right; right; left];
      rewrite tenant_resources_table, list_elem_of_fmap; unfold TelemetryPolicyName, IstioTelemetryName; by_table.
Qed.
End teardown.

(** ** Services and pods *)

(** The tenant instance at a path: of the pods of a workload, and of those that a
    service sends to. *)
Section instances.
Context {api : ApiMachinery} {psrv : PlatformServer} {wr : NestedWriter} {uni : Unicode}.
Context {laws : LawfulNested}.

Definition instance_at (path : list string) (o : obj) : option string :=
  found (NestedStringMap o path) ≫= lookup LabelTenantInstance.
Definition pods_of : obj → option string := instance_at ["spec"; "template"; "metadata"; "labels"].
Definition selects : obj → option string := instance_at ["spec"; "selector"].

Lemma instance_kept path o o' : keeps path o o' → instance_at path o' = instance_at path o.
Proof. intros H. unfold instance_at. by rewrite !string_map_reads, (typed_keeps _ _ _ _ H). Qed.
Lemma instance_set path m o o' : SetNestedStringMap o m path = Ok o' →
  instance_at path o' = m !! LabelTenantInstance.
Proof. intros H. unfold instance_at. by rewrite (read_set_string_map _ _ _ _ H). Qed.
Lemma instance_added what path v o o' : add_label what path LabelTenantInstance v o = Ok o' →
  instance_at path o' = Some v.
Proof.
  unfold add_label. intros H. destruct (NestedStringMap o path); [| |done];
    by rewrite (instance_set _ _ _ _ H), lookup_insert_eq.
Qed.

Lemma update_container_keeps q path name f o o' : apart path q = true →
  update_container path name f o = Ok o' → keeps q o o'.
Proof.
  intros Hq. unfold update_container. destruct (NestedSlice o path); [|done..].
  destruct (update_named name f a); [|done]. rewrite slice_set. by apply set_field_keeps.
Qed.

(** What the changes of containers and volumes keep. *)
Lemma set_environment_keeps q container env o o' : apart containers_path q = true →
  set_environment container env o = Ok o' → keeps q o o'.
Proof.
  intros Hq. revert o. induction env as [|[k v] env IH]; intros o H; cbn [set_environment] in H; steps; subst; [done|].
  unfold keeps. rewrite (IH _ H). by eapply update_container_keeps.
Qed.
Lemma set_resources_keeps q container res o o' : apart containers_path q = true →
  set_resources_of container res o = Ok o' → keeps q o o'.
Proof.
  intros Hq H. destruct res; cbn in H; steps; subst; [|done]. by eapply update_container_keeps.
Qed.
Lemma patchConfigMapVolumeRef_keeps q volume name o o' : apart (pod_path ++ ["volumes"]) q = true →
  patchConfigMapVolumeRef volume name o = Ok o' → keeps q o o'.
Proof.
  intros Hq. unfold patchConfigMapVolumeRef.
  destruct (NestedSlice o _); [|by intros [= <-]|done]. destruct (set_volume _ _ _ _) as [[]|]; [|done|by intros [= <-]].
  rewrite slice_set. by apply set_field_keeps.
Qed.
Lemma patchPayloadProcessingTracing_keeps q p o o' : apart containers_path q = true →
  patchPayloadProcessingTracing p o = Ok o' → keeps q o o'.
Proof.
  intros Hq. unfold patchPayloadProcessingTracing. destruct (_ == "").
  - by apply update_container_keeps.
  - intros H. steps. unfold keeps. rewrite (set_environment_keeps q _ _ _ _ Hq H).
    by eapply update_container_keeps.
Qed.

Lemma patch_processing_pods p app dep o o' : patch_processing p app dep o = Ok o' →
  pods_of o' = Some dep.
Proof.
  unfold patch_processing. intros (o1 & H1%wrapped_ok & (o2 & H2%wrapped_ok &
    (o3 & H3%wrapped_ok & H4%wrapped_ok)%bind_ok)%bind_ok)%bind_ok.
  unfold pods_of.
  rewrite (instance_kept _ o3 o') by (by refine (patchConfigMapVolumeRef_keeps _ _ _ _ _ _ H4)).
  rewrite (instance_kept _ o2 o3) by (by refine (set_field_keeps _ _ _ _ _ _ H3)).
  rewrite (instance_kept _ o1 o2); [by apply instance_added in H1|].
  unfold patchIPPDeploymentSelector in H2. destruct (_ == ""); [by injection H2 as <-|].
  unfold setDeploymentSelectorMatchLabels in H2. rewrite string_map_set in H2.
  by refine (set_field_keeps _ _ _ _ _ _ H2).
Qed.

Lemma patchPayloadProcessingDeployment_pods p o o' : patchPayloadProcessingDeployment p o = Ok o' →
  pods_of o' = Some (PayloadProcessingDeploymentName (p_TenantIdentifier p)).
Proof.
  unfold patchPayloadProcessingDeployment. intros H. do 4 apply bind_ok in H as (? & _ & H).
  apply bind_ok in H as (o1 & H1%patch_processing_pods & H).
  apply bind_ok in H as (o2 & H2%wrapped_ok & H3). rewrite <-H1. unfold pods_of.
  rewrite (instance_kept _ o2 o') by (by refine (set_resources_keeps _ _ _ _ _ _ H3)).
  apply instance_kept. by refine (patchPayloadProcessingTracing_keeps _ _ _ _ _ H2).
Qed.

(** Names of workloads that have a service of their name. *)
Definition served : list string := ["maas-api"; PayloadProcessingName; PayloadPreProcessingName].

Lemma deployment_pods p base r r1 r' : base ∈ served → r.1.1 = "Deployment" → r.1.2.2 = base →
  configure p r = Ok r1 → patchResource p r1 = Ok r' →
  pods_of (rs_Object r'.2) = Some (resourceNameForTenant base (p_TenantIdentifier p)).
Proof.
  destruct r as [[kind [ns name]] x]. cbn [fst snd]. intros Hbase -> -> Hc Hp.
  assert (r1.1 = ("Deployment", (ns, base))) as E1.
  { apply list_elem_of_In in Hbase as [<-|[<-|[<-|[]]]];
      [by apply on_object_ok in Hc as [? _]|by injection Hc as <-..]. }
  destruct r1 as [k y]. cbn [fst] in E1. subst k.
  apply list_elem_of_In in Hbase as [<-|[<-|[<-|[]]]]; apply on_object_ok in Hp as (_ & Hp & _).
  - cbn [snd SetName] in Hp. unfold patchMaaSAPIDeployment in Hp. steps. by apply instance_added in Hp.
  - by apply patchPayloadProcessingDeployment_pods in Hp.
  - unfold patchPreProcessingDeployment in Hp. apply bind_ok in Hp as (? & _ & Hp).
    by apply patch_processing_pods in Hp.
Qed.

Lemma service_selects p base r r1 r' : base ∈ served → r.1.1 = "Service" → r.1.2.2 = base →
  configure p r = Ok r1 → patchResource p r1 = Ok r' →
  selects (rs_Object r'.2) = Some (resourceNameForTenant base (p_TenantIdentifier p)).
Proof.
  destruct r as [[kind [ns name]] x]. cbn [fst snd]. intros Hbase -> -> Hc Hp.
  assert (r1.1 = ("Service", (ns, base))) as E1.
  { by apply list_elem_of_In in Hbase as [<-|[<-|[<-|[]]]]; injection Hc as <-. }
  destruct r1 as [k y]. cbn [fst] in E1. subst k.
  apply list_elem_of_In in Hbase as [<-|[<-|[<-|[]]]]; apply on_object_ok in Hp as (_ & Hp%wrapped_ok & _).
  - by apply instance_added in Hp.
  - unfold setServiceSelectorMatchLabels in Hp. unfold selects. rewrite (instance_set _ _ _ _ Hp).
    by rewrite lookup_insert_ne, lookup_singleton_eq.
  - unfold setServiceSelectorMatchLabels in Hp. unfold selects. rewrite (instance_set _ _ _ _ Hp).
    by rewrite lookup_insert_ne, lookup_singleton_eq.
Qed.

(** C23. The services of a tenant send to its pods and to no others: of whatever
    manifests are rendered for two tenants, the service of one selects the instance
    label of the pods of the other's deployment of that name exactly if they are the
    same tenant. *)
Theorem services_select_own_pods p p' ns ns' t t' built out out' base s d :
  PostRender p ns t built = Ok out → PostRender p' ns' t' built = Ok out' →
  base ∈ served →
  s ∈ built → s.1.1 = "Service" → s.1.2.2 = base → unmanaged s.2 = false →
  d ∈ built → d.1.1 = "Deployment" → d.1.2.2 = base → unmanaged d.2 = false →
  ∃ s' d', s' ∈ out ∧ d' ∈ out'
    ∧ s'.1.2.2 = resourceNameForTenant base (p_TenantIdentifier p)
    ∧ d'.1.2.2 = resourceNameForTenant base (p_TenantIdentifier p')
    ∧ is_Some (selects (rs_Object s'.2))
    ∧ (selects (rs_Object s'.2) = pods_of (rs_Object d'.2)
       ↔ p_TenantIdentifier p = p_TenantIdentifier p').
Proof.
  intros Hp Hp' Hbase Hs Eks Ens Hms Hd Ekd End_ Hmd.
  destruct (rendered_of _ _ _ _ _ _ Hp Hs Hms) as (s1 & s' & Hcs & Hps & Hs').
  destruct (rendered_of _ _ _ _ _ _ Hp' Hd Hmd) as (d1 & d' & Hcd & Hpd & Hd').
  exists s', d'. split_and!; [done|done| | | |].
  - pose proof (rendered_key _ _ _ _ Hcs Hps) as Hk. eapply (given_named "Service"); [|done..].
    by apply list_elem_of_In in Hbase as [<-|[<-|[<-|[]]]]; apply list_elem_of_In; cbn; tauto.
  - pose proof (rendered_key _ _ _ _ Hcd Hpd) as Hk. eapply (given_named "Deployment"); [|done..].
    by apply list_elem_of_In in Hbase as [<-|[<-|[<-|[]]]]; apply list_elem_of_In; cbn; tauto.
  - by erewrite service_selects.
  - erewrite service_selects, (deployment_pods p'); [|done..]. split; [|by intros ->].
    intros [= E]. apply resourceNameForTenant_apart in E as [_ ?]; [done|..];
      by apply list_elem_of_In in Hbase as [<-|[<-|[<-|[]]]].
Qed.

(** ** The filter and the autoscaler *)

(** C25. What is rendered passes the check of its readiness: the EnvoyFilter of the
    manifests comes out under the name and in the namespace that the check looks
    for, with a priority after that of Kuadrant and for the very Gateway of the
    tenant. *)
Theorem rendered_filter_ready p ns t built out f name :
  PostRender p ns t built = Ok out → p_GatewayName p ≠ "" →
  f ∈ built → f.1.1 = "EnvoyFilter" → f.1.2.2 = PayloadProcessingName → unmanaged f.2 = false →
  ∃ x, (("EnvoyFilter", (p_GatewayNamespace p,
           PayloadProcessingDeploymentName (p_TenantIdentifier p))), x) ∈ out
       ∧ filter_wired name (p_GatewayName p) (rs_Object x) = Ok (true, "").
Proof.
  intros Hp Hgw Hf Ek En Hm. destruct (rendered_of _ _ _ _ _ _ Hp Hf Hm) as (f1 & [k x] & Hc & Hpf & Hout).
  destruct f as [[kind [fns fname]] y]. cbn [fst snd] in Ek, En. subst kind fname.
  injection Hc as <-. apply on_object_ok in Hpf as (E & Hpf & _). cbn [fst] in E. subst k.
  exists x. split; [done|]. by eapply filter_patched.
Qed.

Lemma patch_processing_keeps q p app dep o o' :
  apart ["spec"; "template"; "metadata"; "labels"] q = true →
  apart ["spec"; "selector"; "matchLabels"] q = true → apart (pod_path ++ ["serviceAccountName"]) q = true →
  apart (pod_path ++ ["volumes"]) q = true →
  patch_processing p app dep o = Ok o' → keeps q o o'.
Proof.
  intros H1 H2 H3 H4. unfold patch_processing. intros (o1 & E1%wrapped_ok & (o2 & E2%wrapped_ok &
    (o3 & E3%wrapped_ok & E4%wrapped_ok)%bind_ok)%bind_ok)%bind_ok.
  unfold keeps. rewrite (patchConfigMapVolumeRef_keeps q _ _ _ _ H4 E4).
  rewrite (set_field_keeps q _ _ _ _ H3 E3). transitivity (DocApi.walk o1 q).
  - unfold patchIPPDeploymentSelector in E2. destruct (_ == ""); [by injection E2 as <-|].
    unfold setDeploymentSelectorMatchLabels in E2. rewrite string_map_set in E2.
    by apply (set_field_keeps q _ _ _ _ H2 E2).
  - unfold addPodTemplateLabel, add_label in E1. destruct (NestedStringMap _ _); [| |done];
      rewrite string_map_set in E1; by apply (set_field_keeps q _ _ _ _ H1 E1).
Qed.

(** Its replicas are left to the autoscaler. *)
Lemma autoscaled_deployment p o o' : p_PayloadProcessingAutoscaling p = true →
  patchPayloadProcessingDeployment p o = Ok o' → found (NestedInt64 o' ["spec"; "replicas"]) = None.
Proof.
  intros Ha. unfold patchPayloadProcessingDeployment. rewrite Ha.
  intros (o1 & [= <-] & (o2 & H2%wrapped_ok & (o3 & H3 & (o4 & H4 & (o5 & H5 & (o6 & H6%wrapped_ok &
    H7)%bind_ok)%bind_ok)%bind_ok)%bind_ok)%bind_ok)%bind_ok.
  set (q := ["spec"; "replicas"]). set (o1 := RemoveNestedField o q) in *.
  assert (DocApi.walk o' q = DocApi.walk o1 q) as E.
  { rewrite (set_resources_keeps q _ _ _ _ ltac:(reflexivity) H7).
    rewrite (patchPayloadProcessingTracing_keeps q _ _ _ ltac:(reflexivity) H6).
    rewrite (patch_processing_keeps q _ _ _ _ _ ltac:(reflexivity) ltac:(reflexivity) ltac:(reflexivity) ltac:(reflexivity) H5).
    transitivity (DocApi.walk o3 q).
    { destruct (_ != ""); [|by injection H4 as <-].
      by rewrite (set_environment_keeps q _ _ _ _ ltac:(reflexivity) H4). }
    rewrite (set_environment_keeps q _ _ _ _ ltac:(reflexivity) H3).
    by rewrite (update_container_keeps q containers_path _ _ _ _ ltac:(reflexivity) H2). }
  rewrite int64_reads. unfold DocApi.typed. rewrite E.
  pose proof (removed_gone o q ltac:(done)) as Hgone. fold o1 in Hgone.
  by destruct (DocApi.walk o1 q).
Qed.

(** C26. With parameters made from what the schema admits, autoscaling is rendered
    consistently: there is an autoscaler for the Deployment of payload processing,
    its minimum is at least one and not above its maximum of at most a hundred, and
    the Deployment says nothing of replicas. Without autoscaling none is added. *)
Theorem autoscaling_rendered env ns t context app ctl aud mon p built out :
  spec_admitted (tc_Spec t) →
  BuildPlatformParams env ns (tenant_meta t) (tc_Spec t) context app ctl aud mon = Ok p →
  PostRender p ns t built = Ok out →
  if p_PayloadProcessingAutoscaling p then
    (∃ x, (("HorizontalPodAutoscaler", (p_GatewayNamespace p,
              PayloadProcessingDeploymentName (p_TenantIdentifier p))), x) ∈ out
       ∧ NestedString (rs_Object x) ["spec"; "scaleTargetRef"; "name"]
         = Found (PayloadProcessingDeploymentName (p_TenantIdentifier p))
       ∧ ∃ least most, NestedInt64 (rs_Object x) ["spec"; "minReplicas"] = Found least
         ∧ NestedInt64 (rs_Object x) ["spec"; "maxReplicas"] = Found most
         ∧ (1 <= least <= most)%Z ∧ (most <= 100)%Z)
    ∧ ∀ d, d ∈ built → d.1.1 = "Deployment" → d.1.2.2 = PayloadProcessingName →
        unmanaged d.2 = false →
        ∃ x, (("Deployment", (p_GatewayNamespace p,
                 PayloadProcessingDeploymentName (p_TenantIdentifier p))), x) ∈ out
             ∧ found (NestedInt64 (rs_Object x) ["spec"; "replicas"]) = None
  else ∀ k x, (k, x) ∈ out → k.1 = "HorizontalPodAutoscaler" → ∃ y, (k, y) ∈ built.
Proof.
  intros Hs Hb Hp. pose proof (platform_params_bounded _ _ _ _ _ _ _ _ _ _ Hs Hb) as
    (_ & Hr & Hmax & _ & _ & Hclamp & _).
  destruct (p_PayloadProcessingAutoscaling p) eqn:Ha.
  - destruct (Hclamp eq_refl) as [Hle _]. split.
    + destruct (configurePayloadProcessingHPA p) as [|h rest] eqn:Eh;
        [unfold configurePayloadProcessingHPA in Eh; by rewrite Ha in Eh|].
      destruct (added_of _ _ _ _ _ h Hp) as (h' & Hh & Hout).
      { unfold added. rewrite Eh, !elem_of_app. right. right. by left. }
      unfold configurePayloadProcessingHPA in Eh. rewrite Ha in Eh. injection Eh as <- <-.
      injection Hh as <-. eexists. split; [exact Hout|]. rewrite string_reads, !int64_reads.
      split; [reflexivity|]. eexists _, _. split; [reflexivity|]. split; [reflexivity|].
      destruct (p_PayloadProcessingReplicas p) as [n|]; cbn; [|lia].
      specialize (Hr n eq_refl). specialize (Hle n eq_refl). lia.
    + intros [[kind [dns name]] d] Hd Ek En Hm. cbn [fst snd] in Ek, En. subst kind name.
      destruct (rendered_of _ _ _ _ _ _ Hp Hd Hm) as (d1 & [k x] & Hc & Hpd & Hout).
      injection Hc as <-. apply on_object_ok in Hpd as (E & Hpd & _). cbn [fst] in E. subst k.
      exists x. split; [done|]. by eapply autoscaled_deployment.
  - intros k x Hin Ek. destruct (rendered_from _ _ _ _ _ _ Hp Hin) as (y & Hy & [(b & Hbuilt & Hm & Hc)|Hadd]).
    + pose proof (rendered_key _ _ _ _ Hc Hy) as Hk. cbn [fst] in Hk. destruct (tenants b.1) eqn:Ht.
      * destruct Hk as (row & Hrow & _ & _ & ->). cbn [fst] in Ek.
        apply list_elem_of_In in Hrow. cbn in Hrow.
        repeat (destruct Hrow as [<-|Hrow]; [discriminate Ek|]). done.
      * subst k. exists b.2. by destruct b.
    + destruct (added_key _ _ _ _ Hadd) as [Ht Hk].
      apply patched_not in Hy as E; [|by left]. cbn [fst] in E. subst k.
      unfold added, configurePayloadProcessingHPA in Hadd. rewrite Ha, app_nil_r in Hadd.
      unfold configureTelemetryPolicyResources, configureIstioTelemetryResources in Hadd.
      apply elem_of_app in Hadd as [Hadd|Hadd]; case_match;
        apply list_elem_of_In in Hadd; cbn in Hadd; destruct Hadd as [<-|[]] || destruct Hadd; discriminate Ek.
Qed.

(** ** Routes *)

Lemma map_get_put k v m : map_get k (map_put k v m) = Some v.
Proof.
  induction m as [|[k' v'] m IH]; cbn; [by rewrite bool_decide_eq_true_2|].
  destruct (bool_decide_reflect (k' = k)); cbn; [by rewrite bool_decide_eq_true_2|].
  by rewrite bool_decide_eq_false_2.
Qed.
Lemma map_get_put_ne k k' v m : k ≠ k' → map_get k' (map_put k v m) = map_get k' m.
Proof.
  intros Hne. induction m as [|[k1 v1] m IH]; cbn; [by rewrite bool_decide_eq_false_2|].
  destruct (bool_decide_reflect (k1 = k)) as [->|]; cbn; [by rewrite !bool_decide_eq_false_2|].
  by rewrite IH.
Qed.

(** A reference is to a service, and all those of a list are. *)
Definition refs_to (svc : string) (refs : list value) : Prop :=
  ∀ ref, VMap ref ∈ refs → get_string "name" ref = Some svc.
Definition rules_to (svc : string) (rules : list value) : Prop :=
  ∀ rule refs, VMap rule ∈ rules → NestedSlice rule ["backendRefs"] = Found refs → refs_to svc refs.

(** A route from the Gateway of the tenant to its service. *)
Definition route_of (p : PlatformParams) (o : obj) : Prop :=
  (∃ ref refs, NestedSlice o ["spec"; "parentRefs"] = Found (VMap ref :: refs)
     ∧ get_string "name" ref = Some (p_GatewayName p)
     ∧ get_string "namespace" ref = Some (p_GatewayNamespace p))
  ∧ ∃ rules, NestedSlice o ["spec"; "rules"] = Found rules
             ∧ rules_to (MaaSAPIServiceName (p_TenantIdentifier p)) rules.

Lemma refs_to_cons svc v refs : refs_to svc (v :: refs) ↔
  (∀ ref, v = VMap ref → get_string "name" ref = Some svc) ∧ refs_to svc refs.
Proof.
  unfold refs_to. setoid_rewrite elem_of_cons. naive_solver.
Qed.

Lemma redirect_refs_spec p j refs refs' : redirect_refs p j refs = Ok refs' →
  refs_to (MaaSAPIServiceName (p_TenantIdentifier p)) refs'.
Proof.
  revert j refs'. induction refs as [|v refs IH]; intros j refs' H; cbn [redirect_refs] in H;
    [injection H as <-; by intros ref H%not_elem_of_nil|].
  destruct v; steps; subst; apply refs_to_cons; (split; [|by eapply IH]); try done.
  intros ref [= ->]. match goal with H : SetNestedField _ _ _ = _ |- _ => apply field_set in H; cbn in H end.
  unfold get_string. by destruct (map_get "name" ref) as [v|]; [injection H0 as ->|].
Qed.

Lemma rules_to_cons svc v rules : rules_to svc (v :: rules) ↔
  (∀ rule refs, v = VMap rule → NestedSlice rule ["backendRefs"] = Found refs → refs_to svc refs)
  ∧ rules_to svc rules.
Proof. unfold rules_to. setoid_rewrite elem_of_cons. naive_solver. Qed.

Lemma redirect_rules_spec p i rules rules' : redirect_rules p i rules = Ok rules' →
  rules_to (MaaSAPIServiceName (p_TenantIdentifier p)) rules'.
Proof.
  revert i rules'. induction rules as [|v rules IH]; intros i rules' H; cbn [redirect_rules] in H;
    [injection H as <-; by intros rule refs H%not_elem_of_nil|].
  apply bind_ok in H as (v' & Hv & (rest & H & [= <-])%bind_ok). apply rules_to_cons.
  split; [|by eapply IH]. intros rule refs -> Hrefs. destruct v; try discriminate Hv.
  destruct (NestedSlice m ["backendRefs"]) as [[|ref l]| |e] eqn:E;
    try (injection Hv as ->; rewrite Hrefs in E; try discriminate E; injection E as ->;
         by intros ref H'%not_elem_of_nil).
  apply bind_ok in Hv as (refs' & Hr & (m' & Hset%wrapped_ok & [= <-])%bind_ok).
  apply read_set_slice in Hset. rewrite Hset in Hrefs. injection Hrefs as <-.
  by eapply redirect_refs_spec.
Qed.

Lemma to_gateway_spec p ref :
  get_string "name" (to_gateway p ref) = Some (p_GatewayName p)
  ∧ get_string "namespace" (to_gateway p ref) = Some (p_GatewayNamespace p).
Proof.
  unfold to_gateway, get_string. by rewrite map_get_put, map_get_put_ne, map_get_put by done.
Qed.

Lemma configured_route p r r1 : configureMaaSAPIHTTPRoute p r = Ok r1 → route_of p (rs_Object r1.2).
Proof.
  unfold configureMaaSAPIHTTPRoute. intros (_ & H & _)%on_object_ok.
  destruct (NestedSlice _ _) as [[|[] refs]| |]; try done. steps.
  destruct (NestedSlice x _) as [[|rule rules]| |]; try done. steps.
  apply redirect_rules_spec in H1. split.
  - exists (to_gateway p m), refs. split; [|apply to_gateway_spec].
    apply read_set_slice in H0. rewrite <-H0, !slice_reads. apply typed_keeps.
    rewrite slice_set in H. by refine (set_field_keeps _ _ _ _ _ _ H).
  - exists x0. split; [by apply read_set_slice in H|done].
Qed.

(** Rewriting keeps references to the service. *)
Lemma rewrite_backends_spec p i j refs refs' : rewrite_backends p i j refs = Ok refs' →
  refs_to (MaaSAPIServiceName (p_TenantIdentifier p)) refs →
  refs_to (MaaSAPIServiceName (p_TenantIdentifier p)) refs'.1.
Proof.
  revert j refs'. induction refs as [|v refs IH]; intros j refs' H Hto; cbn [rewrite_backends] in H;
    [by injection H as <-|].
  destruct v; try discriminate H. apply bind_ok in H as (rest & Hr & H).
  apply refs_to_cons in Hto as [Hm Hto]. specialize (IH _ _ Hr Hto).
  injection H as <-. destruct (_ == _); cbn [fst]; apply refs_to_cons; (split; [|done]).
  - intros ref [= <-]. unfold get_string. by rewrite map_get_put.
  - intros ref [= <-]. by apply Hm.
Qed.

Lemma rewrite_rules_spec p i rules rules' : rewrite_rules p i rules = Ok rules' →
  rules_to (MaaSAPIServiceName (p_TenantIdentifier p)) rules →
  rules_to (MaaSAPIServiceName (p_TenantIdentifier p)) rules'.
Proof.
  revert i rules'. induction rules as [|v rules IH]; intros i rules' H Hto; cbn [rewrite_rules] in H;
    [by injection H as <-|].
  destruct v; try discriminate H.
  destruct (NestedSlice m ["backendRefs"]) as [refs| |] eqn:E; try discriminate H.
  apply bind_ok in H as (refs' & Hr & H). destruct (negb refs'.2); [discriminate H|].
  apply bind_ok in H as (rule & Hset%wrapped_ok & (rest & H & [= <-])%bind_ok).
  apply rules_to_cons in Hto as [Hm Hto]. apply rules_to_cons. split; [|by eapply IH].
  intros rule' refs1 [= <-] Hrefs. apply read_set_slice in Hset. rewrite Hset in Hrefs.
  injection Hrefs as <-. eapply rewrite_backends_spec; [done|]. by eapply Hm.
Qed.

Lemma patched_route p o o' : patchHTTPRoute p o = Ok o' → route_of p o → route_of p o'.
Proof.
  unfold patchHTTPRoute. intros H [_ (rules & Hrules & Hto)].
  destruct (NestedSlice o _) as [[|[] refs]| |]; try done.
  apply bind_ok in H as (o1 & H1%wrapped_ok & H).
  assert (NestedSlice o1 ["spec"; "rules"] = Found rules) as Hr1.
  { rewrite <-Hrules, !slice_reads. apply typed_keeps. rewrite slice_set in H1.
    by refine (set_field_keeps _ _ _ _ _ _ H1). }
  rewrite Hr1 in H. apply bind_ok in H as (rules' & Hr & H%wrapped_ok). split.
  - exists (to_gateway p m), refs. split; [|apply to_gateway_spec].
    apply read_set_slice in H1. rewrite <-H1, !slice_reads. apply typed_keeps.
    rewrite slice_set in H. by refine (set_field_keeps _ _ _ _ _ _ H).
  - exists rules'. split; [by apply read_set_slice in H|]. by eapply rewrite_rules_spec.
Qed.

(** A route under another name is not changed any more. *)
Lemma renamed_route p ns name x : name ≠ baseMaaSAPIRouteName →
  patchResource p (("HTTPRoute", (ns, name)), x) = Ok (("HTTPRoute", (ns, name)), x).
Proof.
  intros Hne. unfold patchResource. cbn [fst snd]. cbv zeta.
  repeat match goal with
  | |- (if ?a && ?b then _ else _) = _ =>
      let E := fresh in destruct (a && b) eqn:E;
        [apply andb_true_iff in E as [Ek%bool_decide_eq_true En%bool_decide_eq_true];
         first [discriminate Ek|done]|clear E]
  end.
  reflexivity.
Qed.

(** The route of the manifests comes out, for every tenant, as the route from its
    Gateway to its service: its first parent is the Gateway, and every reference of
    every rule is to the service of the tenant's API. *)
Theorem route_leads_to_service p ns t built out h :
  PostRender p ns t built = Ok out →
  h ∈ built → h.1.1 = "HTTPRoute" → h.1.2.2 = baseMaaSAPIRouteName → unmanaged h.2 = false →
  ∃ x, (("HTTPRoute", (h.1.2.1, MaaSAPIRouteName (p_TenantIdentifier p))), x) ∈ out
       ∧ route_of p (rs_Object x).
Proof.
  intros Hp Hh Ek En Hm. destruct (rendered_of _ _ _ _ _ _ Hp Hh Hm) as (h1 & [k x] & Hc & Hph & Hout).
  destruct h as [[kind [hns name]] y]. cbn [fst snd] in *. subst kind name.
  change (configureMaaSAPIHTTPRoute p (("HTTPRoute", (hns, baseMaaSAPIRouteName)), y) = Ok h1) in Hc.
  pose proof (configured_route _ _ _ Hc) as Hroute.
  unfold configureMaaSAPIHTTPRoute in Hc. apply on_object_ok in Hc as (E & _). exists x.
  destruct h1 as [k1 x1]. cbn [fst snd] in E, Hroute.
  destruct (bool_decide_reflect (p_TenantIdentifier p = "")) as [Hid|Hid]; cbn [negb] in E; subst k1.
  - apply on_object_ok in Hph as (E & Hph & _). cbn [fst] in E. subst k. split; [done|].
    by eapply patched_route.
  - cbn [SetName fst snd] in Hph. rewrite renamed_route in Hph; [by injection Hph as <- <-|].
    unfold MaaSAPIRouteName, resourceNameForTenant. by rewrite bool_decide_eq_false_2.
Qed.
End instances.

(** ** Concrete manifests *)

Module RenderingExamples.
Import DocApi ConfigExamples.

#[local] Instance ascii_only : Unicode := {| IsPrint _ := false |}.

(** The setters, as they are documented. *)
Fixpoint set_path (v : value) (p : list string) (m : gomap) : result string gomap :=
  match p with
  | [] => Err "no field"
  | [k] => Ok (map_put k v m)
  | k :: p =>
      match map_get k m with
      | None => s ← set_path v p []; mret (map_put k (VMap s) m)
      | Some (VMap s) => s ← set_path v p s; mret (map_put k (VMap s) m)
      | Some _ => Err "value cannot be set: not a map"
      end
  end.
Fixpoint remove_path (p : list string) (m : gomap) : gomap :=
  match p with
  | [] => m
  | [k] => map_remove k m
  | k :: p => match map_get k m with
              | Some (VMap s) => map_put k (VMap (remove_path p s)) m
              | _ => m
              end
  end.

#[export] Instance doc_writer : NestedWriter := {|
  SetNestedField m v p := set_path v p m;
  SetNestedSlice m l p := set_path (VSlice l) p m;
  SetNestedStringMap m s p := set_path (string_map s) p m;
  RemoveNestedField m p := remove_path p m;
  integral _ := None;
|}.

Lemma walk_put k v m q : walk (map_put k v m) (k :: q) = match q with [] => Found v | _ =>
  match v with VMap s => walk s q | _ => NestedErr "accessor error: not a map" end end.
Proof. destruct q; cbn [walk]; by rewrite map_get_put. Qed.
Lemma walk_put_ne k k' v m q : k ≠ k' → walk (map_put k v m) (k' :: q) = walk m (k' :: q).
Proof. intros Hne. destruct q; cbn [walk]; by rewrite map_get_put_ne. Qed.
Lemma map_get_remove k m : map_get k (map_remove k m) = None.
Proof.
  induction m as [|[k' v] m IH]; [done|]. unfold map_remove in *. cbn.
  destruct (bool_decide_reflect (k' = k)); cbn; [done|]. by rewrite bool_decide_eq_false_2.
Qed.
Lemma map_get_remove_ne k k' m : k ≠ k' → map_get k' (map_remove k m) = map_get k' m.
Proof.
  intros Hne. induction m as [|[k1 v] m IH]; [done|]. unfold map_remove in *. cbn.
  destruct (bool_decide_reflect (k1 = k)) as [->|]; cbn; [by rewrite bool_decide_eq_false_2|].
  by rewrite IH.
Qed.

Lemma set_path_set v p m m' : set_path v p m = Ok m' → walk m' p = Found v.
Proof.
  revert m m'. induction p as [|k [|k1 p] IH]; intros m m' H; [done|..].
  - injection H as <-. apply walk_put.
  - cbn [set_path] in H. destruct (map_get k m) as [[]|]; try discriminate H; steps; subst;
      rewrite walk_put; by eapply IH.
Qed.

Lemma set_path_kept v p m m' q : set_path v p m = Ok m' → apart p q = true → walk m' q = walk m q.
Proof.
  revert m m' q. induction p as [|k [|k1 p] IH]; intros m m' [|k' q] H Ha; try done.
  - injection H as <-. cbn in Ha. rewrite orb_false_r in Ha.
    destruct (bool_decide_reflect (k = k')); [done|]. by rewrite walk_put_ne.
  - destruct (bool_decide_reflect (k = k')) as [<-|Hne].
    + cbn [apart] in Ha. rewrite bool_decide_eq_true_2 in Ha by done. cbn [negb orb] in Ha.
      cbn [set_path] in H.
      destruct (map_get k m) as [[]|] eqn:E; try discriminate H; steps; subst; rewrite walk_put;
        (destruct q as [|k2 q]; [done|]); erewrite IH by done; cbn [walk]; rewrite E; [done|by destruct q].
    + cbn [set_path] in H.
      destruct (map_get k m) as [[]|]; try discriminate H; steps; subst; by rewrite walk_put_ne.
Qed.

Lemma remove_path_cons k k1 p m : remove_path (k :: k1 :: p) m =
  match map_get k m with Some (VMap s) => map_put k (VMap (remove_path (k1 :: p) s)) m | _ => m end.
Proof. reflexivity. Qed.

Lemma remove_path_kept p m q : apart p q = true → walk (remove_path p m) q = walk m q.
Proof.
  revert m q. induction p as [|k [|k1 p] IH]; intros m [|k' q] Ha; try done.
  - cbn in Ha. rewrite orb_false_r in Ha. destruct (bool_decide_reflect (k = k')); [done|].
    destruct q; cbn [remove_path walk]; by rewrite map_get_remove_ne.
  - rewrite remove_path_cons. destruct (map_get k m) as [[]|] eqn:E; try done.
    destruct (bool_decide_reflect (k = k')) as [<-|Hne]; [|by rewrite walk_put_ne].
    cbn [apart] in Ha. rewrite bool_decide_eq_true_2 in Ha by done. cbn [negb orb] in Ha.
    rewrite walk_put. destruct q as [|k2 q]; [done|]. rewrite IH by done. cbn [walk]. by rewrite E.
Qed.

Lemma remove_path_gone p m : p ≠ [] → found (walk (remove_path p m) p) = None.
Proof.
  revert m. induction p as [|k [|k1 p] IH]; intros m Hne; [done|..].
  - cbn [remove_path walk]. by rewrite map_get_remove.
  - rewrite remove_path_cons. destruct (map_get k m) as [[]|] eqn:E; try (cbn [walk]; by rewrite E).
    rewrite walk_put. by apply IH.
Qed.

#[export] Instance doc_nested : LawfulNested.
Proof.
  split; try done; [intros *; apply set_path_set|intros *; apply set_path_kept|intros *; apply remove_path_kept|].
  intros m p. apply remove_path_gone.
Qed.

(** Manifests as the overlay has them. *)
Definition object (kind ns name : string) (o : obj) : rendered := ((kind, (ns, name)), plain o).
Definition container (name : string) : value := VMap [("name", VString name); ("image", VString "old")].
Definition workload (name : string) (volumes : list value) : obj :=
  [("spec", VMap
      [("replicas", VInt 1);
       ("template", VMap
          [("metadata", VMap [("labels", strings [("app", name)])]);
           ("spec", VMap [("containers", VSlice [container name]); ("volumes", VSlice volumes)])])])].
Definition volume (name kind field source : string) : value :=
  VMap [("name", VString name); (kind, strings [(field, source)])].
Definition service_to (name : string) : obj :=
  [("spec", VMap [("selector", strings [("app", name)])])].
Definition api_route : obj :=
  [("spec", VMap
      [("parentRefs", VSlice [strings [("name", "gateway"); ("namespace", "gateways")]]);
       ("rules", VSlice [VMap [("backendRefs", VSlice [strings [("name", "maas-api")]])]])])].
Definition overlay : list rendered :=
  [object "Deployment" "opendatahub" "maas-api"
     (workload "maas-api" [volume "maas-api-tls" "secret" "secretName" "maas-api-serving-cert"]);
   object "Service" "opendatahub" "maas-api" (service_to "maas-api");
   object "HTTPRoute" "opendatahub" "maas-api-route" api_route;
   object "Certificate" "opendatahub" "maas-api-serving-cert"
     [("spec", VMap [("secretName", VString "maas-api-serving-cert")])];
   object "Deployment" "opendatahub" "payload-processing"
     (workload "payload-processing" [volume "plugins-config-volume" "configMap" "name" "plugins"]);
   object "EnvoyFilter" "opendatahub" "payload-processing"
     [("spec", VMap [("configPatches", VSlice (replicate 11 (VMap [])))])];
   object "ClusterRole" "" "payload-processing-reader" []].

#[export] Instance doc_kustomize : Kustomize := {|
  fileExists _ := true;
  kustomize_Run _ := Ok overlay;
|}.

(** The parameters of a tenant, with autoscaling. *)
Definition scaled : MaasTenantConfig :=
  mkTenantConfig {[ LabelManagedByAITenant := "true"; LabelTenantName := "red" ]} ∅ [] 1 false
    (mkConfigSpec None None None
       (Some (mkPayloadProcessing (Some 3%Z) (Some (mkAutoscaling (Some 2%Z) None None)) None))) no_status.
Definition params_of (ns : string) (t : MaasTenantConfig) (gateway : string) : result string PlatformParams :=
  BuildPlatformParams (mkImages "api:1" "" "") ns (tenant_meta t) (tc_Spec t)
    (mkPlatform (mkGateway gateway "ingress") None) "opendatahub" "maas-system" "audience" "".
Definition params_in (ns : string) (t : MaasTenantConfig) (gateway : string) : PlatformParams :=
  match params_of ns t gateway with
  | Ok p => p
  | Err _ => mkParams "" "" "" "" "" "" None "" "" "" "" "" None None None false 0 0 0 "" false None []
  end.
Definition red : PlatformParams := params_in red_namespace scaled "red".
Definition default_params : PlatformParams :=
  params_in "models-as-a-service" (default_config ∅) "maas-gateway".

Definition built : list rendered := postBuildTransform overlay "opendatahub".
Definition rendering (p : PlatformParams) : list rendered :=
  match PostRender p red_namespace scaled built with Ok out => out | Err _ => [] end.
Definition in_rendering (p : PlatformParams) (k : rkey) : option resource :=
  snd <$> List.find (λ kx : rendered, bool_decide (kx.1 = k)) (rendering p).

Lemma red_rendered : PostRender red red_namespace scaled built = Ok (rendering red).
Proof. by_compute. Qed.
Lemma default_rendered : PostRender default_params red_namespace scaled built = Ok (rendering default_params).
Proof. by_compute. Qed.

Example rendered_keys :
  (rendering red).*1 =
    [("Deployment", ("opendatahub", "maas-api-red")); ("Service", ("opendatahub", "maas-api-red"));
     ("HTTPRoute", ("opendatahub", "maas-api-route-red"));
     ("Certificate", ("opendatahub", "maas-api-serving-cert-red"));
     ("Deployment", ("ingress", "payload-processing-red"));
     ("EnvoyFilter", ("ingress", "payload-processing-red"));
     ("ClusterRole", ("", "payload-processing-reader"));
     ("HorizontalPodAutoscaler", ("ingress", "payload-processing-red"))].
Proof. by_compute. Qed.

(** The certificate of a tenant puts its key into another Secret than the one that
    the API of the tenant mounts. *)
Example certificate_not_mounted :
  (in_rendering red ("Certificate", ("opendatahub", "maas-api-serving-cert-red"))
     ≫= λ x, found (NestedString (rs_Object x) ["spec"; "secretName"]))
    = Some "maas-api-serving-cert-red"
  ∧ (in_rendering red ("Deployment", ("opendatahub", "maas-api-red"))
     ≫= λ x, found (NestedSlice (rs_Object x) (pod_path ++ ["volumes"])))
    = Some [volume "maas-api-tls" "secret" "secretName" "maas-api-red-serving-cert"]
  ∧ (in_rendering default_params ("Deployment", ("opendatahub", "maas-api"))
     ≫= λ x, found (NestedSlice (rs_Object x) (pod_path ++ ["volumes"])))
    = Some [volume "maas-api-tls" "secret" "secretName" "maas-api-serving-cert"].
Proof. split_and!; by_compute. Qed.

(** Nor does the teardown of the tenant delete the certificate. *)
Example certificate_outlives_tenant :
  ("Certificate", ("opendatahub", "maas-api-serving-cert-red")) ∈ (rendering red).*1
  ∧ ("Certificate", ("opendatahub", "maas-api-serving-cert-red")) ∉ tenant_resources controller "red".
Proof.
  split.
  - rewrite rendered_keys. apply list_elem_of_In. cbn. tauto.
  - intros H%list_elem_of_In. vm_compute in H. intuition discriminate.
Qed.

End RenderingExamples.

(** ** Witnesses *)

Import DocApi ConfigExamples RenderingExamples.
#[local] Instance ascii : Unicode := {| IsPrint _ := false |}.

Lemma elem_at (l : list rendered) (i : nat) y : l !! i = Some y → y ∈ l.
Proof. apply list_elem_of_lookup_2. Qed.

Lemma keyed (l : list rendered) k : k ∈ l.*1 → ∃ x, (k, x) ∈ l.
Proof. intros ([k' x] & -> & Hin)%list_elem_of_fmap. by exists x. Qed.

Lemma teardown_takes_what_was_rendered_witness :
  ∃ x, (("EnvoyFilter", ("ingress", "payload-processing-red")), x) ∈ rendering red
    ∧ (("EnvoyFilter", ("ingress", "payload-processing-red")) ∈ tenant_resources controller "red"
       ∨ ("EnvoyFilter", ("ingress", "payload-processing-red"))
         = ("Certificate", ("opendatahub", "maas-api-serving-cert-red"))
       ∨ ("EnvoyFilter", ("ingress", "payload-processing-red"))
         = ("HorizontalPodAutoscaler", ("ingress", "payload-processing-red"))
       ∨ ∀ p' ns' t' out', PostRender p' ns' t' built = Ok out' →
           ∃ x', (("EnvoyFilter", ("ingress", "payload-processing-red")), x') ∈ out').
Proof.
  destruct (keyed (rendering red) ("EnvoyFilter", ("ingress", "payload-processing-red"))) as [x Hin].
  { rewrite rendered_keys. apply list_elem_of_In. cbn. tauto. }
  exists x. split; [done|].
  refine (teardown_takes_what_was_rendered controller "/manifests" red red_namespace scaled built (rendering red)
    _ x _ _ _ _ red_rendered Hin); [done|by_compute| |by_compute].
  intros path raw [= <-]. by_compute.
Defined.

Lemma services_select_own_pods_witness :
  ∃ s' d', s' ∈ rendering red ∧ d' ∈ rendering default_params
    ∧ s'.1.2.2 = "maas-api-red" ∧ d'.1.2.2 = "maas-api"
    ∧ is_Some (selects (rs_Object s'.2))
    ∧ (selects (rs_Object s'.2) = pods_of (rs_Object d'.2) ↔ "red" = "").
Proof.
  destruct (built !! 1) as [s|] eqn:Es; [|by vm_compute in Es].
  destruct (built !! 0) as [d|] eqn:Ed; [|by vm_compute in Ed].
  assert (s.1 = ("Service", ("opendatahub", "maas-api")) ∧ unmanaged s.2 = false) as [Ks Us]
    by (vm_compute in Es; injection Es as <-; by_compute || split; by_compute).
  assert (d.1 = ("Deployment", ("opendatahub", "maas-api")) ∧ unmanaged d.2 = false) as [Kd Ud]
    by (vm_compute in Ed; injection Ed as <-; split; by_compute).
  apply elem_at in Es, Ed.
  refine (services_select_own_pods red default_params red_namespace red_namespace scaled scaled built (rendering red)
    (rendering default_params) "maas-api" s d red_rendered default_rendered _ Es _ _ Us Ed _ _ Ud);
    [by left|by rewrite Ks|by rewrite Ks|by rewrite Kd|by rewrite Kd].
Defined.

Lemma rendered_filter_ready_witness :
  ∃ x, (("EnvoyFilter", ("ingress", "payload-processing-red")), x) ∈ rendering red
    ∧ filter_wired "payload-processing-red" "red" (rs_Object x) = Ok (true, "").
Proof.
  destruct (built !! 5) as [f|] eqn:Ef; [|by vm_compute in Ef].
  assert (f.1 = ("EnvoyFilter", ("opendatahub", "payload-processing")) ∧ unmanaged f.2 = false) as [Kf Uf]
    by (vm_compute in Ef; injection Ef as <-; split; by_compute).
  apply elem_at in Ef.
  refine (rendered_filter_ready red red_namespace scaled built (rendering red) f "payload-processing-red"
    red_rendered _ Ef _ _ Uf); [by vm_compute|by rewrite Kf|by rewrite Kf].
Defined.

Lemma autoscaling_rendered_witness :
  ∃ x, (("HorizontalPodAutoscaler", ("ingress", "payload-processing-red")), x) ∈ rendering red
    ∧ ∃ least most, NestedInt64 (rs_Object x) ["spec"; "minReplicas"] = Found least
        ∧ NestedInt64 (rs_Object x) ["spec"; "maxReplicas"] = Found most ∧ (1 <= least <= most)%Z.
Proof.
  assert (spec_admitted (tc_Spec scaled)) as Hs.
  { split; [done|]. intros cfg [= <-]. split; [intros n [= <-]; lia|]. intros a [= <-]. cbn.
    split_and!; [intros n [= <-]; lia|done|done]. }
  destruct (proj1 (autoscaling_rendered (mkImages "api:1" "" "") red_namespace scaled
    (mkPlatform (mkGateway "red" "ingress") None) "opendatahub" "maas-system" "audience" "" red built
    (rendering red) Hs ltac:(by_compute) red_rendered))
    as (x & Hx & _ & least & most & H1 & H2 & H3 & _).
  exists x. split; [exact Hx|]. by exists least, most.
Defined.

Lemma route_leads_to_service_witness :
  ∃ x, (("HTTPRoute", ("opendatahub", "maas-api-route-red")), x) ∈ rendering red
    ∧ route_of red (rs_Object x).
Proof.
  destruct (built !! 2) as [h|] eqn:Eh; [|by vm_compute in Eh].
  assert (h.1 = ("HTTPRoute", ("opendatahub", "maas-api-route")) ∧ unmanaged h.2 = false) as [Kh Uh]
    by (vm_compute in Eh; injection Eh as <-; split; by_compute).
  apply elem_at in Eh.
  destruct (route_leads_to_service red red_namespace scaled built (rendering red) h red_rendered Eh)
    as (x & Hx & Hr); [by rewrite Kh|by rewrite Kh|done|].
  exists x. rewrite Kh in Hx. done.
Defined.
