(* ===== verification/ModelRefFacts.v ===== *)
(** What a reconcile of a MaaSModelRef leaves in its status: the governance it
    finds, the models that share its name, and the status it writes, once. *)
From S2P Require Import Prelude GoStrings Sorting Unstructured Runtime.
From S2P Require Import GoFmt MaasTypes Cluster ControllerHelpers ModelProviders.
From S2P Require Import ControllerFacts ModelProviderFacts.
From S2P Require Import AuthPolicyController ModelRefController.
Import V1 Cluster Helpers Fmt Providers ModelController.

Section facts.
Context {api : ApiMachinery} {srv : ApiServer} {lawful : LawfulApiServer} {uni : Unicode}.
Context (r : ModelReconciler).

(** ** Governance *)

(** A subscription and a policy of tenant namespaces, neither of them being
    deleted, name the model. *)
Definition subscribed (c : cluster) (k : key) : Prop :=
  ∃ sk s, subscriptions c !! sk = Some s ∧ deleting s = false
    ∧ references s (k.1 +:+ "/" +:+ k.2) = true
    ∧ ns_allowed (model_settings r) c (V1.Namespace s) = true.
Definition admitted (c : cluster) (k : key) : Prop :=
  ∃ pk p, auth_crs c !! pk = Some p ∧ ap_deleting p = false
    ∧ k ∈ as_ModelRefs (ap_Spec p)
    ∧ ns_allowed (model_settings r) c (ap_Namespace p) = true.
Definition governed (c : cluster) (k : key) : Prop := subscribed c k ∧ admitted c k.

(** A test that may say no when calls fail. *)
Definition decides (P : Prop) (b : bool) : Prop :=
  (b = true → P) ∧ (¬ unreliable → P → b = true).

Lemma head_some {A} (l : list A) x : x ∈ l → ∃ y, head l = Some y.
Proof. destruct l; [by intros ?%elem_of_nil|eauto]. Qed.

Lemma findAnySubscription_reads k :
  reads (findAnySubscriptionForModel r k) (λ c o,
    decides (subscribed c k) (match o with Some _ => true | None => false end)).
Proof.
  unfold findAnySubscriptionForModel. eapply reads_then; [apply findAll_reads|].
  intros [subs|e]; [|by apply reads_ret].
  eapply reads_then; [apply filterSubscriptions_reads|]. intros l.
  apply reads_ret. intros c [Hin Hall] Hsubs. unfold decides, subscribed.
  split.
  - destruct l as [|s l]; [done|]. intros _. destruct (Hin s) as [Hs Ha]; [by left|].
    rewrite Hsubs in Hs. apply live_subs_elem in Hs as ([sk ?] & ? & ?). by exists sk, s.
  - intros Hrel (sk & s & Hs & Hd & Href & Ha). rewrite (Hall Hrel).
    destruct (head_some (allowed_subs (model_settings r) c subs) s) as [y ->]; [|done].
    apply filter_bool_elem_of. split; [|done]. rewrite Hsubs. apply live_subs_elem. eauto.
Qed.

Lemma findAllAuthPolicies_reads ns name :
  reads (AuthController.findAllAuthPoliciesForModel ns name) (λ c x,
    match x with
    | Ok l => ∀ p, p ∈ l ↔ (∃ pk, auth_crs c !! pk = Some p) ∧ ap_deleting p = false
                            ∧ (ns, name) ∈ as_ModelRefs (ap_Spec p)
    | Err _ => unreliable
    end).
Proof.
  unfold AuthController.findAllAuthPoliciesForModel.
  eapply reads_try; [eapply (reads_in_context _ _ _ (λ c x,
    match x with
    | Ok l => ∀ pk p, (pk, p) ∈ l ↔ auth_crs c !! pk = Some p
    | Err _ => unreliable
    end)); [apply list_in_reads| |]| |done].
  { intros c l Hl pk p. rewrite (listed_elem _ _ _ _ _ Hl). naive_solver. }
  { by intros c [| |msg]. }
  intros l. apply reads_ret. intros c Hl p.
  rewrite filter_bool_elem_of, list_elem_of_fmap, andb_true_iff, negb_true_iff.
  rewrite contains_true. split.
  - intros [([pk p'] & -> & H%Hl) ?]. eauto.
  - intros [[pk H%Hl] ?]. split; [|done]. by exists (pk, p).
Qed.

Lemma findAnyAuthPolicy_reads k :
  reads (ModelController.findAnyAuthPolicyForModel r k) (λ c o,
    decides (admitted c k) (match o with Some _ => true | None => false end)).
Proof.
  unfold ModelController.findAnyAuthPolicyForModel.
  eapply reads_then; [apply findAllAuthPolicies_reads|].
  intros [ps|e]; [|by apply reads_ret].
  eapply reads_then; [apply filter_allowed_reads|]. intros l.
  apply reads_ret. intros c Hl Hps. unfold decides, admitted.
  destruct Hl as [Hin Hall]; [intros ns b; by rewrite lookup_empty|].
  rewrite <-surjective_pairing in Hps. split.
  - destruct l as [|p l]; [done|]. intros _. destruct (Hin p) as [Hp Ha]; [by left|].
    apply Hps in Hp as ([pk ?] & ? & ?). by exists pk, p.
  - intros Hrel (pk & p & Hp & Hd & Href & Ha). rewrite (Hall Hrel).
    destruct (head_some (List.filter (λ s, ns_allowed (model_settings r) c (ap_Namespace s)) ps) p)
      as [y ->]; [|done].
    apply filter_bool_elem_of. split; [|done]. apply Hps. eauto.
Qed.

Lemma checkGovernance_reads k :
  reads (checkGovernanceAttached r k) (λ c b, decides (governed c k) b).
Proof.
  unfold checkGovernanceAttached, governed.
  eapply reads_then; [apply findAnySubscription_reads|]. intros [s|].
  - eapply reads_then; [apply findAnyAuthPolicy_reads|]. intros o.
    apply reads_ret. intros c [H1 H2] [H3 H4]. split.
    + intros Hb. split; [by apply H3|by apply H1].
    + intros Hrel [??]. by apply H2.
  - apply reads_ret. intros c [_ H]. split; [done|]. intros Hrel [Hs _].
    by specialize (H Hrel Hs).
Qed.

(** ** Models that share a name *)

(** The other models of the namespace with the name, in order. *)
Definition sharing (c : cluster) (k : key) (alias : string) (l : list string) : Prop :=
  (∀ n, n ∈ l ↔ n ≠ k.2 ∧ ∃ m, models c !! (k.1, n) = Some m
                             ∧ ms_ResolvedModelAlias (m_Status m) = alias)
  ∧ NoDup l ∧ sorted str_lt l.

(** The answer of the search. *)
Definition sharing_answer (c : cluster) (k : key) (alias : string)
    (x : result error (list string)) : Prop :=
  match x with Ok l => alias ≠ "" → sharing c k alias l | Err _ => unreliable end.

#[local] Instance str_strict_weak : StrictWeak str_lt.
Proof. split; [apply str_lt_asym|apply str_lt_neg_trans]. Qed.

Lemma NoDup_fmap_filter {A B} (g : A → B) (f : A → bool) l :
  NoDup (g <$> l) → NoDup (g <$> List.filter f l).
Proof.
  induction l as [|x l IH]; [done|]. cbn. intros [Hx Hl]%NoDup_cons.
  destruct (f x); [|by apply IH]. cbn. constructor; [|by apply IH].
  intros (y & E & [Hy _]%filter_bool_elem_of)%list_elem_of_fmap. apply Hx.
  apply list_elem_of_fmap. eauto.
Qed.

Lemma aliasConflicts_reads k model :
  reads (findModelAliasConflicts k model) (λ c x,
    sharing_answer c k (ms_ResolvedModelAlias (m_Status model)) x).
Proof.
  unfold findModelAliasConflicts, sharing_answer. cbv zeta.
  set (alias := ms_ResolvedModelAlias (m_Status model)).
  case_bool_decide as Ha; [by apply reads_ret|].
  eapply reads_try; [eapply (reads_in_context _ _ _ (λ c x,
    match x with
    | Ok l => NoDup l.*1 ∧ ∀ k' m, (k', m) ∈ l ↔ models c !! k' = Some m ∧ k'.1 = k.1
    | Err _ => unreliable
    end)); [apply list_in_reads| |]| |done].
  { intros c l Hl. split.
    - rewrite Hl. apply NoDup_fmap_filter, NoDup_fst_map_to_list.
    - intros k' m. rewrite (listed_elem _ _ _ _ _ Hl). cbn. by rewrite bool_decide_eq_true. }
  { by intros c [| |msg]. }
  intros l. apply reads_ret. intros c [Hnd Hl] _. unfold sharing. split_and!.
  - intros n. rewrite elem_of_sort_stable, list_elem_of_fmap.
    setoid_rewrite filter_bool_elem_of. split.
    + intros ([[ns n'] m] & -> & Hm & Ht). cbn in *. apply Hl in Hm as [Hm E]. cbn in E. subst ns.
      destruct_bools. eauto.
    + intros (Hn & m & Hm & Hal). exists ((k.1, n), m). cbn. split; [done|]. split; [by apply Hl|].
      by rewrite bool_decide_eq_false_2, bool_decide_eq_true_2.
  - rewrite sort_stable_perm. apply NoDup_fmap_filter.
    change (λ other : key * MaaSModelRef, other.1.2) with (snd ∘ fst : key * MaaSModelRef → string).
    rewrite list_fmap_compose. apply NoDup_fmap_2_strong; [|done].
    intros [ns n] [ns' n'] ([? m] & E & Hx)%list_elem_of_fmap
      ([? m'] & E' & Hy)%list_elem_of_fmap. cbn in E, E'. subst. cbn. intros ->.
    apply Hl in Hx as [_ Hx], Hy as [_ Hy]. cbn in Hx, Hy. by rewrite Hx, Hy.
  - apply sort_stable_sorted, _.
Qed.
(** ** The status that is written *)

(** The status with its phase and the condition Ready. *)
Definition finished (model : MaaSModelRef) (phase message reason : string)
    : MaaSModelStatus :=
  let '(status, condReason) := ready_state phase reason in
  m_Status (with_condition (mkCondition "Ready" status condReason message (m_Generation model))
    (with_status model (set_Phase phase))).

(** A program that writes the status of a model once, or not: either way, there is
    a status that it means to write, and that is there in the end when no call
    fails and [snapshot] was the status. *)
Definition settles (k : key) (snapshot : MaaSModelStatus)
    (Q : cluster → MaaSModelStatus → Prop) {A} (m : prog cluster A) : Prop :=
  ∀ w, ∃ st, Q (state w) st
    ∧ (state (m w).2 = state w
       ∨ ∃ m0, models (state w) !! k = Some m0
           ∧ state (m w).2 = set_models <[k := set_model_Status m0 st]> (state w))
    ∧ (∀ m0, ¬ unreliable → models (state w) !! k = Some m0 → m_Status m0 = snapshot →
       models (state (m w).2) !! k = Some (set_model_Status m0 st)).

Lemma settles_mono k snapshot (P Q : cluster → MaaSModelStatus → Prop) {A}
    (m : prog cluster A) :
  (∀ c st, P c st → Q c st) → settles k snapshot P m → settles k snapshot Q m.
Proof. intros H Hm w. destruct (Hm w) as (st & HP & ?). exists st. eauto. Qed.

Lemma settles_then {A B} k snapshot (P : cluster → A → Prop) Q (m : prog cluster A)
    (f : A → prog cluster B) :
  reads m P →
  (∀ x, settles k snapshot (λ c st, P c x → Q c st) (f x)) →
  settles k snapshot Q (m ≫= f).
Proof.
  intros Hm Hf w. rewrite bind_run. destruct (Hm w) as [E HP].
  destruct (Hf (m w).1 (m w).2) as (st & HQ & Hst). rewrite E in *. exists st. auto.
Qed.

Lemma settles_ret k snapshot Q {A B} (m : prog cluster A) (x : B) :
  settles k snapshot Q m → settles k snapshot Q (_ ← m; mret x).
Proof. intros Hm w. destruct (Hm w) as (st & ?). exists st. by rewrite bind_run. Qed.

Lemma set_model_Status_same m : set_model_Status m (m_Status m) = m.
Proof. by destruct m. Qed.

Lemma updateStatus_settles k model phase message reason snapshot :
  settles k snapshot (λ _ st, st = finished model phase message reason)
    (updateStatusWithReason k model phase message reason snapshot).
Proof.
  intros w. exists (finished model phase message reason). split; [done|].
  unfold updateStatusWithReason, finished. destruct (ready_state phase reason) as [status cr].
  set (st := m_Status (with_condition _ _)). case_bool_decide as E.
  - split; [by left|]. intros m0 _ Hm0 Hs. rewrite <-E, <-Hs, set_model_Status_same.
    exact Hm0.
  - rewrite bind_run. cbn [snd mret prog_ret]. unfold update_model_status. split.
    + match goal with |- context [write ?f w] => destruct (write_run f w) as [[Es _]|Es] end;
        [by left|]. destruct (models (state w) !! k) as [m0|]; [|done]. right. exists m0.
      injection Es as Es. by rewrite <-Es.
    + intros m0 Hrel Hm0 _. unfold write, mbind, prog_bind, get, tick, put. cbn.
      destruct (api_fault (ticks w)) as [x|] eqn:Ef.
      { destruct Hrel. by exists (ticks w), x. }
      rewrite Hm0. cbn. apply lookup_insert_eq.
Qed.

(** The model with the condition on its identity, from the models found to share
    its name. *)
Definition identity_update (k : key) (model : MaaSModelRef)
    (conflicts : result error (list string)) : MaaSModelRef :=
  let alias := ms_ResolvedModelAlias (m_Status model) in
  let unknown reason message :=
    mkCondition ConditionModelIdentityUnique "Unknown" reason message (m_Generation model) in
  with_condition
    (if alias == "" then
       unknown "AliasNotResolved"
         "Model alias has not been resolved yet; conflict status is unknown"
     else
       match conflicts with
       | Err e => unknown "ConflictCheckFailed" (error_text e)
       | Ok l => identity_condition k.1 alias (m_Generation model) l
       end) model.

Lemma checkIdentity_reads k model :
  reads (checkModelIdentityConflict r k model) (λ c x,
    ∃ conflicts, sharing_answer c k (ms_ResolvedModelAlias (m_Status model)) conflicts
      ∧ x.1 = identity_update k model conflicts).
Proof.
  unfold checkModelIdentityConflict, identity_update. cbv zeta.
  case_bool_decide as Ha.
  - apply reads_ret. intros c. exists (Ok []). split; [|done]. by intros ?.
  - eapply reads_then; [apply aliasConflicts_reads|].
    intros [l|e]; apply reads_ret; intros c H; [by exists (Ok l)|by exists (Err e)].
Qed.

(** The model with its name in requests. *)
Definition alias_update (model : MaaSModelRef) (alias : result error string) : MaaSModelRef :=
  match alias with
  | Err _ => model
  | Ok alias => if alias != "" then with_status model (set_alias alias) else model
  end.

(** The model with what has been found of it, before its phase. *)
Definition observed (k : key) (model : MaaSModelRef) (endpoint : string) (ready : bool)
    (alias : result error string) (is_governed : bool)
    (conflicts : result error (list string)) : MaaSModelRef :=
  let override := m_EndpointOverride (m_Spec model) in
  let model :=
    with_status model (set_Endpoint (if override != "" then override else endpoint)) in
  identity_update k
    (setRuntimeReadyCondition (setGovernanceCondition (alias_update model alias) is_governed)
       ready) conflicts.

(** The status of a model whose backend has answered. *)
Definition final_status (k : key) (model : MaaSModelRef) (endpoint : string) (ready : bool)
    (alias : result error string) (is_governed : bool)
    (conflicts : result error (list string)) : MaaSModelStatus :=
  let model := observed k model endpoint ready alias is_governed conflicts in
  let '(phase, message) := deriveModelPhase is_governed ready in
  finished (if phase != "Ready" then with_status model (set_Endpoint "") else model)
    phase message "".

(** The name of a model after its backend has been asked. *)
Definition next_alias (model : MaaSModelRef) (alias : result error string) : string :=
  ms_ResolvedModelAlias (m_Status (alias_update model alias)).

(** The statuses that a reconcile means to write for a live model. *)
Inductive intended (c : cluster) (k : key) (model : MaaSModelRef) : MaaSModelStatus → Prop :=
  | intend_unknown :
      GetBackendHandler r (m_Kind (m_Spec model)) = None →
      intended c k model
        (finished model "Failed" ("unknown kind: " +:+ m_Kind (m_Spec model)) "")
  | intend_waiting st e message :
      route_answer_of r c k model (st, Err e) →
      is_route_not_found e || is_tenant_pending e = true →
      intended c k model
        (finished (set_model_Status model (set_Endpoint "" st)) "Pending" message "")
  | intend_unrouted st e :
      route_answer_of r c k model (st, Err e) →
      is_route_not_found e || is_tenant_pending e = false →
      intended c k model
        (finished (set_model_Status model st) "Failed"
           ("Failed to reconcile HTTPRoute: " +:+ error_text e) "")
  | intend_failed st e :
      attached r c k model st →
      runtime_answer c k (set_model_Status model st) (Err e) →
      intended c k model
        (finished (set_model_Status model (set_Phase "Failed" (set_Endpoint "" st))) "Failed"
           ("Failed to update model status: " +:+ error_text e) "")
  | intend_reported st endpoint ready alias is_governed conflicts :
      attached r c k model st →
      runtime_answer c k (set_model_Status model st) (Ok (endpoint, ready)) →
      alias_answer c k model alias →
      decides (governed c k) is_governed →
      sharing_answer c k (next_alias model alias) conflicts →
      intended c k model
        (final_status k (set_model_Status model st) endpoint ready alias is_governed conflicts).

Lemma attached_routing c k model st :
  attached r c k model st → routing_only (m_Status model) st.
Proof. destruct 1; split_and!; by auto. Qed.

Lemma report_settles handler k model endpoint ready snapshot :
  GetBackendHandler r (m_Kind (m_Spec model)) = Some handler →
  settles k snapshot (λ c st, ∃ alias is_governed conflicts,
      alias_answer c k model alias ∧ decides (governed c k) is_governed
      ∧ sharing_answer c k (next_alias model alias) conflicts
      ∧ st = final_status k model endpoint ready alias is_governed conflicts)
    (report r handler k model endpoint ready snapshot).
Proof.
  intros Hh. unfold report. cbv zeta.
  set (model1 := with_status model _).
  eapply (settles_then _ _ (λ c m, ∃ alias,
    alias_answer c k model alias ∧ m = alias_update model1 alias)).
  { unfold resolve_alias. eapply reads_then; [by apply (ResolveModelAlias_reads r)|].
    intros alias. apply reads_ret. intros c Ha. exists alias. split; [done|]. done. }
  intros model2. eapply settles_then; [apply checkGovernance_reads|]. intros is_governed.
  eapply settles_then; [apply checkIdentity_reads|]. intros [model3 evs].
  destruct (deriveModelPhase is_governed ready) as [phase message] eqn:Ep.
  unfold updateStatus. apply settles_ret.
  eapply settles_mono; [|apply updateStatus_settles].
  intros c st -> (conflicts & Hc & Em3) Hg (alias & Ha & ->). cbn in Em3. subst model3.
  exists alias, is_governed, conflicts. split_and!; [done..| |].
  - assert (ms_ResolvedModelAlias (m_Status (setRuntimeReadyCondition
      (setGovernanceCondition (alias_update model1 alias) is_governed) ready))
      = next_alias model alias) as <-; [|done].
    unfold next_alias. destruct alias as [alias|]; [|done]. cbn. by destruct (alias != "").
  - unfold final_status, observed. fold model1. by rewrite Ep.
Qed.

Lemma next_alias_routing model st alias :
  routing_only (m_Status model) st →
  next_alias (set_model_Status model st) alias = next_alias model alias.
Proof.
  intros (_ & Ha & _). unfold next_alias. destruct alias as [alias|]; [|done]. cbn.
  by destruct (alias != "").
Qed.

Lemma reconcile_runtime_settles handler k model st snapshot :
  GetBackendHandler r (m_Kind (m_Spec model)) = Some handler →
  settles k snapshot (λ c st', attached r c k model st → intended c k model st')
    (reconcile_runtime r handler k (set_model_Status model st) snapshot).
Proof.
  intros Hh. unfold reconcile_runtime.
  eapply settles_then; [by apply (Status_reads r)|]. intros [[endpoint ready]|e].
  - eapply settles_mono; [|by apply report_settles].
    intros c st' (alias & g & l & Ha & Hg & Hl & ->) Hrun Hat.
    rewrite next_alias_routing in Hl by by eapply attached_routing.
    by eapply intend_reported.
  - unfold updateStatus. destruct (is_kind_not_implemented e) eqn:Ek; apply settles_ret;
      (eapply settles_mono; [|apply updateStatus_settles]); intros c st' ->.
    + intros [H _]. congruence.
    + intros Hrun Hat. exact (intend_failed c k model st e Hat Hrun).
Qed.

Lemma reconcile_route_settles handler k model snapshot :
  GetBackendHandler r (m_Kind (m_Spec model)) = Some handler →
  settles k snapshot (λ c st, intended c k model st)
    (reconcile_route r handler k model snapshot).
Proof.
  intros Hh. unfold reconcile_route.
  eapply settles_then; [by apply ReconcileRoute_reads|]. intros [st [[]|e]].
  - eapply settles_mono; [|by apply reconcile_runtime_settles].
    intros c st' H [_ Hat]. by apply H.
  - unfold updateStatus. destruct (is_kind_not_implemented e) eqn:Ek.
    { apply settles_ret. eapply settles_mono; [|apply updateStatus_settles].
      intros c st' _ [_ [H _]]. cbn in H. congruence. }
    destruct (is_route_not_found e) eqn:Er; [|destruct (is_tenant_pending e) eqn:Et].
    1-2: apply settles_ret; eapply settles_mono; [|apply updateStatus_settles];
      intros c st' -> H; apply (intend_waiting c k model st e); [exact H|by rewrite Er, ?Et].
    apply settles_ret. eapply settles_mono; [|apply updateStatus_settles].
    intros c st' -> H. apply (intend_unrouted c k model st e); [exact H|by rewrite Er, Et].
Qed.

(** ** A reconcile of a live model *)

(** The models of the cluster with one changed. *)
Definition model_at (k : key) (m : MaaSModelRef) (c : cluster) : cluster :=
  set_models <[k := m]> c.

Definition with_finalizer (m : MaaSModelRef) : MaaSModelRef :=
  if contains (m_Finalizers m) maasModelFinalizer then m
  else set_model_Finalizers m (add_finalizer (m_Finalizers m) maasModelFinalizer).

Lemma set_models_id c k m : models c !! k = Some m → set_models <[k := m]> c = c.
Proof.
  intros E. unfold set_models. rewrite insert_id by done. by destruct c.
Qed.

(** The finalizer is there, or the call has failed. *)
Lemma ensure_finalizer_run k m w :
  models (state w) !! k = Some m → m_deleting m = false →
  let x := ModelController.ensure_finalizer k m w in
  (state x.2 = state w ∨ state x.2 = model_at k (with_finalizer m) (state w))
  ∧ (match x.1 with
     | Ok m' => m' = with_finalizer m
                ∧ state x.2 = model_at k (with_finalizer m) (state w)
     | Err _ => unreliable
     end).
Proof.
  intros Hm Hlive. cbv zeta. unfold ModelController.ensure_finalizer, with_finalizer, model_at.
  destruct (contains _ _).
  { split; [by left|]. split; [done|]. symmetry. by apply set_models_id. }
  rewrite bind_run. cbn [fst snd mret prog_ret]. unfold update_model_finalizers.
  set (fs := add_finalizer _ _).
  match goal with |- context [write ?f w] =>
    assert (f (state w) = Ok (set_models <[k:=set_model_Finalizers m fs]> (state w))) as Hf
      by (cbn; by rewrite Hm, Hlive);
    assert (match (write f w).1 with Ok _ => state (write f w).2
              = set_models <[k:=set_model_Finalizers m fs]> (state w) | Err _ => unreliable end)
      as Hw
  end.
  { unfold write, mbind, prog_bind, get, tick, put. cbn.
    destruct (api_fault (ticks w)) as [[e [|]]|] eqn:Ef; cbn; rewrite ?Hm, ?Hlive; cbn;
      [by eexists; rewrite Ef|by eexists; rewrite Ef|done]. }
  match goal with |- context [write ?f w] => destruct (write_run f w) as [[E1 E2]|E] end.
  - split; [by left|]. destruct (write _ w).1 as [[]|e]; [done|exact Hw].
  - rewrite Hf in E. injection E as E. split; [by right|].
    destruct (write _ w).1 as [[]|e]; [by split|exact Hw].
Qed.

(** A reconcile of a live model gives it its finalizer and an intended status, or
    stops on the way when a call fails. *)
Lemma model_Reconcile_live k m w :
  models (state w) !! k = Some m → m_deleting m = false → m_Spec m ≠ zero_model_spec →
  let c' := state (Reconcile r k w).2 in
  let settled := ∃ st,
    intended (model_at k (with_finalizer m) (state w)) k (with_finalizer m) st
    ∧ c' = model_at k (set_model_Status (with_finalizer m) st) (state w) in
  (c' = state w ∨ c' = model_at k (with_finalizer m) (state w) ∨ settled)
  ∧ (¬ unreliable → settled).
Proof.
  intros Hm Hlive Hspec. cbv zeta. unfold Reconcile.
  step_reads (get_in_reads models k) as [m'|[| |msg]] E H; [|congruence|done|].
  2: { split; [left; exact E|done]. }
  assert (m' = m) as -> by congruence. rewrite <-E in Hm |- *. clear E H w. rename w0 into w.
  rewrite Hlive, bool_decide_eq_false_2 by done. rewrite run_try.
  pose proof (ensure_finalizer_run k m w Hm Hlive) as [Hf Hx]. cbv zeta in Hf, Hx.
  destruct (ModelController.ensure_finalizer k m w) as [[m1|e] w1]; cbn [fst snd] in *.
  2: { split; [destruct Hf as [->| ->]; auto|done]. }
  destruct Hx as [-> Ew]. rewrite <-Ew.
  assert (models (state w1) !! k = Some (with_finalizer m)) as Hm1
    by (rewrite Ew; apply lookup_insert_eq).
  assert (∀ st, model_at k (set_model_Status (with_finalizer m) st) (state w1)
    = model_at k (set_model_Status (with_finalizer m) st) (state w)) as Hat.
  { intros st. rewrite Ew. unfold model_at, set_models. cbn. by rewrite insert_insert_eq. }
  assert (∀ {A} (p : prog cluster A),
    settles k (m_Status (with_finalizer m)) (λ c st, intended c k (with_finalizer m) st) p →
    let settled := ∃ st, intended (state w1) k (with_finalizer m) st
      ∧ state (p w1).2 = model_at k (set_model_Status (with_finalizer m) st) (state w) in
    (state (p w1).2 = state w ∨ state (p w1).2 = state w1 ∨ settled)
    ∧ (¬ unreliable → settled)) as Hp.
  { intros A p Hp. cbv zeta. destruct (Hp w1) as (st & Hst & Hcases & Hrel). split.
    - destruct Hcases as [->|(m0 & Em0 & ->)]; [by right; left|].
      right. right. exists st. split; [done|]. assert (m0 = with_finalizer m) as -> by congruence.
      apply Hat.
    - intros Hre. exists st. split; [done|]. specialize (Hrel _ Hre Hm1 eq_refl).
      rewrite <-Hat. destruct Hcases as [E|(m0 & Em0 & ->)].
      + rewrite E in Hrel |- *. symmetry. by apply set_models_id.
      + by assert (m0 = with_finalizer m) as -> by congruence. }
  destruct (GetBackendHandler r _) as [handler|] eqn:Eh.
  - apply Hp. by apply reconcile_route_settles.
  - apply Hp. unfold updateStatus. apply settles_ret.
    eapply settles_mono; [|apply updateStatus_settles].
    intros c st ->. by apply intend_unknown.
Qed.
End facts.

(** ** Fields of the intended statuses *)

Section fields.
Context {srv : ApiServer} {uni : Unicode}.

Lemma finished_Phase model phase message reason :
  ms_Phase (finished model phase message reason) = phase.
Proof. unfold finished. by destruct (ready_state _ _). Qed.
Lemma finished_Endpoint model phase message reason :
  ms_Endpoint (finished model phase message reason) = ms_Endpoint (m_Status model).
Proof. unfold finished. by destruct (ready_state _ _). Qed.
Lemma finished_alias model phase message reason :
  ms_ResolvedModelAlias (finished model phase message reason)
  = ms_ResolvedModelAlias (m_Status model).
Proof. unfold finished. by destruct (ready_state _ _). Qed.
Lemma finished_tenant model phase message reason :
  ms_ResolvedTenantRef (finished model phase message reason)
  = ms_ResolvedTenantRef (m_Status model).
Proof. unfold finished. by destruct (ready_state _ _). Qed.
Lemma finished_Conditions model phase message reason :
  ms_Conditions (finished model phase message reason)
  = set_condition (ms_Conditions (m_Status model))
      (mkCondition "Ready" (ready_state phase reason).1 (ready_state phase reason).2 message
         (m_Generation model)).
Proof. unfold finished. by destruct (ready_state _ _). Qed.

Lemma alias_update_same model alias :
  m_Spec (alias_update model alias) = m_Spec model
  ∧ m_Generation (alias_update model alias) = m_Generation model
  ∧ ms_Conditions (m_Status (alias_update model alias)) = ms_Conditions (m_Status model)
  ∧ ms_Endpoint (m_Status (alias_update model alias)) = ms_Endpoint (m_Status model)
  ∧ ms_ResolvedTenantRef (m_Status (alias_update model alias))
    = ms_ResolvedTenantRef (m_Status model).
Proof. destruct alias as [alias|]; [|done]. cbn. by destruct (alias != ""). Qed.

Lemma observed_alias k model endpoint ready alias g conflicts :
  ms_ResolvedModelAlias (m_Status (observed k model endpoint ready alias g conflicts))
  = next_alias model alias.
Proof.
  unfold observed, next_alias. cbn. destruct alias as [alias|]; [|done]. cbn.
  by destruct (alias != "").
Qed.

Lemma observed_Endpoint k model endpoint ready alias g conflicts :
  ms_Endpoint (m_Status (observed k model endpoint ready alias g conflicts))
  = if m_EndpointOverride (m_Spec model) != "" then m_EndpointOverride (m_Spec model)
    else endpoint.
Proof.
  unfold observed. cbn.
  match goal with |- ms_Endpoint (m_Status (alias_update ?m _)) = _ =>
    destruct (alias_update_same m alias) as (_ & _ & _ & -> & _) end. done.
Qed.

Lemma observed_tenant k model endpoint ready alias g conflicts :
  ms_ResolvedTenantRef (m_Status (observed k model endpoint ready alias g conflicts))
  = ms_ResolvedTenantRef (m_Status model).
Proof.
  unfold observed. cbn.
  match goal with |- ms_ResolvedTenantRef (m_Status (alias_update ?m _)) = _ =>
    destruct (alias_update_same m alias) as (_ & _ & _ & _ & ->) end. done.
Qed.

Lemma final_Phase k model endpoint ready alias g conflicts :
  ms_Phase (final_status k model endpoint ready alias g conflicts)
  = (deriveModelPhase g ready).1.
Proof.
  unfold final_status. destruct (deriveModelPhase g ready) as [phase message].
  apply finished_Phase.
Qed.

Lemma final_Endpoint k model endpoint ready alias g conflicts :
  ms_Endpoint (final_status k model endpoint ready alias g conflicts)
  = if g && ready then
      if m_EndpointOverride (m_Spec model) != "" then m_EndpointOverride (m_Spec model)
      else endpoint
    else "".
Proof.
  unfold final_status. destruct g, ready; cbn [deriveModelPhase andb]; rewrite finished_Endpoint;
    [|done..]. apply observed_Endpoint.
Qed.

Lemma final_alias k model endpoint ready alias g conflicts :
  ms_ResolvedModelAlias (final_status k model endpoint ready alias g conflicts)
  = next_alias model alias.
Proof.
  unfold final_status. destruct g, ready; cbn [deriveModelPhase]; rewrite finished_alias;
    apply observed_alias.
Qed.

Lemma final_tenant k model endpoint ready alias g conflicts :
  ms_ResolvedTenantRef (final_status k model endpoint ready alias g conflicts)
  = ms_ResolvedTenantRef (m_Status model).
Proof.
  unfold final_status. destruct g, ready; cbn [deriveModelPhase]; rewrite finished_tenant;
    apply observed_tenant.
Qed.

Lemma next_alias_kept model alias :
  ms_ResolvedModelAlias (m_Status model) ≠ "" → next_alias model alias ≠ "".
Proof.
  unfold next_alias. destruct alias as [alias|]; [|done]. cbn.
  case_bool_decide; cbn; done.
Qed.
End fields.

(** ** Collections of the cluster *)

(** A part of the cluster that can be replaced. *)
Class Collection {A} (objects : cluster → gmap key A)
    (set_objects : (gmap key A → gmap key A) → cluster → cluster) : Prop := {
  objects_set f c : objects (set_objects f c) = f (objects c);
  set_same c : set_objects (λ _, objects c) c = c;
  set_twice f m c : set_objects (λ _, m) (set_objects f c) = set_objects (λ _, m) c;
  set_value f c : set_objects f c = set_objects (λ _, f (objects c)) c;
}.

#[global] Instance policies_collection : Collection policies set_policies.
Proof. split; [done| |done..]. by intros []. Qed.
#[global] Instance auth_policies_collection : Collection auth_policies set_auth_policies.
Proof. split; [done| |done..]. by intros []. Qed.

Section deletion.
Context {srv : ApiServer} {lawful : LawfulApiServer}.
Context {A : Type} (objects : cluster → gmap key A)
  (set_objects : (gmap key A → gmap key A) → cluster → cluster) `{!Collection objects set_objects}.

(** Some of the objects that pass a test go, and nothing else happens. *)
Definition removes (P : key → A → bool) (c c' : cluster) : Prop :=
  c' = set_objects (λ _, objects c') c
  ∧ ∀ k, objects c' !! k = objects c !! k
         ∨ (objects c' !! k = None ∧ ∃ x, objects c !! k = Some x ∧ P k x = true).

#[global] Instance removes_refl P : Reflexive (removes P).
Proof. intros c. split; [by rewrite set_same|by left]. Qed.
#[global] Instance removes_trans P : Transitive (removes P).
Proof.
  intros c1 c2 c3 [O1 H1] [O2 H2]. split.
  { rewrite O2 at 1. rewrite O1. by rewrite set_twice. }
  intros k. destruct (H2 k) as [->|(-> & t & E & Pt)]; [done|]. right. split; [done|].
  destruct (H1 k) as [E'|[E' _]]; [|congruence]. exists t. by rewrite <-E'.
Qed.

Lemma removes_lookup P c c' k x :
  removes P c c' → objects c' !! k = Some x → objects c !! k = Some x.
Proof. intros [_ H] E. destruct (H k) as [<-|[? _]]; congruence. Qed.

Lemma removes_delete P k c x :
  objects c !! k = Some x → P k x = true → removes P c (set_objects (delete k) c).
Proof.
  intros E HP. split; [by rewrite objects_set, <-set_value|]. intros k'.
  rewrite objects_set. destruct (decide (k' = k)) as [->|].
  - rewrite lookup_delete_eq. right. eauto.
  - left. by rewrite lookup_delete_ne.
Qed.

(** What deleting an object does. *)
Definition removal (remove : key → prog cluster (result api_error ())) : Prop :=
  ∀ k w, let x := remove k w in
    (state x.2 = state w ∨ state x.2 = set_objects (delete k) (state w))
    ∧ (x.1 = Ok () ∨ x.1 = Err NotFound → objects (state x.2) !! k = None)
    ∧ (¬ unreliable → x.1 = Ok () ∨ x.1 = Err NotFound).

Lemma write_removal (f : key → cluster → result api_error cluster) :
  (∀ k c, f k c = match objects c !! k with
                  | Some _ => Ok (set_objects (delete k) c)
                  | None => Err NotFound
                  end) →
  removal (λ k, write (f k)).
Proof.
  intros Hf k w. cbv zeta. unfold write, mbind, prog_bind, get, tick, put. cbn.
  destruct (api_fault (ticks w)) as [[e [|]]|] eqn:E.
  1-2: assert unreliable as Hu by (exists (ticks w); by rewrite E);
    destruct (api_fault_failure _ _ _ E) as [msg ->]; rewrite ?Hf.
  - destruct (objects (state w) !! k); cbn; (split_and!; [by auto|by intros [|]|done]).
  - cbn. split_and!; [by auto|by intros [|]|done].
  - rewrite Hf. destruct (objects (state w) !! k) eqn:Ek; cbn.
    + split_and!; [by right| |by left]. intros _. by rewrite objects_set, lookup_delete_eq.
    + split_and!; [by left|by intros _|by right].
Qed.

Context (labels annotations : A → gmap string string).
Context (remove : key → prog cluster (result api_error ())) (Hremove : removal remove).

(** Generated for a model by the controller, and not excluded from management. *)
Definition generated_for (model k : key) (x : A) : bool :=
  (k.1 == model.1)
  && (labels x !! "maas.opendatahub.io/model" == Some model.2)
  && (labels x !! "app.kubernetes.io/managed-by" == Some "maas-controller").
Definition deletable (model k : key) (x : A) : bool :=
  generated_for model k x && isManaged (annotations x).

Lemma managed_deletion_run kind model items w :
  (∀ k x, (k, x) ∈ items → generated_for model k x = true
     ∧ (objects (state w) !! k = Some x ∨ objects (state w) !! k = None)) →
  let y := delete_managed kind annotations remove items w in
  removes (deletable model) (state w) (state y.2)
  ∧ (y.1 = Ok () → ∀ k x, (k, x) ∈ items → deletable model k x = true →
       objects (state y.2) !! k = None)
  ∧ (¬ unreliable → y.1 = Ok ()).
Proof.
  cbv zeta. revert w. induction items as [|[k x] items IH]; intros w Hl.
  { split_and!; [apply removes_refl| |done]. intros _ k x []%not_elem_of_nil. }
  cbn [delete_managed]. destruct (Hl k x ltac:(left)) as [Hg Hx].
  destruct (isManaged (annotations x)) eqn:Hm; cbn [negb].
  2: { destruct (IH w) as (IH1 & IH2 & IH3); [intros ???; apply Hl; by right|].
       split_and!; [done| |done]. intros Hok k' x' [[= -> ->]|Hin]%elem_of_cons Hd; [|by eapply IH2].
       unfold deletable in Hd. by rewrite Hm, andb_false_r in Hd. }
  assert (deletable model k x = true) as Hdel by (unfold deletable; by rewrite Hg, Hm).
  rewrite bind_run. destruct (Hremove k w) as (Hst & Hgone & Hrel).
  set (w1 := (remove k w).2) in *.
  assert (removes (deletable model) (state w) (state w1)) as Hstep.
  { destruct Hst as [->| ->]; [apply removes_refl|]. destruct Hx as [Hx|Hx].
    - by eapply removes_delete.
    - rewrite set_value, delete_id, set_same by done. apply removes_refl. }
  destruct (IH w1) as (IH1 & IH2 & IH3).
  { intros k' x' Hin. destruct (Hl k' x') as [? Hor]; [by right|]. split; [done|].
    destruct Hstep as [_ Hs]. destruct (Hs k') as [->|[-> _]]; [done|by right]. }
  assert (objects (state w1) !! k = None →
    let y := delete_managed kind annotations remove items w1 in
    removes (deletable model) (state w) (state y.2)
    ∧ (y.1 = Ok () → ∀ k' x', (k', x') ∈ (k, x) :: items → deletable model k' x' = true →
       objects (state y.2) !! k' = None)
    ∧ (¬ unreliable → y.1 = Ok ())) as Hgo.
  { intros Hnone. cbv zeta. split_and!; [by eapply removes_trans| |done].
    intros Hok k' x' [[= -> ->]|Hin]%elem_of_cons Hd; [|by eapply IH2].
    destruct IH1 as [_ IH1]. destruct (IH1 k) as [->|[-> _]]; done. }
  clearbody w1. destruct (remove k w).1 as [[]|[| |msg]]; cbn in *;
    unfold mret, prog_ret; auto; (split_and!; [done..|]); by intros [|]%Hrel.
Qed.

Lemma deleteByLabel_run kind model w :
  let y := deleteGeneratedPoliciesByLabel kind objects labels annotations remove model w in
  removes (deletable model) (state w) (state y.2)
  ∧ (y.1 = Ok () → ∀ k x, objects (state y.2) !! k = Some x → deletable model k x = false)
  ∧ (¬ unreliable → y.1 = Ok ()).
Proof.
  cbv zeta. unfold deleteGeneratedPoliciesByLabel.
  step_reads (list_in_reads objects (generated_for model)) as [items|[| |msg]] E Hl;
    [|done|done|by split_and!; [rewrite <-E; apply removes_refl|..]].
  rewrite <-E in *. clear E w.
  assert (∀ k x, (k, x) ∈ items ↔ objects (state w0) !! k = Some x
    ∧ generated_for model k x = true) as Hin
    by (intros k x; apply (listed_elem _ _ _ _ _ Hl)).
  destruct (managed_deletion_run kind model items w0) as (H1 & H2 & H3).
  { intros k x Hkx. apply Hin in Hkx as [? ?]. auto. }
  split_and!; [done| |done]. intros Hok k x Hk. apply not_true_iff_false. intros Hd.
  rewrite (H2 Hok k x) in Hk; [done| |done]. apply Hin.
  split; [by eapply removes_lookup|]. unfold deletable in Hd. by destruct_bools.
Qed.
End deletion.

(** ** The deletion of a model *)

Section deleted.
Context {api : ApiMachinery} {srv : ApiServer} {lawful : LawfulApiServer} {uni : Unicode}.
Context (r : ModelReconciler).

Definition deletable_auths : key → key → AuthPolicy → bool := deletable a_labels a_annotations.
Definition deletable_trlps : key → key → Trlp → bool := deletable t_labels t_annotations.
Definition removes_auths (k : key) : cluster → cluster → Prop :=
  removes auth_policies set_auth_policies (deletable_auths k).
Definition removes_trlps (k : key) : cluster → cluster → Prop :=
  removes policies set_policies (deletable_trlps k).

(** No generated policy of the model is left. *)
Definition cleaned (k : key) (c : cluster) : Prop :=
  (∀ k' ap, auth_policies c !! k' = Some ap → deletable_auths k k' ap = false)
  ∧ (∀ k' t, policies c !! k' = Some t → deletable_trlps k k' t = false).

(** The model without its finalizer; without any, it is gone. *)
Definition drop_finalizer (k : key) (m : MaaSModelRef) (c : cluster) : cluster :=
  let fs := remove_finalizer (m_Finalizers m) maasModelFinalizer in
  set_models (if length fs =? 0 then delete k else <[k := set_model_Finalizers m fs]>) c.

Lemma cleanup_backend_run k m w : cleanup_backend r k m w = (Ok (), w).
Proof.
  unfold cleanup_backend. destruct (GetBackendHandler r _) as [h|] eqn:E; [|done].
  by apply GetBackendHandler_cases in E as [[_ ->]|(_ & _ & ->)].
Qed.

Lemma model_deletion_run k m w :
  models (state w) !! k = Some m → m_deleting m = true →
  let x := handleDeletion r k m w in
  ∃ c1 c2, removes_auths k (state w) c1 ∧ removes_trlps k c1 c2
    ∧ (state x.2 = c2 ∨ (state x.2 = drop_finalizer k m c2 ∧ cleaned k c2))
    ∧ (x.1 = Ok () → m_Finalizers m = [] ∨ maasModelFinalizer ∉ m_Finalizers m
                      ∨ state x.2 = drop_finalizer k m c2)
    ∧ (¬ unreliable → x.1 = Ok ()).
Proof.
  intros Hm Hd. cbv zeta. unfold handleDeletion.
  destruct (contains (m_Finalizers m) maasModelFinalizer) eqn:Ef.
  2: { apply contains_false in Ef. exists (state w), (state w).
       split_and!; [apply removes_refl, _|apply removes_refl, _|by left|by auto|done]. }
  rewrite run_try.
  destruct (deleteByLabel_run auth_policies set_auth_policies a_labels a_annotations delete_auth
    (write_removal _ _ _ (λ k c, eq_refl)) "AuthPolicy" k w)
    as (Ha1 & Ha2 & Ha3).
  destruct (deleteGeneratedPoliciesByLabel "AuthPolicy" _ _ _ _ k w) as [[[]|e] w1];
    cbn [fst snd] in *.
  2: { exists (state w1), (state w1). split_and!; [done|apply removes_refl, _|by left|done|].
       by intros H%Ha3. }
  rewrite run_try.
  destruct (deleteByLabel_run policies set_policies t_labels t_annotations delete_policy
    (write_removal _ _ _ (λ k c, eq_refl)) "TokenRateLimitPolicy" k w1)
    as (Ht1 & Ht2 & Ht3).
  destruct (deleteGeneratedPoliciesByLabel "TokenRateLimitPolicy" _ _ _ _ k w1)
    as [[[]|e] w2]; cbn [fst snd] in *.
  2: { exists (state w1), (state w2). split_and!; [done|done|by left|done|].
       by intros H%Ht3. }
  rewrite run_try, cleanup_backend_run. cbn [fst snd]. rewrite bind_run. cbn [fst snd].
  assert (cleaned k (state w2)) as Hclean.
  { split; [|by apply Ht2]. destruct Ht1 as [-> _]. by apply Ha2. }
  assert (models (state w2) !! k = Some m) as Hm2.
  { destruct Ht1 as [-> _], Ha1 as [-> _]. done. }
  exists (state w1), (state w2). split_and!; [done|done| | |].
  - unfold update_model_finalizers.
    match goal with |- context [write ?f w2] => destruct (write_run f w2) as [[Es _]|Es] end;
      [by left|right]. rewrite Hm2, Hd in Es. injection Es as Es. split; [|done].
    unfold mret, prog_ret. cbn [snd]. rewrite <-Es. unfold drop_finalizer.
    by destruct (length _ =? 0).
  - unfold update_model_finalizers.
    match goal with |- context [write ?f w2] => destruct (write_run f w2) as [[_ Es]|Es] end.
    + destruct (write _ w2).1 as [[]|e]; done.
    + intros _. right. right. rewrite Hm2, Hd in Es. injection Es as Es.
      unfold mret, prog_ret. cbn [snd]. rewrite <-Es. unfold drop_finalizer.
      by destruct (length _ =? 0).
  - intros Hrel. unfold update_model_finalizers, write, mbind, prog_bind, get, tick, put. cbn.
    destruct (api_fault (ticks w2)) as [y|] eqn:Ey; [by destruct Hrel; exists (ticks w2), y|].
    by rewrite Hm2.
Qed.

(** What a reconcile does: nothing; a deletion; or a status. *)
Lemma Reconcile_cases k w :
  let c' := state (Reconcile r k w).2 in
  c' = state w
  ∨ (∃ m, models (state w) !! k = Some m
     ∧ ((m_deleting m = true ∧ ∃ c1 c2, removes_auths k (state w) c1 ∧ removes_trlps k c1 c2
          ∧ (c' = c2 ∨ (c' = drop_finalizer k m c2 ∧ cleaned k c2)))
        ∨ (m_Spec m = zero_model_spec ∧ c' = model_at k (set_model_Status m
             (finished m "Invalid" "spec is required" "")) (state w))
        ∨ (m_deleting m = false ∧ m_Spec m ≠ zero_model_spec
           ∧ (c' = model_at k (with_finalizer m) (state w)
              ∨ ∃ st, intended r (model_at k (with_finalizer m) (state w)) k
                        (with_finalizer m) st
                  ∧ c' = model_at k (set_model_Status (with_finalizer m) st) (state w))))).
Proof.
  cbv zeta. destruct (models (state w) !! k) as [m|] eqn:Hm.
  2: { left. unfold Reconcile.
       step_reads (get_in_reads models k) as [m|[| |msg]] E H; [congruence|exact E..]. }
  destruct (m_deleting m) eqn:Hd; [|destruct (decide (m_Spec m = zero_model_spec)) as [Hs|Hs]].
  - unfold Reconcile.
    step_reads (get_in_reads models k) as [m'|[| |msg]] E H; [|congruence|done|left; exact E].
    assert (m' = m) as -> by congruence. rewrite Hd, run_try.
    rewrite <-E in Hm |- *. clear E H. right. exists m. split; [done|]. left. split; [done|].
    destruct (model_deletion_run k m w0 Hm Hd) as (c1 & c2 & H1 & H2 & H3 & _).
    exists c1, c2. split_and!; [done..|].
    by destruct (handleDeletion r k m w0) as [[[]|e] w1].
  - unfold Reconcile.
    step_reads (get_in_reads models k) as [m'|[| |msg]] E H; [|congruence|done|left; exact E].
    assert (m' = m) as -> by congruence. rewrite Hd, bool_decide_eq_true_2 by done.
    rewrite <-E in Hm |- *. clear E H.
    assert (settles k (m_Status m) (λ _ st, st = finished m "Invalid" "spec is required" "")
      (_ ← updateStatus k m "Invalid" "spec is required" (m_Status m);
       mret (Ok [] : result error (list AuthController.event)))) as Hset
      by apply settles_ret, updateStatus_settles.
    destruct (Hset w0) as (st & -> & [->|(m0 & Em0 & ->)] & _); [by left|]. right.
    assert (m0 = m) as -> by congruence.
    exists m. split; [done|]. right. left. by split.
  - destruct (model_Reconcile_live r k m w Hm Hd Hs) as [Hc _]. cbv zeta in Hc.
    destruct Hc as [Hc|Hc]; [by left|]. right. exists m. split; [done|]. right. right.
    split_and!; done.
Qed.
End deleted.
