(* ===== verification/AuthLoopFacts.v ===== *)
(** The policy controller: the generated policies of models, which it deletes, and the
    steps and loops of a reconcile. *)
From S2P Require Import Prelude GoStrings Unstructured Runtime.
From S2P Require Import MaasTypes Cluster ControllerHelpers.
From S2P Require Import GatewayAuthSpec AuthPolicyGateway AuthPolicyController.
From S2P Require Import ControllerFacts AuthGatewayFacts.
From S2P Require Import SubscriptionReconcile.
From S2P Require Import ConflictDetection.
From S2P Require Import SubscriptionModelFacts.
From S2P Require Import SubscriptionReconcileFacts.
Import V1 Cluster Helpers AuthGateway AuthController.

(** Some of the policies that pass a test go, and nothing else happens. *)
Definition auth_deletes (P : key → AuthPolicy → bool) (c c' : cluster) : Prop :=
  c' = set_auth_policies (λ _, auth_policies c') c
  ∧ ∀ k, auth_policies c' !! k = auth_policies c !! k
         ∨ (auth_policies c' !! k = None
            ∧ ∃ ap, auth_policies c !! k = Some ap ∧ P k ap = true).

#[global] Instance auth_deletes_refl P : Reflexive (auth_deletes P).
Proof. intros c. split; [by destruct c|]. by left. Qed.
#[global] Instance auth_deletes_trans P : Transitive (auth_deletes P).
Proof.
  intros c1 c2 c3 [O1 H1] [O2 H2]. split; [by rewrite O2, O1|]. intros k.
  destruct (H2 k) as [->|(-> & t & E & Pt)]; [done|]. right. split; [done|].
  destruct (H1 k) as [E'|[E' _]]; [|congruence].
  exists t. by rewrite <-E'.
Qed.

Lemma auth_deletes_mono (P Q : key → AuthPolicy → bool) c c' :
  (∀ k ap, P k ap = true → Q k ap = true) → auth_deletes P c c' → auth_deletes Q c c'.
Proof.
  intros HPQ [O H]. split; [done|]. intros k.
  destruct (H k) as [|(? & t & ? & ?)]; [by left|]. right. eauto.
Qed.

(** What a deletion leaves was there before. *)
Lemma auth_deletes_lookup P c c' k ap :
  auth_deletes P c c' → auth_policies c' !! k = Some ap → auth_policies c !! k = Some ap.
Proof. intros [_ H] E. destruct (H k) as [<-|[? _]]; congruence. Qed.

(** A policy the controller of an earlier version generated for a model. *)
Definition model_auth (model k : key) (ap : AuthPolicy) : bool :=
  (k.1 == model.1) && (a_labels ap !! label_model == Some model.2) && generated ap.
(** What deleting the policies of a model deletes. *)
Definition deletable_auth (model k : key) (ap : AuthPolicy) : bool :=
  model_auth model k ap
  && negb ((at_key (a_labels ap) label_model_namespace != "")
           && (at_key (a_labels ap) label_model_namespace != model.1))
  && isManaged (a_annotations ap).

Definition managed_generated (k : key) (ap : AuthPolicy) : bool :=
  generated ap && isManaged (a_annotations ap).

Lemma deletable_managed model k ap :
  deletable_auth model k ap = true → managed_generated k ap = true.
Proof.
  unfold deletable_auth, model_auth, managed_generated.
  intros [[[_ ->]%andb_true_iff _]%andb_true_iff ->]%andb_true_iff. done.
Qed.

Lemma auth_deletes_effect own c c' :
  auth_deletes managed_generated c c' → auth_effect own c c'.
Proof.
  intros [O H]. split; [done|]. intros k.
  destruct (H k) as [->|(-> & ap & -> & Hg)]; [by left|right].
  apply andb_true_iff in Hg as [Hg Hm]. split_and!; [done..|]. right. eauto.
Qed.

Section facts.
Context {api : ApiMachinery} {srv : ApiServer} {lawful : LawfulApiServer}.

Lemma delete_auth_run k w :
  let c := state w in
  let c' := state (delete_auth k w).2 in
  (c' = c ∧ ((delete_auth k w).1 = Err NotFound → auth_policies c !! k = None)
   ∧ (delete_auth k w).1 ≠ Ok ())
  ∨ c' = set_auth_policies (delete k) c.
Proof.
  cbv zeta. unfold delete_auth, write, mbind, prog_bind, get, tick, put. simpl.
  destruct (api_fault (ticks w)) as [[e [|]]|] eqn:E.
  - destruct (api_fault_failure _ _ _ E) as [msg ->].
    destruct (auth_policies (state w) !! k); simpl; [by right|by left].
  - destruct (api_fault_failure _ _ _ E) as [msg ->]. by left.
  - destruct (auth_policies (state w) !! k) eqn:Ek; simpl; [by right|by left].
Qed.

(** The listed policies are there, or gone already. *)
Definition auth_listed (items : list (key * AuthPolicy)) (c : cluster) : Prop :=
  ∀ k ap, (k, ap) ∈ items →
    auth_policies c !! k = Some ap ∨ auth_policies c !! k = None.

Lemma auth_deletes_listed P items c c' :
  auth_deletes P c c' → auth_listed items c → auth_listed items c'.
Proof.
  intros [_ H] Hl k ap Hin. destruct (H k) as [->|[-> _]]; [by apply Hl|by right].
Qed.

Lemma list_auth_reads context (test : key → AuthPolicy → bool) :
  reads (list_auth context test) (λ c x,
    match x with
    | Ok l => ∀ k ap, (k, ap) ∈ l ↔ auth_policies c !! k = Some ap ∧ test k ap = true
    | Err _ => True
    end).
Proof.
  unfold list_auth. eapply reads_then; [apply list_in_reads|].
  intros [l|[| |msg]]; apply reads_ret; intros c Hl; try done.
  intros k ap. apply (listed_elem _ _ _ _ _ Hl).
Qed.

(** The inner loop, on policies that pass the listing's test. *)
Lemma delete_generated_run model items w :
  auth_listed items (state w) →
  (∀ k ap, (k, ap) ∈ items → model_auth model k ap = true) →
  auth_deletes (deletable_auth model) (state w)
    (state (delete_generated model.1 items w).2)
  ∧ ((delete_generated model.1 items w).1 = Ok () →
     ∀ k ap, (k, ap) ∈ items → deletable_auth model k ap = true →
       auth_policies (state (delete_generated model.1 items w).2) !! k = None).
Proof.
  revert w. induction items as [|[k ap] items IH]; intros w Hl HP.
  { split; [done|]. intros _ k ap []%not_elem_of_nil. }
  assert (auth_listed items (state w)) as Hl' by (intros ???; apply Hl; by right).
  assert (∀ k' ap', (k', ap') ∈ items → model_auth model k' ap' = true) as HP'
    by (intros ???; eapply HP; by right).
  cbn [delete_generated]. cbv zeta.
  destruct (_ || _) eqn:Hskip.
  { destruct (IH w Hl' HP') as [IH1 IH2]. split; [done|].
    intros Hok k' ap' [[= -> ->]|Ht]%elem_of_cons Hd; [|by eapply IH2].
    exfalso. unfold deletable_auth in Hd. apply andb_true_iff in Hd as [Hd1 Hd3].
    apply andb_true_iff in Hd1 as [_ Hd2]. apply negb_true_iff in Hd2.
    by rewrite Hd2, Hd3 in Hskip. }
  assert (deletable_auth model k ap = true) as Hdel.
  { apply orb_false_iff in Hskip as [H1 H2%negb_false_iff].
    unfold deletable_auth. by rewrite (HP k ap ltac:(left)), H1, H2. }
  rewrite bind_run.
  assert (auth_deletes (deletable_auth model) (state w) (state (delete_auth k w).2)
    ∧ ((delete_auth k w).1 = Ok () ∨ (delete_auth k w).1 = Err NotFound →
       auth_policies (state (delete_auth k w).2) !! k = None)) as [Hstep Hgone].
  { destruct (delete_auth_run k w) as [(-> & Hnone & Hne)| ->].
    - split; [done|]. intros [|]; [done|auto].
    - split; [|intros _; cbn; apply lookup_delete_eq]. split; [done|]. intros k'. cbn.
      destruct (decide (k' = k)) as [->|]; [|left; by rewrite lookup_delete_ne].
      rewrite lookup_delete_eq. destruct (Hl k ap ltac:(left)) as [E|E]; [|by left].
      right. split; [done|]. by exists ap. }
  set (w1 := (delete_auth k w).2) in *.
  destruct (IH w1) as [IH1 IH2]; [by eapply auth_deletes_listed|done|].
  assert (auth_policies (state w1) !! k = None →
    auth_deletes (deletable_auth model) (state w)
      (state (delete_generated model.1 items w1).2)
    ∧ ((delete_generated model.1 items w1).1 = Ok () →
       ∀ k' ap', (k', ap') ∈ (k, ap) :: items → deletable_auth model k' ap' = true →
       auth_policies (state (delete_generated model.1 items w1).2) !! k' = None)) as Hgo.
  { intros Hnone. split; [by etrans|].
    intros Hok k' t' [[= -> ->]|Ht]%elem_of_cons Hm'; [|by eapply IH2].
    destruct IH1 as [_ IH1]. destruct (IH1 k) as [->|[-> _]]; done. }
  clearbody w1. destruct (delete_auth k w).1 as [[]|[| |msg]]; cbn in *;
    unfold mret, prog_ret; auto; by split.
Qed.

(** Deleting the policies of a model. *)
Lemma deleteModelAuth_run ns name w :
  auth_deletes (deletable_auth (ns, name)) (state w)
    (state (deleteModelAuthPolicy ns name w).2)
  ∧ ((deleteModelAuthPolicy ns name w).1 = Ok () →
     ∀ k ap, auth_policies (state (deleteModelAuthPolicy ns name w).2) !! k = Some ap →
       deletable_auth (ns, name) k ap = false).
Proof.
  unfold deleteModelAuthPolicy. rewrite run_try.
  match goal with |- context [list_auth ?s ?test w] =>
    destruct (list_auth_reads s test w) as [E Hl];
    destruct (list_auth s test w).1 as [items|e]; [|simpl; rewrite E; done];
    set (w1 := (list_auth s test w).2) in *
  end.
  change (∀ k ap, (k, ap) ∈ items ↔
    auth_policies (state w) !! k = Some ap ∧ model_auth (ns, name) k ap = true) in Hl.
  destruct (delete_generated_run (ns, name) items w1) as [H1 H2].
  { intros k ap Ht. left. rewrite E. by apply Hl. }
  { intros k ap Ht. by apply Hl in Ht as [_ ?]. }
  cbn [fst] in H1, H2. rewrite E in H1. split; [done|]. intros Hok k ap Hk.
  apply not_true_iff_false. intros Hd.
  assert (model_auth (ns, name) k ap = true) as Hm.
  { unfold deletable_auth in Hd. by destruct_bools. }
  rewrite (H2 Hok k ap) in Hk; [done| |done]. apply Hl.
  split; [|done]. by eapply auth_deletes_lookup.
Qed.

Lemma deleteModelAuth_deletes ns name :
  respects (auth_deletes managed_generated) (deleteModelAuthPolicy ns name).
Proof.
  intros w. destruct (deleteModelAuth_run ns name w) as [H _].
  eapply auth_deletes_mono, H. apply deletable_managed.
Qed.
End facts.

(** * The loops *)

Import V1 Cluster Helpers GatewaySpec AuthGateway Conflicts AuthController.

(** ** The steps of a reconcile *)

Definition same_auth (p p' : MaaSAuthPolicy) : Prop :=
  ap_Name p' = ap_Name p ∧ ap_Namespace p' = ap_Namespace p
  ∧ ap_Generation p' = ap_Generation p ∧ ap_deleting p' = ap_deleting p
  ∧ ap_Spec p' = ap_Spec p.

(** A policy keeps its metadata and spec, and goes only while being deleted. *)
Definition same_auth_slot (before after : option MaaSAuthPolicy) : Prop :=
  match before, after with
  | Some p, Some p' => same_auth p p'
  | Some p, None => ap_deleting p = true
  | None, None => True
  | None, Some _ => False
  end.

(** A reconcile of the policy at [k] changes that policy, and AuthPolicies within
    an effect. *)
Record auth_step (own : key → Prop) (k : key) (c c' : cluster) : Prop := {
  as_rest : c' = set_auth_crs (λ _, auth_crs c') (set_auth_policies (λ _, auth_policies c') c);
  as_others : ∀ k', k' ≠ k → auth_crs c' !! k' = auth_crs c !! k';
  as_own : same_auth_slot (auth_crs c !! k) (auth_crs c' !! k);
  as_slots : ∀ k', slot_effect (own k') (auth_policies c !! k') (auth_policies c' !! k');
}.

#[global] Instance same_auth_slot_refl : Reflexive same_auth_slot.
Proof. by intros [p|]. Qed.
#[global] Instance same_auth_slot_trans : Transitive same_auth_slot.
Proof.
  intros [p1|] [p2|] [p3|]; simpl; try done.
  - intros (?&?&?&?&?) (?&?&?&?&?). split_and!; congruence.
  - intros (?&?&?&?&?) ?. congruence.
Qed.

#[global] Instance auth_step_refl own k : Reflexive (auth_step own k).
Proof. intros c. split; [by destruct c|done..|by left]. Qed.
#[global] Instance auth_step_trans own k : Transitive (auth_step own k).
Proof.
  intros c1 c2 c3 [] []. split.
  - rewrite as_rest1, as_rest0. done.
  - intros k' Hne. etrans; [by apply as_others1|by apply as_others0].
  - by etrans.
  - intros k'. etrans; [apply as_slots0|apply as_slots1].
Qed.

Lemma effect_step own k c c' : auth_effect own c c' → auth_step own k c c'.
Proof. intros [E H]. rewrite E. by split. Qed.

Lemma auth_step_mono (own own' : key → Prop) k c c' :
  (∀ k', own k' → own' k') → auth_step own k c c' → auth_step own' k c c'.
Proof.
  intros Ho []. split; [done..|]. intros k'.
  destruct (as_slots0 k') as [?|(? & ? & ? & [?|?])]; [by left|right..]; auto 6.
Qed.

Section loops.
Context {api : ApiMachinery} {srv : ApiServer} {lawful : LawfulApiServer}.
Context (r : AuthReconciler).

(** ** Models *)

Lemma cleanup_stale_deletes policy items :
  respects (auth_deletes managed_generated) (cleanup_stale policy items).
Proof.
  induction items as [|[k ap] items IH]; cbn [cleanup_stale]; [apply respects_ret; apply _|].
  destruct (stale_auth_model policy k ap); [|done].
  apply respects_bind; [apply _|apply deleteModelAuth_deletes|].
  intros [[]|e]; [done|apply respects_ret; apply _].
Qed.

Lemma cleanup_auth_deletes policy :
  respects (auth_deletes managed_generated) (cleanupStaleAuthPolicies policy).
Proof.
  unfold cleanupStaleAuthPolicies. apply respects_try; [apply _..| |].
  { eapply respects_reads, list_auth_reads. apply _. }
  intros items. apply cleanup_stale_deletes.
Qed.

Lemma modelExists_reads ns name :
  reads (modelAuthPolicyExists ns name) (λ c x, ∀ b, x = Ok b →
    b = bool_decide (is_Some (auth_policies c !! (ns, "maas-auth-" +:+ name)))).
Proof.
  unfold modelAuthPolicyExists. eapply reads_then; [apply get_in_reads|].
  intros [ap|[| |msg]]; apply reads_ret; intros c E b; try done; intros [= <-];
    rewrite E; [by rewrite bool_decide_eq_true_2|].
  rewrite bool_decide_eq_false_2; [done|]. by intros [].
Qed.

Lemma clean_models_deletes refs :
  respects (auth_deletes managed_generated) (clean_models refs).
Proof.
  induction refs as [|ref refs IH]; cbn [clean_models]; [apply respects_ret; apply _|].
  apply respects_bind; [apply _| |].
  { eapply respects_reads, findHTTPRoute_reads. apply _. }
  intros [[rn ns]|e].
  - apply respects_bind; [apply _| |].
    { eapply respects_reads, modelExists_reads. apply _. }
    intros [[]|e]; [|done|apply respects_ret; apply _].
    apply respects_bind; [apply _|apply deleteModelAuth_deletes|].
    intros [[]|e]; [done|apply respects_ret; apply _].
  - destruct (is_model_not_found e).
    + apply respects_bind; [apply _|apply deleteModelAuth_deletes|].
      intros [[]|e']; [done|apply respects_ret; apply _].
    + destruct (is_route_not_found e); [done|apply respects_ret; apply _].
Qed.

Lemma reconcileModels_deletes policy :
  respects (auth_deletes managed_generated) (reconcileModelAuthPolicies policy).
Proof.
  unfold reconcileModelAuthPolicies. apply respects_try; [apply _..| |].
  { apply clean_models_deletes. }
  intros _. apply respects_try; [apply _..|apply cleanup_auth_deletes|].
  intros _. apply respects_ret. apply _.
Qed.

Lemma delete_models_deletes refs :
  respects (auth_deletes managed_generated) (delete_models refs).
Proof.
  induction refs as [|ref refs IH]; cbn [delete_models]; [apply respects_ret; apply _|].
  by apply respects_try; [apply _..|apply deleteModelAuth_deletes|].
Qed.

Lemma deletes_step own k {A} (m : prog cluster A) :
  respects (auth_deletes managed_generated) m → respects (auth_step own k) m.
Proof. intros H w. apply effect_step, auth_deletes_effect, H. Qed.

(** ** Reading *)

Lemma missing_reads refs :
  reads (missing_refs refs) (λ c l,
    ∀ ref, ref ∈ refs → models c !! ref = None → ref ∈ l).
Proof.
  induction refs as [|ref refs IH]; cbn [missing_refs].
  { apply reads_ret. by intros c ref []%not_elem_of_nil. }
  eapply reads_then; [apply get_in_reads|]. intros x.
  eapply reads_then; [apply IH|]. intros l. apply reads_ret.
  intros c Hl Hx ref' [->|Hin]%elem_of_cons Hnone.
  - destruct x as [m|[| |]]; [congruence|by left..].
  - destruct x; [|right]; by apply Hl.
Qed.

Lemma any_legacy_reads checked refs :
  reads (any_legacy checked refs) (λ _ _, True).
Proof.
  revert checked. induction refs as [|ref refs IH]; intros checked; cbn [any_legacy].
  { by apply reads_ret. }
  cbv zeta. destruct (contains _ _); [done|].
  eapply reads_try; [apply modelExists_reads| |done].
  intros [|]; [by apply reads_ret|]. eapply reads_mono; [apply IH|]. done.
Qed.

Lemma hasLegacy_state ns : reads (hasLegacyModelAuthPolicy ns) (λ _ _, True).
Proof.
  unfold hasLegacyModelAuthPolicy. eapply reads_try; [| |done].
  { by apply (reads_in_context _ _ _ (λ _ _, True) (list_in_reads _ _)). }
  intros items. eapply reads_mono; [apply any_legacy_reads|]. done.
Qed.

Lemma targetReady_reads id : reads (targetMaaSAPIReady r id) (λ c x, x = Ok true →
  ∃ k s, endpoint_slices c !! k = Some s ∧ k.1 = InfraNamespace r ∧ slice_ready s = true
    ∧ es_labels s !! "kubernetes.io/service-name" = Some (MaaSAPIServiceName id)).
Proof.
  unfold targetMaaSAPIReady. cbv zeta. eapply reads_try.
  - apply (reads_in_context _ _ _ (λ c x, match x with
      | Ok l => ∀ k s, (k, s) ∈ l ↔ endpoint_slices c !! k = Some s
          ∧ ((k.1 == InfraNamespace r)
             && (es_labels s !! "kubernetes.io/service-name"
                 == Some (MaaSAPIServiceName id))) = true
      | Err _ => True end) (list_in_reads _ _)); [|done].
    intros c l Hl k s. apply (listed_elem _ _ _ _ _ Hl).
  - intros l. apply reads_ret. intros c Hl [= H].
    apply existsb_elem_of in H as ([k s] & Hin & Hs). apply Hl in Hin as [E Ht].
    exists k, s. destruct_bools. done.
  - done.
Qed.

Lemma gatewayReady_reads gw : reads (gatewayAuthPolicyReady r gw) (λ c x,
  ∀ msg, x = Ok (true, msg) →
  ∃ ap, auth_policies c !! gateway_policy_key r gw = Some ap ∧ managed_auth ap
    ∧ NestedInt64 (a_Object ap) ["status"; "observedGeneration"] = Found (a_generation ap)
    ∧ (getAuthPolicyReadyState (a_Object ap)).1.1 = true).
Proof.
  unfold gatewayAuthPolicyReady. eapply reads_then; [apply get_in_reads|].
  intros [ap|[| |e]]; apply reads_ret; intros c E msg; try done.
  destruct (isManaged (a_annotations ap)) eqn:Hm; [|done]. cbn [negb].
  destruct (NestedInt64 _ _) as [g| |] eqn:Hg; [|done..].
  destruct (g =? a_generation ap)%Z eqn:Eg; [|done]. cbn [negb].
  destruct (getAuthPolicyReadyState (a_Object ap)) as [[ready reason] m] eqn:Hr.
  intros [= -> _]. exists ap. apply Z.eqb_eq in Eg as ->.
  split_and!; [done..|]. by rewrite Hr.
Qed.

Lemma findConflicts_state rn ns model : reads (findConflictsForHTTPRoute rn ns model) (λ _ _, True).
Proof.
  unfold findConflictsForHTTPRoute. eapply reads_then; [apply list_in_reads|].
  intros x. by apply reads_ret.
Qed.

Lemma conflicts_of_state refs : reads (conflicts_of refs) (λ _ _, True).
Proof.
  induction refs as [|ref refs IH]; cbn [conflicts_of]; [by apply reads_ret|].
  eapply reads_then; [apply findHTTPRoute_reads|]. intros [[rn ns]|e].
  - eapply reads_try; [apply findConflicts_state| |done]. intros l.
    eapply reads_try; [eapply reads_mono; [apply IH|done]| |done].
    intros rest. by apply reads_ret.
  - destruct (_ || _); [|by apply reads_ret]. eapply reads_mono; [apply IH|done].
Qed.

Lemma detect_state policy : reads (detectConflictingAuthPolicies policy) (λ _ _, True).
Proof.
  unfold detectConflictingAuthPolicies.
  eapply reads_try; [apply conflicts_of_state| |done]. intros l. by apply reads_ret.
Qed.

Lemma report_state policy :
  reads (report_conflicts policy) (λ _ x,
    auth_key x.1 = auth_key policy ∧ ap_Spec x.1 = ap_Spec policy
    ∧ ap_AuthPolicies (ap_Status x.1) = ap_AuthPolicies (ap_Status policy)).
Proof.
  unfold report_conflicts. eapply reads_then; [apply detect_state|].
  intros x. by apply reads_ret.
Qed.

Lemma updateRefs_state refs : reads (updateAuthPolicyRefStatus refs) (λ _ _, True).
Proof.
  unfold updateAuthPolicyRefStatus.
  eapply reads_mono; [apply (collect_reads _ (λ _ _ _, True))|done]. intros ref. unfold ref_status. cbv zeta.
  eapply reads_then; [apply get_in_reads|]. intros x. by apply reads_ret.
Qed.

(** ** Writing the policy *)

Lemma update_auth_status_step own k st :
  respects (auth_step own k) (update_auth_status k st).
Proof.
  apply respects_write; [apply _|]. intros c c'.
  destruct (auth_crs c !! k) as [p|] eqn:E; [|done]. intros [= <-].
  split; try done; cbn; [|by rewrite E, lookup_insert_eq].
  intros k' Hne. by rewrite lookup_insert_ne.
Qed.

Lemma update_auth_finalizers_step own k fs :
  respects (auth_step own k) (update_auth_finalizers k fs).
Proof.
  apply respects_write; [apply _|]. intros c c'.
  destruct (auth_crs c !! k) as [p|] eqn:E; [|done]. intros [= <-].
  split; try done; cbn.
  - intros k' Hne. case_match; [by rewrite lookup_delete_ne|by rewrite lookup_insert_ne].
  - rewrite E. case_match eqn:Hd.
    + rewrite lookup_delete_eq. by apply andb_true_iff in Hd as [? _].
    + by rewrite lookup_insert_eq.
Qed.

Lemma updateStatus_auth_step own policy phase message snapshot :
  respects (auth_step own (auth_key policy))
    (updateStatus policy phase message snapshot).
Proof.
  unfold updateStatus. destruct (SubStatus.ready_condition phase). cbv zeta.
  case_match; [apply respects_ret; apply _|].
  apply respects_bind; [apply _|apply update_auth_status_step|].
  intros ?. apply respects_ret. apply _.
Qed.

(** Recording a phase, then an answer. *)
Lemma record_step own policy phase message snapshot {A} (x : A) :
  respects (auth_step own (auth_key policy))
    (_ ← updateStatus policy phase message snapshot; mret x).
Proof.
  apply respects_bind; [apply _|apply updateStatus_auth_step|].
  intros ?. apply respects_ret. apply _.
Qed.

Lemma failed_step own policy context e :
  respects (auth_step own (auth_key policy)) (failed policy context e).
Proof. apply record_step. Qed.
Lemma pending_step own policy message :
  respects (auth_step own (auth_key policy)) (pending policy message).
Proof. apply record_step. Qed.

(** ** The reconcile loop *)

Lemma finish_step own policy missing :
  respects (auth_step own (auth_key policy)) (finish policy missing).
Proof.
  unfold finish. cbv zeta. apply respects_bind; [apply _| |].
  { apply deletes_step, reconcileModels_deletes. }
  intros [refs|e]; [|apply failed_step].
  apply respects_bind; [apply _| |].
  { eapply respects_reads, updateRefs_state. apply _. }
  intros statuses w.
  step_reads (report_state (with_auth_policies policy statuses)) as [p evs] E Hp.
  rewrite <-E. clear E. destruct Hp as (Hk & _ & _). cbn [fst] in Hk.
  change (auth_key (with_auth_policies policy statuses)) with (auth_key policy) in Hk.
  destruct (deriveAuthPolicyPhase p missing) as [phase message].
  rewrite <-Hk. apply record_step.
Qed.

Lemma reconcile_gateway_step policy missing oidc x id gw legacy :
  respects (auth_step (is_policy_of r gw) (auth_key policy))
    (reconcile_gateway r policy missing oidc x id gw legacy).
Proof.
  unfold reconcile_gateway. apply respects_bind; [apply _| |].
  { intros w. apply effect_step, reconcileGateway_effect. }
  intros [changed|e]; [|apply failed_step]. case_match; [|apply finish_step].
  apply respects_bind; [apply _| |].
  { eapply respects_reads, gatewayReady_reads. apply _. }
  intros [[[] msg]|e]; [apply finish_step|apply pending_step|apply failed_step].
Qed.

Lemma reconcile_cutover_step policy missing oidc x id gw :
  respects (auth_step (is_policy_of r gw) (auth_key policy))
    (reconcile_cutover r policy missing oidc x id gw).
Proof.
  unfold reconcile_cutover. apply respects_bind; [apply _| |].
  { eapply respects_reads, hasLegacy_state. apply _. }
  intros [[]|e]; [|apply reconcile_gateway_step|apply failed_step].
  apply respects_bind; [apply _| |].
  { eapply respects_reads, targetReady_reads. apply _. }
  intros [[]|e]; [apply reconcile_gateway_step|apply pending_step|apply failed_step].
Qed.

(** The tenant's own gateway, which is not the default one unless the tenant has
    no name of its own. *)
Definition own_gateway (c : cluster) (ns : string) (k : key) : Prop :=
  ∃ gw, tenant_gateway (settings r) c ns = Some gw ∧ k = gateway_policy_key r gw
    ∧ (is_default_gateway r gw = true → tenant_id c ns = Some "").

(** The same for the last policy of a namespace, whose tenant may be gone: the
    default gateway belongs to the default namespace. *)
Definition own_on_deletion (c : cluster) (ns : string) (k : key) : Prop :=
  ∃ gw, tenant_gateway (settings r) c ns = Some gw ∧ k = gateway_policy_key r gw
    ∧ (is_default_gateway r gw = true →
       tenant_id c ns = Some ""
       ∧ (DefaultTenantNamespace (settings r) = ""
          ∨ ns = DefaultTenantNamespace (settings r))).

Lemma auth_reconcile_spec_step policy w :
  auth_step (own_gateway (state w) (ap_Namespace policy)) (auth_key policy)
    (state w) (state (reconcile_spec r policy w).2).
Proof.
  unfold reconcile_spec. cbv zeta.
  step_reads (missing_reads (as_ModelRefs (ap_Spec policy))) as missing E Hm.
  rewrite <-E. clear E Hm w.
  step_reads (fetchOIDCConfig_reads r (ap_Namespace policy)) as oidc E Ho.
  rewrite <-E. clear E Ho w0.
  step_reads (fetchTenantIdentifier_reads (ap_Namespace policy)) as id E Hid.
  rewrite <-E. rewrite <-E in Hid. clear E w.
  destruct id as [id|e]; [|apply failed_step].
  step_reads discover_reads as x E Hx. rewrite <-E in *. clear E Hx w0.
  step_reads (fetchGatewayInfo_reads r (ap_Namespace policy)) as gw E Hgw.
  rewrite <-E in *. clear E w. destruct gw as [gw|e]; [|apply failed_step].
  destruct (_ && _) eqn:Hskip.
  - apply record_step.
  - eapply auth_step_mono; [|apply reconcile_cutover_step].
    intros k' ->. exists gw. split_and!; [by apply Hgw|done|].
    intros Hd. rewrite Hd, andb_true_r in Hskip.
    apply negb_false_iff, bool_decide_eq_true in Hskip as ->. by apply Hid.
Qed.

Lemma ensure_auth_finalizer_step own policy :
  respects (auth_step own (auth_key policy)) (ensure_finalizer policy).
Proof.
  unfold ensure_finalizer. case_match; [apply respects_ret; apply _|].
  apply respects_bind; [apply _|apply update_auth_finalizers_step|].
  intros ?. apply respects_ret. apply _.
Qed.

Lemma ensure_auth_finalizer_same policy w p :
  (ensure_finalizer policy w).1 = Ok p →
  ap_Status p = ap_Status policy ∧ same_auth policy p
  ∧ auth_policies (state (ensure_finalizer policy w).2) = auth_policies (state w).
Proof.
  unfold ensure_finalizer. case_match; [by intros [= <-]|].
  rewrite bind_run. cbn. unfold update_auth_finalizers.
  match goal with |- context [write ?f w] => destruct (write_run f w) as [[E _]|E] end.
  - destruct (write _ w) as [[[]|e] w']; cbn in *; [|done]. intros [= <-].
    by rewrite E.
  - destruct (write _ w) as [[[]|e] w']; cbn in *; [|done]. intros [= <-].
    case_match; [|done]. injection E as <-. done.
Qed.

(** The last policy of a namespace. *)
Lemma reset_gateway_effect policy w :
  auth_effect (own_on_deletion (state w) (ap_Namespace policy))
    (state w) (state (reset_gateway r policy w).2).
Proof.
  unfold reset_gateway. cbv zeta. rewrite run_try.
  destruct (reads_run _ _ w (fetchTenantIdentifier_reads (ap_Namespace policy)))
    as (id & w1 & -> & E & Hid). cbn [fst snd].
  rewrite <-E in *. clear E w. destruct id as [id|e]; [|done]. rewrite run_try.
  destruct (reads_run _ _ w1 (fetchGatewayInfo_reads r (ap_Namespace policy)))
    as (gw & w & -> & E & Hgw). cbn [fst snd].
  rewrite <-E in *. clear E w1. destruct gw as [gw|e]; [|done].
  destruct ((id != "") && is_default_gateway r gw) eqn:Hskip; [done|].
  destruct (negb _ && negb (id != "") && is_default_gateway r gw) eqn:Hskip'; [done|].
  step_reads (fetchOIDCConfig_reads r (ap_Namespace policy)) as oidc E Ho.
  rewrite <-E in *. clear E Ho w.
  step_reads discover_reads as x E Hx. rewrite <-E in *. clear E Hx w0.
  rewrite run_try.
  assert (auth_effect (own_on_deletion (state w) (ap_Namespace policy)) (state w)
    (state (reconcileGatewayAuthPolicy r oidc x id gw w).2)) as H.
  { eapply auth_effect_mono; [|apply reconcileGateway_effect]. intros k ->.
    exists gw. split_and!; [by apply Hgw|done|]. intros Hd.
    rewrite Hd, andb_true_r in Hskip, Hskip'.
    rewrite Hskip, andb_true_r in Hskip'.
    apply negb_false_iff, bool_decide_eq_true in Hskip as ->.
    split; [by apply Hid|]. apply negb_false_iff, orb_true_iff in Hskip' as [H|H];
      apply bool_decide_eq_true in H; auto. }
  destruct (reconcileGatewayAuthPolicy r oidc x id gw w) as [[b|e] w']; done.
Qed.

(** ** Deletion *)

Lemma own_on_deletion_auth f c ns k :
  own_on_deletion (set_auth_policies f c) ns k ↔ own_on_deletion c ns k.
Proof. done. Qed.

(** What stays of the generated policies passed the earlier tests too. *)
Lemma deletable_kept own c c' model k :
  auth_effect own c c' →
  (∀ ap, auth_policies c !! k = Some ap → deletable_auth model k ap = false) →
  ∀ ap, auth_policies c' !! k = Some ap → deletable_auth model k ap = false.
Proof.
  intros He H ap' E. apply not_true_iff_false. intros Hd.
  assert (generated ap' = true) as Hg.
  { apply deletable_managed in Hd. by apply andb_true_iff in Hd as [? _]. }
  destruct (auth_effect_generated _ _ _ _ _ He E Hg) as (ap & E' & El & Ea).
  specialize (H ap E'). revert H Hd. unfold deletable_auth, model_auth, generated.
  rewrite El, Ea. congruence.
Qed.

Lemma delete_models_run refs w :
  (delete_models refs w).1 = Ok () →
  ∀ ref, ref ∈ refs → ∀ k ap,
    auth_policies (state (delete_models refs w).2) !! k = Some ap →
    deletable_auth ref k ap = false.
Proof.
  revert w. induction refs as [|ref refs IH]; intros w Hok r' Hin k ap;
    [by apply not_elem_of_nil in Hin|].
  cbn [delete_models] in *. rewrite run_try in *.
  destruct (deleteModelAuth_run ref.1 ref.2 w) as [_ Hdel].
  destruct (deleteModelAuthPolicy ref.1 ref.2 w) as [[[]|e] w1]; cbn in *; [|done].
  intros E. apply elem_of_cons in Hin as [->|Hin]; [|by eapply IH].
  specialize (Hdel eq_refl k ap). rewrite <-surjective_pairing in Hdel. apply Hdel.
  eapply auth_deletes_lookup, E. apply delete_models_deletes.
Qed.

(** The stale policies of a policy, deleted. *)
Lemma cleanup_stale_run policy items w :
  (cleanup_stale policy items w).1 = Ok () →
  ∀ k ap model, (k, ap) ∈ items → stale_auth_model policy k ap = Some model →
  ∀ k' ap', auth_policies (state (cleanup_stale policy items w).2) !! k' = Some ap' →
    deletable_auth model k' ap' = false.
Proof.
  revert w. induction items as [|[k0 ap0] items IH]; intros w Hok k ap model Hin Hs k' ap';
    [by apply not_elem_of_nil in Hin|].
  cbn [cleanup_stale] in *.
  destruct (stale_auth_model policy k0 ap0) as [model0|] eqn:Hs0.
  2: { apply elem_of_cons in Hin as [[= -> ->]|Hin]; [congruence|by eapply IH]. }
  rewrite bind_run in *. destruct (deleteModelAuth_run model0.1 model0.2 w) as [_ Hdel].
  destruct (deleteModelAuthPolicy model0.1 model0.2 w) as [[[]|e] w1]; cbn in *; [|done].
  intros E. apply elem_of_cons in Hin as [[= -> ->]|Hin]; [|by eapply IH].
  assert (model0 = model) as -> by congruence.
  specialize (Hdel eq_refl k' ap'). rewrite <-surjective_pairing in Hdel. apply Hdel.
  eapply auth_deletes_lookup, E. apply cleanup_stale_deletes.
Qed.

(** A policy of another model that names the policy as a contributor. *)
Definition contributes (policy : MaaSAuthPolicy) (k : key) (ap : AuthPolicy) : Prop :=
  generated ap = true ∧ managed_auth ap ∧
  ∃ model, stale_auth_model policy k ap = Some model ∧ k.1 = model.1.

Lemma stale_deletable policy k ap model :
  generated ap = true → managed_auth ap →
  stale_auth_model policy k ap = Some model → k.1 = model.1 →
  deletable_auth model k ap = true.
Proof.
  unfold stale_auth_model, deletable_auth, model_auth. intros Hg Hm.
  destruct (at_key (a_labels ap) label_model == "") eqn:Hn; [done|].
  apply bool_decide_eq_false in Hn. destruct (contains _ _); [done|].
  destruct (_ || _); [|done]. intros [= <-]. cbn. intros Hk.
  unfold managed_auth in Hm. rewrite Hg, Hm, !andb_true_r.
  rewrite (bool_decide_eq_true_2 _ Hk).
  assert (a_labels ap !! label_model = Some (at_key (a_labels ap) label_model)) as El.
  { unfold at_key in *. by destruct (a_labels ap !! label_model). }
  rewrite (bool_decide_eq_true_2 _ El). cbn.
  destruct (at_key (a_labels ap) label_model_namespace == "") eqn:E; [done|].
  by rewrite bool_decide_eq_true_2.
Qed.

Lemma cleanup_auth_run policy w :
  (cleanupStaleAuthPolicies policy w).1 = Ok () →
  ∀ k ap, auth_policies (state (cleanupStaleAuthPolicies policy w).2) !! k = Some ap →
    ¬ contributes policy k ap.
Proof.
  unfold cleanupStaleAuthPolicies. rewrite run_try.
  match goal with |- context [list_auth ?s ?test w] =>
    destruct (list_auth_reads s test w) as [E Hl];
    destruct (list_auth s test w).1 as [items|e]; [|done];
    set (w1 := (list_auth s test w).2) in *
  end.
  intros Hok k ap E' (Hg & Hm & model & Hs & Hk).
  assert (auth_policies (state w) !! k = Some ap) as E0.
  { rewrite <-E. eapply auth_deletes_lookup, E'. apply cleanup_stale_deletes. }
  pose proof (stale_deletable _ _ _ _ Hg Hm Hs Hk) as Hd.
  rewrite (cleanup_stale_run policy items w1 Hok k ap model) in Hd; try done.
  by apply Hl.
Qed.

Lemma contributes_kept own c c' policy k :
  auth_effect own c c' →
  (∀ ap, auth_policies c !! k = Some ap → ¬ contributes policy k ap) →
  ∀ ap, auth_policies c' !! k = Some ap → ¬ contributes policy k ap.
Proof.
  intros He H ap' E (Hg & Hm & model & Hs & Hk).
  destruct (auth_effect_generated _ _ _ _ _ He E Hg) as (ap & E' & El & Ea).
  apply (H ap E'). unfold contributes, generated, managed_auth, stale_auth_model in *.
  rewrite El, Ea. eauto.
Qed.

(** What a deletion that succeeds leaves behind. *)
Definition released_auth (policy : MaaSAuthPolicy) (c : cluster) : Prop :=
  ∀ k ap, auth_policies c !! k = Some ap →
    (∀ ref, ref ∈ as_ModelRefs (ap_Spec policy) → deletable_auth ref k ap = false)
    ∧ ¬ contributes policy k ap.

Lemma released_kept own policy c c' :
  auth_effect own c c' → released_auth policy c → released_auth policy c'.
Proof.
  intros He H k ap E. split.
  - intros ref Href. eapply (deletable_kept _ c c'); [done| |done].
    intros ap0 E0. by apply (H k ap0 E0).
  - eapply (contributes_kept _ c c'); [done| |done]. intros ap0 E0. by apply (H k ap0 E0).
Qed.

Lemma update_auth_finalizers_policies k fs w :
  auth_policies (state (update_auth_finalizers k fs w).2) = auth_policies (state w).
Proof.
  unfold update_auth_finalizers.
  match goal with |- context [write ?f w] => destruct (write_run f w) as [[-> _]|E] end;
    [done|]. case_match; [|done]. by injection E as <-.
Qed.

Lemma auth_deletion_run policy w :
  let c := state w in
  let c' := state (handleDeletion r policy w).2 in
  auth_step (own_on_deletion c (ap_Namespace policy)) (auth_key policy) c c'
  ∧ (auth_crs c' = auth_crs c ∨ released_auth policy c').
Proof.
  cbv zeta. unfold handleDeletion. destruct (contains _ _); [|by split; [|left]].
  rewrite run_try. pose proof (delete_models_deletes (as_ModelRefs (ap_Spec policy)) w) as H1.
  pose proof (delete_models_run (as_ModelRefs (ap_Spec policy)) w) as D1.
  destruct (delete_models _ w) as [[[]|e] w1]; cbn [fst snd] in *.
  2: { split; [by apply effect_step, auth_deletes_effect|]. left. destruct H1 as [-> _]. done. }
  specialize (D1 eq_refl). rewrite run_try.
  pose proof (cleanup_auth_deletes policy w1) as H2. pose proof (cleanup_auth_run policy w1) as D2.
  destruct (cleanupStaleAuthPolicies policy w1) as [[[]|e] w2]; cbn [fst snd] in *.
  2: { assert (auth_deletes managed_generated (state w) (state w2)) as H
    by (etrans; [exact H1|exact H2]).
       split; [by apply effect_step, auth_deletes_effect|]. left. destruct H as [-> _]. done. }
  assert (auth_deletes managed_generated (state w) (state w2)) as H
    by (etrans; [exact H1|exact H2]).
  assert (released_auth policy (state w2)) as Hrel.
  { intros k ap E. split; [|by apply D2]. intros ref Href.
    eapply D1; [done|]. by eapply auth_deletes_lookup. }
  clear D1 D2 H1 H2 w1.
  step_reads (list_in_reads auth_crs (λ k _, k.1 == ap_Namespace policy)) as x E Hx.
  rewrite <-E in *. clear E Hx w2. destruct x as [l|e].
  2: { split; [by apply effect_step, auth_deletes_effect|]. left.
       unfold mret, prog_ret. cbn. destruct H as [-> _]. done. }
  rewrite run_try.
  assert (auth_effect (own_on_deletion (state w) (ap_Namespace policy)) (state w0)
    (state ((if length (remaining_live policy l.*2) =? 0 then reset_gateway r policy
             else mret (Ok ())) w0).2)) as He.
  { destruct (_ =? 0); [|done]. pose proof (reset_gateway_effect policy w0) as He.
    destruct H as [H _]. eapply auth_effect_mono, He. intros k. rewrite H. done. }
  destruct ((if length (remaining_live policy l.*2) =? 0 then reset_gateway r policy
             else mret (Ok ())) w0) as [[[]|e] w3]; cbn [fst snd] in *.
  2: { split.
       - etrans; [by apply effect_step, auth_deletes_effect|]. by apply effect_step.
       - left. destruct He as [-> _]. destruct H as [-> _]. done. }
  rewrite bind_run. split.
  - etrans; [by apply effect_step, auth_deletes_effect|]. etrans; [by apply effect_step|].
    apply update_auth_finalizers_step.
  - right. pose proof (released_kept _ _ _ _ He Hrel) as H'. intros k ap.
    cbn. rewrite update_auth_finalizers_policies. apply H'.
Qed.

(** The names in a policy are those of its key. *)
Definition well_keyed_auth (c : cluster) : Prop :=
  ∀ k p, auth_crs c !! k = Some p → k = auth_key p.

(** The AuthPolicy a reconcile of the policy at a key may write. *)
Definition own_policy (c : cluster) (k k' : key) : Prop :=
  ∃ p, auth_crs c !! k = Some p
    ∧ (if ap_deleting p then own_on_deletion c k.1 k' else own_gateway c k.1 k').

Lemma own_gateway_crs f c ns k : own_gateway (set_auth_crs f c) ns k ↔ own_gateway c ns k.
Proof. done. Qed.

Lemma auth_Reconcile_step k w :
  well_keyed_auth (state w) →
  auth_step (own_policy (state w) k) k (state w) (state (Reconcile r k w).2).
Proof.
  intros Hk. unfold Reconcile.
  step_reads (get_in_reads auth_crs k) as [p|[| |msg]] E H;
    [|by unfold mret, prog_ret; cbn; rewrite E..].
  rewrite <-E in *. clear E w. pose proof (Hk _ _ H) as ->.
  destruct (ap_deleting p) eqn:Hd.
  { rewrite run_try. destruct (auth_deletion_run p w0) as [Hs _].
    eapply auth_step_mono in Hs.
    - destruct (handleDeletion r p w0) as [[[]|e] w1]; exact Hs.
    - intros k' Ho. exists p. by rewrite Hd. }
  rewrite run_try.
  destruct (reads_run _ _ w0 (tenantNamespaceAllowed_reads (settings r) (auth_key p).1))
    as (b & w & -> & E & _). cbn [fst snd]. rewrite <-E in *. clear E w0.
  destruct b as [b|e]; [|done]. destruct (negb b); [done|].
  case_match; [apply record_step|].
  rewrite run_try. pose proof (ensure_auth_finalizer_step none_own p w) as Hf.
  destruct (ensure_finalizer p w) as [[p'|e] w1] eqn:Ef; cbn [fst snd] in *;
    [|by eapply auth_step_mono, Hf].
  pose proof (ensure_auth_finalizer_same p w p') as Hp. rewrite Ef in Hp.
  destruct (Hp eq_refl) as (_ & (Hn & Hns & _) & _).
  etrans; [by eapply auth_step_mono, Hf|].
  pose proof (auth_reconcile_spec_step p' w1) as Hs.
  unfold auth_key in Hs at 1. rewrite Hn, Hns in Hs. eapply auth_step_mono, Hs.
  intros k' Ho. exists p. rewrite Hd. split; [done|].
  destruct Hf as [Hf _ _ _]. rewrite Hf in Ho. cbn.
  assert (own_gateway (set_auth_policies (λ _, auth_policies (state w1)) (state w))
    (ap_Namespace p) k') as Ho' by exact Ho. exact Ho'.
Qed.
End loops.
