(* ===== verification/AuthReconcileFacts.v ===== *)
(** The upgrade: while a legacy policy of the namespace's models exists, nothing
    changes until the API of this version is ready, and legacy policies go only
    once the gateway's policy is enforced. And phases: a reconcile of a live
    policy from its first call on, and when its phase becomes Active. *)
From S2P Require Import Prelude GoStrings Unstructured Runtime.
From S2P Require Import MaasTypes Cluster ControllerHelpers SubscriptionReconcile.
From S2P Require Import GatewayAuthSpec AuthPolicyGateway ConflictDetection AuthPolicyController.
From S2P Require Import ControllerFacts SubscriptionModelFacts.
From S2P Require Import SubscriptionReconcileFacts AuthGatewayFacts AuthLoopFacts.
From S2P Require Import Sorting.
Import V1 Cluster Helpers GatewaySpec AuthGateway Conflicts AuthController.

(** The policy an earlier version generated for a model. *)
Definition legacy_key (ref : key) : key := (ref.1, "maas-auth-" +:+ ref.2).

(** A live policy of the namespace refers to the model. *)
Definition namespace_ref (c : cluster) (ns : string) (ref : key) : Prop :=
  ∃ k p, auth_crs c !! k = Some p ∧ k.1 = ns ∧ ap_deleting p = false
         ∧ ref ∈ as_ModelRefs (ap_Spec p).

(** Namespaces hold no slash. *)
Definition slash_free_refs (c : cluster) (ns : string) : Prop :=
  ∀ ref, namespace_ref c ns ref → slash_free ref.1 = true.

Section cutover.
Context {api : ApiMachinery} {srv : ApiServer} {lawful : LawfulApiServer}.
Context (r : AuthReconciler).

Definition target_ready (c : cluster) (id : string) : Prop :=
  ∃ k s, endpoint_slices c !! k = Some s ∧ k.1 = InfraNamespace r ∧ slice_ready s = true
    ∧ es_labels s !! "kubernetes.io/service-name" = Some (MaaSAPIServiceName id).

Definition enforced_auth (ap : AuthPolicy) : Prop :=
  managed_auth ap
  ∧ NestedInt64 (a_Object ap) ["status"; "observedGeneration"] = Found (a_generation ap)
  ∧ (getAuthPolicyReadyState (a_Object ap)).1.1 = true.

Lemma ref_string_inj (x y : key) :
  slash_free x.1 = true → slash_free y.1 = true →
  x.1 +:+ "/" +:+ x.2 = y.1 +:+ "/" +:+ y.2 → x = y.
Proof.
  destruct x, y. unfold slash_free. cbn. intros Hx Hy E. destruct_bools.
  apply app_str_sep_inj in E as [-> ->]; done.
Qed.

Lemma any_legacy_false checked refs :
  (∀ ref, ref ∈ refs → slash_free ref.1 = true) →
  reads (any_legacy checked refs) (λ c x,
    (∀ s, s ∈ checked → ∃ ref : key, slash_free ref.1 = true ∧ s = ref.1 +:+ "/" +:+ ref.2
       ∧ auth_policies c !! legacy_key ref = None) →
    x = Ok false → ∀ ref, ref ∈ refs → auth_policies c !! legacy_key ref = None).
Proof.
  revert checked. induction refs as [|ref refs IH]; intros checked Hrefs; cbn [any_legacy].
  { apply reads_ret. by intros c _ _ ref []%not_elem_of_nil. }
  assert (∀ ref, ref ∈ refs → slash_free ref.1 = true) as Hrefs'
    by (intros ??; apply Hrefs; by right).
  cbv zeta. destruct (contains _ _) eqn:Hc.
  - eapply reads_mono; [by apply IH|]. intros c x H Hch Hx ref' [->|Hin]%elem_of_cons;
      [|by apply H]. apply contains_true in Hc. destruct (Hch _ Hc) as (ref0 & Hs & E & Hn).
    apply ref_string_inj in E as ->; [done|apply Hrefs; left|done].
  - eapply reads_try; [apply modelExists_reads| |by intros c e _ _].
    intros [|]; [by apply reads_ret|]. eapply reads_mono; [by apply IH|].
    intros c x H He Hch Hx.
    assert (auth_policies c !! legacy_key ref = None) as Hnone.
    { specialize (He false eq_refl). symmetry in He. apply bool_decide_eq_false in He.
      apply eq_None_not_Some. exact He. }
    intros ref' [->|Hin]%elem_of_cons; [done|]. apply H; [|done..].
    intros s [->|Hs]%elem_of_cons; [|by apply Hch].
    exists ref. split_and!; [apply Hrefs; left|done..].
Qed.

Lemma hasLegacy_reads ns :
  reads (hasLegacyModelAuthPolicy ns) (λ c x,
    slash_free_refs c ns → x = Ok false →
    ∀ ref, namespace_ref c ns ref → auth_policies c !! legacy_key ref = None).
Proof.
  intros w. unfold hasLegacyModelAuthPolicy. rewrite run_try.
  match goal with |- context [in_context ?s (list_in ?objs ?test) w] =>
    destruct (in_context_run s (list_in objs test) w) as [-> ->];
    destruct (list_in_reads objs test w) as [E Hl];
    destruct (list_in objs test w) as [[items|e] w1]; cbn [fst snd] in *; [|done]
  end.
  rewrite <-E in *. clear E w.
  assert (∀ ref, ref ∈ concat ((λ p, as_ModelRefs (ap_Spec p))
      <$> List.filter (λ p, negb (ap_deleting p)) items.*2)
    ↔ namespace_ref (state w1) ns ref) as Hrefs.
  { intros ref. rewrite list_elem_of_In, in_concat. setoid_rewrite <-list_elem_of_In.
    setoid_rewrite list_elem_of_fmap. setoid_rewrite filter_bool_elem_of.
    setoid_rewrite list_elem_of_fmap. unfold namespace_ref. split.
    - intros (l & (p & -> & ([k p'] & -> & Hin) & Hd) & Hr).
      apply (listed_elem _ _ _ _ _ Hl) in Hin as [E Hk]. cbn in *.
      exists k, p'. apply negb_true_iff in Hd. apply bool_decide_eq_true in Hk. done.
    - intros (k & p & E & <- & Hd & Hr). exists (as_ModelRefs (ap_Spec p)).
      split; [|done]. exists p. split; [done|]. rewrite Hd. split; [|done].
      exists (k, p). split; [done|]. apply (listed_elem _ _ _ _ _ Hl).
      split; [done|]. cbn. by apply bool_decide_eq_true. }
  destruct (decide (Forall (λ ref : key, slash_free ref.1 = true)
    (concat ((λ p, as_ModelRefs (ap_Spec p))
      <$> List.filter (λ p, negb (ap_deleting p)) items.*2)))) as [Hs|Hs].
  - rewrite Forall_forall in Hs. destruct (any_legacy_false [] _ Hs w1) as [-> H].
    split; [done|]. intros _ Hx ref Hr. apply H; [|done|by apply Hrefs].
    by intros s []%not_elem_of_nil.
  - destruct (any_legacy_reads [] (concat ((λ p, as_ModelRefs (ap_Spec p))
      <$> List.filter (λ p, negb (ap_deleting p)) items.*2)) w1) as [-> _].
    split; [done|]. intros Hf. destruct Hs. apply Forall_forall. intros ref Hr.
    by apply Hf, Hrefs.
Qed.

(** Recording a phase leaves AuthPolicies alone. *)
Definition same_auth_policies (c c' : cluster) : Prop := auth_policies c' = auth_policies c.
#[local] Instance same_auth_policies_refl : Reflexive same_auth_policies.
Proof. done. Qed.
#[local] Instance same_auth_policies_trans : Transitive same_auth_policies.
Proof. unfold same_auth_policies. congruence. Qed.

Lemma record_same policy phase message snapshot {A} (x : A) :
  respects same_auth_policies (_ ← updateStatus policy phase message snapshot; mret x).
Proof.
  apply respects_bind; [apply _| |intros ?; apply respects_ret; apply _].
  unfold updateStatus. destruct (SubStatus.ready_condition phase). cbv zeta.
  case_match; [apply respects_ret; apply _|].
  apply respects_bind; [apply _| |intros ?; apply respects_ret; apply _].
  apply respects_write; [apply _|]. intros c c'. case_match; [|done]. by intros [= <-].
Qed.

(** What the end of a reconcile does to AuthPolicies. *)
Lemma finish_deletes policy missing w :
  ∃ c, auth_deletes managed_generated (state w) c
    ∧ auth_policies (state (finish policy missing w).2) = auth_policies c.
Proof.
  exists (state (reconcileModelAuthPolicies policy w).2).
  split; [apply reconcileModels_deletes|].
  unfold finish. cbv zeta. rewrite bind_run.
  destruct (reconcileModelAuthPolicies policy w) as [[refs|e] w1]; cbn [fst snd].
  2: { apply record_same. }
  step_reads (updateRefs_state refs) as statuses E H. rewrite <-E. clear E H.
  step_reads (report_state (with_auth_policies policy statuses)) as [p evs] E H.
  rewrite <-E. clear E H. destruct (deriveAuthPolicyPhase p missing). apply record_same.
Qed.

(** The policy of the gateway is enforced, and still there unless it was one of
    those generated for a model. *)
Definition kept_enforced (gw : GatewayRef) (c c' : cluster) : Prop :=
  ∃ g, enforced_auth g
    ∧ (auth_policies c' !! gateway_policy_key r gw = Some g
       ∨ ∃ g0, auth_policies c !! gateway_policy_key r gw = Some g0 ∧ generated g0 = true).

(** With legacy policies around. *)
Lemma reconcile_gateway_legacy policy missing oidc x id gw w k ap :
  auth_policies (state w) !! k = Some ap → ¬ is_policy_of r gw k →
  let c' := state (reconcile_gateway r policy missing oidc x id gw true w).2 in
  auth_policies c' !! k = None →
  kept_enforced gw (state w) c'.
Proof.
  intros E Hk. cbv zeta. unfold reconcile_gateway. rewrite bind_run.
  pose proof (reconcileGateway_effect r oidc x id gw w) as Heff.
  pose proof (reconcileGateway_others r oidc x id gw w k Hk) as Hother. cbv beta in Hother.
  destruct (reconcileGatewayAuthPolicy r oidc x id gw w) as [[b|e] w1]; cbn [fst snd] in *.
  2: { intros Hn. unfold failed in Hn. rewrite record_same in Hn. congruence. }
  rewrite orb_true_r. cbn [orb].
  step_reads (gatewayReady_reads r gw) as ready E1 H.
  rewrite <-E1 in *. clear E1 w1. destruct ready as [[[] msg]|e].
  - destruct (H msg eq_refl) as (g & Eg & Hg1 & Hg2 & Hg3).
    intros _. exists g. split; [by split_and!|].
    destruct (finish_deletes policy missing w0) as (c & [_ Hd] & ->).
    destruct (Hd (gateway_policy_key r gw)) as [->|(_ & g' & Eg' & Hgen)]; [by left|].
    right. apply andb_true_iff in Hgen as [Hgen _]. rewrite Eg in Eg'. injection Eg' as <-.
    destruct (auth_effect_generated _ _ _ _ _ Heff Eg Hgen) as (g0 & ? & El & _).
    exists g0. split; [done|]. revert Hgen. unfold generated. by rewrite El.
  - intros Hn. unfold pending in Hn. rewrite record_same in Hn. congruence.
  - intros Hn. unfold failed in Hn. rewrite record_same in Hn. congruence.
Qed.

(** A policy other than the gateway's goes only when the gateway's is enforced. *)
Definition goes_after_enforcement (gw : GatewayRef) (c c' : cluster) : Prop :=
  ∀ k, is_Some (auth_policies c !! k) → k ≠ gateway_policy_key r gw →
    auth_policies c' !! k = None → kept_enforced gw c c'.

Lemma reconcile_cutover_run policy missing oidc x id gw w ref :
  slash_free_refs (state w) (ap_Namespace policy) →
  namespace_ref (state w) (ap_Namespace policy) ref →
  is_Some (auth_policies (state w) !! legacy_key ref) →
  let c' := state (reconcile_cutover r policy missing oidc x id gw w).2 in
  auth_policies c' = auth_policies (state w)
  ∨ (target_ready (state w) id ∧ goes_after_enforcement gw (state w) c').
Proof.
  intros Hs Hr [ap Hap]. cbv zeta. unfold reconcile_cutover.
  step_reads (hasLegacy_reads (ap_Namespace policy)) as legacy E H.
  rewrite <-E in *. clear E w. destruct legacy as [[]|e].
  - step_reads (targetReady_reads r id) as target E Ht. rewrite <-E in *. clear E w0.
    destruct target as [[]|e]; [|left; apply record_same..].
    right. split; [by apply Ht|]. intros k [apk Hk] Hne.
    by eapply reconcile_gateway_legacy.
  - specialize (H Hs eq_refl ref Hr). congruence.
  - left. apply record_same.
Qed.

Lemma reconcile_spec_cutover policy w ref :
  slash_free_refs (state w) (ap_Namespace policy) →
  namespace_ref (state w) (ap_Namespace policy) ref →
  is_Some (auth_policies (state w) !! legacy_key ref) →
  let c' := state (reconcile_spec r policy w).2 in
  auth_policies c' = auth_policies (state w)
  ∨ ∃ gw id, tenant_gateway (settings r) (state w) (ap_Namespace policy) = Some gw
      ∧ tenant_id (state w) (ap_Namespace policy) = Some id
      ∧ target_ready (state w) id ∧ goes_after_enforcement gw (state w) c'.
Proof.
  intros Hs Hr Hl. cbv zeta. unfold reconcile_spec. cbv zeta.
  step_reads (missing_reads (as_ModelRefs (ap_Spec policy))) as missing E Hm.
  rewrite <-E in *. clear E Hm w.
  step_reads (fetchOIDCConfig_reads r (ap_Namespace policy)) as oidc E Ho.
  rewrite <-E in *. clear E Ho w0.
  step_reads (fetchTenantIdentifier_reads (ap_Namespace policy)) as id E Hid.
  rewrite <-E in *. clear E w. destruct id as [id|e]; [|left; apply record_same].
  step_reads discover_reads as x E Hx. rewrite <-E in *. clear E Hx w0.
  step_reads (fetchGatewayInfo_reads r (ap_Namespace policy)) as gw E Hgw.
  rewrite <-E in *. clear E w. destruct gw as [gw|e]; [|left; apply record_same].
  destruct (_ && _); [left; apply record_same|].
  destruct (reconcile_cutover_run policy missing oidc x id gw w0 ref) as [|[Ht Hg]];
    [done..|by left|]. right. exists gw, id. split_and!; [by apply Hgw|by apply Hid|done..].
Qed.
End cutover.

(** * Phases *)

(** ** References of a namespace *)

(** What a reconcile of a live policy leaves of the references. *)
Lemma namespace_ref_step own k c c' ns ref :
  (∀ p, auth_crs c !! k = Some p → ap_deleting p = false) →
  auth_step own k c c' → namespace_ref c' ns ref ↔ namespace_ref c ns ref.
Proof.
  intros Hlive [_ Hothers Hown _].
  assert (∀ k', match auth_crs c !! k', auth_crs c' !! k' with
    | Some p, Some p' => same_auth p p' | None, None => True | _, _ => False end) as H.
  { intros k'. destruct (decide (k' = k)) as [->|Hne].
    - destruct (auth_crs c !! k) eqn:E, (auth_crs c' !! k); try done. cbn in Hown.
      rewrite (Hlive _ eq_refl) in Hown. done.
    - rewrite (Hothers k' Hne). by destruct (auth_crs c !! k'). }
  unfold namespace_ref. apply exist_proper. intros k'. specialize (H k').
  destruct (auth_crs c !! k') as [p|], (auth_crs c' !! k') as [p'|]; [|done|done|].
  - destruct H as (_ & _ & _ & Hd & Hs). split; intros (? & [= <-] & ? & ? & Hr).
    + exists p. rewrite <-Hd, <-Hs. done.
    + exists p'. rewrite Hd, Hs. done.
  - split; by intros (? & ? & _).
Qed.

(** ** Phases *)

(** No policy becomes Active. *)
Definition no_new_active (c c' : cluster) : Prop :=
  ∀ k p', auth_crs c' !! k = Some p' → ap_Phase (ap_Status p') = PhaseActive →
    ∃ p, auth_crs c !! k = Some p ∧ ap_Phase (ap_Status p) = PhaseActive.

#[global] Instance no_new_active_refl : Reflexive no_new_active.
Proof. intros c k p' E H. by exists p'. Qed.
#[global] Instance no_new_active_trans : Transitive no_new_active.
Proof.
  intros c1 c2 c3 H1 H2 k p E HP. destruct (H2 k p E HP) as (p2 & E2 & HP2).
  by apply (H1 k p2).
Qed.

Lemma no_new_active_crs c c' : auth_crs c' = auth_crs c → no_new_active c c'.
Proof. intros E k p' Ep HP. rewrite E in Ep. by exists p'. Qed.

Section facts.
Context {api : ApiMachinery} {srv : ApiServer} {lawful : LawfulApiServer}.
Context (r : AuthReconciler).

Lemma record_not_active policy phase message snapshot {A} (x : A) :
  phase ≠ PhaseActive →
  respects no_new_active (_ ← updateStatus policy phase message snapshot; mret x).
Proof.
  intros Hne.
  apply respects_bind; [apply _| |intros ?; apply respects_ret; apply _].
  unfold updateStatus. destruct (SubStatus.ready_condition phase). cbv zeta.
  case_match; [apply respects_ret; apply _|].
  apply respects_bind; [apply _| |intros ?; apply respects_ret; apply _].
  apply respects_write; [apply _|]. intros c c'.
  destruct (auth_crs c !! auth_key policy) as [old|] eqn:E; [|done]. intros [= <-].
  intros k p' Ep HP. cbn in Ep. destruct (decide (k = auth_key policy)) as [->|Hk].
  - rewrite lookup_insert_eq in Ep. injection Ep as <-. cbn in HP. done.
  - rewrite lookup_insert_ne in Ep by done. by exists p'.
Qed.

Lemma failed_not_active policy context e : respects no_new_active (failed policy context e).
Proof. by apply record_not_active. Qed.
Lemma pending_not_active policy message : respects no_new_active (pending policy message).
Proof. by apply record_not_active. Qed.

Lemma effect_not_active own c c' : auth_effect own c c' → no_new_active c c'.
Proof. intros [E _]. apply no_new_active_crs. by rewrite E. Qed.

(** A phase is Active only when no model is missing. *)
Lemma derive_active policy missing :
  (deriveAuthPolicyPhase policy missing).1 = PhaseActive →
  missing = [] ∧ as_ModelRefs (ap_Spec policy) ≠ [].
Proof.
  unfold deriveAuthPolicyPhase. cbv zeta.
  destruct (Z.eqb_spec (Z.of_nat (length (as_ModelRefs (ap_Spec policy)))
    - Z.of_nat (length missing)) 0); [done|].
  destruct (Nat.ltb_spec 0 (length missing)); [done|]. intros _.
  split; [|intros E; rewrite E in *; cbn in *; lia].
  destruct missing; [done|cbn in *; lia].
Qed.

Lemma finish_active policy missing w :
  no_new_active (state w) (state (finish policy missing w).2)
  ∨ (missing = [] ∧ as_ModelRefs (ap_Spec policy) ≠ []).
Proof.
  unfold finish. cbv zeta. rewrite bind_run.
  pose proof (reconcileModels_deletes policy w) as [E0 _].
  destruct (reconcileModelAuthPolicies policy w) as [[refs|e] w1]; cbn [fst snd] in *.
  2: { left. etrans; [|apply failed_not_active]. apply no_new_active_crs. by rewrite E0. }
  step_reads (updateRefs_state refs) as statuses E H. rewrite <-E in *. clear E H.
  step_reads (report_state (with_auth_policies policy statuses)) as [p evs] E H.
  rewrite <-E in *. clear E. destruct H as (_ & HS & _). cbn [fst] in HS.
  pose proof (derive_active p missing) as Hd. rewrite HS in Hd.
  destruct (deriveAuthPolicyPhase p missing) as [phase message]. cbn [fst] in Hd.
  destruct (decide (phase = PhaseActive)) as [->|Hne]; [right; by apply Hd|left].
  etrans; [|by apply record_not_active]. apply no_new_active_crs. by rewrite E0.
Qed.

(** What a phase that becomes Active tells. *)
Definition active_evidence (policy : MaaSAuthPolicy) (missing : list key) (gw : GatewayRef)
    (c c' : cluster) : Prop :=
  missing = [] ∧ as_ModelRefs (ap_Spec policy) ≠ [] ∧ kept_enforced r gw c c'.

Lemma reconcile_gateway_active policy missing oidc x id gw legacy w :
  ap_Phase (ap_Status policy) ≠ PhaseActive →
  let c' := state (reconcile_gateway r policy missing oidc x id gw legacy w).2 in
  no_new_active (state w) c' ∨ active_evidence policy missing gw (state w) c'.
Proof.
  intros Hph. cbv zeta. unfold reconcile_gateway. rewrite bind_run.
  pose proof (reconcileGateway_effect r oidc x id gw w) as Heff.
  pose proof (effect_not_active _ _ _ Heff) as Hcrs.
  destruct (reconcileGatewayAuthPolicy r oidc x id gw w) as [[b|e] w1]; cbn [fst snd] in *.
  2: { left. etrans; [exact Hcrs|apply failed_not_active]. }
  rewrite (bool_decide_eq_false_2 (ap_Phase (ap_Status policy) = PhaseActive)) by done.
  cbn [negb]. rewrite orb_true_r.
  step_reads (gatewayReady_reads r gw) as ready E1 H. rewrite <-E1 in *. clear E1 w1.
  destruct ready as [[[] msg]|e].
  2: { left. etrans; [exact Hcrs|apply pending_not_active]. }
  2: { left. etrans; [exact Hcrs|apply failed_not_active]. }
  destruct (H msg eq_refl) as (g & Eg & Hg1 & Hg2 & Hg3).
  destruct (finish_active policy missing w0) as [Hf|[Hm Hr]];
    [left; etrans; [exact Hcrs|exact Hf]|].
  right. split_and!; [done..|]. exists g. split; [by split_and!|].
  destruct (finish_deletes policy missing w0) as (c & [_ Hd] & ->).
  destruct (Hd (gateway_policy_key r gw)) as [->|(_ & g' & Eg' & Hgen)]; [by left|].
  right. apply andb_true_iff in Hgen as [Hgen _]. rewrite Eg in Eg'. injection Eg' as <-.
  destruct (auth_effect_generated _ _ _ _ _ Heff Eg Hgen) as (g0 & ? & El & _).
  exists g0. split; [done|]. revert Hgen. unfold generated. by rewrite El.
Qed.

Lemma reconcile_cutover_active policy missing oidc x id gw w :
  ap_Phase (ap_Status policy) ≠ PhaseActive →
  let c' := state (reconcile_cutover r policy missing oidc x id gw w).2 in
  no_new_active (state w) c' ∨ active_evidence policy missing gw (state w) c'.
Proof.
  intros Hph. cbv zeta. unfold reconcile_cutover.
  step_reads (hasLegacy_state (ap_Namespace policy)) as legacy E H.
  rewrite <-E in *. clear E H w. destruct legacy as [[]|e].
  - step_reads (targetReady_reads r id) as target E Ht. rewrite <-E in *. clear E Ht w0.
    destruct target as [[]|e];
      [by apply reconcile_gateway_active|left; apply pending_not_active
      |left; apply failed_not_active].
  - by apply reconcile_gateway_active.
  - left. apply failed_not_active.
Qed.

(** A tenant of its own on the default gateway, whose policies are Active without
    a look. *)
Definition foreign_on_default (c : cluster) (ns : string) : Prop :=
  ∃ gw id, tenant_gateway (settings r) c ns = Some gw ∧ is_default_gateway r gw = true
    ∧ tenant_id c ns = Some id ∧ id ≠ "".

Lemma reconcile_spec_active policy w :
  ap_Phase (ap_Status policy) ≠ PhaseActive →
  let ns := ap_Namespace policy in
  let c := state w in
  let c' := state (reconcile_spec r policy w).2 in
  no_new_active c c' ∨ foreign_on_default c ns
  ∨ ∃ gw, tenant_gateway (settings r) c ns = Some gw
      ∧ as_ModelRefs (ap_Spec policy) ≠ []
      ∧ (∀ ref, ref ∈ as_ModelRefs (ap_Spec policy) → is_Some (models c !! ref))
      ∧ kept_enforced r gw c c'.
Proof.
  intros Hph. cbv zeta. unfold reconcile_spec. cbv zeta.
  step_reads (missing_reads (as_ModelRefs (ap_Spec policy))) as missing E Hm.
  rewrite <-E in *. clear E w.
  step_reads (fetchOIDCConfig_reads r (ap_Namespace policy)) as oidc E Ho.
  rewrite <-E in *. clear E Ho w0.
  step_reads (fetchTenantIdentifier_reads (ap_Namespace policy)) as id E Hid.
  rewrite <-E in *. clear E w. destruct id as [id|e]; [|left; apply failed_not_active].
  step_reads discover_reads as x E Hx. rewrite <-E in *. clear E Hx w0.
  step_reads (fetchGatewayInfo_reads r (ap_Namespace policy)) as gw E Hgw.
  rewrite <-E in *. clear E w. destruct gw as [gw|e]; [|left; apply failed_not_active].
  destruct (_ && _) eqn:Hskip.
  { right; left. apply andb_true_iff in Hskip as [Hne Hd].
    apply negb_true_iff, bool_decide_eq_false in Hne.
    exists gw, id. split_and!; [by apply Hgw|done|by apply Hid|done]. }
  destruct (reconcile_cutover_active policy missing oidc x id gw w0 Hph)
    as [|(Hnil & Hne & Hk)]; [by left|].
  right; right. exists gw. split_and!; [by apply Hgw|done| |done].
  intros ref Href. destruct (models (state w0) !! ref) as [m|] eqn:E; [by eexists|].
  specialize (Hm ref Href E). rewrite Hnil in Hm. by apply not_elem_of_nil in Hm.
Qed.

(** ** From the first call on *)

(** A reconcile of a live policy stops before it has changed anything but the
    policy's finalizers and phase, and not to Active, or goes on. *)
Definition started (w : io cluster) (p : MaaSAuthPolicy) (w1 : io cluster)
    (p1 : MaaSAuthPolicy) : Prop :=
  auth_step none_own (auth_key p) (state w) (state w1)
  ∧ no_new_active (state w) (state w1)
  ∧ auth_policies (state w1) = auth_policies (state w)
  ∧ same_auth p p1 ∧ ap_Status p1 = ap_Status p.

Lemma ensure_auth_finalizer_not_active policy :
  respects no_new_active (ensure_finalizer policy).
Proof.
  unfold ensure_finalizer. case_match; [apply respects_ret; apply _|].
  apply respects_bind; [apply _| |intros ?; apply respects_ret; apply _].
  apply respects_write; [apply _|]. intros c c'.
  destruct (auth_crs c !! auth_key policy) as [old|] eqn:E; [|done]. intros [= <-].
  intros k p' Ep HP. cbn in Ep. destruct (decide (k = auth_key policy)) as [->|Hk].
  - case_match; [by rewrite lookup_delete_eq in Ep|].
    rewrite lookup_insert_eq in Ep. injection Ep as <-. by exists old.
  - case_match; [rewrite lookup_delete_ne in Ep by done
                |rewrite lookup_insert_ne in Ep by done]; by exists p'.
Qed.

Lemma ensure_auth_finalizer_policies policy w :
  auth_policies (state (ensure_finalizer policy w).2) = auth_policies (state w).
Proof.
  unfold ensure_finalizer. case_match; [done|]. rewrite bind_run. cbn.
  apply update_auth_finalizers_policies.
Qed.

Lemma auth_Reconcile_live w p :
  auth_crs (state w) !! auth_key p = Some p → ap_deleting p = false →
  let x := Reconcile r (auth_key p) w in
  (no_new_active (state w) (state x.2) ∧ auth_policies (state x.2) = auth_policies (state w))
  ∨ ∃ w1 p1, started w p w1 p1 ∧ x = reconcile_spec r p1 w1.
Proof.
  intros Hp Hlive. cbv zeta. unfold Reconcile, started.
  step_reads (get_in_reads auth_crs (auth_key p)) as [p'|[| |msg]] E H; [|congruence|done|].
  2: { left. unfold mret, prog_ret. cbn. by rewrite E. }
  assert (p' = p) as -> by congruence. rewrite <-E in *. clear E H. rewrite Hlive.
  rewrite run_try.
  destruct (reads_run _ _ w0 (tenantNamespaceAllowed_reads (settings r) (auth_key p).1))
    as (b & w1 & -> & E & _). cbn [fst snd]. rewrite <-E in *. clear E.
  destruct b as [b|e]; [|by left]. destruct (negb b); [by left|].
  case_match; [left; split; [by apply record_not_active|apply record_same]|].
  rewrite run_try. pose proof (ensure_auth_finalizer_step none_own p w1) as Hf.
  pose proof (ensure_auth_finalizer_not_active p w1) as Hna.
  pose proof (ensure_auth_finalizer_policies p w1) as Hpol.
  pose proof (ensure_auth_finalizer_same p w1) as Hsame.
  destruct (ensure_finalizer p w1) as [[p1|e] w2]; cbn [fst snd] in *; [|by left].
  destruct (Hsame p1 eq_refl) as (? & ? & _).
  right. exists w2, p1. by split_and!.
Qed.

(** The rest of the cluster is the same when the reconcile goes on. *)
Lemma started_tenant w p w1 p1 :
  started w p w1 p1 →
  tenant_gateway (settings r) (state w1) (ap_Namespace p)
    = tenant_gateway (settings r) (state w) (ap_Namespace p)
  ∧ tenant_id (state w1) (ap_Namespace p) = tenant_id (state w) (ap_Namespace p)
  ∧ models (state w1) = models (state w)
  ∧ endpoint_slices (state w1) = endpoint_slices (state w)
  ∧ ap_Namespace p1 = ap_Namespace p ∧ ap_Spec p1 = ap_Spec p.
Proof.
  intros ([-> _ _ _] & _ & _ & (_ & HN & _ & _ & HS) & _). by split_and!.
Qed.
End facts.

(** * Conflicts *)

Import V1 Cluster Helpers Conflicts.

(** ** One entry per policy *)

#[global] Instance conflict_key_order :
  StrictWeak (λ a b, str_lt (conflict_key a) (conflict_key b)).
Proof.
  apply (strict_weak_by conflict_key str_lt).
  split; [apply str_lt_asym|apply str_lt_neg_trans].
Qed.

Lemma uniq_snoc l x : uniq (l ++ [x]) = <[conflict_key x := x]> (uniq l).
Proof. unfold uniq. by rewrite foldl_app. Qed.

Lemma uniq_lookup l s y : uniq l !! s = Some y → y ∈ l ∧ conflict_key y = s.
Proof.
  revert y. induction l as [|x l IH] using rev_ind; intros y; [done|].
  rewrite uniq_snoc, elem_of_app, list_elem_of_singleton.
  intros [[<- <-]|[_ H]]%lookup_insert_Some; [by split; [right|]|].
  apply IH in H as [??]. auto.
Qed.

Lemma uniq_covers l y : y ∈ l → is_Some (uniq l !! conflict_key y).
Proof.
  induction l as [|x l IH] using rev_ind; [by intros []%not_elem_of_nil|].
  rewrite uniq_snoc, elem_of_app, list_elem_of_singleton. intros [H| ->].
  - apply lookup_insert_is_Some'. right. by apply IH.
  - rewrite lookup_insert_eq. by eexists.
Qed.

Lemma deduplicate_elem l y :
  y ∈ deduplicate l ↔ uniq l !! conflict_key y = Some y.
Proof.
  unfold deduplicate. rewrite elem_of_sort_stable, list_elem_of_fmap. split.
  - intros ([s z] & -> & H%elem_of_map_to_list). cbn.
    by destruct (uniq_lookup _ _ _ H) as [_ ->].
  - intros H. exists (conflict_key y, y). split; [done|]. by apply elem_of_map_to_list.
Qed.

Lemma deduplicate_keys l : NoDup (conflict_key <$> deduplicate l).
Proof.
  unfold deduplicate. rewrite sort_stable_perm.
  replace (conflict_key <$> (map_to_list (uniq l)).*2) with (map_to_list (uniq l)).*1.
  { apply NoDup_fst_map_to_list. }
  rewrite <-list_fmap_compose. apply list_fmap_ext.
  intros i [s y] H%list_elem_of_lookup_2%elem_of_map_to_list. cbn.
  by destruct (uniq_lookup _ _ _ H) as [_ ->].
Qed.

Lemma deduplicate_sorted l :
  sorted (λ a b, str_lt (conflict_key a) (conflict_key b)) (deduplicate l).
Proof. apply sort_stable_sorted, _. Qed.

(** ** What is found *)

Section facts.
Context {api : ApiMachinery} {srv : ApiServer} {lawful : LawfulApiServer}.

(** A policy of somebody else that targets a route of a model. *)
Definition conflict_on (c : cluster) (ref : key) (rn : string) (y : conflictingPolicyInfo)
    : Prop :=
  ∃ ap, auth_policies c !! (ref.1, cf_Name y) = Some ap ∧ conflicting rn ap = true
    ∧ y = mkConflict (cf_Name y) ref.1 rn ref.2 ref.1.

(** Everything found is a conflict, and on one route of each model that has any,
    every conflict is found. *)
Definition found_conflicts (c : cluster) (refs : list key)
    (l : list conflictingPolicyInfo) : Prop :=
  (∀ y, y ∈ l → ∃ ref rn, ref ∈ refs ∧ routable c ref rn ∧ conflict_on c ref rn y)
  ∧ ∀ ref, ref ∈ refs →
      (∀ rn, ¬ routable c ref rn)
      ∨ ∃ rn, routable c ref rn ∧ ∀ y, conflict_on c ref rn y → y ∈ l.

Lemma findConflicts_reads rn ref :
  reads (findConflictsForHTTPRoute rn ref.1 ref) (λ c x,
    ∀ l, x = Ok l → ∀ y, y ∈ l ↔ conflict_on c ref rn y).
Proof.
  unfold findConflictsForHTTPRoute. eapply reads_then; [apply list_in_reads|].
  intros [l|[| |msg]]; apply reads_ret; intros c Hl l' [= <-]; [|done].
  intros y. rewrite list_elem_of_fmap. unfold conflict_on. split.
  - intros ([[ns name] ap] & -> & [Hin Hc]%filter_bool_elem_of).
    apply (listed_elem _ _ _ _ _ Hl) in Hin as [E Hns].
    apply bool_decide_eq_true in Hns. cbn in *. subst ns. by exists ap.
  - intros (ap & E & Hc & Hy). exists ((ref.1, cf_Name y), ap). split; [done|].
    apply filter_bool_elem_of. split; [|done]. apply (listed_elem _ _ _ _ _ Hl).
    split; [done|]. by apply bool_decide_eq_true.
Qed.

Lemma found_skip c ref refs l :
  (∀ rn, ¬ routable c ref rn) → found_conflicts c refs l →
  found_conflicts c (ref :: refs) l.
Proof.
  intros Hno [H1 H2]. split.
  - intros y (ref' & rn & Hin & ?)%H1. exists ref', rn. split; [by right|done].
  - intros ref' [->|Hin]%elem_of_cons; [by left|by apply H2].
Qed.

Lemma found_cons c ref rn refs l1 l2 :
  routable c ref rn → (∀ y, y ∈ l1 ↔ conflict_on c ref rn y) →
  found_conflicts c refs l2 → found_conflicts c (ref :: refs) (l1 ++ l2).
Proof.
  intros Hr Hl [H1 H2]. split.
  - intros y [Hy|Hy]%elem_of_app.
    + exists ref, rn. split_and!; [by left|done|by apply Hl].
    + destruct (H1 y Hy) as (ref' & rn' & Hin & ?). exists ref', rn'.
      split; [by right|done].
  - intros ref' [->|Hin]%elem_of_cons.
    + right. exists rn. split; [done|]. intros y Hy. apply elem_of_app. left.
      by apply Hl.
    + destruct (H2 ref' Hin) as [|(rn' & ? & Hy)]; [by left|]. right. exists rn'.
      split; [done|]. intros y ?. apply elem_of_app. right. by apply Hy.
Qed.

Lemma conflicts_of_reads refs :
  reads (conflicts_of refs) (λ c x, ∀ l, x = Ok l → found_conflicts c refs l).
Proof.
  induction refs as [|ref refs IH]; cbn [conflicts_of].
  { apply reads_ret. intros c l [= <-]. split.
    - by intros y []%not_elem_of_nil.
    - by intros ref []%not_elem_of_nil. }
  eapply reads_then; [apply findHTTPRoute_reads|].
  assert ((ref.1, ref.2) = ref) as -> by by destruct ref.
  intros [[rn ns]|e].
  - destruct (decide (ns = ref.1)) as [->|Hne].
    + eapply reads_try; [apply findConflicts_reads| |done]. intros l1.
      eapply reads_try; [apply IH| |done]. intros l2. apply reads_ret.
      intros c H2 H1 [_ Hr] l [= <-]. apply (found_cons c ref rn); auto.
    + apply (reads_mono _ (λ _ _, True)); [|by intros c x _ [? _]].
      apply (reads_try _ _ (λ _ _, True)); [apply findConflicts_state| |done]. intros l1.
      apply (reads_try _ _ (λ _ _, True)); [apply conflicts_of_state| |done]. intros l2.
      by apply reads_ret.
  - destruct (_ || _) eqn:He; [|by apply reads_ret].
    eapply reads_mono; [apply IH|]. intros c x H (Hm & _ & Hr) l E.
    apply found_skip; [|by apply H]. apply orb_true_iff in He as [He|He].
    + intros rn (m & Em & Hd & _). apply (Hm He). by exists m.
    + apply Hr. by left.
Qed.

Lemma detect_reads policy :
  reads (detectConflictingAuthPolicies policy) (λ c x, ∀ l, x = Ok l →
    ∃ l0, found_conflicts c (as_ModelRefs (ap_Spec policy)) l0 ∧ l = deduplicate l0).
Proof.
  unfold detectConflictingAuthPolicies. eapply reads_try; [apply conflicts_of_reads| |done].
  intros l0. apply reads_ret. intros c H l [= <-]. exists l0. split; [|done]. by apply H.
Qed.
End facts.
