(* ===== verification/AuthPolicyExamples.v ===== *)
(** Concrete clusters for the policy controller, over the server of
    [SubscriptionExamples]. *)
From S2P Require Import Prelude GoStrings Unstructured Runtime.
From S2P Require Import SpecCompare MaasTypes Cluster ControllerHelpers.
From S2P Require Import GatewayAuthSpec AuthPolicyGateway ConflictDetection AuthPolicyController.
From S2P Require Import SubscriptionExamples.
Import V1 Cluster Helpers GatewaySpec AuthGateway Conflicts AuthController.

Module AuthCluster.
Import DocApi.

#[export] Instance doc_accessors : LawfulAccessors.
Proof.
  split. intros o k. unfold get_map, NestedMap. cbn. unfold DocApi.typed. cbn.
  destruct (map_get k o) as [v|]; [|done]. cbn. by destruct v.
Qed.

Definition deployment : AuthReconciler :=
  mkAuthReconciler DocCluster.settings "infra" "https://kubernetes.default.svc" 60 60.

(** ** Policies *)

Definition tenant : string := DocCluster.tenant.
Definition granite : key := ("llm", "granite").

Definition auth_policy (ns name phase : string) (conditions : list Condition)
    (refs : list key) : MaaSAuthPolicy :=
  mkAuthPolicyCR name ns 1 false [maasAuthPolicyFinalizer]
    (mkAuthSpec refs ["users"] [] None) (mkAuthStatus phase conditions []).
Definition deleted (p : MaaSAuthPolicy) : MaaSAuthPolicy :=
  mkAuthPolicyCR (ap_Name p) (ap_Namespace p) (ap_Generation p) true (ap_Finalizers p)
    (ap_Spec p) (ap_Status p).

(** ** AuthPolicies *)

Definition condition (typ status : string) : value :=
  VMap [("type", VString typ); ("status", VString status)].
Definition reported (generation : Z) (accepted enforced : string) : value :=
  VMap [("observedGeneration", VInt generation);
        ("conditions", VSlice [condition "Accepted" accepted;
                               condition "Enforced" enforced])].

(** The policy the controller generates for the default gateway, with what
    Kuadrant reports. *)
Definition default_gateway : GatewayRef := mkGateway "maas-gateway" "ingress".
Definition gateway_policy (generation : Z) (enforced : string) : AuthPolicy :=
  mkAuthPolicy gateway_labels ∅ [] generation
    [("spec", VMap (desired_spec deployment None false "" default_gateway));
     ("status", reported 1 "True" enforced)].
Definition gateway_key : key := ("ingress", maasGatewayAuthPolicyName).

(** A policy an earlier version generated for the model, in the name of a
    policy of the tenant. *)
Definition legacy_policy (model : key) (owner : string) : AuthPolicy :=
  mkAuthPolicy
    (list_to_map [(label_managed_by, "maas-controller"); (label_part_of, "maas-auth-policy");
                  (label_model, model.2); (label_model_namespace, model.1)])
    {[ annotation_policies := owner ]} [] 1 [("spec", VMap [])].

(** A policy of somebody else on the route of the model. *)
Definition intruder : AuthPolicy :=
  mkAuthPolicy ∅ ∅ [] 1
    [("spec", VMap [("targetRef",
        VMap [("group", VString "gateway.networking.k8s.io"); ("kind", VString "HTTPRoute");
              ("name", VString "maas-granite")])])].

(** A ready endpoint of the API of this version. *)
Definition ready_slice : EndpointSlice :=
  mkSlice {[ "kubernetes.io/service-name" := "maas-api" ]} [Some 8443%Z] [Some true].

(** ** Clusters *)

Definition cluster_with (crs : list MaaSAuthPolicy) (aps : gmap key AuthPolicy)
    (legacy : gmap string LegacyTenant) (slices : gmap key EndpointSlice) : cluster :=
  let base := DocCluster.cluster_of [] ∅ in
  mkCluster (subscriptions base) (models base) (routes base) (external_models base)
    (policies base) (namespaces base) ∅ legacy (aitenants base)
    (list_to_map ((λ p, (auth_key p, p)) <$> crs)) aps ∅ slices ∅ ∅.

Definition start (crs : list MaaSAuthPolicy) (aps : gmap key AuthPolicy) : io cluster :=
  IO 0 (cluster_with crs aps ∅ ∅).

Definition run (srv : ApiServer) (p : MaaSAuthPolicy) (w : io cluster)
    : result error outcome * io cluster :=
  @Reconcile doc_api srv deployment (auth_key p) w.

Definition readers : MaaSAuthPolicy := auth_policy tenant "readers" "" [] [granite].
Definition active : MaaSAuthPolicy := auth_policy tenant "readers" PhaseActive [] [granite].

Lemma crs_lookup crs aps lt es k p :
  auth_crs (cluster_with crs aps lt es) !! k = Some p → k = auth_key p ∧ p ∈ crs.
Proof.
  cbn. intros (p' & [= -> ->] & H)%elem_of_list_to_map_2%list_elem_of_fmap. done.
Qed.
End AuthCluster.
