(* ===== verification/AuthPolicyControllerCorrectness.v ===== *)
(** The properties of the policy controller: what the AuthPolicy of a gateway
    holds, what a reconcile leaves alone, the upgrade, deletions, phases and
    conflicts. *)
From S2P Require Import Prelude GoStrings Sorting Unstructured Runtime.
From S2P Require Import SpecCompare MaasTypes Cluster ControllerHelpers.
From S2P Require Import GatewayAuthSpec AuthPolicyGateway ConflictDetection AuthPolicyController.
From S2P Require Import ControllerFacts SubscriptionModelFacts.
From S2P Require Import SubscriptionReconcileFacts AuthGatewayFacts AuthLoopFacts.
From S2P Require Import AuthReconcileFacts.
From S2P Require Import SubscriptionExamples AuthPolicyExamples.
Import V1 Cluster Helpers SpecCompare GatewaySpec AuthGateway Conflicts AuthController.

(** ** The comparison of specs *)

(** C35. A spec counts as up to date exactly when it holds all that is desired: equal
    atoms (numbers compared as Go's 64-bit floats), slices of the same length
    element by element, and maps that may hold more keys; only outside slices a
    desired key may be missing, when nothing but empty maps and slices is under
    it. *)
Theorem spec_matches_iff desired current :
  well_formed (VMap desired) = true → well_formed (VMap current) = true →
  specMatchesDesired desired (Some current) = true
  ↔ covers false (normalize (VMap desired)) (normalize (VMap current)).
Proof. apply specMatches_covers. Qed.

Section gateway.
Context {api : ApiMachinery} {accessors : LawfulAccessors}.
Context {srv : ApiServer} {lawful : LawfulApiServer}.
Context (r : AuthReconciler).

(** The spec of a policy has all that is desired, by the relation above. *)
Definition holds (spec : gomap) (ap : AuthPolicy) : Prop :=
  ∃ current, map_get "spec" (a_Object ap) = Some (VMap current)
    ∧ covers false (normalize (VMap spec)) (normalize (VMap current)).

Lemma up_to_date_holds spec ap :
  well_formed (VMap spec) = true → well_formed_policy ap → up_to_date spec ap ↔ holds spec ap.
Proof.
  intros Hd Hwf. unfold up_to_date, holds, get_map.
  destruct (map_get "spec" (a_Object ap)) as [v|] eqn:E; cbn [mbind option_bind].
  2: { rewrite specMatches_none. split; [done|by intros (? & ? & _)]. }
  destruct (as_map v) as [current|] eqn:Ev.
  - destruct v; simplify_eq/=. rewrite specMatches_covers by (done || by apply Hwf).
    split; [by exists current|]. by intros (? & [= <-] & ?).
  - rewrite specMatches_none. split; [done|]. intros (? & [= ->] & _). done.
Qed.

(** C32. When nothing fails, and the gateway exists if it is not the default one,
    whose existence is not looked at, one call brings the AuthPolicy of the
    gateway up to date, if there is none or a managed one, each of whose maps
    binds a key once: the policy is there, its spec holds all that is desired, a
    spec that did so before stays and another one is replaced, with the labels,
    the annotations and the fields of the policy besides its spec kept, and no
    other object has changed; a second call finds nothing to write. *)
Theorem gateway_policy_converges oidc x id gw w :
  reliable_server → gateway_exists r (state w) gw →
  let old := auth_policies (state w) !! gateway_policy_key r gw in
  (∀ ap, old = Some ap → managed_auth ap ∧ well_formed_policy ap) →
  let spec := desired_spec r oidc x id gw in
  let first := reconcileGatewayAuthPolicy r oidc x id gw w in
  let second := reconcileGatewayAuthPolicy r oidc x id gw first.2 in
  ∃ b ap, first.1 = Ok b ∧ managed_auth ap ∧ holds spec ap
    ∧ (∀ ap0, old = Some ap0 → holds spec ap0 ∧ ap = ap0
                               ∨ ¬ holds spec ap0 ∧ rewritten (Some ap0) ap)
    ∧ state first.2 = set_auth_policies <[gateway_policy_key r gw := ap]> (state w)
    ∧ second.1 = Ok false ∧ state second.2 = state first.2.
Proof.
  intros Hrel Hgw. cbv zeta. intros Hex.
  destruct (reconcileGateway_run r oidc x id gw w Hrel Hgw Hex)
    as (b & ap & E & Hap & Hm & Hwf & Hup & Hst & Hrw).
  set (w1 := (reconcileGatewayAuthPolicy r oidc x id gw w).2) in *.
  pose proof (λ ap, up_to_date_holds _ ap (desired_well_formed r oidc x id gw)) as Hh.
  exists b, ap. split_and!; [done|done|by apply Hh| |done| |].
  - intros ap0 E0. destruct (Hex ap0 E0) as [_ Hwf0]. destruct b; [right|left].
    + destruct Hrw as [Hrw Hnot]. rewrite E0 in Hrw.
      split; [|done]. intros ?%(Hh _ Hwf0). by eapply Hnot.
    + assert (ap0 = ap) as -> by congruence. split; [by apply Hh|done].
  - destruct (reconcileGateway_run r oidc x id gw w1 Hrel)
      as (b' & ap' & -> & _ & _ & _ & _ & _ & Hb).
    + intros Ht. rewrite Hst. by apply Hgw.
    + intros ap0. rewrite Hap. by intros [= <-].
    + destruct b'; [|done]. destruct Hb as [_ Hb]. by destruct (Hb ap Hap).
  - destruct (reconcileGateway_run r oidc x id gw w1 Hrel)
      as (b' & ap' & _ & _ & _ & _ & _ & -> & Hb).
    + intros Ht. rewrite Hst. by apply Hgw.
    + intros ap0. rewrite Hap. by intros [= <-].
    + destruct b'; [destruct Hb as [_ Hb]; by destruct (Hb ap Hap)|].
      unfold set_auth_policies. rewrite insert_id by done. by destruct (state w1).
Qed.

(** A map that has more keys, and under the others has all that is desired. *)
Lemma covers_more b (d c e : list (string * value)) :
  Forall2 (λ kv kw, kv.1 = kw.1 ∧ covers b (normalize kv.2) (normalize kw.2)) d c →
  covers b (normalize (VMap d)) (normalize (VMap (c ++ e))).
Proof.
  rewrite !normalize_map, fmap_app. intros H. apply covers_map_iff. intros k.
  induction H as [|[k1 v] [k2 w] d c [E Hvw] _ IH]; [done|]. cbn in *. subst k2.
  by case_bool_decide.
Qed.
Lemma covers_fields b (d c : list (string * value)) :
  Forall2 (λ kv kw, kv.1 = kw.1 ∧ covers b (normalize kv.2) (normalize kw.2)) d c →
  covers b (normalize (VMap d)) (normalize (VMap c)).
Proof. intros H. rewrite <-(app_nil_r c). by apply covers_more. Qed.
Lemma covers_extend b (l e : list (string * value)) :
  covers b (normalize (VMap l)) (normalize (VMap (l ++ e))).
Proof.
  apply covers_more, Forall_Forall2_diag, Forall_true.
  intros kv. split; [done|apply covers_refl].
Qed.

(** The spec of a gateway without OIDC asks for nothing that the one with OIDC
    does not have. *)
Lemma oidc_extra o x id gw :
  specMatchesDesired (desired_spec r None x id gw) (Some (desired_spec r (Some o) x id gw))
  = true.
Proof.
  apply specMatches_covers; [apply desired_well_formed..|].
  unfold desired_spec, buildGatewayAuthPolicySpec.
  do 2 (apply covers_fields; constructor; [split; [done|apply covers_refl]|];
        constructor; [split; [done|]|constructor]).
  apply covers_fields. constructor; [split; [done|apply covers_refl]|].
  constructor; [split; [done|]|].
  { cbn [snd]. unfold authenticationRules. rewrite app_nil_r, !(assoc_L (++)).
    apply covers_extend. }
  constructor; [split; [done|]|].
  { cbn [snd]. unfold authorizationRules. rewrite app_nil_r. apply covers_extend. }
  constructor; [split; [done|apply covers_refl]|constructor].
Qed.

(** Taking the OIDC provider of a tenant away changes nothing at its gateway: a
    policy generated with a provider counts as up to date without one, so the
    gateway goes on accepting tokens of the issuer. *)
Theorem oidc_removal_ignored oidc x id gw w ap :
  reliable_server → gateway_exists r (state w) gw →
  auth_policies (state w) !! gateway_policy_key r gw = Some ap → managed_auth ap →
  map_get "spec" (a_Object ap) = Some (VMap (desired_spec r (Some oidc) x id gw)) →
  let after := reconcileGatewayAuthPolicy r None x id gw w in
  after.1 = Ok false ∧ state after.2 = state w.
Proof.
  intros Hrel Hgw Hap Hm Hspec. cbv zeta.
  destruct (reconcileGateway_run r None x id gw w Hrel Hgw)
    as (b & ap' & -> & Hap' & _ & _ & _ & -> & Hb).
  { intros ap0. rewrite Hap. intros [= <-]. split; [done|]. intros v.
    rewrite Hspec. intros [= <-]. apply desired_well_formed. }
  destruct b.
  - destruct Hb as [_ Hb]. destruct (Hb ap Hap). unfold up_to_date, get_map.
    rewrite Hspec. apply oidc_extra.
  - split; [done|]. unfold set_auth_policies. rewrite insert_id by done.
    by destruct (state w).
Qed.
End gateway.

Section controller.
Context {api : ApiMachinery} {srv : ApiServer} {lawful : LawfulApiServer}.
Context (r : AuthReconciler).

(** C33. Whatever calls fail, if policies are stored under their names, a reconcile
    changes no other MaaSAuthPolicy and nothing but the finalizers and the status
    of its own, which goes only if it was being deleted. Of the AuthPolicies it
    writes only the one of the gateway its namespace resolves to; elsewhere it
    only deletes policies that earlier versions generated, and it never touches
    one opted out of management. The default gateway's policy is written for a
    tenant with an empty identifier only, and on deletion moreover for the
    default tenant namespace only, if one is set. (A live policy of another
    namespace whose identifier is empty does write it, see below.) *)
Theorem auth_Reconcile_confined k w :
  well_keyed_auth (state w) →
  auth_step (own_policy r (state w) k) k (state w) (state (Reconcile r k w).2).
Proof. apply auth_Reconcile_step. Qed.

(** C31. Whatever calls fail, while a model of the namespace still has a policy under
    the name earlier versions gave it, a reconcile of a live MaaSAuthPolicy
    changes no AuthPolicy until a ready endpoint of the tenant's API of this
    version exists; and no policy but the gateway's own goes before that one is in
    force: accepted and enforced, as reported for its current generation, and
    still there. Namespaces hold no slash, and the gateway's policy is not
    labelled as one generated for a model. (A MaaSAuthPolicy being deleted waits
    for neither.) *)
Theorem cutover_waits w p ref :
  auth_crs (state w) !! auth_key p = Some p → ap_deleting p = false →
  let ns := ap_Namespace p in
  let c := state w in
  slash_free_refs c ns → namespace_ref c ns ref →
  is_Some (auth_policies c !! legacy_key ref) →
  (∀ gw g, tenant_gateway (settings r) c ns = Some gw →
     auth_policies c !! gateway_policy_key r gw = Some g → generated g = false) →
  let c' := state (Reconcile r (auth_key p) w).2 in
  auth_policies c' = auth_policies c
  ∨ ∃ gw id, tenant_gateway (settings r) c ns = Some gw ∧ tenant_id c ns = Some id
      ∧ target_ready r c id
      ∧ ∀ k, is_Some (auth_policies c !! k) → k ≠ gateway_policy_key r gw →
          auth_policies c' !! k = None →
          ∃ g, auth_policies c' !! gateway_policy_key r gw = Some g ∧ enforced_auth g.
Proof.
  intros Hp Hlive. cbv zeta. intros Hs Hr Hl Hgen.
  destruct (auth_Reconcile_live r w p Hp Hlive) as [[_ ->]|(w1 & p1 & Hst & ->)];
    [by left|].
  pose proof Hst as (Hstep & _ & Hpol & _).
  destruct (started_tenant r w p w1 p1 Hst) as (Htg & Hti & _ & Hes & HN & _).
  assert (∀ ref, namespace_ref (state w1) (ap_Namespace p) ref
    ↔ namespace_ref (state w) (ap_Namespace p) ref) as Href.
  { intros ref'. eapply namespace_ref_step, Hstep. intros p'. congruence. }
  destruct (reconcile_spec_cutover r p1 w1 ref) as [Heq|(gw & id & Hg & Hi & Ht & Hgo)].
  - rewrite HN. intros ref' ?%Href. by apply Hs.
  - rewrite HN. by apply Href.
  - by rewrite Hpol.
  - left. by rewrite Heq.
  - right. rewrite HN in Hg, Hi. rewrite Htg in Hg. rewrite Hti in Hi.
    exists gw, id. split_and!; [done..| |].
    + unfold target_ready in *. by rewrite Hes in Ht.
    + intros k Hks Hne Hnone. rewrite <-Hpol in Hks.
      destruct (Hgo k Hks Hne Hnone) as (g & Hg1 & [Hg2|(g0 & E0 & G0)]).
      * by exists g.
      * rewrite Hpol in E0. rewrite (Hgen gw g0 Hg E0) in G0. done.
Qed.

(** C29. Whatever calls fail, the phase of a live policy becomes Active only when the
    policy of its tenant's gateway is in force (accepted and enforced, as
    reported for its current generation) and all its models, at least one, exist.
    Excepted is a tenant with a name of its own on the default gateway, whose
    policies become Active unchecked. *)
Theorem active_means_enforced w p p' :
  auth_crs (state w) !! auth_key p = Some p → ap_deleting p = false →
  ap_Phase (ap_Status p) ≠ PhaseActive →
  let ns := ap_Namespace p in
  let c := state w in
  (∀ gw g, tenant_gateway (settings r) c ns = Some gw →
     auth_policies c !! gateway_policy_key r gw = Some g → generated g = false) →
  let c' := state (Reconcile r (auth_key p) w).2 in
  auth_crs c' !! auth_key p = Some p' → ap_Phase (ap_Status p') = PhaseActive →
  foreign_on_default r c ns
  ∨ ∃ gw g, tenant_gateway (settings r) c ns = Some gw
      ∧ auth_policies c' !! gateway_policy_key r gw = Some g ∧ enforced_auth g
      ∧ as_ModelRefs (ap_Spec p) ≠ []
      ∧ ∀ ref, ref ∈ as_ModelRefs (ap_Spec p) → is_Some (models c !! ref).
Proof.
  intros Hp Hlive Hph. cbv zeta. intros Hgen.
  assert (∀ c', no_new_active (state w) c' → auth_crs c' !! auth_key p = Some p' →
    ap_Phase (ap_Status p') = PhaseActive → False) as Hno.
  { intros c' Hn E HP. destruct (Hn _ _ E HP) as (p0 & E0 & HP0). congruence. }
  destruct (auth_Reconcile_live r w p Hp Hlive) as [[Hn _]|(w1 & p1 & Hst & ->)];
    [intros; exfalso; by eapply Hno|].
  pose proof Hst as (_ & Hna & Hpol & _ & HS).
  destruct (started_tenant r w p w1 p1 Hst) as (Htg & Hti & Hmod & _ & HN & HSp).
  destruct (reconcile_spec_active r p1 w1) as [Hn|[Hf|(gw & Hg & Hne & Hm & g & He & Hkept)]].
  - by rewrite HS.
  - intros. exfalso. eapply Hno; [etrans; [exact Hna|exact Hn]|done..].
  - intros _ _. left. destruct Hf as (gw & id & Hf). rewrite HN, Htg, Hti in Hf.
    by exists gw, id.
  - intros _ _. right. rewrite HN, Htg in Hg. rewrite HSp, Hmod in *.
    exists gw, g. split_and!; [done| |done..].
    destruct Hkept as [|(g0 & E0 & G0)]; [done|].
    rewrite Hpol in E0. rewrite (Hgen gw g0 Hg E0) in G0. done.
Qed.

(** Whatever calls fail, a policy being deleted leaves the cluster, or loses its
    finalizer, only when no managed policy that an earlier version generated for
    one of its models is left, nor one that names it as a contributor and sits in
    the namespace of a model it does not refer to any more. *)
Theorem auth_deletion_releases w p :
  auth_crs (state w) !! auth_key p = Some p → ap_deleting p = true →
  let c' := state (Reconcile r (auth_key p) w).2 in
  auth_crs c' !! auth_key p ≠ Some p → released_auth p c'.
Proof.
  intros Hp Hdel. cbv zeta. unfold Reconcile.
  step_reads (get_in_reads auth_crs (auth_key p)) as [p'|[| |msg]] E H; [|congruence|done|].
  2: { unfold mret, prog_ret. cbn. rewrite E. intros []. congruence. }
  assert (p' = p) as -> by congruence. rewrite Hdel, run_try.
  destruct (auth_deletion_run r p w0) as [_ Hout].
  destruct (handleDeletion r p w0) as [[[]|e] w1]; cbn [fst snd] in *;
    intros Hne; (destruct Hout as [Hsame|]; [|done]);
    exfalso; apply Hne; unfold mret, prog_ret; cbn; by rewrite Hsame, E.
Qed.

(** When the detection of conflicts succeeds, it reports exactly the AuthPolicies
    of others on the models' HTTPRoutes: each entry is one, each one on a chosen
    route of a model that has any is reported, once per policy and sorted by
    namespace and name. *)
Theorem conflicts_exact policy w l :
  (detectConflictingAuthPolicies policy w).1 = Ok l →
  let c := state w in
  state (detectConflictingAuthPolicies policy w).2 = c
  ∧ NoDup (conflict_key <$> l)
  ∧ sorted (λ a b, str_lt (conflict_key a) (conflict_key b)) l
  ∧ (∀ y, y ∈ l → ∃ ref rn, ref ∈ as_ModelRefs (ap_Spec policy) ∧ routable c ref rn
       ∧ conflict_on c ref rn y)
  ∧ ∀ ref, ref ∈ as_ModelRefs (ap_Spec policy) → (∃ rn, routable c ref rn) →
      ∃ rn, routable c ref rn ∧
        ∀ y, conflict_on c ref rn y → conflict_key y ∈ conflict_key <$> l.
Proof.
  intros Hl. cbv zeta. destruct (detect_reads policy w) as [-> H].
  destruct (H l Hl) as (l0 & [Hs Hc] & ->). split_and!; [done| | | |].
  - apply deduplicate_keys.
  - apply deduplicate_sorted.
  - intros y Hy%deduplicate_elem. apply uniq_lookup in Hy as [Hy _]. by apply Hs.
  - intros ref Href [rn0 Hrn0]. destruct (Hc ref Href) as [Hno|(rn & Hrn & Hall)].
    { by destruct (Hno rn0). }
    exists rn. split; [done|]. intros y Hy%Hall.
    destruct (uniq_covers _ _ Hy) as [z Hz]. destruct (uniq_lookup _ _ _ Hz) as [_ Ez].
    apply list_elem_of_fmap. exists z. split; [done|].
    apply deduplicate_elem. by rewrite Ez.
Qed.

(** ** Events *)

Definition quiet (m : prog cluster (result error outcome)) : Prop :=
  ∀ w o, (m w).1 = Ok o → events o = [].

Lemma quiet_ret x : match x with Ok o => events o = [] | Err _ => True end → quiet (mret x).
Proof. destruct x; by intros H w o' [= <-]. Qed.
Lemma quiet_bind {A} (m : prog cluster A) f : (∀ x, quiet (f x)) → quiet (m ≫= f).
Proof. intros H w o. rewrite bind_run. apply H. Qed.

(** Once the condition is there, nothing is emitted: what was found before the
    update is what is there after it. *)
Lemma report_quiet policy prev w :
  find_condition (ap_Conditions (ap_Status policy)) ConditionConflictingAuthPolicy = Some prev →
  (report_conflicts policy w).1.2 = [].
Proof.
  intros Hprev. unfold report_conflicts. rewrite bind_run. cbn [fst snd].
  destruct (detectConflictingAuthPolicies policy w) as [detected w1]. cbn [fst snd].
  cbv zeta. unfold mret, prog_ret. cbn [fst snd]. rewrite Hprev.
  assert (∀ cond l, c_Type cond = ConditionConflictingAuthPolicy →
    let curr := find_condition (set_condition (ap_Conditions (ap_Status policy)) cond)
                  ConditionConflictingAuthPolicy in
    conflict_events (seen_after (Some prev) curr) curr l = []) as H.
  { intros cond l E. cbv zeta. rewrite <-E, find_set_condition.
    unfold conflict_events, seen_after.
    rewrite (bool_decide_eq_true_2 (c_Status cond = c_Status cond)) by done.
    rewrite (bool_decide_eq_true_2 (c_Message cond = c_Message cond)) by done.
    cbn [negb orb]. rewrite andb_false_r.
    destruct (decide (c_Status cond = "False")) as [->|E1]; [done|].
    by rewrite (bool_decide_eq_false_2 _ E1). }
  destruct detected as [l|e]; apply H; [|done].
  unfold conflict_condition. by destruct (_ =? _).
Qed.

Lemma finish_quiet policy missing prev :
  find_condition (ap_Conditions (ap_Status policy)) ConditionConflictingAuthPolicy = Some prev →
  quiet (finish policy missing).
Proof.
  intros Hprev. unfold finish. cbv zeta. apply quiet_bind. intros [refs|e].
  2: { apply quiet_bind. intros ?. by apply quiet_ret. }
  apply quiet_bind. intros statuses w o. rewrite bind_run.
  pose proof (report_quiet (with_auth_policies policy statuses) prev w Hprev) as H.
  destruct (report_conflicts _ w) as [[p evs] w1]. cbn [fst snd] in *. subst evs.
  destruct (deriveAuthPolicyPhase p missing). rewrite bind_run.
  unfold mret, prog_ret. by intros [= <-].
Qed.

Ltac quiet_step :=
  first [ apply quiet_ret; done
        | apply quiet_bind; intros ?; apply quiet_ret; done
        | by eapply finish_quiet ].

Lemma reconcile_spec_quiet policy prev :
  find_condition (ap_Conditions (ap_Status policy)) ConditionConflictingAuthPolicy = Some prev →
  quiet (reconcile_spec r policy).
Proof.
  intros Hprev.
  assert (∀ missing oidc x id gw b,
    quiet (reconcile_gateway r policy missing oidc x id gw b)) as Hgw.
  { intros. unfold reconcile_gateway. apply quiet_bind. intros [changed|e]; [|quiet_step].
    case_match; [|quiet_step]. apply quiet_bind. intros [[[] msg]|e]; quiet_step. }
  unfold reconcile_spec, reconcile_cutover. cbv zeta.
  do 2 (apply quiet_bind; intros ?). apply quiet_bind. intros [id|e]; [|quiet_step].
  apply quiet_bind. intros ?. apply quiet_bind. intros [gw|e]; [|quiet_step].
  case_match; [quiet_step|]. apply quiet_bind. intros [[]|e]; [|apply Hgw|quiet_step].
  apply quiet_bind. intros [[]|e]; [apply Hgw|quiet_step..].
Qed.

(** Once a policy has the condition on conflicts, no reconcile of it emits an event
    any more, whatever appears or goes: neither the warning about a conflict nor
    the note that it has been resolved. *)
Theorem conflict_events_lost w p prev o :
  auth_crs (state w) !! auth_key p = Some p →
  find_condition (ap_Conditions (ap_Status p)) ConditionConflictingAuthPolicy = Some prev →
  (Reconcile r (auth_key p) w).1 = Ok o → events o = [].
Proof.
  intros Hp Hprev. unfold Reconcile.
  step_reads (get_in_reads auth_crs (auth_key p)) as [p'|[| |msg]] E H; [|congruence|done..].
  assert (p' = p) as -> by congruence. clear E H. destruct (ap_deleting p).
  { rewrite run_try. destruct (handleDeletion r p w0) as [[[]|e] w1]; cbn; [|done].
    by intros [= <-]. }
  rewrite run_try. destruct (tenantNamespaceAllowed _ _ w0) as [[b|e] w1]; cbn [fst snd];
    [|done].
  destruct (negb b); [by intros [= <-]|]. case_match.
  { revert w1. intros w1. apply quiet_bind. intros ?. by apply quiet_ret. }
  rewrite run_try. pose proof (ensure_auth_finalizer_same p w1) as Hsame.
  destruct (ensure_finalizer p w1) as [[p1|e] w2]; cbn [fst snd] in *; [|done].
  destruct (Hsame p1 eq_refl) as (HS & _). apply (reconcile_spec_quiet p1 prev).
  by rewrite HS.
Qed.
End controller.

(** ** Evaluated *)

Import DocApi AuthCluster.

Definition oidc : oidcConfig := mkOidc "https://issuer.example" "maas" 300.
Definition cr (p : MaaSAuthPolicy) (w : io cluster) : option MaaSAuthPolicy :=
  auth_crs (state w) !! auth_key p.
Definition ap_at (k : key) (w : io cluster) : option AuthPolicy := auth_policies (state w) !! k.

Lemma start_well_keyed_auth crs aps : well_keyed_auth (state (start crs aps)).
Proof. by intros k p [-> _]%crs_lookup. Qed.

Lemma spec_matches_iff_witness :
  covers false (normalize (VMap [("rules", VMap []); ("name", VString "gw")]))
    (normalize (VMap [("name", VString "gw"); ("strategy", VString "atomic")])).
Proof.
  apply (spec_matches_iff [("rules", VMap []); ("name", VString "gw")]
    [("name", VString "gw"); ("strategy", VString "atomic")]); by_compute.
Defined.

Lemma gateway_policy_converges_witness :
  let w := start [readers] {[gateway_key := gateway_policy 1 "True"]} in
  let w' := (@reconcileGatewayAuthPolicy doc_api DocCluster.reliable deployment
    (Some oidc) false "" default_gateway w).2 in
  ∃ ap, ap_at gateway_key w' = Some ap
    ∧ holds (desired_spec deployment (Some oidc) false "" default_gateway) ap ∧ a_generation ap = 2%Z.
Proof.
  cbv zeta.
  destruct (@gateway_policy_converges doc_api doc_accessors DocCluster.reliable
    DocCluster.reliable_lawful deployment (Some oidc) false "" default_gateway
    (start [readers] {[gateway_key := gateway_policy 1 "True"]}))
    as (b & ap & _ & _ & Hup & _ & Hst & _).
  - intros n. reflexivity.
  - intros H. vm_compute in H. discriminate.
  - intros ap [= <-]. split; [reflexivity|]. intros v [= <-]. by_compute.
  - assert (ap_at gateway_key (@reconcileGatewayAuthPolicy doc_api DocCluster.reliable
      deployment (Some oidc) false "" default_gateway
      (start [readers] {[gateway_key := gateway_policy 1 "True"]})).2 = Some ap) as Hap
      by (unfold ap_at; rewrite Hst; apply lookup_insert_eq).
    exists ap. split; [exact Hap|]. split; [exact Hup|].
    assert (a_generation <$> ap_at gateway_key (@reconcileGatewayAuthPolicy doc_api
      DocCluster.reliable deployment (Some oidc) false "" default_gateway
      (start [readers] {[gateway_key := gateway_policy 1 "True"]})).2 = Some 2%Z) as Hg
      by by_compute.
    rewrite Hap in Hg. by injection Hg.
Defined.

(** The default gateway, with a provider that is not configured any more. *)
Definition with_oidc : AuthPolicy :=
  mkAuthPolicy gateway_labels ∅ [] 1
    [("spec", VMap (desired_spec deployment (Some oidc) false "" default_gateway))].

Lemma oidc_removal_ignored_witness :
  ap_at gateway_key (@reconcileGatewayAuthPolicy doc_api DocCluster.reliable deployment
      None false "" default_gateway (start [readers] {[gateway_key := with_oidc]})).2
  = Some with_oidc.
Proof.
  destruct (@oidc_removal_ignored doc_api doc_accessors DocCluster.reliable
    DocCluster.reliable_lawful deployment oidc false "" default_gateway
    (start [readers] {[gateway_key := with_oidc]}) with_oidc) as [_ H].
  - intros n. reflexivity.
  - intros H. vm_compute in H. discriminate.
  - reflexivity.
  - reflexivity.
  - reflexivity.
  - unfold ap_at. rewrite H. reflexivity.
Defined.

Lemma auth_Reconcile_confined_witness :
  auth_step (own_policy deployment (state (start [readers] ∅)) (auth_key readers))
    (auth_key readers) (state (start [readers] ∅))
    (state (run (DocCluster.flaky 9) readers (start [readers] ∅)).2).
Proof.
  apply (@auth_Reconcile_confined doc_api (DocCluster.flaky 9) (DocCluster.flaky_lawful 9)
    deployment (auth_key readers) (start [readers] ∅)).
  apply start_well_keyed_auth.
Defined.

(** An upgrade: the model still has the policy of an earlier version. *)
Definition legacy_granite : key := ("llm", "maas-auth-granite").
Definition upgrading : io cluster :=
  IO 0 (cluster_with [readers]
    (list_to_map [(legacy_granite, legacy_policy granite (tenant +:+ "/readers"));
                  (gateway_key, gateway_policy 1 "True")])
    ∅ {[ ("infra", "maas-api-1") := ready_slice ]}).

Ltac not_generated :=
  let gw := fresh in let g := fresh in let Hgw := fresh in let Hg := fresh in
  intros gw g Hgw Hg; vm_compute in Hgw; injection Hgw as <-; vm_compute in Hg;
  first [discriminate Hg | injection Hg as <-; reflexivity].

Lemma cutover_waits_witness :
  ap_at legacy_granite (run DocCluster.reliable readers upgrading).2 = None
  ∧ ∃ g, ap_at gateway_key (run DocCluster.reliable readers upgrading).2 = Some g
      ∧ enforced_auth (api := doc_api) g.
Proof.
  split; [by_compute|].
  destruct (@cutover_waits doc_api DocCluster.reliable DocCluster.reliable_lawful deployment
    upgrading readers granite) as [H|(gw & id & Hgw & _ & _ & H)].
  - reflexivity.
  - reflexivity.
  - intros ref (k & p & [_ ->%list_elem_of_singleton]%crs_lookup & _ & _
      & ->%list_elem_of_singleton). reflexivity.
  - exists (auth_key readers), readers. repeat split. left.
  - exists (legacy_policy granite (tenant +:+ "/readers")). reflexivity.
  - not_generated.
  - exfalso. apply (f_equal (lookup legacy_granite)) in H. vm_compute in H. discriminate.
  - vm_compute in Hgw. injection Hgw as <-.
    destruct (H legacy_granite) as (g & Hg & He).
    + exists (legacy_policy granite (tenant +:+ "/readers")). reflexivity.
    + discriminate.
    + by_compute.
    + exists g. split; [exact Hg|exact He].
Defined.

Lemma active_means_enforced_witness :
  ∃ p' g, cr readers (run DocCluster.reliable readers upgrading).2 = Some p'
    ∧ ap_Phase (ap_Status p') = PhaseActive
    ∧ ap_at gateway_key (run DocCluster.reliable readers upgrading).2 = Some g
    ∧ enforced_auth (api := doc_api) g.
Proof.
  destruct (some_check (cr readers (run DocCluster.reliable readers upgrading).2)
    (λ p', ap_Phase (ap_Status p') = PhaseActive)) as (p' & Hp' & HP); [by_compute|].
  destruct (@active_means_enforced doc_api DocCluster.reliable DocCluster.reliable_lawful
    deployment upgrading readers p') as [(gw & id & _ & _ & Hid & Hne)|(gw & g & Hgw & Hg & He & _)].
  - reflexivity.
  - reflexivity.
  - discriminate.
  - not_generated.
  - exact Hp'.
  - exact HP.
  - exfalso. vm_compute in Hid. injection Hid as <-. apply Hne. reflexivity.
  - vm_compute in Hgw. injection Hgw as <-. exists p', g.
    split; [exact Hp'|]. split; [exact HP|]. split; [exact Hg|exact He].
Defined.

(** The last policy of the namespace goes, while its legacy policy is there. *)
Definition leaving : io cluster :=
  start [deleted readers] {[legacy_granite := legacy_policy granite (tenant +:+ "/readers")]}.

Lemma auth_deletion_releases_witness :
  cr readers (run DocCluster.reliable (deleted readers) leaving).2 = None
  ∧ released_auth (deleted readers)
      (state (run DocCluster.reliable (deleted readers) leaving).2).
Proof.
  split; [by_compute|].
  apply (@auth_deletion_releases doc_api DocCluster.reliable DocCluster.reliable_lawful
    deployment leaving (deleted readers)).
  - reflexivity.
  - reflexivity.
  - intros H. vm_compute in H. discriminate.
Defined.

Definition intruded : io cluster := start [readers] {[("llm", "intruder") := intruder]}.

Lemma conflicts_exact_witness :
  ∃ l, (@detectConflictingAuthPolicies doc_api DocCluster.reliable readers intruded).1 = Ok l
    ∧ "llm/intruder" ∈ conflict_key <$> l.
Proof.
  exists [mkConflict "intruder" "llm" "maas-granite" "granite" "llm"].
  assert ((@detectConflictingAuthPolicies doc_api DocCluster.reliable readers intruded).1
    = Ok [mkConflict "intruder" "llm" "maas-granite" "granite" "llm"]) as Hl by by_compute.
  split; [exact Hl|].
  destruct (@conflicts_exact doc_api DocCluster.reliable DocCluster.reliable_lawful readers
    intruded _ Hl) as (_ & _ & _ & _ & H).
  destruct (H granite) as (rn & (m & Hm & _ & Hr & _) & Hall).
  - left.
  - exists "maas-granite", (DocCluster.external_ref "granite" false).
    repeat split; vm_compute; eauto.
  - vm_compute in Hm. injection Hm as <-. destruct Hr as [_ Hr]. vm_compute in Hr.
    subst rn. apply (Hall (mkConflict "intruder" "llm" "maas-granite" "granite" "llm")).
    exists intruder. repeat split; by_compute.
Defined.

(** The policy once it has been reconciled without a conflict. *)
Definition checked : MaaSAuthPolicy :=
  auth_policy tenant "readers" PhaseActive
    [mkCondition ConditionConflictingAuthPolicy "False" "NoConflict" "none" 1] [granite].
Definition intruded_later : io cluster :=
  start [checked] (list_to_map [(("llm", "intruder"), intruder);
                                (gateway_key, gateway_policy 1 "True")]).

(** The conflict is new, and recorded, but no event is emitted. *)
Lemma conflict_events_lost_witness :
  ∃ o p', (run DocCluster.reliable checked intruded_later).1 = Ok o ∧ events o = []
    ∧ cr checked (run DocCluster.reliable checked intruded_later).2 = Some p'
    ∧ (c_Status <$> (@find_condition DocCluster.reliable) (ap_Conditions (ap_Status p'))
         ConditionConflictingAuthPolicy) = Some "True".
Proof.
  destruct (some_check (cr checked (run DocCluster.reliable checked intruded_later).2)
    (λ p', (c_Status <$> (@find_condition DocCluster.reliable) (ap_Conditions (ap_Status p'))
       ConditionConflictingAuthPolicy) = Some "True")) as (p' & Hp' & Hc); [by_compute|].
  exists finished, p'.
  assert ((run DocCluster.reliable checked intruded_later).1 = Ok finished) as Ho
    by by_compute.
  split; [exact Ho|]. split; [|split; [exact Hp'|exact Hc]].
  apply (@conflict_events_lost doc_api DocCluster.reliable DocCluster.reliable_lawful
    deployment intruded_later checked
    (mkCondition ConditionConflictingAuthPolicy "False" "NoConflict" "none" 1) finished).
  - reflexivity.
  - reflexivity.
  - exact Ho.
Defined.

(** ** What the modelling showed *)

Definition phase_of (p : MaaSAuthPolicy) (w : io cluster) : option string :=
  ap_Phase ∘ ap_Status <$> cr p w.

(** Once Active, a policy stays so although the gateway's policy is not enforced any
    more: the gateway's policy is looked at only after it has been written, during
    an upgrade, or before the phase is Active. *)
Theorem active_not_rechecked :
  let w := start [active] {[gateway_key := gateway_policy 1 "False"]} in
  phase_of active (run DocCluster.reliable active w).2 = Some PhaseActive
  ∧ (run DocCluster.reliable active w).1 = Ok finished
  ∧ ∃ ap, ap_at gateway_key (run DocCluster.reliable active w).2 = Some ap
      ∧ (@getAuthPolicyReadyState doc_api (a_Object ap)).1.1 = false.
Proof.
  cbv zeta. split; [by_compute|]. split; [by_compute|].
  apply (some_check (ap_at gateway_key _)
    (λ ap, (@getAuthPolicyReadyState doc_api (a_Object ap)).1.1 = false)). by_compute.
Qed.

(** A second tenant namespace with a legacy Tenant that names a provider but no
    gateway. *)
Definition writers : MaaSAuthPolicy := auth_policy "a" "writers" "" [] [granite].
Definition two_tenants : io cluster :=
  IO 0 (cluster_with [active; writers] {[gateway_key := gateway_policy 1 "True"]}
    {[ "a" := mkLegacy (mkTenant ∅ ∅) (mkGateway "" "")
                (Some (mkOIDC "https://issuer.example" "maas" 300)) ]} ∅).
Definition issuer_trusted (ap : AuthPolicy) : Prop :=
  up_to_date (desired_spec deployment (Some oidc) false "" default_gateway) ap.
#[local] Instance issuer_trusted_dec ap : Decision (issuer_trusted ap).
Proof. unfold issuer_trusted, up_to_date. apply _. Defined.

(** A legacy Tenant without a gateway in a second namespace makes a policy of that
    namespace rewrite the AuthPolicy of the default gateway, which then accepts
    the tokens of that tenant's provider; and reconciling the policies of the
    default tenant does not undo it. *)
Theorem second_tenant_overwrites_default :
  let after := (run DocCluster.reliable writers two_tenants).2 in
  let later := (run DocCluster.reliable active after).2 in
  (∃ ap, ap_at gateway_key two_tenants = Some ap ∧ ¬ issuer_trusted ap)
  ∧ (∃ ap, ap_at gateway_key after = Some ap ∧ issuer_trusted ap)
  ∧ ∃ ap, ap_at gateway_key later = Some ap ∧ issuer_trusted ap.
Proof.
  cbv zeta. split; [|split].
  - apply (some_check (ap_at gateway_key _) (λ ap, ¬ issuer_trusted ap)). by_compute.
  - apply (some_check (ap_at gateway_key _) issuer_trusted). by_compute.
  - apply (some_check (ap_at gateway_key _) issuer_trusted). by_compute.
Qed.
