(* ===== verification/ModelRefCorrectness.v ===== *)
(** The properties of the model controller: when a model is ready, where its
    endpoint is, its tenant, the name it shares with others, what a reconcile
    leaves alone, deletions and watches. *)
From S2P Require Import Prelude GoStrings Sorting Unstructured Runtime.
From S2P Require Import GoFmt MaasTypes Cluster ControllerHelpers ModelProviders.
From S2P Require Import ControllerFacts ModelProviderFacts.
From S2P Require Import AuthPolicyController ModelRefController ModelRefFacts.
From S2P Require Import SubscriptionExamples AuthPolicyExamples.
Import V1 Cluster Helpers Fmt Providers ModelController.

(** ** Concrete clusters *)

Module ModelCluster.
Import DocApi.

#[export] Instance ascii_only : Unicode := {| IsPrint _ := false |}.

Definition deployment : ModelReconciler :=
  mkModelReconciler DocCluster.settings "ai-tenants" true.
Definition granite : key := ("llm", "granite").

(** The route KServe keeps for the service, on the default Gateway. *)
Definition router_labels : gmap string string :=
  list_to_map [("app.kubernetes.io/name", "granite");
               ("app.kubernetes.io/component", "llminferenceservice-router");
               ("app.kubernetes.io/part-of", "llminferenceservice")].
Definition router (parents : list ParentRef) (hostnames : list string) : HTTPRoute :=
  mkRoute router_labels parents hostnames [].
Definition llm_route : HTTPRoute := router [DocCluster.gateway] ["Models.example.com"].

Definition url (host path : string) : URL :=
  mkURL host path ("https://" +:+ host +:+ path).
Definition address (name : string) (u : URL) (models : list string) : Addressable :=
  mkAddress (Some name) (Some u) models.
Definition service (ready : string) : LLMInferenceService :=
  mkLLMISvc 1 [("PresetsCombined", "True"); ("Ready", ready)]
    [address addressNameGatewayExternal (url "models.example.com:443" "/llm/granite") [];
     address addressNameGatewayExternalModelRouting (url "other.example.com" "/") [];
     address addressNameGatewayExternalModelRouting (url "models.example.com" "/")
       ["publishers/llm/models/granite"]]
    None.

Definition default_tenant : AITenant := mkAITenant (mkGateway "maas-gateway" "ingress") None.
Definition subscribed_model : MaaSSubscription := DocCluster.alpha.
Definition admitting : MaaSAuthPolicy := AuthCluster.active.

Definition model_ref (kind : string) (deleting : bool) (st : MaaSModelStatus) : MaaSModelRef :=
  mkModel 3 deleting [maasModelFinalizer] (mkModelSpec kind "granite" "" "") st.
Definition llm : MaaSModelRef := model_ref "LLMInferenceService" false zero_model_status.
Definition external : MaaSModelRef := model_ref "ExternalModel" false zero_model_status.
Definition named (alias : string) (conditions : list Condition) : MaaSModelStatus :=
  mkModelStatus "Pending" "" "" "" "" "" [] "" alias conditions.

Definition cluster_with (ms : list (key * MaaSModelRef)) (rts : list (key * HTTPRoute))
    (tenants : list (key * AITenant)) (subs : list MaaSSubscription)
    (crs : list MaaSAuthPolicy) (svcs : list (key * LLMInferenceService))
    (legacy : list (key * string)) (aps : list (key * AuthPolicy)) : cluster :=
  let base := DocCluster.cluster_of subs ∅ in
  mkCluster (subscriptions base) (list_to_map ms) (list_to_map rts) ∅
    (policies base) (namespaces base) ∅ ∅ (list_to_map tenants)
    (list_to_map ((λ p, (auth_key p, p)) <$> crs)) (list_to_map aps) ∅ ∅
    (list_to_map svcs) (list_to_map legacy).

(** A model of an LLMInferenceService, ready and governed. *)
Definition served_cluster (m : MaaSModelRef) : io cluster :=
  IO 0 (cluster_with [(granite, m)] [(("llm", "granite-route"), llm_route)]
    [(("ai-tenants", "red"), default_tenant)] [subscribed_model] [admitting]
    [(granite, service "True")] [] []).

Definition run (srv : ApiServer) (w : io cluster)
    : result error (list AuthController.event) * io cluster :=
  @Reconcile doc_api srv ascii_only deployment granite w.
Definition model_in (w : io cluster) : option MaaSModelRef := models (state w) !! granite.

Example served_ready :
  (λ m, (ms_Phase (m_Status m), ms_Endpoint (m_Status m), ms_ResolvedTenantRef (m_Status m),
         ms_ResolvedModelAlias (m_Status m)))
    <$> model_in (run DocCluster.reliable (served_cluster llm)).2
  = Some ("Ready", "https://models.example.com/", "red", "publishers/llm/models/granite").
Proof. by_compute. Qed.
End ModelCluster.

(** ** Readiness *)

Section readiness.
Context {api : ApiMachinery} {srv : ApiServer} {lawful : LawfulApiServer} {uni : Unicode}.
Context (r : ModelReconciler).

(** The model is served: its route is on the Gateway of its tenant, which is the
    tenant in the status; the service is ready, or the Gateway has accepted the
    route of the external model, now or before; and there is an endpoint. *)
Definition served (c : cluster) (k : key) (model : MaaSModelRef) (st : MaaSModelStatus)
    : Prop :=
  ∃ rn route ref,
    serves c k model rn route
    ∧ tenant_of r c k.1 (m_TenantRef (m_Spec model)) route (ms_ResolvedTenantRef st) ref
    ∧ ref ∈ parent_gateways k.1 (rt_parents route)
    ∧ (if is_llmisvc (m_Kind (m_Spec model)) then
         ∃ svc, llmisvcs c !! (k.1, m_Name (m_Spec model)) = Some svc
                ∧ LLMISvc.is_ready svc = true
       else External.gatewayAccepted k.1 ref route = true
            ∨ ms_HTTPRouteGatewayName (m_Status model) ≠ "")
    ∧ ms_Endpoint st ≠ "".

Lemma derive_ready g ready : (deriveModelPhase g ready).1 = "Ready" → g = true ∧ ready = true.
Proof. by destruct g, ready. Qed.

Lemma endpoint_nonempty (override endpoint : string) :
  endpoint ≠ "" → (if override != "" then override else endpoint) ≠ "".
Proof. by case_bool_decide. Qed.

Lemma intended_ready c k model st :
  intended r c k model st → ms_Phase st = "Ready" → governed r c k ∧ served c k model st.
Proof.
  intros Hst HP. destruct Hst as [|?????|????|????|st0 ep ready alias g cf Hat Hrun Ha Hg _];
    rewrite ?finished_Phase, ?final_Phase in HP; try done.
  apply derive_ready in HP as [-> ->]. split; [by apply Hg|].
  unfold runtime_answer in Hrun. destruct Hrun as [Hready [Hne _]].
  pose proof (proj1 Hready eq_refl) as Hb. unfold backend_ready in Hb. unfold served.
  rewrite final_tenant, final_Endpoint. cbn [andb].
  destruct Hat as [rn route t ref Hs Ht Hp Hacc|rn route t ref Hk Hs Ht Hp Hacc|Hk _];
    cbn in Hb, Hne |- *.
  - exists rn, route, ref. split_and!; [done..| |by apply endpoint_nonempty].
    destruct (is_llmisvc _); [done|]. left. by apply Hacc.
  - rewrite Hk in Hb. exists rn, route, ref. rewrite Hk.
    split_and!; [done..|right; apply Hb|by apply endpoint_nonempty].
  - rewrite Hk in Hb. by destruct Hb.
Qed.

(** The model of a reconcile and the model it leaves. *)
Lemma with_finalizer_same m :
  m_Spec (with_finalizer m) = m_Spec m ∧ m_Status (with_finalizer m) = m_Status m
  ∧ m_Generation (with_finalizer m) = m_Generation m
  ∧ m_deleting (with_finalizer m) = m_deleting m.
Proof. unfold with_finalizer. by destruct (contains _ _). Qed.

Lemma removed_models k c c1 c2 :
  removes_auths k c c1 → removes_trlps k c1 c2 → models c2 = models c.
Proof. intros [-> _] [-> _]. done. Qed.

(** The status a reconcile leaves is the old one, or an intended one. *)
Lemma Reconcile_status k w m' :
  models (state (Reconcile r k w).2) !! k = Some m' →
  ∃ m, models (state w) !! k = Some m ∧ m_Spec m' = m_Spec m
    ∧ m_Generation m' = m_Generation m
    ∧ (m_Status m' = m_Status m
       ∨ (m_deleting m = false ∧ m_Spec m ≠ zero_model_spec
          ∧ intended r (model_at k (with_finalizer m) (state w)) k (with_finalizer m)
              (m_Status m'))
       ∨ (m_Spec m = zero_model_spec
          ∧ m_Status m' = finished m "Invalid" "spec is required" "")).
Proof.
  intros Hm'. destruct (Reconcile_cases r k w) as [E|(m & Hm & H)]; cbv zeta in *.
  { rewrite E in Hm'. exists m'. by auto. }
  exists m. split; [done|].
  destruct H as [(Hd & c1 & c2 & H1 & H2 & H3)|[(Hs & H)|(Hd & Hs & H)]].
  - pose proof (removed_models _ _ _ _ H1 H2) as Hc2.
    assert (m_Spec m' = m_Spec m ∧ m_Generation m' = m_Generation m
      ∧ m_Status m' = m_Status m) as (? & ? & ?); [|by auto].
    destruct H3 as [E|[E _]]; rewrite E in Hm'.
    + rewrite Hc2, Hm in Hm'. by injection Hm' as <-.
    + unfold drop_finalizer in Hm'. cbn in Hm'.
      destruct (_ =? 0); [by rewrite lookup_delete_eq in Hm'|].
      rewrite lookup_insert_eq in Hm'. by injection Hm' as <-.
  - rewrite H in Hm'. cbn in Hm'. rewrite lookup_insert_eq in Hm'. injection Hm' as <-.
    split_and!; [done..|]. right. by right.
  - destruct (with_finalizer_same m) as (F1 & F2 & F3 & _).
    destruct H as [H|(st & Hst & H)]; rewrite H in Hm'; cbn in Hm';
      rewrite lookup_insert_eq in Hm'; injection Hm' as <-; cbn; rewrite ?F1, ?F2, ?F3.
    + split_and!; [done..|by left].
    + split_and!; [done..|]. right. by left.
Qed.

(** What serves a model does not depend on what the controller writes. *)
Lemma serves_at k m c k' model rn route :
  serves (model_at k m c) k' model rn route ↔ serves c k' model rn route.
Proof. done. Qed.
Lemma served_finalizer k m c st :
  served (model_at k (with_finalizer m) c) k (with_finalizer m) st → served c k m st.
Proof.
  destruct (with_finalizer_same m) as (F1 & F2 & _). unfold served, serves.
  unfold llmisvc_test, external_name. rewrite F1, F2. done.
Qed.

(** C12. A model is Ready only if it may be called: whatever calls fail, unless the
    reconcile has left its status as it was, a subscription and a policy of tenant
    namespaces, neither being deleted, name the model, its route is on the Gateway
    of its one tenant, its backend is ready, and there is an endpoint. *)
Theorem ready_means_served k w m' :
  models (state (Reconcile r k w).2) !! k = Some m' →
  ms_Phase (m_Status m') = "Ready" →
  (∃ m, models (state w) !! k = Some m ∧ m_Status m = m_Status m')
  ∨ (governed r (state w) k ∧ ∃ m, models (state w) !! k = Some m
       ∧ served (state w) k m (m_Status m')).
Proof.
  intros (m & Hm & _ & _ & [E|[(_ & _ & Hst)|(_ & E)]])%Reconcile_status HP.
  - left. eauto.
  - right. destruct (intended_ready _ _ _ _ Hst HP) as [Hg Hs]. split; [exact Hg|].
    exists m. split; [done|]. by apply served_finalizer.
  - by rewrite E, finished_Phase in HP.
Qed.

(** A model of a registered kind, whose backend is there and ready, and whose
    routes are as they should be. *)
Definition ready_to_serve (c : cluster) (k : key) (m : MaaSModelRef) : Prop :=
  (if is_llmisvc (m_Kind (m_Spec m)) then
     ∃ svc, llmisvcs c !! (k.1, m_Name (m_Spec m)) = Some svc ∧ LLMISvc.is_ready svc = true
   else m_Kind (m_Spec m) = "ExternalModel"
        ∧ (is_Some (external_models c !! (k.1, m_Name (m_Spec m)))
           ∨ is_Some (legacy_external_models c !! (k.1, m_Name (m_Spec m)))))
  ∧ (∃ rn route, serves c k m rn route)
  ∧ ∀ rn route, serves c k m rn route →
      rt_Hostnames route ≠ []
      ∧ ∃ t ref, tenant_of r c k.1 (m_TenantRef (m_Spec m)) route t ref
          ∧ ref ∈ parent_gateways k.1 (rt_parents route)
          ∧ (is_llmisvc (m_Kind (m_Spec m)) = false →
             External.gatewayAccepted k.1 ref route = true).

Lemma external_name_nonempty c ns m rn : external_name c ns m rn → rn ≠ "".
Proof.
  unfold external_name. destruct (external_models c !! _); [by intros []|]. intros ->.
  unfold Naming.ExternalModelResourceName. by destruct (_ <=? _).
Qed.

Lemma tenant_of_complete c ns tr route t ref : tenant_of r c ns tr route t ref → complete ref.
Proof.
  unfold tenant_of. destruct (tr != ""); [intros [_ (a & _ & _ & ?)]|
    intros [[_ (a & _ & _ & ?)] _]]; done.
Qed.

Lemma no_parents_off_gateway ns route ref :
  rt_parents route = [] → ref ∉ parent_gateways ns (rt_parents route).
Proof. intros ->. apply not_elem_of_nil. Qed.

(** The status the reconcile means to write says so. *)
Lemma intended_when_ready c k m st :
  ¬ unreliable → governed r c k → ready_to_serve c k m → intended r c k m st →
  ms_Phase st = "Ready".
Proof.
  intros Hrel Hgov (Hk & (rn & route & Hs) & Hall) Hst.
  destruct Hst as [Hn|st e message (_ & _ & Hnf & Htp & _) He
    |st e (_ & _ & _ & _ & Hwhy) _|st e Hat [_ Hwhy]
    |st ep ready alias g cf Hat [Hready _] _ Hg _].
  - exfalso. unfold GetBackendHandler in Hn.
    fold (is_llmisvc (m_Kind (m_Spec m))) in Hn.
    destruct (is_llmisvc (m_Kind (m_Spec m))); [done|]. destruct Hk as [E _]. by rewrite E in Hn.
  - exfalso. apply orb_true_iff in He as [He|He].
    + destruct (Hnf He) as [_ Hno]. by apply (Hno rn route).
    + destruct (Htp He) as (rn' & route' & Hs' & Hnil & _).
      destruct (Hall _ _ Hs') as (_ & t & ref & _ & Hin & _).
      by apply no_parents_off_gateway in Hin.
  - exfalso. destruct Hwhy as [|[Hno|[(rn' & route' & Hs' & Hno)|(Hx & He & Hl)]]]; [done|..].
    + by apply (Hno rn route).
    + destruct (Hall _ _ Hs') as (_ & t & ref & Ht & Hin & _). by apply (Hno t ref).
    + rewrite Hx in Hk. destruct Hk as [_ [[? ?]|[? ?]]]; congruence.
  - exfalso. destruct Hwhy as [|[[Hx Hno]|Hno]]; [done|..].
    + cbn in Hx, Hno. rewrite Hx in Hk. destruct Hk as (svc & ? & _). congruence.
    + cbn in Hno. destruct Hat as [rn' route' t ref Hs' _ _ _|rn' route' t ref Hx Hs' Ht _ Hacc|Hx Hno'];
        cbn in Hno; [by destruct (Hall _ _ Hs') as [? _]| |by apply (Hno' rn route)].
      destruct (Hall _ _ Hs') as (_ & t' & ref' & Ht' & _ & Hacc').
      destruct (tenant_of_unique r _ _ _ _ _ _ _ _ Ht Ht') as [_ ->].
      rewrite (Hacc' Hx) in Hacc. done.
  - rewrite final_Phase. assert (g = true) as -> by (by apply Hg).
    assert (backend_ready c k (set_model_Status m st)) as Hb.
    { unfold backend_ready. cbn. destruct (is_llmisvc _) eqn:Hx; [done|].
      destruct Hat as [rn' route' t ref Hs' Ht' _ _|rn' route' t ref _ Hs' Ht _ Hacc|_ Hno'];
        cbn; [| |by destruct (Hno' rn route)].
      - split; [|by apply (tenant_of_complete _ _ _ _ _ _ Ht')].
        destruct Hs' as [_ Hs']. rewrite Hx in Hs'. by eapply external_name_nonempty.
      - exfalso. destruct (Hall _ _ Hs') as (_ & t' & ref' & Ht' & _ & Hacc').
        destruct (tenant_of_unique r _ _ _ _ _ _ _ _ Ht Ht') as [_ ->].
        rewrite (Hacc' eq_refl) in Hacc. done. }
    apply Hready in Hb as ->. done.
Qed.

(** C30. When no call fails, one reconcile makes a governed model Ready as soon as its
    backend is ready, its routes name hosts, and they are on the Gateway of its
    tenant, which has accepted those of external models. *)
Theorem governed_model_becomes_ready k w m :
  ¬ unreliable →
  models (state w) !! k = Some m → m_deleting m = false →
  governed r (state w) k → ready_to_serve (state w) k m →
  ∃ m', models (state (Reconcile r k w).2) !! k = Some m'
    ∧ ms_Phase (m_Status m') = "Ready" ∧ ms_Endpoint (m_Status m') ≠ "".
Proof.
  intros Hrel Hm Hd Hgov Hready.
  assert (m_Spec m ≠ zero_model_spec) as Hs.
  { intros E. destruct Hready as [Hk _]. rewrite E in Hk. by destruct Hk. }
  destruct (model_Reconcile_live r k m w Hm Hd Hs) as [_ Hsettled]. cbv zeta in Hsettled.
  destruct (Hsettled Hrel) as (st & Hst & ->).
  exists (set_model_Status (with_finalizer m) st).
  split; [apply lookup_insert_eq|].
  assert (ms_Phase st = "Ready") as HP.
  { refine (intended_when_ready (model_at k (with_finalizer m) (state w)) _ _ _
      Hrel Hgov _ Hst).
    destruct (with_finalizer_same m) as (F1 & _). revert Hready.
    unfold ready_to_serve, serves, llmisvc_test, external_name. rewrite F1. done. }
  split; [done|]. destruct (intended_ready _ _ _ _ Hst HP) as [_ (? & ? & ? & H)]. apply H.
Qed.
End readiness.

(** ** What holds of every status *)

Section invariants.
Context {api : ApiMachinery} {srv : ApiServer} {lawful : LawfulApiServer} {uni : Unicode}.
Context (r : ModelReconciler).

Lemma routing_alias c k m st e :
  route_answer_of r c k m (st, e) →
  ms_ResolvedModelAlias st = ms_ResolvedModelAlias (m_Status m)
  ∧ ms_Conditions st = ms_Conditions (m_Status m)
  ∧ (ms_Endpoint st = ms_Endpoint (m_Status m) ∨ ms_Endpoint st = "").
Proof. by intros [(_ & ? & ? & ?) _]. Qed.

Lemma attached_same c k m st :
  attached r c k m st →
  ms_ResolvedModelAlias st = ms_ResolvedModelAlias (m_Status m)
  ∧ ms_Conditions st = ms_Conditions (m_Status m).
Proof. by intros (_ & ? & ? & _)%attached_routing. Qed.

Lemma intended_alias c k m st :
  intended r c k m st → ms_ResolvedModelAlias (m_Status m) ≠ "" → ms_ResolvedModelAlias st ≠ "".
Proof.
  intros [|st' e message H _|st' e H _|st' e H _|st' ep ready alias g cf H _ _ _ _] Hne;
    rewrite ?finished_alias, ?final_alias; try done; cbn.
  - by rewrite (proj1 (routing_alias _ _ _ _ _ H)).
  - by rewrite (proj1 (routing_alias _ _ _ _ _ H)).
  - by rewrite (proj1 (attached_same _ _ _ _ H)).
  - apply next_alias_kept. cbn. by rewrite (proj1 (attached_same _ _ _ _ H)).
Qed.

(** The name of a model in requests, once known, is never cleared, whatever
    calls fail. *)
Theorem alias_never_cleared k w m m' :
  models (state w) !! k = Some m → ms_ResolvedModelAlias (m_Status m) ≠ "" →
  models (state (Reconcile r k w).2) !! k = Some m' →
  ms_ResolvedModelAlias (m_Status m') ≠ "".
Proof.
  intros Hm Hne (m0 & Hm0 & _ & _ & [E|[(_ & _ & Hst)|(_ & E)]])%Reconcile_status;
    assert (m0 = m) as -> by congruence.
  - by rewrite E.
  - eapply intended_alias; [exact Hst|]. by destruct (with_finalizer_same m) as (_ & -> & _).
  - by rewrite E, finished_alias.
Qed.

(** *** Types *)

(** The values that the schema of the resource admits. *)
Definition phases : list string := [""; "Pending"; "Ready"; "Unhealthy"; "Failed"; "Invalid"].
Definition condition_statuses : list string := ["True"; "False"; "Unknown"].
Definition typed_condition (c : Condition) : Prop :=
  c_Status c ∈ condition_statuses ∧ c_Reason c ≠ "" ∧ c_Type c ≠ "".
Definition typed_status (st : MaaSModelStatus) : Prop :=
  ms_Phase st ∈ phases
  ∧ ∀ t c, find_condition (ms_Conditions st) t = Some c → typed_condition c.

Definition typed_conditions (cs : list Condition) : Prop :=
  ∀ t c, find_condition cs t = Some c → typed_condition c.

Lemma typed_set_condition cs c :
  typed_conditions cs → typed_condition c → typed_conditions (set_condition cs c).
Proof.
  intros Hcs Hc t c'. destruct (decide (t = c_Type c)) as [->|Hne].
  - rewrite find_set_condition. by intros [= <-].
  - rewrite find_set_condition_ne by done. apply Hcs.
Qed.

Lemma ready_state_typed phase reason :
  (ready_state phase reason).1 ∈ condition_statuses ∧ (ready_state phase reason).2 ≠ "".
Proof.
  unfold ready_state. repeat case_bool_decide; cbn; split; try done;
    try (by repeat (left || right)); set_solver.
Qed.

Lemma finished_typed m phase message reason :
  typed_conditions (ms_Conditions (m_Status m)) → phase ∈ phases →
  typed_status (finished m phase message reason).
Proof.
  intros Hcs Hp. split; [by rewrite finished_Phase|]. rewrite finished_Conditions.
  apply typed_set_condition; [done|]. destruct (ready_state_typed phase reason). by split_and!.
Qed.

Lemma observed_typed k m endpoint ready alias g cf :
  typed_conditions (ms_Conditions (m_Status m)) →
  typed_conditions (ms_Conditions (m_Status (observed k m endpoint ready alias g cf))).
Proof.
  intros H. unfold observed, identity_update. cbn.
  match goal with |- context [alias_update ?m0 alias] =>
    destruct (alias_update_same m0 alias) as (_ & _ & -> & _) end.
  apply typed_set_condition; [apply typed_set_condition; [apply typed_set_condition; [done|]|]|].
  - destruct g; [|destruct (find_condition _ _) as [c|]; [destruct (_ == _)|]];
      (split; [set_solver|done]).
  - destruct ready; (split; [set_solver|done]).
  - case_match; [split; [set_solver|done]|]. destruct cf as [l|e]; [|split; [set_solver|done]].
    unfold identity_condition. destruct (_ =? 0); (split; [set_solver|done]).
Qed.

Lemma intended_typed c k m st :
  intended r c k m st → typed_status (m_Status m) → typed_status st.
Proof.
  assert (∀ p, p ∈ ["Pending"; "Ready"; "Unhealthy"; "Failed"] → p ∈ phases) as Hin
    by (unfold phases; set_solver).
  intros [|st' e message H _|st' e H _|st' e H _|st' ep ready alias g cf H _ _ _ _] [_ Hm].
  - apply finished_typed; [done|]. apply Hin. set_solver.
  - apply finished_typed; [|apply Hin; set_solver]. cbn.
    by destruct (routing_alias _ _ _ _ _ H) as (_ & -> & _).
  - apply finished_typed; [|apply Hin; set_solver]. cbn.
    by destruct (routing_alias _ _ _ _ _ H) as (_ & -> & _).
  - apply finished_typed; [|apply Hin; set_solver]. cbn.
    by destruct (attached_same _ _ _ _ H) as (_ & ->).
  - assert (typed_conditions (ms_Conditions (m_Status
      (observed k (set_model_Status m st') ep ready alias g cf)))) as Ho.
    { apply observed_typed. cbn. by destruct (attached_same _ _ _ _ H) as (_ & ->). }
    unfold final_status. destruct (deriveModelPhase g ready) as [phase message] eqn:Ep.
    apply finished_typed; [by destruct (phase != "Ready")|].
    apply Hin. destruct g, ready; injection Ep as <- <-; set_solver.
Qed.

(** C34. The statuses of models stay within the schema of the resource: a phase of the
    enumeration, and conditions with a type, a reason and one of the three
    statuses. *)
Theorem model_status_typed k w m m' :
  models (state w) !! k = Some m → typed_status (m_Status m) →
  models (state (Reconcile r k w).2) !! k = Some m' →
  typed_status (m_Status m').
Proof.
  intros Hm Ht (m0 & Hm0 & _ & _ & [E|[(_ & _ & Hst)|(_ & E)]])%Reconcile_status;
    assert (m0 = m) as -> by congruence.
  - by rewrite E.
  - eapply intended_typed; [exact Hst|]. by destruct (with_finalizer_same m) as (_ & -> & _).
  - rewrite E. apply finished_typed; [by destruct Ht|]. unfold phases. set_solver.
Qed.

(** ** Endpoints *)

(** The endpoint of a Ready model of an LLMInferenceService, when its route names
    hosts and the endpoint is not overridden, is on one of those hosts: it is an
    address of the service there, or made of one of the hosts. *)
Theorem endpoint_on_route_host k w m m' :
  models (state w) !! k = Some m → is_llmisvc (m_Kind (m_Spec m)) = true →
  m_EndpointOverride (m_Spec m) = "" →
  models (state (Reconcile r k w).2) !! k = Some m' →
  ms_Phase (m_Status m') = "Ready" → m_Status m' ≠ m_Status m →
  ∃ rn route, serves (state w) k m rn route
    ∧ (rt_Hostnames route = []
       ∨ (∃ svc, llmisvcs (state w) !! (k.1, m_Name (m_Spec m)) = Some svc
            ∧ on_host svc (rt_Hostnames route) (ms_Endpoint (m_Status m')))
       ∨ (∃ host, host ∈ rt_Hostnames route
            ∧ ms_Endpoint (m_Status m') = "https://" +:+ host +:+ "/" +:+ k.2)).
Proof.
  intros Hm Hk Ho (m0 & Hm0 & _ & _ & [E|[(_ & _ & Hst)|(_ & E)]])%Reconcile_status HP Hne;
    assert (m0 = m) as -> by congruence; [done| |by rewrite E, finished_Phase in HP].
  destruct (with_finalizer_same m) as (F1 & _).
  destruct Hst as [|?????|????|????|st0 ep ready alias g cf Hat Hrun Ha Hg _];
    rewrite ?finished_Phase, ?final_Phase in HP; try done.
  apply derive_ready in HP as [-> ->]. rewrite final_Endpoint. cbn [andb].
  change (m_Spec (set_model_Status (with_finalizer m) st0)) with (m_Spec (with_finalizer m)).
  rewrite F1, Ho. rewrite (bool_decide_eq_true_2 ("" = "")) by done.
  cbn [negb]. destruct Hrun as [_ [_ Hep]].
  destruct Hat as [rn route t ref Hs Ht Hp Hacc|rn route t ref Hx|Hx];
    [|rewrite F1 in Hx; congruence..].
  exists rn, route. split.
  { revert Hs. unfold serves, llmisvc_test, external_name. rewrite F1. done. }
  unfold endpoint_of in Hep. cbn in Hep. rewrite F1, Hk in Hep.
  destruct Hep as [(_ & svc & Hsvc & -> & Hne')|[(host & Hh & ->)|(Hh & _)]].
  - destruct (decide (rt_Hostnames route = [])) as [|Hhs]; [by left|]. right. left.
    exists svc. split; [done|].
    by destruct (getEndpoint_on_host svc _ Hhs) as [|].
  - right. right. exists host. split; [|done].
    destruct (rt_Hostnames route) as [|h hs]; [done|]. cbn in Hh. injection Hh as ->. left.
  - by left.
Qed.
End invariants.

(** ** Tenants and identities *)

Section identity.
Context {api : ApiMachinery} {srv : ApiServer} {lawful : LawfulApiServer} {uni : Unicode}.
Context (r : ModelReconciler).

(** The tenant of a model that names none is the one tenant that has one of the
    Gateways of the model's route, and that Gateway is the model's; when there are
    none or several, the tenant is cleared. *)
Theorem tenant_resolution_exact st rk route w :
  ¬ unreliable →
  let one t ref := route_match r (state w) rk.1 route t ref
    ∧ ∀ t' ref', route_match r (state w) rk.1 route t' ref' → t' = t in
  let x := (resolveGatewayRefFromHTTPRoute r st rk route w).1 in
  (∀ t ref, x = (set_tenant t st, Ok ref) ↔ one t ref)
  ∧ ((∃ e, x = (set_tenant "" st, Err e)) ↔ ∀ t ref, ¬ one t ref).
Proof.
  intros Hrel. cbv zeta. pose proof (resolve_from_route_reads r st rk route w) as [_ H].
  destruct (resolveGatewayRefFromHTTPRoute r st rk route w) as [[st' [ref|e]] w']; cbn in *;
    unfold tenant_answer, tenant_of in H; cbn in H.
  - destruct H as (t & -> & Ht). split.
    + intros t' ref'. split; [|].
      * intros E. injection E as Et ->. by rewrite <-Et.
      * intros Ht'. destruct (tenant_of_unique r _ _ "" _ _ _ _ _ Ht Ht') as [-> ->]. done.
    + split; [by intros [e [=]]|]. intros Hno. by destruct (Hno t ref).
  - destruct H as (_ & _ & _ & [[-> Hno]|[_ Hu]]); [|done]. split.
    + intros t ref. split; [done|]. intros Ht. by destruct (Hno t ref).
    + split; [done|]. by exists e.
Qed.

Definition conflict_reason : string := "ModelNameConflict".
Definition resolved_reason : string := "ModelNameConflictResolved".
Definition emits (evs : list AuthController.event) (reason : string) : Prop :=
  ∃ e, e ∈ evs ∧ AuthController.ev_reason e = reason.
Definition identity_of (model : MaaSModelRef) : option Condition :=
  find_condition (ms_Conditions (m_Status model)) ConditionModelIdentityUnique.
Definition has_status (status : string) (o : option Condition) : Prop :=
  ∃ c, o = Some c ∧ c_Status c = status.
(** Another model of the namespace has the name. *)
Definition name_shared (c : cluster) (k : key) (alias : string) : Prop :=
  ∃ n m, n ≠ k.2 ∧ models c !! (k.1, n) = Some m ∧ ms_ResolvedModelAlias (m_Status m) = alias.

Lemma identity_of_with c m : c_Type c = ConditionModelIdentityUnique →
  identity_of (with_condition c m) = Some c.
Proof.
  intros E. unfold identity_of, with_condition. cbn. rewrite <-E. apply find_set_condition.
Qed.

Lemma identity_condition_type ns alias g l :
  c_Type (identity_condition ns alias g l) = ConditionModelIdentityUnique.
Proof. unfold identity_condition. by destruct (_ =? 0). Qed.

Lemma identity_events_exact alias prev c l :
  emits (identity_events alias prev (Some c) l) conflict_reason
    ↔ c_Status c = "False"
      ∧ ∀ p, prev = Some p → c_Status p ≠ "False" ∨ c_Message p ≠ c_Message c.
Proof.
  unfold identity_events, emits. split.
  - intros (e & He & Hr). apply elem_of_app in He as [He|He].
    + destruct (_ && _) eqn:E; [|by apply elem_of_nil in He].
      apply andb_true_iff in E as [E1 E2]. destruct_bools. split; [done|]. intros p ->.
      apply orb_true_iff in E2 as [E2|E2]; destruct_bools; [left|by right]. congruence.
    + destruct (_ && _); [|by apply elem_of_nil in He].
      apply list_elem_of_singleton in He as ->. done.
  - intros [Hs Hp]. rewrite Hs, (bool_decide_eq_true_2 ("False" = "False")) by done.
    assert (match prev with
      | Some p => (c_Status p != "False") || (c_Message p != c_Message c)
      | None => true end = true) as ->.
    { destruct prev as [p|]; [|done]. apply orb_true_iff.
      destruct (Hp p eq_refl); [left|right]; by rewrite bool_decide_eq_false_2. }
    cbn. eexists. split; [by left|done].
Qed.

Lemma identity_resolved_exact alias prev c l :
  emits (identity_events alias prev (Some c) l) resolved_reason
    ↔ c_Status c = "True" ∧ has_status "False" prev.
Proof.
  unfold identity_events, emits, has_status. split.
  - intros (e & He & Hr). apply elem_of_app in He as [He|He].
    + destruct (_ && _); [|by apply elem_of_nil in He].
      apply list_elem_of_singleton in He as ->. done.
    + destruct (_ && _) eqn:E; [|by apply elem_of_nil in He].
      apply andb_true_iff in E as [E1 E2]. destruct_bools. split; [done|].
      destruct prev as [p|]; [|done]. destruct_bools. eauto.
  - intros [Hs (p & -> & Hp)]. rewrite Hs, Hp. cbn.
    eexists. split; [by left|done].
Qed.

(** The condition on a model's identity says whether another model of the
    namespace has its name, and is unknown only when that cannot be read; a conflict
    is announced exactly when the condition becomes False or its message changes, and
    the end of one exactly when it goes from False to True. *)
Theorem identity_conflicts_exact k model w :
  Recorder r = true → ms_ResolvedModelAlias (m_Status model) ≠ "" →
  let '(model', evs) := (checkModelIdentityConflict r k model w).1 in
  let shared := name_shared (state w) k (ms_ResolvedModelAlias (m_Status model)) in
  ∃ c, identity_of model' = Some c
    ∧ (c_Status c = "False" → shared) ∧ (c_Status c = "True" → ¬ shared)
    ∧ (¬ unreliable → c_Status c = "False" ∨ c_Status c = "True")
    ∧ (emits evs conflict_reason ↔ c_Status c = "False"
         ∧ ∀ p, identity_of model = Some p →
             c_Status p ≠ "False" ∨ c_Message p ≠ c_Message c)
    ∧ (emits evs resolved_reason ↔
         c_Status c = "True" ∧ has_status "False" (identity_of model)).
Proof.
  intros Hrec Ha. unfold checkModelIdentityConflict. cbv zeta.
  rewrite bool_decide_eq_false_2 by done.
  step_reads (aliasConflicts_reads k model) as x E H. clear E.
  destruct x as [l|e]; cbn [fst mret prog_ret]; rewrite ?Hrec.
  - specialize (H Ha). destruct H as (Hl & _).
    set (c := identity_condition k.1 _ _ l).
    assert (c_Type c = ConditionModelIdentityUnique) as Ht by apply identity_condition_type.
    fold (identity_of model) (identity_of (with_condition c model)).
    rewrite (identity_of_with c model Ht). exists c. split; [done|].
    assert ((c_Status c = "False" ∧ l ≠ []) ∨ (c_Status c = "True" ∧ l = [])) as Hc.
    { subst c. unfold identity_condition. destruct l; [by right|by left]. }
    split_and!.
    + intros Hf. destruct Hc as [[_ Hne]|[Hc _]]; [|congruence].
      destruct l as [|n l]; [done|]. destruct (proj1 (Hl n) ltac:(left)) as (? & m & ? & ?).
      by exists n, m.
    + intros Htr (n & m & Hn & Hm & Hal). destruct Hc as [[Hc _]|[_ ->]]; [congruence|].
      apply (elem_of_nil n), Hl. eauto.
    + intros _. destruct Hc as [[? _]|[? _]]; auto.
    + apply identity_events_exact.
    + apply identity_resolved_exact.
  - eexists. rewrite identity_of_with by done. split; [done|]. cbn.
    assert (∀ reason, ¬ emits [] reason) as Hno by (by intros ? (? & ?%elem_of_nil & _)).
    split_and!; [done|done|by intros ?| |].
    + split; [by intros ?%Hno|by intros [? _]].
    + split; [by intros ?%Hno|by intros [? _]].
Qed.
End identity.

(** ** What a reconcile leaves alone, and deletions *)

Section confined.
Context {api : ApiMachinery} {srv : ApiServer} {lawful : LawfulApiServer} {uni : Unicode}.
Context (r : ModelReconciler).

(** Some of the objects that pass a test are gone, the others are the same. *)
Definition thinned {A} (P : key → A → bool) (before after : gmap key A) : Prop :=
  ∀ k, after !! k = before !! k
       ∨ (after !! k = None ∧ ∃ x, before !! k = Some x ∧ P k x = true).

Lemma thinned_refl {A} (P : key → A → bool) m : thinned P m m.
Proof. by left. Qed.

(** The effect of a reconcile of the model at a key. *)
Definition model_effect (k : key) (c c' : cluster) : Prop :=
  c' = set_models (λ _, models c')
         (set_policies (λ _, policies c') (set_auth_policies (λ _, auth_policies c') c))
  ∧ (∀ k', k' ≠ k → models c' !! k' = models c !! k')
  ∧ match models c !! k with
    | None => c' = c
    | Some m =>
        (if m_deleting m then
           thinned (deletable_auths k) (auth_policies c) (auth_policies c')
           ∧ thinned (deletable_trlps k) (policies c) (policies c')
         else auth_policies c' = auth_policies c ∧ policies c' = policies c)
        ∧ match models c' !! k with
          | None => m_deleting m = true
          | Some m' => m_Spec m' = m_Spec m ∧ m_Generation m' = m_Generation m
                       ∧ m_deleting m' = m_deleting m
          end
    end.

Lemma model_effect_refl k c : model_effect k c c.
Proof.
  split; [by destruct c|]. split; [done|]. destruct (models c !! k) as [m|]; [|done].
  split; [|done]. destruct (m_deleting m); split; done || apply thinned_refl.
Qed.

Lemma model_effect_at k c m m' :
  models c !! k = Some m → m_Spec m' = m_Spec m → m_Generation m' = m_Generation m →
  m_deleting m' = m_deleting m → model_effect k c (model_at k m' c).
Proof.
  intros Hm Hs Hg Hd. split; [by destruct c|]. split.
  { intros k' Hne. cbn. by rewrite lookup_insert_ne. }
  rewrite Hm. cbn. rewrite lookup_insert_eq. split; [|done].
  destruct (m_deleting m); split; done || apply thinned_refl.
Qed.

(** A reconcile writes the finalizers and the status of its own model, and
    nothing else unless the model is being deleted; then it deletes at most the
    generated policies of that model that are not opted out of management. *)
Theorem model_Reconcile_confined k w :
  model_effect k (state w) (state (Reconcile r k w).2).
Proof.
  destruct (Reconcile_cases r k w) as [->|(m & Hm & H)]; cbv zeta in *;
    [apply model_effect_refl|].
  destruct H as [(Hd & c1 & c2 & H1 & H2 & H3)|[(Hs & ->)|(Hd & Hs & H)]].
  - assert (c2 = set_policies (λ _, policies c2) (set_auth_policies (λ _, auth_policies c2)
      (state w)) ∧ models c2 = models (state w)) as [Hc2 Hmc2].
    { destruct H2 as [E2 _], H1 as [E1 _]. split; [|by rewrite E2, E1].
      rewrite E2 at 1. rewrite E1 at 1. rewrite E2. done. }
    assert (thinned (deletable_auths k) (auth_policies (state w)) (auth_policies c2)
      ∧ thinned (deletable_trlps k) (policies (state w)) (policies c2)) as [Ha Ht].
    { destruct H1 as [E1 Ha], H2 as [E2 Ht]. split.
      - intros k'. rewrite E2. apply Ha.
      - intros k'. rewrite E1 in Ht. apply Ht. }
    destruct H3 as [->|[-> _]].
    + split; [rewrite Hc2 at 1; destruct c2; cbn in *; by rewrite Hmc2|].
      split; [by rewrite Hmc2|]. rewrite Hmc2, Hm, Hd. done.
    + unfold drop_finalizer. set (fs := remove_finalizer _ _).
      split; [rewrite Hc2 at 1; unfold set_models; cbn; by rewrite Hmc2|]. split.
      { intros k' Hne. cbn. rewrite Hmc2. destruct (_ =? 0);
          [by rewrite lookup_delete_ne|by rewrite lookup_insert_ne]. }
      rewrite Hm, Hd. split; [done|]. cbn.
      destruct (_ =? 0); [by rewrite lookup_delete_eq|by rewrite lookup_insert_eq].
  - by apply model_effect_at with (m := m).
  - destruct (with_finalizer_same m) as (F1 & F2 & F3 & F4).
    destruct H as [->|(st & _ & ->)]; by apply model_effect_at with (m := m).
Qed.

(** The finalizer of a model that is being deleted goes only when none of its
    generated policies is left that is not opted out of management, whatever calls
    fail; and it goes at once when none fails. *)
Theorem model_deletion_cleans k w m :
  models (state w) !! k = Some m → m_deleting m = true →
  maasModelFinalizer ∈ m_Finalizers m →
  let c' := state (Reconcile r k w).2 in
  (models c' !! k ≠ Some m → cleaned k c')
  ∧ (¬ unreliable → (Reconcile r k w).1 = Ok [] ∧ cleaned k c'
       ∧ ∀ m', models c' !! k = Some m' → maasModelFinalizer ∉ m_Finalizers m').
Proof.
  intros Hm Hd Hf. cbv zeta. unfold Reconcile.
  step_reads (get_in_reads models k) as [m'|[| |msg]] E H; [|congruence|done|].
  2: { unfold mret, prog_ret. cbn [fst snd]. rewrite E. by split. }
  assert (m' = m) as -> by congruence. rewrite <-E in Hm. clear E H. rewrite Hd, run_try.
  destruct (model_deletion_run r k m w0 Hm Hd) as (c1 & c2 & H1 & H2 & H3 & H4 & H5).
  assert (∀ c, cleaned k c → cleaned k (drop_finalizer k m c)) as Hdrop by done.
  pose proof (removed_models k _ _ _ H1 H2) as Hmc2.
  assert (models c2 !! k = Some m) as Hm2 by (by rewrite Hmc2).
  destruct (handleDeletion r k m w0) as [x w1]; cbn [fst snd] in *.
  assert (models (state w1) !! k ≠ Some m → cleaned k (state w1)) as Hsafe.
  { intros Hne. destruct H3 as [E|[E Hc]]; rewrite E in *; [done|by apply Hdrop]. }
  destruct x as [[]|e]; cbn [fst snd mret prog_ret].
  - split; [done|]. intros _. destruct (H4 eq_refl) as [Hnil|[Hn|E]].
    + rewrite Hnil in Hf. by apply elem_of_nil in Hf.
    + done.
    + assert (models (state w1) !! k ≠ Some m
        ∧ ∀ m', models (state w1) !! k = Some m' → maasModelFinalizer ∉ m_Finalizers m') as [Hne Hnf].
      { rewrite E. unfold drop_finalizer. cbn. destruct (_ =? 0).
        - by rewrite lookup_delete_eq.
        - rewrite lookup_insert_eq. split.
          + intros [= Hx]. apply (f_equal m_Finalizers) in Hx. cbn in Hx. rewrite <-Hx in Hf.
            by apply elem_of_remove_finalizer in Hf as [? _].
          + intros m' [= <-]. cbn. by intros [? _]%elem_of_remove_finalizer. }
      split_and!; [done|by apply Hsafe|done].
  - split; [done|]. intros Hrel. by specialize (H5 Hrel).
Qed.
End confined.

(** ** Watches *)

Section watches.
Context {api : ApiMachinery} {srv : ApiServer} {lawful : LawfulApiServer} {uni : Unicode}.
Context (r : ModelReconciler).

Lemma list_models_reads test :
  reads (list_models test) (λ c x,
    match x with
    | Some l => ∀ k, k ∈ l ↔ ∃ m, models c !! k = Some m ∧ test k m = true
    | None => unreliable
    end).
Proof.
  unfold list_models. eapply reads_then; [apply list_in_reads|].
  intros [l|[| |msg]]; apply reads_ret; intros c Hl; try done.
  intros k. rewrite list_elem_of_fmap. split.
  - intros ([k' m] & -> & H%(listed_elem _ _ _ _ _ Hl)). eauto.
  - intros (m & H). exists (k, m). split; [done|]. by apply (listed_elem _ _ _ _ _ Hl).
Qed.

Lemma is_sibling_true changed new old k m :
  is_sibling changed new old k m = true ↔
  k.1 = changed.1 ∧ k.2 ≠ changed.2
  ∧ ms_ResolvedModelAlias (m_Status m) ≠ ""
  ∧ (ms_ResolvedModelAlias (m_Status m) = new ∨ ms_ResolvedModelAlias (m_Status m) = old).
Proof.
  unfold is_sibling. cbv zeta.
  rewrite !andb_true_iff, !orb_true_iff, !andb_true_iff, !negb_true_iff,
    !bool_decide_eq_true, !bool_decide_eq_false. naive_solver congruence.
Qed.

(** The models of a namespace with the name of a model, other than the model. *)
Definition sharers (c : cluster) (k : key) (alias n : string) : Prop :=
  n ≠ k.2 ∧ ∃ m, models c !! (k.1, n) = Some m ∧ ms_ResolvedModelAlias (m_Status m) = alias.

(** When a model changes its name, every model whose conflicts this changes is
    reconciled again, if the models can be listed; no other is. *)
Theorem renaming_wakes_siblings k old new w :
  ¬ unreliable → models (state w) !! k = Some new →
  let before := set_models <[k := old]> (state w) in
  let woken := (on_model_updated k old new w).1 in
  ∀ s m, models (state w) !! s = Some m → s ≠ k →
    let alias := ms_ResolvedModelAlias (m_Status m) in
    s ∈ woken ↔ alias ≠ "" ∧ ∃ n, ¬ (sharers before s alias n ↔ sharers (state w) s alias n).
Proof.
  intros Hrel Hnew. cbv zeta. intros s m Hs Hne. unfold on_model_updated.
  set (a := ms_ResolvedModelAlias (m_Status old)).
  set (b := ms_ResolvedModelAlias (m_Status new)).
  set (x := ms_ResolvedModelAlias (m_Status m)).
  assert ((∃ n, ¬ (sharers (set_models <[k:=old]> (state w)) s x n ↔ sharers (state w) s x n))
    ↔ s.1 = k.1 ∧ s.2 ≠ k.2 ∧ ¬ (a = x ↔ b = x)) as ->.
  { unfold sharers. cbn. split.
    - intros [n Hn]. destruct (decide ((s.1, n) = k)) as [<-|Hk].
      + rewrite lookup_insert_eq, Hnew in Hn. cbn. split; [done|].
        destruct (decide (n = s.2)) as [->|Hns]; [exfalso; apply Hn; naive_solver|].
        split; [done|]. intros Hab. apply Hn.
        split; intros (? & m0 & [= <-] & ?); (split; [done|]; eexists; split; [done|]);
          by apply Hab.
      + exfalso. apply Hn. by rewrite lookup_insert_ne.
    - intros (E1 & E2 & Hab). exists k.2. rewrite E1, <-surjective_pairing.
      rewrite lookup_insert_eq, Hnew. intros Hiff. apply Hab. split; intros Hx.
      + destruct (proj1 Hiff) as (_ & m0 & [= <-] & ?); [|done]. split; [done|]. eauto.
      + destruct (proj2 Hiff) as (_ & m0 & [= <-] & ?); [|done]. split; [done|]. eauto. }
  assert (s ∈ (enqueueSiblingsWithAlias k new a w).1 ↔
    s.1 = k.1 ∧ s.2 ≠ k.2 ∧ x ≠ "" ∧ (x = b ∨ x = a)) as Hen.
  { unfold enqueueSiblingsWithAlias. fold b. destruct (_ && _) eqn:Eab.
    - destruct_bools. split; [by intros ?%elem_of_nil|]. intros (_ & _ & ? & [|]); congruence.
    - step_reads (list_models_reads (is_sibling k b a)) as o E Ho. clear E.
      destruct o as [l|]; [|done]. cbn. rewrite Ho. setoid_rewrite is_sibling_true.
      split; [intros (m0 & ? & ?); assert (m0 = m) as -> by congruence; done|by eauto]. }
  case_bool_decide as Eab; cbn [negb].
  - split; [by intros ?%elem_of_nil|]. intros (_ & _ & _ & []). by rewrite Eab.
  - rewrite Hen. split.
    + intros (? & ? & ? & Hx). split_and!; [done..|]. intros Hiff. apply Eab.
      destruct Hx as [Hx|Hx]; [symmetry; transitivity x|transitivity x]; try done.
      * symmetry. by apply Hiff.
      * symmetry. by apply Hiff.
    + intros (? & ? & ? & Hab). split_and!; [done..|].
      destruct (decide (x = b)) as [|Hb]; [by left|]. right.
      destruct (decide (x = a)) as [|Ha]; [done|]. exfalso. apply Hab. split; congruence.
Qed.
End watches.

(** *** LLMInferenceServices *)

Section predicates.
Context {api : ApiMachinery}.

(** An object reports the conditions of a service. *)
Definition reports (v : value) (c : string * string) : Prop :=
  ∃ m, v = VMap m ∧ get_string "type" m = Some c.1 ∧ get_string "status" m = Some c.2.
Definition represents (o : obj) (svc : LLMInferenceService) : Prop :=
  Forall2 reports (default [] (found (NestedSlice o ["status"; "conditions"])))
    (ls_Conditions svc).

Lemma represents_ready o svc :
  represents o svc → unstructuredLLMIsvcReadyStatus o = llmisvcReadyStatus svc.
Proof.
  unfold represents, unstructuredLLMIsvcReadyStatus, llmisvcReadyStatus.
  induction 1 as [|v c vs cs (m & -> & Ht & Hs) _ IH]; [done|]. cbn.
  rewrite Ht, Hs, IH. done.
Qed.

(** The watch that is registered when KServe appears after the controller passes
    the same updates of services as the one that is registered at startup. *)
Theorem dynamic_watch_equivalent o o' svc svc' :
  represents o svc → represents o' svc' →
  dynamic_update (ls_Generation svc) (ls_Generation svc') o o' = static_update svc svc'.
Proof.
  intros H H'. unfold dynamic_update, static_update.
  rewrite (represents_ready _ _ H), (represents_ready _ _ H').
  by rewrite negb_andb.
Qed.
End predicates.

(** What happens to the watch as CRDs come and go. *)
Definition watch_after (crdName : string) (seen : list (string * bool)) : crd_watch :=
  foldl (on_crd crdName) (mkWatch false 0) seen.

(** The watch is registered when the CRD is first seen, or never: a failure is not
    repaired by what is seen later. *)
Theorem watch_registered_once crdName seen :
  registered (watch_after crdName seen)
  = match List.filter (λ e : string * bool, e.1 == crdName) seen with
    | (_, true) :: _ => 1
    | _ => 0
    end.
Proof.
  unfold watch_after.
  assert (∀ st, once_done st = true → foldl (on_crd crdName) st seen = st) as Hdone.
  { induction seen as [|[crd ok] seen IH]; intros st Hst; [done|]. cbn. rewrite Hst.
    destruct (crd != crdName); by apply IH. }
  induction seen as [|[crd ok] seen IH]; [done|]. cbn [foldl List.filter on_crd once_done fst].
  destruct (crd == crdName) eqn:E; cbn [negb].
  - assert (∀ st, once_done st = true → foldl (on_crd crdName) st seen = st) as Hd.
    { intros st Hst. specialize (Hdone st Hst). cbn in Hdone.
      rewrite E in Hdone. cbn in Hdone. by rewrite Hst in Hdone. }
    rewrite Hd by done. by destruct ok.
  - apply IH. intros st Hst. specialize (Hdone st Hst). cbn in Hdone.
    by rewrite E in Hdone.
Qed.

(** A service never wakes a model of the kind's older name. *)
Theorem older_kind_never_woken `{ApiMachinery, LawfulApiServer} svc k m w :
  models (state w) !! k = Some m → m_Kind (m_Spec m) = "llmisvc" →
  k ∉ (mapLLMISvcToMaaSModelRefs svc w).1.
Proof.
  intros Hm Hk. unfold mapLLMISvcToMaaSModelRefs.
  step_reads (list_in_reads models (λ _ m, contains (modelRefNameIndexer m) svc.2)) as x E Hx.
  clear E. destruct x as [l|e]; cbn; [|apply not_elem_of_nil].
  intros ([k' m'] & -> & [Hin Ht]%filter_bool_elem_of)%list_elem_of_fmap.
  apply (listed_elem _ _ _ _ _ Hx) in Hin as [Hm' _]. cbn in *.
  assert (m' = m) as -> by congruence. rewrite Hk in Ht. done.
Qed.

(** ** Evaluated *)

Import DocApi ModelCluster.

Lemma reliable_holds : ¬ @unreliable DocCluster.reliable.
Proof. intros [n [x H]]. discriminate H. Qed.

(** What is in a map of one element. *)
Lemma singleton_elem {A} (k k' : key) (x y : A) :
  (list_to_map [(k, x)] : gmap key A) !! k' = Some y → k' = k ∧ y = x.
Proof.
  intros H%elem_of_list_to_map_2%list_elem_of_singleton. by injection H as -> ->.
Qed.

Definition served_state : io cluster := served_cluster llm.
Definition red_gateway : GatewayRef := mkGateway "maas-gateway" "ingress".

Lemma served_governed m : governed deployment (state (served_cluster m)) granite.
Proof.
  split.
  - exists (DocCluster.tenant, "alpha"), subscribed_model. vm_compute. repeat split.
  - exists (auth_key admitting), admitting. split; [reflexivity|].
    split; [reflexivity|]. split; [left|reflexivity].
Qed.

Lemma served_tenant m : m_TenantRef (m_Spec m) = "" →
  tenant_of deployment (state (served_cluster m)) "llm" (m_TenantRef (m_Spec m)) llm_route
    "red" red_gateway.
Proof.
  intros ->. unfold tenant_of, route_match, claims. cbn. split.
  - split; [left|]. exists default_tenant. split; [reflexivity|]. split; [done|by split].
  - intros t' ref' [_ (a & [E _]%singleton_elem & _)]. by injection E.
Qed.

Lemma served_ready_to_serve : ready_to_serve deployment (state served_state) granite llm.
Proof.
  split; [exists (service "True"); by split|]. split.
  - exists "granite-route", llm_route. split; reflexivity.
  - intros rn route [[_ ->]%singleton_elem _]. split; [done|].
    exists "red", red_gateway. split; [by apply served_tenant|]. split; [left|done].
Qed.

Lemma ready_means_served_witness :
  ∃ m', model_in (run DocCluster.reliable served_state).2 = Some m'
    ∧ ms_Phase (m_Status m') = "Ready"
    ∧ served deployment (state served_state) granite llm (m_Status m').
Proof.
  destruct (some_check (model_in (run DocCluster.reliable served_state).2)
    (λ m', ms_Phase (m_Status m') = "Ready")) as (m' & Hm' & HP); [by_compute|].
  exists m'. split; [exact Hm'|]. split; [exact HP|].
  destruct (@ready_means_served doc_api DocCluster.reliable DocCluster.reliable_lawful
    ascii_only deployment granite served_state m' Hm' HP) as [(m & Hm & E)|(_ & m & Hm & H)].
  - exfalso. vm_compute in Hm. injection Hm as <-. rewrite <-E in HP. discriminate HP.
  - vm_compute in Hm. injection Hm as <-. exact H.
Defined.

Lemma governed_model_becomes_ready_witness :
  ∃ m', model_in (run DocCluster.reliable served_state).2 = Some m'
    ∧ ms_Phase (m_Status m') = "Ready".
Proof.
  destruct (@governed_model_becomes_ready doc_api DocCluster.reliable
    DocCluster.reliable_lawful ascii_only deployment granite served_state llm)
    as (m' & Hm' & HP & _).
  - exact reliable_holds.
  - reflexivity.
  - reflexivity.
  - apply served_governed.
  - exact served_ready_to_serve.
  - exists m'. split; [exact Hm'|exact HP].
Defined.

(** A model whose name is known, and whose service and route are gone. *)
Definition forgotten : MaaSModelRef :=
  model_ref "LLMInferenceService" false (named "publishers/llm/models/granite" []).
Definition forgotten_state : io cluster :=
  IO 0 (cluster_with [(granite, forgotten)] [] [] [] [] [] [] []).

Lemma alias_never_cleared_witness :
  ∃ m', model_in (run DocCluster.reliable forgotten_state).2 = Some m'
    ∧ ms_Phase (m_Status m') = "Pending"
    ∧ ms_Conditions (m_Status m') ≠ []
    ∧ ms_ResolvedModelAlias (m_Status m') ≠ "".
Proof.
  destruct (some_check (model_in (run DocCluster.reliable forgotten_state).2)
    (λ m', ms_Phase (m_Status m') = "Pending" ∧ ms_Conditions (m_Status m') ≠ []))
    as (m' & Hm' & HP & Hc); [by_compute|].
  exists m'. split; [exact Hm'|]. split; [exact HP|]. split; [exact Hc|].
  apply (@alias_never_cleared doc_api DocCluster.reliable DocCluster.reliable_lawful
    ascii_only deployment granite forgotten_state forgotten m').
  - reflexivity.
  - discriminate.
  - exact Hm'.
Defined.

Lemma model_status_typed_witness :
  ∃ m', model_in (run (DocCluster.flaky 4) served_state).2 = Some m'
    ∧ m_Status m' ≠ zero_model_status
    ∧ @typed_status (DocCluster.flaky 4) (m_Status m').
Proof.
  destruct (some_check (model_in (run (DocCluster.flaky 4) served_state).2)
    (λ m', m_Status m' ≠ zero_model_status)) as (m' & Hm' & Hne); [by_compute|].
  exists m'. split; [exact Hm'|]. split; [exact Hne|].
  apply (@model_status_typed doc_api (DocCluster.flaky 4) (DocCluster.flaky_lawful 4)
    ascii_only deployment granite served_state llm m').
  - reflexivity.
  - split; [left|]. intros t c H. discriminate H.
  - exact Hm'.
Defined.

Lemma endpoint_on_route_host_witness :
  ∃ m' rn route, model_in (run DocCluster.reliable served_state).2 = Some m'
    ∧ serves (state served_state) granite llm rn route
    ∧ (rt_Hostnames route = []
       ∨ (∃ svc, llmisvcs (state served_state) !! granite = Some svc
            ∧ on_host svc (rt_Hostnames route) (ms_Endpoint (m_Status m')))
       ∨ (∃ host, host ∈ rt_Hostnames route
            ∧ ms_Endpoint (m_Status m') = "https://" +:+ host +:+ "/granite")).
Proof.
  destruct (some_check (model_in (run DocCluster.reliable served_state).2)
    (λ m', ms_Phase (m_Status m') = "Ready" ∧ m_Status m' ≠ m_Status llm))
    as (m' & Hm' & HP & Hne); [by_compute|].
  destruct (@endpoint_on_route_host doc_api DocCluster.reliable DocCluster.reliable_lawful
    ascii_only deployment granite served_state llm m') as (rn & route & Hs & H).
  - reflexivity.
  - reflexivity.
  - reflexivity.
  - exact Hm'.
  - exact HP.
  - exact Hne.
  - exists m', rn, route. split; [exact Hm'|]. split; [exact Hs|exact H].
Defined.

Lemma tenant_resolution_exact_witness :
  (@resolveGatewayRefFromHTTPRoute DocCluster.reliable deployment zero_model_status
     ("llm", "granite-route") llm_route served_state).1
  = (set_tenant "red" zero_model_status, Ok red_gateway).
Proof.
  destruct (@tenant_resolution_exact DocCluster.reliable DocCluster.reliable_lawful
    deployment zero_model_status ("llm", "granite-route") llm_route served_state
    reliable_holds) as [H _].
  apply H. exact (served_tenant llm eq_refl).
Defined.

(** Two models of a name, one of them having been alone before. *)
Definition unique_before : list Condition :=
  [mkCondition ConditionModelIdentityUnique "True" "UniqueIdentity" "" 3].
Definition twin (name : string) (conditions : list Condition) : MaaSModelRef :=
  model_ref "ExternalModel" false (named name conditions).
Definition twins_state : io cluster :=
  IO 0 (cluster_with [(granite, twin "granite" unique_before); (("llm", "other"), twin "granite" [])]
    [] [] [] [] [] [] []).

Lemma identity_conflicts_exact_witness :
  ∃ c, identity_of (srv := DocCluster.reliable)
      (@checkModelIdentityConflict DocCluster.reliable ascii_only deployment granite
         (twin "granite" unique_before) twins_state).1.1 = Some c
    ∧ c_Status c = "False"
    ∧ emits (@checkModelIdentityConflict DocCluster.reliable ascii_only deployment granite
               (twin "granite" unique_before) twins_state).1.2 conflict_reason.
Proof.
  destruct (some_check (identity_of (srv := DocCluster.reliable)
      (@checkModelIdentityConflict DocCluster.reliable ascii_only deployment granite
         (twin "granite" unique_before) twins_state).1.1)
    (λ c, c_Status c = "False")) as (c & Hc & Hs); [by_compute|].
  pose proof (@identity_conflicts_exact DocCluster.reliable DocCluster.reliable_lawful
    ascii_only deployment granite (twin "granite" unique_before) twins_state eq_refl
    ltac:(discriminate)) as H.
  destruct (checkModelIdentityConflict _ _ _ _) as [[m' evs] w']. cbn [fst snd] in *.
  destruct H as (c' & Hc' & _ & _ & _ & Hev & _).
  assert (c' = c) as -> by congruence. exists c. split; [exact Hc|]. split; [exact Hs|].
  apply Hev. split; [exact Hs|]. intros p Hp. left.
  vm_compute in Hp. injection Hp as <-. discriminate.
Defined.

Lemma model_Reconcile_confined_witness :
  auth_policies (state (run DocCluster.reliable served_state).2)
    = auth_policies (state served_state)
  ∧ (run DocCluster.reliable served_state).1 = Ok [].
Proof.
  split; [|by_compute].
  destruct (@model_Reconcile_confined doc_api DocCluster.reliable DocCluster.reliable_lawful
    ascii_only deployment granite served_state) as (_ & _ & H).
  assert (models (state served_state) !! granite = Some llm) as E by by_compute.
  rewrite E in H. destruct H as [[H _] _]. exact H.
Defined.

(** A model that is being deleted, with a policy generated for it. *)
Definition leaving_model : MaaSModelRef := model_ref "LLMInferenceService" true zero_model_status.
Definition leaving_state : io cluster :=
  IO 0 (cluster_with [(granite, leaving_model)] [] [] [] [] [] []
    [(("llm", "maas-auth-granite"), AuthCluster.legacy_policy granite "readers")]).

Lemma model_deletion_cleans_witness :
  model_in (run DocCluster.reliable leaving_state).2 = None
  ∧ auth_policies (state leaving_state) ≠ ∅
  ∧ cleaned granite (state (run DocCluster.reliable leaving_state).2).
Proof.
  split; [by_compute|]. split; [by apply (bool_decide_unpack _); vm_compute|].
  destruct (@model_deletion_cleans doc_api DocCluster.reliable DocCluster.reliable_lawful
    ascii_only deployment granite leaving_state leaving_model) as [_ H].
  - reflexivity.
  - reflexivity.
  - left.
  - exact (proj1 (proj2 (H reliable_holds))).
Defined.

(** The model takes the name of the other one. *)
Lemma renaming_wakes_siblings_witness :
  ("llm", "other") ∈ (@on_model_updated DocCluster.reliable granite
    (twin "" []) (twin "granite" unique_before) twins_state).1.
Proof.
  apply (@renaming_wakes_siblings DocCluster.reliable DocCluster.reliable_lawful granite
    (twin "" []) (twin "granite" unique_before) twins_state reliable_holds eq_refl
    ("llm", "other") (twin "granite" []) eq_refl).
  - discriminate.
  - split; [discriminate|]. exists "granite". intros [_ H].
    destruct H as (_ & m & Hm & Ha).
    + split; [discriminate|]. by exists (twin "granite" unique_before).
    + vm_compute in Hm. injection Hm as <-. discriminate Ha.
Defined.

Definition reported_service (ready : string) : obj :=
  [("status", VMap [("conditions", VSlice
      [VMap [("type", VString "PresetsCombined"); ("status", VString "True")];
       VMap [("type", VString "Ready"); ("status", VString ready)]])])].

Lemma dynamic_watch_equivalent_witness :
  dynamic_update 1 1 (reported_service "False") (reported_service "True") = true
  ∧ static_update (service "False") (service "True") = true.
Proof.
  assert (static_update (service "False") (service "True") = true) as H by reflexivity.
  split; [|exact H]. rewrite <-H.
  apply (dynamic_watch_equivalent (reported_service "False") (reported_service "True")
    (service "False") (service "True"));
    repeat constructor; eexists; (split; [reflexivity|]); split; reflexivity.
Defined.

(** *** What a status may still say *)

(** The route leaves the Gateway of its tenant: the model fails, and keeps its
    endpoint. *)
Definition moved_route : HTTPRoute :=
  router [mkParent None None (Some "ingress") "other-gateway"] ["Models.example.com"].
Definition was_ready : MaaSModelRef :=
  model_ref "LLMInferenceService" false
    (mkModelStatus "Ready" "https://models.example.com/" "granite-route" "llm" "maas-gateway"
       "ingress" ["Models.example.com"] "red" "publishers/llm/models/granite" []).
Definition moved_state : io cluster :=
  IO 0 (cluster_with [(granite, was_ready)] [(("llm", "granite-route"), moved_route)]
    [(("ai-tenants", "red"), default_tenant)] [subscribed_model] [admitting]
    [(granite, service "True")] [] []).

Example failed_keeps_endpoint :
  (λ m, (ms_Phase (m_Status m), ms_Endpoint (m_Status m)))
    <$> model_in (run DocCluster.reliable moved_state).2
  = Some ("Failed", "https://models.example.com/").
Proof. by_compute. Qed.

(** An external model whose Gateway no longer accepts its route stays Ready. *)
Definition rejected_route : HTTPRoute :=
  mkRoute ∅ [DocCluster.gateway] ["Models.example.com"]
    [mkParentStatus DocCluster.gateway [mkCondition "Accepted" "False" "NoMatchingParent" "" 1]].
Definition rejected_state (gatewayName : string) : io cluster :=
  IO 0 (cluster_with
    [(granite, model_ref "ExternalModel" false
        (mkModelStatus "Pending" "" "maas-granite" "llm" gatewayName "ingress"
           ["Models.example.com"] "red" "granite" []))]
    [(("llm", "maas-granite"), rejected_route)]
    [(("ai-tenants", "red"), default_tenant)] [subscribed_model] [admitting] []
    [(granite, "openai")] []).

Example rejected_stays_ready :
  (λ m, ms_Phase (m_Status m)) <$> model_in (run DocCluster.reliable (rejected_state "maas-gateway")).2
    = Some "Ready"
  ∧ (λ m, ms_Phase (m_Status m)) <$> model_in (run DocCluster.reliable (rejected_state "")).2
    = Some "Unhealthy".
Proof. split; by_compute. Qed.

(** A subscription of one tenant that has failed, and a policy of another, make a
    model Ready. *)
Definition failed_subscription : MaaSSubscription :=
  set_Status (DocCluster.subscription "a" "other" [DocCluster.limited "granite" "llm" DocCluster.hour])
    (mkStatus "Failed" [] [] []).
Definition paired_state : io cluster :=
  IO 0 (cluster_with [(granite, llm)] [(("llm", "granite-route"), llm_route)]
    [(("ai-tenants", "red"), default_tenant)] [failed_subscription] [admitting]
    [(granite, service "True")] [] []).

Example pairs_across_tenants :
  (λ m, ms_Phase (m_Status m)) <$> model_in (run DocCluster.reliable paired_state).2
  = Some "Ready".
Proof. by_compute. Qed.
